(* ===== verification/_CoqProject ===== *)
-Q . S2P
Prelude.v
Layout.v
Mdata.v
Cstr.v
Paths.v
Url.v
Nfi.v
Client.v
MemFs.v
FileTable.v
Blocks.v
Rw.v
BlocksSpec.v
Store.v
Coverage.v
Affected.v
Reading.v
Dir.v
Servers.v
Namespace.v
Conf.v
Init.v
Bytes.v
Transfer.v
WriteSpec.v
ReadSpec.v
EndToEnd.v
Workers.v
Fairness.v
OnDemand.v
Header.v
FileSystem.v
PosixFiles.v
Server.v
Remote.v
Local.v
Rpc.v
RpcData.v
PosixMem.v
RpcCalls.v
RpcSpec.v
Unistd.v
Proxies.v
Bypass.v
BypassSpec.v
Darray.v
Dtable.v
Proxy.v
ProxySpec.v
Setup.v
SetupSpec.v
Migrate.v
MigrateSpec.v
Rebuild.v
RebuildSpec.v
ListingSpec.v
Expand.v
ExpandSpec.v
TraverseSpec.v
Shrink.v
ShrinkLayout.v
MovesSpec.v
ShrinkSpec.v
Active.v
ActiveSpec.v
ReaderSpec.v
Fuse.v
FuseSpec.v
