(* ===== verification/Prelude.v ===== *)
(** * Expand (XPN): a verification development

    Expand is a parallel file system: a client library stripes each file over
    the servers of a partition, block by block, with a number of replicas, and
    keeps the metadata of the file in a header that some of the servers hold.
    Programs reach it by calling the library, or by being loaded with a library
    that intercepts their calls.  This development models the client, the servers
    of files it talks to, the interception, the configuration and the worker
    threads, and proves that the bytes of a file are where they have to be.

    ** Files

    Arithmetic and data
    - [Prelude]: C integers (wrapped to their width), lists indexed by [Z],
      shared tactics and hints.
    - [Layout]: the round-robin layout of a file that was never expanded
      (XpnCalculateBlock and its inverse, xpn_policy_rw.c).
    - [Mdata]: [struct xpn_metadata], the layout of a file that went through
      several server configurations (XpnCalculateBlockMdata), and the update of
      the metadata by an expansion (copy of utils/xpn_expand.c).
    - [Cstr], [Paths], [Url]: C strings; path_misc.c, xpn_cwd.c; urlstr.c.

    The client (src/src/xpn_client)
    - [Nfi]: the operations a server offers, as the class [NfiOps] (struct
      nfi_ops of nfi.h), and the requests, launch and wait of nfi_ops.c and
      nfi_worker.c over it.
    - [Client]: the state of the library (partition table, file table, working
      directory, memory, and the environment [W] of the servers), the monad
      [prog], the policies of xpn_policy_init.c and xpn_policy_open.c and
      xpn_metadata.c.  [prog] is a state monad over [option]: [None] is undefined
      behaviour of the C code (an access out of range, a NULL pointer).
    - [FileTable] (xpn_file.c, xpn_open.c), [Blocks] (the operation matrices of
      xpn_policy_rw.c), [Rw] (xpn_rw.c), [Dir] (xpn_dir.c, xpn_opendir.c),
      [Conf] (xpn_conf_reader.c), [Init] (xpn_init.c).
    - [MemFs]: an in-memory instance of [NfiOps]; the witnesses run on it.

    - [Unistd] (xpn_unistd.c, xpn_stdio.c): the functions programs call.

    Servers of files
    - [FileSystem]: the calls on the files of one machine, as the class [Posix],
      and the wrappers of filesystem.c; the structs of the messages.
      [PosixFiles]: what the theorems need of the class; [PosixMem]: an instance.
    - [Header]: the metadata of a file as the bytes of its header.
    - [Local] (nfi_local.c): the operations on the client's own machine.
    - [Server] (xpn_server_ops.c): the handlers of the Expand server, as programs
      that read and write messages; [Remote] (nfi_xpn_server.c): the client's
      end of a connection.
    - [Setup] (nfi_local.c, nfi_xpn_server.c, nfi_xpn_server_comm.c,
      nfi_sck_server_comm.c): the set-up and the end of a server, with its memory and
      its sockets; [SetupSpec]: its theorems.
    - [Rpc], [RpcData], [RpcCalls], [RpcSpec]: a client and a server joined by a
      connection, and how a call through them compares with a local one.

    Interception
    - [Proxies] (syscall_proxies.c): the C library as the class [Libc].
    - [Bypass] (xpn_bypass.c): the intercepted calls, the table of descriptors
      and that of directories; [BypassSpec]: its theorems.

    Threads
    - [Workers] (workers_pool.c): the ring, its mutex sections as atomic steps,
      the condition variables, the client threads and the workers.
    - [OnDemand] (workers_ondemand.c, workers.c): a thread per operation, its
      callers, and the choice by mode.

    Data structures, the proxy and FUSE
    - [Darray], [Dtable] (darray.c, dtable.c): arrays of pointers that grow, and
      tables of descriptors, with the theorem that a table is a map.
    - [Proxy] (src/src/xpn_proxy): the client library and the server of the proxy,
      which calls [Unistd]; [ProxySpec]: its theorems.
    - [Fuse] (src/src/connector_fuse/fuse-expand.c): the operations of the FUSE
      connector; [FuseSpec]: its theorem.

    Utilities (src/src/utils)
    - [Migrate]: xpn_preload.c and xpn_flush.c; [MigrateSpec] and [ListingSpec]:
      what is copied comes back, and which files are found.
    - [Rebuild]: xpn_rebuild.c; [RebuildSpec]: its theorems.
    - [Expand]: xpn_expand.c, over the metadata update of [Mdata]; [ExpandSpec]
      and [TraverseSpec]: files are kept, directories are not made.
    - [Active]: the loops of xpn_rebuild_active_writer.c and
      xpn_rebuild_active_reader.c; [ActiveSpec]: the first does what xpn_rebuild does;
      [ReaderSpec]: the ranks, the directories, and a block the second may lose.
    - [Shrink]: xpn_shrink.c; [ShrinkLayout]: where the new metadata puts the
      blocks; [MovesSpec]: its messages; [ShrinkSpec]: a run for a file.

    Specifications
    - [BlocksSpec], [Coverage], [Reading]: the matrix of a request as a plan; its
      operations are, byte by byte, the places of the replicas; which replica a
      read takes.
    - [Store]: the interface [NfiStore] of servers that keep what is written,
      and the grouping of operations as an optimisation without effect.
    - [Affected], [Servers], [Namespace]: the servers an operation on a name has
      to visit, rounds of requests, mkdir, rmdir, unlink and readdir.
    - [Bytes], [Transfer], [WriteSpec], [ReadSpec], [EndToEnd]: the interface
      [NfiBytes] (contents of files byte by byte) and the composition: what a
      whole write stores, what a whole read returns, and that a read returns
      what was written when a server is lost between the two.
    - [Fairness]: the ring is a queue; operations run at most once, in order,
      and, in a fair run, at least once.

    ** How the parts interact

    The client calls servers through [NfiOps] only, so every definition above
    [Nfi] is a function of an environment [W].  What the theorems need from the
    servers are the laws of [NfiStore] and [NfiBytes]; [MemFs] satisfies them.
    System calls the client makes on its own (memory, random numbers, time)
    are the class [Sys].  [Local] and the pair [Remote] and [Server] are the two
    ways a server's operations reach the files of a machine ([Posix]); the
    theorems of [RpcCalls] compare them.  [Bypass] calls [Unistd] or [Libc]; [Proxy]
    and [Fuse] call [Unistd].  The utilities do not go through the library: they are
    programs with a process per server, which read and write the files of the
    servers, and share the layout ([Layout], [Mdata]), the hash of a path
    ([Paths]) and the header ([Header]) with it.

    ** Groups of theorems

    - Layout: round trip, injectivity, distinct replicas; the segmented layout
      of expanded files and its preservation by an expansion.
    - Requests: the matrix covers the request exactly; grouping is sound; the
      read picks a server that works; the end-to-end theorems.
    - Names and tables: reference counts of the file table, duplicated
      descriptors, affected servers, rounds of requests.
    - Remote calls: a program of calls through the server has the replies and the
      effects of the local one; what is written is read; which failures are lost.
    - Servers: from its set-up to its end, a server opens and closes its connection
      when it should, and gives back what it took, but for two blocks.
    - Interception: the table of descriptors is a map with the lowest free number
      for a new one, and a program runs on it as on the Expand library.
    - Proxy and FUSE: a program through the proxy gets what it would get from the
      library, but for what is listed; what is written through FUSE is read.
    - Utilities: a file copied to the servers and back is the same; a rebuild gives
      the layout of the new servers, by rounds or by requests; an expansion and the
      departure of a server keep every byte where the metadata says ([kept]), in
      every schedule of the messages; and where these programs do less than that.
    - Data structures: a table of descriptors is a map.
    - Texts: configuration, URLs and paths, with their round trips.
    - Threads: refinement of a queue, order, liveness, and a deadlock at the end;
      with a thread per operation, one caller completes in every schedule and two
      may not.
    - Defects: theorems that state what the code does where it is not what it
      means to do; they are listed as findings.

    ** Bounds and fuel

    Integers wrap at 32 and 64 bits; theorems state the ranges under which no
    wrap happens (offsets and sizes below 2^63, int counters below 2^31).
    Loops over data are structural; the others take fuel that is computed from
    their argument: the read and write loops one step per block of the request
    plus one, the scans of strings their length plus one.  The theorems that use
    these loops prove the results that enough fuel gives, so that no result is
    an exhausted loop; the search of readdir for a server has a theorem for both
    outcomes.  The loops of the utilities take the number of blocks and of servers:
    a process meets a block of its own at least once in as many slots as there are
    servers.  The moves of xpn_shrink and the loops of the active programs are
    transition systems, with a bound on the length of their runs.

    ** Not modelled

    - The transports under a connection (MPI, sockets) and MQTT: a connection is a
      pair of queues of messages, and in [Setup] a socket that is open or not.  The
      start of the Expand server.
    - The NFS clients (generated RPC code, and nfi_nfs3.c, which does not compile
      against its header).  The threads of [Workers] and [OnDemand] are not composed
      with the operations they run: [Nfi] takes the mode in which a request is run
      when it is launched, and [Server] the one in which the connection's thread
      runs it.
    - The Spark connector, which forwards calls from Java; the queue of connections
      of the proxy, and the parts of FUSE itself.
    - Of the utilities: the programs that copy files with calls of the library
      (xpncp, xpn_cp, xpn-cat).  In those that are modelled, reads and writes of files
      and the operations of MPI succeed, and a send does not wait for its receiver; the
      theorems on xpn_shrink are for files that were never expanded and one server that
      leaves, but for the one that shows what two may lose; the one on
      xpn_rebuild_active_writer is for processes on one server each, since others wait
      for ever.
    - Memory exhaustion: [malloc], [realloc] and [strdup] succeed. *)

From stdpp Require Export base numbers list option gmap strings.
From Stdlib Require Export ZArith Lia.

#[global] Open Scope Z_scope.
#[global] Set Default Goal Selector "!".

(** ** C integers

    A C integer is a [Z]; the results of machine operations are wrapped to
    the width of their type.  [int] is 32 bits, [long], [off_t], [ssize_t]
    and [size_t] are 64 bits (the LP64 build with HAVE_64BITS). *)

Definition wrap_s (w z : Z) : Z := (z + 2 ^ (w - 1)) mod 2 ^ w - 2 ^ (w - 1).
Definition wrap_u (w z : Z) : Z := z mod 2 ^ w.

Definition i32 (z : Z) : Z := wrap_s 32 z.
Definition u32 (z : Z) : Z := wrap_u 32 z.
Definition i64 (z : Z) : Z := wrap_s 64 z.
Definition u64 (z : Z) : Z := wrap_u 64 z.

Declare Scope c_scope.
Delimit Scope c_scope with C.
#[global] Open Scope c_scope.
#[global] Open Scope Z_scope.

(** [off_t] arithmetic *)
Notation "a ⊕ b" := (i64 (a + b)) (at level 50, left associativity) : c_scope.
Notation "a ⊖ b" := (i64 (a - b)) (at level 50, left associativity) : c_scope.
Notation "a ⊗ b" := (i64 (a * b)) (at level 40, left associativity) : c_scope.
(** [int] arithmetic *)
Notation "a ⊞ b" := (i32 (a + b)) (at level 50, left associativity) : c_scope.
Notation "a ⊟ b" := (i32 (a - b)) (at level 50, left associativity) : c_scope.
Notation "a ⊠ b" := (i32 (a * b)) (at level 40, left associativity) : c_scope.
(** C's [/] and [%] truncate towards zero: stdpp's [`quot`] and [`rem`]. *)

Lemma wrap_s_id w z : 0 < w → - 2 ^ (w - 1) <= z < 2 ^ (w - 1) → wrap_s w z = z.
Proof.
  intros Hw Hz. unfold wrap_s.
  assert (2 ^ w = 2 * 2 ^ (w - 1)) as E.
  { rewrite <- Z.pow_succ_r by lia. f_equal. lia. }
  rewrite Z.mod_small by lia. lia.
Qed.

Lemma wrap_s_range w z : 0 < w → - 2 ^ (w - 1) <= wrap_s w z < 2 ^ (w - 1).
Proof.
  intros Hw. unfold wrap_s.
  assert (2 ^ w = 2 * 2 ^ (w - 1)) as E.
  { rewrite <- Z.pow_succ_r by lia. f_equal. lia. }
  assert (0 < 2 ^ (w - 1)) by (apply Z.pow_pos_nonneg; lia).
  pose proof (Z.mod_pos_bound (z + 2 ^ (w - 1)) (2 ^ w)). lia.
Qed.

Lemma i32_id z : - 2147483648 <= z < 2147483648 → i32 z = z.
Proof. intros. apply wrap_s_id; lia. Qed.
Lemma i64_id z : - 9223372036854775808 <= z < 9223372036854775808 → i64 z = z.
Proof. intros. apply wrap_s_id; lia. Qed.
Lemma u64_id z : 0 <= z < 18446744073709551616 → u64 z = z.
Proof. intros. unfold u64, wrap_u. apply Z.mod_small. lia. Qed.
Lemma u32_id z : 0 <= z < 4294967296 → u32 z = z.
Proof. intros. unfold u32, wrap_u. apply Z.mod_small. lia. Qed.
Lemma i32_range z : - 2147483648 <= i32 z < 2147483648.
Proof. apply (wrap_s_range 32); lia. Qed.
Lemma i64_range z : - 9223372036854775808 <= i64 z < 9223372036854775808.
Proof. apply (wrap_s_range 64); lia. Qed.

(** [cint] removes the wrap of every machine operation whose result is in
    range; the side conditions are left to [lia]. *)
Ltac cint1 :=
  match goal with
  | |- context [i64 ?a] => rewrite (i64_id a) by lia
  | |- context [i32 ?a] => rewrite (i32_id a) by lia
  | |- context [u64 ?a] => rewrite (u64_id a) by lia
  | |- context [u32 ?a] => rewrite (u32_id a) by lia
  end.
Ltac cint := repeat cint1.

Lemma quot_div a b : 0 <= a → 0 < b → a `quot` b = a / b.
Proof. intros. apply Z.quot_div_nonneg; lia. Qed.
Lemma rem_mod a b : 0 <= a → 0 < b → a `rem` b = a mod b.
Proof. intros. apply Z.rem_mod_nonneg; lia. Qed.

(** [zdm a b] brings the quotient and the remainder of [a] by a positive
    [b] into the context, for [nia]. *)
Ltac zdm a b :=
  pose proof (Z.mod_pos_bound a b ltac:(lia));
  pose proof (Z.div_mod a b ltac:(lia)).

Lemma div_unique_pos a b q r : 0 <= r < b → a = b * q + r → a / b = q ∧ a mod b = r.
Proof.
  intros Hr ->. split.
  - symmetry. apply (Z.div_unique_pos _ _ q r); lia.
  - symmetry. apply (Z.mod_unique_pos _ _ q r); lia.
Qed.

(** ** C arrays

    An array of fixed size is a list; a read outside of it is undefined
    behaviour and has no result ([None]). *)
Definition rdZ {A} (l : list A) (i : Z) : option A :=
  if 0 <=? i then l !! Z.to_nat i else None.
Definition wrZ {A} (l : list A) (i : Z) (x : A) : option (list A) :=
  if (0 <=? i) && (i <? Z.of_nat (length l)) then Some (<[Z.to_nat i := x]> l) else None.

Lemma rdZ_Some {A} (l : list A) i :
  0 <= i < Z.of_nat (length l) → ∃ x, rdZ l i = Some x.
Proof.
  intros H. unfold rdZ. rewrite (proj2 (Z.leb_le 0 i)) by lia.
  apply lookup_lt_is_Some_2. lia.
Qed.

Lemma rdZ_lookup {A} (l : list A) i x : rdZ l i = Some x ↔ 0 <= i ∧ l !! Z.to_nat i = Some x.
Proof.
  unfold rdZ. destruct (Z.leb_spec 0 i).
  - split; [done|]. by intros [_ ?].
  - split; [done|]. intros [? _]. lia.
Qed.
Lemma rdZ_of_nat {A} (l : list A) i : rdZ l (Z.of_nat i) = l !! i.
Proof. unfold rdZ. rewrite (proj2 (Z.leb_le _ _)), Nat2Z.id by lia. done. Qed.

(** Reads at an index that is a number of elements. *)
Create HintDb carray.
Create Rewrite HintDb carray.
#[export] Hint Rewrite @rdZ_of_nat @Nat2Z.id : carray.
#[export] Hint Resolve lookup_lt_Some lookup_lt_is_Some_2 : carray.
Ltac carray := autorewrite with carray; eauto with carray.

Lemma rdZ_nth {A} (l : list A) d k :
  (k < length l)%nat → rdZ l (Z.of_nat k) = Some (nth k l d).
Proof.
  intros Hk. unfold rdZ. rewrite (proj2 (Z.leb_le _ _)), Nat2Z.id by lia.
  destruct (nth_lookup_or_length l k d) as [E|]; [exact E|lia].
Qed.
Lemma nth_replicate_eq {A} k n (d : A) : nth k (replicate n d) d = d.
Proof. revert k. induction n as [|n IH]; intros [|k]; cbn; auto. Qed.
Lemma wrZ_Some {A} (l : list A) k x :
  (k < length l)%nat → wrZ l (Z.of_nat k) x = Some (<[k := x]> l).
Proof.
  intros Hk. unfold wrZ. rewrite (proj2 (Z.leb_le _ _)), (proj2 (Z.ltb_lt _ _)), Nat2Z.id by lia.
  done.
Qed.

(** [zbool] decides every comparison of the goal that [lia] decides. *)
Ltac zbool1 :=
  match goal with
  | |- context [?a <? ?b] =>
      first [rewrite (proj2 (Z.ltb_lt a b)) by lia | rewrite (proj2 (Z.ltb_ge a b)) by lia]
  | |- context [?a <=? ?b] =>
      first [rewrite (proj2 (Z.leb_le a b)) by lia | rewrite (proj2 (Z.leb_gt a b)) by lia]
  | |- context [?a =? ?b] =>
      first [rewrite (proj2 (Z.eqb_eq a b)) by lia | rewrite (proj2 (Z.eqb_neq a b)) by lia]
  end.
Ltac zbool := repeat zbool1; cbn [andb orb negb].

(** [zcalc] closes a closed arithmetic goal, conjunctions included. *)
Ltac zcalc := vm_compute; repeat split; try reflexivity; try discriminate; lia.

(** ** Stateful code

    A C function that reads and writes the state [S] is a function of the
    state; [None] is undefined behaviour (a wild access, a division by zero). *)
Definition M (S A : Type) : Type := S → option (A * S).
#[export] Instance M_ret S : MRet (M S) := λ A a s, Some (a, s).
#[export] Instance M_bind S : MBind (M S) := λ A B f m s,
  match m s with Some (a, s') => f a s' | None => None end.
Definition fault {S A} : M S A := λ _, None.
Definition get {S} : M S S := λ s, Some (s, s).
Definition put {S} (s : S) : M S unit := λ _, Some (tt, s).
Definition modify {S} (f : S → S) : M S unit := λ s, Some (tt, f s).
Definition gets {S A} (f : S → A) : M S A := λ s, Some (f s, s).
(** A partial pure computation. *)
Definition lift {S A} (o : option A) : M S A := λ s, match o with Some a => Some (a, s) | None => None end.
Definition when {S} (b : bool) (m : M S unit) : M S unit := if b then m else mret tt.

Section monad_laws.
Context {S : Type}.
Lemma bind_ret {A B} (a : A) (f : A → M S B) s : (mret a ≫= f) s = f a s.
Proof. done. Qed.
Lemma bind_assoc {A B C} (m : M S A) (f : A → M S B) (g : B → M S C) s :
  ((m ≫= f) ≫= g) s = (m ≫= λ a, f a ≫= g) s.
Proof. unfold mbind, M_bind. destruct (m s) as [[a s']|]; done. Qed.
(** The step every proof about stateful code takes. *)
Lemma bind_step {A B} (m : M S A) (f : A → M S B) s a s' :
  m s = Some (a, s') → (m ≫= f) s = f a s'.
Proof. unfold mbind, M_bind. by intros ->. Qed.
Lemma bind_inv {A B} (m : M S A) (f : A → M S B) s b s'' :
  (m ≫= f) s = Some (b, s'') → ∃ a s', m s = Some (a, s') ∧ f a s' = Some (b, s'').
Proof. unfold mbind, M_bind. destruct (m s) as [[a s']|]; [|done]. eauto. Qed.
End monad_laws.

(** [mstep] runs the first action of the goal's program. *)
Ltac mstep := erewrite bind_step by (reflexivity || eassumption); cbv beta iota.
(** [mrun t] runs it with [t]. *)
Tactic Notation "mrun" tactic3(t) := erewrite bind_step by t; cbv beta iota.

(** [for] loops over a list of indices. *)
Fixpoint forM_ {S A} (l : list A) (f : A → M S unit) : M S unit :=
  match l with [] => mret tt | a :: l' => f a;; forM_ l' f end.
Fixpoint foldM {S A B} (l : list A) (f : B → A → M S B) (b : B) : M S B :=
  match l with [] => mret b | a :: l' => b' ← f b a; foldM l' f b' end.

Lemma foldM_app {S A B} (l l' : list A) (f : B → A → M S B) b s :
  foldM (l ++ l') f b s = (foldM l f b ≫= foldM l' f) s.
Proof.
  revert b s. induction l as [|a l IH]; intros b s; cbn; [done|].
  unfold mbind, M_bind in *. destruct (f b a s) as [[b' s']|]; [apply IH|done].
Qed.

(** A loop whose body keeps an invariant of the state runs to its end. *)
Lemma forM_inv {S A} (I : S → Prop) (l : list A) (f : A → M S unit) s :
  I s → (∀ a s, a ∈ l → I s → ∃ s', f a s = Some (tt, s') ∧ I s') →
  ∃ s', forM_ l f s = Some (tt, s') ∧ I s'.
Proof.
  revert s. induction l as [|a l IH]; intros s HI Hf; cbn [forM_]; [by exists s|].
  destruct (Hf a s) as (s1 & E1 & I1); [left|done|].
  erewrite bind_step by exact E1. apply IH; [done|]. intros b s2 Hb. apply Hf. by right.
Qed.
Lemma foldM_inv {S A B} (I : B → S → Prop) (l : list A) (f : B → A → M S B) b s :
  I b s → (∀ b a s, a ∈ l → I b s → ∃ b' s', f b a s = Some (b', s') ∧ I b' s') →
  ∃ b' s', foldM l f b s = Some (b', s') ∧ I b' s'.
Proof.
  revert b s. induction l as [|a l IH]; intros b s HI Hf; cbn [foldM]; [by exists b, s|].
  destruct (Hf b a s) as (b1 & s1 & E1 & I1); [left|done|].
  erewrite bind_step by exact E1. apply IH; [done|]. intros b2 a2 s2 Hb. apply Hf. by right.
Qed.
