(* ===== verification/Layout.v ===== *)
(** * Layout: where the bytes of a striped file live

    [XpnCalculateBlock], [XpnCalculateBlockInvert] and [XpnGetRealFileSize]
    of src/src/xpn_client/xpn/xpn_simple/policy/xpn_policy_rw.c, at machine
    width, and the exact round-robin layout they compute. *)

From S2P Require Import Prelude.

(** ** The code *)

(** The server's byte offset and the server of replica [replication] of the
    byte [offset] of a file: the two out-parameters [local_offset], [serv]. *)
Definition XpnCalculateBlock (block_size replication_level nserv offset replication first_node : Z) : Z * Z :=
  let block := offset `quot` block_size in
  let block_replication := block ⊗ (replication_level ⊞ 1) ⊕ replication in
  let block_line := block_replication `quot` nserv in
  let serv := i32 ((block_replication ⊕ first_node) `rem` nserv) in
  let local_offset := block_line ⊗ block_size ⊕ (offset `rem` block_size) in
  (local_offset, serv).

(** The inverse: the file offset and the replica stored at [local_offset] of
    [serv]. *)
Definition XpnCalculateBlockInvert (block_size replication_level nserv serv local_offset first_node : Z) : Z * Z :=
  let block_line := local_offset `quot` block_size in
  let block_replication :=
    block_line ⊗ nserv ⊕ (((serv ⊟ first_node) `rem` nserv ⊞ nserv) `rem` nserv) in
  let block := block_replication `quot` (replication_level ⊞ 1) in
  let offset := block ⊗ block_size ⊕ (local_offset `rem` block_size) in
  let replication := i32 (block_replication `rem` (replication_level ⊞ 1)) in
  (offset, replication).

(** ** The exact layout *)

Record layout := Layout { ly_bs : Z; ly_rl : Z; ly_n : Z; ly_fn : Z }.

(** The position of a block replica in the round-robin order. *)
Definition ly_slot (L : layout) (x j : Z) : Z := x / ly_bs L * (ly_rl L + 1) + j.
Definition ly_serv (L : layout) (x j : Z) : Z := (ly_slot L x j + ly_fn L) mod ly_n L.
Definition ly_off (L : layout) (x j : Z) : Z := ly_slot L x j / ly_n L * ly_bs L + x mod ly_bs L.

(** Parameters an [int] partition can have. *)
Record ly_ok (L : layout) : Prop := {
  ly_bs_ok : 0 < ly_bs L < 2 ^ 31;
  ly_rl_ok : 0 <= ly_rl L < 2 ^ 31 - 1;
  ly_n_ok : 0 < ly_n L < 2 ^ 30;
  ly_fn_ok : 0 <= ly_fn L < ly_n L }.

(** Offsets for which no intermediate [off_t] result overflows. *)
Definition off_ok (L : layout) (x : Z) : Prop := 0 <= x ∧ x * (ly_rl L + 1) < 2 ^ 62.

Definition calc (L : layout) (x j : Z) : Z * Z :=
  XpnCalculateBlock (ly_bs L) (ly_rl L) (ly_n L) x j (ly_fn L).

Section layout.
Context (L : layout) (HL : ly_ok L).

Lemma ly_slot_bound x j :
  off_ok L x → 0 <= j <= ly_rl L →
  0 <= ly_slot L x j ∧ ly_slot L x j * ly_bs L <= 2 ^ 62 + ly_rl L * ly_bs L ∧
  ly_slot L x j <= 2 ^ 62 + ly_rl L.
Proof using HL.
  intros [Hx Hx'] Hj. destruct HL as [Hb Hr _ _]. unfold ly_slot.
  zdm x (ly_bs L). assert (0 <= x / ly_bs L) by (apply Z.div_pos; lia).
  set (q := x / ly_bs L) in *.
  assert (q * ly_bs L <= x) by nia. assert (q <= x) by nia.
  split_and!; nia.
Qed.

Lemma ly_serv_range x j : 0 <= ly_serv L x j < ly_n L.
Proof using HL. destruct HL. apply Z.mod_pos_bound. lia. Qed.

(** The machine computation agrees with the exact one. *)
Lemma calc_exact x j :
  off_ok L x → 0 <= j <= ly_rl L → calc L x j = (ly_off L x j, ly_serv L x j).
Proof using HL.
  intros Hx Hj. destruct (ly_slot_bound x j Hx Hj) as (H0 & H1 & H2).
  destruct Hx as [Hx Hx']. pose proof HL as [Hb Hr Hn Hf].
  unfold calc, XpnCalculateBlock.
  rewrite (quot_div x), (rem_mod x) by lia.
  zdm x (ly_bs L). assert (0 <= x / ly_bs L) by (apply Z.div_pos; lia).
  assert (x / ly_bs L * (ly_rl L + 1) = ly_slot L x j - j) as E by (unfold ly_slot; lia).
  rewrite (i32_id (ly_rl L + 1)) by lia. rewrite E.
  rewrite (i64_id (ly_slot L x j - j)) by lia.
  replace (ly_slot L x j - j + j) with (ly_slot L x j) by lia.
  rewrite (i64_id (ly_slot L x j)) by lia.
  rewrite (i64_id (ly_slot L x j + ly_fn L)) by lia.
  rewrite quot_div, rem_mod by lia.
  zdm (ly_slot L x j) (ly_n L). zdm (ly_slot L x j + ly_fn L) (ly_n L).
  rewrite (i32_id ((ly_slot L x j + ly_fn L) mod ly_n L)) by lia.
  assert (0 <= ly_slot L x j / ly_n L <= ly_slot L x j) by (split; [apply Z.div_pos; lia | apply Z.div_le_upper_bound; nia]).
  assert (0 <= ly_slot L x j / ly_n L * ly_bs L <= 2 ^ 62 + ly_rl L * ly_bs L) by nia.
  assert (ly_rl L * ly_bs L <= (2 ^ 31 - 2) * (2 ^ 31 - 1)) by nia.
  rewrite (i64_id (ly_slot L x j / ly_n L * ly_bs L)) by lia.
  rewrite i64_id by lia. reflexivity.
Qed.

(** The slot is recovered from the server and the line. *)
Lemma ly_slot_back x j :
  ly_slot L x j = ly_slot L x j / ly_n L * ly_n L + (ly_serv L x j - ly_fn L) mod ly_n L.
Proof using HL.
  destruct HL as [_ _ Hn Hf]. unfold ly_serv.
  rewrite Zminus_mod_idemp_l, Z.add_simpl_r.
  pose proof (Z.div_mod (ly_slot L x j) (ly_n L)). lia.
Qed.

Lemma ly_off_line x j : ly_off L x j / ly_bs L = ly_slot L x j / ly_n L ∧ ly_off L x j mod ly_bs L = x mod ly_bs L.
Proof using HL.
  destruct HL as [Hb _ _ _]. unfold ly_off.
  apply div_unique_pos; [apply Z.mod_pos_bound; lia | lia].
Qed.

Lemma ly_slot_block x j :
  0 <= j <= ly_rl L →
  ly_slot L x j / (ly_rl L + 1) = x / ly_bs L ∧ ly_slot L x j mod (ly_rl L + 1) = j.
Proof using HL.
  intros Hj. destruct HL as [_ Hr _ _]. apply div_unique_pos; unfold ly_slot; lia.
Qed.

Lemma rem_wrap a n : 0 < n → - n < a < n → (a `rem` n + n) mod n = a mod n.
Proof.
  intros Hn Ha. destruct (decide (0 <= a)).
  - rewrite Z.rem_small by lia. replace (a + n) with (a + 1 * n) by lia. apply Z.mod_add; lia.
  - replace a with (- (- a)) at 1 by lia. rewrite Z.rem_opp_l, Z.rem_small by lia.
    replace (- - a + n) with (a + 1 * n) by lia. apply Z.mod_add; lia.
Qed.

Lemma calc_inverse x j :
  off_ok L x → 0 <= j <= ly_rl L →
  XpnCalculateBlockInvert (ly_bs L) (ly_rl L) (ly_n L) (ly_serv L x j) (ly_off L x j) (ly_fn L) = (x, j).
Proof using HL.
  intros Hx Hj. destruct (ly_slot_bound x j Hx Hj) as (H0 & H1 & H2).
  pose proof (ly_serv_range x j) as Hs. pose proof (ly_slot_back x j) as Hk.
  destruct (ly_off_line x j) as [Ed Em]. destruct (ly_slot_block x j Hj) as [Eb Ej].
  destruct Hx as [Hx Hx']. pose proof HL as [Hb Hr Hn Hf].
  assert (0 <= ly_slot L x j / ly_n L) by (apply Z.div_pos; lia).
  assert (0 <= ly_off L x j).
  { unfold ly_off. zdm x (ly_bs L). nia. }
  unfold XpnCalculateBlockInvert.
  rewrite (i32_id (ly_rl L + 1)) by lia.
  rewrite (quot_div (ly_off L x j)), (rem_mod (ly_off L x j)) by lia. rewrite Ed, Em.
  rewrite (i32_id (ly_serv L x j - ly_fn L)) by lia.
  assert (- ly_n L < (ly_serv L x j - ly_fn L) `rem` ly_n L < ly_n L) as Hrem.
  { pose proof (Z.rem_bound_abs (ly_serv L x j - ly_fn L) (ly_n L)). lia. }
  rewrite (i32_id (_ + ly_n L)) by lia.
  rewrite (rem_mod (_ + ly_n L)) by lia. rewrite rem_wrap by lia.
  zdm (ly_serv L x j - ly_fn L) (ly_n L).
  rewrite (i64_id (ly_slot L x j / ly_n L * ly_n L)) by nia.
  rewrite <- Hk. rewrite (i64_id (ly_slot L x j)) by lia.
  rewrite (quot_div (ly_slot L x j)), (rem_mod (ly_slot L x j)) by lia.
  rewrite Eb, Ej. zdm x (ly_bs L). rewrite (i64_id (x / ly_bs L * ly_bs L)) by nia.
  rewrite i64_id, i32_id by lia. f_equal. lia.
Qed.

(** The layout is injective: no two replicas share a byte of a server. *)
Lemma ly_inj x j x' j' :
  0 <= x → 0 <= x' → 0 <= j <= ly_rl L → 0 <= j' <= ly_rl L →
  ly_serv L x j = ly_serv L x' j' → ly_off L x j = ly_off L x' j' → x = x' ∧ j = j'.
Proof using HL.
  intros Hx Hx' Hj Hj' Es Eo. pose proof HL as [Hb Hr Hn Hf].
  destruct (ly_off_line x j) as [Ed Em], (ly_off_line x' j') as [Ed' Em'].
  pose proof (ly_slot_back x j) as Hk. pose proof (ly_slot_back x' j') as Hk'.
  destruct (ly_slot_block x j Hj) as [Eb Ej], (ly_slot_block x' j' Hj') as [Eb' Ej'].
  rewrite Eo in Ed, Em. rewrite <- Ed, Ed', Es in Hk. rewrite <- Hk in Hk'.
  assert (x / ly_bs L = x' / ly_bs L) by congruence.
  assert (x mod ly_bs L = x' mod ly_bs L) by congruence.
  split; [|congruence].
  rewrite (Z.div_mod x (ly_bs L)), (Z.div_mod x' (ly_bs L)) by lia. congruence.
Qed.

(** Replicas of one byte are on distinct servers when there are enough. *)
Lemma ly_replicas_distinct x j j' :
  ly_rl L < ly_n L → 0 <= j <= ly_rl L → 0 <= j' <= ly_rl L → j ≠ j' →
  ly_serv L x j ≠ ly_serv L x j'.
Proof using HL.
  intros Hn' Hj Hj' Hne E. pose proof HL as [_ _ Hn _].
  unfold ly_serv, ly_slot in E.
  set (b := x / ly_bs L * (ly_rl L + 1) + ly_fn L) in *.
  replace (x / ly_bs L * (ly_rl L + 1) + j + ly_fn L) with (b + j) in E by lia.
  replace (x / ly_bs L * (ly_rl L + 1) + j' + ly_fn L) with (b + j') in E by lia.
  zdm (b + j) (ly_n L). zdm (b + j') (ly_n L).
  assert ((b + j) / ly_n L = (b + j') / ly_n L) by nia. lia.
Qed.
End layout.

(** ** The properties of the layout *)

(** The file offset and the replica number are recovered by
    [XpnCalculateBlockInvert] from the place [XpnCalculateBlock] computes, at
    machine width, for every partition and every offset whose
    [offset * (replication_level + 1)] fits 62 bits. *)
Theorem calculate_block_roundtrip L x j :
  ly_ok L → off_ok L x → 0 <= j <= ly_rl L →
  let '(local_offset, serv) := XpnCalculateBlock (ly_bs L) (ly_rl L) (ly_n L) x j (ly_fn L) in
  XpnCalculateBlockInvert (ly_bs L) (ly_rl L) (ly_n L) serv local_offset (ly_fn L) = (x, j).
Proof.
  intros HL Hx Hj. pose proof (calc_exact L HL x j Hx Hj) as E. unfold calc in E. rewrite E.
  by apply calc_inverse.
Qed.

Definition sample_layout : layout := Layout 4096 2 5 3.
Lemma sample_layout_ok : ly_ok sample_layout.
Proof. split; cbn; lia. Qed.

Lemma calculate_block_roundtrip_witness :
  XpnCalculateBlock 4096 2 5 1000000 1 3 = (598592, 1) ∧
  XpnCalculateBlockInvert 4096 2 5 1 598592 3 = (1000000, 1).
Proof.
  split; [reflexivity|].
  pose proof (calculate_block_roundtrip sample_layout 1000000 1 sample_layout_ok
    ltac:(split; cbn; lia) ltac:(cbn; lia)) as H.
  exact H.
Defined.

(** [XpnCalculateBlock] never sends two bytes, nor two replicas of a
    byte, to the same byte of the same server. *)
Theorem calculate_block_injective L x j x' j' :
  ly_ok L → off_ok L x → off_ok L x' → 0 <= j <= ly_rl L → 0 <= j' <= ly_rl L →
  (x, j) ≠ (x', j') →
  XpnCalculateBlock (ly_bs L) (ly_rl L) (ly_n L) x j (ly_fn L)
  ≠ XpnCalculateBlock (ly_bs L) (ly_rl L) (ly_n L) x' j' (ly_fn L).
Proof.
  intros HL Hx Hx' Hj Hj' Hne E. apply Hne.
  pose proof (calc_exact L HL x j Hx Hj) as E1. pose proof (calc_exact L HL x' j' Hx' Hj') as E2.
  unfold calc in E1, E2. rewrite E1, E2 in E. injection E as Eo Es.
  destruct Hx, Hx'. destruct (ly_inj L HL x j x' j') as [-> ->]; done.
Qed.

Lemma calculate_block_injective_witness :
  XpnCalculateBlock 4096 2 5 1000000 1 3 ≠ XpnCalculateBlock 4096 2 5 999000 2 3.
Proof.
  apply (calculate_block_injective sample_layout 1000000 1 999000 2 sample_layout_ok);
    [split; cbn; lia|split; cbn; lia|cbn; lia|cbn; lia|discriminate].
Defined.

(** When the servers are more than the replication level, the replicas
    of a byte are on different servers, every one of them an existing server. *)
Theorem calculate_block_replicas_distinct L x j j' :
  ly_ok L → off_ok L x → ly_rl L < ly_n L → 0 <= j <= ly_rl L → 0 <= j' <= ly_rl L → j ≠ j' →
  let s := (XpnCalculateBlock (ly_bs L) (ly_rl L) (ly_n L) x j (ly_fn L)).2 in
  let s' := (XpnCalculateBlock (ly_bs L) (ly_rl L) (ly_n L) x j' (ly_fn L)).2 in
  s ≠ s' ∧ 0 <= s < ly_n L ∧ 0 <= s' < ly_n L.
Proof.
  intros HL Hx Hr Hj Hj' Hne.
  pose proof (calc_exact L HL x j Hx Hj) as E1. pose proof (calc_exact L HL x j' Hx Hj') as E2.
  unfold calc in E1, E2. rewrite E1, E2. cbn [snd].
  split_and!; [by apply ly_replicas_distinct|by apply ly_serv_range..].
Qed.

Lemma calculate_block_replicas_distinct_witness :
  (XpnCalculateBlock 4096 2 5 1000000 0 3).2 ≠ (XpnCalculateBlock 4096 2 5 1000000 2 3).2.
Proof.
  apply (calculate_block_replicas_distinct sample_layout 1000000 0 2 sample_layout_ok);
    cbn; try split; cbn; lia.
Defined.
