(* ===== verification/Mdata.v ===== *)
(** * Mdata: file metadata and the layout of expanded files

    [struct xpn_metadata] (src/include/xpn_client/xpn/xpn_simple/xpn_metadata.h),
    [XpnCalculateBlockMdata] (xpn_policy_rw.c) with the record of server
    configurations a file went through, and the metadata update of [copy] in
    src/src/utils/xpn_expand.c.  The specification is the segmented layout:
    every configuration owns a segment of blocks, stored above the segments
    of the configurations before it. *)

From S2P Require Import Prelude Layout.

(** ** The data *)

Record xpn_metadata := XpnMetadata {
  magic_number : list Z;
  version : Z;
  type_ : Z;
  block_size : Z;
  file_size : Z;
  replication_level : Z;
  first_node : Z;
  distribution_policy : Z;
  data_nserv : list Z;
  offsets : list Z }.

Definition XPN_METADATA_MAX_RECONSTURCTIONS : Z := 40.
Definition XPN_MAGIC_NUMBER : list Z := [88; 80; 78].

Definition XPN_CHECK_MAGIC_NUMBER (mdata : xpn_metadata) : bool :=
  bool_decide (magic_number mdata = XPN_MAGIC_NUMBER).

(** The locals of [XpnCalculateBlockMdata] that live across iterations;
    [s_offset] is the parameter [offset], which the body overwrites, and
    [s_local], [s_serv] are the out-parameters. *)
Record cstate := CState {
  s_actual : Z;
  s_acum : Z;
  s_prev_block : Z;
  s_aux_serv : Z;
  s_aux_local : Z;
  s_array : list Z;
  s_offset : Z;
  s_local : Z;
  s_serv : Z }.

(** ** [XpnCalculateBlockMdata]

    [None] is an access outside of one of the arrays or a division by zero. *)

(** The call with the metadata's own parameters: [block_size] is narrowed to [int]. *)
Definition calc_mdata (m : xpn_metadata) (nserv offset replication : Z) : option (Z * Z) :=
  if (i32 (block_size m) =? 0) || (nserv =? 0) then None
  else Some (XpnCalculateBlock (i32 (block_size m)) (replication_level m) nserv offset replication (first_node m)).

Definition is_shrink (m : xpn_metadata) (i : Z) : option bool :=
  if 0 <? i then (fun d => d <? 0) <$> rdZ (data_nserv m) (i - 1) else Some false.

(** Is the block in the segment of configuration [i]? *)
Definition in_segment (m : xpn_metadata) (block_num i : Z) : option bool :=
  next ← rdZ (data_nserv m) (i + 1);
  lo ← rdZ (offsets m) i;
  if (lo <? block_num) || (block_num =? 0) then
    hi ← rdZ (offsets m) (if 0 <? next then i + 1 else i + 2);
    Some ((block_num <=? hi) || (hi =? 0))
  else Some false.

(** [prev_data_nserv] and [prev_block_num] of iteration [i]; [d] is how far
    back the previous positive configuration is (1 or 2). *)
Definition prev_conf (m : xpn_metadata) (prev_block i d : Z) : option (Z * Z) :=
  if 0 <=? i - d then
    prev_nserv ← rdZ (data_nserv m) (i - d);
    oi ← rdZ (offsets m) i;
    pb ← (if i - d =? 0 then Some oi else od ← rdZ (offsets m) (i - d); Some (oi ⊟ od ⊟ 1));
    pb' ← (if 0 <=? i - d - 1 then
             before ← rdZ (data_nserv m) (i - d - 1);
             if before <? 0 then o ← rdZ (offsets m) (i - d - 1); Some (pb ⊕ o) else Some pb
           else Some pb);
    Some (prev_nserv, pb')
  else Some (-1, prev_block).

(** The inner [for (int j = i; j >= 0; j--)]; [fuel] is [j + 1]. *)
Fixpoint substract_offset (m : xpn_metadata) (arr : list Z) (serv local : Z) (fuel : nat) : option Z :=
  match fuel with
  | O => Some local
  | S k =>
    let j := Z.of_nat k in
    dj ← rdZ (data_nserv m) j;
    if dj =? 0 then Some local else
    shrink ← is_shrink m j;
    if negb shrink then
      if 0 <=? j - 1 then
        dp ← rdZ (data_nserv m) (j - 1);
        if (dp ⊟ 1 <? serv) && (serv <=? dj ⊟ 1) then
          a ← rdZ arr j; Some (local ⊖ a)
        else substract_offset m arr serv local k
      else substract_offset m arr serv local k
    else
      three ← (if 0 <=? j - 3 then (fun d => 0 <? d) <$> rdZ (data_nserv m) (j - 3) else Some false);
      if three && (serv =? dj ⊟ 1) then
        a ← rdZ arr (j - 2); Some (local ⊖ a)
      else substract_offset m arr serv local k
  end.

(** [have_greatter_shrink]: the last [for] of the body, from [j = i]. *)
Fixpoint greatter_shrink (l : list Z) : bool :=
  match l with
  | [] => false
  | d :: l' => if d =? 0 then false else (d <? 0) || greatter_shrink l'
  end.

(** The block is located: [i == actual_index]. *)
Definition locate_actual (m : xpn_metadata) (replication i : Z) (shrink : bool) (s : cstate) : option cstate :=
  di ← rdZ (data_nserv m) i;
  offset ← (if i =? 0 then Some (s_offset s) else
              oi ← rdZ (offsets m) i;
              let off := s_offset s ⊖ block_size m ⊗ (oi ⊞ 1) in
              if shrink then om ← rdZ (offsets m) (i - 1); Some (off ⊕ block_size m ⊗ om) else Some off);
  '(local, serv) ← calc_mdata m di offset replication;
  ai ← rdZ (s_array s) i;
  local' ← substract_offset m (s_array s) serv (local ⊕ ai) (Z.to_nat (i + 1));
  Some (CState (s_actual s) (s_acum s) (s_prev_block s) (s_aux_serv s) (s_aux_local s)
          (s_array s) offset local' serv).

(** A later shrink moves the blocks of the removed server. *)
Definition relocate_shrink (m : xpn_metadata) (replication i : Z) (s : cstate) : option cstate :=
  dm ← rdZ (data_nserv m) (i - 1);
  let removed := i32 (Z.abs dm) ⊟ 1 in
  if s_serv s =? removed then
    di ← rdZ (data_nserv m) i;
    '(local, serv) ← calc_mdata m di (s_local s) replication;
    ai ← rdZ (s_array s) i;
    let local1 := local ⊕ ai in
    three ← (if 0 <=? i - 3 then (fun d => 0 <? d) <$> rdZ (data_nserv m) (i - 3) else Some false);
    local2 ← (if three && (serv =? di ⊟ 1) then a ← rdZ (s_array s) (i - 2); Some (local1 ⊖ a) else Some local1);
    Some (CState (s_actual s) (s_acum s) (s_prev_block s) (s_aux_serv s) local1
            (s_array s) (s_offset s) local2 serv)
  else if removed <? s_serv s then
    Some (CState (s_actual s) (s_acum s) (s_prev_block s) (s_aux_serv s) (s_aux_local s)
            (s_array s) (s_offset s) (s_local s) (s_serv s ⊟ 1))
  else Some s.

(** One iteration of the outer loop; the boolean is [break]. *)
Definition mdata_iter (m : xpn_metadata) (block_num replication i : Z) (s : cstate) : option (cstate * bool) :=
  di ← rdZ (data_nserv m) i;
  if di =? 0 then Some (s, true) else
  if di <? 0 then Some (s, false) else
  shrink ← is_shrink m i;
  here ← (if s_actual s =? -1 then in_segment m block_num i else Some false);
  let actual := if (here : bool) then i else s_actual s in
  '(prev_nserv, prev_block) ← prev_conf m (s_prev_block s) i (if shrink then 2 else 1);
  s1 ← (if prev_nserv =? -1 then
          Some (CState actual (s_acum s) prev_block (s_aux_serv s) (s_aux_local s)
                  (s_array s) (s_offset s) (s_local s) (s_serv s))
        else
          '(aux_local, aux_serv) ← calc_mdata m prev_nserv (prev_block ⊗ block_size m) (replication_level m);
          let acum := s_acum s ⊕ (aux_local ⊕ block_size m) in
          arr ← wrZ (s_array s) i acum;
          Some (CState actual acum prev_block aux_serv aux_local arr (s_offset s) (s_local s) (s_serv s)));
  s2 ← (if negb (s_actual s1 =? -1) && (i =? s_actual s1) then locate_actual m replication i shrink s1
        else if shrink then relocate_shrink m replication i s1 else Some s1);
  Some (s2, (i =? s_actual s2) && negb (greatter_shrink (drop (Z.to_nat i) (data_nserv m)))).

Fixpoint mdata_loop (m : xpn_metadata) (block_num replication i : Z) (fuel : nat) (s : cstate) : option cstate :=
  match fuel with
  | O => Some s
  | S k =>
    '(s', brk) ← mdata_iter m block_num replication i s;
    if (brk : bool) then Some s' else mdata_loop m block_num replication (i + 1) k s'
  end.

(** [local0] and [serv0] are what the caller's variables held. *)
Definition XpnCalculateBlockMdata (m : xpn_metadata) (offset replication local0 serv0 : Z) : option (Z * Z) :=
  d1 ← rdZ (data_nserv m) 1;
  if d1 =? 0 then
    d0 ← rdZ (data_nserv m) 0; calc_mdata m d0 offset replication
  else if block_size m =? 0 then None
  else
    let block_num := offset `quot` block_size m in
    let s0 := CState (-1) 0 0 0 0 (replicate (Z.to_nat XPN_METADATA_MAX_RECONSTURCTIONS) 0) offset local0 serv0 in
    s ← mdata_loop m block_num replication 0 (Z.to_nat XPN_METADATA_MAX_RECONSTURCTIONS) s0;
    Some (s_local s, s_serv s).

(** ** [copy] of xpn_expand.c: the metadata of a file after an expansion *)

Definition set_conf (m : xpn_metadata) (i nserv limit : Z) : option xpn_metadata :=
  d ← wrZ (data_nserv m) i nserv;
  o ← wrZ (offsets m) i limit;
  Some (XpnMetadata (magic_number m) (version m) (type_ m) (block_size m) (file_size m)
          (replication_level m) (first_node m) (distribution_policy m) d o).

(** [limit_actual_blocks]: the last block of the configuration of [prev] servers. *)
Definition limit_blocks (m : xpn_metadata) (prev : Z) : Z :=
  let actual_blocks := i32 (file_size m `quot` block_size m) in
  (actual_blocks ⊞ prev ⊟ 1) `quot` prev ⊠ prev ⊟ 1.

(** The [for (int i = 1; ...)]: the first free configuration is filled. *)
Fixpoint expand_from (m : xpn_metadata) (size i : Z) (fuel : nat) : option xpn_metadata :=
  match fuel with
  | O => Some m
  | S k =>
    di ← rdZ (data_nserv m) i;
    if di =? 0 then
      prev ← rdZ (data_nserv m) (i - 1);
      if (prev =? 0) || (block_size m =? 0) then None
      else set_conf m i size (limit_blocks m prev)
    else expand_from m size (i + 1) k
  end.
Definition expand_mdata (m : xpn_metadata) (size : Z) : option xpn_metadata :=
  expand_from m size 1 (Z.to_nat (XPN_METADATA_MAX_RECONSTURCTIONS - 1)).

(** ** The segmented layout *)

Section spec.
Context (m : xpn_metadata).

Definition nv (k : nat) : Z := nth k (data_nserv m) 0.
Definition ov (k : nat) : Z := nth k (offsets m) 0.
Definition mlay (k : nat) : layout := Layout (block_size m) (replication_level m) (nv k) (first_node m).

(** First block of segment [k]. *)
Definition seg_start (k : nat) : Z := match k with O => 0 | S _ => ov k + 1 end.
(** Lines a closed segment takes on every server. *)
Definition seg_height (k : nat) : Z :=
  ((ov (S k) - seg_start k) * (replication_level m + 1) + replication_level m) / nv k + 1.
(** Line where segment [k] starts on a server of configuration 0. *)
Fixpoint seg_base (k : nat) : Z :=
  match k with O => 0 | S k' => seg_base k' + seg_height k' end.

(** The segment of block [b] among [c] configurations. *)
Fixpoint seg_of (b : Z) (c : nat) : nat :=
  match c with
  | O => O
  | S O => O
  | S c' => if ov c' <? b then c' else seg_of b c'
  end.
(** The configuration in which server [s] joined. *)
Fixpoint join (s : Z) (k : nat) : nat :=
  match k with
  | O => O
  | S k' => if nv k' <=? s then k else join s k'
  end.

(** Where replica [j] of offset [x] is, in a file of [c] configurations. *)
Definition mloc (c : nat) (x j : Z) : Z * Z :=
  let k := seg_of (x / block_size m) c in
  let y := x - seg_start k * block_size m in
  let s := ly_serv (mlay k) y j in
  (ly_off (mlay k) y j + (seg_base k - seg_base (join s k)) * block_size m, s).

(** A file that was expanded [c - 1] times. *)
Record expanded (c : nat) : Prop := {
  ex_c : (1 <= c <= 38)%nat;
  ex_len : length (data_nserv m) = 40%nat ∧ length (offsets m) = 40%nat;
  ex_bs : 0 < block_size m < 2 ^ 31;
  ex_rl : 0 <= replication_level m < 2 ^ 31 - 1;
  ex_fn : 0 <= first_node m < nv 0;
  ex_nv : ∀ k, (k < c)%nat → 0 < nv k < 2 ^ 30;
  ex_grow : ∀ k, (S k < c)%nat → nv k < nv (S k);
  ex_nv0 : ∀ k, (c <= k)%nat → nv k = 0;
  ex_ov0 : ov 0 = 0;
  ex_ov : ∀ k, (S k < c)%nat → ov k < ov (S k) < 2 ^ 31 - 1;
  ex_ovz : ∀ k, (c <= k)%nat → ov k = 0 }.

Context (c : nat) (Hm : expanded c).

Lemma nv_mono k k' : (k <= k' < c)%nat → nv k <= nv k'.
Proof using Hm.
  intros [Hk Hc]. induction Hk as [|k' Hk IH]; [lia|].
  pose proof (ex_grow c Hm k'). specialize (IH ltac:(lia)). lia.
Qed.
Lemma ov_mono k k' : (k < k' < c)%nat → ov k < ov k'.
Proof using Hm.
  intros [Hk Hc]. induction Hk as [|k' Hk IH].
  - apply (ex_ov c Hm k). lia.
  - pose proof (ex_ov c Hm k'). specialize (IH ltac:(lia)). lia.
Qed.
Lemma ov_nonneg k : (k < c)%nat → 0 <= ov k.
Proof using Hm.
  intros Hk. destruct k; [rewrite (ex_ov0 c Hm); lia|].
  pose proof (ov_mono 0 (S k)). rewrite (ex_ov0 c Hm) in *. lia.
Qed.

Lemma mlay_ok k : (k < c)%nat → ly_ok (mlay k).
Proof using Hm.
  intros Hk. pose proof (ex_nv c Hm k Hk). pose proof (nv_mono 0 k ltac:(lia)).
  destruct (ex_fn c Hm). split; simpl; try lia.
  - apply (ex_bs c Hm).
  - apply (ex_rl c Hm).
Qed.

Lemma rd_nv k : (k < 40)%nat → rdZ (data_nserv m) (Z.of_nat k) = Some (nv k).
Proof using Hm. intros. apply rdZ_nth. destruct (ex_len c Hm) as [-> _]. lia. Qed.
Lemma rd_ov k : (k < 40)%nat → rdZ (offsets m) (Z.of_nat k) = Some (ov k).
Proof using Hm. intros. apply rdZ_nth. destruct (ex_len c Hm) as [_ ->]. lia. Qed.

Lemma seg_of_spec b d :
  (1 <= d <= c)%nat →
  let k := seg_of b d in
  (k < d)%nat ∧ (k ≠ 0%nat → ov k < b) ∧ ∀ k', (k < k' < d)%nat → b <= ov k'.
Proof using Hm.
  induction d as [|[|d] IH]; intros Hd; [lia|simpl; split_and!; [lia|done|intros; lia]|].
  change (seg_of b (S (S d))) with (if ov (S d) <? b then S d else seg_of b (S d)).
  destruct (Z.ltb_spec (ov (S d)) b) as [Hl|Hl].
  - split_and!; [lia|done|]. intros; lia.
  - destruct IH as (H1 & H2 & H3); [lia|]. split_and!; [lia|done|].
    intros k' Hk'. destruct (decide (k' = S d)) as [->|]; [done|]. apply H3. lia.
Qed.

Lemma join_spec s k :
  (k < c)%nat → s < nv k →
  let t := join s k in
  (t <= k)%nat ∧ s < nv t ∧ ∀ k', (k' < t)%nat → nv k' <= s.
Proof using Hm.
  induction k as [|k IH]; intros Hk Hs; simpl; [split_and!; [lia|done|intros; lia]|].
  destruct (Z.leb_spec (nv k) s) as [Hl|Hl].
  - split_and!; [lia|done|]. intros k' Hk'. pose proof (nv_mono k' k). lia.
  - destruct IH as (H1 & H2 & H3); [lia|done|]. split_and!; [lia|done|done].
Qed.

Lemma seg_len_nonneg k : (S k < c)%nat → 0 <= ov (S k) - seg_start k.
Proof using Hm. intros Hk. pose proof (ex_ov c Hm k Hk). unfold seg_start. destruct k; [|lia].
  rewrite (ex_ov0 c Hm) in *. lia. Qed.

Lemma seg_height_bound k :
  (S k < c)%nat →
  1 <= seg_height k <= (ov (S k) - seg_start k + 1) * (replication_level m + 1).
Proof using Hm.
  intros Hk. pose proof (seg_len_nonneg k Hk). pose proof (ex_nv c Hm k ltac:(lia)).
  pose proof (ex_rl c Hm). unfold seg_height.
  set (v := (ov (S k) - seg_start k) * (replication_level m + 1) + replication_level m).
  assert (0 <= v) by (unfold v; nia).
  assert (0 <= v / nv k <= v) by (split; [apply Z.div_pos|apply Z.div_le_upper_bound]; nia).
  unfold v in *. nia.
Qed.

Lemma seg_base_bound k :
  (k < c)%nat → 0 <= seg_base k <= seg_start k * (replication_level m + 1).
Proof using Hm.
  pose proof (ex_rl c Hm).
  induction k as [|k IH]; intros Hk; cbn [seg_base]; [simpl; lia|].
  pose proof (seg_height_bound k Hk). specialize (IH ltac:(lia)).
  cbn [seg_start]. nia.
Qed.

Lemma seg_base_mono k k' : (k <= k' < c)%nat → seg_base k <= seg_base k'.
Proof using Hm.
  intros [Hk Hc]. induction Hk as [|k' Hk IH]; [lia|].
  pose proof (seg_height_bound k' Hc). specialize (IH ltac:(lia)). cbn [seg_base]. lia.
Qed.

Lemma seg_start_le b : 0 <= b → 0 <= seg_start (seg_of b c) <= b.
Proof using Hm.
  intros Hb. destruct (seg_of_spec b c) as (H1 & H2 & _); [destruct (ex_c c Hm); lia|].
  pose proof (ov_nonneg _ H1).
  unfold seg_start. destruct (seg_of b c); [lia|]. specialize (H2 ltac:(lia)). lia.
Qed.

(** *** The loop *)

Definition arr_upto (i : nat) : list Z :=
  (λ t, if (t <? i)%nat then seg_base t * block_size m else 0) <$> seq 0 40.

Lemma arr_rd i t :
  (t < 40)%nat →
  rdZ (arr_upto i) (Z.of_nat t) = Some (if (t <? i)%nat then seg_base t * block_size m else 0).
Proof using Type.
  intros Ht. unfold rdZ, arr_upto. rewrite (proj2 (Z.leb_le _ _)), Nat2Z.id by lia.
  rewrite list_lookup_fmap, lookup_seq_lt by lia. done.
Qed.
Lemma arr_wr i :
  (i < 40)%nat → wrZ (arr_upto i) (Z.of_nat i) (seg_base i * block_size m) = Some (arr_upto (S i)).
Proof using Type.
  intros Hi. rewrite wrZ_Some by (unfold arr_upto; rewrite length_fmap, length_seq; lia).
  f_equal. apply list_eq. intros t. unfold arr_upto.
  destruct (decide (t = i)) as [->|Hne].
  - rewrite list_lookup_insert_eq by (rewrite length_fmap, length_seq; lia).
    rewrite list_lookup_fmap, lookup_seq_lt by lia. cbn [fmap option_fmap option_map].
    rewrite (proj2 (Nat.ltb_lt _ _)) by lia. done.
  - rewrite list_lookup_insert_ne by done. rewrite !list_lookup_fmap.
    destruct (decide (t < 40)%nat).
    + rewrite lookup_seq_lt by lia. cbn [fmap option_fmap option_map]. f_equal.
      rewrite Nat.add_0_l. destruct (Nat.ltb_spec t i), (Nat.ltb_spec t (S i)); try lia; done.
    + rewrite lookup_seq_ge by lia. done.
Qed.
Lemma arr_start : arr_upto 0 = replicate 40 0 ∧ arr_upto 1 = arr_upto 0.
Proof using Type. done. Qed.

Lemma is_shrink_false i : (i <= c)%nat → is_shrink m (Z.of_nat i) = Some false.
Proof using Hm.
  intros Hi. destruct (ex_c c Hm). unfold is_shrink. destruct i as [|i]; [done|].
  rewrite (proj2 (Z.ltb_lt _ _)) by lia. replace (Z.of_nat (S i) - 1) with (Z.of_nat i) by lia.
  rewrite rd_nv by lia. cbn. pose proof (ex_nv c Hm i ltac:(lia)). zbool. done.
Qed.
Lemma nv_nonneg k : 0 <= nv k.
Proof using Hm.
  destruct (decide (k < c)%nat) as [Hk|Hk].
  - pose proof (ex_nv c Hm k Hk). lia.
  - rewrite (ex_nv0 c Hm k) by lia. lia.
Qed.
Lemma no_greatter_shrink i : greatter_shrink (drop i (data_nserv m)) = false.
Proof using Hm.
  assert (Forall (λ d, 0 <= d) (data_nserv m)) as HF.
  { apply Forall_lookup_2. intros k d Hd. pose proof (nv_nonneg k) as Hk.
    unfold nv in Hk. rewrite nth_lookup, Hd in Hk. done. }
  apply (Forall_drop _ i) in HF. induction HF as [|d l Hd _ IH]; [done|].
  cbn. destruct (Z.eqb_spec d 0); [done|]. zbool. done.
Qed.

Context (x j : Z) (Hx : 0 <= x) (Hxo : x * (replication_level m + 1) < 2 ^ 62)
  (Hj : 0 <= j <= replication_level m).
Let b := x / block_size m.
Let kx := seg_of b c.

Lemma b_spec : 0 <= b ∧ b * block_size m <= x < (b + 1) * block_size m.
Proof using Hm Hx.
  destruct (ex_bs c Hm). zdm x (block_size m).
  assert (0 <= x / block_size m) by (apply Z.div_pos; lia). subst b. lia.
Qed.
Lemma kx_spec : (kx < c)%nat ∧ (kx ≠ 0%nat → ov kx < b) ∧ ∀ k', (kx < k' < c)%nat → b <= ov k'.
Proof using Hm. destruct (ex_c c Hm). apply seg_of_spec. lia. Qed.

Lemma start_bound k : (k <= kx)%nat → 0 <= seg_start k ∧ seg_start k <= b.
Proof using Hm Hx.
  intros Hk. destruct b_spec as [Hb _], kx_spec as (H1 & H2 & _).
  unfold seg_start. destruct k as [|k]; [lia|].
  pose proof (ov_nonneg (S k) ltac:(lia)) as Hp. specialize (H2 ltac:(lia)).
  destruct (decide (S k = kx)) as [E|]; [rewrite E in *; lia|]. pose proof (ov_mono (S k) kx ltac:(lia)). lia.
Qed.
Lemma base_bs_bound k :
  (k <= kx)%nat → 0 <= seg_base k * block_size m <= x * (replication_level m + 1).
Proof using Hm Hx.
  intros Hk. destruct b_spec as [Hb Hb'], kx_spec as (H1 & _ & _).
  pose proof (start_bound k Hk). pose proof (seg_base_bound k ltac:(lia)).
  destruct (ex_bs c Hm), (ex_rl c Hm). nia.
Qed.

Lemma in_segment_iff i :
  (i <= kx)%nat → in_segment m b (Z.of_nat i) = Some (bool_decide (i = kx)).
Proof using Hm Hx.
  intros Hi. destruct b_spec as [Hb _], kx_spec as (H1 & H2 & H3), (ex_c c Hm).
  unfold in_segment. replace (Z.of_nat i + 1) with (Z.of_nat (S i)) by lia.
  rewrite rd_nv by lia. rewrite rd_ov by lia. cbn [mbind option_bind].
  assert ((ov i <? b) || (b =? 0) = true) as ->.
  { apply orb_true_iff. destruct (decide (kx = 0%nat)) as [E|Hne].
    - replace i with 0%nat by lia. rewrite (ex_ov0 c Hm). destruct (decide (b = 0)); [right|left]; lia.
    - specialize (H2 Hne). left. destruct (decide (i = kx)) as [E|]; [rewrite E; lia|].
      pose proof (ov_mono i kx). lia. }
  destruct (decide (S i < c)%nat) as [Hc|Hc].
  - pose proof (ex_nv c Hm (S i) Hc). rewrite (proj2 (Z.ltb_lt 0 _)) by lia.
    rewrite rd_ov by lia. cbn [mbind option_bind]. f_equal.
    pose proof (ov_mono 0 (S i) ltac:(lia)) as Hpos. rewrite (ex_ov0 c Hm) in Hpos.
    rewrite (proj2 (Z.eqb_neq _ 0)), orb_false_r by lia.
    destruct (decide (i = kx)) as [E|Hne].
    + rewrite bool_decide_true by done. rewrite E in *. specialize (H3 (S kx) ltac:(lia)). lia.
    + rewrite bool_decide_false by done. specialize (H2 ltac:(lia)).
      destruct (decide (S i = kx)) as [E|]; [rewrite E; lia|]. pose proof (ov_mono (S i) kx). lia.
  - rewrite (ex_nv0 c Hm (S i)) by lia. cbn [Z.ltb Z.compare].
    replace (Z.of_nat i + 2) with (Z.of_nat (S (S i))) by lia. rewrite rd_ov by lia.
    rewrite (ex_ovz c Hm) by lia. cbn [mbind option_bind]. rewrite orb_true_r.
    rewrite bool_decide_true by lia. done.
Qed.

Lemma calc_mdata_exact k y j' :
  (k < c)%nat → 0 <= y <= x → 0 <= j' <= replication_level m →
  calc_mdata m (nv k) y j' = Some (ly_off (mlay k) y j', ly_serv (mlay k) y j').
Proof using Hm Hx Hxo.
  intros Hk Hy Hj'. pose proof (ex_nv c Hm k Hk). destruct (ex_bs c Hm), (ex_rl c Hm).
  unfold calc_mdata. rewrite (i32_id (block_size m)) by lia. zbool.
  f_equal. apply (calc_exact (mlay k) (mlay_ok k Hk)); [|done].
  split; [lia|]. cbn [ly_rl mlay]. nia.
Qed.

Lemma prev_conf_0 pb : prev_conf m pb 0 1 = Some (-1, pb).
Proof using Type. done. Qed.
Lemma prev_conf_S pb i :
  (S i <= kx)%nat →
  prev_conf m pb (Z.of_nat (S i)) 1 = Some (nv i, ov (S i) - seg_start i).
Proof using Hm Hx.
  intros Hi. destruct kx_spec as (H1 & _ & _), (ex_c c Hm).
  pose proof (ov_nonneg i ltac:(lia)). pose proof (ex_ov c Hm i ltac:(lia)).
  unfold prev_conf. replace (Z.of_nat (S i) - 1) with (Z.of_nat i) by lia.
  zbool. rewrite rd_nv, !rd_ov by lia. cbn [mbind option_bind].
  destruct i as [|i]; [cbn -[Z.sub ov nv]; rewrite Z.sub_0_r; done|].
  replace (Z.of_nat (S i) - 1) with (Z.of_nat i) by lia. zbool.
  rewrite rd_nv, rd_ov by lia. cbn [mbind option_bind].
  pose proof (ex_nv c Hm i ltac:(lia)). zbool. cbn [mbind option_bind seg_start].
  f_equal. f_equal. cint. lia.
Qed.

Lemma height_bytes i :
  (S i <= kx)%nat →
  ly_off (mlay i) ((ov (S i) - seg_start i) * block_size m) (replication_level m) + block_size m
  = seg_height i * block_size m.
Proof using Hm.
  intros Hi. destruct (ex_bs c Hm). unfold ly_off, ly_slot, seg_height. cbn [ly_bs ly_rl ly_n mlay].
  rewrite Z.div_mul, Z.mod_mul by lia. lia.
Qed.

Lemma substract_exact s t local :
  (t <= kx)%nat → s < nv t → seg_base kx * block_size m <= local < 2 ^ 63 →
  substract_offset m (arr_upto (S kx)) s local (S t)
  = Some (local - seg_base (join s t) * block_size m).
Proof using Hm Hx.
  destruct kx_spec as (H1 & _ & _), (ex_c c Hm), (ex_bs c Hm).
  induction t as [|t IH]; intros Ht Hs Hl.
  - cbn [substract_offset]. rewrite rd_nv by lia. cbn [mbind option_bind]. pose proof (ex_nv c Hm 0 ltac:(lia)). zbool.
    rewrite is_shrink_false by lia. cbn. f_equal. lia.
  - remember (S t) as t' eqn:Et in |- *. cbn [substract_offset]. subst t'.
    rewrite rd_nv by lia. cbn [mbind option_bind].
    pose proof (ex_nv c Hm (S t) ltac:(lia)). pose proof (ex_nv c Hm t ltac:(lia)).
    zbool. rewrite is_shrink_false by lia. cbn [mbind option_bind negb].
    replace (Z.of_nat (S t) - 1) with (Z.of_nat t) by lia. zbool.
    rewrite rd_nv by lia. cbn [mbind option_bind join]. cint.
    destruct (Z.leb_spec (nv t) s) as [Hj'|Hj'].
    + zbool. rewrite arr_rd by lia. rewrite (proj2 (Nat.ltb_lt _ _)) by lia. cbn [mbind option_bind].
      pose proof (seg_base_mono (S t) kx ltac:(lia)). pose proof (base_bs_bound (S t) ltac:(lia)).
      assert (seg_base (S t) * block_size m <= seg_base kx * block_size m) by nia.
      cint. done.
    + zbool. apply IH; lia.
Qed.

Context (l0 s0 : Z).
Definition before (i : nat) (pb ax al : Z) : cstate :=
  CState (-1) (seg_base (pred i) * block_size m) pb ax al (arr_upto i) x l0 s0.

Lemma acum_exact i :
  (S i <= kx)%nat →
  calc_mdata m (nv i) ((ov (S i) - seg_start i) ⊗ block_size m) (replication_level m)
    = Some (seg_height i * block_size m - block_size m,
            ly_serv (mlay i) ((ov (S i) - seg_start i) * block_size m) (replication_level m)) ∧
  seg_base i * block_size m ⊕ (seg_height i * block_size m - block_size m ⊕ block_size m)
    = seg_base (S i) * block_size m.
Proof using Hm Hx Hxo.
  intros Hi. destruct kx_spec as (H1 & _ & _), b_spec as [Hb Hb'], (ex_bs c Hm).
  pose proof (start_bound (S i) Hi) as Hs. cbn [seg_start] in Hs.
  pose proof (seg_len_nonneg i ltac:(lia)). destruct (ex_rl c Hm).
  pose proof (base_bs_bound i ltac:(lia)). pose proof (base_bs_bound (S i) ltac:(lia)) as HS.
  cbn [seg_base] in *. pose proof (seg_height_bound i ltac:(lia)).
  assert (0 <= seg_start i) by (apply start_bound; lia).
  assert (0 <= (ov (S i) - seg_start i) * block_size m <= x) by nia.
  rewrite (i64_id (_ * block_size m)) by nia.
  split; [|cint; lia].
  rewrite calc_mdata_exact by lia. do 2 f_equal. rewrite <- height_bytes by done. lia.
Qed.

(** The part of an iteration before the block is located. *)
Definition mid (i : nat) (actual pb ax al : Z) : cstate :=
  CState actual (seg_base i * block_size m) pb ax al (arr_upto (S i)) x l0 s0.

Lemma iter_shape i pb ax al :
  (i <= kx)%nat →
  ∃ pb' ax' al',
    mdata_iter m b j (Z.of_nat i) (before i pb ax al) =
    (s2 ← (if decide (i = kx) then locate_actual m j (Z.of_nat i) false (mid i (Z.of_nat i) pb' ax' al')
           else Some (mid i (-1) pb' ax' al'));
     Some (s2, Z.of_nat i =? s_actual s2)).
Proof using Hm Hx Hxo.
  intros Hi. destruct kx_spec as (H1 & _ & _), (ex_c c Hm).
  pose proof (ex_nv c Hm i ltac:(lia)).
  unfold mdata_iter. rewrite rd_nv by lia. cbn [mbind option_bind]. zbool.
  rewrite is_shrink_false, in_segment_iff by lia. cbn [mbind option_bind s_actual before negb Z.eqb Pos.eqb].
  rewrite no_greatter_shrink.
  assert (∃ pb' ax' al' ,
    ('(prev_nserv, prev_block) ← prev_conf m (s_prev_block (before i pb ax al)) (Z.of_nat i) 1;
     if prev_nserv =? -1 then
       Some (CState (if bool_decide (i = kx) then Z.of_nat i else -1) (s_acum (before i pb ax al)) prev_block
               ax al (arr_upto i) x l0 s0)
     else
       '(aux_local, aux_serv) ← calc_mdata m prev_nserv (prev_block ⊗ block_size m) (replication_level m);
       let acum := s_acum (before i pb ax al) ⊕ (aux_local ⊕ block_size m) in
       arr ← wrZ (arr_upto i) (Z.of_nat i) acum;
       Some (CState (if bool_decide (i = kx) then Z.of_nat i else -1) acum prev_block aux_serv aux_local arr x l0 s0))
    = Some (mid i (if bool_decide (i = kx) then Z.of_nat i else -1) pb' ax' al')) as (pb' & ax' & al' & E).
  { destruct i as [|i].
    - exists pb, ax, al. rewrite prev_conf_0. done.
    - rewrite prev_conf_S by done. cbn [mbind option_bind].
      pose proof (ex_nv c Hm i ltac:(lia)). zbool.
      destruct (acum_exact i Hi) as [-> Ea]. cbn [mbind option_bind s_acum before pred].
      rewrite Ea, arr_wr by lia. cbn [mbind option_bind]. eexists _, _, _. reflexivity. }
  exists pb', ax', al'.
  destruct (prev_conf m _ _ 1) as [[pn pbk]|]; [|discriminate E].
  cbn [mbind option_bind] in E |- *. cbn [s_actual s_acum s_prev_block s_aux_serv s_aux_local s_array s_offset s_local s_serv before] in E |- *.
  rewrite E. cbn [mbind option_bind s_actual mid].
  destruct (decide (i = kx)) as [Hk|Hk].
  - rewrite bool_decide_true by done. zbool. destruct (locate_actual _ _ _ _ _); [|done].
    cbn [mbind option_bind]. rewrite andb_true_r. done.
  - rewrite bool_decide_false by done. cbn [Z.eqb Pos.eqb negb andb mbind option_bind].
    rewrite andb_true_r. done.
Qed.

Lemma ly_off_bound k y j' :
  (k < c)%nat → 0 <= y → 0 <= j' <= replication_level m →
  0 <= ly_off (mlay k) y j' <= y * (replication_level m + 1) + (replication_level m + 1) * block_size m.
Proof using Hm.
  intros Hk Hy Hj'. clear -Hm Hk Hy Hj'.
  pose proof (ex_nv c Hm k Hk). destruct (ex_bs c Hm), (ex_rl c Hm).
  unfold ly_off, ly_slot. cbn [ly_bs ly_rl ly_n mlay].
  zdm y (block_size m). assert (0 <= y / block_size m) by (apply Z.div_pos; lia).
  set (q := y / block_size m) in *. set (sl := q * (replication_level m + 1) + j').
  assert (0 <= sl) by (unfold sl; nia).
  assert (0 <= sl / nv k <= sl) by (split; [apply Z.div_pos|apply Z.div_le_upper_bound]; nia).
  assert (sl * block_size m <= (y - y mod block_size m) * (replication_level m + 1) + replication_level m * block_size m)
    by (unfold sl; nia).
  split; [nia|]. assert (0 <= y mod block_size m * replication_level m) by nia. nia.
Qed.

Lemma locate_exact pb ax al :
  let y := x - seg_start kx * block_size m in
  locate_actual m j (Z.of_nat kx) false (mid kx (Z.of_nat kx) pb ax al)
  = Some (CState (Z.of_nat kx) (seg_base kx * block_size m) pb ax al (arr_upto (S kx)) y
            (mloc c x j).1 (mloc c x j).2).
Proof using Hm Hx Hxo Hj.
  intros y. destruct kx_spec as (H1 & _ & _), (ex_c c Hm), b_spec as [Hb Hb'], (ex_bs c Hm), (ex_rl c Hm).
  destruct (start_bound kx ltac:(lia)) as [Hs0 Hs1]. pose proof (ex_nv c Hm kx H1).
  assert (0 <= y <= x) by (unfold y; nia).
  unfold locate_actual. rewrite rd_nv by lia. cbn [mbind option_bind].
  assert ((if Z.of_nat kx =? 0 then Some (s_offset (mid kx (Z.of_nat kx) pb ax al)) else
            oi ← rdZ (offsets m) (Z.of_nat kx);
            Some (s_offset (mid kx (Z.of_nat kx) pb ax al) ⊖ block_size m ⊗ (oi ⊞ 1))) = Some y) as ->.
  { unfold y. destruct kx as [|k] eqn:Ek; [cbn -[Z.sub Z.mul]; f_equal; cbn; lia|].
    zbool. rewrite rd_ov by lia. cbn [mbind option_bind s_offset mid seg_start] in *.
    pose proof (ex_ov c Hm k ltac:(lia)). pose proof (ov_nonneg (S k) ltac:(lia)).
    rewrite (i32_id (_ + 1)) by lia. rewrite (i64_id (_ * _)) by nia. f_equal. cint. lia. }
  cbn [mbind option_bind]. rewrite calc_mdata_exact by lia. cbn [mbind option_bind s_array mid].
  rewrite arr_rd by lia. rewrite (proj2 (Nat.ltb_lt _ _)) by lia. cbn [mbind option_bind].
  pose proof (ly_off_bound kx y j H1 ltac:(lia) Hj) as Ho.
  pose proof (seg_base_bound kx H1) as Hbb. pose proof (base_bs_bound kx ltac:(lia)) as Hbs.
  assert (seg_base kx * block_size m + y * (replication_level m + 1) <= x * (replication_level m + 1)).
  { destruct Hbb as [_ Hbb]. apply (Z.mul_le_mono_nonneg_r _ _ (block_size m)) in Hbb; [|lia].
    unfold y. lia. }
  assert ((replication_level m + 1) * block_size m < 2 ^ 62) by nia.
  rewrite (i64_id (_ + _)) by lia.
  replace (Z.to_nat (Z.of_nat kx + 1)) with (S kx) by lia.
  rewrite substract_exact; [|lia| |lia].
  2: { apply (ly_serv_range (mlay kx) (mlay_ok kx H1)). }
  cbn [mbind option_bind mid s_actual s_acum s_prev_block s_aux_serv s_aux_local]. f_equal. f_equal.
  unfold mloc. cbn [fst]. fold b. fold kx. fold y. lia.
Qed.

Lemma loop_exact fuel i pb ax al :
  (i <= kx)%nat → (kx - i < fuel)%nat →
  (λ s, (s_local s, s_serv s)) <$> mdata_loop m b j (Z.of_nat i) fuel (before i pb ax al) = Some (mloc c x j).
Proof using Hm Hx Hxo Hj.
  revert i pb ax al. induction fuel as [|fuel IH]; intros i pb ax al Hi Hf; [lia|].
  cbn [mdata_loop].
  destruct (iter_shape i pb ax al Hi) as (pb' & ax' & al' & ->).
  destruct (decide (i = kx)) as [E|Hne].
  - rewrite E, locate_exact. cbn [mbind option_bind s_actual]. rewrite Z.eqb_refl.
    cbn [fmap option_fmap option_map s_local s_serv]. destruct (mloc c x j). done.
  - cbn [mbind option_bind s_actual mid]. zbool.
    replace (Z.of_nat i + 1) with (Z.of_nat (S i)) by lia.
    apply (IH (S i)); lia.
Qed.

Lemma mdata_exact : XpnCalculateBlockMdata m x j l0 s0 = Some (mloc c x j).
Proof using Hm Hx Hxo Hj.
  destruct (ex_c c Hm), (ex_bs c Hm).
  unfold XpnCalculateBlockMdata.
  change (rdZ (data_nserv m) 1) with (rdZ (data_nserv m) (Z.of_nat 1)).
  change (rdZ (data_nserv m) 0) with (rdZ (data_nserv m) (Z.of_nat 0)).
  rewrite !rd_nv by lia. cbn [mbind option_bind].
  destruct (Z.eqb_spec (nv 1) 0) as [Hz|Hz].
  - assert (kx = 0%nat) as Hk.
    { destruct (decide (c = 1%nat)) as [E|]; [destruct kx_spec; lia|].
      pose proof (ex_nv c Hm 1 ltac:(lia)). lia. }
    rewrite calc_mdata_exact by lia. unfold mloc. fold b. fold kx. rewrite Hk.
    cbn [join seg_start seg_base]. rewrite Z.sub_0_r. f_equal. f_equal. lia.
  - zbool. rewrite quot_div by lia. fold b.
    pose proof (loop_exact 40 0 0 0 0 ltac:(lia)) as HL.
    destruct kx_spec as (Hk & _ & _). specialize (HL ltac:(lia)).
    change (CState (-1) 0 0 0 0 _ x l0 s0) with (before 0 0 0 0).
    change (Z.to_nat XPN_METADATA_MAX_RECONSTURCTIONS) with 40%nat.
    change (Z.of_nat 0) with 0 in HL.
    destruct (mdata_loop m b j 0 40 (before 0 0 0 0)); [|discriminate HL]. exact HL.
Qed.

(** The line a replica occupies stays below the next segment. *)
Lemma mloc_line :
  let k := kx in
  let y := x - seg_start k * block_size m in
  (mloc c x j).1 / block_size m = ly_slot (mlay k) y j / nv k + (seg_base k - seg_base (join (mloc c x j).2 k)) ∧
  (mloc c x j).1 mod block_size m = x mod block_size m ∧
  0 <= ly_slot (mlay k) y j ∧
  ly_slot (mlay k) y j / (replication_level m + 1) = b - seg_start k ∧
  ly_slot (mlay k) y j mod (replication_level m + 1) = j ∧
  ((S k < c)%nat → ly_slot (mlay k) y j / nv k < seg_height k).
Proof using Hm Hx Hj.
  intros k y. destruct (ex_bs c Hm), (ex_rl c Hm), b_spec as [Hb Hb'], kx_spec as (Hk & _ & H3).
  destruct (start_bound k ltac:(unfold k; lia)) as [Hs0 Hs1].
  assert (y / block_size m = b - seg_start k ∧ y mod block_size m = x mod block_size m) as [Ey Em].
  { zdm x (block_size m). apply div_unique_pos; [lia|]. unfold y, b. lia. }
  destruct (ly_slot_block (mlay k) (mlay_ok k Hk) y j Hj) as [Eb Ej].
  cbn [ly_bs ly_rl mlay] in Eb, Ej.
  assert (0 <= ly_slot (mlay k) y j) by (unfold ly_slot; cbn [ly_bs ly_rl mlay]; rewrite Ey; nia).
  pose proof (ex_nv c Hm k Hk).
  split_and!; [| |done|rewrite Eb; exact Ey|done|].
  - unfold mloc. cbn [fst snd]. fold b kx k y. unfold ly_off at 1. cbn [ly_bs ly_n mlay].
    zdm y (block_size m).
    match goal with |- ?e / _ = ?q => apply (div_unique_pos e _ q (y mod block_size m)); lia end.
  - unfold mloc. cbn [fst snd]. fold b kx k y. unfold ly_off at 1. cbn [ly_bs ly_n mlay].
    rewrite <- Em. zdm y (block_size m).
    match goal with |- ?e mod _ = _ =>
      apply (div_unique_pos e _ (ly_slot (mlay k) y j / nv k
        + (seg_base k - seg_base (join (ly_serv (mlay k) y j) k))) (y mod block_size m)); lia end.
  - intros HSk. specialize (H3 (S k) ltac:(unfold k; lia)). unfold seg_height.
    match goal with |- ?u / ?n < ?v / _ + 1 =>
      enough (u / n <= v / n) by lia; apply Z.div_le_mono; [lia|] end.
    unfold ly_slot at 1. cbn [ly_bs ly_rl mlay]. rewrite Ey. nia.
Qed.
End spec.

(** ** No two replicas share a place *)

Lemma join_stable m c s k k' :
  expanded m c → (k <= k' < c)%nat → s < nv m k → join m s k' = join m s k.
Proof.
  intros Hm [Hk Hc] Hs. induction Hk as [|k' Hk IH]; [done|].
  cbn [join]. pose proof (nv_mono m c Hm k k' ltac:(lia)). zbool. apply IH. lia.
Qed.

Section inj.
Context (m : xpn_metadata) (c : nat) (Hm : expanded m c).
Definition addr_ok (x j : Z) : Prop := 0 <= x ∧ 0 <= j <= replication_level m.

Lemma mloc_seg_le x j x' j' :
  addr_ok x j → addr_ok x' j' → mloc m c x j = mloc m c x' j' →
  (seg_of m (x / block_size m) c <= seg_of m (x' / block_size m) c)%nat →
  seg_of m (x / block_size m) c = seg_of m (x' / block_size m) c.
Proof using Hm.
  intros [Hx Hj] [Hx' Hj'] E Hle.
  destruct (mloc_line m c Hm x j Hx Hj) as (L1 & _ & P1 & _ & _ & B1).
  destruct (mloc_line m c Hm x' j' Hx' Hj') as (L2 & _ & P2 & _ & _ & _).
  destruct (kx_spec m c Hm x) as (K1 & _ & _), (kx_spec m c Hm x') as (K2 & _ & _).
  assert ((mloc m c x j).2 < nv m (seg_of m (x / block_size m) c)) as Hs.
  { unfold mloc. cbn [snd]. apply (ly_serv_range (mlay m _) (mlay_ok m c Hm _ K1)). }
  rewrite <- E, L1 in L2.
  rewrite (join_stable m c _ _ _ Hm (conj Hle K2) Hs) in L2.
  destruct (decide (seg_of m (x / block_size m) c = seg_of m (x' / block_size m) c)) as [|Hne]; [done|].
  specialize (B1 ltac:(lia)).
  assert (Hb : seg_base m (S (seg_of m (x / block_size m) c)) <= seg_base m (seg_of m (x' / block_size m) c))
    by (apply (seg_base_mono m c Hm); lia).
  cbn [seg_base] in Hb. pose proof (ex_nv m c Hm _ K2).
  pose proof (Z.div_pos _ (nv m (seg_of m (x' / block_size m) c)) P2 ltac:(lia)). lia.
Qed.

Lemma mloc_inj x j x' j' :
  addr_ok x j → addr_ok x' j' → mloc m c x j = mloc m c x' j' → x = x' ∧ j = j'.
Proof using Hm.
  intros A A' E.
  assert (seg_of m (x / block_size m) c = seg_of m (x' / block_size m) c) as Ek.
  { destruct (Nat.le_ge_cases (seg_of m (x / block_size m) c) (seg_of m (x' / block_size m) c)).
    - by eapply mloc_seg_le.
    - symmetry. by eapply mloc_seg_le. }
  destruct A as [Hx Hj], A' as [Hx' Hj'].
  destruct (mloc_line m c Hm x j Hx Hj) as (L1 & M1 & _ & S1 & R1 & _).
  destruct (mloc_line m c Hm x' j' Hx' Hj') as (L2 & M2 & _ & S2 & R2 & _).
  destruct (kx_spec m c Hm x) as (K1 & _ & _).
  rewrite <- E, L1, <- Ek in L2. rewrite <- E, M1 in M2. rewrite <- Ek in S2, R2.
  assert (Es : (mloc m c x j).2 = (mloc m c x' j').2) by (rewrite E; done).
  unfold mloc in Es. cbn [snd] in Es. rewrite <- Ek in Es.
  set (k := seg_of m (x / block_size m) c) in *.
  pose proof (ly_slot_back (mlay m k) (mlay_ok m c Hm k K1) (x - seg_start m k * block_size m) j) as B1.
  pose proof (ly_slot_back (mlay m k) (mlay_ok m c Hm k K1) (x' - seg_start m k * block_size m) j') as B2.
  cbn [ly_n ly_fn mlay] in B1, B2.
  rewrite Es in B1. rewrite B1, B2 in L2.
  assert (ly_slot (mlay m k) (x - seg_start m k * block_size m) j
          = ly_slot (mlay m k) (x' - seg_start m k * block_size m) j') as Esl.
  { rewrite <- B1, <- B2 in L2. rewrite B1, B2. f_equal. f_equal. lia. }
  rewrite Esl in S1, R1. destruct (ex_bs m c Hm).
  split; [|lia].
  rewrite (Z.div_mod x (block_size m)), (Z.div_mod x' (block_size m)) by lia.
  rewrite M2. f_equal. f_equal. lia.
Qed.
End inj.

(** ** Expanding a file *)

Lemma nth_insert_eq {A} (l : list A) k x d : (k < length l)%nat → nth k (<[k := x]> l) d = x.
Proof. intros. rewrite nth_lookup, list_lookup_insert_eq by done. done. Qed.
Lemma nth_insert_ne {A} (l : list A) k k' x d : k ≠ k' → nth k' (<[k := x]> l) d = nth k' l d.
Proof. intros. rewrite !nth_lookup, list_lookup_insert_ne by done. done. Qed.

Lemma seg_of_S m b d :
  (1 <= d)%nat → seg_of m b (S d) = if ov m d <? b then d else seg_of m b d.
Proof. intros. destruct d; [lia|done]. Qed.

Section expand.
Context (m : xpn_metadata) (c : nat) (size : Z) (Hm : expanded m c).
Let L := limit_blocks m (nv m (pred c)).
Context (Hc : (c < 38)%nat) (Hsize : nv m (pred c) < size < 2 ^ 30) (HL : ov m (pred c) < L < 2 ^ 31 - 1).

Definition after_expand : xpn_metadata :=
  XpnMetadata (magic_number m) (version m) (type_ m) (block_size m) (file_size m)
    (replication_level m) (first_node m) (distribution_policy m)
    (<[c := size]> (data_nserv m)) (<[c := limit_blocks m (nv m (pred c))]> (offsets m)).

Lemma expand_from_exact i fuel :
  (1 <= i <= c)%nat → (c - i < fuel)%nat →
  expand_from m size (Z.of_nat i) fuel = Some after_expand.
Proof using Hm Hc.
  revert i. induction fuel as [|fuel IH]; intros i Hi Hf; [lia|]. cbn [expand_from].
  destruct (ex_len m c Hm) as [E1 E2], (ex_bs m c Hm). rewrite (rd_nv m c Hm) by lia. cbn [mbind option_bind].
  destruct (decide (i = c)) as [->|Hne].
  - rewrite (ex_nv0 m c Hm c) by lia. cbn [Z.eqb].
    replace (Z.of_nat c - 1) with (Z.of_nat (pred c)) by lia.
    rewrite (rd_nv m c Hm) by lia. cbn [mbind option_bind].
    pose proof (ex_nv m c Hm (pred c) ltac:(lia)). zbool.
    unfold set_conf. rewrite !wrZ_Some by lia. done.
  - pose proof (ex_nv m c Hm i ltac:(lia)). zbool.
    replace (Z.of_nat i + 1) with (Z.of_nat (S i)) by lia. apply IH; lia.
Qed.
Lemma expand_mdata_exact : expand_mdata m size = Some after_expand.
Proof using Hm Hc. destruct (ex_c m c Hm). apply (expand_from_exact 1); [lia|].
  change (Z.to_nat (XPN_METADATA_MAX_RECONSTURCTIONS - 1)) with 39%nat. lia. Qed.

Lemma nv_after k : nv after_expand k = if decide (k = c) then size else nv m k.
Proof using Hm Hc.
  destruct (ex_len m c Hm) as [E1 E2]. unfold nv, after_expand. cbn [data_nserv].
  destruct (decide (k = c)) as [->|]; [apply nth_insert_eq; lia|by apply nth_insert_ne].
Qed.
Lemma ov_after k : ov after_expand k = if decide (k = c) then L else ov m k.
Proof using Hm Hc.
  destruct (ex_len m c Hm) as [E1 E2]. unfold ov, after_expand. cbn [offsets].
  destruct (decide (k = c)) as [->|]; [apply nth_insert_eq; lia|by apply nth_insert_ne].
Qed.

Lemma after_expanded : expanded after_expand (S c).
Proof using Hm Hc Hsize HL.
  destruct (ex_c m c Hm). pose proof (ex_nv m c Hm (pred c) ltac:(lia)).
  split; intros *; rewrite ?nv_after, ?ov_after; cbn [block_size replication_level first_node after_expand].
  - lia.
  - unfold after_expand. cbn [data_nserv offsets]. rewrite !length_insert. apply (ex_len m c Hm).
  - apply (ex_bs m c Hm).
  - apply (ex_rl m c Hm).
  - rewrite decide_False by lia. apply (ex_fn m c Hm).
  - intros Hk. destruct (decide (k = c)); [lia|]. apply (ex_nv m c Hm). lia.
  - intros Hk. rewrite (decide_False (P := k = c)) by lia. destruct (decide (S k = c)) as [E|].
    + replace k with (pred c) by lia. lia.
    + apply (ex_grow m c Hm). lia.
  - intros Hk. rewrite decide_False by lia. apply (ex_nv0 m c Hm). lia.
  - rewrite decide_False by lia. apply (ex_ov0 m c Hm).
  - intros Hk. rewrite (decide_False (P := k = c)) by lia. destruct (decide (S k = c)) as [E|].
    + replace k with (pred c) by lia. lia.
    + apply (ex_ov m c Hm). lia.
  - intros Hk. rewrite decide_False by lia. apply (ex_ovz m c Hm). lia.
Qed.

Lemma seg_of_after b d : (1 <= d <= c)%nat → seg_of after_expand b d = seg_of m b d.
Proof using Hm Hc.
  induction d as [|[|d] IH]; intros Hd; [lia|done|].
  rewrite !(seg_of_S _ _ (S d)) by lia.
  rewrite ov_after, decide_False, IH by lia. done.
Qed.
Lemma seg_base_after k : (k < c)%nat → seg_base after_expand k = seg_base m k ∧ seg_start after_expand k = seg_start m k.
Proof using Hm Hc.
  induction k as [|k IH]; intros Hk; [done|]. destruct (IH ltac:(lia)) as [E1 E2].
  cbn [seg_base seg_start]. unfold seg_height.
  rewrite E1, E2, !ov_after, nv_after, !decide_False by lia. done.
Qed.
Lemma join_after s k : (k < c)%nat → join after_expand s k = join m s k.
Proof using Hm Hc.
  induction k as [|k IH]; intros Hk; [done|]. cbn [join].
  rewrite nv_after, decide_False, IH by lia. done.
Qed.

(** The blocks up to the limit stay where they were. *)
Lemma mloc_after x j :
  0 <= x → x / block_size m <= L → mloc after_expand (S c) x j = mloc m c x j.
Proof using Hm Hc.
  intros Hx Hb. destruct (ex_c m c Hm).
  assert (E : seg_of after_expand (x / block_size m) (S c) = seg_of m (x / block_size m) c).
  { rewrite seg_of_S by lia.
    rewrite ov_after, decide_True by done. zbool. apply seg_of_after. lia. }
  unfold mloc. change (block_size after_expand) with (block_size m). rewrite E.
  destruct (kx_spec m c Hm x) as (K & _ & _).
  set (k := seg_of m (x / block_size m) c) in *.
  destruct (seg_base_after k K) as [E1 E2]. rewrite E1, E2.
  assert (mlay after_expand k = mlay m k) as ->.
  { unfold mlay. rewrite nv_after, decide_False by lia. done. }
  rewrite join_after by done.
  match goal with |- context [seg_base after_expand (join m ?s k)] => set (t := join m s k) end.
  assert (t <= k)%nat as Ht.
  { unfold t. clear. generalize (ly_serv (mlay m k) (x - seg_start m k * block_size m) j).
    intros s. induction k as [|k IH]; cbn [join]; [lia|]. destruct (_ <=? _); lia. }
  destruct (seg_base_after t ltac:(lia)) as [-> _]. done.
Qed.
End expand.

(** ** The properties of the metadata *)

Section sample.
(** A file of 64-byte blocks, one replica, that grew from 3 to 5 and to 8 servers. *)
Definition sample_mdata : xpn_metadata :=
  XpnMetadata XPN_MAGIC_NUMBER 1 0 64 1500 1 2 1
    ([3; 5; 8] ++ replicate 37 0) ([0; 5; 14] ++ replicate 37 0).
Lemma sample_expanded : expanded sample_mdata 3.
Proof.
  split; try (cbn; lia).
  - intros [|[|[|k]]] Hk; cbn; lia.
  - intros [|[|[|k]]] Hk; cbn; lia.
  - intros [|[|[|k]]] Hk; [lia..|]. apply (nth_replicate_eq k 37).
  - intros [|[|[|k]]] Hk; cbn; lia.
  - intros [|[|[|k]]] Hk; [lia..|]. apply (nth_replicate_eq k 37).
Qed.
End sample.

(** C17: for every file that was expanded any number of times that fits the
    metadata, [XpnCalculateBlockMdata] computes the segmented layout, whatever
    its out-parameters held, and never leaves its arrays. *)
Theorem mdata_segmented m c x j local0 serv0 :
  expanded m c → 0 <= x → x * (replication_level m + 1) < 2 ^ 62 → 0 <= j <= replication_level m →
  XpnCalculateBlockMdata m x j local0 serv0 = Some (mloc m c x j).
Proof. intros Hm Hx Hxo Hj. by apply mdata_exact. Qed.

Lemma mdata_segmented_witness :
  XpnCalculateBlockMdata sample_mdata 1000 1 77 (-5) = Some (mloc sample_mdata 3 1000 1) ∧
  mloc sample_mdata 3 1000 1 = (296, 3).
Proof.
  split; [|vm_compute; reflexivity].
  apply (mdata_segmented sample_mdata 3 1000 1 77 (-5) sample_expanded); cbn; lia.
Defined.

(** C21: in an expanded file no two replicas of no two bytes share a place,
    across all the configurations. *)
Theorem mdata_no_collision m c x j x' j' l s l' s' :
  expanded m c →
  0 <= x → x * (replication_level m + 1) < 2 ^ 62 → 0 <= j <= replication_level m →
  0 <= x' → x' * (replication_level m + 1) < 2 ^ 62 → 0 <= j' <= replication_level m →
  (x, j) ≠ (x', j') →
  XpnCalculateBlockMdata m x j l s ≠ XpnCalculateBlockMdata m x' j' l' s'.
Proof.
  intros Hm Hx Hxo Hj Hx' Hxo' Hj' Hne E.
  rewrite (mdata_exact m c Hm x j Hx Hxo Hj), (mdata_exact m c Hm x' j' Hx' Hxo' Hj') in E.
  apply (inj Some) in E. destruct (mloc_inj m c Hm x j x' j'); [by split..|exact E|]. congruence.
Qed.

Lemma mdata_no_collision_witness :
  XpnCalculateBlockMdata sample_mdata 100 0 0 0 ≠ XpnCalculateBlockMdata sample_mdata 1000 1 0 0.
Proof.
  apply (mdata_no_collision sample_mdata 3 100 0 1000 1 0 0 0 0 sample_expanded); try (cbn; lia).
  discriminate.
Defined.

(** The limit of the old configuration, on the integers: the blocks of the
    file, rounded up to whole lines. *)
Lemma limit_blocks_spec m prev :
  0 < block_size m → 0 <= file_size m → 0 < prev → file_size m / block_size m + prev < 2 ^ 31 →
  let blocks := file_size m / block_size m in
  let limit := limit_blocks m prev in
  blocks - 1 <= limit < blocks + prev - 1 ∧ (blocks mod prev ≠ 0 → blocks <= limit).
Proof.
  intros Hb Hf Hp Hlt blocks limit. pose proof (Z.div_pos (file_size m) (block_size m) Hf Hb) as H0. fold blocks in H0, Hlt.
  assert (limit = (blocks + prev - 1) / prev * prev - 1) as ->.
  { unfold limit, limit_blocks. rewrite (Z.quot_div_nonneg (file_size m)) by lia. fold blocks.
    rewrite (i32_id blocks), (i32_id (blocks + prev)), (i32_id (blocks + prev - 1)) by lia.
    rewrite Z.quot_div_nonneg by lia. pose proof (Z.mul_div_le (blocks + prev - 1) prev Hp).
    pose proof (Z.div_pos (blocks + prev - 1) prev ltac:(lia) Hp).
    rewrite (i32_id (_ * _)), (i32_id (_ - 1)) by nia. done. }
  pose proof (Z.div_mod (blocks + prev - 1) prev ltac:(lia)) as E.
  pose proof (Z.mod_pos_bound (blocks + prev - 1) prev Hp) as R. split; [nia|]. intros Hm.
  enough ((blocks + prev - 1) mod prev ≠ prev - 1) by nia. intros Er. apply Hm.
  replace blocks with (((blocks + prev - 1) / prev) * prev) by lia. apply Z.mod_mul; lia.
Qed.

(** [copy] of xpn_expand.c appends a configuration that leaves every byte
    of the file where it was.  The file has blocks beyond the last expansion
    and either is made of whole blocks or its whole blocks do not fill the last
    line (the other files are those of [expand_moves_partial_block]). *)
Theorem expand_preserves_placement m c size x j l s :
  let blocks := file_size m / block_size m in
  let prev := nv m (pred c) in
  expanded m c → (c < 38)%nat → prev < size < 2 ^ 30 →
  ov m (pred c) + 1 < blocks → blocks + prev < 2 ^ 31 →
  file_size m mod block_size m = 0 ∨ blocks mod prev ≠ 0 →
  0 <= x < file_size m → x * (replication_level m + 1) < 2 ^ 62 → 0 <= j <= replication_level m →
  ∃ m', expand_mdata m size = Some m' ∧ expanded m' (S c) ∧
        XpnCalculateBlockMdata m' x j l s = XpnCalculateBlockMdata m x j l s.
Proof.
  intros blocks prev Hm Hc Hsize Hov Hbl Hwhole Hx Hxo Hj. exists (after_expand m c size).
  destruct (ex_bs m c Hm), (ex_c m c Hm). pose proof (ex_nv m c Hm (pred c) ltac:(lia)) as Hp. fold prev in Hp.
  destruct (limit_blocks_spec m prev) as [HL Hlim]; [lia..|]. fold blocks in HL, Hlim.
  pose proof (after_expanded m c size Hm Hc Hsize ltac:(fold prev; lia)) as Hm'.
  split_and!; [by apply expand_mdata_exact|done|].
  rewrite (mdata_exact m c Hm x j), (mdata_exact _ (S c) Hm' x j) by (cbn; lia).
  f_equal. apply mloc_after; [done|done|lia|]. fold prev.
  pose proof (Z.div_mod (file_size m) (block_size m) ltac:(lia)) as E. fold blocks in E.
  pose proof (Z.mod_pos_bound (file_size m) (block_size m) ltac:(lia)).
  apply Z.lt_succ_r, Z.div_lt_upper_bound; [lia|]. destruct Hwhole as [Hw|Hw]; [|specialize (Hlim Hw)]; nia.
Qed.

Lemma expand_preserves_placement_witness :
  ∃ m', expand_mdata sample_mdata 9 = Some m' ∧ expanded m' 4 ∧
        XpnCalculateBlockMdata m' 1499 1 0 0 = XpnCalculateBlockMdata sample_mdata 1499 1 0 0.
Proof.
  apply (expand_preserves_placement sample_mdata 3 9 1499 1 0 0 sample_expanded); zcalc.
Defined.

(** A file of ten bytes on four servers, and a file of ten and a half blocks
    that grew from 3 to 5 servers. *)
Definition small_mdata : xpn_metadata :=
  XpnMetadata XPN_MAGIC_NUMBER 1 0 64 10 0 0 1 (4 :: replicate 39 0) (replicate 40 0).
Definition partial_mdata : xpn_metadata :=
  XpnMetadata XPN_MAGIC_NUMBER 1 0 64 672 0 0 1 ([3; 5] ++ replicate 38 0) ([0; 5] ++ replicate 38 0).

