(* ===== verification/Cstr.v ===== *)
(** * Cstr: C strings

    A C string is the list of its characters before the terminator, so no
    character of it is NUL.  The C library's [strlen], [strcmp], [strncpy],
    [atoi], [basename] and [dirname] that the code calls are modelled here, and
    the scans ([while ((s[i] != 0) && ...) i++]) the parsers are written with. *)

From S2P Require Import Prelude.
From Stdlib Require Export Ascii.

Abbreviation cstr := (list ascii) (only parsing).
Definition NUL : ascii := "000"%char.
Definition slash : ascii := "/"%char.
Definition colon : ascii := ":"%char.
Definition str (s : String.string) : cstr := String.list_ascii_of_string s.
Arguments str s%_string_scope.

Definition ceqb (a b : ascii) : bool := Ascii.eqb a b.

(** A [char] promoted to [int]: [char] is signed. *)
Definition char_int (a : ascii) : Z :=
  let n := Z.of_N (N_of_ascii a) in if n <? 128 then n else n - 256.

(** The character at index [i]; the terminator is at [strlen]. *)
Definition at_ (s : cstr) (i : nat) : ascii := nth i s NUL.
Definition cstr_ok (s : cstr) : Prop := NUL ∉ s.

(** [j] with [i <= j], the first index whose character satisfies [stop], or
    [strlen s]: the scan [while ((s[i] != 0) && !stop(s[i])) i++]. *)
Fixpoint span (stop : ascii → bool) (s : cstr) : nat :=
  match s with
  | [] => 0
  | a :: s' => if stop a then 0 else S (span stop s')
  end.
Definition scan (stop : ascii → bool) (s : cstr) (i : nat) : nat := i + span stop (drop i s).

(** [strncpy (d, s + i, n); d[n] = 0]. *)
Definition substr (s : cstr) (i n : nat) : cstr := take n (drop i s).

Definition strcmp_eq (a b : cstr) : bool := bool_decide (a = b).

Definition tolower (a : ascii) : ascii :=
  let n := N_of_ascii a in
  if (N.leb 65 n && N.leb n 90)%bool then ascii_of_N (n + 32) else a.
Definition strcasecmp_eq (a b : cstr) : bool := bool_decide (tolower <$> a = tolower <$> b).

(** [basename] and [dirname] of <libgen.h>. *)
Fixpoint strip_slash (r : cstr) : cstr :=
  match r with a :: r' => if ceqb a slash then strip_slash r' else r | [] => [] end.
Definition rspan (r : cstr) : nat := span (λ a, ceqb a slash) r.

Definition basename (s : cstr) : cstr :=
  match s with
  | [] => ["."%char]
  | _ => match strip_slash (rev s) with
         | [] => [slash]
         | r => rev (take (rspan r) r)
         end
  end.
Definition dirname (s : cstr) : cstr :=
  match s with
  | [] => ["."%char]
  | _ => match strip_slash (rev s) with
         | [] => [slash]
         | r => match drop (rspan r) r with
                | [] => ["."%char]
                | r' => match strip_slash r' with [] => [slash] | r'' => rev r'' end
                end
         end
  end.

(** [atoi]: [strtol] in base 10, which saturates at the bounds of [long],
    converted to [int]. *)
Definition is_space (a : ascii) : bool :=
  let n := N_of_ascii a in (N.eqb n 32 || (N.leb 9 n && N.leb n 13))%bool.
Definition is_digit (a : ascii) : bool :=
  let n := N_of_ascii a in (N.leb 48 n && N.leb n 57)%bool.
Definition digit_val (a : ascii) : Z := Z.of_N (N_of_ascii a) - 48.
Fixpoint digits_val (acc : Z) (s : cstr) : Z :=
  match s with
  | [] => acc
  | a :: s' => if is_digit a then digits_val (acc * 10 + digit_val a) s' else acc
  end.
Definition clamp64 (z : Z) : Z := Z.max (- 2 ^ 63) (Z.min (2 ^ 63 - 1) z).
Fixpoint skip_space (s : cstr) : cstr :=
  match s with a :: s' => if is_space a then skip_space s' else s | [] => [] end.
Definition atoi (s : cstr) : Z :=
  match skip_space s with
  | a :: s' =>
      if ceqb a "-"%char then i32 (clamp64 (- digits_val 0 s'))
      else if ceqb a "+"%char then i32 (clamp64 (digits_val 0 s'))
      else i32 (clamp64 (digits_val 0 (a :: s')))
  | [] => 0
  end.

(** ** Decimal numerals *)

Definition digit (d : Z) : ascii := ascii_of_N (Z.to_N (48 + d)).
Fixpoint dec_aux (fuel : nat) (n : Z) : cstr :=
  match fuel with
  | O => []
  | S f => if n <? 10 then [digit n] else dec_aux f (n / 10) ++ [digit (n mod 10)]
  end.
(** The decimal numeral of [0 <= n < 10^20], as [printf] writes it. *)
Definition dec (n : Z) : cstr := dec_aux 20 n.

(** ** Lemmas *)

Lemma ceqb_eq a b : ceqb a b = true ↔ a = b.
Proof. apply Ascii.eqb_eq. Qed.
Lemma ceqb_refl a : ceqb a a = true.
Proof. by apply ceqb_eq. Qed.
Lemma ceqb_ne a b : a ≠ b → ceqb a b = false.
Proof. intros. by apply Ascii.eqb_neq. Qed.

Lemma span_app stop s a t :
  Forall (λ c, stop c = false) s → stop a = true → span stop (s ++ a :: t) = length s.
Proof. intros HF Ha. induction HF as [|c s Hc _ IH]; cbn; [by rewrite Ha|]. by rewrite Hc, IH. Qed.
Lemma span_all stop s : Forall (λ c, stop c = false) s → span stop s = length s.
Proof. intros HF. induction HF as [|c s Hc _ IH]; cbn; [done|]. by rewrite Hc, IH. Qed.
Lemma span_le stop s : (span stop s <= length s)%nat.
Proof. induction s as [|a s IH]; cbn; [lia|]. destruct (stop a); lia. Qed.

Lemma scan_app stop s t a u i :
  i = length s → Forall (λ c, stop c = false) t → stop a = true →
  scan stop (s ++ t ++ a :: u) i = (length s + length t)%nat.
Proof. intros -> Ht Ha. unfold scan. rewrite drop_app_length, span_app by done. done. Qed.
Lemma scan_end stop s t i :
  i = length s → Forall (λ c, stop c = false) t →
  scan stop (s ++ t) i = (length s + length t)%nat.
Proof. intros -> Ht. unfold scan. rewrite drop_app_length, span_all by done. done. Qed.

Lemma at_app s a t : at_ (s ++ a :: t) (length s) = a.
Proof. unfold at_. rewrite nth_lookup, lookup_app_r, Nat.sub_diag by lia. done. Qed.
Lemma at_end s : at_ s (length s) = NUL.
Proof. unfold at_. by apply nth_overflow. Qed.
Lemma substr_app s t u i n : i = length s → n = length t → substr (s ++ t ++ u) i n = t.
Proof. intros -> ->. unfold substr. by rewrite drop_app_length, take_app_length. Qed.

Lemma cstr_ok_app s t : cstr_ok (s ++ t) ↔ cstr_ok s ∧ cstr_ok t.
Proof. unfold cstr_ok. rewrite elem_of_app. tauto. Qed.
Lemma cstr_ok_cons a t : cstr_ok (a :: t) ↔ a ≠ NUL ∧ cstr_ok t.
Proof. unfold cstr_ok. rewrite not_elem_of_cons. split; intros [H1 H2]; split; congruence || done. Qed.

Lemma strip_slash_app s a t :
  Forall (λ c, c = slash) s → a ≠ slash → strip_slash (s ++ a :: t) = a :: t.
Proof. intros HF Ha. induction HF as [|c s -> _ IH]; cbn; [by rewrite ceqb_ne|done]. Qed.

(** The last component of a path, whatever precedes it. *)
Lemma basename_app p n :
  n ≠ [] → slash ∉ n → basename (p ++ slash :: n) = n.
Proof.
  intros Hn Hs. unfold basename.
  destruct (p ++ slash :: n) as [|a0 l0] eqn:E; [by destruct p|]. rewrite <- E. clear a0 l0 E.
  rewrite rev_app_distr. cbn [rev]. rewrite <- app_assoc. cbn [app].
  assert (slash ∉ rev n) as Hr by (rewrite list_elem_of_In, <- in_rev, <- list_elem_of_In; done).
  destruct (rev n) as [|a r] eqn:Er.
  { apply (f_equal (@rev ascii)) in Er. rewrite rev_involutive in Er. done. }
  apply not_elem_of_cons in Hr as [Ha Hr].
  change ((a :: r) ++ slash :: rev p) with ([] ++ a :: (r ++ slash :: rev p)).
  rewrite strip_slash_app; [|constructor|done].
  unfold rspan. change (a :: r ++ slash :: rev p) with ((a :: r) ++ slash :: rev p).
  rewrite span_app.
  - rewrite take_app_length, <- Er. apply rev_involutive.
  - apply Forall_cons. split; [by apply ceqb_ne|]. apply Forall_forall. intros c Hc.
    apply ceqb_ne. intros ->. done.
  - apply ceqb_refl.
Qed.

Lemma digit_digit d : 0 <= d < 10 → is_digit (digit d) = true ∧ digit_val (digit d) = d.
Proof.
  intros Hd.
  assert (Forall (λ d, is_digit (digit d) = true ∧ digit_val (digit d) = d) (seqZ 0 10)) as HF
    by (vm_compute; repeat constructor).
  rewrite Forall_forall in HF. apply HF, elem_of_seqZ. lia.
Qed.

Lemma digits_val_app acc s t :
  Forall (λ c, is_digit c = true) s → digits_val acc (s ++ t) = digits_val (digits_val acc s) t.
Proof. intros HF. revert acc. induction HF as [|c s Hc _ IH]; intros acc; cbn; [done|]. by rewrite Hc, IH. Qed.

Lemma dec_aux_digits f n : 0 <= n → Forall (λ c, is_digit c = true) (dec_aux f n).
Proof.
  revert n. induction f as [|f IH]; intros n Hn; cbn [dec_aux]; [constructor|].
  destruct (Z.ltb_spec n 10).
  - repeat constructor. apply digit_digit. lia.
  - apply Forall_app. split; [apply IH; apply Z.div_pos; lia|].
    repeat constructor. apply digit_digit. apply Z.mod_pos_bound. lia.
Qed.
Lemma dec_aux_val f n : 0 <= n < 10 ^ Z.of_nat f → digits_val 0 (dec_aux f n) = n.
Proof.
  revert n. induction f as [|f IH]; intros n Hn; cbn [dec_aux]; [cbn in *; lia|].
  assert (10 ^ Z.of_nat (S f) = 10 * 10 ^ Z.of_nat f) as E
    by (rewrite Nat2Z.inj_succ, Z.pow_succ_r by lia; lia).
  destruct (Z.ltb_spec n 10).
  - cbn. destruct (digit_digit n) as [-> ->]; lia.
  - zdm n 10. rewrite digits_val_app by (apply dec_aux_digits, Z.div_pos; lia).
    rewrite IH by (split; [apply Z.div_pos; lia | apply Z.div_lt_upper_bound; lia]).
    cbn. destruct (digit_digit (n mod 10)) as [-> ->]; [|lia]. apply Z.mod_pos_bound. lia.
Qed.
Lemma dec_digits n : 0 <= n → Forall (λ c, is_digit c = true) (dec n).
Proof. apply dec_aux_digits. Qed.
Lemma dec_nonempty n : dec n ≠ [].
Proof. unfold dec. cbn [dec_aux]. destruct (n <? 10); [done|]. intros [_ H]%app_eq_nil. done. Qed.
Lemma dec_val n : 0 <= n < 10 ^ 20 → digits_val 0 (dec n) = n.
Proof. apply (dec_aux_val 20). Qed.

Lemma digits_stop acc s t :
  match t with a :: _ => is_digit a = false | [] => True end →
  Forall (λ c, is_digit c = true) s → digits_val acc (s ++ t) = digits_val acc s.
Proof.
  intros Ht Hs. rewrite digits_val_app by done. destruct t as [|a t]; [done|]. cbn. by rewrite Ht.
Qed.

(** [atoi] reads back the numeral at the start of a string. *)
Lemma atoi_dec n t :
  0 <= n < 2 ^ 31 → match t with a :: _ => is_digit a = false | [] => True end →
  atoi (dec n ++ t) = n.
Proof.
  intros Hn Ht. pose proof (dec_digits n ltac:(lia)) as HF. pose proof (dec_val n ltac:(lia)) as HV.
  pose proof (digits_stop 0 (dec n) t Ht HF) as HD. rewrite HV in HD.
  destruct (dec n) as [|a s] eqn:E; [by destruct (dec_nonempty n)|].
  apply Forall_cons in HF as [Ha _].
  assert (is_space a = false ∧ ceqb a "-"%char = false ∧ ceqb a "+"%char = false) as (H1 & H2 & H3).
  { clear -Ha. destruct a as [[] [] [] [] [] [] [] []]; try discriminate Ha; done. }
  unfold atoi. cbn [app skip_space]. rewrite H1, H2, H3. cbn [app] in HD. rewrite HD.
  unfold clamp64. rewrite i32_id by lia. lia.
Qed.
