(* ===== verification/Paths.v ===== *)
(** * Paths: names and the server they hash to

    src/src/base/path_misc.c, xpn_policy_cwd.c and xpn_cwd.c.  A function that
    edits its argument in place returns the new contents; [None] is an access
    outside of a string or of a buffer of [PATH_MAX] bytes, or a division by
    zero. *)

From S2P Require Import Prelude Cstr.

Definition PATH_MAX : Z := 4096.
Definition strlen (s : cstr) : Z := Z.of_nat (length s).

(** ** path_misc.c *)

(** The [for] that adds the characters up, an [unsigned] accumulator. *)
Definition char_sum (s : cstr) : Z := fold_left (λ num a, u32 (num + char_int a)) s 0.

Definition hash (path : cstr) (nServ isfile : Z) : option Z :=
  if PATH_MAX - 1 <=? strlen path then None else
  let aux_file := if isfile =? 1 then basename path else basename (dirname path) in
  if nServ =? 0 then None else Some (i32 (char_sum aux_file) `rem` nServ).

Definition is_slash (a : ascii) : bool := ceqb a slash.

(** [dir], the new [path] and the result. *)
Definition getFirstDir (path : cstr) : cstr * cstr * Z :=
  let i := scan is_slash path 0 in
  let dir := substr path 0 i in
  let i' := scan (λ a, negb (is_slash a)) path i in
  let path' := drop i' path in
  (dir, path', strlen path').

Definition KB : Z := 1024.
Definition MB : Z := KB * KB.
Definition GB : Z := KB * KB * KB.

Definition unit_of (a : ascii) : option Z :=
  if ceqb a "K" || ceqb a "k" then Some KB
  else if ceqb a "M" || ceqb a "m" then Some MB
  else if ceqb a "G" || ceqb a "g" then Some GB
  else None.

(** [atoi(name)*KB] is an [int] product.  [None] for an access before the string. *)
Definition getSizeFactor (name : cstr) : option Z :=
  match reverse name with
  | [] => None
  | last :: r =>
    match unit_of last with
    | Some f => Some (atoi name ⊠ f)
    | None =>
      if ceqb last "B" || ceqb last "b" then
        match r with
        | [] => None
        | last2 :: _ => match unit_of last2 with
                        | Some f => Some (atoi name ⊠ f)
                        | None => Some 1
                        end
        end
      else Some (atoi name)
    end
  end.

(** The new [file] and [dir].  The scan for trailing slashes starts on the
    terminator and never moves; without a slash the last scan reads [dir[-1]]. *)
Definition getNameFile (dir : cstr) : option (cstr * cstr) :=
  match dir with
  | [] => Some ([], [])
  | _ =>
    let r := reverse dir in
    let k := span is_slash r in
    if (k =? length dir)%nat then None
    else let j := (length dir - k)%nat in Some (drop j dir, take j dir)
  end.

(** The result, [part] and the new [dir]. *)
Definition getNamePart (part dir : cstr) : Z * cstr * cstr :=
  if negb (is_slash (at_ dir 0)) then (-1, part, dir)
  else
    let i := scan is_slash dir 1 in
    (0, substr dir 1 (i - 1), drop i dir).

(** ** xpn_cwd.c and xpn_policy_cwd.c *)

Record xpn_cwd := XpnCwd { xpn_cwd_path : cstr }.
Definition xpn_init_cwd : xpn_cwd := XpnCwd [].
Definition xpn_simple_chdir (path : cstr) (cwd : xpn_cwd) : option (Z * xpn_cwd) :=
  if PATH_MAX <=? strlen path then None else Some (0, XpnCwd path).

Definition XpnGetAbsolutePath (cwd : xpn_cwd) (path : cstr) : option (Z * cstr) :=
  let path_part :=
    if negb (is_slash (at_ path 0)) then slash :: xpn_cwd_path cwd ++ path else path in
  if (PATH_MAX <=? strlen path_part) || (PATH_MAX <=? strlen path + 1) then None
  else Some (0, take (length path + 1) path_part).

(** ** Lemmas *)

Lemma char_int_ascii a : Z.of_N (N_of_ascii a) < 128 → 0 <= char_int a < 128.
Proof. intros H. unfold char_int. zbool. lia. Qed.

Lemma char_sum_from s acc :
  Forall (λ a, Z.of_N (N_of_ascii a) < 128) s → 0 <= acc → acc + 127 * strlen s < 2 ^ 31 →
  acc <= fold_left (λ num a, u32 (num + char_int a)) s acc <= acc + 127 * strlen s.
Proof.
  unfold strlen. intros HF. revert acc. induction HF as [|a s Ha _ IH]; intros acc Hacc Hb.
  - cbn. lia.
  - cbn [fold_left length] in *. pose proof (char_int_ascii a Ha).
    rewrite u32_id by lia. specialize (IH (acc + char_int a)). lia.
Qed.

Lemma Forall_rev' {A} (P : A → Prop) l : Forall P l → Forall P (rev l).
Proof. intros. apply Forall_forall. intros x. rewrite list_elem_of_In, <- in_rev, <- list_elem_of_In.
  revert x. by apply Forall_forall. Qed.
Lemma Forall_strip (P : ascii → Prop) l : Forall P l → Forall P (strip_slash l).
Proof. induction 1 as [|a l Ha Hl IH]; cbn; [constructor|]. destruct (ceqb a slash); [done|by constructor]. Qed.
Lemma length_strip l : (length (strip_slash l) <= length l)%nat.
Proof. induction l as [|a l IH]; cbn; [lia|]. destruct (ceqb a slash); cbn; lia. Qed.

(** A property of the characters of the path, of '.' and of '/' holds of the
    characters of its [basename] and [dirname]. *)
Lemma Forall_basename (P : ascii → Prop) s : P "."%char → P slash → Forall P s → Forall P (basename s).
Proof.
  intros Hd Hs HF. unfold basename. destruct s as [|c s]; [by repeat constructor|].
  apply Forall_rev', Forall_strip in HF. destruct (strip_slash (rev (c :: s))); [by repeat constructor|].
  by apply Forall_rev', Forall_take.
Qed.
Lemma Forall_dirname (P : ascii → Prop) s : P "."%char → P slash → Forall P s → Forall P (dirname s).
Proof.
  intros Hd Hs HF. unfold dirname. destruct s as [|c s]; [by repeat constructor|].
  apply Forall_rev', Forall_strip in HF. destruct (strip_slash (rev (c :: s))) as [|a r]; [by repeat constructor|].
  apply (Forall_drop _ (rspan (a :: r))) in HF.
  destruct (drop (rspan (a :: r)) (a :: r)) as [|a' r']; [by repeat constructor|].
  apply Forall_strip in HF. destruct (strip_slash (a' :: r')); [by repeat constructor|].
  by apply Forall_rev'.
Qed.
Lemma length_basename s : (length (basename s) <= S (length s))%nat.
Proof.
  unfold basename. destruct s as [|c s]; [cbn; lia|].
  pose proof (length_strip (rev (c :: s))) as H. rewrite length_rev in H.
  destruct (strip_slash (rev (c :: s))); [cbn; lia|]. rewrite length_rev, length_take. lia.
Qed.
Lemma length_dirname s : (length (dirname s) <= S (length s))%nat.
Proof.
  unfold dirname. destruct s as [|c s]; [cbn; lia|].
  pose proof (length_strip (rev (c :: s))) as H. rewrite length_rev in H.
  destruct (strip_slash (rev (c :: s))) as [|a r]; [cbn; lia|].
  pose proof (length_drop (a :: r) (rspan (a :: r))) as H'.
  destruct (drop (rspan (a :: r)) (a :: r)) as [|a' r']; [cbn; lia|].
  pose proof (length_strip (a' :: r')) as H''.
  destruct (strip_slash (a' :: r')); [cbn; lia|]. rewrite length_rev. cbn [length] in *. lia.
Qed.

Definition ascii_path (path : cstr) : Prop := Forall (λ a, Z.of_N (N_of_ascii a) < 128) path.

Lemma hash_some path nServ isfile :
  strlen path < PATH_MAX - 1 → 0 < nServ →
  hash path nServ isfile =
    Some (i32 (char_sum (if isfile =? 1 then basename path else basename (dirname path))) `rem` nServ).
Proof. intros Hl Hn. unfold hash. zbool. done. Qed.

Lemma hash_bound path nServ isfile :
  ascii_path path → strlen path < PATH_MAX - 1 → 0 < nServ →
  ∃ h, hash path nServ isfile = Some h ∧ 0 <= h < nServ.
Proof.
  intros HF Hl Hn. rewrite hash_some by done. eexists. split; [done|].
  set (aux := if isfile =? 1 then _ else _).
  assert (Forall (λ a, Z.of_N (N_of_ascii a) < 128) aux) as Ha.
  { unfold aux. case_match; repeat apply Forall_basename; try apply Forall_dirname; done. }
  assert (strlen aux < 5000) as Hs.
  { unfold aux, strlen, PATH_MAX in *.
    pose proof (length_basename path). pose proof (length_basename (dirname path)).
    pose proof (length_dirname path). case_match; lia. }
  pose proof (char_sum_from aux 0 Ha ltac:(lia) ltac:(lia)) as Hsum. fold (char_sum aux) in Hsum.
  rewrite i32_id by lia. rewrite rem_mod by lia. apply Z.mod_pos_bound. lia.
Qed.

Lemma getNamePart_app part p rest :
  slash ∉ p → match rest with a :: _ => a = slash | [] => True end →
  getNamePart part (slash :: p ++ rest) = (0, p, rest).
Proof.
  intros Hp Hr. unfold getNamePart. cbn [at_ nth is_slash].
  unfold at_. cbn [nth]. unfold is_slash at 1. rewrite ceqb_refl. cbn [negb].
  assert (Forall (λ c, is_slash c = false) p) as HF.
  { apply Forall_forall. intros c Hc. apply ceqb_ne. intros ->. done. }
  assert (scan is_slash (slash :: p ++ rest) 1 = (1 + length p)%nat) as ->.
  { destruct rest as [|a rest].
    - rewrite app_nil_r. apply (scan_end is_slash [slash] p); done.
    - subst a. apply (scan_app is_slash [slash] p slash rest); [done|done|apply ceqb_refl]. }
  f_equal; [f_equal|].
  - apply (substr_app [slash] p rest); [done|lia].
  - cbn. by rewrite drop_app_length.
Qed.

Lemma getSizeFactor_dec n f u :
  0 <= n < 2 ^ 31 → unit_of u = Some f → is_digit u = false →
  getSizeFactor (dec n ++ [u]) = Some (n ⊠ f) ∧ getSizeFactor (dec n ++ [u; "B"%char]) = Some (n ⊠ f).
Proof.
  intros Hn Hu Hd. unfold getSizeFactor. split.
  - rewrite reverse_app. cbn [reverse rev_append app]. rewrite Hu. f_equal. f_equal.
    by rewrite atoi_dec.
  - rewrite reverse_app. cbn [app]. change (reverse [u; "B"%char]) with ["B"%char; u].
    cbn [app]. change (unit_of "B") with (@None Z).
    change (ceqb "B" "B" || ceqb "B" "b") with true. cbv iota.
    rewrite Hu, atoi_dec; done.
Qed.

(** ** The properties of paths *)

(** C32: for every ASCII path shorter than [PATH_MAX] the master server that
    [hash] chooses is one of the [nServ] servers. *)
Theorem hash_in_range path nServ isfile :
  ascii_path path → strlen path < PATH_MAX - 1 → 0 < nServ →
  ∃ h, hash path nServ isfile = Some h ∧ 0 <= h < nServ.
Proof. apply hash_bound. Qed.

Lemma hash_in_range_witness :
  hash (str "/xpn/dir/file.txt") 7 1 = Some 2 ∧ ∃ h, hash (str "/xpn/dir/file.txt") 7 1 = Some h ∧ 0 <= h < 7.
Proof.
  split; [vm_compute; reflexivity|].
  apply (hash_in_range (str "/xpn/dir/file.txt") 7 1); [|zcalc|zcalc].
  unfold ascii_path. cbn. repeat (apply List.Forall_cons; [zcalc|]). apply List.Forall_nil.
Defined.

(** A size written as a decimal number and one of the suffixes K, M, G
    (either case, with or without B) is read back, as a product of [int]s. *)
Theorem size_factor_suffix n f u :
  0 <= n < 2 ^ 31 → unit_of u = Some f →
  getSizeFactor (dec n ++ [u]) = Some (n ⊠ f) ∧ getSizeFactor (dec n ++ [u; "B"%char]) = Some (n ⊠ f).
Proof.
  intros Hn Hu. apply getSizeFactor_dec; [done|done|].
  destruct u as [[] [] [] [] [] [] [] []]; try discriminate Hu; reflexivity.
Qed.

Lemma size_factor_suffix_witness :
  getSizeFactor (str "512K") = Some 524288 ∧ getSizeFactor (str "512kB") = Some 524288
  ∧ getSizeFactor (str "4G") = Some 0.
Proof.
  pose proof (size_factor_suffix 512 KB "K" ltac:(lia) eq_refl) as [H _].
  pose proof (size_factor_suffix 512 KB "k" ltac:(lia) eq_refl) as [_ H'].
  pose proof (size_factor_suffix 4 GB "G" ltac:(lia) eq_refl) as [H'' _].
  split; [exact H|split; [exact H'|exact H'']].
Defined.

(** The sum of the characters is negative for a name outside of ASCII, and so
    is the remainder: the UTF-8 name of two bytes below is sent to server -3. *)
Lemma hash_negative :
  hash ["/"%char; ascii_of_N 195; ascii_of_N 169] 5 1 = Some (-3).
Proof. vm_compute. reflexivity. Qed.

(** With a working directory, a relative path is cut to the length it had
    before the directory was put in front of it. *)
Lemma absolute_path_truncated :
  XpnGetAbsolutePath (XpnCwd (str "xpn/")) (str "a.txt") = Some (0, str "/xpn/a") ∧
  XpnGetAbsolutePath xpn_init_cwd (str "a.txt") = Some (0, str "/a.txt").
Proof. split; vm_compute; reflexivity. Qed.
