(* ===== verification/Url.v ===== *)
(** * Url: [protocol://server:port/dir]

    src/src/base/urlstr.c and the path normalisation of src/src/base/filesystem.c. *)

From S2P Require Import Prelude Cstr Paths.

(** The results are the next position, -1 on error, and what was copied to a
    buffer that is not NULL. *)
Definition is_colon (a : ascii) : bool := ceqb a colon.
Definition host_stop (a : ascii) : bool := is_colon a || is_slash a.

Definition getURLProtocol (url : cstr) : option (nat * cstr) :=
  let j := scan is_colon url 0 in
  if negb (is_colon (at_ url j)) then None
  else if negb (is_slash (at_ url (j + 1))) then None
  else if negb (is_slash (at_ url (j + 2))) then None
  else Some ((j + 3)%nat, substr url 0 j).

Definition getURLServer (url : cstr) : option (nat * cstr) :=
  '(i, _) ← getURLProtocol url;
  let j := scan host_stop url i in
  Some (j, substr url i (j - i)).

Definition getURLPort (url : cstr) : option (nat * cstr) :=
  '(i, _) ← getURLServer url;
  if negb (is_colon (at_ url i)) then None
  else
    let i' := (i + 1)%nat in
    let j := scan is_slash url i' in
    Some (j, substr url i' (j - i')).

Definition getURLDir (url : cstr) : option (nat * cstr) :=
  i ← match getURLPort url with
      | Some (i, _) => Some i
      | None => match getURLServer url with
                | Some (i, _) => Some i
                | None => fst <$> getURLProtocol url
                end
      end;
  Some (length url, drop i url).

(** The loop of [clear_slash] and [aux_clear_dirs]: [ant] is the character
    before, NUL at the start. *)
Fixpoint clear_loop (ant : ascii) (path : cstr) : cstr :=
  match path with
  | [] => []
  | a :: path' =>
    if is_slash a then
      if is_slash ant then clear_loop ant path' else slash :: clear_loop slash path'
    else a :: clear_loop a path'
  end.

(** [None]: for an empty path the buffer [s] is copied uninitialised; a long
    path overruns it. *)
Definition clear_slash (path : cstr) : option (Z * cstr) :=
  if (length path =? 0)%nat then None else
  let s := clear_loop NUL path in
  if PATH_MAX <=? strlen s then None else Some (0, s).
Definition aux_clear_dirs (path : option cstr) : option (Z * option cstr) :=
  match path with
  | None => Some (-1, None)
  | Some p =>
    if (length p =? 0)%nat then None else
    let s := clear_loop NUL p in
    if PATH_MAX <=? strlen s then None else Some (0, Some s)
  end.

(** The output buffers of [ParseURL]; a field is [None] when the caller passed NULL. *)
Record url_bufs := UrlBufs {
  u_protocol : option cstr; u_server : option cstr; u_port : option cstr; u_dir : option cstr }.

(** [login] and [passwd] are never used. *)
Definition ParseURL (url : cstr) (b : url_bufs) : option (Z * url_bufs) :=
  match (match u_protocol b with
         | None => Some b
         | Some _ => '(_, p) ← getURLProtocol url; Some (UrlBufs (Some p) (u_server b) (u_port b) (u_dir b))
         end) with
  | None => Some (-1, b)
  | Some b1 =>
    match (match u_server b1 with
           | None => Some b1
           | Some _ => '(_, s) ← getURLServer url; Some (UrlBufs (u_protocol b1) (Some s) (u_port b1) (u_dir b1))
           end) with
    | None => Some (-1, b1)
    | Some b2 =>
      let b3 := match u_port b2, getURLPort url with
                | Some _, Some (_, p) => UrlBufs (u_protocol b2) (u_server b2) (Some p) (u_dir b2)
                | _, _ => b2
                end in
      match u_dir b3 with
      | None => Some (0, b3)
      | Some _ =>
        match getURLDir url with
        | None => Some (-1, b3)
        | Some (_, d) =>
          '(_, d') ← clear_slash d;
          Some (0, UrlBufs (u_protocol b3) (u_server b3) (u_port b3) (Some d'))
        end
      end
    end
  end.

Fixpoint common_prefix (a b : cstr) : nat :=
  match a, b with
  | x :: a', y :: b' => if ceqb x y then S (common_prefix a' b') else O
  | _, _ => O
  end.

(** The result and the new [dir]; [None] when [dir_aux] is read uninitialised
    or [dir[j-1]] is before the string. *)
Definition getDirWithURL (url dir : cstr) : option (Z * cstr) :=
  '(_, dir_aux) ← getURLDir url;
  if PATH_MAX <=? strlen dir_aux then None else
  let i := common_prefix dir_aux dir in
  if (i <? length dir_aux)%nat then Some (-1, dir)
  else if (i =? length dir)%nat then Some (0, [slash])
  else Some (0, drop i dir).

(** ** Lemmas *)

Lemma no_char_Forall a s : a ∉ s → Forall (λ c, ceqb c a = false) s.
Proof. intros H. apply Forall_forall. intros c Hc. apply ceqb_ne. intros ->. done. Qed.

Lemma at_skip s t i : at_ (s ++ t) (length s + i) = at_ t i.
Proof. unfold at_. rewrite app_nth2_plus. done. Qed.
Lemma at_skip0 s t : at_ (s ++ t) (length s) = at_ t 0.
Proof. rewrite <- (at_skip s t 0), Nat.add_0_r. done. Qed.

Lemma protocol_exact p rest :
  colon ∉ p → getURLProtocol (p ++ colon :: slash :: slash :: rest) = Some ((length p + 3)%nat, p).
Proof.
  intros Hp. unfold getURLProtocol.
  assert (scan is_colon (p ++ colon :: slash :: slash :: rest) 0 = length p) as ->.
  { apply (scan_app is_colon [] p colon (slash :: slash :: rest) 0); [done| |apply ceqb_refl].
    by apply no_char_Forall. }
  rewrite !at_skip, at_skip0. cbn.
  rewrite (substr_app [] p (colon :: slash :: slash :: rest)); done.
Qed.

Definition url_prefix (p : cstr) : cstr := p ++ [colon; slash; slash].
Lemma url_prefix_length p : length (url_prefix p) = (length p + 3)%nat.
Proof. unfold url_prefix. rewrite length_app. cbn. lia. Qed.
Lemma url_prefix_app p rest : p ++ colon :: slash :: slash :: rest = url_prefix p ++ rest.
Proof. unfold url_prefix. rewrite <- app_assoc. done. Qed.

Lemma host_Forall s : colon ∉ s → slash ∉ s → Forall (λ c, host_stop c = false) s.
Proof.
  intros H1 H2. apply Forall_forall. intros c Hc. unfold host_stop, is_colon, is_slash.
  rewrite !ceqb_ne; [done|intros ->; done|intros ->; done].
Qed.

Lemma server_exact p s rest :
  colon ∉ p → colon ∉ s → slash ∉ s → host_stop (at_ rest 0) || (length rest =? 0)%nat = true →
  getURLServer (url_prefix p ++ s ++ rest) = Some ((length p + 3 + length s)%nat, s).
Proof.
  intros Hp Hs1 Hs2 Hr. unfold getURLServer.
  rewrite <- url_prefix_app, protocol_exact, url_prefix_app by done. cbn [mbind option_bind].
  assert (scan host_stop (url_prefix p ++ s ++ rest) (length p + 3) = (length p + 3 + length s)%nat) as ->.
  { rewrite <- url_prefix_length. destruct rest as [|a rest].
    - rewrite app_nil_r. apply scan_end; [done|by apply host_Forall].
    - apply scan_app; [done|by apply host_Forall|]. cbn in Hr. by rewrite orb_false_r in Hr. }
  rewrite <- url_prefix_length. rewrite substr_app; [done|done|lia].
Qed.

Lemma port_exact p s q rest :
  colon ∉ p → colon ∉ s → slash ∉ s → slash ∉ q → is_slash (at_ rest 0) || (length rest =? 0)%nat = true →
  getURLPort (url_prefix p ++ s ++ colon :: q ++ rest) = Some ((length p + 3 + length s + 1 + length q)%nat, q).
Proof.
  intros Hp Hs1 Hs2 Hq Hr. unfold getURLPort. rewrite server_exact by done. cbn [mbind option_bind].
  rewrite <- url_prefix_length, <- length_app, app_assoc, at_skip0. cbn [at_ nth is_colon].
  unfold at_. cbn [nth]. unfold is_colon. rewrite ceqb_refl. cbn [negb].
  replace ((url_prefix p ++ s) ++ colon :: q ++ rest) with (((url_prefix p ++ s) ++ [colon]) ++ q ++ rest)
    by (rewrite <- !app_assoc; done).
  set (pre := (url_prefix p ++ s) ++ [colon]).
  assert (length pre = (length (url_prefix p ++ s) + 1)%nat) as El by (unfold pre; rewrite length_app; done).
  rewrite <- El.
  assert (scan is_slash (pre ++ q ++ rest) (length pre) = (length pre + length q)%nat) as ->.
  { destruct rest as [|a rest].
    - rewrite app_nil_r. apply scan_end; [done|by apply no_char_Forall].
    - apply scan_app; [done|by apply no_char_Forall|]. cbn in Hr. by rewrite orb_false_r in Hr. }
  rewrite substr_app; [done|done|lia].
Qed.

(** *** [clear_slash] *)

(** No two consecutive slashes. *)
Fixpoint no_double (ant : ascii) (s : cstr) : bool :=
  match s with
  | [] => true
  | a :: s' => negb (is_slash ant && is_slash a) && no_double a s'
  end.
(** The components between runs of slashes. *)
Fixpoint components (acc : cstr) (s : cstr) : list cstr :=
  match s with
  | [] => if (length acc =? 0)%nat then [] else [acc]
  | a :: s' => if is_slash a then (if (length acc =? 0)%nat then [] else [acc]) ++ components [] s'
               else components (acc ++ [a]) s'
  end.

Lemma clear_no_double ant s : no_double ant (clear_loop ant s) = true.
Proof.
  revert ant. induction s as [|a s IH]; intros ant; cbn; [done|].
  destruct (is_slash a) eqn:Ea.
  - destruct (is_slash ant) eqn:Et; [apply IH|]. cbn. rewrite Et. cbn. apply IH.
  - cbn. rewrite Ea, andb_false_r. cbn. apply IH.
Qed.
Lemma clear_fixed ant s : no_double ant s = true → clear_loop ant s = s.
Proof.
  revert ant. induction s as [|a s IH]; intros ant H; cbn in *; [done|].
  apply andb_true_iff in H as [H1 H2].
  destruct (is_slash a) eqn:Ea.
  - destruct (is_slash ant); [done|]. apply ceqb_eq in Ea. subst a. by rewrite IH.
  - by rewrite IH.
Qed.
Lemma clear_components ant acc s :
  (is_slash ant = true → acc = []) → components acc (clear_loop ant s) = components acc s.
Proof.
  revert ant acc. induction s as [|a s IH]; intros ant acc H; cbn; [done|].
  destruct (is_slash a) eqn:Ea.
  - destruct (is_slash ant) eqn:Et.
    + rewrite (H eq_refl). cbn. apply IH. done.
    + cbn. f_equal. apply IH. done.
  - cbn. rewrite Ea. apply IH. rewrite Ea. done.
Qed.
Lemma clear_length ant s : (length (clear_loop ant s) <= length s)%nat.
Proof.
  revert ant. induction s as [|a s IH]; intros ant; cbn; [lia|].
  pose proof (IH ant). pose proof (IH slash). pose proof (IH a).
  destruct (is_slash a), (is_slash ant); cbn; lia.
Qed.

Lemma clear_slash_exact s :
  s ≠ [] → strlen s < PATH_MAX → clear_slash s = Some (0, clear_loop NUL s).
Proof.
  intros Hs Hl. unfold clear_slash, strlen in *. pose proof (clear_length NUL s).
  destruct s; [done|]. cbn [length Nat.eqb]. zbool. done.
Qed.

Lemma dir_exact p s q d :
  colon ∉ p → colon ∉ s → slash ∉ s → slash ∉ q →
  getURLDir (url_prefix p ++ s ++ colon :: q ++ slash :: d)
  = Some (length (url_prefix p ++ s ++ colon :: q ++ slash :: d), slash :: d).
Proof.
  intros Hp Hs1 Hs2 Hq. unfold getURLDir. rewrite port_exact; [|done..].
  cbn [mbind option_bind]. do 2 f_equal.
  replace (url_prefix p ++ s ++ colon :: q ++ slash :: d)
    with ((url_prefix p ++ s ++ colon :: q) ++ slash :: d) by (rewrite <- !app_assoc; done).
  replace (length p + 3 + length s + 1 + length q)%nat with (length (url_prefix p ++ s ++ colon :: q))
    by (rewrite !length_app, url_prefix_length; cbn; lia).
  apply drop_app_length.
Qed.

(** The text of a URL, with or without a port. *)
Definition make_url (p s : cstr) (port : option cstr) (d : cstr) : cstr :=
  p ++ str "://" ++ s ++ match port with Some q => colon :: q | None => [] end ++ slash :: d.

Lemma no_port p s d :
  colon ∉ p → colon ∉ s → slash ∉ s → getURLPort (url_prefix p ++ s ++ slash :: d) = None.
Proof.
  intros Hp Hs1 Hs2. unfold getURLPort. rewrite server_exact by done. cbn [mbind option_bind].
  rewrite <- url_prefix_length, <- length_app, app_assoc, at_skip0. done.
Qed.
Lemma dir_noport p s d :
  colon ∉ p → colon ∉ s → slash ∉ s →
  getURLDir (url_prefix p ++ s ++ slash :: d) = Some (length (url_prefix p ++ s ++ slash :: d), slash :: d).
Proof.
  intros Hp Hs1 Hs2. unfold getURLDir. rewrite no_port, server_exact by done.
  cbn [mbind option_bind]. do 2 f_equal.
  rewrite <- url_prefix_length, <- length_app, app_assoc. apply drop_app_length.
Qed.

(** ** The properties of URLs *)

(** [ParseURL] takes apart every URL that is put together from a
    protocol, a server, an optional port and a directory; without a port that
    buffer keeps what it held, and the directory comes out normalised. *)
Theorem parse_url_roundtrip p s port d old_port :
  colon ∉ p → colon ∉ s → slash ∉ s → slash ∉ default [] port → strlen (slash :: d) < PATH_MAX →
  ParseURL (make_url p s port d) (UrlBufs (Some []) (Some []) (Some old_port) (Some []))
  = Some (0, UrlBufs (Some p) (Some s) (Some (default old_port port)) (Some (clear_loop NUL (slash :: d)))).
Proof.
  intros Hp Hs1 Hs2 Hq Hd.
  assert (make_url p s port d = url_prefix p ++ s ++ match port with Some q => colon :: q | None => [] end ++ slash :: d) as ->.
  { unfold make_url, url_prefix. rewrite <- app_assoc. done. }
  unfold ParseURL. cbn [u_protocol u_server u_port u_dir].
  destruct port as [q|]; cbn [default from_option id app] in *.
  - rewrite server_exact, port_exact, dir_exact by done.
    rewrite <- url_prefix_app, protocol_exact by done. cbn [mbind option_bind u_protocol u_server u_port u_dir].
    rewrite clear_slash_exact by done. done.
  - rewrite server_exact, no_port, dir_noport by done.
    rewrite <- url_prefix_app, protocol_exact by done. cbn [mbind option_bind u_protocol u_server u_port u_dir].
    rewrite clear_slash_exact by done. done.
Qed.

Lemma parse_url_roundtrip_witness :
  ParseURL (str "mpi_server://node1:5555//tmp//xpn/")
    (UrlBufs (Some []) (Some []) (Some (str "x")) (Some []))
  = Some (0, UrlBufs (Some (str "mpi_server")) (Some (str "node1")) (Some (str "5555")) (Some (str "/tmp/xpn/"))).
Proof.
  apply (parse_url_roundtrip (str "mpi_server") (str "node1") (Some (str "5555")) (str "/tmp//xpn/") (str "x"));
    try zcalc; cbn; rewrite ?not_elem_of_cons; repeat split; try discriminate; apply not_elem_of_nil.
Defined.

(** Normalising a path keeps its components, leaves no two consecutive
    slashes, and does nothing the second time. *)
Theorem clear_slash_normal_form path :
  path ≠ [] → strlen path < PATH_MAX →
  ∃ s, clear_slash path = Some (0, s) ∧ aux_clear_dirs (Some path) = Some (0, Some s) ∧
       no_double NUL s = true ∧ components [] s = components [] path ∧
       clear_slash s = Some (0, s).
Proof.
  intros Hp Hl. exists (clear_loop NUL path). rewrite clear_slash_exact by done.
  assert (Hlen := clear_length NUL path). unfold strlen in *.
  split_and!; [done| |apply clear_no_double|apply clear_components; done|].
  - unfold aux_clear_dirs, strlen. destruct path; [done|]. cbn [length Nat.eqb]. zbool. done.
  - rewrite clear_slash_exact.
    + rewrite (clear_fixed NUL (clear_loop NUL path)) by apply clear_no_double. done.
    + destruct path as [|a path]; [done|]. cbn. destruct (is_slash a); done.
    + unfold strlen. lia.
Qed.

Lemma clear_slash_normal_form_witness :
  ∃ s, clear_slash (str "//a///b/") = Some (0, s) ∧ aux_clear_dirs (Some (str "//a///b/")) = Some (0, Some s) ∧
       no_double NUL s = true ∧ components [] s = components [] (str "//a///b/") ∧ clear_slash s = Some (0, s).
Proof. apply (clear_slash_normal_form (str "//a///b/")); [discriminate|zcalc]. Defined.
