(* ===== verification/Nfi.v ===== *)
(** * Nfi: the network file interface and its workers

    The table of operations [struct nfi_ops] a server type implements is an
    interface ([NfiOps]); the request packing and the dispatch of
    src/src/xpn_client/nfi/common/nfi_ops.c and the launch and wait of
    nfi_worker.c are modelled over it, for the default thread mode ([TH_NOT]),
    in which [base_workers_launch] runs the request before it returns. *)

From S2P Require Import Prelude Cstr Mdata.

(** ** Data *)

Definition NFIFILE : Z := 0.
Definition NFIDIR : Z := 1.
Definition XPN_HEADER_SIZE : Z := 8192.

(** Memory: buffers by number; a pointer is a buffer and an offset. *)
Abbreviation ptr := (nat * Z)%type (only parsing).
Definition ptr_add (p : ptr) (n : Z) : ptr := (p.1, p.2 + n).
Abbreviation memory := (gmap nat (list ascii)) (only parsing).

Definition mem_read (m : memory) (p : ptr) (n : Z) : option (list ascii) :=
  b ← m !! p.1;
  if (0 <=? p.2) && (0 <=? n) && (p.2 + n <=? Z.of_nat (length b))
  then Some (take (Z.to_nat n) (drop (Z.to_nat p.2) b)) else None.
Definition mem_write (m : memory) (p : ptr) (d : list ascii) : option memory :=
  b ← m !! p.1;
  if (0 <=? p.2) && (p.2 + Z.of_nat (length d) <=? Z.of_nat (length b))
  then Some (<[p.1 := take (Z.to_nat p.2) b ++ d ++ drop (Z.to_nat p.2 + length d) b]> m) else None.

Record nfi_attr := NfiAttr {
  st_dev : Z; st_ino : Z; at_type : Z; at_mode : Z; at_nlink : Z; at_uid : Z; at_gid : Z;
  at_size : Z; at_blksize : Z; at_blocks : Z; at_atime : Z; at_mtime : Z; at_ctime : Z }.
Definition attr_zero : nfi_attr := NfiAttr 0 0 0 0 0 0 0 0 0 0 0 0 0.

Record nfi_info := NfiInfo { in_size : Z; in_bsize : Z; in_blocks : Z; in_bfree : Z; in_bavail : Z }.
Definition info_zero : nfi_info := NfiInfo 0 0 0 0 0.

(** [fh_priv] is the private handle of the server's implementation; 0 is NULL. *)
Record nfi_fhandle := NfiFh { fh_type : Z; fh_url : cstr; fh_priv : Z; fh_mqtt : Z }.
Definition fh_zero : nfi_fhandle := NfiFh 0 [] 0 0.

Record dirent := Dirent { d_ino : Z; d_type : Z; d_name : cstr }.
Definition dirent_zero : dirent := Dirent 0 0 [].

Definition mdata_zero : xpn_metadata :=
  XpnMetadata [0; 0; 0] 0 0 0 0 0 0 0 (replicate 40 0) (replicate 40 0).

(** [struct nfi_server]: its number, its URL, the fault-tolerance flag (-1 when
    the server is out) and the result fields of its worker. *)
Record nfi_server := NfiServer {
  srv_id : Z; srv_url : cstr; srv_error : Z; wrk_result : Z; wrk_errno : Z }.
Definition set_wrk (r e : Z) (s : nfi_server) : nfi_server :=
  NfiServer (srv_id s) (srv_url s) (srv_error s) r e.

(** The process: [errno], the memory and the state of the servers. *)
Record env (W : Type) := Env { errno : Z; mem : memory; world : W }.
Arguments Env {W}. Arguments errno {W}. Arguments mem {W}. Arguments world {W}.
Definition set_errno {W} (e : Z) (s : env W) : env W := Env e (mem s) (world s).
Definition set_mem {W} (m : memory) (s : env W) : env W := Env (errno s) m (world s).

(** ** The interface

    Every operation gets the server, changes the world, may set [errno]
    (the second component) and returns the C result and what it stores through
    its output pointer. *)
Class NfiOps (W : Type) := {
  nfi_open : nfi_server → cstr → Z → Z → nfi_fhandle → Z * W → (Z * nfi_fhandle) * (Z * W);
  nfi_create : nfi_server → cstr → Z → Z * W → (Z * nfi_fhandle * nfi_attr) * (Z * W);
  nfi_close : nfi_server → nfi_fhandle → Z * W → Z * (Z * W);
  nfi_remove : nfi_server → cstr → Z * W → Z * (Z * W);
  nfi_rename : nfi_server → cstr → cstr → Z * W → Z * (Z * W);
  nfi_getattr : nfi_server → nfi_fhandle → Z * W → (Z * nfi_attr) * (Z * W);
  nfi_setattr : nfi_server → nfi_fhandle → nfi_attr → Z * W → Z * (Z * W);
  nfi_read : nfi_server → nfi_fhandle → Z → Z → Z * W → (Z * list ascii) * (Z * W);
  nfi_write : nfi_server → nfi_fhandle → Z → list ascii → Z * W → Z * (Z * W);
  nfi_mkdir : nfi_server → cstr → Z → Z * W → Z * (Z * W);
  nfi_rmdir : nfi_server → cstr → Z * W → Z * (Z * W);
  nfi_opendir : nfi_server → cstr → nfi_fhandle → Z * W → (Z * nfi_fhandle) * (Z * W);
  nfi_readdir : nfi_server → nfi_fhandle → Z * W → (Z * dirent) * (Z * W);
  nfi_closedir : nfi_server → nfi_fhandle → Z * W → Z * (Z * W);
  nfi_statfs : nfi_server → Z * W → (Z * nfi_info) * (Z * W);
  nfi_read_mdata : nfi_server → cstr → Z * W → (Z * xpn_metadata) * (Z * W);
  nfi_write_mdata : nfi_server → cstr → xpn_metadata → Z → Z * W → Z * (Z * W) }.

(** [struct nfi_worker_io] *)
Record nfi_worker_io := Io { io_offset : Z; io_size : Z; io_buffer : ptr }.

(** [wrk->arg]: the operation and its arguments. *)
Inductive nfi_request :=
  | op_open (url : cstr) (flags mode : Z) (fh : nfi_fhandle)
  | op_create (url : cstr) (mode : Z)
  | op_read (fh : nfi_fhandle) (io : list nfi_worker_io)
  | op_write (fh : nfi_fhandle) (io : list nfi_worker_io)
  | op_close (fh : nfi_fhandle)
  | op_remove (url : cstr)
  | op_rename (url newurl : cstr)
  | op_getattr (fh : nfi_fhandle)
  | op_setattr (fh : nfi_fhandle) (attr : nfi_attr)
  | op_mkdir (url : cstr) (mode : Z)
  | op_opendir (url : cstr) (fh : nfi_fhandle)
  | op_readdir (fh : nfi_fhandle)
  | op_closedir (fh : nfi_fhandle)
  | op_rmdir (url : cstr)
  | op_statfs
  | op_read_mdata (url : cstr)
  | op_write_mdata (url : cstr) (mdata : xpn_metadata) (only_file_size : Z).

(** What an operation stores through the pointers of its request. *)
Inductive nfi_out :=
  | no_out
  | out_fh (fh : nfi_fhandle)
  | out_fh_attr (fh : nfi_fhandle) (a : nfi_attr)
  | out_attr (a : nfi_attr)
  | out_entry (d : dirent)
  | out_info (i : nfi_info)
  | out_mdata (m : xpn_metadata).

Section nfi.
Context {W : Type} `{NO : !NfiOps W}.

(** Runs an operation of the interface on the process. *)
Definition call {A} (f : Z * W → A * (Z * W)) : M (env W) A := λ s,
  let '(a, (e, w)) := f (errno s, world s) in Some (a, Env e (mem s) w).

(** The loop of [op_read]: [ret] is the sum of the counts, or the first error. *)
Fixpoint do_read (srv : nfi_server) (fh : nfi_fhandle) (io : list nfi_worker_io) (ret : Z) : M (env W) Z :=
  match io with
  | [] => mret ret
  | o :: io' =>
    '(aux, data) ← call (nfi_read srv fh (io_offset o ⊕ XPN_HEADER_SIZE) (io_size o));
    if (aux : Z) <? 0 then mret aux
    else
      s ← get;
      m ← lift (mem_write (mem s) (io_buffer o) data);
      modify (set_mem m);;
      do_read srv fh io' (ret ⊕ aux)
  end.
Fixpoint do_write (srv : nfi_server) (fh : nfi_fhandle) (io : list nfi_worker_io) (ret : Z) : M (env W) Z :=
  match io with
  | [] => mret ret
  | o :: io' =>
    s ← get;
    data ← lift (mem_read (mem s) (io_buffer o) (io_size o));
    aux ← call (nfi_write srv fh (io_offset o ⊕ XPN_HEADER_SIZE) data);
    if (aux : Z) <? 0 then mret aux
    else do_write srv fh io' (ret ⊕ aux)
  end.

(** [nfi_do_operation]: the result, which goes to [wrk->arg.result], and the outputs. *)
Definition nfi_do_operation (srv : nfi_server) (r : nfi_request) : M (env W) (Z * nfi_out) :=
  match r with
  | op_open url flags mode fh => '(ret, fh') ← call (nfi_open srv url flags mode fh); mret (ret, out_fh fh')
  | op_create url mode => '(ret, fh', a) ← call (nfi_create srv url mode); mret (ret, out_fh_attr fh' a)
  | op_read fh io => ret ← do_read srv fh io 0; mret (ret, no_out)
  | op_write fh io => ret ← do_write srv fh io 0; mret (ret, no_out)
  | op_close fh => ret ← call (nfi_close srv fh); mret (ret, no_out)
  | op_remove url => ret ← call (nfi_remove srv url); mret (ret, no_out)
  | op_rename url newurl => ret ← call (nfi_rename srv url newurl); mret (ret, no_out)
  | op_getattr fh => '(ret, a) ← call (nfi_getattr srv fh); mret (ret, out_attr a)
  | op_setattr fh a => ret ← call (nfi_setattr srv fh a); mret (ret, no_out)
  | op_mkdir url mode => ret ← call (nfi_mkdir srv url mode); mret (ret, no_out)
  | op_opendir url fh => '(ret, fh') ← call (nfi_opendir srv url fh); mret (ret, out_fh fh')
  | op_readdir fh => '(ret, d) ← call (nfi_readdir srv fh); mret (ret, out_entry d)
  | op_closedir fh => ret ← call (nfi_closedir srv fh); mret (ret, no_out)
  | op_rmdir url => ret ← call (nfi_rmdir srv url); mret (ret, no_out)
  | op_statfs => '(ret, i) ← call (nfi_statfs srv); mret (ret, out_info i)
  | op_read_mdata url => '(ret, m) ← call (nfi_read_mdata srv url); mret (ret, out_mdata m)
  | op_write_mdata url mdata o => ret ← call (nfi_write_mdata srv url mdata o); mret (ret, no_out)
  end.

(** ** nfi_worker.c

    [nfiworker_launch] does nothing on a server that is out, and
    [nfiworker_wait] then reports success.  The worker's fields are in the
    server's record, so both return the server. *)
Definition nfiworker_launch (srv : nfi_server) (r : nfi_request) : M (env W) (Z * nfi_server * nfi_out) :=
  if srv_error srv =? -1 then mret (-1, srv, no_out)
  else
    '(ret, out) ← nfi_do_operation srv r;
    s ← get;
    mret (0, set_wrk ret (errno s) srv, out).

Definition nfiworker_wait (srv : nfi_server) : M (env W) Z :=
  if srv_error srv =? -1 then mret 0
  else
    when (negb (wrk_errno srv =? 0)) (modify (set_errno (wrk_errno srv)));;
    mret (wrk_result srv).

(** *** The functions that pack a request and launch it *)
Definition launch0 (srv : nfi_server) (r : nfi_request) : M (env W) (nfi_server * nfi_out) :=
  '(_, srv', out) ← nfiworker_launch srv r; mret (srv', out).
Definition nfi_worker_do_open srv url flags mode fh := launch0 srv (op_open url flags mode fh).
Definition nfi_worker_do_create srv url mode := launch0 srv (op_create url mode).
Definition nfi_worker_do_read srv fh io := launch0 srv (op_read fh io).
Definition nfi_worker_do_write srv fh io := launch0 srv (op_write fh io).
Definition nfi_worker_do_close srv fh := launch0 srv (op_close fh).
Definition nfi_worker_do_remove srv url := launch0 srv (op_remove url).
Definition nfi_worker_do_rename srv old_url new_url := launch0 srv (op_rename old_url new_url).
Definition nfi_worker_do_getattr srv fh := launch0 srv (op_getattr fh).
Definition nfi_worker_do_setattr srv fh attr := launch0 srv (op_setattr fh attr).
Definition nfi_worker_do_mkdir srv url mode := launch0 srv (op_mkdir url mode).
Definition nfi_worker_do_opendir srv url fh := launch0 srv (op_opendir url fh).
Definition nfi_worker_do_readdir srv fh := launch0 srv (op_readdir fh).
Definition nfi_worker_do_closedir srv fh := launch0 srv (op_closedir fh).
Definition nfi_worker_do_rmdir srv url := launch0 srv (op_rmdir url).
Definition nfi_worker_do_statfs srv := launch0 srv op_statfs.
Definition nfi_worker_do_read_mdata srv url := launch0 srv (op_read_mdata url).
Definition nfi_worker_do_write_mdata srv url mdata only_file_size := launch0 srv (op_write_mdata url mdata only_file_size).
End nfi.
