(* ===== verification/Client.v ===== *)
(** * Client: the state of the client library and its policies

    The global tables of src/src/xpn_client/xpn/xpn_simple (partitions, file
    table, working directory), the partition look-up of xpn_policy_init.c, the
    metadata operations of xpn_metadata.c and the handle and attribute
    operations of xpn_policy_open.c.  [malloc] succeeds. *)

From S2P Require Import Prelude Cstr Paths Layout Mdata Nfi.

(** ** Data *)

Definition XPN_MAX_PART : Z := 128.
Definition XPN_MAX_FILE : Z := 1024.
Definition XPN_FILE : Z := 0.
Definition XPN_DIR : Z := 1.

Definition ENOENT : Z := 2.
Definition EBADF : Z := 9.
Definition EFAULT : Z := 14.
Definition EISDIR : Z := 21.
Definition EINVAL : Z := 22.

Definition O_RDONLY : Z := 0.
Definition O_WRONLY : Z := 1.
Definition O_RDWR : Z := 2.
Definition O_CREAT : Z := 64.
Definition O_TRUNC : Z := 512.
Definition O_DIRECTORY : Z := 65536.
Definition S_IRWXU : Z := 448.
Definition S_IFREG : Z := 32768.
Definition S_IFDIR : Z := 16384.
Definition has_flag (f flags : Z) : bool := Z.land flags f =? f.

Record xpn_partition := XpnPart {
  part_id : Z; part_name : cstr; part_block_size : Z; part_replication_level : Z;
  part_data_nserv : Z; part_local_serv : Z; data_serv : list nfi_server }.
Definition set_serv (l : list nfi_server) (p : xpn_partition) : xpn_partition :=
  XpnPart (part_id p) (part_name p) (part_block_size p) (part_replication_level p)
    (part_data_nserv p) (part_local_serv p) l.

(** [struct xpn_filedesc], with the metadata and the handle array it owns;
    [fd_part] is the index of [part] in the partition table. *)
Record xpn_filedesc := FileDesc {
  fd_id : Z; fd_path : cstr; fd_type : Z; fd_links : Z; fd_flags : Z; fd_mode : Z;
  fd_part : nat; fd_mdata : xpn_metadata; fd_offset : Z; fd_block_size : Z;
  fd_nfih : list (option nfi_fhandle) }.
Definition fd_n_nfih (d : xpn_filedesc) : Z := Z.of_nat (length (fd_nfih d)).
Definition set_links (l : Z) (d : xpn_filedesc) : xpn_filedesc :=
  FileDesc (fd_id d) (fd_path d) (fd_type d) l (fd_flags d) (fd_mode d) (fd_part d)
    (fd_mdata d) (fd_offset d) (fd_block_size d) (fd_nfih d).
Definition set_offset (o : Z) (d : xpn_filedesc) : xpn_filedesc :=
  FileDesc (fd_id d) (fd_path d) (fd_type d) (fd_links d) (fd_flags d) (fd_mode d) (fd_part d)
    (fd_mdata d) o (fd_block_size d) (fd_nfih d).
Definition set_fdmdata (m : xpn_metadata) (d : xpn_filedesc) : xpn_filedesc :=
  FileDesc (fd_id d) (fd_path d) (fd_type d) (fd_links d) (fd_flags d) (fd_mode d) (fd_part d)
    m (fd_offset d) (fd_block_size d) (fd_nfih d).
Definition set_nfih (h : list (option nfi_fhandle)) (d : xpn_filedesc) : xpn_filedesc :=
  FileDesc (fd_id d) (fd_path d) (fd_type d) (fd_links d) (fd_flags d) (fd_mode d) (fd_part d)
    (fd_mdata d) (fd_offset d) (fd_block_size d) h.

(** The process.  A slot of [file_table] is NULL or a pointer into the heap of
    descriptors; a pointer whose object was freed is in the table but not in the heap. *)
Record client (W : Type) := Client {
  cl_env : env W;
  xpn_parttable : list xpn_partition;
  xpn_file_table : list (option nat);
  cl_heap : gmap nat xpn_filedesc;
  cl_next : nat;
  xpn_cwddir : xpn_cwd;
  cl_seed : Z }.
Arguments Client {W}. Arguments cl_env {W}. Arguments xpn_parttable {W}.
Arguments xpn_file_table {W}. Arguments cl_heap {W}. Arguments cl_next {W}.
Arguments xpn_cwddir {W}. Arguments cl_seed {W}.

(** What the C library and the kernel give: the contents of memory fresh from
    [malloc], the next number of [rand], the process's user. *)
Class Sys := {
  sys_fresh_fh : nfi_fhandle;
  sys_fresh_byte : ascii;
  sys_rand : Z → Z * Z;
  sys_uid : Z;
  sys_gid : Z }.

Record xstat := XStat {
  x_dev : Z; x_ino : Z; x_mode : Z; x_nlink : Z; x_uid : Z; x_gid : Z;
  x_size : Z; x_blocks : Z; x_atime : Z; x_mtime : Z; x_ctime : Z }.

Abbreviation prog W := (M (client W)) (only parsing).

Section state.
Context {W : Type}.
Definition with_env (e : env W) (c : client W) : client W :=
  Client e (xpn_parttable c) (xpn_file_table c) (cl_heap c) (cl_next c) (xpn_cwddir c) (cl_seed c).
Definition with_parts (p : list xpn_partition) (c : client W) : client W :=
  Client (cl_env c) p (xpn_file_table c) (cl_heap c) (cl_next c) (xpn_cwddir c) (cl_seed c).
Definition with_files (t : list (option nat)) (c : client W) : client W :=
  Client (cl_env c) (xpn_parttable c) t (cl_heap c) (cl_next c) (xpn_cwddir c) (cl_seed c).
Definition with_heap (h : gmap nat xpn_filedesc) (c : client W) : client W :=
  Client (cl_env c) (xpn_parttable c) (xpn_file_table c) h (cl_next c) (xpn_cwddir c) (cl_seed c).
Definition with_next (n : nat) (c : client W) : client W :=
  Client (cl_env c) (xpn_parttable c) (xpn_file_table c) (cl_heap c) n (xpn_cwddir c) (cl_seed c).
Definition with_cwd (d : xpn_cwd) (c : client W) : client W :=
  Client (cl_env c) (xpn_parttable c) (xpn_file_table c) (cl_heap c) (cl_next c) d (cl_seed c).
Definition with_seed (z : Z) (c : client W) : client W :=
  Client (cl_env c) (xpn_parttable c) (xpn_file_table c) (cl_heap c) (cl_next c) (xpn_cwddir c) z.

(** A computation on the environment. *)
Definition zoom {A} (m : M (env W) A) : prog W A := λ c,
  match m (cl_env c) with Some (a, e) => Some (a, with_env e c) | None => None end.
(** [errno = e; return r;] *)
Definition fail {A} (e : Z) (r : A) : prog W A := zoom (modify (set_errno e));; mret r.

(** [servers[j]] of the partition at index [p]. *)
Definition get_server (p : nat) (j : Z) : prog W nfi_server :=
  c ← get;
  part ← lift (xpn_parttable c !! p);
  lift (rdZ (data_serv part) j).
Definition put_server (p : nat) (j : Z) (s : nfi_server) : prog W unit :=
  c ← get;
  part ← lift (xpn_parttable c !! p);
  l ← lift (wrZ (data_serv part) j s);
  modify (with_parts (<[p := set_serv l part]> (xpn_parttable c))).

(** A request to [servers[j]]: its worker's fields change. *)
Definition on_server {A} (p : nat) (j : Z) (f : nfi_server → M (env W) (nfi_server * A)) : prog W A :=
  s ← get_server p j;
  '(s', a) ← zoom (f s);
  put_server p j s';;
  mret a.
Definition wait_server (p : nat) (j : Z) : prog W Z :=
  s ← get_server p j; zoom (nfiworker_wait s).

(** [*xpn_file_table[fd]]: [fault] for NULL or a freed object. *)
Definition fd_loc (fd : Z) : prog W nat :=
  c ← get;
  slot ← lift (rdZ (xpn_file_table c) fd);
  lift slot.
Definition get_fd (fd : Z) : prog W xpn_filedesc :=
  l ← fd_loc fd; c ← get; lift (cl_heap c !! l).
Definition update_fd (fd : Z) (f : xpn_filedesc → xpn_filedesc) : prog W unit :=
  l ← fd_loc fd;
  c ← get;
  d ← lift (cl_heap c !! l);
  modify (with_heap (<[l := f d]> (cl_heap c))).
Definition fd_is_null (fd : Z) : prog W bool :=
  c ← get;
  slot ← lift (rdZ (xpn_file_table c) fd);
  mret (match slot with None => true | Some _ => false end).

(** ** xpn_policy_init.c *)

(** The partition id and the path without the partition; [part] is read
    uninitialised when the path does not start with a slash. *)
Definition XpnGetPartition (path : cstr) : prog W (Z * cstr) :=
  let '(r, part, path') := getNamePart [] path in
  if r <? 0 then fault
  else
    c ← get;
    match list_find (λ p, part_name p = part) (xpn_parttable c) with
    | None => mret (-1, path')
    | Some (_, p) => mret (part_id p, path')
    end.

(** The index of the partition, [None] for NULL. *)
Definition XpnSearchPart (pd : Z) : prog W (option nat) :=
  c ← get;
  mret (fst <$> list_find (λ p, part_id p = pd) (xpn_parttable c)).
(** [XpnSearchPart(pd)->...] *)
Definition part_of (pd : Z) : prog W xpn_partition :=
  i ← XpnSearchPart pd;
  p ← lift i;
  c ← get;
  lift (xpn_parttable c !! p).

(** ** xpn_policy_open.c *)

Definition XpnGetURLServer (serv : nfi_server) (abs_path : cstr) : cstr := srv_url serv ++ abs_path.

(** The number of servers and the array, as the index of its partition. *)
Definition XpnGetServers (pd fd : Z) : prog W (Z * nat) :=
  if 0 <=? pd then
    i ← XpnSearchPart pd;
    match i with
    | None => mret (-1, O)
    | Some p => c ← get; part ← lift (xpn_parttable c !! p); mret (part_data_nserv part, p)
    end
  else if 0 <=? fd then
    if XPN_MAX_FILE <? fd then mret (-1, O)
    else
      null ← fd_is_null fd;
      if (null : bool) then mret (-1, O)
      else d ← get_fd fd; mret (fd_n_nfih d, fd_part d)
  else mret (-1, O).
End state.

Section policy.
Context {W : Type} `{NO : !NfiOps W} `{SY : !Sys}.

(** [XpnGetFh] and [XpnGetFhDir]: the result and the new handle. *)
Definition get_handle (dir : bool) (fh : option nfi_fhandle) (p : nat) (j : Z) (path : cstr) : prog W (Z * option nfi_fhandle) :=
  match fh with
  | Some _ => mret (0, fh)
  | None =>
    s ← get_server p j;
    let url_serv := XpnGetURLServer s path in
    out ← on_server p j (λ s,
      if dir then nfi_worker_do_opendir s url_serv fh_zero
      else nfi_worker_do_open s url_serv (Z.lor O_RDWR O_CREAT) S_IRWXU fh_zero);
    res ← wait_server p j;
    if (res : Z) <? 0 then mret (-1, None)
    else mret (0, Some (match out with out_fh f => f | _ => fh_zero end))
  end.
Definition XpnGetFh := get_handle false.
Definition XpnGetFhDir := get_handle true.

(** ** xpn_metadata.c *)

Definition XpnCreateMetadataExtern (path : cstr) (nserv block_size replication_level : Z) : option xpn_metadata :=
  first_node ← hash path nserv 1;
  Some (XpnMetadata XPN_MAGIC_NUMBER 1 0 block_size 0 replication_level first_node 1
          (nserv :: replicate 39 0) (replicate 40 0)).

(** [mdata] is left as it was when the partition is not found; [int] parameters
    narrow the partition's block size. *)
Definition XpnCreateMetadata (mdata : xpn_metadata) (pd : Z) (path : cstr) : prog W (Z * xpn_metadata) :=
  i ← XpnSearchPart pd;
  match i with
  | None => mret (-1, mdata)
  | Some p =>
    c ← get;
    part ← lift (xpn_parttable c !! p);
    m ← lift (XpnCreateMetadataExtern path (part_data_nserv part) (i32 (part_block_size part)) (part_replication_level part));
    mret (0, m)
  end.

Definition XpnGetMetadataPos (mdata : xpn_metadata) (pos : Z) : option Z :=
  n0 ← rdZ (data_nserv mdata) 0;
  if n0 =? 0 then None
  else Some (if pos <? 0 then first_node mdata `rem` n0 else (first_node mdata ⊞ pos) `rem` n0).

(** The writes of [XpnUpdateMetadata], from replica [i] on. *)
Fixpoint write_mdata_from (mdata : xpn_metadata) (n : Z) (p : nat) (path : cstr) (only_file_size master_node i : Z) (k : nat) : prog W unit :=
  match k with
  | O => mret tt
  | S k' =>
    let serv_node := (master_node ⊞ i) `rem` n in
    s ← get_server p serv_node;
    on_server p serv_node (λ s', nfi_worker_do_write_mdata s' (XpnGetURLServer s path) mdata only_file_size);;
    write_mdata_from mdata n p path only_file_size master_node (i + 1) k'
  end.
Fixpoint wait_mdata_from (n : Z) (p : nat) (master_node i err : Z) (k : nat) : prog W Z :=
  match k with
  | O => mret err
  | S k' =>
    res ← wait_server p ((master_node ⊞ i) `rem` n);
    wait_mdata_from n p master_node (i + 1) (if (res : Z) <? 0 then -1 else err) k'
  end.
Definition XpnUpdateMetadata (mdata : xpn_metadata) (n : Z) (p : nat) (path : cstr) (replication_level only_file_size : Z) : prog W Z :=
  master_node ← lift (hash path n 1);
  write_mdata_from mdata n p path only_file_size master_node 0 (Z.to_nat (replication_level + 1));;
  wait_mdata_from n p master_node 0 0 (Z.to_nat replication_level).

(** The search for a server that is not out, the same loop in
    [XpnReadMetadata], [XpnGetAtribFd] and [XpnGetAtribPath]. *)
Fixpoint live_from (n : Z) (p : nat) (master_node i : Z) (k : nat) : prog W Z :=
  match k with
  | O => mret master_node
  | S k' =>
    let master_node' := (master_node ⊞ i) `rem` n in
    s ← get_server p master_node';
    if negb (srv_error s =? -1) then mret master_node'
    else live_from n p master_node' (i + 1) k'
  end.
Definition XpnReadMetadata (n : Z) (p : nat) (path : cstr) (replication_level : Z) : prog W (Z * xpn_metadata) :=
  master ← lift (hash path n 1);
  master_node ← live_from n p master 0 (Z.to_nat replication_level);
  s ← get_server p master_node;
  out ← on_server p master_node (λ s', nfi_worker_do_read_mdata s' (XpnGetURLServer s path));
  res ← wait_server p master_node;
  mret (res, match out with out_mdata m => m | _ => mdata_zero end).

(** ** Attributes *)

Definition stat_of (attr : nfi_attr) (size : Z) : xstat :=
  let mode := at_mode attr in
  let mode := if at_type attr =? 0 then Z.lor S_IFREG mode else mode in
  let mode := if at_type attr =? 1 then Z.lor S_IFDIR mode else mode in
  XStat (st_dev attr) (st_ino attr) mode (at_nlink attr) sys_uid sys_gid size
    (at_blocks attr) (at_atime attr) (at_mtime attr) (at_ctime attr).

(** The part [XpnGetAtribFd] and [XpnGetAtribPath] share, once the attributes
    of the master node are there. *)
Definition finish_attr (n : Z) (p : nat) (path : cstr) (replication_level : Z) (attr : nfi_attr) : prog W (Z * option xstat) :=
  if at_type attr =? NFIFILE then
    '(res, mdata) ← XpnReadMetadata n p path replication_level;
    if (res : Z) <? 0 then mret (res, None)
    else mret (0, Some (stat_of attr (file_size mdata)))
  else mret (0, Some (stat_of attr (at_size attr))).

Definition XpnGetAtribFd (fd : Z) : prog W (Z * option xstat) :=
  d ← get_fd fd;
  c ← get;
  part ← lift (xpn_parttable c !! fd_part d);
  '(n, p) ← XpnGetServers (part_id part) fd;
  if (n : Z) <=? 0 then mret (-1, None)
  else
    master_node ← live_from n p (first_node (fd_mdata d)) 0 (Z.to_nat (part_replication_level part));
    fh0 ← lift (rdZ (fd_nfih d) master_node);
    '(res, fh) ← XpnGetFh fh0 p master_node (fd_path d);
    handles ← lift (wrZ (fd_nfih d) master_node fh);
    update_fd fd (set_nfih handles);;
    s ← get_server (fd_part d) master_node;
    if ((res : Z) <? 0) && negb (srv_error s =? -1) then mret (res, None)
    else
      out ← on_server p master_node (λ s', nfi_worker_do_getattr s' (default fh_zero fh));
      res' ← wait_server p master_node;
      if (res' : Z) <? 0 then mret (res', None)
      else finish_attr n p (fd_path d) (part_replication_level part) (match out with out_attr a => a | _ => attr_zero end).

Definition XpnGetAtribPath (path : cstr) : prog W (Z * option xstat) :=
  '(pd, aux_path) ← XpnGetPartition path;
  if (pd : Z) <? 0 then fail ENOENT (pd, None)
  else
    '(n, p) ← XpnGetServers pd (-1);
    if (n : Z) <=? 0 then mret (-1, None)
    else
      master ← lift (hash aux_path n 1);
      let aux_path' := if (length aux_path =? 0)%nat then [slash] else aux_path in
      part ← part_of pd;
      master_node ← live_from n p master 0 (Z.to_nat (part_replication_level part));
      s ← get_server p master_node;
      let vfh_aux := NfiFh 0 (XpnGetURLServer s aux_path') 0 0 in
      out ← on_server p master_node (λ s', nfi_worker_do_getattr s' vfh_aux);
      res ← wait_server p master_node;
      if (res : Z) <? 0 then mret (res, None)
      else finish_attr n p aux_path' (part_replication_level part) (match out with out_attr a => a | _ => attr_zero end).
End policy.

(** ** Metadata of a new file *)

Section create_metadata.
Context (path : cstr) (n bs rl : Z).
Context (Hpath : ascii_path path) (Hlen : strlen path < PATH_MAX - 1) (Hn : 0 < n < 2 ^ 30)
  (Hbs : 0 < bs < 2 ^ 31) (Hrl : 0 <= rl < 2 ^ 31 - 1).

Lemma create_expanded m : XpnCreateMetadataExtern path n bs rl = Some m → expanded m 1.
Proof using Hpath Hlen Hn Hbs Hrl.
  unfold XpnCreateMetadataExtern. destruct (hash_bound path n 1 Hpath Hlen ltac:(lia)) as (h & -> & Hh).
  intros [= <-]. split; try (cbn; lia).
  - intros [|k] Hk; cbn; lia.
  - intros [|k] Hk; [lia|]. apply (nth_replicate_eq k 39).
  - intros [|k] Hk; [lia|]. apply (nth_replicate_eq k 39).
Qed.
End create_metadata.

(** C30: the metadata [XpnCreateMetadata] gives a new file passes the magic
    number check and is that of a file that was never expanded, with the
    master server in range: all the layout theorems apply to it. *)
Theorem create_metadata_well_formed path n bs rl :
  ascii_path path → strlen path < PATH_MAX - 1 → 0 < n < 2 ^ 30 → 0 < bs < 2 ^ 31 → 0 <= rl < 2 ^ 31 - 1 →
  ∃ m, XpnCreateMetadataExtern path n bs rl = Some m ∧ XPN_CHECK_MAGIC_NUMBER m = true ∧ expanded m 1 ∧
    nv m 0 = n ∧ block_size m = bs ∧ replication_level m = rl ∧ file_size m = 0 ∧
    ∀ x j, 0 <= x → x * (rl + 1) < 2 ^ 62 → 0 <= j <= rl →
      ∃ o s, XpnCalculateBlockMdata m x j 0 0 = Some (o, s) ∧ 0 <= s < n ∧ 0 <= o.
Proof.
  intros Hp Hl Hn Hb Hr. destruct (hash_bound path n 1 Hp Hl ltac:(lia)) as (h & Eh & Hh).
  assert (∃ m, XpnCreateMetadataExtern path n bs rl = Some m) as [m Em] by (unfold XpnCreateMetadataExtern; rewrite Eh; by eexists).
  exists m. pose proof (create_expanded path n bs rl Hp Hl Hn Hb Hr m Em) as HE.
  split; [done|]. assert (XPN_CHECK_MAGIC_NUMBER m = true ∧ nv m 0 = n ∧ block_size m = bs ∧ replication_level m = rl ∧ file_size m = 0)
    as (H1 & H2 & H3 & H4 & H5) by (unfold XpnCreateMetadataExtern in Em; rewrite Eh in Em; by injection Em as <-).
  split_and!; try done. intros x j Hx Hxr Hj. rewrite <- H4 in Hxr, Hj.
  rewrite (mdata_exact m 1 HE x j) by lia. eexists _, _. split; [reflexivity|].
  pose proof (mlay_ok m 1 HE 0 ltac:(lia)) as HL. cbn [seg_of seg_start]. rewrite Z.sub_0_r by lia. split.
  - rewrite <- H2. apply (ly_serv_range (mlay m 0) HL).
  - pose proof (ly_off_bound m 1 HE 0 x j ltac:(lia) ltac:(lia) ltac:(lia)). cbn [seg_base join]. lia.
Qed.

Lemma create_metadata_well_formed_witness :
  ∃ m, XpnCreateMetadataExtern (str "/xpn/a") 4 512 1 = Some m ∧ first_node m = 1 ∧ expanded m 1.
Proof.
  destruct (create_metadata_well_formed (str "/xpn/a") 4 512 1) as (m & E & _ & HE & _); [|zcalc|zcalc|zcalc|zcalc|].
  - unfold ascii_path. cbn. repeat (apply List.Forall_cons; [zcalc|]). apply List.Forall_nil.
  - exists m. split; [exact E|]. split; [|exact HE]. vm_compute in E. injection E as <-. reflexivity.
Defined.
