(* ===== verification/MemFs.v ===== *)
(** * MemFs: an in-memory instance of the server interface

    A concrete [NfiOps]: every server is a map from URLs to files, a file is
    the bytes after the header and the metadata the header holds.  It is not
    part of the program; the witnesses evaluate the client's definitions over it. *)

From S2P Require Import Prelude Cstr Paths Mdata Nfi Client.

Record mfile := MFile { mf_bytes : list ascii; mf_mdata : xpn_metadata; mf_dir : bool }.
Abbreviation memfs := (gmap (Z * String.string) mfile) (only parsing).
Definition key (s : nfi_server) (url : cstr) : Z * String.string := (srv_id s, String.string_of_list_ascii url).

Definition empty_file : mfile := MFile [] mdata_zero false.
(** [pwrite]: the file is extended with zeros up to the offset. *)
Definition splice (b : list ascii) (off : nat) (d : list ascii) : list ascii :=
  let b' := b ++ replicate (off - length b) NUL in
  take off b' ++ d ++ drop (off + length d) b'.

Definition mem_open (s : nfi_server) (url : cstr) (flags : Z) (f : nfi_fhandle) (st : Z * memfs) : (Z * nfi_fhandle) * (Z * memfs) :=
  let '(e, w) := st in
  let fh := NfiFh NFIFILE url 1 0 in
  match w !! key s url with
  | Some x => (0, fh, (e, if has_flag O_TRUNC flags then <[key s url := MFile [] mdata_zero (mf_dir x)]> w else w))
  | None => if has_flag O_CREAT flags then (0, fh, (e, <[key s url := empty_file]> w)) else (-1, f, (ENOENT, w))
  end.
Definition mem_update (s : nfi_server) (url : cstr) (g : mfile → mfile) (r : Z) (st : Z * memfs) : Z * (Z * memfs) :=
  let '(e, w) := st in
  match w !! key s url with
  | Some x => (r, (e, <[key s url := g x]> w))
  | None => (-1, (ENOENT, w))
  end.
Definition mem_attr (x : mfile) : nfi_attr :=
  NfiAttr 0 0 (if mf_dir x then 1 else 0) 420 1 0 0 (Z.of_nat (length (mf_bytes x))) 0 0 0 0 0.

#[export] Instance memfs_ops : NfiOps memfs := {
  nfi_open s url flags mode f st := mem_open s url flags f st;
  nfi_create s url mode st :=
    let '(r, f, st') := mem_open s url O_CREAT fh_zero st in ((r, f, attr_zero), st');
  nfi_close s f st := (0, st);
  nfi_remove s url st :=
    let '(e, w) := st in
    match w !! key s url with Some _ => (0, (e, delete (key s url) w)) | None => (-1, (ENOENT, w)) end;
  nfi_rename s a b st :=
    let '(e, w) := st in
    match w !! key s a with
    | Some x => (0, (e, <[key s b := x]> (delete (key s a) w)))
    | None => (-1, (ENOENT, w))
    end;
  nfi_getattr s f st :=
    let '(e, w) := st in
    match w !! key s (fh_url f) with Some x => ((0, mem_attr x), st) | None => ((-1, attr_zero), (ENOENT, w)) end;
  nfi_setattr s f a st := (0, st);
  nfi_read s f off n st :=
    let '(e, w) := st in
    match w !! key s (fh_url f) with
    | Some x => let d := take (Z.to_nat n) (drop (Z.to_nat (off - XPN_HEADER_SIZE)) (mf_bytes x)) in
                ((Z.of_nat (length d), d), st)
    | None => ((-1, []), (ENOENT, w))
    end;
  nfi_write s f off d st :=
    mem_update s (fh_url f) (λ x, MFile (splice (mf_bytes x) (Z.to_nat (off - XPN_HEADER_SIZE)) d) (mf_mdata x) (mf_dir x))
      (Z.of_nat (length d)) st;
  nfi_mkdir s url mode st := let '(e, w) := st in (0, (e, <[key s url := MFile [] mdata_zero true]> w));
  nfi_rmdir s url st := let '(e, w) := st in (0, (e, delete (key s url) w));
  nfi_opendir s url f st :=
    let '(e, w) := st in
    match w !! key s url with Some _ => ((0, NfiFh NFIDIR url 1 0), st) | None => ((-1, f), (ENOENT, w)) end;
  nfi_readdir s f st := ((1, dirent_zero), st);
  nfi_closedir s f st := (0, st);
  nfi_statfs s st := ((0, info_zero), st);
  nfi_read_mdata s url st :=
    let '(e, w) := st in
    match w !! key s url with
    | Some x => ((0, if XPN_CHECK_MAGIC_NUMBER (mf_mdata x) then mf_mdata x else mdata_zero), st)
    | None => ((-1, mdata_zero), (ENOENT, w))
    end;
  nfi_write_mdata s url m only st :=
    if only =? 0 then
      let '(e, w) := st in
      let x := default empty_file (w !! key s url) in
      (0, (e, <[key s url := MFile (mf_bytes x) m (mf_dir x)]> w))
    else mem_update s url (λ x,
      if file_size (mf_mdata x) <? file_size m then
        let o := mf_mdata x in
        MFile (mf_bytes x) (XpnMetadata (magic_number o) (version o) (type_ o) (Mdata.block_size o) (file_size m)
          (replication_level o) (first_node o) (distribution_policy o) (data_nserv o) (offsets o)) (mf_dir x)
      else x) 0 st }.

#[export] Instance sample_sys : Sys := {
  sys_fresh_fh := NfiFh 7 [] 7 7; sys_fresh_byte := "?"%char; sys_rand := λ z, (z mod 2 ^ 31, z + 1); sys_uid := 1000; sys_gid := 1000 }.

(** A client with one partition "xpn" of four servers, with blocks of four bytes. *)
Definition mserver (i : Z) : nfi_server := NfiServer i (str "mem://s/d") 0 0 0.
Definition mpart (rl : Z) : xpn_partition := XpnPart 0 (str "xpn") 4 rl 4 (-1) (mserver <$> seqZ 0 4).
Definition mclient (rl : Z) : client memfs :=
  Client (Env 0 ∅ ∅) (mpart rl :: replicate 127 (XpnPart (-1) [] 0 0 0 0 []))
    (replicate 1024 None) ∅ 0 xpn_init_cwd 0.
