(* ===== verification/FileTable.v ===== *)
(** * FileTable: opening, closing and duplicating descriptors

    src/src/xpn_client/xpn/xpn_simple/xpncore/xpn_file.c and xpn_open.c. *)

From S2P Require Import Prelude Cstr Paths Layout Mdata Nfi Client MemFs.

Section ops.
Context {W : Type} `{NO : !NfiOps W} `{SY : !Sys}.

(** ** The file table *)

Definition xpn_init_file_table : prog W Z :=
  modify (with_files (replicate (Z.to_nat XPN_MAX_FILE) None));; mret 0.

(** The scan for a NULL slot that [XpnSearchSlotFile] and [xpn_simple_dup]
    share stops at the last slot, whatever it holds. *)
Fixpoint scan_slot (t : list (option nat)) (i : Z) : Z :=
  if i <? XPN_MAX_FILE - 1 then
    match t with
    | Some _ :: t' => scan_slot t' (i + 1)
    | _ => i
    end
  else i.

Definition XpnSearchSlotFile (pd : Z) (path : cstr) (nfih : list (option nfi_fhandle)) (mdata : xpn_metadata) (flags mode : Z) : prog W Z :=
  c ← get;
  let i := scan_slot (xpn_file_table c) 0 in
  if i =? XPN_MAX_FILE then mret (-1)
  else
    let l := cl_next c in
    p ← XpnSearchPart pd;
    p ← lift p;
    part ← lift (xpn_parttable c !! p);
    t ← lift (wrZ (xpn_file_table c) i (Some l));
    modify (with_files t);;
    modify (with_next (S l));;
    modify (with_heap (<[l := FileDesc i path (type_ mdata) 1 flags mode p mdata 0 (part_block_size part) nfih]> (cl_heap c)));;
    mret i.

(** A path is compared with the path of every open file. *)
Fixpoint search_file (path : cstr) (t : list (option nat)) (h : gmap nat xpn_filedesc) (i : Z) : option Z :=
  match t with
  | [] => Some (-1)
  | None :: t' => search_file path t' h (i + 1)
  | Some l :: t' =>
    d ← h !! l;
    if strcmp_eq (fd_path d) path then Some i else search_file path t' h (i + 1)
  end.
Definition XpnSearchFile (path : cstr) : prog W Z :=
  c ← get; lift (search_file path (xpn_file_table c) (cl_heap c) 0).

(** ** [XpnCheckServAffectedByOp] *)

Definition in_replicas (m : xpn_metadata) (node n_serv serv : Z) : bool :=
  existsb (λ i, (i ⊞ node) `rem` n_serv =? serv) (seqZ 0 (replication_level m + 1)).

Fixpoint replica_hits (m : xpn_metadata) (offset serv j : Z) (k : nat) : option bool :=
  match k with
  | O => Some false
  | S k' =>
    '(_, aux_serv) ← XpnCalculateBlockMdata m offset j 0 0;
    if aux_serv =? serv then Some true else replica_hits m offset serv (j + 1) k'
  end.
Fixpoint block_hits (m : xpn_metadata) (serv i : Z) (k : nat) : option bool :=
  match k with
  | O => Some false
  | S k' =>
    let offset := block_size m ⊗ i in
    if file_size m <? offset then Some false
    else
      b ← replica_hits m offset serv 0 (Z.to_nat (replication_level m + 1));
      if (b : bool) then Some true else block_hits m serv (i + 1) k'
  end.

Definition XpnCheckServAffectedByOp (m : xpn_metadata) (master_dir master_node n_serv serv : Z) : option bool :=
  if negb (XPN_CHECK_MAGIC_NUMBER m) then Some true
  else if n_serv =? 0 then None
  else if in_replicas m master_dir n_serv serv then Some true
  else if in_replicas m master_node n_serv serv then Some true
  else
    d1 ← rdZ (data_nserv m) 1;
    if negb (d1 =? 0) then Some true
    else block_hits m serv 0 (Z.to_nat n_serv).

(** The launch loop and the wait loop of an operation on the affected servers. *)
Definition launch_affected (m : xpn_metadata) (master_dir master_node n : Z) (f : Z → prog W unit) : prog W unit :=
  forM_ (seqZ 0 n) (λ i,
    b ← lift (XpnCheckServAffectedByOp m master_dir master_node n i);
    when b (f i)).
Definition wait_affected (m : xpn_metadata) (master_dir master_node n : Z) (p : nat) : prog W bool :=
  foldM (seqZ 0 n) (λ err i,
    b ← lift (XpnCheckServAffectedByOp m master_dir master_node n i);
    if (b : bool) then res ← wait_server p i; mret (err || ((res : Z) <? 0)) else mret err) false.

(** ** Opening *)

(** The handle [nfi_worker_do_open] leaves in the memory it was given. *)
Definition out_handle (out : nfi_out) : nfi_fhandle :=
  match out with out_fh f => f | _ => sys_fresh_fh end.

(** The array of handles is threaded through the launch loop of [O_CREAT]. *)
Definition open_affected (m : xpn_metadata) (master_dir master_node n : Z) (p : nat) (path : cstr) (flags mode : Z) : prog W (list (option nfi_fhandle)) :=
  foldM (seqZ 0 n) (λ nfih i,
    b ← lift (XpnCheckServAffectedByOp m master_dir master_node n i);
    if (b : bool) then
      s ← get_server p i;
      out ← on_server p i (λ s', nfi_worker_do_open s' (XpnGetURLServer s path) flags mode sys_fresh_fh);
      lift (wrZ nfih i (Some (out_handle out)))
    else mret nfih) (replicate (Z.to_nat n) None).

(** [xpn_internal_open] as [xpn_simple_open] calls it, with [vfh] and [mdata]
    NULL. *)
Definition xpn_internal_open (path : cstr) (flags mode : Z) : prog W Z :=
  c ← get;
  '(res, abs) ← lift (XpnGetAbsolutePath (xpn_cwddir c) path);
  if (res : Z) <? 0 then fail ENOENT res
  else
    '(pd, abs_path) ← XpnGetPartition abs;
    if (pd : Z) <? 0 then fail ENOENT pd
    else
      '(n, p) ← XpnGetServers pd (-1);
      if (n : Z) <=? 0 then mret res
      else
        part ← part_of pd;
        (* metadata *)
        '(res, mdata) ← (if negb (has_flag O_DIRECTORY flags) then
                           '(res, mdata) ← XpnReadMetadata n p abs_path (part_replication_level part);
                           if ((res : Z) <? 0) && negb (has_flag O_CREAT flags) then mret (res, None)
                           else if negb (XPN_CHECK_MAGIC_NUMBER mdata) then
                             '(_, m) ← XpnCreateMetadata mdata pd abs_path; mret (res, Some m)
                           else mret (res, Some mdata)
                         else mret (res, Some mdata_zero));
        match mdata with
        | None => mret res
        | Some mdata =>
          master_node ← lift (hash abs_path n 1);
          master_dir ← lift (hash abs_path n 0);
          '(res, nfih) ←
            (if has_flag O_CREAT flags then
               nfih ← open_affected mdata master_dir master_node n p abs_path flags mode;
               err ← wait_affected mdata master_dir master_node n p;
               mret ((if (err : bool) then -1 else 0), nfih)
             else
               s ← get_server p master_dir;
               out ← on_server p master_dir (λ s',
                 if has_flag O_DIRECTORY flags then nfi_worker_do_opendir s' (XpnGetURLServer s abs_path) sys_fresh_fh
                 else nfi_worker_do_open s' (XpnGetURLServer s abs_path) flags mode sys_fresh_fh);
               nfih ← lift (wrZ (replicate (Z.to_nat n) None) master_dir (Some (out_handle out)));
               res ← wait_server p master_dir;
               mret (res, nfih));
          if (res : Z) <? 0 then mret res
          else
            res ← (if has_flag O_CREAT flags && negb (has_flag O_DIRECTORY flags) then
                     XpnUpdateMetadata mdata n p abs_path (part_replication_level part) 0
                   else mret 0);
            if (res : Z) <? 0 then mret res
            else XpnSearchSlotFile pd abs_path nfih mdata flags mode
        end.

(** A [path] argument is [None] when it is NULL. *)
Definition xpn_simple_open (path : option cstr) (flags mode : Z) : prog W Z :=
  match path with
  | None => fail EINVAL (-1)
  | Some s => if PATH_MAX <? strlen s then fail EINVAL (-1) else xpn_internal_open s flags mode
  end.
Definition xpn_simple_creat (path : option cstr) (perm : Z) : prog W Z :=
  res ← xpn_simple_open path (Z.lor O_WRONLY (Z.lor O_CREAT O_TRUNC)) perm;
  if (res : Z) <? 0 then mret res else mret res.

(** ** Closing

    [closef] is the operation called on the servers: [nfi_close] here,
    [nfi_closedir] in [xpn_simple_closedir]. *)
Definition close_handles (closef : nfi_server → nfi_fhandle → Z * W → Z * (Z * W)) (d : xpn_filedesc) : prog W unit :=
  forM_ (imap (λ i h, (Z.of_nat i, h)) (fd_nfih d)) (λ '(i, h),
    match h with
    | None => mret tt
    | Some fh =>
      when (negb (fh_priv fh =? 0))
        (s ← get_server (fd_part d) i; zoom (call (closef s fh));; mret tt)
    end).

Definition release (closef : nfi_server → nfi_fhandle → Z * W → Z * (Z * W)) (fd : Z) : prog W unit :=
  update_fd fd (λ d, set_links (fd_links d ⊟ 1) d);;
  d ← get_fd fd;
  when (fd_links d =? 0)
    (close_handles closef d;;
     l ← fd_loc fd;
     c ← get;
     modify (with_heap (delete l (cl_heap c)));;
     t ← lift (wrZ (xpn_file_table c) fd None);
     modify (with_files t)).

Definition xpn_simple_close (fd : Z) : prog W Z :=
  if (fd <? 0) || (XPN_MAX_FILE - 1 <? fd) then fail EBADF (-1)
  else
    null ← fd_is_null fd;
    if (null : bool) then fail EBADF (-1)
    else release nfi_close fd;; mret 0.

(** [xpn_destroy_file_table]: every open descriptor is freed, a private handle
    included; an alias of a freed descriptor is an access to freed memory. *)
Definition xpn_destroy_file_table : prog W Z :=
  forM_ (seqZ 0 XPN_MAX_FILE) (λ i,
    null ← fd_is_null i;
    if (null : bool) then mret tt
    else
      l ← fd_loc i;
      c ← get;
      d ← lift (cl_heap c !! l);
      modify (with_heap (delete l (cl_heap c)));;
      t ← lift (wrZ (xpn_file_table c) i None);
      modify (with_files t));;
  mret 0.

(** ** Duplicating *)

Definition xpn_simple_dup (fd : Z) : prog W Z :=
  if (XPN_MAX_FILE - 1 <? fd) || (fd <? 0) then mret (-1)
  else
    null ← fd_is_null fd;
    if (null : bool) then mret (-1)
    else
      c ← get;
      let i := scan_slot (xpn_file_table c) 0 in
      if i =? XPN_MAX_FILE then mret (-1)
      else
        l ← fd_loc fd;
        t ← lift (wrZ (xpn_file_table c) i (Some l));
        modify (with_files t);;
        update_fd fd (λ d, set_links (fd_links d ⊞ 1) d);;
        mret i.

Definition xpn_simple_dup2 (fd fd2 : Z) : prog W Z :=
  if (XPN_MAX_FILE - 1 <? fd) || (fd <? 0) then mret (-1)
  else if (XPN_MAX_FILE - 1 <? fd2) || (fd2 <? 0) then mret (-1)
  else
    null ← fd_is_null fd;
    if (null : bool) then mret (-1)
    else
      null2 ← fd_is_null fd2;
      if negb null2 then mret (-1)
      else
        l ← fd_loc fd;
        c ← get;
        t ← lift (wrZ (xpn_file_table c) fd2 (Some l));
        modify (with_files t);;
        update_fd fd (λ d, set_links (fd_links d ⊞ 1) d);;
        mret 0.

(** ** Removing, renaming, attributes *)

(** The common part of [xpn_internal_remove], [xpn_simple_rename],
    [xpn_simple_mkdir] and [xpn_simple_rmdir]: the path, its partition and the servers. *)
Definition resolve (path : cstr) : prog W (option (Z * cstr)) :=
  c ← get;
  '(res, abs) ← lift (XpnGetAbsolutePath (xpn_cwddir c) path);
  if (res : Z) <? 0 then fail ENOENT None
  else
    '(pd, abs_path) ← XpnGetPartition abs;
    if (pd : Z) <? 0 then fail ENOENT None else mret (Some (pd, abs_path)).

Definition xpn_internal_remove (path : option cstr) : prog W Z :=
  match path with
  | None => fail EINVAL (-1)
  | Some path =>
    r ← resolve path;
    match r with
    | None => mret (-1)
    | Some (pd, abs_path) =>
      '(n, p) ← XpnGetServers pd (-1);
      if (n : Z) <=? 0 then mret (-1)
      else
        part ← part_of pd;
        '(_, mdata) ← XpnReadMetadata n p abs_path (part_replication_level part);
        master_node ← lift (hash abs_path n 1);
        master_dir ← lift (hash abs_path n 0);
        launch_affected mdata master_dir master_node n (λ i,
          s ← get_server p i;
          on_server p i (λ s', nfi_worker_do_remove s' (XpnGetURLServer s abs_path));; mret tt);;
        err ← wait_affected mdata master_dir master_node n p;
        mret (if (err : bool) then -1 else 0)
    end
  end.
Definition xpn_simple_unlink (path : option cstr) : prog W Z := xpn_internal_remove path.

Definition xpn_simple_rename (path newpath : option cstr) : prog W Z :=
  match path, newpath with
  | None, _ | _, None => fail EINVAL (-1)
  | Some path, Some newpath =>
    c ← get;
    '(res, abs) ← lift (XpnGetAbsolutePath (xpn_cwddir c) path);
    if (res : Z) <? 0 then fail ENOENT (-1) else
    '(res2, newabs) ← lift (XpnGetAbsolutePath (xpn_cwddir c) newpath);
    if (res2 : Z) <? 0 then fail ENOENT (-1) else
    '(pd, abs_path) ← XpnGetPartition abs;
    if (pd : Z) <? 0 then fail ENOENT (-1) else
    '(newpd, newabs_path) ← XpnGetPartition newabs;
    if (newpd : Z) <? 0 then fail ENOENT (-1) else
    if negb ((pd : Z) =? newpd) then mret (-1) else
    '(n, p) ← XpnGetServers pd (-1);
    if (n : Z) <=? 0 then mret (-1)
    else
      part ← part_of pd;
      '(_, mdata) ← XpnReadMetadata n p abs_path (part_replication_level part);
      master_dir ← lift (hash abs_path n 0);
      master_node ← lift (hash abs_path n 1);
      launch_affected mdata master_dir master_node n (λ i,
        s ← get_server p i;
        on_server p i (λ s', nfi_worker_do_rename s' (XpnGetURLServer s abs_path) (XpnGetURLServer s newabs_path));; mret tt);;
      err ← wait_affected mdata master_dir master_node n p;
      if (err : bool) then mret (-1)
      else
        when (XPN_CHECK_MAGIC_NUMBER mdata)
          (XpnUpdateMetadata mdata n p newabs_path (part_replication_level part) 0;; mret tt);;
        mret 0
  end.

Definition xpn_simple_fstat (fd : Z) : prog W (Z * option xstat) :=
  if fd <? 0 then fail EBADF (-1, None) else XpnGetAtribFd fd.

(** [sb_null]: the output pointer is NULL. *)
Definition xpn_simple_stat (path : option cstr) (sb_null : bool) : prog W (Z * option xstat) :=
  match path with
  | None => fail EINVAL (-1, None)
  | Some path =>
    if (length path =? 0)%nat then fail EINVAL (-1, None)
    else if sb_null then fail EINVAL (-1, None)
    else
      c ← get;
      '(res, abs) ← lift (XpnGetAbsolutePath (xpn_cwddir c) path);
      if (res : Z) <? 0 then fail ENOENT (res, None)
      else
        '(res, st) ← XpnGetAtribPath abs;
        if (res : Z) <? 0 then fail ENOENT (res, None) else mret (res, st)
  end.
End ops.

(** ** Lemmas *)

Section lemmas.
Context {W : Type} `{NO : !NfiOps W} `{SY : !Sys}.
Implicit Types c : client W.

Definition slot_of c (fd : Z) : option (option nat) := rdZ (xpn_file_table c) fd.
(** How many slots hold the pointer [l]. *)
Definition aliases (t : list (option nat)) (l : nat) : Z :=
  Z.of_nat (length (filter (λ s, s = Some l) t)).

(** The table is well formed: every pointer leads to a descriptor whose
    [links] counts the slots that hold it. *)
Record ft_wf c : Prop := {
  wf_len : length (xpn_file_table c) = 1024%nat;
  wf_live : ∀ fd l, slot_of c fd = Some (Some l) →
    ∃ d, cl_heap c !! l = Some d ∧ fd_links d = aliases (xpn_file_table c) l;
  wf_next : ∀ l d, cl_heap c !! l = Some d → (l < cl_next c)%nat }.

Lemma fd_loc_run c fd l : slot_of c fd = Some (Some l) → fd_loc fd c = Some (l, c).
Proof. intros H. unfold fd_loc. mstep. unfold slot_of in H. rewrite H. done. Qed.
Lemma get_fd_run c fd l d : slot_of c fd = Some (Some l) → cl_heap c !! l = Some d → get_fd fd c = Some (d, c).
Proof. intros H Hd. unfold get_fd. mrun (by apply fd_loc_run). mstep. rewrite Hd. done. Qed.
Lemma get_fd_inv c fd d c' :
  get_fd fd c = Some (d, c') → c' = c ∧ ∃ l, slot_of c fd = Some (Some l) ∧ cl_heap c !! l = Some d.
Proof.
  unfold get_fd, fd_loc, slot_of. intros (l & c1 & (c2 & c3 & [= <- <-] & (s & c4 & H1 & H2)%bind_inv)%bind_inv & H3)%bind_inv.
  apply bind_inv in H3 as (c5 & c6 & [= <- <-] & H3). unfold lift in H1, H2, H3.
  destruct (rdZ (xpn_file_table c) fd) as [s'|]; [injection H1 as <- <-|done].
  destruct s' as [l'|]; [injection H2 as <- <-|done]. destruct (cl_heap c !! l') eqn:E; [injection H3 as <- <-|done].
  split; [done|]. by exists l'.
Qed.
Lemma update_fd_run c fd l d f :
  slot_of c fd = Some (Some l) → cl_heap c !! l = Some d →
  update_fd fd f c = Some (tt, with_heap (<[l := f d]> (cl_heap c)) c).
Proof.
  intros H Hd. unfold update_fd. mrun (by apply fd_loc_run). mstep.
  rewrite Hd. done.
Qed.
Lemma fd_is_null_run c fd s :
  slot_of c fd = Some s → fd_is_null fd c = Some (match s with None => true | _ => false end, c).
Proof. intros H. unfold fd_is_null. mstep. unfold slot_of in H. rewrite H. done. Qed.

Lemma scan_slot_spec t i :
  0 <= i <= 1023 → Z.of_nat (length t) = 1024 - i →
  let r := scan_slot t i in
  i <= r <= 1023 ∧ (∀ k, i <= k < r → ∃ l, rdZ t (k - i) = Some (Some l)) ∧
  (r < 1023 → rdZ t (r - i) = Some None).
Proof.
  revert i. induction t as [|s t IH]; intros i Hi Hl; [cbn in Hl; lia|].
  cbn [length] in Hl. cbn [scan_slot]. unfold XPN_MAX_FILE.
  destruct (Z.ltb_spec i (1024 - 1)) as [Hlt|Hlt]; [|split_and!; [lia|lia|lia|lia]].
  destruct s as [l|].
  - destruct (IH (i + 1)) as (H1 & H2 & H3); [lia|lia|]. split_and!; [lia|lia| |].
    + intros k Hk. destruct (decide (k = i)) as [->|].
      * exists l. rewrite Z.sub_diag. done.
      * destruct (H2 k) as [l' Hl']; [lia|]. exists l'. revert Hl'. unfold rdZ. zbool.
        replace (Z.to_nat (k - i)) with (S (Z.to_nat (k - (i + 1)))) by lia. done.
    + intros Hr. specialize (H3 Hr). revert H3. unfold rdZ. zbool.
      set (r := scan_slot t (i + 1)) in *.
      replace (Z.to_nat (r - i)) with (S (Z.to_nat (r - (i + 1)))) by lia. done.
  - split_and!; [lia|lia|lia|]. intros _. rewrite Z.sub_diag. done.
Qed.

Lemma wrZ_run {A} (l : list A) i x :
  0 <= i < Z.of_nat (length l) → wrZ l i x = Some (<[Z.to_nat i := x]> l).
Proof. intros H. unfold wrZ. zbool. done. Qed.
Lemma rdZ_insert {A} (l : list A) i j x :
  0 <= i < Z.of_nat (length l) → 0 <= j →
  rdZ (<[Z.to_nat i := x]> l) j = if decide (i = j) then Some x else rdZ l j.
Proof.
  intros Hi Hj. unfold rdZ. zbool. destruct (decide (i = j)) as [->|Hne].
  - apply list_lookup_insert_eq. lia.
  - apply list_lookup_insert_ne. lia.
Qed.

(** Writing a slot changes the counts of the old and the new pointer. *)
Lemma aliases_insert t i s l :
  (i < length t)%nat →
  aliases (<[i := s]> t) l
  = aliases t l - (if decide (t !! i = Some (Some l)) then 1 else 0) + (if decide (s = Some l) then 1 else 0).
Proof.
  intros Hi. destruct (lookup_lt_is_Some_2 t i Hi) as [s0 Hs0].
  rewrite insert_take_drop by done. unfold aliases.
  rewrite <- (take_drop_middle t i s0 Hs0) at 3. rewrite !filter_app, !filter_cons, !length_app.
  rewrite Hs0. destruct (decide (s = Some l)), (decide (s0 = Some l)), (decide (Some s0 = Some (Some l)));
    cbn [length]; simplify_eq; try lia; done.
Qed.
Lemma aliases_pos t i l : rdZ t i = Some (Some l) → 0 < aliases t l.
Proof.
  intros [Hi H]%rdZ_lookup. unfold aliases. apply list_elem_of_lookup_2 in H.
  assert (Some l ∈ filter (λ s, s = Some l) t) as Hin by (apply list_elem_of_filter; done).
  destruct (filter _ t); [by apply elem_of_nil in Hin|]. cbn. lia.
Qed.
Lemma aliases_zero t l : (∀ i, rdZ t i ≠ Some (Some l)) → aliases t l = 0.
Proof.
  intros H. unfold aliases. destruct (filter (λ s, s = Some l) t) as [|s r] eqn:E; [done|].
  assert (s ∈ filter (λ s, s = Some l) t) as Hin by (rewrite E; left).
  apply list_elem_of_filter in Hin as [-> Hin]. apply list_elem_of_lookup_1 in Hin as [i Hi].
  destruct (H (Z.of_nat i)). apply rdZ_lookup. rewrite Nat2Z.id. split; [lia|done].
Qed.

(** *** Closing *)

(** The servers of the private handles exist. *)
Definition handles_ok c (d : xpn_filedesc) : Prop :=
  ∀ i fh, fd_nfih d !! i = Some (Some fh) → fh_priv fh ≠ 0 →
    ∃ part s, xpn_parttable c !! fd_part d = Some part ∧ rdZ (data_serv part) (Z.of_nat i) = Some s.

Lemma get_server_run c p j part s :
  xpn_parttable c !! p = Some part → rdZ (data_serv part) j = Some s → get_server p j c = Some (s, c).
Proof. intros Hp Hs. unfold get_server. mstep. rewrite Hp. mstep. rewrite Hs. done. Qed.

Lemma zoom_call_run {A} (f : Z * W → A * (Z * W)) c :
  ∃ a e, zoom (call f) c = Some (a, with_env e c).
Proof.
  unfold zoom, call. destruct (f _) as [a [e w]]. eexists _, _. reflexivity.
Qed.
Lemma with_env_idem e e' c : with_env e (with_env e' c) = with_env e c.
Proof. done. Qed.

Lemma close_handles_run closef c d :
  handles_ok c d → ∃ e, close_handles closef d c = Some (tt, with_env e c).
Proof.
  intros Hok. unfold close_handles.
  destruct (forM_inv (λ c', ∃ e, c' = with_env e c) (imap (λ i h, (Z.of_nat i, h)) (fd_nfih d))
    (λ '(i, h), match h with
      | None => mret tt
      | Some fh => when (negb (fh_priv fh =? 0))
          (s ← get_server (fd_part d) i; zoom (call (closef s fh));; mret tt)
      end) c) as (c' & E & e & ->); [exists (cl_env c); by destruct c| |by exists e].
  intros [i h] c1 (k & h' & [= -> ->] & Hk)%elem_of_lookup_imap_1 [e1 ->].
  destruct h' as [fh|]; [|by exists (with_env e1 c); eauto].
  destruct (Z.eqb_spec (fh_priv fh) 0) as [H0|H0]; cbn [negb when]; [by eauto|].
  destruct (Hok k fh Hk H0) as (part & s & Hp & Hs).
  destruct (zoom_call_run (closef s fh) (with_env e1 c)) as (a & e2 & E2).
  exists (with_env e2 c). split; [|by exists e2].
  erewrite bind_step by (apply (get_server_run _ _ _ part s); done).
  mrun (exact E2). done.
Qed.

Lemma links_dec d : fd_links (set_links (fd_links d ⊟ 1) d) = fd_links d ⊟ 1.
Proof. done. Qed.

(** The last close frees the descriptor and empties its slot. *)
Lemma release_last closef c fd l d :
  slot_of c fd = Some (Some l) → cl_heap c !! l = Some d → fd_links d = 1 → handles_ok c d →
  ∃ e, release closef fd c
       = Some (tt, with_files (<[Z.to_nat fd := None]> (xpn_file_table c))
                     (with_heap (delete l (cl_heap c)) (with_env e c))).
Proof.
  intros Hs Hd Hl Hok. unfold release.
  mrun (by apply (update_fd_run c fd l d)).
  set (d' := set_links (fd_links d ⊟ 1) d).
  set (c1 := with_heap (<[l := d']> (cl_heap c)) c).
  erewrite bind_step by (apply (get_fd_run c1 fd l d'); [done|apply lookup_insert_eq]).
  assert (fd_links d' = 0) as -> by (unfold d'; rewrite links_dec, Hl; done).
  cbn [when Z.eqb].
  destruct (close_handles_run closef c1 d') as [e E]; [exact Hok|].
  mrun (exact E). erewrite bind_step by (apply (fd_loc_run _ fd l); exact Hs).
  mstep. mstep. apply rdZ_lookup in Hs as [H0 Hk]. apply lookup_lt_Some in Hk.
  mrun (unfold lift; rewrite wrZ_run by (cbn; lia); reflexivity).
  exists e. unfold modify. do 2 f_equal.
  destruct c. unfold c1. cbn. unfold with_files, with_heap, with_env. cbn. f_equal. apply delete_insert_eq.
Qed.

(** A close of a shared descriptor only lowers its count. *)
Lemma release_shared closef c fd l d :
  slot_of c fd = Some (Some l) → cl_heap c !! l = Some d → 1 < fd_links d < 2 ^ 31 →
  release closef fd c = Some (tt, with_heap (<[l := set_links (fd_links d - 1) d]> (cl_heap c)) c).
Proof.
  intros Hs Hd Hl. unfold release.
  mrun (by apply (update_fd_run c fd l d)).
  cbv beta. rewrite (i32_id (fd_links d - 1)) by lia.
  set (d' := set_links (fd_links d - 1) d).
  erewrite bind_step by (apply (get_fd_run _ fd l d'); [done|apply lookup_insert_eq]).
  assert (fd_links d' = fd_links d - 1) as -> by done. zbool. done.
Qed.

Lemma close_run c fd l :
  0 <= fd < 1024 → slot_of c fd = Some (Some l) →
  xpn_simple_close fd c = (release nfi_close fd;; mret 0) c.
Proof.
  intros Hfd Hs. unfold xpn_simple_close, XPN_MAX_FILE. zbool.
  mrun (by apply fd_is_null_run). done.
Qed.
Lemma slot_range c fd s : length (xpn_file_table c) = 1024%nat → slot_of c fd = Some s → 0 <= fd < 1024.
Proof. intros Hl [H0 H]%rdZ_lookup. apply lookup_lt_Some in H. lia. Qed.

(** *** The invariant *)

Lemma ft_wf_close c fd l d c' :
  ft_wf c → slot_of c fd = Some (Some l) → cl_heap c !! l = Some d → fd_links d = 1 → handles_ok c d →
  xpn_simple_close fd c = Some (0, c') →
  ft_wf c' ∧ slot_of c' fd = Some None ∧ cl_heap c' !! l = None ∧
  ∀ fd', fd' ≠ fd → slot_of c' fd' = slot_of c fd'.
Proof.
  intros Hwf Hs Hd Hl Hok E. pose proof (slot_range c fd _ (wf_len c Hwf) Hs) as Hr.
  rewrite (close_run c fd l Hr Hs) in E.
  destruct (release_last nfi_close c fd l d Hs Hd Hl Hok) as [e Er].
  erewrite bind_step in E by exact Er. injection E as <-.
  set (t := xpn_file_table c) in *.
  assert (Hlen : length t = 1024%nat) by apply (wf_len c Hwf).
  assert (Hslot : ∀ fd', 0 <= fd' → rdZ (<[Z.to_nat fd:=None]> t) fd' = if decide (fd = fd') then Some None else rdZ t fd')
    by (intros; apply rdZ_insert; lia).
  assert (Hone : aliases t l = 1).
  { destruct (wf_live c Hwf fd l Hs) as (d' & Hd' & Hl'). rewrite Hd in Hd'. injection Hd' as <-. unfold t. lia. }
  assert (Hother : ∀ fd', fd' ≠ fd → slot_of c fd' ≠ Some (Some l)).
  { intros fd' Hne Hs'. pose proof Hs' as [H0' Hk']%rdZ_lookup.
    assert (aliases (<[Z.to_nat fd:=None]> t) l = 0) as Hz.
    { rewrite aliases_insert by lia. rewrite Hone. apply rdZ_lookup in Hs as [_ Hk]. fold t in Hk.
      rewrite decide_True by done. rewrite decide_False by done. lia. }
    pose proof (aliases_pos (<[Z.to_nat fd:=None]> t) fd' l) as Hp.
    rewrite Hslot in Hp by lia. rewrite decide_False in Hp by done. specialize (Hp Hs'). lia. }
  split_and!.
  - split; cbn.
    + by rewrite length_insert.
    + intros fd' l' Hs'. unfold slot_of in Hs'. cbn in Hs'. pose proof Hs' as [H0' _]%rdZ_lookup.
      fold t in Hs'. rewrite Hslot in Hs' by done. destruct (decide (fd = fd')) as [->|Hne]; [done|].
      assert (l' ≠ l) by (intros ->; by apply (Hother fd')).
      destruct (wf_live c Hwf fd' l' Hs') as (d' & Hd' & Hl'). exists d'.
      rewrite lookup_delete_ne by done. split; [done|]. rewrite Hl'. fold t.
      rewrite aliases_insert by lia. apply rdZ_lookup in Hs as [_ Hk]. fold t in Hk.
      rewrite Hk, !decide_False by congruence. lia.
    + intros l' d'. rewrite lookup_delete_Some. intros [_ Hd']. by apply (wf_next c Hwf l' d').
  - unfold slot_of. cbn. fold t. rewrite Hslot by lia. by rewrite decide_True.
  - cbn. apply lookup_delete_eq.
  - intros fd' Hne. unfold slot_of. cbn. fold t. unfold rdZ. destruct (0 <=? fd') eqn:E0; [|done].
    apply list_lookup_insert_ne. lia.
Qed.

(** A new reference to a descriptor whose count is already right. *)
Lemma ft_wf_add c c' r l d' :
  ft_wf c → slot_of c r = Some None →
  xpn_file_table c' = <[Z.to_nat r := Some l]> (xpn_file_table c) →
  cl_heap c' = <[l := d']> (cl_heap c) →
  (l < cl_next c')%nat → (cl_next c <= cl_next c')%nat →
  fd_links d' = aliases (xpn_file_table c) l + 1 →
  ft_wf c' ∧ slot_of c' r = Some (Some l) ∧ cl_heap c' !! l = Some d' ∧
  ∀ fd', fd' ≠ r → slot_of c' fd' = slot_of c fd'.
Proof.
  intros Hwf Hr Et Eh Hn Hn' Hl. pose proof (slot_range c r _ (wf_len c Hwf) Hr) as Hrr.
  pose proof (wf_len c Hwf) as Hlen.
  assert (Hal : ∀ l', aliases (xpn_file_table c') l' = aliases (xpn_file_table c) l' + if decide (l = l') then 1 else 0).
  { intros l'. rewrite Et, aliases_insert by lia. apply rdZ_lookup in Hr as [_ Hk]. rewrite Hk.
    rewrite (decide_False (P := Some None = Some (Some l'))) by done.
    destruct (decide (l = l')) as [->|]; [rewrite decide_True by done|rewrite decide_False by congruence]; lia. }
  assert (Hslot : ∀ fd', 0 <= fd' → slot_of c' fd' = if decide (r = fd') then Some (Some l) else slot_of c fd').
  { intros fd' H0. unfold slot_of. rewrite Et. apply rdZ_insert; lia. }
  split_and!.
  - split.
    + rewrite Et, length_insert. done.
    + intros fd' l' Hs'. pose proof Hs' as [H0' _]%rdZ_lookup. rewrite Hslot in Hs' by done. rewrite Eh, Hal.
      destruct (decide (l = l')) as [<-|Hne].
      * exists d'. rewrite lookup_insert_eq. done.
      * destruct (decide (r = fd')); [congruence|].
        destruct (wf_live c Hwf fd' l' Hs') as (d & Hd & Hdl). exists d.
        rewrite lookup_insert_ne by done. split; [done|lia].
    + intros l' d. rewrite Eh. destruct (decide (l = l')) as [<-|]; [done|].
      rewrite lookup_insert_ne by done. intros Hd. pose proof (wf_next c Hwf l' d Hd). lia.
  - rewrite Hslot by lia. by rewrite decide_True.
  - rewrite Eh. apply lookup_insert_eq.
  - intros fd' Hne. destruct (decide (0 <= fd')); [rewrite Hslot, decide_False; done|].
    unfold slot_of, rdZ. rewrite (proj2 (Z.leb_gt 0 fd')) by lia. done.
Qed.

Definition has_free c : Prop := ∃ i, 0 <= i < 1023 ∧ slot_of c i = Some None.
Definition free_slot c : Z := scan_slot (xpn_file_table c) 0.

Lemma free_slot_spec c :
  length (xpn_file_table c) = 1024%nat →
  0 <= free_slot c <= 1023 ∧ (∀ k, 0 <= k < free_slot c → ∃ l, slot_of c k = Some (Some l)) ∧
  (has_free c → slot_of c (free_slot c) = Some None).
Proof.
  intros Hl. destruct (scan_slot_spec (xpn_file_table c) 0) as (H1 & H2 & H3); [lia|lia|].
  fold (free_slot c) in *. split_and!; [lia|lia| |].
  - intros k Hk. destruct (H2 k Hk) as [l El]. exists l. rewrite Z.sub_0_r in El. done.
  - rewrite Z.sub_0_r in H3. intros (i & Hi & Ei). apply H3.
    destruct (decide (free_slot c < 1023)); [done|]. destruct (H2 i) as [l El]; [lia|].
    rewrite Z.sub_0_r in El. unfold slot_of in Ei. congruence.
Qed.

Lemma search_slot_run c pd path nfih m flags mode p part :
  length (xpn_file_table c) = 1024%nat →
  list_find (λ q, part_id q = pd) (xpn_parttable c) = Some (p, part) →
  XpnSearchSlotFile pd path nfih m flags mode c =
  Some (free_slot c,
    with_heap (<[cl_next c := FileDesc (free_slot c) path (type_ m) 1 flags mode p m 0 (part_block_size part) nfih]> (cl_heap c))
      (with_next (S (cl_next c)) (with_files (<[Z.to_nat (free_slot c) := Some (cl_next c)]> (xpn_file_table c)) c))).
Proof.
  intros Hl Hf. destruct (free_slot_spec c Hl) as (H1 & _ & _).
  pose proof (proj1 (list_find_Some _ _ _ _) Hf) as (Hp & _ & _).
  unfold XpnSearchSlotFile. mstep. fold (free_slot c). unfold XPN_MAX_FILE. zbool.
  erewrite (bind_step (XpnSearchPart pd)) by (unfold XpnSearchPart; mstep; rewrite Hf; reflexivity).
  mstep. cbn [fst]. mrun (unfold lift; rewrite Hp; reflexivity).
  mrun (unfold lift; rewrite wrZ_run by lia; reflexivity).
  done.
Qed.

Lemma ft_wf_open c c' pd path nfih m flags mode fd :
  ft_wf c → has_free c → XpnSearchSlotFile pd path nfih m flags mode c = Some (fd, c') →
  ft_wf c' ∧ fd = free_slot c ∧ slot_of c' fd = Some (Some (cl_next c)).
Proof.
  intros Hwf Hfree E. pose proof (wf_len c Hwf) as Hl.
  destruct (list_find (λ q, part_id q = pd) (xpn_parttable c)) as [[p part]|] eqn:Hf.
  - rewrite (search_slot_run c pd path nfih m flags mode p part Hl Hf) in E. injection E as <- E.
    destruct (free_slot_spec c Hl) as (H1 & _ & H3). specialize (H3 Hfree).
    edestruct (ft_wf_add c c' (free_slot c) (cl_next c)) as (W1 & W2 & _ & _);
      [done|exact H3|by rewrite <- E|by rewrite <- E|rewrite <- E; cbn; lia|rewrite <- E; cbn; lia| |].
    2: { split_and!; [exact W1|done|exact W2]. }
    cbn. rewrite aliases_zero; [done|]. intros i Hi.
    destruct (wf_live c Hwf i (cl_next c) Hi) as (d & Hd & _). pose proof (wf_next c Hwf _ _ Hd). lia.
  - unfold XpnSearchSlotFile in E. destruct (free_slot_spec c Hl) as (H1 & _ & _).
    erewrite bind_step in E by reflexivity. cbv beta in E. fold (free_slot c) in E. unfold XPN_MAX_FILE in E.
    rewrite (proj2 (Z.eqb_neq _ _)) in E by lia.
    erewrite (bind_step (XpnSearchPart pd)) in E by (unfold XpnSearchPart; mstep; rewrite Hf; reflexivity).
    discriminate E.
Qed.

Lemma dup_run c fd l d :
  ft_wf c → slot_of c fd = Some (Some l) → cl_heap c !! l = Some d → has_free c → fd_links d < 2 ^ 31 - 1 →
  let c' := with_heap (<[l := set_links (fd_links d + 1) d]> (cl_heap c))
              (with_files (<[Z.to_nat (free_slot c) := Some l]> (xpn_file_table c)) c) in
  xpn_simple_dup fd c = Some (free_slot c, c').
Proof.
  intros Hwf Hs Hd Hfree Hl. pose proof (wf_len c Hwf) as Hlen. pose proof (slot_range c fd _ Hlen Hs) as Hr.
  destruct (free_slot_spec c Hlen) as (H1 & _ & H3). specialize (H3 Hfree).
  unfold xpn_simple_dup, XPN_MAX_FILE. zbool. mrun (by apply fd_is_null_run). mstep.
  fold (free_slot c). zbool. mrun (by apply fd_loc_run).
  mrun (unfold lift; rewrite wrZ_run by lia; reflexivity). mstep.
  assert (free_slot c ≠ fd) by (intros E; rewrite E in H3; rewrite H3 in Hs; done).
  erewrite bind_step.
  2: { apply (update_fd_run _ fd l d); [|exact Hd].
       unfold slot_of. cbn. rewrite rdZ_insert by lia. by rewrite decide_False. }
  cbv beta. destruct (wf_live c Hwf fd l Hs) as (d' & Hd' & Hl'). rewrite Hd in Hd'. injection Hd' as <-.
  pose proof (aliases_pos _ _ _ Hs). rewrite i32_id by lia. done.
Qed.

Lemma ft_wf_dup c c' fd l d r :
  ft_wf c → slot_of c fd = Some (Some l) → cl_heap c !! l = Some d → has_free c → fd_links d < 2 ^ 31 - 1 →
  xpn_simple_dup fd c = Some (r, c') →
  ft_wf c' ∧ r = free_slot c ∧ slot_of c' r = Some (Some l) ∧ slot_of c' fd = Some (Some l) ∧
  cl_heap c' !! l = Some (set_links (fd_links d + 1) d) ∧ r ≠ fd.
Proof.
  intros Hwf Hs Hd Hfree Hl E. rewrite (dup_run c fd l d) in E by done. injection E as <- E.
  destruct (free_slot_spec c (wf_len c Hwf)) as (_ & _ & H3). specialize (H3 Hfree).
  assert (free_slot c ≠ fd) by (intros E'; rewrite E' in H3; rewrite H3 in Hs; done).
  edestruct (ft_wf_add c c' (free_slot c) l) as (W1 & W2 & W3 & W4);
    [done|exact H3|by rewrite <- E|by rewrite <- E| |rewrite <- E; cbn; lia| |].
  - rewrite <- E. cbn. by apply (wf_next c Hwf l d).
  - destruct (wf_live c Hwf fd l Hs) as (d' & Hd' & Hl'). rewrite Hd in Hd'. injection Hd' as <-. cbn. lia.
  - split_and!; [exact W1|done|exact W2| |exact W3|done]. rewrite W4 by done. exact Hs.
Qed.

Lemma dup2_run c fd fd2 l d :
  ft_wf c → slot_of c fd = Some (Some l) → cl_heap c !! l = Some d → slot_of c fd2 = Some None →
  fd_links d < 2 ^ 31 - 1 →
  xpn_simple_dup2 fd fd2 c = Some (0, with_heap (<[l := set_links (fd_links d + 1) d]> (cl_heap c))
              (with_files (<[Z.to_nat fd2 := Some l]> (xpn_file_table c)) c)).
Proof.
  intros Hwf Hs Hd Hs2 Hl. pose proof (wf_len c Hwf) as Hlen. pose proof (slot_range c fd _ Hlen Hs) as Hr.
  pose proof (slot_range c fd2 _ Hlen Hs2) as Hr2.
  unfold xpn_simple_dup2, XPN_MAX_FILE. zbool. mrun (by apply fd_is_null_run).
  mrun (by apply fd_is_null_run). cbn [negb].
  mrun (by apply fd_loc_run). mstep.
  mrun (unfold lift; rewrite wrZ_run by lia; reflexivity). mstep.
  erewrite bind_step.
  2: { apply (update_fd_run _ fd l d); [|exact Hd].
       unfold slot_of. cbn. rewrite rdZ_insert by lia. rewrite decide_False; [done|congruence]. }
  cbv beta. destruct (wf_live c Hwf fd l Hs) as (d' & Hd' & Hl'). rewrite Hd in Hd'. injection Hd' as <-.
  pose proof (aliases_pos _ _ _ Hs). rewrite i32_id by lia. done.
Qed.
End lemmas.

(** ** The properties of the file table *)

Section properties.
Context {W : Type} `{NO : !NfiOps W} `{SY : !Sys}.
Implicit Types c : client W.

(** The steps that keep the table well formed: a descriptor is opened or
    duplicated while a slot below the last one is free, and closed when it is
    not shared. *)
Inductive ft_step : client W → client W → Prop :=
  | step_open c c' pd path nfih m flags mode fd :
      has_free c → XpnSearchSlotFile pd path nfih m flags mode c = Some (fd, c') → ft_step c c'
  | step_dup c c' fd l d r :
      has_free c → slot_of c fd = Some (Some l) → cl_heap c !! l = Some d → fd_links d < 2 ^ 31 - 1 →
      xpn_simple_dup fd c = Some (r, c') → ft_step c c'
  | step_dup2 c c' fd fd2 l d :
      slot_of c fd = Some (Some l) → cl_heap c !! l = Some d → slot_of c fd2 = Some None →
      fd_links d < 2 ^ 31 - 1 →
      xpn_simple_dup2 fd fd2 c = Some (0, c') → ft_step c c'
  | step_close c c' fd l d :
      slot_of c fd = Some (Some l) → cl_heap c !! l = Some d → fd_links d = 1 → handles_ok c d →
      xpn_simple_close fd c = Some (0, c') → ft_step c c'.

Lemma ft_step_wf c c' : ft_step c c' → ft_wf c → ft_wf c'.
Proof.
  destruct 1 as [c c' pd path nfih m flags mode fd Hf E|c c' fd l d r Hf Hs Hd Hl E
                |c c' fd fd2 l d Hs Hd Hs2 Hl E|c c' fd l d Hs Hd Hl Hok E]; intros Hwf.
  - by apply (ft_wf_open c c' pd path nfih m flags mode fd).
  - by apply (ft_wf_dup c c' fd l d r).
  - rewrite (dup2_run c fd fd2 l d) in E by done. injection E as E.
    destruct (wf_live c Hwf fd l Hs) as (d' & Hd' & Hl'). rewrite Hd in Hd'. injection Hd' as <-.
    edestruct (ft_wf_add c c' fd2 l) as (W1 & _);
      [done|exact Hs2|by rewrite <- E|by rewrite <- E| |rewrite <- E; cbn; lia|cbn; lia|exact W1].
    rewrite <- E. cbn. by apply (wf_next c Hwf l d).
  - by apply (ft_wf_close c fd l d c').
Qed.

Lemma ft_wf_init c c' : (∀ l d, cl_heap c !! l = Some d → (l < cl_next c)%nat) →
  xpn_init_file_table c = Some (0, c') → ft_wf c'.
Proof.
  intros Hn E. unfold xpn_init_file_table in E. change (Z.to_nat XPN_MAX_FILE) with 1024%nat in E.
  erewrite bind_step in E by reflexivity. injection E as <-.
  split; [apply (length_replicate 1024)| |exact Hn].
  intros fd l [_ Hs]%rdZ_lookup. apply (lookup_replicate_1 1024) in Hs as [? _]. done.
Qed.
End properties.


(** A client with one open file, and with a duplicate of it. *)
Definition open_one : prog memfs Z := XpnSearchSlotFile 0 (str "/a") [None; None; None; None] mdata_zero O_RDWR 0.
Definition client_one : client memfs := match open_one (mclient 1) with Some (_, c) => c | None => mclient 1 end.
Definition client_dup : client memfs :=
  match xpn_simple_dup 0 client_one with Some (_, c) => c | None => mclient 1 end.
Definition desc_one : xpn_filedesc := FileDesc 0 (str "/a") 0 1 O_RDWR 0 0 mdata_zero 0 4 [None; None; None; None].


(** A duplicate shares the offset and everything else with the original:
    an update through either descriptor is what the other one reads. *)
Theorem dup_shares_descriptor {W : Type} `{NO : !NfiOps W} `{SY : !Sys} (c c1 c2 : client W) fd r l d f :
  ft_wf c → slot_of c fd = Some (Some l) → cl_heap c !! l = Some d → has_free c → fd_links d < 2 ^ 31 - 1 →
  xpn_simple_dup fd c = Some (r, c1) → update_fd fd f c1 = Some (tt, c2) →
  r ≠ fd ∧ slot_of c r = Some None ∧ get_fd r c2 = get_fd fd c2 ∧
  get_fd r c2 = Some (f (set_links (fd_links d + 1) d), c2).
Proof.
  intros Hwf Hs Hd Hfree Hl E1 E2.
  destruct (ft_wf_dup c c1 fd l d r Hwf Hs Hd Hfree Hl E1) as (W1 & Er & Hr & Hf & Hh & Hne).
  rewrite (update_fd_run c1 fd l _ f Hf Hh) in E2. injection E2 as <-.
  destruct (free_slot_spec c (wf_len c Hwf)) as (_ & _ & H3).
  split_and!; [done|rewrite Er; by apply H3| |].
  - rewrite (get_fd_run _ r l (f (set_links (fd_links d + 1) d))), (get_fd_run _ fd l (f (set_links (fd_links d + 1) d)));
      done || apply lookup_insert_eq.
  - apply (get_fd_run _ r l); [done|apply lookup_insert_eq].
Qed.

Lemma client_one_wf : ft_wf client_one.
Proof.
  assert (ft_wf (mclient 1)) as Hw by (apply (ft_wf_init (mclient 1)); [intros l d E; discriminate E|reflexivity]).
  apply (ft_wf_open (mclient 1) client_one 0 (str "/a") [None; None; None; None] mdata_zero O_RDWR 0 0 Hw); [|reflexivity].
  exists 0. split; [lia|reflexivity].
Qed.

Lemma client_one_facts :
  slot_of client_one 0 = Some (Some 0%nat) ∧ cl_heap client_one !! 0%nat = Some desc_one ∧
  has_free client_one ∧ xpn_simple_dup 0 client_one = Some (1, client_dup).
Proof.
  split_and!; [vm_compute; reflexivity|vm_compute; reflexivity| |vm_compute; reflexivity].
  exists 1. split; [lia|vm_compute; reflexivity].
Qed.

Lemma dup_shares_descriptor_witness :
  ∃ c2, update_fd 0 (set_offset 99) client_dup = Some (tt, c2) ∧ get_fd 1 c2 = get_fd 0 c2.
Proof.
  destruct client_one_facts as (F1 & F2 & F3 & F4).
  destruct (update_fd 0 (set_offset 99) client_dup) as [[[] c2]|] eqn:E.
  - exists c2. split; [reflexivity|].
    apply (dup_shares_descriptor client_one client_dup c2 0 1 0 desc_one (set_offset 99)
      client_one_wf F1 F2 F3 ltac:(zcalc) F4 E).
  - exfalso. vm_compute in E. discriminate E.
Defined.

(** [xpn_simple_close] of a duplicated descriptor keeps the slot it was
    given, so closing the same descriptor twice succeeds both times, frees the
    shared descriptor and leaves the duplicate pointing to freed memory. *)
Theorem close_twice_dangles {W : Type} `{NO : !NfiOps W} `{SY : !Sys} (c : client W) fd fd' l d :
  slot_of c fd = Some (Some l) → slot_of c fd' = Some (Some l) → fd ≠ fd' → 0 <= fd < 1024 →
  cl_heap c !! l = Some d → fd_links d = 2 → handles_ok c d →
  ∃ c1 c2, xpn_simple_close fd c = Some (0, c1) ∧ xpn_simple_close fd c1 = Some (0, c2) ∧
    slot_of c1 fd = Some (Some l) ∧ slot_of c2 fd' = Some (Some l) ∧ cl_heap c2 !! l = None ∧
    get_fd fd' c2 = None.
Proof.
  intros Hs Hs' Hne Hr Hd Hl Hok.
  set (c1 := with_heap (<[l := set_links (fd_links d - 1) d]> (cl_heap c)) c).
  assert (Hs1 : slot_of c1 fd = Some (Some l)) by exact Hs.
  destruct (release_last nfi_close c1 fd l (set_links (fd_links d - 1) d)) as [e E];
    [exact Hs|apply lookup_insert_eq|cbn; lia|exact Hok|].
  eexists c1, _. split_and!.
  - rewrite (close_run c fd l Hr Hs). mrun (apply (release_shared _ c fd l d); [done|done|lia]). done.
  - rewrite (close_run c1 fd l Hr Hs1). mrun (exact E). done.
  - exact Hs1.
  - unfold slot_of. cbn. rewrite rdZ_lookup. apply rdZ_lookup in Hs' as [H0 H1].
    rewrite list_lookup_insert_ne by lia. done.
  - cbn. apply lookup_delete_eq.
  - unfold get_fd. assert (Hs2 : ∀ e, slot_of (with_files (<[Z.to_nat fd:=None]> (xpn_file_table c1))
      (with_heap (delete l (cl_heap c1)) (with_env e c1))) fd' = Some (Some l)).
    { intros e'. unfold slot_of. cbn. rewrite rdZ_lookup. apply rdZ_lookup in Hs' as [H0 H1].
      rewrite list_lookup_insert_ne by lia. done. }
    mrun (by apply fd_loc_run). mstep. cbn. unfold lift. by rewrite lookup_delete_eq.
Qed.

Lemma close_twice_dangles_witness :
  ∃ c1 c2, xpn_simple_close 0 client_dup = Some (0, c1) ∧ xpn_simple_close 0 c1 = Some (0, c2) ∧
    slot_of c1 0 = Some (Some 0%nat) ∧ slot_of c2 1 = Some (Some 0%nat) ∧ cl_heap c2 !! 0%nat = None ∧
    get_fd 1 c2 = None.
Proof.
  apply (close_twice_dangles client_dup 0 1 0 (set_links 2 desc_one));
    [reflexivity|reflexivity|discriminate|lia|reflexivity|reflexivity|].
  intros i fh E. destruct i as [|[|[|[|i]]]]; discriminate E.
Defined.

(** The scan for a free slot ends at the last slot whether it is free or
    not, so the table is never reported full: opening with every slot taken
    returns descriptor 1023 and drops the descriptor that was there. *)
Theorem full_table_overwritten {W : Type} `{NO : !NfiOps W} `{SY : !Sys} (c : client W) pd path nfih m flags mode p part :
  length (xpn_file_table c) = 1024%nat → (∀ i, 0 <= i < 1024 → ∃ l, slot_of c i = Some (Some l)) →
  list_find (λ q, part_id q = pd) (xpn_parttable c) = Some (p, part) →
  ∃ c', XpnSearchSlotFile pd path nfih m flags mode c = Some (1023, c') ∧
        slot_of c' 1023 = Some (Some (cl_next c)) ∧
        (fd_path <$> (cl_heap c' !! cl_next c)) = Some path.
Proof.
  intros Hl Hfull Hf. eexists. rewrite (search_slot_run c pd path nfih m flags mode p part Hl Hf).
  destruct (scan_slot_spec (xpn_file_table c) 0) as (H1 & _ & H3); [lia|lia|].
  assert (free_slot c = 1023) as Ef.
  { unfold free_slot. destruct (decide (scan_slot (xpn_file_table c) 0 < 1023)) as [Hlt|]; [|lia].
    specialize (H3 Hlt). rewrite Z.sub_0_r in H3. destruct (Hfull (scan_slot (xpn_file_table c) 0)) as [l Hs]; [lia|].
    unfold slot_of in Hs. congruence. }
  rewrite Ef. split_and!; [done| |].
  - unfold slot_of. cbn [xpn_file_table with_heap with_next with_files]. rewrite rdZ_insert by lia. by rewrite decide_True.
  - cbn [cl_heap with_heap]. rewrite lookup_insert_eq. done.
Qed.

(** Every slot taken. *)
Definition client_full : client memfs := with_files (replicate 1024 (Some 0%nat)) client_one.
Lemma full_table_overwritten_witness :
  ∃ c', XpnSearchSlotFile 0 (str "/b") [] mdata_zero O_RDWR 0 client_full = Some (1023, c') ∧
        slot_of c' 1023 = Some (Some 1%nat) ∧ (fd_path <$> (cl_heap c' !! 1%nat)) = Some (str "/b").
Proof.
  apply (full_table_overwritten client_full 0 (str "/b") [] mdata_zero O_RDWR 0 0 (mpart 1));
    [reflexivity| |reflexivity].
  intros i Hi. exists 0%nat. apply rdZ_lookup. split; [lia|]. apply (lookup_replicate_2 1024). lia.
Defined.
