(* ===== verification/Blocks.v ===== *)
(** * Blocks: which blocks go to which server

    The operation matrices of src/src/xpn_client/xpn/xpn_simple/policy/xpn_policy_rw.c:
    row [i] lists the operations on server [i].  The rows are lists, their
    lengths are the counters [ion]; a row has room for [max] operations, and an
    operation outside of the matrix is a wild write ([None]). *)

From S2P Require Import Prelude Cstr Layout Mdata Nfi Client.

Abbreviation matrix := (list (list nfi_worker_io)) (only parsing).

Definition io_append (max : Z) (io : matrix) (serv : Z) (o : nfi_worker_io) : option matrix :=
  row ← rdZ io serv;
  if Z.of_nat (length row) <? max then wrZ io serv (row ++ [o]) else None.

(** ** [XpnReadGetBlock] *)

Definition serv_error (servers : list nfi_server) (serv : Z) : option Z := srv_error <$> rdZ servers serv.

(** The replica on the client's own server, if it has one and is not out. *)
Fixpoint find_local (m : xpn_metadata) (servers : list nfi_server) (offset serv_client replication : Z) (k : nat) : option (option (Z * Z)) :=
  match k with
  | O => Some None
  | S k' =>
    '(local_offset, serv) ← XpnCalculateBlockMdata m offset replication 0 0;
    e ← (if serv =? serv_client then serv_error servers serv else Some (-1));
    if (serv =? serv_client) && negb (e =? -1) then Some (Some (local_offset, serv))
    else find_local m servers offset serv_client (replication + 1) k'
  end.

(** The replicas in turn from [replication] on, until one is on a server that
    is not out; [k] more are tried after the first. *)
Fixpoint find_live (m : xpn_metadata) (servers : list nfi_server) (rl offset replication : Z) (k : nat) : option (Z * Z) :=
  '(local_offset, serv) ← XpnCalculateBlockMdata m offset replication 0 0;
  e ← serv_error servers serv;
  let replication' := if rl =? 0 then replication else (replication ⊞ 1) `rem` (rl ⊞ 1) in
  match k with
  | O => Some (local_offset, serv)
  | S k' => if e =? -1 then find_live m servers rl offset replication' k' else Some (local_offset, serv)
  end.

(** [max] of xpn_pread: the operations a row has room for. *)
Definition max_ops (size bs : Z) : Z :=
  let max := i32 (size `quot` bs + 1) in if size `rem` bs =? 0 then max else max ⊞ 1.

Section blocks.
Context {W : Type} `{NO : !NfiOps W} `{SY : !Sys}.

Definition fd_partition (d : xpn_filedesc) : prog W xpn_partition :=
  c ← get; lift (xpn_parttable c !! fd_part d).

Definition next_rand : prog W Z :=
  c ← get;
  let '(r, z) := sys_rand (cl_seed c) in
  modify (with_seed z);; mret r.

Definition XpnReadGetBlock (fd offset serv_client : Z) : prog W (Z * Z) :=
  d ← get_fd fd;
  part ← fd_partition d;
  let rl := part_replication_level part in
  local ← (if negb (serv_client =? -1) then
             lift (find_local (fd_mdata d) (data_serv part) offset serv_client 0 (Z.to_nat (Z.max 1 (rl + 1))))
           else mret None);
  match local with
  | Some r => mret r
  | None =>
    replication ← (if negb (rl =? 0) then
                     r ← next_rand; if rl ⊞ 1 =? 0 then fault else mret ((r : Z) `rem` (rl ⊞ 1))
                   else mret 0);
    lift (find_live (fd_mdata d) (data_serv part) rl offset replication (Z.to_nat rl))
  end.

(** The result is the [error] field of the server. *)
Definition XpnWriteGetBlock (fd offset replication : Z) : prog W (Z * Z * Z) :=
  d ← get_fd fd;
  part ← fd_partition d;
  '(local_offset, serv) ← lift (XpnCalculateBlockMdata (fd_mdata d) offset replication 0 0);
  e ← lift (serv_error (data_serv part) serv);
  mret (e, local_offset, serv).

(** ** One operation per block *)

(** The bytes from [new_offset] to the end of its block, or to the end of the request. *)
Definition block_rest (bs size count new_offset : Z) : Z :=
  let l_size := u64 (bs - new_offset `rem` bs) in
  if u64 (size - count) <? l_size then u64 (size - count) else l_size.

Definition op_at (l_offset l_size : Z) (buffer : ptr) (count : Z) : nfi_worker_io :=
  Io l_offset l_size (ptr_add buffer count).

(** The [while(size>count)] loops; the fuel is the number of bytes left, since
    an iteration transfers at least one. *)
Fixpoint read_loop (fd : Z) (buffer : ptr) (size offset serv_client max : Z) (fuel : nat) (count : Z) (io : matrix) : prog W matrix :=
  if count <? size then
    match fuel with
    | O => fault
    | S f =>
      let new_offset := offset ⊕ count in
      '(l_offset, l_serv) ← XpnReadGetBlock fd new_offset serv_client;
      d ← get_fd fd;
      if fd_block_size d =? 0 then fault else
      let l_size := block_rest (fd_block_size d) size count new_offset in
      io' ← lift (io_append max io l_serv (op_at l_offset l_size buffer count));
      read_loop fd buffer size offset serv_client max f (u64 (l_size + count)) io'
    end
  else mret io.

Definition XpnReadBlocksBlockByBlock (fd : Z) (buffer : ptr) (size offset serv_client max num_servers : Z) : prog W matrix :=
  read_loop fd buffer size offset serv_client max (Z.to_nat size) 0 (replicate (Z.to_nat num_servers) []).

(** The inner [for] over the replicas of a block. *)
Definition write_replicas (fd : Z) (buffer : ptr) (size offset max count : Z) (io : matrix) : prog W matrix :=
  let new_offset := offset ⊕ count in
  d ← get_fd fd;
  part ← fd_partition d;
  foldM (seqZ 0 (part_replication_level part + 1)) (λ io j,
    '(_, l_offset, l_serv) ← XpnWriteGetBlock fd new_offset j;
    if fd_block_size d =? 0 then fault else
    let l_size := block_rest (fd_block_size d) size count new_offset in
    lift (io_append max io l_serv (op_at l_offset l_size buffer count))) io.
Fixpoint write_loop (fd : Z) (buffer : ptr) (size offset max : Z) (fuel : nat) (count : Z) (io : matrix) : prog W matrix :=
  if count <? size then
    match fuel with
    | O => fault
    | S f =>
      io' ← write_replicas fd buffer size offset max count io;
      d ← get_fd fd;
      part ← fd_partition d;
      (* without a replica l_size keeps its first value, 0, and the loop does not end *)
      if part_replication_level part <? 0 then fault else
      let l_size := block_rest (fd_block_size d) size count (offset ⊕ count) in
      write_loop fd buffer size offset max f (u64 (l_size + count)) io'
    end
  else mret io.

Definition XpnWriteBlocksBlockByBlock (fd : Z) (buffer : ptr) (size offset max num_servers : Z) : prog W matrix :=
  write_loop fd buffer size offset max (Z.to_nat size) 0 (replicate (Z.to_nat num_servers) []).

(** ** One operation per server *)

Definition row_size (row : list nfi_worker_io) : Z := fold_left (λ n o, u64 (n + io_size o)) row 0.

(** The rows are merged into their first operation; [count] is where the data
    of the row goes in the grouped buffer. *)
Fixpoint merge_rows (buffer : ptr) (count : Z) (io : matrix) : matrix :=
  match io with
  | [] => []
  | [] :: io' => [] :: merge_rows buffer count io'
  | (o :: row) :: io' =>
    let size := row_size (o :: row) in
    [Io (io_offset o) size (ptr_add buffer count)] :: merge_rows buffer (u64 (count + size)) io'
  end.

Definition XpnReadBlocksAllInOne (fd : Z) (buffer : ptr) (size offset serv_client max num_servers : Z) : prog W matrix :=
  io ← XpnReadBlocksBlockByBlock fd buffer size offset serv_client max num_servers;
  mret (merge_rows buffer 0 io).

(** [memcpy] *)
Definition memcpy (dst src : ptr) (n : Z) : prog W unit :=
  c ← get;
  data ← lift (mem_read (mem (cl_env c)) src n);
  m ← lift (mem_write (mem (cl_env c)) dst data);
  zoom (modify (set_mem m)).

(** The copy of every operation's data, row by row, to or from a grouped
    buffer; the result is the number of bytes copied. *)
Definition copy_rows (gather : bool) (grouped : ptr) (io : matrix) : prog W Z :=
  foldM (concat io) (λ count o,
    (if gather then memcpy (ptr_add grouped count) (io_buffer o) (io_size o)
     else memcpy (io_buffer o) (ptr_add grouped count) (io_size o));;
    mret (u64 (count + io_size o))) 0.

Definition XpnWriteBlocksAllInOne (fd : Z) (buffer : ptr) (size offset max num_servers : Z) (send_buffer : ptr) : prog W matrix :=
  io ← XpnWriteBlocksBlockByBlock fd buffer size offset max num_servers;
  copy_rows true send_buffer io;;
  mret (merge_rows send_buffer 0 io).

Definition malloc (size : Z) : prog W ptr :=
  c ← get;
  let b := fresh (dom (mem (cl_env c))) in
  zoom (modify (set_mem (<[b := replicate (Z.to_nat size) sys_fresh_byte]> (mem (cl_env c)))));;
  mret (b, 0).
Definition free (p : ptr) : prog W unit :=
  c ← get; zoom (modify (set_mem (delete p.1 (mem (cl_env c))))).

(** [optimize] of [XpnReadBlocks] and [XpnReadBlocksFinish]. *)
Definition read_optimize (fd : Z) : prog W bool :=
  d ← get_fd fd;
  part ← fd_partition d;
  if 0 <? part_replication_level part then mret false
  else d1 ← lift (rdZ (data_nserv (fd_mdata d)) 1); mret (d1 =? 0).

Definition XpnReadBlocks (fd : Z) (buffer : ptr) (size offset serv_client max num_servers : Z) : prog W (ptr * matrix) :=
  optimize ← read_optimize fd;
  new_buffer ← malloc size;
  io ← (if (optimize : bool) then XpnReadBlocksAllInOne fd new_buffer size offset serv_client max num_servers
        else XpnReadBlocksBlockByBlock fd buffer size offset serv_client max num_servers);
  mret (new_buffer, io).

Definition XpnReadBlocksFinish (fd : Z) (buffer : ptr) (size offset serv_client max num_servers : Z) (new_buffer : ptr) : prog W unit :=
  optimize ← read_optimize fd;
  if (optimize : bool) then
    io ← XpnReadBlocksBlockByBlock fd buffer size offset serv_client max num_servers;
    copy_rows false new_buffer io;; mret tt
  else mret tt.

Definition XpnWriteBlocks (fd : Z) (buffer : ptr) (size offset max num_servers : Z) : prog W (ptr * matrix) :=
  d ← get_fd fd;
  part ← fd_partition d;
  new_buffer ← malloc (u64 (size * (part_replication_level part ⊞ 1)));
  io ← XpnWriteBlocksAllInOne fd buffer size offset max num_servers new_buffer;
  mret (new_buffer, io).

(** ** The number of bytes transferred *)

Definition XpnReadGetTotalBytes (res_v : list Z) : Z := fold_left (λ res r, res ⊕ r) res_v 0.

(** [total_send] and [total_write] are [int]. *)
Definition sum_int (l : list nfi_worker_io) (acc : Z) : Z := fold_left (λ n o, i32 (n + io_size o)) l acc.
Fixpoint write_totals (res_v : list Z) (io : matrix) (servers : list nfi_server) (res total_send total_write : Z) : option (Z * Z * Z) :=
  match res_v, io with
  | r :: res_v', row :: io' =>
    match servers with
    | [] => None
    | s :: servers' =>
      write_totals res_v' io' servers' (res ⊕ r)
        (if srv_error s =? -1 then total_send else sum_int row total_send) (sum_int row total_write)
    end
  | _, _ => Some (res, total_send, total_write)
  end.
Definition XpnWriteGetTotalBytes (res_v : list Z) (io : matrix) (servers : list nfi_server) : option Z :=
  '(res, total_send, total_write) ← write_totals res_v io servers 0 0 0;
  Some (if res =? total_send then total_write else res).
End blocks.
