(* ===== verification/Rw.v ===== *)
(** * Rw: reading and writing

    src/src/xpn_client/xpn/xpn_simple/xpncore/xpn_rw.c. *)

From S2P Require Import Prelude Cstr Layout Mdata Nfi Client FileTable Blocks.

Section rw.
Context {W : Type} `{NO : !NfiOps W} `{SY : !Sys}.

(** The handle of server [j], opened if it is not yet. *)
Definition need_fh (fd : Z) (p : nat) (j : Z) : prog W (Z * option nfi_fhandle) :=
  d ← get_fd fd;
  fh0 ← lift (rdZ (fd_nfih d) j);
  '(res, fh) ← XpnGetFh fh0 p j (fd_path d);
  handles ← lift (wrZ (fd_nfih d) j fh);
  update_fd fd (set_nfih handles);;
  mret (res, fh).

Definition fd_servers (fd : Z) : prog W (Z * nat * xpn_partition) :=
  d ← get_fd fd;
  part ← fd_partition d;
  '(n, p) ← XpnGetServers (part_id part) fd;
  mret (n, p, part).

Definition add_offset (fd n : Z) : prog W unit := update_fd fd (λ d, set_offset (fd_offset d ⊕ n) d).
Definition set_file_size (n : Z) (m : xpn_metadata) : xpn_metadata :=
  XpnMetadata (magic_number m) (version m) (type_ m) (block_size m) n (replication_level m)
    (first_node m) (distribution_policy m) (data_nserv m) (offsets m).

(** The end of a write: the offset moves and a longer file is recorded. *)
Definition after_write (fd : Z) (n : Z) (p : nat) (rl count : Z) : prog W unit :=
  if 0 <? count then
    add_offset fd count;;
    d ← get_fd fd;
    if file_size (fd_mdata d) <? fd_offset d then
      let m := set_file_size (fd_offset d) (fd_mdata d) in
      update_fd fd (set_fdmdata m);;
      XpnUpdateMetadata m n p (fd_path d) rl 1;; mret tt
    else mret tt
  else mret tt.

(** ** Small requests: server by server, without workers *)

(** The [do ... while] of [xpn_sread]; the result is [count] and whether the
    loop left through the error exit. *)
Fixpoint sread_loop (fd : Z) (p : nat) (local_serv : Z) (buffer : ptr) (size offset : Z) (fuel : nat) (count : Z) : prog W (Z * bool) :=
  match fuel with
  | O => fault
  | S f =>
    let new_offset := offset ⊕ count in
    '(l_offset, l_serv) ← XpnReadGetBlock fd new_offset local_serv;
    d ← get_fd fd;
    if fd_block_size d =? 0 then fault else
    let l_size := block_rest (fd_block_size d) size count new_offset in
    '(r, fh) ← need_fh fd p l_serv;
    if (r : Z) <? 0 then mret (-1, true)
    else
      s ← get_server p l_serv;
      '(res, data) ← zoom (call (nfi_read s (default fh_zero fh) (l_offset ⊕ XPN_HEADER_SIZE) l_size));
      if (res : Z) <? 0 then mret ((if count =? 0 then -1 else count), true)
      else
        c ← get;
        m ← lift (mem_write (mem (cl_env c)) (ptr_add buffer count) data);
        zoom (modify (set_mem m));;
        let count' := count ⊕ res in
        if (u64 count' <? size) && (0 <? (res : Z)) then sread_loop fd p local_serv buffer size offset f count'
        else mret (count', false)
  end.

Definition xpn_sread (fd : Z) (buffer : ptr) (size offset : Z) : prog W Z :=
  '(n, p, part) ← fd_servers fd;
  if (n : Z) <=? 0 then mret (-1)
  else
    '(count, err) ← sread_loop fd p (part_local_serv part) buffer size offset (S (Z.to_nat size)) 0;
    (if negb err && (0 <? (count : Z)) then add_offset fd count else mret tt);;
    mret count.

(** The replicas of one block; the result is [res] and, on an error exit, the count returned. *)
Fixpoint swrite_replicas (fd : Z) (p : nat) (buffer : ptr) (size offset count j : Z) (k : nat) (res : Z) : prog W (Z * option Z) :=
  match k with
  | O => mret (res, None)
  | S k' =>
    let new_offset := offset ⊕ count in
    '(res_aux, l_offset, l_serv) ← XpnWriteGetBlock fd new_offset j;
    if negb ((res_aux : Z) =? -1) then
      d ← get_fd fd;
      if fd_block_size d =? 0 then fault else
      let l_size := block_rest (fd_block_size d) size count new_offset in
      '(r, fh) ← need_fh fd p l_serv;
      if (r : Z) <? 0 then mret (r, Some (-1))
      else
        s ← get_server p l_serv;
        c ← get;
        data ← lift (mem_read (mem (cl_env c)) (ptr_add buffer count) l_size);
        res' ← zoom (call (nfi_write s (default fh_zero fh) (l_offset ⊕ XPN_HEADER_SIZE) data));
        if (res' : Z) <? 0 then mret (res', Some (if count =? 0 then -1 else count))
        else swrite_replicas fd p buffer size offset count (j + 1) k' res'
    else swrite_replicas fd p buffer size offset count (j + 1) k' res
  end.
Fixpoint swrite_loop (fd : Z) (p : nat) (rl : Z) (buffer : ptr) (size offset : Z) (fuel : nat) (count res : Z) : prog W Z :=
  match fuel with
  | O => fault
  | S f =>
    '(res', exit) ← swrite_replicas fd p buffer size offset count 0 (Z.to_nat (rl + 1)) res;
    match exit with
    | Some r => mret r
    | None =>
      let count' := count ⊕ res' in
      if (u64 count' <? size) && (0 <? (res' : Z)) then swrite_loop fd p rl buffer size offset f count' res'
      else mret count'
    end
  end.
Definition xpn_swrite (fd : Z) (buffer : ptr) (size offset : Z) : prog W Z :=
  '(n, p, part) ← fd_servers fd;
  count ← (if (n : Z) <=? 0 then mret (-1)
           else swrite_loop fd p (part_replication_level part) buffer size offset (S (Z.to_nat size)) 0 (-1));
  after_write fd n p (part_replication_level part) count;;
  mret count.

(** ** Large requests: one request per server *)

(** The launch loop; the result is false when a handle could not be opened. *)
Fixpoint launch_rows (write : bool) (fd : Z) (p : nat) (j : Z) (io : matrix) : prog W bool :=
  match io with
  | [] => mret true
  | [] :: io' => launch_rows write fd p (j + 1) io'
  | row :: io' =>
    '(res, fh) ← need_fh fd p j;
    if (res : Z) <? 0 then mret false
    else
      on_server p j (λ s, if write then nfi_worker_do_write s (default fh_zero fh) row
                          else nfi_worker_do_read s (default fh_zero fh) row);;
      launch_rows write fd p (j + 1) io'
  end.
(** The wait loop: [res_v] and [err]. *)
Fixpoint wait_rows (p : nat) (j : Z) (io : matrix) : prog W (list Z * bool) :=
  match io with
  | [] => mret ([], false)
  | row :: io' =>
    r ← (match row with [] => mret 0 | _ => wait_server p j end);
    '(rs, err) ← wait_rows p (j + 1) io';
    mret ((r : Z) :: rs, ((r : Z) <? 0) || err)
  end.

Definition xpn_pread (fd : Z) (buffer : ptr) (size offset : Z) : prog W Z :=
  '(n, p, part) ← fd_servers fd;
  if (n : Z) <=? 0 then mret (-1)
  else
    d ← get_fd fd;
    if fd_block_size d =? 0 then fault else
    let max := max_ops size (fd_block_size d) in
    '(new_buffer, io) ← XpnReadBlocks fd buffer size offset (part_local_serv part) max n;
    ok ← launch_rows false fd p 0 io;
    if negb ok then free new_buffer;; mret (-1)
    else
      '(res_v, err) ← wait_rows p 0 io;
      let total := if (err : bool) then -1 else XpnReadGetTotalBytes res_v in
      (if 0 <? total then add_offset fd total else mret tt);;
      XpnReadBlocksFinish fd buffer size offset (part_local_serv part) max n new_buffer;;
      free new_buffer;;
      mret total.

Definition xpn_pwrite (fd : Z) (buffer : ptr) (size offset : Z) : prog W Z :=
  '(n, p, part) ← fd_servers fd;
  if (n : Z) <=? 0 then mret (-1)
  else
    d ← get_fd fd;
    let rl := part_replication_level part in
    if (fd_block_size d =? 0) || (rl ⊞ 1 =? 0) then fault else
    let max := max_ops size (fd_block_size d) ⊠ (rl ⊞ 1) in
    '(new_buffer, io) ← XpnWriteBlocks fd buffer size offset max n;
    ok ← launch_rows true fd p 0 io;
    if negb ok then free new_buffer;; mret (-1)
    else
      '(res_v, err) ← wait_rows p 0 io;
      if (err : bool) then free new_buffer;; mret (-1)
      else
        c ← get;
        part' ← lift (xpn_parttable c !! p);
        t ← lift (XpnWriteGetTotalBytes res_v io (data_serv part'));
        let total := t `quot` (rl ⊞ 1) in
        after_write fd n p rl total;;
        free new_buffer;;
        mret total.

(** ** The entry points *)

(** A buffer argument is [None] when it is NULL.  The comparison with
    [XPN_MAX_FILE] lets 1024 through, one past the table. *)
Definition xpn_simple_read (fd : Z) (buffer : option ptr) (size : Z) : prog W Z :=
  if (fd <? 0) || (XPN_MAX_FILE <? fd) then fail EBADF (-1)
  else
    null ← fd_is_null fd;
    if (null : bool) then fail EBADF (-1)
    else match buffer with
    | None => fail EFAULT (-1)
    | Some buffer =>
      if size =? 0 then mret 0
      else
        d ← get_fd fd;
        if fd_flags d =? O_WRONLY then fail EBADF (-1)
        else if fd_type d =? XPN_DIR then fail EISDIR (-1)
        else if u64 (fd_block_size d) <? size then xpn_pread fd buffer size (fd_offset d)
        else xpn_sread fd buffer size (fd_offset d)
    end.

(** The error exit for a NULL descriptor reads the descriptor's offset for its
    trace only when debugging is on. *)
Definition xpn_simple_write (fd : Z) (buffer : option ptr) (size : Z) : prog W Z :=
  if (fd <? 0) || (XPN_MAX_FILE <? fd) then fail EBADF (-1)
  else
    null ← fd_is_null fd;
    match null, buffer with
    | true, _ | _, None => fail EFAULT (-1)
    | false, Some buffer =>
      if size =? 0 then mret 0
      else
        d ← get_fd fd;
        part ← fd_partition d;
        if fd_flags d =? O_RDONLY then fail EBADF (-1)
        else if fd_type d =? XPN_DIR then fail EISDIR (-1)
        else if (u64 (fd_block_size d) <=? size) || (0 <? part_replication_level part)
        then xpn_pwrite fd buffer size (fd_offset d)
        else xpn_swrite fd buffer size (fd_offset d)
    end.

Definition SEEK_SET : Z := 0.
Definition SEEK_CUR : Z := 1.
Definition SEEK_END : Z := 2.

(** The new offset goes through an [int] on its way back. *)
Definition xpn_simple_lseek (fd offset flag : Z) : prog W Z :=
  r ← (if flag =? SEEK_SET then
         if offset <? 0 then mret (inl EINVAL) else mret (inr offset)
       else if flag =? SEEK_CUR then
         d ← get_fd fd;
         let o := fd_offset d ⊕ offset in
         if o <? 0 then mret (inl EINVAL) else mret (inr o)
       else if flag =? SEEK_END then
         '(r, st) ← xpn_simple_fstat fd;
         if (r : Z) <? 0 then mret (inl EBADF)
         else
           st ← lift st;
           let o := x_size st ⊕ offset in
           if o <? 0 then mret (inl EINVAL) else mret (inr o)
       else mret (inl EINVAL) : prog W (Z + Z));
  match r with
  | inl e => fail e (-1)
  | inr o =>
    update_fd fd (set_offset o);;
    d ← get_fd fd;
    mret (i32 (fd_offset d))
  end.
End rw.
