(* ===== verification/BlocksSpec.v ===== *)
(** * BlocksSpec: the operation matrices

    The pieces a request is cut into, the plan of a write as a list of
    (server, operation) in the order the code produces it, the matrix as the
    rows of that plan, and what follows: rows never overflow, and the
    operations of a row are contiguous on the server, so that merging them is sound. *)

From S2P Require Import Prelude Cstr Layout Mdata Nfi Client MemFs FileTable Blocks.

(** ** Rows *)

Abbreviation plan := (list (Z * nfi_worker_io)) (only parsing).
Definition row_of (s : Z) (pl : plan) : list nfi_worker_io := snd <$> filter (λ e, e.1 = s) pl.
Definition rows (n : Z) (pl : plan) : list (list nfi_worker_io) := (λ s, row_of s pl) <$> seqZ 0 n.

Lemma row_of_app s pl pl' : row_of s (pl ++ pl') = row_of s pl ++ row_of s pl'.
Proof. unfold row_of. by rewrite filter_app, fmap_app. Qed.
Lemma row_of_length s pl : (length (row_of s pl) <= length pl)%nat.
Proof. unfold row_of. rewrite length_fmap. apply length_filter. Qed.

Lemma rows_rd n pl s : 0 <= s < n → rdZ (rows n pl) s = Some (row_of s pl).
Proof.
  intros Hs. unfold rows, rdZ. zbool. rewrite list_lookup_fmap, lookup_seqZ_lt by lia.
  cbn. do 2 f_equal. lia.
Qed.
Lemma rows_wr n pl s o :
  0 <= s < n → wrZ (rows n pl) s (row_of s pl ++ [o]) = Some (rows n (pl ++ [(s, o)])).
Proof.
  intros Hs. unfold wrZ, rows. rewrite length_fmap, length_seqZ. zbool. f_equal.
  apply list_eq. intros i. rewrite list_lookup_fmap.
  destruct (decide (i = Z.to_nat s)) as [->|Hne].
  - rewrite list_lookup_insert_eq by (rewrite length_fmap, length_seqZ; lia).
    rewrite lookup_seqZ_lt by lia. cbn. f_equal. rewrite row_of_app. f_equal.
    + f_equal. lia.
    + unfold row_of. rewrite filter_cons_True by (cbn; lia). done.
  - rewrite list_lookup_insert_ne, list_lookup_fmap by done.
    destruct (seqZ 0 n !! i) as [k|] eqn:E; [|done]. cbn. f_equal.
    apply lookup_seqZ in E as [-> E]. rewrite row_of_app. unfold row_of at 3.
    rewrite filter_cons_False by (cbn; lia). cbn. by rewrite app_nil_r.
Qed.

Lemma io_append_rows max n pl s o :
  0 <= s < n → Z.of_nat (length pl) < max → io_append max (rows n pl) s o = Some (rows n (pl ++ [(s, o)])).
Proof.
  intros Hs Hm. unfold io_append. rewrite rows_rd by done. cbn [mbind option_bind].
  pose proof (row_of_length s pl). zbool. by apply rows_wr.
Qed.

(** ** Pieces: where a request is cut at block boundaries *)

Fixpoint pieces (bs size offset : Z) (fuel : nat) (count : Z) : list (Z * Z) :=
  match fuel with
  | O => []
  | S f =>
    if count <? size then
      let len := Z.min (size - count) (bs - (offset + count) mod bs) in
      (count, len) :: pieces bs size offset f (count + len)
    else []
  end.

Section pieces.
Context (bs size offset : Z) (Hbs : 0 < bs < 2 ^ 31) (Hsz : 0 <= size) (Hoff : 0 <= offset) (Hsum : offset + size < 2 ^ 62).

Definition piece_len (count : Z) : Z := Z.min (size - count) (bs - (offset + count) mod bs).
Lemma piece_len_pos count : 0 <= count < size → 0 < piece_len count <= bs ∧ piece_len count <= size - count.
Proof using Hbs Hoff. intros Hc. unfold piece_len. zdm (offset + count) bs. lia. Qed.

(** What the code computes is the exact length. *)
Lemma block_rest_exact count : 0 <= count < size → block_rest bs size count (offset ⊕ count) = piece_len count.
Proof using Hbs Hsz Hoff Hsum.
  intros Hc. unfold block_rest, piece_len. rewrite (i64_id (offset + count)) by lia.
  rewrite rem_mod by lia. zdm (offset + count) bs. rewrite !u64_id by lia.
  destruct (Z.ltb_spec (size - count) (bs - (offset + count) mod bs)); lia.
Qed.

(** The piece ends at the end of its block, or it is the last. *)
Lemma piece_next count :
  0 <= count < size → count + piece_len count < size →
  (offset + count + piece_len count) mod bs = 0 ∧
  (offset + count + piece_len count) / bs = (offset + count) / bs + 1.
Proof using Hbs Hoff.
  intros Hc Hn. unfold piece_len in *. zdm (offset + count) bs.
  rewrite Z.min_r by lia.
  destruct (div_unique_pos (offset + count + (bs - (offset + count) mod bs)) bs ((offset + count) / bs + 1) 0) as [E1 E2]; [lia|lia|].
  done.
Qed.
End pieces.

(** Enough fuel: the number of pieces. *)
Lemma pieces_nil bs size offset fuel count : size <= count → pieces bs size offset fuel count = [].
Proof. intros H. destruct fuel; cbn [pieces]; zbool; done. Qed.

Lemma pieces_count bs size offset fuel count :
  0 < bs → 0 <= offset → 0 <= count → count <= size →
  (count = 0 ∨ (offset + count) mod bs = 0) →
  Z.of_nat (length (pieces bs size offset fuel count)) <= (if decide ((offset + count) mod bs = 0) then 0 else 1) + (size - count + bs - 1) / bs.
Proof.
  intros Hbs Ho. revert count. induction fuel as [|fuel IH]; intros count Hc Hs Hal; cbn [pieces].
  - cbn. assert (0 <= (size - count + bs - 1) / bs) by (apply Z.div_pos; lia). case_decide; lia.
  - destruct (Z.ltb_spec count size) as [Hlt|]; cbn [length].
    2: { assert (0 <= (size - count + bs - 1) / bs) by (apply Z.div_pos; lia). case_decide; lia. }
    set (len := Z.min (size - count) (bs - (offset + count) mod bs)).
    zdm (offset + count) bs. assert (0 < len <= size - count) by (unfold len; lia).
    destruct (decide (count + len < size)) as [Hn|Hn].
    + assert ((offset + (count + len)) mod bs = 0) as Em.
      { unfold len. rewrite Z.min_r by (unfold len in Hn; lia).
        apply (div_unique_pos _ bs ((offset + count) / bs + 1) 0); lia. }
      specialize (IH (count + len) ltac:(lia) ltac:(lia) (or_intror Em)). rewrite decide_True in IH by done.
      case_decide as Hd.
      * assert (len = bs) as Elen by (unfold len in *; lia). rewrite Elen in *.
        replace (size - count + bs - 1) with (size - (count + bs) + bs - 1 + 1 * bs) by lia.
        rewrite Z.div_add by lia. lia.
      * assert ((size - (count + len) + bs - 1) / bs <= (size - count + bs - 1) / bs) by (apply Z.div_le_mono; lia). lia.
    + rewrite pieces_nil by lia. cbn [length].
      assert (1 <= (size - count + bs - 1) / bs) by (apply Z.div_le_lower_bound; lia). case_decide; lia.
Qed.

Definition request_pieces_raw (bs size offset : Z) : list (Z * Z) := pieces bs size offset (Z.to_nat size) 0.

(** ** The plans *)

Section plans.
Context {W : Type} `{NO : !NfiOps W} `{SY : !Sys}.
Context (c : client W) (fd : Z) (d : xpn_filedesc) (part : xpn_partition).
Context (Hfd : get_fd fd c = Some (d, c)) (Hpart : xpn_parttable c !! fd_part d = Some part).
Let bs := fd_block_size d.
Let rl := part_replication_level part.
Let n := Z.of_nat (length (data_serv part)).
Context (size offset : Z) (buffer : ptr).
Context (Hbs : 0 < bs < 2 ^ 31) (Hrl : 0 <= rl < 2 ^ 31 - 1) (Hsz : 0 <= size)
  (Hoff : 0 <= offset) (Hsum : offset + size < 2 ^ 62).

(** Where the replicas of the bytes of the request are. *)
Context (place : Z → Z → Z * Z).
Context (Hplace : ∀ x j, offset <= x < offset + size → 0 <= j <= rl →
  XpnCalculateBlockMdata (fd_mdata d) x j 0 0 = Some (place x j) ∧ 0 <= (place x j).2 < n).

Definition piece_ops (e : Z * Z) : list (Z * nfi_worker_io) :=
  (λ j, ((place (offset + e.1) j).2, op_at (place (offset + e.1) j).1 e.2 buffer e.1)) <$> seqZ 0 (rl + 1).
Definition request_pieces : list (Z * Z) := request_pieces_raw bs size offset.
Definition write_plan : list (Z * nfi_worker_io) := concat (piece_ops <$> request_pieces).

Lemma fd_partition_run : fd_partition d c = Some (part, c).
Proof. unfold fd_partition. mstep. rewrite Hpart. done. Qed.

Lemma piece_ops_length e : Z.of_nat (length (piece_ops e)) = rl + 1.
Proof. unfold piece_ops. rewrite length_fmap, length_seqZ. lia. Qed.

Lemma serv_error_some s : 0 <= s < n → ∃ e, serv_error (data_serv part) s = Some e.
Proof.
  intros Hs. unfold serv_error. destruct (rdZ_Some (data_serv part) s) as [x ->]; [done|]. by eexists.
Qed.

Lemma write_get_block_run x j :
  offset <= x < offset + size → 0 <= j <= rl →
  ∃ e, XpnWriteGetBlock fd x j c = Some ((e, (place x j).1, (place x j).2), c).
Proof.
  intros Hx Hj. destruct (Hplace x j Hx Hj) as [Ep Es]. destruct (serv_error_some _ Es) as [e Ee].
  exists e. unfold XpnWriteGetBlock. mrun (exact Hfd). mrun (exact fd_partition_run).
  mrun (unfold lift; rewrite Ep; reflexivity).
  destruct (place x j) as [o s]. cbn [fst snd] in *. mrun (unfold lift; rewrite Ee; reflexivity). done.
Qed.

Lemma write_replicas_run max count pl :
  0 <= count < size → Z.of_nat (length pl) + (rl + 1) <= max →
  write_replicas fd buffer size offset max count (rows n pl) c
  = Some (rows n (pl ++ piece_ops (count, piece_len bs size offset count)), c).
Proof.
  intros Hc Hm. unfold write_replicas. mrun (exact Hfd). mrun (exact fd_partition_run).
  fold rl. unfold piece_ops. cbn [fst snd].
  assert (∀ k q, Z.of_nat k = q → (Z.of_nat k <= rl + 1) →
    foldM (seqZ 0 q) (λ io j,
      '(_, l_offset, l_serv) ← XpnWriteGetBlock fd (offset ⊕ count) j;
      if fd_block_size d =? 0 then fault else
      let l_size := block_rest (fd_block_size d) size count (offset ⊕ count) in
      lift (io_append max io l_serv (op_at l_offset l_size buffer count))) (rows n pl) c
    = Some (rows n (pl ++ ((λ j, ((place (offset + count) j).2,
        op_at (place (offset + count) j).1 (piece_len bs size offset count) buffer count)) <$> seqZ 0 q)), c)) as HH.
  2: { apply (HH (Z.to_nat (rl + 1)) (rl + 1)); lia. }
  induction k as [|k IH]; intros q Hq Hk.
  - rewrite seqZ_nil by lia. cbn. by rewrite app_nil_r.
  - replace q with (Z.of_nat k + 1) by lia. rewrite seqZ_app by lia. rewrite foldM_app.
    mrun (apply (IH (Z.of_nat k)); lia). rewrite fmap_app, app_assoc.
    set (pl' := pl ++ _). rewrite Z.add_0_l, (seqZ_cons (Z.of_nat k) 1), seqZ_nil by lia. cbn [foldM fmap list_fmap].
    rewrite (i64_id (offset + count)) by lia.
    destruct (write_get_block_run (offset + count) (Z.of_nat k)) as [e Ee]; [lia|lia|].
    destruct (Hplace (offset + count) (Z.of_nat k)) as [_ Es]; [lia|lia|].
    pose proof (block_rest_exact bs size offset Hbs Hsz Hoff Hsum count Hc) as Eb.
    rewrite (i64_id (offset + count)) in Eb by lia.
    erewrite bind_step.
    2: { mrun (exact Ee). fold bs. rewrite (proj2 (Z.eqb_neq bs 0)) by lia. rewrite Eb.
         unfold lift. rewrite io_append_rows; [reflexivity|exact Es|].
         unfold pl'. rewrite length_app, length_fmap, length_seqZ. lia. }
    done.
Qed.

Lemma write_loop_run max fuel count pl :
  0 <= count → size - count <= Z.of_nat fuel →
  Z.of_nat (length pl) + (rl + 1) * Z.of_nat (length (pieces bs size offset fuel count)) <= max →
  write_loop fd buffer size offset max fuel count (rows n pl) c
  = Some (rows n (pl ++ concat (piece_ops <$> pieces bs size offset fuel count)), c).
Proof.
  revert count pl. induction fuel as [|fuel IH]; intros count pl Hc Hf Hm.
  - cbn [write_loop pieces fmap list_fmap concat]. zbool. by rewrite app_nil_r.
  - cbn [write_loop pieces] in *. destruct (Z.ltb_spec count size) as [Hlt|].
    2: { cbn. by rewrite app_nil_r. }
    fold (piece_len bs size offset count) in *. cbn [length] in Hm.
    pose proof (piece_len_pos bs size offset Hbs Hoff count ltac:(lia)) as [Hl1 Hl2].
    mrun (apply write_replicas_run; lia). mrun (exact Hfd). mrun (exact fd_partition_run).
    fold rl. rewrite (proj2 (Z.ltb_ge rl 0)) by lia. fold bs. rewrite (block_rest_exact bs size offset) by lia.
    rewrite u64_id by lia. rewrite (Z.add_comm _ count).
    rewrite (IH (count + piece_len bs size offset count)) by (rewrite ?length_app; pose proof (piece_ops_length (count, piece_len bs size offset count)); lia).
    cbn [fmap list_fmap concat]. by rewrite app_assoc.
Qed.

Lemma rows_nil : replicate (Z.to_nat n) [] = rows n [].
Proof.
  unfold rows. apply list_eq. intros i. rewrite list_lookup_fmap.
  destruct (decide (i < Z.to_nat n)%nat) as [Hi|Hi].
  - rewrite lookup_replicate_2, lookup_seqZ_lt by lia. done.
  - rewrite lookup_seqZ_ge by lia. apply lookup_ge_None_2. rewrite length_replicate. lia.
Qed.

Lemma write_blocks_run max :
  (rl + 1) * Z.of_nat (length request_pieces) <= max →
  XpnWriteBlocksBlockByBlock fd buffer size offset max n c = Some (rows n write_plan, c).
Proof.
  intros Hm. unfold XpnWriteBlocksBlockByBlock. rewrite rows_nil.
  rewrite (write_loop_run max (Z.to_nat size) 0 []); [done|lia|lia|]. exact Hm.
Qed.
End plans.

(** The room the callers allocate is enough. *)
Lemma pieces_bound bs size offset :
  0 < bs < 2 ^ 31 → 0 <= size < 2 ^ 31 - 2 → 0 <= offset →
  Z.of_nat (length (request_pieces_raw bs size offset)) <= max_ops size bs.
Proof.
  intros Hbs Hs Ho. unfold request_pieces_raw.
  pose proof (pieces_count bs size offset (Z.to_nat size) 0 ltac:(lia) Ho ltac:(lia) ltac:(lia) ltac:(by left)) as Hc.
  unfold max_ops. rewrite quot_div, rem_mod by lia. zdm size bs.
  assert (0 <= size / bs <= size) by (split; [apply Z.div_pos; lia|apply Z.div_le_upper_bound; nia]).
  rewrite Z.sub_0_r in Hc. rewrite i32_id by lia.
  destruct (Z.eqb_spec (size mod bs) 0) as [Hz|Hz].
  - assert ((size + bs - 1) / bs = size / bs) as Ed by (apply (div_unique_pos _ bs (size / bs) (bs - 1)); lia).
    case_decide; lia.
  - rewrite i32_id by lia.
    assert ((size + bs - 1) / bs = size / bs + 1) as Ed
      by (apply (div_unique_pos _ bs (size / bs + 1) (size mod bs - 1)); lia).
    case_decide; lia.
Qed.

(** ** Rows are contiguous

    In a file that was never expanded, with no more replicas than servers, the
    operations of a row follow each other on the server. *)

Definition contiguous (row : list nfi_worker_io) : Prop :=
  ∀ i o o', row !! i = Some o → row !! S i = Some o' → io_offset o' = io_offset o + io_size o.

Lemma contiguous_snoc row o :
  contiguous row → (∀ o', last row = Some o' → io_offset o = io_offset o' + io_size o') →
  contiguous (row ++ [o]).
Proof.
  intros Hr Ho i a b Ha Hb.
  destruct (decide (S i < length row)%nat).
  - rewrite lookup_app_l in Ha, Hb by lia. by apply (Hr i).
  - destruct (decide (S i = length row)) as [E|].
    + rewrite lookup_app_r, E, Nat.sub_diag in Hb by lia. injection Hb as <-.
      rewrite lookup_app_l in Ha by lia. apply Ho. rewrite last_lookup, <- E. done.
    + rewrite lookup_app_r in Hb by lia. destruct (S i - length row)%nat eqn:E; [lia|]. done.
Qed.

Section contiguity.
Context (L : layout) (HL : ly_ok L) (Hrn : ly_rl L < ly_n L).
Context (part : xpn_partition) (Hrl : part_replication_level part = ly_rl L).
Context (size offset : Z) (buffer : ptr) (Hoff : 0 <= offset).
Let place (x j : Z) : Z * Z := (ly_off L x j, ly_serv L x j).
Let bs := ly_bs L.
Let n := ly_n L.
Let ops := piece_ops part offset buffer place.

(** The first replica of block [b] that server [s] holds, counted from the
    first replica of the block; it may belong to a later block. *)
Definition next_slot (s b : Z) : Z := b * (ly_rl L + 1) + (s - ly_fn L - b * (ly_rl L + 1)) mod n.

Definition op_of (e : Z * Z) (j : Z) : nfi_worker_io := op_at (ly_off L (offset + e.1) j) e.2 buffer e.1.

Lemma row_ops_upto s e q :
  0 <= s < n → 0 <= q <= n →
  let r := (s - ly_fn L - (offset + e.1) / bs * (ly_rl L + 1)) mod n in
  row_of s ((λ j, (ly_serv L (offset + e.1) j, op_of e j)) <$> seqZ 0 q)
  = if r <? q then [op_of e r] else [].
Proof.
  intros Hs Hq r. destruct HL as [Hb _ Hn Hf].
  assert (0 <= r < n) as Hr by (apply Z.mod_pos_bound; lia).
  assert (Hmatch : ∀ j, 0 <= j < n → ly_serv L (offset + e.1) j = s ↔ j = r).
  { intros j Hj. unfold ly_serv, ly_slot. fold bs n.
    set (t := (offset + e.1) / bs * (ly_rl L + 1)) in *. unfold r.
    zdm (s - ly_fn L - t) n. zdm (t + j + ly_fn L) n. split; intros E.
    - assert (j - r = n * ((t + j + ly_fn L) / n + (s - ly_fn L - t) / n)) as E' by (unfold r; lia).
      assert ((t + j + ly_fn L) / n + (s - ly_fn L - t) / n = 0) by nia. unfold r in *. nia.
    - subst j. assert ((t + (s - ly_fn L - t) mod n + ly_fn L) = n * (- ((s - ly_fn L - t) / n)) + s) as E' by lia.
      apply (div_unique_pos _ n (- ((s - ly_fn L - t) / n)) s); lia. }
  assert (∀ k q, Z.of_nat k = q → q <= n →
    row_of s ((λ j, (ly_serv L (offset + e.1) j, op_of e j)) <$> seqZ 0 q) = if r <? q then [op_of e r] else []) as HH.
  2: { apply (HH (Z.to_nat q) q); lia. }
  clear q Hq. induction k as [|k IH]; intros q Hq Hk.
  - rewrite seqZ_nil by lia. zbool. done.
  - replace q with (Z.of_nat k + 1) by lia. rewrite seqZ_app, fmap_app, row_of_app by lia.
    rewrite (IH (Z.of_nat k)) by lia. rewrite Z.add_0_l, (seqZ_cons (Z.of_nat k) 1), seqZ_nil by lia.
    cbn [fmap list_fmap]. unfold row_of.
    destruct (decide (Z.of_nat k = r)) as [E|Hne].
    + rewrite filter_cons_True by (cbn; apply Hmatch; lia). zbool. cbn. by rewrite E.
    + rewrite filter_cons_False by (cbn; rewrite Hmatch by lia; done). cbn. rewrite app_nil_r.
      destruct (Z.ltb_spec r (Z.of_nat k)), (Z.ltb_spec r (Z.of_nat k + 1)); try lia; done.
Qed.

Lemma row_ops s e :
  0 <= s < n →
  let r := (s - ly_fn L - (offset + e.1) / bs * (ly_rl L + 1)) mod n in
  row_of s (ops e) = if r <? ly_rl L + 1 then [op_of e r] else [].
Proof.
  intros Hs. unfold ops, piece_ops. rewrite Hrl. destruct HL as [_ Hr _ _].
  apply (row_ops_upto s e (ly_rl L + 1) Hs). unfold n. lia.
Qed.

(** At the start of block [b] the next operation on [s] begins where its row ends. *)
Definition row_end (row : list nfi_worker_io) (s b : Z) : Prop :=
  ∀ o, last row = Some o → io_offset o + io_size o = next_slot s b / n * bs.

Lemma next_slot_step s b :
  0 <= s < n →
  let r := (s - ly_fn L - b * (ly_rl L + 1)) mod n in
  next_slot s (b + 1) = if r <? ly_rl L + 1 then next_slot s b + n else next_slot s b.
Proof.
  intros Hs r. destruct HL as [Hb Hr Hn Hf]. unfold next_slot. fold r.
  set (t := b * (ly_rl L + 1)) in *. replace ((b + 1) * (ly_rl L + 1)) with (t + (ly_rl L + 1)) by lia.
  unfold r. zdm (s - ly_fn L - t) n.
  set (q := (s - ly_fn L - t) / n) in *. set (r' := (s - ly_fn L - t) mod n) in *.
  destruct (Z.ltb_spec r' (ly_rl L + 1)).
  - assert ((s - ly_fn L - (t + (ly_rl L + 1))) mod n = r' + n - (ly_rl L + 1)) as ->.
    { apply (div_unique_pos _ n (q - 1)); [unfold n in *; lia|]. lia. }
    lia.
  - assert ((s - ly_fn L - (t + (ly_rl L + 1))) mod n = r' - (ly_rl L + 1)) as ->.
    { apply (div_unique_pos _ n q); lia. }
    lia.
Qed.

Lemma concat_contiguous fuel count pl :
  0 <= count → (pl = [] ∨ (offset + count) mod bs = 0) →
  (∀ s, 0 <= s < n → contiguous (row_of s pl) ∧ row_end (row_of s pl) s ((offset + count) / bs)) →
  ∀ s, 0 <= s < n → contiguous (row_of s (pl ++ concat (ops <$> pieces bs size offset fuel count))).
Proof.
  destruct HL as [Hb Hr Hn Hf].
  revert count pl. induction fuel as [|fuel IH]; intros count pl Hc Hal Hinv s Hs; cbn [pieces].
  - cbn. rewrite app_nil_r. by apply Hinv.
  - destruct (Z.ltb_spec count size) as [Hlt|]; [|cbn; rewrite app_nil_r; by apply Hinv].
    fold (piece_len bs size offset count). set (len := piece_len bs size offset count).
    pose proof (piece_len_pos bs size offset Hb Hoff count ltac:(lia)) as [Hl1 Hl2]. fold len in Hl1, Hl2.
    cbn [fmap list_fmap concat]. rewrite app_assoc.
    set (pl' := pl ++ ops (count, len)).
    assert (Hcont : ∀ s, 0 <= s < n → contiguous (row_of s pl')).
    { intros s' Hs'. unfold pl'. rewrite row_of_app, row_ops by done.
      destruct (Hinv s' Hs') as [H1 H2]. cbn [fst].
      destruct (Z.ltb_spec ((s' - ly_fn L - (offset + count) / bs * (ly_rl L + 1)) mod n) (ly_rl L + 1)) as [Hin|];
        [|by rewrite app_nil_r].
      apply contiguous_snoc; [done|]. intros o' Ho'.
      destruct Hal as [->|Hal]; [done|]. rewrite (H2 o' Ho'). cbn. unfold ly_off, ly_slot, next_slot.
      fold bs n. rewrite Hal. lia. }
    destruct (decide (count + len < size)) as [Hn'|Hn'].
    2: { rewrite pieces_nil by lia. cbn. rewrite app_nil_r. by apply Hcont. }
    destruct (piece_next bs size offset Hb Hoff count ltac:(lia) Hn') as [Em Ed].
    fold len in Em, Ed. rewrite <- Z.add_assoc in Em, Ed.
    apply IH; [lia|by right| |done].
    intros s' Hs'. split; [by apply Hcont|]. rewrite Ed. intros o Ho.
    pose proof (next_slot_step s' ((offset + count) / bs) Hs') as Est. cbv zeta in Est. rewrite Est.
    unfold pl' in Ho. rewrite row_of_app, row_ops in Ho by done. cbn [fst] in Ho.
    destruct (Z.ltb_spec ((s' - ly_fn L - (offset + count) / bs * (ly_rl L + 1)) mod n) (ly_rl L + 1)) as [Hin|].
    + rewrite last_snoc in Ho. injection Ho as <-. cbn. unfold ly_off, ly_slot, next_slot. fold bs n.
      set (sl := (offset + count) / bs * (ly_rl L + 1) + _).
      assert ((sl + n) / n = sl / n + 1) as -> by (replace (sl + n) with (sl + 1 * n) by lia; apply Z.div_add; unfold n; lia).
      assert ((offset + count) mod bs + len = bs) as El.
      { unfold len, piece_len in *. lia. }
      lia.
    + rewrite app_nil_r in Ho. destruct (Hinv s' Hs') as [_ H2]. by apply H2.
Qed.

Lemma rows_contiguous s :
  0 <= s < n → contiguous (row_of s (concat (ops <$> request_pieces_raw bs size offset))).
Proof.
  intros Hs. apply (concat_contiguous (Z.to_nat size) 0 []); [lia|by left| |done].
  intros s' Hs'. split; [intros i o o' H; done|intros o Ho; done].
Qed.
End contiguity.
