(* ===== verification/Store.v ===== *)
(** * Store: servers that keep what is written

    What the client relies on when it groups operations: a server writes the
    bytes it is given at the offset it is given ([NfiStore]).  Over such a
    server a row of contiguous operations and the one operation it is merged
    into have the same effect, and the grouping of [XpnWriteBlocksAllInOne] is sound. *)

From S2P Require Import Prelude Cstr Paths Layout Mdata Nfi Client MemFs FileTable Blocks BlocksSpec.

(** ** The promise of a server *)

Class NfiStore (W : Type) {NO : NfiOps W} := {
  st_open : nfi_server → nfi_fhandle → W → Prop;
  st_put : nfi_server → nfi_fhandle → Z → list ascii → W → W;
  st_write s fh off d e w :
    st_open s fh w → XPN_HEADER_SIZE <= off →
    nfi_write s fh off d (e, w) = (Z.of_nat (length d), (e, st_put s fh off d w));
  st_put_open s fh off d w : st_open s fh w → st_open s fh (st_put s fh off d w);
  st_put_app s fh off d1 d2 w :
    st_open s fh w → XPN_HEADER_SIZE <= off →
    st_put s fh (off + Z.of_nat (length d1)) d2 (st_put s fh off d1 w) = st_put s fh off (d1 ++ d2) w }.

(** *** The in-memory instance keeps it *)

(** Two adjacent updates of a list are one. *)
Lemma update_app {A} (g : list A) a d1 d2 :
  (a + length d1 <= length g)%nat →
  let g1 := take a g ++ d1 ++ drop (a + length d1) g in
  take (a + length d1) g1 ++ d2 ++ drop (a + length d1 + length d2) g1
  = take a g ++ (d1 ++ d2) ++ drop (a + (length d1 + length d2)) g.
Proof.
  intros Ha g1. assert (length (take a g) = a) as Ht by (rewrite length_take; lia).
  assert (g1 = (take a g ++ d1) ++ drop (a + length d1) g) as -> by (unfold g1; by rewrite app_assoc).
  rewrite take_app_length' by (rewrite length_app; lia).
  rewrite drop_app_ge by (rewrite length_app; lia).
  rewrite drop_drop, length_app, Ht, <- !app_assoc. do 4 f_equal. lia.
Qed.

Lemma splice_app b o d1 d2 :
  splice (splice b o d1) (o + length d1) d2 = splice b o (d1 ++ d2).
Proof.
  unfold splice. set (b' := b ++ replicate (o - length b) NUL).
  assert (o <= length b')%nat as Ho by (unfold b'; rewrite length_app, length_replicate; lia).
  set (x := take o b' ++ d1 ++ drop (o + length d1) b').
  assert (o + length d1 <= length x)%nat as Hx by (unfold x; rewrite !length_app, length_take; lia).
  replace (o + length d1 - length x)%nat with 0%nat by lia. cbn [replicate]. rewrite app_nil_r, length_app.
  unfold x. assert (length (take o b') = o) as Ht by (rewrite length_take; lia).
  rewrite (app_assoc (take o b')), take_app_length' by (rewrite length_app; lia).
  rewrite drop_app_ge by (rewrite length_app; lia).
  rewrite drop_drop, length_app, Ht, <- !app_assoc. do 4 f_equal. lia.
Qed.

Definition mem_put (s : nfi_server) (fh : nfi_fhandle) (off : Z) (d : list ascii) (w : memfs) : memfs :=
  match w !! key s (fh_url fh) with
  | Some x => <[key s (fh_url fh) := MFile (splice (mf_bytes x) (Z.to_nat (off - XPN_HEADER_SIZE)) d) (mf_mdata x) (mf_dir x)]> w
  | None => w
  end.

#[export] Instance memfs_store : NfiStore memfs.
Proof.
  refine {| st_open s fh (w : memfs) := is_Some (w !! key s (fh_url fh)); st_put := mem_put |}.
  - intros s fh off d e w [x Hx] Ho. cbn. unfold mem_update, mem_put. rewrite Hx. done.
  - intros s fh off d w [x Hx]. unfold mem_put. rewrite Hx, lookup_insert_eq. by eexists.
  - intros s fh off d1 d2 w [x Hx] Ho. unfold mem_put. rewrite Hx, lookup_insert_eq, insert_insert_eq. cbn.
    do 2 f_equal. rewrite <- splice_app. f_equal. unfold XPN_HEADER_SIZE in *. lia.
Defined.

Section store.
Context {W : Type} {NO : NfiOps W} {NS : NfiStore W}.

(** The data of the operations of a row, when it can be read. *)
Definition row_data (m : memory) (row : list nfi_worker_io) (datas : list (list ascii)) : Prop :=
  Forall2 (λ o dt, mem_read m (io_buffer o) (io_size o) = Some dt ∧ io_size o = Z.of_nat (length dt) ∧ 0 <= io_offset o) row datas.
Definition total (datas : list (list ascii)) : Z := Z.of_nat (length (concat datas)).

Lemma do_write_cons srv fh o io ret dt (st : env W) :
  mem_read (mem st) (io_buffer o) (io_size o) = Some dt → st_open srv fh (world st) →
  0 <= io_offset o < 2 ^ 62 → 0 <= ret → ret + Z.of_nat (length dt) < 2 ^ 62 →
  do_write srv fh (o :: io) ret st
  = do_write srv fh io (ret + Z.of_nat (length dt))
      (Env (errno st) (mem st) (st_put srv fh (io_offset o + XPN_HEADER_SIZE) dt (world st))).
Proof.
  intros Hm Ho Hof Hr Hb. cbn [do_write]. mstep. mrun (unfold lift; rewrite Hm; reflexivity).
  erewrite (bind_step (call (nfi_write srv fh (io_offset o ⊕ XPN_HEADER_SIZE) dt))).
  2: { unfold call. rewrite (i64_id (_ + _)) by (unfold XPN_HEADER_SIZE; lia).
       rewrite st_write by (done || lia). reflexivity. }
  cbv beta. rewrite (proj2 (Z.ltb_ge (Z.of_nat (length dt)) 0)) by lia.
  rewrite (i64_id (ret + Z.of_nat (length dt))) by lia. done.
Qed.

Lemma do_write_row srv fh row datas o ret (st : env W) :
  contiguous (o :: row) → row_data (mem st) (o :: row) datas → st_open srv fh (world st) →
  0 <= ret → io_offset o + total datas < 2 ^ 62 → ret + total datas < 2 ^ 62 →
  do_write srv fh (o :: row) ret st
  = Some (ret + total datas,
          Env (errno st) (mem st) (st_put srv fh (io_offset o + XPN_HEADER_SIZE) (concat datas) (world st))).
Proof.
  revert o datas ret st. induction row as [|o' row IH]; intros o datas ret st Hc Hd Ho Hr Hb Hb2.
  all: apply Forall2_cons_inv_l in Hd as (dt & datas' & (Hm & Hs & Hof) & Hd & ->).
  all: unfold total in *; cbn [concat] in *; rewrite length_app in Hb, Hb2.
  all: rewrite (do_write_cons srv fh o _ ret dt) by (done || lia).
  - apply Forall2_nil_inv_l in Hd as ->. cbn. rewrite app_nil_r. done.
  - assert (io_offset o' = io_offset o + Z.of_nat (length dt)) as Eo by (rewrite <- Hs; by apply (Hc 0%nat)).
    rewrite (IH o' datas'); [|intros i a b Ha Hb'; by apply (Hc (S i))|exact Hd|by apply st_put_open|lia|unfold total; lia|unfold total; lia].
    cbn [errno mem world]. rewrite length_app. f_equal. f_equal; [unfold total; lia|]. f_equal.
    replace (io_offset o' + XPN_HEADER_SIZE) with (io_offset o + XPN_HEADER_SIZE + Z.of_nat (length dt)) by lia.
    apply st_put_app; [done|lia].
Qed.

Lemma row_size_total m row datas acc :
  row_data m row datas → 0 <= acc → acc + total datas < 2 ^ 62 →
  fold_left (λ n o, u64 (n + io_size o)) row acc = acc + total datas.
Proof.
  intros Hd. revert acc. induction Hd as [|o dt row datas (_ & Hs & _) Hd IH]; intros acc Ha Hb.
  - cbn. unfold total. cbn. lia.
  - unfold total in *. cbn [fold_left concat] in *. rewrite length_app in *.
    rewrite Hs, u64_id by lia. rewrite IH by lia. lia.
Qed.

(** One operation with the gathered data instead of the row. *)
Lemma merged_write srv fh o row datas g (st st' : env W) :
  contiguous (o :: row) → row_data (mem st) (o :: row) datas → st_open srv fh (world st) →
  io_offset o + total datas < 2 ^ 62 →
  world st' = world st → errno st' = errno st → mem_read (mem st') g (total datas) = Some (concat datas) →
  ∃ m1 m2 w, do_write srv fh (o :: row) 0 st = Some (total datas, Env (errno st) m1 w) ∧
    do_write srv fh [Io (io_offset o) (row_size (o :: row)) g] 0 st' = Some (total datas, Env (errno st) m2 w).
Proof.
  intros Hc Hd Ho Hb Ew Ee Hg. assert (0 <= io_offset o) as H0.
  { apply Forall2_cons_inv_l in Hd as (dt & datas' & (_ & _ & Hof) & _ & _). exact Hof. }
  eexists _, _, _. split.
  - rewrite (do_write_row srv fh row datas); [rewrite Z.add_0_l; reflexivity|done..|lia|lia|lia].
  - assert (row_size (o :: row) = total datas) as ->.
    { unfold row_size. rewrite (row_size_total (mem st) _ datas) by (done || lia). lia. }
    rewrite (do_write_row srv fh [] [concat datas]).
    + cbn [concat]. unfold total at 1. cbn [concat]. rewrite !app_nil_r. rewrite Ew, Ee. fold (total datas).
      rewrite Z.add_0_l. reflexivity.
    + intros [|i] a b Ha Hb'; done.
    + constructor; [split_and!; [exact Hg|done|exact H0]|constructor].
    + by rewrite Ew.
    + lia.
    + cbn. unfold total. cbn. rewrite app_nil_r. fold (total datas). lia.
    + unfold total. cbn. rewrite app_nil_r. fold (total datas). lia.
Qed.
End store.

(** ** Gathering the data of a plan *)

Definition sumZ (l : list Z) : Z := foldr Z.add 0 l.
Lemma sumZ_app l l' : sumZ (l ++ l') = sumZ l + sumZ l'.
Proof. unfold sumZ. induction l as [|a l IH]; cbn [foldr app]; lia. Qed.
Lemma sumZ_fmap_add {A} (f g : A → Z) l : sumZ ((λ a, f a + g a) <$> l) = sumZ (f <$> l) + sumZ (g <$> l).
Proof. induction l as [|a l IH]; [done|]. rewrite !fmap_cons. unfold sumZ in *. cbn [foldr]. lia. Qed.
Lemma sumZ_indicator s z a k :
  sumZ ((λ i, if decide (s = i) then z else 0) <$> seqZ a (Z.of_nat k)) = if decide (a <= s < a + Z.of_nat k) then z else 0.
Proof.
  induction k as [|k IH]; [rewrite seqZ_nil by lia; cbn; case_decide; lia|].
  rewrite Nat2Z.inj_succ, <- Z.add_1_r, seqZ_app, fmap_app, sumZ_app, IH by lia.
  rewrite (seqZ_cons _ 1), seqZ_nil by lia. cbn. repeat case_decide; lia.
Qed.

Definition sizes (l : list nfi_worker_io) : Z := sumZ (io_size <$> l).

(** The rows hold every operation of the plan once. *)
Lemma rows_sizes n pl :
  0 <= n → Forall (λ e, 0 <= e.1 < n) pl → sizes (concat (rows n pl)) = sizes (snd <$> pl).
Proof.
  intros Hn HF.
  assert (∀ l : list (list nfi_worker_io), sizes (concat l) = sumZ (sizes <$> l)) as Hcat.
  { induction l as [|r l IH]; cbn; [done|]. unfold sizes at 1. rewrite fmap_app, sumZ_app.
    fold (sizes r) (sizes (concat l)). rewrite IH. done. }
  rewrite Hcat. unfold rows. rewrite <- list_fmap_compose.
  induction HF as [|e pl He _ IH]; cbn [fmap list_fmap].
  - transitivity (sumZ ((λ _ : Z, 0) <$> seqZ 0 n)); [done|].
    generalize (seqZ 0 n). intros l. induction l as [|a l IHl]; [done|]. rewrite fmap_cons. exact IHl.
  - transitivity (sumZ ((λ s, (if decide (e.1 = s) then io_size e.2 else 0) + sizes (row_of s pl)) <$> seqZ 0 n)).
    { f_equal. apply list_fmap_ext. intros i s _. unfold compose, row_of. rewrite filter_cons.
      case_decide; done. }
    rewrite sumZ_fmap_add. change (sumZ ((λ s, sizes (row_of s pl)) <$> seqZ 0 n)) with (sumZ ((sizes ∘ λ s, row_of s pl) <$> seqZ 0 n)).
    rewrite IH. replace n with (Z.of_nat (Z.to_nat n)) by lia. rewrite sumZ_indicator, decide_True by lia. done.
Qed.

(** *** Memory *)

Lemma mem_read_inv m p k dt :
  mem_read m p k = Some dt →
  ∃ b, m !! p.1 = Some b ∧ 0 <= p.2 ∧ 0 <= k ∧ p.2 + k <= Z.of_nat (length b) ∧
       dt = take (Z.to_nat k) (drop (Z.to_nat p.2) b) ∧ Z.of_nat (length dt) = k.
Proof.
  unfold mem_read. destruct (m !! p.1) as [b|]; [|done]. cbn [mbind option_bind].
  destruct ((0 <=? p.2) && (0 <=? k) && (p.2 + k <=? Z.of_nat (length b))) eqn:E; [|done].
  intros [= <-]. exists b. split_and!; try lia; try done.
  rewrite length_take, length_drop. lia.
Qed.
Lemma mem_read_intro m p k b :
  m !! p.1 = Some b → 0 <= p.2 → 0 <= k → p.2 + k <= Z.of_nat (length b) →
  mem_read m p k = Some (take (Z.to_nat k) (drop (Z.to_nat p.2) b)).
Proof. intros Hb H1 H2 H3. unfold mem_read. rewrite Hb. cbn [mbind option_bind]. zbool. done. Qed.

Lemma mem_read_sub m p size data a k :
  mem_read m p size = Some data → 0 <= a → 0 <= k → a + k <= size →
  mem_read m (ptr_add p a) k = Some (take (Z.to_nat k) (drop (Z.to_nat a) data)).
Proof.
  intros (b & Hb & H1 & H2 & H3 & -> & _)%mem_read_inv Ha Hk Hs.
  rewrite (mem_read_intro m (ptr_add p a) k b) by (cbn; done || lia). f_equal. cbn [ptr_add snd].
  rewrite skipn_firstn_comm, drop_drop, take_take. f_equal; [lia|]. f_equal. lia.
Qed.

Definition with_mem {W} (m : memory) (c : client W) : client W := with_env (set_mem m (cl_env c)) c.

Section gather.
Context {W : Type} `{NO : !NfiOps W} `{SY : !Sys}.
Implicit Types c : client W.

Lemma memcpy_run c dst src k dt b :
  mem_read (mem (cl_env c)) src k = Some dt → mem (cl_env c) !! dst.1 = Some b →
  0 <= dst.2 → dst.2 + k <= Z.of_nat (length b) →
  memcpy dst src k c = Some (tt, with_mem (<[dst.1 := take (Z.to_nat dst.2) b ++ dt ++ drop (Z.to_nat (dst.2 + k)) b]> (mem (cl_env c))) c).
Proof.
  intros Hr Hb H0 Hle. pose proof (mem_read_inv _ _ _ _ Hr) as (_ & _ & _ & Hk & _ & _ & Hl).
  unfold memcpy. mstep. mrun (unfold lift; rewrite Hr; reflexivity).
  mrun (unfold lift, mem_write; rewrite Hb; cbn [mbind option_bind]; zbool; reflexivity).
  unfold zoom, modify, with_mem. do 4 f_equal. f_equal. f_equal. f_equal. f_equal. lia.
Qed.

(** What an operation reads, from a buffer that is not the grouped one. *)
Definition reads (m : memory) (gb : nat) (o : nfi_worker_io) (dt : list ascii) : Prop :=
  (io_buffer o).1 ≠ gb ∧ mem_read m (io_buffer o) (io_size o) = Some dt.

Lemma gather_run gb ops datas count gbuf c :
  mem (cl_env c) !! gb = Some gbuf → Forall2 (reads (mem (cl_env c)) gb) ops datas →
  0 <= count → count + total datas <= Z.of_nat (length gbuf) → Z.of_nat (length gbuf) < 2 ^ 62 →
  foldM ops (λ count o, memcpy (ptr_add (gb, 0) count) (io_buffer o) (io_size o);; mret (u64 (count + io_size o))) count c
  = Some (count + total datas,
      with_mem (<[gb := take (Z.to_nat count) gbuf ++ concat datas ++ drop (Z.to_nat (count + total datas)) gbuf]> (mem (cl_env c))) c).
Proof.
  intros Hg HF. revert count gbuf c Hg HF.
  induction ops as [|o ops IH] in datas |- *; intros count gbuf c Hg HF Hc Hle Hb.
  - apply Forall2_nil_inv_l in HF as ->. cbn [foldM concat app]. unfold total. cbn [concat length]. rewrite Z.add_0_r, take_drop.
    rewrite (insert_id (mem (cl_env c)) gb gbuf Hg). unfold with_mem. destruct c as [[] ? ? ? ? ? ?]. done.
  - apply Forall2_cons_inv_l in HF as (dt & datas' & [Hne Hr] & HF & ->).
    pose proof (mem_read_inv _ _ _ _ Hr) as (_ & _ & _ & Hk & _ & _ & Hl).
    unfold total in *. cbn [concat] in *. rewrite length_app in *. cbn [foldM].
    erewrite bind_step.
    2: { mrun (apply (memcpy_run c (ptr_add (gb, 0) count) (io_buffer o) (io_size o) dt gbuf); cbn; done || lia).
         unfold mret, M_ret. rewrite u64_id by lia. reflexivity. }
    cbn [ptr_add fst snd]. rewrite Z.add_0_l.
    set (gbuf1 := take (Z.to_nat count) gbuf ++ dt ++ drop (Z.to_nat (count + io_size o)) gbuf).
    assert (length gbuf1 = length gbuf) as Hlg by (unfold gbuf1; rewrite !length_app, length_take, length_drop; lia).
    set (c1 := with_mem _ c).
    rewrite (IH datas' (count + io_size o) gbuf1 c1); [| |..].
    + replace (count + io_size o + Z.of_nat (length (concat datas'))) with (count + Z.of_nat (length dt + length (concat datas'))) by lia.
      do 2 f_equal. unfold c1, with_mem. cbn [cl_env with_env set_mem mem].
      rewrite insert_insert_eq. unfold with_env, set_mem. cbn. do 3 f_equal.
      pose proof (update_app gbuf (Z.to_nat count) dt (concat datas') ltac:(lia)) as EU. cbv zeta in EU.
      unfold gbuf1.
      replace (Z.to_nat (count + io_size o)) with (Z.to_nat count + length dt)%nat by lia.
      replace (Z.to_nat (count + Z.of_nat (length dt + length (concat datas'))))
        with (Z.to_nat count + length dt + length (concat datas'))%nat by lia.
      rewrite EU, Nat.add_assoc. done.
    + unfold c1, with_mem. cbn. apply lookup_insert_eq.
    + unfold c1, with_mem. cbn [cl_env with_env set_mem mem]. eapply Forall2_impl; [exact HF|].
      intros o' dt' [Hne' Hr']. split; [done|]. unfold mem_read. rewrite lookup_insert_ne by done. exact Hr'.
    + lia.
    + rewrite Hlg. lia.
    + rewrite Hlg. lia.
Qed.
End gather.

(** ** Grouping *)

Definition op_ok (o : nfi_worker_io) : Prop := 0 <= io_size o ∧ 0 <= io_offset o.

Lemma sizes_cons o l : sizes (o :: l) = io_size o + sizes l.
Proof. done. Qed.
Lemma sizes_app l l' : sizes (l ++ l') = sizes l + sizes l'.
Proof. unfold sizes. by rewrite fmap_app, sumZ_app. Qed.
Lemma sizes_nonneg l : Forall op_ok l → 0 <= sizes l.
Proof. induction 1 as [|o l [H _] _ IH]; [done|]. rewrite sizes_cons. lia. Qed.

Lemma sizes_row R k row : Forall op_ok (concat R) → R !! k = Some row → 0 <= sizes row <= sizes (concat R).
Proof.
  intros HF Hk. rewrite <- (take_drop_middle _ _ _ Hk), concat_app in HF |- *. cbn [concat] in *.
  apply Forall_app in HF as [H1 H]. apply Forall_app in H as [H2 H3]. rewrite !sizes_app.
  pose proof (sizes_nonneg _ H1). pose proof (sizes_nonneg _ H2). pose proof (sizes_nonneg _ H3). lia.
Qed.

Lemma row_size_exact row acc :
  Forall op_ok row → 0 <= acc → acc + sizes row < 2 ^ 62 →
  fold_left (λ n o, u64 (n + io_size o)) row acc = acc + sizes row.
Proof.
  intros HF. revert acc. induction HF as [|o row [Ho _] HF IH]; intros acc Ha Hb; cbn [fold_left].
  - unfold sizes. cbn. lia.
  - rewrite sizes_cons in *. pose proof (sizes_nonneg row HF). rewrite u64_id by lia. rewrite IH by lia. lia.
Qed.

Lemma merge_rows_lookup g R s row count :
  Forall op_ok (concat R) → 0 <= count → count + sizes (concat R) < 2 ^ 62 → R !! s = Some row →
  merge_rows g count R !! s
  = Some (match row with [] => [] | o :: _ => [Io (io_offset o) (sizes row) (ptr_add g (count + sizes (concat (take s R))))] end).
Proof.
  revert s count. induction R as [|r R IH]; intros s count HF Hc Hb Hs; [done|].
  cbn [concat] in HF, Hb. apply Forall_app in HF as [HFr HF]. rewrite sizes_app in Hb.
  pose proof (sizes_nonneg r HFr). pose proof (sizes_nonneg _ HF).
  destruct r as [|o r]; cbn [merge_rows].
  - destruct s as [|s]; [by injection Hs as <-|]. etransitivity; [exact (IH s count HF Hc ltac:(lia) Hs)|done]. 
  - assert (row_size (o :: r) = sizes (o :: r)) as -> by (unfold row_size; rewrite (row_size_exact _ 0); [lia|done|lia|lia]).
    destruct s as [|s].
    + injection Hs as <-. transitivity (Some [Io (io_offset o) (sizes (o :: r)) (ptr_add g count)]); [done|].
      cbn [take concat]. change (sizes []) with 0. by rewrite Z.add_0_r.
    + rewrite u64_id by lia. transitivity (merge_rows g (count + sizes (o :: r)) R !! s); [done|].
      rewrite (IH s (count + sizes (o :: r)) HF) by (lia || exact Hs).
      cbn [take concat]. rewrite sizes_app. destruct row; [done|]. do 4 f_equal. lia.
Qed.

Lemma pieces_ok bs size offset fuel count :
  0 < bs → 0 <= offset → 0 <= count →
  Forall (λ e, 0 <= e.1 ∧ 0 < e.2 ∧ e.1 + e.2 <= size) (pieces bs size offset fuel count).
Proof.
  intros Hb Ho. revert count. induction fuel as [|fuel IH]; intros count Hc; cbn [pieces]; [constructor|].
  destruct (Z.ltb_spec count size); [|constructor]. zdm (offset + count) bs.
  constructor; [cbn; lia|]. apply IH. lia.
Qed.
Lemma pieces_sum bs size offset fuel count :
  0 < bs → 0 <= offset → 0 <= count <= size → size - count <= Z.of_nat fuel →
  sumZ (snd <$> pieces bs size offset fuel count) = size - count.
Proof.
  intros Hb Ho. revert count. induction fuel as [|fuel IH]; intros count Hc Hf; cbn [pieces].
  - cbn. lia.
  - destruct (Z.ltb_spec count size); [|cbn; lia]. zdm (offset + count) bs.
    rewrite fmap_cons. unfold sumZ. cbn [foldr snd]. fold (sumZ (snd <$> pieces bs size offset fuel (count + Z.min (size - count) (bs - (offset + count) mod bs)))).
    rewrite IH by lia. lia.
Qed.

(** A descriptor whose partition has the layout its metadata records. *)
Record fd_layout (d : xpn_filedesc) (part : xpn_partition) : Prop := {
  fl_exp : expanded (fd_mdata d) 1;
  fl_bs : fd_block_size d = block_size (fd_mdata d);
  fl_rl : part_replication_level part = replication_level (fd_mdata d);
  fl_n : Z.of_nat (length (data_serv part)) = nv (fd_mdata d) 0 }.

Section grouping.
Context {W : Type} `{NO : !NfiOps W} {NS : NfiStore W} `{SY : !Sys}.
Context (c : client W) (fd : Z) (d : xpn_filedesc) (part : xpn_partition) (HL : fd_layout d part).
Context (Hfd : get_fd fd c = Some (d, c)) (Hpart : xpn_parttable c !! fd_part d = Some part).
Let L := mlay (fd_mdata d) 0.
Context (Hrn : ly_rl L < ly_n L).
Context (size offset : Z) (buffer : ptr) (data : list ascii).
Context (Hsz : 0 <= size) (Hoff : 0 <= offset) (Hbd : (offset + 2 * size + ly_bs L) * (ly_rl L + 1) < 2 ^ 61).
Context (gb : nat) (gbuf : list ascii) (Hgb : mem (cl_env c) !! gb = Some gbuf) (Hne : buffer.1 ≠ gb).
Context (Hlen : size * (ly_rl L + 1) <= Z.of_nat (length gbuf) < 2 ^ 62).
Context (Hdata : mem_read (mem (cl_env c)) buffer size = Some data).

Definition lplace (x j : Z) : Z * Z := (ly_off L x j, ly_serv L x j).
Definition lplan : list (Z * nfi_worker_io) := write_plan d part size offset buffer lplace.

Lemma L_ok : ly_ok L.
Proof. apply (mlay_ok (fd_mdata d) 1 (fl_exp d part HL)). lia. Qed.

Lemma lplace_exact x j :
  offset <= x < offset + size → 0 <= j <= part_replication_level part →
  XpnCalculateBlockMdata (fd_mdata d) x j 0 0 = Some (lplace x j) ∧ 0 <= (lplace x j).2 < Z.of_nat (length (data_serv part)).
Proof.
  intros Hx Hj. pose proof L_ok as HLo. destruct HLo as [Hb Hr Hn Hf]. pose proof (ex_bs _ _ (fl_exp d part HL)) as Hbs. rewrite (fl_rl d part HL) in Hj.
  assert (x * (replication_level (fd_mdata d) + 1) < 2 ^ 62) by (cbn in Hbd, Hr; nia).
  rewrite (mdata_exact (fd_mdata d) 1 (fl_exp d part HL) x j) by lia. split.
  - unfold mloc, lplace. cbn [seg_of seg_start seg_base join]. fold L.
    rewrite Z.sub_0_r. f_equal. f_equal. lia.
  - rewrite (fl_n d part HL). apply (ly_serv_range L L_ok).
Qed.

Lemma lplan_ok :
  Forall (λ e, (0 <= e.1 < ly_n L) ∧ op_ok e.2 ∧ io_offset e.2 <= (offset + size) * (ly_rl L + 1) + (ly_rl L + 1) * ly_bs L ∧
    ∃ count, io_buffer e.2 = ptr_add buffer count ∧ 0 <= count ∧ count + io_size e.2 <= size) lplan.
Proof.
  pose proof L_ok as HLo. destruct HLo as [Hb Hr Hn Hf]. pose proof (ex_bs _ _ (fl_exp d part HL)) as Hbs.
  unfold lplan, write_plan, request_pieces, request_pieces_raw. rewrite (fl_bs d part HL).
  pose proof (pieces_ok (block_size (fd_mdata d)) size offset (Z.to_nat size) 0 ltac:(lia) Hoff ltac:(lia)) as HP.
  induction HP as [|e l (H1 & H2 & H3) HP IH]; [constructor|]. cbn [fmap list_fmap concat].
  apply Forall_app. split; [|exact IH]. unfold piece_ops. apply Forall_fmap, Forall_forall. intros j Hj%elem_of_seqZ.
  rewrite (fl_rl d part HL) in Hj. cbn.
  pose proof (ly_off_bound (fd_mdata d) 1 (fl_exp d part HL) 0 (offset + e.1) j ltac:(lia) ltac:(lia) ltac:(lia)) as [Ho1 Ho2].
  split; [apply (ly_serv_range L L_ok)|split; [split; cbn; [lia|exact Ho1]|split]].
  - fold L in Ho2. change (replication_level (fd_mdata d)) with (ly_rl L) in Ho2.
    change (block_size (fd_mdata d)) with (ly_bs L) in Ho2.
    assert ((offset + e.1) * (ly_rl L + 1) <= (offset + size) * (ly_rl L + 1)) by (apply Z.mul_le_mono_nonneg_r; lia).
    change (ly_off L (offset + e.1) j <= (offset + size) * (ly_rl L + 1) + (ly_rl L + 1) * ly_bs L). lia.
  - exists e.1. split_and!; [done|lia|lia].
Qed.

Lemma lplan_sizes : sizes (snd <$> lplan) = (ly_rl L + 1) * size.
Proof.
  pose proof L_ok as HLo. destruct HLo as [Hb Hr Hn Hf]. pose proof (ex_bs _ _ (fl_exp d part HL)) as Hbs.
  unfold lplan, write_plan, request_pieces, request_pieces_raw. rewrite (fl_bs d part HL).
  pose proof (pieces_sum (block_size (fd_mdata d)) size offset (Z.to_nat size) 0 ltac:(lia) Hoff ltac:(lia) ltac:(lia)) as HS.
  rewrite Z.sub_0_r in HS.
  enough (∀ l, sizes (snd <$> concat (piece_ops part offset buffer lplace <$> l)) = (ly_rl L + 1) * sumZ (snd <$> l)) as HG
    by (rewrite HG, HS; done).
  clear HS. intros l.
  induction l as [|e l IH]; [change (0 = (ly_rl L + 1) * 0); lia|]. rewrite !fmap_cons. cbn [concat]. rewrite fmap_app, sizes_app.
  assert (sizes (snd <$> piece_ops part offset buffer lplace e) = (ly_rl L + 1) * e.2) as ->.
  { unfold piece_ops. rewrite (fl_rl d part HL). change (replication_level (fd_mdata d)) with (ly_rl L).
    rewrite <- list_fmap_compose. replace (ly_rl L + 1) with (Z.of_nat (Z.to_nat (ly_rl L + 1))) by lia.
    generalize (Z.to_nat (ly_rl L + 1)). intros k. induction k as [|k IHk]; [done|].
    rewrite Nat2Z.inj_succ, <- Z.add_1_r, seqZ_app, fmap_app, sizes_app, IHk by lia.
    rewrite (seqZ_cons _ 1), seqZ_nil by lia. cbn. lia. }
  rewrite IH. change (sumZ (e.2 :: (snd <$> l))) with (e.2 + sumZ (snd <$> l)). lia.
Qed.

Definition data_of (o : nfi_worker_io) : list ascii :=
  take (Z.to_nat (io_size o)) (drop (Z.to_nat ((io_buffer o).2 - buffer.2)) data).
(** What holds of every operation of the plan. *)
Definition good_op (o : nfi_worker_io) : Prop :=
  op_ok o ∧ io_offset o < 2 ^ 61 ∧ mem_read (mem (cl_env c)) (io_buffer o) (io_size o) = Some (data_of o) ∧
  io_size o = Z.of_nat (length (data_of o)) ∧ (io_buffer o).1 ≠ gb.

Lemma lplan_good : Forall (λ e, 0 <= e.1 < ly_n L ∧ good_op e.2) lplan.
Proof.
  pose proof L_ok as HLo. destruct HLo as [Hb Hr Hn Hf].
  eapply Forall_impl; [apply lplan_ok|]. intros e (H1 & Ho & H2 & count & Eb & H3 & H4). split; [done|].
  assert (mem_read (mem (cl_env c)) (io_buffer e.2) (io_size e.2) = Some (data_of e.2)) as Er.
  { unfold data_of. rewrite Eb. cbn [ptr_add snd]. replace (buffer.2 + count - buffer.2) with count by lia.
    destruct Ho. by apply (mem_read_sub _ _ size). }
  split_and!; [done|nia|done| |by rewrite Eb].
  destruct (mem_read_inv _ _ _ _ Er) as (_ & _ & _ & _ & _ & _ & El). lia.
Qed.

Lemma row_good s : Forall good_op (row_of s lplan).
Proof.
  unfold row_of. apply Forall_fmap, Forall_forall. intros e [_ He]%list_elem_of_filter.
  pose proof lplan_good as HF. rewrite Forall_forall in HF. apply (HF e He).
Qed.
Lemma rows_good : Forall good_op (concat (rows (ly_n L) lplan)).
Proof.
  apply Forall_concat. unfold rows. apply Forall_fmap, Forall_forall. intros s _. apply row_good.
Qed.
Lemma good_ok l : Forall good_op l → Forall op_ok l.
Proof. intros HF. eapply Forall_impl; [exact HF|]. by intros o [H _]. Qed.
Lemma good_total l : Forall good_op l → total (data_of <$> l) = sizes l.
Proof.
  induction 1 as [|o l (_ & _ & _ & Hs & _) _ IH]; [done|]. unfold total in *.
  rewrite fmap_cons, sizes_cons. cbn [concat]. rewrite length_app. lia.
Qed.
Lemma good_row_data l : Forall good_op l → row_data (mem (cl_env c)) l (data_of <$> l).
Proof.
  intros HF. apply Forall2_fmap_r, Forall_Forall2_diag; eapply Forall_impl; [exact HF|].
  intros o ([_ H] & _ & Hm & Hs & _). split_and!; done.
Qed.
Lemma good_reads l : Forall good_op l → Forall2 (reads (mem (cl_env c)) gb) l (data_of <$> l).
Proof.
  intros HF. apply Forall2_fmap_r, Forall_Forall2_diag; eapply Forall_impl; [exact HF|]. intros o (_ & _ & Hm & _ & Hg). by split.
Qed.

Lemma lrows_sizes : sizes (concat (rows (ly_n L) lplan)) = (ly_rl L + 1) * size.
Proof.
  pose proof L_ok as HLo. destruct HLo as [Hb Hr Hn Hf].
  rewrite rows_sizes; [apply lplan_sizes|lia|]. eapply Forall_impl; [apply lplan_good|]. by intros e [H _].
Qed.

Definition grouped : list ascii :=
  concat (data_of <$> concat (rows (ly_n L) lplan)) ++ drop (Z.to_nat ((ly_rl L + 1) * size)) gbuf.

(** The grouped operations, and the client after the gathering. *)
Lemma grouped_run max :
  (ly_rl L + 1) * Z.of_nat (length (request_pieces_raw (ly_bs L) size offset)) <= max →
  XpnWriteBlocksBlockByBlock fd buffer size offset max (ly_n L) c = Some (rows (ly_n L) lplan, c) ∧
  XpnWriteBlocksAllInOne fd buffer size offset max (ly_n L) (gb, 0) c
  = Some (merge_rows (gb, 0) 0 (rows (ly_n L) lplan), with_mem (<[gb := grouped]> (mem (cl_env c))) c).
Proof.
  intros Hm. pose proof L_ok as HLo. destruct HLo as [Hb Hr Hn Hf].
  assert (XpnWriteBlocksBlockByBlock fd buffer size offset max (ly_n L) c = Some (rows (ly_n L) lplan, c)) as HB.
  { pose proof (fl_n d part HL) as En. change (nv (fd_mdata d) 0) with (ly_n L) in En.
    pose proof (fl_bs d part HL) as Ebs. change (block_size (fd_mdata d)) with (ly_bs L) in Ebs.
    pose proof (fl_rl d part HL) as Erl. change (replication_level (fd_mdata d)) with (ly_rl L) in Erl.
    rewrite <- En. unshelve refine (write_blocks_run c fd d part Hfd Hpart size offset buffer _ _ Hsz Hoff _ lplace _ max _).
    - rewrite Ebs. exact Hb.
    - rewrite Erl. lia.
    - nia.
    - intros x j Hx Hj. by apply lplace_exact.
    - unfold request_pieces. rewrite Erl, Ebs. exact Hm. }
  split; [exact HB|]. unfold XpnWriteBlocksAllInOne. mrun (exact HB).
  pose proof (good_total _ rows_good) as Et. rewrite lrows_sizes in Et.
  mrun (unfold copy_rows; apply (gather_run gb _ _ 0 gbuf c Hgb (good_reads _ rows_good)); rewrite ?Et; lia).
  rewrite Et. unfold grouped. cbn [Z.to_nat take app]. done.
Qed.

Lemma grouped_slice s :
  0 <= s < ly_n L →
  let R := rows (ly_n L) lplan in
  mem_read (<[gb := grouped]> (mem (cl_env c))) (ptr_add (gb, 0) (sizes (concat (take (Z.to_nat s) R)))) (sizes (row_of s lplan))
  = Some (concat (data_of <$> row_of s lplan)).
Proof.
  intros Hs R. pose proof lrows_sizes as HS. fold R in HS.
  assert (R !! Z.to_nat s = Some (row_of s lplan)) as Hrow.
  { unfold R, rows. rewrite list_lookup_fmap, lookup_seqZ_lt by lia. cbn. do 2 f_equal. lia. }
  set (a := concat (take (Z.to_nat s) R)). set (b := concat (drop (S (Z.to_nat s)) R)).
  assert (concat R = a ++ row_of s lplan ++ b) as ER.
  { rewrite <- (take_drop_middle _ _ _ Hrow) at 1. rewrite concat_app. done. }
  pose proof rows_good as HG. fold R in HG. rewrite ER in HG, HS.
  apply Forall_app in HG as [Ga HG]. apply Forall_app in HG as [Gr Gb].
  rewrite !sizes_app in HS. pose proof (sizes_nonneg a (good_ok _ Ga)). pose proof (sizes_nonneg b (good_ok _ Gb)).
  pose proof (sizes_nonneg _ (good_ok _ Gr)).
  pose proof (good_total _ Ga) as Ta. pose proof (good_total _ Gr) as Tr. pose proof (good_total _ Gb) as Tb. unfold total in Ta, Tr, Tb.
  assert (grouped = concat (data_of <$> a) ++ concat (data_of <$> row_of s lplan) ++
    (concat (data_of <$> b) ++ drop (Z.to_nat ((ly_rl L + 1) * size)) gbuf)) as EG.
  { unfold grouped. fold R. rewrite ER, !fmap_app, !concat_app, <- !app_assoc. done. }
  rewrite (mem_read_intro _ _ _ grouped); [|apply lookup_insert_eq|cbn; lia|lia|rewrite EG, !length_app; cbn [ptr_add snd]; lia].
  f_equal. cbn [ptr_add snd]. rewrite EG, drop_app_length' by lia. apply take_app_length'. lia.
Qed.

Lemma lplan_contiguous s : 0 <= s < ly_n L → contiguous (row_of s lplan).
Proof.
  intros Hs. pose proof (fl_bs d part HL) as Ebs. unfold lplan, write_plan, request_pieces. rewrite Ebs.
  exact (rows_contiguous L L_ok Hrn part (fl_rl d part HL) size offset buffer Hoff s Hs).
Qed.

(** What each server gets: nothing, or one operation with the effect of its row. *)
Lemma grouped_row s :
  0 <= s < ly_n L →
  let R := rows (ly_n L) lplan in
  ∃ row', merge_rows (gb, 0) 0 R !! Z.to_nat s = Some row' ∧ (length row' <= 1)%nat ∧
  ∀ srv fh e w, st_open srv fh w → ∃ r m1 m2 w',
    do_write srv fh (row_of s lplan) 0 (Env e (mem (cl_env c)) w) = Some (r, Env e m1 w') ∧
    do_write srv fh row' 0 (Env e (<[gb := grouped]> (mem (cl_env c))) w) = Some (r, Env e m2 w').
Proof.
  intros Hs R. pose proof L_ok as HLo. destruct HLo as [Hb Hr Hn Hf].
  assert (R !! Z.to_nat s = Some (row_of s lplan)) as Hrow.
  { unfold R, rows. rewrite list_lookup_fmap, lookup_seqZ_lt by lia. cbn. do 2 f_equal. lia. }
  pose proof lrows_sizes as HS. fold R in HS.
  eexists. split_and!.
  - apply (merge_rows_lookup (gb, 0) R (Z.to_nat s) (row_of s lplan) 0 (good_ok _ rows_good)); [lia|fold R; nia|exact Hrow].
  - destruct (row_of s lplan); cbn; lia.
  - intros srv fh e w Hopen. pose proof (grouped_slice s Hs) as Hg. cbv zeta in Hg. fold R in Hg.
    pose proof (row_good s) as HG. pose proof (lplan_contiguous s Hs) as Hc.
    destruct (row_of s lplan) as [|o row] eqn:Er; [by eexists _, _, _, _|].
    pose proof (good_total _ HG) as Et. rewrite <- Et in Hg.
    assert (io_offset o < 2 ^ 61) as Hoo by (by apply Forall_cons in HG as [(_ & H & _) _]).
    assert (total (data_of <$> o :: row) <= (ly_rl L + 1) * size) as Htot.
    { rewrite Et, <- HS. by apply (sizes_row R (Z.to_nat s) (o :: row) (good_ok _ rows_good)). }
    destruct (merged_write srv fh o row (data_of <$> o :: row) (ptr_add (gb, 0) (0 + sizes (concat (take (Z.to_nat s) R))))
      (Env e (mem (cl_env c)) w) (Env e (<[gb := grouped]> (mem (cl_env c))) w)) as (m1 & m2 & w' & H1 & H2);
      [exact Hc|by apply good_row_data|exact Hopen|nia|done|done|exact Hg|].
    exists (total (data_of <$> o :: row)), m1, m2, w'. split; [exact H1|].
    assert (row_size (o :: row) = sizes (o :: row)) as Esz
      by (unfold row_size; rewrite (row_size_exact _ 0 (good_ok _ HG)); lia).
    rewrite Esz in H2. exact H2.
Qed.
End grouping.


(** A client with an open file of blocks of four bytes, one replica, and six bytes to write. *)
Definition file_a : xpn_metadata := default mdata_zero (XpnCreateMetadataExtern (str "/a") 4 4 1).
Definition desc_a : xpn_filedesc := FileDesc 0 (str "/a") 0 1 O_RDWR 0 0 file_a 2 4 (replicate 4 None).
Definition client_a : client memfs :=
  Client (Env 0 (<[2%nat := replicate 12 NUL]> {[1%nat := str "abcdef"]}) ∅)
    (xpn_parttable (mclient 1)) (<[0%nat := Some 0%nat]> (replicate 1024 None)) {[0%nat := desc_a]} 1 xpn_init_cwd 0.

Lemma desc_a_layout : fd_layout desc_a (mpart 1).
Proof.
  split; [|reflexivity..]. apply (create_expanded (str "/a") 4 4 1); [|zcalc|lia|lia|lia|reflexivity].
  unfold ascii_path. cbn. repeat (apply List.Forall_cons; [zcalc|]). apply List.Forall_nil.
Qed.

