(* ===== verification/Coverage.v ===== *)
(** * Coverage: the operations of a request are the bytes of the request

    For a file expanded any number of times, the matrix that
    [XpnWriteBlocksBlockByBlock] fills fits the rows its caller allocates, and
    its operations are, byte by byte, the places of the replicas of the request. *)

From S2P Require Import Prelude Cstr Paths Layout Mdata Nfi Client MemFs FileTable Blocks BlocksSpec.

(** ** Places within a block *)

Section places.
Context (m : xpn_metadata) (c : nat) (Hm : expanded m c).

(** Within a block a place moves with the offset. *)
Lemma mloc_shift x i j :
  0 <= x mod block_size m + i < block_size m →
  mloc m c (x + i) j = ((mloc m c x j).1 + i, (mloc m c x j).2).
Proof using Hm.
  intros Hi. pose proof (ex_bs m c Hm) as Hb. set (bs := block_size m) in *.
  zdm x bs.
  assert ((x + i) / bs = x / bs) as Ed by (apply (div_unique_pos _ bs (x / bs) (x mod bs + i)); lia).
  unfold mloc. fold bs. rewrite Ed. set (k := seg_of m (x / bs) c). set (st := seg_start m k).
  assert ((x - st * bs) / bs = x / bs - st ∧ (x - st * bs) mod bs = x mod bs) as [E1 E2]
    by (apply div_unique_pos; lia).
  assert ((x + i - st * bs) / bs = x / bs - st ∧ (x + i - st * bs) mod bs = x mod bs + i) as [E3 E4]
    by (apply div_unique_pos; lia).
  unfold ly_serv, ly_off, ly_slot. cbn [mlay ly_bs ly_rl ly_n ly_fn fst snd]. fold bs.
  rewrite E1, E2, E3, E4. f_equal. lia.
Qed.

Lemma mloc_serv_range x j : 0 <= x → 0 <= (mloc m c x j).2 < nv m (pred c).
Proof using Hm.
  intros Hx. pose proof (ex_c m c Hm). unfold mloc. cbn [snd].
  destruct (seg_of_spec m c Hm (x / block_size m) c ltac:(lia)) as [Hk _].
  set (k := seg_of m (x / block_size m) c) in *.
  pose proof (ly_serv_range (mlay m k) (mlay_ok m c Hm k ltac:(lia)) (x - seg_start m k * block_size m) j) as Hr.
  pose proof (nv_mono m c Hm k (pred c) ltac:(lia)). cbn [mlay ly_n] in Hr. lia.
Qed.
End places.

(** ** Pieces *)

Lemma pieces_in bs size offset fuel count e :
  0 < bs → 0 <= offset → 0 <= count → e ∈ pieces bs size offset fuel count →
  0 <= e.1 ∧ 0 < e.2 ∧ e.1 + e.2 <= size ∧ (offset + e.1) mod bs + e.2 <= bs.
Proof.
  intros Hb Ho. revert count. induction fuel as [|fuel IH]; intros count Hc; cbn [pieces]; [by intros ?%elem_of_nil|].
  destruct (Z.ltb_spec count size); [|by intros ?%elem_of_nil].
  zdm (offset + count) bs. intros [->|He]%elem_of_cons; [cbn [fst snd]; lia|].
  revert He. apply IH. lia.
Qed.

(** Every byte is in a piece. *)
Lemma pieces_cover bs size offset fuel count t :
  0 < bs → 0 <= offset → 0 <= count <= t → t < size → size - count <= Z.of_nat fuel →
  ∃ e, e ∈ pieces bs size offset fuel count ∧ e.1 <= t < e.1 + e.2.
Proof.
  intros Hb Ho. revert count. induction fuel as [|fuel IH]; intros count Hc Ht Hf; [lia|]. cbn [pieces].
  rewrite (proj2 (Z.ltb_lt count size)) by lia. set (len := Z.min _ _).
  zdm (offset + count) bs.
  destruct (decide (t < count + len)) as [Hin|Hout].
  - exists (count, len). split; [left|cbn; lia].
  - destruct (IH (count + len)) as (e & He & Hr); [lia..|]. exists e. split; [by right|done].
Qed.

(** ** The plan *)

(** A descriptor of a file with [c] configurations, on a partition that serves
    at least the servers of the last one. *)
Record fd_spread (c : nat) (d : xpn_filedesc) (part : xpn_partition) : Prop := {
  fs_exp : expanded (fd_mdata d) c;
  fs_bs : fd_block_size d = block_size (fd_mdata d);
  fs_rl : part_replication_level part = replication_level (fd_mdata d);
  fs_n : nv (fd_mdata d) (pred c) <= Z.of_nat (length (data_serv part)) }.

Lemma rows_elem n pl s row :
  rdZ (rows n pl) s = Some row → 0 <= s < n ∧ row = row_of s pl.
Proof.
  intros H. destruct (decide (0 <= s < n)) as [Hs|Hs].
  - rewrite rows_rd in H by done. by injection H as <-.
  - unfold rdZ in H. destruct (Z.leb_spec 0 s); [|done]. apply lookup_lt_Some in H.
    unfold rows in H. rewrite length_fmap, length_seqZ in H. lia.
Qed.
Lemma row_of_elem s pl o : o ∈ row_of s pl ↔ (s, o) ∈ pl.
Proof.
  unfold row_of. rewrite list_elem_of_fmap. split.
  - intros ([s' o'] & -> & [Hs He]%list_elem_of_filter). cbn in *. by subst.
  - intros He. exists (s, o). split; [done|]. by apply list_elem_of_filter.
Qed.
Lemma write_plan_elem d part size offset buffer place s o :
  (s, o) ∈ write_plan d part size offset buffer place ↔
  ∃ e j, e ∈ request_pieces d size offset ∧ 0 <= j <= part_replication_level part ∧
    s = (place (offset + e.1) j).2 ∧ o = op_at (place (offset + e.1) j).1 e.2 buffer e.1.
Proof.
  unfold write_plan. rewrite list_elem_of_In, in_concat. split.
  - intros (l & Hl & Ho). rewrite <- !list_elem_of_In in *. apply list_elem_of_fmap in Hl as (e & -> & He).
    unfold piece_ops in Ho. apply list_elem_of_fmap in Ho as (j & Hj & Hin%elem_of_seqZ). injection Hj as -> ->.
    exists e, j. split_and!; [done|lia..|done|done].
  - intros (e & j & He & Hj & -> & ->). eexists (piece_ops part offset buffer place e).
    rewrite <- !list_elem_of_In. split; [by apply list_elem_of_fmap_2|].
    unfold piece_ops. apply list_elem_of_fmap. exists j. split; [done|]. apply elem_of_seqZ. lia.
Qed.

(** The room [xpn_pwrite] gives a row. *)
Definition write_room (size bs rl : Z) : Z := max_ops size bs ⊠ (rl ⊞ 1).

Lemma max_ops_bound size bs : 0 < bs → 0 <= size < 2 ^ 31 - 2 → 1 <= max_ops size bs <= size + 2.
Proof.
  intros Hb Hs. unfold max_ops. rewrite quot_div, rem_mod by lia. zdm size bs.
  assert (0 <= size / bs <= size) by (split; [apply Z.div_pos; lia|apply Z.div_le_upper_bound; nia]).
  destruct (Z.eqb_spec (size mod bs) 0); rewrite ?(i32_id (size / bs + 1)) by lia; [lia|]. rewrite i32_id; lia.
Qed.

Section spread.
Context {W : Type} `{NO : !NfiOps W} `{SY : !Sys}.
Context (cl : client W) (fd : Z) (d : xpn_filedesc) (part : xpn_partition) (c : nat) (HS : fd_spread c d part).
Context (Hfd : get_fd fd cl = Some (d, cl)) (Hpart : xpn_parttable cl !! fd_part d = Some part).
Let m := fd_mdata d.
Let bs := block_size m.
Let rl := replication_level m.
Let n := Z.of_nat (length (data_serv part)).
Context (size offset : Z) (buffer : ptr).
Context (Hsz : 0 <= size) (Hoff : 0 <= offset) (Hroom : (size + 2) * (rl + 1) < 2 ^ 31)
  (Hsum : (offset + size) * (rl + 1) < 2 ^ 62).

Definition spread_plan : list (Z * nfi_worker_io) := write_plan d part size offset buffer (mloc m c).

Lemma spread_place x j :
  offset <= x < offset + size → 0 <= j <= rl →
  XpnCalculateBlockMdata m x j 0 0 = Some (mloc m c x j) ∧ 0 <= (mloc m c x j).2 < n.
Proof.
  intros Hx Hj. pose proof (fs_exp c d part HS) as HE. pose proof (ex_rl m c HE) as Hr. fold rl in Hr. split.
  - apply (mdata_exact m c HE x j); [lia|fold rl; nia|exact Hj].
  - pose proof (mloc_serv_range m c HE x j ltac:(lia)). pose proof (fs_n c d part HS) as Hn. fold m n in Hn. lia.
Qed.

Lemma spread_run :
  XpnWriteBlocksBlockByBlock fd buffer size offset (write_room size bs rl) n cl = Some (rows n spread_plan, cl).
Proof.
  pose proof (fs_exp c d part HS) as HE. pose proof (ex_rl m c HE) as Hr. fold rl in Hr.
  pose proof (ex_bs m c HE) as Hb. fold bs in Hb.
  pose proof (fs_bs c d part HS) as Ebs. fold m bs in Ebs. pose proof (fs_rl c d part HS) as Erl. fold m rl in Erl.
  unshelve refine (write_blocks_run cl fd d part Hfd Hpart size offset buffer _ _ Hsz Hoff _ (mloc m c) _ _ _).
  - by rewrite Ebs.
  - by rewrite Erl.
  - nia.
  - rewrite Erl. intros x j Hx Hj. apply spread_place; lia.
  - unfold request_pieces. rewrite Erl, Ebs. unfold write_room.
    pose proof (pieces_bound bs size offset Hb ltac:(nia) Hoff).
    pose proof (max_ops_bound size bs ltac:(lia) ltac:(nia)).
    rewrite (i32_id (rl + 1)) by lia. rewrite i32_id by nia. nia.
Qed.

(** The operation that holds byte [t] of the request in replica [j]. *)
Lemma spread_covers t j :
  0 <= t < size → 0 <= j <= rl →
  ∃ o, ((mloc m c (offset + t) j).2, o) ∈ spread_plan ∧
    io_offset o <= (mloc m c (offset + t) j).1 < io_offset o + io_size o ∧
    io_buffer o = ptr_add buffer (t - ((mloc m c (offset + t) j).1 - io_offset o)).
Proof.
  intros Ht Hj. pose proof (fs_exp c d part HS) as HE. pose proof (ex_bs m c HE) as Hb. fold bs in Hb.
  pose proof (fs_bs c d part HS) as Ebs. fold m bs in Ebs. pose proof (fs_rl c d part HS) as Erl. fold m rl in Erl.
  destruct (pieces_cover bs size offset (Z.to_nat size) 0 t) as (e & He & Hin); [lia..|].
  pose proof (pieces_in bs size offset _ 0 e ltac:(lia) Hoff ltac:(lia) He) as (H1 & H2 & H3 & H4).
  pose proof (mloc_shift m c HE (offset + e.1) (t - e.1) j) as EM. fold bs in EM. zdm (offset + e.1) bs.
  replace (offset + e.1 + (t - e.1)) with (offset + t) in EM by lia. rewrite EM by lia. cbn [fst snd].
  exists (op_at (mloc m c (offset + e.1) j).1 e.2 buffer e.1). split_and!.
  - apply write_plan_elem. exists e, j. rewrite Erl. unfold request_pieces. rewrite Ebs. done.
  - cbn. lia.
  - cbn. lia.
  - cbn [op_at io_buffer io_offset]. f_equal. lia.
Qed.

(** Every byte of an operation is a byte of the request. *)
Lemma spread_only s o i :
  (s, o) ∈ spread_plan → 0 <= i < io_size o →
  ∃ t j, 0 <= t < size ∧ 0 <= j <= rl ∧ mloc m c (offset + t) j = (io_offset o + i, s) ∧
    io_buffer o = ptr_add buffer (t - i).
Proof.
  intros (e & j & He & Hj & -> & ->)%write_plan_elem Hi.
  pose proof (fs_exp c d part HS) as HE. pose proof (ex_bs m c HE) as Hb. fold bs in Hb.
  pose proof (fs_bs c d part HS) as Ebs. fold m bs in Ebs. pose proof (fs_rl c d part HS) as Erl. fold m rl in Erl.
  rewrite Erl in Hj. unfold request_pieces in He. rewrite Ebs in He. cbn [op_at io_size io_offset io_buffer] in *.
  pose proof (pieces_in bs size offset _ 0 e ltac:(lia) Hoff ltac:(lia) He) as (H1 & H2 & H3 & H4).
  exists (e.1 + i), j. split_and!; [lia..| |f_equal; lia].
  rewrite Z.add_assoc. apply (mloc_shift m c HE). fold bs. zdm (offset + e.1) bs. lia.
Qed.
End spread.

(** C18: the matrix of a write is complete and exact.  For a file expanded any
    number of times, [XpnWriteBlocksBlockByBlock] stays inside the rows that
    [xpn_pwrite] allocates; every byte of the request is in an operation for
    each of its replicas, at the server and offset [XpnCalculateBlockMdata]
    gives, from its position in the buffer; and every byte of every operation
    is one of those. *)
Theorem write_blocks_exact {W : Type} `{NO : !NfiOps W} `{SY : !Sys}
    (cl : client W) fd d part c size offset buffer :
  let m := fd_mdata d in
  let rl := replication_level m in
  let n := Z.of_nat (length (data_serv part)) in
  fd_spread c d part → get_fd fd cl = Some (d, cl) → xpn_parttable cl !! fd_part d = Some part →
  0 <= size → 0 <= offset → (size + 2) * (rl + 1) < 2 ^ 31 → (offset + size) * (rl + 1) < 2 ^ 62 →
  ∃ R, XpnWriteBlocksBlockByBlock fd buffer size offset (write_room size (block_size m) rl) n cl = Some (R, cl) ∧
    (∀ t j, 0 <= t < size → 0 <= j <= rl → ∃ off s row o,
      XpnCalculateBlockMdata m (offset + t) j 0 0 = Some (off, s) ∧ rdZ R s = Some row ∧ o ∈ row ∧
      io_offset o <= off < io_offset o + io_size o ∧ io_buffer o = ptr_add buffer (t - (off - io_offset o))) ∧
    (∀ s row o i, rdZ R s = Some row → o ∈ row → 0 <= i < io_size o → ∃ t j,
      0 <= t < size ∧ 0 <= j <= rl ∧ XpnCalculateBlockMdata m (offset + t) j 0 0 = Some (io_offset o + i, s) ∧
      io_buffer o = ptr_add buffer (t - i)).
Proof.
  intros m rl n HS Hfd Hpart Hsz Hoff Hroom Hsum.
  exists (rows n (spread_plan d part c size offset buffer)).
  split; [by apply spread_run|]. split.
  - intros t j Ht Hj. destruct (spread_covers d part c HS size offset buffer Hoff t j Ht Hj) as (o & Ho & H1 & H2).
    destruct (spread_place d part c HS size offset Hsz Hoff Hsum (offset + t) j) as [E Hs]; [lia|done|].
    exists (mloc m c (offset + t) j).1, (mloc m c (offset + t) j).2, (row_of (mloc m c (offset + t) j).2 (spread_plan d part c size offset buffer)), o.
    split_and!; [by rewrite <- surjective_pairing|by apply rows_rd|by apply row_of_elem|apply H1|apply H1|done].
  - intros s row o i [Hs ->]%rows_elem Ho%row_of_elem Hi.
    destruct (spread_only d part c HS size offset buffer Hoff s o i Ho Hi) as (t & j & Ht & Hj & E & Eb).
    destruct (spread_place d part c HS size offset Hsz Hoff Hsum (offset + t) j) as [E' _]; [lia|done|].
    exists t, j. split_and!; [apply Ht|apply Ht|apply Hj|apply Hj| |done]. fold m in E', E. by rewrite E', E.
Qed.

(** A partition of eight servers with a file of 64-byte blocks that grew from three. *)
Definition part_x : xpn_partition := XpnPart 0 (str "xpn") 64 1 8 (-1) (mserver <$> seqZ 0 8).
Definition desc_x : xpn_filedesc := FileDesc 0 (str "/x") 0 1 O_RDWR 0 0 sample_mdata 400 64 (replicate 8 None).
Definition client_x : client memfs :=
  Client (Env 0 ∅ ∅) [part_x] (<[0%nat := Some 0%nat]> (replicate 1024 None)) {[0%nat := desc_x]} 1 xpn_init_cwd 0.
Lemma desc_x_spread : fd_spread 3 desc_x part_x.
Proof. split; [exact sample_expanded|done|done|zcalc]. Qed.

Lemma write_blocks_exact_witness :
  write_room 900 64 1 = 32 ∧
  ∃ R o, XpnWriteBlocksBlockByBlock 0 (7%nat, 0) 900 400 (write_room 900 (block_size sample_mdata) (replication_level sample_mdata))
      (Z.of_nat (length (data_serv part_x))) client_x = Some (R, client_x) ∧
    rdZ R 3 = Some o ∧ ∃ op, op ∈ o ∧ io_offset op <= 296 < io_offset op + io_size op.
Proof.
  destruct (write_blocks_exact client_x 0 desc_x part_x 3 900 400 (7%nat, 0)) as (R & HR & Hc & _);
    [exact desc_x_spread|reflexivity|reflexivity|lia|lia|zcalc|zcalc|].
  destruct (Hc 600 1) as (off & s & row & o & E & Hrow & Ho & Hin & _); [lia|zcalc|].
  assert ((off, s) = (296, 3)) as [= -> ->] by (vm_compute in E; congruence).
  split; [reflexivity|]. exists R, row. split; [exact HR|]. split; [exact Hrow|]. exists o. split; [exact Ho|exact Hin].
Defined.
