(* ===== verification/Affected.v ===== *)
(** * Affected: which servers an operation on a file has to visit

    [XpnCheckServAffectedByOp] (xpn_open.c) looks at the first block on each
    line only; this file shows that no server with data, metadata or a
    directory entry of the file is left out, and what follows for the loops of
    open, remove and rename. *)

From S2P Require Import Prelude Cstr Paths Layout Mdata Nfi Client MemFs FileTable Blocks Rw.

Section affected.
Context (m : xpn_metadata) (n : Z) (Hm : expanded m 1) (Hn : nv m 0 = n).
Let bs := block_size m.
Let rl := replication_level m.

(** The servers repeat every [n] blocks. *)
Lemma serv_periodic b j : 0 <= b → ly_serv (mlay m 0) (b * bs) j = ly_serv (mlay m 0) (b mod n * bs) j.
Proof using Hm Hn.
  intros Hb. pose proof (ex_bs m 1 Hm). pose proof (ex_nv m 1 Hm 0 ltac:(lia)). rewrite Hn in *.
  unfold ly_serv, ly_slot. cbn [mlay ly_bs ly_rl ly_n ly_fn]. fold bs. rewrite !Z.div_mul by (unfold bs; lia). rewrite Hn.
  zdm b n. set (q := b / n) in *. set (r := b mod n) in *.
  replace (b * (replication_level m + 1) + j + first_node m)
    with (r * (replication_level m + 1) + j + first_node m + q * (replication_level m + 1) * n) by nia.
  by rewrite Z.mod_add by lia.
Qed.

Lemma mloc_one x j : (mloc m 1 x j).2 = ly_serv (mlay m 0) x j.
Proof. unfold mloc. cbn [seg_of seg_start snd]. f_equal. lia. Qed.

Lemma serv_of_block x j : 0 <= x → ly_serv (mlay m 0) x j = ly_serv (mlay m 0) (x / bs * bs) j.
Proof using Hm.
  intros Hx. pose proof (ex_bs m 1 Hm). unfold ly_serv, ly_slot. cbn [mlay ly_bs ly_rl ly_n ly_fn].
  fold bs. by rewrite Z.div_mul by (unfold bs; lia).
Qed.

Lemma replica_hits_spec x serv j k :
  0 <= x → x * (rl + 1) < 2 ^ 62 → 0 <= j → j + Z.of_nat k <= rl + 1 →
  ∃ b, replica_hits m x serv j k = Some b ∧
    (b = false → ∀ i, j <= i < j + Z.of_nat k → ly_serv (mlay m 0) x i ≠ serv).
Proof using Hm.
  intros Hx Hxr. revert j. induction k as [|k IH]; intros j Hj Hk; cbn [replica_hits].
  - exists false. split; [done|]. intros; lia.
  - rewrite (mdata_exact m 1 Hm x j Hx Hxr ltac:(fold rl; lia)). cbn [mbind option_bind].
    pose proof (mloc_one x j) as E. destruct (mloc m 1 x j) as [o s]. cbn [snd] in E. subst s.
    destruct (Z.eqb_spec (ly_serv (mlay m 0) x j) serv) as [|Hne]; [exists true; by split|].
    destruct (IH (j + 1)) as (b & -> & Hb); [lia..|]. exists b. split; [done|].
    intros -> i Hi. destruct (decide (i = j)) as [->|]; [done|]. apply Hb; [done|lia].
Qed.

Context (Hfs : file_size m * (rl + 1) < 2 ^ 62).

Lemma block_hits_spec serv i k :
  0 <= i → i + Z.of_nat k <= n →
  ∃ b, block_hits m serv i k = Some b ∧
    (b = false → ∀ q j, i <= q < i + Z.of_nat k → q * bs <= file_size m → 0 <= j <= rl →
      ly_serv (mlay m 0) (q * bs) j ≠ serv).
Proof using Hm Hn Hfs.
  pose proof (ex_bs m 1 Hm) as Hb. fold bs in Hb. pose proof (ex_rl m 1 Hm) as Hr. fold rl in Hr.
  pose proof (ex_nv m 1 Hm 0 ltac:(lia)) as Hnv. rewrite Hn in Hnv.
  revert i. induction k as [|k IH]; intros i Hi Hk; cbn [block_hits].
  - exists false. split; [done|]. intros; lia.
  - fold bs. assert (0 <= bs * i <= (2 ^ 31) * 2 ^ 30) by nia. rewrite (i64_id (bs * i)) by lia.
    destruct (Z.ltb_spec (file_size m) (bs * i)) as [Hlt|Hle].
    + exists false. split; [done|]. intros _ q j Hq Hqf Hj. exfalso. nia.
    + fold rl. destruct (replica_hits_spec (bs * i) serv 0 (Z.to_nat (rl + 1))) as (b & -> & Hb'); [lia|nia|lia|lia|].
      cbn [mbind option_bind]. destruct b; [exists true; by split|].
      destruct (IH (i + 1)) as (b & -> & HI); [lia..|]. exists b. split; [done|].
      intros -> q j Hq Hqf Hj. destruct (decide (q = i)) as [->|].
      * rewrite Z.mul_comm. apply Hb'; [done|lia].
      * apply HI; [done|lia|done|done].
Qed.
End affected.

Lemma in_replicas_false m node n serv i :
  0 < n < 2 ^ 30 → 0 <= replication_level m < 2 ^ 30 → 0 <= node < n →
  in_replicas m node n serv = false → 0 <= i <= replication_level m → (node + i) mod n ≠ serv.
Proof.
  intros Hn Hr Hnode H Hi Heq. unfold in_replicas in H.
  assert (existsb (λ i, (i ⊞ node) `rem` n =? serv) (seqZ 0 (replication_level m + 1)) = true) as HT; [|congruence].
  apply existsb_exists. exists i. split.
  - apply list_elem_of_In, elem_of_seqZ. lia.
  - rewrite i32_id by lia. rewrite rem_mod by lia. rewrite (Z.add_comm i). by apply Z.eqb_eq.
Qed.

(** The servers [XpnCheckServAffectedByOp] leaves out hold nothing of the
    file: no replica of a byte below its size, no copy of its metadata and no
    entry for its directory.  It never fails on well-formed metadata. *)
Theorem unaffected_servers_hold_nothing m c master_dir master_node n serv :
  expanded m c → XPN_CHECK_MAGIC_NUMBER m = true → nv m (pred c) = n → replication_level m < 2 ^ 30 →
  file_size m * (replication_level m + 1) < 2 ^ 62 → 0 <= master_dir < n → 0 <= master_node < n →
  ∃ b, XpnCheckServAffectedByOp m master_dir master_node n serv = Some b ∧
    (b = false →
      (∀ i, 0 <= i <= replication_level m → (master_dir + i) mod n ≠ serv ∧ (master_node + i) mod n ≠ serv) ∧
      ∀ x j, 0 <= x < file_size m → 0 <= j <= replication_level m →
        ∃ off s, XpnCalculateBlockMdata m x j 0 0 = Some (off, s) ∧ s ≠ serv).
Proof.
  intros Hm Hmagic Hn Hrl Hfs Hdir Hnode. pose proof (ex_c m c Hm) as Hc.
  pose proof (ex_nv m c Hm (pred c) ltac:(lia)) as Hnv. rewrite Hn in Hnv. pose proof (ex_rl m c Hm) as Hr.
  unfold XpnCheckServAffectedByOp. rewrite Hmagic. cbn [negb]. rewrite (proj2 (Z.eqb_neq n 0)) by lia.
  destruct (in_replicas m master_dir n serv) eqn:E1; [exists true; by split|].
  destruct (in_replicas m master_node n serv) eqn:E2; [exists true; by split|].
  change 1 with (Z.of_nat 1). rewrite (rd_nv m c Hm 1) by lia. cbn [mbind option_bind].
  destruct (Z.eqb_spec (nv m 1) 0) as [Hz|Hz]; cbn [negb]; [|exists true; by split].
  assert (c = 1%nat) as ->.
  { destruct (decide (c = 1%nat)); [done|]. pose proof (ex_nv m c Hm 1 ltac:(lia)). lia. }
  cbn [pred] in Hn. destruct (block_hits_spec m n Hm Hn Hfs serv 0 (Z.to_nat n)) as (b & -> & Hb); [lia..|].
  exists b. split; [done|]. intros ->. split.
  - intros i Hi. split; by apply (in_replicas_false m); try done; lia.
  - intros x j Hx Hj. rewrite (mdata_exact m 1 Hm x j) by (done || nia).
    pose proof (mloc_one m x j) as E. destruct (mloc m 1 x j) as [o s]. cbn [snd] in E. subst s.
    exists o, (ly_serv (mlay m 0) x j). split; [done|].
    pose proof (ex_bs m 1 Hm) as Hbs. rewrite (serv_of_block m Hm) by lia. zdm x (block_size m).
    assert (0 <= x / block_size m) by (apply Z.div_pos; lia).
    rewrite (serv_periodic m n Hm Hn) by done. zdm (x / block_size m) n.
    assert (x / block_size m mod n <= x / block_size m) by (apply Z.mod_le; lia).
    apply Hb; [done|lia|nia|done].
Qed.

Lemma expanded_file_size m c z : expanded m c → expanded (set_file_size z m) c.
Proof. intros []. by split. Qed.

(** A file of three blocks on eight servers, with no replicas. *)
Definition mdata_b : xpn_metadata := set_file_size 9 (default mdata_zero (XpnCreateMetadataExtern (str "/b") 8 4 0)).

Lemma unaffected_servers_hold_nothing_witness :
  XpnCheckServAffectedByOp mdata_b 0 2 8 7 = Some false ∧
  ∃ off s, XpnCalculateBlockMdata mdata_b 8 0 0 0 = Some (off, s) ∧ s ≠ 7.
Proof.
  assert (expanded mdata_b 1) as HE.
  { apply expanded_file_size, (create_expanded (str "/b") 8 4 0); [|zcalc|lia|lia|lia|reflexivity].
    unfold ascii_path. cbn. repeat (apply List.Forall_cons; [zcalc|]). apply List.Forall_nil. }
  destruct (unaffected_servers_hold_nothing mdata_b 1 0 2 8 7 HE) as (b & E & H);
    [reflexivity|reflexivity|zcalc|zcalc|lia|lia|].
  assert (b = false) as -> by (vm_compute in E; congruence).
  split; [exact E|]. destruct (H eq_refl) as [_ H']. apply (H' 8 0); [zcalc|zcalc].
Defined.
