(* ===== verification/Reading.v ===== *)
(** * Reading: which replica is read

    [XpnReadGetBlock] (xpn_policy_rw.c) and the operation matrix of a read:
    every byte of the request is read from a replica of that byte, from a
    server that works if there is one. *)

From S2P Require Import Prelude Cstr Paths Layout Mdata Nfi Client MemFs FileTable Blocks BlocksSpec Coverage.

Section select.
Context (m : xpn_metadata) (c : nat) (Hm : expanded m c) (servers : list nfi_server).
Context (Hn : nv m (pred c) <= Z.of_nat (length servers)).
Context (x : Z) (Hx : 0 <= x) (Hxr : x * (replication_level m + 1) < 2 ^ 62).
Let rl := replication_level m.

(** Replica [j] of the byte is on a server that is not out. *)
Definition live (j : Z) : Prop := ∃ s, rdZ servers (mloc m c x j).2 = Some s ∧ srv_error s ≠ -1.

#[export] Instance live_dec j : Decision (live j).
Proof.
  refine (match rdZ servers (mloc m c x j).2 as o return rdZ servers (mloc m c x j).2 = o → _ with
          | Some s => λ E, if decide (srv_error s = -1) then right _ else left _
          | None => λ E, right _
          end eq_refl).
  - intros (s' & E' & H). rewrite E in E'. congruence.
  - by exists s.
  - intros (s' & E' & _). congruence.
Defined.

Lemma replica_server j : ∃ s, rdZ servers (mloc m c x j).2 = Some s.
Proof using Hm Hn Hx.
  pose proof (mloc_serv_range m c Hm x j Hx). destruct (rdZ_Some servers (mloc m c x j).2) as [s Hs]; [lia|]. by exists s.
Qed.

Lemma find_local_spec sc r k :
  0 <= r → r + Z.of_nat k <= rl + 1 →
  ∃ res, find_local m servers x sc r k = Some res ∧
    match res with
    | Some p => ∃ j, 0 <= j <= rl ∧ p = mloc m c x j ∧ p.2 = sc ∧ live j
    | None => ∀ j, r <= j < r + Z.of_nat k → (mloc m c x j).2 = sc → ¬ live j
    end.
Proof using Hm Hn Hx Hxr.
  revert r. induction k as [|k IH]; intros r Hr Hk; cbn [find_local].
  - exists None. split; [done|]. intros; lia.
  - rewrite (mdata_exact m c Hm x r Hx Hxr) by (fold rl; lia). cbn [mbind option_bind].
    destruct (replica_server r) as [s Hs]. destruct (IH (r + 1)) as (res & Hres & Hspec); [lia..|].
    destruct (mloc m c x r) as [o sv] eqn:E. cbn [snd] in Hs.
    destruct (Z.eqb_spec sv sc) as [->|Hne].
    + unfold serv_error. rewrite Hs. cbn [mbind option_bind fmap option_fmap option_map].
      destruct (Z.eqb_spec (srv_error s) (-1)) as [He|He]; cbn [andb negb].
      * exists res. split; [exact Hres|]. destruct res as [p|]; [exact Hspec|]. intros j Hj Hsv (s' & Hs' & He').
        destruct (decide (j = r)) as [->|]; [|apply (Hspec j); [lia|done|by exists s']].
        rewrite E in Hs'. cbn [snd] in Hs'. congruence.
      * eexists. split; [reflexivity|]. exists r. rewrite E. split_and!; [lia|lia|done|done|]. exists s. by rewrite E.
    + cbn [mbind option_bind andb]. exists res. split; [exact Hres|]. destruct res as [p|]; [exact Hspec|].
      intros j Hj Hsv. destruct (decide (j = r)) as [->|]; [rewrite E in Hsv; done|apply (Hspec j); [lia|done]].
Qed.

Lemma find_live_spec r k :
  0 <= r <= rl → (rl = 0 → k = 0%nat) →
  ∃ i, (i <= k)%nat ∧ find_live m servers rl x r k = Some (mloc m c x ((r + Z.of_nat i) mod (rl + 1))) ∧
    (¬ live ((r + Z.of_nat i) mod (rl + 1)) → i = k ∧ ∀ i', (i' <= k)%nat → ¬ live ((r + Z.of_nat i') mod (rl + 1))).
Proof using Hm Hn Hx Hxr.
  pose proof (ex_rl m c Hm) as Hrl. fold rl in Hrl.
  revert r. induction k as [|k IH]; intros r Hr Hk; cbn [find_live].
  all: rewrite (mdata_exact m c Hm x r Hx Hxr) by exact Hr; cbn [mbind option_bind].
  all: destruct (replica_server r) as [s Hs]; pose proof (surjective_pairing (mloc m c x r)) as E.
  all: rewrite E; unfold serv_error; rewrite Hs; cbn [mbind option_bind fmap option_fmap option_map]; rewrite <- E.
  - exists 0%nat. rewrite Z.add_0_r, Z.mod_small by lia. split_and!; [done|done|]. intros Hd. split; [done|].
    intros i' Hi'. assert (i' = 0%nat) as -> by lia. by rewrite Z.add_0_r, Z.mod_small by lia.
  - assert (rl ≠ 0) as Hnz by (intros E0; specialize (Hk E0); done). rewrite (proj2 (Z.eqb_neq rl 0) Hnz).
    rewrite (i32_id (r + 1)), (i32_id (rl + 1)), rem_mod by lia.
    destruct (Z.eqb_spec (srv_error s) (-1)) as [He|He].
    + pose proof (Z.mod_pos_bound (r + 1) (rl + 1) ltac:(lia)).
      destruct (IH ((r + 1) mod (rl + 1))) as (i & Hi & -> & Hd); [lia|done|].
      assert (∀ i', ((r + 1) mod (rl + 1) + Z.of_nat i') mod (rl + 1) = (r + Z.of_nat (S i')) mod (rl + 1)) as Em
        by (intros i'; rewrite Z.add_mod_idemp_l by lia; f_equal; lia).
      exists (S i). rewrite <- Em. split_and!; [lia|done|]. intros Hnl. destruct (Hd Hnl) as [-> Hall]. split; [done|].
      intros [|i'] Hi'; [|rewrite <- Em; apply Hall; lia]. rewrite Z.add_0_r, Z.mod_small by lia.
      intros (s' & Hs' & He'). congruence.
    + exists 0%nat. rewrite Z.add_0_r, Z.mod_small by lia. split_and!; [lia|done|]. intros Hd. exfalso. apply Hd. by exists s.
Qed.
End select.

Section reading.
Context {W : Type} `{NO : !NfiOps W} `{SY : !Sys}.
Context (Hrand : ∀ z, 0 <= (sys_rand z).1).
Context (fd : Z) (d : xpn_filedesc) (part : xpn_partition) (c : nat) (HS : fd_spread c d part).
Let m := fd_mdata d.
Let bs := block_size m.
Let rl := replication_level m.
Let servers := data_serv part.
Let n := Z.of_nat (length servers).
Context (serv_client : Z).

(** A client in which [fd] is this descriptor. *)
Definition has_fd (cl : client W) : Prop := get_fd fd cl = Some (d, cl) ∧ xpn_parttable cl !! fd_part d = Some part.

Lemma has_fd_seed cl z : has_fd cl → has_fd (with_seed z cl).
Proof.
  intros [H1 H2]. split; [|exact H2]. apply get_fd_inv in H1 as [_ (l & Hs & Hl)]. by apply (get_fd_run _ _ l).
Qed.
Lemma with_seed_same (cl : client W) : with_seed (cl_seed cl) cl = cl.
Proof. by destruct cl. Qed.
Lemma with_seed_idem (cl : client W) z z' : with_seed z (with_seed z' cl) = with_seed z cl.
Proof. done. Qed.

(** The replica the code settles on. *)
Record picked (x j : Z) : Prop := {
  pk_range : 0 <= j <= rl;
  pk_live : ∀ j', 0 <= j' <= rl → live m c servers x j' → live m c servers x j;
  pk_local : ∀ j', 0 <= j' <= rl → live m c servers x j' → (mloc m c x j').2 = serv_client → serv_client ≠ -1 →
    (mloc m c x j).2 = serv_client }.

Lemma read_get_block_run cl x :
  has_fd cl → 0 <= x → x * (rl + 1) < 2 ^ 62 →
  ∃ j z, XpnReadGetBlock fd x serv_client cl = Some (mloc m c x j, with_seed z cl) ∧ picked x j.
Proof using HS Hrand.
  intros [Hfd Hpart] Hx Hxr. pose proof (fs_exp c d part HS) as HE. fold m in HE. pose proof (fs_n c d part HS) as Hn. fold m servers n in Hn.
  pose proof (fs_rl c d part HS) as Erl. fold m rl in Erl. pose proof (ex_rl m c HE) as Hr. fold rl in Hr.
  unfold XpnReadGetBlock. mrun (exact Hfd). mrun (unfold fd_partition; mstep; rewrite Hpart; reflexivity).
  rewrite Erl. fold m servers.
  destruct (find_local_spec m c HE servers Hn x Hx Hxr serv_client 0 (Z.to_nat (Z.max 1 (rl + 1)))) as (res & Hl & Hspec);
    [lia|fold rl; lia|].
  assert (∃ local, (if negb (serv_client =? -1) then lift (find_local m servers x serv_client 0 (Z.to_nat (Z.max 1 (rl + 1))))
      else mret None) cl = Some (local, cl) ∧
    match local with
    | Some p => ∃ j, 0 <= j <= rl ∧ p = mloc m c x j ∧ p.2 = serv_client ∧ live m c servers x j
    | None => ∀ j, 0 <= j <= rl → (mloc m c x j).2 = serv_client → serv_client ≠ -1 → ¬ live m c servers x j
    end) as (local & Hlocal & Hls).
  { destruct (Z.eqb_spec serv_client (-1)) as [E|E]; cbn [negb].
    - exists None. split; [done|]. intros j _ _ HH. done.
    - exists res. unfold lift. rewrite Hl. split; [done|]. destruct res as [p|]; [exact Hspec|].
      intros j Hj Hsv _. apply Hspec; [lia|done]. }
  mrun (exact Hlocal). destruct local as [p|].
  { destruct Hls as (j & Hj & -> & Hsv & Hlv). exists j, (cl_seed cl). rewrite with_seed_same. split; [done|].
    split; [done|done|done]. }
  assert (∃ r z, (if negb (rl =? 0) then (r ← next_rand; if rl ⊞ 1 =? 0 then fault else mret ((r : Z) `rem` (rl ⊞ 1)))
      else mret 0) cl = Some (r, with_seed z cl) ∧ 0 <= r <= rl) as (r & z & Hr' & Hrr).
  { destruct (Z.eqb_spec rl 0) as [E|E]; cbn [negb].
    - exists 0, (cl_seed cl). rewrite with_seed_same. split; [done|lia].
    - unfold next_rand. pose proof (Hrand (cl_seed cl)) as Hp. destruct (sys_rand (cl_seed cl)) as [r z] eqn:Es. cbn [fst] in Hp.
      exists (r `rem` (rl + 1)), z. rewrite rem_mod by lia. pose proof (Z.mod_pos_bound r (rl + 1)). split; [|lia].
      mrun (mstep; rewrite Es; mstep; reflexivity). rewrite i32_id by lia. rewrite (proj2 (Z.eqb_neq _ 0)) by lia.
      rewrite rem_mod by lia. done. }
  mrun (exact Hr').
  destruct (find_live_spec m c HE servers Hn x Hx Hxr r (Z.to_nat rl)) as (i & Hi & Hf & Hd); [done|fold rl; lia|].
  fold rl in Hf, Hd. unfold lift. rewrite Hf. eexists _, z. split; [reflexivity|].
  set (j := (r + Z.of_nat i) mod (rl + 1)) in *. pose proof (Z.mod_pos_bound (r + Z.of_nat i) (rl + 1) ltac:(lia)) as Hjr. fold j in Hjr.
  assert (∀ j', 0 <= j' <= rl → live m c servers x j' → live m c servers x j) as Hlive.
  { intros j' Hj' Hlv. destruct (decide (live m c servers x j)) as [|Hnl]; [done|]. destruct (Hd Hnl) as [_ Hall].
    exfalso. apply (Hall (Z.to_nat ((j' - r) mod (rl + 1)))).
    - pose proof (Z.mod_pos_bound (j' - r) (rl + 1)). lia.
    - pose proof (Z.mod_pos_bound (j' - r) (rl + 1) ltac:(lia)). rewrite Z2Nat.id by lia.
      rewrite Z.add_mod_idemp_r by lia. replace (r + (j' - r)) with j' by lia. by rewrite Z.mod_small by lia. }
  split; [lia|done|]. intros j' Hj' Hlv Hsv Hne. exfalso. by apply (Hls j').
Qed.

Context (size offset : Z) (buffer : ptr) (Hsz : 0 <= size < 2 ^ 31 - 2) (Hoff : 0 <= offset) (Hsum : (offset + size) * (rl + 1) < 2 ^ 62).

(** The operation of piece [e], read from replica [j]. *)
Definition read_op (e : Z * Z) (j : Z) : Z * nfi_worker_io :=
  ((mloc m c (offset + e.1) j).2, op_at (mloc m c (offset + e.1) j).1 e.2 buffer e.1).
Definition reads_piece (e : Z * Z) (p : Z * nfi_worker_io) : Prop := ∃ j, picked (offset + e.1) j ∧ p = read_op e j.

Lemma read_loop_run max fuel count pl cl :
  has_fd cl → 0 <= count → size - count <= Z.of_nat fuel →
  Z.of_nat (length pl) + Z.of_nat (length (pieces bs size offset fuel count)) <= max →
  ∃ pl' z, read_loop fd buffer size offset serv_client max fuel count (rows n pl) cl = Some (rows n (pl ++ pl'), with_seed z cl) ∧
    Forall2 reads_piece (pieces bs size offset fuel count) pl'.
Proof using HS Hrand Hoff Hsum Hsz.
  pose proof (fs_exp c d part HS) as HE. fold m in HE. pose proof (ex_bs m c HE) as Hb. fold bs in Hb.
  pose proof (ex_rl m c HE) as Hr. fold rl in Hr.
  pose proof (fs_bs c d part HS) as Ebs. fold m bs in Ebs. assert (offset + size < 2 ^ 62) as Hlt by nia.
  revert count pl cl. induction fuel as [|fuel IH]; intros count pl cl Hcl Hc Hf Hm; cbn [read_loop pieces] in *.
  - zbool. exists [], (cl_seed cl). rewrite app_nil_r, with_seed_same. split; [done|constructor].
  - destruct (Z.ltb_spec count size) as [Hcs|Hcs].
    2: { exists [], (cl_seed cl). rewrite app_nil_r, with_seed_same. split; [done|constructor]. }
    fold (piece_len bs size offset count) in *. cbn [length] in Hm.
    pose proof (piece_len_pos bs size offset Hb Hoff count ltac:(lia)) as [Hl1 Hl2].
    rewrite (i64_id (offset + count)) by lia.
    destruct (read_get_block_run cl (offset + count) Hcl) as (j & z & Erd & Hpick); [lia|nia|].
    pose proof (mloc_serv_range m c HE (offset + count) j ltac:(lia)) as Hsv. pose proof (fs_n c d part HS) as Hn. fold m servers n in Hn.
    pose proof (block_rest_exact bs size offset Hb (proj1 Hsz) Hoff Hlt count ltac:(lia)) as Eb. rewrite (i64_id (offset + count)) in Eb by lia.
    mrun (exact Erd). pose proof (surjective_pairing (mloc m c (offset + count) j)) as Ep. rewrite Ep.
    mrun (apply (has_fd_seed cl z Hcl)). rewrite Ebs, (proj2 (Z.eqb_neq bs 0)) by lia. rewrite Eb.
    mrun (unfold lift; rewrite io_append_rows; [reflexivity|lia|lia]).
    rewrite u64_id, (Z.add_comm _ count) by lia.
    destruct (IH (count + piece_len bs size offset count) (pl ++ [((mloc m c (offset + count) j).2, op_at (mloc m c (offset + count) j).1 (piece_len bs size offset count) buffer count)]) (with_seed z cl))
      as (pl' & z' & -> & HF); [by apply has_fd_seed|lia|lia|rewrite length_app; cbn [length]; lia|].
    eexists (_ :: pl'), z'. rewrite <- app_assoc, with_seed_idem. split; [reflexivity|].
    constructor; [|exact HF]. exists j. split; [exact Hpick|done].
Qed.

Lemma read_blocks_run max cl :
  has_fd cl → Z.of_nat (length (request_pieces_raw bs size offset)) <= max →
  ∃ pl z, XpnReadBlocksBlockByBlock fd buffer size offset serv_client max n cl = Some (rows n pl, with_seed z cl) ∧
    Forall2 reads_piece (request_pieces_raw bs size offset) pl.
Proof using HS Hrand Hoff Hsum Hsz.
  intros Hcl Hm. unfold XpnReadBlocksBlockByBlock. rewrite (rows_nil d part : replicate (Z.to_nat n) [] = rows n []).
  destruct (read_loop_run max (Z.to_nat size) 0 [] cl Hcl) as (pl & z & E & HF); [lia|lia|exact Hm|].
  exists pl, z. by split.
Qed.
End reading.

Lemma Forall2_elem_l {A B} (R : A → B → Prop) l k x : Forall2 R l k → x ∈ l → ∃ y, y ∈ k ∧ R x y.
Proof.
  intros HF (i & Hi)%list_elem_of_lookup. destruct (Forall2_lookup_l _ _ _ _ _ HF Hi) as (y & Hy & HR).
  exists y. split; [|done]. by apply list_elem_of_lookup_2 with i.
Qed.
Lemma Forall2_elem_r {A B} (R : A → B → Prop) l k y : Forall2 R l k → y ∈ k → ∃ x, x ∈ l ∧ R x y.
Proof.
  intros HF (i & Hi)%list_elem_of_lookup. destruct (Forall2_lookup_r _ _ _ _ _ HF Hi) as (x & Hx & HR).
  exists x. split; [|done]. by apply list_elem_of_lookup_2 with i.
Qed.

(** The read of a byte avoids the servers that are out.
    [XpnReadGetBlock] returns the place of a replica of the byte; if some
    replica is on a server that is not out, so is the one returned, and if the
    client's own server has a live replica, it is that one.  Only the random
    seed changes. *)
Theorem read_picks_live_replica {W : Type} `{NO : !NfiOps W} `{SY : !Sys} (cl : client W) fd d part c serv_client x :
  let m := fd_mdata d in
  let rl := replication_level m in
  (∀ z, 0 <= (sys_rand z).1) → fd_spread c d part →
  get_fd fd cl = Some (d, cl) → xpn_parttable cl !! fd_part d = Some part →
  0 <= x → x * (rl + 1) < 2 ^ 62 →
  ∃ off s z j, XpnReadGetBlock fd x serv_client cl = Some ((off, s), with_seed z cl) ∧
    0 <= j <= rl ∧ XpnCalculateBlockMdata m x j 0 0 = Some (off, s) ∧
    ∀ j' off' s' e, 0 <= j' <= rl → XpnCalculateBlockMdata m x j' 0 0 = Some (off', s') →
      serv_error (data_serv part) s' = Some e → e ≠ -1 →
      (∃ e', serv_error (data_serv part) s = Some e' ∧ e' ≠ -1) ∧ (s' = serv_client → serv_client ≠ -1 → s = serv_client).
Proof.
  intros m rl Hrand HS Hfd Hpart Hx Hxr. pose proof (fs_exp c d part HS) as HE. fold m in HE.
  destruct (read_get_block_run Hrand fd d part c HS serv_client cl x (conj Hfd Hpart) Hx Hxr) as (j & z & E & [Hj Hl Hloc]).
  exists (mloc m c x j).1, (mloc m c x j).2, z, j. rewrite <- surjective_pairing.
  split; [exact E|]. split; [exact Hj|]. split; [apply (mdata_exact m c HE x j Hx Hxr Hj)|].
  intros j' off' s' e Hj' E' He Hne. rewrite (mdata_exact m c HE x j' Hx Hxr Hj') in E'. apply (inj Some) in E'.
  unfold serv_error in He. destruct (rdZ (data_serv part) s') as [srv|] eqn:Es; [|done]. injection He as He.
  assert (live m c (data_serv part) x j') as Hlv.
  { exists srv. rewrite E'. cbn [snd]. split; [exact Es|congruence]. }
  split.
  - destruct (Hl j' Hj' Hlv) as (srv' & Es' & He'). exists (srv_error srv'). unfold serv_error. fold m in Es'. by rewrite Es'.
  - intros -> Hc. apply (Hloc j' Hj' Hlv); [fold m; by rewrite E'|done].
Qed.

(** The client of [client_x] with the server of replica 1 of byte 600 out. *)
Definition part_out : xpn_partition :=
  set_serv (<[3%nat := NfiServer 3 (str "mem://s/d") (-1) 0 0]> (mserver <$> seqZ 0 8)) part_x.
Definition client_out : client memfs := with_parts [part_out] client_x.
Lemma desc_x_spread_out : fd_spread 3 desc_x part_out.
Proof. split; [exact sample_expanded|done|done|zcalc]. Qed.
Lemma sample_rand z : 0 <= (@sys_rand sample_sys z).1.
Proof. apply Z.mod_pos_bound. lia. Qed.

Lemma read_picks_live_replica_witness :
  ∃ z, XpnReadGetBlock 0 1000 3 client_out = Some (mloc sample_mdata 3 1000 0, with_seed z client_out) ∧
    mloc sample_mdata 3 1000 1 = (296, 3) ∧ mloc sample_mdata 3 1000 0 = (552, 2).
Proof.
  destruct (read_picks_live_replica client_out 0 desc_x part_out 3 3 1000) as (off & s & z & j & E & Hj & Ec & Hl);
    [exact sample_rand|exact desc_x_spread_out|reflexivity|reflexivity|lia|zcalc|].
  exists z. rewrite E. split; [|split; reflexivity].
  destruct (Hl 0 552 2 0) as [(e & He & Hne) _]; [zcalc|vm_compute; reflexivity|reflexivity|lia|].
  assert (j = 0 ∨ j = 1) as [-> | ->] by (cbn in Hj; lia).
  - assert ((off, s) = (552, 2)) as -> by (vm_compute in Ec; congruence). reflexivity.
  - assert ((off, s) = (296, 3)) as [= -> ->] by (vm_compute in Ec; congruence). vm_compute in He. congruence.
Defined.

(** C19: the matrix of a read is complete and exact.  With rows as long as
    [xpn_pread] allocates them, every byte of the request is in one operation,
    from the place of one of its replicas, into its position in the buffer;
    and every byte of every operation is one of those. *)
Theorem read_blocks_exact {W : Type} `{NO : !NfiOps W} `{SY : !Sys} (cl : client W) fd d part c serv_client size offset buffer :
  let m := fd_mdata d in
  let rl := replication_level m in
  let n := Z.of_nat (length (data_serv part)) in
  (∀ z, 0 <= (sys_rand z).1) → fd_spread c d part →
  get_fd fd cl = Some (d, cl) → xpn_parttable cl !! fd_part d = Some part →
  0 <= size < 2 ^ 31 - 2 → 0 <= offset → (offset + size) * (rl + 1) < 2 ^ 62 →
  ∃ R z, XpnReadBlocksBlockByBlock fd buffer size offset serv_client (max_ops size (block_size m)) n cl = Some (R, with_seed z cl) ∧
    (∀ t, 0 <= t < size → ∃ j off s row o,
      0 <= j <= rl ∧ XpnCalculateBlockMdata m (offset + t) j 0 0 = Some (off, s) ∧ rdZ R s = Some row ∧ o ∈ row ∧
      io_offset o <= off < io_offset o + io_size o ∧ io_buffer o = ptr_add buffer (t - (off - io_offset o))) ∧
    (∀ s row o i, rdZ R s = Some row → o ∈ row → 0 <= i < io_size o → ∃ t j,
      0 <= t < size ∧ 0 <= j <= rl ∧ XpnCalculateBlockMdata m (offset + t) j 0 0 = Some (io_offset o + i, s) ∧
      io_buffer o = ptr_add buffer (t - i)).
Proof.
  intros m rl n Hrand HS Hfd Hpart Hsz Hoff Hsum. pose proof (fs_exp c d part HS) as HE. fold m in HE.
  pose proof (ex_bs m c HE) as Hb. pose proof (ex_rl m c HE) as Hr. fold rl in Hr.
  destruct (read_blocks_run Hrand fd d part c HS serv_client size offset buffer Hsz Hoff Hsum (max_ops size (block_size m)) cl
    (conj Hfd Hpart)) as (pl & z & E & HF); [by apply pieces_bound|].
  fold m in HF. exists (rows n pl), z. split; [exact E|]. split.
  - intros t Ht. destruct (pieces_cover (block_size m) size offset (Z.to_nat size) 0 t) as (e & He & Hin); [lia..|].
    pose proof (pieces_in _ size offset _ 0 e (proj1 Hb) Hoff ltac:(lia) He) as (H1 & H2 & H3 & H4).
    destruct (Forall2_elem_l _ _ _ e HF He) as ((s & o) & Hp & j & [Hj _ _] & Ep). fold m rl in Hj. pose proof (f_equal fst Ep) as Es. pose proof (f_equal snd Ep) as Eo.
    unfold read_op in Es, Eo. cbn [fst snd] in Es, Eo.
    fold m in Es, Eo. pose proof (mloc_shift m c HE (offset + e.1) (t - e.1) j) as EM. zdm (offset + e.1) (block_size m).
    replace (offset + e.1 + (t - e.1)) with (offset + t) in EM by lia. specialize (EM ltac:(lia)).
    exists j, ((mloc m c (offset + e.1) j).1 + (t - e.1)), s, (row_of s pl), o.
    pose proof (mloc_serv_range m c HE (offset + e.1) j ltac:(lia)) as Hsv. pose proof (fs_n c d part HS) as Hn. fold m n in Hn.
    split; [exact Hj|]. split; [rewrite (mdata_exact m c HE) by (lia || nia || exact Hj); rewrite EM, Es; done|].
    split; [apply rows_rd; lia|]. split; [by apply row_of_elem|]. rewrite Eo. cbn [op_at io_offset io_size io_buffer].
    split; [lia|]. f_equal. lia.
  - intros s row o i [Hs ->]%rows_elem Ho%row_of_elem Hi.
    destruct (Forall2_elem_r _ _ _ _ HF Ho) as (e & He & j & [Hj _ _] & Ep). fold m rl in Hj. pose proof (f_equal fst Ep) as Es. pose proof (f_equal snd Ep) as Eo.
    unfold read_op in Es, Eo. cbn [fst snd] in Es, Eo. fold m in Es, Eo.
    pose proof (pieces_in _ size offset _ 0 e (proj1 Hb) Hoff ltac:(lia) He) as (H1 & H2 & H3 & H4).
    rewrite Eo in Hi |- *. cbn [op_at io_offset io_size io_buffer] in Hi |- *. exists (e.1 + i), j.
    split; [lia|]. split; [exact Hj|]. split; [|f_equal; lia].
    rewrite (mdata_exact m c HE) by (lia || nia || exact Hj). rewrite Z.add_assoc, (mloc_shift m c HE); [by rewrite Es|].
    zdm (offset + e.1) (block_size m). lia.
Qed.

Lemma read_blocks_exact_witness :
  ∃ R z, XpnReadBlocksBlockByBlock 0 (7%nat, 0) 900 400 (-1) (max_ops 900 (block_size sample_mdata))
      (Z.of_nat (length (data_serv part_out))) client_out = Some (R, with_seed z client_out) ∧
    ∃ off s row o, ((off, s) = (552, 2) ∨ (off, s) = (296, 3)) ∧ rdZ R s = Some row ∧ o ∈ row ∧ io_offset o <= off < io_offset o + io_size o.
Proof.
  destruct (read_blocks_exact client_out 0 desc_x part_out 3 (-1) 900 400 (7%nat, 0)) as (R & z & E & H1 & _);
    [exact sample_rand|exact desc_x_spread_out|reflexivity|reflexivity|lia|lia|zcalc|].
  exists R, z. split; [exact E|]. destruct (H1 600) as (j & off & s & row & o & Hj & Ec & Hrow & Ho & Hin & _); [lia|].
  exists off, s, row, o. split; [|split; [exact Hrow|split; [exact Ho|exact Hin]]].
  assert (j = 0 ∨ j = 1) as [-> | ->] by (cbn in Hj; lia); vm_compute in Ec; injection Ec as <- <-; [by left|by right].
Defined.
