(* ===== verification/Dir.v ===== *)
(** * Dir: directories and block locality

    mkdir and rmdir (xpn_dir.c), opendir, readdir and closedir (xpn_opendir.c
    and [XpnGetEntry] of xpn_policy_opendir.c), and the servers of a block
    (xpn_metadata.c). *)

From S2P Require Import Prelude Cstr Paths Layout Url Mdata Nfi Client MemFs FileTable.

Section dir.
Context {W : Type} `{NO : !NfiOps W} `{SY : !Sys}.

(** ** mkdir and rmdir *)

(** One request per server, then one wait per server; true if one failed. *)
Definition launch_all (n : Z) (p : nat) (f : nfi_server → M (env W) (nfi_server * nfi_out)) : prog W unit :=
  forM_ (seqZ 0 n) (λ i, on_server p i f;; mret tt).
Definition wait_all (n : Z) (p : nat) : prog W (Z * bool) :=
  foldM (seqZ 0 n) (λ '(_, err) i, res ← wait_server p i; mret ((res : Z), (err : bool) || (res <? 0))) (0, false).

Definition xpn_simple_mkdir (path : option cstr) (perm : Z) : prog W Z :=
  match path with
  | None => fail EINVAL (-1)
  | Some path =>
    r ← resolve path;
    match r with
    | None => mret (-1)
    | Some (pd, abs_path) =>
      '(n, p) ← XpnGetServers pd (-1);
      if (n : Z) <=? 0 then mret (-1)
      else
        launch_all n p (λ s, nfi_worker_do_mkdir s (XpnGetURLServer s abs_path) perm);;
        '(_, err) ← wait_all n p;
        mret (if (err : bool) then -1 else 0)
    end
  end.

(** On success [xpn_simple_rmdir] returns what the last server returned. *)
Definition xpn_simple_rmdir (path : option cstr) : prog W Z :=
  match path with
  | None => fail EINVAL (-1)
  | Some path =>
    r ← resolve path;
    match r with
    | None => mret (-1)
    | Some (pd, abs_path) =>
      '(n, p) ← XpnGetServers pd (-1);
      if (n : Z) <=? 0 then mret (-1)
      else
        master_node ← lift (hash abs_path n 1);
        get_server p master_node;;
        launch_all n p (λ s, nfi_worker_do_rmdir s (XpnGetURLServer s abs_path));;
        '(res, err) ← wait_all n p;
        mret (if (err : bool) then -1 else res)
    end
  end.

(** ** Reading directories *)

Record DIR := Dir { dir_fd : Z; dir_path : cstr }.

(** [path_aux] has room for [PATH_MAX] characters. *)
Definition xpn_simple_opendir (path : option cstr) : prog W (option DIR) :=
  match path with
  | None => fail EINVAL None
  | Some path =>
    if (length path =? 0)%nat || (PATH_MAX <? strlen path) then fail EINVAL None
    else if PATH_MAX - 1 <? strlen path then fault
    else
      let slashed := match last path with Some a => is_slash a | None => false end in
      if negb slashed && (PATH_MAX - 2 <? strlen path) then fault
      else
        let path_aux := if slashed then path else path ++ [slash] in
        res ← xpn_simple_open (Some path_aux) (Z.lor O_RDONLY O_DIRECTORY) 0;
        if (res : Z) <? 0 then mret None else mret (Some (Dir res path_aux))
  end.

(** The [while] loop of [XpnGetEntry], which has no bound of its own. *)
Fixpoint skip_out (n : Z) (p : nat) (fuel : nat) (master_node : Z) : prog W Z :=
  match fuel with
  | O => fault
  | S f =>
    s ← get_server p master_node;
    if srv_error s =? -1 then skip_out n p f ((master_node ⊞ 1) `rem` n) else mret master_node
  end.

Definition XpnGetEntry (fd : Z) : prog W (Z * dirent) :=
  d ← get_fd fd;
  c ← get;
  part ← lift (xpn_parttable c !! fd_part d);
  '(n, p) ← XpnGetServers (part_id part) fd;
  if (n : Z) <=? 0 then mret (-1, dirent_zero)
  else
    master ← lift (hash (fd_path d) n 1);
    master_node ← skip_out n p (Z.to_nat n) master;
    fh0 ← lift (rdZ (fd_nfih d) master_node);
    '(_, fh) ← XpnGetFhDir fh0 p master_node (fd_path d);
    handles ← lift (wrZ (fd_nfih d) master_node fh);
    update_fd fd (set_nfih handles);;
    fh ← lift (fh : option nfi_fhandle);
    s ← get_server p master_node;
    zoom (call (nfi_readdir s fh)).

Definition xpn_simple_readdir (dirp : option DIR) : prog W (option dirent) :=
  match dirp with
  | None => fail EINVAL None
  | Some dirp =>
    if (dir_fd dirp <? 0) || (XPN_MAX_FILE - 1 <? dir_fd dirp) then fail EINVAL None
    else
      null ← fd_is_null (dir_fd dirp);
      if (null : bool) then fail ENOENT None
      else
        '(res, entry) ← XpnGetEntry (dir_fd dirp);
        mret (if negb ((res : Z) =? 0) then None else Some entry)
  end.

Definition xpn_simple_closedir (dirp : option DIR) : prog W Z :=
  match dirp with
  | None => fail EINVAL (-1)
  | Some dirp =>
    if (dir_fd dirp <? 0) || (XPN_MAX_FILE - 1 <? dir_fd dirp) then fail EINVAL (-1)
    else
      null ← fd_is_null (dir_fd dirp);
      if (null : bool) then fail ENOENT (-1)
      else release nfi_closedir (dir_fd dirp);; mret 0
  end.

(** ** Block locality *)

(** The server names of the replicas of a byte. *)
Definition locality_names (mdata : xpn_metadata) (servers : list nfi_server) (offset rl : Z) : option (list cstr) :=
  mapM (λ i,
    '(_, serv) ← XpnCalculateBlockMdata mdata offset i 0 0;
    s ← rdZ servers serv;
    '(_, b) ← ParseURL (srv_url s) (UrlBufs None (Some []) None None);
    u_server b) (seqZ 0 (rl + 1)).

Definition xpn_simple_get_block_locality (path : option cstr) (offset : Z) : prog W (Z * list cstr) :=
  match path with
  | None => fail EINVAL (-1, [])
  | Some path =>
    r ← resolve path;
    match r with
    | None => mret (-1, [])
    | Some (pd, abs_path) =>
      part ← part_of pd;
      '(n, p) ← XpnGetServers pd (-1);
      if (n : Z) <=? 0 then mret (-1, [])
      else
        '(res, mdata) ← XpnReadMetadata n p abs_path (part_replication_level part);
        if ((res : Z) <? 0) || negb (XPN_CHECK_MAGIC_NUMBER mdata) then mret (-1, [])
        else
          part' ← part_of pd;
          names ← lift (locality_names mdata (data_serv part') offset (part_replication_level part'));
          mret (res, names)
    end
  end.
End dir.
