(* ===== verification/Servers.v ===== *)
(** * Servers: rounds of requests to the servers of a partition

    The client sends a request to some servers and then waits for each.  This
    file gives the round a meaning of its own, [serve], on the list of servers
    and the environment, and shows that the loops of the code compute it. *)

From S2P Require Import Prelude Cstr Paths Layout Mdata Nfi Client MemFs FileTable Dir.

Section serve.
Context {W : Type} `{NO : !NfiOps W}.

Definition is_out (s : nfi_server) : bool := srv_error s =? -1.

(** Every server [i] with a request runs it, in order, unless it is out. *)
Fixpoint serve (req : Z → nfi_server → option nfi_request) (i : Z) (l : list nfi_server) (e : env W) : option (list nfi_server * env W) :=
  match l with
  | [] => Some ([], e)
  | s :: l' =>
    match req i s with
    | Some r =>
      if is_out s then '(ss, e2) ← serve req (i + 1) l' e; Some (s :: ss, e2)
      else
        '((ret, _), e1) ← nfi_do_operation s r e;
        '(ss, e2) ← serve req (i + 1) l' e1;
        Some (set_wrk ret (errno e1) s :: ss, e2)
    | None => '(ss, e2) ← serve req (i + 1) l' e; Some (s :: ss, e2)
    end
  end.

(** What the wait loop reports: a server that was asked, is not out and failed. *)
Definition failed (s : nfi_server) : bool := negb (is_out s) && (wrk_result s <? 0).
Fixpoint any_failed (sel : Z → bool) (i : Z) (l : list nfi_server) : bool :=
  match l with [] => false | s :: l' => (sel i && failed s) || any_failed sel (i + 1) l' end.
End serve.

Section rounds.
Context {W : Type} `{NO : !NfiOps W} `{SY : !Sys}.
Implicit Types c : client W.

Definition with_servers (p : nat) (part : xpn_partition) (l : list nfi_server) c : client W :=
  with_parts (<[p := set_serv l part]> (xpn_parttable c)) c.

Lemma set_serv_idem l l' part : set_serv l (set_serv l' part) = set_serv l part.
Proof. done. Qed.
Lemma set_serv_same part : set_serv (data_serv part) part = part.
Proof. by destruct part. Qed.
Lemma with_servers_same p part c : xpn_parttable c !! p = Some part → with_servers p part (data_serv part) c = c.
Proof. intros H. unfold with_servers, with_parts. rewrite set_serv_same, list_insert_id by done. by destruct c. Qed.
Lemma with_servers_idem p part l l' c e :
  with_servers p (set_serv l' part) l (with_env e (with_servers p part l' c)) = with_env e (with_servers p part l c).
Proof. unfold with_servers, with_env, with_parts. cbn. by rewrite list_insert_insert_eq. Qed.
Lemma with_servers_lookup p part l c e :
  (p < length (xpn_parttable c))%nat → xpn_parttable (with_env e (with_servers p part l c)) !! p = Some (set_serv l part).
Proof. intros H. cbn. by rewrite list_lookup_insert_eq. Qed.

Lemma on_server_run {A} p j (f : nfi_server → M (env W) (nfi_server * A)) c part s s' a e :
  xpn_parttable c !! p = Some part → rdZ (data_serv part) j = Some s → f s (cl_env c) = Some ((s', a), e) →
  on_server p j f c = Some (a, with_env e (with_servers p part (<[Z.to_nat j := s']> (data_serv part)) c)).
Proof.
  intros Hp Hs Hf. unfold on_server. mrun (by apply (get_server_run c p j part s)).
  mrun (unfold zoom; rewrite Hf; reflexivity). unfold put_server.
  erewrite bind_step; [reflexivity|]. mstep. mrun (cbn [xpn_parttable with_env]; unfold lift; rewrite Hp; reflexivity).
  pose proof (proj1 (rdZ_lookup _ _ _) Hs) as [Hj Hl]. apply lookup_lt_Some in Hl.
  mrun (unfold lift; rewrite (wrZ_run (data_serv part) j s') by lia; reflexivity). done.
Qed.

Lemma launch0_run s r (e : env W) :
  launch0 s r e = if is_out s then Some ((s, no_out), e)
                  else match nfi_do_operation s r e with
                       | Some ((ret, out), e1) => Some ((set_wrk ret (errno e1) s, out), e1)
                       | None => None
                       end.
Proof.
  unfold launch0, nfiworker_launch, is_out, mbind, M_bind. destruct (srv_error s =? -1); [done|].
  destruct (nfi_do_operation s r e) as [[[ret out] e1]|]; done.
Qed.

(** A launch loop is [serve]. *)
Lemma launch_serve p (req : Z → nfi_server → option nfi_request) (body : Z → prog W unit) N :
  (∀ i c part s, 0 <= i < N → xpn_parttable c !! p = Some part → rdZ (data_serv part) i = Some s →
    body i c = match req i s with Some r => (on_server p i (λ s', launch0 s' r);; mret tt) c | None => Some (tt, c) end) →
  ∀ suf pre c part suf' e', Z.of_nat (length pre + length suf) = N → xpn_parttable c !! p = Some part → data_serv part = pre ++ suf →
    serve req (Z.of_nat (length pre)) suf (cl_env c) = Some (suf', e') →
    forM_ (seqZ (Z.of_nat (length pre)) (Z.of_nat (length suf))) body c
    = Some (tt, with_env e' (with_servers p part (pre ++ suf') c)).
Proof.
  intros Hbody. induction suf as [|s suf IH]; intros pre c part suf' e' HN Hp Hd Hs.
  - cbn in Hs. injection Hs as <- <-. rewrite (seqZ_nil _ (Z.of_nat (length []))) by (cbn; lia). cbn [forM_]. rewrite <- Hd, with_servers_same by done. by destruct c.
  - cbn [length]. rewrite seqZ_cons by lia. replace (Z.pred (Z.of_nat (S (length suf)))) with (Z.of_nat (length suf)) by lia.
    cbn [forM_]. assert (rdZ (data_serv part) (Z.of_nat (length pre)) = Some s) as Hr.
    { rewrite Hd. rewrite rdZ_of_nat. by apply list_lookup_middle. }
    assert (∀ s1 e1, body (Z.of_nat (length pre)) c = Some (tt, with_env e1 (with_servers p part (pre ++ s1 :: suf) c)) →
      serve req (Z.of_nat (length pre) + 1) suf e1 = Some (tail suf', e') → suf' = s1 :: tail suf' →
      (body (Z.of_nat (length pre));; forM_ (seqZ (Z.succ (Z.of_nat (length pre))) (Z.of_nat (length suf))) body) c
      = Some (tt, with_env e' (with_servers p part (pre ++ suf') c))) as Hstep.
    { intros s1 e1 E1 E2 E3. mrun (exact E1).
      specialize (IH (pre ++ [s1]) (with_env e1 (with_servers p part (pre ++ s1 :: suf) c)) (set_serv (pre ++ s1 :: suf) part) (tail suf') e').
      rewrite length_app in IH. cbn [length] in IH. replace (Z.of_nat (length pre + 1)) with (Z.of_nat (length pre) + 1) in IH by lia.
      rewrite <- Z.add_1_r. rewrite IH.
      2: { rewrite <- HN. cbn [length]. lia. }
      - rewrite with_servers_idem, <- app_assoc. cbn [app]. rewrite <- E3. done.
      - apply with_servers_lookup. by apply lookup_lt_Some in Hp.
      - cbn. by rewrite <- app_assoc.
      - exact E2. }
    assert (Z.to_nat (Z.of_nat (length pre)) = length pre + 0)%nat as Hins by lia.
    cbn [serve] in Hs. cbn [length] in HN. pose proof (Hbody (Z.of_nat (length pre)) c part s ltac:(lia) Hp Hr) as Eb.
    assert (∀ sx ex, serve req (Z.of_nat (length pre) + 1) suf ex = Some (sx, e') → suf' = s :: sx →
      body (Z.of_nat (length pre)) c = Some (tt, with_env ex c) →
      (body (Z.of_nat (length pre));; forM_ (seqZ (Z.succ (Z.of_nat (length pre))) (Z.of_nat (length suf))) body) c
      = Some (tt, with_env e' (with_servers p part (pre ++ suf') c))) as Hskip.
    { intros sx ex E1 -> E2. apply (Hstep s ex); [|done|done]. rewrite E2, <- Hd, with_servers_same by done. done. }
    destruct (req (Z.of_nat (length pre)) s) as [r|].
    + pose proof (launch0_run s r (cl_env c)) as El. destruct (is_out s) eqn:Eo.
      * destruct (serve req _ suf (cl_env c)) as [[sx ex]|] eqn:E1; [|done]. cbn in Hs. injection Hs as <- ->.
        apply (Hskip sx (cl_env c)); [done|done|]. rewrite Eb.
        erewrite bind_step by (eapply (on_server_run p _ (λ s', launch0 s' r)); [exact Hp|exact Hr|exact El]).
        rewrite list_insert_id by (by apply rdZ_lookup in Hr as [_ Hr]). rewrite with_servers_same by done. done.
      * destruct (nfi_do_operation s r (cl_env c)) as [[[ret out] e1]|] eqn:E0; [|done]. cbn [mbind option_bind] in Hs.
        destruct (serve req _ suf e1) as [[sx ex]|] eqn:E1; [|done]. cbn in Hs. injection Hs as <- ->.
        apply (Hstep (set_wrk ret (errno e1) s) e1); [|done|done]. rewrite Eb.
        erewrite bind_step by (eapply (on_server_run p _ (λ s', launch0 s' r)); [exact Hp|exact Hr|exact El]).
        rewrite Hins, Hd, insert_app_r. done.
    + destruct (serve req _ suf (cl_env c)) as [[sx ex]|] eqn:E1; [|done]. cbn in Hs. injection Hs as <- ->.
      apply (Hskip sx (cl_env c)); [done|done|]. rewrite Eb. by destruct c.
Qed.

(** *** Waiting *)

(** What [nfiworker_wait] returns. *)
Definition wait_result (s : nfi_server) : Z := if is_out s then 0 else wrk_result s.
Definition last_result (l : list nfi_server) (r : Z) : Z := match last l with Some s => wait_result s | None => r end.
(** Only [errno] changed. *)
Definition errno_only c c' : Prop := ∃ e, c' = with_env (set_errno e (cl_env c)) c.

Lemma errno_only_refl c : errno_only c c.
Proof. exists (errno (cl_env c)). by destruct c as [[] ? ? ? ? ? ?]. Qed.
Lemma errno_only_trans c1 c2 c3 : errno_only c1 c2 → errno_only c2 c3 → errno_only c1 c3.
Proof. intros [e1 ->] [e2 ->]. by exists e2. Qed.
Lemma errno_only_parts c c' : errno_only c c' → xpn_parttable c' = xpn_parttable c.
Proof. by intros [e ->]. Qed.

Lemma failed_wait s : failed s = (wait_result s <? 0).
Proof. unfold failed, wait_result. by destruct (is_out s). Qed.

Lemma wait_server_run p j c part s :
  xpn_parttable c !! p = Some part → rdZ (data_serv part) j = Some s →
  ∃ c', wait_server p j c = Some (wait_result s, c') ∧ errno_only c c'.
Proof.
  intros Hp Hs. unfold wait_server. mrun (by apply (get_server_run c p j part s)).
  unfold zoom, nfiworker_wait, wait_result, is_out. destruct (srv_error s =? -1).
  - eexists. split; [reflexivity|]. destruct (errno_only_refl c) as [e He]. exists e. rewrite <- He. by destruct c.
  - destruct (wrk_errno s =? 0); cbn [negb when]; mstep; (eexists; split; [reflexivity|]).
    + destruct (errno_only_refl c) as [e He]. exists e. rewrite <- He. by destruct c.
    + by exists (wrk_errno s).
Qed.

Lemma wait_all_run p suf : ∀ pre c part r err,
  xpn_parttable c !! p = Some part → data_serv part = pre ++ suf →
  ∃ c', foldM (seqZ (Z.of_nat (length pre)) (Z.of_nat (length suf))) (λ '(_, err) i,
      res ← wait_server p i; mret ((res : Z), (err : bool) || (res <? 0))) (r, err) c
    = Some ((last_result suf r, err || any_failed (λ _, true) (Z.of_nat (length pre)) suf), c') ∧ errno_only c c'.
Proof.
  induction suf as [|s suf IH]; intros pre c part r err Hp Hd.
  - rewrite (seqZ_nil _ (Z.of_nat (length []))) by (cbn; lia). exists c. cbn. rewrite orb_false_r. split; [done|apply errno_only_refl].
  - cbn [length]. rewrite seqZ_cons by lia. replace (Z.pred (Z.of_nat (S (length suf)))) with (Z.of_nat (length suf)) by lia.
    cbn [foldM]. assert (rdZ (data_serv part) (Z.of_nat (length pre)) = Some s) as Hr.
    { rewrite Hd. rewrite rdZ_of_nat. by apply list_lookup_middle. }
    destruct (wait_server_run p _ c part s Hp Hr) as (c1 & E1 & H1).
    erewrite bind_step by (mrun (exact E1); reflexivity).
    destruct (IH (pre ++ [s]) c1 part (wait_result s) (err || (wait_result s <? 0))) as (c2 & E2 & H2).
    + by rewrite (errno_only_parts _ _ H1).
    + by rewrite <- app_assoc.
    + exists c2. split; [|by apply errno_only_trans with c1].
      rewrite length_app in E2. cbn [length] in E2. replace (Z.of_nat (length pre + 1)) with (Z.of_nat (length pre) + 1) in E2 by lia.
      rewrite <- Z.add_1_r, E2. cbn [any_failed]. rewrite failed_wait, orb_assoc. do 3 f_equal.
      unfold last_result. destruct suf as [|s' suf]; [done|]. cbn [last]. destruct (last (s' :: suf)) eqn:El; [done|].
      by apply last_None in El.
Qed.

Lemma wait_affected_run m dir node p (sel : Z → bool) suf : ∀ pre c part err,
  (∀ i, 0 <= i < Z.of_nat (length pre + length suf) → XpnCheckServAffectedByOp m dir node (Z.of_nat (length pre + length suf)) i = Some (sel i)) →
  xpn_parttable c !! p = Some part → data_serv part = pre ++ suf →
  ∃ c', foldM (seqZ (Z.of_nat (length pre)) (Z.of_nat (length suf))) (λ err i,
      b ← lift (XpnCheckServAffectedByOp m dir node (Z.of_nat (length pre + length suf)) i);
      if (b : bool) then res ← wait_server p i; mret (err || ((res : Z) <? 0)) else mret err) err c
    = Some (err || any_failed sel (Z.of_nat (length pre)) suf, c') ∧ errno_only c c'.
Proof.
  induction suf as [|s suf IH]; intros pre c part err Hsel Hp Hd.
  - rewrite (seqZ_nil _ (Z.of_nat (length []))) by (cbn; lia). exists c. cbn. rewrite orb_false_r. split; [done|apply errno_only_refl].
  - cbn [length] in *. rewrite seqZ_cons by lia. replace (Z.pred (Z.of_nat (S (length suf)))) with (Z.of_nat (length suf)) by lia.
    cbn [foldM]. assert (rdZ (data_serv part) (Z.of_nat (length pre)) = Some s) as Hr.
    { rewrite Hd. rewrite rdZ_of_nat. by apply list_lookup_middle. }
    destruct (wait_server_run p _ c part s Hp Hr) as (c1 & E1 & H1).
    assert (∃ c2, errno_only c c2 ∧ (b ← lift (XpnCheckServAffectedByOp m dir node (Z.of_nat (length pre + S (length suf))) (Z.of_nat (length pre)));
      if (b : bool) then res ← wait_server p (Z.of_nat (length pre)); mret (err || ((res : Z) <? 0)) else mret err) c
      = Some (err || (sel (Z.of_nat (length pre)) && failed s), c2)) as (c2 & H2 & E2).
    { destruct (sel (Z.of_nat (length pre))) eqn:Es.
      - exists c1. split; [done|]. mrun (unfold lift; rewrite Hsel by lia; rewrite Es; reflexivity). mrun (exact E1). by rewrite failed_wait.
      - exists c. split; [apply errno_only_refl|]. mrun (unfold lift; rewrite Hsel by lia; rewrite Es; reflexivity). by rewrite orb_false_r. }
    mrun (exact E2).
    replace (length pre + S (length suf))%nat with (length (pre ++ [s]) + length suf)%nat in Hsel |- * by (rewrite length_app; cbn; lia).
    destruct (IH (pre ++ [s]) c2 part (err || (sel (Z.of_nat (length pre)) && failed s)) Hsel) as (c3 & E3 & H3).
    + by rewrite (errno_only_parts _ _ H2).
    + by rewrite <- app_assoc.
    + exists c3. split; [|by apply errno_only_trans with c2].
      replace (Z.succ (Z.of_nat (length pre))) with (Z.of_nat (length (pre ++ [s]))) by (rewrite length_app; cbn; lia).
      rewrite E3. cbn [any_failed]. rewrite orb_assoc.
      replace (Z.of_nat (length (pre ++ [s]))) with (Z.of_nat (length pre) + 1) by (rewrite length_app; cbn; lia). done.
Qed.
End rounds.
