(* ===== verification/Namespace.v ===== *)
(** * Namespace: what the operations on names do to the servers

    mkdir, rmdir and unlink as rounds of requests ([serve]), and the search for
    a working server of readdir. *)

From S2P Require Import Prelude Cstr Paths Layout Mdata Nfi Client MemFs FileTable Blocks Rw Affected Dir Servers.

Section names.
Context {W : Type} `{NO : !NfiOps W} `{SY : !Sys}.
Implicit Types c : client W.

(** A round of [launch_all] and [wait_all]. *)
Lemma round_all p (req : nfi_server → nfi_request) (f : nfi_server → M (env W) (nfi_server * nfi_out)) c part l' e' :
  (∀ s, f s = launch0 s (req s)) → xpn_parttable c !! p = Some part →
  serve (λ _ s, Some (req s)) 0 (data_serv part) (cl_env c) = Some (l', e') →
  launch_all (Z.of_nat (length (data_serv part))) p f c = Some (tt, with_env e' (with_servers p part l' c)).
Proof.
  intros Hf Hp Hs. unfold launch_all.
  apply (launch_serve p (λ _ s, Some (req s)) (λ i, on_server p i f;; mret tt)) with (pre := []) (N := Z.of_nat (length (data_serv part))); [|done|exact Hp|done|exact Hs].
  intros i c1 part1 s _ Hp1 Hs1. unfold on_server. 
  unfold mbind, M_bind. rewrite (get_server_run c1 p i part1 s Hp1 Hs1). unfold zoom. by rewrite Hf.
Qed.

Lemma serve_length (req : Z → nfi_server → option nfi_request) l : ∀ i (e : env W) l' e',
  serve req i l e = Some (l', e') → length l' = length l.
Proof.
  induction l as [|s l IH]; intros i e l' e' H; cbn [serve] in H; [by injection H as <- _|].
  assert (∀ sx ex s1, serve req (i + 1) l ex = Some (sx, e') → l' = s1 :: sx → length l' = length (s :: l)) as HH.
  { intros sx ex s1 H1 ->. cbn. f_equal. by apply (IH (i + 1) ex _ e'). }
  destruct (req i s) as [r|]; [destruct (is_out s)|].
  - destruct (serve req (i + 1) l e) as [[sx ex]|] eqn:E; [|done]. cbn in H. injection H as <- <-. by eapply HH.
  - destruct (nfi_do_operation s r e) as [[[ret out] e1]|]; [|done]. cbn [mbind option_bind] in H.
    destruct (serve req (i + 1) l e1) as [[sx ex]|] eqn:E; [|done]. cbn in H. injection H as <- <-. by eapply HH.
  - destruct (serve req (i + 1) l e) as [[sx ex]|] eqn:E; [|done]. cbn in H. injection H as <- <-. by eapply HH.
Qed.

Lemma round_wait p c part l' e' :
  xpn_parttable c !! p = Some part → length l' = length (data_serv part) →
  ∃ c', wait_all (Z.of_nat (length (data_serv part))) p (with_env e' (with_servers p part l' c))
    = Some ((last_result l' 0, any_failed (λ _, true) 0 l'), c') ∧ errno_only (with_env e' (with_servers p part l' c)) c'.
Proof.
  intros Hp Hl. unfold wait_all. rewrite <- Hl.
  destruct (wait_all_run p l' [] (with_env e' (with_servers p part l' c)) (set_serv l' part) 0 false) as (c' & E & H).
  - apply with_servers_lookup. by apply lookup_lt_Some in Hp.
  - done.
  - exists c'. split; [|done]. etransitivity; [exact E|]. done.
Qed.
End names.

(** [xpn_simple_mkdir] asks every server that is not out, once and in
    order, for the directory of its own URL, and reports an error if and only
    if one of them does; nothing else of the client changes. *)
Theorem mkdir_asks_every_server {W : Type} `{NO : !NfiOps W} `{SY : !Sys} (c c1 : client W) path perm pd abs p part l' e' :
  resolve path c = Some (Some (pd, abs), c1) →
  XpnGetServers pd (-1) c1 = Some ((Z.of_nat (length (data_serv part)), p), c1) →
  xpn_parttable c1 !! p = Some part → data_serv part ≠ [] →
  serve (λ _ s, Some (op_mkdir (XpnGetURLServer s abs) perm)) 0 (data_serv part) (cl_env c1) = Some (l', e') →
  ∃ c', xpn_simple_mkdir (Some path) perm c = Some ((if any_failed (λ _, true) 0 l' then -1 else 0), c') ∧
    errno_only (with_env e' (with_servers p part l' c1)) c'.
Proof.
  intros Hres Hsrv Hp Hne Hs. unfold xpn_simple_mkdir. mrun (exact Hres). mrun (exact Hsrv).
  destruct (data_serv part) as [|s0 ss] eqn:Ed; [done|]. rewrite (proj2 (Z.leb_gt _ 0)) by (cbn; lia). rewrite <- Ed in *.
  mrun (apply (round_all p (λ s, op_mkdir (XpnGetURLServer s abs) perm)); [done|exact Hp|exact Hs]).
  destruct (round_wait p c1 part l' e' Hp (serve_length _ _ _ _ _ _ Hs)) as (c' & E & H).
  mrun (exact E). exists c'. split; [done|exact H].
Qed.

(** The partition of [mclient] with server 2 out. *)
Definition part_two_out : xpn_partition :=
  set_serv (<[2%nat := NfiServer 2 (str "mem://s/d") (-1) 0 0]> (mserver <$> seqZ 0 4)) (mpart 0).
Definition client_two_out : client memfs := with_parts [part_two_out] (mclient 0).

Definition mkdir_round : option (list nfi_server * env memfs) :=
  serve (λ _ s, Some (op_mkdir (XpnGetURLServer s (str "/d")) 493)) 0 (data_serv part_two_out) (cl_env client_two_out).

Lemma mkdir_asks_every_server_witness :
  match xpn_simple_mkdir (Some (str "/xpn/d")) 493 client_two_out with
  | Some (r, c') => r = 0 ∧ length (map_to_list (world (cl_env c'))) = 3%nat
  | None => False
  end.
Proof.
  assert (match mkdir_round with
          | Some (l', e') => any_failed (λ _, true) 0 l' = false ∧ length (map_to_list (world e')) = 3%nat
          | None => False
          end) as HS by (vm_compute; split; reflexivity).
  destruct mkdir_round as [[l' e']|] eqn:Es; [destruct HS as [Ef Ew]|contradiction].
  destruct (mkdir_asks_every_server client_two_out client_two_out (str "/xpn/d") 493 0 (str "/d") 0 part_two_out l' e') as (c' & E & e & ->);
    [vm_compute; reflexivity|vm_compute; reflexivity|reflexivity|discriminate|exact Es|].
  rewrite E, Ef. split; [reflexivity|exact Ew].
Defined.

(** C28: [xpn_simple_unlink] asks exactly the servers that
    [XpnCheckServAffectedByOp] selects and that are not out, and reports an
    error if and only if one of them does. *)
Theorem unlink_asks_affected_servers {W : Type} `{NO : !NfiOps W} `{SY : !Sys} (c c1 c2 : client W)
    path pd abs p part0 part r m node dir sel l' e' :
  let n := Z.of_nat (length (data_serv part)) in
  resolve path c = Some (Some (pd, abs), c1) → XpnGetServers pd (-1) c1 = Some ((n, p), c1) → part_of pd c1 = Some (part0, c1) →
  XpnReadMetadata n p abs (part_replication_level part0) c1 = Some ((r, m), c2) →
  hash abs n 1 = Some node → hash abs n 0 = Some dir →
  xpn_parttable c2 !! p = Some part → 0 < n →
  (∀ i, 0 <= i < n → XpnCheckServAffectedByOp m dir node n i = Some (sel i)) →
  serve (λ i s, if sel i : bool then Some (op_remove (XpnGetURLServer s abs)) else None) 0 (data_serv part) (cl_env c2) = Some (l', e') →
  ∃ c', xpn_simple_unlink (Some path) c = Some ((if any_failed sel 0 l' then -1 else 0), c') ∧
    errno_only (with_env e' (with_servers p part l' c2)) c'.
Proof.
  intros n Hres Hsrv Hpart0 Hread Hnode Hdir Hp Hn Hsel Hs. unfold xpn_simple_unlink, xpn_internal_remove.
  mrun (exact Hres). mrun (exact Hsrv). rewrite (proj2 (Z.leb_gt n 0)) by done.
  mrun (exact Hpart0). mrun (exact Hread). mrun (unfold lift; rewrite Hnode; reflexivity). mrun (unfold lift; rewrite Hdir; reflexivity).
  assert (launch_affected m dir node n (λ i, s ← get_server p i;
      on_server p i (λ s', nfi_worker_do_remove s' (XpnGetURLServer s abs));; mret tt) c2
    = Some (tt, with_env e' (with_servers p part l' c2))) as HL.
  { unfold launch_affected, n.
    apply (launch_serve p (λ i s, if sel i : bool then Some (op_remove (XpnGetURLServer s abs)) else None)) with (pre := []) (N := n);
      [|done|exact Hp|done|exact Hs].
    intros i c3 part3 s Hi Hp3 Hs3. mrun (unfold lift; fold n; rewrite Hsel by exact Hi; reflexivity).
    destruct (sel i); cbn [when]; [|done]. by mrun (apply (get_server_run c3 p i part3 s Hp3 Hs3)). }
  mrun (exact HL). pose proof (serve_length _ _ _ _ _ _ Hs) as Hl.
  destruct (wait_affected_run m dir node p sel l' [] (with_env e' (with_servers p part l' c2)) (set_serv l' part) false) as (c' & E & H).
  - intros i. cbn [length]. rewrite Nat.add_0_l, Hl. exact (Hsel i).
  - apply with_servers_lookup. by apply lookup_lt_Some in Hp.
  - done.
  - exists c'. split; [|exact H]. unfold wait_affected. cbn [length app] in E. rewrite Nat.add_0_l, Hl in E. fold n in E.
    mrun (exact E). done.
Qed.

(** A new file, on the master servers of its name and of its directory. *)
Definition mdata_f : xpn_metadata := default mdata_zero (XpnCreateMetadataExtern (str "/f") 4 4 0).
Definition world_f : memfs :=
  <[key (mserver 3) (str "mem://s/d/f") := empty_file]> {[key (mserver 2) (str "mem://s/d/f") := MFile [] mdata_f false]}.
Definition client_file : client memfs := with_env (Env 0 ∅ world_f) (mclient 0).

Definition part_file : xpn_partition := default (mpart 0) (xpn_parttable client_file !! 0%nat).
Definition read_file : option (Z * xpn_metadata * client memfs) := XpnReadMetadata 4 0 (str "/f") 0 client_file.
Definition file_mdata : xpn_metadata := match read_file with Some (_, m, _) => m | None => mdata_zero end.
Definition client_read : client memfs := match read_file with Some (_, c) => c | None => client_file end.
Definition part_read : xpn_partition := default (mpart 0) (xpn_parttable client_read !! 0%nat).
Definition file_sel (i : Z) : bool := default false (XpnCheckServAffectedByOp file_mdata 3 2 4 i).
Definition unlink_round : option (list nfi_server * env memfs) :=
  serve (λ i s, if file_sel i then Some (op_remove (XpnGetURLServer s (str "/f"))) else None) 0 (data_serv part_read) (cl_env client_read).

Lemma unlink_asks_affected_servers_witness :
  match xpn_simple_unlink (Some (str "/xpn/f")) client_file with
  | Some (r, c') => r = 0 ∧ length (map_to_list (world (cl_env client_file))) = 2%nat ∧ length (map_to_list (world (cl_env c'))) = 0%nat
  | None => False
  end.
Proof.
  assert (match unlink_round with
          | Some (l', e') => any_failed file_sel 0 l' = false ∧ length (map_to_list (world e')) = 0%nat
          | None => False
          end) as HS by (vm_compute; split; reflexivity).
  destruct unlink_round as [[l' e']|] eqn:Es; [destruct HS as [Ef Ew]|contradiction].
  assert (read_file = Some (0, file_mdata, client_read)) as Er by (vm_cast_no_check (eq_refl read_file)).
  destruct (unlink_asks_affected_servers client_file client_file client_read (str "/xpn/f") 0 (str "/f") 0 part_file part_read 0
    file_mdata 2 3 file_sel l' e') as (c' & E & e & ->).
  - vm_cast_no_check (eq_refl (Some (Some (0, str "/f"), client_file))).
  - vm_cast_no_check (eq_refl (Some (4, 0%nat, client_file))).
  - vm_cast_no_check (eq_refl (Some (part_file, client_file))).
  - exact Er.
  - vm_compute; reflexivity.
  - vm_compute; reflexivity.
  - vm_compute; reflexivity.
  - vm_compute; reflexivity.
  - intros i Hi. assert (i = 0 ∨ i = 1 ∨ i = 2 ∨ i = 3) as [-> | [-> | [-> | ->]]] by (change (Z.of_nat (length (data_serv part_read))) with 4 in Hi; lia); vm_compute; reflexivity.
  - exact Es.
  - rewrite E, Ef. split; [reflexivity|]. split; [vm_compute; reflexivity|exact Ew].
Defined.

Section search.
Context {W : Type} `{NO : !NfiOps W} `{SY : !Sys}.
Context (c : client W) (p : nat) (part : xpn_partition) (Hp : xpn_parttable c !! p = Some part).
Let n := Z.of_nat (length (data_serv part)).
Context (Hn : n < 2 ^ 31 - 1).
(** Server [i] of the partition is out. *)
Definition out_at (i : Z) : Prop := ∃ s, rdZ (data_serv part) i = Some s ∧ srv_error s = -1.
Definition works_at (i : Z) : Prop := ∃ s, rdZ (data_serv part) i = Some s ∧ srv_error s ≠ -1.

Lemma skip_out_step fuel i :
  0 <= i < n → out_at i → skip_out n p (S fuel) i c = skip_out n p fuel ((i + 1) mod n) c.
Proof using Hp Hn.
  intros Hi (s & Hs & He). cbn [skip_out]. mrun (by apply (get_server_run c p i part s)).
  rewrite He. cbn [Z.eqb]. rewrite i32_id, rem_mod by lia. done.
Qed.

Lemma skip_out_found fuel i k :
  0 <= i < n → (k < fuel)%nat → works_at ((i + Z.of_nat k) mod n) →
  (∀ k', (k' < k)%nat → out_at ((i + Z.of_nat k') mod n)) →
  skip_out n p fuel i c = Some ((i + Z.of_nat k) mod n, c).
Proof using Hp Hn.
  revert fuel i. induction k as [|k IH]; intros [|fuel] i Hi Hk Hw Ho; try lia.
  - rewrite Z.add_0_r, Z.mod_small in Hw |- * by done. destruct Hw as (s & Hs & He). cbn [skip_out].
    mrun (by apply (get_server_run c p i part s)). by rewrite (proj2 (Z.eqb_neq _ _) He).
  - pose proof (Ho 0%nat ltac:(lia)) as H0. rewrite Z.add_0_r, Z.mod_small in H0 by done. rewrite skip_out_step by done.
    assert (∀ t, ((i + 1) mod n + Z.of_nat t) mod n = (i + Z.of_nat (S t)) mod n) as Em
      by (intros t; rewrite Z.add_mod_idemp_l by lia; f_equal; lia).
    rewrite <- Em. apply IH; [apply Z.mod_pos_bound; lia|lia|by rewrite Em|]. intros k' Hk'. rewrite Em. apply Ho. lia.
Qed.

Lemma skip_out_never fuel i : 0 <= i < n → (∀ i, 0 <= i < n → out_at i) → skip_out n p fuel i c = None.
Proof using Hp Hn.
  intros Hi Ho. revert i Hi. induction fuel as [|fuel IH]; intros i Hi; [done|].
  rewrite skip_out_step by auto. apply IH, Z.mod_pos_bound. lia.
Qed.
End search.

(** The search of [XpnGetEntry] for a server to read a directory from,
    starting at the master node, stops at the first server that works, after
    at most one round; when every server is out it never stops, whatever bound
    is put on it. *)
Theorem readdir_server_search {W : Type} `{NO : !NfiOps W} `{SY : !Sys} (c : client W) p part master :
  let n := Z.of_nat (length (data_serv part)) in
  xpn_parttable c !! p = Some part → n < 2 ^ 31 - 1 → 0 <= master < n →
  (∀ k, (k < length (data_serv part))%nat → works_at part ((master + Z.of_nat k) mod n) →
    (∀ k', (k' < k)%nat → out_at part ((master + Z.of_nat k') mod n)) →
    skip_out n p (Z.to_nat n) master c = Some ((master + Z.of_nat k) mod n, c)) ∧
  ((∀ i, 0 <= i < n → out_at part i) → ∀ fuel, skip_out n p fuel master c = None).
Proof.
  intros n Hp Hn Hm. split.
  - intros k Hk Hw Ho. apply (skip_out_found c p part Hp Hn); [done|unfold n; lia|done|done].
  - intros Ho fuel. by apply (skip_out_never c p part Hp Hn).
Qed.

Lemma readdir_server_search_witness :
  skip_out 4 0 4 2 client_two_out = Some (3, client_two_out).
Proof.
  destruct (readdir_server_search client_two_out 0 part_two_out 2) as [H _]; [reflexivity|zcalc|zcalc|].
  apply (H 1%nat); [zcalc| |].
  - eexists. split; [reflexivity|]. discriminate.
  - intros k' Hk. assert (k' = 0)%nat as -> by lia. eexists. split; [reflexivity|]. reflexivity.
Defined.
