(* ===== verification/Conf.v ===== *)
(** * Conf: the configuration file

    The tokens, the parser and the look-up functions of
    src/src/xpn_client/xpn/xpn_simple/policy/xpn_conf_reader.c.  A [FILE] is
    the characters left, the end-of-file flag and the line counter; [None] is
    undefined behaviour: a token too long for its buffer, or a buffer read
    before it was written.  [realloc] and [strdup] succeed. *)

From S2P Require Import Prelude Cstr Paths.

(** ** Tokens *)

Inductive elto := ELTO_EOF | TOKEN | OPEN_BRACKET | CLOSE_BRACKET | EQUAL | COMMENT.
#[export] Instance elto_eq_dec : EqDecision elto.
Proof. solve_decision. Defined.

Definition MAX_TOKEN_LEN : Z := 1024.
Record stream := Stream { s_rest : list ascii; s_eof : bool; s_line : Z }.

Definition LF : ascii := "010"%char.
Definition CR : ascii := "013"%char.
Definition TAB : ascii := "009"%char.
(** [strchr] finds the terminator of its string too. *)
Definition strchr (set : list ascii) (a : ascii) : bool := existsb (ceqb a) (NUL :: set).
Definition blanks : list ascii := [" "%char; TAB; LF; CR].
Definition newlines : list ascii := [LF; CR].
Definition specials : list ascii := ["["; "]"; "="; "#"; " "; TAB]%char.

Fixpoint skip_chars (r : list ascii) (line : Z) : elto * stream :=
  match r with
  | [] => (ELTO_EOF, Stream [] true line)
  | a :: r' =>
    if negb (strchr blanks a) then (TOKEN, Stream (a :: r') false line)
    else skip_chars r' (if ceqb a LF || ceqb a CR then line + 1 else line)
  end.
Definition skip_spaces (s : stream) : elto * stream := skip_chars (s_rest s) (s_line s).

(** A token with its terminator fits the buffer. *)
Definition fits (tok : cstr) : bool := strlen tok <? MAX_TOKEN_LEN.

Fixpoint comment_chars (tok : cstr) (r : list ascii) (line : Z) : elto * cstr * stream :=
  match r with
  | [] => ((if (length tok =? 0)%nat then ELTO_EOF else COMMENT), tok, Stream [] true line)
  | a :: r' =>
    if strchr newlines a then (COMMENT, tok, Stream r' false (line + 1))
    else comment_chars (tok ++ [a]) r' line
  end.
Definition read_comment (r : list ascii) (line : Z) : option (elto * cstr * stream) :=
  let '(e, tok, s) := comment_chars [] r line in
  if fits tok then Some (e, tok, s) else None.

Fixpoint token_chars (tok : cstr) (r : list ascii) (line : Z) : elto * cstr * stream :=
  match r with
  | [] => ((if (length tok =? 0)%nat then ELTO_EOF else TOKEN), tok, Stream [] true line)
  | a :: r' =>
    if strchr specials a then (TOKEN, tok, Stream (a :: r') false line)
    else if strchr newlines a then (TOKEN, tok, Stream r' false (line + 1))
    else token_chars (tok ++ [a]) r' line
  end.
Definition read_token (s : stream) : option (elto * cstr * stream) :=
  match s_rest s with
  | [] => Some (ELTO_EOF, [], Stream [] true (s_line s))
  | a :: r =>
    let s' := Stream r false (s_line s) in
    if ceqb a "[" then Some (OPEN_BRACKET, [a], s')
    else if ceqb a "]" then Some (CLOSE_BRACKET, [a], s')
    else if ceqb a "=" then Some (EQUAL, [a], s')
    else if ceqb a "#" then read_comment r (s_line s)
    else
      let '(e, tok, s'') := token_chars [] (a :: r) (s_line s) in
      if fits tok then Some (e, tok, s'') else None
  end.

(** At the end of the file the buffer keeps what it held ([tok]). *)
Definition next_token (tok : option cstr) (s : stream) : option (elto * option cstr * stream) :=
  let '(e, s') := skip_spaces s in
  if bool_decide (e = ELTO_EOF) then Some (ELTO_EOF, tok, s')
  else '(e', t, s'') ← read_token s'; Some (e', Some t, s'').

(** ** The parser *)

Definition XPN_CONF_DEFAULT_REPLICATION_LEVEL : Z := 0.
Definition XPN_CONF_DEFAULT_BLOCKSIZE : Z := 512 * KB.
Definition XPN_CONF_TAG_PARTITION_NAME : cstr := str "partition_name".
Definition XPN_CONF_TAG_REPLICATION_LEVEL : cstr := str "replication_level".
Definition XPN_CONF_TAG_BLOCKSIZE : cstr := str "bsize".
Definition XPN_CONF_TAG_SERVER_URL : cstr := str "server_url".

Record conf_file_data_partition := ConfPart {
  partition_name : option cstr; cf_replication_level : Z; cf_bsize : Z; cf_servers : list cstr }.
Record conf_file_data := ConfData { lines_n : Z; partitions : list conf_file_data_partition }.
Definition new_partition : conf_file_data_partition :=
  ConfPart None XPN_CONF_DEFAULT_REPLICATION_LEVEL XPN_CONF_DEFAULT_BLOCKSIZE [].

(** [PROCESS <field> = <value>]; [Some None] for an unknown key. *)
Definition process_field (key value : cstr) (p : conf_file_data_partition) : option (option conf_file_data_partition) :=
  if strcmp_eq key XPN_CONF_TAG_SERVER_URL then
    Some (Some (ConfPart (partition_name p) (cf_replication_level p) (cf_bsize p) (cf_servers p ++ [value])))
  else if strcasecmp_eq key XPN_CONF_TAG_BLOCKSIZE then
    b ← getSizeFactor value;
    Some (Some (ConfPart (partition_name p) (cf_replication_level p) b (cf_servers p)))
  else if strcasecmp_eq key XPN_CONF_TAG_REPLICATION_LEVEL then
    Some (Some (ConfPart (partition_name p) (atoi value) (cf_bsize p) (cf_servers p)))
  else if strcasecmp_eq key XPN_CONF_TAG_PARTITION_NAME then
    Some (Some (ConfPart (Some value) (cf_replication_level p) (cf_bsize p) (cf_servers p)))
  else Some None.

(** The inner [while]: the fields of a partition.  The result is the state
    after the loop, or [None] inside for the error exit. *)
Fixpoint fields_loop (fuel : nat) (s : stream) (e : elto) (value : option cstr) (p : conf_file_data_partition)
    : option (option (stream * elto * option cstr * conf_file_data_partition)) :=
  match fuel with
  | O => None
  | S f =>
    if s_eof s then Some (Some (s, e, value, p))
    else
      '(e, key, s) ← next_token None s;
      if bool_decide (e = OPEN_BRACKET) then Some (Some (s, e, value, p))
      else if bool_decide (e = COMMENT) then fields_loop f s e value p
      else if negb (bool_decide (e = TOKEN)) then Some None
      else
        '(e, _, s) ← next_token None s;
        if negb (bool_decide (e = EQUAL)) then Some None
        else
          '(e, value, s) ← next_token value s;
          if negb (bool_decide (e = TOKEN)) then Some None
          else
            k ← key; v ← value;
            r ← process_field k v p;
            match r with
            | None => Some None
            | Some p' => let '(e, s) := skip_spaces s in fields_loop f s e value p'
            end
  end.

(** The outer [while]: the partitions.  [Some None] is the result -1. *)
Fixpoint load_loop (fuel : nat) (s : stream) (e : elto) (value : option cstr) (parts : list conf_file_data_partition)
    : option (option conf_file_data) :=
  match fuel with
  | O => None
  | S f =>
    if s_eof s then Some (Some (ConfData (s_line s) parts))
    else if bool_decide (e = COMMENT) then
      '(e, _, s) ← next_token None s; load_loop f s e value parts
    else if negb (bool_decide (e = OPEN_BRACKET)) then Some None
    else
      '(_, value, s) ← next_token value s;
      v ← value;
      if negb (strcasecmp_eq v (str "partition")) then Some None
      else
        '(e, _, s) ← next_token None s;
        if negb (bool_decide (e = CLOSE_BRACKET)) then Some None
        else
          r ← fields_loop f s e value new_partition;
          match r with
          | None => Some None
          | Some (s, e, value, p) => load_loop f s e value (parts ++ [p])
          end
  end.

(** The contents of the file, [None] when it cannot be opened.  An iteration
    of a loop reads at least one character, or finds the end. *)
Definition conf_fuel (contents : list ascii) : nat := length contents + 2.
Definition xpn_conf_reader_load (contents : option (list ascii)) : option (option conf_file_data) :=
  match contents with
  | None => Some None
  | Some r =>
    '(e, _, s) ← next_token None (Stream r false 1);
    load_loop (conf_fuel r) s e None []
  end.

(** [XpnConfLoad]: the name of the file comes from the environment. *)
Definition XpnConfLoad (XPN_CONF : option cstr) (files : cstr → option (list ascii)) : option (option conf_file_data) :=
  let conf := default (str "/etc/xpn/xpn.conf") XPN_CONF in
  if KB <=? strlen conf then None else xpn_conf_reader_load (files conf).

Definition XpnConfFree (c : conf_file_data) : conf_file_data := ConfData (lines_n c) [].

(** ** Look-up *)

(** A [conf_data] argument is [None] when it is NULL; a negative index is an
    access before the array. *)
Definition xpn_conf_reader_get_num_partitions (conf_data : option conf_file_data) : Z :=
  match conf_data with None => -1 | Some c => Z.of_nat (length (partitions c)) end.
Definition xpn_conf_reader_get_num_servers (conf_data : option conf_file_data) (partition_index : Z) : option Z :=
  match conf_data with
  | None => Some (-1)
  | Some c =>
    if Z.of_nat (length (partitions c)) <=? partition_index then Some (-1)
    else p ← rdZ (partitions c) partition_index; Some (Z.of_nat (length (cf_servers p)))
  end.
(** The results: -1, or 0 with the string copied to [value]. *)
Definition xpn_conf_reader_get_server (conf_data : option conf_file_data) (partition server : Z) : option (Z * option cstr) :=
  match conf_data with
  | None => Some (-1, None)
  | Some c =>
    if Z.of_nat (length (partitions c)) <=? partition then Some (-1, None)
    else
      p ← rdZ (partitions c) partition;
      if Z.of_nat (length (cf_servers p)) <=? server then Some (-1, None)
      else s ← rdZ (cf_servers p) server; Some (0, Some s)
  end.
(** [sprintf (value, "%ld", n)]. *)
Definition print_int (n : Z) : cstr := if n <? 0 then "-"%char :: dec (- n) else dec n.
Definition xpn_conf_reader_get_value (conf_data : option conf_file_data) (partition_index : Z) (key : cstr) : option (Z * option cstr) :=
  match conf_data with
  | None => Some (-1, None)
  | Some c =>
    if Z.of_nat (length (partitions c)) <=? partition_index then Some (-1, None)
    else
      p ← rdZ (partitions c) partition_index;
      if strcasecmp_eq key XPN_CONF_TAG_BLOCKSIZE then Some (0, Some (print_int (cf_bsize p)))
      else if strcasecmp_eq key XPN_CONF_TAG_REPLICATION_LEVEL then Some (0, Some (print_int (cf_replication_level p)))
      else if strcasecmp_eq key XPN_CONF_TAG_PARTITION_NAME then
        (* strcpy from NULL when the file names no partition *)
        n ← partition_name p; Some (0, Some n)
      else Some (-1, None)
  end.
Definition XpnConfGetServer (c : conf_file_data) (partition server : Z) := xpn_conf_reader_get_server (Some c) partition server.
Definition XpnConfGetValue (c : conf_file_data) (key : cstr) (partition : Z) := xpn_conf_reader_get_value (Some c) partition key.
Definition XpnConfGetNumPartitions (c : conf_file_data) := xpn_conf_reader_get_num_partitions (Some c).
Definition XpnConfGetNumServers (c : conf_file_data) (partition : Z) := xpn_conf_reader_get_num_servers (Some c) partition.

(** ** Lemmas on the tokens *)

Definition plain (a : ascii) : Prop := strchr specials a = false ∧ strchr newlines a = false.
Definition token_ok (t : cstr) : Prop := t ≠ [] ∧ strlen t < MAX_TOKEN_LEN ∧ Forall plain t.

Lemma strchr_false set a : strchr set a = false ↔ a ≠ NUL ∧ a ∉ set.
Proof.
  unfold strchr. cbn [existsb]. rewrite orb_false_iff. split.
  - intros [H1 H2]. split; [by intros ->; rewrite ceqb_refl in H1|]. intros Hin.
    assert (existsb (ceqb a) set = true) as HT; [|congruence]. apply existsb_exists. exists a.
    split; [by apply list_elem_of_In|apply ceqb_refl].
  - intros [H1 H2]. split; [by apply ceqb_ne|]. apply not_true_is_false. intros (b & Hb & E)%existsb_exists.
    apply ceqb_eq in E as <-. by apply H2, list_elem_of_In.
Qed.

(** Membership in a literal list. *)
Ltac lelem := unfold specials, newlines; repeat first [apply list_elem_of_here | apply list_elem_of_further].

Lemma plain_not_blank a : plain a → strchr blanks a = false.
Proof.
  intros [H1 H2]. apply strchr_false in H1 as [H0 H1]. apply strchr_false in H2 as [_ H2]. apply strchr_false.
  split; [done|]. intros Hin. unfold blanks in Hin. rewrite !elem_of_cons in Hin.
  destruct Hin as [-> | [-> | [-> | [-> | Hin%elem_of_nil]]]]; [apply H1; lelem|apply H1; lelem|apply H2; lelem|apply H2; lelem|done].
Qed.

Lemma skip_blanks b a r line :
  Forall (λ x, strchr blanks x = true) b → strchr blanks a = false →
  ∃ line', skip_chars (b ++ a :: r) line = (TOKEN, Stream (a :: r) false line').
Proof.
  intros HF Ha. revert line. induction HF as [|x b Hx HF IH]; intros line; cbn [app skip_chars].
  - rewrite Ha. by exists line.
  - rewrite Hx. apply IH.
Qed.

(** A token followed by a character that ends it. *)
Lemma token_chars_run t acc a r line :
  Forall plain t → token_chars acc (t ++ a :: r) line = token_chars (acc ++ t) (a :: r) line.
Proof.
  intros HF. revert acc. induction HF as [|x t [H1 H2] HF IH]; intros acc.
  - by rewrite app_nil_r.
  - cbn [app]. cbn [token_chars]. rewrite H1, H2, IH, <- app_assoc. done.
Qed.

Lemma read_token_run t a r line :
  token_ok t → strchr specials a = true ∨ strchr newlines a = true →
  read_token (Stream (t ++ a :: r) false line)
  = Some (TOKEN, t, if strchr specials a then Stream (a :: r) false line else Stream r false (line + 1)).
Proof.
  intros (Hne & Hlen & HF) Ha. destruct t as [|x t]; [done|]. unfold read_token. cbn [s_rest s_line app].
  apply Forall_cons in HF as [Hx HF]. pose proof (proj1 (strchr_false _ _) (proj1 Hx)) as [_ Hsp].
  assert (∀ y, y ∈ ["["; "]"; "="; "#"]%char → ceqb x y = false) as Hy
    by (intros y Hy; apply ceqb_ne; intros ->; apply Hsp; rewrite !elem_of_cons in Hy; destruct Hy as [-> | [-> | [-> | [-> | Hy%elem_of_nil]]]]; [lelem..|done]).
  rewrite !Hy by lelem. rewrite app_comm_cons, (token_chars_run (x :: t) [] a r line) by (by constructor).
  cbn [token_chars app]. unfold fits. destruct (strchr specials a) eqn:E; [|destruct (strchr newlines a) eqn:E2].
  - rewrite (proj2 (Z.ltb_lt _ _)) by exact Hlen. done.
  - rewrite (proj2 (Z.ltb_lt _ _)) by exact Hlen. done.
  - by destruct Ha.
Qed.

Lemma next_token_run buf b t a r line :
  Forall (λ x, strchr blanks x = true) b → token_ok t → strchr specials a = true ∨ strchr newlines a = true →
  ∃ line', next_token buf (Stream (b ++ t ++ a :: r) false line)
  = Some (TOKEN, Some t, if strchr specials a then Stream (a :: r) false line' else Stream r false line').
Proof.
  intros Hb Ht Ha. pose proof Ht as (Hne & _ & HF). destruct t as [|x t]; [done|]. apply Forall_cons in HF as [Hx HF].
  unfold next_token, skip_spaces. cbn [s_rest s_line app].
  destruct (skip_blanks b x (t ++ a :: r) line Hb (plain_not_blank x Hx)) as (line' & ->).
  rewrite (bool_decide_false (TOKEN = ELTO_EOF)) by done.
  pose proof (read_token_run (x :: t) a r line' Ht Ha) as ER. cbn [app] in ER. rewrite ER. cbn [mbind option_bind].
  destruct (strchr specials a); by eexists.
Qed.

(** ** Printing *)

Definition print_field (f : cstr * cstr) : list ascii := f.1 ++ str " = " ++ f.2 ++ [LF].
Definition fields_of (name : cstr) (p : conf_file_data_partition) : list (cstr * cstr) :=
  (XPN_CONF_TAG_PARTITION_NAME, name) :: (XPN_CONF_TAG_BLOCKSIZE, dec (cf_bsize p)) ::
  (XPN_CONF_TAG_REPLICATION_LEVEL, dec (cf_replication_level p)) ::
  ((λ u, (XPN_CONF_TAG_SERVER_URL, u)) <$> cf_servers p).
Definition print_fields (fs : list (cstr * cstr)) : list ascii := concat (print_field <$> fs).
Definition print_partition (p : conf_file_data_partition) : list ascii :=
  str "[partition]" ++ [LF] ++ print_fields (fields_of (default [] (partition_name p)) p).
Definition print_conf (l : list conf_file_data_partition) : list ascii := concat (print_partition <$> l).

(** The partitions a file can hold. *)
Record partition_ok (p : conf_file_data_partition) : Prop := {
  po_name : ∃ n, partition_name p = Some n ∧ token_ok n;
  po_bsize : 0 <= cf_bsize p < 2 ^ 31;
  po_rl : 0 <= cf_replication_level p < 2 ^ 31;
  po_servers : Forall token_ok (cf_servers p) }.

(** The stream after [skip_spaces]: at the end of the file the flag is set. *)
Definition at_rest (r : list ascii) (line : Z) : stream :=
  match r with [] => Stream [] true line | _ => Stream r false line end.
Definition starts (r : list ascii) : Prop := match r with [] => True | a :: _ => strchr blanks a = false end.

Lemma skip_at_rest r line : starts r → ∃ e, skip_chars r line = (e, at_rest r line).
Proof. intros H. destruct r as [|a r]; cbn in *; [by eexists|]. rewrite H. by eexists. Qed.

Lemma next_token_char buf b a r line e :
  Forall (λ x, strchr blanks x = true) b → strchr blanks a = false →
  (∀ line', read_token (Stream (a :: r) false line') = Some (e, [a], Stream r false line')) →
  ∃ line', next_token buf (Stream (b ++ a :: r) false line) = Some (e, Some [a], Stream r false line').
Proof.
  intros Hb Ha Hr. unfold next_token, skip_spaces. cbn [s_rest s_line].
  destruct (skip_blanks b a r line Hb Ha) as (line' & ->). rewrite (bool_decide_false (TOKEN = ELTO_EOF)) by done.
  rewrite Hr. cbn. by exists line'.
Qed.

Lemma fields_step f k v p p' r line e val :
  token_ok k → token_ok v → process_field k v p = Some (Some p') → starts r →
  ∃ line' e', fields_loop (S f) (Stream (print_field (k, v) ++ r) false line) e val p
    = fields_loop f (at_rest r line') e' (Some v) p'.
Proof.
  intros Hk Hv Hp Hr. cbn [fields_loop s_eof]. unfold print_field. cbn [fst snd]. rewrite <- !app_assoc.
  destruct (next_token_run None [] k " " (["="; " "]%char ++ v ++ [LF] ++ r) line) as (l1 & E1); [constructor|done|by left|].
  change (str " = " ++ v ++ [LF] ++ r) with (" "%char :: (["="; " "]%char ++ v ++ [LF] ++ r)). cbn [app] in E1 |- *. rewrite E1.
  cbn [mbind option_bind]. rewrite (bool_decide_false (TOKEN = OPEN_BRACKET)), (bool_decide_false (TOKEN = COMMENT)), (bool_decide_true (TOKEN = TOKEN)) by done.
  cbn [negb]. change (strchr specials " ") with true. cbv iota.
  destruct (next_token_char None [" "%char] "=" (" "%char :: v ++ LF :: r) l1 EQUAL) as (l2 & E2);
    [by constructor|done|done|]. cbn [app] in E2. rewrite E2. cbn [mbind option_bind].
  rewrite (bool_decide_true (EQUAL = EQUAL)) by done. cbn [negb].
  destruct (next_token_run val [" "%char] v LF r l2) as (l3 & E3); [by constructor|done|by right|].
  cbn [app] in E3. rewrite E3. cbn [mbind option_bind]. rewrite (bool_decide_true (TOKEN = TOKEN)) by done. cbn [negb].
  rewrite Hp. cbn [mbind option_bind]. change (strchr specials LF) with false. cbv iota.
  unfold skip_spaces. cbn [s_rest s_line]. destruct (skip_at_rest r l3 Hr) as (e' & ->). by exists l3, e'.
Qed.

Fixpoint process_fields (fs : list (cstr * cstr)) (p : conf_file_data_partition) : option conf_file_data_partition :=
  match fs with
  | [] => Some p
  | (k, v) :: fs' => match process_field k v p with Some (Some p') => process_fields fs' p' | _ => None end
  end.

Lemma starts_token k r : token_ok k → starts (k ++ r).
Proof. intros (Hne & _ & HF). destruct k as [|a k]; [done|]. apply Forall_cons in HF as [Ha _]. cbn. by apply plain_not_blank. Qed.
Lemma at_rest_cons k r line : token_ok k → at_rest (k ++ r) line = Stream (k ++ r) false line.
Proof. intros (Hne & _). by destruct k. Qed.

(** The text after the fields: nothing, or the next partition. *)
Definition ends (r : list ascii) : stream * elto → Prop := λ '(s, e),
  match r with
  | [] => s_eof s = true ∧ ∃ l, s = Stream [] true l
  | a :: r' => e = OPEN_BRACKET ∧ ∃ l, s = Stream r' false l
  end.

Lemma fields_run fs : ∀ f p p' r line e val,
  Forall (λ kv, token_ok kv.1 ∧ token_ok kv.2) fs → process_fields fs p = Some p' →
  (length fs < f)%nat → (r = [] ∨ ∃ r', r = "["%char :: r') →
  ∃ s' e' val', fields_loop f (at_rest (print_fields fs ++ r) line) e val p = Some (Some (s', e', val', p')) ∧ ends r (s', e').
Proof.
  induction fs as [|[k v] fs IH]; intros f p p' r line e val HF Hp Hf Hr.
  - injection Hp as <-. destruct f as [|f]; [lia|]. cbn [print_fields fmap list_fmap concat app].
    destruct Hr as [->|[r' ->]]; cbn [at_rest fields_loop s_eof].
    + eexists _, _, _. split; [reflexivity|]. split; [done|by eexists].
    + destruct (next_token_char None [] "[" r' line OPEN_BRACKET) as (l & E); [constructor|done|done|].
      cbn [app] in E. rewrite E. cbn [mbind option_bind]. rewrite (bool_decide_true (OPEN_BRACKET = OPEN_BRACKET)) by done.
      eexists _, _, _. split; [reflexivity|]. split; [done|by eexists].
  - apply Forall_cons in HF as [[Hk Hv] HF]. cbn [fst snd] in Hk, Hv. cbn [process_fields] in Hp.
    destruct (process_field k v p) as [[p1|]|] eqn:Ep; [|done|done]. destruct f as [|f]; [lia|].
    unfold print_fields. cbn [fmap list_fmap concat]. fold (print_fields fs). rewrite <- app_assoc.
    assert (starts (print_fields fs ++ r)) as Hst.
    { destruct fs as [|[k2 v2] fs2]; [destruct Hr as [->|[r' ->]]; done|]. apply Forall_cons in HF as [[Hk2 _] _]. cbn [fst] in Hk2.
      unfold print_fields, print_field. cbn [fmap list_fmap concat fst]. rewrite <- !app_assoc. by apply starts_token. }
    destruct (fields_step f k v p p1 (print_fields fs ++ r) line e val Hk Hv Ep Hst) as (l & e1 & E1).
    unfold print_field in E1 |- *. cbn [fst snd] in *. rewrite <- !app_assoc in *. rewrite at_rest_cons by done. rewrite E1.
    apply IH; [done|done|cbn in Hf; lia|done].
Qed.

Definition plainb (a : ascii) : bool := negb (strchr specials a) && negb (strchr newlines a).
Definition token_okb (t : cstr) : bool := negb (length t =? 0)%nat && (strlen t <? MAX_TOKEN_LEN) && forallb plainb t.
Lemma token_okb_ok t : token_okb t = true → token_ok t.
Proof.
  unfold token_okb. rewrite !andb_true_iff, forallb_forall. intros [[H1 H2] H3]. split_and!.
  - intros ->. done.
  - by apply Z.ltb_lt.
  - apply Forall_forall. intros a Ha%list_elem_of_In%H3. unfold plainb in Ha. apply andb_true_iff in Ha as [Ha Hb].
    split; [by apply negb_true_iff in Ha|by apply negb_true_iff in Hb].
Qed.

Lemma dec_aux_length f n : (length (dec_aux f n) <= f)%nat.
Proof.
  revert n. induction f as [|f IH]; intros n; cbn [dec_aux]; [done|].
  destruct (n <? 10); cbn; [lia|]. rewrite length_app. specialize (IH (n / 10)). cbn. lia.
Qed.
Lemma dec_token n : 0 <= n → token_ok (dec n).
Proof.
  intros Hn. split_and!; [apply dec_nonempty|unfold strlen, MAX_TOKEN_LEN, dec; pose proof (dec_aux_length 20 n); lia|].
  eapply Forall_impl; [by apply dec_digits|]. intros a Ha.
  destruct a as [[] [] [] [] [] [] [] []]; try discriminate Ha; split; reflexivity.
Qed.

Lemma last_digit n : 0 <= n → ∃ a r, reverse (dec n) = a :: r ∧ is_digit a = true.
Proof.
  intros Hn. pose proof (dec_nonempty n) as Hne.
  assert (Forall (λ c, is_digit c = true) (reverse (dec n))) as HR by (apply Forall_reverse, (dec_digits n Hn)).
  destruct (reverse (dec n)) as [|a r] eqn:E.
  - apply (f_equal reverse) in E. rewrite reverse_involutive in E. done.
  - exists a, r. split; [done|]. by apply Forall_cons in HR as [Ha _].
Qed.

Lemma getSizeFactor_plain n : 0 <= n < 2 ^ 31 → getSizeFactor (dec n) = Some n.
Proof.
  intros Hn. unfold getSizeFactor. destruct (last_digit n ltac:(lia)) as (a & r & -> & Ha).
  assert (unit_of a = None ∧ ceqb a "B" = false ∧ ceqb a "b" = false) as (-> & -> & ->)
    by (destruct a as [[] [] [] [] [] [] [] []]; try discriminate Ha; repeat split; reflexivity).
  cbn [orb]. pose proof (atoi_dec n []) as E. rewrite app_nil_r in E. rewrite E; [done|lia|done].
Qed.

Lemma process_servers us : ∀ p, 
  process_fields ((λ u, (XPN_CONF_TAG_SERVER_URL, u)) <$> us) p
  = Some (ConfPart (partition_name p) (cf_replication_level p) (cf_bsize p) (cf_servers p ++ us)).
Proof.
  induction us as [|u us IH]; intros p; cbn [fmap list_fmap process_fields].
  - rewrite app_nil_r. by destruct p.
  - change (process_field XPN_CONF_TAG_SERVER_URL u p)
      with (Some (Some (ConfPart (partition_name p) (cf_replication_level p) (cf_bsize p) (cf_servers p ++ [u])))).
    cbv iota. rewrite IH. cbn. by rewrite <- app_assoc.
Qed.

Lemma process_fields_of n p :
  partition_ok p → partition_name p = Some n → process_fields (fields_of n p) new_partition = Some p.
Proof.
  intros [_ Hb Hr _] Hn. unfold fields_of. cbn [process_fields].
  change (process_field XPN_CONF_TAG_PARTITION_NAME n new_partition) with (Some (Some (ConfPart (Some n) 0 (512 * KB) []))). cbv iota.
  change (process_field XPN_CONF_TAG_BLOCKSIZE (dec (cf_bsize p)) (ConfPart (Some n) 0 (512 * KB) []))
    with (b ← getSizeFactor (dec (cf_bsize p)); Some (Some (ConfPart (Some n) 0 b []))).
  rewrite getSizeFactor_plain by done. cbn [mbind option_bind].
  change (process_field XPN_CONF_TAG_REPLICATION_LEVEL (dec (cf_replication_level p)) (ConfPart (Some n) 0 (cf_bsize p) []))
    with (Some (Some (ConfPart (Some n) (atoi (dec (cf_replication_level p))) (cf_bsize p) []))). cbv iota.
  pose proof (atoi_dec (cf_replication_level p) [] Hr I) as E. rewrite app_nil_r in E. rewrite E.
  rewrite process_servers. cbn. rewrite <- Hn. by destruct p.
Qed.

Lemma fields_tokens n p : partition_ok p → token_ok n → Forall (λ kv, token_ok kv.1 ∧ token_ok kv.2) (fields_of n p).
Proof.
  intros [_ Hb Hr Hs] Hn. unfold fields_of.
  assert (∀ t, token_okb t = true → token_ok t) as Ht by apply token_okb_ok.
  repeat apply Forall_cons_2; cbn [fst snd].
  - split; [by apply Ht|done].
  - split; [by apply Ht|apply dec_token; lia].
  - split; [by apply Ht|apply dec_token; lia].
  - apply Forall_fmap. eapply Forall_impl; [exact Hs|]. intros u Hu. cbn. split; [by apply Ht|done].
Qed.

Definition cost (l : list conf_file_data_partition) : nat := foldr (λ p k, (length (cf_servers p) + 5 + k)%nat) 0%nat l.
Lemma cost_length l : (cost l <= length (print_conf l))%nat.
Proof.
  induction l as [|p l IH]; [done|]. cbn [cost foldr]. unfold print_conf. cbn [fmap list_fmap concat]. rewrite length_app.
  fold (print_conf l) (cost l). unfold print_partition. rewrite !length_app.
  assert (∀ fs, length fs <= length (print_fields fs))%nat as HP.
  { intros fs. induction fs as [|f fs IHf]; [done|]. unfold print_fields in *. cbn [fmap list_fmap concat length]. rewrite length_app.
    unfold print_field at 1. rewrite !length_app. cbn [length str String.list_ascii_of_string]. lia. }
  specialize (HP (fields_of (default [] (partition_name p)) p)). unfold fields_of in HP at 1. cbn [length] in HP.
  rewrite length_fmap in HP. cbn [length str String.list_ascii_of_string]. lia.
Qed.

Lemma print_conf_starts l : l = [] ∧ print_conf l = [] ∨ ∃ r, print_conf l = "["%char :: r.
Proof.
  destruct l as [|p l]; [by left|right]. unfold print_conf, print_partition. cbn [fmap list_fmap concat]. rewrite <- app_assoc.
  by eexists.
Qed.

(** The text of a partition after its opening bracket. *)
Definition body_of (n : cstr) (p : conf_file_data_partition) : list ascii :=
  str "partition" ++ "]"%char :: [LF] ++ print_fields (fields_of n p).

Lemma fields_loop_LF f fs r line e val p :
  Forall (λ kv, token_ok kv.1 ∧ token_ok kv.2) fs → fs ≠ [] →
  ∃ l, fields_loop (S f) (Stream (LF :: print_fields fs ++ r) false line) e val p = fields_loop (S f) (at_rest (print_fields fs ++ r) l) e val p.
Proof.
  intros HF Hne. destruct fs as [|[k v] fs]; [done|]. apply Forall_cons in HF as [[Hk _] _]. cbn [fst] in Hk.
  exists (line + 1). unfold print_fields. cbn [fmap list_fmap concat]. unfold print_field at 1 3. cbn [fst].
  rewrite <- !app_assoc. rewrite at_rest_cons by done. done.
Qed.

Lemma load_header f n p r line val parts :
  partition_ok p → partition_name p = Some n →
  ∃ l e v, load_loop (S (S f)) (Stream (body_of n p ++ r) false line) OPEN_BRACKET val parts
    = match fields_loop (S f) (at_rest (print_fields (fields_of n p) ++ r) l) e v new_partition with
      | None => None
      | Some None => Some None
      | Some (Some (s', e', val', p')) => load_loop (S f) s' e' val' (parts ++ [p'])
      end.
Proof.
  intros Hp Hname. pose proof Hp as [(n' & Hname' & Hn) _ _ _].
  assert (n' = n) as -> by congruence. clear Hname'. cbn [load_loop s_eof].
  rewrite (bool_decide_false (OPEN_BRACKET = COMMENT)), (bool_decide_true (OPEN_BRACKET = OPEN_BRACKET)) by done. cbn [negb].
  unfold body_of. rewrite <- app_assoc.
  destruct (next_token_run val [] (str "partition") "]" ([LF] ++ print_fields (fields_of n p) ++ r) line) as (l1 & E1);
    [constructor|by apply token_okb_ok|by left|].
  cbn [app] in E1 |- *. rewrite E1. cbn [mbind option_bind]. change (strchr specials "]") with true. cbv iota.
  change (strcasecmp_eq (str "partition") (str "partition")) with true. cbn [negb].
  destruct (next_token_char None [] "]" (LF :: print_fields (fields_of n p) ++ r) l1 CLOSE_BRACKET) as (l2 & E2); [constructor|done|done|].
  cbn [app] in E2. rewrite E2. cbn [mbind option_bind]. rewrite (bool_decide_true (CLOSE_BRACKET = CLOSE_BRACKET)) by done. cbn [negb].
  destruct (fields_loop_LF f (fields_of n p) r l2 CLOSE_BRACKET (Some (str "partition")) new_partition) as (l3 & ->);
    [by apply fields_tokens|done|].
  exists l3, CLOSE_BRACKET, (Some (str "partition")).
  destruct (fields_loop _ _ _ _ _) as [[[[[s' e'] val'] p']|]|]; done.
Qed.

Lemma load_step f n p r line val parts :
  partition_ok p → partition_name p = Some n → (length (fields_of n p) < f)%nat → (r = [] ∨ ∃ r', r = "["%char :: r') →
  ∃ s' e' val', load_loop (S f) (Stream (body_of n p ++ r) false line) OPEN_BRACKET val parts
    = load_loop f s' e' val' (parts ++ [p]) ∧ ends r (s', e').
Proof.
  intros Hp Hname Hf Hr. pose proof Hp as [(n' & Hname' & Hn) _ _ _]. assert (n' = n) as -> by congruence.
  destruct f as [|f]; [lia|]. destruct (load_header f n p r line val parts Hp Hname) as (l & e & v & ->).
  destruct (fields_run (fields_of n p) (S f) new_partition p r l e v (fields_tokens n p Hp Hn)
    (process_fields_of n p Hp Hname) Hf Hr) as (s' & e' & val' & -> & Hends).
  by exists s', e', val'.
Qed.

(** The parser at the end of a partition, before the partitions [l]. *)
Lemma load_run l : ∀ f s e val parts,
  Forall partition_ok l → (cost l < f)%nat → ends (print_conf l) (s, e) →
  ∃ line', load_loop f s e val parts = Some (Some (ConfData line' (parts ++ l))).
Proof.
  induction l as [|p l IH]; intros [|f] s e val parts HF Hf He; try lia.
  - destruct He as (_ & line & ->). cbn [load_loop s_eof]. rewrite app_nil_r. by exists line.
  - apply Forall_cons in HF as [Hp HF]. pose proof Hp as [(n & Hname & _) _ _ _].
    assert (print_conf (p :: l) = "["%char :: body_of n p ++ print_conf l) as Epr.
    { unfold print_conf, print_partition, body_of. cbn [fmap list_fmap concat]. rewrite Hname. cbn [default].
      by rewrite <- !app_assoc. }
    rewrite Epr in He. destruct He as (-> & line & ->). cbn [cost foldr] in Hf. fold (cost l) in Hf.
    destruct (load_step f n p (print_conf l) line val parts Hp Hname) as (s' & e' & val' & -> & Hends).
    + unfold fields_of. cbn [length]. rewrite length_fmap. lia.
    + destruct (print_conf_starts l) as [[_ ->]|Hr]; [by left|by right].
    + destruct (IH f s' e' val' (parts ++ [p]) HF ltac:(lia) Hends) as (line' & ->).
      exists line'. by rewrite <- app_assoc.
Qed.

(** C27: a configuration file that lists partitions with a name, a block size,
    a replication level and servers is read back as these partitions. *)
Theorem conf_roundtrip l :
  Forall partition_ok l → ∃ line, xpn_conf_reader_load (Some (print_conf l)) = Some (Some (ConfData line l)).
Proof.
  intros HF. unfold xpn_conf_reader_load. destruct (print_conf_starts l) as [[-> Ep]|[r Ep]].
  - by exists 1.
  - destruct (next_token_char None [] "[" r 1 OPEN_BRACKET) as (l1 & E); [constructor|done|done|]. rewrite Ep. cbn [app] in E. rewrite E.
    cbn [mbind option_bind]. apply (load_run l (conf_fuel ("["%char :: r)) _ _ None []); [done|rewrite <- Ep; unfold conf_fuel; pose proof (cost_length l); lia|].
    rewrite Ep. split; [done|by exists l1].
Qed.

Definition sample_conf : list conf_file_data_partition :=
  [ConfPart (Some (str "xpn")) 1 524288 [str "mpi_server://node1/tmp"; str "mpi_server://node2/tmp"];
   ConfPart (Some (str "P2")) 0 65536 [str "file:///scratch"]].
Lemma conf_roundtrip_witness :
  xpn_conf_reader_load (Some (print_conf sample_conf)) = Some (Some (ConfData 12 sample_conf)).
Proof.
  destruct (conf_roundtrip sample_conf) as (line & E).
  - repeat apply Forall_cons_2; [| |apply Forall_nil_2];
      (split; [eexists; split; [reflexivity|by apply token_okb_ok]|zcalc|zcalc|repeat (apply Forall_cons_2; [by apply token_okb_ok|]); apply Forall_nil_2]).
  - rewrite E. vm_compute in E. injection E as E. by subst line.
Defined.

(** ** A comment at the end *)

Definition comment_line (c : cstr) : list ascii := "#"%char :: c ++ [LF].
Definition comment_ok (c : cstr) : Prop := strlen c < MAX_TOKEN_LEN ∧ Forall (λ a, strchr newlines a = false) c.

Lemma comment_chars_run c acc r line :
  Forall (λ a, strchr newlines a = false) c → comment_chars acc (c ++ LF :: r) line = (COMMENT, acc ++ c, Stream r false (line + 1)).
Proof.
  intros HF. revert acc. induction HF as [|a c Ha HF IH]; intros acc; [by rewrite app_nil_r|].
  cbn [app]. cbn [comment_chars]. rewrite Ha, IH, <- app_assoc. done.
Qed.

Lemma next_token_comment buf c line :
  comment_ok c → next_token buf (Stream (comment_line c) false line) = Some (COMMENT, Some c, Stream [] false (line + 1)).
Proof.
  intros [Hl HF]. unfold next_token, skip_spaces, comment_line. cbn. rewrite (bool_decide_false (TOKEN = ELTO_EOF)) by done.
  unfold read_token. cbn [s_rest s_line]. unfold read_comment. rewrite (comment_chars_run c [] [] line HF). cbn [app]. unfold fits.
  by rewrite (proj2 (Z.ltb_lt _ _) Hl).
Qed.

Lemma fields_comment fs c : ∀ f p p' line e val,
  comment_ok c → Forall (λ kv, token_ok kv.1 ∧ token_ok kv.2) fs → process_fields fs p = Some p' → (length fs + 1 < f)%nat →
  fields_loop f (at_rest (print_fields fs ++ comment_line c) line) e val p = Some None.
Proof.
  induction fs as [|[k v] fs IH]; intros f p p' line e val Hc HF Hp Hf.
  - destruct f as [|[|f]]; [cbn in Hf; lia..|]. unfold print_fields. cbn [fmap list_fmap concat app].
    change (at_rest (comment_line c) line) with (Stream (comment_line c) false line). remember (S f) as f1. cbn [fields_loop s_eof].
    rewrite next_token_comment by done. cbn [mbind option_bind].
    rewrite (bool_decide_false (COMMENT = OPEN_BRACKET)), (bool_decide_true (COMMENT = COMMENT)) by done. subst f1. done.
  - apply Forall_cons in HF as [[Hk Hv] HF]. cbn [fst snd] in Hk, Hv. cbn [process_fields] in Hp.
    destruct (process_field k v p) as [[p1|]|] eqn:Ep; [|done|done]. destruct f as [|f]; [lia|].
    unfold print_fields. cbn [fmap list_fmap concat]. fold (print_fields fs). rewrite <- app_assoc.
    assert (starts (print_fields fs ++ comment_line c)) as Hst.
    { destruct fs as [|[k2 v2] fs2]; [done|]. apply Forall_cons in HF as [[Hk2 _] _]. cbn [fst] in Hk2.
      unfold print_fields, print_field. cbn [fmap list_fmap concat fst]. rewrite <- !app_assoc. by apply starts_token. }
    destruct (fields_step f k v p p1 (print_fields fs ++ comment_line c) line e val Hk Hv Ep Hst) as (l & e1 & E1).
    unfold print_field in E1 |- *. cbn [fst snd] in *. rewrite <- !app_assoc in *. rewrite at_rest_cons by done. rewrite E1.
    apply (IH f p1 p'); [done|done|done|cbn in Hf; lia].
Qed.

Lemma load_comment c l : ∀ f p n line val parts,
  comment_ok c → partition_ok p → partition_name p = Some n → Forall partition_ok l → (cost (p :: l) + 1 < f)%nat →
  load_loop f (Stream (body_of n p ++ print_conf l ++ comment_line c) false line) OPEN_BRACKET val parts = Some None.
Proof.
  induction l as [|q l IH]; intros f p n line val parts Hc Hp Hname HF Hf.
  all: pose proof Hp as [(n' & Hname' & Hn) _ _ _]; assert (n' = n) as -> by congruence; clear Hname'.
  all: cbn [cost foldr] in Hf; try fold (cost l) in Hf; destruct f as [|[|f]]; try lia.
  - unfold print_conf. cbn [fmap list_fmap concat app]. destruct (load_header f n p (comment_line c) line val parts Hp Hname) as (l & e & v & ->).
    rewrite (fields_comment _ c (S f) new_partition p); [done|done|by apply fields_tokens|by apply process_fields_of|].
    unfold fields_of. cbn [length]. rewrite length_fmap. lia.
  - apply Forall_cons in HF as [Hq HF]. pose proof Hq as [(nq & Hnq & _) _ _ _].
    assert (print_conf (q :: l) ++ comment_line c = "["%char :: body_of nq q ++ print_conf l ++ comment_line c) as ->.
    { unfold print_conf, print_partition, body_of. cbn [fmap list_fmap concat]. rewrite Hnq. cbn [default]. by rewrite <- !app_assoc. }
    destruct (load_step (S f) n p ("["%char :: body_of nq q ++ print_conf l ++ comment_line c) line val parts Hp Hname) as (s' & e' & val' & -> & He & l' & ->);
      [unfold fields_of; cbn [length]; rewrite length_fmap; lia|right; by eexists|].
    rewrite He. apply IH; try done. cbn [cost foldr]. fold (cost l). lia.
Qed.

(** A comment on the last line makes the whole file fail: any
    configuration that reads well is rejected once a comment line is added at
    its end. *)
Theorem conf_trailing_comment l c :
  Forall partition_ok l → l ≠ [] → comment_ok c →
  xpn_conf_reader_load (Some (print_conf l ++ comment_line c)) = Some None.
Proof.
  intros HF Hne Hc. destruct l as [|p l]; [done|]. apply Forall_cons in HF as [Hp HF]. pose proof Hp as [(n & Hname & _) _ _ _].
  pose proof (cost_length (p :: l)) as HC.
  assert (print_conf (p :: l) = "["%char :: body_of n p ++ print_conf l) as Epr.
  { unfold print_conf, print_partition, body_of. cbn [fmap list_fmap concat]. rewrite Hname. cbn [default]. by rewrite <- !app_assoc. }
  unfold xpn_conf_reader_load, conf_fuel. rewrite length_app. set (len := length (print_conf (p :: l))) in *. rewrite Epr. cbn [app]. rewrite <- app_assoc.
  destruct (next_token_char None [] "[" (body_of n p ++ print_conf l ++ comment_line c) 1 OPEN_BRACKET) as (l1 & E); [constructor|done|done|].
  cbn [app] in E. rewrite E. cbn [mbind option_bind]. apply load_comment; try done. lia.
Qed.

Lemma conf_trailing_comment_witness :
  xpn_conf_reader_load (Some (print_conf sample_conf ++ comment_line (str " end of file"))) = Some None.
Proof.
  apply (conf_trailing_comment sample_conf (str " end of file")); [|discriminate|].
  - repeat apply Forall_cons_2; [| |apply Forall_nil_2];
      (split; [eexists; split; [reflexivity|by apply token_okb_ok]|zcalc|zcalc|repeat (apply Forall_cons_2; [by apply token_okb_ok|]); apply Forall_nil_2]).
  - split; [zcalc|]. repeat apply Forall_cons_2; try reflexivity. apply Forall_nil_2.
Defined.
