(* ===== verification/Init.v ===== *)
(** * Init: partitions and servers at start-up

    src/src/xpn_client/xpn/xpn_simple/xpncore/xpn_init.c and [XpnInitServer] of
    xpn_policy_init.c.  The functions that connect to a server of each protocol
    are the interface [NfiInit]; the debugging and profiling switches are left out. *)

From S2P Require Import Prelude Cstr Paths Layout Url Mdata Nfi Client MemFs FileTable Conf.

(** ** The protocols *)

Inductive protocol := P_local | P_mpi | P_sck | P_nfs | P_nfs3.
Definition PROTOCOL_MAXLEN : Z := 20.
Definition ESRCH : Z := 3.

(** [nfi_init] is the initialisation function of the protocol: its result and
    the server it fills in; [has_ops] tells whether [serv->ops] is set. *)
Class NfiInit (W : Type) := {
  enabled : protocol → bool;
  nfi_init : protocol → cstr → nfi_server → Z * W → (Z * nfi_server) * (Z * W);
  has_ops : nfi_server → bool;
  nfi_disconnect : nfi_server → Z * W → Z * (Z * W);
  nfi_destroy : nfi_server → Z * W → Z * (Z * W);
  host_ip : cstr;
  host_name : cstr }.

(** The [if] chain on the protocol name; a branch that is not compiled in is skipped. *)
Definition protocol_of {W} `{!NfiInit W} (prt : cstr) : option protocol :=
  if strcmp_eq prt (str "file") then Some P_local
  else if enabled P_mpi && strcmp_eq prt (str "mpi_server") then Some P_mpi
  else if enabled P_sck && (strcmp_eq prt (str "sck_server") || strcmp_eq prt (str "mq_server")) then Some P_sck
  else if enabled P_nfs && (strcmp_eq prt (str "nfs") || strcmp_eq prt (str "nfs2")) then Some P_nfs
  else if enabled P_nfs3 && strcmp_eq prt (str "nfs3") then Some P_nfs3
  else None.

(** [strstr (s, t) != NULL]. *)
Fixpoint strstr (s t : cstr) : bool :=
  bool_decide (take (length t) s = t) || match s with [] => false | _ :: s' => strstr s' t end.

(** The array of servers starts zeroed: the URL [[]] stands for NULL. *)
Definition server_zero : nfi_server := NfiServer 0 [] 0 0 0.
Definition url_is_null (s : nfi_server) : bool := (length (srv_url s) =? 0)%nat.
Definition set_error (e : Z) (s : nfi_server) : nfi_server := NfiServer (srv_id s) (srv_url s) e (wrk_result s) (wrk_errno s).

Section init.
Context {W : Type} `{NO : !NfiOps W} `{NI : !NfiInit W} `{SY : !Sys}.

(** ** Servers *)

Definition XpnInitServer (conf : conf_file_data) (part_id : Z) (serv : nfi_server) (server_num : Z) : M (env W) (Z * nfi_server) :=
  '(ret, url) ← lift (XpnConfGetServer conf part_id server_num);
  match url with
  | None => mret (-1, serv)
  | Some url_buf =>
    if negb ((ret : Z) =? 0) then mret (-1, serv)
    else if KB <=? strlen url_buf then fault
    else
      '(ret, b) ← lift (ParseURL url_buf (UrlBufs (Some []) None None None));
      if (ret : Z) <? 0 then modify (set_errno EINVAL);; mret (-1, serv)
      else
        let prt := default [] (u_protocol b) in
        if PROTOCOL_MAXLEN <=? strlen prt then fault
        else match protocol_of prt with
        | None => modify (set_errno EINVAL);; mret (-1, serv)
        | Some k =>
          '(ret, serv') ← call (nfi_init k url_buf serv);
          if (ret : Z) <? 0 then modify (set_errno ESRCH);; mret (-1, serv')
          else mret (1, serv')
        end
  end.

(** [free(serv[i].ops)] and [free(part->data_serv)] are in [destroy_part]. *)
Definition xpn_destroy_servers (part : xpn_partition) : M (env W) Z :=
  forM_ (seqZ 0 (part_data_nserv part)) (λ i,
    s ← lift (rdZ (data_serv part) i);
    when (has_ops s) (call (nfi_disconnect s);; call (nfi_destroy s);; mret tt));;
  mret 0.

(** ** Initialisation *)

Definition set_part (i : Z) (f : xpn_partition → xpn_partition) : prog W unit :=
  c ← get;
  p ← lift (rdZ (xpn_parttable c) i);
  t ← lift (wrZ (xpn_parttable c) i (f p));
  modify (with_parts t).

(** [xpn_destroy_servers (&xpn_parttable[i])].  The array of servers is freed
    and [data_nserv] is not reset: any later access to the array is a fault. *)
Definition destroy_part (i : Z) : prog W unit :=
  c ← get;
  p ← lift (rdZ (xpn_parttable c) i);
  zoom (xpn_destroy_servers p);;
  set_part i (set_serv []).

(** The partitions are scanned up to the first with [id == -1]. *)
Fixpoint mark_error_from (index i : Z) (fuel : nat) : prog W unit :=
  match fuel with
  | O => fault
  | S f =>
    c ← get;
    part ← lift (rdZ (xpn_parttable c) i);
    if part_id part =? -1 then mret tt
    else
      s ← get_server (Z.to_nat i) index;
      when (has_ops s)
        (zoom (call (nfi_disconnect s));; put_server (Z.to_nat i) index (set_error (-1) s));;
      mark_error_from index (i + 1) f
  end.
Definition xpn_simple_mark_error_server (index : Z) : prog W Z :=
  mark_error_from index 0 (S (Z.to_nat XPN_MAX_PART));; mret 0.

(** [XpnConfGetValue] into a buffer that keeps its contents on an error. *)
Definition conf_value (conf : conf_file_data) (key : cstr) (buff : cstr) (i : Z) : option (Z * cstr) :=
  '(res, v) ← XpnConfGetValue conf key i; Some (res, default buff v).

(** The [j] loop that connects to the servers. *)
Definition init_servers (conf : conf_file_data) (pid n : Z) : M (env W) (list nfi_server) :=
  foldM (seqZ 0 n) (λ l j,
    '(res, s) ← XpnInitServer conf pid server_zero j;
    mret (l ++ [if (res : Z) <? 0 then set_error (-1) s else s])) [].

(** The last server whose URL contains the address or the name of this host;
    [strstr] reads every URL. *)
Definition local_of (l : list nfi_server) : Z :=
  fold_left (λ r '(j, s), if strstr (srv_url s) host_ip || strstr (srv_url s) host_name then j else r)
    (imap (λ j s, (Z.of_nat j, s)) l) (-1).
Definition local_server (l : list nfi_server) : option Z :=
  if existsb url_is_null l then None else Some (local_of l).
Definition n_error (l : list nfi_server) : Z := Z.of_nat (length (filter (λ s, srv_error s ≠ 0) l)).

(** The body of the loop over the partitions: true when it goes on. *)
Definition init_one (conf : conf_file_data) (i : Z) : prog W bool :=
  set_part i (λ p, XpnPart i (part_name p) (part_block_size p) (part_replication_level p) (part_data_nserv p) (part_local_serv p) (data_serv p));;
  '(res, name) ← lift (conf_value conf XPN_CONF_TAG_PARTITION_NAME [] i);
  if negb ((res : Z) =? 0) then mret false
  else
    set_part i (λ p, XpnPart (part_id p) name (part_block_size p) (part_replication_level p) (part_data_nserv p) (part_local_serv p) (data_serv p));;
    '(res, buff) ← lift (conf_value conf XPN_CONF_TAG_BLOCKSIZE name i);
    b ← lift (getSizeFactor buff);
    let bs := if negb ((res : Z) =? 0) || (b =? 1) then XPN_CONF_DEFAULT_BLOCKSIZE else b in
    '(res, buff) ← lift (conf_value conf XPN_CONF_TAG_REPLICATION_LEVEL buff i);
    let rl := if negb ((res : Z) =? 0) || (atoi buff <? 0) then XPN_CONF_DEFAULT_REPLICATION_LEVEL else atoi buff in
    n ← lift (XpnConfGetNumServers conf i);
    set_part i (λ p, XpnPart (part_id p) (part_name p) bs rl n (part_local_serv p) (data_serv p));;
    if (n : Z) <=? 0 then mret false
    else
      l ← zoom (init_servers conf i n);
      local ← lift (local_server l);
      set_part i (λ p, XpnPart (part_id p) (part_name p) (part_block_size p) (part_replication_level p) (part_data_nserv p) local l);;
      if rl <? n_error l then
        forM_ (seqZ 0 XPN_MAX_PART) destroy_part;;
        mret false
      else mret (negb (i =? XPN_MAX_PART)).

Fixpoint init_loop (conf : conf_file_data) (i : Z) (k : nat) : prog W bool :=
  match k with
  | O => mret true
  | S k' =>
    ok ← init_one conf i;
    if (ok : bool) then init_loop conf (i + 1) k' else mret false
  end.

(** [conf] is what [XpnConfLoad] read.  The last loop writes the same element,
    the one after the last partition, once per partition. *)
Definition xpn_init_partition (initialized : bool) (conf : option conf_file_data) : prog W (Z * bool) :=
  if initialized then mret (0, true)
  else match conf with
  | None => mret (-1, false)
  | Some conf =>
    let part_n := XpnConfGetNumPartitions conf in
    if part_n <=? 0 then mret (-1, false)
    else
      ok ← init_loop conf 0 (Z.to_nat part_n);
      if negb (ok : bool) then mret (-1, false)
      else
        xpn_init_file_table;;
        forM_ (seqZ 0 part_n) (λ _, set_part part_n (λ p,
          XpnPart (-1) (part_name p) (part_block_size p) (part_replication_level p) (part_data_nserv p) (part_local_serv p) (data_serv p)));;
        modify (with_cwd xpn_init_cwd);;
        mret (0, true)
  end.
Definition xpn_simple_init := xpn_init_partition.

(** ** Destruction *)

Fixpoint destroy_from (i : Z) (fuel : nat) : prog W unit :=
  match fuel with
  | O => fault
  | S f =>
    c ← get;
    part ← lift (rdZ (xpn_parttable c) i);
    if part_id part =? -1 then mret tt
    else
      destroy_part i;;
      set_part i (λ p, XpnPart (-1) (part_name p) (part_block_size p) (part_replication_level p) (part_data_nserv p) (part_local_serv p) (data_serv p));;
      destroy_from (i + 1) f
  end.
(** The result and the new [xpn_initialize]. *)
Definition xpn_simple_destroy (initialized : bool) : prog W (Z * bool) :=
  if negb initialized then mret (0, false)
  else
    c ← get;
    part ← lift (rdZ (xpn_parttable c) 0);
    if part_id part <? 0 then mret (0, false)
    else
      xpn_destroy_file_table;;
      destroy_from 0 (S (Z.to_nat XPN_MAX_PART));;
      mret (0, false).
End init.

(** ** Lemmas *)

Section init_lemmas.
Context {W : Type} `{NO : !NfiOps W} `{NI : !NfiInit W} `{SY : !Sys}.
Implicit Types c : client W.

Lemma set_part_run i f c p :
  rdZ (xpn_parttable c) i = Some p → set_part i f c = Some (tt, with_parts (<[Z.to_nat i := f p]> (xpn_parttable c)) c).
Proof.
  intros Hp. unfold set_part. mstep. mrun (unfold lift; rewrite Hp; reflexivity).
  apply rdZ_lookup in Hp as [Hi Hp]. apply lookup_lt_Some in Hp.
  mrun (unfold lift; rewrite wrZ_run by lia; reflexivity). done.
Qed.

(** Two updates of the same entry. *)
Lemma set_part_twice i f g c p :
  rdZ (xpn_parttable c) i = Some p →
  set_part i g (with_parts (<[Z.to_nat i := f]> (xpn_parttable c)) c)
  = Some (tt, with_parts (<[Z.to_nat i := g f]> (xpn_parttable c)) c).
Proof.
  intros Hp. pose proof (proj1 (rdZ_lookup _ _ _) Hp) as [Hi Hl]. apply lookup_lt_Some in Hl.
  rewrite (set_part_run i g _ f).
  - cbn [xpn_parttable with_parts]. by rewrite list_insert_insert_eq.
  - cbn [xpn_parttable with_parts]. apply rdZ_lookup. split; [done|]. by apply list_lookup_insert_eq.
Qed.

(** The partition [init_one] builds. *)
Definition built (i : Z) (name : cstr) (q : conf_file_data_partition) (l : list nfi_server) : xpn_partition :=
  XpnPart i name (cf_bsize q) (cf_replication_level q) (Z.of_nat (length (cf_servers q))) (local_of l) l.
(** What [xpn_init_partition] accepts: [partition_ok], a block size other than
    1, which stands for "not given", and at least one server. *)
Definition conf_ok (q : conf_file_data_partition) : Prop := partition_ok q ∧ cf_bsize q ≠ 1 ∧ cf_servers q ≠ [].

Lemma print_int_nat n : 0 <= n → print_int n = dec n.
Proof. intros H. unfold print_int. zbool. done. Qed.

Lemma conf_get lines ps i q : ps !! i = Some q → rdZ (partitions (ConfData lines ps)) (Z.of_nat i) = Some q ∧ (Z.of_nat (length ps) <=? Z.of_nat i) = false.
Proof.
  intros H. split; [by carray|].
  apply lookup_lt_Some in H. apply Z.leb_gt. lia.
Qed.

Lemma init_one_run lines ps i q name c p0 :
  ps !! i = Some q → conf_ok q → partition_name q = Some name → xpn_parttable c !! i = Some p0 → (i < 128)%nat →
  init_one (ConfData lines ps) (Z.of_nat i) c
  = match init_servers (ConfData lines ps) (Z.of_nat i) (Z.of_nat (length (cf_servers q))) (cl_env c) with
    | Some (l, e') =>
      let c' := with_env e' (with_parts (<[i := built (Z.of_nat i) name q l]> (xpn_parttable c)) c) in
      if existsb url_is_null l then None
      else if cf_replication_level q <? n_error l then (forM_ (seqZ 0 XPN_MAX_PART) destroy_part;; mret false) c' else Some (true, c')
    | None => None
    end.
Proof.
  intros Hq [[_ Hb Hr _] [Hb1 Hs]] Hname Hp Hi. destruct (conf_get lines ps i q Hq) as [Hrd Hlen]. cbn [partitions] in *.
  assert (rdZ (xpn_parttable c) (Z.of_nat i) = Some p0) as Hp0 by carray.
  assert (∀ k buff, conf_value (ConfData lines ps) k buff (Z.of_nat i)
    = (if strcasecmp_eq k XPN_CONF_TAG_BLOCKSIZE then Some (0, print_int (cf_bsize q))
       else if strcasecmp_eq k XPN_CONF_TAG_REPLICATION_LEVEL then Some (0, print_int (cf_replication_level q))
       else if strcasecmp_eq k XPN_CONF_TAG_PARTITION_NAME then Some (0, name) else Some (-1, buff))) as Hcv.
  { intros k buff. unfold conf_value, XpnConfGetValue, xpn_conf_reader_get_value. cbn [partitions]. rewrite Hlen, Hrd. cbn [mbind option_bind].
    rewrite Hname. destruct (strcasecmp_eq k XPN_CONF_TAG_BLOCKSIZE), (strcasecmp_eq k XPN_CONF_TAG_REPLICATION_LEVEL),
      (strcasecmp_eq k XPN_CONF_TAG_PARTITION_NAME); done. }
  unfold init_one. mrun (apply (set_part_run _ _ _ p0 Hp0)).
  mrun (unfold lift; rewrite Hcv; reflexivity). cbn [Z.eqb negb].
  mrun (apply (set_part_twice _ _ _ _ p0 Hp0)).
  mrun (unfold lift; rewrite Hcv; reflexivity). rewrite print_int_nat by lia.
  mrun (unfold lift; rewrite getSizeFactor_plain by done; reflexivity).
  mrun (unfold lift; rewrite Hcv; reflexivity). rewrite print_int_nat by lia.
  pose proof (atoi_dec (cf_replication_level q) [] Hr I) as Ea. rewrite app_nil_r in Ea. rewrite Ea.
  mrun (unfold lift, XpnConfGetNumServers, xpn_conf_reader_get_num_servers; cbn [partitions]; rewrite Hlen, Hrd; reflexivity).
  mrun (apply (set_part_twice _ _ _ _ p0 Hp0)).
  destruct (cf_servers q) as [|u us] eqn:Eus; [done|]. rewrite <- Eus in *.
  rewrite (proj2 (Z.leb_gt _ 0)) by (rewrite Eus; cbn; lia).
  destruct (init_servers _ _ _ (cl_env c)) as [[l e']|] eqn:Hl; [|unfold zoom, mbind, M_bind; cbn [cl_env with_parts]; by rewrite Hl].
  mrun (unfold zoom; cbn [cl_env with_parts]; rewrite Hl; reflexivity).
  unfold local_server. destruct (existsb url_is_null l); [done|]. mstep.
  rewrite (proj2 (Z.eqb_neq _ 1)) by done. rewrite (proj2 (Z.ltb_ge _ 0)) by lia. cbn [Z.eqb negb orb].
  erewrite bind_step.
  2: { change (with_env e' (with_parts ?t c)) with (with_parts t (with_env e' c)).
       change (xpn_parttable c) with (xpn_parttable (with_env e' c)).
       apply (set_part_twice _ _ _ _ p0). exact Hp0. }
  cbv beta. cbn [part_id part_name part_block_size part_replication_level part_data_nserv]. rewrite Nat2Z.id.
  change (xpn_parttable (with_env e' c)) with (xpn_parttable c).
  destruct (cf_replication_level q <? n_error l); [done|]. rewrite (proj2 (Z.eqb_neq (Z.of_nat i) XPN_MAX_PART)) by (unfold XPN_MAX_PART; lia). done.
Qed.

(** *** The loop over the partitions *)

Context (lines : Z) (ps : list conf_file_data_partition) (connects : nat → list nfi_server).
Let conf := ConfData lines ps.
(** The attempts to connect end, [connects i] are the servers of partition [i]
    and each has its URL. *)
Definition connection_outcomes : Prop :=
  ∀ i q (e : env W), ps !! i = Some q → existsb url_is_null (connects i) = false ∧
    ∃ e', init_servers conf (Z.of_nat i) (Z.of_nat (length (cf_servers q))) e = Some (connects i, e').
Context (Hconn : connection_outcomes) (Hps : Forall conf_ok ps) (Hlen : (length ps < 128)%nat).

Definition tolerable (i : nat) : Prop := ∀ q, ps !! i = Some q → n_error (connects i) <= cf_replication_level q.
(** The table has its size and every array of servers has [data_nserv] elements. *)
Definition table_ok c : Prop :=
  length (xpn_parttable c) = 128%nat ∧
  ∀ i p, xpn_parttable c !! i = Some p → part_data_nserv p = Z.of_nat (length (data_serv p)).

Lemma conf_name i q : ps !! i = Some q → conf_ok q ∧ ∃ name, partition_name q = Some name.
Proof using Hps.
  intros Hq. pose proof (Forall_lookup_1 _ _ _ _ Hps Hq) as HQ. split; [done|]. destruct HQ as [[(n & Hn & _) _ _ _] _]. by exists n.
Qed.

Lemma init_servers_length cf pid n : ∀ (e : env W) l e', 0 <= n → init_servers cf pid n e = Some (l, e') → Z.of_nat (length l) = n.
Proof.
  intros e l e' Hn. unfold init_servers.
  assert (∀ js acc (e : env W), foldM js (λ l j, '(res, s) ← XpnInitServer cf pid server_zero j;
      mret (l ++ [if (res : Z) <? 0 then set_error (-1) s else s])) acc e = Some (l, e') → length l = (length acc + length js)%nat) as HH.
  { induction js as [|j js IH]; intros acc e0 H; cbn [foldM] in H; [injection H as <- <-; cbn; lia|].
    apply bind_inv in H as (acc' & e1 & H1 & H2). apply bind_inv in H1 as ([r s] & e2 & H3 & H4). injection H4 as <- <-.
    rewrite (IH _ _ H2), length_app. cbn. lia. }
  intros H. apply HH in H. rewrite length_seqZ in H. cbn in H. lia.
Qed.

Lemma init_loop_run k : ∀ i c,
  table_ok c → (i + k)%nat = length ps → (∀ j, (i <= j)%nat → tolerable j) →
  ∃ c', init_loop conf (Z.of_nat i) k c = Some (true, c') ∧ table_ok c' ∧
    (∀ j q name, (i <= j)%nat → ps !! j = Some q → partition_name q = Some name →
      xpn_parttable c' !! j = Some (built (Z.of_nat j) name q (connects j))) ∧
    ∀ j, (j < i)%nat → xpn_parttable c' !! j = xpn_parttable c !! j.
Proof using Hconn Hps Hlen.
  induction k as [|k IH]; intros i c Ht Hik Hok; cbn [init_loop].
  - exists c. split; [done|]. split; [done|]. split; [|done]. intros j q name Hj Hq. apply lookup_lt_Some in Hq. lia.
  - destruct (lookup_lt_is_Some_2 ps i) as [q Hq]; [lia|]. destruct (conf_name i q Hq) as [HQ [name Hname]].
    destruct Ht as [Hl Ht]. destruct (lookup_lt_is_Some_2 (xpn_parttable c) i) as [p0 Hp0]; [lia|].
    destruct (Hconn i q (cl_env c) Hq) as (Hu & e' & He).
    pose proof (init_one_run lines ps i q name c p0 Hq HQ Hname Hp0 ltac:(lia)) as E. fold conf in E. rewrite He, Hu in E. cbv zeta in E.
    rewrite (proj2 (Z.ltb_ge _ _)) in E by (by apply (Hok i)). set (c1 := with_env _ _) in E. mrun (exact E).
    assert (length (connects i) = length (cf_servers q)) as Hn by (apply init_servers_length in He; lia).
    destruct (IH (S i) c1) as (c' & E' & Ht' & H1 & H2).
    + split; [cbn; by rewrite length_insert|]. intros j p. cbn. intros [(<- & <- & _)|[_ Hp]]%list_lookup_insert_Some;
        [cbn; lia|by apply (Ht j)].
    + lia.
    + intros j Hj. apply Hok. lia.
    + exists c'. replace (Z.of_nat i + 1) with (Z.of_nat (S i)) by lia. split; [exact E'|]. split; [done|]. split.
      * intros j q' name' Hj Hq' Hname'. destruct (decide (j = i)) as [->|]; [|apply H1; [lia|done|done]].
        rewrite H2 by lia. assert (q' = q) as -> by congruence. assert (name' = name) as -> by congruence.
        cbn. apply list_lookup_insert_eq. lia.
      * intros j Hj. rewrite H2 by lia. cbn. apply list_lookup_insert_ne. lia.
Qed.

(** *** Too many errors *)

Lemma destroy_servers_run p (e : env W) :
  part_data_nserv p = Z.of_nat (length (data_serv p)) → ∃ e', xpn_destroy_servers p e = Some (0, e').
Proof.
  intros Hn. unfold xpn_destroy_servers. rewrite Hn.
  destruct (forM_inv (λ _ : env W, True) (seqZ 0 (Z.of_nat (length (data_serv p)))) (λ i,
    s ← lift (rdZ (data_serv p) i);
    when (has_ops s) (call (nfi_disconnect s);; call (nfi_destroy s);; mret tt)) e I) as (e' & E & _).
  - intros i e0 Hi%elem_of_seqZ _. destruct (rdZ_Some (data_serv p) i) as [s Hs]; [lia|].
    mrun (unfold lift; rewrite Hs; reflexivity). destruct (has_ops s); cbn [when]; [|by eexists].
    unfold call. unfold mbind, M_bind. destruct (nfi_disconnect s _) as [r1 [e1 w1]]. cbn.
    destruct (nfi_destroy s _) as [r2 [e2 w2]]. by eexists.
  - exists e'. by mrun (exact E).
Qed.

Lemma destroy_all_run k : ∀ j c,
  length (xpn_parttable c) = 128%nat → (j + k)%nat = 128%nat →
  (∀ i p, (j <= i)%nat → xpn_parttable c !! i = Some p → part_data_nserv p = Z.of_nat (length (data_serv p))) →
  ∃ c', forM_ (seqZ (Z.of_nat j) (Z.of_nat k)) destroy_part c = Some (tt, c').
Proof.
  induction k as [|k IH]; intros j c Hl Hj Ht; [rewrite seqZ_nil by lia; by exists c|].
  rewrite seqZ_cons by lia. replace (Z.pred (Z.of_nat (S k))) with (Z.of_nat k) by lia. cbn [forM_].
  destruct (lookup_lt_is_Some_2 (xpn_parttable c) j) as [p Hp]; [lia|].
  assert (rdZ (xpn_parttable c) (Z.of_nat j) = Some p) as Hr by carray.
  destruct (destroy_servers_run p (cl_env c)) as (e' & E); [by apply (Ht j)|].
  assert (destroy_part (Z.of_nat j) c
    = Some (tt, with_parts (<[j := set_serv [] p]> (xpn_parttable c)) (with_env e' c))) as Ed.
  { unfold destroy_part. mstep. mrun (unfold lift; rewrite Hr; reflexivity). mrun (unfold zoom; rewrite E; reflexivity).
    rewrite (set_part_run _ _ _ p) by exact Hr. by rewrite Nat2Z.id. }
  mrun (exact Ed). replace (Z.succ (Z.of_nat j)) with (Z.of_nat (S j)) by lia. apply IH; [cbn; by rewrite length_insert|lia|].
  intros i p' Hi. cbn. rewrite list_lookup_insert_ne by lia. apply Ht. lia.
Qed.

Lemma init_loop_fail k : ∀ i c,
  table_ok c → (i + k)%nat = length ps → (∃ j, (i <= j)%nat ∧ ¬ tolerable j) →
  ∃ c', init_loop conf (Z.of_nat i) k c = Some (false, c').
Proof using Hconn Hps Hlen.
  induction k as [|k IH]; intros i c Ht Hik (j & Hj & Hbad); cbn [init_loop].
  - exfalso. apply Hbad. intros q Hq. apply lookup_lt_Some in Hq. lia.
  - destruct (lookup_lt_is_Some_2 ps i) as [q Hq]; [lia|]. destruct (conf_name i q Hq) as [HQ [name Hname]].
    destruct Ht as [Hl Ht]. destruct (lookup_lt_is_Some_2 (xpn_parttable c) i) as [p0 Hp0]; [lia|].
    destruct (Hconn i q (cl_env c) Hq) as (Hu & e' & He).
    pose proof (init_one_run lines ps i q name c p0 Hq HQ Hname Hp0 ltac:(lia)) as E. fold conf in E. rewrite He, Hu in E. cbv zeta in E.
    set (c1 := with_env _ _) in E. assert (length (connects i) = length (cf_servers q)) as Hn by (apply init_servers_length in He; lia).
    assert (table_ok c1) as Ht1.
    { split; [cbn; by rewrite length_insert|]. intros j' p. cbn. intros [(<- & <- & _)|[_ Hp]]%list_lookup_insert_Some;
        [cbn; lia|by apply (Ht j')]. }
    destruct (Z.ltb_spec (cf_replication_level q) (n_error (connects i))).
    + destruct Ht1 as [Hl1 Ht1]. destruct (destroy_all_run 128 0 c1 Hl1 eq_refl) as (c' & Ed); [by intros i' p _; apply Ht1|].
      exists c'. erewrite bind_step; [|etransitivity; [exact E|mrun (exact Ed); reflexivity]]. done.
    + mrun (exact E). replace (Z.of_nat i + 1) with (Z.of_nat (S i)) by lia. apply IH; [done|lia|]. exists j. split; [|done].
      destruct (decide (j = i)) as [->|]; [|lia]. exfalso. apply Hbad. intros q' Hq'. assert (q' = q) as -> by congruence. done.
Qed.
End init_lemmas.

#[export] Instance tolerable_dec ps connects i : Decision (tolerable ps connects i).
Proof.
  unfold tolerable. destruct (ps !! i) as [q|]; [|left; done].
  destruct (decide (n_error (connects i) <= cf_replication_level q)) as [H|H]; [left|right].
  - by intros q' [= <-].
  - intros HH. by apply H, HH.
Defined.

(** The loop that marks the rest of the table writes one entry only, the first
    one that is not used. *)
Lemma mark_rest_run {W : Type} `{NO : !NfiOps W} `{NI : !NfiInit W} `{SY : !Sys} k mark (js : list Z) (c : client W) :
  length (xpn_parttable c) = 128%nat → (k < 128)%nat →
  ∃ c', forM_ js (λ _, set_part (Z.of_nat k) mark) c = Some (tt, c') ∧
    (length (xpn_parttable c') = 128%nat ∧ xpn_file_table c' = xpn_file_table c) ∧
    ∀ i, (i < k)%nat → xpn_parttable c' !! i = xpn_parttable c !! i.
Proof.
  intros Hl Hk.
  destruct (forM_inv (λ c', (length (xpn_parttable c') = 128%nat ∧ xpn_file_table c' = xpn_file_table c) ∧
    ∀ i, (i < k)%nat → xpn_parttable c' !! i = xpn_parttable c !! i) js (λ _, set_part (Z.of_nat k) mark) c) as (c' & E & H); [by split| |by exists c'].
  intros _ c3 _ [[Hl3 Hf3] H3]. destruct (lookup_lt_is_Some_2 (xpn_parttable c3) k) as [p3 Hp3]; [lia|].
  eexists. split; [apply (set_part_run _ _ _ p3); carray|].
  split; [split; [cbn; by rewrite length_insert|exact Hf3]|]. intros i Hi. cbn. rewrite list_lookup_insert_ne by lia. by apply H3.
Qed.

Section built_table.
Context {W : Type} `{NO : !NfiOps W} `{NI : !NfiInit W} `{SY : !Sys}.
Variables (c : client W) (ps : list conf_file_data_partition) (connects : nat → list nfi_server).
Hypothesis Hbuilt : ∀ i q name, ps !! i = Some q → partition_name q = Some name →
  xpn_parttable c !! i = Some (built (Z.of_nat i) name q (connects i)).
Hypothesis Hnamed : ∀ i q, ps !! i = Some q → ∃ name, partition_name q = Some name.

(** What precedes a partition in the table is built from the configuration. *)
Lemma built_before i j p q : ps !! i = Some q → (j < i)%nat → xpn_parttable c !! j = Some p →
  ∃ q' name, ps !! j = Some q' ∧ partition_name q' = Some name ∧ p = built (Z.of_nat j) name q' (connects j).
Proof using Hbuilt Hnamed.
  intros Hq Hj Hp. apply lookup_lt_Some in Hq. destruct (lookup_lt_is_Some_2 ps j) as [q' Hq']; [lia|].
  destruct (Hnamed j q' Hq') as [name Hn]. exists q', name. split_and!; [done..|].
  pose proof (Hbuilt j q' name Hq' Hn) as H. congruence.
Qed.

Lemma built_found_by_number i q name : ps !! i = Some q → partition_name q = Some name →
  XpnSearchPart (Z.of_nat i) c = Some (Some i, c).
Proof using Hbuilt Hnamed.
  intros Hq Hn. unfold XpnSearchPart. mstep.
  rewrite (proj2 (list_find_Some _ _ i (built (Z.of_nat i) name q (connects i)))); [done|].
  split_and!; [by apply Hbuilt|done|]. intros j p Hp Hj.
  destruct (built_before i j p q Hq Hj Hp) as (q' & name' & _ & _ & ->). cbn. lia.
Qed.

Lemma built_found_by_name i q name rest : ps !! i = Some q → partition_name q = Some name →
  NoDup (partition_name <$> ps) → slash ∉ name → match rest with a :: _ => a = slash | [] => True end →
  XpnGetPartition (slash :: name ++ rest) c = Some ((Z.of_nat i, rest), c).
Proof using Hbuilt Hnamed.
  intros Hq Hn Hnd Hsl Hrest. unfold XpnGetPartition. rewrite getNamePart_app by done. rewrite (proj2 (Z.ltb_ge 0 0)) by lia.
  mstep. rewrite (proj2 (list_find_Some _ _ i (built (Z.of_nat i) name q (connects i)))); [done|].
  split_and!; [by apply Hbuilt|done|]. intros j p Hp Hj.
  destruct (built_before i j p q Hq Hj Hp) as (q' & name' & Hq' & Hn' & ->). cbn.
  intros ->. assert (j = i); [|lia]. apply (NoDup_lookup _ j i (partition_name q) Hnd).
  - rewrite list_lookup_fmap, Hq'. cbn. congruence.
  - by rewrite list_lookup_fmap, Hq.
Qed.
End built_table.

(** [xpn_init_partition] builds the table the configuration describes, or
    refuses it.  With valid partitions (fewer than 128) it succeeds if and only
    if no partition has more servers it could not connect to than its
    replication level; then every partition is found by its number and, when
    the names are distinct, by the first component of a path, with its values
    and servers, and the working directory and the file table are empty. *)
Theorem init_builds_partitions {W : Type} `{NO : !NfiOps W} `{NI : !NfiInit W} `{SY : !Sys}
    (c : client W) lines ps connects :
  connection_outcomes (W := W) lines ps connects → Forall conf_ok ps → (0 < length ps < 128)%nat → table_ok c →
  (∃ res c', xpn_init_partition false (Some (ConfData lines ps)) c = Some (res, c') ∧
     (res = (0, true) ↔ ∀ i, tolerable ps connects i) ∧ (res = (0, true) ∨ res = (-1, false)) ∧
     (res = (0, true) →
        xpn_cwddir c' = xpn_init_cwd ∧ xpn_file_table c' = replicate 1024 None ∧
        ∀ i q name, ps !! i = Some q → partition_name q = Some name →
          xpn_parttable c' !! i = Some (built (Z.of_nat i) name q (connects i)) ∧
          XpnSearchPart (Z.of_nat i) c' = Some (Some i, c') ∧
          (NoDup (partition_name <$> ps) → slash ∉ name →
           ∀ rest, match rest with a :: _ => a = slash | [] => True end →
             XpnGetPartition (slash :: name ++ rest) c' = Some ((Z.of_nat i, rest), c')))).
Proof.
  intros Hconn Hps Hlen Ht. unfold xpn_init_partition. cbn [XpnConfGetNumPartitions xpn_conf_reader_get_num_partitions partitions].
  unfold XpnConfGetNumPartitions, xpn_conf_reader_get_num_partitions. cbn [partitions].
  rewrite (proj2 (Z.leb_gt _ 0)) by lia. rewrite Nat2Z.id.
  destruct (decide (Forall (tolerable ps connects) (seq 0 (length ps)))) as [Hok|Hbad].
  - assert (∀ i, tolerable ps connects i) as Htol.
    { intros i q Hq. rewrite Forall_forall in Hok. apply (Hok i); [|done]. apply elem_of_seq. apply lookup_lt_Some in Hq. lia. }
    destruct (init_loop_run lines ps connects Hconn Hps ltac:(lia) (length ps) 0 c Ht eq_refl ltac:(auto)) as (c1 & E1 & [Hl1 Ht1] & H1 & _).
    mrun (exact E1). cbn [negb]. unfold xpn_init_file_table. mrun (mstep; reflexivity). set (c2 := with_files _ c1).
    match goal with |- context [set_part _ ?f] => destruct (mark_rest_run (length ps) f (seqZ 0 (Z.of_nat (length ps))) c2 Hl1 ltac:(lia))
      as (c3 & E3 & [Hl3 Hf3] & H3) end.
    mrun (exact E3). mstep. eexists (0, true), _. split; [reflexivity|]. split; [by split|]. split; [by left|]. intros _.
    split; [done|]. split; [exact Hf3|].
    match goal with |- context [XpnSearchPart _ ?c4] => assert (∀ i q name, ps !! i = Some q → partition_name q = Some name →
      xpn_parttable c4 !! i = Some (built (Z.of_nat i) name q (connects i))) as Hb end.
    { intros i q name Hq Hn. cbn [xpn_parttable with_cwd]. rewrite H3 by (by eapply lookup_lt_Some). by apply H1; [lia|..]. }
    assert (∀ i q, ps !! i = Some q → ∃ name, partition_name q = Some name) as Hnamed by (intros i q Hq; by apply (conf_name ps Hps i q)).
    intros i q name Hq Hn. split; [by apply Hb|]. split; [by apply (built_found_by_number _ ps connects Hb Hnamed i q name)|].
    intros. by apply (built_found_by_name _ ps connects Hb Hnamed i q name).
  - assert (∃ j, (0 <= j)%nat ∧ ¬ tolerable ps connects j) as Hex.
    { apply not_Forall_Exists, Exists_exists in Hbad as (j & _ & Hj); [|apply _]. exists j. split; [lia|exact Hj]. }
    destruct (init_loop_fail lines ps connects Hconn Hps ltac:(lia) (length ps) 0 c Ht eq_refl Hex) as (c1 & E1).
    mrun (exact E1). cbn [negb]. eexists (-1, false), c1. split; [done|]. split; [split; [done|]|].
    + intros Hall. destruct Hex as (j & _ & Hj). by destruct (Hj (Hall j)).
    + split; [by right|done].
Qed.

(** *** A server whose protocol is not known *)

Section unknown.
Context {W : Type} `{NO : !NfiOps W} `{NI : !NfiInit W} `{SY : !Sys}.

(** The URL has no protocol, or one that is not compiled in. *)
Definition unknown_protocol (u : cstr) : Prop :=
  ∃ ret b, ParseURL u (UrlBufs (Some []) None None None) = Some (ret, b) ∧
    (ret < 0 ∨ protocol_of (default [] (u_protocol b)) = None).

Lemma init_server_unknown lines ps i q j u (e : env W) r e' :
  ps !! i = Some q → cf_servers q !! j = Some u → unknown_protocol u →
  XpnInitServer (ConfData lines ps) (Z.of_nat i) server_zero (Z.of_nat j) e = Some (r, e') → r = (-1, server_zero).
Proof.
  intros Hq Hj (ret & b & Hu & Hbad). unfold XpnInitServer, XpnConfGetServer, xpn_conf_reader_get_server.
  destruct (conf_get lines ps i q Hq) as [Hrd Hlen]. cbn [partitions] in *. rewrite Hlen, Hrd. cbn [mbind option_bind].
  pose proof (lookup_lt_Some _ _ _ Hj). rewrite (proj2 (Z.leb_gt _ _)) by lia.
  assert (rdZ (cf_servers q) (Z.of_nat j) = Some u) as -> by carray.
  cbn [mbind option_bind]. mstep. cbn [Z.eqb negb]. destruct (KB <=? strlen u); [done|].
  mrun (unfold lift; rewrite Hu; reflexivity). destruct (Z.ltb_spec ret 0); [intros [= <- <-]; done|].
  destruct Hbad as [|Hp]; [lia|]. destruct (PROTOCOL_MAXLEN <=? _); [done|]. rewrite Hp. by intros [= <- <-].
Qed.

(** So its entry has no URL. *)
Lemma init_servers_unknown lines ps i q u (e : env W) l e' :
  ps !! i = Some q → u ∈ cf_servers q → unknown_protocol u →
  init_servers (ConfData lines ps) (Z.of_nat i) (Z.of_nat (length (cf_servers q))) e = Some (l, e') → existsb url_is_null l = true.
Proof.
  intros Hq [j Hj]%list_elem_of_lookup Hu. unfold init_servers.
  pose proof (lookup_lt_Some _ _ _ Hj) as Hlt.
  assert (∀ js acc (e : env W), foldM js (λ l j, '(res, s) ← XpnInitServer (ConfData lines ps) (Z.of_nat i) server_zero j;
      mret (l ++ [if (res : Z) <? 0 then set_error (-1) s else s])) acc e = Some (l, e') →
      existsb url_is_null acc = true ∨ Z.of_nat j ∈ js → existsb url_is_null l = true) as HH.
  { induction js as [|k js IH]; intros acc e0 H Hor; cbn [foldM] in H.
    - injection H as <- <-. destruct Hor as [|[]%elem_of_nil]; done.
    - apply bind_inv in H as (acc' & e1 & H1 & H2). apply bind_inv in H1 as ([r s] & e2 & H3 & H4). injection H4 as <- <-.
      apply (IH _ _ H2). rewrite existsb_app, orb_true_iff. destruct Hor as [->|Hk]; [by left; left|].
      apply elem_of_cons in Hk as [<-|Hk]; [|by right]. left. right.
      pose proof (init_server_unknown _ _ _ _ _ _ _ _ _ Hq Hj Hu H3) as [= -> ->]. reflexivity. }
  intros H. apply (HH _ _ _ H). right. apply elem_of_seqZ. lia.
Qed.
End unknown.

(** Initialisation does not count a server whose URL has an unknown
    protocol as a failed one: such a server has no URL, and the search for the
    local server reads it.  Whatever the replication level and the other
    servers, the first partition with such a server ends in undefined behaviour. *)
Theorem init_unknown_protocol_faults {W : Type} `{NO : !NfiOps W} `{NI : !NfiInit W} `{SY : !Sys} (c : client W) lines q ps u :
  length (xpn_parttable c) = 128%nat → conf_ok q → u ∈ cf_servers q → unknown_protocol u →
  xpn_init_partition false (Some (ConfData lines (q :: ps))) c = None.
Proof.
  intros Hl Hq Hu Hbad. unfold xpn_init_partition, XpnConfGetNumPartitions, xpn_conf_reader_get_num_partitions.
  cbn [partitions length]. rewrite (proj2 (Z.leb_gt _ 0)) by lia. rewrite Nat2Z.id. cbn [init_loop].
  destruct (lookup_lt_is_Some_2 (xpn_parttable c) 0) as [p0 Hp0]; [lia|].
  pose proof Hq as [[(name & Hname & _) _ _ _] _].
  pose proof (init_one_run lines (q :: ps) 0 q name c p0 eq_refl Hq Hname Hp0 ltac:(lia)) as E.
  assert (init_one (ConfData lines (q :: ps)) 0 c = None) as E0; [|unfold mbind, M_bind; by rewrite E0].
  change 0 with (Z.of_nat 0). rewrite E. destruct (init_servers _ _ _ _) as [[l e']|] eqn:El; [|done].
  by rewrite (init_servers_unknown lines (q :: ps) 0 q u (cl_env c) l e' eq_refl Hu Hbad El).
Qed.

(** Servers whose URL holds "down" do not answer. *)
#[export] Instance sample_init : NfiInit memfs := {
  enabled _ := true;
  nfi_init k url s st := if strstr url (str "down") then ((-1, s), st) else ((0, NfiServer 0 url 0 0 0), st);
  has_ops s := negb (length (srv_url s) =? 0)%nat;
  nfi_disconnect s st := (0, st);
  nfi_destroy s st := (0, st);
  host_ip := str "10.0.0.7";
  host_name := str "node2" }.

Definition sample_connects (i : nat) : list nfi_server :=
  match i with
  | O => [NfiServer 0 (str "mpi_server://node1/tmp") 0 0 0; NfiServer 0 (str "mpi_server://node2/tmp") 0 0 0]
  | _ => [NfiServer 0 (str "file:///scratch") 0 0 0]
  end.

Lemma sample_outcomes : connection_outcomes (W := memfs) 12 sample_conf sample_connects.
Proof.
  intros [|[|i]] q e Hq; [injection Hq as <-|injection Hq as <-|done]; destruct e as [er m w]; (split; [reflexivity|]); eexists; vm_compute; reflexivity.
Qed.

Lemma init_builds_partitions_witness :
  ∃ c', xpn_init_partition false (Some (ConfData 12 sample_conf)) (mclient 0) = Some ((0, true), c') ∧
    XpnGetPartition (str "/P2/file") c' = Some ((1, str "/file"), c') ∧
    part_local_serv <$> xpn_parttable c' !! 0%nat = Some 1.
Proof.
  assert (Forall conf_ok sample_conf) as Hok.
  { repeat apply Forall_cons_2; [| |apply Forall_nil_2]; (split; [|split; [discriminate|discriminate]]);
      (split; [eexists; split; [reflexivity|by apply token_okb_ok]|zcalc|zcalc|repeat (apply Forall_cons_2; [by apply token_okb_ok|]); apply Forall_nil_2]). }
  assert (table_ok (mclient 0)) as Ht.
  { split; [reflexivity|]. intros [|i] p Hp; [by injection Hp as <-|].
    change (replicate 127 (XpnPart (-1) [] 0 0 0 0 []) !! i = Some p) in Hp. apply lookup_replicate in Hp as [-> _]. reflexivity. }
  destruct (init_builds_partitions (mclient 0) 12 sample_conf sample_connects sample_outcomes Hok ltac:(cbn; lia) Ht)
    as (res & c' & E & Hiff & _ & Hres).
  assert (res = (0, true)) as ->.
  { apply Hiff. intros [|[|i]] q Hq; [injection Hq as <-|injection Hq as <-|done]; zcalc. }
  destruct (Hres eq_refl) as (_ & _ & Hp). exists c'. split; [exact E|]. split.
  - destruct (Hp 1%nat _ _ eq_refl eq_refl) as (_ & _ & H). apply (H ltac:(by apply (bool_decide_unpack _); vm_compute) ltac:(by apply (bool_decide_unpack _); vm_compute) (str "/file") eq_refl).
  - destruct (Hp 0%nat _ _ eq_refl eq_refl) as (-> & _). reflexivity.
Defined.

(** A misspelt protocol on a server that replication could have replaced. *)
Definition misspelt_conf : conf_file_data_partition :=
  ConfPart (Some (str "P1")) 1 65536 [str "mpi_server://node1/tmp"; str "mpi-server://node2/tmp"].
Lemma init_unknown_protocol_faults_witness :
  xpn_init_partition false (Some (ConfData 6 [misspelt_conf])) (mclient 0) = None.
Proof.
  apply (init_unknown_protocol_faults (mclient 0) 6 misspelt_conf [] (str "mpi-server://node2/tmp")); [reflexivity| | |].
  - split; [|split; discriminate]. split; [eexists; split; [reflexivity|by apply token_okb_ok]|zcalc|zcalc|].
    repeat (apply Forall_cons_2; [by apply token_okb_ok|]). apply Forall_nil_2.
  - right. left.
  - do 2 eexists. split; [vm_compute; reflexivity|]. right. reflexivity.
Defined.
