(* ===== verification/Bytes.v ===== *)
(** * Bytes: what a server keeps, byte by byte

    [NfiBytes] extends the promise of [NfiStore] to the contents of the files:
    a write changes the bytes it covers and no others, a read returns the
    bytes that are there, and writing metadata leaves the data alone.  Over it,
    what the operations of a row do to a file and to the memory. *)

From S2P Require Import Prelude Cstr Paths Layout Mdata Nfi Client MemFs FileTable Blocks BlocksSpec Store.

Class NfiBytes (W : Type) {NO : NfiOps W} {NS : NfiStore W} := {
  st_key : Type;
  st_file : nfi_server → nfi_fhandle → st_key;
  st_byte : nfi_server → nfi_fhandle → Z → W → option ascii;
  st_file_server s s' fh : srv_id s = srv_id s' → srv_url s = srv_url s' → st_file s fh = st_file s' fh;
  st_same s fh s' fh' w : st_file s fh = st_file s' fh' →
    (st_open s fh w → st_open s' fh' w) ∧ ∀ x, st_byte s fh x w = st_byte s' fh' x w;
  st_put_inside s fh off d w i b :
    st_open s fh w → XPN_HEADER_SIZE <= off → d !! i = Some b →
    st_byte s fh (off + Z.of_nat i) (st_put s fh off d w) = Some b;
  st_put_outside s fh off d w x b :
    st_open s fh w → XPN_HEADER_SIZE <= off → XPN_HEADER_SIZE <= x → ¬ (off <= x < off + Z.of_nat (length d)) →
    st_byte s fh x w = Some b → st_byte s fh x (st_put s fh off d w) = Some b;
  st_put_other s fh off d w s' fh' :
    st_file s fh ≠ st_file s' fh' →
    (st_open s' fh' w → st_open s' fh' (st_put s fh off d w)) ∧
    ∀ x, st_byte s' fh' x (st_put s fh off d w) = st_byte s' fh' x w;
  st_read s fh off e w data :
    st_open s fh w → XPN_HEADER_SIZE <= off →
    (∀ i b, data !! i = Some b → st_byte s fh (off + Z.of_nat i) w = Some b) →
    nfi_read s fh off (Z.of_nat (length data)) (e, w) = ((Z.of_nat (length data), data), (e, w));
  st_mdata s url m o e w :
    ∃ (r e' : Z) (w' : W), nfi_write_mdata s url m o (e, w) = (r, (e', w')) ∧
    ∀ s' fh', (st_open s' fh' w → st_open s' fh' w') ∧ ∀ x, st_byte s' fh' x w' = st_byte s' fh' x w }.

(** *** The in-memory instance *)

Lemma splice_inside b o d i : (i < length d)%nat → splice b o d !! (o + i)%nat = d !! i.
Proof.
  intros Hi. unfold splice. set (b' := b ++ replicate (o - length b) NUL).
  assert (length (take o b') = o) as Ht by (rewrite length_take; unfold b'; rewrite length_app, length_replicate; lia).
  rewrite lookup_app_r by lia. rewrite Ht. replace (o + i - o)%nat with i by lia. by apply lookup_app_l.
Qed.
Lemma splice_outside b o d k x : ¬ (o <= k < o + length d)%nat → b !! k = Some x → splice b o d !! k = Some x.
Proof.
  intros Hk Hx. unfold splice. set (b' := b ++ replicate (o - length b) NUL).
  assert (length (take o b') = o) as Ht by (rewrite length_take; unfold b'; rewrite length_app, length_replicate; lia).
  assert (b' !! k = Some x) as Hb by (by apply lookup_app_l_Some).
  destruct (decide (k < o)%nat).
  - rewrite lookup_app_l by lia. by rewrite lookup_take_lt by lia.
  - rewrite lookup_app_r, Ht by lia. rewrite lookup_app_r by lia. rewrite lookup_drop, <- Hb. f_equal. lia.
Qed.

Definition mem_byte (s : nfi_server) (fh : nfi_fhandle) (x : Z) (w : memfs) : option ascii :=
  f ← w !! key s (fh_url fh); if x <? XPN_HEADER_SIZE then None else mf_bytes f !! Z.to_nat (x - XPN_HEADER_SIZE).

Lemma mem_byte_key (s : nfi_server) (fh : nfi_fhandle) (x : Z) (w w' : memfs) :
  (mf_bytes <$> w' !! key s (fh_url fh)) = (mf_bytes <$> w !! key s (fh_url fh)) → mem_byte s fh x w' = mem_byte s fh x w.
Proof.
  unfold mem_byte. destruct (w' !! _) as [f'|], (w !! _) as [f|]; cbn; intros E; try discriminate E; [|done].
  injection E as E. by rewrite E.
Qed.

Lemma mem_mdata (s : nfi_server) (url : cstr) (m : xpn_metadata) (o e : Z) (w : memfs) :
  ∃ (r e' : Z) (w' : memfs), nfi_write_mdata s url m o (e, w) = (r, (e', w')) ∧
    ∀ (s' : nfi_server) (fh' : nfi_fhandle), (st_open s' fh' w → st_open s' fh' w') ∧ ∀ x : Z, mem_byte s' fh' x w' = mem_byte s' fh' x w.
Proof.
  assert (∀ f f' : mfile, (w !! key s url = Some f ∨ w !! key s url = None ∧ mf_bytes f = []) → mf_bytes f' = mf_bytes f →
    ∀ s' fh', (is_Some (w !! key s' (fh_url fh')) → is_Some (<[key s url := f']> w !! key s' (fh_url fh'))) ∧
      ∀ x, mem_byte s' fh' x (<[key s url := f']> w) = mem_byte s' fh' x w) as Hput.
  { intros f f' Hf Ef s' fh'. destruct (decide (key s url = key s' (fh_url fh'))) as [E|E].
    - unfold mem_byte. rewrite <- E, lookup_insert_eq. split; [by eexists|]. intros x. cbn [mbind option_bind]. rewrite Ef.
      destruct Hf as [-> | [-> ->]]; [done|]. cbn. by destruct (x <? XPN_HEADER_SIZE).
    - split; [by rewrite lookup_insert_ne|]. intros x. apply mem_byte_key. by rewrite lookup_insert_ne. }
  cbn [nfi_write_mdata memfs_ops]. destruct (o =? 0).
  - eexists _, _, _. split; [reflexivity|]. apply (Hput (default empty_file (w !! key s url))); [|done].
    destruct (w !! key s url); [by left|by right].
  - unfold mem_update. destruct (w !! key s url) as [f|] eqn:E.
    + eexists _, _, _. split; [reflexivity|]. apply (Hput f); [by left|]. by destruct (_ <? _).
    + eexists _, _, _. split; [reflexivity|]. done.
Qed.

#[export] Instance memfs_bytes : NfiBytes memfs.
Proof.
  refine {| st_file s fh := key s (fh_url fh); st_byte := mem_byte; st_mdata := mem_mdata |}.
  - intros s s' fh H _. unfold key. by rewrite H.
  - intros s fh s' fh' w E. cbn. unfold mem_byte. by rewrite E.
  - intros s fh off d w i b [f Hf] Ho Hi. cbn. unfold mem_byte, mem_put. rewrite Hf, lookup_insert_eq. cbn [mbind option_bind mf_bytes].
    rewrite (proj2 (Z.ltb_ge _ _)) by lia. replace (Z.to_nat (off + Z.of_nat i - XPN_HEADER_SIZE)) with (Z.to_nat (off - XPN_HEADER_SIZE) + i)%nat by lia.
    rewrite splice_inside; [done|by apply lookup_lt_Some in Hi].
  - intros s fh off d w x b [f Hf] Ho Hx Hout. cbn. unfold mem_byte, mem_put. rewrite Hf, lookup_insert_eq. cbn [mbind option_bind mf_bytes].
    rewrite (proj2 (Z.ltb_ge _ _)) by lia. apply splice_outside. lia.
  - intros s fh off d w s' fh' Hne. cbn. unfold mem_put. destruct (w !! key s (fh_url fh)) as [f|]; [|done].
    split; [by rewrite lookup_insert_ne|]. intros x. apply mem_byte_key. by rewrite lookup_insert_ne.
  - intros s fh off e w data [f Hf] Ho Hd. cbn [nfi_read memfs_ops]. rewrite Hf.
    assert (take (Z.to_nat (Z.of_nat (length data))) (drop (Z.to_nat (off - XPN_HEADER_SIZE)) (mf_bytes f)) = data) as ->; [|done].
    apply list_eq. intros i. destruct (decide (i < length data)%nat) as [Hi|Hi].
    2: { rewrite lookup_take_ge, lookup_ge_None_2 by lia. done. }
    rewrite lookup_take_lt, lookup_drop by lia. destruct (lookup_lt_is_Some_2 data i Hi) as [b Hb].
    specialize (Hd i b Hb). unfold mem_byte in Hd. rewrite Hf in Hd. cbn [mbind option_bind] in Hd.
    rewrite (proj2 (Z.ltb_ge _ _)) in Hd by lia. rewrite Hb, <- Hd. f_equal. lia.
Defined.

(** ** The operations of a row *)

Section bytes.
Context {W : Type} {NO : NfiOps W} {NS : NfiStore W} {NB : NfiBytes W}.

(** Everything but the file [(s, fh)] is as it was. *)
Definition others_kept (s : nfi_server) (fh : nfi_fhandle) (w w' : W) : Prop :=
  ∀ s' fh', st_file s fh ≠ st_file s' fh' →
    (st_open s' fh' w → st_open s' fh' w') ∧ ∀ x, st_byte s' fh' x w' = st_byte s' fh' x w.
Definition covered (io : list nfi_worker_io) (x : Z) : Prop :=
  Exists (λ o, io_offset o <= x < io_offset o + io_size o) io.
#[export] Instance covered_dec io x : Decision (covered io x).
Proof. unfold covered. apply _. Defined.

(** Byte [x] of the data of the file, after the header. *)
Definition data_byte (s : nfi_server) (fh : nfi_fhandle) (x : Z) (w : W) : option ascii := st_byte s fh (x + XPN_HEADER_SIZE) w.

(** The bytes that the operation [o] writes are the ones [V] allows. *)
Definition writes (m : memory) (V : Z → ascii → Prop) (o : nfi_worker_io) : Prop :=
  0 <= io_offset o < 2 ^ 62 ∧ ∃ dt, mem_read m (io_buffer o) (io_size o) = Some dt ∧
  ∀ i b, dt !! i = Some b → V (io_offset o + Z.of_nat i) b.

Lemma do_write_bytes srv fh V io : ∀ ret (st : env W),
  st_open srv fh (world st) → Forall (writes (mem st) V) io → 0 <= ret → ret + sizes io < 2 ^ 62 →
  ∃ w', do_write srv fh io ret st = Some (ret + sizes io, Env (errno st) (mem st) w') ∧ st_open srv fh w' ∧
    (∀ x, covered io x → ∃ b, V x b ∧ data_byte srv fh x w' = Some b) ∧
    (∀ x b, 0 <= x → ¬ covered io x → data_byte srv fh x (world st) = Some b → data_byte srv fh x w' = Some b) ∧
    others_kept srv fh (world st) w'.
Proof.
  induction io as [|o io IH]; intros ret st Hop HF Hr Hb.
  - exists (world st). cbn [do_write]. change (sizes []) with 0. rewrite Z.add_0_r. split_and!; try done.
    + by destruct st.
    + intros x Hx. by apply Exists_nil in Hx.
  - apply Forall_cons in HF as [(Ho & dt & Hm & HV) HF]. pose proof (mem_read_inv _ _ _ _ Hm) as (_ & _ & _ & Hk & _ & _ & Hl).
    assert (0 <= sizes io) as Hsz.
    { clear -HF. induction HF as [|o io (_ & dt & Hm & _) HF IH]; [done|]. rewrite sizes_cons.
      pose proof (mem_read_inv _ _ _ _ Hm) as (_ & _ & _ & Hk & _). lia. }
    rewrite sizes_cons in *. rewrite (do_write_cons srv fh o io ret dt st) by (done || lia).
    set (w1 := st_put srv fh (io_offset o + XPN_HEADER_SIZE) dt (world st)).
    destruct (IH (ret + Z.of_nat (length dt)) (Env (errno st) (mem st) w1)) as (w' & -> & Hop' & Hin & Hout & Hoth);
      [by apply st_put_open|done|lia|lia|].
    exists w'. cbn [errno mem world] in *. split_and!.
    + do 2 f_equal. lia.
    + done.
    + intros x [Hx|Hx]%Exists_cons; [|by apply Hin]. destruct (decide (covered io x)) as [Hc|Hc]; [by apply Hin|].
      destruct (lookup_lt_is_Some_2 dt (Z.to_nat (x - io_offset o))) as [b Hd]; [lia|].
      exists b. split; [replace x with (io_offset o + Z.of_nat (Z.to_nat (x - io_offset o))) by lia; by apply HV|].
      apply Hout; [lia|done|]. unfold data_byte, w1.
      replace (x + XPN_HEADER_SIZE) with (io_offset o + XPN_HEADER_SIZE + Z.of_nat (Z.to_nat (x - io_offset o))) by lia.
      apply st_put_inside; [done|unfold XPN_HEADER_SIZE; lia|done].
    + intros x b H0 Hx Hb0. unfold covered in Hx. rewrite Exists_cons in Hx. apply Hout; [done|tauto|].
      unfold data_byte, w1. apply st_put_outside; [done|unfold XPN_HEADER_SIZE; lia..| |done].
      unfold XPN_HEADER_SIZE. intros H. apply Hx. left. lia.
    + intros s' fh' Hne. destruct (Hoth s' fh' Hne) as [H1 H2]. destruct (st_put_other srv fh (io_offset o + XPN_HEADER_SIZE) dt (world st) s' fh' Hne) as [H3 H4].
      split; [tauto|]. intros x. by rewrite H2, H4.
Qed.

(** Writing does not change the memory. *)
Lemma do_write_mem srv fh io : ∀ ret (st : env W) r st', do_write srv fh io ret st = Some (r, st') → mem st' = mem st.
Proof.
  induction io as [|o io IH]; intros ret st r st' H; cbn [do_write] in H; [by injection H as _ <-|].
  apply bind_inv in H as (s1 & st1 & [= <- <-] & H). apply bind_inv in H as (dt & st2 & H1 & H).
  unfold lift in H1. destruct (mem_read _ _ _); [injection H1 as <- <-|done].
  apply bind_inv in H as (aux & st3 & H1 & H). unfold call in H1. destruct (nfi_write _ _ _ _ _) as [a [e w]]. injection H1 as <- <-.
  destruct (_ <? 0); [by injection H as _ <-|]. by apply IH in H.
Qed.
End bytes.
