(* ===== verification/Transfer.v ===== *)
(** * Transfer: a whole write and a whole read

    The composition: [xpn_pwrite] and [xpn_pread] of
    src/src/xpn_client/xpn/xpn_simple/xpncore/xpn_rw.c, over servers that keep
    bytes ([NfiBytes]).  The matrix of the request, the launch on every server,
    the wait, the count of the bytes and the update of the size together store
    every byte of every replica that is on a server that works. *)

From S2P Require Import Prelude Cstr Paths Layout Mdata Nfi Client MemFs FileTable Blocks Rw BlocksSpec Store Coverage Reading Servers Bytes.

Section rounds.
Context {W : Type} `{NO : !NfiOps W} `{SY : !Sys}.

(** ** A round over all the servers *)

(** A round runs when every request does; [P k] holds before server [k]. *)
Lemma serve_run (req : Z → nfi_server → option nfi_request) (res : nat → Z) (P : nat → env W → Prop) l0 :
  (∀ k s e, l0 !! k = Some s → P k e →
    match req (Z.of_nat k) s with
    | Some r => if is_out s then P (S k) e else ∃ out e1, nfi_do_operation s r e = Some ((res k, out), e1) ∧ P (S k) e1
    | None => P (S k) e
    end) →
  ∀ suf pre e, l0 = pre ++ suf → P (length pre) e →
  ∃ suf' e', serve req (Z.of_nat (length pre)) suf e = Some (suf', e') ∧ P (length l0) e' ∧ length suf' = length suf ∧
    ∀ i s, suf !! i = Some s → ∃ er, suf' !! i =
      Some (match req (Z.of_nat (length pre + i)) s with
            | Some _ => if is_out s then s else set_wrk (res (length pre + i)%nat) er s
            | None => s
            end).
Proof.
  intros Hstep suf. induction suf as [|s suf IH]; intros pre e E HP; cbn [serve].
  - exists [], e. rewrite E, app_nil_r. split_and!; try done.
  - assert (l0 !! length pre = Some s) as Hs by (rewrite E; by apply list_lookup_middle).
    specialize (Hstep (length pre) s e Hs HP).
    assert (∀ e1 s1, P (S (length pre)) e1 → (∃ er, s1 = match req (Z.of_nat (length pre)) s with
            | Some _ => if is_out s then s else set_wrk (res (length pre)) er s | None => s end) →
      ∃ suf' e', serve req (Z.of_nat (length pre) + 1) suf e1 = Some (suf', e') ∧ P (length l0) e' ∧ length (s1 :: suf') = length (s :: suf) ∧
      ∀ i s', (s :: suf) !! i = Some s' → ∃ er, (s1 :: suf') !! i =
      Some (match req (Z.of_nat (length pre + i)) s' with
            | Some _ => if is_out s' then s' else set_wrk (res (length pre + i)%nat) er s'
            | None => s'
            end)) as Hgo.
    { intros e1 s1 HP1 [er Hs1]. destruct (IH (pre ++ [s]) e1) as (suf' & e' & E1 & HP' & Hl & Hi).
      - by rewrite E, <- app_assoc.
      - rewrite length_app. cbn. by rewrite Nat.add_1_r.
      - exists suf', e'. rewrite length_app in E1, Hi. cbn [length] in E1, Hi. rewrite Nat2Z.inj_add in E1.
        split_and!; [exact E1|done|cbn; lia|]. intros [|i] s' Hs'.
        + injection Hs' as <-. exists er. rewrite Nat.add_0_r. by rewrite Hs1.
        + destruct (Hi i s' Hs') as [er' Hi']. exists er'. etransitivity; [exact Hi'|].
          by replace (length pre + 1 + i)%nat with (length pre + S i)%nat by lia. }
    destruct (req (Z.of_nat (length pre)) s) as [r|].
    + destruct (is_out s).
      * destruct (Hgo e s Hstep) as (suf' & e' & -> & H); [by exists 0|]. exists (s :: suf'), e'. split; [done|exact H].
      * destruct Hstep as (out & e1 & -> & HP1). destruct (Hgo e1 (set_wrk (res (length pre)) (errno e1) s) HP1) as (suf' & e' & E1 & H); [by eexists|].
        eexists _, e'. cbn [mbind option_bind]. rewrite E1. cbn [mbind option_bind]. split; [reflexivity|exact H].
    + destruct (Hgo e s Hstep) as (suf' & e' & -> & H); [by exists 0|]. exists (s :: suf'), e'. split; [done|exact H].
Qed.

(** *** The launch loop is a round *)

Definition row_req (write : bool) (io : list (list nfi_worker_io)) (hs : list nfi_fhandle) (j : Z) (s : nfi_server) : option nfi_request :=
  match rdZ io j, rdZ hs j with
  | Some (o :: row), Some fh => Some (if write then op_write fh (o :: row) else op_read fh (o :: row))
  | _, _ => None
  end.

Implicit Types c : client W.

Lemma update_fd_same fd d c : get_fd fd c = Some (d, c) → update_fd fd (λ _, d) c = Some (tt, c).
Proof.
  intros H. apply get_fd_inv in H as [_ (l & Hs & Hl)]. rewrite (update_fd_run c fd l d) by done.
  unfold with_heap. rewrite insert_id by done. by destruct c.
Qed.

Lemma need_fh_run fd p j c d fh :
  get_fd fd c = Some (d, c) → rdZ (fd_nfih d) j = Some (Some fh) → need_fh fd p j c = Some ((0, Some fh), c).
Proof.
  intros Hd Hj. unfold need_fh. mrun (exact Hd). mrun (unfold lift; rewrite Hj; reflexivity).
  mrun (reflexivity). pose proof (proj1 (rdZ_lookup _ _ _) Hj) as [H0 Hl].
  mrun (unfold lift; rewrite (wrZ_run _ j) by (apply lookup_lt_Some in Hl; lia); reflexivity).
  rewrite list_insert_id by done. apply get_fd_inv in Hd as [_ (l & Hs & Hh)].
  erewrite bind_step; [reflexivity|]. rewrite (update_fd_run c fd l d) by done.
  assert (set_nfih (fd_nfih d) d = d) as -> by (by destruct d). unfold with_heap. rewrite insert_id by done. by destruct c.
Qed.

Lemma get_fd_with_servers fd d c p part l e :
  get_fd fd c = Some (d, c) → get_fd fd (with_env e (with_servers p part l c)) = Some (d, with_env e (with_servers p part l c)).
Proof. intros [_ (k & Hs & Hk)]%get_fd_inv. by apply (get_fd_run _ _ k). Qed.

Lemma launch_rows_run write fd p d hs IO suf : ∀ io pre c part suf' e',
  xpn_parttable c !! p = Some part → data_serv part = pre ++ suf → drop (length pre) IO = io → length io = length suf →
  get_fd fd c = Some (d, c) → fd_nfih d = Some <$> hs → (length pre + length suf <= length hs)%nat →
  serve (row_req write IO hs) (Z.of_nat (length pre)) suf (cl_env c) = Some (suf', e') →
  launch_rows write fd p (Z.of_nat (length pre)) io c = Some (true, with_env e' (with_servers p part (pre ++ suf') c)).
Proof.
  induction suf as [|s suf IH]; intros io pre c part suf' e' Hp Hd HIO Hlen Hfd Hhs Hlh Hs.
  - destruct io; [|done]. cbn in Hs. injection Hs as <- <-. cbn [launch_rows]. rewrite <- Hd, with_servers_same by done. by destruct c.
  - destruct io as [|row io]; [done|]. cbn [length] in Hlen, Hlh.
    assert (IO !! length pre = Some row) as Hrow.
    { rewrite <- (Nat.add_0_r (length pre)), <- lookup_drop, HIO. done. }
    destruct (lookup_lt_is_Some_2 hs (length pre)) as [fh Hfh]; [lia|].
    assert (rdZ (data_serv part) (Z.of_nat (length pre)) = Some s) as Hr by (rewrite Hd, rdZ_of_nat; by apply list_lookup_middle).
    assert (∀ s1 e1, serve (row_req write IO hs) (Z.of_nat (length pre) + 1) suf e1 = Some (tail suf', e') → suf' = s1 :: tail suf' →
      launch_rows write fd p (Z.of_nat (length pre) + 1) io (with_env e1 (with_servers p part (pre ++ s1 :: suf) c))
      = Some (true, with_env e' (with_servers p part (pre ++ suf') c))) as Hnext.
    { intros s1 e1 E1 E2. specialize (IH io (pre ++ [s1]) (with_env e1 (with_servers p part (pre ++ s1 :: suf) c)) (set_serv (pre ++ s1 :: suf) part) (tail suf') e').
      rewrite length_app in IH. cbn [length] in IH. rewrite Nat2Z.inj_add in IH. change (Z.of_nat 1) with 1 in IH. rewrite IH.
      - rewrite with_servers_idem, <- app_assoc. cbn [app]. rewrite <- E2. done.
      - apply with_servers_lookup. by apply lookup_lt_Some in Hp.
      - cbn. by rewrite <- app_assoc.
      - by rewrite <- drop_drop, HIO.
      - lia.
      - by apply get_fd_with_servers.
      - done.
      - lia.
      - exact E1. }
    cbn [serve] in Hs. destruct row as [|o row]; cbn [launch_rows].
    + unfold row_req at 1 in Hs. rewrite rdZ_of_nat, Hrow in Hs. destruct (serve _ _ _ (cl_env c)) as [[sx ex]|] eqn:E1; [|done].
      cbn in Hs. injection Hs as <- <-. specialize (Hnext s (cl_env c) E1 eq_refl).
      rewrite <- Hd, with_servers_same in Hnext by done. rewrite <- Hnext. f_equal. by destruct c.
    + assert (row_req write IO hs (Z.of_nat (length pre)) s = Some (if write then op_write fh (o :: row) else op_read fh (o :: row))) as Hreq
        by (unfold row_req; rewrite !rdZ_of_nat, Hrow, Hfh; done).
      rewrite Hreq in Hs. mrun (apply (need_fh_run fd p _ c d fh Hfd); rewrite Hhs, rdZ_of_nat, list_lookup_fmap, Hfh; done).
      cbn [Z.ltb Z.compare]. pose proof (launch0_run s (if write then op_write fh (o :: row) else op_read fh (o :: row)) (cl_env c)) as El.
      assert ((if write then nfi_worker_do_write s (default fh_zero (Some fh)) (o :: row) else nfi_worker_do_read s (default fh_zero (Some fh)) (o :: row))
        = launch0 s (if write then op_write fh (o :: row) else op_read fh (o :: row))) as Ew by (by destruct write).
      assert (∀ s1 e1 out, launch0 s (if write then op_write fh (o :: row) else op_read fh (o :: row)) (cl_env c) = Some ((s1, out), e1) →
        on_server p (Z.of_nat (length pre)) (λ s', if write then nfi_worker_do_write s' (default fh_zero (Some fh)) (o :: row)
          else nfi_worker_do_read s' (default fh_zero (Some fh)) (o :: row)) c
        = Some (out, with_env e1 (with_servers p part (pre ++ s1 :: suf) c))) as Hon.
      { intros s1 e1 out E1. rewrite <- Ew in E1. erewrite on_server_run; [|exact Hp|exact Hr|exact E1].
        rewrite Nat2Z.id, Hd, <- (Nat.add_0_r (length pre)), insert_app_r. done. }
      destruct (is_out s) eqn:Eo.
      * destruct (serve _ _ suf (cl_env c)) as [[sx ex]|] eqn:E1; [|done]. cbn in Hs. injection Hs as <- <-.
        mrun (exact (Hon _ _ _ El)). exact (Hnext s (cl_env c) E1 eq_refl).
      * destruct (nfi_do_operation s _ (cl_env c)) as [[[ret out] e1]|] eqn:E0; [|done]. cbn [mbind option_bind] in Hs.
        destruct (serve _ _ suf e1) as [[sx ex]|] eqn:E1; [|done]. cbn in Hs. injection Hs as <- <-.
        mrun (exact (Hon _ _ _ El)). exact (Hnext _ e1 E1 eq_refl).
Qed.

(** *** The wait loop *)

Definition row_result (row : list nfi_worker_io) (s : nfi_server) : Z := match row with [] => 0 | _ => wait_result s end.

Lemma wait_rows_run p suf : ∀ io pre c part,
  xpn_parttable c !! p = Some part → data_serv part = pre ++ suf → length io = length suf →
  ∃ c', wait_rows p (Z.of_nat (length pre)) io c = Some ((zip_with row_result io suf, existsb (λ r, r <? 0) (zip_with row_result io suf)), c') ∧ errno_only c c'.
Proof.
  induction suf as [|s suf IH]; intros io pre c part Hp Hd Hl; (destruct io as [|row io]; [|]); try done.
  - exists c. split; [done|apply errno_only_refl].
  - cbn [length] in Hl. cbn [wait_rows].
    assert (rdZ (data_serv part) (Z.of_nat (length pre)) = Some s) as Hr by (rewrite Hd, rdZ_of_nat; by apply list_lookup_middle).
    assert (∃ c1, match row with [] => mret 0 | _ => wait_server p (Z.of_nat (length pre)) end c = Some (row_result row s, c1) ∧ errno_only c c1)
      as (c1 & E1 & H1).
    { destruct row; [exists c; split; [done|apply errno_only_refl]|]. by apply (wait_server_run p _ c part s). }
    mrun (exact E1). destruct (IH io (pre ++ [s]) c1 part) as (c2 & E2 & H2);
      [by rewrite (errno_only_parts _ _ H1)|by rewrite <- app_assoc|lia|].
    exists c2. split; [|by apply errno_only_trans with c1]. rewrite length_app, Nat2Z.inj_add in E2. mrun (exact E2). done.
Qed.
End rounds.

(** ** The count of the bytes *)

Definition served (row : list nfi_worker_io) (s : nfi_server) : Z := if is_out s then 0 else sizes row.

Lemma sum_int_exact row acc : Forall op_ok row → 0 <= acc → acc + sizes row < 2 ^ 31 → sum_int row acc = acc + sizes row.
Proof.
  intros HF. revert acc. unfold sum_int. induction HF as [|o row [Ho _] HF IH]; intros acc Ha Hb; cbn [fold_left].
  - unfold sizes. cbn. lia.
  - rewrite sizes_cons in *. pose proof (sizes_nonneg row HF). rewrite i32_id by lia. rewrite IH by lia. lia.
Qed.

Lemma served_bounds row s : Forall op_ok row → 0 <= served row s <= sizes row.
Proof. intros HF. pose proof (sizes_nonneg row HF). unfold served. destruct (is_out s); lia. Qed.

Lemma write_totals_run io : ∀ l a b t,
  Forall2 (λ row s, row_result row s = served row s) io l → Forall op_ok (concat io) →
  0 <= a → 0 <= b → 0 <= t → a + sizes (concat io) < 2 ^ 31 → b + sizes (concat io) < 2 ^ 31 → t + sizes (concat io) < 2 ^ 31 →
  write_totals (zip_with row_result io l) io l a b t
  = Some (a + sumZ (zip_with served io l), b + sumZ (zip_with served io l), t + sizes (concat io)).
Proof.
  induction io as [|row io IH]; intros l a b t HF Hok Ha Hb Ht Ha' Hb' Ht'.
  - apply Forall2_nil_inv_l in HF as ->. cbn [zip_with write_totals]. unfold sumZ, sizes, sumZ. cbn. by rewrite !Z.add_0_r.
  - apply Forall2_cons_inv_l in HF as (s & l' & Hs & HF & ->). cbn [concat] in *. apply Forall_app in Hok as [Hrow Hok].
    rewrite sizes_app in *. pose proof (sizes_nonneg _ Hok). pose proof (sizes_nonneg _ Hrow). pose proof (served_bounds row s Hrow).
    cbn [zip_with write_totals]. rewrite Hs.
    assert ((if srv_error s =? -1 then b else sum_int row b) = b + served row s) as ->.
    { unfold served, is_out. destruct (srv_error s =? -1); [lia|]. apply sum_int_exact; [done|lia|lia]. }
    rewrite (sum_int_exact row t), (i64_id (a + served row s)) by (done || lia).
    rewrite IH by (done || lia). unfold sumZ. cbn [foldr]. do 2 f_equal; [f_equal|]; lia.
Qed.

Lemma write_total_bytes io l :
  Forall2 (λ row s, row_result row s = served row s) io l → Forall op_ok (concat io) → sizes (concat io) < 2 ^ 31 →
  XpnWriteGetTotalBytes (zip_with row_result io l) io l = Some (sizes (concat io)).
Proof.
  intros HF Hok Hb. unfold XpnWriteGetTotalBytes. rewrite write_totals_run by (done || lia).
  cbn [mbind option_bind]. by rewrite !Z.add_0_l, Z.eqb_refl.
Qed.

Lemma merge_rows_sizes g io : ∀ count,
  Forall op_ok (concat io) → 0 <= count → count + sizes (concat io) < 2 ^ 62 →
  sizes (concat (merge_rows g count io)) = sizes (concat io) ∧ Forall op_ok (concat (merge_rows g count io)) ∧
  Forall2 (λ row' row, sizes row' = sizes row ∧ (row' = [] ↔ row = [])) (merge_rows g count io) io.
Proof.
  induction io as [|row io IH]; intros count HF Hc Hb; [done|]. cbn [concat] in *. apply Forall_app in HF as [HFr HF].
  rewrite sizes_app in *. pose proof (sizes_nonneg row HFr). pose proof (sizes_nonneg _ HF).
  destruct row as [|o row]; cbn [merge_rows concat].
  - destruct (IH count) as (H1 & H2 & H3); [done|lia|lia|]. rewrite sizes_app, H1. split_and!; [done|done|]. by constructor.
  - assert (row_size (o :: row) = sizes (o :: row)) as -> by (unfold row_size; rewrite (row_size_exact _ 0); [lia|done|lia|lia]).
    rewrite u64_id by lia. destruct (IH (count + sizes (o :: row))) as (H1 & H2 & H3); [done|lia|lia|].
    rewrite sizes_app, H1. split_and!.
    + rewrite sizes_cons. change (sizes []) with 0. cbn [io_size]. lia.
    + apply Forall_app. split; [|done]. constructor; [|constructor]. apply Forall_cons in HFr as [[_ Ho] _]. split; [assumption|exact Ho].
    + constructor; [|done]. split; [rewrite sizes_cons; change (sizes []) with 0; cbn [io_size]; lia|done].
Qed.

(** ** The update of the size *)

(** Servers that differ in the fields of their workers only. *)
Definition same_servers (l l' : list nfi_server) : Prop := Forall2 (λ s s', ∃ r e, s' = set_wrk r e s) l l'.
#[export] Instance same_servers_pre : PreOrder same_servers.
Proof.
  split.
  - intros l. apply Forall_Forall2_diag, Forall_forall. intros s _. exists (wrk_result s), (wrk_errno s). by destruct s.
  - intros l1 l2 l3 H12 H23. eapply Forall2_trans; [|exact H12|exact H23].
    intros s1 s2 s3 (r & e & ->) (r' & e' & ->). by exists r', e'.
Qed.
Lemma same_servers_insert l j r e s : l !! j = Some s → same_servers l (<[j := set_wrk r e s]> l).
Proof.
  intros Hs. apply Forall2_same_length_lookup. split; [by rewrite length_insert|]. intros i x y Hx Hy.
  destruct (decide (i = j)) as [->|Hne].
  - rewrite list_lookup_insert_eq in Hy by (by apply lookup_lt_Some in Hs). injection Hy as <-. assert (x = s) as -> by congruence. by exists r, e.
  - rewrite list_lookup_insert_ne in Hy by done. assert (x = y) as -> by congruence.
    exists (wrk_result y), (wrk_errno y). by destruct y.
Qed.

Section metadata.
Context {W : Type} {NO : NfiOps W} {NS : NfiStore W} {NB : NfiBytes W} `{SY : !Sys}.

Definition kept (w w' : W) : Prop :=
  ∀ s fh, (st_open s fh w → st_open s fh w') ∧ ∀ x, st_byte s fh x w' = st_byte s fh x w.
#[export] Instance kept_pre : PreOrder kept.
Proof.
  split; [done|]. intros w1 w2 w3 H12 H23 s fh. destruct (H12 s fh) as [A1 B1], (H23 s fh) as [A2 B2].
  split; [tauto|]. intros x. by rewrite B2.
Qed.

Context (p : nat) (part : xpn_partition) (c : client W) (Hp : xpn_parttable c !! p = Some part).

(** [c'] is [c] but for the workers' fields, [errno] and the metadata on the servers. *)
Definition quiet (c' : client W) : Prop :=
  ∃ l e, c' = with_env e (with_servers p part l c) ∧ same_servers (data_serv part) l ∧
    mem e = mem (cl_env c) ∧ kept (world (cl_env c)) (world e).

Lemma quiet_refl : quiet c.
Proof using Hp. exists (data_serv part), (cl_env c). split_and!; try done. rewrite with_servers_same by done. by destruct c. Qed.
Lemma quiet_parts c' : quiet c' → ∃ l, xpn_parttable c' !! p = Some (set_serv l part) ∧ same_servers (data_serv part) l.
Proof using Hp. intros (l & e & -> & Hl & _). exists l. split; [|done]. apply with_servers_lookup. by apply lookup_lt_Some in Hp. Qed.
Lemma quiet_errno c1 c2 : quiet c1 → errno_only c1 c2 → quiet c2.
Proof. intros (l & e & -> & Hl & Hm & Hw) [e' ->]. by exists l, (set_errno e' e). Qed.
Lemma quiet_server c1 j : quiet c1 → 0 <= j < Z.of_nat (length (data_serv part)) →
  ∃ l s, xpn_parttable c1 !! p = Some (set_serv l part) ∧ same_servers (data_serv part) l ∧ rdZ l j = Some s.
Proof using Hp.
  intros HQ Hj. destruct (quiet_parts c1 HQ) as (l & Hl & Hsame).
  destruct (rdZ_Some l j) as [s Hs]; [rewrite <- (Forall2_length _ _ _ Hsame); lia|]. by exists l, s.
Qed.

Lemma write_mdata_one c1 j url m o : quiet c1 → 0 <= j < Z.of_nat (length (data_serv part)) →
  ∃ out c2, on_server p j (λ s', nfi_worker_do_write_mdata s' url m o) c1 = Some (out, c2) ∧ quiet c2.
Proof using Hp.
  intros HQ Hj. destruct (quiet_server c1 j HQ Hj) as (l & s & Hl & Hsame & Hs).
  pose proof (launch0_run s (op_write_mdata url m o) (cl_env c1)) as El.
  cbn [nfi_do_operation] in El. destruct HQ as (l0 & e & -> & Hl0 & Hm & Hw).
  assert (l0 = l) as ->. { rewrite with_servers_lookup in Hl by (by apply lookup_lt_Some in Hp). by injection Hl. }
  destruct (is_out s).
  - eexists _, _. split; [apply (on_server_run p j (λ s', launch0 s' (op_write_mdata url m o)) _ (set_serv l part) s); [exact Hl|exact Hs|exact El]|].
    rewrite with_servers_idem. exists l, e. pose proof (proj1 (rdZ_lookup _ _ _) Hs) as [_ Hs'].
    cbn [data_serv set_serv]. by rewrite list_insert_id.
  - destruct (st_mdata s url m o (errno e) (world e)) as (r & e' & w' & Ew & Hk).
    unfold mbind, M_bind, call in El. cbn [cl_env with_env] in El. rewrite Ew in El. cbn in El.
    eexists _, _. split; [apply (on_server_run p j (λ s', launch0 s' (op_write_mdata url m o)) _ (set_serv l part) s); [exact Hl|exact Hs|exact El]|].
    rewrite with_servers_idem. eexists _, _. split; [reflexivity|]. cbn [data_serv set_serv mem world]. split_and!.
    + etransitivity; [exact Hl0|]. apply same_servers_insert. by apply rdZ_lookup in Hs as [_ Hs].
    + exact Hm.
    + etransitivity; [exact Hw|]. intros s' fh'. apply Hk.
Qed.

Lemma write_mdata_from_run m n path o master k : ∀ c1 i, quiet c1 → n = Z.of_nat (length (data_serv part)) →
  0 <= master < n → n < 2 ^ 30 → 0 <= i → i + Z.of_nat k < 2 ^ 30 →
  ∃ c2, write_mdata_from m n p path o master i k c1 = Some (tt, c2) ∧ quiet c2.
Proof using Hp.
  induction k as [|k IH]; intros c1 i HQ Hn Hm Hb Hi Hk; cbn [write_mdata_from]; [by exists c1|].
  rewrite i32_id, rem_mod by lia. pose proof (Z.mod_pos_bound (master + i) n ltac:(lia)) as Hr.
  destruct (quiet_server c1 _ HQ ltac:(rewrite <- Hn; exact Hr)) as (l & s & Hl & _ & Hs).
  mrun (by apply (get_server_run c1 p _ (set_serv l part) s)).
  destruct (write_mdata_one c1 ((master + i) mod n) (XpnGetURLServer s path) m o HQ ltac:(lia)) as (out & c2 & E2 & H2).
  mrun (exact E2). apply IH; done || lia.
Qed.
Lemma wait_mdata_from_run n master k : ∀ c1 i err, quiet c1 → n = Z.of_nat (length (data_serv part)) →
  0 <= master < n → n < 2 ^ 30 → 0 <= i → i + Z.of_nat k < 2 ^ 30 →
  ∃ r c2, wait_mdata_from n p master i err k c1 = Some (r, c2) ∧ quiet c2.
Proof using Hp.
  induction k as [|k IH]; intros c1 i err HQ Hn Hm Hb Hi Hk; cbn [wait_mdata_from]; [by exists err, c1|].
  rewrite i32_id, rem_mod by lia. pose proof (Z.mod_pos_bound (master + i) n ltac:(lia)) as Hr.
  destruct (quiet_server c1 _ HQ ltac:(rewrite <- Hn; exact Hr)) as (l & s & Hl & _ & Hs).
  destruct (wait_server_run p _ c1 (set_serv l part) s Hl Hs) as (c2 & E2 & H2).
  mrun (exact E2). apply IH; try done || lia. by apply quiet_errno with c1.
Qed.

Lemma update_metadata_run m n path rl o :
  n = Z.of_nat (length (data_serv part)) → 0 < n < 2 ^ 30 → 0 <= rl < n → ascii_path path → strlen path < PATH_MAX - 1 →
  ∃ r c2, XpnUpdateMetadata m n p path rl o c = Some (r, c2) ∧ quiet c2.
Proof using Hp.
  intros En Hn Hrl Hpath Hlen. unfold XpnUpdateMetadata.
  destruct (hash_bound path n 1 Hpath Hlen ltac:(lia)) as (h & Eh & Hh). mrun (unfold lift; rewrite Eh; reflexivity).
  destruct (write_mdata_from_run m n path o h (Z.to_nat (rl + 1)) c 0 quiet_refl) as (c1 & E1 & H1); try done || lia.
  mrun (exact E1). destruct (wait_mdata_from_run n h (Z.to_nat rl) c1 0 0 H1) as (r & c2 & E2 & H2); try done || lia.
  by exists r, c2.
Qed.
End metadata.

(** ** The state of a write *)

Section ready.
Context {W : Type} {NO : NfiOps W} {NS : NfiStore W} {NB : NfiBytes W} `{SY : !Sys}.

(** A client ready to read and write the file of [fd], which was never
    expanded: the handles of its servers are open and lead to different
    files, and the partition of the descriptor is the one its id finds. *)
Record ready (c : client W) (fd : Z) (d : xpn_filedesc) (part : xpn_partition) (hs : list nfi_fhandle) : Prop := {
  rd_fd : get_fd fd c = Some (d, c);
  rd_part : xpn_parttable c !! fd_part d = Some part;
  rd_id : 0 <= part_id part;
  rd_find : fst <$> list_find (λ q, part_id q = part_id part) (xpn_parttable c) = Some (fd_part d);
  rd_nserv : part_data_nserv part = Z.of_nat (length (data_serv part));
  rd_layout : fd_layout d part;
  rd_rl : replication_level (fd_mdata d) < Z.of_nat (length (data_serv part));
  rd_handles : fd_nfih d = Some <$> hs;
  rd_len : length hs = length (data_serv part);
  rd_path : ascii_path (fd_path d) ∧ strlen (fd_path d) < PATH_MAX - 1;
  rd_open : ∀ k s fh, data_serv part !! k = Some s → hs !! k = Some fh → is_out s = false → st_open s fh (world (cl_env c));
  rd_files : ∀ k k' s fh s' fh', k ≠ k' → data_serv part !! k = Some s → hs !! k = Some fh →
    data_serv part !! k' = Some s' → hs !! k' = Some fh' → st_file s fh ≠ st_file s' fh' }.

(** Byte [x] of the file is [b], in every replica on a server that is not out. *)
Definition holds (m : xpn_metadata) (l : list nfi_server) (hs : list nfi_fhandle) (w : W) (x : Z) (b : ascii) : Prop :=
  ∀ j s fh, 0 <= j <= replication_level m → rdZ l (mloc m 1 x j).2 = Some s → rdZ hs (mloc m 1 x j).2 = Some fh →
    is_out s = false → data_byte s fh (mloc m 1 x j).1 w = Some b.

Lemma same_servers_lookup l l' k s' : same_servers l l' → l' !! k = Some s' → ∃ s, l !! k = Some s ∧ is_out s = is_out s' ∧ ∀ fh, st_file s fh = st_file s' fh.
Proof.
  intros H Hs. destruct (Forall2_lookup_r _ _ _ _ _ H Hs) as (s & Hk & r & e & ->). exists s.
  split_and!; [done|done|]. intros fh. by apply st_file_server.
Qed.

(** What holds is kept by servers that keep their bytes. *)
Lemma holds_same m l l' hs w w' x b : same_servers l l' → kept w w' → holds m l hs w x b → holds m l' hs w' x b.
Proof.
  intros Hl Hw H j s fh Hj Hs Hh Ho. apply rdZ_lookup in Hs as [H0 Hs].
  destruct (same_servers_lookup _ _ _ _ Hl Hs) as (s0 & Hs0 & Eo & Ef).
  assert (rdZ l (mloc m 1 x j).2 = Some s0) as Hr by (by apply rdZ_lookup).
  specialize (H j s0 fh Hj Hr Hh ltac:(congruence)). unfold data_byte in *.
  destruct (Hw s0 fh) as [_ E1]. rewrite <- H, <- E1. symmetry. by apply st_same.
Qed.

Lemma list_find_insert {A} (P : A → Prop) `{∀ x, Decision (P x)} (l : list A) k y x :
  l !! k = Some y → (P x ↔ P y) → fst <$> list_find P (<[k := x]> l) = fst <$> list_find P l.
Proof.
  intros Hk HP. revert k Hk. induction l as [|a l IH]; intros k Hk; [done|]. destruct k as [|k]; cbn.
  - injection Hk as ->. destruct (decide (P x)), (decide (P y)); tauto || done.
  - destruct (decide (P a)); [done|]. specialize (IH k Hk). destruct (list_find P (<[k:=x]> l)) as [[i z]|], (list_find P l) as [[i' z']|]; cbn in *; congruence.
Qed.

Lemma rd_servers c fd d part hs : ready c fd d part hs → fd_servers fd c = Some ((Z.of_nat (length (data_serv part)), fd_part d, part), c).
Proof.
  intros [Hfd Hp Hid Hf Hn _ _ _ _ _ _ _]. unfold fd_servers. mrun (exact Hfd). mrun (by apply fd_partition_run).
  assert (XpnGetServers (part_id part) fd c = Some ((Z.of_nat (length (data_serv part)), fd_part d), c)) as E.
  { unfold XpnGetServers. rewrite (proj2 (Z.leb_le 0 _) Hid). mrun (unfold XpnSearchPart; mstep; rewrite Hf; reflexivity).
    mstep. mrun (unfold lift; rewrite Hp; reflexivity). by rewrite Hn. }
  mrun (exact E). done.
Qed.

(** The next descriptor of the file: the same file at another offset, with another size. *)
Definition file_at (d : xpn_filedesc) (o sz : Z) : xpn_filedesc := set_fdmdata (set_file_size sz (fd_mdata d)) (set_offset o d).
Lemma expanded_size m c k : expanded m c → expanded (set_file_size k m) c.
Proof. by intros []; split. Qed.
Lemma layout_at d part o sz l : same_servers (data_serv part) l → fd_layout d part → fd_layout (file_at d o sz) (set_serv l part).
Proof.
  intros Hl [H1 H2 H3 H4]. split; [by apply expanded_size|done|done|].
  cbn [data_serv set_serv]. rewrite <- (Forall2_length _ _ _ Hl). exact H4.
Qed.

Lemma ready_after c fd d part hs o sz l e c' :
  ready c fd d part hs → same_servers (data_serv part) l →
  (∀ k s fh, data_serv part !! k = Some s → hs !! k = Some fh → is_out s = false → st_open s fh (world e)) →
  get_fd fd c' = Some (file_at d o sz, c') → xpn_parttable c' = <[fd_part d := set_serv l part]> (xpn_parttable c) → cl_env c' = e →
  ready c' fd (file_at d o sz) (set_serv l part) hs.
Proof.
  intros [Hfd Hp Hid Hf Hn HL Hrl Hhs Hlen Hpath Hop Hfiles] Hl Hop' Hfd' Hp' He. pose proof (Forall2_length _ _ _ Hl) as Ell.
  assert (∀ k s', l !! k = Some s' → ∃ s, data_serv part !! k = Some s ∧ is_out s = is_out s' ∧ ∀ fh, st_file s fh = st_file s' fh) as Hlk
    by (intros k s'; by apply same_servers_lookup).
  split; cbn [fd_part file_at set_fdmdata set_offset part_id set_serv data_serv part_data_nserv fd_nfih fd_path fd_mdata]; try done.
  - rewrite Hp'. apply list_lookup_insert_eq. by apply lookup_lt_Some in Hp.
  - rewrite Hp'. rewrite <- Hf. by apply (list_find_insert _ _ _ part).
  - by rewrite <- Ell.
  - by apply layout_at.
  - rewrite <- Ell. exact Hrl.
  - by rewrite <- Ell.
  - intros k s' fh Hs Hh Ho. destruct (Hlk k s' Hs) as (s & Hs0 & Eo & Ef). rewrite He.
    destruct (st_same s fh s' fh (world e) (Ef fh)) as [H _]. apply H. apply (Hop' k); [done|done|congruence].
  - intros k k' s1 fh1 s2 fh2 Hne H1 H2 H3 H4. destruct (Hlk k s1 H1) as (s & Hs0 & _ & Ef), (Hlk k' s2 H3) as (s' & Hs0' & _ & Ef').
    rewrite <- Ef, <- Ef'. by apply (Hfiles k k').
Qed.
End ready.
