(* ===== verification/WriteSpec.v ===== *)
(** * WriteSpec: a write stores its bytes

    [xpn_pwrite] on a client that is [ready]: it returns the size of the
    request, every byte is in every replica on a server that is not out, and
    nothing else changed. *)

From S2P Require Import Prelude Cstr Paths Layout Mdata Nfi Client MemFs FileTable Blocks Rw BlocksSpec Store Coverage Reading Servers Bytes Transfer.

Section pwrite.
Context {W : Type} {NO : NfiOps W} {NS : NfiStore W} {NB : NfiBytes W} `{SY : !Sys}.
Context (c : client W) (fd : Z) (d : xpn_filedesc) (part : xpn_partition) (hs : list nfi_fhandle) (HR : ready c fd d part hs).
Let m := fd_mdata d.
Let rl := replication_level m.
Let n := nv m 0.
Context (size offset : Z) (buffer : ptr) (data : list ascii).
Context (Hsz : 0 < size) (Hoff : 0 <= offset) (Hbd : (offset + 2 * size + block_size m) * (rl + 1) < 2 ^ 61).
Context (gb : nat) (gbuf : list ascii) (Hgb : mem (cl_env c) !! gb = Some gbuf) (Hne : buffer.1 ≠ gb).
Context (Hlen : size * (rl + 1) <= Z.of_nat (length gbuf) < 2 ^ 62).
Context (Hdata : mem_read (mem (cl_env c)) buffer size = Some data).

Let HL : fd_layout d part := rd_layout _ _ _ _ _ HR.
Let plan := lplan d part size offset buffer.
Let io := merge_rows (gb, 0) 0 (rows n plan).
(** The memory once the data is gathered. *)
Let gmem := <[gb := grouped d part size offset buffer data gbuf]> (mem (cl_env c)).

Lemma ex_m : expanded m 1.
Proof. exact (fl_exp d part HL). Qed.
Lemma n_servers : Z.of_nat (length (data_serv part)) = n.
Proof. exact (fl_n d part HL). Qed.

Lemma lplace_mloc x j : mloc m 1 x j = lplace d x j.
Proof.
  clear. subst m. unfold mloc, lplace. cbn [seg_of seg_start seg_base join]. rewrite !Z.sub_0_r. f_equal. lia.
Qed.
Lemma plan_spread : plan = spread_plan d part 1 size offset buffer.
Proof.
  subst plan. unfold lplan, spread_plan, write_plan. f_equal. apply list_fmap_ext. intros i e _.
  unfold piece_ops. apply list_fmap_ext. intros k j _. fold m. by rewrite lplace_mloc.
Qed.
Lemma spread_1 : fd_spread 1 d part.
Proof. destruct HL as [H1 H2 H3 H4]. split; [done..|]. cbn [pred]. rewrite H4. done. Qed.

(** Byte [x] of server [k] is to be [b]. *)
Definition wanted (k x : Z) (b : ascii) : Prop :=
  ∃ t j, 0 <= j <= rl ∧ data !! t = Some b ∧ mloc m 1 (offset + Z.of_nat t) j = (x, k).

Lemma data_length : Z.of_nat (length data) = size.
Proof. clear -Hdata. by pose proof (mem_read_inv _ _ _ _ Hdata) as (_ & _ & _ & _ & _ & _ & ->). Qed.

Lemma wanted_fun k x b b' : wanted k x b → wanted k x b' → b = b'.
Proof.
  intros (t & j & Hj & Ht & E) (t' & j' & Hj' & Ht' & E'). pose proof ex_m.
  destruct (mloc_inj m 1 ex_m (offset + Z.of_nat t) j (offset + Z.of_nat t') j') as [H1 H2];
    [split; [lia|done]..|congruence|]. assert (t = t') as -> by lia. congruence.
Qed.

Lemma row_writes k : Forall (writes (mem (cl_env c)) (wanted k)) (row_of k plan).
Proof.
  apply Forall_forall. intros o Ho. pose proof (rd_rl _ _ _ _ _ HR) as Hrn. fold m in Hrn.
  pose proof (row_good c d part HL size offset buffer data ltac:(lia) Hoff Hbd gb gbuf Hne Hdata k) as HG.
  rewrite Forall_forall in HG. destruct (HG o Ho) as ([Hs Ho0] & Hob & Hm & Hsd & _).
  split; [lia|]. eexists. split; [exact Hm|]. intros i b Hi.
  apply row_of_elem in Ho. rewrite plan_spread in Ho.
  assert (0 <= Z.of_nat i < io_size o) as Hir by (apply lookup_lt_Some in Hi; lia).
  destruct (spread_only d part 1 spread_1 size offset buffer Hoff k o (Z.of_nat i) Ho Hir) as (t & j & Ht & Hj & E & Eb).
  exists (Z.to_nat t), j. split; [exact Hj|]. fold m in E. rewrite Z2Nat.id by lia. split; [|exact E].
  unfold data_of in Hi. rewrite lookup_take_lt, lookup_drop in Hi by lia. rewrite Eb in Hi. cbn [ptr_add snd] in Hi.
  rewrite <- Hi. f_equal.
  assert (0 <= t - Z.of_nat i); [|lia].
  pose proof Hm as Hm'. unfold data_of in Hsd. rewrite Eb in Hsd. cbn [ptr_add snd] in Hsd.
  rewrite <- plan_spread in Ho.
  pose proof (lplan_ok d part HL size offset buffer Hoff gb gbuf Hne) as HF. rewrite Forall_forall in HF.
  destruct (HF _ Ho) as (_ & _ & _ & cnt & Ec & Hc & _). cbn [snd] in Ec. rewrite Eb in Ec. unfold ptr_add in Ec.
  injection Ec as Ec. lia.
Qed.

Lemma wanted_covered k x b : wanted k x b → covered (row_of k plan) x.
Proof.
  intros (t & j & Hj & Ht & E). assert (0 <= Z.of_nat t < size) as Htr.
  { apply lookup_lt_Some in Ht. pose proof data_length. lia. }
  destruct (spread_covers d part 1 spread_1 size offset buffer Hoff (Z.of_nat t) j Htr Hj) as (o & Ho & Hin & _).
  fold m in Ho, Hin. rewrite E in Ho, Hin. cbn [fst snd] in Ho, Hin. apply Exists_exists. exists o. split; [|done].
  rewrite plan_spread. by apply row_of_elem.
Qed.

(** What has been written when the requests of the first [k] servers have run. *)
Record progress (k : nat) (e : env W) : Prop := {
  pg_mem : mem e = gmem;
  pg_open : ∀ i s fh, data_serv part !! i = Some s → hs !! i = Some fh → is_out s = false → st_open s fh (world e);
  pg_done : ∀ i s fh x b, (i < k)%nat → data_serv part !! i = Some s → hs !! i = Some fh → is_out s = false →
    wanted (Z.of_nat i) x b → data_byte s fh x (world e) = Some b;
  pg_keep : ∀ i s fh x b, data_serv part !! i = Some s → hs !! i = Some fh → 0 <= x → (∀ b', ¬ wanted (Z.of_nat i) x b') →
    data_byte s fh x (world (cl_env c)) = Some b → data_byte s fh x (world e) = Some b;
  pg_other : ∀ s fh, (∀ i si fhi, data_serv part !! i = Some si → hs !! i = Some fhi → st_file si fhi ≠ st_file s fh) →
    (st_open s fh (world (cl_env c)) → st_open s fh (world e)) ∧ ∀ x, st_byte s fh x (world e) = st_byte s fh x (world (cl_env c)) }.

Lemma progress_start e : mem e = gmem → world e = world (cl_env c) → progress 0 e.
Proof.
  intros Hm Hw. split; rewrite ?Hw; try done; [|intros; lia]. exact (rd_open _ _ _ _ _ HR).
Qed.
Lemma progress_skip k e : 
  (∀ s x b, data_serv part !! k = Some s → is_out s = false → ¬ wanted (Z.of_nat k) x b) → progress k e → progress (S k) e.
Proof.
  intros Hn [H1 H2 H3 H4 H5]. split; try done. intros i s fh x b Hi Hs Hh Ho Hw.
  destruct (decide (i = k)) as [->|]; [by destruct (Hn s x b)|]. apply (H3 i); done || lia.
Qed.

Lemma plan_row k : (k < length (data_serv part))%nat → rows n plan !! k = Some (row_of (Z.of_nat k) plan).
Proof.
  intros Hk. pose proof n_servers as En. unfold rows. rewrite list_lookup_fmap, lookup_seqZ_lt by lia. done.
Qed.

(** One server's request. *)
Lemma progress_write k s fh e row :
  data_serv part !! k = Some s → hs !! k = Some fh → is_out s = false → io !! k = Some row → progress k e →
  ∃ e1, do_write s fh row 0 e = Some (sizes (row_of (Z.of_nat k) plan), e1) ∧ progress (S k) e1.
Proof.
  intros Hs Hh Ho Hrow HP. pose proof (lookup_lt_Some _ _ _ Hs) as Hk. pose proof n_servers as En.
  pose proof (rd_rl _ _ _ _ _ HR) as Hrn. fold m in Hrn. destruct HP as [H1 H2 H3 H4 H5].
  assert (0 <= Z.of_nat k < ly_n (mlay m 0)) as Hkr by (change (ly_n (mlay m 0)) with n; lia).
  assert (ly_rl (mlay m 0) < ly_n (mlay m 0)) as Hrl by (change (ly_n (mlay m 0)) with n; cbn [ly_rl mlay]; lia).
  destruct (grouped_row c d part HL Hrl size offset buffer data ltac:(lia) Hoff Hbd gb gbuf Hne Hdata (Z.of_nat k) Hkr)
    as (row' & Hr' & _ & Hw). rewrite Nat2Z.id in Hr'. change (io !! k = Some row') in Hr'. assert (row' = row) as -> by congruence.
  destruct (Hw s fh (errno e) (world e) (H2 k s fh Hs Hh Ho)) as (r & m1 & m2 & w' & E1 & E2). fold plan in E1.
  assert (Env (errno e) (<[gb := grouped d part size offset buffer data gbuf]> (mem (cl_env c))) (world e) = e) as Ee
    by (destruct e; cbn in *; by rewrite H1).
  rewrite Ee in E2. pose proof (do_write_mem _ _ _ _ _ _ _ E2) as Em. cbn [mem] in Em.
  pose proof (rows_good c d part HL size offset buffer data ltac:(lia) Hoff Hbd gb gbuf Hne Hdata) as HG.
  pose proof (sizes_row _ k _ (good_ok c buffer data gb _ HG) (plan_row k Hk)) as Hsize.
  rewrite (lrows_sizes c d part HL size offset buffer data ltac:(lia) Hoff Hbd gb gbuf Hne Hdata) in Hsize. cbn [ly_rl mlay] in Hsize. fold m rl in Hsize.
  destruct (do_write_bytes s fh (wanted (Z.of_nat k)) (row_of (Z.of_nat k) plan) 0 (Env (errno e) (mem (cl_env c)) (world e)))
    as (w & E3 & Hop & Hin & Hout & Hoth); [by apply (H2 k)|apply row_writes|lia|nia|].
  rewrite E1 in E3. injection E3 as -> _ ->. cbn [errno mem world] in *.
  assert (∀ i si fhi, i ≠ k → data_serv part !! i = Some si → hs !! i = Some fhi → st_file s fh ≠ st_file si fhi) as Hdis
    by (intros i si fhi Hi Hsi Hfi; by apply (rd_files _ _ _ _ _ HR k i)).
  eexists. split; [exact E2|]. split; cbn [mem world].
  - by rewrite Em.
  - intros i si fhi Hsi Hfi Hoi. destruct (decide (i = k)) as [->|Hi]; [|by apply (Hoth si fhi (Hdis i si fhi Hi Hsi Hfi)), (H2 i)].
    assert (si = s ∧ fhi = fh) as [-> ->] by (split; congruence). exact Hop.
  - intros i si fhi x b Hi Hsi Hfi Hoi Hwt. destruct (decide (i = k)) as [->|Hik].
    + assert (si = s ∧ fhi = fh) as [-> ->] by (split; congruence).
      destruct (Hin x (wanted_covered _ _ _ Hwt)) as (b' & Hb' & ->). f_equal. by apply (wanted_fun (Z.of_nat k) x).
    + unfold data_byte. rewrite (proj2 (Hoth si fhi (Hdis i si fhi Hik Hsi Hfi))). by apply (H3 i); [lia|..].
  - intros i si fhi x b Hsi Hfi Hx Hnw Hb. destruct (decide (i = k)) as [->|Hik].
    + assert (si = s ∧ fhi = fh) as [-> ->] by (split; congruence).
      apply Hout; [done| |by apply (H4 k)]. intros (b' & Hb' & _)%Hin. by apply (Hnw b').
    + unfold data_byte. rewrite (proj2 (Hoth si fhi (Hdis i si fhi Hik Hsi Hfi))). by apply (H4 i).
  - intros s' fh' Hs'. destruct (Hoth s' fh' (Hs' k s fh Hs Hh)) as [A1 A2], (H5 s' fh' Hs') as [B1 B2].
    split; [tauto|]. intros x. by rewrite A2, B2.
Qed.

(** *** All the servers *)

Lemma plan_ok : Forall op_ok (concat (rows n plan)) ∧ sizes (concat (rows n plan)) = (rl + 1) * size.
Proof.
  split.
  - eapply (good_ok c buffer data gb), rows_good; done || lia.
  - apply (lrows_sizes c d part HL size offset buffer data ltac:(lia) Hoff Hbd gb gbuf Hne Hdata).
Qed.
Lemma io_ok : sizes (concat io) = (rl + 1) * size ∧ Forall op_ok (concat io) ∧
  Forall2 (λ row' row, sizes row' = sizes row ∧ (row' = [] ↔ row = [])) io (rows n plan).
Proof. destruct plan_ok as [H1 H2]. rewrite <- H2. apply merge_rows_sizes; [done|lia|rewrite H2; nia]. Qed.
Lemma io_length : length io = length (data_serv part).
Proof.
  destruct io_ok as (_ & _ & HF). rewrite (Forall2_length _ _ _ HF). unfold rows. rewrite length_fmap, length_seqZ.
  pose proof n_servers. lia.
Qed.
Lemma io_row k : (k < length (data_serv part))%nat →
  ∃ row, io !! k = Some row ∧ sizes row = sizes (row_of (Z.of_nat k) plan) ∧ (row = [] → row_of (Z.of_nat k) plan = []).
Proof.
  intros Hk. destruct io_ok as (_ & _ & HF). destruct (Forall2_lookup_r _ _ _ _ _ HF (plan_row k Hk)) as (row & Hr & Hs & He).
  exists row. split_and!; [done|done|]. apply He.
Qed.

Definition gathered : client W := with_mem gmem c.

Lemma launched : ∃ l e,
  launch_rows true fd (fd_part d) 0 io gathered = Some (true, with_env e (with_servers (fd_part d) part l gathered)) ∧
  progress (length (data_serv part)) e ∧ same_servers (data_serv part) l ∧
  Forall2 (λ row s, row_result row s = served row s) io l.
Proof.
  pose proof (rd_len _ _ _ _ _ HR) as Hlh.
  destruct (serve_run (row_req true io hs) (λ k, sizes (row_of (Z.of_nat k) plan)) progress (data_serv part)) with (suf := data_serv part) (pre := @nil nfi_server) (e := cl_env gathered)
    as (l & e & Es & HP & Hll & Hl); [|done|by apply progress_start|].
  { intros k s e Hs HP. pose proof (lookup_lt_Some _ _ _ Hs) as Hk. destruct (io_row k Hk) as (row & Hr & Hsz' & Hnil).
    destruct (lookup_lt_is_Some_2 hs k) as [fh Hfh]; [lia|]. unfold row_req. rewrite !rdZ_of_nat, Hr, Hfh.
    destruct row as [|o row].
    - apply progress_skip; [|done]. intros s' x b _ _ Hw%wanted_covered. rewrite (Hnil eq_refl) in Hw. by apply Exists_nil in Hw.
    - destruct (is_out s) eqn:Eo.
      + apply progress_skip; [|done]. intros s' x b Hs' Ho. congruence.
      + destruct (progress_write k s fh e (o :: row) Hs Hfh Eo Hr HP) as (e1 & E1 & HP1).
        exists no_out, e1. cbn [nfi_do_operation]. mrun (exact E1). done. }
  exists l, e. cbn [length Z.of_nat] in Es. split_and!.
  - apply (launch_rows_run true fd (fd_part d) d hs io (data_serv part) io [] gathered part l e); try done.
    + apply (rd_part _ _ _ _ _ HR).
    + apply io_length.
    + pose proof (rd_fd _ _ _ _ _ HR) as [_ (i & H1 & H2)]%get_fd_inv. by apply (get_fd_run _ _ i).
    + apply (rd_handles _ _ _ _ _ HR).
    + cbn. lia.
  - done.
  - apply Forall2_same_length_lookup. split; [done|]. intros k s s' Hs Hs'. destruct (Hl k s Hs) as [er Hl'].
    rewrite Hs' in Hl'. injection Hl' as ->. assert (∃ r e0, s = set_wrk r e0 s) as Hid by (exists (wrk_result s), (wrk_errno s); by destruct s).
    destruct (row_req _ _ _ _ _); [|done]. destruct (is_out s); [done|by eexists _, _].
  - apply Forall2_same_length_lookup. split; [rewrite io_length; lia|]. intros k row s' Hr Hs'.
    destruct (lookup_lt_is_Some_2 (data_serv part) k) as [s Hs]; [apply lookup_lt_Some in Hs'; lia|].
    destruct (Hl k s Hs) as [er Hl']. rewrite Hs' in Hl'. injection Hl' as ->. cbn [length Nat.add]. pose proof (lookup_lt_Some _ _ _ Hs) as Hk.
    destruct (lookup_lt_is_Some_2 hs k) as [fh Hfh]; [lia|]. unfold row_req. rewrite !rdZ_of_nat, Hr, Hfh.
    destruct (io_row k Hk) as (row' & Hr' & Hsz' & _). assert (row' = row) as -> by congruence.
    unfold row_result, served, wait_result. destruct row as [|o row]; [by destruct (is_out s)|].
    destruct (is_out s) eqn:Eo; [by rewrite Eo|]. unfold is_out in *. cbn [set_wrk srv_error wrk_result]. rewrite Eo. done.
Qed.
End pwrite.

Section after.
Context {W : Type} {NO : NfiOps W} {NS : NfiStore W} {NB : NfiBytes W} `{SY : !Sys}.
Implicit Types c : client W.

(** The descriptor of [fd] becomes [d]. *)
Definition with_desc (fd : Z) (d : xpn_filedesc) c : client W :=
  match rdZ (xpn_file_table c) fd with
  | Some (Some k) => with_heap (<[k := d]> (cl_heap c)) c
  | _ => c
  end.

Lemma update_fd_desc fd f d c : get_fd fd c = Some (d, c) → update_fd fd f c = Some (tt, with_desc fd (f d) c).
Proof.
  intros [_ (k & Hs & Hk)]%get_fd_inv. unfold with_desc. unfold slot_of in Hs. rewrite Hs. by apply update_fd_run.
Qed.
Lemma get_fd_desc fd d d' c : get_fd fd c = Some (d, c) → get_fd fd (with_desc fd d' c) = Some (d', with_desc fd d' c).
Proof.
  intros [_ (k & Hs & Hk)]%get_fd_inv. unfold slot_of in Hs. unfold with_desc. rewrite Hs.
  apply (get_fd_run _ _ k); [exact Hs|]. apply lookup_insert_eq.
Qed.
Lemma with_desc_idem fd d d' c : with_desc fd d (with_desc fd d' c) = with_desc fd d c.
Proof.
  unfold with_desc. destruct (rdZ (xpn_file_table c) fd) as [[k|]|] eqn:E; cbn; rewrite E; [|done..].
  unfold with_heap. cbn. by rewrite insert_insert_eq.
Qed.
Lemma with_desc_env fd d c : cl_env (with_desc fd d c) = cl_env c ∧ xpn_parttable (with_desc fd d c) = xpn_parttable c.
Proof. unfold with_desc. by destruct (rdZ (xpn_file_table c) fd) as [[k|]|]. Qed.
Lemma with_desc_servers fd d p part l e c :
  with_desc fd d (with_env e (with_servers p part l c)) = with_env e (with_servers p part l (with_desc fd d c)).
Proof. unfold with_desc. cbn. by destruct (rdZ (xpn_file_table c) fd) as [[k|]|]. Qed.

Lemma after_write_run fd p part d c count :
  get_fd fd c = Some (d, c) → xpn_parttable c !! p = Some part →
  let n := Z.of_nat (length (data_serv part)) in
  let rl := part_replication_level part in
  0 < n < 2 ^ 30 → 0 <= rl < n → ascii_path (fd_path d) → strlen (fd_path d) < PATH_MAX - 1 →
  0 < count → 0 <= fd_offset d → fd_offset d + count < 2 ^ 62 →
  ∃ l e, after_write fd n p rl count c
    = Some (tt, with_env e (with_servers p part l (with_desc fd (file_at d (fd_offset d + count) (Z.max (file_size (fd_mdata d)) (fd_offset d + count))) c))) ∧
    same_servers (data_serv part) l ∧ mem e = mem (cl_env c) ∧ kept (world (cl_env c)) (world e).
Proof.
  intros Hfd Hp n rl Hn Hrl Hpath Hlen Hc Ho Hb. unfold after_write. rewrite (proj2 (Z.ltb_lt 0 count)) by done.
  unfold add_offset. mrun (by apply (update_fd_desc fd _ d)). set (d1 := set_offset (fd_offset d ⊕ count) d).
  assert (fd_offset d1 = fd_offset d + count) as Eo by (unfold d1; cbn; apply i64_id; lia).
  mrun (by apply (get_fd_desc fd d)). rewrite Eo. change (fd_mdata d1) with (fd_mdata d).
  destruct (Z.ltb_spec (file_size (fd_mdata d)) (fd_offset d + count)) as [Hlt|Hge].
  - rewrite Z.max_r by lia. mrun (apply update_fd_desc, (get_fd_desc fd d), Hfd). rewrite with_desc_idem.
    assert (set_fdmdata (set_file_size (fd_offset d + count) (fd_mdata d)) d1 = file_at d (fd_offset d + count) (fd_offset d + count)) as ->
      by (unfold d1, file_at; by rewrite i64_id by lia).
    set (c2 := with_desc fd _ c). destruct (with_desc_env fd (file_at d (fd_offset d + count) (fd_offset d + count)) c) as [Ee Ep]. fold c2 in Ee, Ep.
    destruct (update_metadata_run p part c2 ltac:(by rewrite Ep) (set_file_size (fd_offset d + count) (fd_mdata d)) n (fd_path d1) rl 1)
      as (r & c3 & E3 & l & e & -> & Hl & Hm & Hw); try done.
    mrun (exact E3). exists l, e. rewrite Ee in Hm, Hw. split_and!; done.
  - rewrite Z.max_l by lia. exists (data_serv part), (cl_env c). split_and!; try done.
    assert (d1 = file_at d (fd_offset d + count) (file_size (fd_mdata d))) as ->
      by (unfold d1, file_at; rewrite i64_id by lia; destruct d as [? ? ? ? ? ? ? [] ? ? ?]; done).
    destruct (with_desc_env fd (file_at d (fd_offset d + count) (file_size (fd_mdata d))) c) as [Ee Ep].
    rewrite with_servers_same by (by rewrite Ep). unfold mret, M_ret. do 2 f_equal. rewrite <- Ee. by destruct (with_desc fd _ c).
Qed.
End after.

(** What a write leaves: the bytes of the request in every live replica, the
    other bytes of the file and the other files as they were. *)
Record stored {W : Type} {NO : NfiOps W} {NS : NfiStore W} {NB : NfiBytes W} (m : xpn_metadata) (l l' : list nfi_server) (hs : list nfi_fhandle)
    (offset : Z) (data : list ascii) (w w' : W) : Prop := {
  sto_new : ∀ t b, data !! t = Some b → holds m l' hs w' (offset + Z.of_nat t) b;
  sto_old : ∀ x b, 0 <= x → ¬ (offset <= x < offset + Z.of_nat (length data)) → holds m l hs w x b → holds m l' hs w' x b;
  sto_other : ∀ s fh, (∀ k sk fhk, l !! k = Some sk → hs !! k = Some fhk → st_file sk fhk ≠ st_file s fh) →
    ∀ x, st_byte s fh x w' = st_byte s fh x w }.

Section stores.
Context {W : Type} {NO : NfiOps W} {NS : NfiStore W} {NB : NfiBytes W} `{SY : !Sys}.

Lemma progress_stored (c : client W) fd d part hs size offset buffer data gb gbuf e l (HR : ready c fd d part hs) :
  0 <= offset → mem_read (mem (cl_env c)) buffer size = Some data →
  progress c d part hs size offset buffer data gb gbuf (length (data_serv part)) e → same_servers (data_serv part) l →
  stored (fd_mdata d) (data_serv part) l hs offset data (world (cl_env c)) (world e).
Proof.
  intros Hoff Hdata [_ _ H3 H4 H5] Hl.
  assert (∀ j, 0 <= j → ∀ s', rdZ l j = Some s' → ∃ s, data_serv part !! Z.to_nat j = Some s ∧ is_out s = is_out s' ∧ ∀ fh, st_file s fh = st_file s' fh) as Hlk
    by (intros j Hj s' [_ Hs]%rdZ_lookup; by apply (same_servers_lookup _ l)).
  pose proof (fl_exp _ _ (rd_layout _ _ _ _ _ HR)) as Hex.
  split.
  - intros t b Ht j s' fh Hj Hs Hh Ho. pose proof (mloc_serv_range (fd_mdata d) 1 Hex (offset + Z.of_nat t) j ltac:(lia)) as Hk.
    destruct (Hlk _ (proj1 Hk) s' Hs) as (s & Hs0 & Eo & Ef). apply rdZ_lookup in Hh as [_ Hh].
    unfold data_byte. rewrite <- (proj2 (st_same _ _ _ _ (world e) (Ef fh))).
    apply (H3 (Z.to_nat (mloc (fd_mdata d) 1 (offset + Z.of_nat t) j).2) s fh _ b); [by apply lookup_lt_Some in Hs0|done|done|congruence|].
    rewrite Z2Nat.id by lia. exists t, j. split; [exact Hj|]. split; [exact Ht|apply surjective_pairing].
  - intros x b Hx Hout Hold j s' fh Hj Hs Hh Ho. pose proof (mloc_serv_range (fd_mdata d) 1 Hex x j Hx) as Hk.
    destruct (Hlk _ (proj1 Hk) s' Hs) as (s & Hs0 & Eo & Ef). pose proof Hh as Hh'. apply rdZ_lookup in Hh as [_ Hh].
    unfold data_byte. rewrite <- (proj2 (st_same _ _ _ _ (world e) (Ef fh))).
    apply (H4 (Z.to_nat (mloc (fd_mdata d) 1 x j).2) s fh); [done|done| | |].
    + pose proof (ly_off_bound (fd_mdata d) 1 Hex 0 x j ltac:(lia) ltac:(lia) ltac:(lia)).
      rewrite lplace_mloc. cbn. lia.
    + intros b' (t & j' & Hj' & Ht & E). rewrite Z2Nat.id in E by lia.
      destruct (mloc_inj (fd_mdata d) 1 Hex x j (offset + Z.of_nat t) j') as [Ex _];
        [by split|split; [lia|done]|rewrite E; apply surjective_pairing|].
      apply Hout. apply lookup_lt_Some in Ht. lia.
    + apply (Hold j); [done| |done|congruence]. apply rdZ_lookup. split; [lia|done].
  - intros s fh Hf x. by apply H5.
Qed.

Lemma stored_kept m l l' l'' hs offset data (w w' w'' : W) :
  same_servers l' l'' → kept w' w'' → stored m l l' hs offset data w w' → stored m l l'' hs offset data w w''.
Proof.
  intros Hl Hw [H1 H2 H3]. split.
  - intros t b Ht. apply (holds_same m l' l'' hs w'); [done..|]. by apply H1.
  - intros x b Hx Hout Hold. apply (holds_same m l' l'' hs w'); [done..|]. by apply H2.
  - intros s fh Hf x. rewrite (proj2 (Hw s fh)). by apply H3.
Qed.
End stores.

Section main.
Context {W : Type} {NO : NfiOps W} {NS : NfiStore W} {NB : NfiBytes W} `{SY : !Sys}.

Lemma ready_mem (c : client W) fd d part hs mm : ready c fd d part hs → ready (with_mem mm c) fd d part hs.
Proof.
  intros [H1 H2 H3 H4 H5 H6 H7 H8 H9 H10 H11 H12]. split; try done.
  apply get_fd_inv in H1 as [_ (k & Hs & Hk)]. by apply (get_fd_run _ _ k).
Qed.

Lemma malloc_run (c : client W) sz :
  let gb := fresh (dom (mem (cl_env c))) in
  malloc sz c = Some ((gb, 0), with_mem (<[gb := replicate (Z.to_nat sz) sys_fresh_byte]> (mem (cl_env c))) c) ∧ mem (cl_env c) !! gb = None.
Proof.
  intros gb. split; [done|]. apply not_elem_of_dom. apply is_fresh.
Qed.
Lemma mem_read_ne (mm : memory) gb x p k : p.1 ≠ gb → mem_read (<[gb := x]> mm) p k = mem_read mm p k.
Proof. intros H. unfold mem_read. by rewrite lookup_insert_ne. Qed.

(** The rounds of a write, up to the count of the bytes. *)
Lemma pwrite_round (c : client W) fd d part hs size offset buffer data (HR : ready c fd d part hs) :
  let m := fd_mdata d in
  let rl := replication_level m in
  let n := Z.of_nat (length (data_serv part)) in
  0 < size → 0 <= offset → (offset + 2 * size + block_size m) * (rl + 1) < 2 ^ 61 → (size + 2) * (rl + 1) < 2 ^ 31 →
  mem_read (mem (cl_env c)) buffer size = Some data →
  let gb := fresh (dom (mem (cl_env c))) in
  ∃ io l e,
    XpnWriteBlocks fd buffer size offset (write_room size (block_size m) rl) n c = Some ((gb, 0, io), with_mem (mem e) c) ∧
    launch_rows true fd (fd_part d) 0 io (with_mem (mem e) c)
    = Some (true, with_env e (with_servers (fd_part d) part l (with_mem (mem e) c))) ∧
    length io = length l ∧ Forall2 (λ row s, row_result row s = served row s) io l ∧ Forall op_ok (concat io) ∧
    sizes (concat io) = (rl + 1) * size ∧ same_servers (data_serv part) l ∧ delete gb (mem e) = mem (cl_env c) ∧
    stored m (data_serv part) l hs offset data (world (cl_env c)) (world e) ∧
    (∀ k s fh, data_serv part !! k = Some s → hs !! k = Some fh → is_out s = false → st_open s fh (world e)).
Proof.
  intros m rl n Hsz Hoff Hbd Hroom Hdata gb. pose proof (rd_layout _ _ _ _ _ HR) as HL. pose proof (fl_exp _ _ HL) as Hex. fold m in Hex.
  pose proof (ex_rl m 1 Hex) as Hrl. fold rl in Hrl. pose proof (ex_bs m 1 Hex) as Hbs.
  set (gbuf := replicate (Z.to_nat (u64 (size * (rl + 1)))) sys_fresh_byte).
  destruct (malloc_run c (u64 (size * (rl + 1)))) as [Emal Hgb]. fold gb gbuf in Emal, Hgb.
  set (c1 := with_mem (<[gb := gbuf]> (mem (cl_env c))) c) in *.
  assert (mem (cl_env c1) !! gb = Some gbuf) as Hgb1 by apply lookup_insert_eq.
  assert (buffer.1 ≠ gb) as Hne.
  { intros E. apply mem_read_inv in Hdata as (b & Hb & _). rewrite E in Hb. congruence. }
  assert (mem_read (mem (cl_env c1)) buffer size = Some data) as Hdata1 by (cbn; by rewrite mem_read_ne).
  assert (Z.of_nat (length gbuf) = size * (rl + 1)) as Elen by (unfold gbuf; rewrite length_replicate, u64_id; nia).
  assert (size * (rl + 1) <= Z.of_nat (length gbuf) < 2 ^ 62) as Hlen by (rewrite Elen; nia).
  assert (ready c1 fd d part hs) as HR1 by (by apply ready_mem).
  destruct (launched c1 fd d part hs HR1 size offset buffer data Hsz Hoff Hbd gb gbuf Hne Hlen Hdata1) as (l & e & E1 & HP & Hl & HF).
  assert (mem e = <[gb := grouped d part size offset buffer data gbuf]> (mem (cl_env c1))) as Em by (by destruct HP).
  destruct (io_ok c1 fd d part hs HR1 size offset buffer data Hsz Hoff Hbd gb gbuf Hne Hlen Hdata1) as (Hio1 & Hio2 & _).
  pose proof (pieces_bound (block_size m) size offset Hbs ltac:(nia) Hoff) as Hpb.
  pose proof (max_ops_bound size (block_size m) ltac:(lia) ltac:(nia)) as Hmb.
  assert ((ly_rl (mlay m 0) + 1) * Z.of_nat (length (request_pieces_raw (ly_bs (mlay m 0)) size offset)) <= write_room size (block_size m) rl) as Hmax.
  { unfold write_room. cbn [ly_rl ly_bs mlay]. fold rl. rewrite (i32_id (rl + 1)) by lia. rewrite i32_id by nia. nia. }
  destruct (grouped_run c1 fd d part HL (rd_fd _ _ _ _ _ HR1) (rd_part _ _ _ _ _ HR1) size offset buffer data ltac:(lia) Hoff Hbd gb gbuf Hgb1 Hne Hlen Hdata1 _ Hmax) as [_ Ew].
  change (ly_n (mlay (fd_mdata d) 0)) with (nv m 0) in Ew. pose proof (fl_n d part HL) as En. fold m in En. fold n in En.
  eexists _, l, e. split_and!.
  - unfold XpnWriteBlocks. mrun (apply (rd_fd _ _ _ _ _ HR)). mrun (apply fd_partition_run, HR).
    rewrite (fl_rl d part HL). fold m rl. rewrite (i32_id (rl + 1)) by lia. mrun (exact Emal). rewrite En. mrun (exact Ew).
    rewrite Em. reflexivity.
  - rewrite Em. exact E1.
  - apply (Forall2_length _ _ _ HF).
  - exact HF.
  - exact Hio2.
  - exact Hio1.
  - exact Hl.
  - rewrite Em. cbn [mem cl_env with_mem with_env set_mem c1]. by rewrite insert_insert_eq, delete_insert_id.
  - apply (progress_stored c1 fd d part hs size offset buffer data gb gbuf e l HR1); done.
  - by destruct HP.
Qed.

Lemma with_servers_mem p part l mm (c : client W) e :
  with_env e (with_servers p part l (with_mem mm c)) = with_env e (with_servers p part l c).
Proof. done. Qed.
Lemma row_results_ok io l : Forall2 (λ row s, row_result row s = served row s) io l → Forall op_ok (concat io) →
  existsb (λ r, r <? 0) (zip_with row_result io l) = false.
Proof.
  induction 1 as [|row s io l Hr HF IH]; intros Hok; [done|]. cbn [concat] in Hok. apply Forall_app in Hok as [H1 H2].
  pose proof (served_bounds row s H1). cbn [zip_with existsb]. rewrite Hr, IH by done. by rewrite (proj2 (Z.ltb_ge _ 0)) by lia.
Qed.

Lemma pwrite_run (c : client W) fd d part hs size offset buffer data :
  let m := fd_mdata d in
  let rl := replication_level m in
  ready c fd d part hs → 0 < size → 0 <= offset →
  (offset + 2 * size + block_size m) * (rl + 1) < 2 ^ 61 → (size + 2) * (rl + 1) < 2 ^ 31 →
  0 <= fd_offset d → fd_offset d + size < 2 ^ 62 → mem_read (mem (cl_env c)) buffer size = Some data →
  ∃ l e, let d' := file_at d (fd_offset d + size) (Z.max (file_size m) (fd_offset d + size)) in
    let c' := with_env e (with_servers (fd_part d) part l (with_desc fd d' c)) in
    xpn_pwrite fd buffer size offset c = Some (size, c') ∧ ready c' fd d' (set_serv l part) hs ∧
    mem e = mem (cl_env c) ∧ same_servers (data_serv part) l ∧ stored m (data_serv part) l hs offset data (world (cl_env c)) (world e).
Proof.
  intros m rl HR Hsz Hoff Hbd Hroom Ho Hob Hdata. pose proof (rd_layout _ _ _ _ _ HR) as HL. pose proof (fl_exp _ _ HL) as Hex. fold m in Hex.
  pose proof (ex_rl m 1 Hex) as Hrl. fold rl in Hrl. pose proof (ex_bs m 1 Hex) as Hbs. pose proof (fl_n d part HL) as En. fold m in En.
  pose proof (ex_nv m 1 Hex 0 ltac:(lia)) as Hnv. set (n := Z.of_nat (length (data_serv part))) in *.
  pose proof (fl_rl d part HL) as Erl. fold m rl in Erl. pose proof (rd_rl _ _ _ _ _ HR) as Hrn. fold m rl n in Hrn.
  destruct (pwrite_round c fd d part hs size offset buffer data HR Hsz Hoff Hbd Hroom Hdata)
    as (io & l1 & e1 & E1 & E2 & Hlen & HF & Hok & Hsum & Hl1 & Hdel & Hst & Hop). fold m rl n in E1, Hsum.
  set (gb := fresh (dom (mem (cl_env c)))) in *. set (p := fd_part d) in *.
  destruct (rd_path _ _ _ _ _ HR) as [Hp1 Hp2]. pose proof (rd_part _ _ _ _ _ HR) as Hp. fold p in Hp.
  pose proof (Forall2_length _ _ _ Hl1) as Ell. rewrite with_servers_mem in E2.
  set (c2 := with_env e1 (with_servers p part l1 c)) in *.
  assert (xpn_parttable c2 !! p = Some (set_serv l1 part)) as Hp2' by (apply with_servers_lookup; by apply lookup_lt_Some in Hp).
  destruct (wait_rows_run p l1 io [] c2 (set_serv l1 part) Hp2' eq_refl Hlen) as (c3 & E3 & er & Ec3).
  rewrite (row_results_ok io l1 HF Hok) in E3.
  assert (get_fd fd c3 = Some (d, c3)) as Hfd3.
  { pose proof (rd_fd _ _ _ _ _ HR) as [_ (k & Hs & Hk)]%get_fd_inv. rewrite Ec3. by apply (get_fd_run _ _ k). }
  assert (xpn_parttable c3 !! p = Some (set_serv l1 part)) as Hp3 by (rewrite Ec3; exact Hp2').
  destruct (after_write_run fd p (set_serv l1 part) d c3 size Hfd3 Hp3) as (l & e2 & E4 & Hl & Hm & Hw); cbn [data_serv set_serv part_replication_level]; try done || lia.
  rewrite Ec3 in Hm, Hw. cbn [cl_env with_env set_errno mem world] in Hm, Hw. cbn [data_serv set_serv part_replication_level] in Hl, E4. rewrite Erl, <- Ell in E4. fold n in E4.
  set (d' := file_at d (fd_offset d + size) (Z.max (file_size m) (fd_offset d + size))) in *.
  set (e := Env (errno e2) (delete gb (mem e2)) (world e2)).
  exists l, e. cbv zeta. fold d'.
  assert (same_servers (data_serv part) l) as Hsame by (by transitivity l1).
  assert (kept (world e1) (world e)) as Hkept by exact Hw.
  split; [|split; [|split; [|split]]].
  - unfold xpn_pwrite. mrun (apply (rd_servers c fd d part hs HR)). fold n p. rewrite (proj2 (Z.leb_gt n 0)) by lia.
    mrun (apply (rd_fd _ _ _ _ _ HR)). rewrite (fl_bs d part HL), Erl. fold m. rewrite (i32_id (rl + 1)) by lia.
    rewrite (proj2 (Z.eqb_neq (block_size m) 0)), (proj2 (Z.eqb_neq (rl + 1) 0)) by lia. cbn [orb].
    replace (max_ops size (block_size m) ⊠ (rl + 1)) with (write_room size (block_size m) rl) by (unfold write_room; by rewrite (i32_id (rl + 1)) by lia).
    mrun (exact E1). mrun (exact E2). cbn [negb]. mrun (exact E3). mrun (reflexivity). mrun (unfold lift; rewrite Hp3; reflexivity).
    cbn [data_serv set_serv]. mrun (unfold lift; rewrite (write_total_bytes io l1 HF Hok) by (rewrite Hsum; nia); reflexivity).
    rewrite Hsum. replace (((rl + 1) * size) `quot` (rl + 1)) with size by (rewrite (Z.mul_comm (rl + 1) size), Z.quot_mul by lia; done).
    mrun (exact E4). rewrite Ec3. mrun (reflexivity). unfold mret, M_ret. do 2 f_equal.
    change (with_env (set_errno er (cl_env c2)) c2) with (with_env (set_errno er (cl_env c2)) (with_servers p part l1 c)).
    rewrite with_desc_servers. fold m d'. unfold with_env, with_servers, with_parts, e, set_mem. cbn. rewrite !list_insert_insert_eq. done.
  - apply (ready_after c fd d part hs _ _ l e); try done.
    + intros k s fh Hs Hh Hout. apply Hkept. by apply (Hop k).
    + apply get_fd_with_servers. apply (get_fd_desc fd d), HR.
    + cbn. by rewrite (proj2 (with_desc_env fd d' c)).
  - unfold e. cbn [mem]. by rewrite Hm.
  - done.
  - by apply (stored_kept m (data_serv part) l1 l hs offset data _ (world e1)).
Qed.
End main.
