(* ===== verification/ReadSpec.v ===== *)
(** * ReadSpec: a read returns the bytes

    [xpn_pread] on a client that is [ready] and whose bytes are there: it
    returns the size of the request and the buffer holds the bytes, whether
    the servers fill the buffer block by block or one operation per server
    fills a buffer that is scattered afterwards. *)

From S2P Require Import Prelude Cstr Paths Layout Mdata Nfi Client MemFs FileTable Blocks Rw BlocksSpec Store Coverage Reading Servers Bytes Transfer WriteSpec.

(** ** Filling a buffer *)

(** Position [pos] of the buffer belongs to an operation. *)
Definition placed (io : list nfi_worker_io) (pos : Z) : Prop :=
  Exists (λ o, (io_buffer o).2 <= pos < (io_buffer o).2 + io_size o) io.
#[export] Instance placed_dec io pos : Decision (placed io pos).
Proof. unfold placed. apply _. Defined.

Lemma placed_app io1 io2 pos : placed (io1 ++ io2) pos ↔ placed io1 pos ∨ placed io2 pos.
Proof. apply Exists_app. Qed.
Lemma placed_one o pos : placed [o] pos ↔ (io_buffer o).2 <= pos < (io_buffer o).2 + io_size o.
Proof. unfold placed. rewrite Exists_cons, Exists_nil. tauto. Qed.

(** The operations [io] wrote bytes that [R] allows, and nothing else. *)
Record filled (R : Z → ascii → Prop) (buf : list ascii) (io : list nfi_worker_io) (buf' : list ascii) : Prop := {
  fi_len : length buf' = length buf;
  fi_in : ∀ pos, placed io (Z.of_nat pos) → ∃ b, R (Z.of_nat pos) b ∧ buf' !! pos = Some b;
  fi_out : ∀ pos, ¬ placed io (Z.of_nat pos) → buf' !! pos = buf !! pos }.

Lemma filled_nil R buf : filled R buf [] buf.
Proof. split; [done| |done]. by intros pos ?%Exists_nil. Qed.
Lemma filled_app R buf io1 buf1 io2 buf2 : filled R buf io1 buf1 → filled R buf1 io2 buf2 → filled R buf (io1 ++ io2) buf2.
Proof.
  intros [L1 I1 O1] [L2 I2 O2]. split; [congruence| |].
  - intros pos Hp. apply placed_app in Hp. destruct (decide (placed io2 (Z.of_nat pos))) as [H2|H2]; [by apply I2|].
    rewrite O2 by done. destruct Hp as [Hp|Hp]; [by apply I1|done].
  - intros pos Hp. rewrite placed_app in Hp. rewrite O2, O1 by tauto. done.
Qed.

(** One operation's data in its place. *)
Lemma mem_write_filled R (mm : memory) bk buf o dt :
  mm !! bk = Some buf → (io_buffer o).1 = bk → 0 <= (io_buffer o).2 → (io_buffer o).2 + io_size o <= Z.of_nat (length buf) →
  Z.of_nat (length dt) = io_size o → (∀ i b, dt !! i = Some b → R ((io_buffer o).2 + Z.of_nat i) b) →
  ∃ buf', mem_write mm (io_buffer o) dt = Some (<[bk := buf']> mm) ∧ filled R buf [o] buf'.
Proof.
  intros Hb Ebk H0 Hle Hl HR. set (q := Z.to_nat (io_buffer o).2).
  exists (take q buf ++ dt ++ drop (q + length dt) buf). split.
  - unfold mem_write. rewrite Ebk, Hb. cbn [mbind option_bind]. rewrite (proj2 (Z.leb_le 0 _)), (proj2 (Z.leb_le (_ + _) _)) by lia. done.
  - assert (length (take q buf) = q) as Hq by (rewrite length_take; lia). split.
    + rewrite !length_app, Hq, length_drop. lia.
    + intros pos Hp%placed_one.
      destruct (lookup_lt_is_Some_2 dt (pos - q)) as [b Hd]; [lia|]. exists b. split.
      * replace (Z.of_nat pos) with ((io_buffer o).2 + Z.of_nat (pos - q)) by lia. by apply HR.
      * rewrite lookup_app_r, Hq by lia. by apply lookup_app_l_Some.
    + intros pos Hp. rewrite placed_one in Hp.
      destruct (decide (pos < q)%nat) as [Hlt|Hge].
      * rewrite lookup_app_l by lia. apply lookup_take_lt. done.
      * assert ((q + length dt <= pos)%nat) by (destruct (decide (q + length dt <= pos)%nat); [done|exfalso; apply Hp; lia]).
        rewrite lookup_app_r, Hq by lia. rewrite lookup_app_r by lia. rewrite lookup_drop. f_equal. lia.
Qed.

Section reads.
Context {W : Type} {NO : NfiOps W} {NS : NfiStore W} {NB : NfiBytes W} `{SY : !Sys}.

(** The bytes [o] reads are in the file, and are the ones wanted in their places of buffer [bk]. *)
Definition reads_at (s : nfi_server) (fh : nfi_fhandle) (w : W) (bk : nat) (len : Z) (R : Z → ascii → Prop) (o : nfi_worker_io) : Prop :=
  0 <= io_offset o < 2 ^ 62 ∧ (io_buffer o).1 = bk ∧ 0 <= (io_buffer o).2 ∧ (io_buffer o).2 + io_size o <= len ∧
  ∃ dt, Z.of_nat (length dt) = io_size o ∧
    ∀ i b, dt !! i = Some b → data_byte s fh (io_offset o + Z.of_nat i) w = Some b ∧ R ((io_buffer o).2 + Z.of_nat i) b.

Lemma reads_at_sizes s fh w bk len R io : Forall (reads_at s fh w bk len R) io → Forall op_ok io.
Proof. intros HF. eapply Forall_impl; [exact HF|]. intros o (H1 & _ & _ & _ & dt & Hl & _). split; lia. Qed.

Lemma do_read_bytes srv fh R bk io : ∀ ret buf (st : env W),
  st_open srv fh (world st) → mem st !! bk = Some buf → Forall (reads_at srv fh (world st) bk (Z.of_nat (length buf)) R) io →
  0 <= ret → ret + sizes io < 2 ^ 62 →
  ∃ buf', do_read srv fh io ret st = Some (ret + sizes io, Env (errno st) (<[bk := buf']> (mem st)) (world st)) ∧ filled R buf io buf'.
Proof.
  induction io as [|o io IH]; intros ret buf st Hop Hb HF Hr Hbd.
  - exists buf. split; [|apply filled_nil]. change (sizes []) with 0. rewrite Z.add_0_r, insert_id by done. by destruct st.
  - apply Forall_cons in HF as [(Ho & Ebk & H0 & Hle & dt & Hl & Hdt) HF]. pose proof (sizes_nonneg _ (reads_at_sizes _ _ _ _ _ _ _ HF)) as Hsz.
    rewrite sizes_cons in Hbd |- *. cbn [do_read].
    assert (nfi_read srv fh (io_offset o ⊕ XPN_HEADER_SIZE) (io_size o) (errno st, world st) = ((io_size o, dt), (errno st, world st))) as Erd.
    { rewrite i64_id by (unfold XPN_HEADER_SIZE; lia). rewrite <- Hl. apply st_read; [done|unfold XPN_HEADER_SIZE; lia|].
      intros i b Hi. destruct (Hdt i b Hi) as [Hd _]. unfold data_byte in Hd.
      by replace (io_offset o + XPN_HEADER_SIZE + Z.of_nat i) with (io_offset o + Z.of_nat i + XPN_HEADER_SIZE) by lia. }
    destruct (mem_write_filled R (mem st) bk buf o dt Hb Ebk H0 Hle Hl) as (buf1 & Ew & Hf1); [intros i b Hi; by apply Hdt|].
    mrun (unfold call; rewrite Erd; reflexivity). rewrite (proj2 (Z.ltb_ge (io_size o) 0)) by lia.
    mstep. cbn [mem]. mrun (unfold lift; rewrite Ew; reflexivity). mstep. cbn [set_mem errno mem world].
    rewrite (i64_id (ret + io_size o)) by lia.
    destruct (IH (ret + io_size o) buf1 (Env (errno st) (<[bk := buf1]> (mem st)) (world st))) as (buf' & E' & Hf').
    + done.
    + apply lookup_insert_eq.
    + cbn [world]. by rewrite (fi_len _ _ _ _ Hf1).
    + lia.
    + lia.
    + exists buf'. unfold set_mem. cbn [errno mem world] in E' |- *. rewrite E', insert_insert_eq. split; [do 2 f_equal; lia|].
      exact (filled_app R buf [o] buf1 io buf' Hf1 Hf').
Qed.

(** ** A round of reads *)

Context (c : client W) (fd : Z) (d : xpn_filedesc) (part : xpn_partition) (hs : list nfi_fhandle) (HR : ready c fd d part hs).
Context (io : list (list nfi_worker_io)) (Hio : length io = length (data_serv part)).
Context (bk : nat) (buf : list ascii) (R : Z → ascii → Prop) (Hbuf : mem (cl_env c) !! bk = Some buf).
Context (Hrows : ∀ k s fh row, data_serv part !! k = Some s → hs !! k = Some fh → io !! k = Some row → row ≠ [] →
  is_out s = false ∧ Forall (reads_at s fh (world (cl_env c)) bk (Z.of_nat (length buf)) R) row).
Context (Hsum : sizes (concat io) < 2 ^ 62).

Record rprogress (k : nat) (e : env W) : Prop := {
  rp_world : world e = world (cl_env c);
  rp_mem : ∃ buf', mem e = <[bk := buf']> (mem (cl_env c)) ∧ filled R buf (concat (take k io)) buf' }.

Lemma row_ops_ok k row : io !! k = Some row → Forall op_ok row.
Proof.
  intros Hr. destruct row as [|o row]; [done|]. pose proof (lookup_lt_Some _ _ _ Hr) as Hk. pose proof (rd_len _ _ _ _ _ HR) as Hlh.
  destruct (lookup_lt_is_Some_2 (data_serv part) k) as [s Hs]; [lia|]. destruct (lookup_lt_is_Some_2 hs k) as [fh Hh]; [lia|].
  eapply reads_at_sizes. by apply (Hrows k s fh).
Qed.
Lemma io_ops_ok : Forall op_ok (concat io).
Proof. apply Forall_concat, Forall_lookup. apply row_ops_ok. Qed.

Lemma read_launched : ∃ l e buf',
  launch_rows false fd (fd_part d) 0 io c = Some (true, with_env e (with_servers (fd_part d) part l c)) ∧
  world e = world (cl_env c) ∧ mem e = <[bk := buf']> (mem (cl_env c)) ∧ filled R buf (concat io) buf' ∧ same_servers (data_serv part) l ∧
  zip_with row_result io l = sizes <$> io.
Proof.
  pose proof (rd_len _ _ _ _ _ HR) as Hlh.
  destruct (serve_run (row_req false io hs) (λ k, sizes (default [] (io !! k))) rprogress (data_serv part)) with (suf := data_serv part) (pre := @nil nfi_server) (e := cl_env c)
    as (l & e & Es & HP & Hll & Hl); [|done| |].
  { intros k s e Hs [Hw (b1 & Hm & Hf)]. pose proof (lookup_lt_Some _ _ _ Hs) as Hk.
    destruct (lookup_lt_is_Some_2 io k) as [row Hr]; [lia|]. destruct (lookup_lt_is_Some_2 hs k) as [fh Hfh]; [lia|].
    unfold row_req. rewrite !rdZ_of_nat, Hr, Hfh. cbn [default].
    destruct row as [|o row].
    - split; [done|]. exists b1. split; [done|]. rewrite (take_S_r _ _ _ Hr), concat_app. cbn [concat]. by rewrite !app_nil_r.
    - destruct (Hrows k s fh (o :: row) Hs Hfh Hr ltac:(done)) as [Ho HF]. rewrite Ho.
      pose proof (sizes_row io k _ io_ops_ok Hr) as Hszr.
      destruct (do_read_bytes s fh R bk (o :: row) 0 b1 e) as (b2 & E2 & Hf2).
      + rewrite Hw. by apply (rd_open _ _ _ _ _ HR k).
      + rewrite Hm. apply lookup_insert_eq.
      + rewrite Hw, (fi_len _ _ _ _ Hf). exact HF.
      + lia.
      + lia.
      + exists no_out. eexists. split; [cbn [nfi_do_operation]; mrun (exact E2); reflexivity|].
        split; [exact Hw|]. exists b2. cbn [mem]. rewrite Hm, insert_insert_eq. split; [done|].
        rewrite (take_S_r _ _ _ Hr), concat_app. cbn [concat]. rewrite app_nil_r. by apply filled_app with b1. }
  { split; [done|]. exists buf. rewrite insert_id by done. split; [done|]. apply filled_nil. }
  destruct HP as [Hw (buf' & Hm & Hf)]. rewrite take_ge in Hf by lia.
  exists l, e, buf'. cbn [length Z.of_nat] in Es. split_and!; try done.
  - apply (launch_rows_run false fd (fd_part d) d hs io (data_serv part) io [] c part l e); try done; try apply HR.
    cbn. lia.
  - apply Forall2_same_length_lookup. split; [done|]. intros k s s' Hs Hs'. destruct (Hl k s Hs) as [er Hl'].
    rewrite Hs' in Hl'. injection Hl' as ->. assert (∃ r e0, s = set_wrk r e0 s) as Hid by (exists (wrk_result s), (wrk_errno s); by destruct s).
    destruct (row_req _ _ _ _ _); [|done]. destruct (is_out s); [done|by eexists _, _].
  - apply list_eq. intros k. rewrite lookup_zip_with, list_lookup_fmap. destruct (io !! k) as [row|] eqn:Hr; [|done]. cbn [mbind option_bind fmap option_fmap option_map].
    pose proof (lookup_lt_Some _ _ _ Hr) as Hk. destruct (lookup_lt_is_Some_2 (data_serv part) k) as [s Hs]; [lia|].
    destruct (Hl k s Hs) as [er Hl']. cbn [length Nat.add] in Hl'. rewrite Hl'. cbn [mbind option_bind]. f_equal.
    destruct (lookup_lt_is_Some_2 hs k) as [fh Hfh]; [lia|]. unfold row_req. rewrite !rdZ_of_nat, Hr, Hfh.
    destruct row as [|o row]; [done|]. destruct (Hrows k s fh (o :: row) Hs Hfh Hr ltac:(done)) as [Ho _]. rewrite Ho.
    unfold row_result, wait_result, is_out in *. cbn [set_wrk srv_error wrk_result default]. by rewrite Ho.
Qed.

Lemma read_total : XpnReadGetTotalBytes (sizes <$> io) = sizes (concat io).
Proof.
  unfold XpnReadGetTotalBytes. pose proof io_ops_ok as Hok. revert Hok Hsum. clear. 
  enough (∀ io acc, Forall op_ok (concat io) → 0 <= acc → acc + sizes (concat io) < 2 ^ 62 → fold_left (λ res r, res ⊕ r) (sizes <$> io) acc = acc + sizes (concat io)) as HG
    by (intros H1 H2; rewrite HG; done || lia).
  induction io0 as [|row io0 IH]; intros acc Hok Ha Hb; cbn [fmap list_fmap fold_left concat] in *; [change (sizes []) with 0; lia|].
  apply Forall_app in Hok as [H1 H2]. rewrite sizes_app in *. pose proof (sizes_nonneg _ H1). pose proof (sizes_nonneg _ H2).
  rewrite i64_id by lia. rewrite IH by (done || lia). lia.
Qed.
Lemma read_no_err : existsb (λ r, r <? 0) (sizes <$> io) = false.
Proof.
  apply not_true_is_false. intros (x & Hx%list_elem_of_In & Hlt)%existsb_exists. apply list_elem_of_fmap in Hx as (row & -> & Hr).
  apply list_elem_of_lookup in Hr as [k Hr]. pose proof (sizes_nonneg _ (row_ops_ok k row Hr)). lia.
Qed.
End reads.

(** ** The operations of a read *)

Section pread.
Context {W : Type} {NO : NfiOps W} {NS : NfiStore W} {NB : NfiBytes W} `{SY : !Sys}.
Context (w : W) (d : xpn_filedesc) (part : xpn_partition) (hs : list nfi_fhandle).
Let m := fd_mdata d.
Let rl := replication_level m.
Context (HL : fd_layout d part) (Hhs : length hs = length (data_serv part)).
Context (size offset : Z) (buffer : ptr) (data buf : list ascii).
Context (Hsz : 0 < size) (Hoff : 0 <= offset) (Hbd : (offset + 2 * size + block_size m) * (rl + 1) < 2 ^ 61).
Context (Hlen : Z.of_nat (length data) = size) (Hb0 : 0 <= buffer.2) (Hb1 : buffer.2 + size <= Z.of_nat (length buf)).
(** Every byte is there, with a replica on a server that is not out. *)
Context (Hheld : ∀ t b, data !! t = Some b → holds m (data_serv part) hs w (offset + Z.of_nat t) b).
Context (Hlive : ∀ t, 0 <= t < size → ∃ j, 0 <= j <= rl ∧ live m 1 (data_serv part) (offset + t) j).

(** The bytes wanted in the buffer. *)
Definition wants (pos : Z) (b : ascii) : Prop := ∃ t, pos = buffer.2 + Z.of_nat t ∧ data !! t = Some b.

(** An operation on server [s] that reads a piece of the request. *)
Definition good_read (s : Z) (o : nfi_worker_io) : Prop :=
  op_ok o ∧ io_offset o < 2 ^ 61 ∧ (∃ cnt, io_buffer o = ptr_add buffer cnt ∧ 0 <= cnt ∧ cnt + io_size o <= size) ∧
  ∀ srv, rdZ (data_serv part) s = Some srv → is_out srv = false ∧
    ∀ fh i b, rdZ hs s = Some fh → data_of buffer data o !! i = Some b → data_byte srv fh (io_offset o + Z.of_nat i) w = Some b.

Lemma good_read_piece serv_client e p :
  e ∈ request_pieces_raw (block_size m) size offset → reads_piece d part 1 serv_client offset buffer e p → good_read p.1 p.2.
Proof.
  intros He (j & Hpick & ->). pose proof (fl_exp _ _ HL) as Hex. fold m in Hex. pose proof (ex_bs m 1 Hex) as Hbs. pose proof (ex_rl m 1 Hex) as Hrl. fold rl in Hrl.
  destruct (pieces_in _ size offset _ 0 e (proj1 Hbs) Hoff ltac:(lia) He) as (H1 & H2 & H3 & H4).
  destruct Hpick as [Hj Hlv _]. fold m rl in Hj, Hlv. cbn [read_op fst snd op_at]. unfold op_ok. cbn [io_size io_offset io_buffer].
  destruct (Hlive e.1 ltac:(lia)) as (j' & Hj' & Hl'). destruct (Hlv j' Hj' Hl') as (srv & Hs & Ho).
  pose proof (ly_off_bound m 1 Hex 0 (offset + e.1) j ltac:(lia) ltac:(lia) ltac:(lia)) as [Ho1 Ho2]. fold m.
  pose proof (lplace_mloc d (offset + e.1) j) as El. fold m in El. 
  assert (0 <= (mloc m 1 (offset + e.1) j).1 < 2 ^ 61) as Hor.
  { rewrite El. change (lplace d (offset + e.1) j).1 with (ly_off (mlay m 0) (offset + e.1) j). split; [exact Ho1|].
    fold rl in Ho2. assert ((offset + e.1) * (rl + 1) <= (offset + size) * (rl + 1)) by (apply Z.mul_le_mono_nonneg_r; lia).
    fold m rl in Hbd. nia. }
  unfold good_read, op_ok. cbn [op_at io_size io_offset io_buffer fst snd]. fold m.
  split; [split; lia|]. split; [lia|]. split.
  - exists e.1. split; [done|lia].
  - intros srv' Hs'. fold m in Hs. assert (srv' = srv) as -> by congruence.
    assert (is_out srv = false) as Hout by (unfold is_out; by rewrite (proj2 (Z.eqb_neq _ _) Ho)).
    split; [done|]. intros fh i b Hh Hi. unfold data_of in Hi. cbn [op_at io_size io_buffer ptr_add snd] in Hi.
    assert (Z.of_nat i < e.2) as Hie by (apply lookup_lt_Some in Hi; rewrite length_take in Hi; lia).
    rewrite lookup_take_lt, lookup_drop in Hi by lia. replace (buffer.2 + e.1 - buffer.2) with e.1 in Hi by lia.
    pose proof (mloc_shift m 1 Hex (offset + e.1) (Z.of_nat i) j) as EM. zdm (offset + e.1) (block_size m). specialize (EM ltac:(lia)).
    specialize (Hheld (Z.to_nat e.1 + i) b Hi j srv fh Hj).
    replace (offset + Z.of_nat (Z.to_nat e.1 + i)) with (offset + e.1 + Z.of_nat i) in Hheld by lia.
    fold m in Hheld. rewrite EM in Hheld. cbn [fst snd] in Hheld. by apply Hheld.
Qed.

Lemma good_read_len s o : good_read s o → Z.of_nat (length (data_of buffer data o)) = io_size o.
Proof.
  intros ([H1 _] & _ & (cnt & Ec & H2 & H3) & _). unfold data_of. rewrite Ec, length_take, length_drop. cbn [ptr_add snd].
  replace (buffer.2 + cnt - buffer.2) with cnt by lia. lia.
Qed.
Lemma good_read_wants s o i b : good_read s o → data_of buffer data o !! i = Some b → wants ((io_buffer o).2 + Z.of_nat i) b.
Proof.
  intros ([H1 _] & _ & (cnt & Ec & H2 & H3) & _) Hi. unfold data_of in Hi. rewrite Ec in Hi |- *. cbn [ptr_add snd] in *.
  replace (buffer.2 + cnt - buffer.2) with cnt in Hi by lia. exists (Z.to_nat cnt + i)%nat. split; [lia|].
  assert (i < Z.to_nat (io_size o))%nat by (apply lookup_lt_Some in Hi; rewrite length_take in Hi; lia).
  by rewrite lookup_take_lt, lookup_drop in Hi by lia.
Qed.

(** Read block by block, straight into the buffer. *)
Lemma good_reads_at s srv fh o :
  good_read s o → rdZ (data_serv part) s = Some srv → rdZ hs s = Some fh →
  reads_at srv fh w buffer.1 (Z.of_nat (length buf)) wants o.
Proof.
  intros HG Hs Hh. pose proof (good_read_len s o HG) as Hl. pose proof HG as ([H1 H2] & H3 & (cnt & Ec & H4 & H5) & H6).
  destruct (H6 srv Hs) as [_ H7]. split; [lia|]. rewrite Ec. cbn [ptr_add fst snd]. split_and!; try done || lia.
  exists (data_of buffer data o). split; [done|]. intros i b Hi. split; [by apply (H7 fh)|].
  pose proof (good_read_wants s o i b HG Hi) as Hw. rewrite Ec in Hw. exact Hw.
Qed.

(** One operation for a contiguous row. *)
Lemma contiguous_stored s srv fh row : rdZ (data_serv part) s = Some srv → rdZ hs s = Some fh →
  ∀ o, contiguous (o :: row) → Forall (good_read s) (o :: row) →
  ∀ i b, concat (data_of buffer data <$> o :: row) !! i = Some b → data_byte srv fh (io_offset o + Z.of_nat i) w = Some b.
Proof.
  intros Hs Hh. induction row as [|o' row IH]; intros o Hc HF i b Hi; apply Forall_cons in HF as [HG HF];
    pose proof (good_read_len s o HG) as Hl; pose proof HG as (_ & _ & _ & H6); destruct (H6 srv Hs) as [_ H7]; rewrite fmap_cons in Hi; cbn [concat] in Hi.
  - cbn in Hi. rewrite app_nil_r in Hi. by apply (H7 fh).
  - assert (io_offset o' = io_offset o + io_size o) as Eo by (by apply (Hc 0%nat)).
    apply lookup_app_Some in Hi as [Hi|[Hge Hi]]; [by apply (H7 fh)|].
    specialize (IH o' (λ k a b', Hc (S k) a b') HF _ b Hi). rewrite <- IH. f_equal. lia.
Qed.

(** ** One operation per server, and the scattering *)

Context (pl : list (Z * nfi_worker_io)) (Hpl : ∀ s o, (s, o) ∈ pl → 0 <= s < Z.of_nat (length (data_serv part)) ∧ good_read s o).
Let rws := rows (Z.of_nat (length (data_serv part))) pl.

Lemma rws_lookup k row : rws !! k = Some row → (k < length (data_serv part))%nat ∧ row = row_of (Z.of_nat k) pl ∧ Forall (good_read (Z.of_nat k)) row.
Proof.
  intros Hk. assert (rdZ rws (Z.of_nat k) = Some row) as Hr by (by rewrite rdZ_of_nat).
  apply rows_elem in Hr as [Hs ->]. split; [lia|]. split; [done|]. apply Forall_forall. intros o Ho%row_of_elem. by apply Hpl.
Qed.
Lemma rws_elem o : o ∈ concat rws ↔ ∃ s, (s, o) ∈ pl.
Proof.
  rewrite list_elem_of_In, in_concat. split.
  - intros (row & Hrow & Ho). rewrite <- !list_elem_of_In in *. apply list_elem_of_lookup in Hrow as [k Hk].
    apply rws_lookup in Hk as (_ & -> & _). apply row_of_elem in Ho. by eexists.
  - intros [s Hs]. exists (row_of s pl). rewrite <- !list_elem_of_In. split; [|by apply row_of_elem].
    destruct (Hpl s o Hs) as [Hsr _]. apply list_elem_of_lookup. exists (Z.to_nat s).
    pose proof (rows_rd _ pl s Hsr) as Hr. by apply rdZ_lookup in Hr as [_ Hr].
Qed.
Lemma rws_good : Forall (λ o, ∃ s, good_read s o) (concat rws).
Proof. apply Forall_forall. intros o [s Hs]%rws_elem. exists s. by apply Hpl. Qed.
Lemma goods_ok l : Forall (λ o, ∃ s, good_read s o) l → Forall op_ok l.
Proof. intros HF. eapply Forall_impl; [exact HF|]. by intros o (s & H & _). Qed.
Lemma goods_len l : Forall (λ o, ∃ s, good_read s o) l → Z.of_nat (length (concat (data_of buffer data <$> l))) = sizes l.
Proof.
  induction 1 as [|o l (s & H) HF IH]; [done|]. rewrite fmap_cons, sizes_cons. cbn [concat].
  rewrite length_app. pose proof (good_read_len s o H). lia.
Qed.

(** What the grouped buffer is to hold. *)
Definition gathered_data : list ascii := concat (data_of buffer data <$> concat rws).
Definition wants_gathered (pos : Z) (b : ascii) : Prop := ∃ t, pos = Z.of_nat t ∧ gathered_data !! t = Some b.

Lemma merge_placed gb R : ∀ count pos, Forall op_ok (concat R) → 0 <= count → count + sizes (concat R) < 2 ^ 62 →
  placed (concat (merge_rows (gb, 0) count R)) pos ↔ count <= pos < count + sizes (concat R).
Proof.
  induction R as [|row R IH]; intros count pos Hok Hc Hb; cbn [concat merge_rows] in *.
  - change (sizes []) with 0. split; [by intros ?%Exists_nil|lia].
  - apply Forall_app in Hok as [H1 H2]. rewrite sizes_app in *. pose proof (sizes_nonneg _ H1). pose proof (sizes_nonneg _ H2).
    destruct row as [|o row]; cbn [merge_rows concat].
    + change (sizes []) with 0 in *. cbn [app]. rewrite IH by (done || lia). lia.
    + assert (row_size (o :: row) = sizes (o :: row)) as -> by (unfold row_size; rewrite (row_size_exact _ 0); [lia|done|lia|lia]).
      rewrite u64_id by lia. rewrite placed_app, placed_one, IH by (done || lia). cbn [io_buffer io_size ptr_add snd]. lia.
Qed.

Lemma merged_reads gb len k srv fh row' :
  (∀ s, 0 <= s < Z.of_nat (length (data_serv part)) → contiguous (row_of s pl)) → sizes (concat rws) <= len → sizes (concat rws) < 2 ^ 62 →
  data_serv part !! k = Some srv → hs !! k = Some fh → merge_rows (gb, 0) 0 rws !! k = Some row' → row' ≠ [] →
  is_out srv = false ∧ Forall (reads_at srv fh w gb len wants_gathered) row'.
Proof.
  intros Hcont Hle Hlt Hs Hh Hr Hne. pose proof (lookup_lt_Some _ _ _ Hs) as Hk.
  assert (rws !! k = Some (row_of (Z.of_nat k) pl)) as Hrow by (rewrite <- rdZ_of_nat; apply rows_rd; lia).
  rewrite (merge_rows_lookup (gb, 0) rws k _ 0 (goods_ok _ rws_good) ltac:(lia) ltac:(lia) Hrow) in Hr. injection Hr as <-.
  destruct (rws_lookup k _ Hrow) as (_ & _ & HG). specialize (Hcont (Z.of_nat k) ltac:(lia)).
  destruct (row_of (Z.of_nat k) pl) as [|o row]; [done|].
  assert (rdZ (data_serv part) (Z.of_nat k) = Some srv ∧ rdZ hs (Z.of_nat k) = Some fh) as [Hsr Hhr] by (by rewrite !rdZ_of_nat).
  pose proof HG as HG'. apply Forall_cons in HG' as [(Ho1 & Ho2 & _ & Ho3) _]. split; [by apply (Ho3 srv)|]. constructor; [|constructor].
  assert (∀ l, Forall (good_read (Z.of_nat k)) l → Forall (λ o, ∃ s, good_read s o) l) as Hall by (intros l HF; eapply Forall_impl; [exact HF|]; by eexists).
  pose proof rws_good as HGA. assert (concat rws = concat (take k rws) ++ (o :: row) ++ concat (drop (S k) rws)) as ER
    by (rewrite <- (take_drop_middle _ _ _ Hrow) at 1; by rewrite concat_app).
  rewrite ER in HGA. apply Forall_app in HGA as [GA HGB]. apply Forall_app in HGB as [_ GB].
  pose proof (goods_len _ GA) as LA. pose proof (goods_len _ (Hall _ HG)) as LR. pose proof (sizes_nonneg _ (goods_ok _ GA)) as SA.
  pose proof (sizes_nonneg _ (goods_ok _ GB)) as SB. rewrite ER, !sizes_app in Hle, Hlt. destruct Ho1 as [_ Ho1].
  split; [cbn [io_offset]; lia|]. cbn [io_buffer io_size io_offset ptr_add fst snd]. split_and!; try done || lia.
  exists (concat (data_of buffer data <$> o :: row)). split; [done|]. intros i b Hi.
  split; [by apply (contiguous_stored (Z.of_nat k) srv fh row Hsr Hhr o)|].
  exists (length (concat (data_of buffer data <$> concat (take k rws))) + i)%nat. split; [lia|].
  unfold gathered_data. rewrite ER, !fmap_app, !concat_app. rewrite lookup_app_r by lia.
  rewrite lookup_app_l by (apply lookup_lt_Some in Hi; lia). rewrite <- Hi. f_equal. lia.
Qed.

(** The loop of [XpnReadBlocksFinish]. *)
Lemma scatter_run gb gbuf ops : ∀ count bf (c : client W),
  buffer.1 ≠ gb → mem (cl_env c) !! gb = Some gbuf → mem (cl_env c) !! buffer.1 = Some bf → length bf = length buf →
  Forall (λ o, ∃ s, good_read s o) ops → 0 <= count → Z.of_nat (length gbuf) < 2 ^ 62 →
  (∃ rest, drop (Z.to_nat count) gbuf = concat (data_of buffer data <$> ops) ++ rest) → count <= Z.of_nat (length gbuf) →
  ∃ r bf', foldM ops (λ count o, memcpy (io_buffer o) (ptr_add (gb, 0) count) (io_size o);; mret (u64 (count + io_size o))) count c
    = Some (r, with_mem (<[buffer.1 := bf']> (mem (cl_env c))) c) ∧ filled wants bf ops bf'.
Proof.
  induction ops as [|o ops IH]; intros count bf c Hne Hg Hb Hlb HF Hc Hlt [rest Hd] Hcl.
  - exists count, bf. split; [|apply filled_nil]. rewrite insert_id by done. unfold with_mem. by destruct c as [[] ? ? ? ? ? ?].
  - apply Forall_cons in HF as [(s & HG) HF]. pose proof (good_read_len s o HG) as Hl. pose proof HG as ([H1 H2] & H3 & (cnt & Ec & H4 & H5) & _).
    rewrite fmap_cons in Hd. cbn [concat] in Hd. rewrite <- app_assoc in Hd.
    assert (count + io_size o <= Z.of_nat (length gbuf)) as Hcs.
    { apply (f_equal length) in Hd. rewrite length_drop, length_app in Hd. lia. }
    assert (mem_read (mem (cl_env c)) (ptr_add (gb, 0) count) (io_size o) = Some (data_of buffer data o)) as Erd.
    { rewrite (mem_read_intro _ _ _ gbuf) by (cbn; done || lia). f_equal. cbn [ptr_add snd].
      replace (Z.to_nat (0 + count)) with (Z.to_nat count) by lia. rewrite Hd. apply take_app_length'. lia. }
    destruct (mem_write_filled wants (mem (cl_env c)) buffer.1 bf o (data_of buffer data o)) as (bf1 & Ew & Hf1); try done.
    { by rewrite Ec. }
    { rewrite Ec. cbn. lia. }
    { rewrite Ec, Hlb. cbn. lia. }
    { intros i b Hi. by apply (good_read_wants s). }
    cbn [foldM]. erewrite bind_step.
    2: { unfold memcpy. erewrite bind_step; [unfold mret, M_ret; rewrite u64_id by lia; reflexivity|].
         mstep. mrun (unfold lift; rewrite Erd; reflexivity). mrun (unfold lift; rewrite Ew; reflexivity). reflexivity. }
    set (c1 := with_env _ c).
    destruct (IH (count + io_size o) bf1 c1) as (r & bf' & E' & Hf').
    + done.
    + unfold c1. cbn. by rewrite lookup_insert_ne.
    + unfold c1. cbn. apply lookup_insert_eq.
    + by rewrite (fi_len _ _ _ _ Hf1).
    + done.
    + lia.
    + done.
    + exists rest. rewrite Z2Nat.inj_add, <- drop_drop, Hd by lia. apply drop_app_length'. lia.
    + lia.
    + exists r, bf'. split; [|exact (filled_app _ _ [o] _ _ _ Hf1 Hf')].
      change (foldM ops (λ count o, memcpy (io_buffer o) (ptr_add (gb, 0) count) (io_size o);; mret (u64 (count + io_size o))) (count + io_size o) c1 = Some (r, with_mem (<[buffer.1:=bf']> (mem (cl_env c))) c)).
      rewrite E'. unfold c1, with_mem. cbn. rewrite insert_insert_eq. done.
Qed.

(** All the bytes are in the buffer. *)
Lemma filled_all ops bf' : filled wants buf ops bf' → (∀ t, 0 <= t < size → placed ops (buffer.2 + t)) →
  Forall (λ o, ∃ s, good_read s o) ops → bf' = take (Z.to_nat buffer.2) buf ++ data ++ drop (Z.to_nat (buffer.2 + size)) buf.
Proof.
  intros [Hl Hi Ho] Hcov HF. apply list_eq. intros pos. set (q := Z.to_nat buffer.2).
  assert (length (take q buf) = q) as Hq by (rewrite length_take; lia).
  assert (placed ops (Z.of_nat pos) → buffer.2 <= Z.of_nat pos < buffer.2 + size) as Hin.
  { intros (o & Hoin & Hr)%Exists_exists. rewrite Forall_forall in HF. destruct (HF o Hoin) as (s & _ & _ & (cnt & Ec & H4 & H5) & _).
    rewrite Ec in Hr. cbn [ptr_add snd] in Hr. lia. }
  destruct (decide (placed ops (Z.of_nat pos))) as [Hp|Hp].
  - specialize (Hin Hp). destruct (Hi pos Hp) as (b & (t & Et & Ht) & ->).
    rewrite lookup_app_r, Hq by lia. rewrite lookup_app_l by lia. rewrite <- Ht. f_equal. lia.
  - rewrite Ho by done. destruct (decide (pos < q)%nat).
    + rewrite lookup_app_l by lia. by rewrite lookup_take_lt by lia.
    + destruct (decide (Z.of_nat pos < buffer.2 + size)) as [Hlt|Hge].
      * exfalso. apply Hp. replace (Z.of_nat pos) with (buffer.2 + (Z.of_nat pos - buffer.2)) by lia. apply Hcov. lia.
      * rewrite lookup_app_r, Hq by lia. rewrite lookup_app_r by lia. rewrite lookup_drop. f_equal. lia.
Qed.
End pread.

(** ** The whole read *)

Section main.
Context {W : Type} {NO : NfiOps W} {NS : NfiStore W} {NB : NfiBytes W} `{SY : !Sys}.

Lemma ready_seed (c : client W) fd d part hs z : ready c fd d part hs → ready (with_seed z c) fd d part hs.
Proof.
  intros [H1 H2 H3 H4 H5 H6 H7 H8 H9 H10 H11 H12]. split; try done.
  apply get_fd_inv in H1 as [_ (k & Hs & Hk)]. by apply (get_fd_run _ _ k).
Qed.
Lemma set_offset_at d o : set_offset o d = file_at d o (file_size (fd_mdata d)).
Proof. destruct d as [? ? ? ? ? ? ? [] ? ? ?]. done. Qed.

(** Launch, wait, count and move the offset. *)
Lemma read_phase (c : client W) fd d part hs io bk buf R size (HR : ready c fd d part hs) :
  length io = length (data_serv part) → mem (cl_env c) !! bk = Some buf →
  (∀ k s fh row, data_serv part !! k = Some s → hs !! k = Some fh → io !! k = Some row → row ≠ [] →
    is_out s = false ∧ Forall (reads_at s fh (world (cl_env c)) bk (Z.of_nat (length buf)) R) row) →
  sizes (concat io) = size → 0 <= size < 2 ^ 61 → 0 <= fd_offset d → fd_offset d + size < 2 ^ 62 →
  ∃ l e buf' c3 c4, let d' := file_at d (fd_offset d + size) (file_size (fd_mdata d)) in
    let c5 := with_env e (with_servers (fd_part d) part l (with_desc fd d' c)) in
    launch_rows false fd (fd_part d) 0 io c = Some (true, c3) ∧ wait_rows (fd_part d) 0 io c3 = Some ((sizes <$> io, false), c4) ∧
    XpnReadGetTotalBytes (sizes <$> io) = size ∧ add_offset fd size c4 = Some (tt, c5) ∧ ready c5 fd d' (set_serv l part) hs ∧
    world e = world (cl_env c) ∧ mem e = <[bk := buf']> (mem (cl_env c)) ∧ filled R buf (concat io) buf' ∧ same_servers (data_serv part) l.
Proof.
  intros Hio Hbuf Hrows Hsum Hs62 Ho Hob.
  destruct (read_launched c fd d part hs HR io Hio bk buf R Hbuf Hrows ltac:(lia)) as (l & e & buf' & E1 & Hw & Hm & Hf & Hl & Hz).
  set (c3 := with_env e (with_servers (fd_part d) part l c)) in *. pose proof (rd_part _ _ _ _ _ HR) as Hp.
  assert (xpn_parttable c3 !! fd_part d = Some (set_serv l part)) as Hp3 by (apply with_servers_lookup; by apply lookup_lt_Some in Hp).
  destruct (wait_rows_run (fd_part d) l io [] c3 (set_serv l part) Hp3 eq_refl) as (c4 & E2 & er & Ec4).
  { rewrite Hio. apply (Forall2_length _ _ _ Hl). }
  rewrite Hz, (read_no_err c fd d part hs HR io Hio bk buf R Hrows) in E2.
  assert (get_fd fd c4 = Some (d, c4)) as Hfd4.
  { pose proof (rd_fd _ _ _ _ _ HR) as [_ (k & Hs & Hk)]%get_fd_inv. rewrite Ec4. by apply (get_fd_run _ _ k). }
  exists l, (set_errno er e), buf', c3, c4. cbv zeta.
  assert (add_offset fd size c4 = Some (tt, with_env (set_errno er e) (with_servers (fd_part d) part l
    (with_desc fd (file_at d (fd_offset d + size) (file_size (fd_mdata d))) c)))) as E3.
  { unfold add_offset. rewrite (update_fd_desc fd _ d c4 Hfd4). do 2 f_equal. rewrite i64_id by lia. rewrite set_offset_at.
    rewrite Ec4. change (with_env (set_errno er (cl_env c3)) c3) with (with_env (set_errno er e) (with_servers (fd_part d) part l c)).
    apply with_desc_servers. }
  split; [exact E1|]. split; [exact E2|]. split; [by rewrite (read_total c fd d part hs HR io Hio bk buf R Hrows ltac:(lia))|].
  split; [exact E3|]. split; [|done].
  apply (ready_after c fd d part hs _ _ l (set_errno er e)); try done.
  - intros k s fh Hs Hh Hout. cbn [world set_errno]. rewrite Hw. by apply (rd_open _ _ _ _ _ HR k).
  - apply get_fd_with_servers. apply (get_fd_desc fd d), HR.
  - cbn. by rewrite (proj2 (with_desc_env fd _ c)).
Qed.

Lemma plan_sizes d part serv_client offset buffer ps pl :
  Forall2 (reads_piece d part 1 serv_client offset buffer) ps pl → sizes (snd <$> pl) = sumZ (snd <$> ps).
Proof.
  induction 1 as [|e p ps pl (j & _ & ->) HF IH]; [done|]. rewrite !fmap_cons, sizes_cons, IH. done.
Qed.
Lemma plan_single d part serv_client offset buffer ps pl : replication_level (fd_mdata d) = 0 →
  Forall2 (reads_piece d part 1 serv_client offset buffer) ps pl → pl = (λ e, read_op d 1 offset buffer e 0) <$> ps.
Proof.
  intros Hrl. induction 1 as [|e p ps pl (j & [Hj _ _] & ->) HF IH]; [done|]. rewrite fmap_cons, IH. f_equal. f_equal. lia.
Qed.
Lemma plan_write d part size offset buffer : fd_layout d part → replication_level (fd_mdata d) = 0 →
  (λ e, read_op d 1 offset buffer e 0) <$> request_pieces_raw (block_size (fd_mdata d)) size offset = lplan d part size offset buffer.
Proof.
  intros HL Hrl. unfold lplan, write_plan, request_pieces. rewrite (fl_bs d part HL).
  induction (request_pieces_raw _ _ _) as [|e ps IH]; [done|]. rewrite !fmap_cons, IH. cbn [concat]. unfold piece_ops at 2.
  rewrite (fl_rl d part HL), Hrl. cbn [Z.add]. rewrite (seqZ_cons 0), seqZ_nil by lia. cbn [fmap list_fmap app].
  unfold read_op. by rewrite lplace_mloc.
Qed.

Lemma read_optimize_run (c : client W) fd d part hs : ready c fd d part hs →
  read_optimize fd c = Some (negb (0 <? replication_level (fd_mdata d)), c).
Proof.
  intros HR. pose proof (rd_layout _ _ _ _ _ HR) as HL. unfold read_optimize. mrun (apply (rd_fd _ _ _ _ _ HR)).
  mrun (apply fd_partition_run, HR). rewrite (fl_rl d part HL). destruct (0 <? _); [done|].
  pose proof (fl_exp _ _ HL) as Hex. mrun (unfold lift; change 1 with (Z.of_nat 1); rewrite (rd_nv _ 1 Hex 1) by lia; reflexivity).
  by rewrite (ex_nv0 _ 1 Hex 1) by lia.
Qed.

(** The plan the reading loop follows. *)
Lemma plan_run (Hrand : ∀ z, 0 <= (sys_rand z).1) (c : client W) fd d part hs size offset buffer data (HR : ready c fd d part hs) :
  let m := fd_mdata d in
  0 < size < 2 ^ 31 - 2 → 0 <= offset → (offset + 2 * size + block_size m) * (replication_level m + 1) < 2 ^ 61 →
  Z.of_nat (length data) = size →
  (∀ t b, data !! t = Some b → holds m (data_serv part) hs (world (cl_env c)) (offset + Z.of_nat t) b) →
  (∀ t, 0 <= t < size → ∃ j, 0 <= j <= replication_level m ∧ live m 1 (data_serv part) (offset + t) j) →
  ∃ pl z, XpnReadBlocksBlockByBlock fd buffer size offset (part_local_serv part) (max_ops size (block_size m)) (Z.of_nat (length (data_serv part))) c
      = Some (rows (Z.of_nat (length (data_serv part))) pl, with_seed z c) ∧
    Forall2 (reads_piece d part 1 (part_local_serv part) offset buffer) (request_pieces_raw (block_size m) size offset) pl ∧
    (∀ s o, (s, o) ∈ pl → 0 <= s < Z.of_nat (length (data_serv part)) ∧ good_read (world (cl_env c)) part hs size buffer data s o) ∧
    sizes (concat (rows (Z.of_nat (length (data_serv part))) pl)) = size ∧
    (∀ t, 0 <= t < size → placed (concat (rows (Z.of_nat (length (data_serv part))) pl)) (buffer.2 + t)).
Proof.
  intros m Hsz Hoff Hbd Hlen Hheld Hlive. pose proof (rd_layout _ _ _ _ _ HR) as HL. pose proof (fl_exp _ _ HL) as Hex. fold m in Hex.
  pose proof (ex_bs m 1 Hex) as Hbs. pose proof (ex_rl m 1 Hex) as Hrl. assert (fd_spread 1 d part) as HS by exact (spread_1 _ _ _ _ _ HR).
  destruct (read_blocks_run Hrand fd d part 1 HS (part_local_serv part) size offset buffer ltac:(lia) Hoff ltac:(fold m; nia)
    (max_ops size (block_size m)) c (conj (rd_fd _ _ _ _ _ HR) (rd_part _ _ _ _ _ HR)) (pieces_bound (block_size m) size offset Hbs ltac:(lia) Hoff)) as (pl & z & E & HF).
  fold m in HF. exists pl, z. split; [exact E|]. split; [exact HF|].
  assert (∀ s o, (s, o) ∈ pl → 0 <= s < Z.of_nat (length (data_serv part)) ∧ good_read (world (cl_env c)) part hs size buffer data s o) as Hpl.
  { intros s o Hin. destruct (Forall2_elem_r _ _ _ (s, o) HF Hin) as (e & He & Hrp). split.
    - destruct Hrp as (j & _ & Ep). apply (f_equal fst) in Ep. cbn in Ep. rewrite Ep.
      destruct (pieces_in _ size offset _ 0 e (proj1 Hbs) Hoff ltac:(lia) He) as (H1 & _).
      pose proof (mloc_serv_range m 1 Hex (offset + e.1) j ltac:(lia)) as Hr. fold m. rewrite (fl_n d part HL). exact Hr.
    - by apply (good_read_piece (world (cl_env c)) d part hs HL (rd_len _ _ _ _ _ HR) size offset buffer data [] ltac:(lia) Hoff Hbd Hheld Hlive (part_local_serv part) e (s, o)). }
  split; [exact Hpl|]. split.
  - rewrite rows_sizes; [|lia|apply Forall_forall; intros [s o] Hin; by apply (Hpl s o)].
    rewrite (plan_sizes _ _ _ _ _ _ _ HF). unfold request_pieces_raw. rewrite pieces_sum; lia.
  - intros t Ht. destruct (pieces_cover (block_size m) size offset (Z.to_nat size) 0 t) as (e & He & Hin); [lia..|].
    destruct (Forall2_elem_l _ _ _ e HF He) as ([s o] & Hp & (j & _ & Ep)). apply Exists_exists. exists o. split.
    + apply (rws_elem (world (cl_env c)) d part hs (rd_len _ _ _ _ _ HR) size buffer data [] pl Hpl). by exists s.
    + apply (f_equal snd) in Ep. cbn [snd read_op] in Ep. rewrite Ep. cbn. lia.
Qed.

Lemma mem_write_inv (mm mm' : memory) p dt : mem_write mm p dt = Some mm' →
  ∃ buf, mm !! p.1 = Some buf ∧ 0 <= p.2 ∧ p.2 + Z.of_nat (length dt) <= Z.of_nat (length buf) ∧
    mm' = <[p.1 := take (Z.to_nat p.2) buf ++ dt ++ drop (Z.to_nat (p.2 + Z.of_nat (length dt))) buf]> mm.
Proof.
  unfold mem_write. destruct (mm !! p.1) as [buf|]; [|done]. cbn [mbind option_bind].
  destruct ((0 <=? p.2) && (p.2 + Z.of_nat (length dt) <=? Z.of_nat (length buf))) eqn:E; [|done].
  intros [= <-]. exists buf. split_and!; try done || lia. do 4 f_equal. lia.
Qed.

(** The state of a read, once it is done. *)
Definition read_done (c : client W) fd d part hs size (data : list ascii) buffer c' : Prop :=
  ∃ l e z, let d' := file_at d (fd_offset d + size) (file_size (fd_mdata d)) in
    c' = with_env e (with_servers (fd_part d) part l (with_desc fd d' (with_seed z c))) ∧ ready c' fd d' (set_serv l part) hs ∧
    world e = world (cl_env c) ∧ mem_write (mem (cl_env c)) buffer data = Some (mem e) ∧ same_servers (data_serv part) l.

Lemma ready_env (c : client W) fd d part hs e : ready c fd d part hs → world e = world (cl_env c) → ready (with_env e c) fd d part hs.
Proof.
  intros [H1 H2 H3 H4 H5 H6 H7 H8 H9 H10 H11 H12] Hw. split; try done.
  - apply get_fd_inv in H1 as [_ (k & Hs & Hk)]. by apply (get_fd_run _ _ k).
  - cbn [cl_env with_env]. by rewrite Hw.
Qed.

Context (Hrand : ∀ z, 0 <= (sys_rand z).1).

(** With replicas: every block straight into the buffer. *)
Lemma pread_blocks (c : client W) fd d part hs size offset buffer data mm (HR : ready c fd d part hs) :
  let m := fd_mdata d in
  0 < replication_level m → 0 < size < 2 ^ 31 - 2 → 0 <= offset → (offset + 2 * size + block_size m) * (replication_level m + 1) < 2 ^ 61 →
  0 <= fd_offset d → fd_offset d + size < 2 ^ 62 → Z.of_nat (length data) = size → mem_write (mem (cl_env c)) buffer data = Some mm →
  (∀ t b, data !! t = Some b → holds m (data_serv part) hs (world (cl_env c)) (offset + Z.of_nat t) b) →
  (∀ t, 0 <= t < size → ∃ j, 0 <= j <= replication_level m ∧ live m 1 (data_serv part) (offset + t) j) →
  ∃ c', xpn_pread fd buffer size offset c = Some (size, c') ∧ read_done c fd d part hs size data buffer c'.
Proof.
  intros m Hrl Hsz Hoff Hbd Ho Hob Hlen Hmw Hheld Hlive. pose proof (rd_layout _ _ _ _ _ HR) as HL. pose proof (fl_exp _ _ HL) as Hex. fold m in Hex.
  pose proof (ex_bs m 1 Hex) as Hbs. pose proof (ex_nv m 1 Hex 0 ltac:(lia)) as Hnv. pose proof (fl_n d part HL) as En. fold m in En.
  destruct (mem_write_inv _ _ _ _ Hmw) as (buf & Hbuf & Hb0 & Hb1 & Emm). rewrite Hlen in Hb1, Emm.
  destruct (malloc_run c size) as [Emal Hgb]. set (gb := fresh (dom (mem (cl_env c)))) in *.
  set (c1 := with_mem _ c) in Emal. assert (ready c1 fd d part hs) as HR1 by (by apply ready_mem).
  destruct (plan_run Hrand c1 fd d part hs size offset buffer data HR1 Hsz Hoff Hbd Hlen Hheld Hlive) as (pl & z & E1 & _ & Hpl & Hsum & Hcov). fold m in E1.
  set (io := rows (Z.of_nat (length (data_serv part))) pl) in *. set (c2 := with_seed z c1) in *.
  assert (ready c2 fd d part hs) as HR2 by (by apply ready_seed).
  assert (buffer.1 ≠ gb) as Hne by (intros E; rewrite E in Hbuf; congruence).
  assert (mem (cl_env c2) !! buffer.1 = Some buf) as Hbuf2 by (cbn; by rewrite lookup_insert_ne).
  pose proof (rd_len _ _ _ _ _ HR) as Hlh.
  destruct (read_phase c2 fd d part hs io buffer.1 buf (wants buffer data) size HR2) as (l & e & buf' & c3 & c4 & E2 & E3 & E4 & E5 & HR5 & Hw & Hm & Hf & Hl); try done || lia.
  { unfold io, rows. rewrite length_fmap, length_seqZ. lia. }
  { intros k s fh row Hs Hh Hr Hnil. destruct (rws_lookup _ d part hs Hlh size buffer data buf pl Hpl k row Hr) as (_ & _ & HG).
    destruct row as [|o row]; [done|]. split.
    - apply Forall_cons in HG as [(_ & _ & _ & Hg) _]. by apply (Hg s); rewrite rdZ_of_nat.
    - eapply Forall_impl; [exact HG|]. intros o' Hg. by apply (good_reads_at _ d part hs Hlh size buffer data buf ltac:(lia) Hlen Hb0 Hb1 (Z.of_nat k)); rewrite ?rdZ_of_nat. }
  eexists. split.
  - unfold xpn_pread. mrun (apply (rd_servers c fd d part hs HR)). rewrite (proj2 (Z.leb_gt _ 0)) by lia.
    mrun (apply (rd_fd _ _ _ _ _ HR)). rewrite (fl_bs d part HL). fold m. rewrite (proj2 (Z.eqb_neq (block_size m) 0)) by lia.
    erewrite bind_step.
    2: { unfold XpnReadBlocks. mrun (apply (read_optimize_run c fd d part hs HR)). fold m. rewrite (proj2 (Z.ltb_lt 0 _) Hrl). cbn [negb].
         mrun (exact Emal). mrun (exact E1). reflexivity. }
    cbv beta iota. mrun (exact E2). cbn [negb]. mrun (exact E3). cbv beta iota zeta. rewrite E4, (proj2 (Z.ltb_lt 0 size)) by lia. mrun (exact E5).
    erewrite bind_step.
    2: { unfold XpnReadBlocksFinish. mrun (apply (read_optimize_run _ fd _ _ hs HR5)). cbn [fd_mdata file_at set_fdmdata replication_level set_file_size]. fold m.
         rewrite (proj2 (Z.ltb_lt 0 _) Hrl). reflexivity. }
    mrun (reflexivity). reflexivity.
  - exists l, (set_mem (delete gb (mem e)) e), z. cbv zeta. set (d' := file_at _ _ _) in *. split_and!.
    + unfold c2, c1. cbn [cl_env with_env]. unfold with_desc. cbn. destruct (rdZ (xpn_file_table c) fd) as [[k|]|]; done.
    + apply (ready_env _ fd d' (set_serv l part) hs (set_mem (delete gb (mem e)) e)) in HR5; [|done]. exact HR5.
    + exact Hw.
    + rewrite Hmw. cbn [mem set_mem]. rewrite Hm. f_equal. unfold c2, c1. cbn [mem cl_env with_seed with_mem with_env set_mem].
      rewrite insert_insert_ne, delete_insert_id by (done || by rewrite lookup_insert_ne).
      rewrite (filled_all (world (cl_env c)) d part hs Hlh size buffer data buf ltac:(lia) Hlen Hb0 Hb1 _ _ Hf Hcov).
      * exact Emm.
      * apply (rws_good (world (cl_env c)) d part hs Hlh size buffer data buf pl Hpl).
    + exact Hl.
Qed.

Lemma holds_servers m l l' hs w x b : same_servers l l' → holds m l hs w x b → holds m l' hs w x b.
Proof. intros Hl. apply holds_same; done. Qed.
Lemma live_servers m l l' x j : same_servers l l' → live m 1 l x j → live m 1 l' x j.
Proof.
  intros Hl (s & [H0 Hs]%rdZ_lookup & Ho). destruct (Forall2_lookup_l _ _ _ _ _ Hl Hs) as (s' & Hs' & r & e & ->).
  exists (set_wrk r e s). split; [by apply rdZ_lookup|exact Ho].
Qed.

(** The plan does not depend on the buffer but for the buffer's address. *)
Definition rebase (b b' : ptr) (o : nfi_worker_io) : nfi_worker_io := Io (io_offset o) (io_size o) (ptr_add b' ((io_buffer o).2 - b.2)).
Lemma lplan_rebase d part size offset b b' :
  lplan d part size offset b' = (λ p, (p.1, rebase b b' p.2)) <$> lplan d part size offset b.
Proof.
  unfold lplan, write_plan. induction (request_pieces d size offset) as [|e ps IH]; [done|].
  rewrite !fmap_cons. cbn [concat]. rewrite fmap_app, IH. f_equal. unfold piece_ops. rewrite <- list_fmap_compose.
  apply list_fmap_ext. intros i j _. unfold compose, rebase, op_at. cbn. f_equal. f_equal. f_equal. lia.
Qed.
Lemma row_of_map (f : nfi_worker_io → nfi_worker_io) s pl : row_of s ((λ p, (p.1, f p.2)) <$> pl) = f <$> row_of s pl.
Proof.
  unfold row_of. induction pl as [|p pl IH]; [done|]. rewrite fmap_cons, !filter_cons. cbn [fst].
  destruct (decide (p.1 = s)); [rewrite !fmap_cons; cbn [snd]; by rewrite IH|exact IH].
Qed.
Lemma gathered_rebase d part n size offset b b' data :
  data_of b' data <$> concat (rows n (lplan d part size offset b')) = data_of b data <$> concat (rows n (lplan d part size offset b)).
Proof.
  rewrite (lplan_rebase d part size offset b b'). unfold rows.
  induction (seqZ 0 n) as [|s l IH]; [done|]. rewrite !fmap_cons. cbn [concat]. rewrite !fmap_app, IH, row_of_map. f_equal.
  rewrite <- list_fmap_compose. apply list_fmap_ext. intros i o _. unfold compose, data_of, rebase. cbn. do 2 f_equal. lia.
Qed.

(** Without replicas: one operation per server into a second buffer, which is scattered. *)
Lemma pread_grouped (c : client W) fd d part hs size offset buffer data mm (HR : ready c fd d part hs) :
  let m := fd_mdata d in
  replication_level m = 0 → 0 < size < 2 ^ 31 - 2 → 0 <= offset → (offset + 2 * size + block_size m) * (replication_level m + 1) < 2 ^ 61 →
  0 <= fd_offset d → fd_offset d + size < 2 ^ 62 → Z.of_nat (length data) = size → mem_write (mem (cl_env c)) buffer data = Some mm →
  (∀ t b, data !! t = Some b → holds m (data_serv part) hs (world (cl_env c)) (offset + Z.of_nat t) b) →
  (∀ t, 0 <= t < size → ∃ j, 0 <= j <= replication_level m ∧ live m 1 (data_serv part) (offset + t) j) →
  ∃ c', xpn_pread fd buffer size offset c = Some (size, c') ∧ read_done c fd d part hs size data buffer c'.
Proof.
  intros m Hrl Hsz Hoff Hbd Ho Hob Hlen Hmw Hheld Hlive. pose proof (rd_layout _ _ _ _ _ HR) as HL. pose proof (fl_exp _ _ HL) as Hex. fold m in Hex.
  pose proof (ex_bs m 1 Hex) as Hbs. pose proof (ex_nv m 1 Hex 0 ltac:(lia)) as Hnv. pose proof (fl_n d part HL) as En. fold m in En.
  destruct (mem_write_inv _ _ _ _ Hmw) as (buf & Hbuf & Hb0 & Hb1 & Emm). rewrite Hlen in Hb1, Emm. set (n := Z.of_nat (length (data_serv part))) in *.
  destruct (malloc_run c size) as [Emal Hgb]. set (gb := fresh (dom (mem (cl_env c)))) in *. set (fresh_buf := replicate (Z.to_nat size) sys_fresh_byte) in *.
  set (c1 := with_mem _ c) in Emal. assert (ready c1 fd d part hs) as HR1 by (by apply ready_mem).
  pose proof (rd_len _ _ _ _ _ HR) as Hlh. assert (buffer.1 ≠ gb) as Hne by (intros E; rewrite E in Hbuf; congruence).
  (* the plan is the one of a write *)
  assert (∀ (c' : client W) bf d' part', ready c' fd d' part' hs → fd_mdata d' = m → same_servers (data_serv part) (data_serv part') → part_local_serv part' = part_local_serv part →
    world (cl_env c') = world (cl_env c) →
    ∃ z, XpnReadBlocksBlockByBlock fd bf size offset (part_local_serv part) (max_ops size (block_size m)) n c'
      = Some (rows n (lplan d' part' size offset bf), with_seed z c') ∧
    (∀ s o, (s, o) ∈ lplan d' part' size offset bf → 0 <= s < n ∧ good_read (world (cl_env c)) part' hs size bf data s o) ∧
    sizes (concat (rows n (lplan d' part' size offset bf))) = size ∧
    (∀ t, 0 <= t < size → placed (concat (rows n (lplan d' part' size offset bf))) (bf.2 + t))) as Hplan.
  { intros c' bf d' part' HR' Em Hsame Eloc Hw. pose proof (Forall2_length _ _ _ Hsame) as Ell.
    destruct (plan_run Hrand c' fd d' part' hs size offset bf data HR' Hsz Hoff ltac:(rewrite Em; exact Hbd) Hlen) as (pl & z & E & HF & Hpl & Hsum & Hcov).
    { intros t b Ht. rewrite Em, Hw. apply (holds_servers _ (data_serv part)); [done|by apply Hheld]. }
    { intros t Ht. rewrite Em. destruct (Hlive t Ht) as (j & Hj & Hl). exists j. split; [done|by apply (live_servers _ (data_serv part))]. }
    rewrite Eloc, Em in E. rewrite <- Ell in E, Hpl, Hsum, Hcov. fold n in E, Hpl, Hsum, Hcov. rewrite Hw in Hpl. rewrite Em in HF.
    assert (pl = lplan d' part' size offset bf) as -> .
    { rewrite <- plan_write by (try apply HR'; by rewrite Em). rewrite Em. eapply plan_single; [by rewrite Em|exact HF]. }
    exists z. by split. }
  destruct (Hplan c1 (gb, 0) d part HR1 eq_refl ltac:(done) eq_refl eq_refl) as (z & E1 & Hpl & Hsum & _).
  set (plg := lplan d part size offset (gb, 0)) in *. set (io := merge_rows (gb, 0) 0 (rows n plg)). set (c2 := with_seed z c1) in *.
  assert (ready c2 fd d part hs) as HR2 by (by apply ready_seed).
  pose proof (rws_good (world (cl_env c)) d part hs Hlh size (gb, 0) data fresh_buf plg Hpl) as HG. fold n in HG.
  pose proof (goods_ok (world (cl_env c)) part hs size (gb, 0) data _ HG) as Hok.
  destruct (merge_rows_sizes (gb, 0) (rows n plg) 0 Hok ltac:(lia) ltac:(lia)) as (Hio1 & Hio2 & HioF). fold io in Hio1, Hio2, HioF.
  assert (Z.of_nat (length fresh_buf) = size) as Hlf by (unfold fresh_buf; rewrite length_replicate; lia).
  destruct (read_phase c2 fd d part hs io gb fresh_buf (wants_gathered part (gb, 0) data plg) size HR2)
    as (l & e & gbuf & c3 & c4 & E2 & E3 & E4 & E5 & HR5 & Hw & Hm & Hf & Hl); try done || lia.
  { rewrite (Forall2_length _ _ _ HioF). unfold rows. rewrite length_fmap, length_seqZ. lia. }
  { apply lookup_insert_eq. }
  { intros k s fh row Hs Hh Hr Hnil. apply (merged_reads (world (cl_env c)) d part hs Hlh size (gb, 0) data fresh_buf ltac:(lia) Hlen plg Hpl gb _ k s fh row); try done; fold n; try lia.
    intros s' Hs'. rewrite En in Hs'. by apply (lplan_contiguous d part HL ltac:(fold m; cbn; lia) size offset (gb, 0) Hoff (S gb) [] ltac:(cbn; lia)). }
  (* the grouped buffer is full *)
  assert (gbuf = gathered_data part (gb, 0) data plg) as Egb.
  { pose proof (goods_len (world (cl_env c)) d part hs Hlh size (gb, 0) data fresh_buf ltac:(lia) Hlen _ HG) as Hgl.
    apply list_eq. intros pos. destruct (decide (Z.of_nat pos < size)) as [Hlt|Hge].
    - destruct (fi_in _ _ _ _ Hf pos) as (b & (t & Et & Ht) & ->); [|by assert (t = pos) as -> by lia].
      apply (merge_placed d part hs Hlh data fresh_buf); [exact Hok|lia|lia|]. rewrite Hsum. lia.
    - unfold gathered_data. fold n. rewrite !lookup_ge_None_2; [done|lia|]. rewrite (fi_len _ _ _ _ Hf). lia. }
  pose proof (Forall2_length _ _ _ Hl) as Ell. rewrite <- set_offset_at in E5, HR5. set (d' := set_offset (fd_offset d + size) d) in *.
  set (part' := set_serv l part) in *. set (c5 := with_env e (with_servers (fd_part d) part l (with_desc fd d' c2))) in *.
  destruct (Hplan c5 buffer d' part' HR5 eq_refl Hl eq_refl Hw) as (z5 & E6 & Hpl5 & Hsum5 & Hcov5).
  change (lplan d' part' size offset buffer) with (lplan d part size offset buffer) in E6, Hpl5, Hsum5, Hcov5.
  set (plb := lplan d part size offset buffer) in *. pose proof (rd_len _ _ _ _ _ HR5) as Hlh5.
  assert (n = Z.of_nat (length (data_serv part'))) as En5 by (unfold n; rewrite Ell; done).
  assert (Forall (λ o, ∃ s, good_read (world (cl_env c)) part' hs size buffer data s o) (concat (rows n plb))) as HG5.
  { rewrite En5. apply (rws_good (world (cl_env c)) d part' hs Hlh5 size buffer data buf). rewrite <- En5. exact Hpl5. }
  set (c6 := with_seed z5 c5) in *.
  assert (mem (cl_env c6) !! gb = Some gbuf) as Hg6 by (cbn; rewrite Hm; apply lookup_insert_eq).
  assert (mem (cl_env c6) !! buffer.1 = Some buf) as Hb6 by (cbn; rewrite Hm, lookup_insert_ne by done; cbn; by rewrite lookup_insert_ne).
  destruct (scatter_run (world (cl_env c)) d part' hs Hlh5 size buffer data buf ltac:(lia) Hlen Hb0 Hb1 gb gbuf (concat (rows n plb)) 0 buf c6)
    as (r & bf & E7 & Hf7); try done.
  { rewrite (fi_len _ _ _ _ Hf). lia. }
  { exists []. rewrite app_nil_r, Egb. unfold gathered_data. fold n. change (Z.to_nat 0) with 0%nat. rewrite drop_0. f_equal. apply gathered_rebase. }
  { lia. }
  set (c7 := with_mem _ c6) in *.
  exists (with_env (set_mem (delete gb (mem (cl_env c7))) (cl_env c7)) c7). split.
  - unfold xpn_pread. mrun (apply (rd_servers c fd d part hs HR)). fold n. rewrite (proj2 (Z.leb_gt _ 0)) by lia.
    mrun (apply (rd_fd _ _ _ _ _ HR)). rewrite (fl_bs d part HL). fold m. rewrite (proj2 (Z.eqb_neq (block_size m) 0)) by lia.
    erewrite bind_step.
    2: { unfold XpnReadBlocks. mrun (apply (read_optimize_run c fd d part hs HR)). fold m. rewrite Hrl. cbn [Z.ltb Z.compare negb].
         mrun (exact Emal). erewrite bind_step by (unfold XpnReadBlocksAllInOne; mrun (exact E1); reflexivity). reflexivity. }
    cbv beta iota. fold io. mrun (exact E2). cbn [negb]. mrun (exact E3). cbv beta iota zeta. rewrite E4, (proj2 (Z.ltb_lt 0 size)) by lia. mrun (exact E5).
    erewrite bind_step.
    2: { unfold XpnReadBlocksFinish. mrun (apply (read_optimize_run c5 fd d' part' hs HR5)).
         change (replication_level (fd_mdata d')) with (replication_level m). rewrite Hrl. cbn [Z.ltb Z.compare negb].
         mrun (exact E6). unfold copy_rows. mrun (exact E7). reflexivity. }
    mrun (reflexivity). reflexivity.
  - exists l, (set_mem (delete gb (mem (cl_env c7))) (cl_env c7)), z5. rewrite <- set_offset_at. fold d' part'. cbv zeta. split_and!.
    + unfold c7, c6, c5, c2, c1. unfold with_desc. cbn. destruct (rdZ (xpn_file_table c) fd) as [[k|]|]; done.
    + apply ready_env; [|exact eq_refl]. apply ready_mem, ready_seed. exact HR5.
    + exact Hw.
    + rewrite Hmw. cbn [mem set_mem cl_env c7 with_mem with_env c6 with_seed c5]. rewrite Hm. f_equal. cbn [mem cl_env c2 c1 with_seed with_mem with_env set_mem].
      rewrite insert_insert_eq, insert_insert_ne, delete_insert_id by (done || by rewrite lookup_insert_ne).
      rewrite (filled_all (world (cl_env c)) d part' hs Hlh5 size buffer data buf ltac:(lia) Hlen Hb0 Hb1 _ _ Hf7 Hcov5 HG5). exact Emm.
    + exact Hl.
Qed.

Lemma pread_run (c : client W) fd d part hs size offset buffer data mm :
  let m := fd_mdata d in
  ready c fd d part hs → 0 < size < 2 ^ 31 - 2 → 0 <= offset → (offset + 2 * size + block_size m) * (replication_level m + 1) < 2 ^ 61 →
  0 <= fd_offset d → fd_offset d + size < 2 ^ 62 → Z.of_nat (length data) = size → mem_write (mem (cl_env c)) buffer data = Some mm →
  (∀ t b, data !! t = Some b → holds m (data_serv part) hs (world (cl_env c)) (offset + Z.of_nat t) b) →
  (∀ t, 0 <= t < size → ∃ j, 0 <= j <= replication_level m ∧ live m 1 (data_serv part) (offset + t) j) →
  ∃ c', xpn_pread fd buffer size offset c = Some (size, c') ∧ read_done c fd d part hs size data buffer c'.
Proof.
  intros m HR. pose proof (ex_rl m 1 (fl_exp _ _ (rd_layout _ _ _ _ _ HR))). destruct (decide (replication_level m = 0)).
  - by apply pread_grouped.
  - intros. apply (pread_blocks c fd d part hs size offset buffer data mm HR); try done. fold m. lia.
Qed.
End main.
