(* ===== verification/EndToEnd.v ===== *)
(** * EndToEnd: what is written is read

    The entry points of src/src/xpn_client/xpn/xpn_simple/xpncore/xpn_rw.c over
    servers that keep bytes: a write stores its bytes, a read returns them, and
    a file with replicas survives the failure of a server
    ([xpn_simple_mark_error_server] of xpn_init.c) between the two. *)

From S2P Require Import Prelude Cstr Paths Layout Mdata Nfi Client MemFs FileTable Blocks Rw BlocksSpec Store Coverage Reading Servers Bytes Transfer WriteSpec ReadSpec Conf Init.

(** A descriptor that can be read and written in large requests. *)
Record large_io (fd : Z) (d : xpn_filedesc) (size : Z) : Prop := {
  li_fd : 0 <= fd < 1024;
  li_flags : fd_flags d = O_RDWR;
  li_type : fd_type d = XPN_FILE;
  li_size : block_size (fd_mdata d) < size < 2 ^ 31 - 2;
  li_offset : 0 <= fd_offset d;
  li_end : (fd_offset d + 2 * size + block_size (fd_mdata d)) * (replication_level (fd_mdata d) + 1) < 2 ^ 61 }.

Section entry.
Context {W : Type} {NO : NfiOps W} {NS : NfiStore W} {NB : NfiBytes W} `{SY : !Sys}.
Implicit Types c : client W.

Lemma ready_not_null c fd d part hs : ready c fd d part hs → fd_is_null fd c = Some (false, c).
Proof. intros HR. pose proof (rd_fd _ _ _ _ _ HR) as [_ (l & Hs & _)]%get_fd_inv. by apply (fd_is_null_run c fd (Some l)). Qed.

Lemma simple_write_run c fd d part hs buffer size : ready c fd d part hs → large_io fd d size →
  xpn_simple_write fd (Some buffer) size c = xpn_pwrite fd buffer size (fd_offset d) c.
Proof.
  intros HR [H1 H2 H3 H4 H5 H6]. pose proof (rd_layout _ _ _ _ _ HR) as HL. pose proof (ex_bs _ _ (fl_exp _ _ HL)) as Hb.
  unfold xpn_simple_write, XPN_MAX_FILE. rewrite (proj2 (Z.ltb_ge fd 0)), (proj2 (Z.ltb_ge 1024 fd)) by lia. cbn [orb].
  mrun (by apply (ready_not_null c fd d part hs)). rewrite (proj2 (Z.eqb_neq size 0)) by lia. mrun (apply (rd_fd _ _ _ _ _ HR)).
  mrun (apply fd_partition_run, HR). rewrite H2, H3. cbn [Z.eqb O_RDWR O_RDONLY XPN_FILE XPN_DIR].
  rewrite (fl_bs d part HL), u64_id by lia. by rewrite (proj2 (Z.leb_le _ size)) by lia.
Qed.
Lemma simple_read_run c fd d part hs buffer size : ready c fd d part hs → large_io fd d size →
  xpn_simple_read fd (Some buffer) size c = xpn_pread fd buffer size (fd_offset d) c.
Proof.
  intros HR [H1 H2 H3 H4 H5 H6]. pose proof (rd_layout _ _ _ _ _ HR) as HL. pose proof (ex_bs _ _ (fl_exp _ _ HL)) as Hb.
  unfold xpn_simple_read, XPN_MAX_FILE. rewrite (proj2 (Z.ltb_ge fd 0)), (proj2 (Z.ltb_ge 1024 fd)) by lia. cbn [orb].
  mrun (by apply (ready_not_null c fd d part hs)). rewrite (proj2 (Z.eqb_neq size 0)) by lia. mrun (apply (rd_fd _ _ _ _ _ HR)).
  rewrite H2, H3. cbn [Z.eqb O_RDWR O_WRONLY XPN_FILE XPN_DIR].
  rewrite (fl_bs d part HL), u64_id by lia. by rewrite (proj2 (Z.ltb_lt _ size)) by lia.
Qed.

(** [lseek] to an absolute offset. *)
Lemma lseek_set_run c fd d part hs o : ready c fd d part hs → 0 <= o →
  let d' := file_at d o (file_size (fd_mdata d)) in
  xpn_simple_lseek fd o SEEK_SET c = Some (i32 o, with_desc fd d' c) ∧ ready (with_desc fd d' c) fd d' part hs.
Proof.
  intros HR Ho d'. split.
  - unfold xpn_simple_lseek. cbn [SEEK_SET Z.eqb]. rewrite (proj2 (Z.ltb_ge o 0)) by lia. mstep.
    mrun (apply (update_fd_desc fd _ d), HR). rewrite set_offset_at. fold d'. mrun (apply (get_fd_desc fd d), HR). done.
  - destruct (with_desc_env fd d' c) as [He Hp]. rewrite <- (set_serv_same part).
    apply (ready_after c fd d part hs o (file_size (fd_mdata d)) (data_serv part) (cl_env c) (with_desc fd d' c)); try done.
    + by apply (rd_open _ _ _ _ _ HR).
    + apply (get_fd_desc fd d), HR.
    + rewrite set_serv_same, Hp. symmetry. apply list_insert_id, HR.
Qed.

(** ** A server fails *)

Context `{NI : !NfiInit W}.
(** What the protocols promise: leaving a server keeps its files. *)
Definition disconnect_keeps : Prop := ∀ s e w r e' w', nfi_disconnect s (e, w) = (r, (e', w')) → kept w w'.

Lemma mark_error_run c part q rest k s : disconnect_keeps →
  xpn_parttable c = part :: q :: rest → part_id part ≠ -1 → part_id q = -1 → data_serv part !! k = Some s → has_ops s = true →
  ∃ e, xpn_simple_mark_error_server (Z.of_nat k) c
    = Some (0, with_env e (with_servers 0 part (<[k := set_error (-1) s]> (data_serv part)) c)) ∧
    mem e = mem (cl_env c) ∧ kept (world (cl_env c)) (world e).
Proof.
  intros Hdis Ht Hid Hq Hk Hops.
  assert (xpn_parttable c !! 0%nat = Some part) as Hp by (by rewrite Ht).
  assert (rdZ (data_serv part) (Z.of_nat k) = Some s) as Hs by (by rewrite rdZ_of_nat).
  destruct (nfi_disconnect s (errno (cl_env c), world (cl_env c))) as [r [e' w']] eqn:Ed.
  pose proof (Hdis _ _ _ _ _ _ Ed) as Hkept.
  set (e := Env e' (mem (cl_env c)) w'). exists e. split; [|by split].
  assert (mark_error_from (Z.of_nat k) 0 (S (S (Z.to_nat XPN_MAX_PART - 1))) c
    = Some (tt, with_env e (with_servers 0 part (<[k := set_error (-1) s]> (data_serv part)) c))) as E.
  { cbn [mark_error_from]. mstep. mrun (unfold lift; rewrite Ht; reflexivity). rewrite (proj2 (Z.eqb_neq _ _) Hid).
    mrun (by apply (get_server_run c 0 (Z.of_nat k) part s)). rewrite Hops. cbn [when].
    erewrite bind_step.
    2: { mrun (unfold zoom, call; rewrite Ed; reflexivity). unfold put_server. mstep.
         mrun (cbn [xpn_parttable with_env]; unfold lift; change (Z.to_nat 0) with 0%nat; rewrite Hp; reflexivity).
         apply lookup_lt_Some in Hk as Hkl. mrun (unfold lift; rewrite (wrZ_run (data_serv part) (Z.of_nat k)) by lia; reflexivity). reflexivity. }
    rewrite Nat2Z.id. mstep. mrun (unfold lift; cbn [xpn_parttable with_parts with_env]; rewrite Ht; reflexivity).
    rewrite (proj2 (Z.eqb_eq _ _) Hq). unfold with_servers. rewrite Ht. done. }
  unfold xpn_simple_mark_error_server. change (S (Z.to_nat XPN_MAX_PART)) with (S (S (Z.to_nat XPN_MAX_PART - 1))). mrun (exact E). done.
Qed.

(** The client after the failure: it is still ready, with one server less. *)
Lemma ready_fail c fd d part hs k s e (HR : ready c fd d part hs) : data_serv part !! k = Some s → kept (world (cl_env c)) (world e) →
  ready (with_env e (with_servers (fd_part d) part (<[k := set_error (-1) s]> (data_serv part)) c)) fd d
    (set_serv (<[k := set_error (-1) s]> (data_serv part)) part) hs.
Proof.
  intros Hk Hkept. set (l := <[k := _]> _).
  assert (∀ i s', l !! i = Some s' → ∃ s0, data_serv part !! i = Some s0 ∧ (is_out s' = false → is_out s0 = false) ∧ ∀ fh, st_file s0 fh = st_file s' fh) as Hlk.
  { intros i s' Hi. unfold l in Hi. destruct (decide (i = k)) as [->|Hne].
    - rewrite list_lookup_insert_eq in Hi by (by apply lookup_lt_Some in Hk). injection Hi as <-. exists s. split; [done|]. split; [done|].
      intros fh. by apply st_file_server.
    - rewrite list_lookup_insert_ne in Hi by done. by exists s'. }
  assert (length l = length (data_serv part)) as Hll by (unfold l; by rewrite length_insert).
  destruct HR as [Hfd Hp Hid Hf Hn [HL1 HL2 HL3 HL4] Hrl Hhs Hlen Hpath Hop Hfiles]. split; try done.
  - by apply get_fd_with_servers.
  - apply with_servers_lookup. by apply lookup_lt_Some in Hp.
  - cbn. rewrite <- Hf. by apply (list_find_insert _ _ _ part).
  - cbn [data_serv set_serv part_data_nserv]. by rewrite Hll.
  - split; try done. cbn [data_serv set_serv]. by rewrite Hll.
  - cbn [data_serv set_serv]. by rewrite Hll.
  - cbn [data_serv set_serv]. by rewrite Hll.
  - cbn [data_serv set_serv cl_env with_env]. intros i s' fh Hs Hh Ho. destruct (Hlk i s' Hs) as (s0 & Hs0 & Ho0 & Ef).
    apply (proj1 (st_same s0 fh s' fh (world e) (Ef fh))), Hkept. by apply (Hop i); [..|apply Ho0].
  - cbn [data_serv set_serv]. intros i i' s1 fh1 s2 fh2 Hne H1 H2 H3 H4.
    destruct (Hlk i s1 H1) as (s0 & Hs0 & _ & Ef), (Hlk i' s2 H3) as (s0' & Hs0' & _ & Ef'). rewrite <- Ef, <- Ef'. by apply (Hfiles i i').
Qed.

Lemma holds_fail m l hs k s w w' x b : l !! k = Some s → kept w w' → holds m l hs w x b → holds m (<[k := set_error (-1) s]> l) hs w' x b.
Proof.
  intros Hk Hkept H j s' fh Hj Hs Hh Ho. pose proof (proj1 (rdZ_lookup _ _ _) Hs) as [H0 Hs'].
  destruct (decide (Z.to_nat (mloc m 1 x j).2 = k)) as [E|Hne].
  - rewrite E, list_lookup_insert_eq in Hs' by (by apply lookup_lt_Some in Hk). injection Hs' as <-. done.
  - rewrite list_lookup_insert_ne in Hs' by done. unfold data_byte. rewrite (proj2 (Hkept s' fh)). apply (H j); try done. by apply rdZ_lookup.
Qed.
End entry.

(** ** The properties *)


(** A read of stored bytes, on servers that work. *)
Lemma simple_read_returns {W : Type} {NO : NfiOps W} {NS : NfiStore W} {NB : NfiBytes W} `{SY : !Sys}
    (c : client W) fd d part hs size buffer data mm :
  let m := fd_mdata d in
  (∀ z, 0 <= (sys_rand z).1) → ready c fd d part hs → large_io fd d size →
  Z.of_nat (length data) = size → mem_write (mem (cl_env c)) buffer data = Some mm →
  (∀ t b, data !! t = Some b → holds m (data_serv part) hs (world (cl_env c)) (fd_offset d + Z.of_nat t) b) →
  (∀ t, 0 <= t < size → ∃ j, 0 <= j <= replication_level m ∧ live m 1 (data_serv part) (fd_offset d + t) j) →
  ∃ c' part', let d' := file_at d (fd_offset d + size) (file_size m) in
    xpn_simple_read fd (Some buffer) size c = Some (size, c') ∧ ready c' fd d' part' hs ∧
    mem (cl_env c') = mm ∧ world (cl_env c') = world (cl_env c) ∧ same_servers (data_serv part) (data_serv part').
Proof.
  intros m Hrand HR HI Hlen Hmw Hheld Hlive. pose proof HI as [H1 H2 H3 H4 H5 H6]. fold m in H4, H6.
  pose proof (ex_bs _ _ (fl_exp _ _ (rd_layout _ _ _ _ _ HR))) as Hb. pose proof (ex_rl _ _ (fl_exp _ _ (rd_layout _ _ _ _ _ HR))) as Hr. fold m in Hb, Hr.
  destruct (pread_run Hrand c fd d part hs size (fd_offset d) buffer data mm HR) as (c' & E & l & e & z & Ec & HR' & Hw & Hm & Hl); try done || (fold m; nia).
  exists c', (set_serv l part). rewrite (simple_read_run c fd d part hs buffer size HR HI). split; [exact E|]. split; [exact HR'|].
  rewrite Hmw in Hm. injection Hm as ->. rewrite Ec. done.
Qed.

(** C3: a large read returns the bytes of the file.  When every byte of the
    request is held by its live replicas and has one, [xpn_simple_read]
    returns the size of the request, the buffer holds exactly these bytes and
    the rest of the memory is as it was, and the servers' files are too. *)
Theorem read_returns {W : Type} {NO : NfiOps W} {NS : NfiStore W} {NB : NfiBytes W} `{SY : !Sys}
    (c : client W) fd d part hs size buffer data mm :
  let m := fd_mdata d in
  (∀ z, 0 <= (sys_rand z).1) → ready c fd d part hs → large_io fd d size →
  Z.of_nat (length data) = size → mem_write (mem (cl_env c)) buffer data = Some mm →
  (∀ t b, data !! t = Some b → holds m (data_serv part) hs (world (cl_env c)) (fd_offset d + Z.of_nat t) b) →
  (∀ t, 0 <= t < size → ∃ j, 0 <= j <= replication_level m ∧ live m 1 (data_serv part) (fd_offset d + t) j) →
  ∃ c' part', let d' := file_at d (fd_offset d + size) (file_size m) in
    xpn_simple_read fd (Some buffer) size c = Some (size, c') ∧ ready c' fd d' part' hs ∧
    mem (cl_env c') = mm ∧ world (cl_env c') = world (cl_env c) ∧ same_servers (data_serv part) (data_serv part').
Proof. apply simple_read_returns. Qed.

(** C1: a file with replicas survives a failure.  A client whose servers all
    work writes, then one server, whichever, is marked as failed
    ([xpn_simple_mark_error_server]); after a seek to where the write began,
    the read of as many bytes returns them, in another buffer. *)
Theorem write_fail_read {W : Type} {NO : NfiOps W} {NS : NfiStore W} {NB : NfiBytes W} `{SY : !Sys} `{NI : !NfiInit W}
    (c : client W) fd d part q rest hs size buffer rbuffer data mm k s :
  let m := fd_mdata d in
  (∀ z, 0 <= (sys_rand z).1) → disconnect_keeps → ready c fd d part hs → large_io fd d size →
  (size + 2) * (replication_level m + 1) < 2 ^ 31 → 1 <= replication_level m →
  xpn_parttable c = part :: q :: rest → part_id q = -1 →
  (∀ r e sv, has_ops (set_wrk r e sv) = has_ops sv) → (∀ i sv, data_serv part !! i = Some sv → is_out sv = false ∧ has_ops sv = true) →
  data_serv part !! k = Some s →
  mem_read (mem (cl_env c)) buffer size = Some data → mem_write (mem (cl_env c)) rbuffer data = Some mm →
  ∃ c1 c2 c3 c4, xpn_simple_write fd (Some buffer) size c = Some (size, c1) ∧
    xpn_simple_mark_error_server (Z.of_nat k) c1 = Some (0, c2) ∧
    xpn_simple_lseek fd (fd_offset d) SEEK_SET c2 = Some (i32 (fd_offset d), c3) ∧
    xpn_simple_read fd (Some rbuffer) size c3 = Some (size, c4) ∧ mem (cl_env c4) = mm.
Proof.
  intros m Hrand Hdis HR HI Hroom Hrl Htab Hq Hops Hall Hk Hdata Hmw. pose proof HI as [H1 H2 H3 H4 H5 H6]. fold m in H4, H6.
  pose proof (fl_exp _ _ (rd_layout _ _ _ _ _ HR)) as Hex. pose proof (ex_bs _ _ Hex) as Hb. pose proof (ex_rl _ _ Hex) as Hr. fold m in Hex, Hb, Hr.
  assert (fd_part d = 0%nat) as Hp0.
  { pose proof (rd_find _ _ _ _ _ HR) as Hf. rewrite Htab in Hf. cbn in Hf. rewrite decide_True in Hf by done. by injection Hf. }
  destruct (pwrite_run c fd d part hs size (fd_offset d) buffer data HR) as (l & e & E & HR1 & Hm & Hl & Hst); try done || (fold m; nia).
  set (d1 := file_at d _ _) in *. set (c1 := with_env e _) in *. set (part1 := set_serv l part) in *. fold m in Hst.
  destruct (Forall2_lookup_l _ _ _ _ _ Hl Hk) as (s1 & Hk1 & r1 & e1 & Es1).
  assert (xpn_parttable c1 = part1 :: q :: rest) as Htab1.
  { unfold c1. cbn. rewrite (proj2 (with_desc_env fd d1 c)), Htab, Hp0. done. }
  pose proof (rd_id _ _ _ _ _ HR) as Hid.
  destruct (mark_error_run c1 part1 q rest k s1 Hdis Htab1) as (e2 & E2 & Hm2 & Hk2); [cbn; lia|done|done|rewrite Es1, Hops; apply (Hall k s Hk)|].
  pose proof (ready_fail c1 fd d1 part1 hs k s1 e2 HR1 Hk1 Hk2) as HR2. replace (fd_part d1) with 0%nat in HR2 by done.
  set (c2 := with_env e2 _) in *. set (part2 := set_serv _ part1) in *.
  destruct (lseek_set_run c2 fd d1 part2 hs (fd_offset d) HR2 H5) as [E3 HR3].
  set (d3 := file_at d1 _ _) in *. set (c3 := with_desc fd d3 c2) in *. destruct (with_desc_env fd d3 c2) as [He3 _]. fold c3 in He3.
  assert (large_io fd d3 size) as HI3 by (split; done).
  assert (Z.of_nat (length data) = size) as Hlen by (by apply mem_read_inv in Hdata as (_ & _ & _ & _ & _ & _ & ->)).
  destruct (simple_read_returns c3 fd d3 part2 hs size rbuffer data mm Hrand HR3 HI3 Hlen) as (c4 & part4 & E4 & _ & Hm4 & _).
  - rewrite He3. cbn [cl_env c2 with_env]. rewrite Hm2. cbn [cl_env c1 with_env]. by rewrite Hm.
  - intros t b Ht. rewrite He3. cbn [cl_env c2 with_env]. cbn [data_serv part2 set_serv].
    apply (holds_fail m l hs k s1 (world e)); [done|exact Hk2|]. by apply (sto_new _ _ _ _ _ _ _ _ Hst).
  - intros t Ht. change (fd_offset d3) with (fd_offset d). change (fd_mdata d3) with (set_file_size (Z.max (file_size m) (fd_offset d + size)) m).
    change (replication_level (set_file_size _ m)) with (replication_level m).
    (* of two replicas, one is on another server *)
    assert (∃ j, 0 <= j <= replication_level m ∧ Z.to_nat (mloc m 1 (fd_offset d + t) j).2 ≠ k) as (j & Hj & Hne).
    { pose proof (mloc_serv_range m 1 Hex (fd_offset d + t) 0 ltac:(lia)). pose proof (mloc_serv_range m 1 Hex (fd_offset d + t) 1 ltac:(lia)).
      destruct (decide (Z.to_nat (mloc m 1 (fd_offset d + t) 0).2 = k)) as [E0|]; [|by exists 0; split; [lia|]].
      exists 1. split; [lia|]. intros E1. pose proof (rd_rl _ _ _ _ _ HR) as Hrn. rewrite (fl_n _ _ (rd_layout _ _ _ _ _ HR)) in Hrn.
      apply (ly_replicas_distinct (mlay m 0) (mlay_ok m 1 Hex 0 ltac:(lia)) (fd_offset d + t) 0 1 Hrn ltac:(cbn; lia) ltac:(cbn; lia) ltac:(lia)).
      pose proof (lplace_mloc d (fd_offset d + t) 0) as M0. pose proof (lplace_mloc d (fd_offset d + t) 1) as M1. fold m in M0, M1.
      apply (f_equal snd) in M0, M1. unfold lplace in M0, M1. cbn [snd] in M0, M1. fold m in M0, M1. lia. }
    exists j. split; [done|]. pose proof (mloc_serv_range m 1 Hex (fd_offset d + t) j ltac:(lia)) as Hjr.
    pose proof (fl_n _ _ (rd_layout _ _ _ _ _ HR)) as En. fold m in En. destruct (lookup_lt_is_Some_2 (data_serv part) (Z.to_nat (mloc m 1 (fd_offset d + t) j).2)) as [sv Hsv]; [cbn [pred] in Hjr; lia|].
    destruct (Forall2_lookup_l _ _ _ _ _ Hl Hsv) as (sv1 & Hsv1 & r2 & er2 & Esv).
    exists sv1. change (mloc (set_file_size _ m) 1 (fd_offset d + t) j) with (mloc m 1 (fd_offset d + t) j). split.
    + apply rdZ_lookup. split; [lia|]. cbn [data_serv part2 set_serv]. by rewrite list_lookup_insert_ne.
    + destruct (Hall _ sv Hsv) as [Ho _]. rewrite Esv. cbn. unfold is_out in Ho. apply Z.eqb_neq. exact Ho.
  - exists c1, c2, c3, c4. rewrite (simple_write_run c fd d part hs buffer size HR HI). split_and!; done.
Qed.

(** *** Witnesses *)

(** A client with the file "/a" open on four servers with blocks of four bytes. *)
Definition file_rw (rl : Z) : xpn_metadata := default mdata_zero (XpnCreateMetadataExtern (str "/a") 4 4 rl).
Definition hs_rw : list nfi_fhandle := replicate 4 (NfiFh NFIFILE (str "/a") 1 0).
Definition desc_rw (rl : Z) : xpn_filedesc := FileDesc 0 (str "/a") 0 1 O_RDWR 0 0 (file_rw rl) 2 4 (Some <$> hs_rw).
Definition world_rw (bytes : list ascii) : memfs :=
  list_to_map ((λ i, (key (mserver i) (str "/a"), MFile bytes mdata_zero false)) <$> seqZ 0 4).
Definition end_part : xpn_partition := XpnPart (-1) [] 0 0 0 0 [].
Definition client_rw (rl : Z) (bytes : list ascii) (l : list nfi_server) : client memfs :=
  Client (Env 0 (<[2%nat := replicate 12 NUL]> {[1%nat := str "abcdefgh"]}) (world_rw bytes))
    [set_serv l (mpart rl); end_part] (<[0%nat := Some 0%nat]> (replicate 1024 None)) {[0%nat := desc_rw rl]} 1 xpn_init_cwd 0.

Lemma file_rw_layout rl l : rl = 0 ∨ rl = 1 → length l = 4%nat → fd_layout (desc_rw rl) (set_serv l (mpart rl)).
Proof.
  intros Hrl Hl. assert (XpnCreateMetadataExtern (str "/a") 4 4 rl = Some (file_rw rl)) as E by (by destruct Hrl as [-> | ->]).
  assert (expanded (file_rw rl) 1) as He.
  { apply (create_expanded (str "/a") 4 4 rl); [|zcalc|lia|lia|lia|exact E].
    unfold ascii_path. cbn. repeat (apply List.Forall_cons; [zcalc|]). apply List.Forall_nil. }
  split; [exact He|by destruct Hrl as [-> | ->]..|]. cbn [data_serv set_serv]. rewrite Hl. by destruct Hrl as [-> | ->].
Qed.

(** The servers of [l] have the numbers of the sample ones. *)
Lemma client_rw_ready rl bytes l : rl = 0 ∨ rl = 1 → srv_id <$> l = seqZ 0 4 →
  ready (client_rw rl bytes l) 0 (desc_rw rl) (set_serv l (mpart rl)) hs_rw.
Proof.
  intros Hrl Hids. assert (length l = 4%nat) as Hl by (rewrite <- (length_fmap srv_id), Hids; done).
  assert (∀ k s, l !! k = Some s → srv_id s = Z.of_nat k ∧ (k < 4)%nat) as Hid.
  { intros k s Hk. pose proof (lookup_lt_Some _ _ _ Hk). split; [|lia].
    assert ((srv_id <$> l) !! k = Some (srv_id s)) as Hf by (by rewrite list_lookup_fmap, Hk).
    rewrite Hids in Hf. apply lookup_seqZ in Hf as [-> _]. lia. }
  assert (∀ k fh, hs_rw !! k = Some fh → fh = NfiFh NFIFILE (str "/a") 1 0) as Hh
    by (intros k fh [-> _]%lookup_replicate; done).
  split; try done.
  - cbn [data_serv set_serv part_data_nserv mpart]. rewrite Hl. done.
  - by apply file_rw_layout.
  - cbn [data_serv set_serv]. rewrite Hl. by destruct Hrl as [-> | ->].
  - split; [|zcalc]. unfold ascii_path. cbn. repeat (apply List.Forall_cons; [zcalc|]). apply List.Forall_nil.
  - cbn [data_serv set_serv cl_env client_rw world]. intros k s fh Hk Hf _. destruct (Hid k s Hk) as [E Hk4]. rewrite (Hh k fh Hf).
    destruct s as [i u e r er]. cbn in E. subst i. unfold st_open, memfs_store, key. cbn [srv_id fh_url].
    do 4 (destruct k as [|k]; [by eexists|]). lia.
  - cbn [data_serv set_serv]. intros k k' s fh s' fh' Hne Hk _ Hk' _ E. destruct (Hid k s Hk) as [E1 _], (Hid k' s' Hk') as [E2 _].
    unfold st_file, memfs_bytes, key in E. injection E as E _. lia.
Qed.
Lemma client_rw_io rl : rl = 0 ∨ rl = 1 → large_io 0 (desc_rw rl) 6.
Proof. intros [-> | ->]; (split; [lia|done|done|zcalc|cbn; lia|zcalc]). Qed.

Definition up : list nfi_server := mserver <$> seqZ 0 4.
(** The last server is out. *)
Definition down3 : list nfi_server := <[3%nat := NfiServer 3 (str "mem://s/d") (-1) 0 0]> up.


Lemma holds_rw : ∀ t b, str "yzwxyz" !! t = Some b →
  holds (file_rw 0) up hs_rw (world_rw (str "wxyz")) (2 + Z.of_nat t) b.
Proof.
  intros t b Ht j s fh Hj Hs Hh _. change (replication_level (file_rw 0)) with 0 in Hj. assert (j = 0) as -> by lia.
  do 6 (destruct t as [|t]; [injection Ht as <-; vm_compute in Hs, Hh; injection Hs as <-; injection Hh as <-; vm_compute; reflexivity|]). done.
Qed.

Lemma read_returns_witness : ∃ c', xpn_simple_read 0 (Some (2%nat, 3)) 6 (client_rw 0 (str "wxyz") up) = Some (6, c') ∧
  mem (cl_env c') !! 2%nat = Some ([NUL; NUL; NUL] ++ str "yzwxyz" ++ [NUL; NUL; NUL]).
Proof.
  destruct (read_returns (client_rw 0 (str "wxyz") up) 0 (desc_rw 0) (set_serv up (mpart 0)) hs_rw 6 (2%nat, 3) (str "yzwxyz")
    (<[2%nat := [NUL; NUL; NUL] ++ str "yzwxyz" ++ [NUL; NUL; NUL]]> (mem (cl_env (client_rw 0 (str "wxyz") up))))) as (c' & part' & E & _ & Hm & _);
    [exact sample_rand|by apply client_rw_ready; [left|]|by apply client_rw_io; left|reflexivity|reflexivity|exact holds_rw| |].
  - intros t Ht. exists 0. split; [zcalc|]. unfold live.
    assert (∃ t', t = Z.of_nat t' ∧ (t' < 6)%nat) as (t' & -> & Ht') by (exists (Z.to_nat t); lia). clear Ht.
    do 6 (destruct t' as [|t']; [vm_compute; eexists; split; [reflexivity|discriminate]|]). lia.
  - exists c'. split; [exact E|]. rewrite Hm. reflexivity.
Defined.

Lemma write_fail_read_witness : ∃ c1 c2 c3 c4, xpn_simple_write 0 (Some (1%nat, 0)) 6 (client_rw 1 [] up) = Some (6, c1) ∧
  xpn_simple_mark_error_server 2 c1 = Some (0, c2) ∧ xpn_simple_lseek 0 2 SEEK_SET c2 = Some (2, c3) ∧
  xpn_simple_read 0 (Some (2%nat, 0)) 6 c3 = Some (6, c4) ∧ mem (cl_env c4) !! 2%nat = Some (str "abcdef" ++ replicate 6 NUL).
Proof.
  destruct (write_fail_read (client_rw 1 [] up) 0 (desc_rw 1) (set_serv up (mpart 1)) end_part [] hs_rw 6 (1%nat, 0) (2%nat, 0) (str "abcdef")
    (<[2%nat := str "abcdef" ++ replicate 6 NUL]> (mem (cl_env (client_rw 1 [] up)))) 2 (mserver 2)) as (c1 & c2 & c3 & c4 & E1 & E2 & E3 & E4 & Hm);
    [exact sample_rand|by intros s e w r e' w' [= <- <- <-]|by apply client_rw_ready; [right|]|by apply client_rw_io; right|zcalc|zcalc|reflexivity|reflexivity|done| |reflexivity|reflexivity|reflexivity|].
  - cbn [data_serv set_serv]. intros i sv (j & -> & Hj)%list_lookup_fmap_Some. done.
  - exists c1, c2, c3, c4. split; [exact E1|]. split; [exact E2|]. split; [exact E3|]. split; [exact E4|]. rewrite Hm. reflexivity.
Defined.
