(* ===== verification/Workers.v ===== *)
(** * Workers: the pool of threads

    src/src/base/workers_pool.c: a ring of operations that client threads
    fill and worker threads empty, with two condition variables.  A section
    under [m_pool] (or under a [m_wait]) is one step, which ends where the
    mutex is released: at the unlock, or in [pthread_cond_wait].  The state
    machine is executable; what the threads do is a sequence of actions. *)

From S2P Require Import Prelude.

(** ** Data *)

Definition MAX_OPERATIONS : Z := 1024.
Definition TH_FINALIZE : Z := 200.

(** [struct st_th]: what the pool uses of it.  [th_v] is the address of the
    caller's structure ([th_shadow]); [th_params] stands for the rest, which
    the pool copies. *)
Record st_th := StTh { th_id : Z; type_op : Z; th_v : nat; wait4me : bool; th_params : Z }.
Definition set_id (i : Z) (th : st_th) : st_th := StTh i (type_op th) (th_v th) (wait4me th) (th_params th).

Record worker_pool_t := Pool {
  operations_buffer : list st_th; n_operation : Z; deq_pos : Z; enq_pos : Z; pool_end : Z; POOL_MAX_THREADS : Z }.
Definition set_end (e : Z) (w : worker_pool_t) : worker_pool_t :=
  Pool (operations_buffer w) (n_operation w) (deq_pos w) (enq_pos w) e (POOL_MAX_THREADS w).

(** The queue after [worker_pool_init]; the buffer is not initialised. *)
Definition pool_start (junk : list st_th) (threads : Z) : worker_pool_t := Pool junk 0 0 0 0 threads.

(** The part of [worker_pool_enqueue] after its wait. *)
Definition enqueue_op (w : worker_pool_t) (th : st_th) : option worker_pool_t :=
  b ← wrZ (operations_buffer w) (enq_pos w) th;
  Some (Pool b (n_operation w ⊞ 1) (deq_pos w) ((enq_pos w ⊞ 1) `rem` MAX_OPERATIONS) (pool_end w) (POOL_MAX_THREADS w)).
(** The part of [worker_pool_dequeue] after its wait, up to the test of the end. *)
Definition dequeue_op (w : worker_pool_t) : option (st_th * worker_pool_t) :=
  th ← rdZ (operations_buffer w) (deq_pos w);
  Some (th, Pool (operations_buffer w) (n_operation w ⊟ 1) ((deq_pos w ⊞ 1) `rem` MAX_OPERATIONS) (enq_pos w) (pool_end w) (POOL_MAX_THREADS w)).
Definition finishes (w : worker_pool_t) (th : st_th) : bool := (pool_end w =? 1) || (type_op th =? TH_FINALIZE).

(** Where a worker is: before the test of the [while] of [worker_pool_dequeue],
    asleep on [c_poll_no_empty], in [th.function (th)], before the
    notification, or gone. *)
Inductive wpc := W_deq | W_sleep | W_run (th : st_th) | W_notify (th : st_th) | W_exit.

(** What a client thread does: the calls it has still to make.
    [worker_pool_destroy] is the sequence [C_end], one [C_enqueue] per
    thread, [C_broadcast], [C_join]. *)
Inductive cmd := C_enqueue (th : st_th) | C_wait (v : nat) | C_end | C_broadcast | C_join.
(** The condition variable a client sleeps on. *)
Inductive csleep := awake | on_no_full | on_wait (v : nat).
Record cthread := CThread { c_prog : list cmd; c_sleep : csleep }.

Definition fin_op : st_th := StTh 0 TH_FINALIZE 0 false 0.
Definition worker_pool_destroy (threads : Z) : list cmd :=
  C_end :: replicate (Z.to_nat threads) (C_enqueue fin_op) ++ [C_broadcast; C_join].

(** The process.  [r_wait] is the field of the callers' structures; the last
    three are histories. *)
Record pstate := PState {
  sy_pool : worker_pool_t; th_cont : Z; sy_workers : list wpc; sy_clients : list cthread; r_wait : gmap nat bool;
  enqueued : list st_th; dequeued : list st_th; executed : list st_th }.

(** ** Signals *)

Definition sleeps_w (p : wpc) : bool := match p with W_sleep => true | _ => false end.
Definition sleeps_c (v : csleep) (t : cthread) : bool :=
  match v, c_sleep t with
  | on_no_full, on_no_full => true
  | on_wait a, on_wait b => (a =? b)%nat
  | _, _ => false
  end.
Definition wake_c (t : cthread) : cthread := CThread (c_prog t) awake.

(** [pthread_cond_signal] wakes the thread [k] that sleeps on the variable,
    and nobody when nobody sleeps. *)
Definition signal {A} (sleeps : A → bool) (wake : A → A) (k : option nat) (l : list A) : option (list A) :=
  match k with
  | Some k => t ← l !! k; if sleeps t then Some (<[k := wake t]> l) else None
  | None => if existsb sleeps l then None else Some l
  end.
Definition signal_w := signal sleeps_w (λ _, W_deq).
Definition signal_c (v : csleep) := signal (sleeps_c v) wake_c.

(** ** Steps *)

Section steps.

Definition with_workers (l : list wpc) (s : pstate) : pstate :=
  PState (sy_pool s) (th_cont s) l (sy_clients s) (r_wait s) (enqueued s) (dequeued s) (executed s).
Definition with_clients (l : list cthread) (s : pstate) : pstate :=
  PState (sy_pool s) (th_cont s) (sy_workers s) l (r_wait s) (enqueued s) (dequeued s) (executed s).

(** A turn of a worker: [worker_pool_function], with [worker_pool_dequeue]
    inlined.  [wake] is the client that a signal wakes. *)
Definition worker_step (i : nat) (wake : option nat) (s : pstate) : option pstate :=
  pc ← sy_workers s !! i;
  match pc with
  | W_deq =>
    let w := sy_pool s in
    if n_operation w =? 0 then Some (with_workers (<[i := W_sleep]> (sy_workers s)) s)
    else
      '(th, w') ← dequeue_op w;
      if finishes w th then
        (* no signal on this path *)
        Some (PState w' (th_cont s) (<[i := W_exit]> (sy_workers s)) (sy_clients s) (r_wait s) (enqueued s) (dequeued s ++ [th]) (executed s))
      else
        clients ← signal_c on_no_full wake (sy_clients s);
        Some (PState w' (th_cont s) (<[i := W_run th]> (sy_workers s)) clients (r_wait s) (enqueued s) (dequeued s ++ [th]) (executed s))
  | W_run th =>
    Some (PState (sy_pool s) (th_cont s) (<[i := if wait4me th then W_notify th else W_deq]> (sy_workers s)) (sy_clients s) (r_wait s)
      (enqueued s) (dequeued s) (executed s ++ [th]))
  | W_notify th =>
    clients ← signal_c (on_wait (th_v th)) wake (sy_clients s);
    Some (PState (sy_pool s) (th_cont s) (<[i := W_deq]> (sy_workers s)) clients (<[th_v th := false]> (r_wait s))
      (enqueued s) (dequeued s) (executed s))
  | W_sleep | W_exit => None
  end.

(** A turn of a client; [wake] is the worker that a signal wakes. *)
Definition client_step (j : nat) (wake : option nat) (s : pstate) : option pstate :=
  t ← sy_clients s !! j;
  match c_sleep t, c_prog t with
  | awake, C_enqueue th :: prog =>
    let w := sy_pool s in
    if n_operation w =? MAX_OPERATIONS then Some (with_clients (<[j := CThread (c_prog t) on_no_full]> (sy_clients s)) s)
    else
      let th' := set_id (th_cont s) th in
      w' ← enqueue_op w th';
      workers ← signal_w wake (sy_workers s);
      Some (PState w' (th_cont s ⊞ 1) workers (<[j := CThread prog awake]> (sy_clients s)) (r_wait s) (enqueued s ++ [th']) (dequeued s) (executed s))
  | awake, C_wait v :: prog =>
    if default true (r_wait s !! v) then Some (with_clients (<[j := CThread (c_prog t) (on_wait v)]> (sy_clients s)) s)
    else Some (PState (sy_pool s) (th_cont s) (sy_workers s) (<[j := CThread prog awake]> (sy_clients s)) (<[v := true]> (r_wait s))
                 (enqueued s) (dequeued s) (executed s))
  | awake, C_end :: prog =>
    Some (PState (set_end 1 (sy_pool s)) (th_cont s) (sy_workers s) (<[j := CThread prog awake]> (sy_clients s)) (r_wait s)
      (enqueued s) (dequeued s) (executed s))
  | awake, C_broadcast :: prog =>
    Some (with_clients (<[j := CThread prog awake]> (sy_clients s))
      (with_workers ((λ p, if sleeps_w p then W_deq else p) <$> sy_workers s) s))
  | awake, C_join :: prog =>
    if forallb (λ p, match p with W_exit => true | _ => false end) (sy_workers s)
    then Some (with_clients (<[j := CThread prog awake]> (sy_clients s)) s) else None
  | _, _ => None
  end.

(** The actions: a turn of a thread, a thread that wakes without a signal, as
    POSIX allows, or nothing. *)
Inductive action := A_worker (i : nat) (wake : option nat) | A_client (j : nat) (wake : option nat) | A_wake_w (i : nat) | A_wake_c (j : nat) | A_idle.

Definition pool_step (a : action) (s : pstate) : option pstate :=
  match a with
  | A_worker i wake => worker_step i wake s
  | A_client j wake => client_step j wake s
  | A_wake_w i => pc ← sy_workers s !! i; if sleeps_w pc then Some (with_workers (<[i := W_deq]> (sy_workers s)) s) else None
  | A_wake_c j => t ← sy_clients s !! j;
      match c_sleep t with awake => None | _ => Some (with_clients (<[j := wake_c t]> (sy_clients s)) s) end
  | A_idle => Some s
  end.
Fixpoint pool_steps (l : list action) (s : pstate) : option pstate :=
  match l with [] => Some s | a :: l' => s' ← pool_step a s; pool_steps l' s' end.

(** The process once [worker_pool_init] has returned. *)
Definition worker_pool_init (junk : list st_th) (threads : Z) (programs : list (list cmd)) : pstate :=
  PState (pool_start junk threads) 0 (replicate (Z.to_nat threads) W_deq) ((λ p, CThread p awake) <$> programs) ∅ [] [] [].

End steps.

(** ** The ring is a queue *)

Section ring.
Implicit Types w : worker_pool_t.

Record ring_ok w : Prop := {
  rg_len : length (operations_buffer w) = 1024%nat;
  rg_n : 0 <= n_operation w <= 1024;
  rg_deq : 0 <= deq_pos w < 1024;
  rg_enq : enq_pos w = (deq_pos w + n_operation w) mod 1024 }.

(** The operations in the ring, in order. *)
Definition queue w : list st_th :=
  omap (λ i, rdZ (operations_buffer w) ((deq_pos w + i) mod 1024)) (seqZ 0 (n_operation w)).

Lemma queue_get w k : ring_ok w → 0 <= k < n_operation w → queue w !! Z.to_nat k = rdZ (operations_buffer w) ((deq_pos w + k) mod 1024).
Proof.
  intros [Hl Hn Hd He] Hk. unfold queue.
  assert (∀ a z n, 0 <= z < n → omap (λ i, rdZ (operations_buffer w) ((deq_pos w + i) mod 1024)) (seqZ a n) !! Z.to_nat z
    = rdZ (operations_buffer w) ((deq_pos w + (a + z)) mod 1024)) as HG.
  { intros a z n Hz. remember (Z.to_nat z) as k0 eqn:Ek. assert (z = Z.of_nat k0) as -> by lia. clear Ek.
    revert a n Hz. induction k0 as [|k0 IH]; intros a n Hz; rewrite seqZ_cons by lia; cbn [omap list_omap].
    all: destruct (rdZ_Some (operations_buffer w) ((deq_pos w + a) mod 1024)) as [x Hx];
      [pose proof (Z.mod_pos_bound (deq_pos w + a) 1024); lia|]; rewrite Hx.
    - rewrite Z.add_0_r. cbn. by rewrite Hx.
    - change ((x :: omap (λ i, rdZ (operations_buffer w) ((deq_pos w + i) mod 1024)) (seqZ (Z.succ a) (Z.pred n))) !! S k0)
        with (omap (λ i, rdZ (operations_buffer w) ((deq_pos w + i) mod 1024)) (seqZ (Z.succ a) (Z.pred n)) !! k0).
      rewrite IH by lia. f_equal. f_equal. lia. }
  by rewrite HG.
Qed.
Lemma queue_length w : ring_ok w → Z.of_nat (length (queue w)) = n_operation w.
Proof.
  intros [Hl Hn Hd He]. unfold queue.
  assert (∀ k a, length (omap (λ i, rdZ (operations_buffer w) ((deq_pos w + i) mod 1024)) (seqZ a (Z.of_nat k))) = k) as HG.
  { induction k as [|k IH]; intros a; [done|]. rewrite seqZ_cons by lia. cbn [omap list_omap].
    destruct (rdZ_Some (operations_buffer w) ((deq_pos w + a) mod 1024)) as [x Hx]; [pose proof (Z.mod_pos_bound (deq_pos w + a) 1024); lia|].
    rewrite Hx. cbn [length]. replace (Z.pred (Z.of_nat (S k))) with (Z.of_nat k) by lia. by rewrite IH. }
  replace (n_operation w) with (Z.of_nat (Z.to_nat (n_operation w))) at 1 by lia. rewrite HG. lia.
Qed.

Lemma ring_start junk threads : length junk = 1024%nat → ring_ok (pool_start junk threads) ∧ queue (pool_start junk threads) = [].
Proof. intros Hl. split; [by split|done]. Qed.
Lemma ring_end w e : ring_ok w → ring_ok (set_end e w) ∧ queue (set_end e w) = queue w.
Proof. intros [H1 H2 H3 H4]. split; [by split|done]. Qed.

Lemma ring_enqueue w th : ring_ok w → n_operation w < 1024 →
  ∃ w', enqueue_op w th = Some w' ∧ ring_ok w' ∧ queue w' = queue w ++ [th] ∧ n_operation w' = n_operation w + 1 ∧ pool_end w' = pool_end w.
Proof.
  intros HR Hn. pose proof HR as [Hl Hn' Hd He]. pose proof (Z.mod_pos_bound (deq_pos w + n_operation w) 1024 ltac:(lia)) as Hm. rewrite <- He in Hm.
  unfold enqueue_op, wrZ. rewrite (proj2 (Z.leb_le 0 _)), (proj2 (Z.ltb_lt _ (Z.of_nat _))) by lia. cbn [mbind option_bind andb].
  eexists. split; [reflexivity|]. rewrite !i32_id, rem_mod by (unfold MAX_OPERATIONS; lia). set (w' := Pool _ _ _ _ _ _).
  assert (ring_ok w') as HR'.
  { split; cbn; [by rewrite length_insert|lia|lia|]. rewrite He. unfold MAX_OPERATIONS. rewrite Z.add_mod_idemp_l by lia. f_equal. lia. }
  split; [done|]. split; [|done]. apply list_eq. intros k.
  pose proof (queue_length w HR) as Hq. pose proof (queue_length w' HR') as Hq'. cbn [w' n_operation] in Hq'.
  destruct (decide (Z.of_nat k < n_operation w + 1)) as [Hk|Hk].
  - rewrite <- (Nat2Z.id k) at 1. rewrite (queue_get w' (Z.of_nat k) HR') by (cbn; lia). cbn [w' operations_buffer deq_pos].
    destruct (decide (Z.of_nat k = n_operation w)) as [E|E].
    + rewrite lookup_app_r by lia. replace (k - length (queue w))%nat with 0%nat by lia. rewrite E, <- He.
      apply rdZ_lookup. split; [lia|]. apply list_lookup_insert_eq. lia.
    + rewrite lookup_app_l by lia. rewrite <- (Nat2Z.id k) at 2. rewrite (queue_get w (Z.of_nat k) HR) by lia.
      assert ((deq_pos w + Z.of_nat k) mod 1024 ≠ enq_pos w) as Hne.
      { rewrite He. zdm (deq_pos w + Z.of_nat k) 1024. zdm (deq_pos w + n_operation w) 1024. lia. }
      unfold rdZ. destruct (0 <=? _) eqn:E0; [|done]. apply list_lookup_insert_ne. lia.
  - rewrite !lookup_ge_None_2; [done|rewrite length_app; cbn; lia|lia].
Qed.

Lemma ring_dequeue w : ring_ok w → 0 < n_operation w →
  ∃ th w', dequeue_op w = Some (th, w') ∧ ring_ok w' ∧ queue w = th :: queue w' ∧ n_operation w' = n_operation w - 1 ∧ pool_end w' = pool_end w.
Proof.
  intros HR Hn. pose proof HR as [Hl Hn' Hd He]. unfold dequeue_op.
  destruct (rdZ_Some (operations_buffer w) (deq_pos w)) as [th Hth]; [lia|]. rewrite Hth. cbn [mbind option_bind].
  eexists th, _. split; [reflexivity|]. rewrite !i32_id, rem_mod by (unfold MAX_OPERATIONS; lia). set (w' := Pool _ _ _ _ _ _).
  assert (ring_ok w') as HR'.
  { split; cbn; [done|lia|apply Z.mod_pos_bound; lia|]. rewrite He. unfold MAX_OPERATIONS. rewrite Z.add_mod_idemp_l by lia. f_equal. lia. }
  split; [done|]. split; [|done]. apply list_eq. intros k.
  pose proof (queue_length w HR) as Hq. pose proof (queue_length w' HR') as Hq'. cbn [w' n_operation] in Hq'.
  destruct (decide (Z.of_nat k < n_operation w)) as [Hk|Hk].
  - rewrite <- (Nat2Z.id k) at 1. rewrite (queue_get w (Z.of_nat k) HR) by lia. destruct k as [|k].
    + rewrite Z.add_0_r, Z.mod_small by lia. exact Hth.
    + change ((th :: queue w') !! S k) with (queue w' !! k). rewrite <- (Nat2Z.id k) at 2. rewrite (queue_get w' (Z.of_nat k) HR') by (cbn; lia).
      cbn [w' operations_buffer deq_pos]. unfold MAX_OPERATIONS. rewrite Z.add_mod_idemp_l by lia. f_equal. f_equal. lia.
  - rewrite !lookup_ge_None_2; [done|cbn; lia|lia].
Qed.
End ring.

(** ** What holds in every state *)

Definition b2z (b : bool) : Z := if b then 1 else 0.
Definition is_deq (p : wpc) : bool := match p with W_deq => true | _ => false end.
(** The workers that are awake in [worker_pool_dequeue]. *)
Definition deqs (l : list wpc) : Z := foldr (λ p n, b2z (is_deq p) + n) 0 l.
Definition running (l : list wpc) : list st_th := omap (λ p, match p with W_run th => Some th | _ => None end) l.

Lemma deqs_cons p l : deqs (p :: l) = b2z (is_deq p) + deqs l.
Proof. done. Qed.
Lemma deqs_nonneg l : 0 <= deqs l.
Proof. induction l as [|p l IH]; [done|]. rewrite deqs_cons. unfold b2z. destruct (is_deq p); lia. Qed.
Lemma deqs_insert l i p q : l !! i = Some p → deqs (<[i := q]> l) = deqs l - b2z (is_deq p) + b2z (is_deq q).
Proof.
  revert i. induction l as [|a l IH]; intros i Hi; [done|]. destruct i as [|i].
  - injection Hi as ->. change (<[0%nat := q]> (p :: l)) with (q :: l). rewrite !deqs_cons. lia.
  - change (<[S i := q]> (a :: l)) with (a :: <[i := q]> l). rewrite !deqs_cons, (IH i Hi). lia.
Qed.
Definition runs (p : wpc) : list st_th := match p with W_run th => [th] | _ => [] end.
Lemma running_app l l' : running (l ++ l') = running l ++ running l'.
Proof. unfold running. apply omap_app. Qed.
Lemma running_cons p l : running (p :: l) = runs p ++ running l.
Proof. by destruct p. Qed.
(** What a change of one worker changes. *)
Lemma running_insert l i p q : l !! i = Some p → runs p ++ running (<[i := q]> l) ≡ₚ runs q ++ running l.
Proof.
  intros Hi. rewrite (insert_take_drop l i q) by (by apply lookup_lt_Some in Hi).
  rewrite <- (take_drop_middle l i p Hi) at 3. rewrite !running_app, !running_cons. solve_Permutation.
Qed.
Lemma running_elem l i th : l !! i = Some (W_run th) → th ∈ running l.
Proof. intros Hi. apply list_elem_of_omap. exists (W_run th). split; [|done]. by apply list_elem_of_lookup_2 with i. Qed.

(** Not ended: nobody called [worker_pool_destroy]. *)
Definition not_ended (s : pstate) : Prop := pool_end (sy_pool s) = 0 ∧ Forall (λ th, type_op th ≠ TH_FINALIZE) (enqueued s).

Record pool_ok (s : pstate) : Prop := {
  po_ring : ring_ok (sy_pool s);
  po_fifo : enqueued s = dequeued s ++ queue (sy_pool s);
  po_end : pool_end (sy_pool s) = 0 ∨ pool_end (sy_pool s) = 1;
  po_wakeup : W_sleep ∈ sy_workers s → n_operation (sy_pool s) <= deqs (sy_workers s);
  po_exit : not_ended s → W_exit ∉ sy_workers s;
  po_once : W_exit ∉ sy_workers s → dequeued s ≡ₚ executed s ++ running (sy_workers s);
  po_ids : Z.of_nat (length (enqueued s)) < 2 ^ 31 →
    th_cont s = Z.of_nat (length (enqueued s)) ∧ th_id <$> enqueued s = seqZ 0 (Z.of_nat (length (enqueued s))) }.

Lemma signal_lookup {A} (sleeps : A → bool) wake k l l' : signal sleeps wake k l = Some l' →
  (∃ i t, k = Some i ∧ l !! i = Some t ∧ sleeps t = true ∧ l' = <[i := wake t]> l) ∨ (k = None ∧ l' = l ∧ ∀ t, t ∈ l → sleeps t = false).
Proof.
  unfold signal. destruct k as [i|].
  - destruct (l !! i) as [t|] eqn:Hi; [|done]. cbn [mbind option_bind]. destruct (sleeps t) eqn:Ht; [|done]. intros [= <-]. left. by exists i, t.
  - destruct (existsb sleeps l) eqn:E; [done|]. intros [= <-]. right. split_and!; [done|done|]. intros t Ht.
    destruct (sleeps t) eqn:Hs; [|done]. assert (existsb sleeps l = true); [|congruence]. apply existsb_exists. exists t. by rewrite <- list_elem_of_In.
Qed.

Lemma worker_sleep_insert (l : list wpc) (i : nat) (q : wpc) : W_sleep ∈ <[i := q]> l → W_sleep ∈ l ∨ q = W_sleep.
Proof.
  intros (j & Hj)%list_elem_of_lookup. destruct (decide (i = j)) as [->|Hne].
  - rewrite list_lookup_insert_eq in Hj by (apply lookup_lt_Some in Hj; by rewrite length_insert in Hj). injection Hj as ->. by right.
  - rewrite list_lookup_insert_ne in Hj by done. left. by apply list_elem_of_lookup_2 with j.
Qed.
Lemma worker_exit_insert (l : list wpc) (i : nat) (q : wpc) : W_exit ∈ l → l !! i ≠ Some W_exit → W_exit ∈ <[i := q]> l.
Proof.
  intros (j & Hj)%list_elem_of_lookup Hi. assert (i ≠ j) by congruence. apply list_elem_of_lookup_2 with j. by rewrite list_lookup_insert_ne.
Qed.
Lemma worker_exit_insert_inv (l : list wpc) (i : nat) (q : wpc) : W_exit ∈ <[i := q]> l → q ≠ W_exit → W_exit ∈ l.
Proof.
  intros (j & Hj)%list_elem_of_lookup Hq. destruct (decide (i = j)) as [->|Hne].
  - rewrite list_lookup_insert_eq in Hj by (apply lookup_lt_Some in Hj; by rewrite length_insert in Hj). by injection Hj.
  - rewrite list_lookup_insert_ne in Hj by done. by apply list_elem_of_lookup_2 with j.
Qed.

(** The steps only go forward. *)
Record forward (s s' : pstate) : Prop := {
  fw_end : not_ended s' → not_ended s;
  fw_enq : ∃ l, enqueued s' = enqueued s ++ l;
  fw_deq : ∃ l, dequeued s' = dequeued s ++ l;
  fw_exe : ∃ l, executed s' = executed s ++ l;
  fw_workers : length (sy_workers s') = length (sy_workers s) }.

Lemma worker_step_ok i wake s s' : worker_step i wake s = Some s' → pool_ok s → pool_ok s' ∧ forward s s'.
Proof.
  unfold worker_step. destruct (sy_workers s !! i) as [pc|] eqn:Hi; [|done]. cbn [mbind option_bind]. intros E HP.
  pose proof HP as [H1 H2 H3 H4 H5 H6 H7]. pose proof (lookup_lt_Some _ _ _ Hi) as Hlt.
  assert (∀ l : list st_th, (∃ k, l = l ++ k)) as Hself by (intros l; exists []; by rewrite app_nil_r).
  destruct pc as [| |th|th|]; try done.
  - destruct (Z.eqb_spec (n_operation (sy_pool s)) 0) as [Hz|Hz].
    + injection E as <-. split; [|by split; try done; cbn; rewrite length_insert].
      split; cbn; try done.
      * intros _. rewrite Hz. apply deqs_nonneg.
      * intros HL Hx. apply (H5 HL). by apply (worker_exit_insert_inv _ _ _ Hx).
      * intros Hx. rewrite H6 by (intros Hx'; apply Hx, worker_exit_insert; [done|by rewrite Hi]).
        f_equiv. pose proof (running_insert _ i _ W_sleep Hi) as Hr. cbn in Hr. by rewrite Hr.
    + destruct (ring_dequeue (sy_pool s) H1) as (th & w' & Ed & HR' & Hq & Hn & He); [pose proof (rg_n _ H1); lia|].
      rewrite Ed in E. cbn [mbind option_bind] in E. pose proof (deqs_nonneg (sy_workers s)) as Hd0.
      assert (∀ q, is_deq q = false → q ≠ W_sleep → W_sleep ∈ <[i := q]> (sy_workers s) → n_operation w' <= deqs (<[i := q]> (sy_workers s))) as Hwake.
      { intros q Hq1 Hq2 Hs. rewrite (deqs_insert _ i W_deq) by done. rewrite Hq1. cbn. apply worker_sleep_insert in Hs as [Hs|]; [|done].
        specialize (H4 Hs). lia. }
      destruct (finishes (sy_pool s) th) eqn:Ef.
      * injection E as <-. split; [|split; cbn; try done; [unfold not_ended; cbn; by rewrite He|by eexists|by rewrite length_insert]].
        split; cbn; try done.
        -- by rewrite H2, Hq, <- app_assoc.
        -- by rewrite He.
        -- by apply Hwake.
        -- intros [HL1 HL2] _. cbn in HL1, HL2. unfold finishes in Ef. rewrite He in HL1. rewrite HL1 in Ef. cbn in Ef.
           rewrite Forall_forall in HL2. apply (HL2 th); [rewrite H2, Hq; apply elem_of_app; right; left|lia].
        -- intros Hx. exfalso. apply Hx. apply list_elem_of_lookup_2 with i. by apply list_lookup_insert_eq.
      * destruct (signal_c on_no_full wake (sy_clients s)) as [cl|]; [|done]. injection E as <-.
        split; [|split; cbn; try done; [unfold not_ended; cbn; by rewrite He|by eexists|by rewrite length_insert]].
        split; cbn; try done.
        -- by rewrite H2, Hq, <- app_assoc.
        -- by rewrite He.
        -- by apply Hwake.
        -- intros [HL1 HL2] Hx. apply (H5 (conj (eq_trans (eq_sym He) HL1) HL2)). by apply (worker_exit_insert_inv _ _ _ Hx).
        -- intros Hx. rewrite H6 by (intros Hx'; apply Hx, worker_exit_insert; [done|by rewrite Hi]).
           pose proof (running_insert _ i _ (W_run th) Hi) as Hr. cbn in Hr. rewrite Hr. solve_Permutation.
  - injection E as <-. set (q := if wait4me th then W_notify th else W_deq).
    assert (q ≠ W_sleep ∧ q ≠ W_exit ∧ runs q = []) as (Hq1 & Hq2 & Hq3) by (unfold q; by destruct (wait4me th)).
    split; [|split; cbn; try done; [by eexists|by rewrite length_insert]]. split; cbn; try done.
    + intros Hs. apply worker_sleep_insert in Hs as [Hs|]; [|done]. rewrite (deqs_insert _ i _ _ Hi). specialize (H4 Hs). unfold b2z. cbn. destruct (is_deq q); lia.
    + intros HL Hx. apply (H5 HL). by apply (worker_exit_insert_inv _ _ _ Hx).
    + intros Hx. rewrite H6 by (intros Hx'; apply Hx, worker_exit_insert; [done|by rewrite Hi]).
      pose proof (running_insert _ i _ q Hi) as Hr. rewrite Hq3 in Hr. cbn in Hr. rewrite <- Hr. solve_Permutation.
  - destruct (signal_c _ wake (sy_clients s)) as [cl|]; [|done]. injection E as <-.
    split; [|split; cbn; try done; by rewrite length_insert]. split; cbn; try done.
    + intros Hs. apply worker_sleep_insert in Hs as [Hs|]; [|done]. rewrite (deqs_insert _ i _ _ Hi). specialize (H4 Hs). cbn. lia.
    + intros HL Hx. apply (H5 HL). by apply (worker_exit_insert_inv _ _ _ Hx).
    + intros Hx. rewrite H6 by (intros Hx'; apply Hx, worker_exit_insert; [done|by rewrite Hi]).
      f_equiv. pose proof (running_insert _ i _ W_deq Hi) as Hr. cbn in Hr. by rewrite Hr.
Qed.

Lemma client_step_ok j wake s s' : client_step j wake s = Some s' → pool_ok s → pool_ok s' ∧ forward s s'.
Proof.
  unfold client_step. destruct (sy_clients s !! j) as [t|] eqn:Hj; [|done]. cbn [mbind option_bind]. intros E HP.
  pose proof HP as [H1 H2 H3 H4 H5 H6 H7]. assert (∀ l : list st_th, (∃ k, l = l ++ k)) as Hself by (intros l; exists []; by rewrite app_nil_r).
  assert (∀ cl, pool_ok (with_clients cl s) ∧ forward s (with_clients cl s)) as Hcl by (intros cl; split; split; done).
  destruct (c_sleep t); try done. destruct (c_prog t) as [|[th|v| | |] prog]; try done.
  - destruct (Z.eqb_spec (n_operation (sy_pool s)) MAX_OPERATIONS) as [Hf|Hf]; [injection E as <-; apply Hcl|].
    unfold MAX_OPERATIONS in Hf. destruct (ring_enqueue (sy_pool s) (set_id (th_cont s) th) H1) as (w' & Ew & HR' & Hq & Hn & He); [pose proof (rg_n _ H1); lia|].
    rewrite Ew in E. cbn [mbind option_bind] in E. destruct (signal_w wake (sy_workers s)) as [ws|] eqn:Es; [|done]. injection E as <-.
    assert (W_exit ∉ ws → W_exit ∉ sy_workers s) as Hex.
    { apply signal_lookup in Es as [(i & p & -> & Hi & Hp & ->)|(-> & -> & _)]; [|done]. intros Hx Hx'. apply Hx, worker_exit_insert; [done|].
      rewrite Hi. intros [= ->]. done. }
    split.
    + split; cbn; try done.
      * by rewrite H2, Hq, app_assoc.
      * by rewrite He.
      * apply signal_lookup in Es as [(i & p & -> & Hi & Hp & ->)|(-> & -> & Hno)].
        -- intros _. rewrite (deqs_insert _ i _ _ Hi). destruct p; try done. cbn. assert (W_sleep ∈ sy_workers s) as Hs by (by apply list_elem_of_lookup_2 with i).
           specialize (H4 Hs). lia.
        -- intros Hs. by specialize (Hno _ Hs).
      * intros [HL1 HL2] Hx. cbn in HL1, HL2. apply Forall_app in HL2 as [HL2 _]. rewrite He in HL1. specialize (H5 (conj HL1 HL2)).
        apply signal_lookup in Es as [(i & p & -> & Hi & Hp & ->)|(-> & -> & _)]; [|done]. by apply worker_exit_insert_inv in Hx.
      * intros Hx. rewrite H6 by auto. f_equiv.
        apply signal_lookup in Es as [(i & p & -> & Hi & Hp & ->)|(-> & -> & _)]; [|done]. destruct p; try done.
        pose proof (running_insert _ i _ W_deq Hi) as Hr. cbn in Hr. by rewrite Hr.
      * rewrite length_app. cbn [length]. intros Hb. destruct H7 as [Hc Hi]; [lia|]. rewrite Hc, i32_id by lia. split; [lia|].
        rewrite fmap_app, Hi. cbn [fmap list_fmap set_id th_id]. rewrite Nat2Z.inj_add, seqZ_app by lia. by rewrite Z.add_0_l.
    + split; cbn; try done; [|by eexists|].
      * intros [HL1 HL2]. cbn in HL1, HL2. apply Forall_app in HL2 as [HL2 _]. rewrite He in HL1. done.
      * apply signal_lookup in Es as [(i & p & -> & Hi & Hp & ->)|(-> & -> & _)]; [by rewrite length_insert|done].
  - destruct (default true (r_wait s !! v)); injection E as <-; [apply Hcl|]. split; split; done.
  - injection E as <-. destruct (ring_end (sy_pool s) 1 H1) as [HR' Hq]. split; split; cbn; try done.
    + by right.
    + intros [HL _]. done.
    + intros [HL _]. done.
  - injection E as <-.
    assert (∀ l : list wpc, W_sleep ∉ (λ p, if sleeps_w p then W_deq else p) <$> l) as Hns by (intros l (p & Hp & _)%list_elem_of_fmap; by destruct p).
    assert (∀ l : list wpc, W_exit ∈ (λ p, if sleeps_w p then W_deq else p) <$> l ↔ W_exit ∈ l) as Hx.
    { intros l. rewrite list_elem_of_fmap. split; [intros (p & Hp & Hin); by destruct p|]. intros Hin. by exists W_exit. }
    assert (∀ l : list wpc, running ((λ p, if sleeps_w p then W_deq else p) <$> l) = running l) as Hr.
    { induction l as [|p l IH]; [done|]. rewrite fmap_cons, !running_cons, IH. by destruct p. }
    split; split; cbn; try done.
    + intros Hs. by apply Hns in Hs.
    + intros HL. rewrite Hx. by apply H5.
    + rewrite Hx, Hr. done.
    + by rewrite length_fmap.
  - destruct (forallb _ _); [|done]. injection E as <-. apply Hcl.
Qed.

Lemma pool_step_ok a s s' : pool_step a s = Some s' → pool_ok s → pool_ok s' ∧ forward s s'.
Proof.
  assert (∀ l : list st_th, (∃ k, l = l ++ k)) as Hself by (intros l; exists []; by rewrite app_nil_r).
  destruct a as [i wake|j wake|i|j|]; cbn [pool_step].
  - apply worker_step_ok.
  - apply client_step_ok.
  - destruct (sy_workers s !! i) as [pc|] eqn:Hi; [|done]. cbn [mbind option_bind]. destruct pc; try done. intros [= <-] [H1 H2 H3 H4 H5 H6 H7].
    split; [|split; cbn; try done; by rewrite length_insert]. split; cbn; try done.
    + intros _. rewrite (deqs_insert _ i _ _ Hi). assert (W_sleep ∈ sy_workers s) as Hs by (by apply list_elem_of_lookup_2 with i). specialize (H4 Hs). cbn. lia.
    + intros HL Hx. apply (H5 HL). by apply (worker_exit_insert_inv _ _ _ Hx).
    + intros Hx. rewrite H6 by (intros Hx'; apply Hx, worker_exit_insert; [done|by rewrite Hi]).
      f_equiv. pose proof (running_insert _ i _ W_deq Hi) as Hr. cbn in Hr. by rewrite Hr.
  - destruct (sy_clients s !! j) as [t|]; [|done]. cbn [mbind option_bind]. destruct (c_sleep t); try done; intros [= <-] [H1 H2 H3 H4 H5 H6 H7]; split; split; done.
  - intros [= <-] HP. split; [done|]. split; done.
Qed.

Lemma pool_init_ok junk threads programs : length junk = 1024%nat → pool_ok (worker_pool_init junk threads programs).
Proof.
  intros Hj. destruct (ring_start junk threads Hj) as [HR Hq]. split; cbn; try done; try (intros ?).
  - by left.
  - apply deqs_nonneg.
  - intros Hx%elem_of_replicate. by destruct Hx.
  - assert (∀ k, running (replicate k W_deq) = []) as -> by (intros k; induction k as [|k IH]; [done|exact IH]). done.
Qed.

Lemma pool_steps_ok l s s' : pool_steps l s = Some s' → pool_ok s → pool_ok s' ∧ forward s s'.
Proof.
  revert s. induction l as [|a l IH]; intros s E HP; cbn in E.
  - injection E as <-. split; [done|]. split; [done|exists []; by rewrite app_nil_r..|done].
  - destruct (pool_step a s) as [s1|] eqn:E1; [|done]. cbn in E. destruct (pool_step_ok a s s1 E1 HP) as [HP1 [A1 [l1 A2] [l2 A3] [l3 A4] A5]].
    destruct (IH s1 E HP1) as [HP2 [B1 [k1 B2] [k2 B3] [k3 B4] B5]]. split; [done|]. split.
    + tauto.
    + rewrite B2, A2, <- app_assoc. by eexists.
    + rewrite B3, A3, <- app_assoc. by eexists.
    + rewrite B4, A4, <- app_assoc. by eexists.
    + congruence.
Qed.
