(* ===== verification/Fairness.v ===== *)
(** * Fairness: every operation is executed

    Infinite runs of the pool of threads ([Workers]) under a fair scheduler:
    a worker that can move does not wait forever to do so.  Signals are not
    lost, so an operation in the ring reaches a worker, and is executed. *)

From S2P Require Import Prelude Workers.

Definition enabled (i : nat) (s : pstate) : Prop := ∃ wake s', worker_step i wake s = Some s'.

(** A run: a state per instant, an action between any two. *)
Record fair_run (run : nat → pstate) (sched : nat → action) : Prop := {
  fr_step t : pool_step (sched t) (run t) = Some (run (S t));
  fr_fair i t : enabled i (run t) → ∃ t', (t <= t')%nat ∧ ((∃ wake, sched t' = A_worker i wake) ∨ ¬ enabled i (run t')) }.

(** A worker that is neither asleep nor gone. *)
Definition moves (p : wpc) : Prop := match p with W_deq | W_run _ | W_notify _ => True | _ => False end.

Lemma signal_exists {A} (sleeps : A → bool) wake l : ∃ k l', signal sleeps wake k l = Some l'.
Proof.
  destruct (existsb sleeps l) eqn:E.
  - apply existsb_exists in E as (t & Ht & Hs). rewrite <- list_elem_of_In in Ht. apply list_elem_of_lookup in Ht as [i Hi].
    exists (Some i). unfold signal. rewrite Hi. cbn. rewrite Hs. by eexists.
  - exists None. unfold signal. rewrite E. by eexists.
Qed.

Lemma moves_enabled s i p : pool_ok s → sy_workers s !! i = Some p → moves p → enabled i s.
Proof.
  intros HP Hi Hm. unfold enabled, worker_step. rewrite Hi. cbn [mbind option_bind]. destruct p as [| |th|th|]; try done.
  - destruct (Z.eqb_spec (n_operation (sy_pool s)) 0) as [Hz|Hz]; [exists None; by eexists|].
    destruct (ring_dequeue (sy_pool s) (po_ring _ HP)) as (th & w' & Ed & _); [pose proof (rg_n _ (po_ring _ HP)); lia|].
    rewrite Ed. cbn [mbind option_bind]. destruct (finishes (sy_pool s) th); [exists None; by eexists|].
    destruct (signal_exists (sleeps_c on_no_full) wake_c (sy_clients s)) as (k & l' & E). exists k. unfold signal_c. rewrite E. by eexists.
  - exists None. by eexists.
  - destruct (signal_exists (sleeps_c (on_wait (th_v th))) wake_c (sy_clients s)) as (k & l' & E). exists k. unfold signal_c. rewrite E. by eexists.
Qed.

(** Only its own turn changes a worker that is awake. *)
Lemma moves_kept a s s' i p : pool_step a s = Some s' → sy_workers s !! i = Some p → moves p → (∀ wake, a ≠ A_worker i wake) →
  sy_workers s' !! i = Some p.
Proof.
  intros E Hi Hm Ha. destruct a as [i' wake|j wake|i'|j|]; cbn [pool_step] in E.
  - assert (i ≠ i') as Hne by (intros ->; by apply (Ha wake)). unfold worker_step in E.
    destruct (sy_workers s !! i') as [pc|]; [|done]. cbn [mbind option_bind] in E. destruct pc as [| |th|th|]; try done.
    + destruct (_ =? 0); [injection E as <-; cbn; by rewrite list_lookup_insert_ne|].
      destruct (dequeue_op _) as [[th w']|]; [|done]. cbn [mbind option_bind] in E. destruct (finishes _ _); [injection E as <-; cbn; by rewrite list_lookup_insert_ne|].
      destruct (signal_c _ _ _); [|done]. injection E as <-. cbn. by rewrite list_lookup_insert_ne.
    + injection E as <-. cbn. by rewrite list_lookup_insert_ne.
    + destruct (signal_c _ _ _); [|done]. injection E as <-. cbn. by rewrite list_lookup_insert_ne.
  - unfold client_step in E. destruct (sy_clients s !! j) as [t|]; [|done]. cbn [mbind option_bind] in E.
    destruct (c_sleep t); try done. destruct (c_prog t) as [|[th|v| | |] prog]; try done.
    + destruct (_ =? _); [by injection E as <-|]. destruct (enqueue_op _ _); [|done]. cbn [mbind option_bind] in E.
      destruct (signal_w wake (sy_workers s)) as [ws|] eqn:Es; [|done]. injection E as <-. cbn.
      apply signal_lookup in Es as [(k & q & -> & Hk & Hq & ->)|(-> & -> & _)]; [|done]. rewrite list_lookup_insert_ne; [done|].
      intros ->. assert (p = q) as -> by congruence. by destruct q.
    + destruct (default _ _); by injection E as <-.
    + by injection E as <-.
    + injection E as <-. cbn. rewrite list_lookup_fmap, Hi. by destruct p.
    + destruct (forallb _ _); [|done]. by injection E as <-.
  - destruct (sy_workers s !! i') as [pc|] eqn:Hi'; [|done]. cbn [mbind option_bind] in E. destruct (sleeps_w pc) eqn:Hs; [|done]. injection E as <-. cbn.
    rewrite list_lookup_insert_ne; [done|]. intros ->. assert (p = pc) as -> by congruence. by destruct pc.
  - destruct (sy_clients s !! j) as [t|]; [|done]. cbn [mbind option_bind] in E. destruct (c_sleep t); [done|by injection E as <-..].
  - by injection E as <-.
Qed.

Section run.
Context (run : nat → pstate) (sched : nat → action) (HF : fair_run run sched) (H0 : pool_ok (run 0%nat)).

Lemma run_ok t : pool_ok (run t).
Proof. induction t as [|t IH]; [done|]. by apply (pool_step_ok _ _ _ (fr_step _ _ HF t)). Qed.
Lemma run_forward t t' : (t <= t')%nat → forward (run t) (run t').
Proof.
  induction 1 as [|t' Ht [A1 [l1 A2] [l2 A3] [l3 A4] A5]].
  - split; [done|exists []; by rewrite app_nil_r..|done].
  - destruct (pool_step_ok _ _ _ (fr_step _ _ HF t') (run_ok t')) as [_ [B1 [k1 B2] [k2 B3] [k3 B4] B5]]. split.
    + tauto.
    + rewrite B2, A2, <- app_assoc. by eexists.
    + rewrite B3, A3, <- app_assoc. by eexists.
    + rewrite B4, A4, <- app_assoc. by eexists.
    + congruence.
Qed.

(** A worker that is awake gets its turn. *)
Lemma gets_turn i p t : sy_workers (run t) !! i = Some p → moves p →
  ∃ t' wake, (t <= t')%nat ∧ sy_workers (run t') !! i = Some p ∧ sched t' = A_worker i wake.
Proof.
  intros Hi Hm. destruct (fr_fair _ _ HF i t (moves_enabled _ i p (run_ok t) Hi Hm)) as (u & Hu & Hor).
  remember (u - t)%nat as k eqn:Ek. revert t Hi Hu Ek. induction k as [|k IH]; intros t Hi Hu Ek.
  - assert (u = t) as -> by lia. destruct Hor as [[wake Hs]|Hd]; [by exists t, wake|]. destruct Hd. by apply (moves_enabled _ i p (run_ok t)).
  - assert ((∃ wake, sched t = A_worker i wake) ∨ ∀ wake, sched t ≠ A_worker i wake) as [[wake Hs]|Hn].
    { destruct (sched t) as [i' wake|j wake|i'|j|]; try (by right). destruct (decide (i' = i)) as [->|]; [left; by exists wake|].
      right. intros wake'. congruence. }
    { by exists t, wake. }
    destruct (IH (S t)) as (t' & wake & Ht & H); [by apply (moves_kept _ _ _ i p (fr_step _ _ HF t))|lia|lia|].
    exists t', wake. split; [lia|done].
Qed.

Lemma queue_nonempty s : pool_ok s → queue (sy_pool s) ≠ [] → 0 < n_operation (sy_pool s).
Proof.
  intros HP Hq. pose proof (queue_length _ (po_ring _ HP)). pose proof (rg_n _ (po_ring _ HP)). destruct (queue (sy_pool s)); [done|]. cbn in *. lia.
Qed.

(** A worker awake in [worker_pool_dequeue] takes from a ring that is not empty, or another does. *)
Lemma deq_takes i t : sy_workers (run t) !! i = Some W_deq → queue (sy_pool (run t)) ≠ [] →
  ∃ t', (t <= t')%nat ∧ (length (dequeued (run t)) < length (dequeued (run t')))%nat.
Proof.
  intros Hi Hq. destruct (gets_turn i W_deq t Hi I) as (t' & wake & Ht & Hi' & Hs).
  pose proof (run_forward t t' Ht) as [_ [l1 E1] [l2 E2] _ _].
  destruct l2 as [|x l2]; [|exists t'; split; [done|rewrite E2, length_app; cbn; lia]].
  rewrite app_nil_r in E2. exists (S t'). split; [lia|].
  assert (queue (sy_pool (run t')) ≠ []) as Hq'.
  { pose proof (po_fifo _ (run_ok t)) as F1. pose proof (po_fifo _ (run_ok t')) as F2. rewrite E1, E2, F1, <- app_assoc in F2.
    apply app_inv_head in F2. intros Hn. rewrite Hn in F2. by apply app_eq_nil in F2 as [F2 _]. }
  pose proof (queue_nonempty _ (run_ok t') Hq') as Hn. pose proof (fr_step _ _ HF t') as E. rewrite Hs in E. cbn [pool_step] in E.
  unfold worker_step in E. rewrite Hi' in E. cbn [mbind option_bind] in E. rewrite (proj2 (Z.eqb_neq _ 0)) in E by lia.
  destruct (dequeue_op _) as [[th w']|]; [|done]. cbn [mbind option_bind] in E. rewrite <- E2.
  destruct (finishes _ _); [injection E as <-; cbn; rewrite length_app; cbn; lia|].
  destruct (signal_c _ _ _); [|done]. injection E as <-. cbn. rewrite length_app. cbn. lia.
Qed.

Lemma runs_ends i th t : sy_workers (run t) !! i = Some (W_run th) →
  ∃ t', (t <= t')%nat ∧ th ∈ executed (run t') ∧ (sy_workers (run t') !! i = Some W_deq ∨ sy_workers (run t') !! i = Some (W_notify th)).
Proof.
  intros Hi. destruct (gets_turn i (W_run th) t Hi I) as (t' & wake & Ht & Hi' & Hs). exists (S t'). split; [lia|].
  pose proof (fr_step _ _ HF t') as E. rewrite Hs in E. cbn [pool_step] in E. unfold worker_step in E. rewrite Hi' in E. cbn [mbind option_bind] in E.
  injection E as <-. cbn. split; [apply elem_of_app; right; left|].
  rewrite list_lookup_insert_eq by (by apply lookup_lt_Some in Hi'). destruct (wait4me th); [by right|by left].
Qed.
Lemma notify_ends i th t : sy_workers (run t) !! i = Some (W_notify th) → ∃ t', (t <= t')%nat ∧ sy_workers (run t') !! i = Some W_deq.
Proof.
  intros Hi. destruct (gets_turn i (W_notify th) t Hi I) as (t' & wake & Ht & Hi' & Hs). exists (S t'). split; [lia|].
  pose proof (fr_step _ _ HF t') as E. rewrite Hs in E. cbn [pool_step] in E. unfold worker_step in E. rewrite Hi' in E. cbn [mbind option_bind] in E.
  destruct (signal_c _ _ _); [|done]. injection E as <-. cbn. apply list_lookup_insert_eq. by apply lookup_lt_Some in Hi'.
Qed.
Lemma back_to_deq i p t : sy_workers (run t) !! i = Some p → moves p → ∃ t', (t <= t')%nat ∧ sy_workers (run t') !! i = Some W_deq.
Proof.
  intros Hi Hm. destruct p as [| |th|th|]; try done.
  - by exists t.
  - destruct (runs_ends i th t Hi) as (t1 & Ht1 & _ & [Hd|Hn]); [by exists t1|].
    destruct (notify_ends i th t1 Hn) as (t2 & Ht2 & Hd). exists t2. split; [lia|done].
  - by apply (notify_ends i th).
Qed.

Context (Hlive : ∀ t, not_ended (run t)) (Hw : (0 < length (sy_workers (run 0%nat)))%nat).

(** No signal is lost: somebody is awake when there is something to do. *)
Lemma somebody_awake t : queue (sy_pool (run t)) ≠ [] → ∃ i p, sy_workers (run t) !! i = Some p ∧ moves p.
Proof.
  intros Hq. pose proof (run_ok t) as HP. pose proof (queue_nonempty _ HP Hq) as Hn.
  assert (∀ l : list wpc, 0 < deqs l → ∃ i : nat, l !! i = Some W_deq) as Hd.
  { induction l as [|p l IH]; [done|]. rewrite deqs_cons. intros Hl. destruct (is_deq p) eqn:Ep; [destruct p; try done; by exists 0%nat|].
    destruct IH as [i Hi]; [cbn in Hl; lia|]. by exists (S i). }
  destruct (lookup_lt_is_Some_2 (sy_workers (run t)) 0) as [p Hp]; [rewrite (fw_workers _ _ (run_forward 0 t ltac:(lia))); lia|].
  destruct p as [| |th|th|]; [by exists 0%nat, W_deq| |by eexists _, _..|].
  - destruct (Hd (sy_workers (run t))) as [i Hi]; [|by exists i, W_deq]. pose proof (po_wakeup _ HP) as Hwk.
    assert (W_sleep ∈ sy_workers (run t)) as Hs by (by apply list_elem_of_lookup_2 with 0%nat). specialize (Hwk Hs). lia.
  - exfalso. apply (po_exit _ HP (Hlive t)). by apply list_elem_of_lookup_2 with 0%nat.
Qed.

Lemma drains t : queue (sy_pool (run t)) ≠ [] → ∃ t', (t <= t')%nat ∧ (length (dequeued (run t)) < length (dequeued (run t')))%nat.
Proof.
  intros Hq. destruct (somebody_awake t Hq) as (i & p & Hi & Hm). destruct (back_to_deq i p t Hi Hm) as (t1 & Ht1 & Hd).
  pose proof (run_forward t t1 Ht1) as [_ [l1 E1] [l2 E2] _ _].
  destruct l2 as [|x l2]; [|exists t1; split; [done|rewrite E2, length_app; cbn; lia]]. rewrite app_nil_r in E2.
  destruct (deq_takes i t1 Hd) as (t2 & Ht2 & Hlt).
  - pose proof (po_fifo _ (run_ok t)) as F1. pose proof (po_fifo _ (run_ok t1)) as F2. rewrite E1, E2, F1, <- app_assoc in F2.
    apply app_inv_head in F2. intros Hn. rewrite Hn in F2. by apply app_eq_nil in F2 as [F2 _].
  - exists t2. split; [lia|]. rewrite E2 in Hlt. done.
Qed.

Lemma reaches k : ∀ t, (k < length (enqueued (run t)))%nat → ∃ t', (t <= t')%nat ∧ (k < length (dequeued (run t')))%nat.
Proof.
  intros t Hk. remember (S k - length (dequeued (run t)))%nat as g eqn:Eg. revert t Hk Eg.
  induction g as [g IH] using lt_wf_ind. intros t Hk Eg.
  destruct (decide (k < length (dequeued (run t)))%nat) as [|Hge]; [by exists t|].
  assert (queue (sy_pool (run t)) ≠ []) as Hq.
  { intros Hn. pose proof (po_fifo _ (run_ok t)) as F. rewrite Hn, app_nil_r in F. rewrite F in Hk. lia. }
  destruct (drains t Hq) as (t1 & Ht1 & Hlt). pose proof (run_forward t t1 Ht1) as [_ [l1 E1] _ _ _].
  destruct (IH (S k - length (dequeued (run t1)))%nat ltac:(lia) t1) as (t2 & Ht2 & H); [rewrite E1, length_app; lia|done|].
  exists t2. split; [lia|done].
Qed.

Lemma run_executes t th : th ∈ enqueued (run t) → ∃ t', (t <= t')%nat ∧ th ∈ executed (run t').
Proof.
  intros (k & Hk)%list_elem_of_lookup. destruct (reaches k t) as (t1 & Ht1 & Hd); [by apply lookup_lt_Some in Hk|].
  pose proof (run_forward t t1 Ht1) as [_ [l1 E1] _ _ _]. pose proof (po_fifo _ (run_ok t1)) as F.
  assert (dequeued (run t1) !! k = Some th) as Hdk.
  { assert (enqueued (run t1) !! k = Some th) as He by (rewrite E1; by apply lookup_app_l_Some).
    rewrite F in He. by rewrite lookup_app_l in He by lia. }
  pose proof (po_once _ (run_ok t1) (po_exit _ (run_ok t1) (Hlive t1))) as Hp.
  assert (th ∈ executed (run t1) ++ running (sy_workers (run t1))) as Hin by (rewrite <- Hp; by apply list_elem_of_lookup_2 with k).
  apply elem_of_app in Hin as [Hin|Hin]; [by exists t1|].
  apply list_elem_of_omap in Hin as (p & Hp' & Ep). destruct p as [| |th'|th'|]; try done. injection Ep as ->.
  apply list_elem_of_lookup in Hp' as [i Hi]. destruct (runs_ends i th t1 Hi) as (t2 & Ht2 & Hex & _). exists t2. split; [lia|done].
Qed.
End run.

(** ** The properties *)

(** C24: the ring is a queue.  After [worker_pool_init] it is empty; an
    operation enqueued when it is not full goes to the end; one dequeued when
    it is not empty is the first; the positions wrap around and the counter
    is the length. *)
Theorem ring_refines_queue :
  (∀ junk threads, length junk = 1024%nat → ring_ok (pool_start junk threads) ∧ queue (pool_start junk threads) = []) ∧
  (∀ w th, ring_ok w → n_operation w ≠ MAX_OPERATIONS → ∃ w', enqueue_op w th = Some w' ∧ ring_ok w' ∧ queue w' = queue w ++ [th]) ∧
  (∀ w, ring_ok w → n_operation w ≠ 0 → ∃ th w', dequeue_op w = Some (th, w') ∧ ring_ok w' ∧ queue w = th :: queue w') ∧
  (∀ w, ring_ok w → n_operation w = Z.of_nat (length (queue w))).
Proof.
  split; [exact ring_start|]. split; [|split].
  - intros w th HR Hn. unfold MAX_OPERATIONS in Hn. destruct (ring_enqueue w th HR) as (w' & H1 & H2 & H3 & _); [pose proof (rg_n _ HR); lia|]. by exists w'.
  - intros w HR Hn. destruct (ring_dequeue w HR) as (th & w' & H1 & H2 & H3 & _); [pose proof (rg_n _ HR); lia|]. by exists th, w'.
  - intros w HR. symmetry. by apply queue_length.
Qed.

(** C26: operations are taken in order and run at most once.  Whatever the
    interleaving of clients and workers, spurious wake-ups included, as long as
    the pool is not ended the operations enqueued are the ones dequeued
    followed by the ring; a dequeued one is either executed or in the hands of
    one worker; and none is executed twice. *)
Theorem pool_order_once junk threads programs acts s :
  length junk = 1024%nat → pool_steps acts (worker_pool_init junk threads programs) = Some s → not_ended s →
  enqueued s = dequeued s ++ queue (sy_pool s) ∧ dequeued s ≡ₚ executed s ++ running (sy_workers s) ∧
  (Z.of_nat (length (enqueued s)) < 2 ^ 31 → NoDup (executed s)).
Proof.
  intros Hj E HL. destruct (pool_steps_ok _ _ _ E (pool_init_ok junk threads programs Hj)) as [HP _].
  pose proof (po_once _ HP (po_exit _ HP HL)) as Ho. split; [apply HP|]. split; [done|]. intros Hb.
  destruct (po_ids _ HP Hb) as [_ Hids]. assert (NoDup (enqueued s)) as Hnd.
  { apply (NoDup_fmap_1 th_id). rewrite Hids. apply NoDup_seqZ. }
  rewrite (po_fifo _ HP) in Hnd. apply NoDup_app in Hnd as [Hnd _]. rewrite Ho in Hnd. by apply NoDup_app in Hnd as [Hnd _].
Qed.

(** C4: every operation is executed.  In every infinite run of a pool with at
    least one thread, that is not ended and whose scheduler is fair to the
    workers, each operation that is enqueued is eventually executed: no
    signal is lost. *)
Theorem pool_eventually_executes junk threads programs run sched t th :
  length junk = 1024%nat → 0 < threads → run 0%nat = worker_pool_init junk threads programs →
  fair_run run sched → (∀ u, not_ended (run u)) → th ∈ enqueued (run t) →
  ∃ t', (t <= t')%nat ∧ th ∈ executed (run t').
Proof.
  intros Hj Ht E0 HF HL Hth. apply (run_executes run sched HF); [rewrite E0; by apply pool_init_ok|done| |done].
  rewrite E0. cbn. rewrite length_replicate. lia.
Qed.

(** *** Ending a full ring *)

Section deadlock.
Context (threads : Z) (Ht : 1 <= threads <= 1024).
Let T := Z.to_nat threads.

(** Workers [0 .. k-1] are gone, the others have not moved. *)
Definition gone (k : nat) : list wpc := replicate k W_exit ++ replicate (T - k) W_deq.

Lemma pool_steps_app l1 l2 s : pool_steps (l1 ++ l2) s = (pool_steps l1 s ≫= pool_steps l2).
Proof. revert s. induction l1 as [|a l1 IH]; intros s; cbn; [done|]. destruct (pool_step a s); cbn; [apply IH|done]. Qed.
Lemma asleep_none l : (∀ p, p ∈ l → p = W_deq) → existsb sleeps_w l = false.
Proof.
  intros H. apply not_true_is_false. intros (p & Hp & Hs)%existsb_exists. rewrite <- list_elem_of_In in Hp.
  by rewrite (H p Hp) in Hs.
Qed.

Lemma fill_run ops rest s : pool_ok s → sy_clients s = [CThread ((C_enqueue <$> ops) ++ rest) awake] → sy_workers s = gone 0 →
  n_operation (sy_pool s) + Z.of_nat (length ops) <= 1024 →
  ∃ s', pool_steps (replicate (length ops) (A_client 0 None)) s = Some s' ∧ pool_ok s' ∧ sy_clients s' = [CThread rest awake] ∧
    sy_workers s' = gone 0 ∧ n_operation (sy_pool s') = n_operation (sy_pool s) + Z.of_nat (length ops) ∧ executed s' = executed s.
Proof.
  revert s. induction ops as [|th ops IH]; intros s HP Hc Hw Hn.
  - exists s. cbn. split_and!; try done. lia.
  - cbn [length] in Hn. cbn [length replicate pool_steps pool_step]. unfold client_step at 1. rewrite Hc. cbn [fmap list_fmap app lookup list_lookup mbind option_bind c_sleep c_prog].
    rewrite (proj2 (Z.eqb_neq _ _)) by (unfold MAX_OPERATIONS; lia).
    destruct (ring_enqueue (sy_pool s) (set_id (th_cont s) th) (po_ring _ HP)) as (w' & Ew & HR' & Hq & Hn' & He); [lia|]. rewrite Ew. cbn [mbind option_bind].
    assert (signal_w None (sy_workers s) = Some (sy_workers s)) as Es.
    { unfold signal_w, signal. rewrite Hw, asleep_none; [done|]. by intros p [-> _]%elem_of_replicate. }
    rewrite Es. cbn [mbind option_bind].
    set (s1 := PState _ _ _ _ _ _ _ _).
    assert (client_step 0 None s = Some s1) as E1.
    { unfold client_step. rewrite Hc. cbn [lookup list_lookup fmap list_fmap app mbind option_bind c_sleep c_prog].
      rewrite (proj2 (Z.eqb_neq _ _)) by (unfold MAX_OPERATIONS; lia). rewrite Ew. cbn [mbind option_bind]. by rewrite Es. }
    destruct (client_step_ok 0 None s s1 E1 HP) as [HP1 _].
    destruct (IH s1) as (s' & E' & HP' & Hc' & Hw' & Hn2 & Hx); [done|done|done|cbn; lia|].
    exists s'. rewrite E'. split_and!; try done. rewrite Hn2. cbn. rewrite Hn'. lia.
Qed.

Lemma leave_run k s : (k <= T)%nat → pool_ok s → sy_workers s = gone 0 → pool_end (sy_pool s) = 1 → n_operation (sy_pool s) = 1024 →
  ∃ s', pool_steps ((λ i, A_worker i None) <$> seq 0 k) s = Some s' ∧ pool_ok s' ∧ sy_workers s' = gone k ∧ sy_clients s' = sy_clients s ∧
    pool_end (sy_pool s') = 1 ∧ n_operation (sy_pool s') = 1024 - Z.of_nat k ∧ executed s' = executed s.
Proof.
  intros Hk HP Hw He Hn. induction k as [|k IH]; [exists s; cbn; split_and!; done || lia|].
  destruct IH as (s1 & E1 & HP1 & Hw1 & Hc1 & He1 & Hn1 & Hx1); [lia|].
  assert (sy_workers s1 !! k = Some W_deq) as Hi.
  { rewrite Hw1. unfold gone. rewrite lookup_app_r; rewrite length_replicate; [|lia]. apply lookup_replicate. split; [done|lia]. }
  destruct (ring_dequeue (sy_pool s1) (po_ring _ HP1)) as (th & w' & Ed & HR' & _ & Hn' & He'); [unfold T in *; lia|].
  assert (∃ s', worker_step k None s1 = Some s' ∧ sy_workers s' = gone (S k) ∧ sy_clients s' = sy_clients s1 ∧ sy_pool s' = w' ∧ executed s' = executed s1)
    as (s' & E2 & Hw2 & Hc2 & Hp2 & Hx2).
  { unfold worker_step. rewrite Hi. cbn [mbind option_bind]. rewrite (proj2 (Z.eqb_neq _ 0)) by (unfold T in *; lia). rewrite Ed. cbn [mbind option_bind].
    unfold finishes. rewrite He1. cbn [Z.eqb Pos.eqb orb]. eexists. split; [reflexivity|]. cbn. split_and!; try done.
    rewrite Hw1. unfold gone. rewrite insert_app_r_alt; rewrite length_replicate; [|lia]. replace (k - k)%nat with 0%nat by lia.
    replace (T - k)%nat with (S (T - S k)) by lia. cbn [replicate insert list_insert].
    change (W_exit :: replicate (T - S k) W_deq) with ([W_exit] ++ replicate (T - S k) W_deq).
    by rewrite app_assoc, <- (replicate_S_end k W_exit). }
  exists s'. rewrite seq_S, fmap_app. cbn [fmap list_fmap Nat.add].
  rewrite pool_steps_app, E1. cbn [mbind option_bind pool_steps pool_step]. rewrite E2. cbn [mbind option_bind].
  destruct (worker_step_ok k None s1 s' E2 HP1) as [HP2 _]. split_and!; try done; try congruence. rewrite Hp2, Hn', Hn1. lia.
Qed.

(** [C_end], and the client sleeps on the ring. *)
Lemma end_run s : pool_ok s → sy_clients s = [CThread (worker_pool_destroy threads) awake] → n_operation (sy_pool s) = 1024 →
  ∃ s' prog, pool_steps [A_client 0 None; A_client 0 None] s = Some s' ∧ pool_ok s' ∧ prog ≠ [] ∧ sy_clients s' = [CThread prog on_no_full] ∧
    sy_workers s' = sy_workers s ∧ pool_end (sy_pool s') = 1 ∧ n_operation (sy_pool s') = 1024 ∧ executed s' = executed s.
Proof.
  intros HP Hc Hn. set (acts := [_; _]).
  assert (Z.to_nat threads = S (Z.to_nat (threads - 1))) as HT by lia.
  assert (∃ s' prog, pool_steps acts s = Some s' ∧ prog ≠ [] ∧ sy_clients s' = [CThread prog on_no_full] ∧
    sy_workers s' = sy_workers s ∧ pool_end (sy_pool s') = 1 ∧ n_operation (sy_pool s') = 1024 ∧ executed s' = executed s) as (s' & prog & E & H).
  { clear HP. destruct s as [w c ws cs r e d x]. cbn in Hc, Hn. subst cs. unfold worker_pool_destroy. rewrite HT. unfold acts. cbn. rewrite Hn. change MAX_OPERATIONS with 1024.
    rewrite Z.eqb_refl. eexists _, _. split; [reflexivity|]. split; [|by split_and!]. done. }
  exists s', prog. split; [done|]. split; [by apply (pool_steps_ok _ _ _ E HP)|done].
Qed.
End deadlock.

(** C29: ending a pool whose ring is full blocks it for good.  If [1024]
    operations are waiting when [worker_pool_destroy] is called, there is an
    order of the threads after which every worker has left without executing
    anything, and the caller of [worker_pool_destroy] sleeps on
    [c_pool_no_full] with calls still to make; nobody is left to signal it,
    since the exit path of [worker_pool_dequeue] does not. *)
Theorem destroy_full_ring_deadlocks junk threads ops :
  length junk = 1024%nat → 1 <= threads <= 1024 → length ops = 1024%nat →
  ∃ acts s prog, pool_steps acts (worker_pool_init junk threads [(C_enqueue <$> ops) ++ worker_pool_destroy threads]) = Some s ∧
    executed s = [] ∧ sy_clients s = [CThread prog on_no_full] ∧ prog ≠ [] ∧ (∀ p, p ∈ sy_workers s → p = W_exit) ∧
    (∀ i wake, worker_step i wake s = None) ∧ (∀ j wake, client_step j wake s = None).
Proof.
  intros Hj Ht Ho. set (s0 := worker_pool_init _ _ _).
  assert (sy_workers s0 = gone threads 0) as Hw0 by (unfold gone; by rewrite Nat.sub_0_r).
  destruct (fill_run threads Ht ops (worker_pool_destroy threads) s0) as (s1 & E1 & HP1 & Hc1 & Hw1 & Hn1 & Hx1); [by apply pool_init_ok|done|done|cbn; lia|].
  cbn in Hn1. rewrite Ho in Hn1.
  destruct (end_run threads Ht s1 HP1 Hc1 Hn1) as (s2 & prog & E2 & HP2 & Hp & Hc2 & Hw2 & He2 & Hn2 & Hx2).
  destruct (leave_run threads Ht (Z.to_nat threads) s2) as (s3 & E3 & _ & Hw3 & Hc3 & _ & _ & Hx3); [lia|done|congruence|done|done|].
  assert (∀ p, p ∈ sy_workers s3 → p = W_exit) as Hall.
  { rewrite Hw3. unfold gone. rewrite Nat.sub_diag, app_nil_r. by intros p [-> _]%elem_of_replicate. }
  eexists (_ ++ _ ++ _), s3, prog. split_and!.
  - rewrite pool_steps_app, E1. cbn [mbind option_bind]. rewrite pool_steps_app, E2. exact E3.
  - by rewrite Hx3, Hx2, Hx1.
  - by rewrite Hc3, Hc2.
  - done.
  - done.
  - intros i wake. unfold worker_step. destruct (sy_workers s3 !! i) as [p|] eqn:Hi; [|done]. cbn [mbind option_bind].
    by rewrite (Hall p) by (by apply list_elem_of_lookup_2 with i).
  - intros j wake. unfold client_step. rewrite Hc3, Hc2. by destruct j.
Qed.

(** ** Witnesses *)

Section witnesses.

Definition wit_op (k : Z) : st_th := StTh 0 1 0 false k.
Definition wit_junk : list st_th := replicate 1024 fin_op.
Definition wit_init : pstate := worker_pool_init wit_junk 1 [[C_enqueue (wit_op 7)]].
(** The client enqueues; the worker dequeues, executes, and sleeps. *)
Definition wit_acts : list action := [A_client 0 None; A_worker 0 None; A_worker 0 None; A_worker 0 None].
Definition wit_run (n : nat) : pstate := default wit_init (pool_steps (take n wit_acts) wit_init).
Definition wit_sched (n : nat) : action := default A_idle (wit_acts !! n).

Lemma wit_run_late n : (4 <= n)%nat → wit_run n = wit_run 4.
Proof. intros Hn. unfold wit_run. by rewrite take_ge by (cbn; lia). Qed.
Lemma wit_fair : fair_run wit_run wit_sched.
Proof.
  split.
  - intros t. destruct (decide (4 <= t)%nat) as [Ht|Ht].
    + rewrite (wit_run_late t), (wit_run_late (S t)) by lia. unfold wit_sched. by rewrite lookup_ge_None_2 by (cbn; lia).
    + assert (t = 0 ∨ t = 1 ∨ t = 2 ∨ t = 3)%nat as [-> | [-> | [-> | ->]]] by lia; vm_compute; reflexivity.
  - intros i t _. exists (Nat.max t 4). split; [lia|]. right. rewrite wit_run_late by lia.
    intros (wake & s' & E). destruct i as [|i]; vm_compute in E; done.
Qed.
Lemma wit_live t : not_ended (wit_run t).
Proof.
  destruct (decide (4 <= t)%nat) as [Ht|Ht].
  - rewrite wit_run_late by done. split; [by vm_compute|]. vm_compute. by repeat constructor.
  - assert (t = 0 ∨ t = 1 ∨ t = 2 ∨ t = 3)%nat as [-> | [-> | [-> | ->]]] by lia; (split; [by vm_compute|]); vm_compute; by repeat constructor.
Qed.

Lemma pool_order_once_witness :
  enqueued (wit_run 2) = dequeued (wit_run 2) ++ queue (sy_pool (wit_run 2)) ∧
  dequeued (wit_run 2) ≡ₚ executed (wit_run 2) ++ running (sy_workers (wit_run 2)) ∧
  (Z.of_nat (length (enqueued (wit_run 2))) < 2 ^ 31 → NoDup (executed (wit_run 2))).
Proof.
  apply (pool_order_once wit_junk 1 [[C_enqueue (wit_op 7)]] (take 2 wit_acts)).
  - reflexivity.
  - vm_compute. reflexivity.
  - apply wit_live.
Defined.

Lemma pool_eventually_executes_witness :
  set_id 0 (wit_op 7) ∈ enqueued (wit_run 1) ∧ ∃ t', (1 <= t')%nat ∧ set_id 0 (wit_op 7) ∈ executed (wit_run t').
Proof.
  assert (set_id 0 (wit_op 7) ∈ enqueued (wit_run 1)) as H by (vm_compute; left).
  split; [exact H|].
  apply (pool_eventually_executes wit_junk 1 [[C_enqueue (wit_op 7)]] wit_run wit_sched 1 (set_id 0 (wit_op 7))).
  - reflexivity.
  - lia.
  - vm_compute. reflexivity.
  - exact wit_fair.
  - exact wit_live.
  - exact H.
Defined.

Lemma destroy_full_ring_deadlocks_witness :
  ∃ acts s prog, pool_steps acts (worker_pool_init wit_junk 2 [(C_enqueue <$> replicate 1024 (wit_op 7)) ++ worker_pool_destroy 2]) = Some s ∧
    executed s = [] ∧ sy_clients s = [CThread prog on_no_full] ∧ prog ≠ [] ∧ (∀ p, p ∈ sy_workers s → p = W_exit) ∧
    (∀ i wake, worker_step i wake s = None) ∧ (∀ j wake, client_step j wake s = None).
Proof. apply (destroy_full_ring_deadlocks wit_junk 2 (replicate 1024 (wit_op 7))); [reflexivity|lia|reflexivity]. Defined.
End witnesses.
