(* ===== verification/OnDemand.v ===== *)
(** * OnDemand: a thread per operation

    src/src/base/workers_ondemand.c: a caller creates a thread for each
    operation and waits until the thread has copied the operation's structure,
    which is the caller's; and workers.c, which chooses between this, the pool and a
    direct call.  As in [Workers], a section under a mutex is one step that ends
    where the mutex is released, and the condition variables are broadcast. *)

From S2P Require Import Prelude Workers.

(** ** Data *)

Record worker_ondemand_t := OnDemand { busy_worker : bool; n_workers : Z }.

(** Where a thread is in [worker_run]: created, with the address of the caller's
    structure; in [th.function (th)]; before the notification; before the
    epilog; or gone. *)
Inductive opc := O_new (v : nat) | O_run (th : st_th) | O_notify (th : st_th) | O_exit | O_gone.

(** The calls a caller has still to make, and where it is in the first: before
    it, with the structure filled in, with the thread created, or asleep on
    [c_worker], on the [c_wait] of a structure or on [c_nworkers]. *)
Inductive kcmd := K_launch (th : st_th) | K_wait (v : nat) | K_destroy.
Inductive kpc := K_ready | K_prepared | K_created | K_sleep_worker | K_sleep_wait (v : nat) | K_sleep_n.
Record caller := Caller { k_prog : list kcmd; k_pc : kpc }.

(** The process.  [cells] are the structures of the callers, [od_wait] their
    field [r_wait]; the last three are histories. *)
Record ostate := OState {
  od : worker_ondemand_t; od_cont : Z; threads : list opc; callers : list caller; cells : gmap nat st_th; od_wait : gmap nat bool;
  launched : list st_th; copied : list st_th; finished : list st_th }.

Definition worker_ondemand_init (progs : list (list kcmd)) : ostate :=
  OState (OnDemand true 0) 0 [] ((λ p, Caller p K_ready) <$> progs) ∅ ∅ [] [] [].

(** ** Steps *)

(** [pthread_cond_broadcast]: every caller that sleeps on the variable goes
    back to its test. *)
Definition wake_worker (k : caller) : caller := match k_pc k with K_sleep_worker => Caller (k_prog k) K_created | _ => k end.
Definition wake_wait (v : nat) (k : caller) : caller :=
  match k_pc k with K_sleep_wait v' => if (v =? v')%nat then Caller (k_prog k) K_ready else k | _ => k end.
Definition wake_n (k : caller) : caller := match k_pc k with K_sleep_n => Caller (k_prog k) K_ready | _ => k end.

(** A turn of the thread [j]: [worker_run]. *)
Definition worker_run (j : nat) (s : ostate) : option ostate :=
  pc ← threads s !! j;
  match pc with
  | O_new v =>
    th ← cells s !! v;
    Some (OState (OnDemand false (n_workers (od s) + 1)) (od_cont s) (<[j := O_run th]> (threads s)) (wake_worker <$> callers s)
      (cells s) (od_wait s) (launched s) (copied s ++ [th]) (finished s))
  | O_run th =>
    Some (OState (od s) (od_cont s) (<[j := if wait4me th then O_notify th else O_exit]> (threads s)) (callers s)
      (cells s) (od_wait s) (launched s) (copied s) (finished s ++ [th]))
  | O_notify th =>
    Some (OState (od s) (od_cont s) (<[j := O_exit]> (threads s)) (wake_wait (th_v th) <$> callers s)
      (cells s) (<[th_v th := false]> (od_wait s)) (launched s) (copied s) (finished s))
  | O_exit =>
    Some (OState (OnDemand (busy_worker (od s)) (n_workers (od s) - 1)) (od_cont s) (<[j := O_gone]> (threads s)) (wake_n <$> callers s)
      (cells s) (od_wait s) (launched s) (copied s) (finished s))
  | O_gone => None
  end.

Definition with_callers (l : list caller) (s : ostate) : ostate :=
  OState (od s) (od_cont s) (threads s) l (cells s) (od_wait s) (launched s) (copied s) (finished s).
Definition with_od (w : worker_ondemand_t) (s : ostate) : ostate :=
  OState w (od_cont s) (threads s) (callers s) (cells s) (od_wait s) (launched s) (copied s) (finished s).
Definition with_od_wait (m : gmap nat bool) (s : ostate) : ostate :=
  OState (od s) (od_cont s) (threads s) (callers s) (cells s) m (launched s) (copied s) (finished s).

(** [worker_ondemand_launch], up to the creation of the thread; [ok] tells
    whether [pthread_create] succeeds, which the code does not act on. *)
Definition prepare (th : st_th) (s : ostate) : ostate :=
  let th' := set_id (od_cont s) th in
  OState (OnDemand true (n_workers (od s))) (od_cont s ⊞ 1) (threads s) (callers s) (<[th_v th := th']> (cells s)) (od_wait s)
    (launched s ++ [th']) (copied s) (finished s).
Definition create (ok : bool) (v : nat) (s : ostate) : ostate :=
  OState (od s) (od_cont s) (if ok then threads s ++ [O_new v] else threads s) (callers s) (cells s) (od_wait s) (launched s) (copied s) (finished s).

(** A turn of the caller [i]. *)
Definition caller_step (ok : bool) (i : nat) (s : ostate) : option ostate :=
  k ← callers s !! i;
  let go pc s := with_callers (<[i := Caller (k_prog k) pc]> (callers s)) s in
  match k_prog k with
  | [] => None
  | K_launch th :: prog =>
    match k_pc k with
    | K_ready => Some (go K_prepared (prepare th s))
    | K_prepared => Some (go K_created (create ok (th_v th) s))
    | K_created =>
      if busy_worker (od s) then Some (go K_sleep_worker s)
      else Some (with_callers (<[i := Caller prog K_ready]> (callers s)) (with_od (OnDemand true (n_workers (od s))) s))
    | _ => None
    end
  | K_wait v :: prog => (* worker_ondemand_wait *)
    match k_pc k with
    | K_ready =>
      if default true (od_wait s !! v) then Some (go (K_sleep_wait v) s)
      else Some (with_callers (<[i := Caller prog K_ready]> (callers s)) (with_od_wait (<[v := true]> (od_wait s)) s))
    | _ => None
    end
  | K_destroy :: prog => (* workers_ondemand_destroy *)
    match k_pc k with
    | K_ready =>
      if negb (n_workers (od s) =? 0) then Some (go K_sleep_n s)
      else Some (with_callers (<[i := Caller prog K_ready]> (callers s)) s)
    | _ => None
    end
  end.

(** A wake-up without a broadcast, as POSIX allows. *)
Definition spurious (k : caller) : option caller :=
  match k_pc k with
  | K_sleep_worker => Some (Caller (k_prog k) K_created)
  | K_sleep_wait _ | K_sleep_n => Some (Caller (k_prog k) K_ready)
  | _ => None
  end.

(** A turn of a thread, of a caller, or a spurious wake-up. *)
Inductive oaction := A_thread (j : nat) | A_caller (ok : bool) (i : nat) | A_spurious (i : nat).
Definition od_step (a : oaction) (s : ostate) : option ostate :=
  match a with
  | A_thread j => worker_run j s
  | A_caller ok i => caller_step ok i s
  | A_spurious i => k ← callers s !! i; k' ← spurious k; Some (with_callers (<[i := k']> (callers s)) s)
  end.
Fixpoint od_steps (l : list oaction) (s : ostate) : option ostate :=
  match l with [] => Some s | a :: l' => s' ← od_step a s; od_steps l' s' end.

(** ** The choice of workers.c *)

Definition TH_NOT : Z := 0.
Definition TH_POOL : Z := 1.
Definition TH_OP : Z := 2.
(** What a call does: commands of a caller of one of the two kinds of workers,
    or the operation itself. *)
Inductive wcall := on_demand (l : list kcmd) | in_pool (l : list cmd) | direct (l : list st_th).
(** [w] is the thread mode, [None] for a NULL pointer. *)
Definition base_workers (op pool : wcall) (no_threads : wcall) (w : option Z) : Z * wcall :=
  match w with
  | None => (-1, direct [])
  | Some mode =>
    if mode =? TH_OP then (1, op) else if mode =? TH_POOL then (1, pool) else if mode =? TH_NOT then (1, no_threads) else (-1, direct [])
  end.
Definition base_workers_launch (w : option Z) (th : st_th) : Z * wcall :=
  base_workers (on_demand [K_launch th]) (in_pool [C_enqueue th]) (direct [th]) w.
Definition base_workers_wait (w : option Z) (v : nat) : Z * wcall :=
  base_workers (on_demand [K_wait v]) (in_pool [C_wait v]) (direct []) w.
Definition base_workers_destroy (w : option Z) (threads : Z) : Z * wcall :=
  base_workers (on_demand [K_destroy]) (in_pool (worker_pool_destroy threads)) (direct []) w.

(** ** One caller *)

(** The calls for a list of operations: each is waited for when its structure
    says so. *)
Definition calls_of (th : st_th) : list kcmd := K_launch th :: (if wait4me th then [K_wait (th_v th)] else []).
Definition prog_of (tasks : list st_th) : list kcmd := concat (calls_of <$> tasks) ++ [K_destroy].
Definition od_start (tasks : list st_th) : ostate := worker_ondemand_init [prog_of tasks].
(** An operation without the number it is given. *)
Definition strip (th : st_th) : st_th := set_id 0 th.

(** The threads that have not copied their structure, the operations that are
    running, the addresses that are still to be notified, and the threads counted
    in [n_workers]. *)
Definition new_of (t : opc) : option nat := match t with O_new v => Some v | _ => None end.
Definition run_of (t : opc) : option st_th := match t with O_run th => Some th | _ => None end.
Definition notice_of (t : opc) : option nat :=
  match t with O_run th => if wait4me th then Some (th_v th) else None | O_notify th => Some (th_v th) | _ => None end.
Definition live_of (t : opc) : option unit := match t with O_run _ | O_notify _ | O_exit => Some tt | _ => None end.

Lemma omap_turn {A} (f : opc → option A) l j t t' :
  l !! j = Some t → ∃ r, omap f l ≡ₚ option_list (f t) ++ r ∧ omap f (<[j := t']> l) ≡ₚ option_list (f t') ++ r.
Proof.
  intros H. exists (omap f (take j l) ++ omap f (drop (S j) l)).
  assert (∀ x l1 l2, omap f (l1 ++ x :: l2) ≡ₚ option_list (f x) ++ omap f l1 ++ omap f l2) as HP.
  { intros x l1 l2. rewrite omap_app. cbn. destruct (f x); cbn; [|done]. symmetry. apply Permutation_middle. }
  split.
  - rewrite <- (take_drop_middle l j t H) at 1. apply HP.
  - rewrite insert_take_drop by (by eapply lookup_lt_Some). apply HP.
Qed.
Lemma omap_spawn {A} (f : opc → option A) l t : omap f (l ++ [t]) = omap f l ++ option_list (f t).
Proof. rewrite omap_app. cbn. by destruct (f t). Qed.

(** What is still to come for the wait of [owed]: its thread will notify it, or has. *)
Definition owes (owed : option nat) (s : ostate) : Prop :=
  match owed with
  | None => omap notice_of (threads s) = [] ∧ ∀ u, default true (od_wait s !! u) = true
  | Some v => (omap notice_of (threads s) = [v] ∧ ∀ u, default true (od_wait s !! u) = true)
            ∨ (omap notice_of (threads s) = [] ∧ od_wait s !! v = Some false ∧ ∀ u, u ≠ v → default true (od_wait s !! u) = true)
  end.
Definition owed_by (th : st_th) : option nat := if wait4me th then Some (th_v th) else None.

(** The states of the one caller: what is left to do, the structure that is not
    copied yet, and the wait that is owed. *)
Inductive phase (s : ostate) : list st_th → list kcmd → kpc → list st_th → Prop :=
  | ph_ready todo : omap new_of (threads s) = [] → owes None s → phase s todo (prog_of todo) K_ready []
  | ph_prepared th th' todo :
      omap new_of (threads s) = [] → owes None s → busy_worker (od s) = true → cells s !! th_v th = Some th' → strip th' = strip th →
      phase s todo (calls_of th ++ prog_of todo) K_prepared [th']
  | ph_created th th' todo pc : (pc = K_created ∨ pc = K_sleep_worker) →
      omap new_of (threads s) = [th_v th] → owes None s → busy_worker (od s) = true → cells s !! th_v th = Some th' → strip th' = strip th →
      phase s todo (calls_of th ++ prog_of todo) pc [th']
  | ph_copied th todo :
      omap new_of (threads s) = [] → owes (owed_by th) s → busy_worker (od s) = false →
      phase s todo (calls_of th ++ prog_of todo) K_created []
  | ph_wait v todo : omap new_of (threads s) = [] → owes (Some v) s → phase s todo (K_wait v :: prog_of todo) K_ready []
  | ph_waiting v todo :
      omap new_of (threads s) = [] → omap notice_of (threads s) = [v] → (∀ u, default true (od_wait s !! u) = true) →
      phase s todo (K_wait v :: prog_of todo) (K_sleep_wait v) []
  | ph_leaving : omap new_of (threads s) = [] → owes None s → n_workers (od s) ≠ 0 → phase s [] [K_destroy] K_sleep_n []
  | ph_end : omap new_of (threads s) = [] → owes None s → n_workers (od s) = 0 → phase s [] [] K_ready [].

Record one_caller (tasks : list st_th) (s : ostate) : Prop := {
  oc_state : ∃ prog pc pend past todo, callers s = [Caller prog pc] ∧ tasks = past ++ todo ∧ strip <$> launched s = strip <$> past ∧
    launched s = copied s ++ pend ∧ phase s todo prog pc pend;
  oc_run : copied s ≡ₚ finished s ++ omap run_of (threads s);
  oc_n : n_workers (od s) = Z.of_nat (length (omap live_of (threads s))) }.

Lemma one_caller_start tasks : one_caller tasks (od_start tasks).
Proof.
  split; [|done|done]. exists (prog_of tasks), K_ready, [], [], tasks. split_and!; [done..|]. by apply ph_ready.
Qed.

Lemma omap_same {A} (f : opc → option A) (l : list opc) (j : nat) t t' : l !! j = Some t → f t = f t' → omap f (<[j := t']> l) = omap f l.
Proof.
  intros Hj Hf. rewrite <- (take_drop_middle l j t Hj) at 2. rewrite insert_take_drop by (by eapply lookup_lt_Some).
  rewrite !omap_app. cbn. by rewrite Hf.
Qed.
Lemma omap_gone {A} (f : opc → option A) (l : list opc) (j : nat) t t' a : l !! j = Some t → f t = Some a → f t' = None →
  ∀ xs, omap f l = xs → (length xs <= 1)%nat → xs = [a] ∧ omap f (<[j := t']> l) = [].
Proof.
  intros Hj Ha Hn xs <- Hlen. destruct (omap_turn f l j t t' Hj) as (r & H1 & H2). rewrite Ha in H1. rewrite Hn in H2. cbn in *.
  pose proof (Permutation_length H1) as Hl. cbn in Hl. assert (r = []) as -> by (destruct r; [done|cbn in Hl; lia]).
  apply Permutation_singleton_r in H1. by apply Permutation_nil_r in H2.
Qed.
Lemma omap_came {A} (f : opc → option A) (l : list opc) (j : nat) t t' a : l !! j = Some t → f t = None → f t' = Some a →
  omap f l = [] → omap f (<[j := t']> l) = [a].
Proof.
  intros Hj Hn Ha H. destruct (omap_turn f l j t t' Hj) as (r & H1 & H2). rewrite Hn, H in H1. rewrite Ha in H2. cbn in *.
  apply Permutation_length in H1. destruct r; [|done]. by apply Permutation_singleton_r in H2.
Qed.
Lemma prog_cons th todo : prog_of (th :: todo) = calls_of th ++ prog_of todo.
Proof. unfold prog_of. cbn. by rewrite app_assoc. Qed.

Lemma strip_same th th' : strip th' = strip th → th_v th' = th_v th ∧ wait4me th' = wait4me th.
Proof. destruct th, th'. by intros [= ? -> -> ?]. Qed.

Lemma phase_ext s s' todo prog pc pend :
  omap new_of (threads s') = omap new_of (threads s) → omap notice_of (threads s') = omap notice_of (threads s) →
  od s' = od s → cells s' = cells s → od_wait s' = od_wait s → phase s todo prog pc pend → phase s' todo prog pc pend.
Proof.
  intros Hn Ht Ho Hc Hw H. assert (∀ v, owes v s → owes v s') as Howe by (unfold owes; rewrite Ht, Hw; done).
  destruct H; econstructor; rewrite ?Hn, ?Ht, ?Ho, ?Hc, ?Hw; eauto.
Qed.

(** *** The steps of a thread *)

Lemma copy_step tasks j v s s' : threads s !! j = Some (O_new v) → one_caller tasks s → worker_run j s = Some s' → one_caller tasks s'.
Proof.
  intros Hj [(prog & pc & pend & past & todo & Hc & Ht & Hl & Hp & Hph) Hrun Hn] E.
  unfold worker_run in E. rewrite Hj in E. cbn [mbind option_bind] in E.
  destruct (cells s !! v) as [th'|] eqn:Hcell; [|done]. injection E as <-.
  destruct (omap_turn run_of _ j _ (O_run th') Hj) as (r & Hr1 & Hr2). cbn in Hr1, Hr2.
  destruct (omap_turn live_of _ j _ (O_run th') Hj) as (q & Hq1 & Hq2). cbn in Hq1, Hq2.
  assert (∀ xs, omap new_of (threads s) = xs → (length xs <= 1)%nat → xs = [v] ∧ omap new_of (<[j := O_run th']> (threads s)) = []) as Hnew
    by (by eapply omap_gone).
  split; [|cbn|cbn].
  - destruct Hph as [? HN ?|? ? ? HN ????|th th0 todo pc Hpc HN Ho Hb Hcl Hs|? ? HN ??|? ? HN ?|? ? HN ??|HN ??|HN ??];
      destruct (Hnew _ HN) as [Hv Hnew']; cbn; try lia; try discriminate Hv.
    injection Hv as <-. rewrite Hcl in Hcell. injection Hcell as <-.
    exists (calls_of th ++ prog_of todo), K_created, [], past, todo. cbn. split_and!; [|done|done|by rewrite app_nil_r, Hp|].
    + rewrite Hc. cbn. by destruct Hpc as [->| ->].
    + apply ph_copied; [done| |done]. destruct (strip_same _ _ Hs) as [Ev Ew], Ho as [Ho1 Ho2]. unfold owed_by.
      destruct (wait4me th) eqn:Hw; cbn.
      * left. split; [|done]. eapply omap_came; [done|done|cbn; by rewrite Ew, Ev|done].
      * split; [|done]. rewrite (omap_same _ _ _ (O_new (th_v th))); [done|done|]. cbn. by rewrite Ew.
  - rewrite Hrun, Hr2, Hr1. rewrite <- app_assoc. f_equiv. apply Permutation_app_comm.
  - rewrite Hn, (Permutation_length Hq2), (Permutation_length Hq1). cbn. lia.
Qed.

Lemma run_call_step tasks j th s s' : threads s !! j = Some (O_run th) → one_caller tasks s → worker_run j s = Some s' → one_caller tasks s'.
Proof.
  intros Hj [(prog & pc & pend & past & todo & Hc & Ht & Hl & Hp & Hph) Hrun Hn] E.
  unfold worker_run in E. rewrite Hj in E. cbn [mbind option_bind] in E. injection E as <-.
  set (t' := if wait4me th then O_notify th else O_exit).
  destruct (omap_turn run_of _ j _ t' Hj) as (r & Hr1 & Hr2). cbn in Hr1.
  assert (run_of t' = None) as Hrt by (unfold t'; by destruct (wait4me th)). rewrite Hrt in Hr2. cbn in Hr2.
  split; cbn.
  - exists prog, pc, pend, past, todo. split_and!; try done. eapply phase_ext, Hph; cbn; try done.
    + apply (omap_same _ _ _ _ _ Hj). unfold t'. by destruct (wait4me th).
    + apply (omap_same _ _ _ _ _ Hj). cbn. unfold t'. by destruct (wait4me th).
  - rewrite Hrun, Hr2, Hr1, <- app_assoc. done.
  - rewrite (omap_same live_of _ _ _ t' Hj); [done|]. unfold t'. by destruct (wait4me th).
Qed.

Lemma notify_step tasks j th s s' : threads s !! j = Some (O_notify th) → one_caller tasks s → worker_run j s = Some s' → one_caller tasks s'.
Proof.
  intros Hj [(prog & pc & pend & past & todo & Hc & Ht & Hl & Hp & Hph) Hrun Hn] E.
  unfold worker_run in E. rewrite Hj in E. cbn [mbind option_bind] in E. injection E as <-.
  assert (∀ xs, omap notice_of (threads s) = xs → (length xs <= 1)%nat →
    xs = [th_v th] ∧ omap notice_of (<[j := O_exit]> (threads s)) = []) as Hno by (by eapply omap_gone).
  pose proof (omap_same new_of _ _ _ O_exit Hj eq_refl) as Hnew.
  assert (∀ s2, omap notice_of (threads s2) = [] → od_wait s2 = <[th_v th := false]> (od_wait s) →
    (∀ u, default true (od_wait s !! u) = true) → owes (Some (th_v th)) s2) as Howe.
  { intros s2 H2 Hw Hd. right. rewrite Hw, lookup_insert_eq. split_and!; [done|done|]. intros u Hu. by rewrite lookup_insert_ne. }
  split; cbn; [|by rewrite (omap_same run_of _ _ _ O_exit Hj)|by rewrite (omap_same live_of _ _ _ O_exit Hj)].
  destruct Hph as [?? [Ho _]|? ? ? ? [Ho _] ???|? ? ? ? ? ? [Ho _] ???|th0 todo HN Ho Hb|v todo HN Ho|v todo HN Ho Hd|? [Ho _] ?|? [Ho _] ?];
    try (destruct (Hno _ Ho) as [Hx _]; [cbn; lia|discriminate Hx]).
  - unfold owed_by in Ho. destruct (wait4me th0) eqn:Hw0; [|destruct Ho as [Ho _]; destruct (Hno _ Ho) as [Hx _]; [cbn; lia|discriminate Hx]].
    destruct Ho as [[Ho Hd]|[Ho _]]; [|destruct (Hno _ Ho) as [Hx _]; [cbn; lia|discriminate Hx]].
    destruct (Hno _ Ho) as [[= Hv] Ho']; [cbn; lia|].
    exists (calls_of th0 ++ prog_of todo), K_created, [], past, todo. cbn. split_and!; [by rewrite Hc|done..|].
    apply ph_copied; [cbn; by rewrite Hnew| |done]. unfold owed_by. rewrite Hw0, Hv. by apply Howe.
  - destruct Ho as [[Ho Hd]|[Ho _]]; [|destruct (Hno _ Ho) as [Hx _]; [cbn; lia|discriminate Hx]].
    destruct (Hno _ Ho) as [[= ->] Ho']; [cbn; lia|].
    exists (K_wait (th_v th) :: prog_of todo), K_ready, [], past, todo. cbn. split_and!; [by rewrite Hc|done..|].
    apply ph_wait; [cbn; by rewrite Hnew|by apply Howe].
  - destruct (Hno _ Ho) as [[= ->] Ho']; [cbn; lia|].
    exists (K_wait (th_v th) :: prog_of todo), K_ready, [], past, todo. cbn. split_and!; [|done..|].
    + rewrite Hc. unfold wake_wait. cbn. by rewrite Nat.eqb_refl.
    + apply ph_wait; [cbn; by rewrite Hnew|by apply Howe].
Qed.

Lemma exit_step tasks j s s' : threads s !! j = Some O_exit → one_caller tasks s → worker_run j s = Some s' → one_caller tasks s'.
Proof.
  intros Hj [(prog & pc & pend & past & todo & Hc & Ht & Hl & Hp & Hph) Hrun Hn] E.
  unfold worker_run in E. rewrite Hj in E. cbn [mbind option_bind] in E. injection E as <-.
  destruct (omap_turn live_of _ j _ O_gone Hj) as (q & Hq1 & Hq2). cbn in Hq1, Hq2.
  apply Permutation_length in Hq1, Hq2. cbn in Hq1.
  pose proof (omap_same new_of _ _ _ O_gone Hj eq_refl) as Hnew. pose proof (omap_same notice_of _ _ _ O_gone Hj eq_refl) as Hno.
  split; cbn; [|by rewrite (omap_same run_of _ _ _ O_gone Hj)|lia].
  set (s' := OState _ _ _ _ _ _ _ _ _). assert (∀ v, owes v s → owes v s') as Howe by (unfold owes; cbn; by rewrite Hno).
  destruct Hph as [todo HN Ho|th th' todo HN Ho Hb Hcl Hs|th th' todo pc Hpc HN Ho Hb Hcl Hs|th todo HN Ho Hb|v todo HN Ho|v todo HN Ho Hd|HN Ho Hn0|HN Ho Hn0];
    rewrite <- Hnew in HN.
  - exists (prog_of todo), K_ready, [], past, todo. split_and!; [by rewrite Hc|done..|]. by apply ph_ready, Howe.
  - exists (calls_of th ++ prog_of todo), K_prepared, [th'], past, todo. split_and!; [by rewrite Hc|done..|]. by apply (ph_prepared _ th); auto.
  - exists (calls_of th ++ prog_of todo), pc, [th'], past, todo. split_and!; [rewrite Hc; by destruct Hpc as [->| ->]|done..|]. by apply (ph_created _ th); auto.
  - exists (calls_of th ++ prog_of todo), K_created, [], past, todo. split_and!; [by rewrite Hc|done..|]. by apply ph_copied; auto.
  - exists (K_wait v :: prog_of todo), K_ready, [], past, todo. split_and!; [by rewrite Hc|done..|]. by apply ph_wait; auto.
  - exists (K_wait v :: prog_of todo), (K_sleep_wait v), [], past, todo. split_and!; [by rewrite Hc|done..|]. apply ph_waiting; [done|by rewrite <- Hno in Ho|done].
  - exists (prog_of []), K_ready, [], past, []. split_and!; [by rewrite Hc|done..|]. by apply ph_ready, Howe.
  - lia.
Qed.

Lemma thread_step tasks j s s' : one_caller tasks s → worker_run j s = Some s' → one_caller tasks s'.
Proof.
  intros HI E. destruct (threads s !! j) as [[v|th|th| |]|] eqn:Hj.
  - by eapply copy_step.
  - by eapply run_call_step.
  - by eapply notify_step.
  - by eapply exit_step.
  - unfold worker_run in E. by rewrite Hj in E.
  - unfold worker_run in E. by rewrite Hj in E.
Qed.

(** *** The steps of the caller *)

Lemma prog_head todo : prog_of todo = match todo with [] => [K_destroy] | th :: todo' => calls_of th ++ prog_of todo' end.
Proof. destruct todo; [done|apply prog_cons]. Qed.

Lemma caller_step_inv tasks i s s' : one_caller tasks s → caller_step true i s = Some s' → one_caller tasks s'.
Proof.
  intros [(prog & pc & pend & past & todo & Hc & Ht & Hl & Hp & Hph) Hrun Hn] E. unfold caller_step in E. rewrite Hc in E.
  destruct i as [|i]; [|done]. cbn [lookup list_lookup mbind option_bind k_prog k_pc] in E.
  destruct Hph as [todo HN Ho|th th' todo HN Ho Hb Hcl Hs|th th' todo pc Hpc HN Ho Hb Hcl Hs|th todo HN Ho Hb|v todo HN Ho|v todo HN Ho Hd|HN Ho Hn0|HN Ho Hn0].
  - rewrite prog_head in E. destruct todo as [|th todo].
    + destruct (Z.eqb_spec (n_workers (od s)) 0) as [H0|H0]; cbn in E; injection E as <-; (split; [|done..]).
      * exists [], K_ready, [], past, []. cbn. split_and!; [by rewrite ?Hc|done..|]. by apply ph_end.
      * exists [K_destroy], K_sleep_n, [], past, []. cbn. split_and!; [by rewrite ?Hc|done..|]. by apply ph_leaving.
    + unfold calls_of in E. cbn in E. injection E as <-. split; [|done..].
      exists (calls_of th ++ prog_of todo), K_prepared, [set_id (od_cont s) th], (past ++ [th]), todo. cbn. split_and!.
      * by rewrite Hc.
      * by rewrite <- app_assoc.
      * rewrite !fmap_app, Hl. done.
      * by rewrite Hp, app_nil_r.
      * apply (ph_prepared _ th); cbn; [done|done|done|by rewrite lookup_insert_eq|done].
  - unfold calls_of in E. cbn in E. injection E as <-. split.
    + exists (calls_of th ++ prog_of todo), K_created, [th'], past, todo. cbn. split_and!; [by rewrite ?Hc|done..|].
      destruct Ho as [Ho1 Ho2]. apply (ph_created _ th); cbn; [by left| | |done..].
      * by rewrite omap_spawn, HN.
      * split; [|done]. cbn. by rewrite omap_spawn, Ho1.
    + cbn. by rewrite omap_spawn, app_nil_r.
    + cbn. by rewrite omap_spawn, app_nil_r.
  - unfold calls_of in E. destruct Hpc as [->| ->]; cbn in E; [|done]. rewrite Hb in E. injection E as <-. split; [|done..].
    exists (calls_of th ++ prog_of todo), K_sleep_worker, [th'], past, todo. cbn. split_and!; [by rewrite ?Hc|done..|].
    apply (ph_created _ th); auto.
  - unfold calls_of in E. cbn in E. rewrite Hb in E. injection E as <-. split; [|done..].
    unfold owed_by in Ho. destruct (wait4me th) eqn:Hw.
    + exists (K_wait (th_v th) :: prog_of todo), K_ready, [], past, todo. cbn. split_and!; [by rewrite ?Hc|done..|]. by apply ph_wait.
    + exists (prog_of todo), K_ready, [], past, todo. cbn. split_and!; [by rewrite ?Hc|done..|]. by apply ph_ready.
  - cbn in E. destruct (default true (od_wait s !! v)) eqn:Hd; injection E as <-; (split; [|done..]).
    + exists (K_wait v :: prog_of todo), (K_sleep_wait v), [], past, todo. cbn. split_and!; [by rewrite ?Hc|done..|].
      destruct Ho as [[Ho1 Ho2]|(_ & Ho & _)]; [by apply ph_waiting|by rewrite Ho in Hd].
    + exists (prog_of todo), K_ready, [], past, todo. cbn. split_and!; [by rewrite ?Hc|done..|].
      apply ph_ready; [done|]. destruct Ho as [[_ Ho2]|(Ho1 & _ & Ho2)]; [by rewrite Ho2 in Hd|]. split; [done|]. cbn.
      intros u. destruct (decide (u = v)) as [->|Hu]; [by rewrite lookup_insert_eq|]. rewrite lookup_insert_ne by done. by apply Ho2.
  - done.
  - done.
  - done.
Qed.

Lemma spurious_inv tasks i s s' : one_caller tasks s → od_step (A_spurious i) s = Some s' → one_caller tasks s'.
Proof.
  intros [(prog & pc & pend & past & todo & Hc & Ht & Hl & Hp & Hph) Hrun Hn] E. cbn in E. rewrite Hc in E.
  destruct i as [|i]; [|done]. cbn in E.
  destruct Hph as [todo HN Ho|th th' todo HN Ho Hb Hcl Hs|th th' todo pc Hpc HN Ho Hb Hcl Hs|th todo HN Ho Hb|v todo HN Ho|v todo HN Ho Hd|HN Ho Hn0|HN Ho Hn0];
    try discriminate E.
  - destruct Hpc as [->| ->]; [done|]. injection E as <-. split; [|done..].
    exists (calls_of th ++ prog_of todo), K_created, [th'], past, todo. cbn. split_and!; [by rewrite ?Hc|done..|]. apply (ph_created _ th); auto.
  - injection E as <-. split; [|done..]. exists (K_wait v :: prog_of todo), K_ready, [], past, todo. cbn. split_and!; [by rewrite ?Hc|done..|].
    apply ph_wait; [done|]. by left.
  - injection E as <-. split; [|done..]. exists (prog_of []), K_ready, [], past, []. cbn. split_and!; [by rewrite ?Hc|done..|]. by apply ph_ready.
Qed.

(** *** Every run ends *)

Definition thread_weight (t : opc) : nat := match t with O_new _ => 15 | O_run _ => 12 | O_notify _ => 9 | O_exit => 6 | O_gone => 0 end.
Definition cmd_weight (c : kcmd) : nat := match c with K_launch _ => 30 | _ => 5 end.
Definition caller_weight (k : caller) : nat :=
  match k_prog k with
  | [] => 0
  | c :: p =>
    match c, k_pc k with
    | K_launch _, K_prepared => 29 | K_launch _, K_created => 11 | K_launch _, K_sleep_worker => 10
    | K_wait _, K_sleep_wait _ => 4 | K_destroy, K_sleep_n => 4
    | _, _ => cmd_weight c
    end + sum_list_with cmd_weight p
  end.
Definition measure (s : ostate) : nat := sum_list_with thread_weight (threads s) + sum_list_with caller_weight (callers s).

Lemma weight_turn (l : list opc) j t t' : l !! j = Some t →
  (sum_list_with thread_weight (<[j := t']> l) + thread_weight t = sum_list_with thread_weight l + thread_weight t')%nat.
Proof.
  intros Hj. rewrite insert_take_drop by (by eapply lookup_lt_Some). rewrite <- (take_drop_middle l j t Hj) at 3.
  rewrite !sum_list_with_app. cbn. lia.
Qed.
Lemma wake_weight k :
  (caller_weight (wake_worker k) <= S (caller_weight k))%nat ∧ (∀ v, caller_weight (wake_wait v k) <= S (caller_weight k))%nat ∧
  (caller_weight (wake_n k) <= S (caller_weight k))%nat.
Proof.
  destruct k as [[|[] p] []]; unfold wake_worker, wake_wait, wake_n, caller_weight; cbn; (split_and!; [lia| |lia]); intros v';
    try destruct (v' =? _)%nat; cbn; lia.
Qed.

Lemma thread_measure j s s' k : callers s = [k] → worker_run j s = Some s' → (measure s' < measure s)%nat ∧ ∃ k', callers s' = [k'].
Proof.
  intros Hc E. unfold worker_run in E. destruct (threads s !! j) as [t|] eqn:Hj; [|done]. cbn [mbind option_bind] in E.
  destruct (wake_weight k) as (H1 & H2 & H3). unfold measure. rewrite Hc.
  destruct t as [v|th|th| |]; [destruct (cells s !! v) as [th|]; [|done]| | | |done]; injection E as <-; cbn; rewrite Hc; cbn; (split; [|by eexists]).
  - pose proof (weight_turn _ _ _ (O_run th) Hj). cbn in *. lia.
  - pose proof (weight_turn _ _ _ (if wait4me th then O_notify th else O_exit) Hj). destruct (wait4me th); cbn in *; lia.
  - pose proof (weight_turn _ _ _ O_exit Hj). specialize (H2 (th_v th)). cbn in *. lia.
  - pose proof (weight_turn _ _ _ O_gone Hj). cbn in *. lia.
Qed.

Lemma ready_weight p : caller_weight (Caller p K_ready) = sum_list_with cmd_weight p.
Proof. by destruct p as [|[] p]. Qed.
Lemma caller_measure i s s' k : callers s = [k] → caller_step true i s = Some s' → (measure s' < measure s)%nat ∧ ∃ k', callers s' = [k'].
Proof.
  intros Hc E. unfold caller_step in E. rewrite Hc in E. destruct i as [|i]; [|done]. cbn [lookup list_lookup mbind option_bind] in E.
  unfold measure. rewrite Hc. destruct k as [[|c p] pc]; [done|]. cbn [k_prog k_pc] in E.
  destruct c as [th|v|], pc; try discriminate E.
  all: try (destruct (busy_worker (od s)); injection E as <-); try (destruct (default true (od_wait s !! v)); injection E as <-);
    try (destruct (negb (n_workers (od s) =? 0)); injection E as <-); try injection E as <-.
  all: cbn [threads callers with_callers with_od with_od_wait prepare create]; rewrite ?Hc; cbn [insert list_insert sum_list_with].
  all: (split; [rewrite ?sum_list_with_app, ?ready_weight; cbn; lia|by eexists]).
Qed.

(** The actions of a run in which threads can be created. *)
Definition creates (a : oaction) : bool := match a with A_caller ok _ => ok | _ => true end.
Definition ordinary (a : oaction) : bool := match a with A_caller ok _ => ok | A_thread _ => true | A_spurious _ => false end.
Definition stuck (s : ostate) : Prop := ∀ a, ordinary a = true → od_step a s = None.

Lemma one_caller_steps tasks acts : ∀ s s', one_caller tasks s → forallb creates acts = true → od_steps acts s = Some s' → one_caller tasks s'.
Proof.
  induction acts as [|a acts IH]; intros s s' HI Hok E; cbn [od_steps] in E; [by injection E as <-|].
  cbn [forallb] in Hok. apply andb_prop in Hok as [Ha Hok].
  destruct (od_step a s) as [s1|] eqn:E1; [|done]. apply (IH s1); [|done|exact E].
  destruct a as [j|ok i|i]; [by eapply thread_step|cbn in Ha; subst ok; by eapply caller_step_inv|by eapply spurious_inv].
Qed.
Lemma measure_steps acts : ∀ s s' k, callers s = [k] → forallb ordinary acts = true → od_steps acts s = Some s' →
  (length acts + measure s' <= measure s)%nat.
Proof.
  induction acts as [|a acts IH]; intros s s' k Hc Hok E; cbn [od_steps] in E; [injection E as <-; cbn; lia|].
  cbn [forallb] in Hok. apply andb_prop in Hok as [Ha Hok].
  destruct (od_step a s) as [s1|] eqn:E1; [|done]. cbn [mbind option_bind] in E.
  assert ((measure s1 < measure s)%nat ∧ ∃ k', callers s1 = [k']) as [Hm [k' Hk']].
  { destruct a as [j|ok i|i]; [by eapply thread_measure|cbn in Ha; subst ok; by eapply caller_measure|done]. }
  specialize (IH s1 s' k' Hk' Hok E). cbn. lia.
Qed.

Lemma stuck_gone tasks s : one_caller tasks s → stuck s → Forall (λ t, t = O_gone) (threads s).
Proof.
  intros [(prog & pc & pend & past & todo & _ & _ & _ & _ & Hph) _ _] Hs. apply Forall_lookup. intros j t Hj.
  specialize (Hs (A_thread j) eq_refl). cbn in Hs. unfold worker_run in Hs. rewrite Hj in Hs.
  destruct t as [v|th|th| |]; cbn in Hs; try discriminate Hs; [|done]. exfalso.
  assert (v ∈ omap new_of (threads s)) as Hv by (apply list_elem_of_omap; exists (O_new v); split; [by eapply list_elem_of_lookup_2|done]).
  destruct Hph as [? HN ?|? ? ? HN ????|th th0 ? ? ? HN ? ? Hcl ?|? ? HN ??|? ? HN ?|? ? HN ??|HN ??|HN ??]; rewrite HN in Hv;
    try by apply elem_of_nil in Hv.
  apply list_elem_of_singleton in Hv as ->. by rewrite Hcl in Hs.
Qed.
Lemma omap_gone_all {A} (f : opc → option A) (l : list opc) : f O_gone = None → Forall (λ t, t = O_gone) l → omap f l = [].
Proof. intros Hf. induction 1 as [|t l -> _ IH]; [done|]. cbn. by rewrite Hf. Qed.

Lemma stuck_end tasks s : one_caller tasks s → stuck s →
  callers s = [Caller [] K_ready] ∧ n_workers (od s) = 0 ∧ strip <$> finished s ≡ₚ strip <$> tasks.
Proof.
  intros HI Hs. pose proof (stuck_gone tasks s HI Hs) as Hgone.
  pose proof (omap_gone_all notice_of _ eq_refl Hgone) as Hno. pose proof (omap_gone_all new_of _ eq_refl Hgone) as Hnew.
  destruct HI as [(prog & pc & pend & past & todo & Hc & Ht & Hl & Hp & Hph) Hrun Hn].
  rewrite (omap_gone_all live_of _ eq_refl Hgone) in Hn. rewrite (omap_gone_all run_of _ eq_refl Hgone), app_nil_r in Hrun.
  specialize (Hs (A_caller true 0) eq_refl). cbn [od_step] in Hs. unfold caller_step in Hs. rewrite Hc in Hs. cbn [lookup list_lookup mbind option_bind k_prog k_pc] in Hs.
  destruct Hph as [todo HN Ho|th th' todo HN Ho Hb Hcl Hst|th th' todo pc Hpc HN Ho Hb Hcl Hst|th todo HN Ho Hb|v todo HN Ho|v todo HN Ho Hd|HN Ho Hn0|HN Ho Hn0].
  - rewrite prog_head in Hs. destruct todo as [|th todo]; cbn in Hs; [|done]. by destruct (n_workers (od s) =? 0).
  - done.
  - by rewrite Hnew in HN.
  - cbn in Hs. by rewrite Hb in Hs.
  - cbn in Hs. by destruct (default true _).
  - by rewrite Hno in Ho.
  - done.
  - split_and!; [done|done|]. rewrite <- Hrun. rewrite app_nil_r in *. by rewrite <- Hp, Hl, Ht.
Qed.

(** *** A caller that is never woken *)

(** The caller [i] is in the wait of a launch, [busy_worker] is set and no thread
    is to clear it; the other callers have nothing left to do. *)
Definition hung (i : nat) (th : st_th) (s : ostate) : Prop :=
  busy_worker (od s) = true ∧ Forall (λ t, new_of t = None) (threads s) ∧
  (∃ pc, callers s !! i = Some (Caller [K_launch th] pc) ∧ (pc = K_created ∨ pc = K_sleep_worker)) ∧
  (∀ j k, callers s !! j = Some k → j ≠ i → k_prog k = []).

Lemma wakes_kept (f : caller → caller) s i th :
  (∀ k, k_prog (f k) = k_prog k) → (∀ k, k_pc k = K_created → f k = k) → (∀ k, k_pc k = K_sleep_worker → f k = k ∨ f k = Caller (k_prog k) K_created) →
  (∃ pc, callers s !! i = Some (Caller [K_launch th] pc) ∧ (pc = K_created ∨ pc = K_sleep_worker)) → (∀ j k, callers s !! j = Some k → j ≠ i → k_prog k = []) →
  (∃ pc, (f <$> callers s) !! i = Some (Caller [K_launch th] pc) ∧ (pc = K_created ∨ pc = K_sleep_worker)) ∧
  (∀ j k, (f <$> callers s) !! j = Some k → j ≠ i → k_prog k = []).
Proof.
  intros Hp H1 H2 (pc & Hi & Hpc) Ho. split.
  - rewrite list_lookup_fmap, Hi. cbn. destruct Hpc as [->| ->].
    + rewrite H1 by done. eauto.
    + destruct (H2 (Caller [K_launch th] K_sleep_worker) eq_refl) as [->| ->]; cbn; eauto.
  - intros j k Hj Hne. rewrite list_lookup_fmap in Hj. destruct (callers s !! j) as [k0|] eqn:E; [|done]. injection Hj as <-. rewrite Hp. by eapply Ho.
Qed.

Lemma hung_step i th a s s' : hung i th s → od_step a s = Some s' → hung i th s'.
Proof.
  intros (Hb & Hn & Hi & Ho) E. destruct a as [j|ok j|j]; cbn [od_step] in E.
  - unfold worker_run in E. destruct (threads s !! j) as [t|] eqn:Hj; [|done]. cbn [mbind option_bind] in E.
    assert (∀ t', new_of t' = None → Forall (λ t, new_of t = None) (<[j := t']> (threads s))) as Hins by (intros; by apply Forall_insert).
    pose proof (Forall_lookup_1 _ _ _ _ Hn Hj) as Hnt.
    destruct t as [v|t|t| |]; [done| | | |done]; injection E as <-; unfold hung; cbn.
    + split_and!; [done| |done|done]. apply Hins. by destruct (wait4me t).
    + split; [done|]. split; [by apply Hins|]. apply wakes_kept; [by intros [? []]; cbn; try destruct (_ =? _)%nat|by intros [? []]|by intros [? []]; auto|done|done].
    + split; [done|]. split; [by apply Hins|]. apply wakes_kept; [by intros [? []]|by intros [? []]|by intros [? []]; auto|done|done].
  - unfold caller_step in E. destruct (callers s !! j) as [k|] eqn:Hj; [|done]. cbn [mbind option_bind] in E.
    destruct (decide (j = i)) as [->|Hne]; [|by rewrite (Ho j k Hj Hne) in E].
    destruct Hi as (pc & Hi & Hpc). rewrite Hj in Hi. injection Hi as ->. destruct Hpc as [->| ->]; cbn in E; [|done].
    rewrite Hb in E. injection E as <-. unfold hung. cbn. split_and!; [done|done| |].
    + exists K_sleep_worker. split; [apply list_lookup_insert_eq; by eapply lookup_lt_Some|by right].
    + intros j' k' Hj' Hne'. rewrite list_lookup_insert_ne in Hj' by done. by eapply Ho.
  - destruct (callers s !! j) as [k|] eqn:Hj; [|done]. cbn [mbind option_bind] in E. destruct (spurious k) as [k'|] eqn:Hk; [|done].
    injection E as <-. unfold hung. cbn. split; [done|]. split; [done|]. destruct (decide (j = i)) as [->|Hne].
    + destruct Hi as (pc & Hi & Hpc). rewrite Hj in Hi. injection Hi as ->. destruct Hpc as [->| ->]; cbn in Hk; [done|]. injection Hk as <-. split.
      * exists K_created. split; [apply list_lookup_insert_eq; by eapply lookup_lt_Some|by left].
      * intros j' k' Hj' Hne'. rewrite list_lookup_insert_ne in Hj' by done. by eapply Ho.
    + split.
      * destruct Hi as (pc & Hi & Hpc). exists pc. by rewrite list_lookup_insert_ne by done.
      * intros j' k'' Hj' Hne'. destruct (decide (j' = j)) as [->|Hne2].
        -- rewrite list_lookup_insert_eq in Hj' by (by eapply lookup_lt_Some). injection Hj' as <-. pose proof (Ho j k Hj Hne) as Hk0.
           destruct k as [p []]; cbn in *; simplify_eq; done.
        -- rewrite list_lookup_insert_ne in Hj' by done. by eapply Ho.
Qed.
Lemma hung_forever i th acts : ∀ s s', hung i th s → od_steps acts s = Some s' → ∃ k, callers s' !! i = Some k ∧ k_prog k = [K_launch th].
Proof.
  induction acts as [|a acts IH]; intros s s' H E; cbn [od_steps] in E.
  - injection E as <-. destruct H as (_ & _ & (pc & Hi & _) & _). by eexists.
  - destruct (od_step a s) as [s1|] eqn:E1; [|done]. by eapply IH; [eapply hung_step|].
Qed.

Lemma od_steps_app l1 l2 s s1 : od_steps l1 s = Some s1 → od_steps (l1 ++ l2) s = od_steps l2 s1.
Proof.
  revert s. induction l1 as [|a l1 IH]; intros s E; cbn [od_steps app] in *; [by injection E as ->|].
  destruct (od_step a s) as [s2|]; [|done]. by apply IH.
Qed.

(** ** Theorems *)

(** C23: with one caller and threads that can be created, the operations are copied in the order in which they are launched, a launch returns
    only when its operation is copied, a run without spurious wake-ups has a bounded number of steps, and a run that cannot go on has executed every
    operation once, ended every thread and returned from every call. *)
Theorem one_launcher_completes tasks acts s :
  od_steps acts (od_start tasks) = Some s → forallb creates acts = true →
  (∃ pend, launched s = copied s ++ pend ∧ (pend ≠ [] → ∃ k th p, callers s = [k] ∧ k_prog k = K_launch th :: p)) ∧
  (forallb ordinary acts = true → (length acts <= 35 * length tasks + 5)%nat) ∧
  (stuck s → callers s = [Caller [] K_ready] ∧ n_workers (od s) = 0 ∧ strip <$> finished s ≡ₚ strip <$> tasks).
Proof.
  intros E Hok. pose proof (one_caller_steps tasks acts _ _ (one_caller_start tasks) Hok E) as HI.
  split; [|split].
  - destruct HI as [(prog & pc & pend & past & todo & Hc & _ & _ & Hp & Hph) _ _]. exists pend. split; [done|].
    intros Hne. destruct Hph; try done; unfold calls_of in *; rewrite Hc; by eexists _, _, _.
  - intros Hord. pose proof (measure_steps acts (od_start tasks) s _ eq_refl Hord E) as Hm.
    assert (measure (od_start tasks) <= 35 * length tasks + 5)%nat; [|lia].
    unfold measure, od_start. cbn [threads callers worker_ondemand_init fmap list_fmap sum_list_with]. rewrite ready_weight.
    clear. unfold prog_of. rewrite sum_list_with_app. cbn. induction tasks as [|th l IH]; cbn; [lia|].
    rewrite sum_list_with_app. destruct (wait4me th); cbn; lia.
  - by apply stuck_end.
Qed.

Definition some_ops : list st_th := [StTh 0 1 7 true 10; StTh 0 2 7 false 20].
Definition some_acts : list oaction :=
  [A_caller true 0; A_caller true 0; A_caller true 0; A_thread 0; A_caller true 0; A_caller true 0; A_thread 0; A_thread 0; A_caller true 0;
   A_caller true 0; A_caller true 0; A_thread 1; A_caller true 0; A_thread 0; A_caller true 0; A_thread 1; A_thread 1; A_caller true 0].
Definition ops_run : list st_th := [StTh 0 1 7 true 10; StTh 1 2 7 false 20].
Definition some_end : ostate :=
  OState (OnDemand true 0) 2 [O_gone; O_gone] [Caller [] K_ready] (<[7%nat := StTh 1 2 7 false 20]> (<[7%nat := StTh 0 1 7 true 10]> ∅))
    (<[7%nat := true]> (<[7%nat := false]> ∅)) ops_run ops_run ops_run.
Lemma one_launcher_completes_witness :
  od_steps some_acts (od_start some_ops) = Some some_end ∧ strip <$> finished some_end ≡ₚ strip <$> some_ops.
Proof.
  assert (od_steps some_acts (od_start some_ops) = Some some_end) as E by reflexivity.
  split; [exact E|].
  destruct (one_launcher_completes some_ops some_acts some_end E eq_refl) as (_ & _ & H).
  apply H. intros [j|ok i|i] Ha; [|destruct ok; [|discriminate Ha]|discriminate Ha]; cbn.
  - by destruct j as [|[|j]].
  - by destruct i.
Defined.

(** C35: with two callers the wake-up of one can be lost: both threads clear [busy_worker] before either caller looks at it, the first caller
    sets it again, and the second waits for ever although its operation is copied; and a caller whose thread could not be created waits for ever. *)
Theorem launchers_hang t1 t2 :
  (∃ acts s, od_steps acts (worker_ondemand_init [[K_launch t1]; [K_launch t2]]) = Some s ∧ length (copied s) = 2%nat ∧
     ∀ acts' s', od_steps acts' s = Some s' → ∃ k, callers s' !! 1%nat = Some k ∧ k_prog k = [K_launch t2]) ∧
  (∃ s, od_steps [A_caller true 0; A_caller false 0] (worker_ondemand_init [[K_launch t1]]) = Some s ∧
     ∀ acts' s', od_steps acts' s = Some s' → ∃ k, callers s' !! 0%nat = Some k ∧ k_prog k = [K_launch t1]).
Proof.
  split.
  - set (both := [A_caller true 0; A_caller true 0; A_caller true 1; A_caller true 1; A_thread 0; A_thread 1]).
    assert (∃ th1 th2 c, od_steps both (worker_ondemand_init [[K_launch t1]; [K_launch t2]])
      = Some (OState (OnDemand false 2) 2 [O_run th1; O_run th2] [Caller [K_launch t1] K_created; Caller [K_launch t2] K_created]
                c ∅ [set_id 0 t1; set_id 1 t2] [th1; th2] [])) as (th1 & th2 & c & E).
    { cbn. unfold worker_run. cbn. destruct (decide (th_v t2 = th_v t1)) as [->|Hne].
      - rewrite lookup_insert_eq. cbn. rewrite lookup_insert_eq. by eexists _, _, _.
      - rewrite lookup_insert_ne, lookup_insert_eq by done. cbn. rewrite lookup_insert_eq. by eexists _, _, _. }
    exists (both ++ [A_caller true 0]). eexists. rewrite (od_steps_app _ _ _ _ E). split; [reflexivity|]. split; [done|].
    intros acts' s' E'. eapply (hung_forever 1 t2); [|exact E']. split; [done|]. split; [by repeat constructor|]. split.
    + eexists. split; [reflexivity|by left].
    + by intros [|[|j]] k [= <-].
  - eexists. split; [reflexivity|]. intros acts' s' E'. eapply (hung_forever 0 t1); [|exact E']. split; [done|]. split; [done|]. split.
    + eexists. split; [reflexivity|by left].
    + by intros [|j] k [= <-].
Qed.
