(* ===== verification/Header.v ===== *)
(** * Header: the metadata at the start of a file

    [struct xpn_metadata] (src/include/xpn_client/xpn/xpn_simple/xpn_metadata.h)
    as the bytes a server reads and writes: the layout of the LP64,
    little-endian build (HAVE_64BITS), with the padding of the compiler. *)

From S2P Require Import Prelude Cstr Mdata.

(** ** Little-endian integers *)

Fixpoint le_bytes (n : nat) (z : Z) : list ascii :=
  match n with O => [] | S n' => ascii_of_N (Z.to_N (z mod 256)) :: le_bytes n' (z / 256) end.
Fixpoint le_val (l : list ascii) : Z :=
  match l with [] => 0 | a :: l' => Z.of_N (N_of_ascii a) + 256 * le_val l' end.

(** ** The struct *)

(** [sizeof(struct xpn_metadata)] and [offsetof(struct xpn_metadata, file_size)]. *)
Definition SIZEOF_MDATA : Z := 368.
Definition OFFSETOF_FILE_SIZE : Z := 24.

Definition int_bytes (z : Z) : list ascii := le_bytes 4 (z mod 2 ^ 32).
Definition long_bytes (z : Z) : list ascii := le_bytes 8 (z mod 2 ^ 64).
Definition pad (n : nat) : list ascii := replicate n NUL.

Definition mdata_bytes (m : xpn_metadata) : list ascii :=
  ((λ z, ascii_of_N (Z.to_N (z mod 256))) <$> magic_number m) ++ pad 1
  ++ int_bytes (version m) ++ int_bytes (type_ m) ++ pad 4
  ++ long_bytes (block_size m) ++ long_bytes (file_size m)
  ++ int_bytes (replication_level m) ++ int_bytes (first_node m) ++ int_bytes (distribution_policy m)
  ++ (data_nserv m ≫= int_bytes) ++ (offsets m ≫= int_bytes) ++ pad 4.

Definition at_bytes (o n : nat) (l : list ascii) : list ascii := take n (drop o l).
Definition int_at (o : nat) (l : list ascii) : Z := i32 (le_val (at_bytes o 4 l)).
Definition long_at (o : nat) (l : list ascii) : Z := i64 (le_val (at_bytes o 8 l)).
Definition char_at (o : nat) (l : list ascii) : Z := wrap_s 8 (le_val (at_bytes o 1 l)).
Definition ints_at (o n : nat) (l : list ascii) : list Z := (λ k, int_at (o + 4 * k) l) <$> seq 0 n.

Definition mdata_of_bytes (l : list ascii) : xpn_metadata :=
  XpnMetadata ((λ k, char_at k l) <$> seq 0 3) (int_at 4 l) (int_at 8 l) (long_at 16 l) (long_at 24 l)
    (int_at 32 l) (int_at 36 l) (int_at 40 l) (ints_at 44 40 l) (ints_at 204 40 l).

(** The values a C program can hold in the fields. *)
Record mdata_in_range (m : xpn_metadata) : Prop := {
  mr_magic : length (magic_number m) = 3%nat ∧ Forall (λ z, - 128 <= z < 128) (magic_number m);
  mr_ints : Forall (λ z, - 2 ^ 31 <= z < 2 ^ 31) [version m; type_ m; replication_level m; first_node m; distribution_policy m];
  mr_longs : Forall (λ z, - 2 ^ 63 <= z < 2 ^ 63) [block_size m; file_size m];
  mr_nserv : length (data_nserv m) = 40%nat ∧ Forall (λ z, - 2 ^ 31 <= z < 2 ^ 31) (data_nserv m);
  mr_offsets : length (offsets m) = 40%nat ∧ Forall (λ z, - 2 ^ 31 <= z < 2 ^ 31) (offsets m) }.

(** ** What is written is read *)

Lemma le_bytes_length n z : length (le_bytes n z) = n.
Proof. revert z. induction n as [|n IH]; intros z; cbn; [done|by rewrite IH]. Qed.
Lemma le_val_bytes n z : le_val (le_bytes n z) = z mod 2 ^ (8 * Z.of_nat n).
Proof.
  revert z. induction n as [|n IH]; intros z; [cbn; by rewrite Z.mod_1_r|].
  cbn [le_bytes le_val]. rewrite IH, N_ascii_embedding.
  2: { pose proof (Z.mod_pos_bound z 256 ltac:(lia)). lia. }
  rewrite Z2N.id by (apply Z.mod_pos_bound; lia).
  replace (8 * Z.of_nat (S n)) with (8 + 8 * Z.of_nat n) by lia. rewrite Z.pow_add_r by lia. change (2 ^ 8) with 256.
  rewrite Z.rem_mul_r by lia. done.
Qed.

Lemma at_bytes_app l1 x l2 o n : o = length l1 → n = length x → at_bytes o n (l1 ++ x ++ l2) = x.
Proof. intros -> ->. unfold at_bytes. by rewrite drop_app_length, take_app_length. Qed.

Lemma int_at_app l1 z l2 o : o = length l1 → - 2 ^ 31 <= z < 2 ^ 31 → int_at o (l1 ++ int_bytes z ++ l2) = z.
Proof.
  intros Ho Hz. unfold int_at. rewrite (at_bytes_app l1 (int_bytes z)) by (done || by unfold int_bytes; rewrite le_bytes_length).
  unfold int_bytes. rewrite le_val_bytes. change (2 ^ (8 * Z.of_nat 4)) with (2 ^ 32). rewrite Z.mod_mod by lia.
  unfold i32, wrap_s. rewrite Zplus_mod_idemp_l. change (2 ^ (32 - 1)) with (2 ^ 31). rewrite Z.mod_small by lia. lia.
Qed.
Lemma long_at_app l1 z l2 o : o = length l1 → - 2 ^ 63 <= z < 2 ^ 63 → long_at o (l1 ++ long_bytes z ++ l2) = z.
Proof.
  intros Ho Hz. unfold long_at. rewrite (at_bytes_app l1 (long_bytes z)) by (done || by unfold long_bytes; rewrite le_bytes_length).
  unfold long_bytes. rewrite le_val_bytes. change (2 ^ (8 * Z.of_nat 8)) with (2 ^ 64). rewrite Z.mod_mod by lia.
  unfold i64, wrap_s. rewrite Zplus_mod_idemp_l. change (2 ^ (64 - 1)) with (2 ^ 63). rewrite Z.mod_small by lia. lia.
Qed.
Lemma char_at_app l1 z l2 o : o = length l1 → - 128 <= z < 128 →
  char_at o (l1 ++ [ascii_of_N (Z.to_N (z mod 256))] ++ l2) = z.
Proof.
  intros Ho Hz. unfold char_at. rewrite (at_bytes_app l1 [_]) by done. cbn [le_val].
  pose proof (Z.mod_pos_bound z 256 ltac:(lia)). rewrite N_ascii_embedding by lia. rewrite Z2N.id by lia.
  unfold wrap_s. rewrite Z.add_0_r || rewrite Z.mul_0_r, Z.add_0_r. change (2 ^ 8) with 256. rewrite Zplus_mod_idemp_l. change (2 ^ (8 - 1)) with 128.
  rewrite Z.mod_small by lia. lia.
Qed.
Lemma ints_at_app l1 zs l2 o n : o = length l1 → n = length zs → Forall (λ z, - 2 ^ 31 <= z < 2 ^ 31) zs →
  ints_at o n (l1 ++ (zs ≫= int_bytes) ++ l2) = zs.
Proof.
  intros Ho Hn HF. apply list_eq. intros k. unfold ints_at. rewrite list_lookup_fmap.
  destruct (decide (k < n)%nat) as [Hk|Hk].
  - rewrite lookup_seq_lt by done. cbn [fmap option_fmap option_map].
    destruct (lookup_lt_is_Some_2 zs k) as [z Hz]; [lia|]. rewrite Hz. f_equal.
    rewrite <- (take_drop_middle zs k z Hz), bind_app, bind_cons, <- !app_assoc, (app_assoc l1).
    apply int_at_app; [|by apply (Forall_lookup_1 _ zs k z HF)].
    assert (∀ l, length (l ≫= int_bytes) = (4 * length l)%nat) as Hl.
    { induction l as [|a l IH]; [done|]. rewrite bind_cons, length_app, IH. unfold int_bytes. rewrite le_bytes_length. cbn. lia. }
    rewrite length_app, Hl, length_take. lia.
  - rewrite (lookup_ge_None_2 zs k) by lia. rewrite (lookup_ge_None_2 (seq 0 n) k); [done|rewrite length_seq; lia].
Qed.
Lemma ints_length zs : length (zs ≫= int_bytes) = (4 * length zs)%nat.
Proof. induction zs as [|a l IH]; [done|]. rewrite bind_cons, length_app, IH. unfold int_bytes. rewrite le_bytes_length. cbn. lia. Qed.

Lemma mdata_bytes_length m : length (magic_number m) = 3%nat → length (data_nserv m) = 40%nat → length (offsets m) = 40%nat →
  Z.of_nat (length (mdata_bytes m)) = SIZEOF_MDATA.
Proof.
  intros H1 H2 H3. unfold mdata_bytes, pad, int_bytes, long_bytes. rewrite !length_app, !le_bytes_length, !length_replicate, length_fmap, H1.
  fold int_bytes. rewrite !ints_length, H2, H3. done.
Qed.

(** Reassociates a concatenation around its [n]-th piece. *)
Lemma app_split (ls : list (list ascii)) n x : ls !! n = Some x → concat ls = concat (take n ls) ++ x ++ concat (drop (S n) ls).
Proof. intros Hn. rewrite <- (take_drop_middle ls n x Hn) at 1. by rewrite concat_app. Qed.

Definition field_bytes (m : xpn_metadata) : list (list ascii) :=
  [(λ z, ascii_of_N (Z.to_N (z mod 256))) <$> magic_number m; pad 1; int_bytes (version m); int_bytes (type_ m); pad 4;
   long_bytes (block_size m); long_bytes (file_size m);
   int_bytes (replication_level m); int_bytes (first_node m); int_bytes (distribution_policy m);
   data_nserv m ≫= int_bytes; offsets m ≫= int_bytes; pad 4].
Lemma mdata_bytes_pieces m : mdata_bytes m = concat (field_bytes m).
Proof. unfold mdata_bytes, field_bytes, concat. by rewrite app_nil_r. Qed.

Lemma mdata_read_back m rest : mdata_in_range m → mdata_of_bytes (mdata_bytes m ++ rest) = m.
Proof.
  intros [[M1 M2] HI HL [N1 N2] [O1 O2]].
  repeat (apply Forall_cons in HI as [? HI]). repeat (apply Forall_cons in HL as [? HL]).
  destruct m as [magic v t bs fs rl fn dp ns os]. cbn [magic_number version type_ block_size file_size replication_level first_node distribution_policy data_nserv offsets] in *.
  destruct magic as [|a [|b [|c [|]]]]; try done. repeat (apply Forall_cons in M2 as [? M2]).
  rewrite mdata_bytes_pieces. set (m := XpnMetadata _ _ _ _ _ _ _ _ _ _).
  assert (∀ n x, field_bytes m !! n = Some x → concat (field_bytes m) ++ rest = concat (take n (field_bytes m)) ++ x ++ (concat (drop (S n) (field_bytes m)) ++ rest)) as HS.
  { intros n x Hn. rewrite (app_split _ n x Hn) at 1. by rewrite <- !app_assoc. }
  assert (∀ n, (n <= 11)%nat → length (concat (take n (field_bytes m))) = nth n [0; 3; 4; 8; 12; 16; 24; 32; 36; 40; 44; 204]%nat 0%nat) as Hlen.
  { intros n Hn. do 12 (destruct n as [|n]; [cbn [take field_bytes m concat nth magic_number version type_ block_size file_size replication_level first_node distribution_policy data_nserv offsets];
      rewrite ?length_app, ?length_fmap, ?ints_length; unfold int_bytes, long_bytes; rewrite ?le_bytes_length, ?length_replicate, ?N1; reflexivity|]). lia. }
  unfold mdata_of_bytes. f_equal.
  - unfold m at 1. cbn [field_bytes magic_number concat fmap list_fmap seq]. rewrite <- !app_assoc. cbn [app].
    f_equal; [|f_equal; [|f_equal]]; cbn [app];
      [apply (char_at_app []); [done|lia]|apply (char_at_app [_]); [done|lia]|apply (char_at_app [_;_]); [done|lia]].
  - rewrite (HS 2%nat _ eq_refl). apply int_at_app; [by rewrite Hlen by lia|done].
  - rewrite (HS 3%nat _ eq_refl). apply int_at_app; [by rewrite Hlen by lia|done].
  - rewrite (HS 5%nat _ eq_refl). apply long_at_app; [by rewrite Hlen by lia|done].
  - rewrite (HS 6%nat _ eq_refl). apply long_at_app; [by rewrite Hlen by lia|done].
  - rewrite (HS 7%nat _ eq_refl). apply int_at_app; [by rewrite Hlen by lia|done].
  - rewrite (HS 8%nat _ eq_refl). apply int_at_app; [by rewrite Hlen by lia|done].
  - rewrite (HS 9%nat _ eq_refl). apply int_at_app; [by rewrite Hlen by lia|done].
  - rewrite (HS 10%nat _ eq_refl). apply ints_at_app; [by rewrite Hlen by lia|done|done].
  - rewrite (HS 11%nat _ eq_refl). apply ints_at_app; [by rewrite Hlen by lia|done|done].
Qed.

(** The header round trip.  The metadata that is written at the start of a
    file is the metadata that is read back, for every value the fields can
    hold; and it occupies [sizeof(struct xpn_metadata)] bytes, which fit in the
    header. *)
Theorem mdata_bytes_roundtrip m rest :
  mdata_in_range m → mdata_of_bytes (mdata_bytes m ++ rest) = m ∧ Z.of_nat (length (mdata_bytes m)) = SIZEOF_MDATA.
Proof.
  intros H. split; [by apply mdata_read_back|]. destruct H as [[M1 _] _ _ [N1 _] [O1 _]]. by apply mdata_bytes_length.
Qed.

Lemma mdata_bytes_roundtrip_witness :
  let m := XpnMetadata XPN_MAGIC_NUMBER 1 0 524288 1000 1 2 1 (4 :: replicate 39 0) (replicate 40 (-1)) in
  mdata_of_bytes (mdata_bytes m ++ str "data") = m ∧ Z.of_nat (length (mdata_bytes m)) = SIZEOF_MDATA.
Proof.
  cbv zeta. apply mdata_bytes_roundtrip. split; cbn; try (split; [reflexivity|]); repeat constructor; lia.
Defined.
