(* ===== verification/FileSystem.v ===== *)
(** * FileSystem: the calls of src/src/base/filesystem.c

    The C library's calls on files are the class [Posix]: a call changes the
    file system [F] and returns a value, or an error number.  [errno] is
    changed by the calls that fail only.  The wrappers of filesystem.c are
    functions on a [site]: a machine with its file system, the client process
    and the server process that run on it, and the connection between them. *)

From S2P Require Import Prelude Cstr Paths Mdata Nfi Client Header.

(** ** The calls *)

(** The fields of [struct stat] that the code uses. *)
Record stat := Stat {
  sb_dev : Z; sb_ino : Z; sb_mode : Z; sb_nlink : Z; sb_uid : Z; sb_gid : Z;
  sb_size : Z; sb_blksize : Z; sb_blocks : Z; sb_atime : Z; sb_mtime : Z; sb_ctime : Z }.

(** A result, or the error number. *)
Definition sys (F A : Type) : Type := F → (A + Z) * F.

Class Posix (F : Type) := {
  sys_open : cstr → Z → Z → sys F Z;
  sys_creat : cstr → Z → sys F Z;
  sys_close : Z → sys F unit;
  sys_fsync : Z → sys F unit;
  sys_read : Z → Z → sys F (list ascii);
  sys_write : Z → list ascii → sys F Z;
  sys_lseek : Z → Z → sys F Z;
  sys_stat : cstr → sys F stat;
  sys_mkdir : cstr → Z → sys F unit;
  sys_rmdir : cstr → sys F unit;
  sys_unlink : cstr → sys F unit;
  sys_rename : cstr → cstr → sys F unit;
  sys_opendir : cstr → sys F Z;
  sys_telldir : Z → sys F Z;
  sys_seekdir : Z → Z → sys F unit;
  sys_readdir : Z → sys F (option dirent);
  sys_closedir : Z → sys F unit;
  (** Success is not negative, and a [DIR *] is not NULL. *)
  sys_write_pos fd d w n w' : sys_write fd d w = (inl n, w') → 0 <= n;
  sys_open_pos path flags mode w r w' : sys_open path flags mode w = (inl r, w') → 0 <= r;
  sys_opendir_pos path w r w' : sys_opendir path w = (inl r, w') → 0 < r }.

(** ** The site *)

(** [struct nfi_xpn_server_fhandle] and [struct nfi_local_fhandle]. *)
Record xs_fhandle := XsFh { h_path : cstr; h_telldir : Z; h_dir : Z; h_fd : Z }.

(** What travels on a connection: a struct is one item, data is one item per
    byte.  [I_op] is the code of an operation. *)
Record path_flags := PathFlags { pf_flags : Z; pf_mode : Z; pf_session : Z; pf_file_type : Z; pf_path_len : Z; pf_path : list ascii }.
Record path_msg := PathMsg { pm_path_len : Z; pm_path : list ascii }.
Record close_msg := CloseMsg { cm_fd : Z; cm_file_type : Z; cm_dir : Z; cm_path_len : Z; cm_path : list ascii }.
Record rw_msg := RwMsg { rw_fd : Z; rw_file_type : Z; rw_offset : Z; rw_size : Z; rw_session : Z; rw_path_len : Z; rw_path : list ascii }.
Record rename_msg := RenameMsg { rn_old_len : Z; rn_new_len : Z; rn_old : list ascii; rn_new : list ascii }.
Record setattr_msg := SetattrMsg { sa_attr : stat; sa_path_len : Z; sa_path : list ascii }.
Record readdir_msg := ReaddirMsg { rd_telldir : Z; rd_dir : Z; rd_session : Z; rd_path_len : Z; rd_path : list ascii }.
Record mdata_msg := MdataMsg { mm_mdata : xpn_metadata; mm_path_len : Z; mm_path : list ascii }.
Record size_msg := SizeMsg { sm_size : Z; sm_path_len : Z; sm_path : list ascii }.
Record status := Status { st_ret : Z; st_errno : Z }.
Record rw_req := RwReq { rq_size : Z; rq_status : status }.
Record attr_req := AttrReq { aq_attr : stat; aq_status_req : status; aq_status : Z }.
Record opendir_req := OpendirReq { oq_dir : Z; oq_status : status }.
Record readdir_req := ReaddirReq { dq_end : Z; dq_telldir : Z; dq_ret : dirent; dq_status : status }.
Record mdata_req := MdataReq { mq_mdata : xpn_metadata; mq_status : status }.
Inductive item :=
  | I_op (op : Z) | I_byte (a : ascii)
  | I_path_flags (m : path_flags) | I_path (m : path_msg) | I_close (m : close_msg) | I_rw (m : rw_msg)
  | I_rename (m : rename_msg) | I_setattr (m : setattr_msg) | I_readdir (m : readdir_msg)
  | I_mdata (m : mdata_msg) | I_size (m : size_msg)
  | I_status (r : status) | I_rw_req (r : rw_req) | I_attr_req (r : attr_req)
  | I_opendir_req (r : opendir_req) | I_readdir_req (r : readdir_req) | I_mdata_req (r : mdata_req).

Record site (F : Type) := Site {
  c_errno : Z;                       (* errno of the client's thread *)
  s_errno : Z;                       (* errno of the server's thread *)
  fs : F;
  handles : gmap Z xs_fhandle;       (* the private handles the client allocated *)
  next_handle : Z;
  private_info : bool;               (* serv->private_info is not NULL *)
  connected : bool;
  reachable : bool;                  (* the server accepts connections *)
  to_server : list item;
  to_client : list item }.
Arguments Site {F}. Arguments c_errno {F}. Arguments s_errno {F}. Arguments fs {F}. Arguments handles {F}. Arguments next_handle {F}.
Arguments private_info {F}. Arguments connected {F}. Arguments reachable {F}. Arguments to_server {F}. Arguments to_client {F}.

(** The process that runs a call. *)
Inductive side := Client | Server.

Section updates.
Context {F : Type}.
Implicit Types s : site F.
Definition errno_of (p : side) s : Z := match p with Client => c_errno s | Server => s_errno s end.
Definition with_errno (p : side) (e : Z) s : site F :=
  match p with
  | Client => Site e (s_errno s) (fs s) (handles s) (next_handle s) (private_info s) (connected s) (reachable s) (to_server s) (to_client s)
  | Server => Site (c_errno s) e (fs s) (handles s) (next_handle s) (private_info s) (connected s) (reachable s) (to_server s) (to_client s)
  end.
Definition with_fs (w : F) s : site F :=
  Site (c_errno s) (s_errno s) w (handles s) (next_handle s) (private_info s) (connected s) (reachable s) (to_server s) (to_client s).
Definition with_handles (h : gmap Z xs_fhandle) s : site F :=
  Site (c_errno s) (s_errno s) (fs s) h (next_handle s) (private_info s) (connected s) (reachable s) (to_server s) (to_client s).
Definition with_next_handle (n : Z) s : site F :=
  Site (c_errno s) (s_errno s) (fs s) (handles s) n (private_info s) (connected s) (reachable s) (to_server s) (to_client s).
Definition with_private (b : bool) s : site F :=
  Site (c_errno s) (s_errno s) (fs s) (handles s) (next_handle s) b (connected s) (reachable s) (to_server s) (to_client s).
Definition with_link (b : bool) (i o : list item) s : site F :=
  Site (c_errno s) (s_errno s) (fs s) (handles s) (next_handle s) (private_info s) b (reachable s) i o.
End updates.

(** ** filesystem.c *)

Section filesystem.
Context {F : Type} `{PX : !Posix F}.
Abbreviation prog := (M (site F)).

Definition set_errno_of (p : side) (e : Z) : prog unit := modify (with_errno p e).

(** A call whose failure is the value [bad]. *)
Definition syscall {A} (p : side) (f : sys F A) (bad : A) : prog A := λ s,
  let '(r, w) := f (fs s) in
  match r with inl a => Some (a, with_fs w s) | inr e => Some (bad, with_errno p e (with_fs w s)) end.

(** A call that returns 0. *)
Definition sys0 (f : sys F unit) : sys F Z := λ w,
  let '(r, w') := f w in (match r with inl _ => inl 0 | inr e => inr e end, w').

Definition filesystem_creat (p : side) (pathname : cstr) (mode : Z) : prog Z := syscall p (sys_creat pathname mode) (-1).
Definition filesystem_open (p : side) (pathname : cstr) (flags : Z) : prog Z := syscall p (sys_open pathname flags 0) (-1).
Definition filesystem_open2 (p : side) (pathname : cstr) (flags mode : Z) : prog Z := syscall p (sys_open pathname flags mode) (-1).
Definition filesystem_close (p : side) (fd : Z) : prog Z := syscall p (sys0 (sys_close fd)) (-1).
Definition filesystem_fsync (p : side) (fd : Z) : prog Z := syscall p (sys0 (sys_fsync fd)) (-1).
Definition filesystem_rename (p : side) (old_pathname new_pathname : cstr) : prog Z := syscall p (sys0 (sys_rename old_pathname new_pathname)) (-1).
Definition filesystem_mkdir (p : side) (pathname : cstr) (mode : Z) : prog Z := syscall p (sys0 (sys_mkdir pathname mode)) (-1).
Definition filesystem_rmdir (p : side) (pathname : cstr) : prog Z := syscall p (sys0 (sys_rmdir pathname)) (-1).
Definition filesystem_opendir (p : side) (pathname : cstr) : prog Z := syscall p (sys_opendir pathname) 0.
Definition filesystem_telldir (p : side) (dirp : Z) : prog Z := syscall p (sys_telldir dirp) (-1).
Definition filesystem_seekdir (p : side) (dirp loc : Z) : prog Z := syscall p (sys0 (sys_seekdir dirp loc)) (-1).
Definition filesystem_readdir (p : side) (dirp : Z) : prog (option dirent) := syscall p (sys_readdir dirp) None.
Definition filesystem_closedir (p : side) (dirp : Z) : prog Z := syscall p (sys0 (sys_closedir dirp)) (-1).
Definition filesystem_lseek (p : side) (fd offset : Z) : prog Z := syscall p (sys_lseek fd offset) (-1).
Definition filesystem_unlink (p : side) (pathname : cstr) : prog Z := syscall p (sys0 (sys_unlink pathname)) (-1).
(** The [stat] structure is written on success. *)
Definition filesystem_stat (p : side) (pathname : cstr) : prog (option stat) :=
  syscall p (λ w, let '(r, w') := sys_stat pathname w in (match r with inl a => inl (Some a) | inr e => inr e end, w')) None.

(** The loops: each round asks for what is left.  A round that transfers
    something makes progress, so [buffer_size + 1] rounds are enough; the
    write loop spins when a write transfers nothing. *)
Fixpoint read_all (fuel : nat) (p : side) (fd remaining : Z) (acc : list ascii) : prog (Z * list ascii) :=
  if remaining <=? 0 then mret (Z.of_nat (length acc), acc)
  else
    match fuel with
    | O => fault
    | S fuel' =>
      r ← syscall p (λ w, let '(r, w') := sys_read fd remaining w in (match r with inl d => inl (Some d) | inr e => inr e end, w')) None;
      match r with
      | None => mret (-1, acc)
      | Some d =>
        if Z.of_nat (length d) =? 0 then mret (Z.of_nat (length acc), acc)
        else read_all fuel' p fd (remaining - Z.of_nat (length d)) (acc ++ d)
      end
    end.
(** The result, and what was stored in the buffer. *)
Definition filesystem_read (p : side) (read_fd2 buffer_size : Z) : prog (Z * list ascii) :=
  read_all (S (Z.to_nat buffer_size)) p read_fd2 buffer_size [].

Fixpoint write_all (fuel : nat) (p : side) (fd : Z) (rest : list ascii) : prog bool :=
  match rest, fuel with
  | [], _ => mret true
  | _, O => fault
  | _, S fuel' =>
    n ← syscall p (sys_write fd rest) (-1);
    if (n : Z) <? 0 then mret false else write_all fuel' p fd (drop (Z.to_nat n) rest)
  end.
Definition filesystem_write (p : side) (write_fd2 : Z) (buffer : list ascii) : prog Z :=
  ok ← write_all (S (length buffer)) p write_fd2 buffer;
  mret (if (ok : bool) then Z.of_nat (length buffer) else -1).
End filesystem.
