(* ===== verification/PosixFiles.v ===== *)
(** * PosixFiles: what the code relies on for regular files

    [PosixFiles] states the documented behaviour of lseek, read and write on an
    open regular file with room: a write transfers at least one byte and at
    most what it is asked, a read is short only where the file ends or as the
    system likes, but never empty before the end; the bytes written replace
    those of the file ([splice]), and fsync changes nothing that can be seen.  Over it the loops of
    filesystem.c transfer everything, whatever the short counts. *)

From S2P Require Import Prelude Cstr Mdata Nfi Client MemFs Header FileSystem.

Class PosixFiles (F : Type) {PX : Posix F} := {
  readable : Z → F → Prop;
  writable : Z → F → Prop;
  (** The state with the position of [fd] at [off]; the state with [d] written at [off]. *)
  seek : Z → Z → F → F;
  put_at : Z → Z → list ascii → F → F;
  content : Z → F → list ascii;
  lseek_ok fd off w : readable fd w ∨ writable fd w → 0 <= off → sys_lseek fd off w = (inl off, seek fd off w);
  write_ok fd off d w : writable fd w → 0 <= off → d ≠ [] →
    ∃ n, 0 < n <= Z.of_nat (length d) ∧
      sys_write fd d (seek fd off w) = (inl n, seek fd (off + n) (put_at fd off (take (Z.to_nat n) d) w));
  read_ok fd off n w : readable fd w → 0 <= off → 0 < n →
    ∃ k, (k <= Z.to_nat n)%nat ∧ (off < Z.of_nat (length (content fd w)) → (0 < k)%nat) ∧
      let d := take k (drop (Z.to_nat off) (content fd w)) in
      sys_read fd n (seek fd off w) = (inl d, seek fd (off + Z.of_nat (length d)) w);
  seek_seek fd a b w : seek fd a (seek fd b w) = seek fd a w;
  put_seek fd off d a w : put_at fd off d (seek fd a w) = seek fd a (put_at fd off d w);
  put_nil fd off w : put_at fd off [] w = w;
  put_put fd off d1 d2 w : writable fd w → 0 <= off →
    put_at fd (off + Z.of_nat (length d1)) d2 (put_at fd off d1 w) = put_at fd off (d1 ++ d2) w;
  content_put fd off d w : writable fd w → 0 <= off → d ≠ [] → content fd (put_at fd off d w) = splice (content fd w) (Z.to_nat off) d;
  content_fsync fd w : content fd (snd (sys_fsync fd w)) = content fd w;
  fsync_readable fd w : readable fd w → readable fd (snd (sys_fsync fd w));
  put_readable fd off d w : readable fd w → readable fd (put_at fd off d w);
  content_seek fd a w : content fd (seek fd a w) = content fd w;
  seek_writable fd a w : writable fd w → writable fd (seek fd a w);
  seek_readable fd a w : readable fd w → readable fd (seek fd a w);
  put_writable fd off d w : writable fd w → writable fd (put_at fd off d w) }.

Section loops.
Context {F : Type} {PX : Posix F} {PF : PosixFiles F}.

Lemma put_take_drop fd off d n w : writable fd w → 0 <= off → 0 <= n <= Z.of_nat (length d) →
  put_at fd (off + n) (drop (Z.to_nat n) d) (put_at fd off (take (Z.to_nat n) d) w) = put_at fd off d w.
Proof.
  intros Hw Ho Hn. replace n with (Z.of_nat (length (take (Z.to_nat n) d))) at 1 by (rewrite length_take; lia).
  rewrite put_put by done. by rewrite take_drop.
Qed.

Lemma write_all_run fuel p fd d : ∀ off w (s : site F), writable fd w → 0 <= off → fs s = seek fd off w → (length d < fuel)%nat →
  write_all fuel p fd d s = Some (true, with_fs (seek fd (off + Z.of_nat (length d)) (put_at fd off d w)) s).
Proof.
  remember (length d) as n eqn:En. revert fuel d En. induction n as [n IH] using lt_wf_ind. intros fuel d En off w s Hw Ho Hs Hf.
  destruct fuel as [|fuel]; [lia|]. destruct (decide (d = [])) as [->|Hd].
  - cbn. subst n. cbn. rewrite put_nil, Z.add_0_r, <- Hs. destruct s; done.
  - destruct (write_ok fd off d w Hw Ho Hd) as (k & Hk & E).
    assert (write_all (S fuel) p fd d s = (n ← syscall p (sys_write fd d) (-1); if (n : Z) <? 0 then mret false else write_all fuel p fd (drop (Z.to_nat n) d)) s) as ->
      by (by destruct d).
    erewrite bind_step; [|unfold syscall; rewrite Hs, E; reflexivity]. cbv beta. rewrite (proj2 (Z.ltb_ge k 0)) by lia.
    rewrite (IH (length (drop (Z.to_nat k) d))) with (off := off + k) (w := put_at fd off (take (Z.to_nat k) d) w).
    + rewrite put_take_drop by (done || lia). rewrite length_drop.
      replace (off + k + Z.of_nat (length d - Z.to_nat k)) with (off + Z.of_nat (length d)) by lia. subst n. by destruct s.
    + rewrite length_drop. lia.
    + done.
    + by apply put_writable.
    + lia.
    + by destruct s.
    + rewrite length_drop. lia.
Qed.

(** [filesystem_write] writes the buffer. *)
Lemma filesystem_write_run p fd d off w (s : site F) : writable fd w → 0 <= off → fs s = seek fd off w →
  filesystem_write p fd d s = Some (Z.of_nat (length d), with_fs (seek fd (off + Z.of_nat (length d)) (put_at fd off d w)) s).
Proof.
  intros Hw Ho Hs. unfold filesystem_write. erewrite bind_step by (apply (write_all_run _ p fd d off w); done || lia). done.
Qed.

Lemma read_all_run fuel p fd : ∀ remaining off w acc (s : site F), readable fd w → 0 <= off → fs s = seek fd off w → (Z.to_nat remaining < fuel)%nat →
  let d := take (Z.to_nat remaining) (drop (Z.to_nat off) (content fd w)) in
  read_all fuel p fd remaining acc s
  = Some ((Z.of_nat (length (acc ++ d)), acc ++ d), with_fs (seek fd (off + Z.of_nat (length d)) w) s).
Proof.
  induction fuel as [|fuel IH]; intros n off w acc s Hr Ho Hs Hf; [lia|]. cbv zeta. cbn [read_all].
  destruct (Z.leb_spec n 0) as [Hn|Hn].
  - replace (Z.to_nat n) with 0%nat by lia. rewrite take_0, app_nil_r. cbn. rewrite Z.add_0_r, <- Hs. by destruct s.
  - destruct (read_ok fd off n w Hr Ho Hn) as (k & Hk & Hpos & E). cbv zeta in E.
    set (c := drop (Z.to_nat off) (content fd w)) in *.
    erewrite bind_step; [|unfold syscall; rewrite Hs, E; reflexivity]. cbv beta iota.
    destruct (Z.eqb_spec (Z.of_nat (length (take k c))) 0) as [H0|H0].
    + assert (take k c = []) as Hnil by (destruct (take k c); [done|cbn in H0; lia]).
      assert (c = []) as Hc.
      { destruct c as [|x c'] eqn:Ec; [done|]. exfalso. assert (off < Z.of_nat (length (content fd w))) as Hlt.
        { assert (length (drop (Z.to_nat off) (content fd w)) = S (length c')) as H by (fold c; by rewrite Ec). rewrite length_drop in H. lia. }
        specialize (Hpos Hlt). destruct k; [lia|]. cbn in Hnil. done. }
      rewrite Hc, !take_nil, app_nil_r. cbn. by rewrite Z.add_0_r.
    + set (d1 := take k c) in *. assert (length d1 <= Z.to_nat n)%nat as Hl by (unfold d1; rewrite length_take; lia).
      assert (c = d1 ++ drop (length d1) c) as Hsplit.
      { unfold d1. rewrite length_take. destruct (decide (k <= length c)%nat).
        - rewrite Nat.min_l by done. by rewrite take_drop.
        - rewrite Nat.min_r by lia. by rewrite drop_ge, app_nil_r, take_ge by lia. }
      rewrite (IH (n - Z.of_nat (length d1)) (off + Z.of_nat (length d1)) w) by (done || lia || by destruct s).
      assert (take (Z.to_nat (n - Z.of_nat (length d1))) (drop (Z.to_nat (off + Z.of_nat (length d1))) (content fd w))
        = take (Z.to_nat n - length d1) (drop (length d1) c)) as ->.
      { f_equal; [lia|]. unfold c. rewrite drop_drop. f_equal. lia. }
      assert (take (Z.to_nat n) c = d1 ++ take (Z.to_nat n - length d1) (drop (length d1) c)) as ->.
      { rewrite Hsplit at 1. by rewrite take_app_ge by lia. }
      rewrite (app_assoc acc), (length_app d1). rewrite (Nat2Z.inj_add (length d1)), (Z.add_assoc off). by destruct s.
Qed.

(** [filesystem_read] reads what is asked, up to the end of the file. *)
Lemma filesystem_read_run p fd n off w (s : site F) : readable fd w → 0 <= off → fs s = seek fd off w →
  let d := take (Z.to_nat n) (drop (Z.to_nat off) (content fd w)) in
  filesystem_read p fd n s = Some ((Z.of_nat (length d), d), with_fs (seek fd (off + Z.of_nat (length d)) w) s).
Proof. intros Hr Ho Hs. cbv zeta. unfold filesystem_read. rewrite (read_all_run _ p fd n off w []) by (done || lia). done. Qed.

Lemma lseek_run p fd off w (s : site F) : readable fd w ∨ writable fd w → 0 <= off → (fs s = w ∨ ∃ a, fs s = seek fd a w) →
  filesystem_lseek p fd off s = Some (off, with_fs (seek fd off w) s).
Proof.
  intros Hw Ho [Hs|[a Hs]]; unfold filesystem_lseek, syscall; rewrite Hs; [by rewrite lseek_ok|].
  rewrite lseek_ok; [by rewrite seek_seek| |done]. destruct Hw; [left; by apply seek_readable|right; by apply seek_writable].
Qed.
End loops.
