(* ===== verification/Server.v ===== *)
(** * Server: the Expand server

    src/src/xpn_server/xpn_server_ops.c: a handler per operation, and the
    dispatcher of xpn_server.c for one connection, with the operations run by
    the thread of the connection ([TH_NOT]).  A receive on a connection that
    holds something else than what is expected, or not enough, is [None]: the
    two ends are out of step, or the receiver waits for ever.  The MQTT mode
    is off. *)

From S2P Require Import Prelude Cstr Paths Mdata Nfi Client Header FileSystem.

Definition XPN_PATH_MAX : Z := 128.
Definition MAX_BUFFER_SIZE : Z := 1048576.

Definition XPN_SERVER_OPEN_FILE : Z := 0.
Definition XPN_SERVER_CREAT_FILE : Z := 1.
Definition XPN_SERVER_READ_FILE : Z := 2.
Definition XPN_SERVER_WRITE_FILE : Z := 3.
Definition XPN_SERVER_CLOSE_FILE : Z := 4.
Definition XPN_SERVER_RM_FILE : Z := 5.
Definition XPN_SERVER_RM_FILE_ASYNC : Z := 6.
Definition XPN_SERVER_RENAME_FILE : Z := 7.
Definition XPN_SERVER_GETATTR_FILE : Z := 8.
Definition XPN_SERVER_SETATTR_FILE : Z := 9.
Definition XPN_SERVER_MKDIR_DIR : Z := 20.
Definition XPN_SERVER_RMDIR_DIR : Z := 21.
Definition XPN_SERVER_RMDIR_DIR_ASYNC : Z := 22.
Definition XPN_SERVER_OPENDIR_DIR : Z := 23.
Definition XPN_SERVER_READDIR_DIR : Z := 24.
Definition XPN_SERVER_CLOSEDIR_DIR : Z := 25.
Definition XPN_SERVER_READ_MDATA : Z := 70.
Definition XPN_SERVER_WRITE_MDATA : Z := 71.
Definition XPN_SERVER_WRITE_MDATA_FILE_SIZE : Z := 72.
Definition XPN_SERVER_FINALIZE : Z := 80.
Definition XPN_SERVER_DISCONNECT : Z := 81.

(** What automatic variables hold before they are written. *)
Class Stack := { junk_ret : Z; junk_size : Z; junk_errno : Z; junk_stat : stat; junk_dirent : dirent; junk_int : Z }.

Section server.
Context {F : Type} `{PX : !Posix F} `{SK : !Stack}.
Abbreviation prog := (M (site F)).

(** ** Communication *)

Definition xpn_server_comm_write_data (i : item) : prog unit :=
  modify (λ s, with_link (connected s) (to_server s) (to_client s ++ [i]) s).
Definition xpn_server_comm_write_bytes (d : list ascii) : prog unit :=
  modify (λ s, with_link (connected s) (to_server s) (to_client s ++ (I_byte <$> d)) s).

(** Receives a struct: [pick] recognises it. *)
Definition xpn_server_comm_read_data {T} (pick : item → option T) : prog T := λ s,
  match to_server s with
  | i :: q => x ← pick i; Some (x, with_link (connected s) q (to_client s) s)
  | [] => None
  end.
(** [n] bytes off the head of a stream. *)
Fixpoint take_bytes (n : nat) (q : list item) : option (list ascii * list item) :=
  match n, q with
  | O, _ => Some ([], q)
  | S n', I_byte a :: q' => '(d, q'') ← take_bytes n' q'; Some (a :: d, q'')
  | _, _ => None
  end.
Definition xpn_server_comm_read_bytes (n : Z) : prog (list ascii) := λ s,
  '(d, q) ← take_bytes (Z.to_nat n) (to_server s); Some (d, with_link (connected s) q (to_client s) s).

(** The bytes before the first NUL. *)
Fixpoint upto_nul (l : list ascii) : cstr :=
  match l with [] => [] | a :: l' => if ceqb a NUL then [] else a :: upto_nul l' end.

(** [full_path] has [PATH_MAX] bytes. *)
Definition xpn_server_read_path (path_msg : list ascii) (path_len : Z) : prog cstr :=
  let head := take (Z.to_nat (Z.min path_len XPN_PATH_MAX)) path_msg in
  if PATH_MAX <=? path_len then fault
  else if XPN_PATH_MAX <? path_len then
    extra ← xpn_server_comm_read_bytes (path_len - XPN_PATH_MAX);
    mret (upto_nul (head ++ extra))
  else mret (upto_nul head).

Definition server_errno : prog Z := gets s_errno.
Definition reset_errno : prog unit := set_errno_of Server 0.

(** ** File operations *)

Definition xpn_server_op_open (head : path_flags) : prog unit :=
  full_path ← xpn_server_read_path (pf_path head) (pf_path_len head);
  reset_errno;;
  ret ← filesystem_open2 Server full_path (pf_flags head) (pf_mode head);
  e ← server_errno;
  if (ret : Z) <? 0 then xpn_server_comm_write_data (I_status (Status ret e))
  else
    ret' ← (if pf_session head =? 0 then filesystem_close Server ret else mret ret);
    xpn_server_comm_write_data (I_status (Status ret' e)).

Definition xpn_server_op_creat (head : path_flags) : prog unit :=
  full_path ← xpn_server_read_path (pf_path head) (pf_path_len head);
  reset_errno;;
  ret ← filesystem_creat Server full_path (pf_mode head);
  e ← server_errno;
  if (ret : Z) <? 0 then xpn_server_comm_write_data (I_status (Status ret e))
  else
    ret' ← (if pf_session head =? 0 then filesystem_close Server ret else mret ret);
    xpn_server_comm_write_data (I_status (Status ret' e)).

(** The loop of a read: [status_ret] is [req.status.ret], which nothing writes
    before the first round tests it. *)
Fixpoint read_rounds (fuel : nat) (fd offset total size cont diff status_ret : Z) : prog unit :=
  match fuel with
  | O => fault
  | S fuel' =>
    let to_read := if size <? diff then size else diff in
    pos ← filesystem_lseek Server fd (offset ⊕ cont);
    if (pos : Z) =? -1 then e ← server_errno; xpn_server_comm_write_data (I_rw_req (RwReq (-1) (Status (-1) e)))
    else
      '(n, data) ← filesystem_read Server fd to_read;
      e ← server_errno;
      if ((n : Z) <? 0) || (status_ret =? -1) then xpn_server_comm_write_data (I_rw_req (RwReq (-1) (Status (-1) e)))
      else
        xpn_server_comm_write_data (I_rw_req (RwReq n (Status 0 e)));;
        when (0 <? n) (xpn_server_comm_write_bytes data);;
        let cont' := cont ⊕ n in
        let diff' := total ⊖ cont' in
        if (0 <? diff') && negb (n =? 0) then read_rounds fuel' fd offset total size cont' diff' 0 else mret tt
  end.
(** One round moves [size] bytes or is the last: the request has at most
    [total + 1] rounds. *)
Definition xpn_server_op_read (head : rw_msg) : prog unit :=
  full_path ← xpn_server_read_path (rw_path head) (rw_path_len head);
  let size := if MAX_BUFFER_SIZE <? i64 (rw_size head) then MAX_BUFFER_SIZE else i64 (rw_size head) in
  let diff := i64 (rw_size head) in
  reset_errno;;
  fd ← (if rw_session head =? 1 then mret (rw_fd head) else filesystem_open Server full_path O_RDONLY);
  e ← server_errno;
  (if (fd : Z) <? 0 then xpn_server_comm_write_data (I_rw_req (RwReq (-1) (Status fd e)))
   else read_rounds (S (Z.to_nat (rw_size head))) fd (rw_offset head) (rw_size head) size 0 diff junk_ret);;
  when (rw_session head =? 0) (ret ← filesystem_close Server fd; mret tt).

(** The loop of a write; its result is [req.size] and [req.status.ret].  The
    counters are [int]. *)
Fixpoint write_rounds (fuel : nat) (fd offset total size cont diff rsize : Z) : prog (Z * Z) :=
  match fuel with
  | O => fault
  | S fuel' =>
    let to_write := if size <? diff then size else diff in
    data ← xpn_server_comm_read_bytes to_write;
    pos ← filesystem_lseek Server fd (offset ⊕ cont);
    if (pos : Z) <? 0 then mret (rsize, -1)
    else
      n ← filesystem_write Server fd data;
      if (n : Z) <? 0 then mret (n, -1)
      else
        let cont' := i32 (cont + n) in
        let diff' := i32 (total - cont') in
        if (0 <? diff') && negb (n =? 0) then write_rounds fuel' fd offset total size cont' diff' n else mret (cont', 0)
  end.
Definition xpn_server_op_write (head : rw_msg) : prog unit :=
  if rw_file_type head =? 1 then mret tt
  else
    full_path ← xpn_server_read_path (rw_path head) (rw_path_len head);
    let size := if MAX_BUFFER_SIZE <? i32 (rw_size head) then MAX_BUFFER_SIZE else i32 (rw_size head) in
    let diff := i32 (rw_size head) in
    reset_errno;;
    fd ← (if rw_session head =? 1 then mret (rw_fd head) else filesystem_open Server full_path O_WRONLY);
    '(n, ret) ← (if (fd : Z) <? 0 then mret (-1, -1)
                 else write_rounds (S (Z.to_nat (rw_size head))) fd (rw_offset head) (rw_size head) size 0 diff junk_size);
    e ← server_errno;
    xpn_server_comm_write_data (I_rw_req (RwReq n (Status ret e)));;
    r ← (if rw_session head =? 1 then filesystem_fsync Server fd else filesystem_close Server fd);
    mret tt.

(** Sends the status of an operation that was just run. *)
Definition send_status (ret : Z) : prog unit := e ← server_errno; xpn_server_comm_write_data (I_status (Status ret e)).

Definition xpn_server_op_close (head : close_msg) : prog unit :=
  full_path ← xpn_server_read_path (cm_path head) (cm_path_len head);
  reset_errno;;
  ret ← filesystem_close Server (cm_fd head);
  send_status ret.

Definition xpn_server_op_rm (head : path_msg) : prog unit :=
  full_path ← xpn_server_read_path (pm_path head) (pm_path_len head);
  reset_errno;;
  ret ← filesystem_unlink Server full_path;
  send_status ret.

Definition xpn_server_op_rm_async (head : path_msg) : prog unit :=
  full_path ← xpn_server_read_path (pm_path head) (pm_path_len head);
  ret ← filesystem_unlink Server full_path;
  mret tt.

Definition xpn_server_op_rename (head : rename_msg) : prog unit :=
  full_path_old ← xpn_server_read_path (rn_old head) (rn_old_len head);
  full_path_new ← xpn_server_read_path (rn_new head) (rn_new_len head);
  reset_errno;;
  ret ← filesystem_rename Server full_path_old full_path_new;
  send_status ret.

Definition xpn_server_op_getattr (head : path_msg) : prog unit :=
  full_path ← xpn_server_read_path (pm_path head) (pm_path_len head);
  reset_errno;;
  r ← filesystem_stat Server full_path;
  e ← server_errno;
  let ret := match r with Some _ => 0 | None => -1 end in
  xpn_server_comm_write_data (I_attr_req (AttrReq (default junk_stat r) (Status ret e) ret)).

Definition xpn_server_op_setattr (head : setattr_msg) : prog unit := mret tt.

(** ** Directory operations *)

Definition xpn_server_op_mkdir (head : path_flags) : prog unit :=
  full_path ← xpn_server_read_path (pf_path head) (pf_path_len head);
  reset_errno;;
  ret ← filesystem_mkdir Server full_path (pf_mode head);
  send_status ret.

(** [req.status.ret] is an [int]: a position of the directory is cut to it. *)
Definition xpn_server_op_opendir (head : path_flags) : prog unit :=
  full_path ← xpn_server_read_path (pf_path head) (pf_path_len head);
  reset_errno;;
  ret ← filesystem_opendir Server full_path;
  e ← server_errno;
  if negb (e =? 0) then xpn_server_comm_write_data (I_opendir_req (OpendirReq junk_int (Status (-1) e)))
  else if pf_session head =? 1 then xpn_server_comm_write_data (I_opendir_req (OpendirReq ret (Status 0 e)))
  else
    pos ← filesystem_telldir Server ret;
    e' ← server_errno;
    r ← filesystem_closedir Server ret;
    xpn_server_comm_write_data (I_opendir_req (OpendirReq junk_int (Status (i32 pos) e'))).

Definition xpn_server_op_readdir (head : readdir_msg) : prog unit :=
  full_path ← xpn_server_read_path (rd_path head) (rd_path_len head);
  if rd_session head =? 1 then
    reset_errno;;
    ret ← filesystem_readdir Server (rd_dir head);
    e ← server_errno;
    let st := match ret with None => if e =? 0 then 0 else -1 | Some _ => 0 end in
    let end_ := match ret with Some _ => 1 | None => 0 end in
    xpn_server_comm_write_data (I_readdir_req (ReaddirReq end_ junk_int (default junk_dirent ret) (Status st e)))
  else
    s ← filesystem_opendir Server full_path;
    if (s : Z) =? 0 then
      (* seekdir is skipped, readdir and the others get NULL *)
      fault
    else
      r ← filesystem_seekdir Server s (rd_telldir head);
      reset_errno;;
      ret ← filesystem_readdir Server s;
      e ← server_errno;
      pos ← filesystem_telldir Server s;
      st ← filesystem_closedir Server s;
      let end_ := match ret with Some _ => 1 | None => 0 end in
      xpn_server_comm_write_data (I_readdir_req (ReaddirReq end_ pos (default junk_dirent ret) (Status st e))).

Definition xpn_server_op_closedir (head : close_msg) : prog unit :=
  reset_errno;;
  ret ← filesystem_closedir Server (cm_dir head);
  send_status ret.

Definition xpn_server_op_rmdir (head : path_msg) : prog unit :=
  full_path ← xpn_server_read_path (pm_path head) (pm_path_len head);
  reset_errno;;
  ret ← filesystem_rmdir Server full_path;
  send_status ret.

(** The path is the field of the message: its first [XPN_PATH_MAX] bytes, not
    terminated when it is longer. *)
Definition xpn_server_op_rmdir_async (head : path_msg) : prog unit :=
  reset_errno;;
  if XPN_PATH_MAX <=? pm_path_len head then fault
  else ret ← filesystem_rmdir Server (upto_nul (pm_path head)); mret tt.

(** ** Metadata *)

(** Overlays [d] on the first bytes of [old]. *)
Definition overlay (old d : list ascii) : list ascii := d ++ drop (length d) old.

Definition xpn_server_op_read_mdata (head : path_msg) : prog unit :=
  full_path ← xpn_server_read_path (pm_path head) (pm_path_len head);
  reset_errno;;
  fd ← filesystem_open Server full_path O_RDWR;
  if (fd : Z) <? 0 then
    e ← server_errno;
    xpn_server_comm_write_data (I_mdata_req (MdataReq mdata_zero (Status (if e =? EISDIR then 0 else fd) e)))
  else
    '(ret, data) ← filesystem_read Server fd SIZEOF_MDATA;
    let m := mdata_of_bytes (overlay (replicate (Z.to_nat SIZEOF_MDATA) NUL) data) in
    r ← filesystem_close Server fd;
    e ← server_errno;
    xpn_server_comm_write_data (I_mdata_req (MdataReq (if XPN_CHECK_MAGIC_NUMBER m then m else mdata_zero) (Status ret e))).

Definition xpn_server_op_write_mdata (head : mdata_msg) : prog unit :=
  full_path ← xpn_server_read_path (mm_path head) (mm_path_len head);
  reset_errno;;
  fd ← filesystem_open2 Server full_path (Z.lor O_WRONLY O_CREAT) S_IRWXU;
  if (fd : Z) <? 0 then
    e ← server_errno;
    xpn_server_comm_write_data (I_status (Status (if e =? EISDIR then 0 else fd) e))
  else
    ret ← filesystem_write Server fd (mdata_bytes (mm_mdata head));
    r ← filesystem_close Server fd;
    send_status ret.

Definition xpn_server_op_write_mdata_file_size (head : size_msg) : prog unit :=
  full_path ← xpn_server_read_path (sm_path head) (sm_path_len head);
  reset_errno;;
  fd ← filesystem_open Server full_path O_RDWR;
  if (fd : Z) <? 0 then
    e ← server_errno;
    xpn_server_comm_write_data (I_status (Status (if e =? EISDIR then 0 else fd) e))
  else
    r1 ← filesystem_lseek Server fd OFFSETOF_FILE_SIZE;
    '(ret, data) ← filesystem_read Server fd 8;
    let actual_file_size := long_at 0 (overlay (replicate 8 NUL) data) in
    ret' ← (if (0 <? ret) && (actual_file_size <? sm_size head)
            then r2 ← filesystem_lseek Server fd OFFSETOF_FILE_SIZE; filesystem_write Server fd (long_bytes (sm_size head))
            else mret ret);
    r3 ← filesystem_close Server fd;
    send_status ret'.

(** ** Dispatch *)

Definition is_path_flags (i : item) := match i with I_path_flags m => Some m | _ => None end.
Definition is_path (i : item) := match i with I_path m => Some m | _ => None end.
Definition is_close (i : item) := match i with I_close m => Some m | _ => None end.
Definition is_rw (i : item) := match i with I_rw m => Some m | _ => None end.
Definition is_rename (i : item) := match i with I_rename m => Some m | _ => None end.
Definition is_setattr (i : item) := match i with I_setattr m => Some m | _ => None end.
Definition is_readdir (i : item) := match i with I_readdir m => Some m | _ => None end.
Definition is_mdata (i : item) := match i with I_mdata m => Some m | _ => None end.
Definition is_size (i : item) := match i with I_size m => Some m | _ => None end.
Definition is_op (i : item) := match i with I_op op => Some op | _ => None end.

Definition xpn_server_do_operation (type_op : Z) : prog unit :=
  if type_op =? XPN_SERVER_OPEN_FILE then xpn_server_comm_read_data is_path_flags ≫= xpn_server_op_open
  else if type_op =? XPN_SERVER_CREAT_FILE then xpn_server_comm_read_data is_path_flags ≫= xpn_server_op_creat
  else if type_op =? XPN_SERVER_READ_FILE then xpn_server_comm_read_data is_rw ≫= xpn_server_op_read
  else if type_op =? XPN_SERVER_WRITE_FILE then xpn_server_comm_read_data is_rw ≫= xpn_server_op_write
  else if type_op =? XPN_SERVER_CLOSE_FILE then xpn_server_comm_read_data is_close ≫= xpn_server_op_close
  else if type_op =? XPN_SERVER_RM_FILE then xpn_server_comm_read_data is_path ≫= xpn_server_op_rm
  else if type_op =? XPN_SERVER_RM_FILE_ASYNC then xpn_server_comm_read_data is_path ≫= xpn_server_op_rm_async
  else if type_op =? XPN_SERVER_RENAME_FILE then xpn_server_comm_read_data is_rename ≫= xpn_server_op_rename
  else if type_op =? XPN_SERVER_GETATTR_FILE then xpn_server_comm_read_data is_path ≫= xpn_server_op_getattr
  else if type_op =? XPN_SERVER_SETATTR_FILE then xpn_server_comm_read_data is_setattr ≫= xpn_server_op_setattr
  else if type_op =? XPN_SERVER_MKDIR_DIR then xpn_server_comm_read_data is_path_flags ≫= xpn_server_op_mkdir
  else if type_op =? XPN_SERVER_OPENDIR_DIR then xpn_server_comm_read_data is_path_flags ≫= xpn_server_op_opendir
  else if type_op =? XPN_SERVER_READDIR_DIR then xpn_server_comm_read_data is_readdir ≫= xpn_server_op_readdir
  else if type_op =? XPN_SERVER_CLOSEDIR_DIR then xpn_server_comm_read_data is_close ≫= xpn_server_op_closedir
  else if type_op =? XPN_SERVER_RMDIR_DIR then xpn_server_comm_read_data is_path ≫= xpn_server_op_rmdir
  else if type_op =? XPN_SERVER_RMDIR_DIR_ASYNC then xpn_server_comm_read_data is_path ≫= xpn_server_op_rmdir_async
  else if type_op =? XPN_SERVER_READ_MDATA then xpn_server_comm_read_data is_path ≫= xpn_server_op_read_mdata
  else if type_op =? XPN_SERVER_WRITE_MDATA then xpn_server_comm_read_data is_mdata ≫= xpn_server_op_write_mdata
  else if type_op =? XPN_SERVER_WRITE_MDATA_FILE_SIZE then xpn_server_comm_read_data is_size ≫= xpn_server_op_write_mdata_file_size
  else mret tt.

(** A round of the dispatcher of a connection: it reads a code, and ends on
    [XPN_SERVER_DISCONNECT] and [XPN_SERVER_FINALIZE] (false). *)
Definition xpn_server_dispatcher : prog bool :=
  op ← xpn_server_comm_read_data is_op;
  if (op =? XPN_SERVER_DISCONNECT) || (op =? XPN_SERVER_FINALIZE) then mret false
  else xpn_server_do_operation op;; mret true.
End server.
