(* ===== verification/Remote.v ===== *)
(** * Remote: the client of the Expand server

    src/src/xpn_client/nfi/nfi_xpn_server/nfi_xpn_server.c: the operations of
    [struct nfi_ops] as messages to a server.  The client sends without
    waiting; when it needs an answer that is not there yet, the server runs one
    round of its dispatcher on what was sent.  A send or a receive on a
    connection that is down fails; reading a variable that was not written is
    [None].  The build has no MQTT (HAVE_MOSQUITTO_H is not defined). *)

From S2P Require Import Prelude Cstr Paths Url Mdata Nfi Client Header FileSystem Server.

Definition ENOTDIR : Z := 20.
Definition EEXIST : Z := 17.

(** The switches of a server: XPN_SESSION_FILE, XPN_SESSION_DIR, XPN_CONNECTED. *)
Record xs_conf := XsConf { xpn_session_file : Z; xpn_session_dir : Z; keep_connected : Z }.

Section remote.
Context {F : Type} `{PX : !Posix F} `{SK : !Stack}.
Abbreviation prog := (M (site F)).

(** ** Communication: nfi_xpn_server_comm.c *)

(** [true] is success. *)
Definition comm_write (l : list item) : prog bool := λ s,
  if connected s then Some (true, with_link true (to_server s ++ l) (to_client s) s) else Some (false, s).
Definition nfi_xpn_server_comm_write_operation (op : Z) : prog bool := comm_write [I_op op].
Definition nfi_xpn_server_comm_write_data (i : item) : prog bool := comm_write [i].
Definition nfi_xpn_server_comm_write_bytes (d : list ascii) : prog bool := comm_write (I_byte <$> d).

(** The answers that are there, or a round of the server. *)
Definition await : prog unit :=
  s ← get;
  match to_client s with [] => alive ← xpn_server_dispatcher; mret tt | _ => mret tt end.
Definition nfi_xpn_server_comm_read_data {T} (pick : item → option T) : prog (option T) := λ s,
  if connected s then
    '(_, s') ← await s;
    match to_client s' with
    | i :: q => x ← pick i; Some (Some x, with_link true (to_server s') q s')
    | [] => None
    end
  else Some (None, s).
Definition nfi_xpn_server_comm_read_bytes (n : Z) : prog (option (list ascii)) := λ s,
  if connected s then
    '(_, s') ← await s;
    '(d, q) ← take_bytes (Z.to_nat n) (to_client s'); Some (Some d, with_link true (to_server s') q s')
  else Some (None, s).

Definition is_status (i : item) := match i with I_status r => Some r | _ => None end.
Definition is_rw_req (i : item) := match i with I_rw_req r => Some r | _ => None end.
Definition is_attr_req (i : item) := match i with I_attr_req r => Some r | _ => None end.
Definition is_opendir_req (i : item) := match i with I_opendir_req r => Some r | _ => None end.
Definition is_readdir_req (i : item) := match i with I_readdir_req r => Some r | _ => None end.
Definition is_mdata_req (i : item) := match i with I_mdata_req r => Some r | _ => None end.

(** ** Requests *)

(** [struct st_xpn_server_msg]: the code and the body. *)
Definition st_xpn_server_msg : Type := Z * item.

Definition nfi_write_operation (head : st_xpn_server_msg) : prog bool :=
  ok ← nfi_xpn_server_comm_write_operation (fst head);
  if (ok : bool) then nfi_xpn_server_comm_write_data (snd head) else mret false.

(** [req] as it is after the call: written when both halves succeed. *)
Definition nfi_xpn_server_do_request {T} (msg : st_xpn_server_msg) (pick : item → option T) : prog (option T) :=
  ok ← nfi_write_operation msg;
  if (ok : bool) then nfi_xpn_server_comm_read_data pick else mret None.

(** The field [path] of a message: [bzero], then the directory up to [XPN_PATH_MAX] bytes. *)
Definition path_field (dir : cstr) : list ascii :=
  take (Z.to_nat XPN_PATH_MAX) dir ++ replicate (Z.to_nat XPN_PATH_MAX - length dir) NUL.
(** The rest of a long path. *)
Definition path_rest (dir : cstr) : list ascii := drop (Z.to_nat XPN_PATH_MAX) dir.

(** The exchange every operation makes.  With a long path the rest of it
    follows the message and every failure returns -1 at once (the first
    component is [None]); with a short path failures go unnoticed.  The second
    component is the answer, when there is one. *)
Fixpoint send_rests (l : list cstr) : prog bool :=
  match l with
  | [] => mret true
  | dir :: l' =>
    if XPN_PATH_MAX <=? strlen dir then
      ok ← nfi_xpn_server_comm_write_bytes (path_rest dir);
      if (ok : bool) then send_rests l' else mret false
    else send_rests l'
  end.
Definition exchange {T} (msg : st_xpn_server_msg) (dirs : list cstr) (pick : item → option T) : prog (option (option T)) :=
  if existsb (λ dir, XPN_PATH_MAX <=? strlen dir) dirs then
    ok ← nfi_write_operation msg;
    if (ok : bool) then
      ok' ← send_rests dirs;
      if (ok' : bool) then r ← nfi_xpn_server_comm_read_data pick; mret (match r with Some _ => Some r | None => None end)
      else mret None
    else mret None
  else r ← nfi_xpn_server_do_request msg pick; mret (Some r).

(** ** Connection *)

Section conf.
Context (cf : xs_conf).

Definition nfi_xpn_server_disconnect : prog Z :=
  s ← get;
  when (private_info s) (modify (with_link false [] []));; mret 0.
Definition nfi_xpn_server_reconnect : prog Z :=
  s ← get;
  if negb (private_info s) then fault
  else if reachable s then modify (with_link true [] []);; mret 0 else mret (-1).
Definition nfi_xpn_server_keep_connected : prog unit :=
  when (keep_connected cf =? 0)
    (ret ← nfi_xpn_server_reconnect; when ((ret : Z) <? 0) (modify (with_private false))).
(** The end of every operation. *)
Definition release_connection : prog unit :=
  when (keep_connected cf =? 0) (r ← nfi_xpn_server_disconnect; mret tt).

Definition set_cerrno (e : Z) : prog unit := set_errno_of Client e.
(** [NULL_RET_ERR(serv->private_info, EINVAL)]: the operation, when there is a connection. *)
Definition with_server (body : prog Z) : prog Z :=
  nfi_xpn_server_keep_connected;;
  s ← get;
  if private_info s then body else set_cerrno EINVAL;; mret (-1).
Definition finish (ret : Z) : prog Z := release_connection;; mret ret.

(** The buffers of [ParseURL], on the stack: open asks for the protocol, the
    server and the directory, most operations for the last two, the operations
    on metadata for the directory. *)
Definition bufs3 : url_bufs := UrlBufs (Some []) (Some []) None (Some []).
Definition bufs2 : url_bufs := UrlBufs None (Some []) None (Some []).
Definition bufs1 : url_bufs := UrlBufs None None None (Some []).
(** What [ParseURL] finds ([None]: not a URL). *)
Definition parse (url : cstr) (b : url_bufs) : prog (option url_bufs) :=
  '(ret, b') ← lift (ParseURL url b); mret (if (ret : Z) <? 0 then None else Some b').
(** The directory of a URL. *)
Definition url_dir (b : url_bufs) (url : cstr) : prog (option cstr) :=
  r ← parse url b; mret (r ≫= u_dir).
(** The same, with an error when the URL is bad. *)
Definition with_dir (b : url_bufs) (url : cstr) (body : cstr → prog Z) : prog Z :=
  d ← url_dir b url;
  match d with Some dir => body dir | None => set_cerrno EINVAL;; finish (-1) end.

(** What is done with the status of an operation. *)
Definition note_errno (st : status) : prog unit := when (st_ret st <? 0) (set_cerrno (st_errno st)).

Definition alloc (h : xs_fhandle) : prog Z :=
  s ← get;
  modify (λ s, with_next_handle (next_handle s + 1) (with_handles (<[next_handle s := h]> (handles s)) s));;
  mret (next_handle s).
Definition free_handle (p : Z) : prog unit := modify (λ s, with_handles (delete p (handles s)) s).
Definition handle (fh : nfi_fhandle) : prog xs_fhandle := s ← get; lift (handles s !! fh_priv fh).

(** *** Files *)

Definition lower (a : ascii) : ascii :=
  let n := N_of_ascii a in if ((65 <=? n) && (n <=? 90))%N then ascii_of_N (n + 32) else a.
Definition has_mqtt (protocol : cstr) : Z := if bool_decide (lower <$> protocol = str "mq_server") then 1 else 0.

(** The result is that of the call and the handle [fho] after it. *)
Definition nfi_xpn_server_open (url : cstr) (flags mode : Z) (fho : nfi_fhandle) : prog (Z * nfi_fhandle) :=
  nfi_xpn_server_keep_connected;;
  s ← get;
  if negb (private_info s) then set_cerrno EINVAL;; mret (-1, fho)
  else
    u ← parse url bufs3;
    match u with
    | None => set_cerrno EINVAL;; ret ← finish (-1); mret (ret, fho)
    | Some u =>
      dir ← lift (u_dir u);
      let mq := has_mqtt (default [] (u_protocol u)) in
      let fho1 := NfiFh (fh_type fho) url (fh_priv fho) mq in
      p ← alloc (XsFh [] 0 0 0);
      let msg := PathFlags flags mode (xpn_session_file cf) mq (strlen dir) (path_field dir) in
      r ← exchange (XPN_SERVER_OPEN_FILE, I_path_flags msg) [dir] is_status;
      match r with
      | None => mret (-1, fho1)
      | Some st =>
        st ← lift st;
        if st_ret st <? 0 then
          set_cerrno (st_errno st);;
          free_handle p;;
          ret ← finish (-1);
          mret (ret, NfiFh (fh_type fho) [] (fh_priv fho) mq)
        else
          modify (λ s, with_handles (<[p := XsFh dir 0 0 (st_ret st)]> (handles s)) s);;
          ret ← finish 0;
          mret (ret, NfiFh NFIFILE url p mq)
      end
    end.
Definition nfi_xpn_server_create (url : cstr) (mode : Z) (fh : nfi_fhandle) : prog (Z * nfi_fhandle) :=
  nfi_xpn_server_open url (Z.lor O_WRONLY (Z.lor O_CREAT O_TRUNC)) mode fh.

(** The loop that receives a file: [size] bytes are expected, [acc] came; the
    counters are [int]. *)
Fixpoint receive_rounds (fuel : nat) (size cont : Z) (acc : list ascii) : prog (Z * list ascii) :=
  match fuel with
  | O => fault
  | S fuel' =>
    r ← nfi_xpn_server_comm_read_data is_rw_req;
    match r with
    | None => ret ← finish (-1); mret (ret, acc)
    | Some req =>
      if st_ret (rq_status req) <? 0 then
        set_cerrno (st_errno (rq_status req));; ret ← finish (-1); mret (ret, acc)
      else
        d ← (if 0 <? rq_size req then nfi_xpn_server_comm_read_bytes (rq_size req) else mret (Some []));
        (* when the receive of the data fails the buffer keeps what it had *)
        data ← lift d;
        let cont' := i32 (cont + rq_size req) in
        let diff := i32 (size - cont') in
        if (0 <? diff) && negb (rq_size req =? 0) then receive_rounds fuel' size cont' (acc ++ data)
        else if rq_size req <? 0 then ret ← finish (-1); mret (ret, acc ++ data)
        else ret ← finish cont'; mret (ret, acc ++ data)
    end
  end.
(** The handle of an open file, and what the request is built from. *)
Definition rw_request (op file_type : Z) (h : xs_fhandle) (offset size : Z) : st_xpn_server_msg :=
  (op, I_rw (RwMsg (h_fd h) file_type offset size (xpn_session_file cf) (strlen (h_path h)) (path_field (h_path h)))).

Definition nfi_xpn_server_read (fh : nfi_fhandle) (offset size : Z) : prog (Z * list ascii) :=
  nfi_xpn_server_keep_connected;;
  s ← get;
  if negb (private_info s) then set_cerrno EINVAL;; mret (-1, [])
  else
    h ← handle fh;
    ok ← nfi_write_operation (rw_request XPN_SERVER_READ_FILE junk_int h offset size);
    if negb (ok : bool) then ret ← finish (-1); mret (ret, [])
    else
      ok' ← send_rests [h_path h];
      if negb (ok' : bool) then mret (-1, [])
      else receive_rounds (S (S (Z.to_nat size))) size 0 [].

(** The loop that sends: a failed send counts as -1 byte.  [buffer] is what the
    caller passed. *)
Fixpoint send_rounds (fuel : nat) (buffer : list ascii) (size buffer_size cont diff : Z) : prog Z :=
  match fuel with
  | O => fault
  | S fuel' =>
    let n := if buffer_size <? diff then buffer_size else diff in
    ok ← (if (cont <? 0) then fault else nfi_xpn_server_comm_write_bytes (take (Z.to_nat n) (drop (Z.to_nat cont) buffer)));
    let ret := if (ok : bool) then n else -1 in
    let cont' := i32 (cont + ret) in
    let diff' := i32 (size - cont') in
    if (0 <? diff') && negb (ret =? 0) then send_rounds fuel' buffer size buffer_size cont' diff' else mret cont'
  end.
Definition nfi_xpn_server_write (fh : nfi_fhandle) (offset : Z) (buffer : list ascii) : prog Z :=
  let size := Z.of_nat (length buffer) in
  if negb (fh_mqtt fh =? 0) then mret (-1) (* nfi_mq_server_publish *)
  else if size =? 0 then mret 0
  else
    nfi_xpn_server_keep_connected;;
    s ← get;
    if negb (private_info s) then set_cerrno EINVAL;; finish (-1)
    else
      h ← handle fh;
      ok ← nfi_write_operation (rw_request XPN_SERVER_WRITE_FILE (fh_mqtt fh) h offset size);
      if negb (ok : bool) then finish (-1)
      else
        ok' ← send_rests [h_path h];
        if negb (ok' : bool) then mret (-1)
        else
          let buffer_size := if MAX_BUFFER_SIZE <? i32 size then MAX_BUFFER_SIZE else i32 size in
          cont ← send_rounds (S (length buffer)) buffer size buffer_size 0 (i32 size);
          r ← nfi_xpn_server_comm_read_data is_rw_req;
          match r with
          | None => finish (-1)
          | Some req =>
            note_errno (rq_status req);;
            if rq_size req <? 0 then finish (-1) else finish cont
          end.

(** [fh] after the call has no private handle and no URL. *)
Definition nfi_xpn_server_close (fh : nfi_fhandle) : prog Z :=
  with_server (
    if negb (xpn_session_file cf =? 1) then free_handle (fh_priv fh);; finish 0
    else
      h ← handle fh;
      let msg := CloseMsg (h_fd h) (fh_mqtt fh) junk_int (strlen (h_path h)) (path_field (h_path h)) in
      r ← exchange (XPN_SERVER_CLOSE_FILE, I_close msg) [h_path h] is_status;
      match r with
      | None => mret (-1)
      | Some st => st ← lift st; note_errno st;; free_handle (fh_priv fh);; finish (st_ret st)
      end).

(** [sizeof(struct st_xpn_server_status)]: what a receive of it returns. *)
Definition SIZEOF_STATUS : Z := 8.
(** The variable [ret] after an exchange: the size received with a long path,
    what [ParseURL] returned with short ones. *)
Definition exchange_ret (dirs : list cstr) : Z := if existsb (λ dir, XPN_PATH_MAX <=? strlen dir) dirs then SIZEOF_STATUS else 0.

Definition nfi_xpn_server_remove (url : cstr) : prog Z :=
  with_server (with_dir bufs2 url (λ dir,
    r ← exchange (XPN_SERVER_RM_FILE, I_path (PathMsg (strlen dir) (path_field dir))) [dir] is_status;
    match r with
    | None => mret (-1)
    | Some st => st ← lift st; note_errno st;; finish (exchange_ret [dir])
    end)).

Definition nfi_xpn_server_rename (old_url new_url : cstr) : prog Z :=
  with_server (with_dir bufs2 old_url (λ old_path, with_dir bufs2 new_url (λ new_path,
    let msg := RenameMsg (strlen old_path) (strlen new_path) (path_field old_path) (path_field new_path) in
    r ← exchange (XPN_SERVER_RENAME_FILE, I_rename msg) [old_path; new_path] is_status;
    match r with
    | None => mret (-1)
    | Some st => st ← lift st; note_errno st;; finish (exchange_ret [old_path; new_path])
    end))).

Definition S_IRWXALL : Z := 511.
Definition S_ISREG (mode : Z) : bool := Z.land mode 61440 =? S_IFREG.
Definition S_ISDIR (mode : Z) : bool := Z.land mode 61440 =? S_IFDIR.
(** [at_type] keeps its value when the file is neither a regular file nor a directory. *)
Definition xpn_2_nfi_attr (nfi_att : nfi_attr) (att : stat) : nfi_attr :=
  let ty := if S_ISDIR (sb_mode att) then NFIDIR else if S_ISREG (sb_mode att) then NFIFILE else at_type nfi_att in
  NfiAttr (sb_dev att) (sb_ino att) ty (Z.land (sb_mode att) S_IRWXALL) (sb_nlink att) (sb_uid att) (sb_gid att)
    (sb_size att) (sb_blksize att) (sb_blocks att) (sb_atime att) (sb_mtime att) (sb_ctime att).

(** The status comes back through a [char]. *)
Definition nfi_xpn_server_getattr (fh : nfi_fhandle) (attr : nfi_attr) : prog (Z * nfi_attr) :=
  nfi_xpn_server_keep_connected;;
  s ← get;
  if negb (private_info s) then set_cerrno EINVAL;; mret (-1, attr)
  else
    d ← url_dir bufs2 (fh_url fh);
    match d with
    | None => set_cerrno EINVAL;; ret ← finish (-1); mret (ret, attr)
    | Some dir =>
      r ← exchange (XPN_SERVER_GETATTR_FILE, I_path (PathMsg (strlen dir) (path_field dir))) [dir] is_attr_req;
      match r with
      | None => mret (-1, attr)
      | Some req =>
        req ← lift req;
        note_errno (aq_status_req req);;
        ret ← finish (wrap_s 8 (aq_status req));
        mret (ret, xpn_2_nfi_attr attr (aq_attr req))
      end
    end.
Definition nfi_xpn_server_setattr (fh : nfi_fhandle) (attr : nfi_attr) : prog Z :=
  if fh_priv fh =? 0 then set_cerrno EINVAL;; mret (-1) else with_server (finish 0).

(** *** Directories *)

Definition nfi_xpn_server_mkdir (url : cstr) (mode : Z) : prog Z :=
  with_server (with_dir bufs2 url (λ dir,
    let msg := PathFlags junk_int mode junk_int junk_int (strlen dir) (path_field dir) in
    r ← exchange (XPN_SERVER_MKDIR_DIR, I_path_flags msg) [dir] is_status;
    match r with
    | None => mret (-1)
    | Some st =>
      st ← lift st; note_errno st;;
      s ← get;
      if (st_ret st <? 0) && negb (c_errno s =? EEXIST) then finish (-1) else finish (exchange_ret [dir])
    end)).

Definition nfi_xpn_server_opendir (url : cstr) (fho : nfi_fhandle) : prog (Z * nfi_fhandle) :=
  nfi_xpn_server_keep_connected;;
  s ← get;
  if negb (private_info s) then set_cerrno EINVAL;; mret (-1, fho)
  else
    d ← url_dir bufs2 url;
    match d with
    | None => set_cerrno EINVAL;; ret ← finish (-1); mret (ret, fho)
    | Some dir =>
      let fho1 := NfiFh (fh_type fho) url (fh_priv fho) (fh_mqtt fho) in
      p ← alloc (XsFh [] 0 0 0);
      let msg := PathFlags junk_int junk_int (xpn_session_dir cf) junk_int (strlen dir) (path_field dir) in
      r ← exchange (XPN_SERVER_OPENDIR_DIR, I_path_flags msg) [dir] is_opendir_req;
      match r with
      | None => mret (-1, fho1)
      | Some req =>
        req ← lift req;
        if st_ret (oq_status req) <? 0 then
          set_cerrno (st_errno (oq_status req));; ret ← finish (-1); mret (ret, fho1)
        else
          modify (λ s, with_handles (<[p := XsFh dir (st_ret (oq_status req)) (oq_dir req) 0]> (handles s)) s);;
          ret ← finish 0;
          mret (ret, NfiFh NFIDIR url p (fh_mqtt fho))
      end
    end.

Definition nfi_xpn_server_readdir (fh : nfi_fhandle) (entry : dirent) : prog (Z * dirent) :=
  if fh_priv fh =? 0 then set_cerrno EINVAL;; mret (-1, entry)
  else
    nfi_xpn_server_keep_connected;;
    s ← get;
    if negb (private_info s) then set_cerrno EINVAL;; mret (-1, entry)
    else if negb (fh_type fh =? NFIDIR) then set_cerrno ENOTDIR;; ret ← finish (-1); mret (ret, entry)
    else
      h ← handle fh;
      let msg := ReaddirMsg (h_telldir h) (h_dir h) (xpn_session_dir cf) (strlen (h_path h)) (path_field (h_path h)) in
      r ← exchange (XPN_SERVER_READDIR_DIR, I_readdir msg) [h_path h] is_readdir_req;
      match r with
      | None => mret (-1, dirent_zero)
      | Some req =>
        req ← lift req;
        (if st_ret (dq_status req) <? 0 then set_cerrno (st_errno (dq_status req))
         else modify (λ s, with_handles (<[fh_priv fh := XsFh (h_path h) (dq_telldir req) (h_dir h) (h_fd h)]> (handles s)) s));;
        if dq_end req =? 0 then ret ← finish (-1); mret (ret, dirent_zero)
        else ret ← finish 0; mret (ret, dq_ret req)
      end.

Definition nfi_xpn_server_closedir (fh : nfi_fhandle) : prog Z :=
  if negb (xpn_session_dir cf =? 1) then finish 0
  else
    with_server (
      h ← handle fh;
      r ← nfi_xpn_server_do_request (XPN_SERVER_CLOSEDIR_DIR, I_close (CloseMsg junk_int junk_int (h_dir h) junk_int [])) is_status;
      st ← lift r; note_errno st;; finish (st_ret st)).

Definition nfi_xpn_server_rmdir (url : cstr) : prog Z :=
  with_server (with_dir bufs2 url (λ dir,
    r ← exchange (XPN_SERVER_RMDIR_DIR, I_path (PathMsg (strlen dir) (path_field dir))) [dir] is_status;
    match r with
    | None => mret (-1)
    | Some st => st ← lift st; note_errno st;; if st_ret st <? 0 then finish (st_ret st) else finish 0
    end)).

Definition nfi_xpn_server_statfs : prog Z := finish 0.

(** *** Metadata *)

(** [mdata] after the call, when it was written. *)
Definition nfi_xpn_server_read_mdata (url : cstr) (mdata : xpn_metadata) : prog (Z * xpn_metadata) :=
  nfi_xpn_server_keep_connected;;
  s ← get;
  if negb (private_info s) then set_cerrno EINVAL;; mret (-1, mdata)
  else
    d ← url_dir bufs1 url;
    match d with
    | None => set_cerrno EINVAL;; ret ← finish (-1); mret (ret, mdata)
    | Some dir =>
      r ← exchange (XPN_SERVER_READ_MDATA, I_path (PathMsg (strlen dir) (path_field dir))) [dir] is_mdata_req;
      match r with
      | None => mret (-1, mdata)
      | Some req =>
        req ← lift req;
        note_errno (mq_status req);;
        ret ← finish (st_ret (mq_status req));
        mret (ret, mq_mdata req)
      end
    end.

Definition nfi_xpn_server_write_mdata (url : cstr) (mdata : xpn_metadata) (only_file_size : Z) : prog Z :=
  with_server (with_dir bufs1 url (λ dir,
    let msg := if negb (only_file_size =? 0)
               then (XPN_SERVER_WRITE_MDATA_FILE_SIZE, I_size (SizeMsg (file_size mdata) (strlen dir) (path_field dir)))
               else (XPN_SERVER_WRITE_MDATA, I_mdata (MdataMsg mdata (strlen dir) (path_field dir))) in
    r ← exchange msg [dir] is_status;
    match r with
    | None => mret (-1)
    | Some st => st ← lift st; note_errno st;; finish (st_ret st)
    end)).
End conf.
End remote.
