(* ===== verification/Local.v ===== *)
(** * Local: servers on the client's own machine

    src/src/xpn_client/nfi/nfi_local/nfi_local.c: the operations of
    [struct nfi_ops] as calls on the file system of the site.  The private
    information of such a server, which initialisation allocates, is never
    NULL; [private_info] of the site is that of the connection to the Expand
    server of the machine, which the size of a file is updated through. *)

From S2P Require Import Prelude Cstr Paths Url Mdata Nfi Client Header FileSystem Server Remote.

Section local.
Context {F : Type} `{PX : !Posix F} `{SK : !Stack}.
Abbreviation prog := (M (site F)).
Context (cf : xs_conf).

(** The operation on the directory of a URL. *)
Definition local_dir (url : cstr) (body : cstr → prog Z) : prog Z :=
  d ← url_dir bufs1 url;
  match d with Some dir => body dir | None => set_cerrno EINVAL;; mret (-1) end.

(** ** Files *)

Definition nfi_local_open (url : cstr) (flags mode : Z) (fho : nfi_fhandle) : prog (Z * nfi_fhandle) :=
  d ← url_dir bufs1 url;
  match d with
  | None => set_cerrno EINVAL;; mret (-1, fho)
  | Some dir =>
    p ← alloc (XsFh [] 0 0 0);
    ret ← filesystem_open2 Client dir flags mode;
    if (ret : Z) <? 0 then
      free_handle p;; mret (-1, NfiFh (fh_type fho) [] (fh_priv fho) (fh_mqtt fho))
    else
      when (xpn_session_file cf =? 0) (r ← filesystem_close Client ret; mret tt);;
      modify (λ s, with_handles (<[p := XsFh dir 0 0 ret]> (handles s)) s);;
      mret (0, NfiFh NFIFILE url p (fh_mqtt fho))
  end.
Definition nfi_local_create (url : cstr) (mode : Z) (fh : nfi_fhandle) : prog (Z * nfi_fhandle) :=
  nfi_local_open url (Z.lor O_WRONLY (Z.lor O_CREAT O_TRUNC)) mode fh.

Definition nfi_local_read (fh : nfi_fhandle) (offset size : Z) : prog (Z * list ascii) :=
  h ← handle fh;
  fd ← (if xpn_session_file cf =? 1 then mret (h_fd h) else filesystem_open Client (h_path h) O_RDONLY);
  if (fd : Z) <? 0 then mret (-1, [])
  else
    pos ← filesystem_lseek Client fd offset;
    '(ret, data) ← (if (pos : Z) <? 0 then mret (-1, [])
                    else '(n, data) ← filesystem_read Client fd size; mret (if (n : Z) <? 0 then -1 else n, data));
    when (xpn_session_file cf =? 0) (r ← filesystem_close Client fd; mret tt);;
    mret (ret, data).

Definition nfi_local_write (fh : nfi_fhandle) (offset : Z) (buffer : list ascii) : prog Z :=
  if Z.of_nat (length buffer) =? 0 then mret 0
  else
    h ← handle fh;
    fd ← (if xpn_session_file cf =? 1 then mret (h_fd h) else filesystem_open Client (h_path h) O_WRONLY);
    if (fd : Z) <? 0 then mret (-1)
    else
      pos ← filesystem_lseek Client fd offset;
      ret ← (if (pos : Z) <? 0 then mret (-1)
             else n ← filesystem_write Client fd buffer; mret (if (n : Z) <? 0 then -1 else n));
      r ← (if xpn_session_file cf =? 1 then filesystem_fsync Client fd else filesystem_close Client fd);
      mret ret.

Definition nfi_local_close (fh : nfi_fhandle) : prog Z :=
  if xpn_session_file cf =? 1 then
    h ← handle fh;
    ret ← filesystem_close Client (h_fd h);
    free_handle (fh_priv fh);; mret ret
  else free_handle (fh_priv fh);; mret 0.

Definition nfi_local_remove (url : cstr) : prog Z :=
  local_dir url (λ dir, ret ← filesystem_unlink Client dir; mret (if (ret : Z) <? 0 then -1 else ret)).
Definition nfi_local_rename (old_url new_url : cstr) : prog Z :=
  local_dir old_url (λ old_path, local_dir new_url (λ new_path,
    ret ← filesystem_rename Client old_path new_path; mret (if (ret : Z) <? 0 then -1 else ret))).

Definition nfi_local_getattr (fh : nfi_fhandle) (attr : nfi_attr) : prog (Z * nfi_attr) :=
  d ← url_dir bufs1 (fh_url fh);
  match d with
  | None => set_cerrno EINVAL;; mret (-1, attr)
  | Some dir =>
    r ← filesystem_stat Client dir;
    match r with Some st => mret (0, xpn_2_nfi_attr attr st) | None => mret (-1, attr) end
  end.
Definition nfi_local_setattr (fh : nfi_fhandle) (attr : nfi_attr) : prog Z :=
  if fh_priv fh =? 0 then set_cerrno EINVAL;; mret (-1) else mret 0.

(** ** Directories *)

Definition nfi_local_mkdir (url : cstr) (mode : Z) : prog Z :=
  local_dir url (λ dir,
    ret ← filesystem_mkdir Client dir mode;
    s ← get;
    mret (if ((ret : Z) <? 0) && negb (c_errno s =? EEXIST) then -1 else ret)).

Definition nfi_local_opendir (url : cstr) (fho : nfi_fhandle) : prog (Z * nfi_fhandle) :=
  d ← url_dir bufs1 url;
  match d with
  | None => set_cerrno EINVAL;; mret (-1, fho)
  | Some dir =>
    p ← alloc (XsFh [] 0 0 0);
    s ← filesystem_opendir Client dir;
    if (s : Z) =? 0 then
      free_handle p;; mret (-1, NfiFh (fh_type fho) [] (fh_priv fho) (fh_mqtt fho))
    else
      pos ← (if xpn_session_dir cf =? 0 then
               pos ← filesystem_telldir Client s; r ← filesystem_closedir Client s; mret pos
             else mret 0);
      modify (λ st, with_handles (<[p := XsFh dir pos s 0]> (handles st)) st);;
      mret (0, NfiFh NFIDIR url p (fh_mqtt fho))
  end.

(** The directory is opened again for every entry, in both modes. *)
Definition nfi_local_readdir (fh : nfi_fhandle) (entry : dirent) : prog (Z * dirent) :=
  if fh_priv fh =? 0 then set_cerrno EINVAL;; mret (-1, entry)
  else if negb (fh_type fh =? NFIDIR) then set_cerrno ENOTDIR;; mret (-1, entry)
  else
    h ← handle fh;
    s ← filesystem_opendir Client (h_path h);
    if (s : Z) =? 0 then fault (* seekdir of NULL *)
    else
      r ← filesystem_seekdir Client s (h_telldir h);
      set_cerrno 0;;
      ent ← filesystem_readdir Client s;
      match ent with
      | None => mret (-1, dirent_zero)
      | Some d =>
        pos ← filesystem_telldir Client s;
        modify (λ st, with_handles (<[fh_priv fh := XsFh (h_path h) pos (h_dir h) (h_fd h)]> (handles st)) st);;
        r ← filesystem_closedir Client s;
        mret (0, d)
      end.

Definition nfi_local_closedir (fh : nfi_fhandle) : prog Z :=
  if xpn_session_dir cf =? 1 then h ← handle fh; filesystem_closedir Client (h_dir h) else mret 0.

Definition nfi_local_rmdir (url : cstr) : prog Z :=
  local_dir url (λ dir, ret ← filesystem_rmdir Client dir; mret (if (ret : Z) <? 0 then -1 else 0)).
Definition nfi_local_statfs : prog Z := mret 0.

(** ** Metadata *)

Definition nfi_local_read_mdata (url : cstr) (mdata : xpn_metadata) : prog (Z * xpn_metadata) :=
  d ← url_dir bufs1 url;
  match d with
  | None => set_cerrno EINVAL;; mret (-1, mdata)
  | Some dir =>
    fd ← filesystem_open Client dir O_RDWR;
    if (fd : Z) <? 0 then
      s ← get; mret (if c_errno s =? EISDIR then 0 else -1, mdata_zero)
    else
      '(ret, data) ← filesystem_read Client fd SIZEOF_MDATA;
      let m := mdata_of_bytes (overlay (replicate (Z.to_nat SIZEOF_MDATA) NUL) data) in
      r ← filesystem_close Client fd;
      mret (ret, if XPN_CHECK_MAGIC_NUMBER m then m else mdata_zero)
  end.

(** The size is written by the Expand server of the machine, under its mutex. *)
Definition nfi_local_write_mdata (url : cstr) (mdata : xpn_metadata) (only_file_size : Z) : prog Z :=
  if negb (only_file_size =? 0) then
    s ← get;
    if private_info s then nfi_xpn_server_write_mdata cf url mdata only_file_size else mret (-1)
  else
    local_dir url (λ dir,
      fd ← filesystem_open2 Client dir (Z.lor O_WRONLY O_CREAT) S_IRWXU;
      if (fd : Z) <? 0 then s ← get; mret (if c_errno s =? EISDIR then 0 else -1)
      else
        ret ← filesystem_write Client fd (mdata_bytes mdata);
        r ← filesystem_close Client fd;
        mret ret).
End local.
