(* ===== verification/Rpc.v ===== *)
(** * Rpc: an operation on a server is the operation on its machine

    The exchange of [Remote] and [Server]: what is sent is what is received,
    for paths of any length, and the answer is the one the client waits for.
    Hence an operation through the Expand server does what the operation of
    [Local] does on the file system of the machine. *)

From S2P Require Import Prelude Cstr Paths Url Mdata Nfi Client Header FileSystem PosixFiles Server Remote Local.

(** ** Framing *)

Section framing.
Context {F : Type} {PX : Posix F} {SK : Stack}.
Implicit Types s : site F.

(** A path that fits in the buffers. *)
Definition path_ok (dir : cstr) : Prop := (NUL ∉ dir) ∧ (strlen dir < PATH_MAX).

Lemma upto_nul_app dir n : NUL ∉ dir → upto_nul (dir ++ replicate n NUL) = dir.
Proof.
  induction dir as [|a dir IH]; intros Hn; [by destruct n|]. apply not_elem_of_cons in Hn as [Ha Hn]. cbn.
  destruct (ceqb a NUL) eqn:E; [|by rewrite IH]. apply Ascii.eqb_eq in E. congruence.
Qed.
Lemma upto_nul_id dir : NUL ∉ dir → upto_nul dir = dir.
Proof. intros H. rewrite <- (app_nil_r dir) at 1. by apply (upto_nul_app dir 0). Qed.

Lemma take_bytes_app d q : take_bytes (length d) ((I_byte <$> d) ++ q) = Some (d, q).
Proof. induction d as [|a d IH]; [done|]. cbn. by rewrite IH. Qed.
Lemma server_read_bytes_run d q s : to_server s = (I_byte <$> d) ++ q →
  xpn_server_comm_read_bytes (Z.of_nat (length d)) s = Some (d, with_link (connected s) q (to_client s) s).
Proof. intros H. unfold xpn_server_comm_read_bytes. by rewrite H, Nat2Z.id, take_bytes_app. Qed.

(** What follows the message. *)
Definition rest_items (dir : cstr) : list item := if XPN_PATH_MAX <=? strlen dir then I_byte <$> path_rest dir else [].
Definition sent (dirs : list cstr) : list item := dirs ≫= rest_items.

Lemma read_path_run dir q s : path_ok dir → to_server s = rest_items dir ++ q →
  xpn_server_read_path (path_field dir) (strlen dir) s = Some (dir, with_link (connected s) q (to_client s) s).
Proof.
  intros (Hn & Hl) Hs. unfold xpn_server_read_path, rest_items, path_field, strlen in *. rewrite (proj2 (Z.leb_gt PATH_MAX _)) by done.
  assert (length (take (Z.to_nat XPN_PATH_MAX) dir) = (length dir `min` 128)%nat) as Ht by (rewrite length_take; unfold XPN_PATH_MAX; lia).
  unfold XPN_PATH_MAX in *. destruct (Z.ltb_spec 128 (Z.of_nat (length dir))) as [Hlt|Hge].
  - rewrite (proj2 (Z.leb_le 128 _)) in Hs by lia. rewrite Z.min_r by lia.
    replace (Z.of_nat (length dir) - 128) with (Z.of_nat (length (path_rest dir))) by (unfold path_rest, XPN_PATH_MAX; rewrite length_drop; lia).
    erewrite bind_step by (by apply server_read_bytes_run). cbv beta.
    rewrite take_app_le by lia. rewrite take_take, Nat.min_id. unfold path_rest, XPN_PATH_MAX.
    rewrite take_drop, upto_nul_id by done. done.
  - rewrite Z.min_l by lia. rewrite Nat2Z.id, take_app_ge by lia. rewrite Ht, Nat.min_l, Nat.sub_diag by lia. rewrite take_0, app_nil_r.
    rewrite take_ge, upto_nul_id by (done || lia). unfold mret, M_ret. do 2 f_equal.
    destruct s as [? ? ? ? ? ? ? ? i o]. cbn in *. f_equal. rewrite Hs. destruct (_ <=? _) eqn:E; [|done].
    unfold path_rest, XPN_PATH_MAX. by rewrite drop_ge by lia.
Qed.

Lemma comm_write_run l s : connected s = true → comm_write l s = Some (true, with_link true (to_server s ++ l) (to_client s) s).
Proof. intros H. unfold comm_write. by rewrite H. Qed.
Lemma send_rests_run dirs s : connected s = true →
  send_rests dirs s = Some (true, with_link true (to_server s ++ sent dirs) (to_client s) s).
Proof.
  revert s. induction dirs as [|dir dirs IH]; intros s Hc.
  - unfold sent. cbn. rewrite app_nil_r, <- Hc. by destruct s.
  - cbn [send_rests sent mbind list_bind]. unfold rest_items at 1. destruct (XPN_PATH_MAX <=? strlen dir) eqn:E.
    + unfold nfi_xpn_server_comm_write_bytes. erewrite bind_step by (by apply comm_write_run). cbv beta iota.
      rewrite IH by done. cbn. rewrite <- app_assoc. done.
    + by rewrite IH.
Qed.
Lemma sent_short dirs : existsb (λ dir, XPN_PATH_MAX <=? strlen dir) dirs = false → sent dirs = [].
Proof.
  induction dirs as [|dir dirs IH]; [done|]. cbn. intros [H1 H2]%orb_false_iff. unfold sent, rest_items. cbn. rewrite H1. by apply IH.
Qed.

Lemma write_operation_run op i s : connected s = true →
  nfi_write_operation (op, i) s = Some (true, with_link true (to_server s ++ [I_op op; i]) (to_client s) s).
Proof.
  intros Hc. unfold nfi_write_operation, nfi_xpn_server_comm_write_operation, nfi_xpn_server_comm_write_data. cbn [fst snd].
  erewrite bind_step by (by apply comm_write_run). cbv beta iota. rewrite comm_write_run by done. cbn. rewrite <- app_assoc. done.
Qed.

(** The connection is up and nothing is in flight. *)
Definition drained s : Prop := connected s = true ∧ to_server s = [] ∧ to_client s = [].

(** The server runs one round, and the answer is read. *)
Lemma read_data_run {T} (pick : item → option T) op q s s' i o x :
  connected s = true → to_server s = I_op op :: q → to_client s = [] →
  op ≠ XPN_SERVER_DISCONNECT → op ≠ XPN_SERVER_FINALIZE →
  xpn_server_do_operation op (with_link true q [] s) = Some (tt, s') → to_client s' = i :: o → pick i = Some x →
  nfi_xpn_server_comm_read_data pick s = Some (Some x, with_link true (to_server s') o s').
Proof.
  intros Hc Hs Ho H1 H2 E Ho' Hp. unfold nfi_xpn_server_comm_read_data, await. rewrite Hc.
  assert (∀ T' (k : bool → M (site F) T'), (alive ← xpn_server_dispatcher; k alive) s = k true s') as Hd.
  { intros T' k. unfold xpn_server_dispatcher. erewrite bind_step; [reflexivity|].
    erewrite bind_step; [|unfold xpn_server_comm_read_data; rewrite Hs; cbn; rewrite Ho, Hc; reflexivity]. cbv beta.
    rewrite (proj2 (Z.eqb_neq _ _) H1), (proj2 (Z.eqb_neq _ _) H2). cbn [orb]. by erewrite bind_step by exact E. }
  erewrite bind_step by reflexivity. cbv beta. rewrite Ho, Hd. cbn. rewrite Ho', Hp. done.
Qed.

Lemma exchange_run {T} (pick : item → option T) op i dirs s s' r x :
  drained s → op ≠ XPN_SERVER_DISCONNECT → op ≠ XPN_SERVER_FINALIZE →
  xpn_server_do_operation op (with_link true (i :: sent dirs) [] s) = Some (tt, s') → to_client s' = [r] → pick r = Some x →
  exchange (op, i) dirs pick s = Some (Some (Some x), with_link true (to_server s') [] s').
Proof.
  intros (Hc & Hs & Ho) H1 H2 E Hr Hp. unfold exchange.
  assert (∀ q s1, connected s1 = true → to_server s1 = I_op op :: q → to_client s1 = [] → with_link true q [] s1 = with_link true (i :: sent dirs) [] s →
    nfi_xpn_server_comm_read_data pick s1 = Some (Some x, with_link true (to_server s') [] s')) as HR.
  { intros q s1 A1 A2 A3 A4. by apply (read_data_run pick op q s1 s' r [] x); rewrite ?A4. }
  destruct (existsb _ dirs) eqn:Ed.
  - erewrite bind_step by (by apply write_operation_run). cbv beta iota.
    erewrite bind_step by (by apply send_rests_run). cbv beta iota.
    erewrite bind_step by (apply (HR (i :: sent dirs)); cbn; rewrite ?Hs; done). done.
  - unfold nfi_xpn_server_do_request. rewrite (sent_short dirs Ed) in HR.
    assert ((ok ← nfi_write_operation (op, i); if (ok : bool) then nfi_xpn_server_comm_read_data pick else mret None) s
      = Some (Some x, with_link true (to_server s') [] s')) as E1.
    { erewrite bind_step by (by apply write_operation_run). cbv beta iota. apply (HR [i]); cbn; rewrite ?Hs; done. }
    by erewrite bind_step by exact E1.
Qed.
End framing.

(** ** The client's side of an operation *)

Section client.
Context {F : Type} {PX : Posix F} {SK : Stack}.
Context (cf : xs_conf).
Implicit Types s : site F.

(** Between two operations: the connection is up, or can be made. *)
Definition idle s : Prop :=
  private_info s = true ∧ to_server s = [] ∧ to_client s = [] ∧
  (if keep_connected cf =? 0 then reachable s else connected s) = true.
(** The site after an operation. *)
Definition after s : site F := with_link (negb (keep_connected cf =? 0)) [] [] s.

Lemma keep_connected_run s : idle s → nfi_xpn_server_keep_connected cf s = Some (tt, with_link true [] [] s).
Proof.
  intros (Hp & Hi & Ho & Hc). unfold nfi_xpn_server_keep_connected. destruct (keep_connected cf =? 0).
  - cbn [when]. unfold nfi_xpn_server_reconnect. erewrite bind_step.
    2: { erewrite bind_step by reflexivity. cbv beta. rewrite Hp, Hc. reflexivity. }
    done.
  - cbn. unfold mret, M_ret. do 2 f_equal. destruct s. cbn in *. by subst.
Qed.
Lemma finish_run ret s : private_info s = true → drained s → finish cf ret s = Some (ret, after s).
Proof.
  intros Hp (Hc & Hi & Ho). unfold finish, release_connection, after. destruct (keep_connected cf =? 0).
  - cbn [when]. unfold nfi_xpn_server_disconnect.
    assert ((s ← get; when (private_info s) (modify (with_link false [] []));; mret 0) s = Some (0, with_link false [] [] s)) as E.
    { erewrite bind_step by reflexivity. cbv beta. by rewrite Hp. }
    assert ((r ← (s ← get; when (private_info s) (modify (with_link false [] []));; mret 0); mret tt) s = Some (tt, with_link false [] [] s)) as E2
      by (by erewrite bind_step by exact E).
    by erewrite bind_step by exact E2.
  - cbn. unfold mret, M_ret. do 2 f_equal. destruct s. cbn in *. by subst.
Qed.
Lemma idle_quiet s : private_info s = true → drained (with_link true [] [] s).
Proof. done. Qed.
Lemma idle_after s : idle s → ∀ s', private_info s' = true → reachable s' = reachable s → idle (after s').
Proof.
  intros (_ & _ & _ & Hc) s' Hp Hr. unfold idle, after. destruct (keep_connected cf =? 0); cbn; [|done]. by rewrite Hr.
Qed.

Lemma with_server_run s (body : M (site F) Z) : idle s → with_server cf body s = body (with_link true [] [] s).
Proof.
  intros Hs. unfold with_server. erewrite bind_step by (by apply keep_connected_run). cbv beta.
  erewrite bind_step by reflexivity. cbv beta. cbn. by rewrite (proj1 Hs).
Qed.

(** A URL of a file [dir] of a server. *)
Record url_ok (url dir : cstr) : Prop := {
  uo_path : path_ok dir;
  uo_1 : ParseURL url bufs1 = Some (0, UrlBufs None None None (Some dir));
  uo_2 : ∃ sv, ParseURL url bufs2 = Some (0, UrlBufs None (Some sv) None (Some dir));
  uo_3 : ∃ pr sv, ParseURL url bufs3 = Some (0, UrlBufs (Some pr) (Some sv) None (Some dir)) ∧ has_mqtt pr = 0 }.

Lemma parse_run url b b' s : ParseURL url b = Some (0, b') → parse (F := F) url b s = Some (Some b', s).
Proof. intros E. unfold parse. erewrite bind_step; [|unfold lift; rewrite E; reflexivity]. done. Qed.
Lemma url_dir_run url dir b s : url_ok url dir → b = bufs1 ∨ b = bufs2 → url_dir (F := F) b url s = Some (Some dir, s).
Proof.
  intros [_ H1 [sv H2] _] [-> | ->]; unfold url_dir; by erewrite bind_step by (by apply parse_run).
Qed.
Lemma with_dir_run url dir b (body : cstr → M (site F) Z) s : url_ok url dir → b = bufs1 ∨ b = bufs2 → with_dir cf b url body s = body dir s.
Proof. intros Hu Hb. unfold with_dir. by erewrite bind_step by (by apply (url_dir_run url dir)). Qed.
Lemma local_dir_run url dir (body : cstr → M (site F) Z) s : url_ok url dir → local_dir url body s = body dir s.
Proof. intros Hu. unfold local_dir. erewrite bind_step by (apply (url_dir_run url dir); [done|by left]). done. Qed.

(** *** Results *)

Definition outcome (r : Z + Z) : Z := match r with inl a => a | inr _ => -1 end.
Definition outcome_errno {A} (r : A + Z) : Z := match r with inl _ => 0 | inr e => e end.
Definition on_errno {A} (r : A + Z) (e : Z) : Z := match r with inl _ => e | inr e' => e' end.

Lemma syscall_run {A} p (f : sys F A) bad s r w : f (fs s) = (r, w) →
  syscall p f bad s = Some (match r with inl a => a | inr _ => bad end, with_errno p (on_errno r (errno_of p s)) (with_fs w s)).
Proof. intros E. unfold syscall. rewrite E. destruct r; [|done]. by destruct p, s. Qed.

(** A handler that makes one call on the path and sends the status. *)
Lemma status_handler (g : cstr → sys F Z) dir s r w : path_ok dir → to_server s = rest_items dir → g dir (fs s) = (r, w) →
  (full_path ← xpn_server_read_path (path_field dir) (strlen dir);
   reset_errno;; ret ← syscall Server (g full_path) (-1); send_status ret) s
  = Some (tt, with_link (connected s) [] (to_client s ++ [I_status (Status (outcome r) (outcome_errno r))]) (with_errno Server (outcome_errno r) (with_fs w s))).
Proof.
  intros Hd Hs E. erewrite bind_step by (apply (read_path_run dir []); [done|by rewrite app_nil_r]). cbv beta.
  erewrite bind_step by reflexivity. cbv beta. erewrite bind_step by (apply (syscall_run Server (g dir) (-1)); exact E). cbv beta.
  unfold send_status, server_errno. erewrite bind_step by reflexivity. by destruct r.
Qed.

Lemma note_errno_run st s : note_errno st s = Some (tt, if st_ret st <? 0 then with_errno Client (st_errno st) s else s).
Proof. unfold note_errno. by destruct (_ <? 0). Qed.

(** What [q] does, [p] does: they agree on the result, the
    file system and the handles, and on [errno] when the operation fails. *)
Definition agree {A} (code : A → Z) (R : A → A → Prop) (p q : M (site F) A) (s : site F) : Prop :=
  ∀ a2 s2, q s = Some (a2, s2) → ∃ a1 s1, p s = Some (a1, s1) ∧ R a1 a2 ∧
    fs s1 = fs s2 ∧ handles s1 = handles s2 ∧ next_handle s1 = next_handle s2 ∧
    (code a2 < 0 → c_errno s1 = c_errno s2) ∧ idle s1.
Definition same_data {B} (x y : Z * B) : Prop := fst x = fst y ∧ (0 <= fst y → snd x = snd y).
End client.

(** ** Tactics *)

(** Computes the dispatch of a code. *)
Ltac pick_handler :=
  unfold xpn_server_do_operation;
  cbn [Z.eqb Pos.eqb XPN_SERVER_OPEN_FILE XPN_SERVER_CREAT_FILE XPN_SERVER_READ_FILE XPN_SERVER_WRITE_FILE XPN_SERVER_CLOSE_FILE
    XPN_SERVER_RM_FILE XPN_SERVER_RM_FILE_ASYNC XPN_SERVER_RENAME_FILE XPN_SERVER_GETATTR_FILE XPN_SERVER_SETATTR_FILE XPN_SERVER_MKDIR_DIR
    XPN_SERVER_OPENDIR_DIR XPN_SERVER_READDIR_DIR XPN_SERVER_CLOSEDIR_DIR XPN_SERVER_RMDIR_DIR XPN_SERVER_RMDIR_DIR_ASYNC
    XPN_SERVER_READ_MDATA XPN_SERVER_WRITE_MDATA XPN_SERVER_WRITE_MDATA_FILE_SIZE].
(** The dispatch of a code whose message is at the head of the stream. *)
Ltac dispatch :=
  let s1 := fresh "s1" in let H := fresh "H" in
  intros s1 H; pick_handler;
  erewrite bind_step by (unfold xpn_server_comm_read_data; rewrite H; reflexivity); reflexivity.
(** The same, as a step of a run. *)
Ltac run_dispatch := pick_handler; erewrite bind_step by reflexivity.
(** The path of a request is read. *)
Ltac run_path H := erewrite bind_step by (apply (read_path_run _ []); [apply H|cbn; by rewrite app_nil_r]); cbv beta.
Ltac rstep := erewrite bind_step by reflexivity; cbv beta iota.

(** ** The operations *)

Section ops.
Context {F : Type} {PX : Posix F} {SK : Stack}.
Context (cf : xs_conf).
Implicit Types s : site F.

(** The site after the server answered, and after the client took the status. *)
Definition answered (e : Z) (w : F) s : site F := with_link true [] [] (with_errno Server e (with_fs w s)).
Definition noted (st : status) s : site F := if st_ret st <? 0 then with_errno Client (st_errno st) s else s.

Lemma exchange_status (g : cstr → sys F Z) op body dir s r w :
  path_ok dir → op ≠ XPN_SERVER_DISCONNECT → op ≠ XPN_SERVER_FINALIZE → private_info s = true → drained s →
  (∀ s1, to_server s1 = body :: rest_items dir →
    xpn_server_do_operation op s1 = (full_path ← xpn_server_read_path (path_field dir) (strlen dir);
      reset_errno;; ret ← syscall Server (g full_path) (-1); send_status ret) (with_link (connected s1) (rest_items dir) (to_client s1) s1)) →
  g dir (fs s) = (r, w) →
  exchange (op, body) [dir] is_status s = Some (Some (Some (Status (outcome r) (outcome_errno r))), answered (outcome_errno r) w s).
Proof.
  intros Hd H1 H2 Hp Hq Hop E.
  rewrite (exchange_run is_status op body [dir] s
    (with_link true [] [I_status (Status (outcome r) (outcome_errno r))] (with_errno Server (outcome_errno r) (with_fs w s)))
    (I_status (Status (outcome r) (outcome_errno r))) (Status (outcome r) (outcome_errno r))); try done.
  rewrite Hop by (cbn; unfold sent; cbn; by rewrite app_nil_r). by rewrite (status_handler g dir _ r w).
Qed.

Lemma lift_run {A} (a : A) s : lift (Some a) s = Some (a, s).
Proof. done. Qed.

(** An operation that sends a path and gets a status. *)
Lemma status_op (g : cstr → sys F Z) op url dir body (k : cstr → status → M (site F) Z) s r w b :
  url_ok url dir → b = bufs1 ∨ b = bufs2 → op ≠ XPN_SERVER_DISCONNECT → op ≠ XPN_SERVER_FINALIZE → idle cf s →
  (∀ s1, to_server s1 = body dir :: rest_items dir →
    xpn_server_do_operation op s1 = (full_path ← xpn_server_read_path (path_field dir) (strlen dir);
      reset_errno;; ret ← syscall Server (g full_path) (-1); send_status ret) (with_link (connected s1) (rest_items dir) (to_client s1) s1)) →
  g dir (fs s) = (r, w) →
  let st := Status (outcome r) (outcome_errno r) in
  with_server cf (with_dir cf b url (λ dir,
    r ← exchange (op, body dir) [dir] is_status;
    match r with None => mret (-1) | Some st => st ← lift st; note_errno st;; k dir st end)) s
  = k dir st (noted st (answered (outcome_errno r) w s)).
Proof.
  intros Hu Hb H1 H2 Hi Hop E st. rewrite with_server_run, (with_dir_run cf url dir) by done.
  erewrite bind_step by (apply (exchange_status g op (body dir) dir _ r w); [apply Hu|done|done|apply Hi|done|exact Hop|exact E]). cbv beta iota.
  erewrite bind_step by apply lift_run. cbv beta. erewrite bind_step by apply note_errno_run. cbv beta. by fold st.
Qed.

Lemma noted_private st s : private_info (noted st s) = private_info s.
Proof. unfold noted. by destruct (_ <? 0). Qed.
Lemma noted_quiet st s : drained s → drained (noted st s).
Proof. unfold noted. by destruct (_ <? 0). Qed.
Lemma finish_noted ret st e w s : idle cf s → finish cf ret (noted st (answered e w s)) = Some (ret, after cf (noted st (answered e w s))).
Proof. intros Hi. apply finish_run; [rewrite noted_private; apply Hi|by apply noted_quiet]. Qed.
Lemma idle_noted st e w s : idle cf s → idle cf (after cf (noted st (answered e w s))).
Proof. intros Hi. apply (idle_after cf s Hi); [rewrite noted_private; apply Hi|]. unfold noted. by destruct (_ <? 0). Qed.

Lemma sys0_inv (f : sys F unit) w r w' : sys0 f w = (r, w') → r = inl 0 ∨ ∃ e, r = inr e.
Proof. unfold sys0. destruct (f w) as [[u|e] w1]; intros [= <- _]; [by left|right; by eexists]. Qed.

Lemma remote_rmdir url dir s r w : url_ok url dir → idle cf s → sys0 (sys_rmdir dir) (fs s) = (r, w) →
  nfi_xpn_server_rmdir cf url s
  = Some (if outcome r <? 0 then outcome r else 0, after cf (noted (Status (outcome r) (outcome_errno r)) (answered (outcome_errno r) w s))).
Proof.
  intros Hu Hi E. unfold nfi_xpn_server_rmdir.
  rewrite (status_op (λ d, sys0 (sys_rmdir d)) _ url dir (λ dir, I_path (PathMsg (strlen dir) (path_field dir))) (λ _ st, if st_ret st <? 0 then finish cf (st_ret st) else finish cf 0) s r w) by (done || (by right) || dispatch).
  cbn [st_ret]. destruct (outcome r <? 0); by rewrite finish_noted.
Qed.
Lemma agree_intro {A} code R (p q : M (site F) A) s a1 s1 a2 s2 : p s = Some (a1, s1) → q s = Some (a2, s2) →
  R a1 a2 → fs s1 = fs s2 → handles s1 = handles s2 → next_handle s1 = next_handle s2 → (code a2 < 0 → c_errno s1 = c_errno s2) → idle cf s1 →
  agree cf code R p q s.
Proof. intros E1 E2 ?????? a s' E. rewrite E2 in E. injection E as <- <-. exists a1, s1. by split_and!. Qed.

Lemma rmdir_agree url dir s : url_ok url dir → idle cf s → agree cf id eq (nfi_xpn_server_rmdir cf url) (nfi_local_rmdir url) s.
Proof.
  intros Hu Hi. destruct (sys0 (sys_rmdir dir) (fs s)) as [r w] eqn:E. eapply agree_intro; [by apply (remote_rmdir url dir s r w)| |..].
  { unfold nfi_local_rmdir. rewrite (local_dir_run url dir) by done.
    erewrite bind_step by (apply (syscall_run Client (sys0 (sys_rmdir dir)) (-1)); exact E). reflexivity. }
  6: by apply idle_noted.
  all: unfold noted; destruct (sys0_inv _ _ _ _ E) as [-> | [e ->]]; done.
Qed.

(** *** The operations whose result is not the server's *)

Lemma remote_remove url dir s r w : url_ok url dir → idle cf s → sys0 (sys_unlink dir) (fs s) = (r, w) →
  nfi_xpn_server_remove cf url s
  = Some (exchange_ret [dir], after cf (noted (Status (outcome r) (outcome_errno r)) (answered (outcome_errno r) w s))).
Proof.
  intros Hu Hi E. unfold nfi_xpn_server_remove.
  rewrite (status_op (λ d, sys0 (sys_unlink d)) _ url dir (λ dir, I_path (PathMsg (strlen dir) (path_field dir))) (λ dir _, finish cf (exchange_ret [dir])) s r w) by (done || (by right) || dispatch).
  by rewrite finish_noted.
Qed.
Lemma remote_mkdir url dir mode s r w : url_ok url dir → idle cf s → sys0 (sys_mkdir dir mode) (fs s) = (r, w) →
  nfi_xpn_server_mkdir cf url mode s
  = Some (match r with inl _ => exchange_ret [dir] | inr e => if e =? EEXIST then exchange_ret [dir] else -1 end,
          after cf (noted (Status (outcome r) (outcome_errno r)) (answered (outcome_errno r) w s))).
Proof.
  intros Hu Hi E. unfold nfi_xpn_server_mkdir.
  rewrite (status_op (λ d, sys0 (sys_mkdir d mode)) _ url dir (λ dir, I_path_flags (PathFlags junk_int mode junk_int junk_int (strlen dir) (path_field dir)))
    (λ dir st, s ← get; if (st_ret st <? 0) && negb (c_errno s =? EEXIST) then finish cf (-1) else finish cf (exchange_ret [dir])) s r w)
    by (done || (by right) || dispatch).
  cbv zeta. erewrite bind_step by reflexivity. cbv beta. destruct (sys0_inv _ _ _ _ E) as [-> | [e ->]].
  - cbn [outcome st_ret]. change (0 <? 0) with false. cbn [andb]. by rewrite finish_noted.
  - cbn [outcome st_ret outcome_errno]. assert (c_errno (noted (Status (-1) e) (answered e w s)) = e) as -> by done.
    change (-1 <? 0) with true. cbn [andb]. destruct (e =? EEXIST); cbn [negb]; by rewrite finish_noted.
Qed.
Lemma remote_rename old new dold dnew s r w : url_ok old dold → url_ok new dnew → idle cf s → sys0 (sys_rename dold dnew) (fs s) = (r, w) →
  nfi_xpn_server_rename cf old new s
  = Some (exchange_ret [dold; dnew], after cf (noted (Status (outcome r) (outcome_errno r)) (answered (outcome_errno r) w s))).
Proof.
  intros Hu1 Hu2 Hi E. unfold nfi_xpn_server_rename.
  rewrite with_server_run, (with_dir_run cf old dold), (with_dir_run cf new dnew) by (done || by right). cbv beta zeta.
  erewrite bind_step.
  2: { apply (exchange_run is_status XPN_SERVER_RENAME_FILE _ _ _
         (with_link true [] [I_status (Status (outcome r) (outcome_errno r))] (with_errno Server (outcome_errno r) (with_fs w s)))
         (I_status (Status (outcome r) (outcome_errno r))) (Status (outcome r) (outcome_errno r))); try done.
       unfold sent. cbn [mbind list_bind]. rewrite app_nil_r.
       match goal with |- xpn_server_do_operation _ ?s1 = _ => assert (xpn_server_do_operation XPN_SERVER_RENAME_FILE s1
         = xpn_server_op_rename (RenameMsg (strlen dold) (strlen dnew) (path_field dold) (path_field dnew)) (with_link true (rest_items dold ++ rest_items dnew) [] s)) as -> end.
       { pick_handler. by erewrite bind_step by reflexivity. }
       unfold xpn_server_op_rename. cbn [rn_old rn_new rn_old_len rn_new_len].
       erewrite bind_step by (apply (read_path_run dold (rest_items dnew)); [apply Hu1|done]). cbv beta.
       erewrite bind_step by (apply (read_path_run dnew []); [apply Hu2|cbn; by rewrite app_nil_r]). cbv beta.
       erewrite bind_step by reflexivity. cbv beta. erewrite bind_step by (apply (syscall_run Server (sys0 (sys_rename dold dnew)) (-1)); exact E). cbv beta.
       unfold send_status, server_errno. erewrite bind_step by reflexivity. by destruct r. }
  cbv beta iota. erewrite bind_step by apply lift_run. cbv beta. erewrite bind_step by apply note_errno_run. cbv beta.
  change (if st_ret ?st <? 0 then with_errno Client (st_errno ?st) ?s1 else ?s1) with (noted st s1).
  match goal with |- finish cf ?ret ?s1 = _ => change s1 with (noted (Status (outcome r) (outcome_errno r)) (answered (outcome_errno r) w s)) end.
  by rewrite finish_noted.
Qed.

(** *** Attributes and handles *)

Lemma stat_run p path s r w : sys_stat path (fs s) = (r, w) →
  filesystem_stat p path s = Some (match r with inl st => Some st | inr _ => None end, with_errno p (on_errno r (errno_of p s)) (with_fs w s)).
Proof. intros E. unfold filesystem_stat, syscall. rewrite E. destruct r; [|done]. by destruct p, s. Qed.

Lemma getattr_agree url dir ty p mq a s : url_ok url dir → idle cf s →
  agree cf fst same_data (nfi_xpn_server_getattr cf (NfiFh ty url p mq) a) (nfi_local_getattr (NfiFh ty url p mq) a) s.
Proof.
  intros Hu Hi. destruct (sys_stat dir (fs s)) as [r w] eqn:E.
  set (req := AttrReq (match r with inl st => st | inr _ => junk_stat end) (Status (match r with inl _ => 0 | inr _ => -1 end) (outcome_errno r)) (match r with inl _ => 0 | inr _ => -1 end)).
  assert (exchange (XPN_SERVER_GETATTR_FILE, I_path (PathMsg (strlen dir) (path_field dir))) [dir] is_attr_req (with_link true [] [] s)
    = Some (Some (Some req), answered (outcome_errno r) w s)) as Ex.
  { rewrite (exchange_run is_attr_req XPN_SERVER_GETATTR_FILE _ [dir] (with_link true [] [] s)
      (with_link true [] [I_attr_req req] (with_errno Server (outcome_errno r) (with_fs w s))) (I_attr_req req) req); try done.
    unfold sent. cbn [mbind list_bind]. rewrite app_nil_r.
    match goal with |- xpn_server_do_operation _ ?s1 = _ => assert (xpn_server_do_operation XPN_SERVER_GETATTR_FILE s1
      = xpn_server_op_getattr (PathMsg (strlen dir) (path_field dir)) (with_link true (rest_items dir) [] s)) as -> end.
    { pick_handler. by erewrite bind_step by reflexivity. }
    unfold xpn_server_op_getattr. cbn [pm_path pm_path_len].
    erewrite bind_step by (apply (read_path_run dir []); [apply Hu|cbn; by rewrite app_nil_r]). cbv beta.
    erewrite bind_step by reflexivity. cbv beta.
    erewrite bind_step by (apply (stat_run Server dir _ r w); exact E). cbv beta. erewrite bind_step by reflexivity. by destruct r. }
  assert (nfi_local_getattr (NfiFh ty url p mq) a s = Some (match r with inl st => (0, xpn_2_nfi_attr a st) | inr _ => (-1, a) end,
    with_errno Client (on_errno r (c_errno s)) (with_fs w s))) as EL.
  { unfold nfi_local_getattr. erewrite bind_step by (apply (url_dir_run url dir); [done|by left]). cbv beta iota.
    erewrite bind_step by (apply (stat_run Client dir _ r w); exact E). by destruct r, s. }
  assert (nfi_xpn_server_getattr cf (NfiFh ty url p mq) a s = Some ((match r with inl _ => 0 | inr _ => -1 end, xpn_2_nfi_attr a (aq_attr req)),
    after cf (noted (aq_status_req req) (answered (outcome_errno r) w s)))) as ER.
  { unfold nfi_xpn_server_getattr. erewrite bind_step by (by apply keep_connected_run). cbv beta. erewrite bind_step by reflexivity. cbv beta.
    cbn [private_info with_link]. rewrite (proj1 Hi). cbn [negb fh_url]. erewrite bind_step by (apply (url_dir_run url dir); [done|by right]). cbv beta iota.
    erewrite bind_step by exact Ex. cbv beta iota. erewrite bind_step by apply lift_run. cbv beta. erewrite bind_step by apply note_errno_run. cbv beta.
    change (if st_ret ?st <? 0 then with_errno Client (st_errno ?st) ?s1 else ?s1) with (noted st s1) || idtac.
    erewrite bind_step by (by apply finish_noted). by destruct r. }
  eapply agree_intro; [exact ER|exact EL|..].
  6: by apply idle_noted.
  all: unfold noted; destruct r; done.
Qed.

(** An exchange on one path, when the server's run is known. *)
Lemma exchange_path {T} (pick : item → option T) op body dir s s' r x :
  op ≠ XPN_SERVER_DISCONNECT → op ≠ XPN_SERVER_FINALIZE → drained s →
  xpn_server_do_operation op (with_link true (body :: rest_items dir) [] s) = Some (tt, with_link true [] [r] s') → pick r = Some x →
  exchange (op, body) [dir] pick s = Some (Some (Some x), with_link true [] [] s').
Proof.
  intros H1 H2 Hq E Hp. rewrite (exchange_run pick op body [dir] s (with_link true [] [r] s') r x); try done.
  unfold sent. cbn [mbind list_bind]. by rewrite app_nil_r.
Qed.
Lemma open_agree url dir flags mode ty pv s : url_ok url dir → idle cf s → xpn_session_file cf = 1 →
  agree cf fst eq (nfi_xpn_server_open cf url flags mode (NfiFh ty [] pv 0)) (nfi_local_open cf url flags mode (NfiFh ty [] pv 0)) s.
Proof.
  intros Hu Hi Hsf. destruct (sys_open dir flags mode (fs s)) as [r w] eqn:E. destruct (uo_3 _ _ Hu) as (pr & sv & Hp & Hm).
  set (p := next_handle s). set (h1 := <[p := XsFh [] 0 0 0]> (handles s)).
  set (s1 := with_next_handle (p + 1) (with_handles h1 (with_link true [] [] s))).
  set (st := Status (outcome r) (outcome_errno r)).
  assert ((outcome r <? 0) = match r with inl _ => false | inr _ => true end) as Hneg.
  { destruct r as [fd|e]; [|done]. cbn. apply Z.ltb_ge. by apply (sys_open_pos _ _ _ _ _ _ E). }
  assert (exchange (XPN_SERVER_OPEN_FILE, I_path_flags (PathFlags flags mode (xpn_session_file cf) 0 (strlen dir) (path_field dir))) [dir] is_status s1
    = Some (Some (Some st), answered (outcome_errno r) w s1)) as Ex.
  { apply (exchange_path is_status _ _ dir s1 (with_errno Server (outcome_errno r) (with_fs w s1)) (I_status st)); try done. run_dispatch.
    unfold xpn_server_op_open. cbn [pf_path pf_path_len pf_flags pf_mode pf_session]. run_path Hu. rstep.
    erewrite bind_step by (apply (syscall_run Server (sys_open dir flags mode) (-1)); exact E). cbv beta. rstep.
    change (match r with inl a => a | inr _ => -1 end) with (outcome r). rewrite Hneg, Hsf. unfold st.
    destruct r as [fd|e]; [|done]. change (1 =? 0) with false. cbv iota. rstep. done. }
  assert (nfi_xpn_server_open cf url flags mode (NfiFh ty [] pv 0) s
    = Some (match r with inl _ => (0, NfiFh NFIFILE url p 0) | inr _ => (-1, NfiFh ty [] pv 0) end,
       after cf (with_handles (match r with inl fd => <[p := XsFh dir 0 0 fd]> h1 | inr _ => delete p h1 end)
         (noted st (answered (outcome_errno r) w s1))))) as ER.
  { unfold nfi_xpn_server_open. erewrite bind_step by (by apply keep_connected_run). cbv beta. rstep.
    cbn [private_info with_link]. rewrite (proj1 Hi). cbn [negb]. erewrite bind_step by (by apply (parse_run url bufs3)). cbv beta iota.
    rstep. cbn [u_protocol default from_option id]. rewrite Hm.
    erewrite bind_step by (unfold alloc; rstep; reflexivity). cbv beta. fold p h1 s1.
    erewrite bind_step by exact Ex. cbv beta iota. rstep. cbn [st_ret st]. rewrite Hneg. destruct r as [fd|e].
    - rstep. erewrite bind_step by (apply finish_run; [apply Hi|done]). unfold noted. cbn [st_ret st]. by rewrite Hneg.
    - rstep. rstep. erewrite bind_step by (apply finish_run; [apply Hi|done]). done. }
  assert (nfi_local_open cf url flags mode (NfiFh ty [] pv 0) s
    = Some (match r with inl _ => (0, NfiFh NFIFILE url p 0) | inr _ => (-1, NfiFh ty [] pv 0) end,
       with_handles (match r with inl fd => <[p := XsFh dir 0 0 fd]> h1 | inr _ => delete p h1 end)
         (with_next_handle (p + 1) (with_errno Client (on_errno r (c_errno s)) (with_fs w s))))) as EL.
  { unfold nfi_local_open. erewrite bind_step by (apply (url_dir_run url dir); [done|by left]). cbv beta iota.
    erewrite bind_step by (unfold alloc; rstep; reflexivity). cbv beta.
    erewrite bind_step by (apply (syscall_run Client (sys_open dir flags mode) (-1)); exact E). cbv beta.
    change (match r with inl a => a | inr _ => -1 end) with (outcome r). rewrite Hneg, Hsf. change (1 =? 0) with false. cbn [when].
    destruct r as [fd|e]; [rstep; rstep; done|rstep; done]. }
  eapply agree_intro; [exact ER|exact EL|..].
  6: by apply (idle_after cf s Hi); unfold noted; destruct (_ <? 0); try done; apply Hi.
  all: unfold noted; cbn [st_ret st]; rewrite ?Hneg; destruct r; try done.
Qed.

Lemma close_agree fh h s : idle cf s → handles s !! fh_priv fh = Some h → path_ok (h_path h) → xpn_session_file cf = 1 →
  agree cf id eq (nfi_xpn_server_close cf fh) (nfi_local_close cf fh) s.
Proof.
  intros Hi Hh Hd Hsf. destruct (sys0 (sys_close (h_fd h)) (fs s)) as [r w] eqn:E.
  set (s1 := with_link true [] [] s). set (st := Status (outcome r) (outcome_errno r)).
  assert (exchange (XPN_SERVER_CLOSE_FILE, I_close (CloseMsg (h_fd h) (fh_mqtt fh) junk_int (strlen (h_path h)) (path_field (h_path h)))) [h_path h] is_status s1
    = Some (Some (Some st), answered (outcome_errno r) w s1)) as Ex.
  { apply (exchange_path is_status _ _ (h_path h) s1 (with_errno Server (outcome_errno r) (with_fs w s1)) (I_status st)); try done. run_dispatch.
    unfold xpn_server_op_close. cbn [cm_path cm_path_len cm_fd].
    exact (status_handler (λ _, sys0 (sys_close (h_fd h))) (h_path h) (with_link true (rest_items (h_path h)) [] s1) r w Hd eq_refl E). }
  assert (nfi_xpn_server_close cf fh s = Some (outcome r, after cf (with_handles (delete (fh_priv fh) (handles s)) (noted st (answered (outcome_errno r) w s1))))) as ER.
  { unfold nfi_xpn_server_close. rewrite with_server_run, Hsf by done. change (1 =? 1) with true. cbn [negb].
    erewrite bind_step by (unfold handle; rstep; unfold lift; cbn [handles with_link]; rewrite Hh; reflexivity). cbv beta zeta.
    erewrite bind_step by exact Ex. cbv beta iota. rstep. erewrite bind_step by apply note_errno_run. cbv beta.
    change (if st_ret st <? 0 then with_errno Client (st_errno st) (answered (outcome_errno r) w s1) else answered (outcome_errno r) w s1)
      with (noted st (answered (outcome_errno r) w s1)).
    rstep. rewrite finish_run; [|cbn; rewrite noted_private; apply Hi|].
    - unfold noted. by destruct (_ <? 0).
    - unfold noted. by destruct (_ <? 0). }
  eapply agree_intro; [exact ER| |..].
  { unfold nfi_local_close. rewrite Hsf. change (1 =? 1) with true. cbv iota.
    erewrite bind_step by (unfold handle; rstep; unfold lift; rewrite Hh; reflexivity). cbv beta.
    erewrite bind_step by (apply (syscall_run Client (sys0 (sys_close (h_fd h))) (-1)); exact E). cbv beta. rstep. reflexivity. }
  6: by apply (idle_after cf s Hi); cbn; rewrite ?noted_private; [apply Hi|]; unfold noted; destruct (_ <? 0).
  all: unfold noted; destruct (sys0_inv _ _ _ _ E) as [-> | [e ->]]; done.
Qed.

Lemma closedir_agree fh h s : idle cf s → handles s !! fh_priv fh = Some h →
  agree cf id eq (nfi_xpn_server_closedir cf fh) (nfi_local_closedir cf fh) s.
Proof.
  intros Hi Hh. destruct (xpn_session_dir cf =? 1) eqn:Hsd.
  2: { unfold nfi_xpn_server_closedir, nfi_local_closedir. rewrite Hsd. cbn [negb].
       unfold finish, release_connection. destruct (keep_connected cf =? 0) eqn:Ek.
       - cbn [when]. unfold nfi_xpn_server_disconnect.
         assert ((r ← (s0 ← get; when (private_info s0) (modify (with_link false [] []));; mret 0); mret tt) s = Some (tt, with_link false [] [] s)) as E2.
         { erewrite bind_step; [reflexivity|]. erewrite bind_step by reflexivity. cbv beta. by rewrite (proj1 Hi). }
         eapply agree_intro; [by erewrite bind_step by exact E2|reflexivity|..]; try done.
         destruct Hi as (H1 & H2 & H3 & H4). unfold idle. rewrite Ek in *. by split_and!.
       - eapply agree_intro; [by rstep|reflexivity|..]; done. }
  destruct (sys0 (sys_closedir (h_dir h)) (fs s)) as [r w] eqn:E.
  set (s1 := with_link true [] [] s). set (st := Status (outcome r) (outcome_errno r)).
  assert (nfi_xpn_server_do_request (XPN_SERVER_CLOSEDIR_DIR, I_close (CloseMsg junk_int junk_int (h_dir h) junk_int [])) is_status s1
    = Some (Some st, answered (outcome_errno r) w s1)) as Ex.
  { pose proof (exchange_path is_status XPN_SERVER_CLOSEDIR_DIR (I_close (CloseMsg junk_int junk_int (h_dir h) junk_int [])) [] s1
      (with_errno Server (outcome_errno r) (with_fs w s1)) (I_status st) st) as H.
    unfold exchange in H. cbn [existsb strlen length Z.leb] in H. change (existsb (λ dir, XPN_PATH_MAX <=? strlen dir) [[]]) with false in H.
    assert ((r0 ← nfi_xpn_server_do_request (XPN_SERVER_CLOSEDIR_DIR, I_close (CloseMsg junk_int junk_int (h_dir h) junk_int [])) is_status; mret (Some r0)) s1
      = Some (Some (Some st), answered (outcome_errno r) w s1)) as H'.
    { apply H; try done. run_dispatch. unfold xpn_server_op_closedir. cbn [cm_dir]. rstep.
      erewrite bind_step by (apply (syscall_run Server (sys0 (sys_closedir (h_dir h))) (-1)); exact E). cbv beta.
      unfold send_status, server_errno. rstep. by destruct r. }
    apply bind_inv in H' as (a & s2 & H1 & H2). injection H2 as -> ->. done. }
  assert (nfi_xpn_server_closedir cf fh s = Some (outcome r, after cf (noted st (answered (outcome_errno r) w s)))) as ER.
  { unfold nfi_xpn_server_closedir. rewrite Hsd. cbn [negb]. rewrite with_server_run by done.
    erewrite bind_step by (unfold handle; rstep; unfold lift; cbn [handles with_link]; rewrite Hh; reflexivity). cbv beta zeta.
    erewrite bind_step by exact Ex. cbv beta iota. rstep. erewrite bind_step by apply note_errno_run. cbv beta.
    change (finish cf (st_ret st) (noted st (answered (outcome_errno r) w s)) = Some (outcome r, after cf (noted st (answered (outcome_errno r) w s)))).
    by rewrite finish_noted. }
  eapply agree_intro; [exact ER| |..].
  { unfold nfi_local_closedir. rewrite Hsd. erewrite bind_step by (unfold handle; rstep; unfold lift; rewrite Hh; reflexivity). cbv beta.
    unfold filesystem_closedir. rewrite (syscall_run Client _ (-1) s r w E). reflexivity. }
  6: by apply idle_noted.
  all: unfold noted; destruct (sys0_inv _ _ _ _ E) as [-> | [e ->]]; done.
Qed.

(** *** The same calls in the other process *)

Definition set_opt (p : side) (f : option Z) s : site F := match f with Some e => with_errno p e s | None => s end.
(** Run by the server's process or by the client's, a program has the same
    result and the same effect on the files, and sets the same [errno] if it
    sets one, which it does when its result is [bad]. *)
Definition twin {A} (bad : A → bool) (p : side → M (site F) A) : Prop := ∀ s1 s2, fs s1 = fs s2 →
  match p Server s1, p Client s2 with
  | Some (a, t1), Some (b, t2) => a = b ∧ ∃ w f, t1 = set_opt Server f (with_fs w s1) ∧ t2 = set_opt Client f (with_fs w s2) ∧ (bad a = true → is_Some f)
  | None, None => True
  | _, _ => False
  end.
Lemma set_opt_trans p f g w w' s :
  set_opt p g (with_fs w' (set_opt p f (with_fs w s))) = set_opt p (match g with Some e => Some e | None => f end) (with_fs w' s).
Proof. destruct g, f; by destruct p, s. Qed.
Lemma set_opt_fs p f w s : fs (set_opt p f (with_fs w s)) = w.
Proof. destruct f; [by destruct p|done]. Qed.

Lemma twin_syscall {A} (bad : A → bool) (f : sys F A) d : (∀ w a w', f w = (inl a, w') → bad a = false) → twin bad (λ p, syscall p f d).
Proof.
  intros Hb s1 s2 E. unfold syscall. rewrite E. destruct (f (fs s2)) as [[a|e] w] eqn:Ef.
  - split; [done|]. exists w, None. split_and!; try done. intros Ht. by rewrite (Hb _ _ _ Ef) in Ht.
  - split; [done|]. exists w, (Some e). by split_and!.
Qed.
Lemma twin_bind {A B} (bad : A → bool) (bad' : B → bool) (p : side → M (site F) A) (k : A → side → M (site F) B) :
  twin bad p → (∀ a, twin (λ b, bad' b && negb (bad a)) (k a)) → twin bad' (λ sd, a ← p sd; k a sd).
Proof.
  intros Hp Hk s1 s2 E. specialize (Hp s1 s2 E). unfold mbind, M_bind. destruct (p Server s1) as [[a t1]|], (p Client s2) as [[b t2]|]; try done.
  destruct Hp as [-> (w & f & -> & -> & Hf)].
  specialize (Hk b (set_opt Server f (with_fs w s1)) (set_opt Client f (with_fs w s2))). rewrite !set_opt_fs in Hk. specialize (Hk eq_refl).
  destruct (k b Server _) as [[c u1]|], (k b Client _) as [[c' u2]|]; try done.
  destruct Hk as [-> (w' & g & -> & -> & Hg)]. split; [done|]. exists w', (match g with Some e => Some e | None => f end).
  rewrite !set_opt_trans. split_and!; try done. intros Hb. destruct g; [by eexists|]. apply Hf. destruct (bad b); [done|].
  rewrite Hb in Hg. destruct (Hg eq_refl). done.
Qed.
Lemma twin_ret {A} (bad : A → bool) (a : A) : bad a = false → twin bad (λ _, mret a).
Proof.
  intros Hb s1 s2 E. cbn. split; [done|]. exists (fs s1), None. split_and!; [by destruct s1|rewrite E; by destruct s2|]. by rewrite Hb.
Qed.
Lemma twin_fault {A} (bad : A → bool) : twin bad (λ _, fault).
Proof. by intros s1 s2 E. Qed.

Lemma twin_read_all fuel fd : ∀ n acc (g : bool), twin (λ r, (fst r <? 0) && g) (λ p, read_all fuel p fd n acc).
Proof.
  induction fuel as [|fuel IH]; intros n acc g; cbn [read_all]; destruct (n <=? 0).
  1, 3: apply twin_ret; cbn; by rewrite (proj2 (Z.ltb_ge _ 0)) by lia.
  1: apply twin_fault.
  apply (twin_bind (λ r, match r with None => true | Some _ => false end)).
  - apply twin_syscall. intros w a w' E. destruct (sys_read fd n w) as [[d|e] w1]; [|done]. by injection E as <- _.
  - intros [d|].
    + destruct (_ =? 0).
      * apply twin_ret. cbn. by rewrite (proj2 (Z.ltb_ge _ 0)) by lia.
      * intros s1 s2 E. specialize (IH (n - Z.of_nat (length d)) (acc ++ d) (g && true) s1 s2 E). cbv beta in IH.
        destruct (read_all fuel Server _ _ _ s1) as [[r1 t1]|], (read_all fuel Client _ _ _ s2) as [[r2 t2]|]; try done.
        destruct IH as [-> (w & f & -> & -> & H)]. split; [done|]. exists w, f. split_and!; try done. intros Hb. apply H. cbn in Hb. destruct (fst r2 <? 0), g; done.
    + apply twin_ret. cbn. by destruct g.
Qed.
Lemma twin_read fd n : twin (λ r, fst r <? 0) (λ p, filesystem_read p fd n).
Proof.
  intros s1 s2 E. pose proof (twin_read_all (S (Z.to_nat n)) fd n [] true s1 s2 E) as H. cbv beta in H. unfold filesystem_read.
  destruct (read_all _ Server _ _ _ s1) as [[r1 t1]|], (read_all _ Client _ _ _ s2) as [[r2 t2]|]; try done.
  destruct H as [-> (w & f & -> & -> & H)]. split; [done|]. exists w, f. split_and!; try done. intros Hb. apply H. by rewrite Hb.
Qed.
Lemma twin_write_all fuel fd : ∀ d, twin negb (λ p, write_all fuel p fd d).
Proof.
  induction fuel as [|fuel IH]; intros [|a d]; cbn [write_all]; try (by apply twin_ret); [apply twin_fault|].
  apply (twin_bind (λ n, n <? 0)).
  - apply twin_syscall. intros w n w' E. apply Z.ltb_ge. by apply (sys_write_pos _ _ _ _ _ E).
  - intros n. destruct (n <? 0) eqn:En; [by apply twin_ret|].
    intros s1 s2 E. specialize (IH (drop (Z.to_nat n) (a :: d)) s1 s2 E). cbv beta in IH.
    destruct (write_all fuel Server _ _ s1) as [[r1 t1]|], (write_all fuel Client _ _ s2) as [[r2 t2]|]; try done.
    destruct IH as [-> (w & f & -> & -> & H)]. split; [done|]. exists w, f. split_and!; try done. intros Hb. apply H. by destruct r2.
Qed.
Lemma twin_write fd d : twin (λ n, n <? 0) (λ p, filesystem_write p fd d).
Proof.
  unfold filesystem_write. apply (twin_bind negb); [apply twin_write_all|].
  intros [|]; apply twin_ret; [|done]. rewrite andb_true_r. apply Z.ltb_ge. lia.
Qed.
(** A transfer, then a close whose result is not looked at. *)
Lemma twin_close {A} (bad : A → bool) (p : side → M (site F) A) fd : twin bad p → twin bad (λ sd, a ← p sd; r ← filesystem_close sd fd; mret a).
Proof.
  intros Hp. apply (twin_bind bad); [done|]. intros a. apply (twin_bind (λ _, false)).
  - by apply twin_syscall.
  - intros r. apply twin_ret. by destruct (bad a).
Qed.

Lemma write_mdata_agree url dir m s : url_ok url dir → idle cf s →
  agree cf id eq (nfi_xpn_server_write_mdata cf url m 0) (nfi_local_write_mdata cf url m 0) s.
Proof.
  intros Hu Hi. set (flags := Z.lor O_WRONLY O_CREAT). set (s1 := with_link true [] [] s).
  set (body := I_mdata (MdataMsg m (strlen dir) (path_field dir))).
  set (tail := λ sd fd, (ret ← filesystem_write sd fd (mdata_bytes m); r ← filesystem_close sd fd; mret ret) : M (site F) Z).
  assert (∀ fd, twin (λ n, n <? 0) (λ sd, tail sd fd)) as HT by (intros fd; apply (twin_close _ (λ sd, filesystem_write sd fd (mdata_bytes m))), twin_write).
  assert (nfi_xpn_server_write_mdata cf url m 0 s = (r ← exchange (XPN_SERVER_WRITE_MDATA, body) [dir] is_status;
    match r with None => mret (-1) | Some st => st ← lift st; note_errno st;; finish cf (st_ret st) end) s1) as ER.
  { unfold nfi_xpn_server_write_mdata. by rewrite with_server_run, (with_dir_run cf url dir) by (done || by left). }
  assert (nfi_local_write_mdata cf url m 0 s = (fd ← filesystem_open2 Client dir flags S_IRWXU;
    if (fd : Z) <? 0 then s ← get; mret (if c_errno s =? EISDIR then 0 else -1) else tail Client fd) s) as EL.
  { unfold nfi_local_write_mdata. change (0 =? 0) with true. cbn [negb]. by rewrite (local_dir_run url dir). }
  assert (∀ st w e, exchange (XPN_SERVER_WRITE_MDATA, body) [dir] is_status s1 = Some (Some (Some st), answered e w s1) →
    nfi_xpn_server_write_mdata cf url m 0 s = Some (st_ret st, after cf (noted st (answered e w s)))) as ER2.
  { intros st w e Ex. rewrite ER. erewrite bind_step by exact Ex. cbv beta iota. rstep. erewrite bind_step by apply note_errno_run. cbv beta.
    change (finish cf (st_ret st) (noted st (answered e w s)) = Some (st_ret st, after cf (noted st (answered e w s)))). by rewrite finish_noted. }
  intros a2 s2 H2. rewrite EL in H2.
  destruct (sys_open dir flags S_IRWXU (fs s)) as [[fd|e] w] eqn:E.
  - pose proof (sys_open_pos _ _ _ _ _ _ E) as Hfd. pose proof (HT fd (with_link true [] [] (with_errno Server 0 (with_fs w s1))) (with_fs w s) eq_refl) as HTw.
    erewrite bind_step in H2 by (apply (syscall_run Client (sys_open dir flags S_IRWXU) (-1)); exact E). cbv beta iota in H2. rewrite (proj2 (Z.ltb_ge fd 0)) in H2 by done.
    change (with_errno Client (on_errno (inl fd) (errno_of Client s)) (with_fs w s)) with (with_errno Client (c_errno s) (with_fs w s)) in H2.
    assert (with_errno Client (c_errno s) (with_fs w s) = with_fs w s) as Hid by (by destruct s). rewrite Hid in H2. cbv beta in HTw. rewrite H2 in HTw.
    destruct (tail Server fd _) as [[n t1]|] eqn:Et; [|done]. destruct HTw as [-> (w' & f & -> & -> & Hf)].
    set (st := Status a2 (default 0 f)). exists a2. eexists. split; [apply (ER2 st w' (default 0 f))|].
    + apply (exchange_path is_status _ _ dir s1 (with_errno Server (default 0 f) (with_fs w' s1)) (I_status st)); try done. run_dispatch.
      unfold xpn_server_op_write_mdata. cbn [mm_path mm_path_len mm_mdata]. run_path Hu. rstep.
      erewrite bind_step by (apply (syscall_run Server (sys_open dir flags S_IRWXU) (-1)); exact E). cbv beta iota. rewrite (proj2 (Z.ltb_ge fd 0)) by done.
      unfold tail in Et. apply bind_inv in Et as (n1 & u1 & Et1 & Et). apply bind_inv in Et as (r1 & u2 & Et2 & Et). injection Et as -> ->.
      erewrite bind_step by exact Et1. cbv beta. erewrite bind_step by exact Et2. cbv beta. unfold send_status, server_errno. rstep. by destruct f.
    + split_and!; [done| | | | |by apply idle_noted]; unfold noted; cbn [st_ret st]; destruct (a2 <? 0) eqn:En; try (by destruct f); unfold id; try lia.
      destruct (Hf eq_refl) as [e' ->]. done.
  - erewrite bind_step in H2 by (apply (syscall_run Client (sys_open dir flags S_IRWXU) (-1)); exact E). cbv beta iota in H2. change (-1 <? 0) with true in H2. cbv iota in H2.
    injection H2 as <- <-. set (st := Status (if e =? EISDIR then 0 else -1) e). cbn [c_errno with_errno on_errno]. eexists _, _. split; [apply (ER2 st w e)|].
    + apply (exchange_path is_status _ _ dir s1 (with_errno Server e (with_fs w s1)) (I_status st)); try done. run_dispatch.
      unfold xpn_server_op_write_mdata. cbn [mm_path mm_path_len mm_mdata]. run_path Hu. rstep.
      erewrite bind_step by (apply (syscall_run Server (sys_open dir flags S_IRWXU) (-1)); exact E). cbv beta iota. change (-1 <? 0) with true. cbv iota. rstep. done.
    + split_and!; [done| | | | |by apply idle_noted]; unfold noted; cbn [st_ret st]; destruct (e =? EISDIR); try done; unfold id; lia.
Qed.

Lemma read_mdata_agree url dir m0 s : url_ok url dir → idle cf s →
  agree cf fst eq (nfi_xpn_server_read_mdata cf url m0) (nfi_local_read_mdata url m0) s.
Proof.
  intros Hu Hi. set (s1 := with_link true [] [] s). set (body := I_path (PathMsg (strlen dir) (path_field dir))).
  set (md := λ data, let m := mdata_of_bytes (overlay (replicate (Z.to_nat SIZEOF_MDATA) NUL) data) in if XPN_CHECK_MAGIC_NUMBER m then m else mdata_zero).
  set (tail := λ sd fd, (a ← filesystem_read sd fd SIZEOF_MDATA; r ← filesystem_close sd fd; mret a) : M (site F) (Z * list ascii)).
  assert (∀ fd, twin (λ r, fst r <? 0) (λ sd, tail sd fd)) as HT by (intros fd; apply (twin_close _ (λ sd, filesystem_read sd fd SIZEOF_MDATA)), twin_read).
  assert (∀ req w e, exchange (XPN_SERVER_READ_MDATA, body) [dir] is_mdata_req s1 = Some (Some (Some req), answered e w s1) →
    nfi_xpn_server_read_mdata cf url m0 s = Some ((st_ret (mq_status req), mq_mdata req), after cf (noted (mq_status req) (answered e w s)))) as ER.
  { intros req w e Ex. unfold nfi_xpn_server_read_mdata. erewrite bind_step by (by apply keep_connected_run). cbv beta. rstep.
    cbn [private_info with_link]. rewrite (proj1 Hi). cbn [negb]. erewrite bind_step by (apply (url_dir_run url dir); [done|by left]). cbv beta iota.
    erewrite bind_step by exact Ex. cbv beta iota. rstep. erewrite bind_step by apply note_errno_run. cbv beta.
    change (if st_ret (mq_status req) <? 0 then with_errno Client (st_errno (mq_status req)) (answered e w s1) else answered e w s1) with (noted (mq_status req) (answered e w s)).
    by erewrite bind_step by (by apply finish_noted). }
  intros a2 s2 H2. unfold nfi_local_read_mdata in H2. erewrite bind_step in H2 by (apply (url_dir_run url dir); [done|by left]). cbv beta iota in H2.
  destruct (sys_open dir O_RDWR 0 (fs s)) as [[fd|e] w] eqn:E.
  all: erewrite bind_step in H2 by (apply (syscall_run Client (sys_open dir O_RDWR 0) (-1)); exact E); cbv beta iota in H2.
  - pose proof (sys_open_pos _ _ _ _ _ _ E) as Hfd. pose proof (HT fd (with_link true [] [] (with_errno Server 0 (with_fs w s1))) (with_fs w s) eq_refl) as HTw. cbv beta in HTw.
    rewrite (proj2 (Z.ltb_ge fd 0)) in H2 by done.
    assert (with_errno Client (on_errno (inl fd) (errno_of Client s)) (with_fs w s) = with_fs w s) as Hid by (by destruct s). rewrite Hid in H2.
    apply bind_inv in H2 as ([n data] & u & H2 & H3). apply bind_inv in H3 as (r & u' & H3 & H4). injection H4 as <- <-.
    assert (tail Client fd (with_fs w s) = Some ((n, data), u')) as Htc.
    { unfold tail. erewrite bind_step by exact H2. cbv beta. by erewrite bind_step by exact H3. }
    rewrite Htc in HTw. destruct (tail Server fd _) as [[n1 t1]|] eqn:Et; [|done]. destruct HTw as [-> (w' & f & -> & -> & Hf)].
    set (req := MdataReq (md data) (Status n (default 0 f))). exists (n, md data). eexists. split; [apply (ER req w' (default 0 f))|].
    + apply (exchange_path is_mdata_req _ _ dir s1 (with_errno Server (default 0 f) (with_fs w' s1)) (I_mdata_req req)); try done. run_dispatch.
      unfold xpn_server_op_read_mdata. cbn [pm_path pm_path_len]. run_path Hu. rstep.
      erewrite bind_step by (apply (syscall_run Server (sys_open dir O_RDWR 0) (-1)); exact E). cbv beta iota. rewrite (proj2 (Z.ltb_ge fd 0)) by done.
      unfold tail in Et. apply bind_inv in Et as (n1 & u1 & Et1 & Et). apply bind_inv in Et as (r1 & u2 & Et2 & Et). injection Et as -> ->.
      erewrite bind_step by exact Et1. cbv beta iota. erewrite bind_step by exact Et2. cbv beta. rstep. by destruct f.
    + cbn [fst] in Hf. split_and!; [done| | | | |by apply idle_noted]; unfold noted; cbn [st_ret mq_status req]; destruct (n <? 0) eqn:En; try (by destruct f); cbn [fst]; try lia.
      destruct (Hf eq_refl) as [e' ->]. done.
  - change (-1 <? 0) with true in H2. cbv iota in H2.
    injection H2 as <- <-. set (req := MdataReq mdata_zero (Status (if e =? EISDIR then 0 else -1) e)). cbn [c_errno with_errno on_errno]. eexists _, _. split; [apply (ER req w e)|].
    + apply (exchange_path is_mdata_req _ _ dir s1 (with_errno Server e (with_fs w s1)) (I_mdata_req req)); try done. run_dispatch.
      unfold xpn_server_op_read_mdata. cbn [pm_path pm_path_len]. run_path Hu. rstep.
      erewrite bind_step by (apply (syscall_run Server (sys_open dir O_RDWR 0) (-1)); exact E). cbv beta iota. change (-1 <? 0) with true. cbv iota. rstep. done.
    + split_and!; [done| | | | |by apply idle_noted]; unfold noted; cbn [st_ret mq_status req]; destruct (e =? EISDIR); try done; cbn [fst]; lia.
Qed.
End ops.
