(* ===== verification/RpcData.v ===== *)
(** * RpcData: reading and writing through a server

    Data travels in chunks of at most [MAX_BUFFER_SIZE] bytes.  Over regular
    files ([PosixFiles]) the chunks that the client sends are the ones the server
    takes, and the file is changed as one write does; and the chunks the
    server sends make up what one read returns. *)

From S2P Require Import Prelude Cstr Paths Url Mdata Nfi Client Header FileSystem PosixFiles Server Remote Local Rpc.

Section data.
Context {F : Type} {PX : Posix F} {PF : PosixFiles F} {SK : Stack}.
Context (cf : xs_conf).
Implicit Types s : site F.

(** *** Write *)

Lemma server_bytes_run n d q s : to_server s = (I_byte <$> d) ++ q → n = Z.of_nat (length d) →
  xpn_server_comm_read_bytes n s = Some (d, with_link (connected s) q (to_client s) s).
Proof. intros H ->. by apply server_read_bytes_run. Qed.

(** Where the position of [fd] is does not matter before a seek. *)
Definition at_file (fd : Z) (w : F) (w' : F) : Prop := w' = w ∨ ∃ a, w' = seek fd a w.

Lemma write_rounds_run fd offset d size w0 : writable fd w0 → 0 <= offset → 0 < size → Z.of_nat (length d) < 2 ^ 31 → offset + Z.of_nat (length d) < 2 ^ 63 →
  ∀ fuel (c : nat) rsize s, (c < length d)%nat → (length d - c < fuel)%nat → to_server s = I_byte <$> drop c d →
    at_file fd (put_at fd offset (take c d) w0) (fs s) →
  write_rounds fuel fd offset (Z.of_nat (length d)) size (Z.of_nat c) (Z.of_nat (length d) - Z.of_nat c) rsize s
  = Some ((Z.of_nat (length d), 0),
      with_link (connected s) [] (to_client s) (with_fs (seek fd (offset + Z.of_nat (length d)) (put_at fd offset d w0)) s)).
Proof.
  intros Hw Ho Hsz Hd Hod. set (L := length d) in *. induction fuel as [|fuel IH]; intros c rsize s Hc Hf Hs Hfs; [lia|]. cbn [write_rounds].
  set (n := if size <? Z.of_nat L - Z.of_nat c then size else Z.of_nat L - Z.of_nat c).
  assert (0 < n <= Z.of_nat L - Z.of_nat c) as Hn by (unfold n; destruct (Z.ltb_spec size (Z.of_nat L - Z.of_nat c)); lia).
  set (x := take (Z.to_nat n) (drop c d)). assert (length x = Z.to_nat n) as Hx by (unfold x; rewrite length_take, length_drop; fold L; lia).
  erewrite bind_step.
  2: { apply (server_bytes_run n x (I_byte <$> drop (c + Z.to_nat n) d)); [|lia]. rewrite Hs. unfold x. rewrite <- fmap_app, <- drop_drop, take_drop. done. }
  cbv beta. rewrite (i64_id (offset + Z.of_nat c)) by lia.
  erewrite bind_step.
  2: { apply (lseek_run Server fd _ (put_at fd offset (take c d) w0)); [right; by apply put_writable|lia|]. cbn. destruct Hfs as [-> | [a ->]]; [by left|right; by eexists]. }
  cbv beta. rewrite (proj2 (Z.ltb_ge (offset + Z.of_nat c) 0)) by lia.
  erewrite bind_step by (apply (filesystem_write_run Server fd x (offset + Z.of_nat c) (put_at fd offset (take c d) w0)); [by apply put_writable|lia|reflexivity]).
  cbv beta. rewrite (proj2 (Z.ltb_ge (Z.of_nat (length x)) 0)) by lia. rewrite Hx, Z2Nat.id by lia.
  rewrite (i32_id (Z.of_nat c + n)), (i32_id (Z.of_nat L - _)) by lia.
  assert (put_at fd (offset + Z.of_nat c) x (put_at fd offset (take c d) w0) = put_at fd offset (take (c + Z.to_nat n) d) w0) as ->.
  { replace (Z.of_nat c) with (Z.of_nat (length (take c d))) by (rewrite length_take; fold L; lia). rewrite put_put by done. f_equal.
    unfold x. apply take_take_drop. }
  rewrite (proj2 (Z.eqb_neq n 0)) by lia. cbn [negb]. rewrite andb_true_r.
  replace (Z.of_nat c + n) with (Z.of_nat (c + Z.to_nat n)) by lia.
  destruct (Z.ltb_spec 0 (Z.of_nat L - Z.of_nat (c + Z.to_nat n))) as [Hlt|Hge].
  - rewrite (IH (c + Z.to_nat n)%nat n); [by destruct s|lia|lia|done|right; by eexists].
  - assert (c + Z.to_nat n = L)%nat as HL by lia. rewrite HL. unfold L. rewrite drop_all, firstn_all.
    fold L. replace (offset + Z.of_nat c + n) with (offset + Z.of_nat L) by lia. by destruct s.
Qed.

Lemma write_rounds_start fd offset d size rsize s w0 fuel : writable fd w0 → 0 <= offset → 0 < size → d ≠ [] → Z.of_nat (length d) < 2 ^ 31 →
  offset + Z.of_nat (length d) < 2 ^ 63 → (length d < fuel)%nat → to_server s = I_byte <$> d → fs s = w0 →
  write_rounds fuel fd offset (Z.of_nat (length d)) size 0 (Z.of_nat (length d)) rsize s
  = Some ((Z.of_nat (length d), 0),
      with_link (connected s) [] (to_client s) (with_fs (seek fd (offset + Z.of_nat (length d)) (put_at fd offset d w0)) s)).
Proof.
  intros ??? Hd ?????. pose proof (write_rounds_run fd offset d size w0) as H'. specialize (H' ltac:(done) ltac:(done) ltac:(done) ltac:(done) ltac:(done) fuel 0%nat rsize s).
  change (Z.of_nat 0) with 0 in H'. rewrite Z.sub_0_r in H'. apply H'; [destruct d; [done|cbn; lia]|lia|done|left; cbn; by rewrite put_nil].
Qed.

Lemma send_rounds_run d size : 0 < size → Z.of_nat (length d) < 2 ^ 31 →
  ∀ fuel (c : nat) s, (c < length d)%nat → (length d - c < fuel)%nat → connected s = true →
  send_rounds fuel d (Z.of_nat (length d)) size (Z.of_nat c) (Z.of_nat (length d) - Z.of_nat c) s
  = Some (Z.of_nat (length d), with_link true (to_server s ++ (I_byte <$> drop c d)) (to_client s) s).
Proof.
  intros Hsz Hd. set (L := length d) in *. induction fuel as [|fuel IH]; intros c s Hc Hf Hs; [lia|]. cbn [send_rounds].
  set (n := if size <? Z.of_nat L - Z.of_nat c then size else Z.of_nat L - Z.of_nat c).
  assert (0 < n <= Z.of_nat L - Z.of_nat c) as Hn by (unfold n; destruct (Z.ltb_spec size (Z.of_nat L - Z.of_nat c)); lia).
  rewrite (proj2 (Z.ltb_ge (Z.of_nat c) 0)), Nat2Z.id by lia. unfold nfi_xpn_server_comm_write_bytes.
  erewrite bind_step by (by apply comm_write_run). cbv beta iota.
  rewrite (i32_id (Z.of_nat c + n)), (i32_id (Z.of_nat L - _)) by lia. rewrite (proj2 (Z.eqb_neq n 0)) by lia. cbn [negb]. rewrite andb_true_r.
  replace (Z.of_nat c + n) with (Z.of_nat (c + Z.to_nat n)) by lia.
  assert ((I_byte <$> drop c d) = (I_byte <$> take (Z.to_nat n) (drop c d)) ++ (I_byte <$> drop (c + Z.to_nat n) d)) as Hsp
    by (by rewrite <- fmap_app, <- drop_drop, take_drop).
  destruct (Z.ltb_spec 0 (Z.of_nat L - Z.of_nat (c + Z.to_nat n))) as [Hlt|Hge].
  - rewrite IH by (done || lia). cbn. rewrite Hsp, app_assoc. done.
  - assert (c + Z.to_nat n = L)%nat as HL by lia. rewrite HL in *. unfold L in Hsp. rewrite drop_all, app_nil_r in Hsp. rewrite <- Hsp. done.
Qed.

Lemma send_rounds_start d size s fuel : 0 < size → d ≠ [] → Z.of_nat (length d) < 2 ^ 31 → (length d < fuel)%nat → connected s = true →
  send_rounds fuel d (Z.of_nat (length d)) size 0 (Z.of_nat (length d)) s
  = Some (Z.of_nat (length d), with_link true (to_server s ++ (I_byte <$> d)) (to_client s) s).
Proof.
  intros ? Hd ???. pose proof (send_rounds_run d size) as H'. specialize (H' ltac:(done) ltac:(done) fuel 0%nat s).
  change (Z.of_nat 0) with 0 in H'. rewrite Z.sub_0_r in H'. apply H'; [destruct d; [done|cbn; lia]|lia|done].
Qed.

(** The descriptor an operation on an open file uses: the one of the session,
    or one opened for it. *)
Definition opens (flags : Z) (h : xs_fhandle) (s : site F) (fd : Z) (w : F) : Prop :=
  (xpn_session_file cf = 1 ∧ fd = h_fd h ∧ w = fs s) ∨ (xpn_session_file cf = 0 ∧ sys_open (h_path h) flags 0 (fs s) = (inl fd, w)).
Lemma opens_run p flags h s s' fd w : opens flags h s fd w → fs s' = fs s →
  (if xpn_session_file cf =? 1 then mret (h_fd h) else filesystem_open p (h_path h) flags) s' = Some (fd, with_fs w s').
Proof.
  intros [(-> & -> & ->)|(-> & E)] Hf.
  - change (1 =? 1) with true. cbv iota. rewrite <- Hf. by destruct s'.
  - change (0 =? 1) with false. cbv iota. unfold filesystem_open, syscall. by rewrite Hf, E.
Qed.

Definition release_fd (fd : Z) : sys F Z := sys0 (if xpn_session_file cf =? 1 then sys_fsync fd else sys_close fd).
Lemma release_run p fd s r w : release_fd fd (fs s) = (r, w) →
  (if xpn_session_file cf =? 1 then filesystem_fsync p fd else filesystem_close p fd) s
  = Some (outcome r, with_errno p (on_errno r (errno_of p s)) (with_fs w s)).
Proof. unfold release_fd. intros E. destruct (_ =? 1); by apply syscall_run. Qed.

Lemma local_write_run fh h s off d fd w :
  handles s !! fh_priv fh = Some h → opens O_WRONLY h s fd w → writable fd w → 0 <= fd → 0 <= off →
  ∃ s2, nfi_local_write cf fh off d s = Some (Z.of_nat (length d), s2) ∧ handles s2 = handles s ∧ next_handle s2 = next_handle s ∧
    fs s2 = (if decide (d = []) then fs s else snd (release_fd fd (seek fd (off + Z.of_nat (length d)) (put_at fd off d w)))).
Proof.
  intros Hh Hfd Hw Hfd0 Ho. unfold nfi_local_write. destruct (Z.eqb_spec (Z.of_nat (length d)) 0) as [H0|H0].
  { exists s. destruct d; [|done]. by split_and!. }
  rewrite decide_False by (by intros ->).
  set (w1 := seek fd (off + Z.of_nat (length d)) (put_at fd off d w)). destruct (release_fd fd w1) as [r w2] eqn:Er.
  exists (with_errno Client (on_errno r (c_errno s)) (with_fs w2 s)). split_and!; try done.
  erewrite bind_step by (unfold handle; rstep; unfold lift; rewrite Hh; reflexivity). cbv beta.
  erewrite bind_step by (by apply (opens_run Client O_WRONLY h s)). cbv beta. rewrite (proj2 (Z.ltb_ge fd 0)) by done.
  erewrite bind_step by (apply (lseek_run Client fd off w); [by right|done|by left]). cbv beta.
  erewrite bind_step.
  2: { rewrite (proj2 (Z.ltb_ge off 0)) by done. erewrite bind_step by (apply (filesystem_write_run Client fd d off w); [done|done|reflexivity]). cbv beta.
       rewrite (proj2 (Z.ltb_ge _ 0)) by lia. reflexivity. }
  cbv beta. erewrite bind_step by (apply (release_run Client fd _ r w2); exact Er). by destruct s.
Qed.

Lemma remote_write_run fh h s off d fd w :
  idle cf s → fh_mqtt fh = 0 → handles s !! fh_priv fh = Some h → path_ok (h_path h) → opens O_WRONLY h s fd w → writable fd w → 0 <= fd →
  0 <= off → off + Z.of_nat (length d) < 2 ^ 63 → Z.of_nat (length d) < 2 ^ 31 →
  ∃ s1, nfi_xpn_server_write cf fh off d s = Some (Z.of_nat (length d), s1) ∧ handles s1 = handles s ∧ next_handle s1 = next_handle s ∧
    c_errno s1 = c_errno s ∧ idle cf s1 ∧
    fs s1 = (if decide (d = []) then fs s else snd (release_fd fd (seek fd (off + Z.of_nat (length d)) (put_at fd off d w)))).
Proof.
  intros Hi Hmq Hh Hp Hfd Hw Hfd0 Ho Hod Hd.
  unfold nfi_xpn_server_write. rewrite Hmq. change (0 =? 0) with true. cbn [negb].
  destruct (Z.eqb_spec (Z.of_nat (length d)) 0) as [H0|H0].
  { exists s. destruct d; [|done]. by split_and!. }
  assert (d ≠ []) as Hne by (by intros ->). rewrite decide_False by done.
  set (w1 := seek fd (off + Z.of_nat (length d)) (put_at fd off d w)). destruct (release_fd fd w1) as [r w2] eqn:Er.
  set (s1 := with_link true [] [] s).
  set (size := if MAX_BUFFER_SIZE <? Z.of_nat (length d) then MAX_BUFFER_SIZE else Z.of_nat (length d)).
  assert (0 < size) as Hsz by (unfold size, MAX_BUFFER_SIZE; destruct (_ <? _); lia).
  set (body := I_rw (RwMsg (h_fd h) 0 off (Z.of_nat (length d)) (xpn_session_file cf) (strlen (h_path h)) (path_field (h_path h)))).
  set (q := body :: rest_items (h_path h) ++ (I_byte <$> d)).
  set (req := RwReq (Z.of_nat (length d)) (Status 0 0)).
  assert (xpn_server_do_operation XPN_SERVER_WRITE_FILE (with_link true q [] s1)
    = Some (tt, with_link true [] [I_rw_req req] (with_errno Server (on_errno r 0) (with_fs w2 s1)))) as ES.
  { unfold q. run_dispatch. unfold xpn_server_op_write. cbn [rw_file_type rw_path rw_path_len rw_size rw_session rw_offset rw_fd].
    change (0 =? 1) with false. cbv iota.
    erewrite bind_step by (by apply (read_path_run (h_path h) (I_byte <$> d))). cbv beta. rewrite (i32_id (Z.of_nat (length d))) by lia. fold size. cbv zeta. rstep.
    erewrite bind_step by (by apply (opens_run Server O_WRONLY h s)). cbv beta. rewrite (proj2 (Z.ltb_ge fd 0)) by done.
    erewrite bind_step by (apply (write_rounds_start fd off d size junk_size _ w); try done; lia). cbv beta iota. fold w1. rstep. rstep. erewrite bind_step by (apply (release_run Server fd _ r w2); exact Er). cbv beta. done. }
  assert (nfi_xpn_server_comm_read_data is_rw_req (with_link true (I_op XPN_SERVER_WRITE_FILE :: q) [] s1)
    = Some (Some req, with_link true [] [] (with_errno Server (on_errno r 0) (with_fs w2 s1)))) as EC.
  { rewrite (read_data_run is_rw_req XPN_SERVER_WRITE_FILE q _ (with_link true [] [I_rw_req req] (with_errno Server (on_errno r 0) (with_fs w2 s1))) (I_rw_req req) [] req); done. }
  exists (after cf (with_errno Server (on_errno r 0) (with_fs w2 s1))). split_and!; try done.
  - erewrite bind_step by (by apply keep_connected_run). cbv beta. rstep. cbn [private_info with_link]. rewrite (proj1 Hi). cbn [negb].
    erewrite bind_step by (unfold handle; rstep; unfold lift; cbn [handles with_link]; rewrite Hh; reflexivity). cbv beta.
    unfold rw_request. erewrite bind_step by (by apply write_operation_run). cbv beta. cbn [negb].
    erewrite bind_step by (by apply send_rests_run). cbv beta. cbn [negb]. rewrite (i32_id (Z.of_nat (length d))) by lia. fold size. cbv zeta.
    erewrite bind_step by (apply (send_rounds_start d size); try done; lia). cbv beta. cbn [to_server to_client with_link app]. unfold sent. cbn [mbind list_bind]. rewrite app_nil_r. fold body.
    change (I_op XPN_SERVER_WRITE_FILE :: body :: rest_items (h_path h)) with ([I_op XPN_SERVER_WRITE_FILE; body] ++ rest_items (h_path h)).
    change ((r0 ← nfi_xpn_server_comm_read_data is_rw_req; match r0 with Some req0 => note_errno (rq_status req0);; (if rq_size req0 <? 0 then finish cf (-1) else finish cf (Z.of_nat (length d))) | None => finish cf (-1) end)
      (with_link true (I_op XPN_SERVER_WRITE_FILE :: q) [] s1) = Some (Z.of_nat (length d), after cf (with_errno Server (on_errno r 0) (with_fs w2 s1)))).
    erewrite bind_step by exact EC. cbv beta iota. rstep. cbn [rq_size req]. rewrite (proj2 (Z.ltb_ge _ 0)) by lia.
    rewrite finish_run; [done|apply Hi|done].
  - apply (idle_after cf s Hi); [apply Hi|done].
Qed.

(** *** Read *)

(** What the server sends: [rest] is what the file has from here on. *)
Fixpoint flow (fuel : nat) (size left : Z) (rest : list ascii) : list item :=
  match fuel with
  | O => []
  | S fuel' =>
    let n := if size <? left then size else left in
    let c := take (Z.to_nat n) rest in
    I_rw_req (RwReq (Z.of_nat (length c)) (Status 0 0)) :: (I_byte <$> c) ++
    (if (0 <? left - Z.of_nat (length c)) && negb (Z.of_nat (length c) =? 0) then flow fuel' size (left - Z.of_nat (length c)) (drop (Z.to_nat n) rest) else [])
  end.

Lemma read_rounds_run fd offset total size w0 : readable fd w0 → 0 <= offset → 0 <= total → offset + total < 2 ^ 63 → (0 < total → 0 < size) → 0 <= size →
  ∀ fuel c sr s, 0 <= c <= total → (Z.to_nat (total - c) < fuel)%nat → s_errno s = 0 → sr ≠ -1 → at_file fd w0 (fs s) →
    c <= Z.of_nat (length (drop (Z.to_nat offset) (content fd w0))) →
  let rest := drop (Z.to_nat c) (drop (Z.to_nat offset) (content fd w0)) in
  read_rounds fuel fd offset total size c (total - c) sr s
  = Some (tt, with_link (connected s) (to_server s) (to_client s ++ flow fuel size (total - c) rest)
      (with_fs (seek fd (offset + c + Z.of_nat (length (take (Z.to_nat (total - c)) rest))) w0) s)).
Proof.
  intros Hr Ho Ht Hot Hsz Hsz0. induction fuel as [|fuel IH]; intros c sr s Hc Hf He Hsr Hfs Hcl; [lia|]. cbv zeta. cbn [read_rounds flow].
  set (n := if size <? total - c then size else total - c). set (D := drop (Z.to_nat offset) (content fd w0)) in *. set (rest := drop (Z.to_nat c) D).
  assert (0 <= n <= total - c) as Hn by (unfold n; destruct (Z.ltb_spec size (total - c)); lia).
  set (x := take (Z.to_nat n) rest).
  rewrite (i64_id (offset + c)) by lia.
  erewrite bind_step by (apply (lseek_run Server fd (offset + c) w0); [by left|lia|]; destruct Hfs as [-> | [a ->]]; [by left|right; by eexists]). cbv beta.
  rewrite (proj2 (Z.eqb_neq (offset + c) (-1))) by lia.
  erewrite bind_step by (apply (filesystem_read_run Server fd n (offset + c) w0); [done|lia|reflexivity]). cbv beta iota.
  assert (drop (Z.to_nat (offset + c)) (content fd w0) = rest) as -> by (unfold rest, D; rewrite drop_drop; f_equal; lia). fold x.
  rstep. cbn [s_errno with_fs]. rewrite He. rewrite (proj2 (Z.ltb_ge (Z.of_nat (length x)) 0)), (proj2 (Z.eqb_neq sr (-1))) by lia. cbn [orb].
  rstep.
  assert (∀ s', when (0 <? Z.of_nat (length x)) (xpn_server_comm_write_bytes x) s' = Some (tt, with_link (connected s') (to_server s') (to_client s' ++ (I_byte <$> x)) s')) as Hw.
  { intros s'. destruct x; [cbn; rewrite app_nil_r; by destruct s'|done]. }
  erewrite bind_step by apply Hw. cbv beta. assert (Z.of_nat (length x) <= n) as Hxn by (unfold x; rewrite length_take; lia).
  rewrite (i64_id (c + _)), (i64_id (total - _)) by lia. replace (total - (c + Z.of_nat (length x))) with (total - c - Z.of_nat (length x)) by lia.
  destruct ((0 <? total - c - Z.of_nat (length x)) && negb (Z.of_nat (length x) =? 0)) eqn:Eg.
  - apply andb_true_iff in Eg as [Eg1 Eg2]. apply Z.ltb_lt in Eg1. apply negb_true_iff, Z.eqb_neq in Eg2.
    assert (length x = Z.to_nat n ∨ (length x < Z.to_nat n)%nat ∧ length rest = length x) as Hcase by (unfold x; rewrite length_take; lia).
    replace (total - c - Z.of_nat (length x)) with (total - (c + Z.of_nat (length x))) by lia.
    rewrite (IH (c + Z.of_nat (length x)) 0).
    + fold D. replace (drop (Z.to_nat n) rest) with (drop (Z.to_nat (c + Z.of_nat (length x))) D).
      2: { unfold rest. rewrite drop_drop. destruct Hcase as [Hx|[Hx1 Hx2]]; [f_equal; lia|].
           rewrite !drop_ge; [done| |]; unfold rest in Hx2; rewrite length_drop in Hx2; lia. }
      set (rest' := drop (Z.to_nat (c + Z.of_nat (length x))) D).
      assert (take (Z.to_nat (total - c)) rest = x ++ take (Z.to_nat (total - (c + Z.of_nat (length x)))) rest') as ->.
      { assert (rest' = drop (length x) rest) as -> by (unfold rest', rest; rewrite drop_drop; f_equal; lia).
        assert (take (length x) rest = x) as Hx by (destruct Hcase as [Hx|[Hx1 Hx2]]; [by rewrite Hx|rewrite take_ge by lia; unfold x; rewrite take_ge by lia; done]).
        rewrite <- Hx at 1. rewrite take_take_drop. f_equal. lia. }
      rewrite length_app, Nat2Z.inj_add. match goal with |- context [offset + (c + Z.of_nat (length x)) + ?k] => replace (offset + (c + Z.of_nat (length x)) + k) with (offset + c + (Z.of_nat (length x) + k)) by lia end.
      destruct s; cbn. by rewrite <- !app_assoc.
    + lia.
    + lia.
    + by destruct s.
    + lia.
    + right. by eexists.
    + fold D. unfold x, rest. rewrite length_take, length_drop. lia.
  - assert (take (Z.to_nat (total - c)) rest = x) as ->.
    { apply andb_false_iff in Eg as [Eg|Eg].
      - apply Z.ltb_ge in Eg. unfold x in *. rewrite length_take in Eg, Hxn. f_equal. lia.
      - apply negb_false_iff, Z.eqb_eq in Eg. unfold x in *. rewrite length_take in Eg.
        destruct (decide (length rest = 0)%nat) as [Hl|Hl]; [apply nil_length_inv in Hl; rewrite Hl; by rewrite !take_nil|].
        assert (n = 0) as Hn0 by lia. assert (total - c = 0) as ->; [|by rewrite Hn0].
        unfold n in Hn0. destruct (Z.ltb_spec size (total - c)); lia. }
    destruct s; cbn. by rewrite <- !app_assoc, app_nil_r.
Qed.

(** A receive runs the server first when there is nothing to receive. *)
Lemma read_data_await {T} (pick : item → option T) op q s s' :
  connected s = true → connected s' = true → to_server s = I_op op :: q → to_client s = [] → to_client s' ≠ [] →
  op ≠ XPN_SERVER_DISCONNECT → op ≠ XPN_SERVER_FINALIZE →
  xpn_server_do_operation op (with_link true q [] s) = Some (tt, s') →
  nfi_xpn_server_comm_read_data pick s = nfi_xpn_server_comm_read_data pick s'.
Proof.
  intros Hc Hc' Hs Ho Ho' H1 H2 E. unfold nfi_xpn_server_comm_read_data. rewrite Hc, Hc'.
  assert (await s = Some (tt, s')) as ->.
  { unfold await. rstep. rewrite Ho. assert (xpn_server_dispatcher s = Some (true, s')) as Hd; [|by erewrite bind_step by exact Hd].
    unfold xpn_server_dispatcher. erewrite bind_step by (unfold xpn_server_comm_read_data; rewrite Hs; reflexivity). cbv beta.
    rewrite (proj2 (Z.eqb_neq _ _) H1), (proj2 (Z.eqb_neq _ _) H2), Ho, Hc. cbn [orb]. by erewrite bind_step by exact E. }
  assert (await s' = Some (tt, s')) as ->; [|done]. unfold await. rstep. by destruct (to_client s').
Qed.

Lemma receive_rounds_run size total : 0 <= total < 2 ^ 31 → 0 <= size → (0 < total → 0 < size) →
  ∀ fuel fuel' left rest acc s, left = total - Z.of_nat (length acc) → 0 <= left → (Z.to_nat left < fuel)%nat → (fuel <= fuel')%nat →
  connected s = true → private_info s = true → to_server s = [] → to_client s = flow fuel size left rest →
  let d := acc ++ take (Z.to_nat left) rest in
  receive_rounds cf fuel' total (Z.of_nat (length acc)) acc s = Some ((Z.of_nat (length d), d), after cf s).
Proof.
  intros Ht Hsz0 Hsz. induction fuel as [|fuel IH]; intros fuel' left rest acc s Hl Hl0 Hf Hff Hc Hp Hi Ho; [lia|]. destruct fuel' as [|fuel']; [lia|]. cbv zeta.
  cbn [receive_rounds flow] in *. set (n := if size <? left then size else left) in *. set (x := take (Z.to_nat n) rest) in *.
  assert (0 <= n <= left) as Hn by (unfold n; destruct (Z.ltb_spec size left); lia).
  assert (Z.of_nat (length x) <= n) as Hxn by (unfold x; rewrite length_take; lia).
  set (tl := if (0 <? left - Z.of_nat (length x)) && negb (Z.of_nat (length x) =? 0) then flow fuel size (left - Z.of_nat (length x)) (drop (Z.to_nat n) rest) else []) in *.
  assert (∀ s', connected s' = true → ∀ i q, to_client s' = i :: q → await s' = Some (tt, s')) as Haw.
  { intros s' _ i q E. unfold await. rstep. by rewrite E. }
  erewrite bind_step.
  2: { unfold nfi_xpn_server_comm_read_data. rewrite Hc, (Haw s Hc _ _ Ho). cbn [mbind option_bind]. rewrite Ho. cbn [is_rw_req]. reflexivity. }
  cbv beta iota. cbn [rq_status st_ret rq_size]. change (0 <? 0) with false. cbv iota.
  set (s1 := with_link true (to_server s) ((I_byte <$> x) ++ tl) s).
  assert ((if 0 <? Z.of_nat (length x) then nfi_xpn_server_comm_read_bytes (Z.of_nat (length x)) else mret (Some [])) s1
    = Some (Some x, with_link true (to_server s) tl s)) as E1.
  { destruct (Z.ltb_spec 0 (Z.of_nat (length x))) as [Hx|Hx].
    - unfold nfi_xpn_server_comm_read_bytes. cbn [connected s1 with_link]. assert (∃ a x', x = a :: x') as (a & x' & Ex) by (destruct x as [|a x']; [cbn in Hx; lia|by exists a, x']).
      rewrite (Haw s1 eq_refl (I_byte a) ((I_byte <$> x') ++ tl)) by (unfold s1; by rewrite Ex). cbn [mbind option_bind to_client s1 with_link].
      rewrite Nat2Z.id, take_bytes_app. done.
    - assert (x = []) as Hx0 by (destruct x; [done|cbn in Hx; lia]). unfold s1. rewrite Hx0. done. }
  erewrite bind_step by exact E1. cbv beta. rstep.
  rewrite (i32_id (Z.of_nat (length acc) + Z.of_nat (length x))), (i32_id (total - _)) by lia.
  assert (total - (Z.of_nat (length acc) + Z.of_nat (length x)) = left - Z.of_nat (length x)) as -> by lia.
  rewrite (proj2 (Z.ltb_ge (Z.of_nat (length x)) 0)) by lia.
  destruct ((0 <? left - Z.of_nat (length x)) && negb (Z.of_nat (length x) =? 0)) eqn:Eg.
  - apply andb_true_iff in Eg as [Eg1 Eg2]. apply Z.ltb_lt in Eg1. apply negb_true_iff, Z.eqb_neq in Eg2.
    replace (Z.of_nat (length acc) + Z.of_nat (length x)) with (Z.of_nat (length (acc ++ x))) by (rewrite length_app; lia).
    rewrite (IH fuel' (left - Z.of_nat (length x)) (drop (Z.to_nat n) rest)).
    + assert (take (Z.to_nat left) rest = x ++ take (Z.to_nat (left - Z.of_nat (length x))) (drop (Z.to_nat n) rest)) as ->; [|by rewrite app_assoc].
      destruct (decide (length rest <= Z.to_nat n)%nat) as [Hr|Hr].
      * rewrite (drop_ge rest) by lia. rewrite take_nil, app_nil_r. unfold x. rewrite !take_ge by lia. done.
      * unfold x at 1. assert (length x = Z.to_nat n) as Hx by (unfold x; rewrite length_take; lia). rewrite Hx.
        rewrite take_take_drop. f_equal. lia.
    + rewrite length_app. lia.
    + lia.
    + lia.
    + lia.
    + done.
    + done.
    + done.
    + done.
  - assert (take (Z.to_nat left) rest = x) as ->.
    { apply andb_false_iff in Eg as [Eg|Eg].
      - apply Z.ltb_ge in Eg. unfold x in *. rewrite length_take in Eg, Hxn. f_equal. lia.
      - apply negb_false_iff, Z.eqb_eq in Eg. unfold x in *. rewrite length_take in Eg.
        destruct (decide (length rest = 0)%nat) as [Hr|Hr]; [apply nil_length_inv in Hr; rewrite Hr; by rewrite !take_nil|].
        assert (n = 0) as Hn0 by lia. assert (left = 0) as ->; [|by rewrite Hn0].
        unfold n in Hn0. destruct (Z.ltb_spec size left); lia. }
    unfold tl. erewrite bind_step by (by apply finish_run). rewrite length_app, Nat2Z.inj_add. done.
Qed.

(** What becomes of the descriptor after a read: it stays, or is closed. *)
Definition drop_fd (fd : Z) (w : F) : F := if xpn_session_file cf =? 0 then snd (sys0 (sys_close fd) w) else w.
Lemma drop_fd_run p fd w : xpn_session_file cf = 0 ∨ xpn_session_file cf = 1 →
  ∃ f, ∀ s, fs s = w → when (xpn_session_file cf =? 0) (r ← filesystem_close p fd; mret tt) s = Some (tt, set_opt p f (with_fs (drop_fd fd w) s)).
Proof.
  unfold drop_fd. intros [-> | ->].
  - change (0 =? 0) with true. cbn [when]. destruct (sys0 (sys_close fd) w) as [r w2] eqn:E.
    exists (match r with inl _ => None | inr e => Some e end). intros s Hs.
    erewrite bind_step by (apply (syscall_run p (sys0 (sys_close fd)) (-1) s r w2); by rewrite Hs). destruct r; [|done]. by destruct p, s.
  - exists None. intros s <-. by destruct s.
Qed.
Lemma local_read_run fh h s off n fd w :
  handles s !! fh_priv fh = Some h → opens O_RDONLY h s fd w → readable fd w → 0 <= fd → 0 <= off → xpn_session_file cf = 0 ∨ xpn_session_file cf = 1 →
  let d := take (Z.to_nat n) (drop (Z.to_nat off) (content fd w)) in
  ∃ s2, nfi_local_read cf fh off n s = Some ((Z.of_nat (length d), d), s2) ∧ handles s2 = handles s ∧ next_handle s2 = next_handle s ∧
    fs s2 = drop_fd fd (seek fd (off + Z.of_nat (length d)) w).
Proof.
  intros Hh Hfd Hr Hfd0 Ho Hsf d. destruct (drop_fd_run Client fd (seek fd (off + Z.of_nat (length d)) w) Hsf) as (f & Hcl).
  eexists. split; [|split_and!; [..|cbn]].
  - unfold nfi_local_read. erewrite bind_step by (unfold handle; rstep; unfold lift; rewrite Hh; reflexivity). cbv beta.
    erewrite bind_step by (by apply (opens_run Client O_RDONLY h s)). cbv beta. rewrite (proj2 (Z.ltb_ge fd 0)) by done.
    erewrite bind_step by (apply (lseek_run Client fd off w); [by left|done|by left]). cbv beta.
    erewrite bind_step.
    2: { rewrite (proj2 (Z.ltb_ge off 0)) by done. erewrite bind_step by (apply (filesystem_read_run Client fd n off w); [done|done|reflexivity]). cbv beta iota.
         rewrite (proj2 (Z.ltb_ge _ 0)) by lia. reflexivity. }
    cbv beta iota. fold d. erewrite bind_step by (by apply Hcl). reflexivity.
  - by destruct f.
  - by destruct f.
  - by destruct f.
Qed.

Lemma remote_read_run fh h s off n fd w :
  idle cf s → handles s !! fh_priv fh = Some h → path_ok (h_path h) → opens O_RDONLY h s fd w → readable fd w → 0 <= fd → junk_ret ≠ -1 →
  xpn_session_file cf = 0 ∨ xpn_session_file cf = 1 → 0 <= off → 0 <= n < 2 ^ 31 → off + n < 2 ^ 63 → off <= Z.of_nat (length (content fd w)) →
  let d := take (Z.to_nat n) (drop (Z.to_nat off) (content fd w)) in
  ∃ s1, nfi_xpn_server_read cf fh off n s = Some ((Z.of_nat (length d), d), s1) ∧ handles s1 = handles s ∧ next_handle s1 = next_handle s ∧
    c_errno s1 = c_errno s ∧ idle cf s1 ∧ fs s1 = drop_fd fd (seek fd (off + Z.of_nat (length d)) w).
Proof.
  intros Hi Hh Hp Hfd Hr Hfd0 Hj Hsf Ho Hn Hon Hoc d.
  set (w1 := seek fd (off + Z.of_nat (length d)) w).
  destruct (drop_fd_run Server fd w1 Hsf) as (f & Hcl).
  set (s1 := with_link true [] [] s).
  set (size := if MAX_BUFFER_SIZE <? n then MAX_BUFFER_SIZE else n).
  assert (0 <= size ∧ (0 < n → 0 < size)) as [Hsz0 Hsz] by (unfold size, MAX_BUFFER_SIZE; destruct (_ <? _) eqn:El; lia).
  set (body := I_rw (RwMsg (h_fd h) junk_int off n (xpn_session_file cf) (strlen (h_path h)) (path_field (h_path h)))).
  set (q := body :: rest_items (h_path h)). set (rest := drop (Z.to_nat off) (content fd w)).
  set (fl := flow (S (Z.to_nat n)) size n rest). set (sv := set_opt Server f (with_errno Server 0 (with_fs (drop_fd fd w1) s1))).
  assert (xpn_server_do_operation XPN_SERVER_READ_FILE (with_link true q [] s1) = Some (tt, with_link true [] fl sv)) as ES.
  { unfold q. run_dispatch. unfold xpn_server_op_read. cbn [rw_path rw_path_len rw_size rw_session rw_offset rw_fd]. run_path Hp. rewrite (i64_id n) by lia. fold size. cbv zeta. rstep.
    erewrite bind_step by (by apply (opens_run Server O_RDONLY h s)). cbv beta. rstep. rewrite (proj2 (Z.ltb_ge fd 0)) by done.
    erewrite bind_step.
    2: { pose proof (read_rounds_run fd off n size w Hr Ho (proj1 Hn) Hon Hsz Hsz0 (S (Z.to_nat n)) 0 junk_ret) as H. cbv zeta in H. rewrite Z.sub_0_r in H. apply H; try done; [lia|lia|by left|lia]. }
    cbv beta. rewrite Z.add_0_r. change (drop (Z.to_nat 0) ?l) with l. fold rest d. fold d w1.
    change (take (Z.to_nat n) rest) with d. fold w1. rewrite Hcl by done. unfold sv, fl. by destruct f. }
  exists (after cf sv).
  assert (fl ≠ []) as Hfl by (unfold fl; cbn; done).
  split_and!; try (by destruct f).
  - unfold nfi_xpn_server_read. erewrite bind_step by (by apply keep_connected_run). cbv beta. rstep. cbn [private_info with_link]. rewrite (proj1 Hi). cbn [negb].
    erewrite bind_step by (unfold handle; rstep; unfold lift; cbn [handles with_link]; rewrite Hh; reflexivity). cbv beta.
    unfold rw_request. erewrite bind_step by (by apply write_operation_run). cbv beta. cbn [negb].
    erewrite bind_step by (by apply send_rests_run). cbv beta. cbn [negb to_server to_client with_link app]. unfold sent. cbn [mbind list_bind]. rewrite app_nil_r. fold body q.
    match goal with |- receive_rounds cf _ n 0 [] ?s0 = _ =>
      assert (receive_rounds cf (S (S (Z.to_nat n))) n 0 [] s0 = receive_rounds cf (S (S (Z.to_nat n))) n 0 [] (with_link true [] fl sv)) as -> end.
    { cbn [receive_rounds]. unfold mbind at 1 3, M_bind at 1 3. erewrite (read_data_await is_rw_req XPN_SERVER_READ_FILE q _ (with_link true [] fl sv)); try done. }
    pose proof (receive_rounds_run size n Hn Hsz0 Hsz (S (Z.to_nat n)) (S (S (Z.to_nat n))) n rest [] (with_link true [] fl sv)) as H. cbv zeta in H. change (Z.of_nat (length [])) with 0 in H.
    rewrite H; [done|cbn; lia|lia|lia|lia|done| |done|done]. unfold sv. destruct f; apply Hi.
  - apply (idle_after cf s Hi); unfold sv; destruct f; [apply Hi|apply Hi|done|done].
Qed.
End data.
