(* ===== verification/PosixMem.v ===== *)
(** * PosixMem: a file system in memory

    An instance of [Posix] and [PosixFiles]: files and directories by path,
    open files with a position, and a read or a write that transfers eight bytes
    at most.  It is not part of the program; the witnesses run the calls of
    the client and of the server on it. *)

From S2P Require Import Prelude Cstr Paths Mdata Nfi Client MemFs Header FileSystem PosixFiles Server Remote.

(** ** Bytes written in a file *)

Definition splice_nonempty (b : list ascii) (o : nat) (d : list ascii) : list ascii :=
  match d with [] => b | _ => splice b o d end.
Lemma splice_length b o d : length (splice b o d) = Nat.max (length b) (o + length d).
Proof. unfold splice. rewrite !length_app, length_take, length_drop, length_app, length_replicate. lia. Qed.
Lemma splice_splice b o d1 d2 : splice (splice b o d1) (o + length d1) d2 = splice b o (d1 ++ d2).
Proof.
  unfold splice at 1 3. set (z := b ++ replicate (o - length b) NUL). assert (length z = Nat.max (length b) o) as Hz by (unfold z; rewrite length_app, length_replicate; lia).
  assert (replicate (o + length d1 - length (splice b o d1)) NUL = []) as -> by (rewrite splice_length; replace (_ - _)%nat with 0%nat by lia; done).
  rewrite app_nil_r. unfold splice. fold z.
  assert (length (take o z) = o) as Ht by (rewrite length_take; lia).
  assert (take (o + length d1) (take o z ++ d1 ++ drop (o + length d1) z) = take o z ++ d1) as ->.
  { rewrite app_assoc. rewrite take_app_le by (rewrite length_app; lia). apply take_ge. rewrite length_app. lia. }
  assert (drop (o + length d1 + length d2) (take o z ++ d1 ++ drop (o + length d1) z) = drop (o + length (d1 ++ d2)) z) as ->.
  { rewrite app_assoc, drop_app_ge by (rewrite length_app; lia). rewrite drop_drop. f_equal. rewrite !length_app. lia. }
  by rewrite <- !app_assoc.
Qed.
Lemma splice_put b o d1 d2 : splice_nonempty (splice_nonempty b o d1) (o + length d1) d2 = splice_nonempty b o (d1 ++ d2).
Proof.
  destruct d1 as [|a d1]; [cbn; by rewrite Nat.add_0_r|]. destruct d2 as [|c d2]; [by rewrite app_nil_r|]. apply splice_splice.
Qed.

(** ** The state *)

Definition name : Type := String.string.
Definition name_of (path : cstr) : name := String.string_of_list_ascii path.
Record mem := Mem { m_files : gmap name (list ascii); m_dirs : gset name; m_open : gmap Z (name * Z); m_next : nat }.

Definition put_files (f : gmap name (list ascii)) (w : mem) : mem := Mem f (m_dirs w) (m_open w) (m_next w).
Definition with_dirs (d : gset name) (w : mem) : mem := Mem (m_files w) d (m_open w) (m_next w).
Definition with_open (o : gmap Z (name * Z)) (w : mem) : mem := Mem (m_files w) (m_dirs w) o (m_next w).

Definition new_fd (n : name) (w : mem) : (Z + Z) * mem :=
  let fd := Z.of_nat (m_next w) in (inl fd, Mem (m_files w) (m_dirs w) (<[fd := (n, 0)]> (m_open w)) (S (m_next w))).
Definition mem_file (fd : Z) (w : mem) : option (name * Z * list ascii) :=
  '(n, pos) ← m_open w !! fd; b ← m_files w !! n; Some (n, pos, b).
Definition at_pos (fd off : Z) (w : mem) : mem := with_open (alter (λ '(n, _), (n, off)) fd (m_open w)) w.
Definition mem_store (fd off : Z) (d : list ascii) (w : mem) : mem :=
  match m_open w !! fd with
  | Some (n, _) => put_files (alter (λ b, splice_nonempty b (Z.to_nat off) d) n (m_files w)) w
  | None => w
  end.
Definition SHORT : nat := 8.
Definition mem_stat (mode size : Z) : stat := Stat 1 1 mode 1 0 0 size 4096 1 0 0 0.

#[export] Program Instance mem_posix : Posix mem := {
  sys_open path flags mode w :=
    let n := name_of path in
    if decide (n ∈ m_dirs w) then (inr EISDIR, w)
    else match m_files w !! n with
         | Some _ => new_fd n (if has_flag O_TRUNC flags then put_files (<[n := []]> (m_files w)) w else w)
         | None => if has_flag O_CREAT flags then new_fd n (put_files (<[n := []]> (m_files w)) w) else (inr ENOENT, w)
         end;
  sys_creat path mode w := new_fd (name_of path) (put_files (<[name_of path := []]> (m_files w)) w);
  sys_close fd w := match m_open w !! fd with Some _ => (inl tt, with_open (delete fd (m_open w)) w) | None => (inr EBADF, w) end;
  sys_fsync fd w := match m_open w !! fd with Some _ => (inl tt, w) | None => (inr EBADF, w) end;
  sys_read fd n w :=
    match mem_file fd w with
    | Some (_, pos, b) => let d := take (Nat.min SHORT (Z.to_nat n)) (drop (Z.to_nat pos) b) in (inl d, at_pos fd (pos + Z.of_nat (length d)) w)
    | None => (inr EBADF, w)
    end;
  sys_write fd d w :=
    match mem_file fd w with
    | Some (_, pos, _) => let d' := take SHORT d in
        (inl (Z.of_nat (length d')), at_pos fd (pos + Z.of_nat (length d')) (mem_store fd pos d' w))
    | None => (inr EBADF, w)
    end;
  sys_lseek fd off w := match mem_file fd w with Some _ => if off <? 0 then (inr EINVAL, w) else (inl off, at_pos fd off w) | None => (inr EBADF, w) end;
  sys_stat path w :=
    let n := name_of path in
    (if decide (n ∈ m_dirs w) then inl (mem_stat (S_IFDIR + 493) 4096)
     else match m_files w !! n with Some b => inl (mem_stat (S_IFREG + 420) (Z.of_nat (length b))) | None => inr ENOENT end, w);
  sys_mkdir path mode w := if decide (name_of path ∈ m_dirs w) then (inr EEXIST, w) else (inl tt, with_dirs ({[name_of path]} ∪ m_dirs w) w);
  sys_rmdir path w := if decide (name_of path ∈ m_dirs w) then (inl tt, with_dirs (m_dirs w ∖ {[name_of path]}) w) else (inr ENOENT, w);
  sys_unlink path w := match m_files w !! name_of path with Some _ => (inl tt, put_files (delete (name_of path) (m_files w)) w) | None => (inr ENOENT, w) end;
  sys_rename a b w := match m_files w !! name_of a with Some x => (inl tt, put_files (<[name_of b := x]> (delete (name_of a) (m_files w))) w) | None => (inr ENOENT, w) end;
  sys_opendir path w := if decide (name_of path ∈ m_dirs w) then (inl 1, w) else (inr ENOENT, w);
  sys_telldir d w := (inl 0, w);
  sys_seekdir d l w := (inl tt, w);
  sys_readdir d w := (inl None, w);
  sys_closedir d w := (inl tt, w) }.
Next Obligation. intros fd d w n w' E. cbn in E. destruct (mem_file fd w) as [[[a b] c]|]; [|done]. injection E as <- _. lia. Qed.
Next Obligation.
  intros path flags mode w r w' E. cbn in E. destruct (decide _); [done|]. destruct (m_files w !! _); [|destruct (has_flag O_CREAT flags); [|done]].
  all: injection E as <- _; lia.
Qed.
Next Obligation. intros path w r w' E. cbn in E. destruct (decide _); [|done]. by injection E as <- _. Qed.

Definition mem_opened (fd : Z) (w : mem) : Prop := ∃ n pos b, m_open w !! fd = Some (n, pos) ∧ m_files w !! n = Some b.
Definition mem_content (fd : Z) (w : mem) : list ascii := match mem_file fd w with Some (_, _, b) => b | None => [] end.

Lemma alter_alter `{Countable K} {A} (f g : A → A) (m : gmap K A) i : alter f i (alter g i m) = alter (f ∘ g) i m.
Proof.
  apply map_eq. intros j. destruct (decide (i = j)) as [<-|E].
  - rewrite !lookup_alter_eq. by destruct (m !! i).
  - by rewrite !lookup_alter_ne.
Qed.
Lemma at_pos_lookup fd off w n pos : m_open w !! fd = Some (n, pos) → m_open (at_pos fd off w) !! fd = Some (n, off).
Proof. intros E. unfold at_pos. cbn. by rewrite lookup_alter_eq, E. Qed.
Lemma opened_file fd w n pos b : m_open w !! fd = Some (n, pos) → m_files w !! n = Some b → mem_file fd w = Some (n, pos, b).
Proof. intros H1 H2. unfold mem_file. rewrite H1. cbn. by rewrite H2. Qed.
Lemma seek_twice fd a b w : at_pos fd a (at_pos fd b w) = at_pos fd a w.
Proof. unfold at_pos, with_open. cbn. f_equal. rewrite alter_alter. apply alter_ext. by intros [n p] _. Qed.
Lemma put_at_pos fd off d a w : mem_store fd off d (at_pos fd a w) = at_pos fd a (mem_store fd off d w).
Proof. unfold mem_store, at_pos. cbn. rewrite lookup_alter_eq. by destruct (m_open w !! fd) as [[n p]|]. Qed.
Lemma put_nothing fd off w : mem_store fd off [] w = w.
Proof.
  unfold mem_store. destruct (m_open w !! fd) as [[n p]|]; [|done]. unfold put_files. cbn. rewrite (alter_id _ (m_files w) n) by done. by destruct w.
Qed.
Lemma put_twice fd off d1 d2 w : 0 <= off → mem_store fd (off + Z.of_nat (length d1)) d2 (mem_store fd off d1 w) = mem_store fd off (d1 ++ d2) w.
Proof.
  intros Ho. unfold mem_store. destruct (m_open w !! fd) as [[n p]|] eqn:E; [|by rewrite E]. unfold put_files. cbn. rewrite E. cbn. f_equal.
  rewrite alter_alter. apply alter_ext. intros b _. cbn. rewrite <- splice_put. f_equal. lia.
Qed.
Lemma at_pos_opened fd a w : mem_opened fd w → mem_opened fd (at_pos fd a w).
Proof. intros (n & pos & b & H1 & H2). exists n, a, b. by rewrite (at_pos_lookup _ _ _ _ _ H1). Qed.
Lemma put_opened fd off d w : mem_opened fd w → mem_opened fd (mem_store fd off d w).
Proof.
  intros (n & pos & b & H1 & H2). exists n, pos, (splice_nonempty b (Z.to_nat off) d). unfold mem_store. rewrite H1. cbn. by rewrite lookup_alter_eq, H2.
Qed.

#[export] Program Instance mem_posix_files : PosixFiles mem := {
  readable := mem_opened; writable := mem_opened; seek := at_pos; put_at := mem_store; content := mem_content }.
Next Obligation.
  intros fd off w Hw Ho. assert (mem_opened fd w) as (n & pos & b & H1 & H2) by tauto. cbn. rewrite (opened_file _ _ _ _ _ H1 H2).
  by rewrite (proj2 (Z.ltb_ge off 0)).
Qed.
Next Obligation.
  intros fd off d w (n & pos & b & H1 & H2) Ho Hd. exists (Z.of_nat (length (take SHORT d))). split.
  { rewrite length_take. unfold SHORT. destruct d; [done|]. cbn [length]. lia. }
  cbn [sys_write mem_posix]. rewrite (opened_file fd (at_pos fd off w) n off b) by (done || by eapply at_pos_lookup). cbv zeta. rewrite Nat2Z.id, put_at_pos, seek_twice.
  assert (take (length (take SHORT d)) d = take SHORT d) as ->; [|done].
  rewrite length_take. destruct (decide (SHORT <= length d)%nat); [by rewrite Nat.min_l|]. rewrite !take_ge by lia. done.
Qed.
Next Obligation.
  intros fd off n w (nm & pos & b & H1 & H2) Ho Hn. exists (Nat.min SHORT (Z.to_nat n)). split; [lia|]. split; [unfold SHORT; lia|]. cbv zeta.
  cbn. rewrite (opened_file fd (at_pos fd off w) nm off b) by (done || by eapply at_pos_lookup).
  unfold mem_content. rewrite (opened_file _ _ _ _ _ H1 H2). by rewrite seek_twice.
Qed.
Next Obligation. intros. apply seek_twice. Qed.
Next Obligation. intros. apply put_at_pos. Qed.
Next Obligation. intros. apply put_nothing. Qed.
Next Obligation. intros fd off d1 d2 w _ Ho. by apply put_twice. Qed.
Next Obligation.
  intros fd off d w (n & pos & b & H1 & H2) Ho Hd. unfold mem_content. rewrite (opened_file _ _ _ _ _ H1 H2).
  rewrite (opened_file fd (mem_store fd off d w) n pos (splice b (Z.to_nat off) d)); [done| |]; unfold mem_store; rewrite H1; [done|].
  cbn. rewrite lookup_alter_eq, H2. cbn. by destruct d.
Qed.
Next Obligation. intros fd w. cbn. by destruct (m_open w !! fd). Qed.
Next Obligation. intros fd w H. cbn. by destruct (m_open w !! fd). Qed.
Next Obligation. intros. by apply put_opened. Qed.
Next Obligation.
  intros fd a w. unfold mem_content, mem_file, at_pos. cbn. rewrite lookup_alter_eq. destruct (m_open w !! fd) as [[n p]|]; [|done]. cbn.
  by destruct (m_files w !! n).
Qed.
Next Obligation. intros. by apply at_pos_opened. Qed.
Next Obligation. intros. by apply at_pos_opened. Qed.
Next Obligation. intros. by apply put_opened. Qed.

(** Automatic variables that happen to hold 7. *)
#[export] Instance sevens : Stack := {
  junk_ret := 7; junk_size := 7; junk_errno := 7; junk_stat := mem_stat 7 7; junk_dirent := dirent_zero; junk_int := 7 }.
