(* ===== verification/RpcCalls.v ===== *)
(** * RpcCalls: a program of calls on a server, remote or local

    A client sees of a call its result, [errno] when it failed, and the data it
    asked for.  [remote_call] runs a call through the Expand server,
    [local_call] on the file system itself: a program of calls gives the
    same replies either way, and leaves the same files behind. *)

From S2P Require Import Prelude Cstr Paths Url Mdata Nfi Client Header FileSystem PosixFiles Server Remote Local Rpc RpcData PosixMem.

(** ** Calls and replies *)

Inductive file_call :=
  | C_open (url : cstr) (flags mode ty pv : Z)
  | C_read (fh : nfi_fhandle) (offset size : Z)
  | C_write (fh : nfi_fhandle) (offset : Z) (buffer : list ascii)
  | C_close (fh : nfi_fhandle)
  | C_getattr (ty : Z) (url : cstr) (pv mq : Z) (attr : nfi_attr)
  | C_rmdir (url : cstr)
  | C_closedir (fh : nfi_fhandle)
  | C_read_mdata (url : cstr) (mdata : xpn_metadata)
  | C_write_mdata (url : cstr) (mdata : xpn_metadata).

Inductive payload := P_none | P_fh (fh : nfi_fhandle) | P_data (d : list ascii) | P_attr (a : nfi_attr) | P_mdata (m : xpn_metadata).
(** Attributes are looked at when the call succeeded only. *)
Record reply := Reply { rp_ret : Z; rp_errno : option Z; rp_payload : payload }.

Section calls.
Context {F : Type} {PX : Posix F} {SK : Stack}.
Context (cf : xs_conf).

Definition observe {A} (view : A → Z * payload) (p : M (site F) A) : M (site F) reply :=
  a ← p; s ← get;
  mret (Reply (fst (view a)) (if fst (view a) <? 0 then Some (c_errno s) else None) (snd (view a))).
Definition view_ret (r : Z) : Z * payload := (r, P_none).
Definition view_fh (r : Z * nfi_fhandle) : Z * payload := (fst r, P_fh (snd r)).
Definition view_data (r : Z * list ascii) : Z * payload := (fst r, P_data (snd r)).
Definition view_attr (r : Z * nfi_attr) : Z * payload := (fst r, if fst r <? 0 then P_none else P_attr (snd r)).
Definition view_mdata (r : Z * xpn_metadata) : Z * payload := (fst r, P_mdata (snd r)).

Definition remote_call (c : file_call) : M (site F) reply :=
  match c with
  | C_open url flags mode ty pv => observe view_fh (nfi_xpn_server_open cf url flags mode (NfiFh ty [] pv 0))
  | C_read fh offset size => observe view_data (nfi_xpn_server_read cf fh offset size)
  | C_write fh offset buffer => observe view_ret (nfi_xpn_server_write cf fh offset buffer)
  | C_close fh => observe view_ret (nfi_xpn_server_close cf fh)
  | C_getattr ty url pv mq attr => observe view_attr (nfi_xpn_server_getattr cf (NfiFh ty url pv mq) attr)
  | C_rmdir url => observe view_ret (nfi_xpn_server_rmdir cf url)
  | C_closedir fh => observe view_ret (nfi_xpn_server_closedir cf fh)
  | C_read_mdata url mdata => observe view_mdata (nfi_xpn_server_read_mdata cf url mdata)
  | C_write_mdata url mdata => observe view_ret (nfi_xpn_server_write_mdata cf url mdata 0)
  end.
Definition local_call (c : file_call) : M (site F) reply :=
  match c with
  | C_open url flags mode ty pv => observe view_fh (nfi_local_open cf url flags mode (NfiFh ty [] pv 0))
  | C_read fh offset size => observe view_data (nfi_local_read cf fh offset size)
  | C_write fh offset buffer => observe view_ret (nfi_local_write cf fh offset buffer)
  | C_close fh => observe view_ret (nfi_local_close cf fh)
  | C_getattr ty url pv mq attr => observe view_attr (nfi_local_getattr (NfiFh ty url pv mq) attr)
  | C_rmdir url => observe view_ret (nfi_local_rmdir url)
  | C_closedir fh => observe view_ret (nfi_local_closedir cf fh)
  | C_read_mdata url mdata => observe view_mdata (nfi_local_read_mdata url mdata)
  | C_write_mdata url mdata => observe view_ret (nfi_local_write_mdata cf url mdata 0)
  end.
Fixpoint run_calls (run : file_call → M (site F) reply) (l : list file_call) : M (site F) (list reply) :=
  match l with
  | [] => mret []
  | c :: l' => r ← run c; rs ← run_calls run l'; mret (r :: rs)
  end.

(** ** What the two sites share *)

Definition same_site (s s' : site F) : Prop := fs s = fs s' ∧ handles s = handles s' ∧ next_handle s = next_handle s'.

(** A client program that looks at nothing else: run from sites that share
    their files and handles ([pre]: and [errno]) it does the same, and leaves the
    same [errno] where its result is [bad]. *)
Definition local_only {A} (pre : bool) (bad : A → bool) (p : M (site F) A) : Prop := ∀ s s',
  same_site s s' → (pre = true → c_errno s = c_errno s') →
  match p s, p s' with
  | Some (a, t), Some (b, u) => a = b ∧ same_site t u ∧ (bad a = true → c_errno t = c_errno u)
  | None, None => True
  | _, _ => False
  end.

Lemma lo_bind {A B} pre bad bad' (p : M (site F) A) (k : A → M (site F) B) :
  local_only pre bad p → (∀ a, local_only (bad a) bad' (k a)) → local_only pre bad' (a ← p; k a).
Proof.
  intros Hp Hk s s' Hs He. specialize (Hp s s' Hs He). unfold mbind, M_bind.
  destruct (p s) as [[a t]|], (p s') as [[b u]|]; try done. destruct Hp as (-> & Ht & Hb). by apply Hk.
Qed.
Lemma lo_ret {A} pre bad (a : A) : (bad a = true → pre = true) → local_only pre bad (mret a).
Proof. intros Hb s s' Hs He. cbn. split_and!; try done. auto. Qed.
Lemma lo_fault {A} pre (bad : A → bool) : local_only pre bad fault.
Proof. by intros s s' Hs He. Qed.
(** What is run by either process the same way depends on the files only. *)
Lemma lo_twin {A} pre bad (p : side → M (site F) A) : twin bad p → local_only pre (λ a, pre || bad a) (p Client).
Proof.
  intros Hp s s' (Hf & Hh & Hn) He.
  (* an errno that neither run leaves *)
  set (z := 1 + Z.abs (match p Client s with Some (_, t) => c_errno t | None => 0 end) + Z.abs (match p Client s' with Some (_, t) => c_errno t | None => 0 end)).
  pose proof (Hp (with_errno Server z s') s (eq_sym Hf)) as H1. pose proof (Hp (with_errno Server z s') s' eq_refl) as H2.
  destruct (p Server _) as [[c t0]|], (p Client s) as [[a t]|], (p Client s') as [[b u]|]; try done.
  destruct H1 as [<- (w & f & Ht0 & -> & Hb)], H2 as [<- (w' & f' & Ht0' & -> & Hb')]. rewrite Ht0 in Ht0'.
  assert (w = w') as <- by (rewrite <- (set_opt_fs Server f w (with_errno Server z s')), Ht0'; apply set_opt_fs).
  split_and!; [done|unfold same_site; destruct f, f'; by cbn|]. intros Hbad.
  assert (s_errno (set_opt Server f (with_fs w (with_errno Server z s'))) = s_errno (set_opt Server f' (with_fs w (with_errno Server z s')))) as Hz by (by rewrite Ht0').
  destruct f as [e|], f' as [e'|]; cbn in Hz |- *; try done.
  - unfold z in Hz. cbn in Hz. lia.
  - unfold z in Hz. cbn in Hz. lia.
  - destruct pre; [auto|]. by destruct (Hb Hbad).
Qed.
Lemma lo_weaken {A} pre (bad bad' : A → bool) p : local_only pre bad p → (∀ a, bad' a = true → bad a = true) → local_only pre bad' p.
Proof.
  intros H Hb s s' Hs He. specialize (H s s' Hs He). destruct (p s) as [[a t]|], (p s') as [[b u]|]; try done.
  destruct H as (-> & H1 & H2). split_and!; auto.
Qed.
Lemma lo_twin' {A} pre bad (p : side → M (site F) A) : twin bad p → local_only pre bad (p Client).
Proof. intros H. apply (lo_weaken _ (λ a, pre || bad a)); [by apply lo_twin|]. intros a ->. by destruct pre. Qed.
Lemma lo_syscall {A} pre (bad : A → bool) (f : sys F A) d : (∀ w a w', f w = (inl a, w') → bad a = false) → local_only pre bad (syscall Client f d).
Proof. intros H. apply (lo_twin' pre bad (λ p, syscall p f d)). by apply twin_syscall. Qed.
Lemma lo_errno {A} bad (k : Z → M (site F) A) : (∀ e, local_only true bad (k e)) → local_only true bad (s ← get; k (c_errno s)).
Proof.
  intros Hk s s' Hs He. unfold mbind, M_bind, get. cbn. rewrite (He eq_refl). apply Hk; [done|]. auto.
Qed.
(** The parts of a call that touch the handles. *)
Lemma lo_handle pre bad fh : (∀ h, bad h = true → pre = true) → local_only pre bad (handle fh).
Proof.
  intros Hb s s' Hs He. destruct Hs as (Hf & Hh & Hn). unfold handle, mbind, M_bind, get, lift. cbn. rewrite Hh.
  destruct (handles s' !! fh_priv fh); [|done]. split_and!; try done. intros H. apply He. by eapply Hb.
Qed.
Lemma lo_alloc pre bad h : (∀ p, bad p = true → pre = true) → local_only pre bad (alloc h).
Proof.
  intros Hb s s' (Hf & Hh & Hn) He. unfold alloc, mbind, M_bind, get, modify. cbn. rewrite Hh, Hn. split_and!; try done. intros H. apply He. by eapply Hb.
Qed.
Lemma lo_handles pre bad g : (bad tt = true → pre = true) → local_only pre bad (modify (λ s, with_handles (g (handles s)) s)).
Proof. intros Hb s s' (Hf & Hh & Hn) He. cbn. split_and!; try done. - by rewrite Hh. - auto. Qed.
Lemma lo_lift {A} pre bad (o : option A) : (∀ a, bad a = true → pre = true) → local_only pre bad (lift o).
Proof. intros Hb s s' Hs He. unfold lift. destruct o as [a|]; [|done]. split_and!; try done. intros H. apply He. by eapply Hb. Qed.
Lemma lo_set_errno pre bad e : local_only pre bad (set_cerrno e).
Proof. by intros s s' (Hf & Hh & Hn) He. Qed.
Lemma lo_when pre bad b (p : M (site F) unit) : (bad tt = true → pre = true) → local_only pre bad p → local_only pre bad (when b p).
Proof. intros Hb Hp. destruct b; [done|]. by apply lo_ret. Qed.
Lemma lo_url_dir pre b url : local_only pre (λ _, pre) (url_dir b url).
Proof.
  unfold url_dir, parse. apply (lo_bind _ (λ _, pre)); [apply (lo_bind _ (λ _, pre)); [by apply lo_lift|]|].
  - intros [r b']. by apply lo_ret.
  - intros u. by apply lo_ret.
Qed.

(** ** The local calls depend on the files and the handles only *)

Definition negative (r : Z) : bool := r <? 0.
Definition failed1 {A} (r : Z * A) : bool := fst r <? 0.

Lemma lo_call pre (f : sys F unit) : local_only pre negative (syscall Client (sys0 f) (-1)).
Proof. apply lo_syscall. intros w a w' E. unfold sys0 in E. destruct (f w) as [[[]|e] w1]; [|done]. by injection E as <- _. Qed.
Lemma lo_nonneg pre (f : sys F Z) : (∀ w a w', f w = (inl a, w') → 0 <= a) → local_only pre negative (syscall Client f (-1)).
Proof. intros H. apply lo_syscall. intros w a w' E. apply Z.ltb_ge. by eapply H. Qed.
Lemma lo_local_dir pre url (body : cstr → M (site F) Z) : (∀ dir, local_only pre negative (body dir)) → local_only pre negative (local_dir url body).
Proof.
  intros H. unfold local_dir. apply (lo_bind _ (λ _, pre)); [apply lo_url_dir|]. intros [dir|]; [apply H|].
  apply (lo_bind _ (λ _, true)); [apply lo_set_errno|]. intros _. by apply lo_ret.
Qed.

Lemma lo_rmdir url : local_only false negative (nfi_local_rmdir url).
Proof.
  apply lo_local_dir. intros dir. apply (lo_bind _ negative); [apply lo_call|]. intros r. apply lo_ret. unfold negative. by destruct (r <? 0).
Qed.
Lemma lo_getattr fh a : local_only false failed1 (nfi_local_getattr fh a).
Proof.
  apply (lo_bind _ (λ _, false)); [apply lo_url_dir|]. intros [dir|].
  - apply (lo_bind _ (λ r, match r with None => true | Some _ => false end)).
    + apply lo_syscall. intros w r w' E. destruct (sys_stat dir w) as [[st|e] w1]; [|done]. by injection E as <- _.
    + intros [st|]; by apply lo_ret.
  - apply (lo_bind _ (λ _, true)); [apply lo_set_errno|]. intros _. by apply lo_ret.
Qed.
Lemma lo_closedir fh : local_only false negative (nfi_local_closedir cf fh).
Proof.
  unfold nfi_local_closedir. destruct (_ =? 1); [|by apply lo_ret].
  apply (lo_bind _ (λ _, false)); [by apply lo_handle|]. intros h. apply lo_call.
Qed.
Lemma lo_close fh : local_only false negative (nfi_local_close cf fh).
Proof.
  unfold nfi_local_close. destruct (_ =? 1).
  - apply (lo_bind _ (λ _, false)); [by apply lo_handle|]. intros h. apply (lo_bind _ negative); [apply lo_call|]. intros r.
    apply (lo_bind _ (λ _, negative r)); [by apply lo_handles|]. intros _. by apply lo_ret.
  - apply (lo_bind _ (λ _, false)); [by apply lo_handles|]. intros _. by apply lo_ret.
Qed.
Lemma lo_open url flags mode fho : xpn_session_file cf = 1 → local_only false failed1 (nfi_local_open cf url flags mode fho).
Proof.
  intros Hsf. unfold nfi_local_open. rewrite Hsf. change (1 =? 0) with false. apply (lo_bind _ (λ _, false)); [apply lo_url_dir|]. intros [dir|].
  - apply (lo_bind _ (λ _, false)); [by apply lo_alloc|]. intros p.
    apply (lo_bind _ negative); [apply lo_nonneg; intros w a w'; apply sys_open_pos|]. intros r. unfold negative. destruct (r <? 0) eqn:Er.
    + apply (lo_bind _ (λ _, true)); [by apply lo_handles|]. intros _. by apply lo_ret.
    + apply (lo_bind _ (λ _, false)); [cbn [when]; by apply lo_ret|]. intros _.
      apply (lo_bind _ (λ _, false)); [by apply (lo_handles _ _ (λ h, <[p := XsFh dir 0 0 r]> h))|]. intros _. by apply lo_ret.
  - apply (lo_bind _ (λ _, true)); [apply lo_set_errno|]. intros _. by apply lo_ret.
Qed.
(** A transfer on an open file: what is done with its result, then a close. *)
Lemma lo_tail {A} pre (bad : A → bool) (p : side → M (site F) A) fd : twin bad p →
  local_only pre bad (a ← p Client; r ← filesystem_close Client fd; mret a).
Proof. intros Hp. apply (lo_twin' pre bad (λ sd, a ← p sd; r ← filesystem_close sd fd; mret a)). by apply twin_close. Qed.
Lemma lo_eisdir {A} pre (bad : A → bool) (x : Z → A) : pre = true → local_only pre bad (s ← get; mret (x (c_errno s))).
Proof. intros ->. apply (lo_errno _ (λ e, mret (x e))). intros e. by apply lo_ret. Qed.

Lemma lo_write_mdata url m : local_only false negative (nfi_local_write_mdata cf url m 0).
Proof.
  unfold nfi_local_write_mdata. change (0 =? 0) with true. cbn [negb]. apply lo_local_dir. intros dir.
  apply (lo_bind _ negative); [apply lo_nonneg; intros w a w'; apply sys_open_pos|]. intros fd. unfold negative at 1. destruct (fd <? 0).
  - by apply (lo_eisdir _ _ (λ e, if e =? EISDIR then 0 else -1)).
  - apply (lo_tail _ _ (λ sd, filesystem_write sd fd (mdata_bytes m))), twin_write.
Qed.
Lemma lo_read_mdata url m0 : local_only false failed1 (nfi_local_read_mdata url m0).
Proof.
  apply (lo_bind _ (λ _, false)); [apply lo_url_dir|]. intros [dir|].
  2: { apply (lo_bind _ (λ _, true)); [apply lo_set_errno|]. intros _. by apply lo_ret. }
  apply (lo_bind _ negative); [apply lo_nonneg; intros w a w'; apply sys_open_pos|]. intros fd. unfold negative at 1. destruct (fd <? 0).
  - by apply (lo_eisdir _ _ (λ e, (if e =? EISDIR then 0 else -1, mdata_zero))).
  - set (k := λ x : Z * list ascii, let m := mdata_of_bytes (overlay (replicate (Z.to_nat SIZEOF_MDATA) NUL) (snd x)) in (fst x, if XPN_CHECK_MAGIC_NUMBER m then m else mdata_zero)).
    assert (local_only false failed1 (x ← (a ← filesystem_read Client fd SIZEOF_MDATA; r ← filesystem_close Client fd; mret a); mret (k x))) as H.
    { apply (lo_bind _ failed1); [apply (lo_tail _ _ (λ sd, filesystem_read sd fd SIZEOF_MDATA)), twin_read|]. intros x. by apply lo_ret. }
    intros s s' Hs He. specialize (H s s' Hs He). unfold mbind, M_bind in *.
    destruct (filesystem_read Client fd SIZEOF_MDATA s) as [[[n d] t]|], (filesystem_read Client fd SIZEOF_MDATA s') as [[[n' d'] t']|]; try done.
    + by destruct (filesystem_close Client fd t) as [[r u]|], (filesystem_close Client fd t') as [[r' u']|].
    + by destruct (filesystem_close Client fd t) as [[r u]|].
    + by destruct (filesystem_close Client fd t') as [[r u]|].
Qed.

(** ** One call *)

Lemma observe_agree {A} (view : A → Z * payload) (p q : M (site F) A) code R s s' r t :
  (∀ a, fst (view a) = code a) → (∀ a b, R a b → view a = view b) →
  idle cf s → same_site s s' → agree cf code R p q s → local_only false (λ a, code a <? 0) q →
  observe view q s' = Some (r, t) → ∃ u, observe view p s = Some (r, u) ∧ same_site u t ∧ idle cf u.
Proof.
  intros Hcode HR Hi Hs Ha Hq E. unfold observe in *. apply bind_inv in E as (a & t1 & Ea & E). injection E as <- <-.
  specialize (Hq s s' Hs ltac:(done)). rewrite Ea in Hq. destruct (q s) as [[a2 s2]|] eqn:Eq; [|done]. destruct Hq as (-> & Ht & He).
  destruct (Ha a s2 Eq) as (a1 & s1 & E1 & HRa & Hf & Hh & Hn & Hc & Hi1).
  exists s1. erewrite bind_step by exact E1. erewrite bind_step by reflexivity. rewrite (HR _ _ HRa), !Hcode.
  destruct Ht as (Ht1 & Ht2 & Ht3). split; [|split; [unfold same_site; split_and!; congruence|done]].
  destruct (Z.ltb_spec (code a) 0) as [Hneg|]; [|done]. cbv beta. rewrite Hc, He by (done || by apply Z.ltb_lt). done.
Qed.
End calls.

(** ** A program of calls *)

Section programs.
Context {F : Type} {PX : Posix F} {PF : PosixFiles F} {SK : Stack}.
Context (cf : xs_conf).
Implicit Types s : site F.

Definition file_url (url : cstr) : Prop := ∃ dir, url_ok url dir.
(** What a call is made with: a URL of the server, or a handle that is open.
    Data goes to and comes from regular files that the descriptor can write or
    read; what is read begins inside the file. *)
Definition call_ok (c : file_call) s : Prop :=
  match c with
  | C_open url _ _ _ _ => file_url url ∧ xpn_session_file cf = 1
  | C_getattr _ url _ _ _ | C_rmdir url | C_read_mdata url _ | C_write_mdata url _ => file_url url
  | C_close fh => xpn_session_file cf = 1 ∧ ∃ h, handles s !! fh_priv fh = Some h ∧ path_ok (h_path h)
  | C_closedir fh => ∃ h, handles s !! fh_priv fh = Some h
  | C_read fh off n =>
    (xpn_session_file cf = 0 ∨ xpn_session_file cf = 1) ∧ junk_ret ≠ -1 ∧ 0 <= off ∧ 0 <= n < 2 ^ 31 ∧ off + n < 2 ^ 63 ∧
    ∃ h fd w, handles s !! fh_priv fh = Some h ∧ path_ok (h_path h) ∧ opens cf O_RDONLY h s fd w ∧ readable fd w ∧ 0 <= fd ∧
      off <= Z.of_nat (length (content fd w))
  | C_write fh off d =>
    fh_mqtt fh = 0 ∧ 0 <= off ∧ off + Z.of_nat (length d) < 2 ^ 63 ∧ Z.of_nat (length d) < 2 ^ 31 ∧
    ∃ h fd w, handles s !! fh_priv fh = Some h ∧ path_ok (h_path h) ∧ opens cf O_WRONLY h s fd w ∧ writable fd w ∧ 0 <= fd
  end.
Fixpoint calls_ok (l : list file_call) s : Prop :=
  match l with
  | [] => True
  | c :: l' => call_ok c s ∧ ∀ r s', local_call cf c s = Some (r, s') → calls_ok l' s'
  end.

Lemma opens_same flags h s s' fd w : same_site s s' → opens cf flags h s' fd w → opens cf flags h s fd w.
Proof. intros (Hf & _) [H|H]; [left|right]; by rewrite Hf. Qed.

(** A result that is not negative: nothing else to compare. *)
Lemma observe_done {A} (view : A → Z * payload) (p q : M (site F) A) a s s' s1 t r u :
  p s = Some (a, s1) → q s' = Some (a, t) → 0 <= fst (view a) → same_site s1 t → idle cf s1 →
  observe view q s' = Some (r, u) → ∃ v, observe view p s = Some (r, v) ∧ same_site v u ∧ idle cf v.
Proof.
  intros Ep Eq Ha Hst Hi E. unfold observe in *. erewrite bind_step in E by exact Eq. erewrite bind_step in E by reflexivity. injection E as <- <-.
  exists s1. erewrite bind_step by exact Ep. erewrite bind_step by reflexivity. by rewrite (proj2 (Z.ltb_ge _ 0) Ha).
Qed.

Lemma view_attr_same (a b : Z * nfi_attr) : same_data a b → view_attr a = view_attr b.
Proof.
  destruct a as [r x], b as [r' y]. intros [H1 H2]. cbn in *. subst. unfold view_attr. cbn.
  destruct (Z.ltb_spec r' 0); [done|]. by rewrite H2.
Qed.

(** A call made through the server does what the local one does. *)
Lemma call_step c s s' r t : idle cf s → same_site s s' → call_ok c s' → local_call cf c s' = Some (r, t) →
  ∃ u, remote_call cf c s = Some (r, u) ∧ same_site u t ∧ idle cf u.
Proof.
  intros Hi Hs Hok E. pose proof Hs as (Hfs & Hhs & Hns). destruct c; cbn [remote_call local_call call_ok] in *.
  - destruct Hok as [[dir Hu] Hsf]. by eapply (observe_agree cf view_fh); [| |exact Hi|exact Hs|by apply (open_agree cf url dir)|by apply lo_open|]; [done|by intros ?? ->|..].
  - destruct Hok as (Hsf & Hj & Ho & Hn & Hon & h & fd & w & Hh & Hp & Hop & Hr & Hfd & Hc).
    destruct (local_read_run cf fh h s' offset size fd w) as (t' & Et & Hh' & Hn' & Hf'); try done.
    destruct (remote_read_run cf fh h s offset size fd w) as (u & Eu & Hh1 & Hn1 & He1 & Hi1 & Hf1); try done; [by rewrite Hhs|by apply (opens_same _ _ s s')|].
    eapply (observe_done view_data); [exact Eu|exact Et| | |done|done]; [cbn; lia|]. unfold same_site. split_and!; congruence.
  - destruct Hok as (Hmq & Ho & Hod & Hd & h & fd & w & Hh & Hp & Hop & Hw & Hfd).
    destruct (local_write_run cf fh h s' offset buffer fd w) as (t' & Et & Hh' & Hn' & Hf'); try done.
    destruct (remote_write_run cf fh h s offset buffer fd w) as (u & Eu & Hh1 & Hn1 & He1 & Hi1 & Hf1); try done; [by rewrite Hhs|by apply (opens_same _ _ s s')|].
    eapply (observe_done view_ret); [exact Eu|exact Et| | |done|done]; [cbn; lia|]. unfold same_site. split_and!; [|congruence..].
    rewrite Hf1, Hf'. by destruct (decide _).
  - destruct Hok as (Hsf & h & Hh & Hp). rewrite <- Hhs in Hh.
    by eapply (observe_agree cf view_ret); [| |exact Hi|exact Hs|by eapply close_agree|apply lo_close|]; [done|by intros ?? ->|].
  - destruct Hok as [dir Hu]. eapply (observe_agree cf view_attr _ _ fst); [done|apply view_attr_same|exact Hi|exact Hs|by apply (getattr_agree cf url dir)|apply lo_getattr|done].
  - destruct Hok as [dir Hu]. by eapply (observe_agree cf view_ret); [| |exact Hi|exact Hs|by apply (rmdir_agree cf url dir)|apply lo_rmdir|]; [done|by intros ?? ->|].
  - destruct Hok as [h Hh]. rewrite <- Hhs in Hh. by eapply (observe_agree cf view_ret); [| |exact Hi|exact Hs|by eapply closedir_agree|apply lo_closedir|]; [done|by intros ?? ->|].
  - destruct Hok as [dir Hu]. by eapply (observe_agree cf view_mdata); [| |exact Hi|exact Hs|by apply (read_mdata_agree cf url dir)|apply lo_read_mdata|]; [done|by intros ?? ->|].
  - destruct Hok as [dir Hu]. by eapply (observe_agree cf view_ret); [| |exact Hi|exact Hs|by apply (write_mdata_agree cf url dir)|apply lo_write_mdata|]; [done|by intros ?? ->|].
Qed.

End programs.

Lemma calls_ok_cons {F} {PX : Posix F} {PF : PosixFiles F} {SK : Stack} cf c l (s s1 : site F) r :
  call_ok cf c s → local_call cf c s = Some (r, s1) → calls_ok cf l s1 → calls_ok cf (c :: l) s.
Proof. intros Hc E Hl. split; [done|]. intros r' s' E'. rewrite E in E'. by injection E' as <- <-. Qed.

(** A file whose path is longer than the field of a message. *)
Definition far_path : cstr := str "/exports/" ++ replicate 130 "d"%char ++ str "/f".
Definition far_url : cstr := str "mpi_server://host" ++ far_path.
Lemma far_url_ok : url_ok far_url far_path.
Proof.
  split.
  - split; [|zcalc]. apply (bool_decide_unpack _). vm_compute. done.
  - vm_compute. reflexivity.
  - eexists. vm_compute. reflexivity.
  - eexists _, _. split; [vm_compute; reflexivity|]. vm_compute. reflexivity.
Qed.

Definition far_conf : xs_conf := XsConf 1 1 0.
Definition far_site : site mem := Site 0 0 (Mem ∅ ∅ ∅ 3) ∅ 1 true false true [] [].
Definition far_fh : nfi_fhandle := NfiFh NFIFILE far_url 1 0.
Definition far_calls : list file_call :=
  [C_open far_url O_RDWR 0 7 9; C_open far_url (Z.lor O_RDWR O_CREAT) 420 7 9; C_write (NfiFh NFIFILE far_url 2 0) 2 (str "hello, world");
   C_read (NfiFh NFIFILE far_url 2 0) 0 20; C_close (NfiFh NFIFILE far_url 2 0); C_getattr NFIFILE far_url 2 0 attr_zero; C_rmdir far_url; C_read_mdata far_url mdata_zero].
Definition far_attr : nfi_attr := NfiAttr 1 1 NFIFILE 420 1 0 0 14 4096 1 0 0 0.
Definition far_replies : list reply :=
  [Reply (-1) (Some ENOENT) (P_fh (NfiFh 7 [] 9 0)); Reply 0 None (P_fh (NfiFh NFIFILE far_url 2 0)); Reply 12 None P_none;
   Reply 14 None (P_data ([NUL; NUL] ++ str "hello, world")); Reply 0 None P_none; Reply 0 None (P_attr far_attr); Reply (-1) (Some ENOENT) P_none;
   Reply 14 None (P_mdata mdata_zero)].
(** The site before each call, and at the end. *)
Definition far_state (e : Z) (d : option (list ascii)) (pos : option Z) (next : nat) (n : Z) : site mem :=
  Site e 0 (Mem (match d with Some d => {[name_of far_path := d]} | None => ∅ end) ∅ (match pos with Some pos => {[3 := (name_of far_path, pos)]} | None => ∅ end) next)
    (match pos with Some _ => {[2 := XsFh far_path 0 0 3]} | None => ∅ end) n true false true [] [].
Definition far_text : list ascii := [NUL; NUL] ++ str "hello, world".
Definition far_at (n : nat) : site mem :=
  nth n [far_state 0 None None 3 1; far_state 2 None None 3 2; far_state 2 (Some []) (Some 0) 4 3; far_state 2 (Some far_text) (Some 14) 4 3;
         far_state 2 (Some far_text) (Some 14) 4 3; far_state 2 (Some far_text) None 4 3; far_state 2 (Some far_text) None 4 3;
         far_state 2 (Some far_text) None 4 3; far_state 2 (Some far_text) None 5 3] far_site.
Definition far_reply (n : nat) : reply := nth n far_replies (Reply 0 None P_none).
Lemma far_step n c r l : local_call far_conf c (far_at n) = Some (r, far_at (S n)) → call_ok far_conf c (far_at n) →
  calls_ok far_conf l (far_at (S n)) → calls_ok far_conf (c :: l) (far_at n).
Proof. intros E Hc Hl. by eapply calls_ok_cons. Qed.
(** A closed equation, by computation alone. *)
Ltac by_vm := match goal with |- ?a = _ => vm_cast_no_check (eq_refl a) end.
Lemma far_calls_ok : calls_ok far_conf far_calls (far_at 0).
Proof.
  assert (file_url far_url) as Hu by (exists far_path; apply far_url_ok).
  assert (path_ok far_path) as Hp by apply far_url_ok.
  apply (far_step 0 _ (far_reply 0)); [by_vm|by split|]. apply (far_step 1 _ (far_reply 1)); [by_vm|by split|].
  apply (far_step 2 _ (far_reply 2)); [by_vm| |].
  { split_and!; [done|zcalc|zcalc|zcalc|]. exists (XsFh far_path 0 0 3), 3, (fs (far_at 2)).
    split_and!; [by_vm|done|by left| |zcalc]. exists (name_of far_path), 0, []. split; by_vm. }
  apply (far_step 3 _ (far_reply 3)); [by_vm| |].
  { split_and!; [by right|done|zcalc|zcalc|zcalc|zcalc|]. exists (XsFh far_path 0 0 3), 3, (fs (far_at 3)).
    split_and!; [by_vm|done|by left| |zcalc|zcalc]. exists (name_of far_path), 14, ([NUL; NUL] ++ str "hello, world"). split; by_vm. }
  apply (far_step 4 _ (far_reply 4)); [by_vm| |]. { split; [done|]. exists (XsFh far_path 0 0 3). split; [by_vm|done]. }
  apply (far_step 5 _ (far_reply 5)); [by_vm|done|]. apply (far_step 6 _ (far_reply 6)); [by_vm|done|].
  apply (far_step 7 _ (far_reply 7)); [by_vm|done|]. exact I.
Qed.
