(* ===== verification/RpcSpec.v ===== *)
(** * RpcSpec: what a client of the Expand server can rely on

    Data that is written through the server is what is read back; and the
    operations whose failures the client does not see, where the same
    operation on a local server reports them. *)

From S2P Require Import Prelude Cstr Paths Url Mdata Nfi Client MemFs Header FileSystem PosixFiles Server Remote Local Rpc RpcData PosixMem RpcCalls.

Lemma splice_read b o d : take (length d) (drop o (splice b o d)) = d.
Proof.
  apply list_eq. intros i. destruct (decide (i < length d)%nat) as [Hi|Hi].
  - rewrite lookup_take_lt, lookup_drop by done. unfold splice.
    assert (length (take o (b ++ replicate (o - length b) NUL)) = o) as Ht by (rewrite length_take, length_app, length_replicate; lia).
    rewrite lookup_app_r by lia. rewrite Ht. replace (o + i - o)%nat with i by lia. by apply lookup_app_l.
  - rewrite (lookup_ge_None_2 d) by lia. apply lookup_ge_None. rewrite length_take. lia.
Qed.

Section spec.
Context {F : Type} {PX : Posix F} {PF : PosixFiles F} {SK : Stack}.
Context (cf : xs_conf).


(** C33: a file or a directory that the server could not remove, rename or (it
    exists) create: the client returns success - 0, or 8 with a long path - and
    sets [errno], where a local server returns -1. *)
Theorem remote_hides_failures (s : site F) url dir new dnew mode e w :
  idle cf s → url_ok url dir → url_ok new dnew →
  (sys_unlink dir (fs s) = (inr e, w) → ∃ r s1 s2,
     nfi_xpn_server_remove cf url s = Some (r, s1) ∧ 0 <= r ∧ c_errno s1 = e ∧ nfi_local_remove url s = Some (-1, s2)) ∧
  (sys_rename dir dnew (fs s) = (inr e, w) → ∃ r s1 s2,
     nfi_xpn_server_rename cf url new s = Some (r, s1) ∧ 0 <= r ∧ c_errno s1 = e ∧ nfi_local_rename url new s = Some (-1, s2)) ∧
  (sys_mkdir dir mode (fs s) = (inr EEXIST, w) → ∃ r s1 s2,
     nfi_xpn_server_mkdir cf url mode s = Some (r, s1) ∧ 0 <= r ∧ c_errno s1 = EEXIST ∧ nfi_local_mkdir url mode s = Some (-1, s2)).
Proof.
  intros Hi Hu Hn.
  assert (∀ l, 0 <= exchange_ret l) as Hret by (intros l; unfold exchange_ret, SIZEOF_STATUS; by destruct (existsb _ l)).
  assert (∀ (f : sys F unit) e w, f (fs s) = (inr e, w) → sys0 f (fs s) = (inr e, w)) as H0 by (by intros f e' w' E; unfold sys0; rewrite E).
  split_and!; intros E%H0; eexists _, _, _.
  - split; [by apply (remote_remove cf url dir s (inr e) w)|]. split; [done|split; [done|]]. unfold nfi_local_remove.
    rewrite (local_dir_run url dir) by done. by erewrite bind_step by (apply (syscall_run Client (sys0 (sys_unlink dir)) (-1)); exact E).
  - split; [by apply (remote_rename cf url new dir dnew s (inr e) w)|]. split; [done|split; [done|]]. unfold nfi_local_rename.
    rewrite (local_dir_run url dir), (local_dir_run new dnew) by done.
    by erewrite bind_step by (apply (syscall_run Client (sys0 (sys_rename dir dnew)) (-1)); exact E).
  - split; [by apply (remote_mkdir cf url dir mode s (inr EEXIST) w)|]. split; [apply Hret|split; [done|]]. unfold nfi_local_mkdir.
    rewrite (local_dir_run url dir) by done. by erewrite bind_step by (apply (syscall_run Client (sys0 (sys_mkdir dir mode)) (-1)); exact E).
Qed.
End spec.

(** A site with a file open in both directions, and a directory. *)
Definition near_site : site mem :=
  Site 0 0 (Mem {[name_of far_path := str "0123456789"]} {[name_of far_path]} {[4 := (name_of far_path, 0)]} 5) {[1 := XsFh far_path 0 0 4]} 2 true true true [] [].
Definition near_conf : xs_conf := XsConf 1 1 1.


Lemma remote_hides_failures_witness :
  (∃ r s1 s2, nfi_xpn_server_rename near_conf (str "mpi_server://host/none") far_url near_site = Some (r, s1) ∧ 0 <= r ∧ c_errno s1 = ENOENT ∧
    nfi_local_rename (str "mpi_server://host/none") far_url near_site = Some (-1, s2)) ∧
  (∃ r s1 s2, nfi_xpn_server_mkdir near_conf far_url 493 near_site = Some (r, s1) ∧ 0 <= r ∧ c_errno s1 = EEXIST ∧ nfi_local_mkdir far_url 493 near_site = Some (-1, s2)).
Proof.
  assert (idle near_conf near_site) as Hi by (split_and!; reflexivity).
  assert (url_ok (str "mpi_server://host/none") (str "/none")) as Hu.
  { split; [split; [by apply (bool_decide_unpack _)|zcalc]|vm_compute; reflexivity|eexists; vm_compute; reflexivity|].
    eexists _, _. split; vm_compute; reflexivity. }
  split.
  - destruct (remote_hides_failures near_conf near_site (str "mpi_server://host/none") (str "/none") far_url far_path 493 ENOENT (fs near_site) Hi Hu far_url_ok) as (_ & H & _).
    apply H. by_vm.
  - destruct (remote_hides_failures near_conf near_site far_url far_path far_url far_path 493 EEXIST (fs near_site) Hi far_url_ok far_url_ok) as (_ & _ & H).
    apply H. by_vm.
Defined.
