(* ===== verification/Unistd.v ===== *)
(** * Unistd: the functions of the library

    src/src/xpn_client/xpn_unistd.c and xpn_stdio.c: the calls that programs
    make, each the call of xpn_simple under the lock of the library, and the
    streams of xpncore/xpn_stdio.c.  A stream is the descriptor it holds; it has
    no buffer.  The lock is taken and given back by the same call, so it does
    not appear in a model with one thread. *)

From S2P Require Import Prelude Cstr Paths Url Mdata Nfi Client MemFs FileTable Blocks Rw Dir Conf Init.

Section unistd.
Context {W : Type} `{NO : !NfiOps W} `{NI : !NfiInit W} `{SY : !Sys}.

(** ** xpn_unistd.c *)

Definition xpn_init := xpn_simple_init (W := W).
Definition xpn_destroy := xpn_simple_destroy (W := W).
Definition xpn_mark_error_server (index : Z) : prog W Z := xpn_simple_mark_error_server index.
Definition xpn_get_block_locality (path : option cstr) (offset : Z) : prog W (Z * list cstr) := xpn_simple_get_block_locality path offset.
Definition xpn_creat (path : option cstr) (perm : Z) : prog W Z := xpn_simple_creat path perm.
(** The argument [mode] is looked at with [O_CREAT] only; it has to be there then. *)
Definition xpn_open (path : option cstr) (flags : Z) (mode : option Z) : prog W Z :=
  mode ← (if 0 <? Z.land flags O_CREAT then lift mode else mret 0);
  xpn_simple_open path flags mode.
Definition xpn_close (fd : Z) : prog W Z := xpn_simple_close fd.
Definition xpn_read (fd : Z) (buffer : option ptr) (size : Z) : prog W Z := xpn_simple_read fd buffer size.
Definition xpn_write (fd : Z) (buffer : option ptr) (size : Z) : prog W Z := xpn_simple_write fd buffer size.
Definition xpn_lseek (fd offset flag : Z) : prog W Z := xpn_simple_lseek fd offset flag.
(** [strncpy]: what is stored, and the string of the library. *)
Definition xpn_simple_getcwd (size : Z) : prog W (list ascii * cstr) :=
  c ← get;
  let cwd := xpn_cwd_path (xpn_cwddir c) in
  mret (take (Z.to_nat size) (cwd ++ replicate (Z.to_nat size) NUL), cwd).
Definition xpn_getcwd (size : Z) : prog W (list ascii * cstr) := xpn_simple_getcwd size.
Definition xpn_chdir (path : cstr) : prog W Z :=
  c ← get;
  '(r, cwd) ← lift (xpn_simple_chdir path (xpn_cwddir c));
  modify (with_cwd cwd);; mret r.
Definition xpn_mkdir (path : option cstr) (perm : Z) : prog W Z := xpn_simple_mkdir path perm.
Definition xpn_rmdir (path : option cstr) : prog W Z := xpn_simple_rmdir path.
Definition xpn_opendir (path : option cstr) : prog W (option DIR) := xpn_simple_opendir path.
Definition xpn_readdir (dirp : option DIR) : prog W (option dirent) := xpn_simple_readdir dirp.
Definition xpn_closedir (dirp : option DIR) : prog W Z := xpn_simple_closedir dirp.
Definition xpn_unlink (path : option cstr) : prog W Z := xpn_simple_unlink path.
Definition xpn_rename (path newpath : option cstr) : prog W Z := xpn_simple_rename path newpath.
Definition xpn_stat (path : option cstr) (sb_null : bool) : prog W (Z * option xstat) := xpn_simple_stat path sb_null.
Definition xpn_fstat (fd : Z) : prog W (Z * option xstat) := xpn_simple_fstat fd.
Definition xpn_dup (fd : Z) : prog W Z := xpn_simple_dup fd.
Definition xpn_dup2 (fd fd2 : Z) : prog W Z := xpn_simple_dup2 fd fd2.

(** The calls that are still to be written. *)
Definition xpn_simple_chown (path : cstr) (owner group : Z) : prog W Z := mret 0.
Definition xpn_simple_fchown (fd owner group : Z) : prog W Z := mret 0.
Definition xpn_simple_chmod (path : cstr) (mode : Z) : prog W Z := mret 0.
Definition xpn_simple_fchmod (fd mode : Z) : prog W Z := mret 0.
Definition xpn_simple_truncate (path : cstr) (length : Z) : prog W Z := mret 0.
Definition xpn_simple_ftruncate (fd length : Z) : prog W Z := mret 0.
Definition xpn_chown (path : cstr) (owner group : Z) : prog W Z := xpn_simple_chown path owner group.
Definition xpn_fchown (fd owner group : Z) : prog W Z := xpn_simple_fchown fd owner group.
Definition xpn_chmod (path : cstr) (mode : Z) : prog W Z := xpn_simple_chmod path mode.
Definition xpn_fchmod (fd mode : Z) : prog W Z := xpn_simple_fchmod fd mode.
Definition xpn_truncate (path : cstr) (length : Z) : prog W Z := xpn_simple_truncate path length.
Definition xpn_ftruncate (fd length : Z) : prog W Z := xpn_simple_ftruncate fd length.

(** ** xpncore/xpn_stdio.c *)

Definition O_APPEND : Z := 1024.
Definition EOF : Z := -1.
Record FILE := File { _fileno : Z }.

(** [strstr(mode, s) != NULL]. *)
Fixpoint contains (s l : cstr) : bool :=
  bool_decide (take (length s) l = s) || match l with [] => false | _ :: l' => contains s l' end.
Definition fopen_flags (mode : cstr) : Z :=
  if contains (str "r+") mode then O_RDWR
  else if contains (str "r") mode then O_RDONLY
  else if contains (str "w+") mode then Z.lor O_RDWR (Z.lor O_CREAT O_TRUNC)
  else if contains (str "w") mode then Z.lor O_WRONLY (Z.lor O_CREAT O_TRUNC)
  else if contains (str "a+") mode then Z.lor O_RDWR (Z.lor O_CREAT O_APPEND)
  else if contains (str "a") mode then Z.lor O_WRONLY (Z.lor O_CREAT O_APPEND)
  else -1.
Definition xpn_simple_fopen (filename : option cstr) (mode : cstr) : prog W (option FILE) :=
  let flags := fopen_flags mode in
  if 0 <=? flags then
    fd ← xpn_simple_open filename flags 3584;
    mret (if 0 <=? (fd : Z) then Some (File fd) else None)
  else mret None.
Definition xpn_simple_fflush (stream : option FILE) : prog W Z := mret 0.
Definition xpn_simple_fclose (stream : option FILE) : prog W Z :=
  match stream with
  | Some f => xpn_simple_fflush stream;; xpn_simple_close (_fileno f)
  | None => fail EBADF EOF
  end.
(** The results are bytes, not items. *)
Definition xpn_simple_fread (p : option ptr) (size nmemb : Z) (stream : FILE) : prog W Z := xpn_simple_read (_fileno stream) p (u64 (size * nmemb)).
Definition xpn_simple_fwrite (p : option ptr) (size nmemb : Z) (stream : FILE) : prog W Z := xpn_simple_write (_fileno stream) p (u64 (size * nmemb)).
(** The character is read into a variable; the result of the read is not looked
    at, so at the end of the file it is what the variable held. *)
Definition xpn_simple_fgetc (stream : FILE) : prog W Z :=
  car ← malloc 1;
  r ← xpn_simple_read (_fileno stream) (Some car) 1;
  c ← get;
  b ← lift (mem_read (mem (cl_env c)) car 1);
  mret (match b with a :: _ => Z.of_N (N_of_ascii a) | [] => 0 end).
(** Reads [tam - 1] bytes, lines or not. *)
Definition xpn_simple_fgets (s : ptr) (tam : Z) (stream : FILE) : prog W ptr :=
  c ← get;
  m ← lift (mem_write (mem (cl_env c)) s (replicate (Z.to_nat tam) NUL));
  zoom (modify (set_mem m));;
  r ← xpn_simple_fread (Some s) 1 (tam - 1) stream;
  mret s.
Definition xpn_simple_getc (stream : FILE) : prog W Z := xpn_simple_fgetc stream.
Definition xpn_simple_fseek (stream : FILE) (offset whence : Z) : prog W Z :=
  ret ← xpn_simple_lseek (_fileno stream) offset whence;
  mret (if (ret : Z) =? -1 then -1 else 0).
Definition xpn_simple_ftell (stream : FILE) : prog W Z := d ← get_fd (_fileno stream); mret (fd_offset d).
Definition xpn_simple_rewind (stream : FILE) : prog W unit := r ← xpn_simple_lseek (_fileno stream) 0 SEEK_SET; mret tt.
Definition xpn_simple_fileno (stream : FILE) : prog W Z := mret (_fileno stream).
Definition xpn_simple_ferror (stream : FILE) : prog W Z := mret 0.

(** ** xpn_stdio.c *)

Definition xpn_fopen (name : option cstr) (mode : cstr) : prog W (option FILE) := xpn_simple_fopen name mode.
Definition xpn_fclose (fp : option FILE) : prog W Z := xpn_simple_fclose fp.
Definition xpn_fread (p : option ptr) (size nmemb : Z) (stream : FILE) : prog W Z := xpn_simple_fread p size nmemb stream.
Definition xpn_fwrite (p : option ptr) (size nmemb : Z) (stream : FILE) : prog W Z := xpn_simple_fwrite p size nmemb stream.
Definition xpn_fflush (stream : option FILE) : prog W Z := xpn_simple_fflush stream.
Definition xpn_fseek (stream : FILE) (offset whence : Z) : prog W Z := xpn_simple_fseek stream offset whence.
Definition xpn_ftell (stream : FILE) : prog W Z := xpn_simple_ftell stream.
Definition xpn_rewind (stream : FILE) : prog W unit := xpn_simple_rewind stream.
Definition xpn_fgetc (stream : FILE) : prog W Z := xpn_simple_fgetc stream.
Definition xpn_fgets (s : ptr) (tam : Z) (stream : FILE) : prog W ptr := xpn_simple_fgets s tam stream.
Definition xpn_getc (stream : FILE) : prog W Z := xpn_simple_getc stream.
Definition xpn_fileno (stream : FILE) : prog W Z := xpn_simple_fileno stream.
Definition xpn_ferror (stream : FILE) : prog W Z := xpn_simple_ferror stream.
End unistd.
