(* ===== verification/Proxies.v ===== *)
(** * Proxies: the calls of the C library

    src/src/base/syscall_proxies.c: the functions the interception library
    calls when a path or a descriptor is not of Expand.  Each looks its symbol up
    with [dlsym(RTLD_NEXT, ..)] on its first call, keeps the pointer and calls it;
    the symbols are the class [Libc], with the names [dlsym] is given. *)

From S2P Require Import Prelude Cstr Mdata Nfi Client.

(** A call on the state of the C library and of the kernel; the second
    component is the new [errno], when the call sets it.  A buffer is passed as its
    address, what a call stores in it is returned, and what it reads from it is an
    argument: [None] when the buffer is not readable. *)
Definition libcall (L A : Type) : Type := L → (A * option Z) * L.

(** A [FILE *] and a [DIR *] of the C library, a [struct statfs] and the
    number of a process are opaque. *)
Class Libc (L : Type) := {
  libc_open : cstr → Z → Z → libcall L Z;
  libc_open64 : cstr → Z → Z → libcall L Z;
  libc___open : cstr → Z → libcall L Z;
  libc_creat : cstr → Z → libcall L Z;
  libc_mkstemp : cstr → libcall L (Z * cstr);
  libc_ftruncate : Z → Z → libcall L Z;
  libc_read : Z → option ptr → Z → libcall L (Z * list ascii);
  libc_write : Z → option (list ascii) → Z → libcall L Z;
  libc_pread : Z → option ptr → Z → Z → libcall L (Z * list ascii);
  libc_pwrite : Z → option (list ascii) → Z → Z → libcall L Z;
  libc_pread64 : Z → option ptr → Z → Z → libcall L (Z * list ascii);
  libc_pwrite64 : Z → option (list ascii) → Z → Z → libcall L Z;
  libc_lseek : Z → Z → Z → libcall L Z;
  libc_lseek64 : Z → Z → Z → libcall L Z;
  libc___lxstat64 : Z → cstr → libcall L (Z * option xstat);
  libc___xstat64 : Z → cstr → libcall L (Z * option xstat);
  libc___fxstat64 : Z → Z → libcall L (Z * option xstat);
  libc___lxstat : Z → cstr → libcall L (Z * option xstat);
  libc___xstat : Z → cstr → libcall L (Z * option xstat);
  libc___fxstat : Z → Z → libcall L (Z * option xstat);
  libc_fstatat : Z → cstr → Z → libcall L (Z * option xstat);
  libc_fstatat64 : Z → cstr → Z → libcall L (Z * option xstat);
  libc_statfs : cstr → libcall L (Z * Z);
  libc_statfs64 : cstr → libcall L (Z * Z);
  libc_close : Z → libcall L Z;
  libc_rename : cstr → cstr → libcall L Z;
  libc_unlink : cstr → libcall L Z;
  libc_remove : cstr → libcall L Z;
  libc_fopen : cstr → cstr → libcall L (option Z);
  libc_fdopen : Z → cstr → libcall L (option Z);
  libc_fclose : Z → libcall L Z;
  libc_fread : option ptr → Z → Z → Z → libcall L (Z * list ascii);
  libc_fwrite : option (list ascii) → Z → Z → Z → libcall L Z;
  libc_fseek : Z → Z → Z → libcall L Z;
  libc_ftell : Z → libcall L Z;
  libc_rewind : Z → libcall L unit;
  libc_feof : Z → libcall L Z;
  libc_opendir : cstr → libcall L (option Z);
  libc_opendir64 : cstr → libcall L (option Z);
  libc_telldir : option Z → libcall L Z;
  libc_seekdir : option Z → Z → libcall L unit;
  libc_mkdir : cstr → Z → libcall L Z;
  libc_readdir : option Z → libcall L (option dirent);
  libc_readdir64 : option Z → libcall L (option dirent);
  libc_closedir : option Z → libcall L Z;
  libc_rmdir : cstr → libcall L Z;
  libc_fork : libcall L Z;
  libc_pipe : libcall L (Z * (Z * Z));
  libc_dup : Z → libcall L Z;
  libc_dup2 : Z → Z → libcall L Z;
  libc_exit : Z → libcall L unit;
  libc_chdir : cstr → libcall L Z;
  libc_chmod : cstr → Z → libcall L Z;
  libc_fchmod : Z → Z → libcall L Z;
  libc_chown : cstr → Z → Z → libcall L Z;
  libc_fcntl : Z → Z → Z → libcall L Z;
  libc_access : cstr → Z → libcall L Z;
  libc_realpath : cstr → bool → libcall L (option cstr);
  libc_fsync : Z → libcall L Z;
  libc_mmap : option ptr → Z → Z → Z → Z → Z → libcall L (option ptr);
  (* called by their own names *)
  libc_fileno : Z → L → Z;
  libc_set_fileno : Z → Z → L → L;
  libc_time : libcall L Z;
  libc_srand : Z → libcall L unit;
  libc_rand : libcall L Z;
  libc_PMPI_Init : libcall L Z;
  libc_PMPI_Init_thread : Z → libcall L (Z * Z);
  libc_PMPI_Finalize : libcall L Z }.

(** The result of a call, converted on its way. *)
Definition sys_map {L A B} (f : A → B) (m : libcall L A) : libcall L B := λ l, let '((a, e), l') := m l in ((f a, e), l').

Section proxies.
Context {L : Type} `{LC : !Libc L}.

Definition dlsym_open (path : cstr) (flags : Z) : libcall L Z := libc_open path flags 0.
Definition dlsym_open2 (path : cstr) (flags mode : Z) : libcall L Z := libc_open path flags mode.
Definition dlsym_open64 (path : cstr) (flags mode : Z) : libcall L Z := libc_open64 path flags mode.
Definition dlsym___open_2 (path : cstr) (flags : Z) : libcall L Z := libc___open path flags.
Definition dlsym_creat (path : cstr) (mode : Z) : libcall L Z := libc_creat path mode.
Definition dlsym_mkstemp (template : cstr) : libcall L (Z * cstr) := libc_mkstemp template.
Definition dlsym_ftruncate (fd length : Z) : libcall L Z := libc_ftruncate fd length.
Definition dlsym_read (fd : Z) (buf : option ptr) (nbyte : Z) : libcall L (Z * list ascii) := libc_read fd buf nbyte.
Definition dlsym_write (fd : Z) (buf : option (list ascii)) (nbyte : Z) : libcall L Z := libc_write fd buf nbyte.
Definition dlsym_pread (fd : Z) (buf : option ptr) (count offset : Z) : libcall L (Z * list ascii) := libc_pread fd buf count offset.
Definition dlsym_pwrite (fd : Z) (buf : option (list ascii)) (count offset : Z) : libcall L Z := libc_pwrite fd buf count offset.
Definition dlsym_pread64 (fd : Z) (buf : option ptr) (count offset : Z) : libcall L (Z * list ascii) := libc_pread64 fd buf count offset.
Definition dlsym_pwrite64 (fd : Z) (buf : option (list ascii)) (count offset : Z) : libcall L Z := libc_pwrite64 fd buf count offset.
Definition dlsym_lseek (fd offset whence : Z) : libcall L Z := libc_lseek fd offset whence.
Definition dlsym_lseek64 (fd offset whence : Z) : libcall L Z := libc_lseek64 fd offset whence.
Definition dlsym_lxstat64 (ver : Z) (path : cstr) : libcall L (Z * option xstat) := libc___lxstat64 ver path.
Definition dlsym_xstat64 (ver : Z) (path : cstr) : libcall L (Z * option xstat) := libc___xstat64 ver path.
Definition dlsym_fxstat64 (ver fd : Z) : libcall L (Z * option xstat) := libc___fxstat64 ver fd.
Definition dlsym_lstat (ver : Z) (path : cstr) : libcall L (Z * option xstat) := libc___lxstat ver path.
Definition dlsym_stat (ver : Z) (path : cstr) : libcall L (Z * option xstat) := libc___xstat ver path.
Definition dlsym_fstat (ver fd : Z) : libcall L (Z * option xstat) := libc___fxstat ver fd.
Definition dlsym_fstatat (dfd : Z) (path : cstr) (flags : Z) : libcall L (Z * option xstat) := libc_fstatat dfd path flags.
Definition dlsym_fstatat64 (dfd : Z) (path : cstr) (flags : Z) : libcall L (Z * option xstat) := libc_fstatat64 dfd path flags.
Definition dlsym_statfs (path : cstr) : libcall L (Z * Z) := libc_statfs path.
Definition dlsym_statfs64 (path : cstr) : libcall L (Z * Z) := libc_statfs64 path.
Definition dlsym_close (fd : Z) : libcall L Z := libc_close fd.
Definition dlsym_rename (old_path new_path : cstr) : libcall L Z := libc_rename old_path new_path.
Definition dlsym_unlink (path : cstr) : libcall L Z := libc_unlink path.
Definition dlsym_remove (path : cstr) : libcall L Z := libc_remove path.
Definition dlsym_fopen (filename mode : cstr) : libcall L (option Z) := libc_fopen filename mode.
Definition dlsym_fdopen (fd : Z) (mode : cstr) : libcall L (option Z) := libc_fdopen fd mode.
Definition dlsym_fclose (stream : Z) : libcall L Z := libc_fclose stream.
Definition dlsym_fread (p : option ptr) (size nmemb stream : Z) : libcall L (Z * list ascii) := libc_fread p size nmemb stream.
Definition dlsym_fwrite (d : option (list ascii)) (size nmemb stream : Z) : libcall L Z := libc_fwrite d size nmemb stream.
Definition dlsym_fseek (stream offset whence : Z) : libcall L Z := libc_fseek stream offset whence.
(** The [long] goes through an [int]. *)
Definition dlsym_ftell (stream : Z) : libcall L Z := sys_map i32 (libc_ftell stream).
Definition dlsym_rewind (stream : Z) : libcall L unit := libc_rewind stream.
Definition dlsym_feof (stream : Z) : libcall L Z := libc_feof stream.
Definition dlsym_opendir (dirname : cstr) : libcall L (option Z) := libc_opendir dirname.
Definition dlsym_opendir64 (dirname : cstr) : libcall L (option Z) := libc_opendir64 dirname.
Definition dlsym_telldir (dirp : option Z) : libcall L Z := libc_telldir dirp.
Definition dlsym_seekdir (dirp : option Z) (loc : Z) : libcall L unit := libc_seekdir dirp loc.
Definition dlsym_mkdir (path : cstr) (mode : Z) : libcall L Z := libc_mkdir path mode.
Definition dlsym_readdir (dirp : option Z) : libcall L (option dirent) := libc_readdir dirp.
Definition dlsym_readdir64 (dirp : option Z) : libcall L (option dirent) := libc_readdir64 dirp.
Definition dlsym_closedir (dirp : option Z) : libcall L Z := libc_closedir dirp.
Definition dlsym_rmdir (path : cstr) : libcall L Z := libc_rmdir path.
Definition dlsym_fork : libcall L Z := libc_fork.
Definition dlsym_pipe : libcall L (Z * (Z * Z)) := libc_pipe.
Definition dlsym_dup (fd : Z) : libcall L Z := libc_dup fd.
Definition dlsym_dup2 (fd fd2 : Z) : libcall L Z := libc_dup2 fd fd2.
Definition dlsym_exit (status : Z) : libcall L unit := libc_exit status.
Definition dlsym_chdir (path : cstr) : libcall L Z := libc_chdir path.
Definition dlsym_chmod (path : cstr) (mode : Z) : libcall L Z := libc_chmod path mode.
Definition dlsym_fchmod (fd mode : Z) : libcall L Z := libc_fchmod fd mode.
Definition dlsym_chown (path : cstr) (owner group : Z) : libcall L Z := libc_chown path owner group.
Definition dlsym_fcntl (fd cmd arg : Z) : libcall L Z := libc_fcntl fd cmd arg.
Definition dlsym_access (path : cstr) (mode : Z) : libcall L Z := libc_access path mode.
Definition dlsym_realpath (path : cstr) (resolved : bool) : libcall L (option cstr) := libc_realpath path resolved.
Definition dlsym_fsync (fd : Z) : libcall L Z := libc_fsync fd.
(** The symbol looked up is ["fsync"], whose second argument is ignored. *)
Definition dlsym_flock (fd operation : Z) : libcall L Z := libc_fsync fd.
Definition dlsym_mmap (addr : option ptr) (length prot flags fd offset : Z) : libcall L (option ptr) := libc_mmap addr length prot flags fd offset.
End proxies.

(** ** A concrete process

    A C library every call of which fails, with ENOSYS. *)
#[export] Instance no_libc : Libc unit := {
  libc_open := λ _ _ _ _, ((-1, Some 38), tt);
  libc_open64 := λ _ _ _ _, ((-1, Some 38), tt);
  libc___open := λ _ _ _, ((-1, Some 38), tt);
  libc_creat := λ _ _ _, ((-1, Some 38), tt);
  libc_mkstemp := λ _ _, (((-1, []), Some 38), tt);
  libc_ftruncate := λ _ _ _, ((-1, Some 38), tt);
  libc_read := λ _ _ _ _, (((-1, []), Some 38), tt);
  libc_write := λ _ _ _ _, ((-1, Some 38), tt);
  libc_pread := λ _ _ _ _ _, (((-1, []), Some 38), tt);
  libc_pwrite := λ _ _ _ _ _, ((-1, Some 38), tt);
  libc_pread64 := λ _ _ _ _ _, (((-1, []), Some 38), tt);
  libc_pwrite64 := λ _ _ _ _ _, ((-1, Some 38), tt);
  libc_lseek := λ _ _ _ _, ((-1, Some 38), tt);
  libc_lseek64 := λ _ _ _ _, ((-1, Some 38), tt);
  libc___lxstat64 := λ _ _ _, (((-1, None), Some 38), tt);
  libc___xstat64 := λ _ _ _, (((-1, None), Some 38), tt);
  libc___fxstat64 := λ _ _ _, (((-1, None), Some 38), tt);
  libc___lxstat := λ _ _ _, (((-1, None), Some 38), tt);
  libc___xstat := λ _ _ _, (((-1, None), Some 38), tt);
  libc___fxstat := λ _ _ _, (((-1, None), Some 38), tt);
  libc_fstatat := λ _ _ _ _, (((-1, None), Some 38), tt);
  libc_fstatat64 := λ _ _ _ _, (((-1, None), Some 38), tt);
  libc_statfs := λ _ _, (((-1, 0), Some 38), tt);
  libc_statfs64 := λ _ _, (((-1, 0), Some 38), tt);
  libc_close := λ _ _, ((-1, Some 38), tt);
  libc_rename := λ _ _ _, ((-1, Some 38), tt);
  libc_unlink := λ _ _, ((-1, Some 38), tt);
  libc_remove := λ _ _, ((-1, Some 38), tt);
  libc_fopen := λ _ _ _, ((None, Some 38), tt);
  libc_fdopen := λ _ _ _, ((None, Some 38), tt);
  libc_fclose := λ _ _, ((-1, Some 38), tt);
  libc_fread := λ _ _ _ _ _, (((-1, []), Some 38), tt);
  libc_fwrite := λ _ _ _ _ _, ((-1, Some 38), tt);
  libc_fseek := λ _ _ _ _, ((-1, Some 38), tt);
  libc_ftell := λ _ _, ((-1, Some 38), tt);
  libc_rewind := λ _ _, ((tt, Some 38), tt);
  libc_feof := λ _ _, ((-1, Some 38), tt);
  libc_opendir := λ _ _, ((None, Some 38), tt);
  libc_opendir64 := λ _ _, ((None, Some 38), tt);
  libc_telldir := λ _ _, ((-1, Some 38), tt);
  libc_seekdir := λ _ _ _, ((tt, Some 38), tt);
  libc_mkdir := λ _ _ _, ((-1, Some 38), tt);
  libc_readdir := λ _ _, ((None, Some 38), tt);
  libc_readdir64 := λ _ _, ((None, Some 38), tt);
  libc_closedir := λ _ _, ((-1, Some 38), tt);
  libc_rmdir := λ _ _, ((-1, Some 38), tt);
  libc_fork := λ _, ((-1, Some 38), tt);
  libc_pipe := λ _, (((-1, (0, 0)), Some 38), tt);
  libc_dup := λ _ _, ((-1, Some 38), tt);
  libc_dup2 := λ _ _ _, ((-1, Some 38), tt);
  libc_exit := λ _ _, ((tt, Some 38), tt);
  libc_chdir := λ _ _, ((-1, Some 38), tt);
  libc_chmod := λ _ _ _, ((-1, Some 38), tt);
  libc_fchmod := λ _ _ _, ((-1, Some 38), tt);
  libc_chown := λ _ _ _ _, ((-1, Some 38), tt);
  libc_fcntl := λ _ _ _ _, ((-1, Some 38), tt);
  libc_access := λ _ _ _, ((-1, Some 38), tt);
  libc_realpath := λ _ _ _, ((None, Some 38), tt);
  libc_fsync := λ _ _, ((-1, Some 38), tt);
  libc_mmap := λ _ _ _ _ _ _ _, ((None, Some 38), tt);
  libc_fileno := λ f _, f;
  libc_set_fileno := λ _ _ l, l;
  libc_time := λ _, ((-1, Some 38), tt);
  libc_srand := λ _ _, ((tt, Some 38), tt);
  libc_rand := λ _, ((-1, Some 38), tt);
  libc_PMPI_Init := λ _, ((-1, Some 38), tt);
  libc_PMPI_Init_thread := λ _ _, (((-1, 0), Some 38), tt);
  libc_PMPI_Finalize := λ _, ((-1, Some 38), tt) }.
