(* ===== verification/Bypass.v ===== *)
(** * Bypass: the interception of the calls of a program

    src/src/bypass/xpn_bypass.c, the library that is loaded before the C library:
    each call of a program on a path below the mount point, or on a descriptor of
    its table, is a call of the Expand library, and any other one is passed to the
    C library ([Proxies.v]).  The build is the one with HAVE_64BITS and HAVE_MPI_H.

    The calls that libraries make inside a call (the C library's own, the ones of
    the Expand client) are not intercepted again here: they are part of the
    states [L] and [W].  [malloc] succeeds. *)

From S2P Require Import Prelude Cstr Paths Url Mdata Nfi Client MemFs FileTable Blocks Rw Dir Conf Init Unistd Proxies.

(** ** The global variables *)

Definition MAX_FDS : Z := 10000.
Definition MAX_DIRS : Z := 10000.
Definition PLUSXPN : Z := 1000.
Definition FD_FREE : Z := 0.
Definition FD_SYS : Z := 1.
Definition FD_XPN : Z := 2.
Definition _STAT_VER : Z := 0.
Record generic_fd := GFd { gfd_type : Z; real_fd : Z }.
Definition gfd_free : generic_fd := GFd FD_FREE (-1).

(** A [DIR *] that is not NULL: of the Expand library, as the number of its
    object, or of the C library. *)
Inductive dir_ptr := D_xpn (n : nat) | D_libc (d : Z).
#[export] Instance dir_ptr_eq_dec : EqDecision dir_ptr.
Proof. solve_decision. Defined.

(** The table of descriptors, [None] when it is NULL; [fdstable_size] is its length. *)
Record fd_table := FdTable { fdstable : option (list generic_fd); fdstable_first_free : Z }.
(** The table of directories and the objects [xpn_opendir] allocated. *)
Record dir_table := DirTable {
  fdsdirtable : option (list (option dir_ptr)); fdsdirtable_first_free : Z;
  dir_heap : gmap nat DIR; dir_next : nat }.
(** The other variables, the environment and the number of handlers given to [atexit]. *)
Record globals := Globals {
  xpn_adaptor_initCalled : Z; xpn_adaptor_initCalled_getenv : bool;
  xpn_adaptor_partition_prefix : cstr; xpn_prefix_change_verified : bool;
  xpn_initialized : bool; environ : list (cstr * cstr); at_exit : nat }.
Record bypass (L W : Type) := Bypass {
  b_client : client W; b_libc : L; b_conf : option conf_file_data;
  b_glob : globals; b_fds : fd_table; b_dirs : dir_table }.
Arguments Bypass {L W}. Arguments b_client {L W}. Arguments b_libc {L W}. Arguments b_conf {L W}.
Arguments b_glob {L W}. Arguments b_fds {L W}. Arguments b_dirs {L W}.

Definition set_initCalled (i : Z) (g : globals) : globals :=
  Globals i (xpn_adaptor_initCalled_getenv g) (xpn_adaptor_partition_prefix g) (xpn_prefix_change_verified g) (xpn_initialized g) (environ g) (at_exit g).
Definition set_getenv (g : globals) : globals :=
  Globals (xpn_adaptor_initCalled g) true (xpn_adaptor_partition_prefix g) (xpn_prefix_change_verified g) (xpn_initialized g) (environ g) (at_exit g).
Definition set_prefix (p : cstr) (g : globals) : globals :=
  Globals (xpn_adaptor_initCalled g) (xpn_adaptor_initCalled_getenv g) p true (xpn_initialized g) (environ g) (at_exit g).
Definition set_initialized (i : bool) (g : globals) : globals :=
  Globals (xpn_adaptor_initCalled g) (xpn_adaptor_initCalled_getenv g) (xpn_adaptor_partition_prefix g) (xpn_prefix_change_verified g) i (environ g) (at_exit g).
Definition set_environ (e : list (cstr * cstr)) (g : globals) : globals :=
  Globals (xpn_adaptor_initCalled g) (xpn_adaptor_initCalled_getenv g) (xpn_adaptor_partition_prefix g) (xpn_prefix_change_verified g) (xpn_initialized g) e (at_exit g).
Definition add_at_exit (g : globals) : globals :=
  Globals (xpn_adaptor_initCalled g) (xpn_adaptor_initCalled_getenv g) (xpn_adaptor_partition_prefix g) (xpn_prefix_change_verified g) (xpn_initialized g) (environ g) (S (at_exit g)).

Fixpoint getenv (e : list (cstr * cstr)) (name : cstr) : option cstr :=
  match e with [] => None | (n, v) :: e' => if decide (n = name) then Some v else getenv e' name end.
Fixpoint setenv (e : list (cstr * cstr)) (name v : cstr) : list (cstr * cstr) :=
  match e with [] => [(name, v)] | (n, w) :: e' => if decide (n = name) then (n, v) :: e' else (n, w) :: setenv e' name v end.

Definition F_OK : Z := 0.
Definition X_OK : Z := 1.
Definition S_IXALL : Z := 73.
Definition S_IFMT : Z := 61440.

Section bypass.
Context {L W : Type} `{NO : !NfiOps W} `{NI : !NfiInit W} `{SY : !Sys} `{LC : !Libc L}.
Abbreviation B A := (M (bypass L W) A) (only parsing).

Definition with_client (c : client W) (b : bypass L W) : bypass L W := Bypass c (b_libc b) (b_conf b) (b_glob b) (b_fds b) (b_dirs b).
Definition with_libc (l : L) (b : bypass L W) : bypass L W := Bypass (b_client b) l (b_conf b) (b_glob b) (b_fds b) (b_dirs b).
Definition with_glob (g : globals) (b : bypass L W) : bypass L W := Bypass (b_client b) (b_libc b) (b_conf b) g (b_fds b) (b_dirs b).
Definition with_fds (t : fd_table) (b : bypass L W) : bypass L W := Bypass (b_client b) (b_libc b) (b_conf b) (b_glob b) t (b_dirs b).
Definition with_dirt (d : dir_table) (b : bypass L W) : bypass L W := Bypass (b_client b) (b_libc b) (b_conf b) (b_glob b) (b_fds b) d.
Definition glob (f : globals → globals) : B unit := modify (λ b, with_glob (f (b_glob b)) b).

(** A call of the Expand library, and one of the C library. *)
Definition xpn {A} (m : prog W A) : B A := λ b,
  match m (b_client b) with Some (a, c) => Some (a, with_client c b) | None => None end.
Definition libc {A} (m : libcall L A) : B A := λ b,
  let '((a, e), l) := m (b_libc b) in
  let c := match e with Some e => with_env (set_errno e (cl_env (b_client b))) (b_client b) | None => b_client b end in
  Some (a, with_libc l (with_client c b)).
(** What the C library stores in the buffer of a program, and what it reads from one. *)
Definition store (buf : option ptr) (d : list ascii) : B unit :=
  match d with
  | [] => mret tt
  | _ =>
    p ← lift buf;
    xpn (c ← get; m ← lift (mem_write (mem (cl_env c)) p d); zoom (modify (set_mem m)))
  end.
Definition readable (buf : option ptr) (n : Z) : B (option (list ascii)) :=
  gets (λ b, p ← buf; mem_read (mem (cl_env (b_client b))) p n).

(** ** The prefix *)

Definition is_xpn_prefix (path : cstr) : B bool :=
  b ← get;
  let g := b_glob b in
  let p := if xpn_prefix_change_verified g then xpn_adaptor_partition_prefix g
           else default (xpn_adaptor_partition_prefix g) (getenv (environ g) (str "XPN_MOUNT_POINT")) in
  glob (set_prefix p);;
  mret ((strlen p <? strlen path) && bool_decide (take (length p) path = p)).
Definition skip_xpn_prefix (path : cstr) : B cstr :=
  gets (λ b, drop (length (xpn_adaptor_partition_prefix (b_glob b))) path).

(** ** The two tables *)

Definition fdstable_realloc : B unit :=
  modify (λ b,
    let t := b_fds b in
    with_fds (FdTable (Some (match fdstable t with
                             | None => replicate (Z.to_nat MAX_FDS) gfd_free
                             | Some l => l ++ replicate (length l) gfd_free
                             end)) (fdstable_first_free t)) b).
Definition fdstable_init : B unit := fdstable_realloc.
(** Past its end the table is read out of its bounds. *)
Definition fdstable_get (fd : Z) : B generic_fd :=
  b ← get;
  match fdstable (b_fds b) with
  | Some l => if PLUSXPN <=? fd then lift (rdZ l (fd - PLUSXPN)) else mret (GFd FD_SYS fd)
  | None => mret (GFd FD_SYS fd)
  end.

Definition fdsdirtable_realloc : B unit :=
  modify (λ b,
    let t := b_dirs b in
    with_dirt (DirTable (Some (match fdsdirtable t with
                               | None => replicate (Z.to_nat MAX_DIRS) None
                               | Some l => l ++ replicate (length l) None
                               end)) (fdsdirtable_first_free t) (dir_heap t) (dir_next t)) b).
Definition fdsdirtable_init : B unit := fdsdirtable_realloc.

(** ** The initialisation of Expand, once per process *)

Definition run_init : B Z :=
  b ← get;
  '(ret, i) ← xpn (xpn_init (xpn_initialized (b_glob b)) (b_conf b));
  glob (set_initialized i);;
  mret ret.
Definition run_destroy : B Z :=
  b ← get;
  '(ret, i) ← xpn (xpn_destroy (xpn_initialized (b_glob b)));
  glob (set_initialized i);;
  mret ret.
Definition putenv (name v : cstr) : B unit := glob (λ g, set_environ (setenv (environ g) name v) g).

Definition xpn_adaptor_keepInit : B Z :=
  b ← get;
  let g := b_glob b in
  when (negb (xpn_adaptor_initCalled_getenv g))
    (glob (set_initCalled (match getenv (environ g) (str "INITCALLED") with Some v => atoi v | None => 0 end));;
     glob set_getenv);;
  b ← get;
  if xpn_adaptor_initCalled (b_glob b) =? 0 then
    glob (set_initCalled 1);;
    putenv (str "INITCALLED") (str "1");;
    fdstable_init;;
    fdsdirtable_init;;
    ret ← run_init;
    glob add_at_exit;;
    (if (ret : Z) <? 0 then glob (set_initCalled 0);; putenv (str "INITCALLED") (str "0")
     else glob (set_initCalled 1);; putenv (str "INITCALLED") (str "1"));;
    mret ret
  else mret 0.

(** The two shapes of a call: on a path, and on a descriptor. *)
Definition on_path {A} (path : cstr) (f : cstr → B A) (sys_call : B A) : B A :=
  x ← is_xpn_prefix path;
  if (x : bool) then xpn_adaptor_keepInit;; p ← skip_xpn_prefix path; f p else sys_call.
Definition on_fd {A} (fd : Z) (f : Z → B A) (sys_call : B A) : B A :=
  v ← fdstable_get fd;
  if gfd_type v =? FD_XPN then xpn_adaptor_keepInit;; f (real_fd v) else sys_call.

(** ** dup, and the descriptors of a program *)

Definition dup (fd : Z) : B Z := on_fd fd (λ r, xpn (xpn_dup r)) (libc (dlsym_dup fd)).
Definition dup2 (fd fd2 : Z) : B Z :=
  v ← fdstable_get fd;
  v2 ← fdstable_get fd2;
  if gfd_type v =? FD_XPN then xpn_adaptor_keepInit;; xpn (xpn_dup2 (real_fd v) (real_fd v2))
  else libc (dlsym_dup2 fd fd2).

(** The first free slot from [i] on. *)
Fixpoint free_from (l : list generic_fd) (i : Z) : option Z :=
  match l with
  | [] => None
  | g :: l' => if gfd_type g =? FD_FREE then Some i else free_from l' (i + 1)
  end.
Definition set_slot (i : Z) (g : generic_fd) : B unit :=
  b ← get;
  l ← lift (fdstable (b_fds b));
  l' ← lift (wrZ l i g);
  modify (with_fds (FdTable (Some l') (fdstable_first_free (b_fds b)))).
Definition set_first_free (i : Z) : B unit :=
  modify (λ b, with_fds (FdTable (fdstable (b_fds b)) i) b).
Definition fdstable_put (fd : generic_fd) : B Z :=
  b ← get;
  let l := default [] (fdstable (b_fds b)) in
  let first := fdstable_first_free (b_fds b) in
  match free_from (drop (Z.to_nat first) l) first with
  | Some i =>
    set_slot i fd;;
    set_first_free (i + 1);;
    dup2 (real_fd fd) (i + PLUSXPN);;
    mret (i + PLUSXPN)
  | None =>
    let old_size := Z.of_nat (length l) in
    fdstable_realloc;;
    b ← get;
    g ← lift (l' ← fdstable (b_fds b); rdZ l' old_size);
    if gfd_type g =? FD_FREE then
      set_slot old_size fd;;
      dup2 (real_fd fd) (old_size + PLUSXPN);;
      mret (old_size + PLUSXPN)
    else mret (-1)
  end.
Definition add_xpn_file_to_fdstable (fd : Z) : B Z :=
  if fd <? 0 then mret fd else fdstable_put (GFd FD_XPN fd).

(** [close_] is the intercepted [close], which [fdstable_remove] calls on the
    descriptor it has just freed. *)
Definition fdstable_remove (close_ : Z → B Z) (fd : Z) : B Z :=
  if fd <? PLUSXPN then mret 0
  else
    let i := fd - PLUSXPN in
    set_slot i gfd_free;;
    b ← get;
    when (i <? fdstable_first_free (b_fds b)) (set_first_free i);;
    close_ (i + PLUSXPN);;
    mret 0.
Fixpoint close_n (n : nat) (fd : Z) : B Z :=
  match n with
  | O => fault
  | S n' =>
    on_fd fd (λ r, ret ← xpn (xpn_close r); fdstable_remove (close_n n') fd;; mret ret)
      (libc (dlsym_close fd))
  end.
(** The call inside [fdstable_remove] goes to the C library: the depth is two. *)
Definition close : Z → B Z := close_n 2.
Definition fdstable_remove_ : Z → B Z := fdstable_remove (close_n 1).

(** ** Files *)

Definition open_xpn (flags mode : Z) (path : cstr) : B Z :=
  fd ← xpn (xpn_open (Some path) flags (if negb (mode =? 0) then Some mode else None));
  add_xpn_file_to_fdstable fd.
(** [mode] is read whether or not the program gave it. *)
Definition open (path : cstr) (flags mode : Z) : B Z := on_path path (open_xpn flags mode) (libc (dlsym_open2 path flags mode)).
Definition open64 (path : cstr) (flags mode : Z) : B Z := on_path path (open_xpn flags mode) (libc (dlsym_open64 path flags mode)).
Definition __open_2 (path : cstr) (flags mode : Z) : B Z := on_path path (open_xpn flags mode) (libc (dlsym___open_2 path flags)).
Definition creat (path : cstr) (mode : Z) : B Z :=
  on_path path (λ p, fd ← xpn (xpn_creat (Some p) mode); add_xpn_file_to_fdstable fd) (libc (dlsym_creat path mode)).

(** [strstr(template, "XXXXXX")], as an index. *)
Fixpoint find_sub (s t : cstr) : option nat :=
  if bool_decide (take (length t) s = t) then Some O
  else match s with [] => None | _ :: s' => S <$> find_sub s' t end.
(** [sprintf("%06d", n)] of a number below 100000. *)
Definition six_digits (n : Z) : cstr := replicate (6 - length (dec n)) "0"%char ++ dec n.
(** The result and the template as it is left: the terminator cuts what
    followed the X's.  Expand is not initialised here. *)
Definition mkstemp (template : cstr) : B (Z * cstr) :=
  x ← is_xpn_prefix template;
  if (x : bool) then
    t ← libc libc_time;
    libc (libc_srand t);;
    r ← libc libc_rand;
    i ← lift (find_sub template (str "XXXXXX"));
    let template' := take i template ++ six_digits (r `rem` 100000) in
    p ← skip_xpn_prefix template';
    fd ← xpn (xpn_creat (Some p) 384);
    ret ← add_xpn_file_to_fdstable fd;
    mret (ret, template')
  else libc (dlsym_mkstemp template).

Definition ftruncate (fd length : Z) : B Z := on_fd fd (λ r, xpn (xpn_ftruncate r length)) (libc (dlsym_ftruncate fd length)).

Definition sys_in (buf : option ptr) (m : libcall L (Z * list ascii)) : B Z := '(ret, d) ← libc m; store buf d;; mret ret.
Definition sys_out (buf : option ptr) (n : Z) (m : option (list ascii) → libcall L Z) : B Z := d ← readable buf n; libc (m d).
Definition read (fd : Z) (buf : option ptr) (nbyte : Z) : B Z :=
  on_fd fd (λ r, xpn (xpn_read r buf nbyte)) (sys_in buf (dlsym_read fd buf nbyte)).
Definition write (fd : Z) (buf : option ptr) (nbyte : Z) : B Z :=
  on_fd fd (λ r, xpn (xpn_write r buf nbyte)) (sys_out buf nbyte (λ d, dlsym_write fd d nbyte)).

(** Seeks, transfers and seeks back by what was transferred. *)
Definition at_offset (op : prog W Z) (r offset : Z) : prog W Z :=
  ret ← xpn_lseek r offset SEEK_SET;
  ret ← (if negb ((ret : Z) =? -1) then op else mret ret);
  when (negb ((ret : Z) =? -1)) (xpn_lseek r (- ret) SEEK_CUR;; mret tt);;
  mret ret.
Definition pread (fd : Z) (buf : option ptr) (count offset : Z) : B Z :=
  on_fd fd (λ r, xpn (at_offset (xpn_read r buf count) r offset)) (sys_in buf (dlsym_pread fd buf count offset)).
Definition pwrite (fd : Z) (buf : option ptr) (count offset : Z) : B Z :=
  on_fd fd (λ r, xpn (at_offset (xpn_write r buf count) r offset)) (sys_out buf count (λ d, dlsym_pwrite fd d count offset)).
Definition pread64 (fd : Z) (buf : option ptr) (count offset : Z) : B Z :=
  on_fd fd (λ r, xpn (at_offset (xpn_read r buf count) r offset)) (sys_in buf (dlsym_pread64 fd buf count offset)).
Definition pwrite64 (fd : Z) (buf : option ptr) (count offset : Z) : B Z :=
  on_fd fd (λ r, xpn (at_offset (xpn_write r buf count) r offset)) (sys_out buf count (λ d, dlsym_pwrite64 fd d count offset)).
Definition lseek (fd offset whence : Z) : B Z := on_fd fd (λ r, xpn (xpn_lseek r offset whence)) (libc (dlsym_lseek fd offset whence)).
Definition lseek64 (fd offset whence : Z) : B Z := on_fd fd (λ r, xpn (xpn_lseek r offset whence)) (libc (dlsym_lseek64 fd offset whence)).

(** *** Attributes: the result and what is stored in the buffer

    The fields of the two structs have the same widths in a 64-bit build. *)
Definition stat_to_stat64 (st : xstat) : xstat :=
  XStat (x_dev st) (x_ino st) (x_mode st) (x_nlink st) (x_uid st) (x_gid st) (x_size st) (x_blocks st) (x_atime st) (x_mtime st) (x_ctime st).
Definition stat64_to_stat (st : xstat) : xstat :=
  XStat (x_dev st) (x_ino st) (x_mode st) (x_nlink st) (x_uid st) (x_gid st) (x_size st) (x_blocks st) (x_atime st) (x_mtime st) (x_ctime st).
Definition widened (m : prog W (Z * option xstat)) : B (Z * option xstat) :=
  '(ret, st) ← xpn m;
  mret (ret, if 0 <=? (ret : Z) then stat_to_stat64 <$> st else None).
Definition stat (path : cstr) : B (Z * option xstat) := on_path path (λ p, xpn (xpn_stat (Some p) false)) (libc (dlsym_stat _STAT_VER path)).
(** A [struct stat] is stored in the [struct statfs] of the program. *)
Definition statfs64 (path : cstr) : B (Z * (option xstat + Z)) :=
  on_path path (λ p, '(r, st) ← xpn (xpn_stat (Some p) false); mret (r, inl st)) ('(r, i) ← libc (dlsym_statfs64 path); mret (r, inr i)).
Definition statfs (path : cstr) : B (Z * (option xstat + Z)) :=
  on_path path (λ p, '(r, st) ← xpn (xpn_stat (Some p) false); mret (r, inl st)) ('(r, i) ← libc (dlsym_statfs path); mret (r, inr i)).
Definition __lxstat64 (ver : Z) (path : cstr) : B (Z * option xstat) := on_path path (λ p, widened (xpn_stat (Some p) false)) (libc (dlsym_lxstat64 ver path)).
Definition __xstat64 (ver : Z) (path : cstr) : B (Z * option xstat) := on_path path (λ p, widened (xpn_stat (Some p) false)) (libc (dlsym_xstat64 ver path)).
Definition __fxstat64 (ver fd : Z) : B (Z * option xstat) := on_fd fd (λ r, widened (xpn_fstat r)) (libc (dlsym_fxstat64 ver fd)).
Definition __lxstat (ver : Z) (path : cstr) : B (Z * option xstat) := on_path path (λ p, xpn (xpn_stat (Some p) false)) (libc (dlsym_lstat ver path)).
Definition __xstat (ver : Z) (path : cstr) : B (Z * option xstat) := on_path path (λ p, xpn (xpn_stat (Some p) false)) (libc (dlsym_stat ver path)).
Definition fstat (fd : Z) : B (Z * option xstat) := on_fd fd (λ r, xpn (xpn_fstat r)) (libc (dlsym_fstat _STAT_VER fd)).
Definition __fxstat (ver fd : Z) : B (Z * option xstat) := on_fd fd (λ r, xpn (xpn_fstat r)) (libc (dlsym_fstat ver fd)).

Definition rename (old_path new_path : cstr) : B Z :=
  x ← is_xpn_prefix old_path;
  y ← (if (x : bool) then is_xpn_prefix new_path else mret false);
  if (y : bool) then
    xpn_adaptor_keepInit;;
    p ← skip_xpn_prefix old_path;
    q ← skip_xpn_prefix new_path;
    xpn (xpn_rename (Some p) (Some q))
  else libc (dlsym_rename old_path new_path).
Definition unlink (path : cstr) : B Z := on_path path (λ p, xpn (xpn_unlink (Some p))) (libc (dlsym_unlink path)).
(** The mode of a file whose attributes could not be read is not defined. *)
Definition remove (path : cstr) : B Z :=
  on_path path (λ p,
    '(ret, st) ← xpn (xpn_stat (Some p) false);
    st ← lift st;
    if Z.land (x_mode st) S_IFMT =? S_IFREG then xpn (xpn_unlink (Some p))
    else if Z.land (x_mode st) S_IFMT =? S_IFDIR then xpn (xpn_rmdir (Some p))
    else mret ret) (libc (dlsym_remove path)).

(** ** Streams *)

(** [fp->_fileno = fd] of a NULL stream is a fault. *)
Definition fdopen (fd : Z) (mode : cstr) : B (option Z) :=
  v ← fdstable_get fd;
  if gfd_type v =? FD_XPN then
    fp ← libc (dlsym_fopen (str "/dev/null") mode);
    fp ← lift fp;
    modify (λ b, with_libc (libc_set_fileno fp fd (b_libc b)) b);;
    mret (Some fp)
  else libc (dlsym_fdopen fd mode).
Definition fopen_mode (mode : cstr) : Z :=
  match mode with
  | "r"%char :: _ => Z.lor O_RDONLY O_CREAT
  | "w"%char :: _ => Z.lor O_WRONLY (Z.lor O_CREAT O_TRUNC)
  | _ => Z.lor O_RDWR (Z.lor O_CREAT O_TRUNC)
  end.
Definition fopen (path mode : cstr) : B (option Z) :=
  on_path path (λ p,
    fd ← xpn (xpn_open (Some p) (fopen_mode mode) (Some 416));
    xpn_fd ← add_xpn_file_to_fdstable fd;
    fdopen xpn_fd mode) (libc (dlsym_fopen path mode)).
Definition fileno (stream : Z) : B Z := gets (λ b, libc_fileno stream (b_libc b)).
Definition on_stream {A} (stream : Z) (f : Z → B A) (sys_call : B A) : B A := fd ← fileno stream; on_fd fd f sys_call.
Definition fclose (stream : Z) : B Z :=
  fd ← fileno stream;
  on_fd fd (λ r, ret ← xpn (xpn_close r); fdstable_remove_ fd;; mret ret) (libc (dlsym_fclose stream)).
(** The number of bytes goes through an [int]; an error is divided too. *)
Definition items (op : Z → prog W Z) (size nmemb : Z) : B Z :=
  ret ← xpn (op (u64 (i32 (u64 (size * nmemb)))));
  if size =? 0 then fault else mret (u64 ret / size).
Definition fread (p : option ptr) (size nmemb stream : Z) : B Z :=
  on_stream stream (λ r, items (xpn_read r p) size nmemb) (sys_in p (dlsym_fread p size nmemb stream)).
Definition fwrite (p : option ptr) (size nmemb stream : Z) : B Z :=
  on_stream stream (λ r, items (xpn_write r p) size nmemb) (sys_out p (u64 (size * nmemb)) (λ d, dlsym_fwrite d size nmemb stream)).
Definition fseek (stream offset whence : Z) : B Z := on_stream stream (λ r, xpn (xpn_lseek r offset whence)) (libc (dlsym_fseek stream offset whence)).
Definition ftell (stream : Z) : B Z := on_stream stream (λ r, xpn (xpn_lseek r 0 SEEK_CUR)) (libc (dlsym_ftell stream)).
Definition rewind (stream : Z) : B unit := on_stream stream (λ r, xpn (xpn_lseek r 0 SEEK_SET);; mret tt) (libc (dlsym_rewind stream)).
(** The tests of the two seeks look at another variable, which is -1. *)
Definition feof (stream : Z) : B Z :=
  on_stream stream (λ r,
    ret1 ← xpn (xpn_lseek r 0 SEEK_CUR);
    ret2 ← xpn (xpn_lseek r 0 SEEK_END);
    mret (if negb (ret1 =? ret2) then 0 else 1)) (libc (dlsym_feof stream)).

(** ** Directories *)

Definition mkdir (path : cstr) (mode : Z) : B Z := on_path path (λ p, xpn (xpn_mkdir (Some p) mode)) (libc (dlsym_mkdir path mode)).
Definition rmdir (path : cstr) : B Z := on_path path (λ p, xpn (xpn_rmdir (Some p))) (libc (dlsym_rmdir path)).

(** The slot that holds [dir], as an index; the slots that are free hold NULL. *)
Definition fdsdirtable_get (dir : option dir_ptr) : B Z :=
  b ← get;
  mret (match list_find (λ s, s = dir) (default [] (fdsdirtable (b_dirs b))) with Some (i, _) => Z.of_nat i | None => -1 end).
Definition set_dirs (l : list (option dir_ptr)) (first : Z) : B unit :=
  modify (λ b, with_dirt (DirTable (Some l) first (dir_heap (b_dirs b)) (dir_next (b_dirs b))) b).
(** [*dir] of a pointer that may not be of the Expand library's. *)
Definition dir_of (dir : option dir_ptr) : B (nat * DIR) :=
  b ← get;
  match dir with
  | Some (D_xpn n) => d ← lift (dir_heap (b_dirs b) !! n); mret (n, d)
  | _ => fault
  end.
Definition set_dir_fd (n : nat) (fd : Z) : B unit :=
  modify (λ b, let t := b_dirs b in
    with_dirt (DirTable (fdsdirtable t) (fdsdirtable_first_free t) (alter (λ d, Dir fd (dir_path d)) n (dir_heap t)) (dir_next t)) b).
(** After the directories' table has grown the slot looked at is that of the size
    of the other table. *)
Definition fdsdirtable_put (n : nat) : B Z :=
  '(_, d) ← dir_of (Some (D_xpn n));
  let virtual_fd := GFd FD_XPN (dir_fd d) in
  b ← get;
  let l := default [] (fdsdirtable (b_dirs b)) in
  let first := fdsdirtable_first_free (b_dirs b) in
  match list_find (λ s, s = None) (drop (Z.to_nat first) l) with
  | Some (k, _) =>
    let i := (Z.to_nat first + k)%nat in
    set_dirs (<[i := Some (D_xpn n)]> l) (Z.of_nat i + 1);;
    vfd ← fdstable_put virtual_fd;
    set_dir_fd n vfd;;
    mret 0
  | None =>
    let old_size := Z.of_nat (length (default [] (fdstable (b_fds b)))) in
    fdsdirtable_realloc;;
    b ← get;
    let l := default [] (fdsdirtable (b_dirs b)) in
    slot ← lift (rdZ l old_size);
    match slot with
    | None =>
      set_dirs (<[Z.to_nat old_size := Some (D_xpn n)]> l) (old_size + 1);;
      vfd ← fdstable_put virtual_fd;
      set_dir_fd n vfd;;
      mret 0
    | Some _ => mret (-1)
    end
  end.
Definition fdsdirtable_remove (dir : option dir_ptr) : B Z :=
  i ← fdsdirtable_get dir;
  if (i : Z) =? -1 then mret (-1)
  else
    '(n, d) ← dir_of dir;
    fdstable_remove_ (dir_fd d);;
    set_dir_fd n (dir_fd d - PLUSXPN);;
    b ← get;
    let l := default [] (fdsdirtable (b_dirs b)) in
    set_dirs (<[Z.to_nat i := None]> l) (Z.min i (fdsdirtable_first_free (b_dirs b)));;
    mret 0.
(** A copy of the object with the descriptor of Expand. *)
Definition fdsdirtable_getfd (dir : option dir_ptr) : B DIR :=
  '(_, d) ← dir_of dir;
  v ← fdstable_get (dir_fd d);
  mret (Dir (real_fd v) (dir_path d)).

(** A pointer as the C library sees it: it is given one of Expand's only when
    it is not in the table. *)
Definition libc_dir (dir : option dir_ptr) : B (option Z) :=
  match dir with None => mret None | Some (D_libc d) => mret (Some d) | Some (D_xpn _) => fault end.

Definition opendir (dirname : cstr) : B (option dir_ptr) :=
  on_path dirname (λ p,
    ret ← xpn (xpn_opendir (Some p));
    match ret with
    | None => mret None
    | Some d =>
      b ← get;
      let n := dir_next (b_dirs b) in
      modify (λ b, let t := b_dirs b in with_dirt (DirTable (fdsdirtable t) (fdsdirtable_first_free t) (<[n := d]> (dir_heap t)) (S n)) b);;
      fdsdirtable_put n;;
      mret (Some (D_xpn n))
    end) (d ← libc (dlsym_opendir dirname); mret (D_libc <$> d)).
Definition readdir (dirp : option dir_ptr) : B (option dirent) :=
  i ← fdsdirtable_get dirp;
  if negb ((i : Z) =? -1) then
    xpn_adaptor_keepInit;;
    aux_dirp ← fdsdirtable_getfd dirp;
    xpn (xpn_readdir (Some aux_dirp))
  else d ← libc_dir dirp; libc (dlsym_readdir d).
(** The entry is copied to a fresh [struct dirent64], which nothing frees. *)
Definition readdir64 (dirp : option dir_ptr) : B (option dirent) :=
  i ← fdsdirtable_get dirp;
  if negb ((i : Z) =? -1) then
    xpn_adaptor_keepInit;;
    aux_dirp ← fdsdirtable_getfd dirp;
    aux ← xpn (xpn_readdir (Some aux_dirp));
    mret ((λ e, Dirent (d_ino e) (d_type e) (d_name e)) <$> aux)
  else d ← libc_dir dirp; libc (dlsym_readdir64 d).
(** [xpn_closedir] frees the object when it succeeds. *)
Definition closedir (dirp : option dir_ptr) : B Z :=
  i ← fdsdirtable_get dirp;
  if negb ((i : Z) =? -1) then
    xpn_adaptor_keepInit;;
    fdsdirtable_remove dirp;;
    '(n, d) ← dir_of dirp;
    ret ← xpn (xpn_closedir (Some d));
    when (ret =? 0) (modify (λ b, let t := b_dirs b in
      with_dirt (DirTable (fdsdirtable t) (fdsdirtable_first_free t) (delete n (dir_heap t)) (dir_next t)) b));;
    mret ret
  else d ← libc_dir dirp; libc (dlsym_closedir d).

(** ** Processes *)

(** The child is to be initialised again. *)
Definition fork : B Z :=
  ret ← libc dlsym_fork;
  when (0 =? ret) (glob (set_initCalled 0));;
  mret ret.
Definition pipe : B (Z * (Z * Z)) := libc dlsym_pipe.
(** The C library's [exit] runs the handlers of [atexit], which are [xpn_destroy]. *)
Definition exit (status : Z) : B unit :=
  b ← get;
  when (xpn_adaptor_initCalled (b_glob b) =? 1) (run_destroy;; mret tt);;
  forM_ (replicate (at_exit (b_glob b)) tt) (λ _, run_destroy;; mret tt);;
  libc (dlsym_exit status).

(** ** Other calls *)

Definition chdir (path : cstr) : B Z := on_path path (λ p, xpn (xpn_chdir p)) (libc (dlsym_chdir path)).
Definition chmod (path : cstr) (mode : Z) : B Z := on_path path (λ p, xpn (xpn_chmod p mode)) (libc (dlsym_chmod path mode)).
(** The number given to Expand is the one of the program. *)
Definition fchmod (fd mode : Z) : B Z := on_fd fd (λ _, xpn (xpn_fchmod fd mode)) (libc (dlsym_fchmod fd mode)).
Definition chown (path : cstr) (owner group : Z) : B Z := on_path path (λ p, xpn (xpn_chown p owner group)) (libc (dlsym_chown path owner group)).
(** The calls that do nothing on a descriptor of Expand. *)
Definition ignored (fd : Z) (sys_call : B Z) : B Z :=
  v ← fdstable_get fd;
  if gfd_type v =? FD_XPN then mret 0 else sys_call.
Definition fcntl (fd cmd arg : Z) : B Z := ignored fd (libc (dlsym_fcntl fd cmd arg)).
Definition fsync (fd : Z) : B Z := ignored fd (libc (dlsym_fsync fd)).
Definition flock (fd operation : Z) : B Z := ignored fd (libc (dlsym_flock fd operation)).
Definition access (path : cstr) (mode : Z) : B Z :=
  on_path path (λ _,
    '(r, stats) ← __lxstat64 _STAT_VER path;
    if negb ((r : Z) =? 0) then mret (-1)
    else if mode =? F_OK then mret 0
    else if Z.land mode X_OK =? 0 then mret 0
    else
      st ← lift stats;
      if negb (Z.land (x_mode st) S_IXALL =? 0) then mret 0 else mret (-1))
    (libc (dlsym_access path mode)).
(** [resolved] tells whether there is a buffer: [strcpy] needs one. *)
Definition realpath (path : cstr) (resolved : bool) : B (option cstr) :=
  on_path path (λ _, if resolved then mret (Some path) else fault) (libc (dlsym_realpath path resolved)).
Definition __realpath_chk (path : cstr) (resolved : bool) (resolved_len : Z) : B (option cstr) :=
  on_path path (λ _, if resolved then mret (Some path) else fault) (libc (dlsym_realpath path resolved)).

(** ** MPI *)

Definition MPI_SUCCESS : Z := 0.
Definition is_server : B bool := gets (λ b, bool_decide (is_Some (getenv (environ (b_glob b)) (str "XPN_IS_MPI_SERVER")))).
Definition MPI_Init : B Z :=
  xpn_adaptor_keepInit;;
  s ← is_server;
  if (s : bool) then mret MPI_SUCCESS else libc libc_PMPI_Init.
(** The result and the level provided. *)
Definition MPI_Init_thread (required : Z) : B (Z * option Z) :=
  xpn_adaptor_keepInit;;
  s ← is_server;
  if (s : bool) then mret (MPI_SUCCESS, None)
  else '(r, provided) ← libc (libc_PMPI_Init_thread required); mret (r, Some provided).
Definition MPI_Finalize : B Z :=
  s ← is_server;
  b ← get;
  when (s && (xpn_adaptor_initCalled (b_glob b) =? 1)) (run_destroy;; mret tt);;
  libc libc_PMPI_Finalize.
End bypass.
