(* ===== verification/BypassSpec.v ===== *)
(** * BypassSpec: a program under the interception library

    The table of descriptors is a map from the numbers a program sees to the
    descriptors of Expand, and a program of calls runs as on that map: the calls
    below the mount point and on the map's descriptors are calls of Expand, the
    others calls of the C library. *)

From S2P Require Import Prelude Cstr Paths Url Mdata Nfi Client MemFs FileTable Blocks Rw Dir Conf Init Unistd Proxies Bypass.

(** ** The calls of a program *)

Inductive user_call :=
  | Open (path : cstr) (flags mode : Z) | Creat (path : cstr) (mode : Z) | Close (fd : Z)
  | Read (fd : Z) (buf : option ptr) (n : Z) | Write (fd : Z) (buf : option ptr) (n : Z)
  | Pread (fd : Z) (buf : option ptr) (n offset : Z) | Pwrite (fd : Z) (buf : option ptr) (n offset : Z)
  | Lseek (fd offset whence : Z) | Ftruncate (fd length : Z) | Fstat (fd : Z)
  | Stat (path : cstr) | Unlink (path : cstr) | Mkdir (path : cstr) (mode : Z) | Rmdir (path : cstr)
  | Chdir (path : cstr) | Chmod (path : cstr) (mode : Z) | Fsync (fd : Z) | Rename (old new : cstr).

(** What a call returns and stores. *)
Abbreviation answer := (Z * option xstat)%type (only parsing).
Definition no_stat {S} (m : M S Z) : M S answer := r ← m; mret (r, None).

(** ** The abstract process *)

Record process (L W : Type) := Process { p_client : client W; p_libc : L; p_fds : gmap Z Z }.
Arguments Process {L W}. Arguments p_client {L W}. Arguments p_libc {L W}. Arguments p_fds {L W}.

(** The lowest number from [PLUSXPN] on that is not a descriptor. *)
Definition lowest (m : gmap Z Z) : option Z :=
  head (filter (λ v, m !! v = None) (seqZ PLUSXPN (Z.of_nat (size m) + 1))).

Section spec.
Context {L W : Type} `{NO : !NfiOps W} `{NI : !NfiInit W} `{SY : !Sys} `{LC : !Libc L}.
Abbreviation P A := (M (process L W) A) (only parsing).

Definition of_xpn {A} (m : prog W A) : P A := λ s,
  match m (p_client s) with Some (a, c) => Some (a, Process c (p_libc s) (p_fds s)) | None => None end.
Definition of_libc {A} (m : libcall L A) : P A := λ s,
  let '((a, e), l) := m (p_libc s) in
  let c := match e with Some e => with_env (set_errno e (cl_env (p_client s))) (p_client s) | None => p_client s end in
  Some (a, Process c l (p_fds s)).
Definition of_libc_in (buf : option ptr) (m : libcall L (Z * list ascii)) : P Z :=
  '(ret, d) ← of_libc m;
  (match d with
   | [] => mret tt
   | _ => p ← lift buf; of_xpn (c ← get; m ← lift (mem_write (mem (cl_env c)) p d); zoom (modify (set_mem m)))
   end);;
  mret ret.
Definition of_libc_out (buf : option ptr) (n : Z) (m : option (list ascii) → libcall L Z) : P Z :=
  s ← get; of_libc (m (p ← buf; mem_read (mem (cl_env (p_client s))) p n)).

(** A path below the mount point [p], and a descriptor: of Expand, or of the
    C library.  A number from [PLUSXPN] on that is not in the map is neither. *)
Definition below (p path : cstr) : option cstr :=
  if (strlen p <? strlen path) && bool_decide (take (length p) path = p) then Some (drop (length p) path) else None.
Definition path_call {A} (p path : cstr) (f : cstr → P A) (g : P A) : P A :=
  match below p path with Some q => f q | None => g end.
Definition fd_call {A} (fd : Z) (f : Z → P A) (g : P A) : P A :=
  s ← get;
  match p_fds s !! fd with Some r => f r | None => if fd <? PLUSXPN then g else fault end.

(** A new descriptor: the number is also made a descriptor of the kernel. *)
Definition new_number (fd : Z) : P Z :=
  if fd <? 0 then mret fd
  else if PLUSXPN <=? fd then fault
  else
    s ← get;
    v ← lift (lowest (p_fds s));
    modify (λ s, Process (p_client s) (p_libc s) (<[v := fd]> (p_fds s)));;
    of_libc (libc_dup2 fd v);;
    mret v.

Definition spec_call (p : cstr) (k : user_call) : P answer :=
  match k with
  | Open path flags mode => no_stat (path_call p path
      (λ q, fd ← of_xpn (xpn_open (Some q) flags (if negb (mode =? 0) then Some mode else None)); new_number fd) (of_libc (libc_open path flags mode)))
  | Creat path mode => no_stat (path_call p path (λ q, fd ← of_xpn (xpn_creat (Some q) mode); new_number fd) (of_libc (libc_creat path mode)))
  | Close fd => no_stat (fd_call fd (λ r,
      ret ← of_xpn (xpn_close r);
      modify (λ s, Process (p_client s) (p_libc s) (delete fd (p_fds s)));;
      of_libc (libc_close fd);;
      mret ret) (of_libc (libc_close fd)))
  | Read fd buf n => no_stat (fd_call fd (λ r, of_xpn (xpn_read r buf n)) (of_libc_in buf (libc_read fd buf n)))
  | Write fd buf n => no_stat (fd_call fd (λ r, of_xpn (xpn_write r buf n)) (of_libc_out buf n (λ d, libc_write fd d n)))
  | Pread fd buf n off => no_stat (fd_call fd (λ r, of_xpn (at_offset (xpn_read r buf n) r off)) (of_libc_in buf (libc_pread fd buf n off)))
  | Pwrite fd buf n off => no_stat (fd_call fd (λ r, of_xpn (at_offset (xpn_write r buf n) r off)) (of_libc_out buf n (λ d, libc_pwrite fd d n off)))
  | Lseek fd off whence => no_stat (fd_call fd (λ r, of_xpn (xpn_lseek r off whence)) (of_libc (libc_lseek fd off whence)))
  | Ftruncate fd len => no_stat (fd_call fd (λ r, of_xpn (xpn_ftruncate r len)) (of_libc (libc_ftruncate fd len)))
  | Fstat fd => fd_call fd (λ r, of_xpn (xpn_fstat r)) (of_libc (libc___fxstat _STAT_VER fd))
  | Stat path => path_call p path (λ q, of_xpn (xpn_stat (Some q) false)) (of_libc (libc___xstat _STAT_VER path))
  | Unlink path => no_stat (path_call p path (λ q, of_xpn (xpn_unlink (Some q))) (of_libc (libc_unlink path)))
  | Mkdir path mode => no_stat (path_call p path (λ q, of_xpn (xpn_mkdir (Some q) mode)) (of_libc (libc_mkdir path mode)))
  | Rmdir path => no_stat (path_call p path (λ q, of_xpn (xpn_rmdir (Some q))) (of_libc (libc_rmdir path)))
  | Chdir path => no_stat (path_call p path (λ q, of_xpn (xpn_chdir q)) (of_libc (libc_chdir path)))
  | Chmod path mode => no_stat (path_call p path (λ q, of_xpn (xpn_chmod q mode)) (of_libc (libc_chmod path mode)))
  | Fsync fd => no_stat (fd_call fd (λ _, mret 0) (of_libc (libc_fsync fd)))
  | Rename old new => no_stat (match below p old, below p new with
      | Some q, Some q' => of_xpn (xpn_rename (Some q) (Some q'))
      | _, _ => of_libc (libc_rename old new)
      end)
  end.

Definition bypass_call (k : user_call) : M (bypass L W) answer :=
  match k with
  | Open path flags mode => no_stat (open path flags mode) | Creat path mode => no_stat (creat path mode) | Close fd => no_stat (close fd)
  | Read fd buf n => no_stat (read fd buf n) | Write fd buf n => no_stat (write fd buf n)
  | Pread fd buf n off => no_stat (pread fd buf n off) | Pwrite fd buf n off => no_stat (pwrite fd buf n off)
  | Lseek fd off whence => no_stat (lseek fd off whence) | Ftruncate fd len => no_stat (ftruncate fd len)
  | Fstat fd => fstat fd | Stat path => stat path
  | Unlink path => no_stat (unlink path) | Mkdir path mode => no_stat (mkdir path mode) | Rmdir path => no_stat (rmdir path)
  | Chdir path => no_stat (chdir path) | Chmod path mode => no_stat (chmod path mode) | Fsync fd => no_stat (fsync fd)
  | Rename old new => no_stat (rename old new)
  end.

Fixpoint run {S K R} (f : K → M S R) (l : list K) : M S (list R) :=
  match l with [] => mret [] | k :: l' => r ← f k; rs ← run f l'; mret (r :: rs) end.
End spec.

(** ** The table and the map *)

(** No slot below [fdstable_first_free] is free, a slot that is taken holds a
    descriptor of Expand, and the map has the same. *)
Record table_rep (l : list generic_fd) (first : Z) (m : gmap Z Z) : Prop := {
  rep_nonempty : l ≠ [];
  rep_first : 0 <= first <= Z.of_nat (length l);
  rep_taken i g : l !! i = Some g → Z.of_nat i < first → g ≠ gfd_free;
  rep_slots i g : l !! i = Some g → g = gfd_free ∨ ∃ r, g = GFd FD_XPN r ∧ 0 <= r < PLUSXPN;
  rep_map i r : m !! (PLUSXPN + Z.of_nat i) = Some r ↔ l !! i = Some (GFd FD_XPN r);
  rep_low fd : fd < PLUSXPN → m !! fd = None }.
Definition represents (t : fd_table) (m : gmap Z Z) : Prop := ∃ l, fdstable t = Some l ∧ table_rep l (fdstable_first_free t) m.

Lemma filter_none {A} (Q : A → Prop) `{∀ x, Decision (Q x)} (l : list A) : (∀ x, x ∈ l → ¬ Q x) → filter Q l = [].
Proof.
  induction l as [|x l IH]; intros Hl; [done|]. rewrite filter_cons_False by (apply Hl; left).
  apply IH. intros y Hy. apply Hl. by right.
Qed.

(** The lowest free number is the first with every lower one taken. *)
Lemma lowest_spec m v :
  PLUSXPN <= v → m !! v = None → (∀ w, PLUSXPN <= w < v → is_Some (m !! w)) → lowest m = Some v.
Proof.
  intros Hv Hfree Htaken. unfold lowest.
  assert (Z.of_nat (size m) >= v - PLUSXPN) as Hsize.
  { assert (list_to_set (C := gset Z) (seqZ PLUSXPN (v - PLUSXPN)) ⊆ dom m) as Hsub.
    { intros w Hw%elem_of_list_to_set%elem_of_seqZ. apply elem_of_dom, Htaken. lia. }
    apply subseteq_size in Hsub. rewrite size_dom, size_list_to_set, length_seqZ in Hsub by apply NoDup_seqZ. lia. }
  replace (Z.of_nat (size m) + 1) with (v - PLUSXPN + (1 + (Z.of_nat (size m) - (v - PLUSXPN)))) by lia.
  rewrite seqZ_app, filter_app by lia. rewrite filter_none.
  - replace (PLUSXPN + (v - PLUSXPN)) with v by lia. rewrite seqZ_cons by lia. by rewrite filter_cons_True.
  - intros w Hw%elem_of_seqZ. destruct (Htaken w) as [r Hr]; [lia|]. by rewrite Hr.
Qed.

Lemma free_from_spec l : ∀ i,
  (∃ k, free_from l i = Some (i + Z.of_nat k) ∧ (∃ g, l !! k = Some g ∧ gfd_type g = FD_FREE) ∧
        ∀ j g, (j < k)%nat → l !! j = Some g → gfd_type g ≠ FD_FREE)
  ∨ (free_from l i = None ∧ ∀ j g, l !! j = Some g → gfd_type g ≠ FD_FREE).
Proof.
  induction l as [|g l IH]; intros i; cbn [free_from]; [by right|].
  destruct (Z.eqb_spec (gfd_type g) FD_FREE) as [E|E].
  - left. exists O. rewrite Z.add_0_r. split; [done|]. split; [by exists g|]. lia.
  - destruct (IH (i + 1)) as [(k & -> & Hk & Hj)|[-> Hj]].
    + left. exists (S k). split; [f_equal; lia|]. split; [done|].
      intros [|j] g' Hlt Hl; cbn in Hl; [by simplify_eq|]. apply (Hj j g'); [lia|done].
    + right. split; [done|]. intros [|j] g' Hl; cbn in Hl; [by simplify_eq|]. by apply (Hj j g').
Qed.

Section table.
Context (l : list generic_fd) (first : Z) (m : gmap Z Z) (HR : table_rep l first m).

Lemma slot_type i g : l !! i = Some g → gfd_type g = FD_FREE ↔ g = gfd_free.
Proof using HR.
  intros Hg. destruct (rep_slots _ _ _ HR i g Hg) as [->|(r & -> & _)]; [done|]. split; [discriminate|]. discriminate.
Qed.
Lemma map_index fd r : m !! fd = Some r → PLUSXPN <= fd ∧ l !! Z.to_nat (fd - PLUSXPN) = Some (GFd FD_XPN r).
Proof using HR.
  intros Hm. assert (PLUSXPN <= fd) as Hfd.
  { destruct (Z.lt_ge_cases fd PLUSXPN) as [H|H]; [|done]. by rewrite (rep_low _ _ _ HR fd H) in Hm. }
  split; [done|]. apply (rep_map _ _ _ HR). by replace (PLUSXPN + Z.of_nat (Z.to_nat (fd - PLUSXPN))) with fd by lia.
Qed.
Lemma map_free i : l !! i = None ∨ l !! i = Some gfd_free → m !! (PLUSXPN + Z.of_nat i) = None.
Proof using HR.
  intros H. destruct (m !! (PLUSXPN + Z.of_nat i)) as [r|] eqn:E; [|done]. apply (rep_map _ _ _ HR) in E. by destruct H; simplify_eq.
Qed.
Lemma map_taken i : (i < length l)%nat → l !! i ≠ Some gfd_free → is_Some (m !! (PLUSXPN + Z.of_nat i)).
Proof using HR.
  intros [g Hg]%lookup_lt_is_Some_2 Hne. destruct (rep_slots _ _ _ HR i g Hg) as [->|(r & -> & _)]; [done|].
  exists r. by apply (rep_map _ _ _ HR).
Qed.

(** Taking a slot above which no lower one is free. *)
Lemma rep_put i r first' :
  (i < length l)%nat → l !! i = Some gfd_free → 0 <= r < PLUSXPN → 0 <= first' <= Z.of_nat (length l) →
  (∀ j, Z.of_nat j < first' → j ≠ i → Z.of_nat j < first ∨ l !! j ≠ Some gfd_free) →
  table_rep (<[i := GFd FD_XPN r]> l) first' (<[PLUSXPN + Z.of_nat i := r]> m).
Proof using HR.
  intros Hi Hfree Hr Hf' Hbelow. constructor.
  - intros E. apply (f_equal length) in E. rewrite length_insert in E. cbn in E. lia.
  - by rewrite length_insert.
  - intros j g Hg Hj. apply list_lookup_insert_Some in Hg as [(-> & <- & _)|[Hne Hg]]; [done|].
    destruct (Hbelow j Hj ltac:(done)) as [H|H]; [by apply (rep_taken _ _ _ HR j)|]. intros ->. done.
  - intros j g Hg. apply list_lookup_insert_Some in Hg as [(-> & <- & _)|[Hne Hg]]; [right; by exists r|].
    by apply (rep_slots _ _ _ HR j).
  - intros j r'. destruct (decide (i = j)) as [<-|Hne].
    + rewrite lookup_insert_eq, list_lookup_insert_eq by done. split; intros; congruence.
    + rewrite lookup_insert_ne, list_lookup_insert_ne by lia. apply (rep_map _ _ _ HR).
  - intros fd Hfd. rewrite lookup_insert_ne by lia. by apply (rep_low _ _ _ HR).
Qed.

(** Freeing a slot. *)
Lemma rep_remove i :
  (i < length l)%nat →
  table_rep (<[i := gfd_free]> l) (if Z.of_nat i <? first then Z.of_nat i else first) (delete (PLUSXPN + Z.of_nat i) m).
Proof using HR.
  intros Hi. pose proof (rep_first _ _ _ HR) as Hf. constructor.
  - intros E. apply (f_equal length) in E. rewrite length_insert in E. cbn in E. lia.
  - rewrite length_insert. destruct (Z.of_nat i <? first); lia.
  - intros j g Hg Hj. apply list_lookup_insert_Some in Hg as [(-> & <- & _)|[Hne Hg]].
    + destruct (Z.ltb_spec (Z.of_nat j) first); lia.
    + apply (rep_taken _ _ _ HR j); [done|]. destruct (Z.ltb_spec (Z.of_nat i) first); lia.
  - intros j g Hg. apply list_lookup_insert_Some in Hg as [(-> & <- & _)|[Hne Hg]]; [by left|].
    by apply (rep_slots _ _ _ HR j).
  - intros j r'. destruct (decide (i = j)) as [<-|Hne].
    + rewrite lookup_delete_eq, list_lookup_insert_eq by done. split; discriminate.
    + rewrite lookup_delete_ne, list_lookup_insert_ne by lia. apply (rep_map _ _ _ HR).
  - intros fd Hfd. rewrite lookup_delete_None. right. by apply (rep_low _ _ _ HR).
Qed.

(** The table grows: the slots are kept and the new ones are free. *)
Lemma rep_grow n : table_rep (l ++ replicate n gfd_free) first m.
Proof using HR.
  pose proof (rep_first _ _ _ HR) as Hf.
  assert (∀ j g, (l ++ replicate n gfd_free) !! j = Some g → l !! j = Some g ∨ ((length l <= j)%nat ∧ g = gfd_free)) as Hget.
  { intros j g [H|[Hj H]]%lookup_app_Some; [by left|]. right. by apply lookup_replicate in H as [-> _]. }
  constructor.
  - intros E. apply app_eq_nil in E as [E _]. by apply (rep_nonempty _ _ _ HR).
  - rewrite length_app. lia.
  - intros j g [Hg|[Hj ->]]%Hget Hlt; [by apply (rep_taken _ _ _ HR j)|lia].
  - intros j g [Hg|[Hj ->]]%Hget; [by apply (rep_slots _ _ _ HR j)|by left].
  - intros j r. rewrite (rep_map _ _ _ HR). split; [apply lookup_app_l_Some|].
    intros [Hg|[_ Hg]]%Hget; [done|discriminate].
  - apply (rep_low _ _ _ HR).
Qed.

(** Where the next descriptor goes: the number is the lowest free one. *)
Lemma put_slot :
  match free_from (drop (Z.to_nat first) l) first with
  | Some i => ∃ k, i = Z.of_nat k ∧ (k < length l)%nat ∧ l !! k = Some gfd_free ∧ lowest m = Some (PLUSXPN + Z.of_nat k) ∧
      ∀ j, (j < k)%nat → l !! j ≠ Some gfd_free
  | None => lowest m = Some (PLUSXPN + Z.of_nat (length l)) ∧ ∀ j, l !! j ≠ Some gfd_free
  end.
Proof using HR.
  pose proof (rep_first _ _ _ HR) as Hf.
  assert (∀ j, Z.of_nat j < first → l !! j ≠ Some gfd_free) as Hlow.
  { intros j Hj E. by apply (rep_taken _ _ _ HR j _ E Hj). }
  destruct (free_from_spec (drop (Z.to_nat first) l) first) as [(k & -> & (g & Hg & Ht) & Hk)|[-> Hall]].
  - rewrite lookup_drop in Hg. apply (slot_type _ _ Hg) in Ht as ->.
    exists (Z.to_nat first + k)%nat.
    assert (∀ j, (j < Z.to_nat first + k)%nat → l !! j ≠ Some gfd_free) as Hb.
    { intros j Hj. destruct (Z.lt_ge_cases (Z.of_nat j) first) as [H|H]; [by apply Hlow|].
      intros E. apply (Hk (j - Z.to_nat first)%nat gfd_free); [lia| |done]. rewrite lookup_drop. by replace (Z.to_nat first + (j - Z.to_nat first))%nat with j by lia. }
    split; [lia|]. split; [by eapply lookup_lt_Some|]. split; [done|]. split; [|done].
    apply lowest_spec; [lia|apply map_free; by right|].
    intros w Hw. replace w with (PLUSXPN + Z.of_nat (Z.to_nat (w - PLUSXPN))) by lia.
    apply map_taken; [|apply Hb; lia]. apply lookup_lt_Some in Hg. lia.
  - assert (∀ j, l !! j ≠ Some gfd_free) as Hb.
    { intros j. destruct (Z.lt_ge_cases (Z.of_nat j) first) as [H|H]; [by apply Hlow|].
      intros E. apply (Hall (j - Z.to_nat first)%nat gfd_free); [|done]. rewrite lookup_drop. by replace (Z.to_nat first + (j - Z.to_nat first))%nat with j by lia. }
    split; [|done]. apply lowest_spec; [lia|apply map_free; left; by apply lookup_ge_None|].
    intros w Hw. replace w with (PLUSXPN + Z.of_nat (Z.to_nat (w - PLUSXPN))) by lia.
    apply map_taken; [lia|apply Hb].
Qed.
End table.

(** ** The calls, one by one *)

Section simulation.
Context {L W : Type} `{NO : !NfiOps W} `{NI : !NfiInit W} `{SY : !Sys} `{LC : !Libc L} (p : cstr).
Implicit Types (b : bypass L W) (s : process L W) (m : gmap Z Z).

(** The mount point, which is read from the environment at the first use. *)
Definition mount_point (g : globals) : cstr :=
  if xpn_prefix_change_verified g then xpn_adaptor_partition_prefix g
  else default (xpn_adaptor_partition_prefix g) (getenv (environ g) (str "XPN_MOUNT_POINT")).
(** The library is initialised. *)
Definition initialised b : Prop :=
  xpn_adaptor_initCalled_getenv (b_glob b) = true ∧ xpn_adaptor_initCalled (b_glob b) ≠ 0 ∧ mount_point (b_glob b) = p.
Definition sim b s : Prop :=
  initialised b ∧ represents (b_fds b) (p_fds s) ∧ b_client b = p_client s ∧ b_libc b = p_libc s.
(** What the abstract computation does, the concrete one does. *)
Definition refines {A} (f : M (bypass L W) A) (g : M (process L W) A) : Prop :=
  ∀ b s a s', sim b s → g s = Some (a, s') → ∃ b', f b = Some (a, b') ∧ sim b' s'.

(** *** Runs of the library's functions *)

Lemma prefix_run path b :
  initialised b → is_xpn_prefix path b = Some (bool_decide (is_Some (below p path)), with_glob (set_prefix p (b_glob b)) b).
Proof.
  intros (_ & _ & Hp). unfold is_xpn_prefix. mstep. fold (mount_point (b_glob b)). rewrite Hp.
  mrun reflexivity. unfold below, mret, M_ret.
  by destruct ((strlen p <? strlen path) && bool_decide (take (length p) path = p)).
Qed.
Lemma prefix_ready b : initialised b → initialised (with_glob (set_prefix p (b_glob b)) b).
Proof. by intros (H1 & H2 & _). Qed.
Lemma prefix_sim b s : sim b s → sim (with_glob (set_prefix p (b_glob b)) b) s.
Proof. intros (H & Hs). split; [by apply prefix_ready|done]. Qed.
Lemma keepInit_run b : initialised b → xpn_adaptor_keepInit b = Some (0, b).
Proof.
  intros (Hg & Hi & _). unfold xpn_adaptor_keepInit. mstep. rewrite Hg. unfold negb, when. mstep. mstep.
  by rewrite (proj2 (Z.eqb_neq _ _)).
Qed.

Lemma get_low fd b m : represents (b_fds b) m → fd < PLUSXPN → fdstable_get fd b = Some (GFd FD_SYS fd, b).
Proof. intros (l & Hl & _) Hfd. unfold fdstable_get. mstep. rewrite Hl. by zbool. Qed.
Lemma get_mapped fd b m r : represents (b_fds b) m → m !! fd = Some r → fdstable_get fd b = Some (GFd FD_XPN r, b).
Proof.
  intros (l & Hl & HR) Hm. apply (map_index _ _ _ HR) in Hm as [Hfd Hi].
  unfold fdstable_get. mstep. rewrite Hl. zbool. unfold lift.
  assert (rdZ l (fd - PLUSXPN) = Some (GFd FD_XPN r)) as -> by (apply rdZ_lookup; split; [lia|done]). done.
Qed.
(** A number of the table that is free. *)
Lemma get_freed fd b l i :
  fdstable (b_fds b) = Some l → l !! i = Some gfd_free → fd = PLUSXPN + Z.of_nat i → fdstable_get fd b = Some (gfd_free, b).
Proof.
  intros Hl Hi ->. unfold fdstable_get. mstep. rewrite Hl. unfold PLUSXPN. zbool. unfold lift.
  replace (1000 + Z.of_nat i - 1000) with (Z.of_nat i) by lia. by rewrite rdZ_of_nat, Hi.
Qed.

(** *** Composition *)

Lemma ref_ret {A} (a : A) : refines (mret a) (mret a).
Proof. intros b s a' s' Hs [= <- <-]. by exists b. Qed.
Lemma ref_bind {A C} f g (k : A → M _ C) k' :
  refines f g → (∀ a, refines (k a) (k' a)) → refines (f ≫= k) (g ≫= k').
Proof.
  intros Hf Hk b s a s' Hs (x & s1 & E1 & E2)%bind_inv.
  destruct (Hf b s x s1 Hs E1) as (b1 & Eb1 & Hs1). destruct (Hk x b1 s1 a s' Hs1 E2) as (b' & Eb' & Hs').
  exists b'. by rewrite (bind_step _ _ _ _ _ Eb1).
Qed.
Lemma ref_lift {A} (o : option A) : refines (lift o) (lift o).
Proof. intros b s a s' Hs E. unfold lift in *. destruct o; [|done]. injection E as <- <-. by exists b. Qed.
Lemma ref_fault {A} (f : M (bypass L W) A) : refines f fault.
Proof. by intros ? ? ? ? ? ?. Qed.
Lemma ref_no_stat f g : refines f g → refines (no_stat f) (no_stat g).
Proof. intros H. apply ref_bind; [done|]. intros. apply ref_ret. Qed.

Lemma ref_xpn {A} (f : prog W A) : refines (xpn f) (of_xpn f).
Proof.
  intros b s a s' (Hr & Ht & Hc & Hl) E. unfold xpn, of_xpn in *. rewrite Hc.
  destruct (f (p_client s)) as [[x c]|]; [|done]. injection E as <- <-. by eexists.
Qed.
Lemma ref_libc {A} (f : libcall L A) : refines (libc f) (of_libc f).
Proof.
  intros b s a s' (Hr & Ht & Hc & Hl) E. unfold libc, of_libc in *. rewrite Hc, Hl.
  destruct (f (p_libc s)) as [[x e] l]. injection E as <- <-. by eexists.
Qed.
Lemma ref_in buf f : refines (sys_in buf f) (of_libc_in buf f).
Proof.
  apply ref_bind; [apply ref_libc|]. intros [ret d]. apply ref_bind; [|intros; apply ref_ret].
  unfold store. destruct d; [apply ref_ret|]. apply ref_bind; [apply ref_lift|]. intros. apply ref_xpn.
Qed.
Lemma ref_out buf n f : refines (sys_out buf n f) (of_libc_out buf n f).
Proof.
  intros b s a s' Hs E. pose proof Hs as (_ & _ & Hc & _). unfold of_libc_out in E. unfold sys_out, readable.
  erewrite bind_step in E by reflexivity. mrun reflexivity. rewrite Hc. by apply (ref_libc _ b s).
Qed.

Lemma ref_path {A} path (f : cstr → M _ A) f' g g' :
  (∀ q, refines (f q) (f' q)) → refines g g' → refines (on_path path f g) (path_call p path f' g').
Proof.
  intros Hf Hg b s a s' Hs E. pose proof Hs as (Hr & _). unfold on_path, path_call in *.
  mrun (by apply prefix_run). apply prefix_sim in Hs. pose proof Hs as (Hr' & _). unfold below in *.
  destruct ((strlen p <? strlen path) && bool_decide (take (length p) path = p)); cbn in *; [|by eapply Hg].
  mrun (by apply keepInit_run). mrun reflexivity. by eapply Hf.
Qed.
Lemma ref_fd {A} fd (f : Z → M _ A) f' g g' :
  (∀ r, refines (f r) (f' r)) → refines g g' → refines (on_fd fd f g) (fd_call fd f' g').
Proof.
  intros Hf Hg b s a s' Hs E. pose proof Hs as (Hr & Ht & _). unfold on_fd, fd_call in *.
  erewrite bind_step in E by reflexivity. destruct (p_fds s !! fd) as [r|] eqn:Hm.
  - mrun (by eapply get_mapped). cbn. mrun (by apply keepInit_run). by apply (Hf _ b s).
  - destruct (Z.ltb_spec fd PLUSXPN); [|done]. mrun (by eapply get_low). cbn. by apply (Hg b s).
Qed.
Lemma ref_ignored fd f g : refines f g → refines (ignored fd f) (fd_call fd (λ _, mret 0) g).
Proof.
  intros Hg b s a s' Hs E. pose proof Hs as (Hr & Ht & _). unfold ignored, fd_call in *.
  erewrite bind_step in E by reflexivity. destruct (p_fds s !! fd) as [r|] eqn:Hm.
  - mrun (by eapply get_mapped). cbn. by apply (ref_ret _ b s).
  - destruct (Z.ltb_spec fd PLUSXPN); [|done]. mrun (by eapply get_low). cbn. by apply (Hg b s).
Qed.

(** *** Taking and freeing a number *)

Lemma set_slot_run i g b l :
  fdstable (b_fds b) = Some l → (i < length l)%nat →
  set_slot (Z.of_nat i) g b = Some (tt, with_fds (FdTable (Some (<[i := g]> l)) (fdstable_first_free (b_fds b))) b).
Proof.
  intros Hl Hi. unfold set_slot. mstep. mrun (unfold lift; rewrite Hl; reflexivity).
  mrun (unfold lift; rewrite wrZ_Some by done; reflexivity). done.
Qed.
Lemma dup2_low r v b m r' :
  represents (b_fds b) m → r < PLUSXPN → m !! v = Some r' → dup2 r v b = libc (dlsym_dup2 r v) b.
Proof.
  intros Ht Hr Hv. unfold dup2. mrun (by eapply get_low). mrun (by eapply get_mapped). done.
Qed.
Lemma sim_fds b s t m : sim b s → represents t m → sim (with_fds t b) (Process (p_client s) (p_libc s) m).
Proof. by intros (Hr & _ & Hc & Hl) Ht. Qed.

(** The end of [fdstable_put], when the slot is taken. *)
Lemma put_end r v b s a s' :
  sim b s → r < PLUSXPN → p_fds s !! v = Some r →
  (of_libc (libc_dup2 r v);; mret v) s = Some (a, s') → ∃ b', (dup2 r v;; mret v) b = Some (a, b') ∧ sim b' s'.
Proof.
  intros Hs Hr Hv E. pose proof Hs as (_ & Ht & _).
  destruct (ref_bind (libc (dlsym_dup2 r v)) (of_libc (libc_dup2 r v)) (λ _, mret v) (λ _, mret v)
    (ref_libc _) (λ _, ref_ret v) b s a s' Hs E) as (b' & Eb & Hs').
  exists b'. split; [|done]. rewrite <- Eb. unfold mbind, M_bind. by erewrite dup2_low.
Qed.

Lemma ref_new_fd fd : refines (add_xpn_file_to_fdstable fd) (new_number fd).
Proof.
  intros b s a s' Hs E. unfold new_number, add_xpn_file_to_fdstable in *.
  destruct (Z.ltb_spec fd 0); [by apply (ref_ret _ b s)|].
  destruct (Z.leb_spec PLUSXPN fd); [done|].
  erewrite bind_step in E by reflexivity. pose proof Hs as (_ & (l & Hl & HR) & _).
  pose proof (put_slot _ _ _ HR) as Hput. pose proof (rep_first _ _ _ HR) as Hf.
  unfold fdstable_put. mstep. rewrite Hl. cbn [default option_map from_option id].
  destruct (free_from _ _) as [i|].
  - destruct Hput as (k & -> & Hk & Hfree & Hlow & Hb).
    erewrite bind_step in E by (unfold lift; rewrite Hlow; reflexivity). erewrite bind_step in E by reflexivity.
    mrun (by apply set_slot_run). mrun reflexivity. rewrite (Z.add_comm _ PLUSXPN).
    eapply put_end; [| | |exact E]; [|cbn; lia|apply lookup_insert_eq].
    apply (sim_fds _ _ _ _ Hs). exists (<[k := GFd FD_XPN fd]> l). split; [done|]. cbn.
    apply (rep_put _ _ _ HR); [done..|lia|]. intros j Hj Hne. right. apply Hb. lia.
  - destruct Hput as [Hlow Hb].
    erewrite bind_step in E by (unfold lift; rewrite Hlow; reflexivity). erewrite bind_step in E by reflexivity.
    pose proof (rep_nonempty _ _ _ HR) as Hne. destruct (length l) as [|n] eqn:Elen; [by apply nil_length_inv in Elen|].
    assert ((l ++ replicate (S n) gfd_free) !! S n = Some gfd_free) as Hnew.
    { rewrite lookup_app_r, Elen, Nat.sub_diag by lia. done. }
    pose proof (rep_grow _ _ _ HR (S n)) as HR'.
    mrun reflexivity. mstep. cbn [b_fds with_fds fdstable fdstable_first_free]. rewrite Hl.
    rewrite Elen. mrun (unfold lift; cbn [mbind option_bind]; rewrite rdZ_of_nat, Hnew; reflexivity). cbn [gfd_type gfd_free Z.eqb FD_FREE].
    mrun (apply (set_slot_run (S n) _ _ (l ++ replicate (S n) gfd_free)); [done|rewrite length_app, length_replicate; lia]).
    rewrite (Z.add_comm _ PLUSXPN).
    eapply put_end; [| | |exact E]; [|cbn; lia|apply lookup_insert_eq].
    apply (sim_fds _ _ _ _ Hs). exists (<[S n := GFd FD_XPN fd]> (l ++ replicate (S n) gfd_free)). split; [done|]. cbn.
    apply (rep_put _ _ _ HR'); [rewrite length_app, length_replicate; lia|done|done|rewrite length_app; lia|]. intros j Hj _. by left.
Qed.

(** The intercepted [close] of a number that has just been freed is the C library's. *)
Lemma close_freed fd b l i :
  fdstable (b_fds b) = Some l → l !! i = Some gfd_free → fd = PLUSXPN + Z.of_nat i → close_n 1 fd b = libc (dlsym_close fd) b.
Proof. intros Hl Hi Hfd. cbn [close_n]. unfold on_fd. mrun (by eapply get_freed). done. Qed.
Lemma remove_run fd r b m :
  represents (b_fds b) m → m !! fd = Some r →
  ∃ t, fdstable_remove (close_n 1) fd b = (libc (dlsym_close fd);; mret 0) (with_fds t b) ∧ represents t (delete fd m).
Proof.
  intros (l & Hl & HR) Hm. apply (map_index _ _ _ HR) in Hm as [Hfd Hi].
  pose proof (lookup_lt_Some _ _ _ Hi) as Hlt.
  set (i := Z.to_nat (fd - PLUSXPN)) in *. assert (fd - PLUSXPN = Z.of_nat i) as Ei by (unfold i; lia).
  exists (FdTable (Some (<[i := gfd_free]> l)) (if Z.of_nat i <? fdstable_first_free (b_fds b) then Z.of_nat i else fdstable_first_free (b_fds b))).
  split.
  - unfold fdstable_remove. rewrite (proj2 (Z.ltb_ge _ _)) by done. rewrite Ei.
    mrun (by apply set_slot_run). mstep. cbn [b_fds with_fds fdstable_first_free].
    replace (Z.of_nat i + PLUSXPN) with fd by lia.
    set (t := FdTable (Some (<[i := gfd_free]> l)) (if Z.of_nat i <? fdstable_first_free (b_fds b) then Z.of_nat i else fdstable_first_free (b_fds b))). erewrite (bind_step _ _ _ tt (with_fds t b)).
    2: { unfold t. destruct (Z.of_nat i <? fdstable_first_free (b_fds b)); reflexivity. }
    subst t.
    unfold mbind, M_bind. rewrite (close_freed fd _ (<[i := gfd_free]> l) i); [done|done|by apply list_lookup_insert_eq|lia].
  - eexists. split; [reflexivity|]. cbn. replace fd with (PLUSXPN + Z.of_nat i) by lia. by apply rep_remove.
Qed.
Lemma ref_close fd :
  refines (close fd) (fd_call fd (λ r,
    ret ← of_xpn (xpn_close r);
    modify (λ s, Process (p_client s) (p_libc s) (delete fd (p_fds s)));;
    of_libc (libc_close fd);; mret ret) (of_libc (libc_close fd))).
Proof.
  intros b s a s' Hs E.
  change (close fd) with (on_fd (L := L) (W := W) fd (λ r, ret ← xpn (xpn_close r); fdstable_remove (close_n 1) fd;; mret ret) (libc (dlsym_close fd))).
  unfold on_fd, fd_call in *. pose proof Hs as (Hr & Ht & _).
  erewrite bind_step in E by reflexivity. destruct (p_fds s !! fd) as [r|] eqn:Hm.
  - mrun (by eapply get_mapped). cbn [gfd_type Z.eqb FD_XPN Pos.eqb]. mrun (by apply keepInit_run).
    apply bind_inv in E as (ret & s1 & E1 & E). destruct (ref_xpn _ _ _ _ _ Hs E1) as (b1 & Eb1 & Hs1).
    rewrite (bind_step _ _ _ _ _ Eb1). erewrite bind_step in E by reflexivity.
    assert (p_fds s1 = p_fds s) as Hm1. { unfold of_xpn in E1. destruct (xpn_close r (p_client s)) as [[]|]; [|done]. by injection E1 as <- <-. }
    destruct (remove_run fd r b1 (p_fds s)) as (t & Et & Ht').
    { rewrite <- Hm1. apply Hs1. } { done. }
    rewrite Hm1 in E. apply bind_inv in E as (x & s2 & E2 & [= <- <-]).
    destruct (ref_libc _ (with_fds t b1) _ _ _ (sim_fds _ _ _ _ Hs1 Ht') E2) as (b2 & Eb2 & Hs2).
    exists b2. split; [|done]. mrun (etransitivity; [exact Et|exact (bind_step _ (λ _, mret 0) _ _ _ Eb2)]). done.
  - destruct (Z.ltb_spec fd PLUSXPN); [|done]. mrun (by eapply get_low). by apply (ref_libc _ b s).
Qed.
Lemma ref_rename old new :
  refines (rename old new) (match below p old, below p new with
    | Some q, Some q' => of_xpn (xpn_rename (Some q) (Some q'))
    | _, _ => of_libc (libc_rename old new)
    end).
Proof.
  intros b s a s' Hs E. pose proof Hs as (Hr & _). unfold rename.
  mrun (by apply prefix_run). apply prefix_sim in Hs. pose proof Hs as (Hr' & _). unfold below in *.
  destruct ((strlen p <? strlen old) && bool_decide (take (length p) old = p)); cbn in *.
  - mrun (by apply prefix_run). apply prefix_sim in Hs. pose proof Hs as (Hr'' & _). unfold below in *.
    destruct ((strlen p <? strlen new) && bool_decide (take (length p) new = p)); cbn in *; [|by eapply ref_libc].
    mrun (by apply keepInit_run). mrun reflexivity. mrun reflexivity. by eapply ref_xpn.
  - mrun reflexivity. by eapply ref_libc.
Qed.

Lemma ref_call k : refines (bypass_call k) (spec_call p k).
Proof.
  assert (∀ path (f : cstr → prog W Z) g,
    refines (on_path path (λ q, fd ← xpn (f q); add_xpn_file_to_fdstable fd) (libc g))
      (path_call p path (λ q, fd ← of_xpn (f q); new_number fd) (of_libc g))) as Hopen.
  { intros. apply ref_path; [|apply ref_libc]. intros q. apply ref_bind; [apply ref_xpn|]. intros. apply ref_new_fd. }
  destruct k; cbn [bypass_call spec_call]; try apply ref_no_stat;
    first [ apply Hopen | apply ref_close | apply ref_rename | apply ref_ignored, ref_libc
          | apply ref_fd; [intros; apply ref_xpn|first [apply ref_libc|apply ref_in|apply ref_out]]
          | apply ref_path; [intros; apply ref_xpn|apply ref_libc] ].
Qed.
Lemma ref_run (f : user_call → M (bypass L W) answer) g l : (∀ k, refines (f k) (g k)) → refines (run f l) (run g l).
Proof.
  intros H. induction l as [|k l IH]; [apply ref_ret|]. apply ref_bind; [apply H|]. intros.
  apply ref_bind; [apply IH|]. intros. apply ref_ret.
Qed.
End simulation.

(** ** The first call below the mount point *)

Section start.
Context {L W : Type} `{NO : !NfiOps W} `{NI : !NfiInit W} `{SY : !Sys} `{LC : !Libc L}.
Implicit Types (b : bypass L W).

(** A process in which nothing of the library has run, started from an
    environment without INITCALLED. *)
Definition fresh b : Prop :=
  xpn_adaptor_initCalled_getenv (b_glob b) = false ∧ getenv (environ (b_glob b)) (str "INITCALLED") = None ∧
  b_fds b = FdTable None 0.

Lemma getenv_setenv_ne e n v n' : n ≠ n' → getenv (setenv e n v) n' = getenv e n'.
Proof.
  intros Hne. induction e as [|[a x] e IH]; cbn; [by rewrite decide_False|].
  destruct (decide (a = n)) as [->|Ha]; cbn; [by rewrite !decide_False|]. by rewrite IH.
Qed.

Lemma rep_fresh n : (0 < n)%nat → table_rep (replicate n gfd_free) 0 ∅.
Proof.
  intros Hn. constructor.
  - destruct n; [lia|done].
  - lia.
  - lia.
  - intros i g [-> _]%lookup_replicate. by left.
  - intros i r. rewrite lookup_empty. split; [done|]. by intros [E _]%lookup_replicate.
  - intros. apply lookup_empty.
Qed.

Lemma MAX_FDS_pos : (0 < Z.to_nat MAX_FDS)%nat.
Proof. unfold MAX_FDS. lia. Qed.
#[local] Opaque MAX_FDS MAX_DIRS.
(** The call leaves the process initialised, with no descriptors, when [xpn_init] succeeds. *)
Lemma keepInit_fresh b b0 ret :
  fresh b → xpn_adaptor_keepInit b = Some (ret, b0) → 0 <= ret →
  initialised (mount_point (b_glob b)) b0 ∧ represents (b_fds b0) ∅.
Proof.
  intros (Hg & He & Ht) E Hret. unfold xpn_adaptor_keepInit in E.
  erewrite bind_step in E by reflexivity. rewrite Hg, He in E. cbn [negb when] in E.
  erewrite bind_step in E by reflexivity. erewrite bind_step in E by reflexivity. cbn [b_glob with_glob xpn_adaptor_initCalled set_getenv set_initCalled Z.eqb] in E.
  do 4 (erewrite bind_step in E by reflexivity).
  apply bind_inv in E as (r & b1 & E1 & E). unfold run_init in E1.
  erewrite bind_step in E1 by reflexivity. apply bind_inv in E1 as ([r' i] & b2 & E1 & E2).
  unfold xpn in E1. destruct (xpn_init _ _ _) as [[[? ?] c]|]; [|done]. injection E1 as -> -> <-.
  erewrite bind_step in E2 by reflexivity. injection E2 as -> <-.
  erewrite bind_step in E by reflexivity. destruct (Z.ltb_spec r 0).
  - exfalso. apply bind_inv in E as (? & ? & _ & [= -> _]). lia.
  - erewrite bind_step in E by reflexivity. injection E as <- <-.
    split; [split; [done|split; [done|]]|].
    + unfold mount_point. destruct b as [? ? ? [? ? ? [] ? ? ?] ? ?]; cbn in *; [done|].
      by rewrite !getenv_setenv_ne.
    + destruct b as [? ? ? ? t ?]. cbn [b_fds] in Ht. subst t. exists (replicate (Z.to_nat MAX_FDS) gfd_free).
      split; [reflexivity|]. apply rep_fresh, MAX_FDS_pos.
Qed.
End start.

(** ** Errors *)

Section errors.
Context {L W : Type} `{NO : !NfiOps W} `{NI : !NfiInit W} `{SY : !Sys} `{LC : !Libc L} (p : cstr).
Implicit Types (b : bypass L W) (s : process L W).

Lemma libc_run {A} (f : libcall L A) b :
  ∃ a e l, libc f b = Some (a, with_libc l (with_client (with_env e (b_client b)) b)).
Proof.
  unfold libc. destruct (f (b_libc b)) as [[a [e|]] l]; [by eexists a, _, l|].
  exists a, (cl_env (b_client b)), l. by destruct b as [[]].
Qed.

(** A variable that a parent process left in the environment: nothing is initialised. *)
Lemma inherited_initcalled b v :
  xpn_adaptor_initCalled_getenv (b_glob b) = false → getenv (environ (b_glob b)) (str "INITCALLED") = Some v → atoi v ≠ 0 →
  ∃ g, xpn_adaptor_keepInit b = Some (0, with_glob g b) ∧ xpn_initialized g = xpn_initialized (b_glob b).
Proof.
  intros Hg He Hv. eexists. split.
  - unfold xpn_adaptor_keepInit. mstep. rewrite Hg, He. cbn [negb when]. mrun reflexivity. mstep.
    cbn [b_glob with_glob xpn_adaptor_initCalled set_getenv set_initCalled]. rewrite (proj2 (Z.eqb_neq _ _)) by done. reflexivity.
  - done.
Qed.
(** On a descriptor of the C library the lock that is asked for is a [fsync]. *)
Lemma flock_is_fsync fd op b : gfd_type <$> (fst <$> fdstable_get fd b) = Some FD_SYS → flock fd op b = libc (libc_fsync fd) b.
Proof.
  unfold flock, ignored, mbind, M_bind. destruct (fdstable_get fd b) as [[v b']|] eqn:E; [|done]. cbn. intros [= Hv]. rewrite Hv. cbn.
  unfold fdstable_get in E. erewrite bind_step in E by reflexivity.
  destruct (fdstable _), (PLUSXPN <=? fd); try (unfold lift in E; destruct (rdZ _ _)); simplify_eq; by try injection E as <- <-.
Qed.
End errors.

(** ** Theorems *)

(** C6: after the first call of a fresh process below the mount point, any program of calls on files runs under the interception library as on
    the abstract process, where the descriptors are a map to the descriptors of Expand in which a new one gets the lowest free number from 1000
    on: calls below the mount point and on the map's descriptors are Expand's, with the same results and the same state of the Expand library,
    any other call is the C library's, and the table of the library represents the map at the end. *)
Theorem bypass_refines_xpn {L W : Type} `{NO : !NfiOps W} `{NI : !NfiInit W} `{SY : !Sys} `{LC : !Libc L} (b b0 : bypass L W) ret calls rs s :
  fresh b → xpn_adaptor_keepInit b = Some (ret, b0) → 0 <= ret →
  run (spec_call (mount_point (b_glob b))) calls (Process (b_client b0) (b_libc b0) ∅) = Some (rs, s) →
  ∃ b', run bypass_call calls b0 = Some (rs, b') ∧
    b_client b' = p_client s ∧ b_libc b' = p_libc s ∧ represents (b_fds b') (p_fds s).
Proof.
  intros Hf Hk Hret Hrun. destruct (keepInit_fresh b b0 ret Hf Hk Hret) as [Hr Ht].
  destruct (ref_run (mount_point (b_glob b)) _ _ calls (ref_call _) b0 (Process (b_client b0) (b_libc b0) ∅) rs s)
    as (b' & E & _ & Ht' & Hc & Hl); [by split|done|].
  by exists b'.
Qed.

(** C34: dup of a descriptor of Expand returns the number that Expand gave, which is not a descriptor of the interception library: a read or a
    close of it goes to the C library. *)
Theorem dup_escapes {L W : Type} `{NO : !NfiOps W} `{NI : !NfiInit W} `{SY : !Sys} `{LC : !Libc L} p (b : bypass L W) s fd r n c' :
  sim p b s → p_fds s !! fd = Some r → xpn_dup r (p_client s) = Some (n, c') → n < PLUSXPN →
  ∃ b', dup fd b = Some (n, b') ∧ sim p b' (Process c' (p_libc s) (p_fds s)) ∧
    (∀ buf k, read n buf k b' = sys_in buf (libc_read n buf k) b') ∧ close n b' = libc (libc_close n) b'.
Proof.
  intros Hs Hm Hd Hn. pose proof Hs as (Hr & Ht & Hc & Hl).
  assert (dup fd b = Some (n, with_client c' b)) as E.
  { unfold dup, on_fd. mrun (by eapply get_mapped). cbn [gfd_type Z.eqb FD_XPN Pos.eqb real_fd]. mrun (by apply (keepInit_run p)).
    unfold xpn. by rewrite Hc, Hd. }
  exists (with_client c' b). split; [exact E|]. split; [done|].
  assert (fdstable_get n (with_client c' b) = Some (GFd FD_SYS n, with_client c' b)) as Hg by (by eapply get_low).
  split; [intros buf k; unfold read|change (close n) with (close_n (L := L) (W := W) 2 n); cbn [close_n]]; unfold on_fd; by mrun (exact Hg).
Qed.

(** Closedir gives Expand the index of the number in the table instead of the directory's descriptor: when the two differ, another
    descriptor of Expand is closed and the directory's stays open. *)
Theorem closedir_closes_another {L W : Type} `{NO : !NfiOps W} `{NI : !NfiInit W} `{SY : !Sys} `{LC : !Libc L} p (b : bypass L W) s n i ds fd path r l d :
  sim p b s → p_fds s !! fd = Some r → r ≠ fd - PLUSXPN →
  fdsdirtable (b_dirs b) = Some ds → list_find (λ x, x = Some (D_xpn n)) ds = Some (i, Some (D_xpn n)) → dir_heap (b_dirs b) !! n = Some (Dir fd path) →
  slot_of (b_client b) (fd - PLUSXPN) = Some (Some l) → cl_heap (b_client b) !! l = Some d → fd_links d = 1 → handles_ok (b_client b) d →
  fd - PLUSXPN < XPN_MAX_FILE →
  ∃ b', closedir (Some (D_xpn n)) b = Some (0, b') ∧ represents (b_fds b') (delete fd (p_fds s)) ∧
    slot_of (b_client b') (fd - PLUSXPN) = Some None ∧ slot_of (b_client b') r = slot_of (b_client b) r.
Proof.
  intros Hs Hm Hne Hds Hfind Hdir Hslot Hd Hlinks Hok Hmax. pose proof Hs as (Hr & Ht & Hc & Hl).
  assert (fdsdirtable_get (Some (D_xpn n)) b = Some (Z.of_nat i, b)) as Hget.
  { unfold fdsdirtable_get. mstep. rewrite Hds. cbn [default option_map from_option id]. by rewrite Hfind. }
  destruct (remove_run fd r b (p_fds s) Ht Hm) as (t & Et & Ht').
  destruct (libc_run (dlsym_close fd) (with_fds t b)) as (a & e & l' & El).
  set (b1 := with_fds t b) in *.
  set (c1 := with_env e (b_client b)).
  set (b2 := with_libc l' (with_client c1 b1)).
  set (dt := DirTable (Some (<[i := None]> ds)) (Z.min (Z.of_nat i) (fdsdirtable_first_free (b_dirs b)))
    (alter (λ d, Dir (fd - PLUSXPN) (dir_path d)) n (dir_heap (b_dirs b))) (dir_next (b_dirs b))).
  assert (fdsdirtable_remove (Some (D_xpn n)) b = Some (0, with_dirt dt b2)) as Hrem.
  { unfold fdsdirtable_remove. mrun (exact Hget). rewrite (proj2 (Z.eqb_neq _ _)) by lia.
    erewrite bind_step by (unfold dir_of; mstep; rewrite Hdir; reflexivity). cbv iota beta. cbn [dir_fd].
    mrun (unfold fdstable_remove_; rewrite Et; exact (bind_step _ (λ _, mret 0) _ _ _ El)).
    unfold set_dir_fd, set_dirs, dt, b2, b1, c1. unfold mbind, M_bind, modify, get, mret, M_ret.
    cbn [b_dirs with_dirt with_libc with_client with_fds fdsdirtable fdsdirtable_first_free dir_heap dir_next].
    by rewrite Hds, Nat2Z.id. }
  assert (slot_of c1 (fd - PLUSXPN) = Some (Some l)) as Hslot1 by done.
  destruct (release_last nfi_closedir c1 _ l d Hslot1 Hd Hlinks Hok) as (e2 & Erel).
  destruct Ht as (tl & Htl & HR). destruct (map_index _ _ _ HR fd r Hm) as [Hfd Hr'].
  set (c2 := with_files (<[Z.to_nat (fd - PLUSXPN) := None]> (xpn_file_table c1)) (with_heap (delete l (cl_heap c1)) (with_env e2 c1))) in *.
  assert (xpn_closedir (Some (Dir (fd - PLUSXPN) path)) c1 = Some (0, c2)) as Eclose.
  { unfold xpn_closedir, xpn_simple_closedir. cbn [dir_fd]. zbool.
    mrun (by apply (fd_is_null_run _ _ (Some l))). cbn. mrun (exact Erel). done. }
  assert (xpn (xpn_closedir (Some (Dir (fd - PLUSXPN) path))) (with_dirt dt b2) = Some (0, with_client c2 (with_dirt dt b2))) as Eclose'
    by (unfold xpn; cbn [b_client with_dirt with_libc with_client b2]; by rewrite Eclose).
  eexists. split; [|split; [|split]].
  - unfold closedir. mrun (exact Hget). rewrite (proj2 (Z.eqb_neq _ _)) by lia. cbn [negb].
    mrun (by apply (keepInit_run p)). mrun (exact Hrem).
    erewrite bind_step.
    2: { unfold dir_of. mstep. cbn [b_dirs with_dirt dir_heap dt]. rewrite lookup_alter_eq, Hdir. reflexivity. }
    cbv iota beta. mrun (exact Eclose'). mrun reflexivity. reflexivity.
  - exact Ht'.
  - apply rdZ_lookup in Hslot as [H0 Hk]. apply rdZ_lookup. split; [done|].
    apply list_lookup_insert_eq. by eapply lookup_lt_Some.
  - unfold slot_of. cbn. unfold rdZ. destruct (Z.leb_spec 0 r); [|done]. apply list_lookup_insert_ne. lia.
Qed.

(** ** A concrete process *)

Definition no_conf : option conf_file_data := None.
Definition start_globals : globals := Globals 0 false (str "/tmp/expand/") false true [] 0.
Definition some_process (c : client memfs) (g : globals) (t : fd_table) (d : dir_table) : bypass unit memfs := Bypass c tt no_conf g t d.
Definition start_process : bypass unit memfs := some_process (mclient 1) start_globals (FdTable None 0) (DirTable None 0 ∅ 0).
Definition started_process : bypass unit memfs :=
  some_process (mclient 1) (Globals 1 true (str "/tmp/expand/") false true [(str "INITCALLED", str "1")] 1)
    (FdTable (Some (replicate (Z.to_nat MAX_FDS) gfd_free)) 0) (DirTable (Some (replicate (Z.to_nat MAX_DIRS) None)) 0 ∅ 0).
Definition some_calls : list user_call :=
  [Open (str "/etc/motd") O_RDONLY 0; Mkdir (str "/tmp/expand/xpn/d") 493; Chmod (str "/tmp/expand/xpn/d") 448; Lseek 3 0 SEEK_SET].
Abbreviation some_run := (run (spec_call (mount_point (b_glob start_process))) some_calls (Process (b_client started_process) (b_libc started_process) ∅)) (only parsing).
Definition some_replies : list (Z * option xstat) := [(-1, None); (0, None); (0, None); (-1, None)].

Lemma some_run_ends : ∃ s, some_run = Some (some_replies, s).
Proof.
  assert (fst <$> some_run = Some some_replies) as E by (match goal with |- ?a = _ => vm_cast_no_check (eq_refl a) end).
  destruct (run _ some_calls _) as [[rs s]|]; [|discriminate E]. injection E as ->. by exists s.
Qed.
Lemma bypass_refines_xpn_witness :
  ∃ b' s, some_run = Some (some_replies, s) ∧ run bypass_call some_calls started_process = Some (some_replies, b') ∧ b_client b' = p_client s.
Proof.
  destruct some_run_ends as [s E].
  destruct (bypass_refines_xpn start_process started_process 0 some_calls some_replies s) as (b' & E' & Hc & _).
  - by split_and!.
  - reflexivity.
  - lia.
  - exact E.
  - exists b', s. by split_and!.
Defined.

(** One descriptor of Expand, the number 1000. *)
Definition one_map : gmap Z Z := {[ 1000 := 0 ]}.
Definition ready_globals : globals := Globals 1 true (str "/tmp/expand/") true true [] 1.
Definition one_process : bypass unit memfs :=
  some_process client_one ready_globals (FdTable (Some [GFd FD_XPN 0]) 1) (DirTable None 0 ∅ 0).
Lemma table_rep_one r : 0 <= r < PLUSXPN → table_rep [GFd FD_XPN r] 1 {[ 1000 := r ]}.
Proof.
  intros Hr. constructor.
  - done.
  - cbn. lia.
  - intros [|i] g; cbn; [by intros [= <-]|done].
  - intros [|i] g; cbn; [|done]. intros [= <-]. right. by exists r.
  - intros i r'. destruct i as [|i].
    + change (PLUSXPN + Z.of_nat 0) with 1000. rewrite lookup_singleton_eq. cbn. split; intros H; by simplify_eq.
    + rewrite lookup_singleton_ne by (unfold PLUSXPN; lia). by split.
  - intros fd Hfd. apply lookup_singleton_ne. unfold PLUSXPN in *. lia.
Qed.
Lemma dup_escapes_witness :
  ∃ b', dup 1000 one_process = Some (1, b') ∧ close 1 b' = libc (libc_close 1) b'.
Proof.
  destruct client_one_facts as (_ & _ & _ & F).
  destruct (dup_escapes (str "/tmp/expand/") one_process (Process client_one tt one_map) 1000 0 1 client_dup) as (b' & E & _ & _ & E').
  - split; [by split_and!|]. split; [|done]. exists [GFd FD_XPN 0]. split; [done|]. apply table_rep_one. unfold PLUSXPN. lia.
  - apply lookup_singleton_eq.
  - exact F.
  - unfold PLUSXPN. lia.
  - exists b'. by split.
Defined.

(** A directory whose descriptor of Expand is 1 and whose number is 1000. *)
Definition client_two : client memfs :=
  with_files (<[1%nat := Some 1%nat]> (xpn_file_table client_one)) (with_heap (<[1%nat := desc_one]> (cl_heap client_one)) client_one).
Definition dir_process : bypass unit memfs :=
  some_process client_two ready_globals (FdTable (Some [GFd FD_XPN 1]) 1)
    (DirTable (Some [Some (D_xpn 0)]) 1 {[ 0%nat := Dir 1000 (str "/xpn/d/") ]} 1).
Lemma closedir_closes_another_witness :
  ∃ b', closedir (Some (D_xpn 0)) dir_process = Some (0, b') ∧
    slot_of (b_client b') 0 = Some None ∧ slot_of (b_client b') 1 = slot_of client_two 1.
Proof.
  destruct (closedir_closes_another (str "/tmp/expand/") dir_process (Process client_two tt {[ 1000 := 1 ]}) 0 0 [Some (D_xpn 0)] 1000 (str "/xpn/d/") 1 0 desc_one)
    as (b' & E & _ & H0 & H1).
  - split; [by split_and!|]. split; [|done]. exists [GFd FD_XPN 1]. split; [done|]. apply table_rep_one. unfold PLUSXPN. lia.
  - apply lookup_singleton_eq.
  - unfold PLUSXPN. lia.
  - done.
  - reflexivity.
  - apply lookup_singleton_eq.
  - reflexivity.
  - reflexivity.
  - done.
  - intros i fh H. destruct i as [|[|[|[|i]]]]; discriminate H.
  - unfold PLUSXPN, XPN_MAX_FILE. lia.
  - exists b'. by split_and!.
Defined.
