(* ===== verification/Darray.v ===== *)
(** * Darray: arrays of pointers that grow

    src/src/base/darray.c: arrays of pointers with a NULL after the last one, as
    blocks of cells, and that the operations act on them as on lists. *)

From S2P Require Import Prelude.

(** ** Data *)

(** A cell of a block: never written since it was allocated, NULL, or a pointer. *)
Inductive cell (P : Type) := Junk | Null | Ptr (p : P).
Arguments Junk {P}.
Arguments Null {P}.
Arguments Ptr {P} p.

(** NULL, or a block of cells. *)
Definition t_pointerDArray (P : Type) : Type := option (list (cell P)).

(** The variables whose addresses a call is given, [None] for a NULL address:
    the array, its number of elements, and what was stored in [delGPtr]. *)
Record vars (P : Type) := Vars { v_t : option (t_pointerDArray P); v_n : option Z; v_del : option (cell P) }.
Arguments Vars {P} v_t v_n v_del.
Arguments v_t {P} v.
Arguments v_n {P} v.
Arguments v_del {P} v.

Section darray.
Context {P : Type} `{EqDecision P}.
Implicit Types (l : list P) (b : list (cell P)) (t : t_pointerDArray P) (v : vars P).

(** [realloc] of a block, which [ok] tells to succeed; [memmove] inside a block. *)
Definition realloc (ok : bool) (b : list (cell P)) (n : Z) : t_pointerDArray P :=
  if ok then Some (take (Z.to_nat n) b ++ replicate (Z.to_nat n - length b) Junk) else None.
Definition memmove (dst src count : Z) (b : list (cell P)) : option (list (cell P)) :=
  if (0 <=? dst) && (0 <=? src) && (0 <=? count) && (dst + count <=? Z.of_nat (length b)) && (src + count <=? Z.of_nat (length b))
  then Some (take (Z.to_nat dst) b ++ take (Z.to_nat count) (drop (Z.to_nat src) b) ++ drop (Z.to_nat (dst + count)) b)
  else None.

(** The pointer in a cell, [None] for NULL; reading an unwritten one is undefined. *)
Definition pointer (c : cell P) : option (option P) :=
  match c with Junk => None | Null => Some None | Ptr p => Some (Some p) end.
Definition rd (b : list (cell P)) (i : Z) : option (option P) := rdZ b i ≫= pointer.

(** ** Arrays with their number of elements *)

Definition DARRAY_InsEndDarray (ok : bool) (v : vars P) (gptr : cell P) : option (Z * vars P) :=
  match v_n v with
  | None => Some (-1, v)
  | Some n =>
    t ← v_t v;
    match t with
    | None => if ok then Some (1, Vars (Some (Some [gptr; Null])) (Some 1) (v_del v)) else Some (-1, v)
    | Some b =>
      let n := n ⊕ 1 in
      match realloc ok b (n ⊕ 1) with
      | None => Some (-1, Vars (Some (Some b)) (Some n) (v_del v))
      | Some b => b ← wrZ b n Null; b ← wrZ b (n ⊖ 1) gptr; Some (1, Vars (Some (Some b)) (Some n) (v_del v))
      end
    end
  end.

(** The checks the functions below make first, with the block and the number of
    elements that they go on with; and how the three removals end. *)
Definition checked (v : vars P) (k : list (cell P) → Z → option (Z * vars P)) : option (Z * vars P) :=
  match v_t v, v_n v with
  | Some (Some b), Some n => k b n
  | _, _ => Some (-1, v)
  end.
Definition released (t : t_pointerDArray P) (n : Z) (d : option (cell P)) : option (Z * vars P) :=
  Some (1, Vars (Some (if n =? 0 then None else t)) (Some n) d).

Definition DARRAY_DelEndDarray (ok : bool) (v : vars P) : option (Z * vars P) :=
  checked v (λ b n,
    if negb (n =? 0) then
      let n := n ⊖ 1 in
      d ← rdZ b n; b ← wrZ b n Null;
      released (realloc ok b (n ⊕ 1)) n (Some d)
    else released (Some b) n (v_del v)).

Definition DARRAY_DelBeginDarray (ok : bool) (v : vars P) : option (Z * vars P) :=
  checked v (λ b n,
    if negb (n =? 0) then
      let n := n ⊖ 1 in
      d ← rdZ b 0; b ← memmove 0 1 n b; b ← wrZ b n Null;
      released (realloc ok b (n ⊕ 1)) n (Some d)
    else released (Some b) n (v_del v)).

Definition DARRAY_DelNFromDarray (ok : bool) (v : vars P) (orden : Z) : option (Z * vars P) :=
  checked v (λ b n,
    if n <? orden then Some (-1, v)
    else if negb (n =? 0) then
      d ← rdZ b orden; b ← memmove orden (orden ⊕ 1) (n ⊖ orden ⊕ 1) b;
      let n := n ⊖ 1 in
      released (realloc ok b (n ⊕ 1)) n (Some d)
    else released (Some b) n (v_del v)).

Definition DARRAY_ChangeNFromDarray (v : vars P) (orden : Z) (nPtr : cell P) : option (Z * vars P) :=
  checked v (λ b n,
    if n <? orden then Some (-1, v)
    else b ← wrZ b orden nPtr; Some (1, Vars (Some (Some b)) (Some n) (v_del v))).

(** The pointers before the first NULL: what the loops [for (i=0; t[i]; i++)]
    go through; [None] when there is no NULL. *)
Fixpoint before_null (b : list (cell P)) : option (list P) :=
  match b with
  | [] | Junk :: _ => None
  | Null :: _ => Some []
  | Ptr p :: b => (p ::.) <$> before_null b
  end.

(** The pointers that were passed to [freef], the result, and the variables. *)
Definition DARRAY_FreeEltosDarray (v : vars P) : option (list P * Z * vars P) :=
  match v_t v, v_n v with
  | Some t, Some _ =>
    freed ← match t with Some b => before_null b | None => Some [] end;
    Some (freed, 1, Vars (Some None) (Some 0) (v_del v))
  | _, _ => Some ([], -1, v)
  end.

(** [findf gptr] is the test; [n] elements from the index [i] on. *)
Fixpoint find_from (findf : option P → bool) (b : list (cell P)) (i : Z) (n : nat) : option (option P) :=
  match n with
  | O => Some None
  | S n => p ← rd b i; if findf p then Some p else find_from findf b (i ⊕ 1) n
  end.
Definition DARRAY_FindEltoDarray (t : t_pointerDArray P) (n : Z) (findf : option P → bool) : option (option P) :=
  if n <=? 0 then Some None else b ← t; find_from findf b 0 (Z.to_nat n).

(** The macro of darray.h: no check of the index. *)
Definition DARRAY_GetNFromDarray (t : t_pointerDArray P) (orden : Z) : option (option P) :=
  match t with None => Some None | Some b => rd b orden end.

(** ** Arrays that end at NULL *)

Definition DARRAY_GetNDarray (t : t_pointerDArray P) : option Z :=
  match t with None => Some 0 | Some b => (λ l, Z.of_nat (length l)) <$> before_null b end.

Definition DARRAY_FreeEltosDarray2 (t : option (t_pointerDArray P)) : option (list P * Z * option (t_pointerDArray P)) :=
  match t with
  | None => Some ([], -1, None)
  | Some None => Some ([], 1, Some None)
  | Some (Some b) => freed ← before_null b; Some (freed, 1, Some None)
  end.

(** The index of the first cell that is [elto] or NULL. *)
Fixpoint index_of (elto : P) (b : list (cell P)) : option nat :=
  match b with
  | [] | Junk :: _ => None
  | Null :: _ => Some O
  | Ptr p :: b => if decide (p = elto) then Some O else S <$> index_of elto b
  end.
Definition DARRAY_DelEltoDarray (ok : bool) (t : t_pointerDArray P) (elto : option P) : option (Z * t_pointerDArray P) :=
  match t, elto with
  | Some b, Some e =>
    pentry ← index_of e b;
    x ← rd b (Z.of_nat pentry);
    match x with
    | None => Some (-1, t)
    | Some _ =>
      rest ← before_null (drop (S pentry) b);
      let c := Z.of_nat (S pentry + length rest) in
      b ← memmove (Z.of_nat pentry) (Z.of_nat pentry ⊕ 1) (c ⊖ Z.of_nat pentry) b;
      Some (1, if c =? 1 then None else realloc ok b c)
    end
  | _, _ => Some (-1, t)
  end.

Definition DARRAY_InsEndDarray2 (ok : bool) (t : t_pointerDArray P) (gptr : cell P) : option (Z * t_pointerDArray P) :=
  i ← DARRAY_GetNDarray t;
  r ← DARRAY_InsEndDarray ok (Vars (Some t) (Some i) None) gptr;
  t ← v_t r.2; Some (r.1, t).
Definition DARRAY_DelEndDarray2 (ok : bool) (t : t_pointerDArray P) (d : option (cell P)) : option (Z * t_pointerDArray P * option (cell P)) :=
  match t with
  | None => Some (-1, t, d)
  | Some b =>
    l ← before_null b;
    r ← DARRAY_DelEndDarray ok (Vars (Some t) (Some (Z.of_nat (length l))) d);
    t ← v_t r.2; Some (r.1, t, v_del r.2)
  end.
(** The cell at [orden], unless NULL comes first. *)
Fixpoint get_from (b : list (cell P)) (orden : nat) : option (option P) :=
  match b with
  | [] | Junk :: _ => None
  | Null :: _ => Some None
  | Ptr p :: b => match orden with O => Some (Some p) | S k => get_from b k end
  end.
Definition DARRAY_GetNFromDarray2 (t : t_pointerDArray P) (orden : Z) : option (option P) :=
  match t with
  | None => Some None
  | Some b => if orden <? 0 then _ ← before_null b; Some None else get_from b (Z.to_nat orden)
  end.

(** ** Arrays as lists

    The block of a list: the pointers and NULL; no block for the empty list.
    A block has less than 2^60 cells, as no object is larger than 2^63 bytes. *)

Definition cells_of (l : list P) : list (cell P) := (Ptr <$> l) ++ [Null].
Definition block_of (l : list P) : t_pointerDArray P := match l with [] => None | _ => Some (cells_of l) end.
Definition fits (l : list P) : Prop := Z.of_nat (length l) < 2 ^ 60 - 1.
Definition holds (l : list P) (d : option (cell P)) : vars P :=
  Vars (Some (block_of l)) (Some (Z.of_nat (length l))) d.

Lemma cells_length l : length (cells_of l) = S (length l).
Proof. unfold cells_of. rewrite length_app, length_fmap. cbn. lia. Qed.
Lemma cells_lookup l k : (k < length l)%nat → cells_of l !! k = Ptr <$> l !! k.
Proof. intros. unfold cells_of. rewrite lookup_app_l by (rewrite length_fmap; lia). apply list_lookup_fmap. Qed.
Lemma cells_end l : cells_of l !! length l = Some Null.
Proof. unfold cells_of. rewrite lookup_app_r; rewrite length_fmap; [|lia]. by rewrite Nat.sub_diag. Qed.
Lemma cells_cons p l : cells_of (p :: l) = Ptr p :: cells_of l.
Proof. done. Qed.
Lemma cells_app l1 l2 : cells_of (l1 ++ l2) = (Ptr <$> l1) ++ cells_of l2.
Proof. unfold cells_of. by rewrite fmap_app, <- (assoc_L (++)). Qed.
Lemma before_null_cells l : before_null (cells_of l) = Some l.
Proof. induction l as [|p l IH]; [done|]. rewrite cells_cons. cbn. by rewrite IH. Qed.
Lemma block_some l : l ≠ [] → block_of l = Some (cells_of l).
Proof. by destruct l. Qed.

(** The lookups, the lengths and the wraps of the operations on a represented array. *)
Lemma released_holds t l n d :
  n = Z.of_nat (length l) → t = Some (cells_of l) → released t n d = Some (1, holds l d).
Proof.
  intros -> ->. unfold released, holds. destruct l; [done|]. by rewrite (proj2 (Z.eqb_neq _ _)) by (cbn; lia).
Qed.
Lemma shrink_cells b l n :
  n = Z.of_nat (length l) + 1 → (S (length l) ≤ length b)%nat → take (S (length l)) b = cells_of l →
  realloc true b n = Some (cells_of l).
Proof.
  intros -> Hb E. unfold realloc.
  replace (Z.to_nat (Z.of_nat (length l) + 1)) with (S (length l)) by lia.
  rewrite E. replace (S (length l) - length b)%nat with O by lia. cbn. by rewrite app_nil_r.
Qed.
Lemma memmove_nat (dst src count : nat) b :
  (dst + count ≤ length b)%nat → (src + count ≤ length b)%nat →
  memmove (Z.of_nat dst) (Z.of_nat src) (Z.of_nat count) b
  = Some (take dst b ++ take count (drop src b) ++ drop (dst + count) b).
Proof. intros. unfold memmove. zbool. by rewrite !Nat2Z.id, <- Nat2Z.inj_add, Nat2Z.id. Qed.
(** The cells after one that is deleted move to its place, and the last two are NULL. *)
Lemma move_down l1 p l2 :
  take (length l1) (cells_of (l1 ++ p :: l2)) ++ take (length l2) (drop (S (length l1)) (cells_of (l1 ++ p :: l2)))
    ++ drop (length l1 + length l2) (cells_of (l1 ++ p :: l2))
  = (Ptr <$> l1 ++ l2) ++ drop (length l2) (Ptr p :: (Ptr <$> l2)) ++ [Null].
Proof.
  rewrite cells_app, cells_cons.
  rewrite take_app_le, take_ge by (rewrite length_fmap; lia).
  rewrite (drop_app_ge _ _ (S (length l1))), (drop_app_ge _ _ (length l1 + length l2)) by (rewrite length_fmap; lia).
  rewrite length_fmap, Nat.sub_succ_l, Nat.sub_diag by lia. cbn [drop]. rewrite drop_0.
  replace (length l1 + length l2 - length l1)%nat with (length l2) by lia.
  rewrite fmap_app, <- !(assoc_L (++)). f_equal. unfold cells_of.
  rewrite take_app_le, take_ge by (rewrite length_fmap; lia). f_equal.
  change (Ptr p :: ((Ptr <$> l2) ++ [Null])) with ((Ptr p :: (Ptr <$> l2)) ++ [Null]).
  apply drop_app_le. cbn. rewrite length_fmap. lia.
Qed.
Lemma move_down_end l1 p l2 :
  take (length l1) (cells_of (l1 ++ p :: l2)) ++ take (S (length l2)) (drop (S (length l1)) (cells_of (l1 ++ p :: l2)))
    ++ drop (length l1 + S (length l2)) (cells_of (l1 ++ p :: l2))
  = cells_of (l1 ++ l2) ++ [Null].
Proof.
  rewrite !cells_app, cells_cons.
  rewrite take_app_le, take_ge by (rewrite length_fmap; lia).
  rewrite (drop_app_ge _ _ (S (length l1))), (drop_app_ge _ _ (length l1 + S (length l2))) by (rewrite length_fmap; lia).
  rewrite length_fmap, Nat.sub_succ_l, Nat.sub_diag by lia. cbn [drop]. rewrite drop_0.
  replace (length l1 + S (length l2) - length l1)%nat with (S (length l2)) by lia. cbn [drop].
  rewrite <- !(assoc_L (++)). f_equal. unfold cells_of.
  rewrite (take_ge ((Ptr <$> l2) ++ [Null])) by (rewrite length_app, length_fmap; cbn; lia). f_equal.
  by rewrite drop_app_ge, length_fmap, Nat.sub_diag by (rewrite length_fmap; lia).
Qed.
Lemma drop_last l p : ∃ c, drop (length l) (Ptr p :: (Ptr <$> l)) = [c].
Proof.
  induction l as [|q l IH] using rev_ind; [by eexists|].
  exists (Ptr q). rewrite length_app, Nat.add_1_r. cbn [drop]. rewrite fmap_app, drop_app_ge by (rewrite length_fmap; lia).
  by rewrite length_fmap, Nat.sub_diag.
Qed.
Lemma fits_app l1 l2 : fits (l1 ++ l2) → fits l1 ∧ fits l2.
Proof. unfold fits. rewrite length_app. lia. Qed.


Lemma ins_end l p d :
  fits (l ++ [p]) → DARRAY_InsEndDarray true (holds l d) (Ptr p) = Some (1, holds (l ++ [p]) d).
Proof.
  unfold fits. rewrite length_app. cbn [length]. intros Hl. unfold DARRAY_InsEndDarray, holds. cbn [v_n v_t v_del].
  destruct (decide (l = [])) as [->|Hne]; [done|]. rewrite (block_some l Hne). cbn -[realloc wrZ i64]. cint.
  unfold realloc. rewrite take_ge by (rewrite cells_length; lia).
  replace (Z.to_nat _ - length (cells_of l))%nat with 1%nat by (rewrite cells_length; lia).
  unfold cells_of. rewrite <- (assoc_L (++)). cbn [app replicate].
  replace (Z.of_nat (length l) + 1) with (Z.of_nat (S (length l))) by lia.
  rewrite wrZ_Some by (rewrite length_app, length_fmap; cbn; lia). cbn -[wrZ].
  rewrite insert_app_r_alt by (rewrite length_fmap; lia). rewrite length_fmap, Nat.sub_succ_l, Nat.sub_diag by lia. cbn [list_insert insert].
  replace (Z.of_nat (S (length l)) - 1) with (Z.of_nat (length l)) by lia.
  rewrite wrZ_Some by (rewrite length_app, length_fmap; cbn; lia). cbn -[wrZ].
  rewrite insert_app_r_alt by (rewrite length_fmap; lia). rewrite length_fmap, Nat.sub_diag. cbn [list_insert insert].
  rewrite block_some by (by destruct l). f_equal. f_equal. unfold cells_of. rewrite fmap_app, <- (assoc_L (++)), length_app. cbn [length].
  do 2 f_equal. lia.
Qed.

(** A failed insertion counts the element all the same. *)
Lemma ins_end_fails l p d :
  l ≠ [] → fits l → DARRAY_InsEndDarray false (holds l d) (Ptr p)
  = Some (-1, Vars (Some (block_of l)) (Some (Z.of_nat (length l) + 1)) d).
Proof.
  unfold fits. intros Hne Hl. unfold DARRAY_InsEndDarray, holds. cbn [v_n v_t v_del].
  rewrite (block_some l Hne). cbn. cint. done.
Qed.

Lemma del_end l p d :
  fits (l ++ [p]) → DARRAY_DelEndDarray true (holds (l ++ [p]) d) = Some (1, holds l (Some (Ptr p))).
Proof.
  intros Hf. pose proof (proj1 (fits_app _ _ Hf)) as Hl. unfold fits in *. rewrite length_app in Hf. cbn [length] in Hf.
  unfold DARRAY_DelEndDarray, checked, holds. cbn [v_n v_t v_del].
  rewrite block_some by (by destruct l). rewrite length_app. cbn [length]. zbool. cint.
  replace (Z.of_nat (length l + 1) - 1) with (Z.of_nat (length l)) by lia.
  rewrite cells_app, rdZ_of_nat. rewrite lookup_app_r, length_fmap, Nat.sub_diag by (rewrite length_fmap; lia). cbn -[wrZ i64 realloc].
  rewrite wrZ_Some by (rewrite length_app, length_fmap; cbn; lia). cbn -[i64 realloc].
  rewrite insert_app_r_alt by (rewrite length_fmap; lia). rewrite length_fmap, Nat.sub_diag. cbn [list_insert insert].
  apply released_holds; [done|]. apply shrink_cells; [lia|rewrite length_app, length_fmap; cbn; lia|].
  rewrite take_app_ge by (rewrite length_fmap; lia). rewrite length_fmap, Nat.sub_succ_l, Nat.sub_diag by lia. done.
Qed.

Lemma del_begin l p d :
  fits (p :: l) → DARRAY_DelBeginDarray true (holds (p :: l) d) = Some (1, holds l (Some (Ptr p))).
Proof.
  intros Hf. assert (fits l) as Hl by (revert Hf; unfold fits; cbn [length]; lia). unfold fits in *. cbn [length] in Hf.
  unfold DARRAY_DelBeginDarray, checked, holds. cbn [v_n v_t v_del]. rewrite block_some by done. cbn [length]. zbool. cint.
  rewrite Nat2Z.inj_succ, Z.sub_succ_l. replace (Z.succ (Z.of_nat (length l) - 1)) with (Z.of_nat (length l)) by lia.
  rewrite cells_cons. 
  change (rdZ (Ptr p :: cells_of l) 0) with (Some (Ptr p)). cbn [mbind option_bind].
  rewrite (memmove_nat 0 1 (length l)) by (cbn [length]; rewrite cells_length; lia). cbn [mbind option_bind Nat.add].
  pose proof (move_down [] p l) as E. cbn [app length Nat.add] in E. rewrite cells_cons in E. rewrite E. clear E.
  destruct (drop_last l p) as [c ->].
  rewrite wrZ_Some by (rewrite !length_app, length_fmap; cbn; lia). cbn [mbind option_bind].
  rewrite insert_app_r_alt by (rewrite length_fmap; lia). rewrite length_fmap, Nat.sub_diag. cbn [list_insert insert app].
  apply released_holds; [done|]. apply shrink_cells; [lia|rewrite length_app, length_fmap; cbn; lia|].
  rewrite take_app_ge by (rewrite length_fmap; lia). rewrite length_fmap, Nat.sub_succ_l, Nat.sub_diag by lia. done.
Qed.

(** Removing the [k]-th moves one cell more than there is: the read past the end
    of the block is there whatever [k] is. *)
Lemma del_nth_reads_past_end ok l k d :
  fits l → (k < length l)%nat → DARRAY_DelNFromDarray ok (holds l d) (Z.of_nat k) = None.
Proof.
  unfold fits. intros Hf Hk. unfold DARRAY_DelNFromDarray, checked, holds. cbn [v_n v_t v_del].
  rewrite block_some by (intros ->; cbn in Hk; lia). zbool. cint.
  destruct (rdZ _ _); [|done]. cbn [mbind option_bind]. unfold memmove. rewrite cells_length.
  rewrite (proj2 (Z.leb_gt (Z.of_nat k + 1 + _) _)) by lia. by rewrite andb_false_r.
Qed.

Lemma change_nth l k p d :
  (k < length l)%nat → DARRAY_ChangeNFromDarray (holds l d) (Z.of_nat k) (Ptr p) = Some (1, holds (<[k := p]> l) d).
Proof.
  intros Hk. unfold DARRAY_ChangeNFromDarray, checked, holds. cbn [v_n v_t v_del].
  rewrite block_some by (intros ->; cbn in Hk; lia). zbool.
  rewrite wrZ_Some by (rewrite cells_length; lia). cbn. rewrite length_insert.
  rewrite (block_some (<[k:=p]> l)) by (intros E; apply (f_equal length) in E; rewrite length_insert in E; cbn in E; lia).
  unfold cells_of. rewrite list_fmap_insert, insert_app_l by (rewrite length_fmap; lia). done.
Qed.
(** The index [n] is not refused: NULL at the end is overwritten. *)
Lemma change_end_unterminated l p d :
  l ≠ [] → DARRAY_ChangeNFromDarray (holds l d) (Z.of_nat (length l)) (Ptr p)
  = Some (1, Vars (Some (Some (Ptr <$> l ++ [p]))) (Some (Z.of_nat (length l))) d).
Proof.
  intros Hne. unfold DARRAY_ChangeNFromDarray, checked, holds. cbn [v_n v_t v_del].
  rewrite (block_some l Hne). zbool. rewrite wrZ_Some by (rewrite cells_length; lia). cbn.
  unfold cells_of. rewrite insert_app_r_alt by (rewrite length_fmap; lia).
  by rewrite length_fmap, Nat.sub_diag, fmap_app.
Qed.

Lemma free_eltos l d : DARRAY_FreeEltosDarray (holds l d) = Some (l, 1, holds [] d).
Proof.
  unfold DARRAY_FreeEltosDarray, holds. cbn [v_n v_t v_del]. destruct l as [|p l]; [done|].
  rewrite block_some, before_null_cells by done. done.
Qed.
Lemma free_eltos2 l : DARRAY_FreeEltosDarray2 (Some (block_of l)) = Some (l, 1, Some (block_of [])).
Proof. destruct l as [|p l]; [done|]. rewrite block_some by done. cbn -[before_null cells_of]. by rewrite before_null_cells. Qed.

Lemma count_block l : DARRAY_GetNDarray (block_of l) = Some (Z.of_nat (length l)).
Proof. destruct l as [|p l]; [done|]. rewrite block_some by done. cbn -[before_null cells_of]. by rewrite before_null_cells. Qed.

Lemma rd_cells l k : (k < length l)%nat → rd (cells_of l) (Z.of_nat k) = Some (l !! k).
Proof.
  intros Hk. unfold rd. rewrite rdZ_of_nat, cells_lookup by done.
  destruct (lookup_lt_is_Some_2 l k Hk) as [p ->]. done.
Qed.
Lemma get_nth l k : (k < length l)%nat → DARRAY_GetNFromDarray (block_of l) (Z.of_nat k) = Some (l !! k).
Proof.
  intros Hk. rewrite block_some by (intros ->; cbn in Hk; lia). by apply rd_cells.
Qed.
Lemma get_nth2 l k : DARRAY_GetNFromDarray2 (block_of l) k = Some (if k <? 0 then None else l !! Z.to_nat k).
Proof.
  destruct (decide (l = [])) as [->|Hne]; [by destruct (k <? 0)|]. rewrite block_some by done. cbn -[before_null cells_of].
  rewrite before_null_cells. destruct (k <? 0); [done|]. generalize (Z.to_nat k) as i. clear.
  induction l as [|p l IH]; intros [|i]; try done. rewrite cells_cons. cbn. apply IH.
Qed.

(** The first element that passes the test. *)
Lemma find_first findf l :
  fits l → DARRAY_FindEltoDarray (block_of l) (Z.of_nat (length l)) findf
  = Some (snd <$> list_find (λ p, findf (Some p) = true) l).
Proof.
  intros Hf. unfold DARRAY_FindEltoDarray. destruct (decide (l = [])) as [->|Hne]; [done|].
  assert (0 < length l)%nat by (destruct l; cbn; [done|lia]). zbool. rewrite block_some by done. cbn [mbind option_bind].
  rewrite Nat2Z.id. assert (∀ l1 l2, l1 ++ l2 = l → find_from findf (cells_of l) (Z.of_nat (length l1)) (length l2)
    = Some (snd <$> list_find (λ p, findf (Some p) = true) l2)) as HG.
  { intros l1 l2. revert l1. induction l2 as [|p l2 IH]; intros l1 E; [done|]. cbn [length find_from].
    rewrite rd_cells by (rewrite <- E, length_app; cbn; lia). rewrite <- E, lookup_app_r, Nat.sub_diag by lia. cbn -[i64 cells_of].
    destruct (decide (findf (Some p) = true)) as [E1|E1]; [by rewrite E1|]. rewrite (not_true_is_false _ E1).
    revert Hf. unfold fits. rewrite <- E, length_app. cbn [length]. intros Hf. cint.
    replace (Z.of_nat (length l1) + 1) with (Z.of_nat (length (l1 ++ [p]))) by (rewrite length_app; cbn; lia).
    rewrite E, IH by (by rewrite <- (assoc_L (++))). by destruct (list_find _ l2) as [[]|]. }
  by apply (HG []).
Qed.

(** ** The operations that look for NULL *)

Lemma ins_end2 l p : fits (l ++ [p]) → DARRAY_InsEndDarray2 true (block_of l) (Ptr p) = Some (1, block_of (l ++ [p])).
Proof.
  intros Hf. unfold DARRAY_InsEndDarray2. rewrite count_block. cbn [mbind option_bind].
  fold (holds l None). by rewrite ins_end.
Qed.
Lemma del_end2 l p d :
  fits (l ++ [p]) → DARRAY_DelEndDarray2 true (block_of (l ++ [p])) d = Some (1, block_of l, Some (Ptr p)).
Proof.
  intros Hf. unfold DARRAY_DelEndDarray2. rewrite block_some by (by destruct l). rewrite before_null_cells. cbn [mbind option_bind].
  rewrite <- block_some by (by destruct l). fold (holds (l ++ [p]) d). by rewrite del_end.
Qed.

Lemma index_of_cells e l1 l2 : e ∉ l1 → index_of e (cells_of (l1 ++ e :: l2)) = Some (length l1).
Proof.
  induction l1 as [|p l1 IH]; cbn -[cells_of].
  - intros _. rewrite cells_cons. cbn. by rewrite decide_True.
  - intros [Hp He]%not_elem_of_cons. rewrite cells_cons. cbn. rewrite decide_False by done. by rewrite IH.
Qed.
Lemma index_of_none e l : e ∉ l → index_of e (cells_of l) = Some (length l).
Proof.
  induction l as [|p l IH]; [done|]. intros [Hp He]%not_elem_of_cons. rewrite cells_cons. cbn. rewrite decide_False by done. by rewrite IH.
Qed.

(** The first occurrence is removed; an element that is not there is refused. *)
Lemma del_elto l1 e l2 :
  e ∉ l1 → fits (l1 ++ e :: l2) →
  DARRAY_DelEltoDarray true (block_of (l1 ++ e :: l2)) (Some e) = Some (1, block_of (l1 ++ l2)).
Proof.
  intros He. unfold fits. rewrite length_app. cbn [length]. intros Hf. unfold DARRAY_DelEltoDarray.
  rewrite block_some by (by destruct l1). rewrite index_of_cells by done. cbn [mbind option_bind].
  rewrite rd_cells by (rewrite length_app; cbn; lia). rewrite lookup_app_r, Nat.sub_diag by lia. cbn -[cells_of i64 memmove Z.of_nat drop realloc].
  rewrite cells_app, (drop_app_ge _ _ (S _)), length_fmap, Nat.sub_succ_l, Nat.sub_diag by (rewrite ?length_fmap; lia).
  rewrite cells_cons at 1. cbn [drop]. rewrite drop_0, before_null_cells. cbn -[cells_of i64 memmove Z.of_nat realloc].
  rewrite <- cells_app. cint.
  replace (Z.of_nat (S (length l1 + length l2)) - Z.of_nat (length l1)) with (Z.of_nat (S (length l2))) by lia.
  replace (Z.of_nat (length l1) + 1) with (Z.of_nat (S (length l1))) by lia.
  rewrite memmove_nat by (rewrite cells_length, length_app; cbn; lia). cbn [mbind option_bind].
  rewrite move_down_end, (shrink_cells _ (l1 ++ l2)).
  - f_equal. f_equal. destruct (Z.eqb_spec (Z.of_nat (S (length l1 + length l2))) 1); [destruct l1, l2; cbn in *; try lia; done|].
    rewrite block_some; [done|]. intros E. apply (f_equal length) in E. rewrite length_app in E. cbn in E. lia.
  - rewrite length_app. lia.
  - rewrite (length_app (cells_of _)), cells_length. lia.
  - rewrite take_app_le, take_ge by (rewrite cells_length; lia). done.
Qed.
Lemma del_elto_missing ok e l : e ∉ l → DARRAY_DelEltoDarray ok (block_of l) (Some e) = Some (-1, block_of l).
Proof.
  intros He. destruct (decide (l = [])) as [->|Hne]; [done|]. rewrite block_some by done.
  unfold DARRAY_DelEltoDarray. rewrite index_of_none by done. cbn [mbind option_bind].
  unfold rd. rewrite rdZ_of_nat, cells_end. done.
Qed.
End darray.
