(* ===== verification/Dtable.v ===== *)
(** * Dtable: a table of descriptors

    src/src/base/dtable.c: elements are added to an array of pointers and the
    numbers of the deleted ones are used again, through a list threaded through the
    elements.  The table implements a map from descriptors to elements. *)

From S2P Require Import Prelude Darray.

(** ** Data *)

Section dtable.
Context {I : Type}.

Record dtelto_t := DtElto { dt_info : I; next_free : Z; myself : Z }.
Record dtable_t := DTable { dtable : t_pointerDArray Z; neltos : Z; free_list : Z }.
Definition c_DTABLE_T_NULL : dtable_t := DTable None 0 (-1).

(** The elements by address, and a table. *)
Definition dstate : Type := gmap Z dtelto_t * dtable_t.

(** The address of the element [fd] and the element; [None] when the access is
    outside of the block, or the pointer is NULL. *)
Definition element (s : dstate) (fd : Z) : option (Z * dtelto_t) :=
  p ← DARRAY_GetNFromDarray (dtable s.2) fd; a ← p; e ← s.1 !! a; Some (a, e).

(** ** Operations

    [dt = false] is a NULL table.  [new] is what [malloc] returns for an element,
    and [ok] tells whether the array is allocated. *)

Definition dtable_insert (new : option Z) (ok dt : bool) (info : option I) : M dstate Z := λ s,
  if negb dt then Some (-1, s) else
  match info with
  | None => Some (-1, s)
  | Some i =>
    let h := s.1 in let t := s.2 in
    if free_list t =? -1 then
      match new with
      | None => Some (-1, s)
      | Some a =>
        r ← DARRAY_InsEndDarray ok (Vars (Some (dtable t)) (Some (neltos t)) None) (Ptr a);
        b ← v_t r.2; n ← v_n r.2;
        let t := DTable b n (free_list t) in
        if r.1 =? 0 then Some (-1, (h, t))
        else let e := DtElto i (-1) (i32 (n ⊖ 1)) in Some (myself e, (<[a := e]> h, t))
      end
    else
      '(a, e) ← element s (free_list t);
      Some (myself e, (<[a := DtElto i (-1) (myself e)]> h, DTable (dtable t) (neltos t) (next_free e)))
  end.

Definition dtable_delete (dt : bool) (fd : Z) : M dstate Z := λ s,
  if negb dt then Some (-1, s) else
  if neltos s.2 <=? fd then Some (-1, s) else
  '(a, e) ← element s fd;
  Some (1, (<[a := DtElto (dt_info e) (i32 (free_list s.2)) (myself e)]> s.1, DTable (dtable s.2) (neltos s.2) (myself e))).

Definition dtable_get (dt : bool) (fd : Z) : M dstate (option I) := λ s,
  if negb dt then Some (None, s) else
  if neltos s.2 <=? fd then Some (None, s) else
  '(a, e) ← element s fd; Some (Some (dt_info e), s).

(** ** A map of descriptors

    [l] are the addresses of the elements, [free] the numbers of the deleted ones in
    the order of the list.  A live descriptor is on the map with its element; the
    others are free. *)

Fixpoint chain (h : gmap Z dtelto_t) (l : list Z) (start : Z) (free : list nat) : Prop :=
  match free with
  | [] => start = -1
  | k :: free => start = Z.of_nat k ∧ ∃ a e, l !! k = Some a ∧ h !! a = Some e ∧ chain h l (next_free e) free
  end.

Record table_of (m : gmap nat I) (l : list Z) (free : list nat) (s : dstate) : Prop := {
  to_block : dtable s.2 = block_of l ∧ neltos s.2 = Z.of_nat (length l);
  to_size : Z.of_nat (length l) < 2 ^ 31;
  to_nodup : NoDup l ∧ NoDup free;
  to_elem : ∀ k a, l !! k = Some a → ∃ e, s.1 !! a = Some e ∧ myself e = Z.of_nat k ∧ (k ∉ free → m !! k = Some (dt_info e));
  to_free : ∀ k, k ∈ free ↔ (k < length l)%nat ∧ m !! k = None;
  to_live : ∀ k, is_Some (m !! k) → (k < length l)%nat;
  to_chain : chain s.1 l (free_list s.2) free }.

Lemma table_empty h : table_of ∅ [] [] (h, c_DTABLE_T_NULL).
Proof.
  split; try done.
  - split; constructor.
  - intros k. rewrite elem_of_nil. cbn. split; [done|lia].
  - intros k [x Hx]. done.
Qed.

Lemma chain_stable h l a e start free :
  (∀ k, k ∈ free → l !! k ≠ Some a) → chain h l start free → chain (<[a := e]> h) l start free.
Proof.
  revert start. induction free as [|k free IH]; intros start Ha; [done|]. intros [-> (b & eb & Hb & Heb & Hc)].
  split; [done|]. exists b, eb. split_and!; [done| |].
  - rewrite lookup_insert_ne; [done|]. intros ->. apply (Ha k); [left|done].
  - apply IH; [|done]. intros j Hj. apply Ha. by right.
Qed.
Lemma chain_grows h l l' start free : chain h l start free → chain h (l ++ l') start free.
Proof.
  revert start. induction free as [|k free IH]; intros start; [done|]. intros [-> (b & eb & Hb & Heb & Hc)].
  split; [done|]. exists b, eb. split_and!; [by apply lookup_app_l_Some|done|auto].
Qed.

Section table.
Context (m : gmap nat I) (l : list Z) (free : list nat) (s : dstate) (T : table_of m l free s).

Lemma element_of k a : l !! k = Some a → ∃ e, element s (Z.of_nat k) = Some (a, e) ∧ s.1 !! a = Some e ∧ myself e = Z.of_nat k ∧ (k ∉ free → m !! k = Some (dt_info e)).
Proof.
  intros Hk. destruct (to_elem _ _ _ _ T k a Hk) as (e & He & Hm & Hi). exists e. split; [|done].
  unfold element. destruct (to_block _ _ _ _ T) as [-> _]. rewrite get_nth by (by eapply lookup_lt_Some).
  cbn. rewrite Hk. cbn. by rewrite He.
Qed.
Lemma live_element k x :
  m !! k = Some x → ∃ a e, l !! k = Some a ∧ element s (Z.of_nat k) = Some (a, e) ∧ myself e = Z.of_nat k ∧ dt_info e = x.
Proof.
  intros Hx. destruct (lookup_lt_is_Some_2 l k) as [a Ha]; [apply (to_live _ _ _ _ T); eauto|].
  destruct (element_of k a Ha) as (e & E & _ & Em & Ei). exists a, e. split_and!; [done..|].
  rewrite Ei in Hx; [by injection Hx|]. intros [_ Hn]%(to_free _ _ _ _ T). congruence.
Qed.
Lemma other_address k j a : l !! k = Some a → l !! j = Some a → j = k.
Proof. intros. by eapply (NoDup_lookup l); [apply (to_nodup _ _ _ _ T)| |]. Qed.

Lemma insert_new a i :
  free = [] → s.1 !! a = None → Z.of_nat (length l) < 2 ^ 31 - 1 →
  ∃ s', dtable_insert (Some a) true true (Some i) s = Some (Z.of_nat (length l), s') ∧ table_of (<[length l := i]> m) (l ++ [a]) [] s'.
Proof.
  intros Hfree Ha Hl. destruct (to_block _ _ _ _ T) as [Hb Hn]. pose proof (to_chain _ _ _ _ T) as Hc. rewrite Hfree in Hc.
  cbn in Hc. unfold dtable_insert. cbn [negb]. rewrite Hc, Hb, Hn. cbn [Z.eqb Z.opp Pos.eqb].
  pose proof (ins_end l a None) as E. unfold holds in E. rewrite E by (unfold fits; rewrite length_app; cbn; lia). clear E.
  cbn. rewrite length_app. cbn [length]. cint. replace (Z.of_nat (length l + 1) - 1) with (Z.of_nat (length l)) by lia.
  eexists. split; [done|].
  assert (a ∉ l) as Hal.
  { intros [k Hk]%list_elem_of_lookup. destruct (to_elem _ _ _ _ T k a Hk) as (e & He & _). congruence. }
  split; cbn.
  - split; [done|]. rewrite length_app. cbn. lia.
  - rewrite length_app. cbn. lia.
  - split; [|constructor]. apply NoDup_app. split; [apply (to_nodup _ _ _ _ T)|]. split; [|apply NoDup_singleton].
    intros x Hx ->%list_elem_of_singleton. done.
  - intros k b [Hk|[Hk [E0 ->]%list_lookup_singleton_Some]]%lookup_app_Some.
    + destruct (to_elem _ _ _ _ T k b Hk) as (e & He & Hm & Hi). exists e.
      rewrite lookup_insert_ne by (intros ->; congruence). split_and!; [done..|]. intros _.
      rewrite lookup_insert_ne by (apply lookup_lt_Some in Hk; lia). apply Hi. rewrite Hfree. apply not_elem_of_nil.
    + assert (k = length l) as -> by lia. eexists. rewrite lookup_insert_eq. split_and!; [done..|]. intros _. by rewrite lookup_insert_eq.
  - intros k. rewrite elem_of_nil. split; [done|]. rewrite length_app. cbn. intros [Hk Hm].
    destruct (decide (k = length l)) as [->|Hne]; [by rewrite lookup_insert_eq in Hm|]. rewrite lookup_insert_ne in Hm by done.
    assert (k ∈ free) as Hin by (apply (to_free _ _ _ _ T); split; [lia|done]). rewrite Hfree in Hin. by apply elem_of_nil in Hin.
  - intros k [x Hx]. rewrite length_app. cbn. destruct (decide (k = length l)); [lia|].
    rewrite lookup_insert_ne in Hx by done. pose proof (to_live _ _ _ _ T k (mk_is_Some _ _ Hx)). lia.
  - done.
Qed.

(** An address that changes keeps the elements of the others. *)
Lemma elem_update (k : nat) a e h' (m' : gmap nat I) (free' : list nat) :
  l !! k = Some a → h' = <[a := e]> s.1 → myself e = Z.of_nat k → (k ∉ free' → m' !! k = Some (dt_info e)) →
  (∀ j, j ≠ k → j ∉ free' → (j ∉ free) ∧ m' !! j = m !! j) →
  ∀ j b, l !! j = Some b → ∃ e, h' !! b = Some e ∧ myself e = Z.of_nat j ∧ (j ∉ free' → m' !! j = Some (dt_info e)).
Proof.
  intros Hk -> He Hm Hother j b Hj. destruct (decide (b = a)) as [->|Hne].
  - rewrite (other_address k j a Hk Hj). exists e. rewrite lookup_insert_eq. done.
  - rewrite lookup_insert_ne by done. destruct (to_elem _ _ _ _ T j b Hj) as (e' & He' & Hm' & Hi'). exists e'.
    split_and!; [done..|]. intros Hf. destruct (Hother j) as [Hf' ->]; [intros ->; congruence|done|]. by apply Hi'.
Qed.

Lemma insert_reuse new ok k free' i :
  free = k :: free' →
  ∃ s', dtable_insert new ok true (Some i) s = Some (Z.of_nat k, s') ∧ table_of (<[k := i]> m) l free' s'.
Proof.
  intros Hfree. pose proof (to_chain _ _ _ _ T) as Hc. pose proof (to_nodup _ _ _ _ T) as [Hnd Hndf]. rewrite Hfree in Hc, Hndf.
  destruct Hc as [Hst (a & e & Ha & He & Hc)]. apply NoDup_cons in Hndf as [Hkf Hndf].
  destruct (element_of k a Ha) as (e' & Hel & He' & Hm & _). assert (e' = e) as -> by congruence.
  unfold dtable_insert. cbn [negb]. rewrite Hst. zbool.
  rewrite Hel. cbn [mbind option_bind]. rewrite Hm. eexists. split; [done|].
  split; cbn [fst snd dtable neltos free_list].
  - apply (to_block _ _ _ _ T).
  - apply (to_size _ _ _ _ T).
  - done.
  - eapply (elem_update k a (DtElto i (-1) (Z.of_nat k))); [done|done|done|intros _; by rewrite lookup_insert_eq|].
    intros j Hj Hf. split; [|by rewrite lookup_insert_ne]. rewrite Hfree. by apply not_elem_of_cons.
  - intros j. destruct (decide (j = k)) as [->|Hne].
    + rewrite lookup_insert_eq. split; [done|]. by intros [_ ?].
    + rewrite lookup_insert_ne by done. rewrite <- (to_free _ _ _ _ T), Hfree, elem_of_cons. tauto.
  - intros j Hj. destruct (decide (j = k)) as [->|Hne]; [by eapply lookup_lt_Some|].
    rewrite lookup_insert_ne in Hj by done. by apply (to_live _ _ _ _ T).
  - apply chain_stable; [|done]. intros j Hj Hja. apply Hkf. by rewrite <- (other_address k j a Ha Hja).
Qed.

Lemma get_live k x : m !! k = Some x → dtable_get true (Z.of_nat k) s = Some (Some x, s).
Proof.
  intros Hx. destruct (live_element k x Hx) as (a & e & Ha & Hel & Hm & <-). unfold dtable_get. cbn [negb].
  destruct (to_block _ _ _ _ T) as [_ ->]. apply lookup_lt_Some in Ha. zbool. by rewrite Hel.
Qed.

Lemma delete_live k x :
  m !! k = Some x → ∃ s', dtable_delete true (Z.of_nat k) s = Some (1, s') ∧ table_of (delete k m) l (k :: free) s'.
Proof.
  intros Hx. destruct (live_element k x Hx) as (a & e & Ha & Hel & Hm & _). unfold dtable_delete. cbn [negb].
  pose proof (to_block _ _ _ _ T) as [Hb Hn]. rewrite Hn. pose proof (lookup_lt_Some _ _ _ Ha) as Hk. zbool. rewrite Hel. cbn [mbind option_bind].
  eexists. split; [done|]. pose proof (to_nodup _ _ _ _ T) as [Hnd Hndf]. pose proof (to_size _ _ _ _ T) as Hs.
  assert (k ∉ free) as Hkf by (intros [_ ?]%(to_free _ _ _ _ T); congruence).
  assert (-1 <= free_list s.2 < 2 ^ 31) as Hfl.
  { pose proof (to_chain _ _ _ _ T) as Hc. destruct free as [|j f]; [cbn in Hc; lia|]. destruct Hc as [-> (b & eb & Hj & _)].
    apply lookup_lt_Some in Hj. lia. }
  split; cbn [fst snd dtable neltos free_list].
  - done.
  - done.
  - split; [done|]. by apply NoDup_cons.
  - eapply (elem_update k a); [done..| |].
    + intros []. by left.
    + intros j Hj [? Hf]%not_elem_of_cons. by rewrite lookup_delete_ne.
  - intros j. rewrite elem_of_cons, (to_free _ _ _ _ T). destruct (decide (j = k)) as [->|Hne].
    + rewrite lookup_delete_eq. tauto.
    + rewrite lookup_delete_ne by done. tauto.
  - intros j [y Hy]. apply lookup_delete_Some in Hy as [_ Hy]. apply (to_live _ _ _ _ T). eauto.
  - cbn [chain]. split; [done|]. exists a. eexists. split; [done|]. rewrite lookup_insert_eq. split; [done|]. cbn [next_free].
    cint. apply chain_stable; [|apply (to_chain _ _ _ _ T)].
    intros j Hj Hja. apply Hkf. by rewrite <- (other_address k j a Ha Hja).
Qed.
End table.

(** ** The interface *)

(** A call, and what a map of descriptors answers: an insertion gives a
    descriptor that is not on the map. *)
Inductive tcall := T_insert (new : Z) (i : I) | T_delete (k : nat) | T_get (k : nat).
Inductive answer := R_int (z : Z) | R_info (i : option I).
Definition table_call (c : tcall) : M dstate answer :=
  match c with
  | T_insert new i => r ← dtable_insert (Some new) true true (Some i); mret (R_int r)
  | T_delete k => r ← dtable_delete true (Z.of_nat k); mret (R_int r)
  | T_get k => r ← dtable_get true (Z.of_nat k); mret (R_info r)
  end.
Inductive map_call (m : gmap nat I) : tcall → answer → gmap nat I → Prop :=
  | mc_insert new i k : m !! k = None → map_call m (T_insert new i) (R_int (Z.of_nat k)) (<[k := i]> m)
  | mc_delete k : map_call m (T_delete k) (R_int 1) (delete k m)
  | mc_get k : map_call m (T_get k) (R_info (m !! k)) m.

(** What a client must do: name live descriptors only, with fresh memory for an
    element and room for its number. *)
Definition sound_call (m : gmap nat I) (s : dstate) (c : tcall) : Prop :=
  match c with
  | T_insert new _ => s.1 !! new = None ∧ neltos s.2 < 2 ^ 31 - 1
  | T_delete k | T_get k => is_Some (m !! k)
  end.
Definition implements (m : gmap nat I) (s : dstate) : Prop := ∃ l free, table_of m l free s.

(** C25: A table that implements a map answers every sound call as the map does, and
    implements the map that results; the empty table implements the empty map. *)
Theorem dtable_refines_map :
  (∀ h, implements ∅ (h, c_DTABLE_T_NULL)) ∧
  ∀ m s c, implements m s → sound_call m s c →
  ∃ r s' m', table_call c s = Some (r, s') ∧ map_call m c r m' ∧ implements m' s'.
Proof.
  split; [intros h; exists [], []; apply table_empty|].
  intros m s c (l & free & T) Hc. destruct c as [new i|k|k]; cbn in Hc |- *.
  - destruct Hc as [Hnew Hn]. rewrite (proj2 (to_block _ _ _ _ T)) in Hn. destruct free as [|k free'].
    + destruct (insert_new m l [] s T new i) as (s' & E & T'); [done|done|lia|].
      eexists _, s', _. mrun (exact E). split_and!; [done| |by eexists _, _].
      constructor. apply eq_None_not_Some. intros Hx%(to_live _ _ _ _ T). lia.
    + destruct (insert_reuse m l (k :: free') s T (Some new) true k free' i) as (s' & E & T'); [done|].
      eexists _, s', _. mrun (exact E). split_and!; [done| |by eexists _, _].
      constructor. apply (to_free _ _ _ _ T). by left.
  - destruct Hc as [x Hx]. destruct (delete_live m l free s T k x Hx) as (s' & E & T').
    eexists _, s', _. mrun (exact E). split_and!; [done|constructor|by eexists _, _].
  - destruct Hc as [x Hx]. eexists _, s, m. mrun (exact (get_live m l free s T k x Hx)).
    split_and!; [done| |by eexists _, _]. rewrite <- Hx. constructor.
Qed.
End dtable.

Lemma dtable_refines_map_witness :
  let s := (∅, c_DTABLE_T_NULL) in implements ∅ s ∧ sound_call ∅ s (T_insert 100 7) ∧
  ∃ r s' m', table_call (T_insert 100 7) s = Some (r, s') ∧ map_call (∅ : gmap nat Z) (T_insert 100 7) r m' ∧ implements m' s'.
Proof.
  assert (sound_call (∅ : gmap nat Z) (∅, c_DTABLE_T_NULL) (T_insert 100 7)) as Hs by (split; [done|cbn; lia]).
  destruct (@dtable_refines_map Z) as [H0 H1].
  split; [apply H0|]. split; [exact Hs|]. apply H1; [apply H0|exact Hs].
Defined.

(** ** Where the table is not a map *)

(** A descriptor that is deleted twice is given to the next two insertions. *)
Definition insert_at (new i : Z) := dtable_insert (Some new) true true (Some i).
Example deleted_twice :
  fst <$> (a ← insert_at 100 1; dtable_delete true a;; dtable_delete true a;; b ← insert_at 101 2; c ← insert_at 102 3;
           x ← dtable_get true b; mret (a, b, c, x)) (∅, c_DTABLE_T_NULL) = Some (0, 0, 0, Some 3).
Proof. reflexivity. Qed.

(** An insertion that could not extend the array reports the number of an element
    that is not in it; looking it up reads the NULL at the end. *)
Example failed_insert :
  fst <$> (insert_at 100 1;; dtable_insert (Some 101) false true (Some 2)) (∅, c_DTABLE_T_NULL) = Some 1 ∧
  (insert_at 100 1;; b ← dtable_insert (Some 101) false true (Some 2); dtable_get true b) (∅, c_DTABLE_T_NULL) = None.
Proof. split; reflexivity. Qed.

(** A deleted descriptor still gives its element. *)
Example stale_get :
  fst <$> (a ← insert_at 100 1; dtable_delete true a;; dtable_get true a) (∅, c_DTABLE_T_NULL) = Some (Some 1).
Proof. reflexivity. Qed.
