(* ===== verification/Proxy.v ===== *)
(** * Proxy: the calls of a program through a proxy

    src/src/xpn_proxy: a library that sends every call over a connection of its own
    (xpn_proxy_client.c), and a process that answers them with the calls of Expand
    (xpn_proxy_server.c).  The functions of the library have the names of those of
    [Unistd]; here xpn_open is [proxy_open], and so on. *)

From S2P Require Import Prelude Cstr Paths Url Mdata Nfi Client MemFs FileTable Blocks Rw Dir Conf Init Unistd FileSystem Server Remote.

(** ** Messages *)

(** [struct st_xpn_server_msg] by its [type], with the members that the proxy
    uses; paths are arrays of [XPN_PATH_MAX] bytes. *)
Inductive msg :=
  | M_open (flags mode path_len : Z) (path : list ascii) | M_creat (flags mode path_len : Z) (path : list ascii)
  | M_close (fd : Z) | M_read (fd size : Z) | M_write (fd size : Z)
  | M_rm (path_len : Z) (path : list ascii) | M_rename (old_len new_len : Z) (old_url new_url : list ascii)
  | M_getattr (path_len : Z) (path : list ascii) | M_mkdir (mode path_len : Z) (path : list ascii)
  | M_rmdir (path_len : Z) (path : list ascii) | M_opendir (path_len : Z) (path : list ascii)
  | M_readdir (dir : Z) | M_closedir (dir : Z) | M_other (type : Z).

(** What travels on a connection: structs, and bytes one by one. *)
Inductive packet :=
  | P_msg (m : msg) | P_status (ret server_errno : Z) | P_attr (attr : xstat) (status : Z)
  | P_opendir (fd dir ret : Z) | P_dirent (e : dirent) (ret : Z) | P_byte (a : ascii).

Definition xstat_zero : xstat := XStat 0 0 0 0 0 0 0 0 0 0 0.

(** ** The calls that the server makes: xpn_proxy_macros.h

    [S] is the state of the server's process.  A directory is a pointer; opendir
    also gives the member [fd] that the server reads.  [PROXY_XPN_READ fd size]
    reads to a zeroed buffer of [size] bytes, which is the second result. *)
Class ProxyXpn (S : Type) := {
  PROXY_XPN_OPEN : cstr → Z → Z → M S Z;
  PROXY_XPN_CREAT : cstr → Z → M S Z;
  PROXY_XPN_CLOSE : Z → M S Z;
  PROXY_XPN_READ : Z → Z → M S (Z * list ascii);
  PROXY_XPN_WRITE : Z → list ascii → M S Z;
  PROXY_XPN_UNLINK : cstr → M S Z;
  PROXY_XPN_RENAME : cstr → cstr → M S Z;
  PROXY_XPN_STAT : cstr → M S (Z * option xstat);
  PROXY_XPN_MKDIR : cstr → Z → M S Z;
  PROXY_XPN_OPENDIR : cstr → M S (option (Z * Z));
  PROXY_XPN_CLOSEDIR : Z → M S Z;
  PROXY_XPN_READDIR : Z → M S (option dirent);
  PROXY_XPN_RMDIR : cstr → M S Z;
  proxy_errno : S → Z }.

(** ** Processes that communicate *)

Section process.
Context {S : Type}.

(** A program of the server: [Recv] takes the next packet, or [None] when the
    client closed the connection; [Do] runs a call, which may be undefined; a struct
    where bytes are expected, or the reverse, is [Desync]. *)
Inductive proc (A : Type) :=
  | Ret (a : A)
  | Recv (k : option packet → proc A)
  | Send (i : packet) (p : proc A)
  | Do (B : Type) (m : M S B) (k : B → proc A)
  | Desync.
Arguments Ret {A} a. Arguments Recv {A} k. Arguments Send {A} i p. Arguments Do {A B} m k. Arguments Desync {A}.

Fixpoint proc_bind {A B} (p : proc A) (f : A → proc B) : proc B :=
  match p with
  | Ret a => f a
  | Recv k => Recv (λ i, proc_bind (k i) f)
  | Send i p => Send i (proc_bind p f)
  | Do m k => Do m (λ b, proc_bind (k b) f)
  | Desync => Desync
  end.
#[export] Instance proc_ret : MRet proc := λ A a, Ret a.
#[export] Instance proc_mbind : MBind proc := λ A B f p, proc_bind p f.
Definition perform {A} (m : M S A) : proc A := Do m Ret.
Definition send (i : packet) : proc unit := Send i (Ret tt).

(** The server runs until it ends, waits for a packet that is not there, or dies:
    what is left of it ([None] when it is done or dead), of the packets, what it
    sent, its state, and whether it is alive. *)
Record turn_result := Turn { t_peer : option (proc unit); t_inbox : list packet; t_outbox : list packet; t_srv : S; t_alive : bool }.
Fixpoint resume (closed : bool) (p : proc unit) (inbox outbox : list packet) (s : S) : option turn_result :=
  match p with
  | Ret _ => Some (Turn None inbox outbox s true)
  | Recv k =>
    match inbox with
    | i :: inbox => resume closed (k (Some i)) inbox outbox s
    | [] => if closed then resume closed (k None) [] outbox s else Some (Turn (Some p) [] outbox s true)
    end
  | Send i p => resume closed p inbox (outbox ++ [i]) s
  | Do m k => match m s with Some (b, s) => resume closed (k b) inbox outbox s | None => Some (Turn None inbox outbox s false) end
  | Desync => None
  end.
End process.
Arguments proc S A : clear implicits.
Arguments Ret {S A} a. Arguments Recv {S A} k. Arguments Send {S A} i p. Arguments Do {S A B} m k. Arguments Desync {S A}.

(** ** xpn_proxy_server.c *)

Section server.
Context {S : Type} `{PX : !ProxyXpn S}.

(** [n] more bytes after [got]; [None] is the result -1. *)
Fixpoint receive_bytes (n : nat) (got : list ascii) : proc S (option (list ascii)) :=
  match n with
  | O => Ret (Some got)
  | Datatypes.S n => Recv (λ i,
      match i with Some (P_byte a) => receive_bytes n (got ++ [a]) | Some _ => Desync | None => Ret None end)
  end.
Definition server_read_n_bytes (n : Z) : proc S (option (list ascii)) :=
  if n =? 0 then Ret None else receive_bytes (Z.to_nat n) [].

(** [full_path] has [PATH_MAX] bytes.  The result is the string it holds
    afterwards; the callers do not look at the result of the function. *)
Definition xpn_proxy_server_read_fullpath (path_len : Z) (path_src : list ascii) : proc S cstr :=
  if path_len <=? XPN_PATH_MAX then
    if path_len <? 0 then perform fault else mret (upto_nul (take (Z.to_nat path_len) path_src))
  else if PATH_MAX <=? path_len then perform fault
  else
    r ← server_read_n_bytes (path_len - XPN_PATH_MAX);
    mret (match r with None => [] | Some extra => upto_nul (path_src ++ extra) end).

Definition answer_status (ret : Z) : proc S unit :=
  e ← perform (gets proxy_errno); send (P_status ret e).
Fixpoint send_bytes (d : list ascii) : proc S unit :=
  match d with [] => Ret tt | a :: d => Send (P_byte a) (send_bytes d) end.

(** The end of a write, with the bytes that were received. *)
Definition write_received (fd size : Z) (data : option (list ascii)) : proc S unit :=
  e ← perform (gets proxy_errno);
  match data with
  | None => send (P_status (-1) e)
  | Some d =>
    let got := i32 size in
    if 0 <? got then
      n ← perform (PROXY_XPN_WRITE fd (take (Z.to_nat got) d));
      answer_status (i32 n)
    else send (P_status got e)
  end.
(** The cases of [handle_petition] that answer with more than a status. *)
Definition petition_getattr (path_len : Z) (path : list ascii) : proc S unit :=
  full_path ← xpn_proxy_server_read_fullpath path_len path;
  '(ret, attr) ← perform (PROXY_XPN_STAT full_path);
  answer_status ret;;
  if (ret : Z) =? 0 then send (P_attr (default xstat_zero attr) ret) else mret tt.
Definition petition_opendir (path_len : Z) (path : list ascii) : proc S unit :=
  full_path ← xpn_proxy_server_read_fullpath path_len path;
  ret_od ← perform (PROXY_XPN_OPENDIR full_path);
  answer_status 0;;
  match ret_od with
  | None => perform fault
  | Some (dir, fd) => send (P_opendir fd dir 0)
  end.
Definition petition_readdir (dir : Z) : proc S unit :=
  ret_readdir ← perform (PROXY_XPN_READDIR dir);
  match ret_readdir with
  | Some e => answer_status 0;; send (P_dirent e 0)
  | None => answer_status (-1)
  end.
(** [junk] is what [res.server_errno] holds before it is written. *)
Definition handle_petition (junk : Z) : proc S unit :=
  Recv (λ i, match i with
  | None => Ret tt
  | Some (P_msg (M_open flags mode path_len path)) =>
    full_path ← xpn_proxy_server_read_fullpath path_len path;
    ret ← perform (PROXY_XPN_OPEN full_path flags mode);
    answer_status ret
  | Some (P_msg (M_creat _ mode path_len path)) =>
    full_path ← xpn_proxy_server_read_fullpath path_len path;
    ret ← perform (PROXY_XPN_CREAT full_path mode);
    answer_status ret
  | Some (P_msg (M_close fd)) =>
    ret ← perform (PROXY_XPN_CLOSE fd);
    answer_status ret
  | Some (P_msg (M_read fd size)) =>
    '(n, buf) ← perform (PROXY_XPN_READ fd size);
    let ret := i32 n in
    answer_status ret;;
    if 0 <? ret then
      if size <? ret then perform fault else send_bytes (take (Z.to_nat ret) buf)
    else mret tt
  | Some (P_msg (M_write fd size)) =>
    send (P_status 0 junk);;
    data ← server_read_n_bytes size;
    write_received fd size data
  | Some (P_msg (M_rm path_len path)) =>
    full_path ← xpn_proxy_server_read_fullpath path_len path;
    ret ← perform (PROXY_XPN_UNLINK full_path);
    answer_status ret
  | Some (P_msg (M_rename old_len new_len old_url new_url)) =>
    full_path_old ← xpn_proxy_server_read_fullpath old_len old_url;
    full_path_new ← xpn_proxy_server_read_fullpath new_len new_url;
    ret ← perform (PROXY_XPN_RENAME full_path_old full_path_new);
    answer_status ret
  | Some (P_msg (M_getattr path_len path)) => petition_getattr path_len path
  | Some (P_msg (M_mkdir mode path_len path)) =>
    full_path ← xpn_proxy_server_read_fullpath path_len path;
    ret ← perform (PROXY_XPN_MKDIR full_path mode);
    answer_status ret
  | Some (P_msg (M_opendir path_len path)) => petition_opendir path_len path
  | Some (P_msg (M_closedir dir)) =>
    ret ← perform (PROXY_XPN_CLOSEDIR dir);
    answer_status ret
  | Some (P_msg (M_readdir dir)) => petition_readdir dir
  | Some (P_msg (M_rmdir path_len path)) =>
    full_path ← xpn_proxy_server_read_fullpath path_len path;
    ret ← perform (PROXY_XPN_RMDIR full_path);
    answer_status ret
  | Some (P_msg (M_other _)) => Ret tt
  | Some _ => Desync
  end).
End server.

(** ** xpn_proxy_client.c *)

Definition EIO : Z := 5.
(** The globals of the library. *)
Record proxy_addr := ProxyAddr { ipv_proxy_server : Z; ip : cstr; port : Z }.
(** utils.c: the value of a variable of the environment as a number. *)
Fixpoint all_digits (s : cstr) : bool := match s with [] => true | a :: s => is_digit a && all_digits s end.
Definition utils_getenv_int (env_value : option cstr) (default_value : Z) : Z :=
  match env_value with
  | None => default_value
  | Some v =>
    let unsigned := match skip_space v with a :: v' => if ceqb a "-"%char || ceqb a "+"%char then v' else a :: v' | [] => [] end in
    match unsigned with
    | [] => match v with [] => 0 | _ => default_value end
    | _ => if all_digits unsigned then atoi v else default_value
    end
  end.
(** The text before a character and after it. *)
Fixpoint split_at (c : ascii) (s : cstr) : option (cstr * cstr) :=
  match s with
  | [] => None
  | a :: s => if ceqb a c then Some ([], s) else (λ p, (a :: p.1, p.2)) <$> split_at c s
  end.
(** xpn_init: [ipv] and [addr] are XPN_PROXY_IPV and XPN_PROXY_ADDR. *)
Definition proxy_init (ipv addr : option cstr) : Z * proxy_addr :=
  let v := utils_getenv_int ipv 4 in
  (0, match addr with
      | None => ProxyAddr v (str "127.0.0.1") 5555
      | Some env =>
        match split_at ":"%char env with
        | Some (before, after) =>
          if strlen before <? 256 then ProxyAddr v before (atoi after) else ProxyAddr v (str "127.0.0.1") 5555
        | None => ProxyAddr v (take 255 env) 5555
        end
      end).
Definition proxy_destroy : Z := 0.

(** The connection of a call: what is left of the server's program, the packets on
    their way to it, and those on their way back. *)
Record link (S : Type) := Link { peer : option (proc S unit); inbox : list packet; outbox : list packet }.
Arguments Link {S}. Arguments peer {S}. Arguments inbox {S}. Arguments outbox {S}.

(** The client's process, the server's, and whether the latter is alive. *)
Record proxied (S : Type) := Proxied { px_errno : Z; px_srv : S; px_alive : bool; px_link : option (link S) }.
Arguments Proxied {S}. Arguments px_errno {S}. Arguments px_srv {S}. Arguments px_alive {S}. Arguments px_link {S}.

(** [struct __dirstream] of the client. *)
Record remote_dir := RemoteDir { rd_fd : Z; rd_path : cstr; remote_handler : Z }.

Section client.
Context {S : Type} `{PX : !ProxyXpn S}.
Context (junk : Z).
(** Where the server listens, and the globals of the library. *)
Context (server_at here : proxy_addr).
Abbreviation P A := (M (proxied S) A) (only parsing).

Definition px_fail {A} (e : Z) (r : A) : P A := modify (λ s, Proxied e (px_srv s) (px_alive s) (px_link s));; mret r.

(** A connection reaches the server when it is the one that was named and it is
    alive; a thread of it then runs [handle_petition]. *)
Definition same_addr (a b : proxy_addr) : bool :=
  (ipv_proxy_server a =? ipv_proxy_server b) && bool_decide (ip a = ip b) && (port a =? port b).
Definition socket_client_connect : P Z := λ s,
  if px_alive s && same_addr server_at here
  then Some (0, Proxied (px_errno s) (px_srv s) true (Some (Link (Some (handle_petition junk)) [] [])))
  else Some (-1, s).
(** A write on a connection whose server died is a SIGPIPE. *)
Definition write_packets (l : list packet) : P unit := λ s,
  c ← px_link s;
  if px_alive s then Some (tt, Proxied (px_errno s) (px_srv s) true (Some (Link (peer c) (inbox c ++ l) (outbox c)))) else None.
(** The server takes its turn, when it has one. *)
Definition server_turn (closed : bool) : P unit := λ s,
  c ← px_link s;
  match peer c with
  | None => Some (tt, s)
  | Some p =>
    t ← resume closed p (inbox c) (outbox c) (px_srv s);
    Some (tt, Proxied (px_errno s) (t_srv t) (px_alive s && t_alive t) (Some (Link (t_peer t) (t_inbox t) (t_outbox t))))
  end.
(** The next packet, [None] at the end of the connection.  When there is none and
    the server waits as well, both wait for ever. *)
Definition next_packet : P (option packet) :=
  server_turn false;;
  s ← get;
  c ← lift (px_link s);
  match outbox c with
  | i :: o => modify (λ s, Proxied (px_errno s) (px_srv s) (px_alive s) (Some (Link (peer c) (inbox c) o)));; mret (Some i)
  | [] => match peer c with None => mret None | Some _ => fault end
  end.
Definition read_struct {T} (pick : packet → option T) : P (option T) :=
  i ← next_packet;
  match i with None => mret None | Some i => x ← lift (pick i); mret (Some x) end.
Fixpoint read_bytes (n : nat) (got : list ascii) : P (option (list ascii)) :=
  match n with
  | O => mret (Some got)
  | Datatypes.S n =>
    a ← read_struct (λ i, match i with P_byte a => Some a | _ => None end);
    match a with None => mret None | Some a => read_bytes n (got ++ [a]) end
  end.
(** [n] is a [size_t]: the -1 of a failed call is the largest, and there are never
    that many bytes: the read goes on to the end of the connection. *)
Definition read_n_bytes (n : Z) : P (option (list ascii)) :=
  if n =? 0 then px_fail EINVAL None
  else if n <? 0 then s ← next_packet; match s with None => mret None | Some _ => fault end
  else read_bytes (Z.to_nat n) [].
Definition to_status (i : packet) : option (Z * Z) := match i with P_status r e => Some (r, e) | _ => None end.

(** The server sees the end of the connection. *)
Definition d_close : P unit :=
  server_turn true;; modify (λ s, Proxied (px_errno s) (px_srv s) (px_alive s) None).

(** What follows the message. *)
Definition path_tail (path : cstr) : list packet :=
  if XPN_PATH_MAX <? strlen path then P_byte <$> path_rest path else [].
(** d_send_receive and d_send_receive_rn: the message, the tails of the paths, and
    the status that comes back; [None] is -1. *)
Definition d_send_receive (pr : msg) (paths : list cstr) : P (option (Z * Z)) :=
  ret ← socket_client_connect;
  if (ret : Z) <? 0 then mret None
  else
    write_packets [P_msg pr];;
    write_packets (paths ≫= path_tail);;
    r ← read_struct to_status;
    match r with
    | None => d_close;; mret None
    | Some st => mret (Some st)
    end.

(** The calls that return the status. *)
Definition status_call (pr : msg) (paths : list cstr) : P Z :=
  r ← d_send_receive pr paths;
  match r with None => mret (-1) | Some (ret, _) => d_close;; mret ret end.
Definition need_path (path : option cstr) (f : cstr → P Z) : P Z :=
  match path with None => px_fail EINVAL (-1) | Some path => f path end.

(** [mode] is what [va_arg] gives, whether or not the caller passed it. *)
Definition proxy_open (path : option cstr) (flags mode : Z) : P Z :=
  need_path path (λ path, status_call (M_open flags mode (strlen path) (path_field path)) [path]).
Definition proxy_creat (path : option cstr) (perm : Z) : P Z :=
  need_path path (λ path, status_call (M_creat 511 perm (strlen path) (path_field path)) [path]).
Definition proxy_close (fd : Z) : P Z :=
  if fd <? 0 then px_fail EBADF (-1) else status_call (M_close fd) [].
(** The result and what is stored at [buffer]; [null] tells that it is NULL. *)
Definition proxy_read (fd : Z) (null : bool) (size : Z) : P (Z * list ascii) :=
  if (fd <? 0) || null || (size =? 0) then px_fail EINVAL (-1, [])
  else
    r ← d_send_receive (M_read fd size) [];
    match r with
    | None => mret (-1, [])
    | Some (ret, _) =>
      d ← read_n_bytes ret;
      d_close;;
      mret (match d with None => (-1, []) | Some d => (Z.of_nat (length d), d) end)
    end.
(** The bytes at [buffer], [None] for NULL. *)
Definition proxy_write (fd : Z) (buffer : option (list ascii)) : P Z :=
  match buffer with
  | None => px_fail EINVAL (-1)
  | Some d =>
    let size := Z.of_nat (length d) in
    if (fd <? 0) || (size =? 0) then px_fail EINVAL (-1)
    else
      r ← d_send_receive (M_write fd size) [];
      match r with
      | None => mret (-1)
      | Some _ =>
        write_packets (P_byte <$> d);;
        if i32 size <? 0 then d_close;; mret (-1)
        else
          r ← read_struct to_status;
          d_close;;
          mret (match r with None => -1 | Some (ret, _) => ret end)
      end
  end.
Definition proxy_unlink (path : option cstr) : P Z :=
  need_path path (λ path, status_call (M_rm (strlen path) (path_field path)) [path]).
Definition proxy_rename (path newpath : option cstr) : P Z :=
  need_path path (λ path, need_path newpath (λ newpath,
    status_call (M_rename (strlen path) (strlen newpath) (path_field path) (path_field newpath)) [path; newpath])).
(** What is stored at [sb], and whether it is NULL. *)
Definition proxy_stat (path : option cstr) (sb_null : bool) : P (Z * option xstat) :=
  match path with
  | None => px_fail EINVAL (-1, None)
  | Some path =>
    if sb_null then px_fail EINVAL (-1, None)
    else
      r ← d_send_receive (M_getattr (strlen path) (path_field path)) [path];
      match r with
      | None => mret (-1, None)
      | Some (ret, _) =>
        if negb (ret =? 0) then d_close;; mret (ret, None)
        else
          a ← read_struct (λ i, match i with P_attr a st => Some (a, st) | _ => None end);
          match a with
          | None => d_close;; mret (-1, None)
          | Some (attr, st) =>
            if negb (st =? 0) then px_fail EIO tt;; d_close;; mret (-1, None)
            else d_close;; mret (ret, Some attr)
          end
      end
  end.
Definition proxy_mkdir (path : option cstr) (perm : Z) : P Z :=
  need_path path (λ path, status_call (M_mkdir perm (strlen path) (path_field path)) [path]).
Definition proxy_rmdir (path : option cstr) : P Z :=
  need_path path (λ path, status_call (M_rmdir (strlen path) (path_field path)) [path]).

(** [path_aux] has [PATH_MAX] bytes, and the last character of [path] is looked
    at before it is known that there is one. *)
Definition slashed (path : cstr) : option cstr :=
  a ← last path;
  if PATH_MAX <=? strlen path then None
  else if is_slash a then Some path
  else if PATH_MAX <=? strlen path + 1 then None else Some (path ++ [slash]).
Definition proxy_opendir (path : option cstr) : P (option remote_dir) :=
  match path with
  | None => px_fail EINVAL None
  | Some path =>
    r ← d_send_receive (M_opendir (strlen path) (path_field path)) [path];
    match r with
    | None => mret None
    | Some (ret, e) =>
      if negb (ret =? 0) then d_close;; px_fail e None
      else
        d ← read_struct (λ i, match i with P_opendir fd dir st => Some (fd, dir, st) | _ => None end);
        match d with
        | None => px_fail EIO tt;; d_close;; mret None
        | Some (fd, dir, st) =>
          if negb (st =? 0) || (dir =? 0) then px_fail EIO tt;; d_close;; mret None
          else
            path_aux ← lift (slashed path);
            d_close;; mret (Some (RemoteDir fd path_aux dir))
        end
    end
  end.
Definition proxy_readdir (dirp : option remote_dir) : P (option dirent) :=
  match dirp with
  | None => px_fail EBADF None
  | Some dirp =>
    r ← d_send_receive (M_readdir (remote_handler dirp)) [];
    match r with
    | None => mret None
    | Some (ret, e) =>
      if negb (ret =? 0) then d_close;; px_fail e None
      else
        d ← read_struct (λ i, match i with P_dirent e st => Some (e, st) | _ => None end);
        match d with
        | None => d_close;; mret None
        | Some (e, st) =>
          if negb (st =? 0) then px_fail EIO tt;; d_close;; mret None
          else d_close;; mret (Some e)
        end
    end
  end.
Definition proxy_closedir (dirp : option remote_dir) : P Z :=
  match dirp with
  | None => px_fail EBADF (-1)
  | Some dirp =>
    r ← d_send_receive (M_closedir (remote_handler dirp)) [];
    match r with None => mret (-1) | Some (ret, _) => d_close;; mret ret end
  end.
End client.

(** ** The server over Expand (USE_XPN_FUNCTIONS)

    A directory of the library is at the address that is one more than its
    place in [es_dirs]; it is [None] when it was freed. *)

Record expand_server (W : Type) := ExpandServer { es_client : client W; es_dirs : list (option DIR) }.
Arguments ExpandServer {W}. Arguments es_client {W}. Arguments es_dirs {W}.

Section expand.
Context {W : Type} `{NO : !NfiOps W} `{NI : !NfiInit W} `{SY : !Sys}.

Definition on_client {A} (m : M (client W) A) : M (expand_server W) A := λ s,
  match m (es_client s) with Some (a, c) => Some (a, ExpandServer c (es_dirs s)) | None => None end.
Definition dir_at (p : Z) : M (expand_server W) DIR :=
  s ← get; d ← lift (rdZ (es_dirs s) (p - 1)); lift d.
(** A buffer of the server with given bytes. *)
Definition buffer_of (d : list ascii) : M (client W) ptr :=
  b ← malloc (Z.of_nat (length d));
  c ← get; m ← lift (mem_write (mem (cl_env c)) b d); zoom (modify (set_mem m));;
  mret b.

#[export] Instance proxy_expand : ProxyXpn (expand_server W) := {
  PROXY_XPN_OPEN path flags mode := on_client (xpn_open (Some path) flags (Some mode));
  PROXY_XPN_CREAT path mode := on_client (xpn_creat (Some path) mode);
  PROXY_XPN_CLOSE fd := on_client (xpn_close fd);
  PROXY_XPN_READ fd size := on_client (
    b ← buffer_of (replicate (Z.to_nat size) NUL);
    n ← xpn_read fd (Some b) size;
    c ← get; d ← lift (mem_read (mem (cl_env c)) b size);
    free b;; mret (n, d));
  PROXY_XPN_WRITE fd d := on_client (
    b ← buffer_of d;
    n ← xpn_write fd (Some b) (Z.of_nat (length d));
    free b;; mret n);
  PROXY_XPN_UNLINK path := on_client (xpn_unlink (Some path));
  PROXY_XPN_RENAME old new := on_client (xpn_rename (Some old) (Some new));
  PROXY_XPN_STAT path := on_client (xpn_stat (Some path) false);
  PROXY_XPN_MKDIR path mode := on_client (xpn_mkdir (Some path) mode);
  PROXY_XPN_OPENDIR path := (
    d ← on_client (xpn_opendir (Some path));
    match d with
    | None => mret None
    | Some d =>
      s ← get;
      put (ExpandServer (es_client s) (es_dirs s ++ [Some d]));;
      mret (Some (Z.of_nat (length (es_dirs s)) + 1, dir_fd d))
    end);
  PROXY_XPN_CLOSEDIR p := (
    d ← dir_at p;
    r ← on_client (xpn_closedir (Some d));
    when ((r : Z) =? 0) (modify (λ s, ExpandServer (es_client s) (<[Z.to_nat (p - 1) := None]> (es_dirs s))));;
    mret r);
  PROXY_XPN_READDIR p := (d ← dir_at p; on_client (xpn_readdir (Some d)));
  PROXY_XPN_RMDIR path := on_client (xpn_rmdir (Some path));
  proxy_errno s := errno (cl_env (es_client s)) }.
End expand.
