(* ===== verification/ProxySpec.v ===== *)
(** * ProxySpec: a call through the proxy is the call of the server

    A program of calls through the proxy has the results and the effects of the
    same calls made in the server's process; and the calls for which this is
    not so. *)

From S2P Require Import Prelude Cstr Paths Url Mdata Nfi Client MemFs FileTable Blocks Rw Dir Conf Init Unistd FileSystem Server Remote Rpc Proxy.

(** ** The server's program *)

Section server.
Context {S : Type} {PX : ProxyXpn S}.
Implicit Types (s : S) (q o : list packet).

Lemma resume_perform {A} c (m : M S A) (f : A → proc S unit) q o s a s' :
  m s = Some (a, s') → resume c (perform m ≫= f) q o s = resume c (f a) q o s'.
Proof. intros E. cbn. by rewrite E. Qed.
Lemma resume_crash {A} c (m : M S A) (f : A → proc S unit) q o s :
  m s = None → resume c (perform m ≫= f) q o s = Some (Turn None q o s false).
Proof. intros E. cbn. by rewrite E. Qed.
Lemma resume_receive c d got (f : option (list ascii) → proc S unit) q o s :
  resume c (receive_bytes (length d) got ≫= f) ((P_byte <$> d) ++ q) o s = resume c (f (Some (got ++ d))) q o s.
Proof.
  revert got. induction d as [|a d IH]; intros got; [by rewrite app_nil_r|]. cbn. rewrite (assoc_L (++) got [a] d : got ++ a :: d = _). apply IH.
Qed.
Lemma resume_receive2 {A} c d got (g : option (list ascii) → proc S A) (f : A → proc S unit) q o s :
  resume c ((receive_bytes (length d) got ≫= g) ≫= f) ((P_byte <$> d) ++ q) o s = resume c (g (Some (got ++ d)) ≫= f) q o s.
Proof.
  revert got. induction d as [|a d IH]; intros got; [by rewrite app_nil_r|]. cbn. rewrite (assoc_L (++) got [a] d : got ++ a :: d = _). apply IH.
Qed.
Lemma resume_bytes c d q o s : resume c (send_bytes d) q o s = Some (Turn None q (o ++ (P_byte <$> d)) s true).
Proof.
  revert o. induction d as [|a d IH]; intros o; cbn; [by rewrite app_nil_r|]. by rewrite IH, <- (assoc_L (++)).
Qed.

(** A program that still needs bytes waits. *)
Lemma resume_wait (d : list ascii) got (f : option (list ascii) → proc S unit) o s :
  d ≠ [] → resume false (receive_bytes (length d) got ≫= f) [] o s = Some (Turn (Some (receive_bytes (length d) got ≫= f)) [] o s true).
Proof. by destruct d. Qed.

(** A path is read whole, whatever its length. *)
Lemma resume_fullpath c path (f : cstr → proc S unit) q o s :
  path_ok path →
  resume c (xpn_proxy_server_read_fullpath (strlen path) (path_field path) ≫= f) (path_tail path ++ q) o s = resume c (f path) q o s.
Proof.
  intros [Hn Hl]. unfold xpn_proxy_server_read_fullpath, path_tail. unfold strlen in *. unfold XPN_PATH_MAX.
  destruct (Z.ltb_spec 128 (Z.of_nat (length path))) as [Hlt|Hge].
  - rewrite (proj2 (Z.leb_gt _ 128)), (proj2 (Z.leb_gt PATH_MAX _)) by done.
    assert (Z.of_nat (length path) - 128 = Z.of_nat (length (path_rest path))) as E
      by (unfold path_rest, XPN_PATH_MAX; rewrite length_drop; lia).
    unfold server_read_n_bytes. rewrite E, (proj2 (Z.eqb_neq _ _)) by lia. rewrite Nat2Z.id, resume_receive2.
    cbn [app]. unfold path_field, path_rest, XPN_PATH_MAX.
    replace (Z.to_nat 128 - length path)%nat with O by lia. cbn [replicate]. rewrite app_nil_r, take_drop, upto_nul_id by done. done.
  - rewrite (proj2 (Z.leb_le _ 128)), (proj2 (Z.ltb_ge _ 0)) by lia. rewrite Nat2Z.id. unfold path_field, XPN_PATH_MAX.
    rewrite (take_ge path (Z.to_nat 128)) by lia. rewrite take_app_le, take_ge by lia. rewrite upto_nul_id by done. done.
Qed.
End server.

(** ** The client's calls *)

Section client.
Context {S : Type} {PX : ProxyXpn S}.
Context (junk : Z) (at_ : proxy_addr).
Implicit Types (s : S) (w : proxied S).
Abbreviation here e s := (Proxied e s true None) (only parsing).

Lemma same_addr_refl a : same_addr a a = true.
Proof. unfold same_addr. by rewrite !Z.eqb_refl, bool_decide_true by done. Qed.

Lemma read_turn {T} (pick : packet → option T) e s p inb out t i o x :
  resume false p inb out s = Some t → t_outbox t = i :: o → pick i = Some x →
  read_struct pick (Proxied e s true (Some (Link (Some p) inb out)))
  = Some (Some x, Proxied e (t_srv t) (t_alive t) (Some (Link (t_peer t) (t_inbox t) o))).
Proof.
  intros E Ho Hx. unfold read_struct, next_packet.
  erewrite bind_step.
  2: { erewrite bind_step; [|unfold server_turn; cbn -[resume]; rewrite E; reflexivity]. cbv beta.
       erewrite bind_step by reflexivity. cbv beta. erewrite bind_step by reflexivity. cbn. rewrite Ho. reflexivity. }
  cbv beta iota. erewrite bind_step by (unfold lift; rewrite Hx; reflexivity). done.
Qed.

(** The first turn of the server, and the status that it sends first. *)
Lemma send_receive pr paths e s p inb r er o s' al :
  resume false (handle_petition junk) (P_msg pr :: (paths ≫= path_tail)) [] s = Some (Turn p inb (P_status r er :: o) s' al) →
  d_send_receive junk at_ at_ pr paths (here e s) = Some (Some (r, er), Proxied e s' al (Some (Link p inb o))).
Proof.
  intros E. unfold d_send_receive. erewrite bind_step by (unfold socket_client_connect; cbn; rewrite same_addr_refl; reflexivity).
  change (0 <? 0) with false. cbv beta iota. erewrite bind_step by reflexivity. cbv beta. erewrite bind_step by reflexivity. cbv beta. cbn [px_link px_errno px_srv px_alive peer inbox outbox app].
  erewrite bind_step by (eapply read_turn; [exact E|reflexivity|reflexivity]). done.
Qed.
Lemma close_done e s al inb o : d_close (Proxied e s al (Some (Link None inb o))) = Some (tt, Proxied e s al None).
Proof. done. Qed.

(** A call that makes one call on the server and has its status. *)
Lemma status_run pr paths e s r er s' :
  resume false (handle_petition junk) (P_msg pr :: (paths ≫= path_tail)) [] s = Some (Turn None [] [P_status r er] s' true) →
  status_call junk at_ at_ pr paths (here e s) = Some (r, here e s').
Proof.
  intros E. unfold status_call. erewrite bind_step by (by apply send_receive). cbv beta iota.
  by erewrite bind_step by apply close_done.
Qed.

(** Packets that are there already. *)
Lemma read_there {T} (pick : packet → option T) e s al inb i o x :
  pick i = Some x → read_struct pick (Proxied e s al (Some (Link None inb (i :: o)))) = Some (Some x, Proxied e s al (Some (Link None inb o))).
Proof. intros E. unfold read_struct. erewrite bind_step by reflexivity. cbv beta iota. erewrite bind_step by (unfold lift; rewrite E; reflexivity). done. Qed.
Lemma read_bytes_there d got e s al inb :
  read_bytes (length d) got (Proxied e s al (Some (Link None inb (P_byte <$> d)))) = Some (Some (got ++ d), Proxied e s al (Some (Link None inb []))).
Proof.
  revert got. induction d as [|a d IH]; intros got; [by rewrite app_nil_r|]. cbn [length read_bytes fmap list_fmap].
  erewrite bind_step by (by apply read_there). cbv beta iota. by rewrite IH, <- (assoc_L (++)).
Qed.

(** ** Programs of calls *)

Inductive pcall :=
  | C_open (path : cstr) (flags mode : Z) | C_creat (path : cstr) (mode : Z) | C_close (fd : Z)
  | C_read (fd size : Z) | C_write (fd : Z) (d : list ascii) | C_unlink (path : cstr) | C_rename (path newpath : cstr)
  | C_stat (path : cstr) | C_mkdir (path : cstr) (mode : Z) | C_rmdir (path : cstr)
  | C_opendir (path : cstr) | C_readdir (dir : Z) | C_closedir (dir : Z).
(** What a call returns, with what it stores. *)
Inductive presult :=
  | A_int (r : Z) | A_bytes (r : Z) (d : list ascii) | A_stat (r : Z) (st : option xstat)
  | A_dir (d : option (Z * Z)) | A_entry (e : option dirent).

Definition proxied_call (k : pcall) : M (proxied S) presult :=
  match k with
  | C_open path flags mode => r ← proxy_open junk at_ at_ (Some path) flags mode; mret (A_int r)
  | C_creat path mode => r ← proxy_creat junk at_ at_ (Some path) mode; mret (A_int r)
  | C_close fd => r ← proxy_close junk at_ at_ fd; mret (A_int r)
  | C_read fd size => r ← proxy_read junk at_ at_ fd false size; mret (A_bytes r.1 r.2)
  | C_write fd d => r ← proxy_write junk at_ at_ fd (Some d); mret (A_int r)
  | C_unlink path => r ← proxy_unlink junk at_ at_ (Some path); mret (A_int r)
  | C_rename path newpath => r ← proxy_rename junk at_ at_ (Some path) (Some newpath); mret (A_int r)
  | C_stat path => r ← proxy_stat junk at_ at_ (Some path) false; mret (A_stat r.1 r.2)
  | C_mkdir path mode => r ← proxy_mkdir junk at_ at_ (Some path) mode; mret (A_int r)
  | C_rmdir path => r ← proxy_rmdir junk at_ at_ (Some path); mret (A_int r)
  | C_opendir path => r ← proxy_opendir junk at_ at_ (Some path); mret (A_dir ((λ d, (remote_handler d, rd_fd d)) <$> r))
  | C_readdir dir => r ← proxy_readdir junk at_ at_ (Some (RemoteDir 0 [] dir)); mret (A_entry r)
  | C_closedir dir => r ← proxy_closedir junk at_ at_ (Some (RemoteDir 0 [] dir)); mret (A_int r)
  end.

(** The call in the server's process. *)
Definition direct_call (k : pcall) : M S presult :=
  match k with
  | C_open path flags mode => r ← PROXY_XPN_OPEN path flags mode; mret (A_int r)
  | C_creat path mode => r ← PROXY_XPN_CREAT path mode; mret (A_int r)
  | C_close fd => r ← PROXY_XPN_CLOSE fd; mret (A_int r)
  | C_read fd size => r ← PROXY_XPN_READ fd size; mret (A_bytes r.1 (take (Z.to_nat r.1) r.2))
  | C_write fd d => r ← PROXY_XPN_WRITE fd d; mret (A_int r)
  | C_unlink path => r ← PROXY_XPN_UNLINK path; mret (A_int r)
  | C_rename path newpath => r ← PROXY_XPN_RENAME path newpath; mret (A_int r)
  | C_stat path => r ← PROXY_XPN_STAT path; mret (A_stat r.1 (if r.1 =? 0 then Some (default xstat_zero r.2) else None))
  | C_mkdir path mode => r ← PROXY_XPN_MKDIR path mode; mret (A_int r)
  | C_rmdir path => r ← PROXY_XPN_RMDIR path; mret (A_int r)
  | C_opendir path => r ← PROXY_XPN_OPENDIR path; mret (A_dir r)
  | C_readdir dir => r ← PROXY_XPN_READDIR dir; mret (A_entry r)
  | C_closedir dir => r ← PROXY_XPN_CLOSEDIR dir; mret (A_int r)
  end.

(** The arguments the proxy passes on: a path fits in the server's buffer, a
    transfer has between 1 and 2^31 bytes. *)
Definition size_ok (n : Z) : Prop := 0 < n < 2 ^ 31.
Definition call_fits (k : pcall) : Prop :=
  match k with
  | C_open path _ _ | C_creat path _ | C_unlink path | C_stat path | C_mkdir path _ | C_rmdir path => path_ok path
  | C_opendir path => path_ok path ∧ path ≠ [] ∧ strlen path < PATH_MAX - 1
  | C_rename path newpath => path_ok path ∧ path_ok newpath
  | C_close fd => 0 <= fd
  | C_read fd size => 0 <= fd ∧ size_ok size
  | C_write fd d => 0 <= fd ∧ size_ok (Z.of_nat (length d))
  | C_readdir _ | C_closedir _ => True
  end.
(** The results it can bring back: bytes that were read, not the end of the file
    or an error, and a directory that was opened. *)
Definition result_fits (k : pcall) (r : presult) : Prop :=
  match k, r with
  | C_read _ size, A_bytes n d => 0 < n <= size ∧ Z.of_nat (length d) = n
  | C_write _ d, A_int n => - 2 ^ 31 <= n < 2 ^ 31
  | C_opendir _, A_dir d => ∃ dir fd, d = Some (dir, fd) ∧ dir ≠ 0
  | _, _ => True
  end.

Lemma tails1 path : [path] ≫= path_tail = path_tail path ++ [].
Proof. done. Qed.
Lemma tails2 path newpath : [path; newpath] ≫= path_tail = path_tail path ++ path_tail newpath ++ [].
Proof. done. Qed.

(** The handlers that answer with a status. *)
Ltac handler :=
  eapply status_run; rewrite ?tails1, ?tails2; unfold handle_petition, petition_getattr, petition_opendir, petition_readdir; cbn [resume];
  repeat first [rewrite resume_fullpath by done];
  erewrite resume_perform by eassumption; reflexivity.
Ltac run_status := match goal with H : ?m ?s = Some _ |- _ => eexists; mrun handler; reflexivity end.

(** *** The calls with data *)

Lemma read_through fd size e s n buf s' :
  0 <= fd → size_ok size → PROXY_XPN_READ fd size s = Some ((n, buf), s') → 0 < n <= size → Z.of_nat (length (take (Z.to_nat n) buf)) = n →
  proxy_read junk at_ at_ fd false size (here e s) = Some ((n, take (Z.to_nat n) buf), here e s').
Proof.
  unfold size_ok. intros Hfd Hsize E Hn Hl. unfold proxy_read. rewrite (proj2 (Z.ltb_ge fd 0)), (proj2 (Z.eqb_neq size 0)) by lia. cbn [orb].
  erewrite bind_step.
  2: { apply (send_receive _ [] e s None [] n (proxy_errno s') (P_byte <$> take (Z.to_nat n) buf) s' true).
       unfold handle_petition, petition_getattr, petition_opendir, petition_readdir; cbn [resume mbind list_bind]. erewrite resume_perform by exact E. cbv beta iota.
       rewrite (i32_id n) by lia. cbn [answer_status mbind proc_mbind proc_bind perform resume gets send app].
       rewrite (proj2 (Z.ltb_lt 0 n)), (proj2 (Z.ltb_ge size n)) by lia. by rewrite resume_bytes. }
  cbv beta iota. unfold read_n_bytes. rewrite (proj2 (Z.eqb_neq n 0)), (proj2 (Z.ltb_ge n 0)) by lia.
  replace (Z.to_nat n) with (length (take (Z.to_nat n) buf)) at 1 by lia.
  mrun (apply read_bytes_there). mrun (apply close_done). cbn [app]. by rewrite Hl.
Qed.
Lemma write_through fd d e s n s' :
  0 <= fd → size_ok (Z.of_nat (length d)) → PROXY_XPN_WRITE fd d s = Some (n, s') → - 2 ^ 31 <= n < 2 ^ 31 →
  proxy_write junk at_ at_ fd (Some d) (here e s) = Some (n, here e s').
Proof.
  unfold size_ok. intros Hfd Hsize E Hn. unfold proxy_write. rewrite (proj2 (Z.ltb_ge fd 0)), (proj2 (Z.eqb_neq _ 0)) by lia. cbn [orb].
  assert (d ≠ []) as Hd by (intros ->; cbn in Hsize; lia).
  erewrite bind_step.
  2: { apply (send_receive _ [] e s (Some (receive_bytes (length d) [] ≫= write_received fd (Z.of_nat (length d)))) [] 0 junk [] s true). unfold handle_petition, petition_getattr, petition_opendir, petition_readdir; cbn [resume mbind list_bind send proc_mbind proc_bind app].
       unfold server_read_n_bytes. rewrite (proj2 (Z.eqb_neq _ 0)) by lia. rewrite Nat2Z.id.
       by apply resume_wait. }
  cbv beta iota. mrun reflexivity. rewrite (i32_id (Z.of_nat (length d))), (proj2 (Z.ltb_ge _ 0)) by lia. cbn [peer inbox outbox px_link px_errno px_srv px_alive app].
  assert (resume false (receive_bytes (length d) [] ≫= write_received fd (Z.of_nat (length d))) (P_byte <$> d) [] s
    = Some (Turn None [] [P_status n (proxy_errno s')] s' true)) as Et.
  { rewrite <- (app_nil_r (P_byte <$> d)), resume_receive. unfold write_received. erewrite resume_perform by reflexivity.
    rewrite (i32_id (Z.of_nat (length d))), (proj2 (Z.ltb_lt 0 (Z.of_nat (length d)))), Nat2Z.id, take_ge by (cbn [app]; lia). cbn [app].
    erewrite resume_perform by exact E. by rewrite (i32_id n) by lia. }
  mrun (eapply read_turn; [exact Et|reflexivity|reflexivity]). mrun (apply close_done). done.
Qed.

Lemma stat_through path e s r st s' :
  path_ok path → PROXY_XPN_STAT path s = Some ((r, st), s') →
  proxy_stat junk at_ at_ (Some path) false (here e s) = Some ((r, if r =? 0 then Some (default xstat_zero st) else None), here e s').
Proof.
  intros Hp E. unfold proxy_stat. erewrite bind_step.
  2: { apply (send_receive _ [path] e s None [] r (proxy_errno s') (if r =? 0 then [P_attr (default xstat_zero st) r] else []) s' true).
       rewrite tails1. unfold handle_petition, petition_getattr, petition_opendir, petition_readdir; cbn [resume]. rewrite resume_fullpath by done. erewrite resume_perform by exact E.
       destruct (r =? 0) eqn:Er; cbn; by rewrite Er. }
  cbv beta iota. destruct (r =? 0) eqn:Er; cbn [negb].
  - apply Z.eqb_eq in Er as ->. mrun (by apply read_there). change (negb (0 =? 0)) with false. cbv iota. mrun (apply close_done). done.
  - mrun (apply close_done). done.
Qed.
Lemma opendir_through path e s dir fd s' :
  path_ok path → path ≠ [] → strlen path < PATH_MAX - 1 → dir ≠ 0 → PROXY_XPN_OPENDIR path s = Some (Some (dir, fd), s') →
  ∃ name, proxy_opendir junk at_ at_ (Some path) (here e s) = Some (Some (RemoteDir fd name dir), here e s').
Proof.
  intros Hp Hne Hl Hdir E.
  assert (∃ name, slashed path = Some name) as [name En].
  { unfold slashed. destruct (last path) as [a|] eqn:El; [|by apply last_None in El]. cbn.
    rewrite (proj2 (Z.leb_gt PATH_MAX (strlen path))), (proj2 (Z.leb_gt PATH_MAX (strlen path + 1))) by lia. destruct (is_slash a); eauto. }
  exists name. unfold proxy_opendir. erewrite bind_step.
  2: { apply (send_receive _ [path] e s None [] 0 (proxy_errno s') [P_opendir fd dir 0] s' true).
       rewrite tails1. unfold handle_petition, petition_getattr, petition_opendir, petition_readdir; cbn [resume]. rewrite resume_fullpath by done. erewrite resume_perform by exact E. reflexivity. }
  cbv beta iota. change (negb (0 =? 0)) with false. cbv iota. mrun (by apply read_there).
  change (negb (0 =? 0)) with false. rewrite (proj2 (Z.eqb_neq dir 0)) by done. cbn [orb].
  mrun (unfold lift; rewrite En; reflexivity). mrun (apply close_done). done.
Qed.
Lemma readdir_through dirp e s r s' :
  PROXY_XPN_READDIR (remote_handler dirp) s = Some (r, s') →
  ∃ e', proxy_readdir junk at_ at_ (Some dirp) (here e s) = Some (r, here e' s').
Proof.
  intros E. unfold proxy_readdir. destruct r as [d|]; eexists.
  - erewrite bind_step.
    2: { apply (send_receive _ [] e s None [] 0 (proxy_errno s') [P_dirent d 0] s' true).
         unfold handle_petition, petition_getattr, petition_opendir, petition_readdir; cbn [resume mbind list_bind]. erewrite resume_perform by exact E. reflexivity. }
    cbv beta iota. change (negb (0 =? 0)) with false. cbv iota. mrun (by apply read_there).
    change (negb (0 =? 0)) with false. cbv iota. mrun (apply close_done). done.
  - erewrite bind_step.
    2: { apply (send_receive _ [] e s None [] (-1) (proxy_errno s') [] s' true).
         unfold handle_petition, petition_getattr, petition_opendir, petition_readdir; cbn [resume mbind list_bind]. erewrite resume_perform by exact E. reflexivity. }
    cbv beta iota. change (negb (-1 =? 0)) with true. cbv iota. mrun (apply close_done). reflexivity.
Qed.

Lemma call_through k e s r s' :
  call_fits k → direct_call k s = Some (r, s') → result_fits k r →
  ∃ e', proxied_call k (here e s) = Some (r, here e' s').
Proof.
  intros Hk E Hr. destruct k; cbn [call_fits direct_call proxied_call] in *; apply bind_inv in E as (a & s1 & E & [= <- <-]).
  - unfold proxy_open, need_path. eexists. mrun handler. done.
  - unfold proxy_creat, need_path. eexists. mrun handler. done.
  - unfold proxy_close. zbool. eexists. mrun handler. done.
  - destruct a as [n buf]. cbn [result_fits] in Hr. eexists. cbn [fst snd] in *. destruct Hk, Hr. mrun (by apply (read_through fd size e s n buf s1)). done.
  - cbn in Hr. destruct Hk. eexists. mrun (by apply (write_through fd d e s a s1)). done.
  - unfold proxy_unlink, need_path. eexists. mrun handler. done.
  - unfold proxy_rename, need_path. destruct Hk. eexists. mrun handler. done.
  - destruct a as [n st]. eexists. mrun (by eapply stat_through). done.
  - unfold proxy_mkdir, need_path. eexists. mrun handler. done.
  - unfold proxy_rmdir, need_path. eexists. mrun handler. done.
  - cbn in Hr. destruct Hr as (dir & fd & -> & Hd). destruct Hk as (Hp & Hne & Hl).
    destruct (opendir_through path e s dir fd s1) as [name En]; [done..|]. eexists. mrun (exact En). done.
  - destruct (readdir_through (RemoteDir 0 [] dir) e s a s1) as [e' En]; [done|]. eexists. mrun (exact En). done.
  - unfold proxy_closedir. eexists. erewrite bind_step.
    2: { erewrite bind_step by (apply (send_receive _ [] e s None [] a (proxy_errno s1) [] s1 true);
           unfold handle_petition, petition_getattr, petition_opendir, petition_readdir; cbn [resume mbind list_bind]; erewrite resume_perform by exact E; reflexivity).
         cbv beta iota. mrun (apply close_done). reflexivity. }
    done.
Qed.


(** ** The calls that do not come through *)

(** At the end of a file the server's read gives 0; through the proxy it is
    -1 with EINVAL. *)
Theorem read_end_is_an_error fd size e s buf s' :
  0 <= fd → size_ok size → PROXY_XPN_READ fd size s = Some ((0, buf), s') →
  proxied_call (C_read fd size) (here e s) = Some (A_bytes (-1) [], here EINVAL s').
Proof.
  unfold size_ok. intros Hfd Hsize E. cbn [proxied_call].
  erewrite (bind_step _ _ _ (-1, [])); [reflexivity|]. unfold proxy_read. rewrite (proj2 (Z.ltb_ge fd 0)), (proj2 (Z.eqb_neq size 0)) by lia. cbn [orb].
  erewrite bind_step.
  2: { apply (send_receive _ [] e s None [] 0 (proxy_errno s') [] s' true).
       unfold handle_petition, petition_getattr, petition_opendir, petition_readdir; cbn [resume mbind list_bind]. erewrite resume_perform by exact E. reflexivity. }
  cbv beta iota. unfold read_n_bytes. change (0 =? 0) with true. cbv iota. mrun reflexivity. mrun (apply close_done). reflexivity.
Qed.

(** What a call gives when there is no server. *)
Definition no_server (k : pcall) : presult :=
  match k with
  | C_read _ _ => A_bytes (-1) [] | C_stat _ => A_stat (-1) None
  | C_opendir _ => A_dir None | C_readdir _ => A_entry None
  | _ => A_int (-1)
  end.
Lemma dead_server k e s :
  call_fits k → proxied_call k (Proxied e s false None) = Some (no_server k, Proxied e s false None).
Proof.
  assert (∀ pr paths, d_send_receive junk at_ at_ pr paths (Proxied e s false None) = Some (None, Proxied e s false None)) as Hd by done.
  assert (∀ pr paths, status_call junk at_ at_ pr paths (Proxied e s false None) = Some (-1, Proxied e s false None)) as Hs by done.
  destruct k; cbn [call_fits proxied_call]; intros Hk; try done; unfold size_ok in *;
    unfold proxy_close, proxy_read, proxy_write; zbool; done.
Qed.

(** A directory that cannot be opened kills the server, which follows the NULL
    that opendir gave it: the client has EIO, and no call reaches the server any
    more. *)
Theorem failed_opendir_kills path e s s' :
  path_ok path → PROXY_XPN_OPENDIR path s = Some (None, s') →
  ∃ w, proxied_call (C_opendir path) (here e s) = Some (A_dir None, w) ∧ px_errno w = EIO ∧ px_alive w = false ∧
  ∀ k, call_fits k → proxied_call k w = Some (no_server k, w).
Proof.
  intros Hp E. exists (Proxied EIO s' false None). split; [|split_and!; [done..|]; intros k; apply dead_server].
  cbn [proxied_call]. erewrite (bind_step _ _ _ None); [reflexivity|]. unfold proxy_opendir. erewrite bind_step.
  2: { apply (send_receive _ [path] e s None [] 0 (proxy_errno s') [] s' false).
       rewrite tails1. unfold handle_petition, petition_getattr, petition_opendir, petition_readdir; cbn [resume]. rewrite resume_fullpath by done. erewrite resume_perform by exact E. reflexivity. }
  cbv beta iota. change (negb (0 =? 0)) with false. cbv iota. mrun reflexivity. mrun reflexivity. mrun (apply close_done). reflexivity.
Qed.
End client.

(** ** A concrete server *)

Definition proxy_at : proxy_addr := ProxyAddr 4 (str "127.0.0.1") 5555.
Definition some_server : expand_server memfs := ExpandServer (mclient 1) [].
Definition some_pcalls : list pcall :=
  [C_creat (str "/xpn/f") 420; C_write 0 (str "abc"); C_close 0; C_open (str "/xpn/f") O_RDONLY 0; C_read 0 8; C_close 0;
   C_stat (str "/xpn/g"); C_mkdir (str "/xpn/d") 493].
Definition some_presults : list presult :=
  [A_int 0; A_int 3; A_int 0; A_int 0; A_bytes 3 (str "abc"); A_int 0; A_stat (-1) None; A_int 0].
Lemma some_pcalls_end : ∃ s, mapM direct_call some_pcalls some_server = Some (some_presults, s).
Proof.
  assert (fst <$> mapM direct_call some_pcalls some_server = Some some_presults) as E
    by (match goal with |- ?a = _ => vm_cast_no_check (eq_refl a) end).
  destruct (mapM direct_call some_pcalls some_server) as [[rs s]|]; [|discriminate E]. injection E as ->. by exists s.
Qed.
Lemma path_ok_dec path : bool_decide (NUL ∉ path) && (strlen path <? PATH_MAX) = true → path_ok path.
Proof. intros [H1%bool_decide_eq_true H2%Z.ltb_lt]%andb_true_iff. by split. Qed.
Lemma some_pcalls_fit : Forall call_fits some_pcalls.
Proof. unfold some_pcalls. repeat constructor; try (by apply path_ok_dec); done. Qed.


(** A file that is empty. *)
Definition read_empty : M (expand_server memfs) (Z * list ascii) := direct_call (C_creat (str "/xpn/f") 420);; PROXY_XPN_READ 0 8.
Lemma empty_read : ∃ s s' buf, PROXY_XPN_READ 0 8 s = Some ((0, buf), s') ∧ ∃ r, direct_call (C_creat (str "/xpn/f") 420) some_server = Some (r, s).
Proof.
  assert (fst <$> read_empty some_server = Some (0, replicate 8 NUL)) as E
    by (match goal with |- ?a = _ => vm_cast_no_check (eq_refl a) end).
  destruct (read_empty some_server) as [[r s']|] eqn:E1; [|discriminate E]. injection E as ->. apply bind_inv in E1 as (r & s & E1 & E2). eauto 6.
Qed.
Lemma read_end_is_an_error_witness :
  ∃ (s s' : expand_server memfs), proxied_call 0 proxy_at (C_read 0 8) (Proxied 0 s true None) = Some (A_bytes (-1) [], Proxied EINVAL s' true None).
Proof.
  destruct empty_read as (s & s' & buf & E & _). exists s, s'. apply (read_end_is_an_error 0 proxy_at 0 8 0 s buf s'); [lia|done|exact E].
Defined.

Lemma missing_dir : ∃ s', PROXY_XPN_OPENDIR (str "/xpn/none") some_server = Some (None, s').
Proof.
  assert (fst <$> PROXY_XPN_OPENDIR (str "/xpn/none") some_server = Some None) as E
    by (match goal with |- ?a = _ => vm_cast_no_check (eq_refl a) end).
  destruct (PROXY_XPN_OPENDIR _ some_server) as [[r s']|]; [|discriminate E]. injection E as ->. eauto.
Qed.
Lemma failed_opendir_kills_witness :
  ∃ w, proxied_call 0 proxy_at (C_opendir (str "/xpn/none")) (Proxied 0 some_server true None) = Some (A_dir None, w) ∧ px_alive w = false.
Proof.
  destruct missing_dir as [s' E].
  destruct (failed_opendir_kills 0 proxy_at (str "/xpn/none") 0 some_server s') as (w & Ew & _ & Ha & _); [by apply path_ok_dec|exact E|].
  by exists w.
Defined.
