(* ===== verification/Setup.v ===== *)
(** * Setup: the start and the end of a server

    nfi_local.c, nfi_xpn_server.c, nfi_xpn_server_comm.c and nfi_sck_server_comm.c: what
    the client allocates for a server, its connection, and the change to local
    operations when the server is on the client's own machine.  The build has sockets
    and neither MPI nor MQTT.  [Local] and [Remote] are the operations in between.
    [serv->server], which nothing sets, is NULL; [filesystem_low_set], which makes the
    calls of the local operations reach the system, is left out. *)

From S2P Require Import Prelude Cstr Paths Url Init OnDemand Proxy Server.

(** ** Data *)

Definition XPN_SERVER_TYPE_MPI : Z := 0.
Definition XPN_SERVER_TYPE_SCK : Z := 1.
Definition SOCKET_ACCEPT_CODE_SCK_CONN : Z := 151.
Definition SOCKET_ACCEPT_CODE_SCK_NO_CONN : Z := 152.
Definition MAX_PORT_NAME_LENGTH : Z := 256.
Definition DEFAULT_XPN_SCK_PORT : Z := 3456.
Definition EINVAL : Z := 22.

(** [struct nfi_xpn_server]; [memset] leaves zeros in it. *)
Record nfi_xpn_server := XpnServer {
  ns_thread : Z; ns_locality : Z; ns_keep : Z; server_type : Z; server_socket : Z; port_name : cstr; srv_name : cstr }.
Definition xpn_server_zero : nfi_xpn_server := XpnServer 0 0 0 0 0 [] [].
Definition set_socket (fd : Z) (x : nfi_xpn_server) := XpnServer (ns_thread x) (ns_locality x) (ns_keep x) (server_type x) fd (port_name x) (srv_name x).
Definition set_port (p : cstr) (x : nfi_xpn_server) := XpnServer (ns_thread x) (ns_locality x) (ns_keep x) (server_type x) (server_socket x) p (srv_name x).
Definition set_name (n : cstr) (x : nfi_xpn_server) := XpnServer (ns_thread x) (ns_locality x) (ns_keep x) (server_type x) (server_socket x) (port_name x) n.

(** What is allocated.  Of [struct nfi_local_server]: whether [path] is all zeros (it is not known after [strcpy]), and
    [private_info_server], which is [None] before it is written.  The workers of
    [struct nfi_worker] have a mode when they run. *)
Inductive ops_of := Local_ops | Remote_ops.
Inductive block :=
  | B_ops (o : ops_of) | B_url (url : cstr) | B_worker (running : option Z)
  | B_remote (x : nfi_xpn_server) | B_local (path_zero : bool) (private_info_server : option nat).

(** [struct nfi_server]; a pointer is the number of a block, and 0 is NULL. *)
Record server := MkServer { ops : nat; private : nat; url_ptr : nat; wrk : nat; thread : Z; session_file : Z; session_dir : Z; keep : Z }.
Definition server_zero : server := MkServer 0 0 0 0 0 0 0 0.
Definition with_ops p v := MkServer p (private v) (url_ptr v) (wrk v) (thread v) (session_file v) (session_dir v) (keep v).
Definition with_private p v := MkServer (ops v) p (url_ptr v) (wrk v) (thread v) (session_file v) (session_dir v) (keep v).
Definition with_url p v := MkServer (ops v) (private v) p (wrk v) (thread v) (session_file v) (session_dir v) (keep v).
Definition with_wrk p v := MkServer (ops v) (private v) (url_ptr v) p (thread v) (session_file v) (session_dir v) (keep v).
Definition with_modes t f d v := MkServer (ops v) (private v) (url_ptr v) (wrk v) t f d (keep v).
Definition with_keep k v := MkServer (ops v) (private v) (url_ptr v) (wrk v) (thread v) (session_file v) (session_dir v) k.

(** The server, the memory, the sockets that are open, the codes sent, and [errno]. *)
Record client := Client { serv : server; blocks : gmap nat block; fresh : nat; sockets : gset Z; sent : list (Z * Z); errno : Z }.
Definition set_serv (f : server → server) (c : client) := Client (f (serv c)) (blocks c) (fresh c) (sockets c) (sent c) (errno c).
Definition set_blocks (f : gmap nat block → gmap nat block) (c : client) := Client (serv c) (f (blocks c)) (fresh c) (sockets c) (sent c) (errno c).
Definition set_sockets (f : gset Z → gset Z) (c : client) := Client (serv c) (blocks c) (fresh c) (f (sockets c)) (sent c) (errno c).
Abbreviation prog := (M client).

Definition malloc (b : block) : prog nat := λ c,
  Some (fresh c, Client (serv c) (<[fresh c := b]> (blocks c)) (S (fresh c)) (sockets c) (sent c) (errno c)).
(** [FREE_AND_NULL], of a pointer that the caller then clears. *)
Definition free_block (p : nat) : prog unit :=
  if (p =? 0)%nat then mret tt else c ← get; b ← lift (blocks c !! p); modify (set_blocks (delete p)).
(** The struct of a connection.  What is read through a pointer to a zeroed
    [struct nfi_local_server] is zeros: its [path] is longer than the struct. *)
Definition remote (p : nat) : prog nfi_xpn_server :=
  c ← get;
  b ← lift (blocks c !! p);
  match b with B_remote x => mret x | B_local true _ => mret xpn_server_zero | _ => fault end.
Definition set_remote (p : nat) (f : nfi_xpn_server → nfi_xpn_server) : prog unit :=
  c ← get;
  b ← lift (blocks c !! p);
  match b with B_remote x => modify (set_blocks (<[p := B_remote (f x)]>)) | _ => fault end.
(** [server_aux->private_info_server] *)
Definition local_info (p : nat) : prog nat :=
  c ← get;
  b ← lift (blocks c !! p);
  match b with B_local _ (Some i) => mret i | _ => fault end.
Definition set_local_info (p i : nat) : prog unit :=
  c ← get;
  b ← lift (blocks c !! p);
  match b with B_local z _ => modify (set_blocks (<[p := B_local z (Some i)]>)) | _ => fault end.

Section setup.
(** The environment and the names of the machine. *)
Context (getenv : cstr → option cstr) (host_ip host_name : cstr).
(** The network: the sockets that a connection to the service of a server and to one of
    its ports opens, when some are open already; what the service answers to a request;
    and whether there is somebody at the other end of a socket. *)
Context (socket_client_connect : cstr → Z → gset Z → option Z) (socket_client_connect_with_retries : cstr → cstr → gset Z → option Z).
Context (service_answer : cstr → Z → option cstr) (alive : Z → bool).

Definition switch (name : cstr) (default_value : Z) : Z := utils_getenv_int (getenv name) default_value.

(** ** Workers: nfi_worker.c *)

Definition nfiworker_init : prog Z :=
  c ← get;
  b ← lift (blocks c !! wrk (serv c));
  match b with B_worker _ => modify (set_blocks (<[wrk (serv c) := B_worker (Some (thread (serv c)))]>));; mret 0 | _ => fault end.
Definition nfiworker_destroy : prog unit :=
  c ← get;
  if thread (serv c) =? TH_NOT then mret tt
  else
    b ← lift (blocks c !! wrk (serv c));
    match b with B_worker _ => modify (set_blocks (<[wrk (serv c) := B_worker None]>)) | _ => fault end.

(** ** The connection *)

(** [write] takes the whole code or fails. *)
Definition socket_send (fd code : Z) : prog Z :=
  c ← get;
  if bool_decide (fd ∈ sockets c) && alive fd
  then modify (λ c, Client (serv c) (blocks c) (fresh c) (sockets c) (sent c ++ [(fd, code)]) (errno c));; mret 0 else mret (-1).
Definition socket_close (fd : Z) : prog Z :=
  c ← get;
  if bool_decide (fd ∈ sockets c) then modify (set_sockets (.∖ {[fd]}));; mret 0 else mret (-1).
(** The answer of the service of a server to a request. *)
Definition sersoc_do_send_recv (name : cstr) (port req_id : Z) : prog (option cstr) :=
  c ← get;
  match socket_client_connect name port (sockets c) with
  | None => mret None
  | Some fd =>
    modify (set_sockets ({[fd]} ∪.));;
    ret ← socket_send fd req_id;
    if (ret : Z) <? 0 then socket_close fd;; mret None
    else
      match service_answer name req_id with
      | None => socket_close fd;; mret None
      | Some answer => ret ← socket_close fd; mret (if (ret : Z) <? 0 then None else Some answer)
      end
  end.
Definition sersoc_lookup_port_name (name : cstr) (code : Z) : prog (option cstr) :=
  sersoc_do_send_recv name (switch (str "XPN_SCK_PORT") DEFAULT_XPN_SCK_PORT) code.

Definition nfi_sck_server_comm_connect (p : nat) : prog Z :=
  x ← remote p;
  c ← get;
  match socket_client_connect_with_retries (srv_name x) (port_name x) (sockets c) with
  | Some fd => modify (set_sockets ({[fd]} ∪.));; set_remote p (set_socket fd);; mret 0
  | None => mret (-1)
  end.
Definition nfi_sck_server_comm_disconnect (socket keep_connected : Z) : prog Z :=
  if socket =? -1 then mret 0
  else
    ret ← (if keep_connected =? 1 then socket_send socket XPN_SERVER_DISCONNECT else mret 0);
    if (ret : Z) <? 0 then mret ret else socket_close socket.

Definition nfi_xpn_server_comm_init (x : nfi_xpn_server) : Z := if server_type x =? XPN_SERVER_TYPE_SCK then 0 else -1.
Definition nfi_xpn_server_comm_destroy (x : nfi_xpn_server) : Z := if server_type x =? XPN_SERVER_TYPE_SCK then 0 else -1.
Definition nfi_xpn_server_comm_connect (p : nat) : prog Z :=
  x ← remote p;
  if server_type x =? XPN_SERVER_TYPE_SCK then
    if ns_keep x =? 1 then
      port ← sersoc_lookup_port_name (srv_name x) SOCKET_ACCEPT_CODE_SCK_CONN;
      match port with
      | Some port => set_remote p (set_port port);; nfi_sck_server_comm_connect p
      | None => mret (-1)
      end
    else nfi_sck_server_comm_connect p
  else mret (-1).
Definition nfi_xpn_server_comm_disconnect (p : nat) : prog Z :=
  x ← remote p;
  if server_type x =? XPN_SERVER_TYPE_SCK then
    ret ← nfi_sck_server_comm_disconnect (server_socket x) (ns_keep x);
    set_remote p (set_socket (-1));; mret ret
  else mret (-1).

(** [struct nfi_server *serv] is that of the state. *)
Definition nfi_xpn_server_connect (name : cstr) : prog Z :=
  c ← get;
  let p := private (serv c) in
  if (p =? 0)%nat then mret (-1)
  else if MAX_PORT_NAME_LENGTH <=? strlen name then fault
  else
    set_remote p (set_name name);;
    ret ← nfi_xpn_server_comm_connect p;
    mret (if (ret : Z) <? 0 then -1 else 0).
Definition server_disconnect : prog Z :=
  c ← get;
  if (private (serv c) =? 0)%nat then mret 0
  else ret ← nfi_xpn_server_comm_disconnect (private (serv c)); mret 0.
Definition server_reconnect : prog Z :=
  c ← get;
  ret ← nfi_xpn_server_comm_connect (private (serv c));
  mret (if (ret : Z) <? 0 then -1 else 0).
Definition server_keep_connected : prog Z :=
  c ← get;
  ret ← (if keep (serv c) =? 0 then server_reconnect else mret 0);
  if (ret : Z) <? 0 then modify (set_serv (with_private 0));; mret (-1)
  else c ← get; mret (if (private (serv c) =? 0)%nat then 0 else 1).

(** ** Local servers: nfi_local.c *)

(** The URL, its protocol, server and directory. *)
Definition parse (url : cstr) : prog (option (cstr * cstr)) :=
  '(ret, b) ← lift (ParseURL url (UrlBufs (Some []) (Some []) None (Some [])));
  mret (if (ret : Z) <? 0 then None else Some (default [] (u_server b), default [] (u_dir b))).
Definition free_ops : prog unit := c ← get; free_block (ops (serv c));; modify (set_serv (with_ops 0)).

Definition nfi_local_connect : prog Z := c ← get; mret (if (private (serv c) =? 0)%nat then -1 else 0).
Definition nfi_local_init (url : cstr) : prog Z :=
  p ← malloc (B_ops Local_ops);
  modify (set_serv (with_ops p));;
  u ← parse url;
  match u with
  | None => modify (λ c, Client (serv c) (blocks c) (fresh c) (sockets c) (sent c) EINVAL);; free_ops;; mret (-1)
  | Some (_, _) =>
    p ← malloc (B_local true (Some 0%nat));
    modify (set_serv (with_private p));;
    modify (set_serv (with_modes (switch (str "XPN_THREAD") TH_NOT) (switch (str "XPN_SESSION_FILE") 0) (switch (str "XPN_SESSION_DIR") 1)));;
    q ← malloc (B_url url);
    modify (set_serv (with_url q));;
    w ← malloc (B_worker None);
    modify (set_serv (with_wrk w));;
    ret ← nfiworker_init;
    ret ← nfi_local_connect;
    if (ret : Z) <? 0 then free_ops;; free_block p;; mret (-1) else mret 0
  end.
Definition nfi_local_disconnect : prog Z :=
  c ← get;
  let p := private (serv c) in
  if (p =? 0)%nat then mret (-1)
  else
    i ← local_info p;
    if (i =? 0)%nat then mret 0
    else modify (set_serv (with_private i));; ret ← server_disconnect; modify (set_serv (with_private p));; mret 0.
(** The test for a connection is on [server_aux]; the struct is allocated again. *)
Definition nfi_local_reconnect : prog Z :=
  c ← get;
  let p := private (serv c) in
  (if (p =? 0)%nat then mret tt
   else
     i ← local_info p;
     modify (set_serv (with_private i));; ret ← server_reconnect;
     c ← get; modify (set_serv (with_private p));; set_local_info p (private (serv c)));;
  c ← get;
  b ← lift (blocks c !! url_ptr (serv c));
  match b with
  | B_url url =>
    u ← parse url;
    match u with
    | None => mret (-1)
    | Some (_, _) =>
      q ← malloc (B_local false None);
      modify (set_serv (with_private q));; mret 0
    end
  | _ => fault
  end.
(** The fields that are freed and cleared at the end. *)
Definition free_server : prog unit :=
  c ← get;
  free_block (ops (serv c));; free_block (private (serv c));; free_block (url_ptr (serv c));; free_block (wrk (serv c));;
  modify (set_serv (λ v, MkServer 0 0 0 0 (thread v) (session_file v) (session_dir v) (keep v))).
Definition nfi_local_destroy : prog Z :=
  c ← get;
  let p := private (serv c) in
  if (p =? 0)%nat then mret (-1)
  else
    nfiworker_destroy;;
    i ← local_info p; free_block i;;
    free_server;; mret 0.

(** ** Servers with a connection: nfi_xpn_server.c *)

(** XPN_CONNECTED *)
Definition keep_connection : Z := let k := switch (str "XPN_CONNECTED") 1 in if (k <? 0) || (1 <? k) then 1 else k.
Definition on_this_machine (name : cstr) : bool := strstr name host_ip || strstr name host_name.
(** The failures before the URL is copied: [serv->private_info] is left as it is. *)
Definition release_server (p : nat) : prog Z := free_ops;; free_block p;; mret (-1).

(** The port of a server that is not kept connected, which is asked for once. *)
Definition find_port (name : cstr) (p : nat) : prog bool :=
  if keep_connection =? 0 then
    port ← sersoc_lookup_port_name name SOCKET_ACCEPT_CODE_SCK_NO_CONN;
    match port with Some port => set_remote p (set_port port);; mret true | None => mret false end
  else mret true.
(** What is left once the server is connected: the change to local operations, or
    the workers.  [x] is the struct at [p]. *)
Definition start_work (url name : cstr) (p : nat) (x : nfi_xpn_server) : prog Z :=
  if (ns_locality x =? 1) && on_this_machine name then
    free_ops;;
    ret ← nfi_local_init url;
    c ← get;
    set_local_info (private (serv c)) p;;
    when (keep (serv c) =? 0) (r ← server_disconnect; mret tt);;
    mret ret
  else
    r ← nfiworker_init;
    when (ns_keep x =? 0) (r ← server_disconnect; mret tt);;
    mret 0.
Definition nfi_xpn_server_init (url : cstr) (type : Z) : prog Z :=
  o ← malloc (B_ops Remote_ops);
  modify (set_serv (with_ops o));;
  u ← parse url;
  match u with
  | None => free_ops;; mret (-1)
  | Some (name, _) =>
    let mode := switch (str "XPN_THREAD") TH_NOT in
    let x := XpnServer mode (switch (str "XPN_LOCALITY") 1) keep_connection type 0 [] [] in
    p ← malloc (B_remote x);
    modify (set_serv (with_private p));;
    modify (set_serv (with_keep keep_connection));;
    modify (set_serv (with_modes mode (switch (str "XPN_SESSION_FILE") 0) (switch (str "XPN_SESSION_DIR") 1)));;
    if nfi_xpn_server_comm_init x <? 0 then release_server p
    else
      q ← malloc (B_url url);
      modify (set_serv (with_url q));;
      w ← malloc (B_worker None);
      modify (set_serv (with_wrk w));;
      found ← find_port name p;
      if negb (found : bool) then mret (-1)
      else
        ret ← nfi_xpn_server_connect name;
        if (ret : Z) <? 0 then release_server p
        else start_work url name p x
  end.
Definition nfi_xpn_server_destroy : prog Z :=
  c ← get;
  if (private (serv c) =? 0)%nat then mret 0
  else
    nfiworker_destroy;;
    x ← remote (private (serv c));
    free_server;; mret 0.

(** [serv->ops->nfi_disconnect] and [serv->ops->nfi_destroy]. *)
Definition by_ops {A} (local remote : prog A) : prog A :=
  c ← get;
  b ← lift (blocks c !! ops (serv c));
  match b with B_ops Local_ops => local | B_ops Remote_ops => remote | _ => fault end.
Definition disconnect_server : prog Z := by_ops nfi_local_disconnect server_disconnect.
Definition destroy_server : prog Z := by_ops nfi_local_destroy nfi_xpn_server_destroy.
End setup.
