(* ===== verification/SetupSpec.v ===== *)
(** * SetupSpec: what a server leaves behind

    [Setup]: a connection is opened when it is kept and closed at the end, and every
    block is freed but two; where the code does less. *)

From S2P Require Import Prelude Cstr Paths Url OnDemand Server Setup.

Section life.
Context (getenv : cstr → option cstr) (host_ip host_name : cstr).
Context (socket_client_connect : cstr → Z → gset Z → option Z) (socket_client_connect_with_retries : cstr → cstr → gset Z → option Z).
Context (service_answer : cstr → Z → option cstr) (alive : Z → bool).

(** What a new socket is: one that was not open, with a number that is not negative. *)
Definition fresh_socket (s : gset Z) (o : option Z) : Prop := ∃ fd, o = Some fd ∧ 0 <= fd ∧ (fd ∉ s) ∧ alive fd = true.

(** A server that is up: its service and the port that this gives can be reached. *)
Record reachable (name port : cstr) : Prop := {
  up_service n s : fresh_socket s (socket_client_connect name n s);
  up_answer code : service_answer name code = Some port;
  up_port s : fresh_socket s (socket_client_connect_with_retries name port s) }.

Abbreviation lookup_port := (sersoc_lookup_port_name getenv socket_client_connect service_answer alive).
Abbreviation comm_connect := (nfi_xpn_server_comm_connect getenv socket_client_connect socket_client_connect_with_retries service_answer alive).
Abbreviation comm_disconnect := (nfi_xpn_server_comm_disconnect alive).
Abbreviation keep_conn := (keep_connection getenv).

Lemma remote_run p x c : blocks c !! p = Some (B_remote x) → remote p c = Some (x, c).
Proof. intros H. unfold remote, mbind, M_bind, get, lift. cbn. by rewrite H. Qed.
Lemma set_remote_run p f x c : blocks c !! p = Some (B_remote x) → set_remote p f c = Some (tt, set_blocks (<[p := B_remote (f x)]>) c).
Proof. intros H. unfold set_remote, mbind, M_bind, get, lift, modify. cbn. by rewrite H. Qed.
Lemma set_local_info_run p i z o c : blocks c !! p = Some (B_local z o) → set_local_info p i c = Some (tt, set_blocks (<[p := B_local z (Some i)]>) c).
Proof. intros H. unfold set_local_info, mbind, M_bind, get, lift, modify. cbn. by rewrite H. Qed.
Lemma free_block_run p b c : (0 < p)%nat → blocks c !! p = Some b → free_block p c = Some (tt, set_blocks (delete p) c).
Proof. intros Hp H. unfold free_block. destruct (Nat.eqb_spec p 0) as [->|]; [lia|]. unfold mbind, M_bind, get, lift, modify. cbn. by rewrite H. Qed.

(** Sockets, and what was sent, after a request to the service. *)
Definition with_sent (m : list (Z * Z)) (c : client) : client := Client (serv c) (blocks c) (fresh c) (sockets c) (sent c ++ m) (errno c).

Lemma socket_send_run fd code c : fd ∈ sockets c → alive fd = true → socket_send alive fd code c = Some (0, with_sent [(fd, code)] c).
Proof. intros H Ha. unfold socket_send, mbind, M_bind, get, modify. cbn. by rewrite bool_decide_true, Ha. Qed.
Lemma socket_close_run fd s c : sockets c = {[fd]} ∪ s → fd ∉ s → socket_close fd c = Some (0, set_sockets (λ _, s) c).
Proof.
  intros H Hs. unfold socket_close, mbind, M_bind, get, modify, set_sockets. cbn. rewrite bool_decide_true by (rewrite H; set_solver).
  cbn. replace (sockets c ∖ {[fd]}) with s by (rewrite H; set_solver). done.
Qed.

Lemma lookup_port_run name port code c : reachable name port →
  ∃ m, lookup_port name code c = Some (Some port, with_sent m c).
Proof.
  intros [Hs Ha _]. unfold sersoc_lookup_port_name. generalize (switch getenv (str "XPN_SCK_PORT") DEFAULT_XPN_SCK_PORT) as n.
  intros n. destruct (Hs n (sockets c)) as (fd & E & H0 & Hn & Hal). exists [(fd, code)].
  unfold sersoc_do_send_recv. mstep. rewrite E. mstep. mrun (apply socket_send_run; [cbn; set_solver|done]). cbn [Z.ltb Z.compare]. rewrite Ha.
  mrun (apply (socket_close_run _ (sockets c)); done). by destruct c.
Qed.

(** A connection at [p], in memory [B] and with sockets [s0] besides: it is open
    when it is [held]. *)
Definition connection (name port : cstr) (k : Z) (held : bool) (p : nat) (s0 : gset Z) (B : gmap nat block) (c : client) : Prop :=
  ∃ x, blocks c = <[p := B_remote x]> B ∧ server_type x = XPN_SERVER_TYPE_SCK ∧ srv_name x = name ∧ ns_keep x = k ∧
    if held then 0 <= server_socket x ∧ (server_socket x ∉ s0) ∧ alive (server_socket x) = true ∧ sockets c = {[server_socket x]} ∪ s0
    else port_name x = port ∧ server_socket x = -1 ∧ sockets c = s0.

Definition with_net (B : gmap nat block) (s : gset Z) (m : list (Z * Z)) (c : client) : client := Client (serv c) B (fresh c) s (sent c ++ m) (errno c).

Lemma comm_connect_run name port p x B c :
  reachable name port → blocks c = <[p := B_remote x]> B → server_type x = XPN_SERVER_TYPE_SCK → srv_name x = name →
  (ns_keep x = 1 ∨ port_name x = port) →
  ∃ fd m, 0 <= fd ∧ (fd ∉ sockets c) ∧ alive fd = true ∧
    comm_connect p c = Some (0, with_net (<[p := B_remote (set_socket fd (set_port port x))]> B) ({[fd]} ∪ sockets c) m c).
Proof.
  intros Hup Hb Ht Hn Hk. assert (blocks c !! p = Some (B_remote x)) as Hp by (rewrite Hb; apply lookup_insert_eq).
  unfold nfi_xpn_server_comm_connect. mrun (by apply remote_run). rewrite Ht, Z.eqb_refl.
  destruct (Z.eqb_spec (ns_keep x) 1) as [E|E].
  - destruct (lookup_port_run name port SOCKET_ACCEPT_CODE_SCK_CONN c Hup) as [m Em].
    destruct (up_port _ _ Hup (sockets c)) as (fd & Ef & H0 & Hs & Ha). exists fd, m. split_and!; [done..|].
    rewrite Hn. mrun (exact Em). mrun (by apply (set_remote_run p _ x)). unfold nfi_sck_server_comm_connect.
    mrun (apply remote_run; apply lookup_insert_eq). mstep. cbn [srv_name set_port port_name sockets set_blocks with_sent].
    rewrite Hn, Ef. mstep. erewrite bind_step by (apply set_remote_run; cbn; apply lookup_insert_eq). cbn.
    unfold with_net, set_blocks, mret, M_ret. cbn. rewrite Hb, !insert_insert_eq. done.
  - destruct Hk as [Hk|Hk]; [done|]. destruct (up_port _ _ Hup (sockets c)) as (fd & Ef & H0 & Hs & Ha). exists fd, []. split_and!; [done..|].
    unfold nfi_sck_server_comm_connect. mrun (by apply remote_run). mstep. rewrite Hn, Hk, Ef. mstep.
    erewrite bind_step by (apply set_remote_run; cbn; exact Hp). cbn. unfold with_net, set_blocks, mret, M_ret. cbn.
    rewrite Hb, insert_insert_eq, app_nil_r. by destruct x; cbn in *; subst.
Qed.

Lemma sck_disconnect_run fd k s0 c :
  0 <= fd → fd ∉ s0 → alive fd = true → sockets c = {[fd]} ∪ s0 →
  nfi_sck_server_comm_disconnect alive fd k c
  = Some (0, with_net (blocks c) s0 (if k =? 1 then [(fd, XPN_SERVER_DISCONNECT)] else []) c).
Proof.
  intros H0 Hs Ha Hc. unfold nfi_sck_server_comm_disconnect. rewrite (proj2 (Z.eqb_neq fd (-1))) by lia. destruct (k =? 1).
  - mrun (apply socket_send_run; [rewrite Hc; set_solver|done]). cbn [Z.ltb Z.compare]. by rewrite (socket_close_run fd s0).
  - mstep. cbn [Z.ltb Z.compare]. rewrite (socket_close_run fd s0) by done. unfold with_net. by rewrite app_nil_r.
Qed.
Lemma comm_disconnect_run p x s0 B c :
  blocks c = <[p := B_remote x]> B → server_type x = XPN_SERVER_TYPE_SCK →
  0 <= server_socket x → server_socket x ∉ s0 → alive (server_socket x) = true → sockets c = {[server_socket x]} ∪ s0 →
  comm_disconnect p c = Some (0, with_net (<[p := B_remote (set_socket (-1) x)]> B) s0
    (if ns_keep x =? 1 then [(server_socket x, XPN_SERVER_DISCONNECT)] else []) c).
Proof.
  intros Hb Ht H0 Hs Ha Hc. assert (blocks c !! p = Some (B_remote x)) as Hp by (rewrite Hb; apply lookup_insert_eq).
  unfold nfi_xpn_server_comm_disconnect. mrun (by apply remote_run). rewrite Ht, Z.eqb_refl.
  mrun (by apply (sck_disconnect_run _ _ s0)).
  mrun (apply set_remote_run; exact Hp). unfold with_net, set_blocks, mret, M_ret. cbn. rewrite Hb, insert_insert_eq. done.
Qed.

(** ** Its operations *)

Definition keep_ok (k : Z) : Prop := k = 0 ∨ k = 1.
Lemma keep_connection_ok : keep_ok keep_conn.
Proof. unfold keep_ok, keep_connection. destruct ((_ <? 0) || (1 <? _)) eqn:E; [by right|lia]. Qed.

(** What an operation of a server does to its connection, before and after its own work. *)
Definition around_call : prog Z :=
  r ← server_keep_connected getenv socket_client_connect socket_client_connect_with_retries service_answer alive;
  c ← get;
  when (keep (serv c) =? 0) (r ← server_disconnect alive; mret tt);;
  mret r.

(** The struct of a local server is not a connection that can be closed. *)
Lemma local_struct_not_closed p i c :
  private (serv c) = p → (0 < p)%nat → blocks c !! p = Some (B_local true i) → server_disconnect alive c = Some (0, c).
Proof.
  intros Hp H0 Hb. unfold server_disconnect, nfi_xpn_server_comm_disconnect, remote, mbind, M_bind, get, lift.
  by rewrite Hp, (proj2 (Nat.eqb_neq p 0)), Hb by lia.
Qed.

(** The connection of the server is closed and the other end is told, if it was kept. *)
Lemma server_disconnect_run name port k held p s0 B c :
  private (serv c) = p → (0 < p)%nat → connection name port k held p s0 B c → (k = 1 → held = true) →
  ∃ x m, server_disconnect alive c = Some (0, with_net (<[p := B_remote x]> B) s0 m c) ∧
    (k = 1 → ∃ fd, m = [(fd, XPN_SERVER_DISCONNECT)] ∧ (fd ∈ sockets c) ∧ (fd ∉ s0)).
Proof.
  intros Hp H0 (x & Hb & Ht & Hn & Hk & Hs) Hheld. unfold server_disconnect. mstep. rewrite Hp, (proj2 (Nat.eqb_neq p 0)) by lia.
  destruct held.
  - destruct Hs as (Hfd & Hs & Ha & Hc). eexists (set_socket (-1) x), _. split; [mrun (by apply (comm_disconnect_run p x s0 B)); reflexivity|].
    rewrite Hk. intros ->. exists (server_socket x). rewrite Hc. split_and!; [done|set_solver|done].
  - destruct Hs as (Hport & Hsock & Hc). exists (set_socket (-1) x), []. split; [|by intros E%Hheld].
    assert (blocks c !! p = Some (B_remote x)) as Hx by (rewrite Hb; apply lookup_insert_eq).
    unfold nfi_xpn_server_comm_disconnect, nfi_sck_server_comm_disconnect. rewrite bind_assoc. mrun (by apply remote_run). rewrite Ht, Z.eqb_refl, Hsock.
    rewrite bind_assoc. mstep. rewrite bind_assoc. mrun (by apply set_remote_run). unfold with_net, set_blocks, mret, M_ret. cbn.
    by rewrite Hb, insert_insert_eq, app_nil_r, Hc.
Qed.

Lemma server_disconnect_by p c c' :
  private (serv c) = p → (0 < p)%nat → comm_disconnect p c = Some (0, c') → server_disconnect alive c = Some (0, c').
Proof.
  intros Hp H0 E. unfold server_disconnect, mbind, M_bind, get. rewrite Hp, (proj2 (Nat.eqb_neq p 0)) by lia. by rewrite E.
Qed.

(** A call leaves the connection as it was, and finds it open. *)
Lemma around_call_run name port p s0 B c :
  reachable name port → private (serv c) = p → (0 < p)%nat → keep_ok (keep (serv c)) → connection name port (keep (serv c)) (keep (serv c) =? 1) p s0 B c →
  ∃ c', around_call c = Some (1, c') ∧ connection name port (keep (serv c)) (keep (serv c) =? 1) p s0 B c' ∧ serv c' = serv c.
Proof.
  intros Hup Hp H0 [Hk|Hk] Hc; unfold around_call, server_keep_connected; rewrite bind_assoc; mstep; rewrite Hk; cbn [Z.eqb].
  - destruct Hc as (x & Hb & Ht & Hn & Hkx & Hs). rewrite Hk in *. destruct Hs as (Hport & Hsock & Hs).
    destruct (comm_connect_run name port p x B c Hup Hb Ht Hn (or_intror Hport)) as (fd & m & Hfd & Hf & Ha & E).
    rewrite bind_assoc. erewrite bind_step; [|unfold server_reconnect; mstep; rewrite Hp; mrun (exact E); reflexivity]. cbn [Z.ltb Z.compare].
    rewrite bind_assoc. mstep. erewrite bind_step by reflexivity. mstep. change (serv (with_net ?b ?s ?m c)) with (serv c). rewrite Hk, Hp. cbn [Z.eqb when].
    subst s0. pose proof (comm_disconnect_run p (set_socket fd (set_port port x)) (sockets c) B
      (with_net (<[p := B_remote (set_socket fd (set_port port x))]> B) ({[fd]} ∪ sockets c) m c) eq_refl Ht Hfd Hf Ha eq_refl) as E2.
    rewrite bind_assoc, (bind_step _ _ _ _ _ (server_disconnect_by p (with_net _ _ _ c) _ Hp H0 E2)).
    eexists. split; [rewrite (proj2 (Nat.eqb_neq p 0)) by lia; reflexivity|]. split; [|done]. exists (set_socket (-1) (set_port port x)). by split_and!.
  - exists c. split; [|by rewrite Hk in *]. unfold mbind, M_bind, mret, M_ret, get. cbn [Z.ltb Z.compare].
    rewrite Hp, (proj2 (Nat.eqb_neq p 0)), Hk by lia. done.
Qed.

(** ** The start *)

Abbreviation find_port := (find_port getenv socket_client_connect service_answer alive).
Abbreviation connect_server := (nfi_xpn_server_connect getenv socket_client_connect socket_client_connect_with_retries service_answer alive).

Lemma find_port_run name port p x B c :
  reachable name port → blocks c = <[p := B_remote x]> B →
  ∃ m x', find_port name p c = Some (true, with_net (<[p := B_remote x']> B) (sockets c) m c) ∧
    (x' = set_port port x ∨ keep_conn = 1 ∧ x' = x).
Proof.
  intros Hup Hb. unfold Setup.find_port. destruct keep_connection_ok as [->| ->]; cbn [Z.eqb].
  - destruct (lookup_port_run name port SOCKET_ACCEPT_CODE_SCK_NO_CONN c Hup) as [m Em]. exists m, (set_port port x).
    split; [|by left]. mrun (exact Em). mrun (apply (set_remote_run p _ x); cbn; rewrite Hb; apply lookup_insert_eq).
    unfold with_net, set_blocks, mret, M_ret. cbn. by rewrite Hb, insert_insert_eq.
  - exists [], x. split; [|by right]. unfold with_net, mret, M_ret. rewrite app_nil_r, <- Hb. by destruct c.
Qed.

Lemma connect_server_run name port p x B c :
  reachable name port → strlen name < MAX_PORT_NAME_LENGTH → private (serv c) = p → (0 < p)%nat →
  blocks c = <[p := B_remote x]> B → server_type x = XPN_SERVER_TYPE_SCK → (ns_keep x = 1 ∨ port_name x = port) →
  ∃ fd m, 0 <= fd ∧ (fd ∉ sockets c) ∧ alive fd = true ∧
    connect_server name c = Some (0, with_net (<[p := B_remote (set_socket fd (set_port port (set_name name x)))]> B) ({[fd]} ∪ sockets c) m c).
Proof.
  intros Hup Hlen Hp H0 Hb Ht Hk. set (c1 := set_blocks (<[p := B_remote (set_name name x)]>) c).
  destruct (comm_connect_run name port p (set_name name x) B c1) as (fd & m & Hfd & Hf & Ha & E); [done|cbn; by rewrite Hb, insert_insert_eq|done..|].
  exists fd, m. split_and!; [done..|]. unfold nfi_xpn_server_connect. mstep. rewrite Hp, (proj2 (Nat.eqb_neq p 0)) by lia.
  rewrite (proj2 (Z.leb_gt _ _)) by done. mrun (apply (set_remote_run p _ x); rewrite Hb; apply lookup_insert_eq).
  erewrite bind_step by (exact E). done.
Qed.

Abbreviation init := (nfi_xpn_server_init getenv host_ip host_name socket_client_connect socket_client_connect_with_retries service_answer alive).
Abbreviation start := (start_work getenv host_ip host_name alive).
Abbreviation thread_mode := (switch getenv (str "XPN_THREAD") TH_NOT).
Abbreviation locality := (switch getenv (str "XPN_LOCALITY") 1).
Abbreviation session := (with_modes thread_mode (switch getenv (str "XPN_SESSION_FILE") 0) (switch getenv (str "XPN_SESSION_DIR") 1)).

(** The name of the server in a URL. *)
Definition url_server (url name : cstr) : Prop :=
  ∃ ret b, ParseURL url (UrlBufs (Some []) (Some []) None (Some [])) = Some (ret, b) ∧ 0 <= ret ∧ u_server b = Some name.
Lemma parse_server_run url name c : url_server url name → ∃ dir, parse url c = Some (Some (name, dir), c).
Proof.
  intros (ret & b & E & H0 & Hn). exists (default [] (u_dir b)). unfold parse, mbind, M_bind, lift. rewrite E. cbn.
  rewrite (proj2 (Z.ltb_ge ret 0)) by lia. by rewrite Hn.
Qed.

(** Equality of memories, block by block. *)
Ltac heap := apply map_eq; intros ?i; rewrite ?lookup_insert, ?lookup_delete; repeat (case_decide; subst; rewrite ?lookup_insert, ?lookup_delete); try lia; try done.

(** Before the choice of operations: what is at the address [n] of the first block and after it. *)
Definition remote_mem (n : nat) (url : cstr) (mode : option Z) (B : gmap nat block) : gmap nat block :=
  <[S (S (S n)) := B_worker mode]> (<[S (S n) := B_url url]> (<[n := B_ops Remote_ops]> B)).
Definition remote_server (n : nat) (v : server) : server := 
  with_wrk (S (S (S n))) (with_url (S (S n)) (session (with_keep keep_conn (with_private (S n) (with_ops n v))))).

Lemma init_connected url name port c :
  url_server url name → reachable name port → strlen name < MAX_PORT_NAME_LENGTH → (0 < fresh c)%nat → 
  ∃ x0 x m, let n := fresh c in
    init url XPN_SERVER_TYPE_SCK c
    = start url name (S n) x0 (Client (remote_server n (serv c)) (<[S n := B_remote x]> (remote_mem n url None (blocks c)))
        (S (S (S (S n)))) ({[server_socket x]} ∪ sockets c) (sent c ++ m) (errno c)) ∧
    ns_locality x0 = locality ∧ ns_keep x0 = keep_conn ∧
    server_type x = XPN_SERVER_TYPE_SCK ∧ srv_name x = name ∧ ns_keep x = keep_conn ∧ port_name x = port ∧
    0 <= server_socket x ∧ (server_socket x ∉ sockets c) ∧ alive (server_socket x) = true.
Proof.
  intros Hu Hup Hlen H0. unfold nfi_xpn_server_init. mstep. mstep. set (c1 := set_serv _ _).
  destruct (parse_server_run url name c1 Hu) as [dir Ed]. mrun (exact Ed). set (x0 := XpnServer _ _ _ _ _ _ _). exists x0.
  mstep. mstep. mstep. mstep. unfold nfi_xpn_server_comm_init. cbn [server_type x0]. rewrite Z.eqb_refl. cbn [Z.ltb Z.compare].
  mstep. mstep. mstep. mstep.
  match goal with |- ∃ x m, ?l ?s = _ ∧ _ => change s with (Client (remote_server (fresh c) (serv c))
    (<[S (S (S (fresh c))) := B_worker None]> (<[S (S (fresh c)) := B_url url]> (<[S (fresh c) := B_remote x0]> (<[fresh c := B_ops Remote_ops]> (blocks c)))))
    (S (S (S (S (fresh c))))) (sockets c) (sent c) (errno c)) end.
  assert (<[S (S (S (fresh c))) := B_worker None]> (<[S (S (fresh c)) := B_url url]> (<[S (fresh c) := B_remote x0]> (<[fresh c := B_ops Remote_ops]> (blocks c))))
    = <[S (fresh c) := B_remote x0]> (remote_mem (fresh c) url None (blocks c))) as -> by (unfold remote_mem; heap).
  set (c2 := Client _ _ _ _ _ _).
  destruct (find_port_run name port (S (fresh c)) x0 (remote_mem (fresh c) url None (blocks c)) c2) as (m & x' & E & Hx); [done..|].
  mrun (exact E). cbn [negb].
  destruct (connect_server_run name port (S (fresh c)) x' (remote_mem (fresh c) url None (blocks c))
    (with_net (<[S (fresh c) := B_remote x']> (remote_mem (fresh c) url None (blocks c))) (sockets c) m c2)) as (fd & m' & Hfd & Hf & Ha & E');
    [done|done|done|lia|done|by destruct Hx as [->|[_ ->]]|by destruct Hx as [->|[? ->]]; [right|left]|].
  mrun (exact E'). cbn [Z.ltb Z.compare]. exists (set_socket fd (set_port port (set_name name x'))), (m ++ m').
  split; [|by destruct Hx as [->|[_ ->]]; split_and!].
  unfold with_net. cbn. by rewrite app_assoc.
Qed.

(** After it. *)
Definition local_mem (n : nat) (url : cstr) (mode : option Z) (B : gmap nat block) : gmap nat block :=
  <[(7 + n)%nat := B_worker mode]> (<[(6 + n)%nat := B_url url]> (<[(5 + n)%nat := B_local true (Some (S n))]> (<[(4 + n)%nat := B_ops Local_ops]>
    (<[(3 + n)%nat := B_worker None]> (<[(2 + n)%nat := B_url url]> B))))).
Definition local_server (n : nat) (v : server) : server :=
  with_wrk (7 + n)%nat (with_url (6 + n)%nat (session (with_private (5 + n)%nat (with_ops (4 + n)%nat (remote_server n v))))).

Lemma with_net_nil B s c : with_net B s [] c = Client (serv c) B (fresh c) s (sent c) (errno c).
Proof. unfold with_net. by rewrite app_nil_r. Qed.
Lemma worker_init_run mode B c :
  blocks c = <[wrk (serv c) := B_worker mode]> B →
  nfiworker_init c = Some (0, with_net (<[wrk (serv c) := B_worker (Some (thread (serv c)))]> B) (sockets c) [] c).
Proof.
  intros Hb. unfold nfiworker_init, mbind, M_bind, get, lift, modify, mret, M_ret. cbn. rewrite Hb, lookup_insert_eq. cbn.
  unfold with_net, set_blocks. cbn. by rewrite Hb, insert_insert_eq, app_nil_r.
Qed.

Lemma start_remote name port url x0 x n v B s0 m e :
  (ns_locality x0 =? 1) && on_this_machine host_ip host_name name = false → ns_keep x0 = keep_conn →
  server_type x = XPN_SERVER_TYPE_SCK → srv_name x = name → ns_keep x = keep_conn → port_name x = port →
  0 <= server_socket x → server_socket x ∉ s0 → alive (server_socket x) = true →
  ∃ c', start url name (S n) x0 (Client (remote_server n v) (<[S n := B_remote x]> (remote_mem n url None B)) (4 + n)%nat ({[server_socket x]} ∪ s0) m e) = Some (0, c') ∧
    serv c' = remote_server n v ∧ connection name port keep_conn (keep_conn =? 1) (S n) s0 (remote_mem n url (Some thread_mode) B) c'.
Proof.
  intros Hl Hk0 Ht Hn Hk Hp Hfd Hs Ha. unfold start_work. rewrite Hl.
  set (c1 := Client (remote_server n v) (<[S n := B_remote x]> (remote_mem n url (Some thread_mode) B)) (4 + n)%nat ({[server_socket x]} ∪ s0) m e).
  erewrite bind_step; [|rewrite (worker_init_run None (<[S n := B_remote x]> (remote_mem n url None B)))
    by (cbn; unfold remote_mem; heap); replace (with_net _ _ _ _) with c1; [reflexivity|]].
  2: { unfold c1, with_net. cbn. rewrite app_nil_r. apply (f_equal (λ b, Client _ b _ _ _ _)). unfold remote_mem. heap. }
  rewrite Hk0. destruct keep_connection_ok as [E|E]; rewrite E in *; cbn [Z.eqb when].
  - pose proof (server_disconnect_by (S n) c1 _ eq_refl ltac:(lia) (comm_disconnect_run (S n) x s0 _ c1 eq_refl Ht Hfd Hs Ha eq_refl)) as Es.
    rewrite bind_assoc, (bind_step _ _ _ _ _ Es).
    eexists. split; [reflexivity|]. split; [done|]. exists (set_socket (-1) x). by split_and!.
  - mstep. exists c1. split; [done|]. split; [done|]. exists x. by split_and!.
Qed.

(** The memory and the server that [nfi_local_init] makes, from the address [k]. *)
Definition local_blocks (k : nat) (url : cstr) (info : nat) (B : gmap nat block) : gmap nat block :=
  <[(3 + k)%nat := B_worker (Some thread_mode)]> (<[(2 + k)%nat := B_url url]> (<[(1 + k)%nat := B_local true (Some info)]> (<[k := B_ops Local_ops]> B))).
Definition local_start (k : nat) (v : server) : server :=
  with_wrk (3 + k)%nat (with_url (2 + k)%nat (session (with_private (1 + k)%nat (with_ops k v)))).

Lemma local_init_run url name c : url_server url name →
  nfi_local_init getenv url c
  = Some (0, Client (local_start (fresh c) (serv c)) (local_blocks (fresh c) url 0 (blocks c)) (4 + fresh c)%nat (sockets c) (sent c) (errno c)).
Proof.
  intros Hu. unfold nfi_local_init. mstep. mstep. set (c1 := set_serv _ _). destruct (parse_server_run url name c1 Hu) as [dir Ed]. mrun (exact Ed).
  do 7 mstep. 
  match goal with |- _ ?s = _ => change s with (Client (local_start (fresh c) (serv c))
    (<[(3 + fresh c)%nat := B_worker None]> (<[(2 + fresh c)%nat := B_url url]> (<[(1 + fresh c)%nat := B_local true (Some 0%nat)]> (<[fresh c := B_ops Local_ops]> (blocks c)))))
    (4 + fresh c)%nat (sockets c) (sent c) (errno c)) end.
  rewrite (bind_step _ _ _ _ _ (worker_init_run None _ (Client (local_start _ _) _ _ _ _ _) eq_refl)).
  rewrite with_net_nil. reflexivity.
Qed.

Lemma start_local name port url x0 x n v B s0 m e :
  (ns_locality x0 =? 1) && on_this_machine host_ip host_name name = true → url_server url name → (0 < n)%nat →
  server_type x = XPN_SERVER_TYPE_SCK → srv_name x = name → ns_keep x = keep_conn →
  0 <= server_socket x → server_socket x ∉ s0 → alive (server_socket x) = true → B !! n = None →
  let M := <[(3 + n)%nat := B_worker None]> (<[(2 + n)%nat := B_url url]> B) in
  ∃ c', start url name (S n) x0 (Client (remote_server n v) (<[S n := B_remote x]> (remote_mem n url None B)) (4 + n)%nat ({[server_socket x]} ∪ s0) m e) = Some (0, c') ∧
    serv c' = local_start (4 + n)%nat (with_ops 0%nat (remote_server n v)) ∧ connection name port keep_conn true (S n) s0 (local_blocks (4 + n)%nat url (S n) M) c'.
Proof.
  intros Hl Hu H0 Ht Hn Hk Hfd Hs Ha HB M. unfold start_work. rewrite Hl.
  set (c1 := Client (with_ops 0%nat (remote_server n v)) (<[S n := B_remote x]> M) (4 + n)%nat ({[server_socket x]} ∪ s0) m e).
  assert (free_ops (Client (remote_server n v) (<[S n := B_remote x]> (remote_mem n url None B)) (4 + n)%nat ({[server_socket x]} ∪ s0) m e) = Some (tt, c1)) as E.
  { unfold free_ops. mstep. mrun (apply (free_block_run n (B_ops Remote_ops)); [done|cbn [blocks]; unfold remote_mem; rewrite !lookup_insert_ne by lia; apply lookup_insert_eq]).
    unfold modify, c1, set_blocks, set_serv. cbn. apply (f_equal (λ b, Some (tt, Client _ b _ _ _ _))). unfold remote_mem, M. heap. }
  rewrite (bind_step _ _ _ _ _ E), (bind_step _ _ _ _ _ (local_init_run url name c1 Hu)). mstep.
  cbn [fresh serv blocks c1]. set (v' := local_start (4 + n)%nat (with_ops 0%nat (remote_server n v))).
  set (c2 := Client v' (<[S n := B_remote x]> (local_blocks (4 + n)%nat url (S n) M)) (4 + (4 + n))%nat ({[server_socket x]} ∪ s0) m e).
  erewrite bind_step; [|instantiate (1 := c2); instantiate (1 := tt)].
  2: { rewrite (set_local_info_run _ _ true (Some 0%nat)).
       - unfold c2, set_blocks. cbn [serv blocks fresh sockets sent errno]. apply (f_equal (λ b, Some (tt, Client _ b _ _ _ _))). unfold local_blocks. cbn [private v' local_start with_wrk with_url with_modes with_private]. heap.
       - cbn [serv blocks private v' local_start with_wrk with_url with_modes with_private]. unfold local_blocks. rewrite !lookup_insert_ne by lia. apply lookup_insert_eq. }
  exists c2. split; [|split; [done|exists x; by split_and!]].
  change (keep v') with keep_conn. destruct keep_connection_ok as [-> | ->]; cbn [Z.eqb when]; [|done].
  rewrite bind_assoc, (bind_step _ _ _ _ _ (local_struct_not_closed (5 + n)%nat (Some (S n)) c2 eq_refl ltac:(lia) ltac:(unfold c2, local_blocks; cbn [blocks];
    rewrite !lookup_insert_ne by lia; apply lookup_insert_eq))). done.
Qed.

(** ** The end *)

Lemma worker_destroy_run m B c :
  blocks c = <[wrk (serv c) := B_worker m]> B → ∃ m', nfiworker_destroy c = Some (tt, with_net (<[wrk (serv c) := B_worker m']> B) (sockets c) [] c).
Proof.
  intros Hb. unfold nfiworker_destroy, mbind, M_bind, get. destruct (thread (serv c) =? TH_NOT).
  - exists m. rewrite with_net_nil, <- Hb. by destruct c.
  - exists None. unfold lift. rewrite Hb, lookup_insert_eq. unfold modify, set_blocks. rewrite with_net_nil. cbn. by rewrite Hb, insert_insert_eq.
Qed.

(** The blocks that a server owns, apart and at their addresses. *)
Definition owned (v : server) (o b u w : block) (B : gmap nat block) : gmap nat block :=
  <[ops v := o]> (<[private v := b]> (<[url_ptr v := u]> (<[wrk v := w]> B))).
Record apart (v : server) (B : gmap nat block) : Prop := {
  ap_pos : (0 < ops v)%nat ∧ (0 < private v)%nat ∧ (0 < url_ptr v)%nat ∧ (0 < wrk v)%nat;
  ap_ne : ops v ≠ private v ∧ ops v ≠ url_ptr v ∧ ops v ≠ wrk v ∧ private v ≠ url_ptr v ∧ private v ≠ wrk v ∧ url_ptr v ≠ wrk v;
  ap_free : B !! ops v = None ∧ B !! private v = None ∧ B !! url_ptr v = None ∧ B !! wrk v = None }.

Lemma free_server_run o b u w B c :
  apart (serv c) B → blocks c = owned (serv c) o b u w B → ∃ v', free_server c = Some (tt, Client v' B (fresh c) (sockets c) (sent c) (errno c)).
Proof.
  intros [(? & ? & ? & ?) (? & ? & ? & ? & ? & ?) (? & ? & ? & ?)] Hb. eexists. unfold free_server, owned in *. mstep.
  mrun (apply (free_block_run _ o); [done|rewrite Hb; apply lookup_insert_eq]).
  mrun (apply (free_block_run _ b); [done|cbn [blocks set_blocks]; rewrite Hb; by simplify_map_eq]).
  mrun (apply (free_block_run _ u); [done|cbn [blocks set_blocks]; rewrite Hb; by simplify_map_eq]).
  mrun (apply (free_block_run _ w); [done|cbn [blocks set_blocks]; rewrite Hb; by simplify_map_eq]).
  unfold modify, set_serv, set_blocks. cbn. do 2 f_equal. apply (f_equal (λ b, Client _ b _ _ _ _)). rewrite Hb. heap.
Qed.

Lemma destroy_remote n url m x v B c :
  serv c = remote_server n v → blocks c = <[S n := B_remote x]> (remote_mem n url m B) → (0 < n)%nat → (∀ i, (n <= i)%nat → B !! i = None) →
  ∃ v', destroy_server c = Some (0, Client v' B (fresh c) (sockets c) (sent c) (errno c)).
Proof.
  intros Hv Hb H0 HB. unfold destroy_server, by_ops. mstep.
  erewrite bind_step; [|unfold lift; rewrite Hv, Hb; unfold remote_mem; cbn [ops remote_server with_wrk with_url with_modes with_keep with_private with_ops]; rewrite !lookup_insert_ne by lia; rewrite lookup_insert_eq; reflexivity].
  unfold nfi_xpn_server_destroy. mstep. rewrite Hv. cbn [private remote_server with_wrk with_url with_modes with_keep with_private with_ops Nat.eqb].
  destruct (worker_destroy_run m (<[S n := B_remote x]> (remote_mem n url m B)) c) as [m' E]; [rewrite Hv, Hb; cbn; unfold remote_mem; heap|].
  rewrite (bind_step _ _ _ _ _ E), with_net_nil. rewrite Hv.
  mrun (apply (remote_run _ x); cbn; rewrite lookup_insert_ne by lia; apply lookup_insert_eq).
  destruct (free_server_run (B_ops Remote_ops) (B_remote x) (B_url url) (B_worker m') B (Client (remote_server n v)
    (<[wrk (remote_server n v) := B_worker m']> (<[S n := B_remote x]> (remote_mem n url m B))) (fresh c) (sockets c) (sent c) (errno c))) as [v' Ef].
  - split; cbn; [lia|lia|split_and!; apply HB; lia].
  - unfold owned, remote_mem. cbn. heap.
  - exists v'. by rewrite (bind_step _ _ _ _ _ Ef).
Qed.

(** The block at [S n] is the connection that the server had before, and [M] has none there. *)
Lemma destroy_local n k url x v M c :
  serv c = local_start k v → blocks c = <[S n := B_remote x]> (local_blocks k url (S n) M) → (S n < k)%nat →
  M !! S n = None → (∀ i, (k <= i)%nat → M !! i = None) →
  ∃ v', destroy_server c = Some (0, Client v' M (fresh c) (sockets c) (sent c) (errno c)).
Proof.
  intros Hv Hb Hk Hn HM. unfold destroy_server, by_ops. mstep.
  erewrite bind_step; [|unfold lift; rewrite Hv, Hb; unfold local_blocks; cbn [ops local_start with_wrk with_url with_modes with_private with_ops]; rewrite !lookup_insert_ne by lia; rewrite lookup_insert_eq; reflexivity].
  unfold nfi_local_destroy. mstep. rewrite Hv. cbn [private local_start with_wrk with_url with_modes with_private with_ops Nat.eqb Nat.add].
  destruct (worker_destroy_run (Some thread_mode) (<[S n := B_remote x]> (local_blocks k url (S n) M)) c) as [m' E]; [rewrite Hv, Hb; cbn; unfold local_blocks; heap|].
  rewrite (bind_step _ _ _ _ _ E), with_net_nil. rewrite Hv.
  erewrite bind_step; [|unfold local_info, mbind, M_bind, get, lift; cbn [blocks wrk local_start with_wrk with_url with_modes with_private with_ops];
    unfold local_blocks; rewrite !lookup_insert_ne by lia; rewrite lookup_insert_eq; reflexivity].
  mrun (apply (free_block_run _ (B_remote x)); [lia|cbn; rewrite lookup_insert_ne by lia; apply lookup_insert_eq]).
  destruct (free_server_run (B_ops Local_ops) (B_local true (Some (S n))) (B_url url) (B_worker m') M (Client (local_start k v)
    (delete (S n) (<[wrk (local_start k v) := B_worker m']> (<[S n := B_remote x]> (local_blocks k url (S n) M)))) (fresh c) (sockets c) (sent c) (errno c))) as [v' Ef].
  - split; cbn; [lia|lia|split_and!; apply HM; lia].
  - unfold owned, local_blocks. cbn. heap.
  - exists v'. unfold set_blocks. cbn [serv blocks fresh sockets sent errno]. by rewrite (bind_step _ _ _ _ _ Ef).
Qed.

(** Some calls of a server in a row: the connection is there for each. *)
Definition server_call : prog Z := by_ops (mret 1) around_call.
Fixpoint calls (j : nat) : prog (list Z) :=
  match j with O => mret [] | S j => r ← server_call; rs ← calls j; mret (r :: rs) end.

Lemma by_ops_run {A} (l r : prog A) o c : blocks c !! ops (serv c) = Some (B_ops o) → by_ops l r c = match o with Local_ops => l c | Remote_ops => r c end.
Proof. intros H. unfold by_ops, mbind, M_bind, get, lift. rewrite H. by destruct o. Qed.

Lemma remote_ops name port k held n url m s0 v B c :
  serv c = remote_server n v → connection name port k held (S n) s0 (remote_mem n url m B) c → blocks c !! ops (serv c) = Some (B_ops Remote_ops).
Proof.
  intros -> (x & -> & _). unfold remote_mem. cbn. rewrite !lookup_insert_ne by lia. apply lookup_insert_eq.
Qed.
Lemma local_ops name port k0 n k url s0 v M c : (S n < k)%nat →
  serv c = local_start k v → connection name port k0 true (S n) s0 (local_blocks k url (S n) M) c → blocks c !! ops (serv c) = Some (B_ops Local_ops).
Proof.
  intros Hk -> (x & -> & _). unfold local_blocks. cbn. rewrite !lookup_insert_ne by lia. apply lookup_insert_eq.
Qed.

Lemma calls_remote name port n url m s0 v B j : reachable name port → ∀ c,
  serv c = remote_server n v → connection name port keep_conn (keep_conn =? 1) (S n) s0 (remote_mem n url m B) c →
  ∃ c', calls j c = Some (replicate j 1, c') ∧ serv c' = remote_server n v ∧ connection name port keep_conn (keep_conn =? 1) (S n) s0 (remote_mem n url m B) c'.
Proof.
  intros Hup. induction j as [|j IH]; intros c Hv Hc; [by exists c|]. cbn [calls replicate].
  destruct (around_call_run name port (S n) s0 (remote_mem n url m B) c) as (c1 & E & Hc1 & Hv1); [done|by rewrite Hv|lia|rewrite Hv; exact keep_connection_ok|by rewrite Hv|].
  rewrite Hv in *. destruct (IH c1 Hv1 Hc1) as (c2 & E2 & Hv2 & Hc2). exists c2. split; [|done].
  unfold server_call. erewrite bind_step; [|rewrite (by_ops_run _ _ Remote_ops) by (by eapply remote_ops); exact E]. by rewrite (bind_step _ _ _ _ _ E2).
Qed.
Lemma calls_local name port k0 n k url s0 v M j c : (S n < k)%nat →
  serv c = local_start k v → connection name port k0 true (S n) s0 (local_blocks k url (S n) M) c → calls j c = Some (replicate j 1, c).
Proof.
  intros Hk Hv Hc. induction j as [|j IH]; [done|]. cbn [calls replicate]. unfold server_call.
  erewrite bind_step; [|rewrite (by_ops_run _ _ Local_ops) by (by eapply local_ops); reflexivity]. by rewrite (bind_step _ _ _ _ _ IH).
Qed.

(** The end of a connection that the server has as a local one. *)
Lemma local_disconnect_run name port k0 n k url s0 v M c : (S n < k)%nat →
  serv c = local_start k v → connection name port k0 true (S n) s0 (local_blocks k url (S n) M) c →
  ∃ x m, nfi_local_disconnect alive c = Some (0, with_net (<[S n := B_remote x]> (local_blocks k url (S n) M)) s0 m c) ∧
    (k0 = 1 → ∃ fd, m = [(fd, XPN_SERVER_DISCONNECT)] ∧ (fd ∈ sockets c) ∧ (fd ∉ s0)).
Proof.
  intros Hk Hv Hc.
  destruct (server_disconnect_run name port k0 true (S n) s0 _ (set_serv (with_private (S n)) c) eq_refl ltac:(lia) Hc ltac:(done)) as (x & m & E & Hm).
  exists x, m. split; [|exact Hm]. unfold nfi_local_disconnect. mstep. rewrite Hv.
  cbn [private local_start with_wrk with_url with_modes with_private with_ops Nat.eqb Nat.add].
  destruct Hc as (x' & Hb & _).
  erewrite bind_step; [|unfold local_info, mbind, M_bind, get, lift; rewrite Hb; unfold local_blocks; rewrite !lookup_insert_ne by lia; rewrite lookup_insert_eq; reflexivity].
  cbn [Nat.eqb]. mstep. rewrite (bind_step _ _ _ _ _ E). mstep. unfold mret, M_ret, set_serv, with_net. cbn. rewrite Hv. done.
Qed.

(** The life of a server after its start: [j] calls, its disconnection and its end. *)
Definition lives (j : nat) (held : bool) (s0 : gset Z) (left_over : gmap nat block) (c1 : client) : Prop :=
  ∃ c2 c3 c4, calls j c1 = Some (replicate j 1, c2) ∧ disconnect_server alive c2 = Some (0, c3) ∧ destroy_server c3 = Some (0, c4) ∧
    sockets c4 = s0 ∧ blocks c4 = left_over ∧
    (if held then ∃ fd, sockets c2 = {[fd]} ∪ s0 ∧ (fd ∉ s0) ∧ (keep_conn = 1 → (fd, XPN_SERVER_DISCONNECT) ∈ sent c4) else sockets c2 = s0).

Lemma told_or_idle name port held p s0 B c m : connection name port keep_conn held p s0 B c →
  (keep_conn = 1 → ∃ fd, m = [(fd, XPN_SERVER_DISCONNECT)] ∧ (fd ∈ sockets c) ∧ (fd ∉ s0)) →
  if held then ∃ fd, sockets c = {[fd]} ∪ s0 ∧ (fd ∉ s0) ∧ (keep_conn = 1 → (fd, XPN_SERVER_DISCONNECT) ∈ sent c ++ m) else sockets c = s0.
Proof.
  intros (x & _ & _ & _ & _ & Hs) Hm. destruct held; [|tauto]. destruct Hs as (_ & Hn & _ & Hs). exists (server_socket x). split_and!; [done..|].
  intros E. destruct (Hm E) as (fd & -> & Hin & Hfd). assert (fd = server_socket x) as -> by set_solver.
  apply elem_of_app. right. by apply list_elem_of_singleton.
Qed.

Lemma lives_remote name port n url v B s0 j c : reachable name port → (0 < n)%nat → (∀ i, (n <= i)%nat → B !! i = None) →
  serv c = remote_server n v → connection name port keep_conn (keep_conn =? 1) (S n) s0 (remote_mem n url (Some thread_mode) B) c → lives j (keep_conn =? 1) s0 B c.
Proof.
  intros Hup H0 HB Hv Hc. destruct (calls_remote name port n url (Some thread_mode) s0 v B j Hup c Hv Hc) as (c2 & E2 & Hv2 & Hc2).
  destruct (server_disconnect_run name port _ _ (S n) s0 _ c2 ltac:(by rewrite Hv2) ltac:(lia) Hc2 ltac:(by intros ->)) as (x & m & E3 & Hm).
  set (c3 := with_net _ _ _ _) in E3. destruct (destroy_remote n url (Some thread_mode) x v B c3 Hv2 eq_refl H0 HB) as [v' E4].
  exists c2, c3. eexists. split; [done|]. split; [unfold disconnect_server; rewrite (by_ops_run _ _ Remote_ops) by (by eapply remote_ops); exact E3|].
  split; [exact E4|]. split; [done|]. split; [done|]. by apply (told_or_idle _ _ _ _ _ _ _ _ Hc2).
Qed.

Lemma lives_local name port n k url v M s0 j c : (S n < k)%nat → M !! S n = None → (∀ i, (k <= i)%nat → M !! i = None) →
  serv c = local_start k v → connection name port keep_conn true (S n) s0 (local_blocks k url (S n) M) c → lives j true s0 M c.
Proof.
  intros Hk Hn HM Hv Hc. destruct (local_disconnect_run name port _ n k url s0 v M c Hk Hv Hc) as (x & m & E3 & Hm).
  set (c3 := with_net _ _ _ _) in E3. destruct (destroy_local n k url x v M c3 Hv eq_refl Hk Hn HM) as [v' E4].
  exists c, c3. eexists. split; [by eapply calls_local|]. split; [unfold disconnect_server; rewrite (by_ops_run _ _ Local_ops) by (by eapply local_ops); exact E3|].
  split; [exact E4|]. split; [done|]. split; [done|]. by apply (told_or_idle _ _ _ _ _ _ _ _ Hc).
Qed.

(** C15: a server that is up is set up, and after any number of calls it is
    disconnected and destroyed without an error.  While it lives, one socket of its
    own is open if connections are kept or the server is on this machine, and
    none between two calls otherwise; each call finds it connected.  At the end the
    sockets are those of before, the other end of a kept connection was told, and
    every block is freed, except that the switch to local operations leaves the first
    copy of the URL and the first worker behind. *)
Theorem server_life url name port c j :
  url_server url name → reachable name port → strlen name < MAX_PORT_NAME_LENGTH →
  (0 < fresh c)%nat → (∀ i, (fresh c <= i)%nat → blocks c !! i = None) →
  let local := (locality =? 1) && on_this_machine host_ip host_name name in
  ∃ c1, init url XPN_SERVER_TYPE_SCK c = Some (0, c1) ∧
    lives j ((keep_conn =? 1) || local) (sockets c)
      (if local then <[(3 + fresh c)%nat := B_worker None]> (<[(2 + fresh c)%nat := B_url url]> (blocks c)) else blocks c) c1.
Proof.
  intros Hu Hup Hlen H0 HB local.
  destruct (init_connected url name port c Hu Hup Hlen H0) as (x0 & x & m & E & Hl0 & Hk0 & Ht & Hn & Hk & Hp & Hfd & Hs & Ha).
  rewrite E. destruct local eqn:El; unfold local in El; rewrite <- Hl0 in El.
  - rewrite orb_true_r. destruct (start_local name port url x0 x (fresh c) (serv c) (blocks c) (sockets c) (sent c ++ m) (errno c)) as (c1 & E1 & Hv & Hc); try done; [by apply HB|].
    exists c1. split; [exact E1|]. eapply (lives_local name port (fresh c)); [| | |exact Hv|exact Hc]; [lia|rewrite !lookup_insert_ne by lia; apply HB; lia|].
    intros i Hi. rewrite !lookup_insert_ne by lia. apply HB. lia.
  - rewrite orb_false_r. destruct (start_remote name port url x0 x (fresh c) (serv c) (blocks c) (sockets c) (sent c ++ m) (errno c)) as (c1 & E1 & Hv & Hc); try done.
    exists c1. split; [exact E1|]. by eapply (lives_remote name port (fresh c)).
Qed.
End life.

(** ** A machine *)

(** A network where a new socket has a number above those that are open. *)
Definition socket_above (s : gset Z) : Z := 1 + foldr Z.max 0 (elements s).
Definition no_env (name : cstr) : option cstr := None.
Definition any_service (name : cstr) (port : Z) (s : gset Z) : option Z := Some (socket_above s).
Definition any_port (name port : cstr) (s : gset Z) : option Z := Some (socket_above s).
Definition one_answer (name : cstr) (code : Z) : option cstr := Some (str "4000").
Definition everybody (fd : Z) : bool := true.
Definition no_port (name port : cstr) (s : gset Z) : option Z := None.
Definition client_zero : client := Client server_zero ∅ 1 {[0; 1; 2]} [] 0.

Lemma above_all (l : list Z) x : x ∈ l → 0 <= foldr Z.max 0 l ∧ x <= foldr Z.max 0 l.
Proof. induction l as [|y l IH]; [by intros ?%not_elem_of_nil|]. intros [->|H]%elem_of_cons; cbn; [|specialize (IH H); lia]. clear IH. induction l; cbn in *; lia. Qed.
Lemma socket_above_fresh s : fresh_socket everybody s (Some (socket_above s)).
Proof.
  exists (socket_above s). unfold socket_above. split_and!; [done| | |done].
  - induction (elements s); cbn in *; lia.
  - intros H%elem_of_elements. destruct (above_all _ _ H). lia.
Qed.
Lemma any_reachable name : reachable any_service any_port one_answer everybody name (str "4000").
Proof. split; intros; [apply socket_above_fresh|done|apply socket_above_fresh]. Qed.

(** A server on the machine of the client, whose name is in its URL. *)
Lemma server_life_witness :
  ∃ c1, nfi_xpn_server_init no_env (str "10.0.0.7") (str "node1") any_service any_port one_answer everybody
      (str "sck_server://node1/tmp/x") XPN_SERVER_TYPE_SCK client_zero = Some (0, c1) ∧
    lives no_env any_service any_port one_answer everybody 3 true {[0; 1; 2]}
      (<[4%nat := B_worker None]> (<[3%nat := B_url (str "sck_server://node1/tmp/x")]> ∅)) c1.
Proof.
  apply (server_life no_env (str "10.0.0.7") (str "node1") any_service any_port one_answer everybody
    (str "sck_server://node1/tmp/x") (str "node1") (str "4000") client_zero 3).
  - eexists _, _. split; [vm_compute; reflexivity|]. split; [lia|reflexivity].
  - apply any_reachable.
  - done.
  - cbn. lia.
  - intros i _. reflexivity.
Defined.

(** When a server cannot be reached, its struct is freed and [serv] still points to
    it; the URL and the worker are not freed. *)
Lemma failed_start_dangles :
  ∃ c', nfi_xpn_server_init no_env (str "10.0.0.7") (str "node1") any_service no_port one_answer everybody
      (str "sck_server://node2/tmp/x") XPN_SERVER_TYPE_SCK client_zero = Some (-1, c') ∧
    ops (serv c') = 0%nat ∧ private (serv c') = 2%nat ∧ blocks c' !! 2%nat = None ∧ is_Some (blocks c' !! 3%nat) ∧ is_Some (blocks c' !! 4%nat).
Proof. eexists. split; [vm_compute; reflexivity|]. repeat split; vm_compute; eauto. Qed.

(** A server of files has no connection, and reconnecting it uses it. *)
Lemma reconnect_file_server :
  ∃ c', nfi_local_init no_env (str "file://node1/tmp/x") client_zero = Some (0, c') ∧
    nfi_local_reconnect no_env any_service any_port one_answer everybody c' = None.
Proof. eexists. split; [vm_compute; reflexivity|]. vm_compute. reflexivity. Qed.

(** A kept connection whose other end is gone stays open after its disconnection,
    and its number is forgotten. *)
Lemma gone_peer_leaves_socket fd x B c p :
  private (serv c) = p → (0 < p)%nat → blocks c = <[p := B_remote x]> B → server_type x = XPN_SERVER_TYPE_SCK → ns_keep x = 1 →
  server_socket x = fd → fd ≠ -1 →
  server_disconnect (λ _, false) c = Some (0, set_blocks (λ _, <[p := B_remote (set_socket (-1) x)]> B) c).
Proof.
  intros Hp H0 Hb Ht Hk Hfd Hne. assert (blocks c !! p = Some (B_remote x)) as Hx by (rewrite Hb; apply lookup_insert_eq).
  unfold server_disconnect. mstep. rewrite Hp, (proj2 (Nat.eqb_neq p 0)) by lia.
  erewrite bind_step; [reflexivity|]. unfold nfi_xpn_server_comm_disconnect. mrun (by apply remote_run). rewrite Ht, Z.eqb_refl.
  erewrite bind_step; [|unfold nfi_sck_server_comm_disconnect, socket_send, mbind, M_bind, get; rewrite Hk, Hfd, (proj2 (Z.eqb_neq fd (-1))) by done; change (1 =? 1) with true; cbv iota beta; rewrite andb_false_r; reflexivity].
  mrun (by apply (set_remote_run p _ x)). unfold set_blocks, mret, M_ret. by rewrite Hb, insert_insert_eq.
Qed.
