(* ===== verification/Migrate.v ===== *)
(** * Migrate: copying a partition to Expand and back

    src/src/utils/xpn_preload.c, which copies the files of a directory that every
    server sees to the servers, and xpn_flush.c, which copies them back.  They are
    MPI programs with a process per server.  The definitions are what a process
    does with one file; its reads and writes succeed, and a write of no bytes has
    no effect.  xpn_expand.c and xpn_shrink.c update metadata: see [Mdata]. *)

From S2P Require Import Prelude Cstr Paths Layout Mdata Nfi Client MemFs FileTable Blocks Rw Header.

Definition HEADER_SIZE : Z := 8192.

(** ** Files *)

(** [lseek] and [filesystem_read], and [lseek] and [filesystem_write]. *)
Definition read_at (f : list ascii) (off n : Z) : list ascii := take (Z.to_nat n) (drop (Z.to_nat off) f).
Definition write_at (f : list ascii) (off : Z) (d : list ascii) : list ascii :=
  match d with [] => f | _ => splice f (Z.to_nat off) d end.

(** ** xpn_preload.c *)

Section preload.
Context (mdata : xpn_metadata) (src : list ascii) (blocksize replication_level rank : Z).

(** The file at the destination, and the variables [local_size] and [write_size]. *)
Record preload_state := Preload { pl_dst : list ascii; local_size : Z; write_size : Z }.

(** The loop over the replicas of a block, from [i] on; the second component tells
    whether it leaves by [goto finish_copy].  What [local_offset] and
    [local_server] held before does not matter ([mdata_segmented]). *)
Fixpoint preload_replicas (offset_src i : Z) (k : nat) (st : preload_state) : option (preload_state * bool) :=
  match k with
  | O => Some (st, false)
  | S k =>
    '(local_offset, local_server) ← XpnCalculateBlockMdata mdata offset_src i 0 0;
    if local_server =? rank then
      if (offset_src <? 0) || (local_offset ⊕ HEADER_SIZE <? 0) then Some (st, true)
      else
        let buf := read_at src offset_src blocksize in
        match buf with
        | [] => Some (st, true)
        | _ =>
          let n := Z.of_nat (length buf) in
          preload_replicas offset_src (i ⊞ 1) k
            (Preload (write_at (pl_dst st) (local_offset ⊕ HEADER_SIZE) buf) (local_size st ⊕ n) n)
        end
    else preload_replicas offset_src (i ⊞ 1) k st
  end.
Fixpoint preload_loop (fuel : nat) (offset_src : Z) (st : preload_state) : option preload_state :=
  match fuel with
  | O => None
  | S f =>
    '(st, finish) ← preload_replicas offset_src 0 (Z.to_nat (replication_level + 1)) st;
    if (finish : bool) then Some st
    else if 0 <? write_size st then preload_loop f (offset_src ⊕ blocksize) st else Some st
  end.
End preload.

(** Whether [rank] is one of the servers from [first] on that hold copies. *)
Definition holds_copy (first replication_level size rank : Z) : bool :=
  existsb (λ i, (first ⊞ i) `rem` size =? rank) (seqZ 0 (replication_level + 1)).

(** [copy] of a file: what is at the destination of [rank] in the end, [None] when
    it is unlinked.  A block is tried at most once for each of the file's blocks
    and once for each server after them. *)
Definition preload_fuel (src : list ascii) (size blocksize : Z) : nat :=
  Z.to_nat (Z.of_nat (length src) / blocksize + size + 2).
Definition preload_copy (src : list ascii) (dest_path : cstr) (xpn_path_len : nat) (blocksize replication_level rank size : Z) : option (option (list ascii)) :=
  mdata ← XpnCreateMetadataExtern dest_path size blocksize replication_level;
  st ← preload_loop mdata src blocksize replication_level rank (preload_fuel src size blocksize) 0
         (Preload (replicate (Z.to_nat HEADER_SIZE) NUL) 0 HEADER_SIZE);
  master_dir ← hash (drop xpn_path_len dest_path) size 0;
  let mdata := set_file_size (Z.of_nat (length src)) mdata in
  let write_mdata := holds_copy (first_node mdata) replication_level size rank in
  let dst := if write_mdata then write_at (pl_dst st) 0 (mdata_bytes mdata) else pl_dst st in
  let local_size := if write_mdata then local_size st ⊕ SIZEOF_MDATA else local_size st in
  Some (if (local_size =? 0) && negb (holds_copy master_dir replication_level size rank) then None else Some dst).
(** The path of an entry of [list], and that of its copy: [entry] is in the directory
    [dir_name]. *)
Definition list_path (dir_name d_name : cstr) : cstr := dir_name ++ [slash] ++ d_name.
Definition preload_path (entry dir_name dest_prefix : cstr) : cstr := dest_prefix ++ [slash] ++ drop (length dir_name) entry.

(** ** xpn_flush.c *)

Section flush.
(** [src] is the file of the server, [None] when it has none; files have a time
    of modification that is not 0. *)
Context (mdata : xpn_metadata) (src : option (list ascii)) (blocksize replication_level rank : Z).

(** The replica of the block that [rank] holds: the last [offset_src] and
    [aux_serv] that were computed. *)
Fixpoint flush_replicas (offset_dest i : Z) (k : nat) (last : Z * Z) : option (Z * Z) :=
  match k with
  | O => Some last
  | S k =>
    '(offset_src, aux_serv) ← XpnCalculateBlockMdata mdata offset_dest i (last.1) (last.2);
    if aux_serv =? rank then Some (offset_src, aux_serv)
    else flush_replicas offset_dest (i ⊞ 1) k (offset_src, aux_serv)
  end.
(** The search for the next block: [offset_dest], [offset_src] and [aux_serv]. *)
Fixpoint flush_search (fuel : nat) (offset_dest : Z) (last : Z * Z) : option (Z * (Z * Z)) :=
  match fuel with
  | O => None
  | S f =>
    let offset_dest := offset_dest ⊕ blocksize in
    last ← flush_replicas offset_dest 0 (Z.to_nat (replication_level + 1)) last;
    if last.2 =? rank then Some (offset_dest, last)
    else if offset_dest <? file_size mdata then flush_search f offset_dest last
    else Some (offset_dest, last)
  end.
(** The writes of the process, at which offset and what.  ([replication] is 0
    throughout, so the [continue] that it guards is never taken.) *)
Fixpoint flush_loop (fuel search : nat) (offset_dest read_size : Z) (last : Z * Z) : option (list (Z * list ascii)) :=
  match fuel with
  | O => None
  | S f =>
    '(offset_dest, last) ← flush_search search offset_dest last;
    if negb (last.2 =? rank) then
      if 0 <? read_size then flush_loop f search offset_dest read_size last else Some []
    else
      match src with
      | None => Some []
      | Some file =>
        if Z.of_nat (length file) <? last.1 then Some []
        else if file_size mdata <? offset_dest then Some []
        else
          match read_at file (last.1 ⊕ HEADER_SIZE) blocksize with
          | [] => Some []
          | buf => rest ← flush_loop f search offset_dest (Z.of_nat (length buf)) last; Some ((offset_dest, buf) :: rest)
          end
      end
  end.
End flush.

(** The master: the server of the path that is read. *)
Definition flush_master (src_path : cstr) (xpn_path_len : nat) (size : Z) : option Z := hash (drop xpn_path_len src_path) size 1.
(** [list]: the process that reads a directory, and tells the others its entries. *)
Definition flush_lister (dir_name : cstr) (xpn_path_len : nat) (size : Z) : option Z := hash (drop xpn_path_len dir_name) size 1.
(** The metadata that the master reads, to a struct of zeros. *)
Definition flush_mdata (master_file : option (list ascii)) : xpn_metadata :=
  let bytes := match master_file with None => [] | Some f => read_at f 0 SIZEOF_MDATA end in
  mdata_of_bytes (bytes ++ replicate (Z.to_nat SIZEOF_MDATA - length bytes) NUL).
Definition flush_fuel (mdata : xpn_metadata) (blocksize size : Z) : nat := Z.to_nat (file_size mdata / blocksize + size + 3).
(** [copy] of a file by the process of the server [rank]: its writes, and what is
    left of its own file. *)
Definition flush_copy (mdata : xpn_metadata) (src : option (list ascii)) (blocksize replication_level rank size : Z)
    (junk : Z * Z) : option (list (Z * list ascii) * option (list ascii)) :=
  if XPN_CHECK_MAGIC_NUMBER mdata then
    let fuel := flush_fuel mdata blocksize size in
    ws ← flush_loop mdata src blocksize replication_level rank fuel fuel (- blocksize) (-1) junk;
    Some (ws, None)
  else Some ([], src).
(** The file at the destination after a sequence of writes. *)
Definition write_each (ws : list (Z * list ascii)) (f : list ascii) : list ascii :=
  foldl (λ f w, write_at f w.1 w.2) f ws.
