(* ===== verification/MigrateSpec.v ===== *)
(** * MigrateSpec: what is copied to Expand comes back

    The file of a server is the blocks of its slots, one after the other; the
    writes of the processes of xpn_flush, in any order, put the blocks back. *)

From S2P Require Import Prelude Cstr Paths Layout Mdata Nfi Client MemFs FileTable Blocks Rw Affected Bytes Header PosixMem Migrate.

(** ** Reads and writes *)

Lemma read_at_app h f o n : o = Z.of_nat (length h) → read_at (h ++ f) o n = take (Z.to_nat n) f.
Proof. intros ->. unfold read_at. by rewrite Nat2Z.id, drop_app_length. Qed.
Lemma write_at_end f o d : o = Z.of_nat (length f) → write_at f o d = f ++ d.
Proof.
  intros ->. unfold write_at. destruct d as [|a d]; [by rewrite app_nil_r|]. unfold splice.
  rewrite Nat2Z.id, Nat.sub_diag. cbn [replicate]. rewrite app_nil_r, take_ge, drop_ge, app_nil_r by (rewrite ?length_app; cbn; lia). done.
Qed.
Lemma write_at_start d h f : length d = length h → write_at (h ++ f) 0 d = d ++ f.
Proof.
  intros E. unfold write_at. destruct d as [|a d]; [by destruct h|]. unfold splice. cbn [Z.to_nat Nat.sub replicate take app].
  rewrite app_nil_r, Nat.add_0_l, E, drop_app_length. done.
Qed.

(** Blocks of the same length, but for the last one. *)
Lemma concat_length {A} (bs : nat) (l : list (list A)) : Forall (λ x, length x = bs) l → length (concat l) = (length l * bs)%nat.
Proof. induction 1 as [|x l Hx _ IH]; [done|]. cbn. rewrite length_app, IH, Hx. lia. Qed.
Lemma concat_block {A} (bs : nat) (l : list (list A)) k x :
  Forall (λ x, length x = bs) (take k l) → l !! k = Some x → (length x ≤ bs)%nat → (length x = bs ∨ length l = S k) →
  take bs (drop (k * bs) (concat l)) = x.
Proof.
  intros Hl Hk Hx Hlast. rewrite <- (take_drop_middle l k x Hk), concat_app. cbn [concat].
  rewrite drop_app_ge.
  2: { rewrite (concat_length bs) by done. rewrite length_take. nia. }
  rewrite (concat_length bs) by done. rewrite length_take, Nat.min_l by (apply lookup_lt_Some in Hk; lia). rewrite Nat.sub_diag, drop_0.
  destruct Hlast as [<-|Hlast]; [by rewrite take_app_length|].
  rewrite (drop_ge l) by lia. cbn. rewrite app_nil_r. by apply take_ge.
Qed.

(** ** The slots of a server *)

Section slots.
Context (n rl fn bs rank : Z) (d : list ascii).
Context (Hn : 0 < n) (Hrl : 0 <= rl < n) (Hbs : 0 < bs) (Hrank : 0 <= rank < n).

(** The first slot of the server, its slots below [s], and the slots of block [b]. *)
Definition first_slot : Z := (rank - fn) mod n.
Definition rows (s : Z) : Z := (s + n - 1 - first_slot) / n.
Definition own (s : Z) : bool := (s + fn) mod n =? rank.
Definition slot (b i : Z) : Z := b * (rl + 1) + i.
Definition block (b : Z) : list ascii := read_at d (b * bs) bs.
(** The block in a row of the server, and the first [r] rows. *)
Definition row_block (r : Z) : list ascii := block ((r * n + first_slot) / (rl + 1)).
Definition local (r : Z) : list ascii := concat (row_block <$> seqZ 0 r).

Lemma first_slot_range : 0 <= first_slot < n.
Proof. apply Z.mod_pos_bound. lia. Qed.
Lemma own_iff s : own s = true ↔ s mod n = first_slot.
Proof.
  unfold own, first_slot. rewrite Z.eqb_eq. split.
  - intros <-. rewrite Zminus_mod_idemp_l. f_equal. lia.
  - intros E. rewrite <- Zplus_mod_idemp_l, E, Zplus_mod_idemp_l. replace (rank - fn + fn) with rank by lia. apply Z.mod_small. lia.
Qed.
Lemma own_slot s : own s = true → s = rows s * n + first_slot ∧ rows s = s / n ∧ rows (s + 1) = rows s + 1.
Proof.
  intros H%own_iff. pose proof first_slot_range. unfold rows. zdm s n. rewrite H in *.
  assert ((s + n - 1 - first_slot) / n = s / n) as ->.
  { symmetry. apply (Z.div_unique_pos _ _ _ (n - 1)); lia. }
  split_and!; [lia|done|]. symmetry. apply (Z.div_unique_pos _ _ _ 0); lia.
Qed.
Lemma other_slot s : own s = false → rows (s + 1) = rows s.
Proof.
  intros H. pose proof first_slot_range. unfold rows.
  assert (s mod n ≠ first_slot) as Hne by (intros E%own_iff; congruence). zdm s n.
  zdm (s + n - 1 - first_slot) n. zdm (s + 1 + n - 1 - first_slot) n.
  set (q := s / n) in *. set (r := s mod n) in *.
  assert (∀ t, 0 <= s + t - n * q < n → (s + t) / n = q) as Hq by (intros t Ht; symmetry; apply (Z.div_unique_pos _ _ _ (s + t - n * q)); lia).
  destruct (decide (r < first_slot)).
  - replace (s + 1 + n - 1 - first_slot) with (s + (n - first_slot)) by lia. replace (s + n - 1 - first_slot) with (s + (n - 1 - first_slot)) by lia.
    rewrite !Hq by lia. done.
  - replace (s + 1 + n - 1 - first_slot) with ((s - first_slot) + 1 * n) by lia. replace (s + n - 1 - first_slot) with ((s - 1 - first_slot) + 1 * n) by lia.
    rewrite !Z.div_add by lia. replace (s - first_slot) with (s + - first_slot) by lia. replace (s - 1 - first_slot) with (s + (- 1 - first_slot)) by lia.
    rewrite !Hq by lia. done.
Qed.
Lemma rows_nonneg s : 0 <= s → 0 <= rows s.
Proof. intros Hs. pose proof first_slot_range. unfold rows. apply Z.div_pos; lia. Qed.
Lemma rows_0 : rows 0 = 0.
Proof. pose proof first_slot_range. unfold rows. apply Z.div_small. lia. Qed.
Lemma rows_mono s s' : s <= s' → rows s <= rows s'.
Proof. intros H. unfold rows. apply Z.div_le_mono; lia. Qed.
(** Each row is one slot of the server. *)
Lemma row_slot r s : 0 <= r < rows s → r * n + first_slot < s ∧ rows (r * n + first_slot) = r ∧ own (r * n + first_slot) = true.
Proof.
  intros Hr. pose proof first_slot_range. split_and!.
  - unfold rows in Hr. zdm (s + n - 1 - first_slot) n. nia.
  - unfold rows. symmetry. apply (Z.div_unique_pos _ _ _ (n - 1)); lia.
  - apply own_iff. rewrite Z.add_comm, Z.mod_add by lia. apply Z.mod_small. lia.
Qed.

(** *** The blocks of the file *)

Definition len : Z := Z.of_nat (length d).
Definition blocks : Z := (len + bs - 1) / bs.
Lemma blocks_iff b : b < blocks ↔ b * bs < len.
Proof. unfold blocks. zdm (len + bs - 1) bs. split; nia. Qed.
Lemma blocks_nonneg : 0 <= blocks.
Proof. unfold blocks, len. apply Z.div_pos; lia. Qed.
Lemma block_length b : 0 <= b → Z.of_nat (length (block b)) = Z.max 0 (Z.min bs (len - b * bs)).
Proof. intros Hb. unfold block, read_at, len. rewrite length_take, length_drop. lia. Qed.
Lemma block_full b : 0 <= b → b + 1 < blocks → length (block b) = Z.to_nat bs.
Proof. intros Hb Hf%blocks_iff. pose proof (block_length b Hb). lia. Qed.
Lemma block_nonempty b : 0 <= b < blocks → block b ≠ [].
Proof. intros [Hb Hf%blocks_iff] E. pose proof (block_length b Hb). rewrite E in *. cbn in *. lia. Qed.
Lemma block_empty b : 0 <= b → blocks <= b → block b = [].
Proof.
  intros Hb Hf. apply length_zero_iff_nil. pose proof (block_length b Hb).
  assert (¬ b * bs < len) by (rewrite <- blocks_iff; lia). lia.
Qed.

Lemma slot_block b i : 0 <= i <= rl → slot b i / (rl + 1) = b.
Proof. intros Hi. unfold slot. symmetry. apply (Z.div_unique_pos _ _ _ i); lia. Qed.
(** The rows before a slot of block [b] are blocks before [b]. *)
Lemma earlier_rows b i r : 0 <= b → 0 <= i <= rl → own (slot b i) = true → 0 <= r < rows (slot b i) →
  0 <= (r * n + first_slot) / (rl + 1) < b.
Proof.
  intros Hb Hi Ho Hr. pose proof first_slot_range. destruct (own_slot _ Ho) as (Es & _ & _).
  assert (r * n + first_slot <= slot b i - n) by nia. split; [apply Z.div_pos; lia|].
  apply Z.div_lt_upper_bound; [lia|]. unfold slot in *. lia.
Qed.
Lemma row_of b i : 0 <= i <= rl → own (slot b i) = true → row_block (rows (slot b i)) = block b.
Proof. intros Hi Ho. unfold row_block. destruct (own_slot _ Ho) as (<- & _). by rewrite slot_block. Qed.

Lemma local_succ r : 0 <= r → local (r + 1) = local r ++ row_block r.
Proof. intros Hr. unfold local. rewrite seqZ_app by lia. rewrite fmap_app, concat_app, (seqZ_cons _ 1) by lia. change (Z.pred 1) with 0. cbn. by rewrite app_nil_r. Qed.
Lemma rows_full b i : 0 <= b < blocks → 0 <= i <= rl → own (slot b i) = true →
  Forall (λ x, length x = Z.to_nat bs) (row_block <$> seqZ 0 (rows (slot b i))).
Proof.
  intros Hb Hi Ho. apply Forall_fmap, Forall_forall. intros r Hr%elem_of_seqZ. cbn.
  destruct (earlier_rows b i r) as [H0 H1]; [lia..|done|lia|]. apply block_full; lia.
Qed.
Lemma local_length b i : 0 <= b < blocks → 0 <= i <= rl → own (slot b i) = true →
  Z.of_nat (length (local (rows (slot b i)))) = rows (slot b i) * bs.
Proof.
  intros Hb Hi Ho. unfold local. rewrite (concat_length (Z.to_nat bs)) by (by apply (rows_full b i)).
  rewrite length_fmap, length_seqZ. pose proof (rows_nonneg (slot b i)). unfold slot in *. nia.
Qed.
Lemma rows_bound b i : 0 <= b → 0 <= i <= rl + 1 → rows (slot b i) <= b + 1.
Proof.
  intros Hb Hi. pose proof first_slot_range. unfold rows, slot.
  apply Z.lt_succ_r, Z.div_lt_upper_bound; [lia|]. nia.
Qed.
Lemma own_soon s : 0 <= s → ∃ t, s <= t < s + n ∧ own t = true.
Proof.
  intros Hs. exists (s + (first_slot - s) mod n). pose proof (Z.mod_pos_bound (first_slot - s) n Hn). split; [lia|].
  apply own_iff. rewrite Zplus_mod_idemp_r. replace (s + (first_slot - s)) with (first_slot) by lia.
  apply Z.mod_small, first_slot_range.
Qed.
Lemma existsb_false_slots b : existsb own (slot b <$> seqZ 0 (rl + 1)) = false → ∀ t, slot b 0 <= t < slot (b + 1) 0 → own t = false.
Proof.
  intros H t Ht. destruct (own t) eqn:E; [|done]. exfalso. enough (existsb own (slot b <$> seqZ 0 (rl + 1)) = true) by congruence.
  apply existsb_exists. exists t. split; [|done]. apply list_elem_of_In, list_elem_of_fmap. unfold slot in *.
  exists (t - b * (rl + 1)). split; [lia|]. apply elem_of_seqZ. lia.
Qed.
Lemma local_bound r : 0 <= r → Z.of_nat (length (local r)) <= r * bs.
Proof.
  intros Hr. unfold local. rewrite <- (Z2Nat.id r Hr). induction (Z.to_nat r) as [|k IH]; [done|].
  rewrite Nat2Z.inj_succ, <- Z.add_1_r, seqZ_app by lia. rewrite fmap_app, concat_app, length_app. change (seqZ (0 + Z.of_nat k) 1) with [0 + Z.of_nat k].
  cbn [fmap list_fmap concat]. rewrite app_nil_r. assert (Z.of_nat (length (row_block (0 + Z.of_nat k))) <= bs); [|lia].
  unfold row_block, block, read_at. rewrite length_take. lia.
Qed.
End slots.

(** ** The file of a server *)

Section file.
Context (n rl fn bs rank : Z) (d hdr : list ascii).
Context (Hn : 0 < n) (Hrl : 0 <= rl < n) (Hbs : 0 < bs) (Hrank : 0 <= rank < n) (Hhdr : Z.of_nat (length hdr) = HEADER_SIZE).

Abbreviation slot := (slot rl).
Abbreviation rows := (rows n fn rank).
Abbreviation own := (own n fn rank).
Abbreviation block := (block bs d).
Abbreviation local := (local n rl fn bs rank d).
Abbreviation blocks := (blocks bs d).

(** All the rows of the server, after the header. *)
Definition stored_file : list ascii := hdr ++ local (rows (slot blocks 0)).

Lemma rows_last b j : 0 <= b < blocks → 0 <= j <= rl → own (slot b j) = true →
  rows (slot b j) < rows (slot blocks 0) ∧ (b + 1 < blocks ∨ rows (slot blocks 0) = rows (slot b j) + 1).
Proof using All.
  intros Hb Hj Ho. destruct (own_slot n fn rank Hn Hrank _ Ho) as (_ & _ & Hs).
  pose proof (rows_mono n fn rank Hn (slot b j + 1) (slot blocks 0) ltac:(unfold MigrateSpec.slot; nia)). split; [lia|].
  destruct (decide (b + 1 < blocks)) as [|Hlast]; [by left|right].
  pose proof (rows_mono n fn rank Hn (slot blocks 0) (slot b j + n) ltac:(unfold MigrateSpec.slot; nia)) as Hle.
  enough (rows (slot b j + n) = rows (slot b j) + 1) by lia. unfold MigrateSpec.rows.
  replace (slot b j + n + n - 1 - first_slot n fn rank) with ((slot b j + n - 1 - first_slot n fn rank) + 1 * n) by lia. by rewrite Z.div_add by lia.
Qed.
Lemma read_block b j : 0 <= b < blocks → 0 <= j <= rl → own (slot b j) = true →
  read_at stored_file (rows (slot b j) * bs + HEADER_SIZE) bs = block b.
Proof using All.
  intros Hb Hj Ho. pose proof (rows_nonneg n fn rank Hn (slot b j) ltac:(unfold MigrateSpec.slot; nia)) as Hr0.
  destruct (rows_last b j Hb Hj Ho) as [Hr Hlast]. set (r := rows (slot b j)) in *.
  unfold read_at, stored_file. rewrite drop_app_ge by nia. replace (Z.to_nat (r * bs + HEADER_SIZE) - length hdr)%nat with (Z.to_nat r * Z.to_nat bs)%nat by nia.
  pose proof (block_length bs d Hbs b ltac:(lia)) as Hbl. unfold MigrateSpec.local. apply concat_block.
  - rewrite <- fmap_take. assert (take (Z.to_nat r) (seqZ 0 (rows (slot blocks 0))) = seqZ 0 r) as ->; [|by apply (rows_full n rl fn bs rank d Hn Hrl Hbs Hrank b j)].
    replace (rows (slot blocks 0)) with (r + (rows (slot blocks 0) - r)) by lia. rewrite seqZ_app by lia. apply take_app_length'. rewrite length_seqZ. done.
  - rewrite list_lookup_fmap, lookup_seqZ_lt by lia. cbn [fmap option_fmap option_map]. rewrite Z2Nat.id, Z.add_0_l by lia.
    f_equal. by apply row_of.
  - lia.
  - rewrite length_fmap, length_seqZ. destruct Hlast as [Hl|Hl]; [left; apply (block_full bs d Hbs); lia|right; lia].
Qed.
Lemma read_past b j : blocks <= b → 0 <= j <= rl → own (slot b j) = true →
  read_at stored_file (rows (slot b j) * bs + HEADER_SIZE) bs = [].
Proof using All.
  intros Hb Hj Ho. pose proof (blocks_nonneg bs d Hbs) as Hb0.
  assert (rows (slot blocks 0) <= rows (slot b j)) as Hle by (apply (rows_mono n fn rank Hn); unfold MigrateSpec.slot; nia).
  pose proof (rows_nonneg n fn rank Hn (slot blocks 0) ltac:(unfold MigrateSpec.slot; nia)) as Hr0. pose proof (local_bound n rl fn bs rank d Hbs _ Hr0).
  unfold read_at, stored_file. rewrite drop_ge; [by rewrite take_nil|]. rewrite length_app. unfold HEADER_SIZE in *. nia.
Qed.
End file.

(** ** The metadata of a file that was never expanded *)

Section fresh.
Context (m : xpn_metadata) (n rl fn bs rank : Z) (d : list ascii).
Context (Hm : expanded m 1) (Em : block_size m = bs ∧ replication_level m = rl ∧ first_node m = fn ∧ nv m 0 = n).
Context (Hn : 0 < n) (Hrl : 0 <= rl < n) (Hbs : 0 < bs) (Hrank : 0 <= rank < n).
Context (Hsize : (len d + (n + 3) * bs) * (rl + 1) < 2 ^ 61).

Abbreviation slot := (slot rl).
Abbreviation rows := (rows n fn rank).
Abbreviation own := (own n fn rank).
Abbreviation block := (block bs d).
Abbreviation local := (local n rl fn bs rank d).
Abbreviation blocks := (blocks bs d).

Lemma calc_slot b i l0 s0 :
  0 <= b <= blocks + n + 1 → 0 <= i <= rl → XpnCalculateBlockMdata m (b * bs) i l0 s0 = Some (slot b i / n * bs, (slot b i + fn) mod n).
Proof using Hm Em Hn Hrl Hbs Hrank Hsize.
  intros Hb Hi. destruct Em as (E1 & E2 & E3 & E4).
  assert (b * bs <= len d + (n + 2) * bs) as Hx.
  { assert (blocks * bs <= len d + bs) by (unfold MigrateSpec.blocks; zdm (len d + bs - 1) bs; lia). nia. }
  rewrite (mdata_exact m 1 Hm) by (rewrite ?E1, ?E2; nia).
  unfold mloc. cbn [seg_of seg_start join]. rewrite E1. replace (b * bs - 0 * bs) with (b * bs) by lia.
  unfold ly_off, ly_serv, ly_slot, mlay. cbn [ly_bs ly_rl ly_n ly_fn]. rewrite E1, E2, E3, E4.
  rewrite Z.div_mul, Z.mod_mul by lia. unfold MigrateSpec.slot. f_equal. f_equal. lia.
Qed.

(** *** xpn_preload *)

Context (hdr : list ascii) (Hhdr : Z.of_nat (length hdr) = HEADER_SIZE).
Definition after_slot (s ws : Z) : preload_state := Preload (hdr ++ local (rows s)) (Z.of_nat (length (local (rows s)))) ws.

Lemma replicas_full b i k ws :
  0 <= b < blocks → 0 <= i → i + Z.of_nat k = rl + 1 → 0 < ws →
  ∃ ws', 0 < ws' ∧ preload_replicas m d bs rank (b * bs) i k (after_slot (slot b i) ws) = Some (after_slot (slot (b + 1) 0) ws', false).
Proof using All.
  intros Hb Hi Hk Hws. assert (slot (b + 1) 0 = slot b (rl + 1)) as -> by (unfold MigrateSpec.slot; lia).
  revert i ws Hi Hk Hws. induction k as [|k IH]; intros i ws Hi Hk Hws.
  - exists ws. split; [done|]. replace i with (rl + 1) by lia. done.
  - cbn [preload_replicas]. rewrite calc_slot by lia. cbn [mbind option_bind].
    assert (i ⊞ 1 = i + 1) as Ei by (destruct Em as (_ & <- & _); pose proof (ex_rl _ _ Hm); apply i32_id; lia).
    fold (own (slot b i)). destruct (own (slot b i)) eqn:Eo.
    + destruct (own_slot n fn rank Hn Hrank _ Eo) as (_ & Er & Es).
      pose proof (rows_nonneg n fn rank Hn (slot b i) ltac:(unfold MigrateSpec.slot; nia)) as Hr0.
      pose proof (rows_bound n rl fn rank Hn Hrl Hrank b i) as Hrb.
      pose proof (local_length n rl fn bs rank d Hn Hrl Hbs Hrank b i Hb ltac:(lia) Eo) as Hll.
      pose proof (block_length bs d Hbs b ltac:(lia)) as Hbl. pose proof (proj1 (blocks_iff bs d Hbs b) ltac:(lia)) as Hblk.
      assert (rows (slot b i) * bs + bs <= len d + 2 * bs) as Hpos by nia.
      assert (0 <= len d) as Hl0 by (unfold len; lia).
      assert (len d + (n + 3) * bs <= (len d + (n + 3) * bs) * (rl + 1)) as Hs1 by nia.
      assert (2 * bs <= (n + 3) * bs) as Hs2 by nia. assert (len d + 2 * bs < 2 ^ 61) as Htot by lia.
      unfold HEADER_SIZE in *. rewrite <- Er. rewrite (i64_id (_ * bs + _)) by lia.
      rewrite (proj2 (Z.ltb_ge _ 0)), (proj2 (Z.ltb_ge _ 0)) by nia. cbn [orb].
      fold (block b). pose proof (block_nonempty bs d Hbs b Hb) as Hne. destruct (block b) as [|a buf] eqn:Eb; [done|]. rewrite <- Eb in *.
      rewrite Ei. replace (Preload _ _ _) with (after_slot (slot b (i + 1)) (Z.of_nat (length (block b)))).
      { destruct (IH (i + 1) (Z.of_nat (length (block b)))) as (ws' & Hws' & E'); [lia..|]. exists ws'. split; [done|]. exact E'. }
      unfold after_slot. cbn [pl_dst local_size]. replace (slot b (i + 1)) with (slot b i + 1) by (unfold MigrateSpec.slot; lia).
      rewrite Es, local_succ, (row_of n rl fn bs rank d Hn Hrank) by (done || lia).
      rewrite write_at_end by (rewrite length_app; lia). rewrite length_app, i64_id by lia. rewrite <- (assoc_L (++)). f_equal. lia.
    + rewrite Ei. destruct (IH (i + 1) ws) as (ws' & Hws' & E'); [lia..|done|]. exists ws'. split; [done|]. rewrite <- E'. f_equal.
      unfold after_slot. replace (slot b (i + 1)) with (slot b i + 1) by (unfold MigrateSpec.slot; lia).
      by rewrite (other_slot n fn rank Hn Hrank _ Eo).
Qed.

(** The blocks after the last one stop the loop at the first that is the server's. *)
Lemma replicas_past b i k st :
  blocks <= b <= blocks + n → 0 <= i → i + Z.of_nat k = rl + 1 →
  preload_replicas m d bs rank (b * bs) i k st = Some (st, existsb own (slot b <$> seqZ i (Z.of_nat k))).
Proof using All.
  intros Hb. pose proof (blocks_nonneg bs d Hbs) as Hb0. revert i. induction k as [|k IH]; intros i Hi Hk; [done|].
  assert (i ⊞ 1 = i + 1) as Ei by (destruct Em as (_ & <- & _); pose proof (ex_rl _ _ Hm); apply i32_id; lia).
  cbn [preload_replicas]. rewrite calc_slot by lia. cbn [mbind option_bind]. fold (own (slot b i)).
  rewrite (seqZ_cons i) by lia. cbn [fmap list_fmap existsb]. replace (Z.pred (Z.of_nat (S k))) with (Z.of_nat k) by lia.
  rewrite Ei, IH by lia. replace (Z.succ i) with (i + 1) by lia.
  destruct (own (slot b i)) eqn:Eo; [|done]. cbn [orb]. fold (block b).
  pose proof (block_empty bs d Hbs b ltac:(lia) ltac:(lia)) as ->. by destruct (_ || _).
Qed.
Lemma loop_past fuel b st t :
  blocks <= b → b + Z.of_nat fuel <= blocks + n + 1 → slot b 0 <= t < slot (b + Z.of_nat fuel) 0 → own t = true → 0 < write_size st →
  preload_loop m d bs rl rank fuel (b * bs) st = Some st.
Proof using All.
  revert b. induction fuel as [|fuel IH]; intros b Hb Hf Ht Ho Hws; [unfold MigrateSpec.slot in Ht; lia|].
  cbn [preload_loop]. rewrite replicas_past by lia. cbn [mbind option_bind]. rewrite Z2Nat.id by lia.
  destruct (existsb _ _) eqn:E; [done|]. rewrite (proj2 (Z.ltb_lt 0 _)) by done.
  pose proof (existsb_false_slots n rl fn rank b E t) as Hno.
  assert (0 <= b * bs ∧ b * bs + bs < 2 ^ 62) as Hpos.
  { pose proof (blocks_nonneg bs d Hbs). assert (blocks * bs <= len d + bs) by (unfold MigrateSpec.blocks; zdm (len d + bs - 1) bs; lia).
    assert (0 <= len d) by (unfold len; lia). split; [nia|]. assert (b * bs <= len d + (n + 2) * bs) by nia. nia. }
  rewrite i64_id by lia. replace (b * bs + bs) with ((b + 1) * bs) by lia. apply IH; [lia..| |done|done].
  replace (b + 1 + Z.of_nat fuel) with (b + Z.of_nat (S fuel)) by lia.
  destruct (decide (slot (b + 1) 0 <= t)); [lia|]. rewrite Hno in Ho by lia. done.
Qed.
Lemma loop_full fuel b ws :
  0 <= b <= blocks → blocks - b + n + 1 <= Z.of_nat fuel → 0 < ws →
  ∃ ws', preload_loop m d bs rl rank fuel (b * bs) (after_slot (slot b 0) ws) = Some (after_slot (slot blocks 0) ws').
Proof using All.
  remember (Z.to_nat (blocks - b)) as k eqn:Ek. revert fuel b ws Ek. induction k as [|k IH]; intros fuel b ws Ek Hb Hf Hws.
  - assert (b = blocks) as -> by lia. exists ws. destruct (own_soon n fn rank Hn Hrank (slot blocks 0)) as (t & Ht & Ho); [unfold MigrateSpec.slot; nia|].
    assert (∃ f, fuel = (Z.to_nat (n + 1) + f)%nat) as [f ->] by (exists (fuel - Z.to_nat (n + 1))%nat; lia).
    assert (∀ g b st r, preload_loop m d bs rl rank g b st = Some r → preload_loop m d bs rl rank (g + f) b st = Some r) as Hmore.
    { clear. induction g as [|g IH]; intros b st r; [done|]. cbn [preload_loop Nat.add]. destruct (preload_replicas _ _ _ _ _ _ _ _) as [[st' [|]]|]; cbn; [done| |done].
      destruct (0 <? write_size st'); [apply IH|done]. }
    apply Hmore, (loop_past _ _ _ t); [lia..| |done|done]. unfold MigrateSpec.slot in *. nia.
  - destruct fuel as [|fuel]; [lia|]. cbn [preload_loop].
    destruct (replicas_full b 0 (Z.to_nat (rl + 1)) ws) as (ws' & Hws' & ->); [lia..|done|]. cbn [mbind option_bind after_slot write_size].
    rewrite (proj2 (Z.ltb_lt 0 ws')) by done. fold (after_slot (slot (b + 1) 0) ws').
    assert (0 <= b * bs ∧ b * bs + bs < 2 ^ 62) as Hpos.
    { pose proof (proj1 (blocks_iff bs d Hbs b) ltac:(lia)). assert (0 <= len d) by (unfold len; lia). split; [nia|].
      assert (len d + (n + 3) * bs <= (len d + (n + 3) * bs) * (rl + 1)) by nia. nia. }
    rewrite i64_id by lia. replace (b * bs + bs) with ((b + 1) * bs) by lia. apply IH; lia.
Qed.
(** *** xpn_flush *)

Definition mine (b : Z) : bool := existsb own (slot b <$> seqZ 0 (rl + 1)).
Definition wr (b : Z) : Z * list ascii := (b * bs, block b).
(** The replica of block [b] that the process finds. *)
Definition found (b : Z) (last : Z * Z) : Prop := ∃ j, 0 <= j <= rl ∧ own (slot b j) = true ∧ last = (rows (slot b j) * bs, rank).

Lemma flush_replicas_S off i k last :
  flush_replicas m rank off i (S k) last =
    '(o, s) ← XpnCalculateBlockMdata m off i (last.1) (last.2);
    if s =? rank then Some (o, s) else flush_replicas m rank off (i ⊞ 1) k (o, s).
Proof. done. Qed.
Lemma flush_replicas_found b i k last :
  0 <= b <= blocks + n + 1 → 0 <= i → i + Z.of_nat (S k) = rl + 1 →
  ∃ last', flush_replicas m rank (b * bs) i (S k) last = Some last' ∧
    (found b last' ∨ last'.2 ≠ rank ∧ existsb own (slot b <$> seqZ i (Z.of_nat (S k))) = false).
Proof using All.
  intros Hb. revert i last. induction k as [|k IH]; intros i last Hi Hk.
  all: assert (i ⊞ 1 = i + 1) as Ei by (destruct Em as (_ & <- & _); pose proof (ex_rl _ _ Hm); apply i32_id; lia).
  all: rewrite flush_replicas_S, calc_slot by lia; cbn [mbind option_bind]; fold (own (slot b i)).
  all: rewrite (seqZ_cons i) by lia; cbn [fmap list_fmap existsb]; destruct (own (slot b i)) eqn:Eo.
  1,3: eexists; split; [done|]; left; exists i; destruct (own_slot n fn rank Hn Hrank _ Eo) as (_ & -> & _); pose proof Eo as Er; apply Z.eqb_eq in Er as ->; split_and!; [lia..|done|done].
  - eexists. split; [done|]. right. split; [|done]. cbn. by apply Z.eqb_neq in Eo.
  - rewrite Ei. destruct (IH (i + 1) (slot b i / n * bs, (slot b i + fn) mod n)) as (last' & -> & H); [lia..|]. exists last'. split; [done|].
    replace (Z.pred (Z.of_nat (S (S k)))) with (Z.of_nat (S k)) by lia. replace (Z.succ i) with (i + 1) by lia. exact H.
Qed.
Lemma flush_block b last :
  0 <= b <= blocks + n + 1 →
  ∃ last', flush_replicas m rank (b * bs) 0 (Z.to_nat (rl + 1)) last = Some last' ∧
    (found b last' ∧ mine b = true ∨ last'.2 ≠ rank ∧ mine b = false).
Proof using All.
  intros Hb. destruct (flush_replicas_found b 0 (Z.to_nat rl) last Hb) as (last' & E & H); [lia..|].
  replace (S (Z.to_nat rl)) with (Z.to_nat (rl + 1)) in * by lia. exists last'. split; [done|].
  rewrite Z2Nat.id in H by lia. destruct H as [H|H]; [|by right]. left. split; [done|]. destruct H as (j & Hj & Ho & _).
  apply existsb_exists. exists (slot b j). split; [|done]. apply list_elem_of_In, list_elem_of_fmap. exists j. split; [done|]. apply elem_of_seqZ. lia.
Qed.
Lemma block_pos b : 0 <= b <= blocks + n + 1 → 0 <= b * bs < 2 ^ 62.
Proof using All.
  intros Hb. assert (blocks * bs <= len d + bs) by (unfold MigrateSpec.blocks; zdm (len d + bs - 1) bs; lia).
  assert (0 <= len d) by (unfold len; lia). split; [nia|]. assert (b * bs <= len d + (n + 2) * bs) by nia.
  assert (len d + (n + 3) * bs <= (len d + (n + 3) * bs) * (rl + 1)) by nia. nia.
Qed.
(** The search stops at the next block of the process or after the last block. *)
Lemma search_next fuel b last :
  0 <= b <= blocks + n + 1 → blocks - b + 1 <= Z.of_nat fuel → (0 < fuel)%nat → file_size m = len d →
  ∃ b' last', flush_search m bs rl rank fuel ((b - 1) * bs) last = Some (b' * bs, last') ∧
    b <= b' <= Z.max b blocks ∧ List.filter mine (seqZ b (b' - b)) = [] ∧
    (found b' last' ∧ mine b' = true ∨ last'.2 ≠ rank ∧ mine b' = false ∧ blocks <= b').
Proof using All.
  intros Hb Hf Hf0 Hfs. revert b last Hb Hf Hf0. induction fuel as [|fuel IH]; intros b last Hb Hf Hf0; [lia|].
  cbn [flush_search]. pose proof (block_pos b Hb). assert ((b - 1) * bs ⊕ bs = b * bs) as ->.
  { rewrite i64_id; [lia|]. replace ((b - 1) * bs + bs) with (b * bs) by lia. lia. }
  destruct (flush_block b last Hb) as (last' & -> & H'). cbn [mbind option_bind]. rewrite Hfs.
  destruct H' as [[Hfd Hmi]|[Hr Hmi]].
  - assert (last'.2 = rank) as -> by (by destruct Hfd as (? & _ & _ & ->)). rewrite Z.eqb_refl. exists b, last'. split; [done|]. split; [lia|].
    rewrite Z.sub_diag. split; [done|]. by left.
  - rewrite (proj2 (Z.eqb_neq _ _)) by done. destruct (b * bs <? len d) eqn:El.
    + apply Z.ltb_lt, (blocks_iff bs d Hbs) in El. replace (b * bs) with ((b + 1 - 1) * bs) by lia.
      destruct (IH (b + 1) last') as (b' & l' & -> & Hb' & Hn' & Hc); [lia..|]. exists b', l'. split; [done|]. split; [lia|]. split; [|done].
      rewrite seqZ_cons by lia. cbn [List.filter]. rewrite Hmi. rewrite <- Hn'. do 2 f_equal; lia.
    + apply Z.ltb_ge in El. assert (blocks <= b) by (apply Z.nlt_ge; intros ?%(blocks_iff bs d Hbs); lia).
      exists b, last'. split; [done|]. split; [lia|]. rewrite Z.sub_diag. split; [done|]. by right.
Qed.
(** The loop, after the search. *)
Abbreviation server_file := (stored_file n rl fn bs rank d hdr).
Definition flush_body (f search : nat) (offset_dest read_size : Z) (last : Z * Z) : option (list (Z * list ascii)) :=
  if negb (last.2 =? rank) then
    if 0 <? read_size then flush_loop m (Some server_file) bs rl rank f search offset_dest read_size last else Some []
  else if Z.of_nat (length server_file) <? last.1 then Some []
  else if file_size m <? offset_dest then Some []
  else
    match read_at server_file (last.1 ⊕ HEADER_SIZE) bs with
    | [] => Some []
    | buf => rest ← flush_loop m (Some server_file) bs rl rank f search offset_dest (Z.of_nat (length buf)) last; Some ((offset_dest, buf) :: rest)
    end.
Lemma flush_loop_S f search off rs last :
  flush_loop m (Some server_file) bs rl rank (S f) search off rs last =
    '(off, last) ← flush_search m bs rl rank search off last; flush_body f search off rs last.
Proof. done. Qed.
Lemma found_offset b j : 0 <= b <= blocks + n → 0 <= j <= rl → own (slot b j) = true → rows (slot b j) * bs ⊕ HEADER_SIZE = rows (slot b j) * bs + HEADER_SIZE.
Proof using All.
  intros Hb Hj Ho. pose proof (rows_bound n rl fn rank Hn Hrl Hrank b j ltac:(lia) ltac:(lia)).
  pose proof (rows_nonneg n fn rank Hn (slot b j) ltac:(unfold MigrateSpec.slot; nia)).
  pose proof (block_pos (b + 1) ltac:(lia)). unfold HEADER_SIZE. apply i64_id. nia.
Qed.
Lemma body_past f search rs b last :
  blocks <= b <= blocks + n → (found b last ∨ last.2 ≠ rank) →
  (last.2 ≠ rank → flush_loop m (Some server_file) bs rl rank f search (b * bs) rs last = Some []) →
  flush_body f search (b * bs) rs last = Some [].
Proof using All.
  intros Hb H Hl. pose proof (blocks_nonneg bs d Hbs). unfold flush_body. destruct H as [(j & Hj & Ho & ->)|Hr].
  - cbn [fst snd]. rewrite Z.eqb_refl. cbn [negb]. destruct (_ <? _); [done|]. destruct (_ <? _); [done|].
    rewrite (found_offset b j) by (done || lia). by rewrite (read_past n rl fn bs rank d hdr Hn Hrl Hbs Hrank Hhdr b j) by (done || lia).
  - rewrite (proj2 (Z.eqb_neq _ _)) by done. cbn [negb]. destruct (0 <? rs); [by apply Hl|done].
Qed.
Lemma flush_past fuel search b rs last t :
  file_size m = len d → (0 < search)%nat → blocks <= b → b + Z.of_nat fuel <= blocks + n + 1 →
  slot b 0 <= t < slot (b + Z.of_nat fuel) 0 → own t = true →
  flush_loop m (Some server_file) bs rl rank fuel search ((b - 1) * bs) rs last = Some [].
Proof using All.
  intros Hfs Hse. pose proof (blocks_nonneg bs d Hbs). revert b rs last. induction fuel as [|fuel IH]; intros b rs last Hb Hf Ht Ho; [unfold MigrateSpec.slot in Ht; lia|].
  rewrite flush_loop_S. destruct (search_next search b last) as (b' & l' & -> & Hb' & _ & H'); [lia..|done|].
  assert (b' = b) as -> by lia. cbn [mbind option_bind]. apply body_past; [lia|tauto|]. intros Hr.
  replace (b * bs) with ((b + 1 - 1) * bs) by lia. apply IH; [lia..| |done].
  destruct H' as [[(? & _ & _ & ->) _]|(_ & Hmi & _)]; [done|]. replace (b + 1 + Z.of_nat fuel) with (b + Z.of_nat (S fuel)) by lia.
  destruct (decide (slot (b + 1) 0 <= t)); [lia|]. rewrite (existsb_false_slots n rl fn rank b Hmi t) in Ho by lia. done.
Qed.
Lemma flush_more f g search off rs last r :
  flush_loop m (Some server_file) bs rl rank g search off rs last = Some r →
  flush_loop m (Some server_file) bs rl rank (g + f) search off rs last = Some r.
Proof using All.
  revert off rs last r. induction g as [|g IH]; intros off rs last r; [done|]. cbn [Nat.add]. rewrite !flush_loop_S.
  destruct (flush_search m bs rl rank search off last) as [[o l]|]; [|done]. cbn [mbind option_bind]. unfold flush_body.
  destruct (negb _); [destruct (0 <? rs); [apply IH|done]|]. destruct (_ <? _); [done|]. destruct (_ <? _); [done|]. destruct (read_at _ _ _) as [|a buf]; [done|].
  destruct (flush_loop _ _ _ _ _ g _ _ _ _) as [r'|] eqn:E; [|done]. by rewrite (IH _ _ _ _ E).
Qed.
Lemma flush_end fuel search b rs last :
  file_size m = len d → (0 < search)%nat → blocks <= b <= blocks + 1 → n + 1 <= Z.of_nat fuel →
  flush_loop m (Some server_file) bs rl rank fuel search ((b - 1) * bs) rs last = Some [].
Proof using All.
  intros Hfs Hse Hb Hf. pose proof (blocks_nonneg bs d Hbs). replace fuel with (Z.to_nat n + (fuel - Z.to_nat n))%nat by lia. apply flush_more.
  destruct (own_soon n fn rank Hn Hrank (slot b 0)) as (t & Ht & Ho); [unfold MigrateSpec.slot; nia|].
  apply (flush_past _ _ _ _ _ t); [done..|lia|lia|unfold MigrateSpec.slot in *; nia|done].
Qed.
(** The process writes the blocks that it holds a replica of. *)
Lemma flush_writes fuel search b rs last :
  file_size m = len d → blocks + 1 <= Z.of_nat search → 0 <= b <= blocks → blocks - b + n + 2 <= Z.of_nat fuel →
  flush_loop m (Some server_file) bs rl rank fuel search ((b - 1) * bs) rs last = Some (wr <$> List.filter mine (seqZ b (blocks - b))).
Proof using All.
  intros Hfs Hse. remember (Z.to_nat (blocks - b)) as k eqn:Ek. revert fuel b rs last Ek.
  induction k as [k IH] using (well_founded_induction lt_wf). intros fuel b rs last Ek Hb Hf. destruct fuel as [|fuel]; [lia|].
  rewrite flush_loop_S. destruct (search_next search b last) as (b' & l' & -> & Hb' & Hnone & H'); [lia..|done|]. cbn [mbind option_bind].
  assert (seqZ b (blocks - b) = seqZ b (b' - b) ++ seqZ b' (blocks - b')) as ->.
  { replace (blocks - b) with ((b' - b) + (blocks - b')) by lia. rewrite seqZ_app by lia. do 2 f_equal. lia. }
  rewrite List.filter_app, Hnone. cbn [app]. destruct (decide (b' = blocks)) as [->|Hne].
  - rewrite Z.sub_diag. apply body_past; [lia|tauto|]. intros _. replace (blocks * bs) with ((blocks + 1 - 1) * bs) by lia. apply flush_end; (done || lia).
  - destruct H' as [[(j & Hj & Ho & ->) Hmi]|(_ & _ & ?)]; [|lia]. unfold flush_body. cbn [fst snd]. rewrite Z.eqb_refl. cbn [negb].
    pose proof (read_block n rl fn bs rank d hdr Hn Hrl Hbs Hrank Hhdr b' j ltac:(lia) Hj Ho) as Hread. pose proof (block_nonempty bs d Hbs b' ltac:(lia)) as Hbn.
    rewrite (proj2 (Z.ltb_ge (Z.of_nat _) _)).
    2: { apply Z.nlt_ge. intros Hlt. apply Hbn. rewrite <- Hread. unfold read_at. rewrite drop_ge; [by rewrite take_nil|].
         unfold HEADER_SIZE in *. lia. }
    rewrite (proj2 (Z.ltb_ge _ (b' * bs))) by (rewrite Hfs; pose proof (proj1 (blocks_iff bs d Hbs b')); lia).
    rewrite (found_offset b' j) by (done || lia). rewrite Hread.
    destruct (block b') as [|a buf] eqn:Eb; [done|]. rewrite <- Eb.
    replace (b' * bs) with ((b' + 1 - 1) * bs) at 1 by lia. rewrite (IH (Z.to_nat (blocks - (b' + 1)))) by lia. cbn [mbind option_bind].
    rewrite (seqZ_cons b') by lia. cbn [List.filter]. rewrite Hmi. cbn [fmap list_fmap]. replace (Z.pred (blocks - b')) with (blocks - (b' + 1)) by lia. done.
Qed.
(** A process without a file writes nothing. *)
Lemma flush_nothing fuel search last :
  file_size m = len d → blocks + 1 <= Z.of_nat search → (0 < fuel)%nat → flush_loop m None bs rl rank fuel search (- bs) (-1) last = Some [].
Proof using All.
  intros Hfs Hse Hf. destruct fuel as [|fuel]; [lia|]. pose proof (blocks_nonneg bs d Hbs). cbn [flush_loop]. replace (- bs) with ((0 - 1) * bs) by lia.
  destruct (search_next search 0 last) as (b' & l' & -> & _); [lia..|done|]. cbn [mbind option_bind]. by destruct (negb _).
Qed.
Lemma no_blocks : local (rows (slot blocks 0)) = [] → List.filter mine (seqZ 0 blocks) = [].
Proof using All.
  intros Hl. destruct (List.filter mine (seqZ 0 blocks)) as [|b l] eqn:E; [done|]. exfalso.
  assert (In b (List.filter mine (seqZ 0 blocks))) as [Hb Hmi]%filter_In by (rewrite E; by left).
  apply list_elem_of_In, elem_of_seqZ in Hb. apply existsb_exists in Hmi as (s & Hs & Ho).
  apply list_elem_of_In, list_elem_of_fmap in Hs as (j & -> & Hj%elem_of_seqZ).
  apply (block_nonempty bs d Hbs b); [lia|]. rewrite <- (read_block n rl fn bs rank d hdr Hn Hrl Hbs Hrank Hhdr b j) by (done || lia). unfold stored_file. rewrite Hl, app_nil_r.
  pose proof (rows_nonneg n fn rank Hn (slot b j) ltac:(unfold MigrateSpec.slot; nia)).
  unfold read_at. rewrite drop_ge by nia. apply take_nil.
Qed.
End fresh.

(** ** Writing the pieces of a file, in any order *)

(** [f] has the bytes of [F] at the places [P]. *)
Definition agrees (F f : list ascii) (P : nat → Prop) : Prop :=
  (length f <= length F)%nat ∧ ∀ k x, F !! k = Some x → P k → f !! k = Some x.
Lemma agrees_piece F f P o n :
  0 <= o → agrees F f P → agrees F (write_at f o (read_at F o n)) (λ k, o <= Z.of_nat k < o + n ∨ P k).
Proof.
  intros Ho [Hl HP]. set (x := read_at F o n). assert (length x = Nat.min (Z.to_nat n) (length F - Z.to_nat o)) as Hx by (unfold x, read_at; by rewrite length_take, length_drop).
  assert (∀ k y, F !! k = Some y → o <= Z.of_nat k < o + n → (Z.to_nat o <= k < Z.to_nat o + length x)%nat) as Hin by (intros k y Hk%lookup_lt_Some ?; lia).
  unfold write_at. destruct x as [|a t] eqn:E.
  - split; [done|]. intros k y Hk [Hd|Hd]; [|by apply HP]. pose proof (Hin k y Hk Hd). cbn in *. lia.
  - rewrite <- E in *. split; [rewrite PosixMem.splice_length; assert (length x ≠ 0%nat) by (by rewrite E); lia|]. intros k y Hk Hd.
    destruct (decide (Z.to_nat o <= k < Z.to_nat o + length x)%nat) as [Hr|Hr].
    + replace k with (Z.to_nat o + (k - Z.to_nat o))%nat by lia. rewrite Bytes.splice_inside by lia. unfold x, read_at.
      rewrite lookup_take_lt, lookup_drop by lia. rewrite <- Hk. f_equal. lia.
    + apply Bytes.splice_outside; [done|]. apply HP; [done|]. destruct Hd as [Hd|]; [|done]. by specialize (Hin k y Hk Hd).
Qed.
Lemma agrees_weaken F f P Q : agrees F f P → (∀ k x, F !! k = Some x → Q k → P k) → agrees F f Q.
Proof. intros [Hl HP] HQ. split; [done|]. intros k x Hk Hq. by apply HP, (HQ k x). Qed.
Lemma agrees_whole F f P : agrees F f P → (∀ k, (k < length F)%nat → P k) → f = F.
Proof.
  intros [Hl HP] Hall. apply list_eq. intros k. destruct (F !! k) as [x|] eqn:Hk.
  - apply HP; [done|]. apply Hall. by apply lookup_lt_Some in Hk.
  - apply lookup_ge_None_2. apply lookup_ge_None in Hk. lia.
Qed.

Section writes.
Context (bs : Z) (d : list ascii) (Hbs : 0 < bs).
Abbreviation block := (block bs d).

Lemma agrees_all bl f P : Forall (λ b, 0 <= b) bl → agrees d f P →
  agrees d (write_each ((λ b, (b * bs, block b)) <$> bl) f) (λ k, Z.of_nat k / bs ∈ bl ∨ P k).
Proof using Hbs.
  intros Hl. revert f P. induction Hl as [|b bl Hb _ IH]; intros f P HP; cbn [fmap list_fmap write_each foldl].
  - apply (agrees_weaken _ _ P); [done|]. by intros k x _ [?%elem_of_nil|?].
  - pose proof (agrees_piece d f P (b * bs) bs ltac:(nia) HP) as H1. apply (agrees_weaken _ _ _ _ (IH _ _ H1)).
    intros k x _ [[Hk|?]%elem_of_cons|?]; [|by left|by right; right]. right; left.
    zdm (Z.of_nat k) bs. rewrite Hk in *. lia.
Qed.
(** Every block was written: the file is [d]. *)
Lemma write_each_blocks bl : Forall (λ b, 0 <= b) bl → (∀ b, 0 <= b < blocks bs d → b ∈ bl) →
  write_each ((λ b, (b * bs, block b)) <$> bl) [] = d.
Proof using Hbs.
  intros Hl Hall. apply (agrees_whole _ _ (λ k, Z.of_nat k / bs ∈ bl ∨ False)).
  - apply agrees_all; [done|]. split; [cbn; lia|done].
  - intros k Hk. left. apply Hall. split; [apply Z.div_pos; lia|]. apply (blocks_iff bs d Hbs). unfold len. zdm (Z.of_nat k) bs. nia.
Qed.
End writes.

(** ** A file goes and comes back *)

Section roundtrip.
Context (d : list ascii) (dpath : cstr) (plen : nat) (n bs rl : Z).
Context (Hpath : ascii_path dpath) (Hlen : strlen dpath < PATH_MAX - 1) (Hn : 0 < n < 2 ^ 30) (Hbs : 0 < bs < 2 ^ 31) (Hrl : 0 <= rl < n).
Context (Hsize : (len d + (n + 3) * bs) * (rl + 1) < 2 ^ 61).

(** The metadata that the processes of xpn_preload write. *)
Definition preloaded (m : xpn_metadata) : Prop := ∃ m0, XpnCreateMetadataExtern dpath n bs rl = Some m0 ∧ m = set_file_size (len d) m0.

Lemma preloaded_facts : ∃ m m0,
  XpnCreateMetadataExtern dpath n bs rl = Some m0 ∧ m = set_file_size (len d) m0 ∧ expanded m0 1 ∧ expanded m 1 ∧ mdata_in_range m ∧
  hash dpath n 1 = Some (first_node m) ∧ 0 <= first_node m < n ∧ XPN_CHECK_MAGIC_NUMBER m = true ∧
  (block_size m0 = bs ∧ replication_level m0 = rl ∧ first_node m0 = first_node m ∧ nv m0 0 = n).
Proof using All.
  destruct (hash_bound dpath n 1 Hpath Hlen ltac:(lia)) as (h & Eh & Hh).
  assert (∃ m0, XpnCreateMetadataExtern dpath n bs rl = Some m0) as [m0 Em] by (unfold XpnCreateMetadataExtern; rewrite Eh; by eexists).
  pose proof (create_expanded dpath n bs rl Hpath Hlen Hn Hbs ltac:(lia) m0 Em) as He.
  exists (set_file_size (len d) m0), m0. split; [done|]. split; [done|]. split; [done|]. split; [by apply expanded_file_size|].
  assert (len d < 2 ^ 61) by (unfold len in *; nia). unfold len in *.
  unfold XpnCreateMetadataExtern in Em. rewrite Eh in Em. injection Em as <-. cbn [set_file_size first_node block_size replication_level nv]. split_and!; try done; try lia.
  split; cbn; try (split; [reflexivity|]); repeat constructor; lia.
Qed.
Lemma holds_copy_self x : 0 <= x < n → holds_copy x rl n x = true.
Proof using All.
  intros Hx. apply existsb_exists. exists 0. split; [apply list_elem_of_In, elem_of_seqZ; lia|]. rewrite i32_id by lia. apply Z.eqb_eq.
  rewrite Z.rem_mod_nonneg, Z.add_0_r by lia. apply Z.mod_small. lia.
Qed.
(** The file of a process, or none: that is when it has no block of the file, and is
    one of the servers neither of the metadata nor of the directory. *)
Lemma preload_exact m m0 rank :
  XpnCreateMetadataExtern dpath n bs rl = Some m0 → m = set_file_size (len d) m0 → expanded m0 1 → mdata_in_range m → 0 <= first_node m < n →
  (block_size m0 = bs ∧ replication_level m0 = rl ∧ first_node m0 = first_node m ∧ nv m0 0 = n) → 0 <= rank < n →
  let data := local n rl (first_node m) bs rank d (rows n (first_node m) rank (slot rl (blocks bs d) 0)) in
  ∃ hdr md, Z.of_nat (length hdr) = HEADER_SIZE ∧ (rank = first_node m → ∃ rest, hdr = mdata_bytes m ++ rest) ∧
    hash (drop plen dpath) n 0 = Some md ∧
    preload_copy d dpath plen bs rl rank n =
      Some (if (Z.of_nat (length data) =? 0) && negb (holds_copy (first_node m) rl n rank) && negb (holds_copy md rl n rank) then None else Some (hdr ++ data)).
Proof using All.
  intros Em Hm He Hmr Hfn E0 Hrank data. set (zeros := replicate (Z.to_nat HEADER_SIZE) NUL).
  destruct (loop_full m0 n rl (first_node m) bs rank d He E0 ltac:(lia) Hrl ltac:(lia) Hrank Hsize zeros eq_refl (preload_fuel d n bs) 0 HEADER_SIZE)
    as (ws & Eloop); [pose proof (blocks_nonneg bs d ltac:(lia)); lia| |done|].
  { unfold preload_fuel, blocks, len. zdm (Z.of_nat (length d)) bs. zdm (Z.of_nat (length d) + bs - 1) bs.
    assert (0 <= Z.of_nat (length d) / bs) by (apply Z.div_pos; lia). nia. }
  assert (after_slot n rl (first_node m) bs rank d zeros (slot rl 0 0) HEADER_SIZE = Preload zeros 0 HEADER_SIZE) as E1.
  { unfold after_slot. replace (slot rl 0 0) with 0 by (unfold slot; lia). rewrite rows_0 by lia. cbn [local seqZ fmap list_fmap concat]. by rewrite app_nil_r. }
  rewrite E1 in Eloop. fold zeros in Eloop. unfold preload_copy. rewrite Em. cbn [mbind option_bind]. fold zeros.
  change 0 with (0 * bs) in Eloop at 1. rewrite Z.mul_0_l in Eloop. rewrite Eloop. cbn [mbind option_bind].
  rewrite hash_some by (rewrite ?length_drop; lia || (unfold strlen in *; rewrite length_drop; lia)). cbn [mbind option_bind].
  fold (len d). rewrite <- Hm. unfold after_slot. cbn [pl_dst local_size]. fold data.
  assert (Z.of_nat (length data) < 2 ^ 62) as Hdl.
  { pose proof (blocks_nonneg bs d ltac:(lia)). pose proof first_slot_range n (first_node m) rank ltac:(lia) as Hfs.
    assert (0 <= rows n (first_node m) rank (slot rl (blocks bs d) 0)) as Hr0 by (apply rows_nonneg; [lia|unfold slot; nia]).
    pose proof (local_bound n rl (first_node m) bs rank d ltac:(lia) _ Hr0) as Hb. fold data in Hb.
    pose proof (rows_bound n rl (first_node m) rank ltac:(lia) Hrl Hrank (blocks bs d) 0 ltac:(lia) ltac:(lia)).
    pose proof (block_pos m0 n rl (first_node m) bs rank d He E0 ltac:(lia) Hrl ltac:(lia) Hrank Hsize zeros eq_refl (blocks bs d + 1)). nia. }
  destruct (holds_copy (first_node m) rl n rank) eqn:Eh.
  - assert (length (mdata_bytes m) = 368%nat) as Hml by (destruct Hmr as [[M1 _] _ _ [N1 _] [O1 _]]; apply Nat2Z.inj; by apply mdata_bytes_length).
    eexists (mdata_bytes m ++ drop 368 zeros), _. split; [rewrite length_app, Hml; done|]. split; [by eexists|]. split; [done|].
    rewrite i64_id by (unfold SIZEOF_MDATA; lia). rewrite (proj2 (Z.eqb_neq _ 0)) by (unfold SIZEOF_MDATA; lia). cbn [andb negb].
    rewrite andb_false_r. cbn [andb]. rewrite <- (take_drop 368 zeros) at 1. rewrite <- !(assoc_L (++)). rewrite write_at_start by (rewrite Hml; done). done.
  - eexists zeros, _. split; [done|]. split; [intros ->; rewrite holds_copy_self in Eh; done|]. split; [done|]. cbn [negb].
    rewrite andb_true_r. done.
Qed.
Lemma preload_result m m0 rank :
  XpnCreateMetadataExtern dpath n bs rl = Some m0 → m = set_file_size (len d) m0 → expanded m0 1 → mdata_in_range m → 0 <= first_node m < n →
  (block_size m0 = bs ∧ replication_level m0 = rl ∧ first_node m0 = first_node m ∧ nv m0 0 = n) → 0 <= rank < n →
  let data := local n rl (first_node m) bs rank d (rows n (first_node m) rank (slot rl (blocks bs d) 0)) in
  ∃ f hdr, preload_copy d dpath plen bs rl rank n = Some f ∧ Z.of_nat (length hdr) = HEADER_SIZE ∧
    (rank = first_node m → ∃ rest, hdr = mdata_bytes m ++ rest) ∧ (f = Some (hdr ++ data) ∨ f = None ∧ data = [] ∧ rank ≠ first_node m).
Proof using All.
  intros Em Hm He Hmr Hfn E0 Hrank data. destruct (preload_exact m m0 rank Em Hm He Hmr Hfn E0 Hrank) as (hdr & md & Hh & Hmaster & _ & E). fold data in E.
  eexists _, hdr. split; [exact E|]. split; [done|]. split; [done|]. destruct (Z.of_nat (length data) =? 0) eqn:Ed; [|by left].
  destruct (holds_copy (first_node m) rl n rank) eqn:Eh; [by left|]. destruct (holds_copy md rl n rank) eqn:Ek; [by left|right].
  split_and!; [done| |intros ->; rewrite holds_copy_self in Eh; done]. apply Z.eqb_eq in Ed. apply length_zero_iff_nil. lia.
Qed.
Lemma flush_result m m0 rank f hdr junk :
  XpnCreateMetadataExtern dpath n bs rl = Some m0 → m = set_file_size (len d) m0 → expanded m 1 → XPN_CHECK_MAGIC_NUMBER m = true →
  (block_size m0 = bs ∧ replication_level m0 = rl ∧ first_node m0 = first_node m ∧ nv m0 0 = n) → 0 <= rank < n → Z.of_nat (length hdr) = HEADER_SIZE →
  let data := local n rl (first_node m) bs rank d (rows n (first_node m) rank (slot rl (blocks bs d) 0)) in
  f = Some (hdr ++ data) ∨ f = None ∧ data = [] ∧ rank ≠ first_node m →
  flush_copy m f bs rl rank n junk = Some (wr bs d <$> List.filter (mine n rl (first_node m) rank) (seqZ 0 (blocks bs d)), None).
Proof using All.
  intros Em Hm He Hmag E0 Hrank Hhdr data Hf. assert (block_size m = bs ∧ replication_level m = rl ∧ first_node m = first_node m ∧ nv m 0 = n) as E1.
  { subst m. destruct E0 as (? & ? & ? & ?). by split_and!. }
  assert (file_size m = len d) as Hfs by (by subst m). pose proof (blocks_nonneg bs d ltac:(lia)) as Hb0.
  assert (blocks bs d + n + 2 <= Z.of_nat (flush_fuel m bs n)) as Hfuel.
  { unfold flush_fuel. rewrite Hfs. unfold blocks, len. zdm (Z.of_nat (length d)) bs. zdm (Z.of_nat (length d) + bs - 1) bs.
    assert (0 <= Z.of_nat (length d) / bs) by (apply Z.div_pos; lia). nia. }
  unfold flush_copy. rewrite Hmag. cbv zeta. replace (- bs) with ((0 - 1) * bs) at 1 by lia. destruct Hf as [->|(-> & Hd & _)].
  - pose proof (flush_writes m n rl (first_node m) bs rank d He E1 ltac:(lia) Hrl ltac:(lia) Hrank Hsize hdr Hhdr (flush_fuel m bs n) (flush_fuel m bs n) 0 (-1) junk Hfs ltac:(lia) ltac:(lia) ltac:(lia)) as E.
    unfold stored_file in E. fold data in E. rewrite E. by rewrite Z.sub_0_r.
  - replace ((0 - 1) * bs) with (- bs) by lia.
    rewrite (flush_nothing m n rl (first_node m) bs rank d He E1 ltac:(lia) Hrl ltac:(lia) Hrank Hsize hdr Hhdr) by (done || lia).
    by rewrite (no_blocks m n rl (first_node m) bs rank d He E1 ltac:(lia) Hrl ltac:(lia) Hrank Hsize hdr Hhdr Hd).
Qed.
End roundtrip.

(** The metadata that is read of a file that starts with it. *)
Lemma flush_mdata_of m rest data : mdata_in_range m → flush_mdata (Some ((mdata_bytes m ++ rest) ++ data)) = m.
Proof.
  intros Hmr. assert (length (mdata_bytes m) = 368%nat) as Hml by (destruct Hmr as [[M1 _] _ _ [N1 _] [O1 _]]; apply Nat2Z.inj; by apply mdata_bytes_length).
  unfold flush_mdata, read_at. cbn [Z.to_nat drop]. change (Z.to_nat SIZEOF_MDATA) with 368%nat. change (Z.to_nat 0) with 0%nat.
  rewrite drop_0, <- (assoc_L (++)), take_app_length' by done.
  by apply mdata_read_back.
Qed.
(** All the blocks are written, in whatever order. *)
Lemma writes_back d n rl fn bs ws : 0 < n → 0 <= rl < n → 0 < bs →
  ws ≡ₚ seqZ 0 n ≫= (λ rank, wr bs d <$> List.filter (mine n rl fn rank) (seqZ 0 (blocks bs d))) → write_each ws [] = d.
Proof.
  intros Hn Hrl Hbs Hws.
  assert (∃ bl, ws = wr bs d <$> bl ∧ bl ≡ₚ seqZ 0 n ≫= λ rank, List.filter (mine n rl fn rank) (seqZ 0 (blocks bs d))) as (bl & -> & Hbl).
  { edestruct (Permutation_map_inv (wr bs d)) as (bl & E & Hbl); [|exists bl; split; [exact E|symmetry; exact Hbl]].
    rewrite Hws. apply reflexive_eq. generalize (seqZ 0 n). clear. induction l as [|r l IH]; [done|].
    cbn. rewrite map_app. f_equal. apply IH. }
  apply write_each_blocks; [lia| |].
  - apply Forall_forall. intros b Hb. rewrite Hbl in Hb. apply list_elem_of_bind in Hb as (r & Hb & _).
    apply list_elem_of_In, filter_In in Hb as [Hb%list_elem_of_In%elem_of_seqZ _]. lia.
  - intros b Hb. rewrite Hbl. apply list_elem_of_bind. exists ((slot rl b 0 + fn) mod n). split.
    + apply list_elem_of_In, filter_In. split; [apply list_elem_of_In, elem_of_seqZ; lia|]. apply existsb_exists. exists (slot rl b 0).
      split; [apply list_elem_of_In, list_elem_of_fmap; exists 0; split; [done|apply elem_of_seqZ; lia]|]. apply Z.eqb_refl.
    + apply elem_of_seqZ. pose proof (Z.mod_pos_bound (slot rl b 0 + fn) n). lia.
Qed.


(** Eleven bytes on three servers, in blocks of four bytes with a copy of each. *)
Definition hello : list ascii := str "hello world".
(** The writes of the processes: where, and of how many bytes. *)
Example flush_of_hello :
  let files := λ rank, default None (preload_copy hello (str "/part/notes") 5 4 1 rank 3) in
  (λ rank, (λ r, map (λ w, (w.1, length w.2)) r.1) <$> flush_copy (flush_mdata (files 2)) (files rank) 4 1 rank 3 (0, 0)) <$> [0; 1; 2] =
  [Some [(4, 4%nat); (8, 3%nat)]; Some [(0, 4%nat); (4, 4%nat)]; Some [(0, 4%nat); (8, 3%nat)]].
Proof. vm_compute. reflexivity. Qed.
