(* ===== verification/Rebuild.v ===== *)
(** * Rebuild: moving a partition to other servers

    src/src/utils/xpn_rebuild.c, an MPI program with a process on every server of
    the old and of the new configuration.  The processes go round by round: each
    server of the old configuration reads a block, all of them learn where each
    block goes ([MPI_Allgather]), and each block is sent to its new server, which
    writes it.  A message of a round is received by the process that it names, in
    the order of the senders, so a round is a function of the files. *)

From S2P Require Import Prelude Cstr Init Layout MemFs FileTable Migrate.

(** ** The configurations *)

(** A file of hosts, by words: the last host that this one appears in, and how many
    hosts there are. *)
Definition calculate_rank (hostip hostname : cstr) (hosts : list cstr) : Z * Z :=
  foldl (λ '(r, rank) line, (if strstr line hostip || strstr line hostname then rank else r, rank + 1)) (-1, 0) hosts.
(** The loop that constructs a map of ranks to processes: [None] is a write
    outside of the array of [size] integers. *)
Definition invert_ranks (rank_actual_to : list Z) : option (list Z) :=
  foldl (λ acc '(i, r),
      back ← acc;
      if r =? -1 then Some back
      else if (r <? 0) || (Z.of_nat (length back) <=? r) then None
      else Some (<[Z.to_nat r := i]> back))
    (Some (replicate (length rank_actual_to) (-1)))
    (zip (seqZ 0 (Z.of_nat (length rank_actual_to))) rank_actual_to).

(** ** Copying a file *)

Section copy.
Context (blocksize replication_level old_size new_size : Z).
Context (rank_actual_to_old rank_actual_to_new rank_new_to_actual : list Z).

Record mpi_msg_info := MsgInfo { rank_send : Z; rank_recv : Z; read_size : Z; offset : Z }.

(** What the process [rank] reads and announces at [offset_src]; [None] is
    [MPI_Abort] (which a send to no process also is), a division by zero, or a read
    outside of an array. *)
Definition local_msg (offset_src rank : Z) (src : option (list ascii)) : option (mpi_msg_info * list ascii) :=
  old ← rdZ rank_actual_to_old rank;
  if negb (old =? -1) then
    file ← src;
    if (blocksize =? 0) || (old_size =? 0) || (new_size =? 0) then None else
    let '(offset_real, replication) := XpnCalculateBlockInvert blocksize replication_level old_size old offset_src 0 in
    let '(offset_dest, rank_to_send) := XpnCalculateBlock blocksize replication_level new_size offset_real replication 0 in
    recv ← rdZ rank_new_to_actual rank_to_send;
    if recv =? -1 then None else
    let buf := read_at file (offset_src ⊕ HEADER_SIZE) blocksize in
    Some (MsgInfo rank recv (Z.of_nat (length buf)) offset_dest, buf)
  else Some (MsgInfo (-1) (-1) (-1) (-1), []).

(** The messages of a round, at the process [rank]: the ones that it receives, from
    others or from itself, are written. *)
Definition handle_messages (rank : Z) (all : list (mpi_msg_info * list ascii)) (dest : list ascii) : list ascii :=
  foldl (λ dest m, if rank_recv m.1 =? rank then write_at dest (offset m.1 ⊕ HEADER_SIZE) m.2 else dest) dest all.

(** The loop: [srcs] are the files of the processes, [dests] the new ones. *)
Fixpoint rebuild_loop (fuel : nat) (offset_src : Z) (srcs : list (option (list ascii))) (dests : list (list ascii)) : option (list (list ascii)) :=
  match fuel with
  | O => None
  | S f =>
    all ← mapM (λ p, local_msg offset_src p.1 p.2) (zip (seqZ 0 (Z.of_nat (length srcs))) srcs);
    let dests := imap (λ k dest, handle_messages (Z.of_nat k) all dest) dests in
    let finish := forallb (λ m, read_size m.1 <=? 0) all in
    if finish then Some dests else rebuild_loop f (offset_src ⊕ blocksize) srcs dests
  end.

(** A server reads at most a block more than its file has. *)
Definition rebuild_fuel (srcs : list (option (list ascii))) : nat :=
  Z.to_nat (foldr Z.max 0 ((λ s, match s with None => 0 | Some f => Z.of_nat (length f) end) <$> srcs) / blocksize + 2).
(** What is at the path of the file for each process, in the end. *)
Definition rebuild_copy (srcs : list (option (list ascii))) : option (list (option (list ascii))) :=
  dests ← rebuild_loop (rebuild_fuel srcs) 0 srcs (replicate (length srcs) (replicate (Z.to_nat HEADER_SIZE) NUL));
  Some (zip_with (λ r dest, if r =? -1 then None else Some dest) rank_actual_to_new dests).
End copy.

(** ** Traversing the directories

    [list] is run by every process.  The master reads the directories and tells the
    others, by broadcasts, that there is an entry and which one; [copy] is
    collective too.  A process that is not the master takes part in the broadcasts
    until it is told that there is nothing more.  The lines that differ are the
    calls of [list] for a directory: only the master makes them. *)

Inductive tree := File | Dir (entries : list (cstr * tree)).
Definition is_file (t : tree) : bool := match t with File => true | Dir _ => false end.
(** The collective operations: [while_loop], an entry ([path], [is_file] and
    [dir_name]), and [copy] of it. *)
Inductive collective := C_loop (while_loop : bool) | C_entry (path : cstr) (is_file : bool) | C_copy (path : cstr) (is_file : bool).
(** What the master does in a directory. *)
Fixpoint list_master (dir_name : cstr) (t : tree) : list collective :=
  match t with
  | File => []
  | Dir entries =>
    (fix entries_master (l : list (cstr * tree)) : list collective :=
       match l with
       | [] => [C_loop false]
       | (d_name, e) :: l =>
         let path := list_path dir_name d_name in
         C_loop true :: C_entry path (is_file e) :: C_copy path (is_file e) ::
         (if is_file e then [] else list_master path e) ++ entries_master l
       end) entries
  end.
(** What another process does with them: the entries that it copies, and what is left
    when it returns; [None] is a collective operation that is not the one it is in. *)
Fixpoint list_worker (l : list collective) : option (list (cstr * bool) * list collective) :=
  match l with
  | C_loop false :: rest => Some ([], rest)
  | C_loop true :: C_entry path f :: C_copy path' f' :: rest =>
    if bool_decide (path = path' ∧ f = f') then r ← list_worker rest; Some ((path, f) :: r.1, r.2) else None
  | _ => None
  end.
