(* ===== verification/RebuildSpec.v ===== *)
(** * RebuildSpec: the servers of the new configuration hold the file

    The blocks of a file that starts at the first server of the old configuration
    end where the new configuration looks for them, whatever the processes that run
    on the servers. *)

From S2P Require Import Prelude Cstr Layout MemFs Migrate MigrateSpec Rebuild.

(** ** Ranks *)

(** [L] gives a process its rank among [n] servers, or -1. *)
Record ranks_of (L : list Z) (n : Z) : Prop := {
  ro_in : ∀ k r, L !! k = Some r → r = -1 ∨ 0 <= r < n;
  ro_inj : ∀ k k' r, L !! k = Some r → L !! k' = Some r → r ≠ -1 → k = k';
  ro_onto : ∀ r, 0 <= r < n → ∃ k, L !! k = Some r }.

Lemma ranks_fit L n : 0 <= n → ranks_of L n → n <= Z.of_nat (length L).
Proof.
  intros Hn HL. enough (length (seqZ 0 n) <= length L)%nat as H by (rewrite length_seqZ in H; lia).
  apply List.NoDup_incl_length; [apply NoDup_ListNoDup, NoDup_seqZ|]. intros r Hr%list_elem_of_In%elem_of_seqZ.
  destruct (ro_onto _ _ HL r) as [k Hk]; [lia|]. apply list_elem_of_In. by apply list_elem_of_lookup_2 in Hk.
Qed.
Lemma zip_snoc (L : list Z) x :
  zip (seqZ 0 (Z.of_nat (length (L ++ [x])))) (L ++ [x]) = zip (seqZ 0 (Z.of_nat (length L))) L ++ [(Z.of_nat (length L), x)].
Proof.
  rewrite length_app, Nat2Z.inj_add. cbn [length]. rewrite seqZ_app by lia. rewrite zip_with_app by (rewrite length_seqZ; lia). done.
Qed.
Lemma invert_prefix L n N : 0 <= n <= Z.of_nat N →
  (∀ k r, L !! k = Some r → r = -1 ∨ 0 <= r < n) → (∀ k k' r, L !! k = Some r → L !! k' = Some r → r ≠ -1 → k = k') →
  ∃ back, foldl (λ acc '(i, r), back ← acc; if r =? -1 then Some back else if (r <? 0) || (Z.of_nat (length back) <=? r) then None
      else Some (<[Z.to_nat r := i]> back)) (Some (replicate N (-1))) (zip (seqZ 0 (Z.of_nat (length L))) L) = Some back ∧
    length back = N ∧ ∀ k r, L !! k = Some r → r ≠ -1 → rdZ back r = Some (Z.of_nat k).
Proof.
  intros HnN. induction L as [|x L IH] using rev_ind; intros Hin Hinj.
  - eexists. split; [done|]. split; [apply length_replicate|]. by intros k r H.
  - destruct IH as (back & E & Hl & Hb).
    { intros k r Hk. apply (Hin k). by apply lookup_app_l_Some. }
    { intros k k' r Hk Hk'. apply Hinj; by apply lookup_app_l_Some. }
    rewrite zip_snoc, foldl_app, E. cbn [foldl mbind option_bind].
    destruct (Hin (length L) x) as [->|Hx]; [apply list_lookup_middle; done| |].
    + exists back. cbn. split; [done|]. split; [done|]. intros k r [Hk|[_ Hk]]%lookup_app_Some Hr; [by apply Hb|]. by apply list_lookup_singleton_Some in Hk as [_ <-].
    + rewrite (proj2 (Z.eqb_neq _ _)), (proj2 (Z.ltb_ge _ _)), (proj2 (Z.leb_gt _ _)) by lia. cbn [orb].
      eexists. split; [done|]. split; [by rewrite length_insert|]. intros k r Hk Hr. destruct (decide (r = x)) as [->|Hne].
      * rewrite (Hinj k (length L) x) by (done || by apply list_lookup_middle). apply rdZ_lookup. split; [lia|]. apply list_lookup_insert_eq. lia.
      * apply lookup_app_Some in Hk as [Hk|[_ Hk]]; [|apply list_lookup_singleton_Some in Hk as [_ <-]; done].
        specialize (Hb k r Hk Hr). apply rdZ_lookup in Hb as [H0 Hb]. apply rdZ_lookup. split; [done|]. rewrite list_lookup_insert_ne by lia. done.
Qed.
(** The loop of main inverts the ranks. *)
Lemma invert_ranks_run L n : 0 <= n → ranks_of L n →
  ∃ back, invert_ranks L = Some back ∧ ∀ k r, L !! k = Some r → r ≠ -1 → rdZ back r = Some (Z.of_nat k).
Proof.
  intros Hn HL. pose proof (ranks_fit L n Hn HL). destruct (invert_prefix L n (length L)) as (back & E & _ & Hb);
    [lia|apply HL|apply HL|]. by exists back.
Qed.

(** ** A slot in the two configurations *)

Section stored.
Context (n rl bs : Z) (d : list ascii) (Hn : 0 < n) (Hrl : 0 <= rl < n) (Hbs : 0 < bs).

(** The block of a slot. *)
Definition slot_data (s : Z) : list ascii := block bs d (s / (rl + 1)).

Lemma first_is q : 0 <= q < n → first_slot n 0 q = q.
Proof using Hn. intros Hq. unfold first_slot. rewrite Z.sub_0_r. by apply Z.mod_small. Qed.
Lemma own_mod q s : 0 <= q < n → own n 0 q s = true ↔ s mod n = q.
Proof using Hn. intros Hq. rewrite (own_iff n 0 q Hq), first_is; done. Qed.
Lemma slot_of s : s = slot rl (s / (rl + 1)) (s mod (rl + 1)).
Proof using Hrl. unfold slot. zdm s (rl + 1). lia. Qed.
Definition total : Z := slot rl (blocks bs d) 0.
Lemma slot_data_empty s : 0 <= s → slot_data s = [] ↔ total <= s.
Proof using Hrl Hbs.
  intros Hs. assert (0 <= s / (rl + 1)) by (apply Z.div_pos; lia). assert (s / (rl + 1) < blocks bs d ↔ s < total) as Hlt.
  { unfold total, slot. zdm s (rl + 1). split; nia. }
  unfold slot_data. destruct (decide (s < total)) as [H1|H1].
  - split; [|lia]. intros E. exfalso. by apply (block_nonempty bs d Hbs (s / (rl + 1))); [split; [|apply Hlt]|].
  - split; [lia|]. intros _. apply block_empty; lia.
Qed.

Context (hdr : list ascii) (Hhdr : Z.of_nat (length hdr) = HEADER_SIZE).
(** The file of a server when the first one is 0. *)
Definition stored (q : Z) : list ascii := stored_file n rl 0 bs q d hdr.
(** A server finds the block of a slot in its row, or the end of its file. *)
Lemma stored_read q s : 0 <= q < n → 0 <= s → s mod n = q → read_at (stored q) (s / n * bs + HEADER_SIZE) bs = slot_data s.
Proof using All.
  intros Hq Hs Hm. pose proof (Z.mod_pos_bound s (rl + 1) ltac:(lia)). assert (0 <= s / (rl + 1)) by (apply Z.div_pos; lia).
  assert (own n 0 q s = true) as Ho by (by apply own_mod). destruct (own_slot n 0 q Hn Hq s Ho) as (_ & <- & _).
  unfold slot_data. rewrite (slot_of s) in Ho |- * at 1. destruct (decide (s / (rl + 1) < blocks bs d)) as [Hb|Hb].
  - apply read_block; (done || lia).
  - rewrite (block_empty bs d Hbs) by lia. apply read_past; (done || lia).
Qed.
(** The places of the slots of a server cover its file. *)
Lemma stored_covered q k : 0 <= q < n → (k < length (stored q))%nat → HEADER_SIZE <= Z.of_nat k →
  ∃ s, 0 <= s < total ∧ s mod n = q ∧ s / n * bs + HEADER_SIZE <= Z.of_nat k < s / n * bs + HEADER_SIZE + bs.
Proof using All.
  intros Hq Hk Hh. pose proof (blocks_nonneg bs d Hbs). assert (0 <= total) as Ht by (unfold total, slot; nia).
  unfold stored, stored_file in Hk. fold total in Hk. rewrite length_app in Hk.
  pose proof (local_bound n rl 0 bs q d Hbs _ (rows_nonneg n 0 q Hn total Ht)) as Hb.
  set (r := (Z.of_nat k - HEADER_SIZE) / bs). assert (0 <= r) by (apply Z.div_pos; lia).
  assert (r * bs <= Z.of_nat k - HEADER_SIZE < r * bs + bs) as Hr by (unfold r; zdm (Z.of_nat k - HEADER_SIZE) bs; lia).
  destruct (row_slot n 0 q Hn Hq r total) as (H1 & _ & Ho); [nia|]. rewrite first_is in * by done.
  exists (r * n + q). destruct (own_slot n 0 q Hn Hq _ Ho) as (_ & _ & _).
  rewrite Z.div_add_l, Z.div_small, Z.add_0_r by lia. split_and!; [nia|lia|by apply own_mod|lia|lia].
Qed.
(** The length of the file of the first server. *)
Lemma stored_long : total <= (Z.of_nat (length (stored 0)) / bs + 1) * n.
Proof using All.
  pose proof (blocks_nonneg bs d Hbs). assert (0 <= total) as Ht by (unfold total, slot; nia).
  pose proof (rows_nonneg n 0 0 Hn total Ht) as Hr. set (R := rows n 0 0 total) in *.
  assert (total <= R * n) as HR by (unfold R, rows; rewrite first_is by lia; zdm (total + n - 1 - 0) n; lia).
  enough (R <= Z.of_nat (length (stored 0)) / bs + 1) by nia. unfold stored, stored_file. fold total. fold R. rewrite length_app, Nat2Z.inj_add, Hhdr.
  destruct (decide (R = 0)) as [->|HR0]; [unfold HEADER_SIZE; pose proof (Z.div_pos (8192 + Z.of_nat (length (local n rl 0 bs 0 d 0))) bs); lia|].
  destruct (row_slot n 0 0 Hn ltac:(lia) (R - 1) total) as (H1 & H2 & Ho); [unfold R in *; lia|]. rewrite first_is in * by lia. set (s := (R - 1) * n + 0) in *.
  pose proof (Z.mod_pos_bound s (rl + 1) ltac:(lia)). rewrite (slot_of s) in H2, Ho.
  assert (0 <= s) as Hs by nia. assert (0 <= s / (rl + 1) < blocks bs d) as Hb.
  { split; [apply Z.div_pos; lia|]. unfold total, slot in H1. zdm s (rl + 1). nia. }
  pose proof (local_length n rl 0 bs 0 d Hn Hrl Hbs ltac:(lia) (s / (rl + 1)) (s mod (rl + 1)) Hb ltac:(lia) Ho) as Hll. rewrite H2 in Hll.
  replace R with (R - 1 + 1) at 2 by lia. rewrite local_succ by lia. rewrite length_app.
  assert ((R - 1) * bs / bs <= (HEADER_SIZE + Z.of_nat (length (local n rl 0 bs 0 d (R - 1)) + length (row_block n rl 0 bs 0 d (R - 1)))) / bs) as Hd
    by (apply Z.div_le_mono; [lia|unfold HEADER_SIZE; lia]).
  rewrite Z.div_mul in Hd by lia. lia.
Qed.
End stored.

(** The slots of the rows up to the one after the last have small offsets. *)
Lemma slot_small d bs rl n r o :
  0 < n → 0 <= rl → 0 < bs → (len d + bs) * (rl + 1) + 3 * n * bs < 2 ^ 61 →
  0 <= r → r * n < total rl bs d + n → 0 <= o < n → 0 <= r * n + o ∧ (r * n + o) * bs < 2 ^ 61.
Proof.
  intros Hn Hrl Hbs Hsize Hr Ht Ho. split; [nia|]. unfold total, slot in Ht.
  assert (blocks bs d * bs <= len d + bs) by (unfold blocks; zdm (len d + bs - 1) bs; lia).
  assert (blocks bs d * (rl + 1) * bs <= (len d + bs) * (rl + 1)) by nia. nia.
Qed.

(** The place of a slot, and the slot of a place. *)
Lemma slot_place bs rl n s :
  0 < bs < 2 ^ 31 → 0 <= rl < 2 ^ 31 - 1 → 0 < n < 2 ^ 30 → 0 <= s → s * bs < 2 ^ 62 →
  XpnCalculateBlock bs rl n (s / (rl + 1) * bs) (s mod (rl + 1)) 0 = (s / n * bs, s mod n) ∧
  XpnCalculateBlockInvert bs rl n (s mod n) (s / n * bs) 0 = (s / (rl + 1) * bs, s mod (rl + 1)).
Proof.
  intros Hbs Hrl Hn Hs Hsz. set (L := Layout bs rl n 0). assert (ly_ok L) as HL by (split; cbn; lia).
  pose proof (Z.mod_pos_bound s (rl + 1) ltac:(lia)) as Hm. assert (0 <= s / (rl + 1)) by (apply Z.div_pos; lia).
  set (x := s / (rl + 1) * bs). set (j := s mod (rl + 1)).
  assert (off_ok L x) as Hx by (split; cbn; unfold x; [nia|zdm s (rl + 1); nia]).
  assert (0 <= j <= ly_rl L) as Hj by (cbn; unfold j; lia).
  assert (ly_slot L x j = s) as Es by (unfold ly_slot, x, j; cbn; rewrite Z.div_mul by lia; zdm s (rl + 1); lia).
  assert (ly_off L x j = s / n * bs) as Eo by (unfold ly_off; rewrite Es; unfold x; cbn; rewrite Z.mod_mul by lia; lia).
  assert (ly_serv L x j = s mod n) as Ev by (unfold ly_serv; rewrite Es; cbn; by rewrite Z.add_0_r).
  pose proof (calc_exact L HL x j Hx Hj) as E1. pose proof (calc_inverse L HL x j Hx Hj) as E2. unfold calc in E1. rewrite Eo, Ev in E1, E2. by split.
Qed.

(** A process writes pieces of the file that it should have. *)
Lemma handle_agrees F bs p msgs dst P :
  (∀ m, m ∈ msgs → rank_recv m.1 = p → 0 <= offset m.1 + HEADER_SIZE < 2 ^ 63 ∧ m.2 = read_at F (offset m.1 + HEADER_SIZE) bs) → agrees F dst P →
  agrees F (handle_messages p msgs dst)
    (λ k, P k ∨ ∃ m, m ∈ msgs ∧ rank_recv m.1 = p ∧ offset m.1 + HEADER_SIZE <= Z.of_nat k < offset m.1 + HEADER_SIZE + bs).
Proof.
  revert dst P. induction msgs as [|m msgs IH]; intros dst P Hm HP; cbn [handle_messages foldl].
  - apply (agrees_weaken _ _ P); [done|]. intros k x _ [?|(m & ?%elem_of_nil & _)]; done.
  - destruct (rank_recv m.1 =? p) eqn:E.
    + apply Z.eqb_eq in E. destruct (Hm m) as [Ho Hd]; [by left|done|]. rewrite i64_id, Hd by lia.
      pose proof (agrees_piece F dst P (offset m.1 + HEADER_SIZE) bs ltac:(lia) HP) as H1.
      eapply agrees_weaken; [apply IH, H1; intros m' ??; apply Hm; [by right|done]|].
      intros k x _ [?|(m' & [->|?]%elem_of_cons & Hr & Hk)]; [by left; right|by left; left|right; by exists m'].
    + apply Z.eqb_neq in E. eapply agrees_weaken; [apply IH, HP; intros m' ??; apply Hm; [by right|done]|].
      intros k x _ [?|(m' & [->|?]%elem_of_cons & Hr & Hk)]; [by left|done|right; by exists m'].
Qed.

(** The new files begin with a header of zeros. *)
Definition zeros : list ascii := replicate (Z.to_nat HEADER_SIZE) NUL.
Lemma rebuild_zeros d bs rl n' q :
  (length zeros <= length (stored n' rl bs d zeros q))%nat ∧
  ∀ k x, stored n' rl bs d zeros q !! k = Some x → Z.of_nat k < HEADER_SIZE → zeros !! k = Some x.
Proof.
  unfold stored, stored_file. split; [rewrite length_app; lia|]. intros k x Hk Hh. rewrite lookup_app_l in Hk; [done|].
  unfold zeros. rewrite length_replicate. lia.
Qed.

Section rebuild.
Context (d : list ascii) (bs rl n n' : Z) (old new back : list Z) (srcs : list (option (list ascii))).
Context (Hn : 0 < n < 2 ^ 30) (Hn' : 0 < n' < 2 ^ 30) (Hrl : 0 <= rl < n) (Hrl' : 0 <= rl < n') (Hbs : 0 < bs < 2 ^ 31).
Context (Hsize : (len d + bs) * (rl + 1) + 3 * n * bs < 2 ^ 61).
Context (Hold : ranks_of old n) (Hnew : ranks_of new n') (Hback : ∀ k r, new !! k = Some r → r ≠ -1 → rdZ back r = Some (Z.of_nat k)).
Context (Hlen : length srcs = length old).
Context (Hsrc : ∀ p o, old !! p = Some o → o ≠ -1 → ∃ hdr, Z.of_nat (length hdr) = HEADER_SIZE ∧ srcs !! p = Some (Some (stored n rl bs d hdr o))).

Abbreviation total := (total rl bs d).
Abbreviation slot_data := (slot_data rl bs d).
(** The message of a process in a round. *)
Definition round_msg (r : Z) (p : nat) (o : Z) : mpi_msg_info * list ascii :=
  if o =? -1 then (MsgInfo (-1) (-1) (-1) (-1), [])
  else
    let s := r * n + o in
    (MsgInfo (Z.of_nat p) (default (-1) (rdZ back (s mod n'))) (Z.of_nat (length (slot_data s))) (s / n' * bs), slot_data s).

Lemma slot_bound r o : 0 <= r → r * n < total + n → 0 <= o < n → 0 <= r * n + o ∧ (r * n + o) * bs < 2 ^ 61.
Proof using All. by apply slot_small; lia. Qed.
Lemma owner_of q : 0 <= q < n' → ∃ k, new !! k = Some q ∧ rdZ back q = Some (Z.of_nat k).
Proof using All. intros Hq. destruct (ro_onto _ _ Hnew q Hq) as [k Hk]. exists k. split; [done|]. apply (Hback k q Hk). lia. Qed.
Lemma local_msg_run r p o src :
  0 <= r → r * n < total + n → old !! p = Some o → srcs !! p = Some src →
  local_msg bs rl n n' old back (r * bs) (Z.of_nat p) src = Some (round_msg r p o).
Proof using All.
  intros Hr Ht Ho Hp. unfold local_msg, round_msg. rewrite rdZ_of_nat, Ho. cbn [mbind option_bind].
  destruct (ro_in _ _ Hold p o Ho) as [->|Hor]; [done|]. rewrite (proj2 (Z.eqb_neq o (-1))) by lia. cbn [negb].
  destruct (Hsrc p o Ho) as (hdr & Hh & E); [lia|]. rewrite E in Hp. injection Hp as <-. cbn [mbind option_bind].
  rewrite !(proj2 (Z.eqb_neq _ 0)) by lia. cbn [orb]. set (s := r * n + o). destruct (slot_bound r o Hr Ht Hor) as [Hs0 Hsz]. fold s in Hs0, Hsz.
  assert (s mod n = o) as Em by (unfold s; rewrite Z.add_comm, Z.mod_add by lia; apply Z.mod_small; lia).
  assert (s / n = r) as Ed by (unfold s; rewrite Z.div_add_l, Z.div_small by lia; lia).
  destruct (slot_place bs rl n s) as [_ E1]; [lia..|]. rewrite Em, Ed in E1. rewrite E1.
  destruct (slot_place bs rl n' s) as [E2 _]; [lia..|]. rewrite E2.
  pose proof (Z.mod_pos_bound s n' ltac:(lia)) as Hmn. destruct (owner_of (s mod n') Hmn) as (k & _ & ->). cbn [mbind option_bind default from_option id].
  rewrite (proj2 (Z.eqb_neq _ (-1))) by lia. assert (r * bs <= s * bs) by (unfold s; nia). unfold HEADER_SIZE. rewrite i64_id by lia.
  assert (read_at (stored n rl bs d hdr o) (r * bs + 8192) bs = slot_data s) as ->; [|done].
  rewrite <- Ed. change 8192 with HEADER_SIZE. apply stored_read; (done || lia).
Qed.
Definition round (r : Z) : list (mpi_msg_info * list ascii) := imap (round_msg r) old.
Lemma round_run r : 0 <= r → r * n < total + n →
  mapM (λ p, local_msg bs rl n n' old back (r * bs) p.1 p.2) (zip (seqZ 0 (Z.of_nat (length srcs))) srcs) = Some (round r).
Proof using All.
  intros Hr Ht. apply mapM_Some, Forall2_same_length_lookup_2.
  { unfold round. rewrite length_zip_with, length_seqZ, length_imap. lia. }
  intros i [z src] m Hz Hm. apply lookup_zip_with_Some in Hz as (z' & src' & E & Hz & Hs). injection E as -> ->.
  apply lookup_seqZ in Hz as [-> _]. apply list_lookup_imap_Some in Hm as (o & Ho & ->). cbn [fst snd]. by apply local_msg_run.
Qed.

(** What the processes should have, and how much of it is there before a round. *)
Definition target (q : Z) : list ascii := stored n' rl bs d zeros q.
Definition covered (r q : Z) (k : nat) : Prop :=
  Z.of_nat k < HEADER_SIZE ∨ ∃ s, 0 <= s < r * n ∧ s mod n' = q ∧ s / n' * bs + HEADER_SIZE <= Z.of_nat k < s / n' * bs + HEADER_SIZE + bs.
Definition progress (r : Z) (dests : list (list ascii)) : Prop :=
  length dests = length new ∧ ∀ p q dst, new !! p = Some q → q ≠ -1 → dests !! p = Some dst → agrees (target q) dst (covered r q).

Lemma round_elem r m : m ∈ round r → ∃ p o, old !! p = Some o ∧ m = round_msg r p o.
Proof using All. intros (i & Hi)%list_elem_of_lookup. unfold round in Hi. apply list_lookup_imap_Some in Hi as (o & Ho & ->). by exists i, o. Qed.
(** A message of a round, at its receiver. *)
Lemma received r p o q p' :
  0 <= r → r * n < total + n → old !! p = Some o → new !! p' = Some q → q ≠ -1 → rank_recv (round_msg r p o).1 = Z.of_nat p' →
  0 <= o < n ∧ (r * n + o) mod n' = q ∧ offset (round_msg r p o).1 = (r * n + o) / n' * bs ∧ (round_msg r p o).2 = slot_data (r * n + o).
Proof using All.
  intros Hr Ht Ho Hq Hq1. unfold round_msg. destruct (ro_in _ _ Hold p o Ho) as [->|Hor]; [cbn; lia|].
  rewrite (proj2 (Z.eqb_neq o (-1))) by lia. cbn [fst snd rank_recv offset]. intros Hp.
  destruct (owner_of ((r * n + o) mod n')) as (k & Hk & E); [apply Z.mod_pos_bound; lia|]. rewrite E in Hp. cbn in Hp. apply Nat2Z.inj in Hp as ->.
  split_and!; [lia|lia|congruence|done|done].
Qed.
Lemma progress_round r dests :
  0 <= r → r * n < total + n → progress r dests → progress (r + 1) (imap (λ k dest, handle_messages (Z.of_nat k) (round r) dest) dests).
Proof using All.
  intros Hr Ht [Hl HP]. split; [by rewrite length_imap|]. intros p q dst Hq Hq1 Hd.
  apply list_lookup_imap_Some in Hd as (dst0 & Hd & ->). pose proof (HP p q dst0 Hq Hq1 Hd) as Ha.
  destruct (ro_in _ _ Hnew p q Hq) as [|Hqr]; [done|].
  eapply agrees_weaken; [apply (handle_agrees _ bs _ _ _ (covered r q)); [|exact Ha]|].
  - intros m (p0 & o & Ho & ->)%round_elem Hrv. destruct (received r p0 o q p Hr Ht Ho Hq Hq1 Hrv) as (Hor & Hm & -> & ->).
    destruct (slot_bound r o Hr Ht Hor) as [Hs0 Hsz]. set (s := r * n + o) in *. assert (0 <= s / n') by (apply Z.div_pos; lia).
    assert (s / n' * bs <= s * bs) by (assert (s / n' <= s) by (apply Z.div_le_upper_bound; nia); nia).
    split; [unfold HEADER_SIZE; lia|]. symmetry. apply stored_read; (done || lia).
  - intros k x _ [Hk|(s & Hs & Hm & Hk)]; [by left; left|]. destruct (decide (s < r * n)) as [Hlt|Hge]; [left; right; exists s; split_and!; (done || lia)|right].
    destruct (ro_onto _ _ Hold (s - r * n)) as [p0 Ho]; [lia|]. exists (round_msg r p0 (s - r * n)). split.
    { apply list_elem_of_lookup. exists p0. unfold round. by rewrite list_lookup_imap, Ho. }
    unfold round_msg. rewrite (proj2 (Z.eqb_neq _ _)) by lia. replace (r * n + (s - r * n)) with s by lia. cbn [fst rank_recv offset].
    split; [|done]. rewrite Hm. by rewrite (Hback p q Hq Hq1).
Qed.
Lemma finished r : 0 <= r →
  if forallb (λ m, read_size m.1 <=? 0) (round r) then total <= r * n else r * n < total.
Proof using All.
  intros Hr. assert (∀ s, 0 <= s → slot_data s = [] ↔ total <= s) as He by (intros s Hs; apply (slot_data_empty n rl bs d); lia).
  destruct (forallb _ _) eqn:E.
  - destruct (ro_onto _ _ Hold 0) as [p Ho]; [lia|]. assert (In (round_msg r p 0) (round r)) as Hin.
    { apply list_elem_of_In, list_elem_of_lookup. exists p. unfold round. by rewrite list_lookup_imap, Ho. }
    apply (proj1 (forallb_forall _ _) E) in Hin. unfold round_msg in Hin. cbn [Z.eqb fst read_size] in Hin. apply Z.leb_le in Hin.
    rewrite Z.add_0_r in Hin. apply He; [nia|]. apply length_zero_iff_nil. lia.
  - apply Z.nle_gt. intros Hle. enough (forallb (λ m, read_size m.1 <=? 0) (round r) = true) by congruence.
    apply forallb_forall. intros m (p & o & Ho & ->)%list_elem_of_In%round_elem. unfold round_msg.
    destruct (ro_in _ _ Hold p o Ho) as [->|Hor]; [done|]. rewrite (proj2 (Z.eqb_neq o (-1))) by lia. cbn [fst read_size].
    apply Z.leb_le. rewrite (proj2 (He (r * n + o) ltac:(nia))) by lia. done.
Qed.
Lemma rebuild_loop_run fuel r dests :
  0 <= r → r * n < total + n → total <= (r + Z.of_nat fuel - 1) * n → (0 < fuel)%nat → progress r dests →
  ∃ final r', rebuild_loop bs rl n n' old back fuel (r * bs) srcs dests = Some final ∧ total <= r' * n ∧ progress r' final.
Proof using All.
  revert r dests. induction fuel as [|fuel IH]; intros r dests Hr Ht Hf Hf0 HP; [lia|]. cbn [rebuild_loop].
  rewrite (round_run r Hr Ht). cbn [mbind option_bind]. pose proof (progress_round r dests Hr Ht HP) as HP'. pose proof (finished r Hr) as Hfin.
  destruct (forallb _ _) eqn:E.
  - eexists _, (r + 1). split; [done|]. split; [nia|done].
  - destruct (slot_bound r 0 Hr Ht) as [_ Hb]; [lia|]. assert (r * bs <= (r * n + 0) * bs) by nia.
    rewrite i64_id by lia. replace (r * bs + bs) with ((r + 1) * bs) by lia. apply IH; [lia|lia| |nia|done].
    replace (r + 1 + Z.of_nat fuel - 1) with (r + Z.of_nat (S fuel) - 1) by lia. done.
Qed.

Context (Hsame : length new = length old).
Lemma rebuild_start : progress 0 (replicate (length srcs) zeros).
Proof using All.
  split; [rewrite length_replicate; lia|]. intros p q dst _ _ Hd. apply lookup_replicate in Hd as [-> _]. destruct (rebuild_zeros d bs rl n' q) as [H1 H2].
  split; [done|]. intros k x Hk [Hh|(s & Hs & _)]; [by apply H2|lia].
Qed.
Lemma progress_end r p q dst dests : total <= r * n → progress r dests → new !! p = Some q → q ≠ -1 → dests !! p = Some dst → dst = target q.
Proof using All.
  intros Ht [_ HP] Hq Hq1 Hd. apply (agrees_whole _ _ (covered r q)); [by apply (HP p)|]. intros k Hk.
  destruct (decide (Z.of_nat k < HEADER_SIZE)) as [|Hh]; [by left|right].
  destruct (ro_in _ _ Hnew p q Hq) as [|Hqr]; [done|].
  destruct (stored_covered n' rl bs d ltac:(lia) Hrl' ltac:(lia) zeros eq_refl q k Hqr Hk) as (s & Hs & Hm & Hk'); [lia|].
  exists s. split_and!; (done || lia).
Qed.
Lemma fuel_enough : total <= (0 + Z.of_nat (rebuild_fuel bs srcs) - 1) * n.
Proof using All.
  destruct (ro_onto _ _ Hold 0) as [p Ho]; [lia|]. destruct (Hsrc p 0 Ho) as (hdr & Hh & Hp); [lia|].
  pose proof (stored_long n rl bs d ltac:(lia) Hrl ltac:(lia) hdr Hh) as Hl.
  unfold rebuild_fuel. set (M := foldr Z.max 0 _). assert (Z.of_nat (length (stored n rl bs d hdr 0)) <= M) as HM.
  { unfold M. clear -Hp. revert p Hp. induction srcs as [|x l IH]; intros [|p] Hp; cbn; [done|done| |]; [injection Hp as ->; lia|specialize (IH p Hp); lia]. }
  assert (Z.of_nat (length (stored n rl bs d hdr 0)) / bs <= M / bs) by (apply Z.div_le_mono; lia).
  assert (0 <= M / bs) by (apply Z.div_pos; lia). rewrite Z2Nat.id by lia. nia.
Qed.
Lemma rebuild_copy_run :
  rebuild_copy bs rl n n' old new back srcs = Some ((λ q, if q =? -1 then None else Some (target q)) <$> new).
Proof using All.
  unfold rebuild_copy. fold zeros.
  destruct (rebuild_loop_run (rebuild_fuel bs srcs) 0 (replicate (length srcs) zeros)) as (final & r' & E & Ht & HP);
    [lia| |apply fuel_enough| |apply rebuild_start|].
  { pose proof (blocks_nonneg bs d ltac:(lia)). unfold RebuildSpec.total, slot. nia. }
  { unfold rebuild_fuel. assert (0 <= foldr Z.max 0 ((λ s, match s with None => 0 | Some f => Z.of_nat (length f) end) <$> srcs) / bs); [|lia].
    apply Z.div_pos; [|lia]. clear. induction srcs; cbn; lia. }
  rewrite Z.mul_0_l in E. rewrite E. cbn [mbind option_bind]. f_equal. destruct HP as [Hl HP]. apply list_eq_same_length with (n := length new).
  - by rewrite length_fmap.
  - rewrite length_zip_with. lia.
  - intros p x y Hp Hx Hy. apply lookup_zip_with_Some in Hx as (q & dst & -> & Hq & Hd). rewrite list_lookup_fmap, Hq in Hy. injection Hy as <-.
    destruct (q =? -1) eqn:Eq; [done|]. apply Z.eqb_neq in Eq. by rewrite (progress_end r' p q dst final Ht (conj Hl HP) Hq Eq Hd).
Qed.
End rebuild.

(** ** Theorems *)


(** The metadata of a file does not survive xpn_rebuild: on none of the new
    servers does the header pass the check of the magic number, so that the file can
    be neither opened as a file of Expand nor flushed. *)
Theorem rebuild_loses_metadata d bs rl n n' old new srcs :
  0 < n < 2 ^ 30 → 0 < n' < 2 ^ 30 → 0 <= rl < n → 0 <= rl < n' → 0 < bs < 2 ^ 31 →
  (len d + bs) * (rl + 1) + 3 * n * bs < 2 ^ 61 →
  ranks_of old n → ranks_of new n' → length srcs = length old → length new = length old →
  (∀ p o, old !! p = Some o → o ≠ -1 →
    ∃ hdr, Z.of_nat (length hdr) = HEADER_SIZE ∧ srcs !! p = Some (Some (stored n rl bs d hdr o))) →
  ∃ back files, invert_ranks new = Some back ∧ rebuild_copy bs rl n n' old new back srcs = Some files ∧
    ∀ f junk rank, f ∈ files →
      Mdata.XPN_CHECK_MAGIC_NUMBER (flush_mdata f) = false ∧ flush_copy (flush_mdata f) f bs rl rank n' junk = Some ([], f).
Proof.
  intros Hn Hn' Hrl Hrl' Hbs Hsize Hold Hnew Hlen Hsame Hsrc.
  destruct (invert_ranks_run new n' ltac:(lia) Hnew) as (back & E & Hback). eexists back, _. split; [done|].
  split; [by eapply rebuild_copy_run|]. intros f junk rank (q & -> & _)%list_elem_of_fmap.
  set (f := if q =? -1 then None else _). assert (Mdata.XPN_CHECK_MAGIC_NUMBER (flush_mdata f) = false) as Hm; [|by unfold flush_copy; rewrite Hm].
  unfold f. destruct (q =? -1); [by vm_compute|]. unfold target, stored, stored_file, flush_mdata.
  set (data := local _ _ _ _ _ _ _). unfold read_at. change (Z.to_nat 0) with 0%nat. rewrite drop_0, take_app_le by (by vm_compute; lia).
  by vm_compute.
Qed.

(** Eleven bytes on two servers, the processes [2] and [0], go to three servers. *)
Definition old_ranks : list Z := [1; -1; 0].
Definition new_ranks : list Z := [0; 2; 1].
Definition old_files : list (option (list ascii)) := [Some (stored 2 1 4 hello zeros 1); None; Some (stored 2 1 4 hello zeros 0)].
Lemma ranks_sample : ranks_of old_ranks 2 ∧ ranks_of new_ranks 3.
Proof.
  split; split.
  - intros [|[|[|k]]] r; cbn; intros E; try injection E as <-; (done || lia).
  - intros [|[|[|k]]] [|[|[|k']]] r; cbn; intros E1 E2 Hr; try injection E1 as <-; (done || lia).
  - intros r Hr. assert (r = 0 ∨ r = 1) as [-> | ->] by lia; [by exists 2%nat|by exists 0%nat].
  - intros [|[|[|k]]] r; cbn; intros E; try injection E as <-; (done || lia).
  - intros [|[|[|k]]] [|[|[|k']]] r; cbn; intros E1 E2 Hr; try injection E1 as <-; (done || lia).
  - intros r Hr. assert (r = 0 ∨ r = 1 ∨ r = 2) as [-> | [-> | ->]] by lia; [by exists 0%nat|by exists 2%nat|by exists 1%nat].
Qed.
Lemma old_files_stored p o : old_ranks !! p = Some o → o ≠ -1 →
  ∃ hdr, Z.of_nat (length hdr) = HEADER_SIZE ∧ old_files !! p = Some (Some (stored 2 1 4 hello hdr o)).
Proof. destruct p as [|[|[|p]]]; cbn; intros E Ho; try injection E as <-; [by exists zeros|done|by exists zeros|done]. Qed.
Lemma rebuild_loses_metadata_witness :
  ∃ back files, invert_ranks new_ranks = Some back ∧ rebuild_copy 4 1 2 3 old_ranks new_ranks back old_files = Some files ∧
    ∀ f junk rank, f ∈ files →
      Mdata.XPN_CHECK_MAGIC_NUMBER (flush_mdata f) = false ∧ flush_copy (flush_mdata f) f 4 1 rank 3 junk = Some ([], f).
Proof.
  apply (rebuild_loses_metadata hello 4 1 2 3 old_ranks new_ranks old_files); try lia; try reflexivity;
    [apply ranks_sample|apply ranks_sample|apply old_files_stored].
Defined.

(** ** Traversals *)

Lemma list_dir_cons dir name e l :
  list_master dir (Dir ((name, e) :: l)) =
    C_loop true :: C_entry (list_path dir name) (is_file e) :: C_copy (list_path dir name) (is_file e) ::
    (if is_file e then [] else list_master (list_path dir name) e) ++ list_master dir (Dir l).
Proof. done. Qed.
Lemma list_worker_step path f l : list_worker (C_loop true :: C_entry path f :: C_copy path f :: l) = r ← list_worker l; Some ((path, f) :: r.1, r.2).
Proof. cbn [list_worker]. by rewrite bool_decide_true. Qed.
(** A process leaves before the end of the first directory that ends. *)
Lemma worker_leaves : ∀ t dir tail, is_file t = false → ∃ copied rest, list_worker (list_master dir t ++ tail) = Some (copied, rest ++ tail).
Proof.
  fix IH 1. intros [|l] dir tail Ht; [done|]. clear Ht. revert tail. induction l as [|[name e] l IHl]; intros tail.
  - by exists [], [].
  - rewrite list_dir_cons. cbn [app]. rewrite list_worker_step. specialize (IH e (list_path dir name)). destruct (is_file e).
    + destruct (IHl tail) as (c & r & E). cbn [app]. rewrite E. by eexists _, r.
    + destruct (IH (list_master dir (Dir l) ++ tail) eq_refl) as (c & r & E). rewrite <- (assoc_L (++)), E. cbn [mbind option_bind].
      eexists _, (r ++ list_master dir (Dir l)). by rewrite <- (assoc_L (++)).
Qed.
Lemma list_dir_nonempty dir l : list_master dir (Dir l) ≠ [].
Proof. by destruct l as [|[name e] l]. Qed.

(** C37: the processes of xpn_rebuild stay together only in a directory without
    subdirectories.  The processes that do not read the directories leave the loop at
    the end of the first directory that ends, because they do not call [list] again for
    a subdirectory: they copy every entry, and nothing is left of what the master does,
    if and only if every entry is a file; otherwise the master goes on to broadcasts
    that the others are not in, and waits for ever. *)
Theorem rebuild_stays_together dir l :
  ∃ copied rest, list_worker (list_master dir (Dir l)) = Some (copied, rest) ∧
    (rest = [] ↔ Forall (λ e, is_file e.2 = true) l) ∧
    (rest = [] → copied = (λ e, (list_path dir e.1, true)) <$> l).
Proof.
  induction l as [|[name e] l (c & r & E & Hr & Hc)].
  - exists [], []. split; [done|]. split; [|done]. split; [by constructor|done].
  - rewrite list_dir_cons, list_worker_step. destruct (is_file e) eqn:Ee.
    + cbn [app]. rewrite E. cbn [mbind option_bind]. eexists _, r. split; [done|]. split; [rewrite Forall_cons, Hr; cbn; tauto|].
      intros H. cbn [fst snd fmap list_fmap]. by rewrite (Hc H).
    + destruct (worker_leaves e (list_path dir name) (list_master dir (Dir l)) Ee) as (c' & r' & ->). cbn [mbind option_bind snd].
      eexists _, _. split; [done|]. pose proof (list_dir_nonempty dir l). split; [|by intros [_ ?]%app_eq_nil].
      split; [by intros [_ ?]%app_eq_nil|]. intros [HF _]%Forall_cons. cbn in HF. congruence.
Qed.
