(* ===== verification/ListingSpec.v ===== *)
(** * ListingSpec: the files that xpn_flush finds

    Only one process of xpn_flush lists a directory, so a file comes back when
    that process's server has it.  xpn_preload keeps a file without blocks on the
    server of its directory for that reason; the two agree on the server, except in
    the directory at the top. *)

From S2P Require Import Prelude Cstr Paths Layout Mdata Client Header Migrate MigrateSpec.

Lemma rev_head (q : cstr) s : slash ∉ s → s ≠ [] → ∃ a r, rev s = a :: r ∧ a ≠ slash ∧ (slash ∉ r) ∧ rev (q ++ s) = a :: (r ++ rev q).
Proof.
  intros Hs Hne. assert (slash ∉ rev s) as Hr by (rewrite list_elem_of_In, <- in_rev, <- list_elem_of_In; done).
  destruct (rev s) as [|a r] eqn:E; [by apply (f_equal (@rev ascii)) in E; rewrite rev_involutive in E|].
  apply not_elem_of_cons in Hr as [Ha Hr]. exists a, r. split_and!; [done|congruence|done|]. by rewrite rev_app_distr, E.
Qed.
(** The directory of a path with a double slash, as preload makes them. *)
Lemma dirname_double p sub name :
  sub ≠ [] → slash ∉ sub → name ≠ [] → slash ∉ name →
  dirname ((p ++ slash :: sub) ++ slash :: slash :: name) = p ++ slash :: sub.
Proof.
  intros Hs1 Hs2 Hn1 Hn2. set (q := p ++ slash :: sub). unfold dirname.
  destruct (q ++ slash :: slash :: name) as [|a0 l0] eqn:E0; [by destruct q|]. rewrite <- E0. clear a0 l0 E0.
  replace (q ++ slash :: slash :: name) with ((q ++ [slash; slash]) ++ name) by (by rewrite <- (assoc_L (++))).
  destruct (rev_head (q ++ [slash; slash]) name Hn2 Hn1) as (a & r & Er & Ha & Hr & ->).
  rewrite rev_app_distr. cbn [rev app]. change (a :: r ++ slash :: slash :: rev q) with ([] ++ a :: (r ++ slash :: slash :: rev q)).
  rewrite strip_slash_app by (first [constructor | done]). unfold rspan.
  change (a :: r ++ slash :: slash :: rev q) with ((a :: r) ++ slash :: slash :: rev q). rewrite span_app; [| |apply ceqb_refl].
  - rewrite drop_app_length. destruct (rev_head (p ++ [slash]) sub Hs2 Hs1) as (b & t & _ & Hb & _ & Eq).
    assert (q = (p ++ [slash]) ++ sub) as Eq' by (unfold q; by rewrite <- (assoc_L (++))). rewrite Eq', Eq.
    change (slash :: slash :: b :: t ++ rev (p ++ [slash])) with ([slash; slash] ++ b :: (t ++ rev (p ++ [slash]))).
    rewrite strip_slash_app by (first [done | repeat constructor]).
    change (rev (b :: (t ++ rev (p ++ [slash]))) = (p ++ [slash]) ++ sub). rewrite <- Eq. apply rev_involutive.
  - apply Forall_cons. split; [by apply ceqb_ne|]. apply Forall_forall. intros c Hc. apply ceqb_ne. by intros ->.
Qed.
Lemma preload_path_entry dir name prefix : preload_path (list_path dir name) dir prefix = prefix ++ slash :: slash :: name.
Proof. unfold preload_path, list_path. by rewrite drop_app_length. Qed.

(** C13: a file in a directory below the one that xpn_preload was given is listed by
    xpn_flush: the process that lists the directory [mid]/[sub], whose name is the same
    under both mounts, has a copy of the file, even when it has no block of it. *)
Theorem nested_file_listed d src prefix fprefix mid sub name n bs rl :
  let dest := preload_path (list_path src name) src (prefix ++ mid ++ slash :: sub) in
  sub ≠ [] → slash ∉ sub → name ≠ [] → slash ∉ name →
  ascii_path dest → strlen dest < PATH_MAX - 1 → strlen (mid ++ slash :: sub) < PATH_MAX - 1 → 0 < n < 2 ^ 30 → 0 < bs < 2 ^ 31 → 0 <= rl < n →
  (Z.of_nat (length d) + (n + 3) * bs) * (rl + 1) < 2 ^ 61 →
  ∃ lister f, flush_lister (fprefix ++ mid ++ slash :: sub) (length fprefix) n = Some lister ∧ 0 <= lister < n ∧
    preload_copy d dest (length prefix) bs rl lister n = Some (Some f).
Proof.
  intros dest Hs1 Hs2 Hn1 Hn2 Hp Hl Hls Hn Hbs Hrl Hsize. fold (len d) in *.
  assert (dest = prefix ++ (mid ++ slash :: sub) ++ slash :: slash :: name) as Ed by (unfold dest; rewrite preload_path_entry; by rewrite <- !(assoc_L (++))).
  assert (hash (drop (length prefix) dest) n 0 = hash (mid ++ slash :: sub) n 1) as Eh.
  { rewrite Ed in *. rewrite drop_app_length. rewrite !hash_some; [|done|lia| |lia].
    - cbn [Z.eqb Pos.eqb]. rewrite dirname_double, basename_app by done. done.
    - unfold strlen in *. rewrite !length_app in *. lia. }
  assert (ascii_path (mid ++ slash :: sub)) as Ha.
  { rewrite Ed in Hp. unfold ascii_path in *. apply Forall_app in Hp as [_ Hp]. by apply Forall_app in Hp as [Hp _]. }
  destruct (hash_bound (mid ++ slash :: sub) n 1 Ha Hls ltac:(lia)) as (lister & El & Hlr).
  destruct (preloaded_facts d dest (length prefix) n bs rl Hp Hl Hn Hbs Hrl Hsize) as (m & m0 & Em & Hm & He0 & He & Hmr & Hh & Hfn & Hmag & E0).
  destruct (preload_exact d dest (length prefix) n bs rl Hp Hl Hn Hbs Hrl Hsize m m0 lister Em Hm He0 Hmr Hfn E0 Hlr) as (hdr & md & _ & _ & Emd & E).
  rewrite Eh, El in Emd. injection Emd as <-.
  rewrite (holds_copy_self d dest (length prefix) n bs rl Hp Hl Hn Hbs Hrl Hsize lister Hlr), !andb_false_r in E.
  exists lister. eexists. split; [unfold flush_lister; rewrite drop_app_length; exact El|]. split; [done|exact E].
Qed.

Lemma dirname_top name : name ≠ [] → slash ∉ name → dirname (slash :: slash :: name) = [slash].
Proof.
  intros Hn1 Hn2. unfold dirname. change (slash :: slash :: name) with ([slash; slash] ++ name).
  destruct (rev_head [slash; slash] name Hn2 Hn1) as (a & r & Er & Ha & Hr & ->). cbn [rev app].
  change (a :: r ++ [slash; slash]) with ([] ++ a :: (r ++ [slash; slash])). rewrite strip_slash_app by (first [constructor | done]).
  unfold rspan. change (a :: r ++ [slash; slash]) with ((a :: r) ++ slash :: [slash]). rewrite span_app; [| |apply ceqb_refl].
  - by rewrite drop_app_length.
  - apply Forall_cons. split; [by apply ceqb_ne|]. apply Forall_forall. intros c Hc. apply ceqb_ne. by intros ->.
Qed.
Lemma holds_copy_one x n rank : 0 <= x < n → n < 2 ^ 30 → holds_copy x 0 n rank = (x =? rank).
Proof.
  intros Hx Hn. unfold holds_copy. change (seqZ 0 (0 + 1)) with [0]. cbn [existsb]. rewrite i32_id by lia.
  rewrite Z.rem_mod_nonneg, Z.add_0_r, Z.mod_small by lia. apply orb_false_r.
Qed.

Lemma slash_not_dot n : 2 <= n → 47 mod n ≠ 46 mod n.
Proof.
  intros Hn E. zdm 47 n. zdm 46 n. assert (n * (47 / n - 46 / n) = 1) as Hone by lia.
  destruct (Z.lt_trichotomy (47 / n - 46 / n) 0) as [?|[?|?]]; nia.
Qed.

Lemma mod_zero_eq a b n : 0 <= a < n → 0 <= b < n → (a - b) mod n = 0 → a = b.
Proof. intros Ha Hb E. zdm (a - b) n. destruct (Z.lt_trichotomy ((a - b) / n) 0) as [?|[?|?]]; nia. Qed.

(** C39: a file at the top, in the directory that xpn_preload was given, may be lost
    to xpn_flush.  The process that lists that directory is the one of the name
    "." (the 46th byte of ASCII), because what is left of the path is empty;
    xpn_preload keeps the files without blocks on the server of "/" (the 47th).  So a
    file of one block, without replicas, whose name does not fall on the first of the two
    is on one server and is never looked for. *)
Theorem top_level_file_not_listed d src prefix fprefix name n bs first :
  let dest := preload_path (list_path src name) src prefix in
  name ≠ [] → slash ∉ name → ascii_path dest → strlen dest < PATH_MAX - 1 →
  2 <= n < 2 ^ 30 → 0 < bs < 2 ^ 31 → 0 < Z.of_nat (length d) <= bs → (Z.of_nat (length d) + (n + 3) * bs) * (0 + 1) < 2 ^ 61 →
  hash dest n 1 = Some first → first ≠ 46 mod n →
  flush_lister fprefix (length fprefix) n = Some (46 mod n) ∧
  preload_copy d dest (length prefix) bs 0 (46 mod n) n = Some None ∧
  ∃ f, preload_copy d dest (length prefix) bs 0 first n = Some (Some f).
Proof.
  intros dest Hn1 Hn2 Hp Hl Hn Hbs Hd Hsize Hfirst Hne. fold (len d) in *. assert (0 < n < 2 ^ 30) as Hn0 by lia. assert (0 <= 0 < n) as Hrl by lia.
  assert (dest = prefix ++ slash :: slash :: name) as Ed by apply preload_path_entry.
  destruct (preloaded_facts d dest (length prefix) n bs 0 Hp Hl Hn0 Hbs Hrl Hsize) as (m & m0 & Em & Hm & He0 & He & Hmr & Hh & Hfn & Hmag & E0).
  rewrite Hfirst in Hh. injection Hh as ->. pose proof (Z.mod_pos_bound 46 n ltac:(lia)) as Hr.
  split; [|split].
  - unfold flush_lister. rewrite drop_ge by lia. rewrite hash_some; [|by vm_compute|lia]. cbn [Z.eqb Pos.eqb basename].
    change (i32 (char_sum ["."%char])) with 46. by rewrite Z.rem_mod_nonneg by lia.
  - destruct (preload_exact d dest (length prefix) n bs 0 Hp Hl Hn0 Hbs Hrl Hsize m m0 (46 mod n) Em Hm He0 Hmr Hfn E0 Hr) as (hdr & md & _ & _ & Emd & ->).
    assert (hash (drop (length prefix) dest) n 0 = Some (47 mod n)) as E47.
    { rewrite Ed in *. rewrite drop_app_length, hash_some; [|unfold strlen in *; rewrite length_app in Hl; lia|lia].
      cbn [Z.eqb]. rewrite dirname_top by done. change (basename [slash]) with [slash]. change (i32 (char_sum [slash])) with 47.
      by rewrite Z.rem_mod_nonneg by lia. }
    rewrite E47 in Emd. injection Emd as <-. pose proof (Z.mod_pos_bound 47 n ltac:(lia)).
    assert (47 mod n ≠ 46 mod n) as H47 by (apply slash_not_dot; lia).
    rewrite !holds_copy_one by lia. rewrite (proj2 (Z.eqb_neq (first_node m) (46 mod n)) Hne), (proj2 (Z.eqb_neq (47 mod n) (46 mod n)) H47).
    cbn [negb]. rewrite !andb_true_r.
    assert (blocks bs d = 1) as -> by (unfold blocks; symmetry; apply (Z.div_unique_pos _ _ _ (len d - 1)); unfold len in *; lia).
    assert (rows n (first_node m) (46 mod n) (slot 0 1 0) = 0) as ->; [|done].
    unfold rows, slot, first_slot. assert ((46 mod n - first_node m) mod n ≠ 0) as H0.
    { intros E. apply Hne. symmetry. by apply (mod_zero_eq _ _ n). }
    pose proof (Z.mod_pos_bound (46 mod n - first_node m) n ltac:(lia)). apply Z.div_small. lia.
  - destruct (preload_exact d dest (length prefix) n bs 0 Hp Hl Hn0 Hbs Hrl Hsize m m0 (first_node m) Em Hm He0 Hmr Hfn E0 Hfn) as (hdr & md & _ & _ & _ & ->).
    rewrite holds_copy_one, Z.eqb_refl by lia. cbn [negb]. rewrite andb_false_r. by eexists.
Qed.

Lemma ascii_path_dec s : forallb (λ a, (N_of_ascii a <? 128)%N) s = true → ascii_path s.
Proof. intros H. apply Forall_forall. intros a Ha. apply list_elem_of_In in Ha. rewrite forallb_forall in H. apply H in Ha. apply N.ltb_lt in Ha. lia. Qed.
Lemma nested_file_listed_witness :
  ascii_path (str "/part/data//notes") ∧
  ∃ lister f, flush_lister (str "/xpn/data") 4 4 = Some lister ∧ 0 <= lister < 4 ∧
    preload_copy hello (str "/part/data//notes") 5 64 0 lister 4 = Some (Some f).
Proof.
  assert (ascii_path (str "/part/data//notes")) as Ha by (apply ascii_path_dec; reflexivity). split; [exact Ha|].
  apply (nested_file_listed hello (str "/src/data") (str "/part") (str "/xpn") [] (str "data") (str "notes") 4 64 0);
    [done|apply (bool_decide_unpack _); exact I|done|apply (bool_decide_unpack _); exact I|exact Ha|vm_compute; reflexivity|vm_compute; reflexivity|lia|lia|lia|vm_compute; reflexivity].
Defined.
Lemma top_level_file_not_listed_witness :
  hash (str "/part//b") 4 1 = Some 2 ∧ flush_lister (str "/xpn") 4 4 = Some 2 ∧
  hash (str "/part//a") 4 1 = Some 1 ∧ 46 mod 4 = 2 ∧
  flush_lister (str "/xpn") 4 4 = Some (46 mod 4) ∧
  preload_copy hello (str "/part//a") 5 64 0 (46 mod 4) 4 = Some None ∧
  ∃ f, preload_copy hello (str "/part//a") 5 64 0 1 4 = Some (Some f).
Proof.
  split; [reflexivity|]. split; [reflexivity|]. split; [reflexivity|]. split; [reflexivity|].
  apply (top_level_file_not_listed hello (str "/src") (str "/part") (str "/xpn") (str "a") 4 64 1);
    [done|apply (bool_decide_unpack _); exact I|apply ascii_path_dec; reflexivity|vm_compute; reflexivity|lia|lia|cbn; lia|vm_compute; reflexivity|reflexivity|vm_compute; discriminate].
Defined.
