(* ===== verification/Expand.v ===== *)
(** * Expand: the metadata of a partition that gets more servers

    src/src/utils/xpn_expand.c, an MPI program with a process on every server of the
    new configuration, the first [last_size] of which are the old ones.  For each
    file, the process of its old master server reads the metadata and broadcasts it;
    every process then computes the new one ([expand_mdata] of [Mdata]), makes sure
    that it has the file, and writes the metadata if it is one of those that keep
    it.  No block is moved. *)

From S2P Require Import Prelude Cstr Paths Layout Mdata Nfi Client Header Migrate.

(** The files and the directories below the directory of a server, by path. *)
Record disk := Disk { disk_files : gmap cstr (list ascii); disk_dirs : gset cstr }.
(** The directory that a path is in. *)
Definition parent (path : cstr) : cstr :=
  rev (drop 1 (drop (scan is_slash (rev path) 0) (rev path))).

Section expand.
(** [junk] is what the struct [mdata] of the old master held: a short read leaves it. *)
Context (xpn_path_len : nat) (size last_size : Z) (junk : list ascii).

(** What the old master reads. *)
Definition read_mdata (entry : cstr) (d : disk) : option xpn_metadata :=
  file ← disk_files d !! entry;
  let bytes := read_at file 0 SIZEOF_MDATA in
  let mdata := mdata_of_bytes (bytes ++ drop (length bytes) junk) in
  if XPN_CHECK_MAGIC_NUMBER mdata then Some mdata else None.
(** What a process does with the new metadata: [open] with [O_CREAT] fails when the
    directory is not there. *)
Definition write_mdata (entry : cstr) (mdata : xpn_metadata) (has_new_mdata : bool) (d : disk) : option disk :=
  file ← match disk_files d !! entry with
         | Some f => Some f
         | None => if bool_decide (parent entry ∈ disk_dirs d) then Some [] else None
         end;
  Some (Disk (<[entry := if has_new_mdata then write_at file 0 (mdata_bytes mdata) else file]> (disk_files d)) (disk_dirs d)).
(** [copy]; [None] is [MPI_Abort], or a division by zero. *)
Definition expand_copy (entry : cstr) (disks : list disk) : option (list disk) :=
  master_node_old ← hash (drop xpn_path_len entry) last_size 1;
  master_node_new ← hash (drop xpn_path_len entry) size 1;
  old ← rdZ disks master_node_old;
  mdata ← read_mdata entry old;
  mdata' ← expand_mdata mdata size;
  mapM (λ p, write_mdata entry mdata' (holds_copy master_node_new (replication_level mdata) size p.1) p.2)
    (zip (seqZ 0 size) disks).

(** What the process of the master reads in a directory, in some order. *)
Definition readdir_of (dir_name : cstr) (d : disk) : list cstr :=
  filter (λ p, p ≠ [] ∧ parent p = dir_name) (elements (dom (disk_files d) ∪ disk_dirs d)).
(** [list]: the master broadcasts each entry, and every process follows it into the
    directory or copies the file.  [None] is also a directory that the master
    cannot open, for whose entries the others wait. *)
Fixpoint expand_list (fuel : nat) (dir_name : cstr) (disks : list disk) : option (list disk) :=
  match fuel with
  | O => None
  | S fuel =>
    master_node ← hash (drop xpn_path_len dir_name) last_size 1;
    d ← rdZ disks master_node;
    if bool_decide (dir_name ∈ disk_dirs d) then
      foldl (λ acc path,
          disks ← acc;
          d ← rdZ disks master_node;
          if bool_decide (path ∈ disk_dirs d) then expand_list fuel path disks else expand_copy path disks)
        (Some disks) (readdir_of dir_name d)
    else None
  end.
End expand.
