(* ===== verification/ExpandSpec.v ===== *)
(** * ExpandSpec: a file is where its metadata says, before and after an expansion

    [kept] is what a partition promises about a file: the processes that keep its
    metadata have it, and every byte of the file is on every server that the
    metadata gives for it. *)

From S2P Require Import Prelude Cstr Paths Layout Mdata Client MemFs FileTable Blocks Rw Affected Bytes Header Migrate MigrateSpec Expand.

Definition has_file (disks : list disk) (entry : cstr) (s : Z) (f : list ascii) : Prop :=
  ∃ d, rdZ disks s = Some d ∧ disk_files d !! entry = Some f.
Record kept (n : Z) (name entry : cstr) (disks : list disk) (m : xpn_metadata) (data : list ascii) : Prop := {
  kp_header i : 0 <= i <= replication_level m →
    ∃ h rest, hash name n 1 = Some h ∧ has_file disks entry ((h + i) mod n) (mdata_bytes m ++ rest);
  kp_byte x j : 0 <= x < Z.of_nat (length data) → 0 <= j <= replication_level m →
    ∃ off s f, XpnCalculateBlockMdata m x j 0 0 = Some (off, s) ∧ 0 <= off ∧ has_file disks entry s f ∧
      f !! Z.to_nat (off + HEADER_SIZE) = data !! Z.to_nat x }.

(** The files that xpn_preload leaves are kept. *)
Lemma read_at_byte f o n k : 0 <= o → 0 <= k < n → read_at f o n !! Z.to_nat k = f !! Z.to_nat (o + k).
Proof. intros Ho Hk. unfold read_at. rewrite lookup_take_lt, lookup_drop by lia. f_equal. lia. Qed.
Lemma own_lookup n fn s t : 0 < n → (t + fn) mod n = s → own n fn s t = true.
Proof. intros Hn E. unfold own. by apply Z.eqb_eq. Qed.
Lemma stored_byte n rl fn bs s d hdr x j : 0 < n → 0 <= rl < n → 0 < bs → Z.of_nat (length hdr) = HEADER_SIZE → 0 <= x < Z.of_nat (length d) → 0 <= j <= rl →
  (x / bs * (rl + 1) + j + fn) mod n = s →
  stored_file n rl fn bs s d hdr !! Z.to_nat ((x / bs * (rl + 1) + j) / n * bs + x mod bs + HEADER_SIZE) = d !! Z.to_nat x.
Proof.
  intros Hn Hrl Hbs Hhdr Hx Hj Hs. assert (0 <= s < n) as Hsr by (subst s; by apply Z.mod_pos_bound).
  zdm x bs. set (b := x / bs) in *. set (k := x mod bs) in *. assert (0 <= b) by (apply Z.div_pos; lia).
  pose proof (own_lookup n fn s (slot rl b j) Hn Hs) as Ho.
  destruct (own_slot n fn s Hn Hsr _ Ho) as (_ & Erow & _). unfold slot in Erow.
  assert (0 <= (b * (rl + 1) + j) / n) as Hr0 by (apply Z.div_pos; nia).
  assert (b < blocks bs d) as Hbl by (apply blocks_iff; [lia|unfold len; nia]).
  pose proof (read_block n rl fn bs s d hdr Hn Hrl Hbs Hsr Hhdr b j ltac:(lia) Hj Ho) as ER.
  apply (f_equal (lookup (Z.to_nat k))) in ER. unfold slot, block in ER. rewrite Erow, !read_at_byte in ER by (unfold HEADER_SIZE; nia).
  etransitivity; [|etransitivity; [exact ER|]]; f_equal; lia.
Qed.
Lemma stored_byte_kept n rl fn bs name entry disks m d hdr :
  expanded m 1 → block_size m = bs ∧ replication_level m = rl ∧ first_node m = fn ∧ nv m 0 = n → 0 <= rl < n →
  Z.of_nat (length d) * (rl + 1) < 2 ^ 62 → hash name n 1 = Some fn →
  (∀ s, Z.of_nat (length (hdr s)) = HEADER_SIZE) →
  (∀ s, 0 <= s < n → has_file disks entry s (stored_file n rl fn bs s d (hdr s))) →
  (∀ i, 0 <= i <= rl → ∃ rest, hdr ((fn + i) mod n) = mdata_bytes m ++ rest) →
  kept n name entry disks m d.
Proof.
  intros Hm Em Hrl H62 Hh Hhdr Hf Hmd. destruct Em as (Eb & Er & Ef & En). pose proof (ex_nv m 1 Hm 0 ltac:(lia)) as Hn. rewrite En in Hn.
  destruct (ex_bs m 1 Hm) as [Hbs _]. rewrite Eb in Hbs. split.
  - intros i Hi. rewrite Er in Hi. destruct (Hmd i Hi) as [rest E]. eexists fn, (rest ++ _). split; [done|].
    rewrite (assoc_L (++)), <- E. apply Hf, Z.mod_pos_bound. lia.
  - intros x j Hx Hj. rewrite Er in Hj. pose proof (mdata_exact m 1 Hm x j ltac:(lia) ltac:(rewrite Er; nia) ltac:(lia) 0 0) as Ex.
    unfold mloc in Ex. assert (seg_of m (x / block_size m) 1 = 0%nat) as Es by (by cbn [seg_of]). rewrite Es in Ex. cbn [seg_start] in Ex.
    rewrite Z.mul_0_l, Z.sub_0_r, Z.sub_diag, Z.mul_0_l, Z.add_0_r in Ex.
    unfold ly_off, ly_serv, ly_slot, mlay in Ex. cbn [ly_bs ly_rl ly_n ly_fn] in Ex. rewrite Eb, Er, Ef, En in Ex.
    assert (0 <= x / bs) by (apply Z.div_pos; lia). pose proof (Z.mod_pos_bound x bs ltac:(lia)).
    eexists _, _, _. split; [exact Ex|]. split; [|split; [apply Hf, Z.mod_pos_bound; lia|apply stored_byte; [lia|done|lia|done|done|done|done]]].
    assert (0 <= (x / bs * (rl + 1) + j) / n) by (apply Z.div_pos; nia). nia.
Qed.

Lemma write_at_0 f d : d ≠ [] → write_at f 0 d = d ++ drop (length d) f.
Proof.
  intros Hd. unfold write_at. destruct d as [|a d]; [done|]. unfold splice.
  change (Z.to_nat 0) with 0%nat. cbn [Nat.sub replicate]. by rewrite app_nil_r.
Qed.
Lemma write_at_past f d k x : (length d <= k)%nat → f !! k = Some x → write_at f 0 d !! k = Some x.
Proof. intros Hk Hx. unfold write_at. destruct d as [|a d]; [done|]. apply splice_outside; [lia|done]. Qed.

Lemma holds_copy_at h rl n i : 0 <= h < n → n < 2 ^ 30 → 0 <= i <= rl → rl < 2 ^ 30 → holds_copy h rl n ((h + i) mod n) = true.
Proof.
  intros Hh Hn Hi Hrl. unfold holds_copy. apply existsb_exists. exists i. split; [apply list_elem_of_In, elem_of_seqZ; lia|].
  rewrite i32_id, Z.rem_mod_nonneg by lia. apply Z.eqb_refl.
Qed.

Lemma read_at_mdata m rest junk : mdata_in_range m →
  let bytes := read_at (mdata_bytes m ++ rest) 0 SIZEOF_MDATA in bytes ++ drop (length bytes) junk = mdata_bytes m ++ drop (length (mdata_bytes m)) junk.
Proof.
  intros [[M1 _] _ _ [N1 _] [O1 _]]. pose proof (mdata_bytes_length m M1 N1 O1) as Hl. cbv zeta.
  assert (read_at (mdata_bytes m ++ rest) 0 SIZEOF_MDATA = mdata_bytes m) as ->; [|done].
  unfold read_at. change (Z.to_nat 0) with 0%nat. rewrite drop_0, <- Hl, Nat2Z.id. by rewrite take_app_length.
Qed.

Lemma mdata_bytes_nonempty m : mdata_in_range m → mdata_bytes m ≠ [].
Proof. intros [[M1 _] _ _ [N1 _] [O1 _]] E. pose proof (mdata_bytes_length m M1 N1 O1) as Hl. by rewrite E in Hl. Qed.

Section expand.
Context (plen : nat) (size last_size : Z) (junk : list ascii) (entry : cstr).

(** Every process ends up with the file, with the new header or as it was. *)
Lemma write_all m' h rl disks :
  (∀ k d, disks !! k = Some d → is_Some (disk_files d !! entry) ∨ parent entry ∈ disk_dirs d) →
  Z.of_nat (length disks) = size →
  ∃ disks', mapM (λ p, write_mdata entry m' (holds_copy h rl size p.1) p.2) (zip (seqZ 0 size) disks) = Some disks' ∧
    length disks' = length disks ∧
    ∀ k d, disks !! k = Some d → ∃ d' f, disks' !! k = Some d' ∧
      f = default [] (disk_files d !! entry) ∧ disk_dirs d' = disk_dirs d ∧
      disk_files d' = <[entry := if holds_copy h rl size (Z.of_nat k) then write_at f 0 (mdata_bytes m') else f]> (disk_files d).
Proof.
  intros Hd Hlen.
  set (w := λ p : Z * disk, let f := default [] (disk_files p.2 !! entry) in
    Disk (<[entry := if holds_copy h rl size p.1 then write_at f 0 (mdata_bytes m') else f]> (disk_files p.2)) (disk_dirs p.2)).
  exists (w <$> zip (seqZ 0 size) disks). split; [|split].
  - apply mapM_Some. apply Forall2_fmap_r, Forall_Forall2_diag, Forall_lookup. intros k [z d] Hk.
    apply lookup_zip_with_Some in Hk as (z' & d' & E & _ & Hk). injection E as <- <-. unfold write_mdata, w, compose. cbn [fst snd].
    destruct (Hd k d Hk) as [[f Hf]|Hp]; [by rewrite Hf|]. rewrite (bool_decide_true _ Hp). by destruct (disk_files d !! entry).
  - rewrite length_fmap, length_zip_with, length_seqZ. lia.
  - intros k d Hk. eexists _, _. split; [|split; [done|]].
    + rewrite list_lookup_fmap. erewrite (proj2 (lookup_zip_with_Some _ _ _ _ _)); [reflexivity|].
      exists (Z.of_nat k), d. split_and!; [done| |done]. apply lookup_seqZ. apply lookup_lt_Some in Hk. lia.
    + done.
Qed.
End expand.

(** The metadata after an expansion is in the range of its fields. *)
Lemma after_range m c size : expanded m c → (c < 38)%nat → mdata_in_range m → size < 2 ^ 30 → nv m (pred c) < size →
  ov m (pred c) < limit_blocks m (nv m (pred c)) < 2 ^ 31 - 1 → mdata_in_range (after_expand m c size).
Proof.
  intros Hm Hc [[? ?] ? ? [N1 N2] [O1 O2]] Hs Hn HL. pose proof (ex_nv m c Hm (pred c)) as Hp. pose proof (ov_nonneg m c Hm (pred c)) as Ho.
  destruct (ex_c m c Hm). split; [done|done|done| |]; cbn [after_expand data_nserv offsets]; rewrite length_insert; (split; [done|]);
    apply Forall_insert; first [done | lia].
Qed.
Lemma name_bound (h n i : Z) : 0 <= h < n → 0 <= (h + i) mod n < n.
Proof. intros. apply Z.mod_pos_bound. lia. Qed.


(** Twelve bytes on two servers; a third one has only the directory. *)
Definition grown_mdata : xpn_metadata := XpnMetadata XPN_MAGIC_NUMBER 1 0 4 12 0 1 1 (2 :: replicate 39 0) (replicate 40 0).
Definition grown_hdr (s : Z) : list ascii :=
  if s =? 1 then mdata_bytes grown_mdata ++ replicate (Z.to_nat (HEADER_SIZE - SIZEOF_MDATA)) NUL else replicate (Z.to_nat HEADER_SIZE) NUL.
Definition grown_disks : list disk :=
  [Disk {[str "/m/g" := stored_file 2 0 1 4 0 (str "twelve bytes") (grown_hdr 0)]} {[str "/m"]};
   Disk {[str "/m/g" := stored_file 2 0 1 4 1 (str "twelve bytes") (grown_hdr 1)]} {[str "/m"]};
   Disk ∅ {[str "/m"]}].
Lemma grown_expanded : expanded grown_mdata 1.
Proof.
  split; try (cbn; lia).
  - intros [|k] Hk; cbn; lia.
  - intros [|k] Hk; [lia|]. apply (nth_replicate_eq k 39).
  - intros [|k] Hk; [lia|]. apply (nth_replicate_eq (S k) 40).
Qed.
Lemma grown_kept : kept 2 (str "/g") (str "/m/g") grown_disks grown_mdata (str "twelve bytes").
Proof.
  apply (stored_byte_kept 2 0 1 4 _ _ _ _ _ grown_hdr grown_expanded); [done|lia|by vm_compute|by vm_compute| | |].
  - intros s. unfold grown_hdr. destruct (s =? 1); rewrite ?length_app, length_replicate; by vm_compute.
  - intros s Hs. assert (s = 0 ∨ s = 1) as [-> | ->] by lia; eexists; (split; [reflexivity|apply lookup_singleton_eq]).
  - intros i Hi. assert (i = 0) as -> by lia. eexists. reflexivity.
Qed.
