(* ===== verification/TraverseSpec.v ===== *)
(** * TraverseSpec: the directories that xpn_expand does not create

    xpn_expand creates the files that the new servers lack, and no directory. *)

From S2P Require Import Prelude Cstr Paths Layout Mdata Client Header Migrate Expand.

(** What a run does to the processes: directories stay, files stay, and a new file is
    in a directory that was there. *)
Record grows (D D' : list disk) : Prop := {
  gr_disk k d : D !! k = Some d → ∃ d', D' !! k = Some d' ∧ disk_dirs d' = disk_dirs d ∧ dom (disk_files d) ⊆ dom (disk_files d') ∧
    ∀ p, p ∈ dom (disk_files d') → p ∈ dom (disk_files d) ∨ parent p ∈ disk_dirs d;
  gr_length : length D' = length D }.
#[export] Instance grows_preorder : PreOrder grows.
Proof.
  split.
  - intros D. split; [|done]. intros k d Hk. exists d. split_and!; [done..|by left].
  - intros D1 D2 D3 [H12 L12] [H23 L23]. split; [|congruence]. intros k d Hk.
    destruct (H12 k d Hk) as (d2 & Hk2 & E2 & S2 & P2), (H23 k d2 Hk2) as (d3 & Hk3 & E3 & S3 & P3). exists d3.
    split_and!; [done|congruence|set_solver|]. intros p [Hp|Hp]%P3; [by apply P2|right; congruence].
Qed.
Lemma grows_rd D D' s d : grows D D' → rdZ D s = Some d → ∃ d', rdZ D' s = Some d' ∧ disk_dirs d' = disk_dirs d ∧ dom (disk_files d) ⊆ dom (disk_files d').
Proof.
  intros H (Hs & Hk)%rdZ_lookup. destruct (gr_disk _ _ H _ _ Hk) as (d' & Hk' & ? & ? & _). exists d'. split; [by apply rdZ_lookup|done].
Qed.

Section traverse.
Context (plen : nat) (size last_size : Z) (junk : list ascii).

Lemma write_mdata_grows e m b d d' : write_mdata e m b d = Some d' →
  disk_dirs d' = disk_dirs d ∧ dom (disk_files d) ⊆ dom (disk_files d') ∧ (∀ p, p ∈ dom (disk_files d') → p ∈ dom (disk_files d) ∨ parent p ∈ disk_dirs d) ∧
  (e ∈ dom (disk_files d) ∨ parent e ∈ disk_dirs d).
Proof.
  unfold write_mdata. intros (file & Ef & [= <-])%bind_Some. cbn [disk_files disk_dirs].
  assert (e ∈ dom (disk_files d) ∨ parent e ∈ disk_dirs d) as He.
  { destruct (disk_files d !! e) eqn:E; [left; by eapply elem_of_dom_2|]. destruct (bool_decide_reflect (parent e ∈ disk_dirs d)); [by right|done]. }
  split_and!; [done|set_solver| |done]. intros p Hp. rewrite dom_insert in Hp. set_solver.
Qed.
Lemma expand_copy_grows e D D' : expand_copy plen size last_size junk e D = Some D' → Z.of_nat (length D) = size →
  grows D D' ∧ ∀ k d, D !! k = Some d → e ∈ dom (disk_files d) ∨ parent e ∈ disk_dirs d.
Proof.
  unfold expand_copy. intros (h0 & _ & (h1 & _ & (o & _ & (m & _ & (m' & _ & HF%mapM_Some)%bind_Some)%bind_Some)%bind_Some)%bind_Some)%bind_Some Hlen.
  assert (∀ k d, D !! k = Some d → ∃ d' b, D' !! k = Some d' ∧ write_mdata e m' b d = Some d') as H.
  { intros k d Hk. edestruct (Forall2_lookup_l _ _ _ k (Z.of_nat k, d) HF) as (d' & Hk' & Hw).
    - apply lookup_zip_with_Some. exists (Z.of_nat k), d. split_and!; [done| |done]. apply lookup_seqZ. apply lookup_lt_Some in Hk. lia.
    - by eexists d', _. }
  split; [split|].
  - intros k d Hk. destruct (H k d Hk) as (d' & b & Hk' & Hw). apply write_mdata_grows in Hw as (? & ? & ? & _). by exists d'.
  - apply Forall2_length in HF. rewrite length_zip_with, length_seqZ in HF. lia.
  - intros k d Hk. destruct (H k d Hk) as (d' & b & _ & Hw). by apply write_mdata_grows in Hw as (_ & _ & _ & ?).
Qed.

(** The entries that are left of a directory. *)
Definition entries_from (fuel : nat) (master_node : Z) (l : list cstr) (acc : option (list disk)) : option (list disk) :=
  foldl (λ acc path,
      disks ← acc;
      d ← rdZ disks master_node;
      if bool_decide (path ∈ disk_dirs d) then expand_list plen size last_size junk fuel path disks
      else expand_copy plen size last_size junk path disks) acc l.
Lemma entries_none fuel s l : entries_from fuel s l None = None.
Proof. by induction l. Qed.
Lemma expand_list_grows fuel : ∀ dir D D', expand_list plen size last_size junk fuel dir D = Some D' → Z.of_nat (length D) = size → grows D D'.
Proof.
  induction fuel as [|fuel IH]; intros dir D D' E Hlen; [done|]. cbn [expand_list] in E.
  apply bind_Some in E as (s & _ & (d & _ & E)%bind_Some). destruct (bool_decide _); [|done]. fold (entries_from fuel s) in E.
  revert D E Hlen. induction (readdir_of dir d) as [|p l IHl]; intros D E Hlen; [by injection E as ->|].
  change (entries_from fuel s l (d ← rdZ D s; if bool_decide (p ∈ disk_dirs d) then expand_list plen size last_size junk fuel p D
    else expand_copy plen size last_size junk p D) = Some D') in E.
  destruct (d' ← rdZ D s; _) as [D1|] eqn:E1; [|by rewrite entries_none in E].
  apply bind_Some in E1 as (d1 & _ & E1). assert (grows D D1) as H1 by (case_bool_decide; [by eapply IH|by eapply expand_copy_grows]).
  etransitivity; [exact H1|]. apply (IHl D1 E). rewrite (gr_length _ _ H1). done.
Qed.

(** The directories that a traversal enters. *)
Inductive reached (D : list disk) : cstr → cstr → Prop :=
| reached_here dir : reached D dir dir
| reached_below dir s d p sub :
    hash (drop plen dir) last_size 1 = Some s → rdZ D s = Some d → p ∈ readdir_of dir d → p ∈ disk_dirs d → reached D p sub → reached D dir sub.
Lemma readdir_grows dir d d' p : disk_dirs d' = disk_dirs d → dom (disk_files d) ⊆ dom (disk_files d') → p ∈ readdir_of dir d → p ∈ readdir_of dir d'.
Proof. unfold readdir_of. rewrite !list_elem_of_filter, !elem_of_elements. set_solver. Qed.
Lemma reached_grows D D' dir sub : grows D D' → reached D dir sub → reached D' dir sub.
Proof.
  intros HG. induction 1 as [dir|dir s d p sub Hs Hd Hp Hdir _ IH]; [constructor|].
  destruct (grows_rd _ _ s d HG Hd) as (d' & Hd' & E & S). eapply reached_below; [done|done|by eapply readdir_grows|by rewrite E|done].
Qed.

(** One entry is enough to stop a directory. *)
Lemma entry_stops fuel s p l D :
  Z.of_nat (length D) = size → p ∈ l →
  (∀ D', grows D D' → Z.of_nat (length D') = size →
    (d ← rdZ D' s; if bool_decide (p ∈ disk_dirs d) then expand_list plen size last_size junk fuel p D' else expand_copy plen size last_size junk p D') = None) →
  entries_from fuel s l (Some D) = None.
Proof.
  revert D. induction l as [|q l IH]; intros D Hlen Hp Hstop; [set_solver|].
  change (entries_from fuel s l (d ← rdZ D s; if bool_decide (q ∈ disk_dirs d) then expand_list plen size last_size junk fuel q D
    else expand_copy plen size last_size junk q D) = None).
  destruct (decide (p = q)) as [<-|Hne]; [rewrite (Hstop D) by done; apply entries_none|].
  destruct (d ← rdZ D s; _) as [D1|] eqn:E1; [|apply entries_none].
  apply bind_Some in E1 as (d1 & _ & E1).
  assert (grows D D1) as H1 by (case_bool_decide; [by eapply expand_list_grows|by eapply expand_copy_grows]).
  apply IH; [by rewrite (gr_length _ _ H1)|set_solver|]. intros D' H2. apply Hstop. by etransitivity.
Qed.

Lemma missing_stops dir sub D s d p k dk fuel :
  Z.of_nat (length D) = size → reached D dir sub →
  hash (drop plen sub) last_size 1 = Some s → rdZ D s = Some d → p ∈ readdir_of sub d → p ∉ disk_dirs d →
  D !! k = Some dk → p ∉ dom (disk_files dk) → sub ∉ disk_dirs dk →
  expand_list plen size last_size junk fuel dir D = None.
Proof.
  intros Hlen HR Hs Hd Hp Hnd Hk Hnf Hns. revert dir D d dk HR Hlen Hd Hp Hnd Hk Hnf Hns.
  induction fuel as [|fuel IH]; intros dir D d dk HR Hlen Hd Hp Hnd Hk Hnf Hns; [done|]. cbn [expand_list].
  revert Hlen. inversion HR as [d1 E1 E2|d1 s0 d0 q sub1 Hs0 Hd0 Hq Hqd HR1 E1 E2]; subst; intros Hlen; clear HR; [|rename HR1 into HR].
  - rewrite Hs. cbn [mbind option_bind]. rewrite Hd. cbn [mbind option_bind]. case_bool_decide; [|done].
    apply (entry_stops fuel s p); [done|done|]. intros D' HG Hlen'. destruct (grows_rd _ _ s d HG Hd) as (d' & -> & Edir & _). cbn [mbind option_bind].
    rewrite Edir, bool_decide_false by done. destruct (expand_copy _ _ _ _ _ _) as [D2|] eqn:E2; [|done]. exfalso.
    apply expand_copy_grows in E2 as [_ HA]; [|done]. destruct (gr_disk _ _ HG k dk Hk) as (dk' & Hk' & Edk & _ & Hnew).
    assert (parent p = sub) as Hpar by (by apply list_elem_of_filter in Hp as [[_ ?] _]). rewrite <- Hpar in Hns.
    destruct (HA k dk' Hk') as [[?|?]%Hnew|Hx]; [done|done|by rewrite Edk in Hx].
  - rewrite Hs0. cbn [mbind option_bind]. rewrite Hd0. cbn [mbind option_bind]. case_bool_decide; [|done].
    apply (entry_stops fuel s0 q); [done|done|]. intros D' HG Hlen'. destruct (grows_rd _ _ s0 d0 HG Hd0) as (d0' & -> & E0 & _). cbn [mbind option_bind].
    rewrite E0, bool_decide_true by done. destruct (grows_rd _ _ s d HG Hd) as (d' & Hd' & Ed & Sd).
    destruct (gr_disk _ _ HG k dk Hk) as (dk' & Hk' & Edk & _ & Hnew).
    assert (parent p = sub) as Hpar by (by apply list_elem_of_filter in Hp as [[_ ?] _]).
    apply (IH q D' d' dk'); [by eapply reached_grows|done|done|by eapply readdir_grows|by rewrite Ed|done| |by rewrite Edk].
    intros [?|?]%Hnew; [done|]. by rewrite Hpar in *.
Qed.
End traverse.


(** The directory [/m/s] with a file on a server, and a new server without it. *)
Definition nested_disks : list disk :=
  [Disk {[str "/m/s/f" := str "data"]} {[str "/m"; str "/m/s"]}; Disk ∅ {[str "/m"]}].
Lemma nested_listed : str "/m/s/f" ∈ readdir_of (str "/m/s") (nth 0 nested_disks (Disk ∅ ∅)) ∧ str "/m/s" ∈ readdir_of (str "/m") (nth 0 nested_disks (Disk ∅ ∅)).
Proof. by split; apply list_elem_of_In; vm_compute; repeat (first [by left | right]). Qed.
Lemma nested_reached : reached 2 1 nested_disks (str "/m") (str "/m/s").
Proof.
  eapply (reached_below _ _ _ _ 0 _ (str "/m/s")); [by vm_compute|reflexivity|apply nested_listed|by vm_compute|constructor].
Qed.
