(* ===== verification/Shrink.v ===== *)
(** * Shrink: a partition that gets fewer servers

    src/src/utils/xpn_shrink.c, an MPI program with a process on every server.  For
    each file, the processes compute the new metadata together ([shrink_mdata]); the
    ones of the servers that leave read their blocks and send each of them to the
    process of the server that the new metadata gives for it, which writes it.  A
    writer receives from any source, so the moves are a transition system; the
    messages from one process to another arrive in order. *)

From S2P Require Import Prelude Cstr Paths Layout Mdata Header Migrate Expand.

(** ** The new metadata *)

Definition is_prev_first_node (first_node node nserv : Z) : bool :=
  ((first_node =? 0) && (node =? nserv ⊟ 1)) || (negb (first_node =? 0) && (node =? first_node ⊟ 1)).
(** The last block of the configuration: [actual_last_block] goes on until the
    server before the first one comes up for the second time. *)
Fixpoint last_block (m : xpn_metadata) (prev_nserv : Z) (k : nat) (actual_last_block replication counter : Z) : option Z :=
  match k with
  | O => Some actual_last_block
  | S k =>
    '(_, aux_serv) ← XpnCalculateBlockMdata m (actual_last_block ⊗ block_size m) replication 0 0;
    let hit := is_prev_first_node (first_node m) aux_serv prev_nserv in
    if hit && (counter =? 1) then Some actual_last_block
    else
      let counter := if hit then counter ⊞ 1 else counter in
      let replication := replication ⊞ 1 in
      if replication_level m <? replication then last_block m prev_nserv k (actual_last_block ⊞ 1) 0 counter
      else last_block m prev_nserv k actual_last_block replication counter
  end.
(** The place of the last block of the server that leaves. *)
Fixpoint last_of_server (m : xpn_metadata) (leaving : Z) (k : nat) (aux_actual_last_block replication local_offset : Z) : option Z :=
  match k with
  | O => Some local_offset
  | S k =>
    '(local_offset, aux_serv) ← XpnCalculateBlockMdata m (aux_actual_last_block ⊗ block_size m) replication 0 0;
    let replication := replication ⊟ 1 in
    let '(aux_actual_last_block, replication) :=
      if replication <? 0 then (aux_actual_last_block ⊟ 1, replication_level m) else (aux_actual_last_block, replication) in
    if aux_serv =? leaving then Some local_offset
    else last_of_server m leaving k aux_actual_last_block replication local_offset
  end.

Section mdata.
(** [pos_in_shrink] of each process: its place in the list of servers that leave, or -1. *)
Context (size new_size : Z) (pos_in_shrink : list Z).

(** The process of the server that leaves in this turn ([MPI_Allreduce]), and the
    numbers of the processes after it. *)
Definition leaver (current_serv : Z) : Z :=
  foldr Z.max (-1) (zip_with (λ rank p, if current_serv =? p then rank else -1) (seqZ 0 size) pos_in_shrink).
Definition renumber (rank_bcast : Z) (trans_rank : list Z) : list Z :=
  zip_with (λ rank t, if rank_bcast <? rank then t ⊟ 1 else if rank =? rank_bcast then -1 else t) (seqZ 0 size) trans_rank.
(** The [for] over the configurations of the metadata. *)
Fixpoint shrink_confs (k : nat) (i : Z) (m : xpn_metadata) (actual_last_block : Z) (trans_rank : list Z) (current_serv times_do_it : Z)
    : option (xpn_metadata * list Z) :=
  match k with
  | O => Some (m, trans_rank)
  | S k =>
    di ← rdZ (data_nserv m) i;
    if (di =? 0) && (i + 1 <? XPN_METADATA_MAX_RECONSTURCTIONS) then
      let rank_bcast := leaver current_serv in
      prev_block ← rdZ (data_nserv m) (i - 1);
      prev_nserv ← (if prev_block <? 0 then rdZ (data_nserv m) (i - 2) else Some prev_block);
      let actual_last_block := (if actual_last_block <? prev_block then prev_block else actual_last_block) ⊞ 1 in
      actual_last_block ← last_block m prev_nserv (Z.to_nat (prev_nserv ⊠ 2)) actual_last_block 0 0;
      leaving ← rdZ trans_rank rank_bcast;
      local_offset ← last_of_server m leaving (Z.to_nat prev_nserv) actual_last_block (replication_level m) 0;
      if block_size m =? 0 then None else
      m ← set_conf m i ((leaving ⊞ 1) ⊠ (-1)) (i32 (local_offset `quot` block_size m ⊕ 1));
      m ← set_conf m (i + 1) (prev_nserv ⊟ 1) actual_last_block;
      let trans_rank := renumber rank_bcast trans_rank in
      if times_do_it ⊞ 1 =? size ⊟ new_size then Some (m, trans_rank)
      else shrink_confs k (i + 1) m actual_last_block trans_rank (current_serv ⊞ 1) (times_do_it ⊞ 1)
    else shrink_confs k (i + 1) m actual_last_block trans_rank current_serv times_do_it
  end.
Definition shrink_mdata (m : xpn_metadata) : option (xpn_metadata * list Z) :=
  if block_size m =? 0 then None
  else shrink_confs 39 1 m (i32 (file_size m `quot` block_size m)) (seqZ 0 size) 0 0.
End mdata.

(** ** What a process that leaves sends *)

Section reader.
Context (mdata new_mdata : xpn_metadata) (trans_rank_array : list Z) (rank : Z) (file : list ascii).

(** The replica of the block that the process holds: which one, and its place; the
    last ones that were computed when there is none. *)
Fixpoint shrink_replicas (offset_dest i : Z) (k : nat) (last : Z * Z) : option (Z * (Z * Z)) :=
  match k with
  | O => Some (i, last)
  | S k =>
    '(local_offset, aux_serv) ← XpnCalculateBlockMdata mdata offset_dest i (last.1) (last.2);
    if rank =? aux_serv then Some (i, (local_offset, aux_serv))
    else shrink_replicas offset_dest (i ⊞ 1) k (local_offset, aux_serv)
  end.
(** The inner loop: the next block. *)
Fixpoint shrink_search (fuel : nat) (offset_dest : Z) (last : Z * Z) : option (Z * (Z * (Z * Z))) :=
  match fuel with
  | O => None
  | S f =>
    let offset_dest := offset_dest ⊕ block_size mdata in
    r ← shrink_replicas offset_dest 0 (Z.to_nat (replication_level mdata + 1)) last;
    if rank =? r.2.2 then Some (offset_dest, r)
    else if offset_dest <? file_size mdata then shrink_search f offset_dest r.2
    else Some (offset_dest, r)
  end.
(** The first process with the number [aux_serv], or 0. *)
Fixpoint rank_to_send (aux_serv : Z) (i : nat) (l : list Z) : nat :=
  match l with
  | [] => 0
  | t :: l => if aux_serv =? t then i else rank_to_send aux_serv (S i) l
  end.
(** The messages of the process: to which one, the offset and the bytes; [None] is
    also a negative offset, which [lseek] refuses. *)
Fixpoint shrink_reader (fuel search : nat) (offset_dest : Z) (last : Z * Z) : option (list (nat * (Z * list ascii))) :=
  match fuel with
  | O => None
  | S f =>
    '(offset_dest, (replication, last)) ← shrink_search search offset_dest last;
    if negb (rank =? last.2) then shrink_reader f search offset_dest last
    else if last.1 ⊕ HEADER_SIZE <? 0 then None
    else
      match read_at file (last.1 ⊕ HEADER_SIZE) (block_size new_mdata) with
      | [] => Some []
      | buf =>
        '(offset_src, aux_serv) ← XpnCalculateBlockMdata new_mdata offset_dest replication 0 0;
        rest ← shrink_reader f search offset_dest (last.1, aux_serv);
        Some ((rank_to_send aux_serv 0 trans_rank_array, (offset_src, buf)) :: rest)
      end
  end.
End reader.

(** ** The messages *)

Inductive shrink_msg := Block (offset : Z) (buf : list ascii) | Stop.
(** What each process that leaves has still to send; the processes that the master
    of them has still to stop; the messages on their way, by sender and receiver;
    the files; which processes have left [recv_thread]. *)
Record shrink_state := Moves {
  to_send : list (list (nat * (Z * list ascii)));
  to_stop : list nat;
  net : gmap (nat * nat) (list shrink_msg);
  files : list (list ascii);
  stopped : list bool }.
Definition in_transit (s : shrink_state) (p : nat * nat) : list shrink_msg := default [] (net s !! p).

(** [master_send_stop] is the process that stops the writers, after the barrier of those that
    leave. *)
Inductive move (master_send_stop : nat) : shrink_state → shrink_state → Prop :=
| move_send s r dst off buf rest :
    to_send s !! r = Some ((dst, (off, buf)) :: rest) →
    move master_send_stop s (Moves (<[r := rest]> (to_send s)) (to_stop s)
      (<[(r, dst) := in_transit s (r, dst) ++ [Block off buf]]> (net s)) (files s) (stopped s))
| move_stop s w ws :
    Forall (λ l, l = []) (to_send s) → to_stop s = w :: ws →
    move master_send_stop s (Moves (to_send s) ws
      (<[(master_send_stop, w) := in_transit s (master_send_stop, w) ++ [Stop]]> (net s)) (files s) (stopped s))
| move_write s src w off buf q f :
    in_transit s (src, w) = Block off buf :: q → stopped s !! w = Some false → files s !! w = Some f →
    move master_send_stop s (Moves (to_send s) (to_stop s) (<[(src, w) := q]> (net s))
      (<[w := write_at f (off ⊕ HEADER_SIZE) buf]> (files s)) (stopped s))
| move_end s src w q :
    in_transit s (src, w) = Stop :: q → stopped s !! w = Some false →
    move master_send_stop s (Moves (to_send s) (to_stop s) (<[(src, w) := q]> (net s)) (files s) (<[w := true]> (stopped s))).

(** ** [copy] of a file *)

Section copy.
Context (xpn_path_len : nat) (size new_size : Z) (pos_in_shrink : list Z) (junk : list ascii).

(** The file of a process, which [open] creates. *)
Definition open_file (entry : cstr) (d : disk) : option (list ascii) :=
  match disk_files d !! entry with
  | Some f => Some f
  | None => if bool_decide (parent entry ∈ disk_dirs d) then Some [] else None
  end.
Definition master_send_stop (trans_rank_array : list Z) : nat :=
  default (length trans_rank_array) (fst <$> list_find (λ t, t = -1) trans_rank_array).
(** The search is over when there are no more blocks; the reads are, when the file is. *)
Definition shrink_fuel (mdata : xpn_metadata) : nat := Z.to_nat (file_size mdata `quot` block_size mdata + size + 3).
(** The state when the moves begin: the metadata, the numbers, and the moves. *)
Definition shrink_begin (entry : cstr) (fuel : nat) (disks : list disk) : option (xpn_metadata * list Z * shrink_state) :=
  master_node_old ← hash (drop xpn_path_len entry) size 1;
  old ← rdZ disks master_node_old;
  mdata ← read_mdata junk entry old;
  '(new_mdata, trans) ← shrink_mdata size new_size pos_in_shrink mdata;
  files ← mapM (open_file entry) disks;
  sends ← mapM (λ p, if p.1.2 =? -1 then Some [] else shrink_reader mdata new_mdata trans p.1.1 p.2 fuel (shrink_fuel mdata) (- block_size new_mdata) (0, 0))
            (zip (zip (seqZ 0 size) pos_in_shrink) files);
  Some (new_mdata, trans,
    Moves sends (List.filter (λ i, negb (default (-1) (trans !! i) =? -1)) (seq 0 (length trans))) ∅ files
      ((λ p, negb (p =? -1)) <$> pos_in_shrink)).
(** The end: who leaves unlinks the file, and who keeps the metadata writes it. *)
Definition shrink_end (entry : cstr) (new_mdata : xpn_metadata) (trans : list Z) (s : shrink_state) (disks : list disk) : option (list disk) :=
  master_node_new ← hash (drop xpn_path_len entry) new_size 1;
  Some (imap (λ k d,
    let f := default [] (files s !! k) in
    if negb (default (-1) (pos_in_shrink !! k) =? -1) then Disk (delete entry (disk_files d)) (disk_dirs d)
    else
      let has_new_mdata := holds_copy master_node_new (replication_level new_mdata) size (default (-1) (trans !! k)) in
      Disk (<[entry := if has_new_mdata then write_at f 0 (mdata_bytes new_mdata) else f]> (disk_files d)) (disk_dirs d)) disks).
End copy.
