(* ===== verification/ShrinkLayout.v ===== *)
(** * ShrinkLayout: the blocks after a server has left

    A file that was never expanded, on [n] servers of which [t] leaves.  The new
    metadata leaves the blocks of the others where they were and puts those of [t],
    by their row, on the other servers above all the rows. *)

From S2P Require Import Prelude Layout Mdata Shrink.

(** ** The place of a slot on any number of servers *)

Lemma calc_any bs rl nn x j fn :
  0 < bs < 2 ^ 31 → 0 <= rl < 2 ^ 30 → 0 < nn < 2 ^ 30 → 0 <= fn < 2 ^ 30 → 0 <= x → x * (rl + 1) < 2 ^ 62 → 0 <= j <= rl →
  XpnCalculateBlock bs rl nn x j fn = ((x / bs * (rl + 1) + j) / nn * bs + x mod bs, (x / bs * (rl + 1) + j + fn) mod nn).
Proof.
  intros Hb Hr Hn Hf Hx Hx' Hj. pose proof (calc_exact (Layout bs rl nn 0)) as H. cbn in H.
  specialize (H ltac:(split; cbn; lia) x j ltac:(split; cbn; lia) Hj).
  destruct (ly_slot_bound (Layout bs rl nn 0) ltac:(split; cbn; lia) x j ltac:(split; cbn; lia) Hj) as (H0 & _ & H2).
  unfold calc, ly_off, ly_serv, ly_slot in *. cbn [ly_bs ly_rl ly_n ly_fn] in *. set (s := x / bs * (rl + 1) + j) in *.
  unfold XpnCalculateBlock in *. rewrite (quot_div x), (rem_mod x) in * by lia.
  assert (x / bs ⊗ (rl ⊞ 1) ⊕ j = s) as Es.
  { rewrite (i32_id (rl + 1)) by lia. assert (0 <= x / bs) by (apply Z.div_pos; lia). assert (0 <= x / bs * (rl + 1)) by nia.
    rewrite (i64_id (x / bs * (rl + 1))) by (unfold s in *; lia). apply i64_id. unfold s in *; lia. }
  rewrite Es in *. f_equal; [exact (f_equal fst H)|].
  rewrite (i64_id (s + fn)), rem_mod by lia. apply i32_id. zdm (s + fn) nn. lia.
Qed.

(** ** The new metadata *)

Definition with_confs (m : xpn_metadata) (ns os : list Z) : xpn_metadata :=
  XpnMetadata (magic_number m) (version m) (type_ m) (block_size m) (file_size m) (replication_level m) (first_node m) (distribution_policy m) ns os.
Definition shrunk (m : xpn_metadata) (n t L A : Z) : xpn_metadata :=
  with_confs m (n :: - (t + 1) :: n - 1 :: replicate 37 0) (0 :: L :: A :: replicate 37 0).

Lemma foldr_max_one (l : list Z) x : -1 <= x → x ∈ l → (∀ y, y ∈ l → y <= x) → foldr Z.max (-1) l = x.
Proof.
  intros Hx Hin Hle. apply Z.le_antisymm.
  - clear Hin. induction l as [|y l IH]; cbn; [lia|]. pose proof (Hle y ltac:(by left)). specialize (IH ltac:(intros z Hz; apply Hle; by right)). lia.
  - clear Hle. induction Hin as [y l|y z l _ IH]; cbn; lia.
Qed.
Lemma set_first m n a b : data_nserv m = n :: replicate 39 0 → offsets m = replicate 40 0 →
  set_conf m 1 a b = Some (with_confs m (n :: a :: replicate 38 0) (0 :: b :: replicate 38 0)).
Proof. intros E1 E2. unfold set_conf. by rewrite E1, E2. Qed.
Lemma set_second m n a b c d :
  set_conf (with_confs m (n :: a :: replicate 38 0) (0 :: b :: replicate 38 0)) 2 c d = Some (with_confs m (n :: a :: c :: replicate 37 0) (0 :: b :: d :: replicate 37 0)).
Proof. done. Qed.

Section fresh.
Context (m : xpn_metadata) (n rl fn bs t : Z).
Context (Hm : expanded m 1) (Em : block_size m = bs ∧ replication_level m = rl ∧ first_node m = fn ∧ nv m 0 = n).
Context (Hn : 1 < n < 2 ^ 28) (Hrl : 0 <= rl < n) (Ht : 0 <= t < n).

Lemma fresh_lists : data_nserv m = n :: replicate 39 0 ∧ offsets m = replicate 40 0.
Proof using All.
  destruct (ex_len m 1 Hm) as [L1 L2], Em as (_ & _ & _ & E4). split.
  - apply list_eq. intros [|k].
    + pose proof (rd_nv m 1 Hm 0 ltac:(lia)) as E. rewrite rdZ_of_nat in E. by rewrite E, E4.
    + cbn [lookup list_lookup]. destruct (decide (k < 39)%nat) as [Hk|Hk].
      * pose proof (rd_nv m 1 Hm (S k) ltac:(lia)) as E. rewrite rdZ_of_nat in E. change (data_nserv m !! S k = replicate 39 0 !! k).
        rewrite E, (ex_nv0 m 1 Hm) by lia. by rewrite lookup_replicate_2.
      * change (data_nserv m !! S k = replicate 39 0 !! k). rewrite !lookup_ge_None_2; [done|rewrite length_replicate; lia|lia].
  - apply list_eq. intros k. destruct (decide (k < 40)%nat) as [Hk|Hk].
    + pose proof (rd_ov m 1 Hm k ltac:(lia)) as E. rewrite rdZ_of_nat in E. rewrite E, lookup_replicate_2 by lia.
      destruct k as [|k]; [by rewrite (ex_ov0 m 1 Hm)|by rewrite (ex_ovz m 1 Hm) by lia].
    + rewrite !lookup_ge_None_2; [done|rewrite length_replicate; lia|lia].
Qed.
Lemma fresh_place x j l0 s0 : 0 <= x → x * (rl + 1) < 2 ^ 62 → 0 <= j <= rl →
  XpnCalculateBlockMdata m x j l0 s0 = Some ((x / bs * (rl + 1) + j) / n * bs + x mod bs, (x / bs * (rl + 1) + j + fn) mod n).
Proof using All.
  intros Hx Hx' Hj. destruct Em as (E1 & E2 & E3 & E4). rewrite (mdata_exact m 1 Hm) by (rewrite ?E2; lia). f_equal.
  unfold mloc. cbn [seg_of seg_start join]. unfold ly_off, ly_serv, ly_slot, mlay. cbn [ly_bs ly_rl ly_n ly_fn]. rewrite E1, E2, E3, E4.
  rewrite Z.mul_0_l, Z.sub_0_r, Z.sub_diag, Z.mul_0_l, Z.add_0_r. done.
Qed.

(** *** The loops of the code end *)

Context (A0 : Z) (HA0 : n < A0) (HA1 : (A0 + 2 * n + 1) * bs * (rl + 1) < 2 ^ 61) (HA2 : A0 + 2 * n + 1 < 2 ^ 31).
Lemma block_offset a : 0 <= a <= A0 + 2 * n → a ⊗ block_size m = a * bs ∧ 0 <= a * bs ∧ a * bs * (rl + 1) < 2 ^ 62.
Proof using All.
  intros Ha. destruct Em as (-> & _). destruct (ex_bs m 1 Hm) as [H1 _]. destruct Em as (E1 & _). rewrite E1 in H1.
  assert (a * bs <= (A0 + 2 * n + 1) * bs) by nia. assert (a * bs * (rl + 1) <= (A0 + 2 * n + 1) * bs * (rl + 1)) by nia.
  assert (a * bs <= a * bs * (rl + 1)) by nia. split; [|nia]. apply i64_id. nia.
Qed.
Lemma last_block_runs k a rep counter :
  A0 <= a → a + Z.of_nat k <= A0 + 2 * n → 0 <= rep <= rl → 0 <= counter → counter + Z.of_nat k < 2 ^ 30 →
  ∃ A, last_block m n k a rep counter = Some A ∧ a <= A <= a + Z.of_nat k.
Proof using All.
  revert a rep counter. induction k as [|k IH]; intros a rep counter Ha Hk Hrep Hc Hck; [exists a; split; [done|lia]|]. cbn [last_block].
  destruct (block_offset a ltac:(lia)) as (-> & H1 & H2). rewrite fresh_place by lia. cbn [mbind option_bind].
  destruct (_ && (counter =? 1)) eqn:Eh; [exists a; split; [done|lia]|]. set (hit := is_prev_first_node _ _ _).
  assert (0 <= (if hit then counter ⊞ 1 else counter) <= counter + 1) as Hc' by (destruct hit; [rewrite i32_id|]; lia).
  destruct Em as (_ & E2 & _). rewrite E2, (i32_id (rep + 1)), (i32_id (a + 1)) by lia.
  destruct (Z.ltb_spec rl (rep + 1)).
  - destruct (IH (a + 1) 0 (if hit then counter ⊞ 1 else counter)) as (A & E & HA); [lia..|]. exists A. split; [exact E|lia].
  - destruct (IH a (rep + 1) (if hit then counter ⊞ 1 else counter)) as (A & E & HA); [lia..|]. exists A. split; [exact E|lia].
Qed.
Lemma last_of_runs k a rep o :
  Z.of_nat k <= a → a <= A0 + 2 * n → 0 <= rep <= rl → ∃ o', last_of_server m t k a rep o = Some o'.
Proof using All.
  revert a rep o. induction k as [|k IH]; intros a rep o Hk Ha Hrep; [by eexists|]. cbn [last_of_server].
  destruct (block_offset a ltac:(lia)) as (-> & H1 & H2). rewrite fresh_place by lia. cbn [mbind option_bind].
  destruct Em as (_ & E2 & _). rewrite E2, (i32_id (rep - 1)), (i32_id (a - 1)) by lia.
  destruct (rep - 1 <? 0) eqn:Er; cbn beta iota zeta; (destruct (_ =? t); [by eexists|]); apply IH; lia.
Qed.

(** *** The metadata of a shrink *)

Context (pos : list Z) (Hpos : length pos = Z.to_nat n) (Hpt : pos !! Z.to_nat t = Some 0) (Hpo : ∀ k p, pos !! k = Some p → k ≠ Z.to_nat t → p = -1).
Lemma leaver_is : leaver n pos 0 = t.
Proof using All.
  unfold leaver. apply foldr_max_one; [lia| |].
  - apply list_elem_of_lookup. exists (Z.to_nat t). apply lookup_zip_with_Some. exists t, 0. split; [done|]. split; [|done]. apply lookup_seqZ. lia.
  - intros y (k & E)%list_elem_of_lookup. apply lookup_zip_with_Some in E as (z & p & -> & (-> & Hz)%lookup_seqZ & Hp).
    destruct (decide (k = Z.to_nat t)) as [->|Hne]; [rewrite Hpt in Hp; injection Hp as <-; cbn; lia|].
    rewrite (Hpo k p Hp Hne). cbn. lia.
Qed.
Lemma shrink_confs_first k a trans :
  trans !! Z.to_nat t = Some t → A0 = Z.max a n + 1 → 0 <= a →
  ∃ L A, A0 <= A <= A0 + 2 * n ∧ shrink_confs n (n - 1) pos (S k) 1 m a trans 0 0 = Some (shrunk m n t (i32 L) A, renumber n t trans).
Proof using All.
  intros Htr HA Ha. destruct fresh_lists as [Ed Eo], Em as (E1 & E2 & E3 & E4). destruct (ex_bs m 1 Hm) as [Hb _]. rewrite E1 in Hb.
  cbn [shrink_confs]. rewrite Ed. change (rdZ (n :: replicate 39 0) 1) with (Some 0). change (rdZ (n :: replicate 39 0) (1 - 1)) with (Some n).
  cbn [mbind option_bind]. rewrite leaver_is. change ((0 =? 0) && (1 + 1 <? XPN_METADATA_MAX_RECONSTURCTIONS)) with true. cbv iota.
  rewrite (proj2 (Z.ltb_ge n 0)) by lia. cbn [mbind option_bind].
  assert ((if a <? n then n else a) ⊞ 1 = A0) as -> by (destruct (Z.ltb_spec a n); rewrite i32_id; lia).
  rewrite (i32_id (n * 2)) by lia. destruct (last_block_runs (Z.to_nat (n * 2)) A0 0 0) as (A & -> & HAr); [lia..|]. cbn [mbind option_bind].
  replace (rdZ trans t) with (Some t) by (symmetry; apply rdZ_lookup; split; [lia|done]). cbn [mbind option_bind].
  destruct (last_of_runs (Z.to_nat n) A rl 0) as (o & Eo'); [lia..|]. rewrite E2, Eo'. cbn [mbind option_bind]. rewrite E1. zbool.
  rewrite (set_first m n) by done. cbn [mbind option_bind]. change (1 + 1) with 2. rewrite set_second. cbn [mbind option_bind].
  rewrite (i32_id (n - (n - 1))), (i32_id (0 + 1)), (i32_id (n - 1)), (i32_id (t + 1)) by lia. rewrite (i32_id ((t + 1) * -1)) by lia. zbool.
  exists (o `quot` bs ⊕ 1), A. split; [lia|]. replace ((t + 1) * -1) with (- (t + 1)) by lia. done.
Qed.
End fresh.

(** ** Where the blocks are afterwards *)

Section place.
Context (m : xpn_metadata) (n rl fn bs t L A : Z).
Context (Em : block_size m = bs ∧ replication_level m = rl ∧ first_node m = fn).
Context (Hbs : 0 < bs < 2 ^ 31) (Hn : 1 < n < 2 ^ 28) (Hrl : 0 <= rl < n) (Hfn : 0 <= fn < n) (Ht : 0 <= t < n).
Context (HA : 0 <= A < 2 ^ 31) (HA' : (A + 2) * bs * (rl + 2) < 2 ^ 61).
Abbreviation M := (shrunk m n t L A).

Lemma rd_shrunk : rdZ (data_nserv M) 0 = Some n ∧ rdZ (data_nserv M) 1 = Some (- (t + 1)) ∧ rdZ (data_nserv M) 2 = Some (n - 1) ∧ rdZ (data_nserv M) 3 = Some 0 ∧
  rdZ (offsets M) 0 = Some 0 ∧ rdZ (offsets M) 2 = Some A.
Proof using Type. done. Qed.
Lemma substract_first arr srv loc : substract_offset M arr srv loc 1 = Some loc.
Proof using Hn.
  cbn [substract_offset]. change (rdZ (data_nserv M) (Z.of_nat 0)) with (Some n). cbn [mbind option_bind]. rewrite (proj2 (Z.eqb_neq n 0)) by lia.
  by change (is_shrink M (Z.of_nat 0)) with (Some false).
Qed.
Lemma greatter_first : greatter_shrink (data_nserv M) = true.
Proof using Hn Ht.
  cbn. rewrite (proj2 (Z.eqb_neq n 0)), (proj2 (Z.ltb_ge n 0)), (proj2 (Z.eqb_neq (- (t + 1)) 0)), (proj2 (Z.ltb_lt (- (t + 1)) 0)) by lia. done.
Qed.
Lemma calc_shrunk nn x j : 0 < nn < 2 ^ 30 → 0 <= x → x * (rl + 1) < 2 ^ 62 → 0 <= j <= rl →
  calc_mdata M nn x j = Some ((x / bs * (rl + 1) + j) / nn * bs + x mod bs, (x / bs * (rl + 1) + j + fn) mod nn).
Proof using All.
  intros Hnn Hx Hx' Hj. destruct Em as (E1 & E2 & E3). unfold calc_mdata. cbn [shrunk with_confs block_size replication_level first_node].
  rewrite E1, E2, E3, (i32_id bs) by lia. zbool. by rewrite calc_any by lia.
Qed.

(** The first byte above all the rows. *)
Definition top : Z := ((A * (rl + 1) + rl) / n + 1) * bs.
Definition new_slot (x j : Z) : Z := (x / bs * (rl + 1) + j) / n * (rl + 1) + j.
Definition new_place (x j : Z) : Z * Z :=
  let o := (x / bs * (rl + 1) + j) / n * bs + x mod bs in
  let s := (x / bs * (rl + 1) + j + fn) mod n in
  if s =? t then (new_slot x j / (n - 1) * bs + x mod bs + top, (new_slot x j + fn) mod (n - 1)) else (o, if t <? s then s - 1 else s).

Context (x j : Z) (Hx : 0 <= x) (Hxa : x / bs <= A) (Hj : 0 <= j <= rl).
Let o := (x / bs * (rl + 1) + j) / n * bs + x mod bs.
Let s := (x / bs * (rl + 1) + j + fn) mod n.
Lemma place_bounds : 0 <= x / bs ∧ x < (A + 1) * bs ∧ 0 <= o < (A + 2) * bs ∧ 0 <= s < n ∧ o / bs = (x / bs * (rl + 1) + j) / n ∧ o mod bs = x mod bs ∧ 0 <= top <= (A + 2) * bs.
Proof using All.
  clear HA'. zdm x bs. assert (0 <= x / bs) by (apply Z.div_pos; lia). unfold o, s, top. set (q := x / bs) in *.
  assert (0 <= q * (rl + 1) + j < (A + 1) * n) as Hs.
  { assert (0 <= q * (rl + 1)) by nia. assert (q * (rl + 1) <= A * (rl + 1)) by (apply Z.mul_le_mono_nonneg_r; lia).
    assert ((A + 1) * (rl + 1) <= (A + 1) * n) by (apply Z.mul_le_mono_nonneg_l; lia). lia. }
  assert (0 <= A * (rl + 1) + rl < (A + 1) * n) as Ha.
  { assert (0 <= A * (rl + 1)) by (apply Z.mul_nonneg_nonneg; lia). assert ((A + 1) * (rl + 1) <= (A + 1) * n) by (apply Z.mul_le_mono_nonneg_l; lia). lia. }
  assert (0 <= (q * (rl + 1) + j) / n < A + 1) by (split; [apply Z.div_pos; lia|apply Z.div_lt_upper_bound; lia]).
  assert (0 <= (A * (rl + 1) + rl) / n < A + 1) by (split; [apply Z.div_pos; lia|apply Z.div_lt_upper_bound; lia]).
  set (r := (q * (rl + 1) + j) / n) in *. set (k := (A * (rl + 1) + rl) / n) in *.
  assert (0 <= r * bs <= A * bs) by (split; [apply Z.mul_nonneg_nonneg|apply Z.mul_le_mono_nonneg_r]; lia).
  assert (0 <= (k + 1) * bs <= (A + 1) * bs) by (split; [apply Z.mul_nonneg_nonneg|apply Z.mul_le_mono_nonneg_r]; lia).
  assert (bs * q <= bs * A) by (apply Z.mul_le_mono_nonneg_l; lia).
  pose proof (Z.mod_pos_bound (q * (rl + 1) + j + fn) n ltac:(lia)). split_and!; try lia.
  - rewrite Z.div_add_l by lia. rewrite (Z.div_small (x mod bs)) by lia. lia.
  - rewrite Z.add_comm, Z.mod_add by lia. apply Z.mod_mod. lia.
Qed.

Lemma size_bounds : x * (rl + 1) < 2 ^ 62 ∧ o * (rl + 1) < 2 ^ 62.
Proof using All.
  destruct place_bounds as (B1 & B2 & B3 & _).
  assert ((A + 2) * bs * (rl + 1) <= (A + 2) * bs * (rl + 2)) by (apply Z.mul_le_mono_nonneg_l; lia).
  split; (eapply Z.le_lt_trans; [apply (Z.mul_le_mono_nonneg_r _ ((A + 2) * bs)); lia|lia]).
Qed.

Context (l0 s0 : Z).
Definition st0 : cstate := CState (-1) 0 0 0 0 (replicate 40 0) x l0 s0.
Definition st1 : cstate := CState 0 0 0 0 0 (replicate 40 0) x o s.
Lemma iter_first : mdata_iter M (x / bs) j 0 st0 = Some (st1, false).
Proof using All.
  destruct rd_shrunk as (N0 & N1 & N2 & N3 & O0 & O2), place_bounds as (B1 & B2 & B3 & B4 & _).
  pose proof size_bounds as [Hx62 Ho62].
  unfold mdata_iter. rewrite N0. cbn [mbind option_bind]. zbool. unfold is_shrink. cbn [Z.ltb Z.compare mbind option_bind s_actual st0 Z.eqb].
  unfold in_segment. change (0 + 1) with 1. change (0 + 2) with 2. rewrite N1, O0. cbn [mbind option_bind].
  assert ((0 <? x / bs) || (x / bs =? 0) = true) as -> by (destruct (Z.ltb_spec 0 (x / bs)), (Z.eqb_spec (x / bs) 0); done || lia).
  rewrite (proj2 (Z.ltb_ge 0 (- (t + 1)))) by lia. rewrite O2. cbn [mbind option_bind]. rewrite (proj2 (Z.leb_le (x / bs) A)) by lia. cbn [orb].
  change (prev_conf M (s_prev_block st0) 0 1) with (Some (-1, 0)). cbn [mbind option_bind Z.eqb Pos.eqb s_actual s_acum s_aux_serv s_aux_local s_array s_offset s_local s_serv st0 negb andb].
  unfold locate_actual. rewrite N0. cbn [mbind option_bind Z.eqb s_offset s_array]. rewrite calc_shrunk by lia. cbn [mbind option_bind].
  change (rdZ (replicate 40 0) 0) with (Some 0). cbn [mbind option_bind]. fold o s. rewrite Z.add_0_r, (i64_id o) by nia.
  change (Z.to_nat (0 + 1)) with 1%nat. rewrite substract_first. cbn [mbind option_bind].
  change (drop (Z.to_nat 0) (data_nserv M)) with (data_nserv M). rewrite greatter_first. done.
Qed.
Lemma top_small : 0 <= top < 2 ^ 61.
Proof using All.
  destruct place_bounds as (_ & _ & _ & _ & _ & _ & B7).
  assert ((A + 2) * bs * 1 <= (A + 2) * bs * (rl + 2)) by (apply Z.mul_le_mono_nonneg_l; lia). lia.
Qed.
Lemma new_bound : 0 <= new_slot x j / (n - 1) * bs ∧ new_slot x j / (n - 1) * bs + x mod bs + top < 2 ^ 62.
Proof using All.
  destruct place_bounds as (B1 & B2 & B3 & B4 & B5 & B6 & B7). zdm x bs. unfold new_slot. rewrite <- B5.
  assert (0 <= o / bs < A + 2) as Hq by (split; [apply Z.div_pos; lia|apply Z.div_lt_upper_bound; lia]).
  assert (0 <= o / bs * (rl + 1) <= (A + 1) * (rl + 1)) as Hs by (split; [apply Z.mul_nonneg_nonneg; lia|apply Z.mul_le_mono_nonneg_r; lia]).
  set (v := o / bs * (rl + 1) + j) in *. assert (0 <= v / (n - 1) <= v) as Hv by (split; [apply Z.div_pos; lia|apply Z.div_le_upper_bound; [lia|]; pose proof (Z.mul_le_mono_nonneg_r 1 (n - 1) v); lia]).
  assert (0 <= v / (n - 1) * bs <= ((A + 1) * (rl + 1) + rl) * bs) as Hvb by (split; [apply Z.mul_nonneg_nonneg; lia|apply Z.mul_le_mono_nonneg_r; lia]).
  assert (((A + 1) * (rl + 1) + rl) * bs <= (A + 2) * (rl + 2) * bs) as Hb by (apply Z.mul_le_mono_nonneg_r; [lia|]; pose proof (Z.mul_nonneg_nonneg A rl); lia).
  replace ((A + 2) * (rl + 2) * bs) with ((A + 2) * bs * (rl + 2)) in Hb by ring.
  assert ((A + 2) * bs * 1 <= (A + 2) * bs * (rl + 2)) by (apply Z.mul_le_mono_nonneg_l; lia).
  assert (bs * 1 <= (A + 2) * bs) by nia. lia.
Qed.
Lemma iter_gap s' : mdata_iter M (x / bs) j 1 s' = Some (s', false).
Proof using All.
  unfold mdata_iter. change (rdZ (data_nserv M) 1) with (Some (- (t + 1))). cbn [mbind option_bind].
  by rewrite (proj2 (Z.eqb_neq (- (t + 1)) 0)), (proj2 (Z.ltb_lt (- (t + 1)) 0)) by lia.
Qed.
(** The place of the last block, where [acum] is computed. *)
Lemma acum_top : ∃ serv, calc_mdata M n (A ⊗ block_size M) (replication_level M) = Some (top - bs, serv) ∧ top - bs ⊕ block_size M = top.
Proof using All.
  destruct place_bounds as (_ & _ & _ & _ & _ & _ & B7), Em as (E1 & E2 & _). cbn [shrunk with_confs block_size replication_level]. rewrite E1, E2.
  assert (A * bs * (rl + 1) < 2 ^ 61 ∧ 0 <= A * bs < 2 ^ 61 ∧ (A + 2) * bs < 2 ^ 61) as (B1 & B2 & B3).
  { assert (0 <= A * bs) by nia. assert ((A + 2) * bs = A * bs + 2 * bs) as E by lia.
    assert ((A + 2) * bs * 1 <= (A + 2) * bs * (rl + 2)) by (apply Z.mul_le_mono_nonneg_l; lia).
    assert (A * bs * (rl + 1) <= (A + 2) * bs * (rl + 2)) by (apply Z.mul_le_mono_nonneg; lia). lia. }
  rewrite (i64_id (A * bs)) by lia. rewrite calc_shrunk by lia. rewrite Z.div_mul, Z.mod_mul by lia. eexists. split.
  - f_equal. f_equal. unfold top. lia.
  - rewrite i64_id by lia. lia.
Qed.
Lemma i_shrink : is_shrink M 2 = Some true.
Proof using All. unfold is_shrink. change (0 <? 2) with true. cbv iota. change (rdZ (data_nserv M) (2 - 1)) with (Some (- (t + 1))). cbn [fmap option_fmap option_map].
  by rewrite (proj2 (Z.ltb_lt (- (t + 1)) 0)) by lia. Qed.
Lemma iter_third :
  ∃ s', mdata_iter M (x / bs) j 2 st1 = Some (s', false) ∧ (s_local s', s_serv s') = new_place x j.
Proof using All.
  destruct place_bounds as (B1 & B2 & B3 & B4 & B5 & B6 & B7), size_bounds as [Hx62 Ho62], acum_top as (serv & Eq & Etop).
  unfold mdata_iter. change (rdZ (data_nserv M) 2) with (Some (n - 1)). cbn [mbind option_bind]. zbool. rewrite i_shrink. cbn [mbind option_bind].
  change (s_actual st1) with 0. cbn [Z.eqb mbind option_bind].
  change (prev_conf M (s_prev_block st1) 2 2) with (Some (n, A)). cbn [mbind option_bind]. zbool. rewrite Eq. cbn [mbind option_bind]. rewrite Etop.
  change (s_acum st1) with 0. assert (0 ⊕ top = top) as -> by (pose proof top_small; rewrite i64_id; lia).
  change (wrZ (s_array st1) 2 top) with (Some (0 :: 0 :: top :: replicate 37 0)). cbn [mbind option_bind s_actual Z.eqb Pos.eqb negb andb].
  unfold relocate_shrink. change (rdZ (data_nserv M) (2 - 1)) with (Some (- (t + 1))). cbn [mbind option_bind].
  assert (i32 (Z.abs (- (t + 1))) ⊟ 1 = t) as -> by (replace (Z.abs (- (t + 1))) with (t + 1) by lia; rewrite (i32_id (t + 1)) by lia; rewrite i32_id; lia).
  change (s_serv st1) with s. change (s_local st1) with o. cbn [s_serv s_local s_array].
  unfold new_place. fold o s. destruct (Z.eqb_spec s t) as [Es|Es].
  - change (rdZ (data_nserv M) 2) with (Some (n - 1)). cbn [mbind option_bind]. rewrite calc_shrunk by lia. cbn [mbind option_bind].
    change (rdZ (0 :: 0 :: top :: replicate 37 0) 2) with (Some top). cbn [mbind option_bind]. cbn [Z.leb Z.compare Z.sub Z.add Z.opp Z.pos_sub mbind option_bind andb].
    eexists. split; [done|]. cbn [s_local s_serv]. rewrite B5, B6. fold (new_slot x j). f_equal. apply i64_id. pose proof new_bound. zdm x bs. lia.
  - destruct (Z.ltb_spec t s); (eexists; split; [done|]); cbn [s_local s_serv]; [rewrite i32_id by lia; done|done].
Qed.
Lemma loop_step k i l l' m' b : mdata_iter m' b j i l = Some (l', false) → mdata_loop m' b j i (S k) l = mdata_loop m' b j (i + 1) k l'.
Proof using Type. intros E. cbn [mdata_loop]. by rewrite E. Qed.
Lemma shrunk_place : XpnCalculateBlockMdata M x j l0 s0 = Some (new_place x j).
Proof using All.
  destruct iter_third as (s' & E3 & Es). unfold XpnCalculateBlockMdata. change (rdZ (data_nserv M) 1) with (Some (- (t + 1))). cbn [mbind option_bind].
  rewrite (proj2 (Z.eqb_neq (- (t + 1)) 0)) by lia. destruct Em as (E1 & _). cbn [shrunk with_confs block_size]. rewrite E1. zbool. rewrite quot_div by lia.
  change (CState (-1) 0 0 0 0 _ x l0 s0) with st0. change (Z.to_nat XPN_METADATA_MAX_RECONSTURCTIONS) with 40%nat.
  rewrite (loop_step 39 0 _ _ _ _ iter_first). change (0 + 1) with 1. rewrite (loop_step 38 1 _ _ _ _ (iter_gap st1)). change (1 + 1) with 2. rewrite (loop_step 37 2 _ _ _ _ E3).
  cbn [mdata_loop]. unfold mdata_iter. change (rdZ (data_nserv M) (2 + 1)) with (Some 0). cbn [mbind option_bind Z.eqb]. by rewrite Es.
Qed.
End place.

