(* ===== verification/MovesSpec.v ===== *)
(** * MovesSpec: the messages of xpn_shrink

    With one process that leaves, every message reaches its writer before the one
    that stops it; with two, a message may be left behind. *)

From S2P Require Import Prelude Cstr Mdata Migrate Expand Shrink.
From stdpp Require Import relations.

Definition block_of (m : Z * list ascii) : shrink_msg := Block m.1 m.2.
(** The messages for the process [w]. *)
Definition sent_to (w : nat) (l : list (nat * (Z * list ascii))) : list (Z * list ascii) := snd <$> List.filter (λ m, Nat.eqb m.1 w) l.
(** The file after them. *)
Definition received (l : list (Z * list ascii)) (f : list ascii) : list ascii := foldl (λ f m, write_at f (m.1 ⊕ HEADER_SIZE) m.2) f l.

(** How many messages are on their way. *)
Definition in_flight (n : gmap (nat * nat) (list shrink_msg)) : nat := map_fold (λ _ q k, (length q + k)%nat) 0%nat n.
Lemma in_flight_insert n p q : (in_flight (<[p := q]> n) + length (default [] (n !! p)) = length q + in_flight n)%nat.
Proof.
  unfold in_flight. assert (∀ n : gmap (nat * nat) (list shrink_msg), n !! p = None →
    map_fold (λ _ q k, (length q + k)%nat) 0%nat (<[p := q]> n) = (length q + map_fold (λ _ q k, (length q + k)%nat) 0%nat n)%nat) as Hi.
  { intros n' Hn. rewrite map_fold_insert_L; [done|intros; lia|done]. }
  destruct (n !! p) as [q0|] eqn:E; cbn [default from_option id].
  - rewrite <- insert_delete_eq, Hi by apply lookup_delete_eq.
    rewrite (map_fold_delete_L _ _ p q0 n) by (done || (intros; lia)). lia.
  - rewrite Hi by done. cbn. lia.
Qed.
Lemma queue_insert_eq a b n f e p q : in_transit (Moves a b (<[p := q]> n) f e) p = q.
Proof. unfold in_transit. cbn [net]. by rewrite lookup_insert_eq. Qed.
Lemma queue_insert_ne a b n f e p p' q : p ≠ p' → in_transit (Moves a b (<[p := q]> n) f e) p' = default [] (n !! p').
Proof. intros H. unfold in_transit. cbn [net]. by rewrite lookup_insert_ne. Qed.

Section one.
(** The process [r] leaves; the others have the files [fs]. *)
Context (r size : nat) (msgs : list (nat * (Z * list ascii))) (writers : list nat) (fs : list (list ascii)).
Context (Hr : (r < size)%nat) (Hfs : length fs = size) (Hw : ∀ w, w ∈ writers ↔ (w < size)%nat ∧ w ≠ r) (Hnd : NoDup writers).
Context (Hm : Forall (λ m, m.1 ∈ writers) msgs).
Definition start_one : shrink_state :=
  Moves (<[r := msgs]> (replicate size [])) writers ∅ fs (<[r := true]> (replicate size false)).

(** A writer: what it has written, what is on its way, what [r] has still to send. *)
Record writer_ok (s : shrink_state) (left : list (nat * (Z * list ascii))) (w : nat) (f0 : list ascii) : Prop := {
  wo_split : ∃ got ahead, files s !! w = Some (received got f0) ∧ sent_to w msgs = got ++ ahead ++ sent_to w left ∧
    ((stopped s !! w = Some false ∧ in_transit s (r, w) = (block_of <$> ahead) ++ (if decide (w ∈ to_stop s) then [] else [Stop])) ∨
     (stopped s !! w = Some true ∧ (w ∉ to_stop s) ∧ ahead = [] ∧ in_transit s (r, w) = []));
  wo_stop : w ∉ to_stop s → left = [] }.
Record one_inv (s : shrink_state) (left : list (nat * (Z * list ascii))) : Prop := {
  oi_send : to_send s = <[r := left]> (replicate size []);
  oi_suffix : left `suffix_of` msgs;
  oi_stop : NoDup (to_stop s) ∧ (∀ w, w ∈ to_stop s → w ∈ writers) ∧ (left ≠ [] → to_stop s = writers);
  oi_queue p : p.1 ≠ r ∨ p.2 ∉ writers → in_transit s p = [];
  oi_writer w f0 : w ∈ writers → fs !! w = Some f0 → writer_ok s left w f0 }.

Lemma one_inv_start : one_inv start_one msgs.
Proof using All.
  split; [done|done|by split_and!|done|]. intros w f0 Hin Hf. split; [|done]. exists [], []. split; [done|]. split; [done|]. left. split.
  - cbn. apply Hw in Hin as [? ?]. rewrite list_lookup_insert_ne, lookup_replicate_2 by done. done.
  - cbn. by rewrite decide_True.
Qed.

Lemma writer_same s left s' left' w f0 :
  writer_ok s left w f0 → files s' !! w = files s !! w → in_transit s' (r, w) = in_transit s (r, w) → stopped s' !! w = stopped s !! w →
  (w ∈ to_stop s' ↔ w ∈ to_stop s) → sent_to w left' = sent_to w left → (left = [] → left' = []) → writer_ok s' left' w f0.
Proof.
  intros [(got & ahead & Ef & Es & H) Hs] E1 E2 E3 E4 E5 E6. split.
  - exists got, ahead. rewrite E1, E2, E3, E5. split; [done|]. split; [done|].
    destruct H as [[H1 H2]|(H1 & H2 & H3)]; [left|right; by rewrite E4]. split; [done|]. rewrite H2. by destruct (decide (w ∈ to_stop s)), (decide (w ∈ to_stop s')); try tauto.
  - rewrite E4. intros H1. by apply E6, Hs.
Qed.
Lemma sent_to_cons w dst m l : sent_to w ((dst, m) :: l) = if decide (dst = w) then m :: sent_to w l else sent_to w l.
Proof. unfold sent_to. cbn [List.filter fst]. destruct (decide (dst = w)) as [->|Hne]; [by rewrite Nat.eqb_refl|]. by rewrite (proj2 (Nat.eqb_neq dst w)). Qed.
Lemma received_snoc l m f : received (l ++ [m]) f = write_at (received l f) (m.1 ⊕ HEADER_SIZE) m.2.
Proof. unfold received. by rewrite foldl_app. Qed.
Lemma file_of w : w ∈ writers → ∃ f0, fs !! w = Some f0.
Proof using All. intros [? _]%Hw. apply lookup_lt_is_Some_2. lia. Qed.
Lemma queue_from s left src w x q : one_inv s left → in_transit s (src, w) = x :: q → src = r ∧ w ∈ writers.
Proof.
  intros HI E. destruct (decide (src = r ∧ w ∈ writers)) as [|Hn]; [done|]. rewrite (oi_queue _ _ HI (src, w)) in E; [done|]. cbn.
  destruct (decide (src = r)) as [->|]; [right; naive_solver|by left].
Qed.

Lemma inv_send s left src dst off buf rest :
  one_inv s left → to_send s !! src = Some ((dst, (off, buf)) :: rest) →
  left = (dst, (off, buf)) :: rest ∧ one_inv (Moves (<[src := rest]> (to_send s)) (to_stop s)
      (<[(src, dst) := in_transit s (src, dst) ++ [Block off buf]]> (net s)) (files s) (stopped s)) rest.
Proof using All.
  intros [H1 H2 H3 H4 H5] E. rewrite H1 in E. destruct (decide (src = r)) as [->|Hne].
  2: { rewrite list_lookup_insert_ne in E by done. apply lookup_replicate in E as [? _]. done. }
  rewrite list_lookup_insert_eq in E by (rewrite length_replicate; lia). injection E as ->. split; [done|].
  destruct H3 as (N1 & N2 & N3). specialize (N3 ltac:(done)).
  assert (dst ∈ writers) as Hd. { destruct H2 as [l ->]. rewrite Forall_app in Hm. destruct Hm as [_ Hm']. by apply Forall_cons in Hm' as [? _]. }
  split; cbn [to_send to_stop].
  - by rewrite H1, list_insert_insert_eq.
  - destruct H2 as [l ->]. exists (l ++ [(dst, (off, buf))]). by rewrite <- (assoc_L (++)).
  - split_and!; [done|done|done].
  - intros p Hp. destruct (decide (p = (r, dst))) as [->|Hne]; [naive_solver|]. rewrite queue_insert_ne by done. by apply H4.
  - intros w f0 Hin Hf. specialize (H5 w f0 Hin Hf). destruct (decide (dst = w)) as [->|Hne].
    + destruct H5 as [(got & ahead & Ef & Es & H) Hs]. destruct H as [[Hst Hq]|(_ & Hn & _)]; [|rewrite N3 in Hn; done].
      split; [|cbn [to_stop]; rewrite N3; done]. exists got, (ahead ++ [(off, buf)]). split; [done|]. split.
      * rewrite Es, sent_to_cons, decide_True by done. by rewrite <- (assoc_L (++)).
      * left. split; [done|]. rewrite queue_insert_eq, Hq. cbn [to_stop]. rewrite !decide_True by (by rewrite N3). by rewrite fmap_app, !app_nil_r.
    + apply (writer_same s ((dst, (off, buf)) :: rest)); [done|done| |done|done| |done].
      * rewrite queue_insert_ne by congruence. done.
      * by rewrite sent_to_cons, decide_False.
Qed.
Lemma inv_stop s left w ws :
  one_inv s left → Forall (λ l, l = []) (to_send s) → to_stop s = w :: ws →
  one_inv (Moves (to_send s) ws (<[(r, w) := in_transit s (r, w) ++ [Stop]]> (net s)) (files s) (stopped s)) left ∧ left = [].
Proof using All.
  intros [H1 H2 H3 H4 H5] Hall Est. destruct H3 as (N1 & N2 & N3). rewrite Est in *. apply NoDup_cons in N1 as [Hni N1].
  assert (left = []) as ->. { rewrite H1 in Hall. rewrite Forall_lookup in Hall. apply (Hall r). apply list_lookup_insert_eq. rewrite length_replicate. lia. }
  split; [|done]. split; cbn [to_send to_stop]; [done|done| | |].
  - split_and!; [done|intros w' ?; apply N2; by right|done].
  - intros p Hp. destruct (decide (p = (r, w))) as [->|Hne]; [exfalso; destruct Hp as [?|Hp]; [done|]; apply Hp, N2; by left|].
    rewrite queue_insert_ne by done. by apply H4.
  - intros w' f0 Hin Hf. specialize (H5 w' f0 Hin Hf). destruct (decide (w' = w)) as [->|Hne].
    + destruct H5 as [(got & ahead & Ef & Es & H) Hs]. rewrite Est in H. destruct H as [[Hst Hq]|(_ & Hn & _)]; [|exfalso; apply Hn; by left].
      split; [|done]. exists got, ahead. split; [done|]. split; [done|]. left. split; [done|]. rewrite queue_insert_eq, Hq. cbn [to_stop].
      rewrite decide_True by by left. rewrite decide_False by done. by rewrite app_nil_r.
    + apply (writer_same s []); [done|done| |done| |done|done].
      * rewrite queue_insert_ne by congruence. done.
      * cbn [to_stop]. rewrite Est, elem_of_cons. naive_solver.
Qed.

(** The receiver of a message has something to read. *)
Lemma not_stopped s left w f0 : writer_ok s left w f0 → stopped s !! w = Some false →
  ∃ got ahead, files s !! w = Some (received got f0) ∧ sent_to w msgs = got ++ ahead ++ sent_to w left ∧
    in_transit s (r, w) = (block_of <$> ahead) ++ (if decide (w ∈ to_stop s) then [] else [Stop]).
Proof. intros [(got & ahead & Ef & Es & H) _] Hst. exists got, ahead. destruct H as [[_ ?]|(Ht & _)]; [done|congruence]. Qed.
Lemma inv_write s left src w off buf q f :
  one_inv s left → in_transit s (src, w) = Block off buf :: q → stopped s !! w = Some false → files s !! w = Some f →
  one_inv (Moves (to_send s) (to_stop s) (<[(src, w) := q]> (net s)) (<[w := write_at f (off ⊕ HEADER_SIZE) buf]> (files s)) (stopped s)) left.
Proof using All.
  intros HI Eq Hst Hf. destruct (queue_from s left src w _ _ HI Eq) as [-> Hin]. destruct HI as [H1 H2 H3 H4 H5].
  split; cbn [to_send to_stop]; [done..| |].
  - intros p Hp. destruct (decide (p = (r, w))) as [->|Hne]; [naive_solver|]. rewrite queue_insert_ne by done. by apply H4.
  - intros w' f0 Hin' Hf0. specialize (H5 w' f0 Hin' Hf0). destruct (decide (w' = w)) as [->|Hne].
    + destruct (not_stopped s left w f0 H5 Hst) as (got & ahead & Ef & Es & Hq). destruct H5 as [_ Hs].
      rewrite Eq in Hq. destruct ahead as [|[o b] ahead]; [by destruct (decide _)|]. injection Hq as -> -> ->.
      split; [|done]. exists (got ++ [(o, b)]), ahead. split; [|split].
      * cbn [files]. rewrite list_lookup_insert_eq by (by eapply lookup_lt_Some). rewrite received_snoc. cbn [fst snd]. congruence.
      * rewrite Es. by rewrite <- (assoc_L (++)).
      * left. split; [done|]. by rewrite queue_insert_eq.
    + apply (writer_same s left); [done| | |done|done|done|done].
      * cbn [files]. by rewrite list_lookup_insert_ne.
      * rewrite queue_insert_ne by congruence. done.
Qed.
Lemma inv_end s left src w q :
  one_inv s left → in_transit s (src, w) = Stop :: q → stopped s !! w = Some false →
  one_inv (Moves (to_send s) (to_stop s) (<[(src, w) := q]> (net s)) (files s) (<[w := true]> (stopped s))) left.
Proof using All.
  intros HI Eq Hst. destruct (queue_from s left src w _ _ HI Eq) as [-> Hin]. destruct HI as [H1 H2 H3 H4 H5].
  split; cbn [to_send to_stop]; [done..| |].
  - intros p Hp. destruct (decide (p = (r, w))) as [->|Hne]; [naive_solver|]. rewrite queue_insert_ne by done. by apply H4.
  - intros w' f0 Hin' Hf0. specialize (H5 w' f0 Hin' Hf0). destruct (decide (w' = w)) as [->|Hne].
    + destruct (not_stopped s left w f0 H5 Hst) as (got & ahead & Ef & Es & Hq). destruct H5 as [_ Hs].
      rewrite Eq in Hq. destruct ahead as [|[o b] ahead]; [|done]. destruct (decide (w ∈ to_stop s)) as [|Hn]; [done|]. injection Hq as ->.
      split; [|done]. exists got, []. split; [done|]. split; [done|]. right. split; [|split; [done|]].
      * apply list_lookup_insert_eq. by eapply lookup_lt_Some.
      * split; [done|]. by rewrite queue_insert_eq.
    + apply (writer_same s left); [done|done| | |done|done|done].
      * rewrite queue_insert_ne by congruence. done.
      * cbn [stopped]. by rewrite list_lookup_insert_ne.
Qed.

(** A message is sent and received once. *)
Definition work (s : shrink_state) (left : list (nat * (Z * list ascii))) : nat := 2 * length left + 2 * length (to_stop s) + in_flight (net s).
Lemma in_flight_cons n p x q : default [] (n !! p) = x :: q → in_flight n = S (in_flight (<[p := q]> n)).
Proof. intros E. pose proof (in_flight_insert n p q) as H. rewrite E in H. cbn [length] in H. lia. Qed.
Lemma in_flight_snoc n p x : in_flight (<[p := default [] (n !! p) ++ [x]]> n) = S (in_flight n).
Proof. pose proof (in_flight_insert n p (default [] (n !! p) ++ [x])) as H. rewrite length_app in H. cbn [length] in H. lia. Qed.
Lemma one_step s s' left : one_inv s left → move r s s' → ∃ left', one_inv s' left' ∧ (work s' left' < work s left)%nat.
Proof using All.
  intros HI H. destruct H as [s src dst off buf rest E|s w ws Hall Est|s src w off buf q f Eq Hst Hf|s src w q Eq Hst].
  - destruct (inv_send s left src dst off buf rest HI E) as [-> HI']. exists rest. split; [exact HI'|].
    unfold work, in_transit. cbn [to_stop net length]. rewrite in_flight_snoc. lia.
  - destruct (inv_stop s left w ws HI Hall Est) as [HI' ->]. exists []. split; [exact HI'|].
    unfold work, in_transit. cbn [to_stop net length]. rewrite in_flight_snoc, Est. cbn [length]. lia.
  - exists left. split; [by apply inv_write|]. unfold work. cbn [to_stop net]. rewrite (in_flight_cons (net s) (src, w) (Block off buf) q) by done. lia.
  - exists left. split; [by apply inv_end|]. unfold work. cbn [to_stop net]. rewrite (in_flight_cons (net s) (src, w) Stop q) by done. lia.
Qed.
Lemma one_run k s s' left : one_inv s left → nsteps (move r) k s s' → ∃ left', one_inv s' left' ∧ (k + work s' left' <= work s left)%nat.
Proof using All.
  intros HI H. revert left HI. induction H as [s|k s s1 s' Hstep _ IH]; intros left HI; [by exists left|].
  destruct (one_step s s1 left HI Hstep) as (left1 & HI1 & Hlt). destruct (IH left1 HI1) as (left' & HI' & Hle). exists left'. split; [done|lia].
Qed.
(** When nothing can happen, everything has. *)
Lemma one_stuck s left : one_inv s left → (∀ s', ¬ move r s s') →
  ∀ w f0, w ∈ writers → fs !! w = Some f0 → stopped s !! w = Some true ∧ files s !! w = Some (received (sent_to w msgs) f0).
Proof using All.
  intros HI Hno w f0 Hin Hf. assert (left = []) as ->.
  { destruct left as [|[dst [off buf]] rest]; [done|]. exfalso. eapply Hno, (move_send r s r).
    rewrite (oi_send _ _ HI). apply list_lookup_insert_eq. rewrite length_replicate. lia. }
  assert (to_stop s = []) as Hts.
  { destruct (to_stop s) as [|w' ws] eqn:E; [done|]. exfalso. eapply Hno, move_stop; [|done]. rewrite (oi_send _ _ HI).
    apply Forall_insert; [|done]. by apply Forall_replicate. }
  destruct (oi_writer _ _ HI w f0 Hin Hf) as [(got & ahead & Ef & Es & H) _]. unfold sent_to in Es at 2. cbn [List.filter fmap list_fmap] in Es.
  destruct H as [[Hst Hq]|(Hst & _ & -> & _)]; [|split; [done|]; rewrite Es, !app_nil_r; done]. exfalso. rewrite Hts, decide_False in Hq by apply not_elem_of_nil.
  destruct ahead as [|[o b] ahead]; cbn [fmap list_fmap app] in Hq; [by eapply Hno, move_end|by eapply Hno, move_write].
Qed.
End one.

(** When one server leaves, its blocks arrive: whatever the order in which the
    processes go on, a run of the moves is finite, and when it cannot go on every
    writer has returned from [recv_thread] and has written exactly the messages for
    it, in the order in which they were sent. *)
Lemma one_leaver r size msgs writers fs k s :
  (r < size)%nat → length fs = size → (∀ w, w ∈ writers ↔ (w < size)%nat ∧ w ≠ r) → NoDup writers → Forall (λ m, m.1 ∈ writers) msgs →
  nsteps (move r) k (start_one r size msgs writers fs) s →
  (k <= 2 * (length msgs + length writers))%nat ∧
  ((∀ s', ¬ move r s s') → ∀ w f0, w ∈ writers → fs !! w = Some f0 →
    stopped s !! w = Some true ∧ files s !! w = Some (received (sent_to w msgs) f0)).
Proof.
  intros Hr Hfs Hw Hnd Hm H.
  destruct (one_run r size msgs writers fs Hr Hfs Hw Hnd Hm k _ s msgs (one_inv_start r size msgs writers fs Hr Hfs Hw Hnd Hm) H) as (left & HI & Hk).
  split; [|by eapply one_stuck]. unfold work, start_one in Hk. cbn [to_stop net] in Hk. change (in_flight ∅) with 0%nat in Hk. lia.
Qed.

(** When two servers leave, a block may be lost.  The process 2 has sent a block to
    the process 0 when both of those that leave meet at the barrier; the message of
    the process 1 that stops the writers is received first.  Nothing more can
    happen, and the file of the process 0 is as it was. *)
Theorem two_leavers_lose_block off buf f f1 f2 :
  ∃ s, rtc (move 1) (Moves [[]; []; [(0%nat, (off, buf))]] [0%nat] ∅ [f; f1; f2] [false; true; true]) s ∧
    (∀ s', ¬ move 1 s s') ∧ stopped s = [true; true; true] ∧ files s = [f; f1; f2] ∧ in_transit s (2%nat, 0%nat) = [Block off buf].
Proof.
  eexists. split; [|split].
  - eapply rtc_l; [eapply (move_send _ _ 2 0 off buf []); reflexivity|].
    eapply rtc_l; [eapply (move_stop _ _ 0 []); [repeat constructor|reflexivity]|].
    eapply rtc_l; [eapply (move_end _ _ 1 0 []); reflexivity|]. apply rtc_refl.
  - intros s' H. inversion H as [s r dst o b rest E|s w ws Hall Est|s src w o b q f' Eq Hst|s src w q Eq Hst]; subst.
    + by do 3 (destruct r as [|r]; [done|]).
    + done.
    + by do 3 (destruct w as [|w]; [done|]).
    + by do 3 (destruct w as [|w]; [done|]).
  - by split_and!.
Qed.
