(* ===== verification/ShrinkSpec.v ===== *)
(** * ShrinkSpec: a file on a partition that loses a server

    What the process of the server that leaves sends, what the others have when it
    has arrived, and the run of xpn_shrink for a file from its beginning to its
    end. *)

From stdpp Require Import relations.
From S2P Require Import Prelude Cstr Paths Layout Mdata Client MemFs FileTable Blocks Rw Affected Bytes Header Migrate MigrateSpec Expand ExpandSpec Shrink ShrinkLayout MovesSpec.

(** ** What the process that leaves sends *)

Section replicas.
Context (m : xpn_metadata) (t : Z) (Hrl : 0 <= replication_level m < 2 ^ 30).
(** The search is that of xpn_flush, and it knows the replica. *)
Lemma replicas_same off i k last : snd <$> shrink_replicas m t off i k last = flush_replicas m t off i k last.
Proof using Type.
  revert i last. induction k as [|k IH]; intros i last; [done|]. cbn [shrink_replicas flush_replicas].
  destruct (XpnCalculateBlockMdata _ _ _ _ _) as [[o s]|]; [|done]. cbn [mbind option_bind]. rewrite Z.eqb_sym. destruct (s =? t); [done|apply IH].
Qed.
Lemma replicas_which off i k last j l :
  shrink_replicas m t off i (S k) last = Some (j, l) → 0 <= i → i + Z.of_nat (S k) < 2 ^ 31 → l.2 = t →
  i <= j < i + Z.of_nat (S k) ∧ ∃ l1 l2, XpnCalculateBlockMdata m off j l1 l2 = Some l.
Proof using Type.
  revert i last. induction k as [|k IH]; intros i last E Hi Hk Hl.
  all: cbn [shrink_replicas] in E; destruct (XpnCalculateBlockMdata _ _ _ _ _) as [[o s]|] eqn:Ec; [|done]; cbn [mbind option_bind] in E.
  all: destruct (Z.eqb_spec t s) as [->|Hne]; [injection E as <- <-; split; [lia|by eexists _, _]|].
  - by injection E as <- <-.
  - change (shrink_replicas m t off (i ⊞ 1) (S k) (o, s) = Some (j, l)) in E. rewrite i32_id in E by lia.
    destruct (IH (i + 1) (o, s) E) as [Hj H]; [lia..|done|]. split; [lia|done].
Qed.
Lemma search_same fuel off last :
  (λ r, (r.1, r.2.2)) <$> shrink_search m t fuel off last = flush_search m (block_size m) (replication_level m) t fuel off last.
Proof using Type.
  revert off last. induction fuel as [|fuel IH]; intros off last; [done|]. cbn [shrink_search flush_search]. rewrite <- replicas_same.
  destruct (shrink_replicas _ _ _ _ _ _) as [[j l]|]; [|done]. cbn [mbind option_bind fmap option_fmap option_map fst snd]. rewrite Z.eqb_sym.
  destruct (l.2 =? t); [done|]. destruct (_ <? _); [apply IH|done].
Qed.
Lemma search_which fuel off last off' j l :
  shrink_search m t fuel off last = Some (off', (j, l)) → l.2 = t →
  0 <= j <= replication_level m ∧ ∃ l1 l2, XpnCalculateBlockMdata m off' j l1 l2 = Some l.
Proof using All.
  revert off last. induction fuel as [|fuel IH]; intros off last E Hl; [done|]. cbn [shrink_search] in E.
  replace (Z.to_nat (replication_level m + 1)) with (S (Z.to_nat (replication_level m))) in E by lia.
  destruct (shrink_replicas _ _ _ _ _ _) as [[j' l']|] eqn:Er; [|done]. cbn [mbind option_bind fst snd] in E.
  assert (l'.2 = t → 0 <= j' <= replication_level m ∧ ∃ l1 l2, XpnCalculateBlockMdata m (off ⊕ block_size m) j' l1 l2 = Some l') as Hw.
  { intros Hl'. destruct (replicas_which _ _ _ _ _ _ Er) as [Hj H]; [lia..|done|]. split; [lia|done]. }
  destruct (Z.eqb_spec t l'.2) as [El|Hne]; [injection E as <- <- <-; by apply Hw|].
  destruct (_ <? _); [by apply (IH _ _ E)|]. injection E as <- <- <-. by apply Hw.
Qed.
End replicas.

(** The replica of a block that a server has: there is at most one. *)
Definition the_replica (n rl fn t b : Z) : Z := (t - fn - slot rl b 0) mod n.
Lemma the_replica_is n rl fn t b j : 0 <= rl < n → 0 <= t < n → 0 <= j <= rl → own n fn t (slot rl b j) = true → j = the_replica n rl fn t b.
Proof.
  intros Hrl Ht Hj Ho%Z.eqb_eq. unfold the_replica. zdm (slot rl b j + fn) n. rewrite Ho in *.
  apply (Z.mod_unique_pos _ _ (- ((slot rl b j + fn) / n))); [lia|]. unfold slot in *. lia.
Qed.
Lemma mine_replica n rl fn t b : 0 <= rl < n → 0 <= t < n → mine n rl fn t b = true →
  0 <= the_replica n rl fn t b <= rl ∧ own n fn t (slot rl b (the_replica n rl fn t b)) = true.
Proof.
  intros Hrl Ht (u & (j & -> & Hj%elem_of_seqZ)%list_elem_of_In%list_elem_of_fmap & Ho)%existsb_exists.
  assert (0 <= j <= rl) as Hj' by lia. by rewrite <- (the_replica_is n rl fn t b j).
Qed.

Section reader.
Context (m : xpn_metadata) (n rl fn bs t L A : Z) (d hdr : list ascii) (trans : list Z).
Context (Hm : expanded m 1) (Em : block_size m = bs ∧ replication_level m = rl ∧ first_node m = fn ∧ nv m 0 = n).
Context (Hn : 1 < n < 2 ^ 28) (Hrl : 0 <= rl < n) (Hbs : 0 < bs < 2 ^ 31) (Hfn : 0 <= fn < n) (Ht : 0 <= t < n) (Hhdr : Z.of_nat (length hdr) = HEADER_SIZE).
Context (Hfs : file_size m = len d) (HA : blocks bs d <= A < 2 ^ 31) (HA' : (A + 2) * bs * (rl + 2) < 2 ^ 61).
Context (Hsize : (len d + (n + 3) * bs) * (rl + 1) < 2 ^ 61).

Abbreviation file := (stored_file n rl fn bs t d hdr).
Abbreviation own := (own n fn t).
Abbreviation mine := (mine n rl fn t).
Abbreviation slot := (slot rl).
Abbreviation blocks := (blocks bs d).
Definition block_message (b : Z) : nat * (Z * list ascii) :=
  let p := new_place n rl fn bs t A (b * bs) (the_replica n rl fn t b) in (rank_to_send p.2 0 trans, (p.1, MigrateSpec.block bs d b)).
Abbreviation reader := (shrink_reader m (shrunk m n t L A) trans t file).

Lemma block_in_range b : 0 <= b < blocks → 0 <= b * bs ∧ b * bs / bs <= A.
Proof using All. intros Hb. rewrite Z.div_mul by lia. nia. Qed.
Lemma msg_place b j l0 s0 : 0 <= b < blocks → 0 <= j <= rl → own (slot b j) = true →
  XpnCalculateBlockMdata (shrunk m n t L A) (b * bs) j l0 s0 = Some (new_place n rl fn bs t A (b * bs) (the_replica n rl fn t b)).
Proof using All.
  intros Hb Hj Ho. rewrite <- (the_replica_is n rl fn t b j Hrl Ht Hj Ho). destruct (block_in_range b Hb) as [H1 H2]. destruct Em as (E1 & E2 & E3 & E4).
  apply (shrunk_place m n rl fn bs t L A); first [done | lia].
Qed.

Lemma reader_S f search off last :
  reader (S f) search off last =
    '(off, (replication, last)) ← shrink_search m t search off last;
    if negb (t =? last.2) then reader f search off last
    else if last.1 ⊕ HEADER_SIZE <? 0 then None
    else
      match read_at file (last.1 ⊕ HEADER_SIZE) bs with
      | [] => Some []
      | buf =>
        '(offset_src, aux_serv) ← XpnCalculateBlockMdata (shrunk m n t L A) off replication 0 0;
        rest ← reader f search off (last.1, aux_serv);
        Some ((rank_to_send aux_serv 0 trans, (offset_src, buf)) :: rest)
      end.
Proof using All. destruct Em as (<- & _). done. Qed.
(** One search, from block [b] on: to the next block of the server, or past the end. *)
Lemma search_step search b last : 0 <= b <= blocks + n + 1 → blocks + 1 <= Z.of_nat search →
  ∃ b' j l, shrink_search m t search ((b - 1) * bs) last = Some (b' * bs, (j, l)) ∧ b <= b' <= Z.max b blocks ∧
    List.filter mine (seqZ b (b' - b)) = [] ∧
    ((0 <= j <= rl ∧ own (slot b' j) = true ∧ l = (rows n fn t (slot b' j) * bs, t) ∧ mine b' = true) ∨ (l.2 ≠ t ∧ mine b' = false ∧ blocks <= b')).
Proof using All.
  intros Hb Hs. pose proof (blocks_nonneg bs d ltac:(lia)). destruct Em as (E1 & E2 & E3 & E4).
  destruct (search_next m n rl fn bs t d Hm Em ltac:(lia) Hrl ltac:(lia) Ht Hsize hdr Hhdr search b last) as (b' & l & E & Hb' & Hno & H'); [lia..|done|].
  pose proof (search_same m t search ((b - 1) * bs) last) as Hsame. rewrite E1, E2, E in Hsame.
  destruct (shrink_search m t search ((b - 1) * bs) last) as [[off [j l']]|] eqn:Es; [|done]. injection Hsame as -> ->.
  exists b', j, l. split; [done|]. split; [done|]. split; [done|]. destruct H' as [[(j' & Hj' & Ho & El) Hmi]|H']; [left|by right].
  destruct (search_which m t ltac:(lia) _ _ _ _ _ _ Es) as (Hj & l1 & l2 & Ec); [by rewrite El|]. rewrite E2 in Hj.
  rewrite (calc_slot m n rl fn bs t d Hm Em ltac:(lia) Hrl ltac:(lia) Ht Hsize) in Ec by lia.
  assert (own (slot b' j) = true) as Hoj by (apply Z.eqb_eq; rewrite El in Ec; by injection Ec as _ ->).
  assert (j = j') as -> by (rewrite (the_replica_is n rl fn t b' j Hrl Ht Hj Hoj); symmetry; by apply (the_replica_is n rl fn t b' j')). done.
Qed.
Lemma row_offset b j : 0 <= b <= blocks + n → 0 <= j <= rl → own (slot b j) = true →
  rows n fn t (slot b j) * bs ⊕ HEADER_SIZE = rows n fn t (slot b j) * bs + HEADER_SIZE ∧ 0 <= rows n fn t (slot b j) * bs.
Proof using All.
  intros Hb Hj Ho. split; [by apply (found_offset m n rl fn bs t d Hm Em ltac:(lia) Hrl ltac:(lia) Ht Hsize hdr Hhdr)|].
  pose proof (rows_nonneg n fn t ltac:(lia) (slot b j) ltac:(unfold MigrateSpec.slot; nia)). nia.
Qed.
(** Past the end: the next block that the server would have is not there. *)
Lemma reader_past fuel search b last u :
  blocks + 1 <= Z.of_nat search → blocks <= b → b + Z.of_nat fuel <= blocks + n + 1 → slot b 0 <= u < slot (b + Z.of_nat fuel) 0 → own u = true →
  reader fuel search ((b - 1) * bs) last = Some [].
Proof using All.
  intros Hse. pose proof (blocks_nonneg bs d ltac:(lia)). revert b last. induction fuel as [|fuel IH]; intros b last Hb Hf Hu Ho; [unfold MigrateSpec.slot in Hu; lia|].
  rewrite reader_S. destruct (search_step search b last) as (b' & j & l & -> & Hb' & _ & H'); [lia..|].
  assert (b' = b) as -> by lia. cbn [mbind option_bind]. destruct H' as [(Hj & Hoj & -> & _)|(Hne & Hmi & _)]; cbn [fst snd].
  - rewrite Z.eqb_refl. cbn [negb]. destruct (row_offset b j) as [-> Hr]; [lia|done..|]. rewrite (proj2 (Z.ltb_ge _ 0)) by (unfold HEADER_SIZE; lia).
    by rewrite (read_past n rl fn bs t d hdr ltac:(lia) Hrl ltac:(lia) Ht Hhdr b j) by (done || lia).
  - rewrite (proj2 (Z.eqb_neq t l.2)) by done. cbn [negb]. replace (b * bs) with ((b + 1 - 1) * bs) by lia.
    apply IH; [lia..| |done]. replace (b + 1 + Z.of_nat fuel) with (b + Z.of_nat (S fuel)) by lia.
    destruct (decide (slot (b + 1) 0 <= u)); [lia|]. rewrite (existsb_false_slots n rl fn t b Hmi u) in Ho by lia. done.
Qed.
Lemma reader_more f g search off last r : reader g search off last = Some r → reader (g + f) search off last = Some r.
Proof using All.
  revert off last r. induction g as [|g IH]; intros off last r; [done|]. cbn [Nat.add]. rewrite !reader_S.
  destruct (shrink_search m t search off last) as [[o [j l]]|]; [|done]. cbn [mbind option_bind].
  destruct (negb _); [apply IH|]. destruct (_ <? 0); [done|]. destruct (read_at _ _ _) as [|a buf]; [done|].
  destruct (XpnCalculateBlockMdata _ _ _ _ _) as [[o' s']|]; [|done]. cbn [mbind option_bind].
  destruct (reader g search o (l.1, s')) as [r'|] eqn:E; [|done]. by rewrite (IH _ _ _ E).
Qed.
Lemma reader_end fuel search b last :
  blocks + 1 <= Z.of_nat search → blocks <= b <= blocks + 1 → n + 1 <= Z.of_nat fuel → reader fuel search ((b - 1) * bs) last = Some [].
Proof using All.
  intros Hse Hb Hf. pose proof (blocks_nonneg bs d ltac:(lia)). replace fuel with (Z.to_nat n + (fuel - Z.to_nat n))%nat by lia. apply reader_more.
  destruct (own_soon n fn t ltac:(lia) Ht (slot b 0)) as (u & Hu & Ho); [unfold MigrateSpec.slot; nia|].
  apply (reader_past _ _ _ _ u); [done|lia|lia|unfold MigrateSpec.slot in *; nia|done].
Qed.
(** The messages are the blocks of the server, in order. *)
Lemma reader_sends fuel search b last :
  blocks + 1 <= Z.of_nat search → 0 <= b <= blocks → blocks - b + n + 2 <= Z.of_nat fuel →
  reader fuel search ((b - 1) * bs) last = Some (block_message <$> List.filter mine (seqZ b (blocks - b))).
Proof using All.
  intros Hse. remember (Z.to_nat (blocks - b)) as k eqn:Ek. revert fuel b last Ek.
  induction k as [k IH] using (well_founded_induction lt_wf). intros fuel b last Ek Hb Hf. destruct fuel as [|fuel]; [lia|].
  destruct (decide (b = blocks)) as [->|Hne]; [rewrite Z.sub_diag; apply reader_end; lia|].
  rewrite reader_S. destruct (search_step search b last) as (b' & j & l & -> & Hb' & Hno & H'); [lia..|]. cbn [mbind option_bind].
  assert (seqZ b (blocks - b) = seqZ b (b' - b) ++ seqZ b' (blocks - b')) as ->.
  { replace (blocks - b) with ((b' - b) + (blocks - b')) by lia. rewrite seqZ_app by lia. do 2 f_equal. lia. }
  rewrite List.filter_app, Hno. cbn [app]. destruct H' as [(Hj & Hoj & -> & Hmi)|(Hne' & Hmi & Hle)]; cbn [fst snd].
  - rewrite Z.eqb_refl. cbn [negb]. destruct (row_offset b' j) as [-> Hr]; [lia|done..|]. rewrite (proj2 (Z.ltb_ge _ 0)) by (unfold HEADER_SIZE; lia).
    destruct (decide (b' = blocks)) as [->|Hlt].
    { rewrite (read_past n rl fn bs t d hdr ltac:(lia) Hrl ltac:(lia) Ht Hhdr _ j) by (done || lia). by rewrite Z.sub_diag. }
    rewrite (read_block n rl fn bs t d hdr ltac:(lia) Hrl ltac:(lia) Ht Hhdr b' j ltac:(lia) Hj Hoj).
    pose proof (block_nonempty bs d ltac:(lia) b' ltac:(lia)) as Hbn. destruct (MigrateSpec.block bs d b') as [|a buf] eqn:Eb; [done|]. rewrite <- Eb.
    rewrite (msg_place b' j) by (done || lia). cbn [mbind option_bind]. rewrite (seqZ_cons b') by lia. cbn [List.filter]. rewrite Hmi. cbn [fmap list_fmap].
    unfold block_message at 1. destruct (new_place _ _ _ _ _ _ _ _) as [o' s'] eqn:Ep. cbn [fst snd].
    replace (b' * bs) with ((b' + 1 - 1) * bs) at 1 by lia. rewrite (IH (Z.to_nat (blocks - (b' + 1)))) by lia. cbn [mbind option_bind].
    replace (Z.pred (blocks - b')) with (blocks - (b' + 1)) by lia. replace (Z.succ b') with (b' + 1) by lia. done.
  - rewrite (proj2 (Z.eqb_neq t l.2)) by done. cbn [negb]. assert (b' = blocks) as -> by lia. rewrite Z.sub_diag.
    replace (blocks * bs) with ((blocks + 1 - 1) * bs) by lia. apply reader_end; lia.
Qed.
End reader.

(** ** The numbers of the processes *)

Lemma rank_to_send_is l k a i : l !! k = Some a → (∀ k', (k' < k)%nat → l !! k' ≠ Some a) → rank_to_send a i l = (i + k)%nat.
Proof.
  revert k i. induction l as [|x l IH]; intros k i Hk Hne; [done|]. cbn [rank_to_send]. destruct k as [|k].
  - injection Hk as ->. rewrite Z.eqb_refl. lia.
  - destruct (Z.eqb_spec a x) as [->|_]; [by specialize (Hne 0%nat ltac:(lia))|]. rewrite (IH k (S i)); [lia|done|].
    intros k' Hk'. apply (Hne (S k')). lia.
Qed.
(** The process of a server of the new configuration. *)
Definition old_number (t s : Z) : Z := if s <? t then s else s + 1.

Section numbers.
Context (n t : Z) (Hn : 1 < n < 2 ^ 28) (Ht : 0 <= t < n).
Definition trans : list Z := renumber n t (seqZ 0 n).
Lemma trans_length : length trans = Z.to_nat n.
Proof using Hn Ht. unfold trans, renumber. rewrite length_zip_with, !length_seqZ. lia. Qed.
Lemma trans_at k : 0 <= k < n → trans !! Z.to_nat k = Some (if t <? k then k - 1 else if k =? t then -1 else k).
Proof using Hn Ht.
  intros Hk. unfold trans, renumber. apply lookup_zip_with_Some. exists k, k. rewrite lookup_seqZ. split; [|lia].
  destruct (t <? k); [by rewrite i32_id by lia|done].
Qed.
Lemma old_number_range s : 0 <= s < n - 1 → 0 <= old_number t s < n ∧ old_number t s ≠ t.
Proof using Hn Ht. intros Hs. unfold old_number. destruct (Z.ltb_spec s t); lia. Qed.
Lemma send_to s : 0 <= s < n - 1 → rank_to_send s 0 trans = Z.to_nat (old_number t s).
Proof using Hn Ht.
  intros Hs. destruct (old_number_range s Hs) as [Ho Hne]. rewrite (rank_to_send_is trans (Z.to_nat (old_number t s))); [lia| |].
  - rewrite trans_at by lia. unfold old_number in *. destruct (Z.ltb_spec s t); zbool; f_equal; lia.
  - intros k Hk E. replace k with (Z.to_nat (Z.of_nat k)) in E by lia. rewrite trans_at in E by lia. injection E as E.
    unfold old_number in *. destruct (Z.ltb_spec s t), (Z.ltb_spec t (Z.of_nat k)), (Z.eqb_spec (Z.of_nat k) t); lia.
Qed.
Lemma master_is : master_send_stop trans = Z.to_nat t.
Proof using Hn Ht.
  unfold master_send_stop. destruct (list_find (λ t, t = -1) trans) as [[k x]|] eqn:E; cbn [fmap option_fmap option_map default from_option id fst].
  - apply list_find_Some in E as (Hk & -> & _). pose proof (lookup_lt_Some _ _ _ Hk) as Hl. rewrite trans_length in Hl.
    replace k with (Z.to_nat (Z.of_nat k)) in Hk by lia. rewrite trans_at in Hk by lia. injection Hk as Hk.
    destruct (Z.ltb_spec t (Z.of_nat k)), (Z.eqb_spec (Z.of_nat k) t); lia.
  - exfalso. apply list_find_None in E. rewrite Forall_lookup in E. apply (E (Z.to_nat t) (-1)); [|done]. rewrite trans_at by lia. zbool. done.
Qed.
Definition writers : list nat := List.filter (λ i, negb (default (-1) (trans !! i) =? -1)) (seq 0 (length trans)).
Lemma writers_are w : w ∈ writers ↔ (w < Z.to_nat n)%nat ∧ w ≠ Z.to_nat t.
Proof using Hn Ht.
  unfold writers. rewrite list_elem_of_In, filter_In, <- list_elem_of_In, elem_of_seq, trans_length. split.
  - intros [Hw E]. split; [lia|]. intros ->. rewrite trans_at in E by lia. revert E. zbool. done.
  - intros [Hw Hne]. split; [lia|]. replace w with (Z.to_nat (Z.of_nat w)) by lia. rewrite trans_at by lia. cbn [default from_option id].
    destruct (Z.ltb_spec t (Z.of_nat w)), (Z.eqb_spec (Z.of_nat w) t); try lia; apply negb_true_iff, Z.eqb_neq; lia.
Qed.
Lemma writers_nodup : NoDup writers.
Proof using Hn Ht. unfold writers. apply NoDup_ListNoDup, List.NoDup_filter, seq_NoDup. Qed.
End numbers.

(** ** The bytes that are received *)

Lemma write_at_inside f o d i x : (i < length d)%nat → d !! i = Some x → write_at f o d !! (Z.to_nat o + i)%nat = Some x.
Proof. intros Hi Hx. unfold write_at. destruct d as [|a d]; [done|]. by rewrite splice_inside. Qed.
Lemma write_at_outside f o d p x : f !! p = Some x → ¬ (Z.to_nat o <= p < Z.to_nat o + length d)%nat → write_at f o d !! p = Some x.
Proof. intros Hf Hp. unfold write_at. destruct d as [|a d]; [done|]. by apply splice_outside. Qed.
(** A message does not touch the place [p]. *)
Definition misses (p : nat) (m : Z * list ascii) : Prop := ¬ (Z.to_nat (m.1 ⊕ HEADER_SIZE) <= p < Z.to_nat (m.1 ⊕ HEADER_SIZE) + length m.2)%nat.
Lemma received_outside l f p x : f !! p = Some x → Forall (misses p) l → received l f !! p = Some x.
Proof.
  intros Hf Hl. revert f Hf. induction Hl as [|m l Hm _ IH]; intros f Hf; [done|]. apply IH. by apply write_at_outside.
Qed.
Lemma sent_to_app w l1 l2 : sent_to w (l1 ++ l2) = sent_to w l1 ++ sent_to w l2.
Proof. unfold sent_to. by rewrite List.filter_app, fmap_app. Qed.
Lemma sent_to_elem w l m : m ∈ sent_to w l → (w, m) ∈ l.
Proof.
  intros (y & -> & Hy)%list_elem_of_fmap. apply list_elem_of_In, filter_In in Hy as [Hy E%Nat.eqb_eq]. apply list_elem_of_In. destruct y as [w' m']. cbn in *. by subst.
Qed.
Lemma received_at {B} (g : B → nat * (Z * list ascii)) bl b w f i x :
  NoDup bl → b ∈ bl → (g b).1 = w → (g b).2.2 !! i = Some x →
  (∀ b2, b2 ∈ bl → b2 ≠ b → (g b2).1 = w → misses (Z.to_nat ((g b).2.1 ⊕ HEADER_SIZE) + i) (g b2).2) →
  received (sent_to w (g <$> bl)) f !! (Z.to_nat ((g b).2.1 ⊕ HEADER_SIZE) + i)%nat = Some x.
Proof.
  intros Hnd Hb Hw Hx Ho. apply list_elem_of_split in Hb as (l1 & l2 & ->). rewrite fmap_app, fmap_cons, sent_to_app.
  destruct (g b) as [w' m] eqn:Eg. cbn [fst snd] in *. subst w'. rewrite sent_to_cons, decide_True by done. unfold received. rewrite foldl_app. cbn [foldl].
  apply received_outside; [apply write_at_inside; [by eapply lookup_lt_Some|done]|]. apply Forall_forall. intros m2 Hm2.
  apply sent_to_elem, list_elem_of_fmap in Hm2 as (b2 & E2 & Hb2). specialize (Ho b2). rewrite <- E2 in Ho. apply Ho; [set_solver| |done].
  intros ->. apply NoDup_app in Hnd as (_ & _ & Hnd). by apply NoDup_cons in Hnd as [? _].
Qed.

(** ** The bytes of a file after the moves *)

Section bytes.
Context (m : xpn_metadata) (n rl fn bs t L A : Z) (d : list ascii) (hdr : Z → list ascii).
Context (Hm : expanded m 1) (Em : block_size m = bs ∧ replication_level m = rl ∧ first_node m = fn ∧ nv m 0 = n).
Context (Hn : 1 < n < 2 ^ 28) (Hrl : 0 <= rl < n) (Hbs : 0 < bs < 2 ^ 31) (Hfn : 0 <= fn < n) (Ht : 0 <= t < n) (Hhdr : ∀ s, Z.of_nat (length (hdr s)) = HEADER_SIZE).
Context (HA : blocks bs d <= A < 2 ^ 31) (HA' : (A + 2) * bs * (rl + 2) < 2 ^ 61).

Abbreviation own := (own n fn t).
Abbreviation mine := (mine n rl fn t).
Abbreviation slot := (slot rl).
Abbreviation blocks := (blocks bs d).
Abbreviation replica := (the_replica n rl fn t).
Abbreviation message := (block_message n rl fn bs t A d (trans n t)).
Definition messages : list (nat * (Z * list ascii)) := message <$> List.filter mine (seqZ 0 blocks).
Definition place_of (b : Z) : Z := new_slot n rl bs (b * bs) (replica b).

(** A message and the bytes of its block have the same place. *)
Lemma byte_of_block x j : 0 <= x < len d → 0 <= j <= rl → own (slot (x / bs) j) = true →
  let b := x / bs in
  mine b = true ∧ 0 <= b < blocks ∧ replica b = j ∧
  new_place n rl fn bs t A x j = (place_of b / (n - 1) * bs + x mod bs + top n rl bs A, (place_of b + fn) mod (n - 1)).
Proof using All.
  intros Hx Hj Ho. cbv zeta. zdm x bs. assert (0 <= x / bs) by (apply Z.div_pos; lia). set (b := x / bs) in *.
  assert (0 <= b < blocks) as Hb by (split; [done|]; apply (blocks_iff bs d); [lia|nia]).
  pose proof (the_replica_is n rl fn t b j Hrl Ht Hj Ho) as <-. split_and!; try done; try lia.
  - apply existsb_exists. exists (slot b j). split; [|done]. apply list_elem_of_In, list_elem_of_fmap. exists j. split; [done|]. apply elem_of_seqZ. lia.
  - unfold new_place, place_of. rewrite <- (the_replica_is n rl fn t b j Hrl Ht Hj Ho). unfold own, MigrateSpec.slot in Ho. fold b. rewrite Ho.
    unfold new_slot. fold b. rewrite Z.div_mul by lia. done.
Qed.

Lemma place_inj b b2 : mine b = true → mine b2 = true → place_of b = place_of b2 → b = b2.
Proof using All.
  intros H1 H2 E. destruct (mine_replica n rl fn t b Hrl Ht H1) as [Hj Ho], (mine_replica n rl fn t b2 Hrl Ht H2) as [Hj2 Ho2].
  destruct (own_slot n fn t ltac:(lia) Ht _ Ho) as (Es & Er & _), (own_slot n fn t ltac:(lia) Ht _ Ho2) as (Es2 & Er2 & _).
  unfold place_of, new_slot in E. rewrite !Z.div_mul in E by lia. rewrite Er in Es. rewrite Er2 in Es2. unfold MigrateSpec.slot in *.
  set (r := (b * (rl + 1) + replica b) / n) in *. set (r2 := (b2 * (rl + 1) + replica b2) / n) in *.
  assert (r = r2) as Err by (destruct (Z.lt_trichotomy r r2) as [?|[?|?]]; [|done|];
    [pose proof (Z.mul_le_mono_nonneg_r (r + 1) r2 (rl + 1)) | pose proof (Z.mul_le_mono_nonneg_r (r2 + 1) r (rl + 1))]; lia).
  rewrite Err in *. apply (Z.mul_reg_r _ _ (rl + 1)); lia.
Qed.
Lemma rows_differ p1 p2 k : 0 < k → p1 ≠ p2 → (p1 + fn) mod k = (p2 + fn) mod k → p1 / k ≠ p2 / k.
Proof using Type.
  clear. intros Hk Hne E Eq. apply Hne. zdm p1 k. zdm p2 k. zdm (p1 + fn) k. zdm (p2 + fn) k. rewrite Eq in *. rewrite E in *.
  set (u := (p1 + fn) / k) in *. set (v := (p2 + fn) / k) in *. assert (p1 - p2 = k * (u - v)) as Ed by lia.
  assert (- k < k * (u - v) < k) by lia. assert (u = v) as -> by nia. lia.
Qed.
Lemma message_is b : mine b = true → 0 <= b < blocks →
  message b = (Z.to_nat (old_number t ((place_of b + fn) mod (n - 1))), (place_of b / (n - 1) * bs + top n rl bs A, MigrateSpec.block bs d b)) ∧
  (place_of b / (n - 1) * bs + top n rl bs A) ⊕ HEADER_SIZE = place_of b / (n - 1) * bs + top n rl bs A + HEADER_SIZE ∧ 0 <= place_of b / (n - 1) * bs ∧ 0 <= top n rl bs A.
Proof using All.
  intros Hmi Hb. destruct (mine_replica n rl fn t b Hrl Ht Hmi) as [Hj Ho].
  destruct (byte_of_block (b * bs) (replica b)) as (_ & _ & _ & E).
  { split; [nia|]. apply (blocks_iff bs d); [lia|lia]. }
  { done. }
  { by rewrite Z.div_mul by lia. }
  rewrite Z.div_mul in E by lia. rewrite Z.mod_mul, Z.add_0_r in E by lia.
  destruct Em as (E1 & E2 & E3 & E4).
  destruct (new_bound m n rl fn bs t L A ltac:(done) Hbs Hn Hrl Hfn Ht ltac:(lia) HA' (b * bs) (replica b) ltac:(nia) ltac:(rewrite Z.div_mul; lia) Hj 0 0) as [B1 B2].
  destruct (top_small m n rl fn bs t L A ltac:(done) Hbs Hn Hrl Hfn Ht ltac:(lia) HA' (b * bs) (replica b) ltac:(nia) ltac:(rewrite Z.div_mul; lia) Hj 0 0) as [B3 _].
  fold (place_of b) in B1, B2. rewrite Z.mod_mul, Z.add_0_r in B2 by lia. split; [|split; [|done]].
  - unfold block_message. rewrite E. cbn [fst snd]. rewrite send_to; [done|done|done|]. apply Z.mod_pos_bound. lia.
  - apply i64_id. unfold HEADER_SIZE. lia.
Qed.
Lemma mine_elem b : b ∈ List.filter mine (seqZ 0 blocks) ↔ 0 <= b < blocks ∧ mine b = true.
Proof using All. rewrite list_elem_of_In, filter_In, <- list_elem_of_In, elem_of_seqZ. tauto. Qed.
Lemma messages_above w p : Z.of_nat p < top n rl bs A + HEADER_SIZE → Forall (misses p) (sent_to w messages).
Proof using All.
  intros Hp. apply Forall_forall. intros x Hx%sent_to_elem. apply list_elem_of_fmap in Hx as (b & E & [Hb Hmi]%mine_elem).
  destruct (message_is b Hmi Hb) as (Em1 & Eh & B1 & B2). rewrite Em1 in E. injection E as _ ->. unfold misses. cbn [fst snd]. rewrite Eh. unfold HEADER_SIZE in *. lia.
Qed.
(** The blocks of two messages for the same process are apart. *)
Lemma messages_apart b b2 i : mine b = true → mine b2 = true → 0 <= b < blocks → 0 <= b2 < blocks → b2 ≠ b → (message b2).1 = (message b).1 → Z.of_nat i < bs →
  misses (Z.to_nat ((message b).2.1 ⊕ HEADER_SIZE) + i) (message b2).2.
Proof using All.
  intros Hmi Hmi2 Hb Hb2 Hne Hw Hi. destruct (message_is b Hmi Hb) as (E & Eh & B1 & B2), (message_is b2 Hmi2 Hb2) as (E2 & Eh2 & B3 & _).
  rewrite E in Hw |- *. rewrite E2 in Hw |- *. cbn [fst snd] in *. unfold misses. cbn [fst snd]. rewrite Eh, Eh2.
  assert (0 < n - 1) as Hk by lia. pose proof (Z.mod_pos_bound (place_of b + fn) _ Hk). pose proof (Z.mod_pos_bound (place_of b2 + fn) _ Hk).
  assert ((place_of b + fn) mod (n - 1) = (place_of b2 + fn) mod (n - 1)) as Hs.
  { revert Hw H H0. generalize ((place_of b + fn) mod (n - 1)), ((place_of b2 + fn) mod (n - 1)). intros u v Hw H H0.
    destruct (old_number_range n t Hn Ht u ltac:(lia)) as [? _], (old_number_range n t Hn Ht v ltac:(lia)) as [? _].
    unfold old_number in *. destruct (Z.ltb_spec u t), (Z.ltb_spec v t); lia. }
  assert (place_of b ≠ place_of b2) as Hp by (intros Hp; apply Hne; symmetry; by apply place_inj).
  pose proof (rows_differ _ _ _ Hk Hp Hs) as Hr. pose proof (block_length bs d ltac:(lia) b2 ltac:(lia)) as Hl.
  set (r := place_of b / (n - 1)) in *. set (r2 := place_of b2 / (n - 1)) in *.
  assert (r * bs + bs <= r2 * bs ∨ r2 * bs + bs <= r * bs) by (destruct (Z.lt_ge_cases r r2); [left|right]; nia). unfold HEADER_SIZE in *. lia.
Qed.
Lemma byte_kept x j : 0 <= x < len d → 0 <= j <= rl →
  ∃ off s, XpnCalculateBlockMdata (shrunk m n t L A) x j 0 0 = Some (off, s) ∧ 0 <= off ∧ 0 <= s < n - 1 ∧
    received (sent_to (Z.to_nat (old_number t s)) messages) (stored_file n rl fn bs (old_number t s) d (hdr (old_number t s))) !! Z.to_nat (off + HEADER_SIZE) = d !! Z.to_nat x.
Proof using All.
  intros Hx Hj. zdm x bs. assert (0 <= x / bs) as Hb0 by (apply Z.div_pos; lia).
  assert (x / bs < blocks) as Hbl by (apply (blocks_iff bs d); [lia|nia]). destruct Em as (E1 & E2 & E3 & E4).
  destruct (place_bounds m n rl fn bs t L A ltac:(done) Hbs Hn Hrl Hfn Ht ltac:(lia) HA' x j ltac:(lia) ltac:(lia) Hj) as (_ & _ & B3 & B4 & _ & _ & _).
  pose proof (shrunk_place m n rl fn bs t L A ltac:(done) Hbs Hn Hrl Hfn Ht ltac:(lia) HA' x j ltac:(lia) ltac:(lia) Hj 0 0) as Ex.
  destruct (lookup_lt_is_Some_2 d (Z.to_nat x) ltac:(unfold len in *; lia)) as [c Ec]. rewrite Ec.
  destruct (own (slot (x / bs) j)) eqn:Ho.
  - destruct (byte_of_block x j Hx Hj Ho) as (Hmi & Hb & Hrep & Ep). cbv zeta in *. rewrite Ep in Ex.
    destruct (message_is (x / bs) Hmi Hb) as (Emsg & Eh & B1 & B2). eexists _, _. split; [exact Ex|]. split; [lia|].
    pose proof (Z.mod_pos_bound (place_of (x / bs) + fn) (n - 1) ltac:(lia)) as Hsr. split; [lia|].
    set (w := Z.to_nat (old_number t _)). set (b := x / bs) in *.
    replace (Z.to_nat (_ + x mod bs + _ + _)) with (Z.to_nat ((message b).2.1 ⊕ HEADER_SIZE) + Z.to_nat (x mod bs))%nat.
    2: { rewrite Emsg. cbn [fst snd]. rewrite Eh. unfold HEADER_SIZE. lia. }
    apply received_at.
    + apply NoDup_ListNoDup, List.NoDup_filter, NoDup_ListNoDup, NoDup_seqZ.
    + by apply mine_elem.
    + by rewrite Emsg.
    + rewrite Emsg. cbn [fst snd]. unfold MigrateSpec.block. rewrite read_at_byte by nia. rewrite <- Ec. f_equal. lia.
    + intros b2 [Hb2 Hmi2]%mine_elem Hne Hw2. apply messages_apart; try done; [by rewrite Emsg|lia].
  - unfold own, MigrateSpec.slot in Ho. unfold new_place in Ex. rewrite Ho in Ex. apply Z.eqb_neq in Ho.
    set (s := (x / bs * (rl + 1) + j + fn) mod n) in *. eexists _, _. split; [exact Ex|]. split; [lia|].
    assert (old_number t (if t <? s then s - 1 else s) = s) as ->.
    { unfold old_number. destruct (Z.ltb_spec t s); [rewrite (proj2 (Z.ltb_ge _ _)) by lia; lia|]. by rewrite (proj2 (Z.ltb_lt _ _)) by lia. }
    split; [destruct (Z.ltb_spec t s); lia|]. apply received_outside.
    + rewrite <- Ec. apply stored_byte; try done; lia.
    + apply messages_above. rewrite Z2Nat.id by (unfold HEADER_SIZE; lia). unfold top.
      assert ((x / bs * (rl + 1) + j) / n <= (A * (rl + 1) + rl) / n) by (apply Z.div_le_mono; [lia|]; pose proof (Z.mul_le_mono_nonneg_r (x / bs) A (rl + 1)); lia). nia.
Qed.
End bytes.

(** ** [copy] of a file *)

Section file.
Context (plen : nat) (junk : list ascii) (entry : cstr) (n t rl fn bs : Z) (pos : list Z) (disks : list disk) (m : xpn_metadata) (d : list ascii) (hdr : Z → list ascii).
Let name := drop plen entry.
Context (Hm : expanded m 1) (Em : block_size m = bs ∧ replication_level m = rl ∧ first_node m = fn ∧ nv m 0 = n).
Context (Hn : 1 < n < 2 ^ 28) (Hrl : 0 <= rl < n) (Ht : 0 <= t < n).
Context (Hpos : length pos = Z.to_nat n) (Hpt : pos !! Z.to_nat t = Some 0) (Hpo : ∀ k p, pos !! k = Some p → k ≠ Z.to_nat t → p = -1).
Context (Hmag : XPN_CHECK_MAGIC_NUMBER m = true) (Hmr : mdata_in_range m) (Hh : hash name n 1 = Some fn).
Context (Hfs : file_size m = len d) (Hbig : (len d + (3 * n + 6) * bs) * (rl + 2) < 2 ^ 61) (Hblk : len d / bs + 3 * n + 6 < 2 ^ 31).
Context (Hdisks : length disks = Z.to_nat n) (Hhdr : ∀ s, Z.of_nat (length (hdr s)) = HEADER_SIZE) (Hmd : ∃ rest, hdr fn = mdata_bytes m ++ rest).
Context (Hfiles : ∀ s, 0 <= s < n → has_file disks entry s (stored_file n rl fn bs s d (hdr s))).

Definition A0 : Z := Z.max (len d / bs) n + 1.
Definition old_files : list (list ascii) := (λ s, stored_file n rl fn bs s d (hdr s)) <$> seqZ 0 n.
Lemma sizes : 0 < bs < 2 ^ 31 ∧ 0 <= fn < n ∧ 0 <= len d / bs ∧ n < A0 ∧ (A0 + 2 * n + 1) * bs * (rl + 1) < 2 ^ 61 ∧ A0 + 2 * n + 1 < 2 ^ 31 ∧ blocks bs d <= len d / bs + 1 <= A0 ∧
  (len d + (n + 3) * bs) * (rl + 1) < 2 ^ 61 ∧ ∀ A, A <= A0 + 2 * n → (A + 2) * bs * (rl + 2) < 2 ^ 61.
Proof using All.
  destruct Em as (E1 & E2 & E3 & E4). destruct (ex_bs m 1 Hm) as [B1 B2]. pose proof (ex_fn m 1 Hm) as Hf. rewrite E1 in *. rewrite E3, E4 in Hf.
  assert (0 <= len d) by (unfold len; lia). zdm (len d) bs. assert (0 <= len d / bs) by (apply Z.div_pos; lia). unfold A0. set (q := len d / bs) in *.
  assert (∀ A, A <= Z.max q n + 1 + 2 * n → (A + 2) * bs * (rl + 2) < 2 ^ 61) as HA.
  { intros A HA. eapply Z.le_lt_trans; [apply (Z.mul_le_mono_nonneg_r _ (len d + (3 * n + 6) * bs)); [lia|]|exact Hbig].
    assert ((A + 2) * bs <= (q + 3 * n + 6) * bs) by (apply Z.mul_le_mono_nonneg_r; lia). lia. }
  assert ((Z.max q n + 1 + 2 * n + 1) * bs * (rl + 1) < 2 ^ 61) as HA2.
  { pose proof (HA (Z.max q n + 1 + 2 * n) ltac:(lia)) as HA3. eapply Z.le_lt_trans; [|exact HA3].
    assert (0 <= (Z.max q n + 1 + 2 * n + 1) * bs <= (Z.max q n + 1 + 2 * n + 2) * bs) by (split; [apply Z.mul_nonneg_nonneg|apply Z.mul_le_mono_nonneg_r]; lia).
    apply Z.mul_le_mono_nonneg; lia. }
  assert (blocks bs d <= q + 1).
  { unfold blocks. assert (len d + bs - 1 < (q + 2) * bs) by lia. apply Z.lt_succ_r, Z.div_lt_upper_bound; lia. }
  assert ((len d + (n + 3) * bs) * (rl + 1) <= (len d + (3 * n + 6) * bs) * (rl + 2)).
  { assert (0 <= (n + 3) * bs <= (3 * n + 6) * bs) by (split; [apply Z.mul_nonneg_nonneg|apply Z.mul_le_mono_nonneg_r]; lia). apply Z.mul_le_mono_nonneg; lia. }
  split_and!; first [done | lia].
Qed.

Lemma file_at s : 0 <= s < n → ∃ dk, disks !! Z.to_nat s = Some dk ∧ disk_files dk !! entry = Some (stored_file n rl fn bs s d (hdr s)).
Proof using Hfiles. intros Hs. destruct (Hfiles s Hs) as (dk & [_ Hk]%rdZ_lookup & Hf). by exists dk. Qed.
Lemma open_all : mapM (open_file entry) disks = Some old_files.
Proof using All.
  apply mapM_Some. apply Forall2_same_length_lookup_2.
  - unfold old_files. rewrite length_fmap, length_seqZ. done.
  - intros k dk f Hk Hf. unfold old_files in Hf. apply list_lookup_fmap_Some in Hf as (s & -> & (-> & Hs)%lookup_seqZ).
    destruct (file_at (0 + Z.of_nat k) ltac:(lia)) as (dk' & Hk' & Hf). replace (Z.to_nat (0 + Z.of_nat k)) with k in Hk' by lia.
    unfold open_file. assert (dk = dk') as -> by congruence. by rewrite Hf.
Qed.
Lemma pos_at k : (k < Z.to_nat n)%nat → pos !! k = Some (if decide (k = Z.to_nat t) then 0 else -1).
Proof using All.
  intros Hk. destruct (lookup_lt_is_Some_2 pos k ltac:(lia)) as [p Ep]. rewrite Ep. destruct (decide (k = Z.to_nat t)) as [->|Hne]; [congruence|]. by rewrite (Hpo k p).
Qed.
Lemma begin_run fuel : blocks bs d + n + 2 <= Z.of_nat fuel →
  ∃ L A, blocks bs d <= A <= A0 + 2 * n ∧
    shrink_begin plen n (n - 1) pos junk entry fuel disks =
      Some (shrunk m n t L A, trans n t, start_one (Z.to_nat t) (Z.to_nat n) (messages n rl fn bs t A d) (writers n t) old_files).
Proof using All.
  intros Hfuel. destruct sizes as (Hb & Hf & Hq & HA1 & HA2 & HA3 & HA4 & Hsz & HA5). destruct Em as (E1 & E2 & E3 & E4).
  assert (0 <= len d) by (unfold len; lia).
  destruct (shrink_confs_first m n rl fn bs t Hm Em Hn Hrl Ht A0 HA1 HA2 HA3 pos Hpos Hpt Hpo 38 (len d / bs) (seqZ 0 n)) as (L & A & HAr & EA); [|done|done|].
  { apply lookup_seqZ. lia. }
  exists (i32 L), A. split; [lia|]. unfold shrink_begin. fold name. rewrite Hh. cbn [mbind option_bind].
  destruct (file_at fn Hf) as (dk & Hk & Hfk). replace (rdZ disks fn) with (Some dk) by (symmetry; apply rdZ_lookup; split; [lia|done]). cbn [mbind option_bind].
  unfold read_mdata. rewrite Hfk. cbn [mbind option_bind]. unfold stored_file. destruct Hmd as [rest Hrest]. rewrite Hrest, <- (assoc_L (++)).
  rewrite read_at_mdata, mdata_read_back, Hmag by done. cbn [mbind option_bind].
  unfold shrink_mdata. rewrite E1, Hfs. zbool. rewrite quot_div, (i32_id (len d / bs)) by lia. rewrite EA. cbn [mbind option_bind].
  rewrite open_all. cbn [mbind option_bind].
  match goal with |- context [mapM ?g (zip ?l old_files)] => assert (mapM g (zip l old_files) = Some (<[Z.to_nat t := messages n rl fn bs t A d]> (replicate (Z.to_nat n) []))) as -> end.
  - apply mapM_Some. apply Forall2_same_length_lookup_2.
    + unfold old_files. rewrite length_insert, length_replicate, !length_zip_with, length_fmap, !length_seqZ. lia.
    + intros k [[z p] f] y (x' & f' & E & (z' & p' & E' & (-> & Hz)%lookup_seqZ & Hp)%lookup_zip_with_Some & Hf')%lookup_zip_with_Some Hy.
      injection E as <- <-. injection E' as -> ->. cbn [fst snd]. rewrite pos_at in Hp by lia. injection Hp as <-.
      apply list_lookup_fmap_Some in Hf' as (s & -> & (-> & _)%lookup_seqZ).
      destruct (decide (k = Z.to_nat t)) as [->|Hne].
      * rewrite list_lookup_insert_eq in Hy by (rewrite length_replicate; lia). injection Hy as <-. cbn [Z.eqb].
        replace (0 + Z.of_nat (Z.to_nat t)) with t by lia. cbn [shrunk with_confs block_size]. rewrite E1. replace (- bs) with ((0 - 1) * bs) by lia.
        rewrite (reader_sends m n rl fn bs t (i32 L) A d (hdr t) (trans n t) Hm Em Hn Hrl Hb Hf Ht (Hhdr t) Hfs ltac:(lia) (HA5 A ltac:(lia)) Hsz).
        -- unfold messages. by rewrite Z.sub_0_r.
        -- unfold shrink_fuel. rewrite E1, Hfs, quot_div by lia. lia.
        -- pose proof (blocks_nonneg bs d ltac:(lia)). lia.
        -- lia.
      * rewrite list_lookup_insert_ne in Hy by done. apply lookup_replicate in Hy as [-> _]. done.
  - cbn [mbind option_bind]. unfold start_one, writers. do 3 f_equal. apply list_eq. intros k. rewrite list_lookup_fmap.
    destruct (decide (k < Z.to_nat n)%nat) as [Hkn|Hkn].
    + rewrite pos_at by done. cbn [fmap option_fmap option_map]. destruct (decide (k = Z.to_nat t)) as [->|Hne].
      * by rewrite list_lookup_insert_eq by (rewrite length_replicate; lia).
      * by rewrite list_lookup_insert_ne, lookup_replicate_2 by done.
    + rewrite !lookup_ge_None_2; [done|rewrite length_insert, length_replicate; lia|lia].
Qed.

(** What the process of the server [v] of the new configuration has in the end. *)
Context (h : Z) (Hnew : hash name (n - 1) 1 = Some h) (Hh' : 0 <= h < n - 1).
Definition moved (A v : Z) : list ascii :=
  received (sent_to (Z.to_nat (old_number t v)) (messages n rl fn bs t A d)) (stored_file n rl fn bs (old_number t v) d (hdr (old_number t v))).
Definition finished (L A v : Z) : list ascii :=
  if holds_copy h rl n v then write_at (moved A v) 0 (mdata_bytes (shrunk m n t L A)) else moved A v.
Lemma moves_end L A s :
  (∀ w f0, w ∈ writers n t → old_files !! w = Some f0 → files s !! w = Some (received (sent_to w (messages n rl fn bs t A d)) f0)) →
  ∃ disks', shrink_end plen n (n - 1) pos entry (shrunk m n t L A) (trans n t) s disks = Some disks' ∧ length disks' = length disks ∧
    (∀ v, 0 <= v < n - 1 → has_file (delete (Z.to_nat t) disks') entry v (finished L A v)) ∧
    ∀ dk, disks' !! Z.to_nat t = Some dk → disk_files dk !! entry = None.
Proof using All.
  intros Hs. unfold shrink_end. fold name. rewrite Hnew. cbn [mbind option_bind]. eexists. split; [done|]. split; [by rewrite length_imap|]. split.
  - intros v Hv. destruct (old_number_range n t Hn Ht v Hv) as [Ho Hne]. destruct (file_at (old_number t v) Ho) as (dk & Hk & Hf).
    eexists. split.
    + apply rdZ_lookup. split; [lia|]. assert (∀ D : list disk, delete (Z.to_nat t) D !! Z.to_nat v = D !! Z.to_nat (old_number t v)) as ->.
      { intros D. unfold old_number. destruct (Z.ltb_spec v t); [apply list_lookup_delete_lt; lia|]. rewrite list_lookup_delete_ge by lia. f_equal. lia. }
      rewrite list_lookup_imap, Hk. reflexivity.
    + rewrite pos_at, decide_False by lia. cbn [default from_option id Z.eqb Pos.eqb negb]. rewrite trans_at by lia. cbn [default from_option id].
      assert ((if t <? old_number t v then old_number t v - 1 else if old_number t v =? t then -1 else old_number t v) = v) as ->.
      { unfold old_number in *. destruct (Z.ltb_spec v t); zbool; [done|lia]. }
      cbn [disk_files]. rewrite lookup_insert_eq. unfold finished. destruct Em as (_ & E2 & _). cbn [shrunk with_confs replication_level]. rewrite E2.
      rewrite (Hs (Z.to_nat (old_number t v)) (stored_file n rl fn bs (old_number t v) d (hdr (old_number t v)))); [done|apply writers_are; lia|].
      unfold old_files. rewrite list_lookup_fmap, lookup_seqZ_lt by lia. cbn [fmap option_fmap option_map]. do 2 f_equal; [lia|f_equal; lia].
  - intros dk Hdk. rewrite list_lookup_imap in Hdk. destruct (file_at t Ht) as (dk0 & Hk0 & _). rewrite Hk0, pos_at, decide_True in Hdk by lia.
    injection Hdk as <-. cbn [disk_files]. apply lookup_delete_eq.
Qed.

Lemma shrunk_header L A : mdata_bytes (shrunk m n t L A) ≠ [] ∧ Z.of_nat (length (mdata_bytes (shrunk m n t L A))) = SIZEOF_MDATA.
Proof using All.
  destruct Hmr as [[M1 _] _ _ _ _]. pose proof (mdata_bytes_length (shrunk m n t L A) M1 eq_refl eq_refl) as Hl. split; [|done]. intros E. by rewrite E in Hl.
Qed.
Lemma finished_bytes L A disks' : blocks bs d <= A <= A0 + 2 * n →
  (∀ v, 0 <= v < n - 1 → has_file disks' entry v (finished L A v)) →
  ∀ x j, 0 <= x < len d → 0 <= j <= rl →
    ∃ off s f, XpnCalculateBlockMdata (shrunk m n t L A) x j 0 0 = Some (off, s) ∧ 0 <= off ∧ has_file disks' entry s f ∧ f !! Z.to_nat (off + HEADER_SIZE) = d !! Z.to_nat x.
Proof using All.
  intros HA Hv x j Hx Hj. destruct sizes as (Hb & Hf & Hq & HA1 & HA2 & HA3 & HA4 & Hsz & HA5).
  destruct (byte_kept m n rl fn bs t L A d hdr Hm Em Hn Hrl Hb Hf Ht Hhdr ltac:(lia) (HA5 A ltac:(lia)) x j Hx Hj) as (off & s & E & Hoff & Hs & Eb).
  exists off, s, (finished L A s). split; [done|]. split; [done|]. split; [by apply Hv|]. unfold finished. fold (moved A s) in Eb.
  destruct (holds_copy h rl n s); [|done]. destruct (lookup_lt_is_Some_2 d (Z.to_nat x) ltac:(unfold len in *; lia)) as [c Ec]. rewrite Ec in *.
  apply write_at_past; [|done]. destruct (shrunk_header L A) as [_ Hl]. unfold SIZEOF_MDATA, HEADER_SIZE in *. lia.
Qed.
(** A run, from the beginning to the end. *)
Lemma whole_run fuel : blocks bs d + n + 2 <= Z.of_nat fuel →
  ∃ L A start, blocks bs d <= A <= A0 + 2 * n ∧ shrink_begin plen n (n - 1) pos junk entry fuel disks = Some (shrunk m n t L A, trans n t, start) ∧
    ∀ k s, nsteps (move (master_send_stop (trans n t))) k start s →
      Z.of_nat k <= 2 * (blocks bs d + n) ∧
      ((∀ s', ¬ move (master_send_stop (trans n t)) s s') →
        ∃ disks', shrink_end plen n (n - 1) pos entry (shrunk m n t L A) (trans n t) s disks = Some disks' ∧
          (∀ v, 0 <= v < n - 1 → has_file (delete (Z.to_nat t) disks') entry v (finished L A v)) ∧
          ∀ dk, disks' !! Z.to_nat t = Some dk → disk_files dk !! entry = None).
Proof using All.
  intros Hfuel. destruct (begin_run fuel Hfuel) as (L & A & HA & E). destruct sizes as (Hb & Hf & Hq & HA1 & HA2 & HA3 & HA4 & Hsz & HA5).
  eexists L, A, _. split; [done|]. split; [exact E|]. intros k s Hrun. rewrite master_is in * by done.
  destruct (one_leaver (Z.to_nat t) (Z.to_nat n) (messages n rl fn bs t A d) (writers n t) old_files k s) as [Hk Hend]; [lia| | | | |exact Hrun|].
  - unfold old_files. by rewrite length_fmap, length_seqZ.
  - intros w. by apply writers_are.
  - by apply writers_nodup.
  - apply Forall_forall. intros x (b & -> & [Hbr Hmi]%(mine_elem m n rl fn bs t L A d hdr Hm Em Hn Hrl Hb Hf Ht Hhdr ltac:(lia) (HA5 A ltac:(lia))))%list_elem_of_fmap.
    destruct (message_is m n rl fn bs t L A d hdr Hm Em Hn Hrl Hb Hf Ht Hhdr ltac:(lia) (HA5 A ltac:(lia)) b Hmi Hbr) as [-> _]. cbn [fst]. apply writers_are; [done|done|].
    destruct (old_number_range n t Hn Ht _ (Z.mod_pos_bound (place_of n rl fn bs t b + fn) (n - 1) ltac:(lia))). lia.
  - split.
    + unfold messages, writers in Hk. rewrite length_fmap in Hk.
      pose proof (List.filter_length_le (mine n rl fn t) (seqZ 0 (blocks bs d))) as H1. rewrite length_seqZ in H1.
      pose proof (List.filter_length_le (λ i, negb (default (-1) (trans n t !! i) =? -1)) (seq 0 (length (trans n t)))) as H2. rewrite length_seq in H2. rewrite trans_length in Hk, H2 by done.
      pose proof (blocks_nonneg bs d ltac:(lia)). lia.
    + intros Hno. destruct (moves_end L A s) as (disks' & E' & _ & Hv & Ht'); [intros w f0 Hw Hf0; by apply Hend|]. by exists disks'.
Qed.

(** C9: xpn_shrink of one server keeps a file.  The file was never expanded and its
    servers have its blocks, as xpn_preload and the library put them.  The processes
    compute metadata with the configuration of [n - 1] servers; every run of their
    moves ends; and in the end the servers that stay keep the file, under their new
    numbers and with the new metadata, and the one that leaves has it no more.  The
    copies of the metadata must not reach the last server (see
    [shrink_drops_copy]). *)
Theorem shrink_keeps_file fuel : blocks bs d + n + 2 <= Z.of_nat fuel → h + rl < n - 1 →
  ∃ m' start, shrink_begin plen n (n - 1) pos junk entry fuel disks = Some (m', trans n t, start) ∧
    ∀ k s, nsteps (move (master_send_stop (trans n t))) k start s →
      Z.of_nat k <= 2 * (blocks bs d + n) ∧
      ((∀ s', ¬ move (master_send_stop (trans n t)) s s') →
        ∃ disks', shrink_end plen n (n - 1) pos entry m' (trans n t) s disks = Some disks' ∧
          kept (n - 1) name entry (delete (Z.to_nat t) disks') m' d ∧
          ∀ dk, disks' !! Z.to_nat t = Some dk → disk_files dk !! entry = None).
Proof using All.
  intros Hfuel Hcopies. destruct (whole_run fuel Hfuel) as (L & A & start & HA & E & Hrun). exists (shrunk m n t L A), start. split; [done|].
  intros k s Hk. destruct (Hrun k s Hk) as [Hle Hend]. split; [done|]. intros Hno. destruct (Hend Hno) as (disks' & E' & Hv & Hgone).
  exists disks'. split; [done|]. split; [|done]. destruct Em as (E1 & E2 & E3 & E4). split; cbn [shrunk with_confs replication_level]; rewrite E2.
  - intros i Hi. eexists h, _. split; [done|]. rewrite (Z.mod_small (h + i)) by lia. specialize (Hv (h + i) ltac:(lia)). unfold finished in Hv.
    pose proof (holds_copy_at h rl n i ltac:(lia) ltac:(lia) Hi ltac:(lia)) as Hc. rewrite Z.mod_small in Hc by lia. rewrite Hc in Hv.
    rewrite write_at_0 in Hv by apply shrunk_header. exact Hv.
  - intros x j Hx Hj. by apply (finished_bytes L A).
Qed.

(** C40: the metadata loses its last copy when the copies reach the last server: the
    place of the copy is computed modulo the old number of servers, so that no
    process writes it.  The server that the library reads it from keeps the header
    that it had. *)
Theorem shrink_drops_copy fuel : blocks bs d + n + 2 <= Z.of_nat fuel → 0 < rl < n - 1 → n - 1 <= h + rl →
  let v := (h + rl) mod (n - 1) in
  ∃ m' start, shrink_begin plen n (n - 1) pos junk entry fuel disks = Some (m', trans n t, start) ∧
    ∀ k s, nsteps (move (master_send_stop (trans n t))) k start s → (∀ s', ¬ move (master_send_stop (trans n t)) s s') →
      ∃ disks' f, shrink_end plen n (n - 1) pos entry m' (trans n t) s disks = Some disks' ∧
        has_file (delete (Z.to_nat t) disks') entry v f ∧ take (Z.to_nat HEADER_SIZE) f = hdr (old_number t v).
Proof using All.
  intros Hfuel Hrl' Hlast v. assert (v = h + rl - (n - 1)) as Ev.
  { unfold v. symmetry. apply (Z.mod_unique_pos _ _ 1); lia. }
  destruct (whole_run fuel Hfuel) as (L & A & start & HA & E & Hrun). exists (shrunk m n t L A), start. split; [done|].
  intros k s Hk Hno. destruct (Hrun k s Hk) as [_ Hend]. destruct (Hend Hno) as (disks' & E' & Hv & _).
  exists disks', (moved A v). split; [done|]. split.
  - specialize (Hv v ltac:(lia)). unfold finished in Hv. assert (holds_copy h rl n v = false) as Hc; [|by rewrite Hc in Hv].
    apply not_true_iff_false. intros (i & Hi & Ei)%existsb_exists. apply list_elem_of_In, elem_of_seqZ in Hi. apply Z.eqb_eq in Ei.
    rewrite i32_id, Z.rem_mod_nonneg in Ei by lia. destruct (decide (h + i < n)); [rewrite Z.mod_small in Ei by lia; lia|].
    rewrite <- (Z.mod_unique_pos (h + i) n 1 (h + i - n)) in Ei by lia. lia.
  - apply list_eq. intros p. destruct sizes as (Hb & Hf & Hq & HA1 & HA2 & HA3 & HA4 & Hsz & HA5). pose proof (Hhdr (old_number t v)) as Hl.
    destruct (decide (p < Z.to_nat HEADER_SIZE)%nat) as [Hp|Hp].
    + rewrite lookup_take_lt by done. destruct (lookup_lt_is_Some_2 (hdr (old_number t v)) p ltac:(lia)) as [c Ec]. rewrite Ec.
      apply received_outside; [unfold stored_file; by apply lookup_app_l_Some|].
      apply (messages_above m n rl fn bs t L A d hdr Hm Em Hn Hrl Hb Hf Ht Hhdr ltac:(lia) (HA5 A ltac:(lia))).
      unfold top. assert (0 <= (A * (rl + 1) + rl) / n) by (apply Z.div_pos; [|lia]; pose proof (blocks_nonneg bs d ltac:(lia)); nia). nia.
    + rewrite !lookup_ge_None_2; [done|lia|rewrite length_take; lia].
Qed.
End file.

(** ** Samples: twelve bytes in blocks of four *)

Definition sample (n rl fn : Z) : xpn_metadata := XpnMetadata XPN_MAGIC_NUMBER 1 0 4 12 rl fn 1 (n :: replicate 39 0) (replicate 40 0).
Definition sample_hdr (n rl fn s : Z) : list ascii :=
  if s =? fn then mdata_bytes (sample n rl fn) ++ replicate (Z.to_nat (HEADER_SIZE - SIZEOF_MDATA)) NUL else replicate (Z.to_nat HEADER_SIZE) NUL.
Definition sample_disks (n rl fn : Z) (entry : cstr) : list disk :=
  (λ s, Disk {[entry := stored_file n rl fn 4 s (str "twelve bytes") (sample_hdr n rl fn s)]} {[str "/m"]}) <$> seqZ 0 n.
Section sample.
Context (n rl fn : Z) (entry : cstr) (Hn : 1 < n < 2 ^ 28) (Hrl : 0 <= rl < n) (Hfn : 0 <= fn < n).
Lemma shrink_sample_expanded : expanded (sample n rl fn) 1.
Proof using Hn Hrl Hfn.
  split; try (cbn; lia).
  - intros [|k] Hk; cbn; lia.
  - intros [|k] Hk; [lia|]. apply (nth_replicate_eq k 39).
  - intros [|k] Hk; [lia|]. apply (nth_replicate_eq (S k) 40).
Qed.
Lemma sample_range : mdata_in_range (sample n rl fn).
Proof using Hn Hrl Hfn. split; cbn; try (split; [reflexivity|]); repeat constructor; lia. Qed.
Lemma sample_hdr_length s : Z.of_nat (length (sample_hdr n rl fn s)) = HEADER_SIZE.
Proof using Hn Hrl Hfn.
  unfold sample_hdr. destruct (s =? fn); [|by rewrite length_replicate].
  pose proof (mdata_bytes_length (sample n rl fn) eq_refl eq_refl eq_refl) as H. rewrite length_app, length_replicate, Nat2Z.inj_add, H. done.
Qed.
Lemma sample_files s : 0 <= s < n →
  has_file (sample_disks n rl fn entry) entry s (stored_file n rl fn 4 s (str "twelve bytes") (sample_hdr n rl fn s)).
Proof using Hn Hrl Hfn.
  intros Hs. eexists. split.
  - apply rdZ_lookup. split; [lia|]. unfold sample_disks. rewrite list_lookup_fmap, lookup_seqZ_lt by lia. rewrite Z2Nat.id, Z.add_0_l by lia. reflexivity.
  - apply lookup_singleton_eq.
Qed.
Lemma sample_header : ∃ rest, sample_hdr n rl fn fn = mdata_bytes (sample n rl fn) ++ rest.
Proof using Hn Hrl Hfn. unfold sample_hdr. rewrite Z.eqb_refl. by eexists. Qed.
Lemma sample_length : length (sample_disks n rl fn entry) = Z.to_nat n.
Proof using Hn Hrl Hfn. unfold sample_disks. by rewrite length_fmap, length_seqZ. Qed.
End sample.
Lemma first_leaves k : ∀ i p, (0 :: replicate k (-1)) !! i = Some p → i ≠ Z.to_nat 0 → p = -1.
Proof. intros [|i] p E Hi; [done|]. by apply lookup_replicate in E as [-> _]. Qed.

Lemma shrink_keeps_file_witness :
  ∃ m' start, shrink_begin 2 3 (3 - 1) [0; -1; -1] [] (str "/m/g") 10 (sample_disks 3 0 1 (str "/m/g")) = Some (m', trans 3 0, start) ∧
    ∀ k s, nsteps (move (master_send_stop (trans 3 0))) k start s →
      Z.of_nat k <= 2 * (blocks 4 (str "twelve bytes") + 3) ∧
      ((∀ s', ¬ move (master_send_stop (trans 3 0)) s s') →
        ∃ disks', shrink_end 2 3 (3 - 1) [0; -1; -1] (str "/m/g") m' (trans 3 0) s (sample_disks 3 0 1 (str "/m/g")) = Some disks' ∧
          kept (3 - 1) (str "/g") (str "/m/g") (delete (Z.to_nat 0) disks') m' (str "twelve bytes") ∧
          ∀ dk, disks' !! Z.to_nat 0 = Some dk → disk_files dk !! str "/m/g" = None).
Proof.
  eapply (shrink_keeps_file 2 [] (str "/m/g") 3 0 0 1 4 [0; -1; -1] (sample_disks 3 0 1 (str "/m/g")) (sample 3 0 1) (str "twelve bytes") (sample_hdr 3 0 1)
    ltac:(apply shrink_sample_expanded; lia)); try reflexivity; try (vm_compute; lia); try lia; try zcalc.
  - apply (first_leaves 2).
  - apply sample_range; lia.
  - intros s. apply sample_hdr_length; lia.
  - apply sample_header; lia.
  - intros s Hs. apply sample_files; lia.
Defined.

Lemma shrink_drops_copy_witness :
  ∃ m' start, shrink_begin 2 4 (4 - 1) [0; -1; -1; -1] [] (str "/m/e") 12 (sample_disks 4 1 1 (str "/m/e")) = Some (m', trans 4 0, start) ∧
    ∀ k s, nsteps (move (master_send_stop (trans 4 0))) k start s → (∀ s', ¬ move (master_send_stop (trans 4 0)) s s') →
      ∃ disks' f, shrink_end 2 4 (4 - 1) [0; -1; -1; -1] (str "/m/e") m' (trans 4 0) s (sample_disks 4 1 1 (str "/m/e")) = Some disks' ∧
        has_file (delete (Z.to_nat 0) disks') (str "/m/e") ((2 + 1) mod (4 - 1)) f ∧ take (Z.to_nat HEADER_SIZE) f = sample_hdr 4 1 1 (old_number 0 ((2 + 1) mod (4 - 1))).
Proof.
  eapply (shrink_drops_copy 2 [] (str "/m/e") 4 0 1 1 4 [0; -1; -1; -1] (sample_disks 4 1 1 (str "/m/e")) (sample 4 1 1) (str "twelve bytes") (sample_hdr 4 1 1)
    ltac:(apply shrink_sample_expanded; lia)); try reflexivity; try (vm_compute; lia); try lia; try zcalc.
  - apply (first_leaves 3).
  - apply sample_range; lia.
  - intros s. apply sample_hdr_length; lia.
  - apply sample_header; lia.
  - intros s Hs. apply sample_files; lia.
Defined.
