(* ===== verification/Active.v ===== *)
(** * Active: moving a partition without rounds

    src/src/utils/xpn_rebuild_active_writer.c, in which the processes of the new
    servers ask those of the old ones for their blocks, and
    xpn_rebuild_active_reader.c, in which the processes of the old servers send theirs.
    A process receives from any source, so the two are transition systems; the
    messages from one process to another, with one tag, arrive in order, and
    [MPI_Send] does not wait for the receiver.  What is not a message of the loop is
    as in [Rebuild]. *)

From S2P Require Import Prelude Cstr Layout MemFs Migrate Rebuild Shrink.

(** ** The ranks *)

(** The loops of main that remove duplicates: of the processes with the same rank, the
    first one is on the new server, the last one on the old server. *)
Definition remove_duplicates (ranks : list Z) : list Z :=
  foldl (λ l i, imap (λ j y, if (i <? j)%nat && negb (y =? -1) && bool_decide (l !! i = Some y) then -1 else y) l)
    ranks (seq 0 (length ranks)).
Definition remove_duplicates_old (ranks : list Z) : list Z := reverse (remove_duplicates (reverse ranks)).

(** What a process that is not the master does in [list]: it follows the master into
    the directories. *)
Fixpoint list_follower (fuel : nat) (l : list collective) : option (list (cstr * bool) * list collective) :=
  match fuel with
  | O => None
  | S fuel =>
    match l with
    | C_loop false :: rest => Some ([], rest)
    | C_loop true :: C_entry path f :: C_copy path' f' :: rest =>
      if bool_decide (path = path' ∧ f = f') then
        '(inside, rest) ← (if f then Some ([], rest) else list_follower fuel rest);
        '(after, rest) ← list_follower fuel rest;
        Some ((path, f) :: inside ++ after, rest)
      else None
    | _ => None
    end
  end.

Section active.
Context (blocksize replication_level old_size new_size : Z).
Context (rank_actual_to_old rank_actual_to_new rank_old_to_actual rank_new_to_actual : list Z).
(** The files of the old servers. *)
Context (srcs : list (option (list ascii))).

Definition reads (p : nat) : bool := negb (default (-1) (rank_actual_to_old !! p) =? -1).
Definition writes (p : nat) : bool := negb (default (-1) (rank_actual_to_new !! p) =? -1).
(** The place of a block in the other configuration, and the process that has it;
    [None] is a division by zero or a send to no process. *)
Definition other_place (size other_size rank offset : Z) (to_actual : list Z) : option (nat * Z) :=
  if (blocksize =? 0) || (size =? 0) || (other_size =? 0) then None else
  let '(offset_real, replication) := XpnCalculateBlockInvert blocksize replication_level size rank offset 0 in
  let '(other_offset, other_rank) := XpnCalculateBlock blocksize replication_level other_size offset_real replication 0 in
  p ← rdZ to_actual other_rank;
  if p <? 0 then None else Some (Z.to_nat p, other_offset).
(** The last process of the first server. *)
Definition master_of (ranks : list Z) : nat :=
  foldl (λ m '(i, r), if r =? 0 then i else m) 0%nat (zip (seq 0 (length ranks)) ranks).
(** The offset that stops the others, and the master's messages with it. *)
Definition no_more : Z := -666.
Definition send_each {A} (x : A) (master : nat) (to : nat → bool) (size : nat) (q : gmap (nat * nat) (list A)) : gmap (nat * nat) (list A) :=
  foldl (λ q i, if to i then <[(master, i) := default [] (q !! (master, i)) ++ [x]]> q else q) q (seq 0 size).

(** ** xpn_rebuild_active_writer.c *)

(** A process is at the top of its loop, after the part for old servers, or waits for
    the answer of another one; or it has left the loop. *)
Inductive pull_pc := P_top (offset_dest : Z) | P_write (offset_dest : Z) | P_wait (offset_dest : Z) (from : nat) | P_left.
(** The offsets that are asked for and the blocks that are sent back, on their way;
    the new files; whether the master has told the others to stop. *)
Record pull_state := Pull {
  pull_pcs : list pull_pc;
  requests : gmap (nat * nat) (list Z);
  answers : gmap (nat * nat) (list (list ascii));
  pull_files : list (list ascii);
  pull_stopped : bool }.
Definition asked (s : pull_state) (k : nat * nat) : list Z := default [] (requests s !! k).
Definition answered (s : pull_state) (k : nat * nat) : list (list ascii) := default [] (answers s !! k).
(** Where the part for new servers begins. *)
Definition may_ask (p : nat) (pc : pull_pc) : option Z :=
  match pc with
  | P_write off => Some off
  | P_top off => if reads p then None else Some off
  | _ => None
  end.
Definition ask (p : nat) (offset_dest : Z) : option (nat * Z) :=
  rank ← rank_actual_to_new !! p; other_place new_size old_size rank offset_dest rank_old_to_actual.
Inductive pull : pull_state → pull_state → Prop :=
| pull_serve s p src off rest off_dest f :
    pull_pcs s !! p = Some (P_top off_dest) → reads p = true → asked s (src, p) = off :: rest → off ≠ no_more →
    0 <= off ⊕ HEADER_SIZE → srcs !! p = Some (Some f) →
    pull s (Pull (<[p := P_write off_dest]> (pull_pcs s)) (<[(src, p) := rest]> (requests s))
      (<[(p, src) := answered s (p, src) ++ [read_at f (off ⊕ HEADER_SIZE) blocksize]]> (answers s)) (pull_files s) (pull_stopped s))
| pull_quit s p src rest off_dest :
    pull_pcs s !! p = Some (P_top off_dest) → reads p = true → asked s (src, p) = no_more :: rest →
    pull s (Pull (<[p := P_left]> (pull_pcs s)) (<[(src, p) := rest]> (requests s)) (answers s) (pull_files s) (pull_stopped s))
| pull_skip s p pc off_dest :
    pull_pcs s !! p = Some pc → may_ask p pc = Some off_dest → writes p = false →
    pull s (Pull (<[p := P_top (off_dest ⊕ blocksize)]> (pull_pcs s)) (requests s) (answers s) (pull_files s) (pull_stopped s))
| pull_ask s p pc off_dest q off :
    pull_pcs s !! p = Some pc → may_ask p pc = Some off_dest → writes p = true → ask p off_dest = Some (q, off) →
    pull s (Pull (<[p := P_wait off_dest q]> (pull_pcs s)) (<[(p, q) := asked s (p, q) ++ [off]]> (requests s))
      (answers s) (pull_files s) (pull_stopped s))
| pull_write s p off_dest q buf rest f :
    pull_pcs s !! p = Some (P_wait off_dest q) → answered s (q, p) = buf :: rest → buf ≠ [] → 0 <= off_dest ⊕ HEADER_SIZE →
    pull_files s !! p = Some f →
    pull s (Pull (<[p := P_top (off_dest ⊕ blocksize)]> (pull_pcs s)) (requests s) (<[(q, p) := rest]> (answers s))
      (<[p := write_at f (off_dest ⊕ HEADER_SIZE) buf]> (pull_files s)) (pull_stopped s))
| pull_end s p off_dest q rest :
    pull_pcs s !! p = Some (P_wait off_dest q) → answered s (q, p) = [] :: rest →
    pull s (Pull (<[p := P_left]> (pull_pcs s)) (requests s) (<[(q, p) := rest]> (answers s)) (pull_files s) (pull_stopped s))
| pull_stop s :
    pull_stopped s = false → pull_pcs s !! master_of rank_actual_to_new = Some P_left →
    (writes (master_of rank_actual_to_new) = true → ∀ p pc, pull_pcs s !! p = Some pc → writes p = true → pc = P_left) →
    pull s (Pull (pull_pcs s) (send_each no_more (master_of rank_actual_to_new) reads (length (pull_pcs s)) (requests s))
      (answers s) (pull_files s) true).

Definition pull_start : pull_state :=
  Pull ((λ _, P_top 0) <$> srcs) ∅ ∅ (replicate (length srcs) (replicate (Z.to_nat HEADER_SIZE) NUL)) false.

(** ** xpn_rebuild_active_reader.c *)

Inductive push_pc := S_top (offset_src : Z) | S_recv (offset_src : Z) | S_left.
Record push_state := Push {
  push_pcs : list push_pc;
  blocks_sent : gmap (nat * nat) (list shrink_msg);
  push_files : list (list ascii);
  push_stopped : bool }.
Definition sent (s : push_state) (k : nat * nat) : list shrink_msg := default [] (blocks_sent s !! k).
Definition may_recv (p : nat) (pc : push_pc) : option Z :=
  match pc with
  | S_recv off => Some off
  | S_top off => if reads p then None else Some off
  | S_left => None
  end.
Definition destination (p : nat) (offset_src : Z) : option (nat * Z) :=
  rank ← rank_actual_to_old !! p; other_place old_size new_size rank offset_src rank_new_to_actual.
Inductive push : push_state → push_state → Prop :=
| push_send s p off f q dst :
    push_pcs s !! p = Some (S_top off) → reads p = true → srcs !! p = Some (Some f) → 0 <= off ⊕ HEADER_SIZE →
    read_at f (off ⊕ HEADER_SIZE) blocksize ≠ [] → destination p off = Some (q, dst) →
    push s (Push (<[p := S_recv off]> (push_pcs s))
      (<[(p, q) := sent s (p, q) ++ [Block dst (read_at f (off ⊕ HEADER_SIZE) blocksize)]]> (blocks_sent s)) (push_files s) (push_stopped s))
| push_end s p off f :
    push_pcs s !! p = Some (S_top off) → reads p = true → srcs !! p = Some (Some f) → 0 <= off ⊕ HEADER_SIZE →
    read_at f (off ⊕ HEADER_SIZE) blocksize = [] →
    push s (Push (<[p := S_left]> (push_pcs s)) (blocks_sent s) (push_files s) (push_stopped s))
| push_skip s p pc off :
    push_pcs s !! p = Some pc → may_recv p pc = Some off → writes p = false →
    push s (Push (<[p := S_top (off ⊕ blocksize)]> (push_pcs s)) (blocks_sent s) (push_files s) (push_stopped s))
| push_write s src p pc off dst buf rest f :
    push_pcs s !! p = Some pc → may_recv p pc = Some off → writes p = true → sent s (src, p) = Block dst buf :: rest →
    0 <= dst ⊕ HEADER_SIZE → push_files s !! p = Some f →
    push s (Push (<[p := S_top (off ⊕ blocksize)]> (push_pcs s)) (<[(src, p) := rest]> (blocks_sent s))
      (<[p := write_at f (dst ⊕ HEADER_SIZE) buf]> (push_files s)) (push_stopped s))
| push_quit s src p pc off rest :
    push_pcs s !! p = Some pc → may_recv p pc = Some off → writes p = true → sent s (src, p) = Stop :: rest →
    push s (Push (<[p := S_left]> (push_pcs s)) (<[(src, p) := rest]> (blocks_sent s)) (push_files s) (push_stopped s))
| push_stop s :
    push_stopped s = false → push_pcs s !! master_of rank_actual_to_old = Some S_left →
    (reads (master_of rank_actual_to_old) = true → ∀ p pc, push_pcs s !! p = Some pc → reads p = true → pc = S_left) →
    push s (Push (push_pcs s) (send_each Stop (master_of rank_actual_to_old) writes (length (push_pcs s)) (blocks_sent s)) (push_files s) true).

Definition push_start : push_state :=
  Push ((λ _, S_top 0) <$> srcs) ∅ (replicate (length srcs) (replicate (Z.to_nat HEADER_SIZE) NUL)) false.
(** What is at the path of the file for each process, in the end. *)
Definition new_files (files : list (list ascii)) : list (option (list ascii)) :=
  zip_with (λ r f, if r =? -1 then None else Some f) rank_actual_to_new files.
End active.
