(* ===== verification/ActiveSpec.v ===== *)
(** * ActiveSpec: the processes of the new servers get what they ask for

    In xpn_rebuild_active_writer every schedule leads to the files of xpn_rebuild,
    when no process is on an old and on a new server. *)

From stdpp Require Import relations.
From S2P Require Import Prelude Cstr Layout MemFs Migrate MigrateSpec Rebuild RebuildSpec Shrink Active.

(** ** Queues *)

Lemma queue_eq {A} (m : gmap (nat * nat) (list A)) k v : default [] (<[k := v]> m !! k) = v.
Proof. by rewrite lookup_insert_eq. Qed.
Lemma queue_ne {A} (m : gmap (nat * nat) (list A)) k k' v : k ≠ k' → default [] (<[k := v]> m !! k') = default [] (m !! k').
Proof. intros H. by rewrite lookup_insert_ne. Qed.
Lemma send_each_queue {A} (x : A) master to size q a b :
  default [] (send_each x master to size q !! (a, b)) =
    default [] (q !! (a, b)) ++ (if decide (a = master ∧ (b < size)%nat ∧ to b = true) then [x] else []).
Proof.
  unfold send_each. induction size as [|size IH].
  - cbn. rewrite decide_False by lia. by rewrite app_nil_r.
  - rewrite seq_S, foldl_app. cbn [plus foldl]. set (q' := foldl _ _ _) in *. destruct (to size) eqn:E.
    + destruct (decide ((master, size) = (a, b))) as [[= -> ->]|Hne].
      * rewrite queue_eq, IH, decide_False, decide_True by (split_and?; lia || done). by rewrite app_nil_r.
      * rewrite queue_ne, IH by done. f_equal. apply decide_ext. split; intros (-> & ? & ?); (split; [done|]); [by split; [lia|]|].
        split; [|done]. assert (b ≠ size) by congruence. lia.
    + rewrite IH. f_equal. apply decide_ext. split; intros (-> & ? & ?); (split; [done|]); [by split; [lia|]|].
      split; [|done]. assert (b ≠ size) by congruence. lia.
Qed.
Lemma pull_master L k : L !! k = Some 0 → (∀ k', L !! k' = Some 0 → k' = k) → master_of L = k.
Proof.
  unfold master_of. assert (∀ m, (∀ i, L !! i = Some 0 → i = k) →
    foldl (λ m '(i, r), if r =? 0 then i else m) m (zip (seq 0 (length L)) L) = if decide (L !! k = Some 0) then k else m) as H.
  { induction L as [|r L IH] using rev_ind; intros m Hu; [done|].
    assert (zip (seq 0 (length (L ++ [r]))) (L ++ [r]) = zip (seq 0 (length L)) L ++ [(length L, r)]) as ->.
    { rewrite length_app, Nat.add_1_r, seq_S, zip_with_app by (by rewrite length_seq). done. }
    rewrite foldl_app. cbn [foldl]. destruct (r =? 0) eqn:Er.
    - apply Z.eqb_eq in Er as ->. assert (length L = k) as Ek by (apply Hu; by rewrite lookup_app_r, Nat.sub_diag).
      rewrite decide_True; [done|]. rewrite <- Ek. by rewrite lookup_app_r, Nat.sub_diag.
    - apply Z.eqb_neq in Er. rewrite IH by (intros i Hi; apply Hu; by apply lookup_app_l_Some). apply decide_ext.
      split; [by apply lookup_app_l_Some|]. intros [Hk|[_ Hk]]%lookup_app_Some; [done|]. by apply list_lookup_singleton_Some in Hk as [_ ->]. }
  intros Hk Hu. by rewrite H, decide_True.
Qed.

Section writer.
Context (d : list ascii) (bs rl n n' : Z) (old new oback : list Z) (srcs : list (option (list ascii))).
Context (Hn : 0 < n < 2 ^ 30) (Hn' : 0 < n' < 2 ^ 30) (Hrl : 0 <= rl < n) (Hrl' : 0 <= rl < n') (Hbs : 0 < bs < 2 ^ 31).
Context (Hsize : (len d + bs) * (rl + 1) + 3 * n' * bs < 2 ^ 61).
Context (Hold : ranks_of old n) (Hnew : ranks_of new n') (Hback : ∀ k r, old !! k = Some r → r ≠ -1 → rdZ oback r = Some (Z.of_nat k)).
Context (Hlen : length srcs = length old) (Hsame : length new = length old).
Context (Hsrc : ∀ p o, old !! p = Some o → o ≠ -1 → ∃ hdr, Z.of_nat (length hdr) = HEADER_SIZE ∧ srcs !! p = Some (Some (stored n rl bs d hdr o))).
(** A process is on an old or on a new server, not on both. *)
Context (Hone : ∀ p o q, old !! p = Some o → new !! p = Some q → o = -1 ↔ q ≠ -1).

Abbreviation total := (total rl bs d).
Abbreviation slot_data := (slot_data rl bs d).
Abbreviation target := (target d bs rl n').
Abbreviation N := (length old).
Abbreviation reads := (reads old).
Abbreviation writes := (writes new).
Abbreviation pull := (pull bs rl n n' old new oback srcs).
Abbreviation master := (master_of new).

(** The slot of the row [j] of a process, its process in the old configuration, and
    its place there. *)
Definition slot_at (w : nat) (j : Z) : Z := j * n' + default (-1) (new !! w).
Definition source (w : nat) (j : Z) : nat := Z.to_nat (default 0 (rdZ oback (slot_at w j mod n))).
Definition place (w : nat) (j : Z) : Z := slot_at w j / n * bs.

(** Where a process is.  One of an old server is at the top of its loop or has just
    answered; one of a new server is about to ask for its row [j], or has asked, or
    has an answer on its way. *)
Inductive phase := Serving (served : bool) (off : Z) | Asking (j : Z) | Asked (j : Z) | Answered (j : Z) | Gone.
Definition pc_of (p : nat) (x : phase) : pull_pc :=
  match x with
  | Serving served off => if served then P_write off else P_top off
  | Asking j => P_top (j * bs)
  | Asked j | Answered j => P_wait (j * bs) (source p j)
  | Gone => P_left
  end.
Definition at_ (ph : list phase) (p : nat) : phase := default Gone (ph !! p).
Definition is_serving (x : phase) : bool := match x with Serving _ _ => true | _ => false end.
(** The messages from [a], which is in the phase [x], and those for [b]. *)
Definition asked_by (ph : list phase) (stop : bool) (a : nat) (x : phase) (b : nat) : list Z :=
  match x with
  | Asked j => if decide (b = source a j) then [place a j] else []
  | _ => if decide (a = master ∧ stop = true ∧ is_serving (at_ ph b) = true) then [no_more] else []
  end.
Definition answered_to (b : nat) (x : phase) (a : nat) : list (list ascii) :=
  match x with
  | Answered j => if decide (a = source b j) then [slot_data (slot_at b j)] else []
  | _ => []
  end.
(** The rows that a process has written. *)
Definition wrote (j : Z) (k : nat) : Prop :=
  Z.of_nat k < HEADER_SIZE ∨ ∃ i, 0 <= i < j ∧ i * bs + HEADER_SIZE <= Z.of_nat k < i * bs + HEADER_SIZE + bs.
Definition row_ok (files : list (list ascii)) (p : nat) (j : Z) : Prop :=
  ∃ q dst, new !! p = Some q ∧ 0 <= q < n' ∧ files !! p = Some dst ∧ 0 <= j ∧ j * n' < total + n' ∧ agrees (target q) dst (wrote j).
Definition role_ok (s : pull_state) (p : nat) (x : phase) : Prop :=
  match x with
  | Serving _ _ => reads p = true
  | Asking j | Asked j | Answered j => row_ok (pull_files s) p j ∧ pull_stopped s = false
  | Gone => (reads p = true ∧ pull_stopped s = true) ∨ (∃ q, new !! p = Some q ∧ 0 <= q < n' ∧ pull_files s !! p = Some (target q))
  end.
Record pull_inv (s : pull_state) (ph : list phase) : Prop := {
  pi_len : length ph = N;
  pi_files : length (pull_files s) = N;
  pi_pcs : pull_pcs s = imap pc_of ph;
  pi_asked a b : asked s (a, b) = asked_by ph (pull_stopped s) a (at_ ph a) b;
  pi_answered a b : answered s (a, b) = answered_to b (at_ ph b) a;
  pi_role p x : ph !! p = Some x → role_ok s p x }.

Lemma asked_insert s pcs k v an f st k' : asked (Pull pcs (<[k := v]> (requests s)) an f st) k' = if decide (k = k') then v else asked s k'.
Proof. unfold asked. cbn [requests]. destruct (decide (k = k')) as [->|]; [apply queue_eq|by apply queue_ne]. Qed.
Lemma answered_insert s pcs k v rq f st k' : answered (Pull pcs rq (<[k := v]> (answers s)) f st) k' = if decide (k = k') then v else answered s k'.
Proof. unfold answered. cbn [answers]. destruct (decide (k = k')) as [->|]; [apply queue_eq|by apply queue_ne]. Qed.

(** ** The roles *)

Lemma role p : (p < N)%nat → (∃ o, old !! p = Some o ∧ 0 <= o < n ∧ reads p = true ∧ writes p = false) ∨
  (∃ q, new !! p = Some q ∧ 0 <= q < n' ∧ reads p = false ∧ writes p = true).
Proof using All.
  intros Hp. destruct (lookup_lt_is_Some_2 old p Hp) as [o Ho]. destruct (lookup_lt_is_Some_2 new p) as [q Hq]; [lia|].
  pose proof (Hone p o q Ho Hq) as Hoq. unfold Active.reads, Active.writes. rewrite Ho, Hq. cbn [default from_option id].
  destruct (ro_in _ _ Hold p o Ho) as [->|Hor], (ro_in _ _ Hnew p q Hq) as [->|Hqr]; try (exfalso; lia).
  - right. exists q. rewrite (proj2 (Z.eqb_neq q (-1))) by lia. done.
  - left. exists o. rewrite (proj2 (Z.eqb_neq o (-1))) by lia. done.
Qed.
Lemma master_writes : ∃ q, new !! master = Some q ∧ writes master = true ∧ (master < N)%nat.
Proof using All.
  destruct (ro_onto _ _ Hnew 0) as [k Hk]; [lia|]. assert (master = k) as ->.
  { apply pull_master; [done|]. intros k' Hk'. by apply (ro_inj _ _ Hnew k' k 0). }
  exists 0. split; [done|]. split; [unfold Active.writes; by rewrite Hk|]. apply lookup_lt_Some in Hk. lia.
Qed.
Lemma reads_lt p : reads p = true → (p < N)%nat.
Proof. unfold Active.reads. destruct (old !! p) eqn:E; [|done]. intros _. by apply lookup_lt_Some in E. Qed.

(** What a process asks for, and what it gets. *)
Section row.
Context (w : nat) (q j : Z) (Hq : new !! w = Some q) (Hqr : 0 <= q < n') (Hj : 0 <= j) (Hjt : j * n' < total + n').

Lemma slot_at_is : slot_at w j = j * n' + q ∧ 0 <= slot_at w j ∧ slot_at w j * bs < 2 ^ 61 ∧ slot_at w j mod n' = q ∧ slot_at w j / n' = j.
Proof using All.
  assert (slot_at w j = j * n' + q) as -> by (unfold slot_at; by rewrite Hq). split; [done|].
  destruct (slot_small d bs rl n' j q) as [H1 H2]; [lia..|]. split_and!; [done|done| |].
  - rewrite Z.add_comm, Z.mod_add by lia. apply Z.mod_small. lia.
  - rewrite Z.div_add_l, Z.div_small by lia. lia.
Qed.
Lemma source_is : ∃ hdr, Z.of_nat (length hdr) = HEADER_SIZE ∧ reads (source w j) = true ∧
  rdZ oback (slot_at w j mod n) = Some (Z.of_nat (source w j)) ∧ srcs !! source w j = Some (Some (stored n rl bs d hdr (slot_at w j mod n))).
Proof using All.
  pose proof (Z.mod_pos_bound (slot_at w j) n ltac:(lia)) as Hm. destruct (ro_onto _ _ Hold (slot_at w j mod n)) as [k Hk]; [lia|].
  pose proof (Hback k _ Hk ltac:(lia)) as Hb. unfold source. rewrite Hb. cbn [default from_option id]. rewrite Nat2Z.id.
  destruct (Hsrc k _ Hk) as (hdr & Hh & E); [lia|]. exists hdr. split_and!; [done| |done|done].
  unfold Active.reads. rewrite Hk. cbn. by rewrite (proj2 (Z.eqb_neq _ (-1))) by lia.
Qed.
Lemma place_small : 0 <= place w j < 2 ^ 61 ∧ place w j ⊕ HEADER_SIZE = place w j + HEADER_SIZE.
Proof using All.
  destruct slot_at_is as (_ & H1 & H2 & _). assert (0 <= slot_at w j / n) by (apply Z.div_pos; lia).
  assert (slot_at w j / n <= slot_at w j) by (apply Z.div_le_upper_bound; nia).
  assert (0 <= place w j < 2 ^ 61) by (unfold place; nia). split; [done|]. apply i64_id. unfold HEADER_SIZE. lia.
Qed.
Lemma ask_run : ask bs rl n n' new oback w (j * bs) = Some (source w j, place w j).
Proof using All.
  destruct slot_at_is as (_ & H1 & H2 & Hm & Hd). unfold ask. rewrite Hq. cbn [mbind option_bind]. unfold other_place.
  rewrite !(proj2 (Z.eqb_neq _ 0)) by lia. cbn [orb].
  destruct (slot_place bs rl n' (slot_at w j)) as [_ E1]; [lia..|]. rewrite Hm, Hd in E1. rewrite E1.
  destruct (slot_place bs rl n (slot_at w j)) as [E2 _]; [lia..|]. rewrite E2.
  destruct source_is as (_ & _ & _ & -> & _). cbn [mbind option_bind]. rewrite (proj2 (Z.ltb_ge _ 0)) by lia. by rewrite Nat2Z.id.
Qed.
Lemma answer_is f : srcs !! source w j = Some (Some f) → read_at f (place w j ⊕ HEADER_SIZE) bs = slot_data (slot_at w j).
Proof using All.
  destruct source_is as (hdr & Hh & _ & _ & ->). intros [= <-]. rewrite (proj2 place_small). destruct slot_at_is as (_ & H1 & _).
  apply stored_read; [lia..|done| |lia|done]. apply Z.mod_pos_bound. lia.
Qed.
Lemma row_small : 0 <= j * bs < 2 ^ 61 ∧ j * bs ⊕ HEADER_SIZE = j * bs + HEADER_SIZE ∧ j * bs ⊕ bs = (j + 1) * bs.
Proof using All.
  destruct slot_at_is as (E & _ & H2 & _). assert (j <= slot_at w j) as H1 by (rewrite E; clear -Hj Hqr Hn'; nia).
  apply (Z.mul_le_mono_nonneg_r _ _ bs) in H1; [|lia]. assert (0 <= j * bs) by (apply Z.mul_nonneg_nonneg; lia).
  split; [lia|]. unfold HEADER_SIZE. rewrite !i64_id by lia. split; lia.
Qed.
(** Writing the row. *)
Lemma row_written dst : agrees (target q) dst (wrote j) →
  agrees (target q) (write_at dst (j * bs + HEADER_SIZE) (slot_data (slot_at w j))) (wrote (j + 1)).
Proof using All.
  intros Ha. destruct slot_at_is as (_ & H1 & _ & Hm & Hd).
  assert (slot_data (slot_at w j) = read_at (target q) (j * bs + HEADER_SIZE) bs) as ->.
  { symmetry. rewrite <- Hd at 1. apply stored_read; (done || lia). }
  eapply agrees_weaken; [apply agrees_piece, Ha; unfold HEADER_SIZE; nia|]. intros k x _ [Hk|(i & Hi & Hk)]; [by right; left|].
  destruct (decide (i = j)) as [->|Hne]; [by left; lia|right; right; exists i; split; [lia|done]].
Qed.
(** The last row. *)
Lemma row_last dst : agrees (target q) dst (wrote j) → slot_data (slot_at w j) = [] → dst = target q.
Proof using All.
  intros Ha He. destruct slot_at_is as (E & H1 & _). apply (slot_data_empty n' rl bs d) in He; [|lia..].
  apply (agrees_whole _ _ _ Ha). intros k Hk. destruct (decide (Z.of_nat k < HEADER_SIZE)) as [|Hh]; [by left|right].
  destruct (stored_covered n' rl bs d ltac:(lia) Hrl' ltac:(lia) zeros eq_refl q k Hqr Hk) as (s & Hs & Hm & Hk'); [lia|].
  exists (s / n'). split; [|done]. split; [apply Z.div_pos; lia|]. apply (Z.mul_lt_mono_pos_r n'); [lia|]. pose proof (Z.div_mod s n' ltac:(lia)). lia.
Qed.
Lemma row_more : slot_data (slot_at w j) ≠ [] → (j + 1) * n' < total + n'.
Proof using All.
  intros Hne. destruct slot_at_is as (E & H1 & _). assert (¬ total <= slot_at w j) as H by (by intros ?%(slot_data_empty n' rl bs d); [|lia..]). lia.
Qed.
End row.

(** ** The invariant *)

Lemma at_lookup ph p x : ph !! p = Some x → at_ ph p = x.
Proof. unfold at_. by intros ->. Qed.
Lemma at_eq ph p x x' : ph !! p = Some x → at_ (<[p := x']> ph) p = x'.
Proof. intros E. unfold at_. rewrite list_lookup_insert_eq; [done|]. by eapply lookup_lt_Some. Qed.
Lemma at_ne ph p x' a : a ≠ p → at_ (<[p := x']> ph) a = at_ ph a.
Proof. intros H. unfold at_. by rewrite list_lookup_insert_ne. Qed.
Lemma pcs_insert ph p x x' : ph !! p = Some x → <[p := pc_of p x']> (imap pc_of ph) = imap pc_of (<[p := x']> ph).
Proof.
  intros E. apply lookup_lt_Some in E as Hp. apply list_eq. intros k. rewrite list_lookup_imap. destruct (decide (k = p)) as [->|Hne].
  - by rewrite !list_lookup_insert_eq by (rewrite ?length_imap; done).
  - by rewrite !list_lookup_insert_ne, list_lookup_imap by done.
Qed.
(** An insertion leaves what the other processes send as it is. *)
Lemma asked_other ph stop p x x' a y b :
  ph !! p = Some x → is_serving x' = is_serving x → asked_by (<[p := x']> ph) stop a y b = asked_by ph stop a y b.
Proof.
  intros E H. assert (is_serving (at_ (<[p := x']> ph) b) = is_serving (at_ ph b)) as Hb; [|by destruct y; cbn [asked_by]; rewrite ?Hb].
  destruct (decide (b = p)) as [->|Hne]; [by rewrite (at_eq _ _ x), (at_lookup _ _ x)|by rewrite at_ne].
Qed.
Lemma asked_quiet ph stop a x b : (∀ j, x ≠ Asked j) → asked_by ph stop a x b = asked_by ph stop a Gone b.
Proof. intros H. destruct x as [| |j| |]; try done. by destruct (H j). Qed.
Lemma asked_running ph a x b : (∀ j, x ≠ Asked j) → asked_by ph false a x b = [].
Proof. intros H. rewrite asked_quiet by done. cbn. rewrite decide_False by (intros (_ & ? & _); done). done. Qed.
Lemma answered_quiet b x a : (∀ j, x ≠ Answered j) → answered_to b x a = [].
Proof. intros H. destruct x as [| | |j|]; try done. by destruct (H j). Qed.

Lemma phase_top s ph p off : pull_inv s ph → pull_pcs s !! p = Some (P_top off) → reads p = true →
  ph !! p = Some (Serving false off).
Proof using All.
  intros HI Hpc Hr. rewrite (pi_pcs _ _ HI), list_lookup_imap in Hpc. destruct (ph !! p) as [x|] eqn:E; [|done]. injection Hpc as Hpc.
  pose proof (pi_role _ _ HI p x E) as Hx. destruct x as [[] o|j|j|j|]; cbn in Hpc; try done; [by injection Hpc as ->|].
  destruct Hx as [(q & _ & Hq & Hqr & _) _]. destruct (role p) as [(o & _ & _ & _ & Hw)|(_ & _ & _ & Hr' & _)]; [by apply reads_lt| |congruence].
  unfold Active.writes in Hw. rewrite Hq in Hw. cbn in Hw. rewrite (proj2 (Z.eqb_neq q (-1))) in Hw by lia. done.
Qed.
Lemma phase_ask s ph p pc off : pull_inv s ph → pull_pcs s !! p = Some pc → may_ask old p pc = Some off →
  (ph !! p = Some (Serving true off) ∧ writes p = false) ∨ (∃ j, ph !! p = Some (Asking j) ∧ off = j * bs ∧ writes p = true).
Proof using All.
  intros HI Hpc Hm. rewrite (pi_pcs _ _ HI), list_lookup_imap in Hpc. destruct (ph !! p) as [x|] eqn:E; [|done]. injection Hpc as <-.
  pose proof (pi_role _ _ HI p x E) as Hx. assert (p < N)%nat as Hp by (rewrite <- (pi_len _ _ HI); by eapply lookup_lt_Some).
  destruct x as [[] o|j|j|j|]; cbn in Hm, Hx; try done.
  - injection Hm as ->. left. split; [done|]. destruct (role p Hp) as [(_ & _ & _ & _ & ?)|(_ & _ & _ & ? & _)]; [done|congruence].
  - rewrite Hx in Hm. done.
  - destruct (Active.reads old p) eqn:Hr; [done|]. injection Hm as <-. right. exists j. split; [done|]. split; [done|].
    destruct (role p Hp) as [(_ & _ & _ & ? & _)|(_ & _ & _ & _ & ?)]; [congruence|done].
Qed.
Lemma phase_wait s ph p off q x : pull_inv s ph → pull_pcs s !! p = Some (P_wait off q) → answered s (q, p) = x → x ≠ [] →
  ∃ j, ph !! p = Some (Answered j) ∧ off = j * bs ∧ q = source p j ∧ x = [slot_data (slot_at p j)].
Proof using All.
  intros HI Hpc Ha Hx. rewrite (pi_pcs _ _ HI), list_lookup_imap in Hpc. destruct (ph !! p) as [y|] eqn:E; [|done]. injection Hpc as Hpc.
  rewrite (pi_answered _ _ HI), (at_lookup _ _ _ E) in Ha. destruct y as [[] o|j|j|j|]; cbn in Hpc, Ha; try done.
  injection Hpc as <- <-. rewrite decide_True in Ha by done. by exists j.
Qed.

Lemma role_other s s' a x : pull_stopped s' = pull_stopped s → pull_files s' !! a = pull_files s !! a → role_ok s a x → role_ok s' a x.
Proof. intros E1 E2. destruct x; cbn [role_ok]; unfold row_ok; by rewrite ?E1, ?E2. Qed.
(** One process goes on. *)
Lemma inv_update s s' ph p x x' :
  pull_inv s ph → ph !! p = Some x → pull_pcs s' = <[p := pc_of p x']> (pull_pcs s) → pull_stopped s' = pull_stopped s →
  length (pull_files s') = length (pull_files s) → (∀ a, a ≠ p → pull_files s' !! a = pull_files s !! a) →
  (∀ a b, asked s' (a, b) = asked_by (<[p := x']> ph) (pull_stopped s) a (at_ (<[p := x']> ph) a) b) →
  (∀ a b, answered s' (a, b) = answered_to b (at_ (<[p := x']> ph) b) a) →
  role_ok s' p x' → pull_inv s' (<[p := x']> ph).
Proof.
  intros [H1 H2 H3 H4 H5 H6] E Hp Hs Hl Hf Ha Hb Hr. split.
  - by rewrite length_insert.
  - by rewrite Hl.
  - by rewrite Hp, H3, (pcs_insert ph p x x' E).
  - intros a b. by rewrite Ha, Hs.
  - done.
  - intros a y Hy. destruct (decide (a = p)) as [->|Hne].
    + rewrite list_lookup_insert_eq in Hy by (by eapply lookup_lt_Some). by injection Hy as <-.
    + rewrite list_lookup_insert_ne in Hy by done. apply (role_other s); [done|by apply Hf|by apply H6].
Qed.
(** The messages of a process that stays silent. *)
Lemma asked_same s ph p x x' a b :
  pull_inv s ph → ph !! p = Some x → is_serving x' = is_serving x → (∀ j, x ≠ Asked j) → (∀ j, x' ≠ Asked j) →
  asked s (a, b) = asked_by (<[p := x']> ph) (pull_stopped s) a (at_ (<[p := x']> ph) a) b.
Proof.
  intros HI E Hs Hx Hx'. rewrite (pi_asked _ _ HI), (asked_other ph _ p x x') by done. destruct (decide (a = p)) as [->|Hne]; [|by rewrite at_ne].
  rewrite (at_eq ph p x x'), (at_lookup ph p x) by done. by rewrite asked_quiet, (asked_quiet _ _ p x') by done.
Qed.
Lemma answered_same s ph p x x' a b :
  pull_inv s ph → ph !! p = Some x → (∀ j, x ≠ Answered j) → (∀ j, x' ≠ Answered j) → answered s (a, b) = answered_to b (at_ (<[p := x']> ph) b) a.
Proof.
  intros HI E Hx Hx'. rewrite (pi_answered _ _ HI). destruct (decide (b = p)) as [->|Hne]; [|by rewrite at_ne].
  rewrite (at_eq ph p x x'), (at_lookup ph p x) by done. by rewrite !answered_quiet by done.
Qed.

Lemma step_skip s ph p pc off : pull_inv s ph → pull_pcs s !! p = Some pc → may_ask old p pc = Some off → writes p = false →
  ph !! p = Some (Serving true off) ∧
  pull_inv (Pull (<[p := P_top (off ⊕ bs)]> (pull_pcs s)) (requests s) (answers s) (pull_files s) (pull_stopped s)) (<[p := Serving false (off ⊕ bs)]> ph).
Proof using All.
  intros HI Hpc Hm Hw. destruct (phase_ask s ph p pc off HI Hpc Hm) as [[E _]|(j & _ & _ & ?)]; [|congruence]. split; [done|].
  apply (inv_update s _ ph p (Serving true off)); try done; [|by intros a b; apply (answered_same s ph p (Serving true off))|].
  - intros a b. by apply (asked_same s ph p (Serving true off)).
  - exact (pi_role _ _ HI p _ E).
Qed.
Lemma step_ask s ph p pc off q o : pull_inv s ph → pull_pcs s !! p = Some pc → may_ask old p pc = Some off → writes p = true →
  ask bs rl n n' new oback p off = Some (q, o) →
  ∃ j, ph !! p = Some (Asking j) ∧
  pull_inv (Pull (<[p := P_wait off q]> (pull_pcs s)) (<[(p, q) := asked s (p, q) ++ [o]]> (requests s)) (answers s) (pull_files s) (pull_stopped s))
    (<[p := Asked j]> ph).
Proof using All.
  intros HI Hpc Hm Hw Hq. destruct (phase_ask s ph p pc off HI Hpc Hm) as [[_ ?]|(j & E & -> & _)]; [congruence|]. exists j. split; [done|].
  pose proof (pi_role _ _ HI p _ E) as Hx. destruct Hx as [(r & dst & Hr & Hrr & Hd & Hj & Hjt & Ha) Hs].
  rewrite (ask_run p r j Hr Hrr Hj Hjt) in Hq. injection Hq as <- <-.
  apply (inv_update s _ ph p (Asking j)); try done; [|by intros a b; apply (answered_same s ph p (Asking j))|].
  - intros a b. rewrite asked_insert, (asked_other ph _ p (Asking j)), (pi_asked _ _ HI), (at_lookup _ _ _ E), Hs, asked_running by done.
    destruct (decide (a = p)) as [->|Hne].
    + rewrite (at_eq _ _ _ _ E), (pi_asked _ _ HI), (at_lookup _ _ _ E), Hs, asked_running by done. cbn [asked_by app].
      by repeat destruct (decide _); try congruence.
    + rewrite decide_False, at_ne, (pi_asked _ _ HI), Hs by congruence. done.
  - split; [by exists r, dst|done].
Qed.

Lemma step_write s ph p off q buf rest f : pull_inv s ph → pull_pcs s !! p = Some (P_wait off q) → answered s (q, p) = buf :: rest → buf ≠ [] →
  pull_files s !! p = Some f →
  ∃ j, ph !! p = Some (Answered j) ∧ (j + 1) * n' < total + n' ∧
  pull_inv (Pull (<[p := P_top (off ⊕ bs)]> (pull_pcs s)) (requests s) (<[(q, p) := rest]> (answers s))
      (<[p := write_at f (off ⊕ HEADER_SIZE) buf]> (pull_files s)) (pull_stopped s)) (<[p := Asking (j + 1)]> ph).
Proof using All.
  intros HI Hpc Hb Hne Hf. destruct (phase_wait s ph p off q _ HI Hpc eq_refl) as (j & E & -> & -> & Ex); [by rewrite Hb|].
  rewrite Hb in Ex. injection Ex as -> ->. pose proof (pi_role _ _ HI p _ E) as Hx. destruct Hx as [(r & dst & Hr & Hrr & Hd & Hj & Hjt & Ha) Hs].
  rewrite Hf in Hd. injection Hd as ->. destruct (row_small p r j Hr Hrr Hj Hjt) as (_ & -> & ->).
  pose proof (row_more p r j Hr Hrr Hj Hjt Hne) as Hm. exists j. split; [done|]. split; [done|].
  apply (inv_update s _ ph p (Answered j)); try done.
  - cbn [pull_files]. by rewrite length_insert.
  - intros a Hne'. cbn [pull_files]. by rewrite list_lookup_insert_ne.
  - intros a b. by apply (asked_same s ph p (Answered j)).
  - intros a b. rewrite answered_insert. destruct (decide (b = p)) as [->|Hne'].
    + rewrite (at_eq _ _ _ _ E), (pi_answered _ _ HI), (at_lookup _ _ _ E). cbn [answered_to].
      by repeat destruct (decide _); try congruence.
    + rewrite decide_False, at_ne, (pi_answered _ _ HI) by congruence. done.
  - split; [|done]. exists r, (write_at dst (j * bs + HEADER_SIZE) (slot_data (slot_at p j))). cbn [pull_files].
    rewrite list_lookup_insert_eq by (by eapply lookup_lt_Some). split_and!; try done; try lia. by apply row_written.
Qed.
Lemma step_end s ph p off q rest : pull_inv s ph → pull_pcs s !! p = Some (P_wait off q) → answered s (q, p) = [] :: rest →
  ∃ j, ph !! p = Some (Answered j) ∧
  pull_inv (Pull (<[p := P_left]> (pull_pcs s)) (requests s) (<[(q, p) := rest]> (answers s)) (pull_files s) (pull_stopped s)) (<[p := Gone]> ph).
Proof using All.
  intros HI Hpc Hb. destruct (phase_wait s ph p off q _ HI Hpc eq_refl) as (j & E & -> & -> & Ex); [by rewrite Hb|].
  rewrite Hb in Ex. injection Ex as Ee ->. pose proof (pi_role _ _ HI p _ E) as Hx. destruct Hx as [(r & dst & Hr & Hrr & Hd & Hj & Hjt & Ha) Hs].
  exists j. split; [done|]. apply (inv_update s _ ph p (Answered j)); try done.
  - intros a b. by apply (asked_same s ph p (Answered j)).
  - intros a b. rewrite answered_insert. destruct (decide (b = p)) as [->|Hne'].
    + rewrite (at_eq _ _ _ _ E), (pi_answered _ _ HI), (at_lookup _ _ _ E). cbn [answered_to].
      by repeat destruct (decide _); try congruence.
    + rewrite decide_False, at_ne, (pi_answered _ _ HI) by congruence. done.
  - right. exists r. split; [done|]. split; [done|]. cbn [pull_files]. rewrite Hd. f_equal. by apply (row_last p r j).
Qed.
Lemma asker s ph src p off rest : pull_inv s ph → asked s (src, p) = off :: rest → off ≠ no_more →
  ∃ j r dst, ph !! src = Some (Asked j) ∧ p = source src j ∧ off = place src j ∧ rest = [] ∧
    new !! src = Some r ∧ 0 <= r < n' ∧ pull_files s !! src = Some dst ∧ 0 <= j ∧ j * n' < total + n' ∧ agrees (target r) dst (wrote j) ∧ pull_stopped s = false.
Proof.
  intros HI Hq Hne. rewrite (pi_asked _ _ HI) in Hq. unfold at_ in Hq. destruct (ph !! src) as [x|] eqn:E; cbn [default from_option id] in Hq.
  2: { cbn in Hq. destruct (decide _); [injection Hq as <- <-|]; done. }
  destruct x as [b o|j|j|j|]; cbn [asked_by] in Hq; try (destruct (decide _); [injection Hq as <- <-|]; done).
  destruct (decide (p = source src j)) as [->|]; [|done]. injection Hq as <- <-.
  destruct (pi_role _ _ HI src _ E) as [(r & dst & Hr & Hrr & Hd & Hj & Hjt & Ha) Hs]. by exists j, r, dst.
Qed.
Lemma step_serve s ph p src off rest off_dest f : pull_inv s ph → pull_pcs s !! p = Some (P_top off_dest) → reads p = true →
  asked s (src, p) = off :: rest → off ≠ no_more → srcs !! p = Some (Some f) →
  ∃ j, ph !! p = Some (Serving false off_dest) ∧ ph !! src = Some (Asked j) ∧ src ≠ p ∧
  pull_inv (Pull (<[p := P_write off_dest]> (pull_pcs s)) (<[(src, p) := rest]> (requests s))
      (<[(p, src) := answered s (p, src) ++ [read_at f (off ⊕ HEADER_SIZE) bs]]> (answers s)) (pull_files s) (pull_stopped s))
    (<[p := Serving true off_dest]> (<[src := Answered j]> ph)).
Proof using All.
  intros HI Hpc Hr Hq Hne Hf. pose proof (phase_top s ph p off_dest HI Hpc Hr) as Ep.
  destruct (asker s ph src p off rest HI Hq Hne) as (j & r & dst & E & -> & -> & -> & Hw & Hrr & Hd & Hj & Hjt & Ha & Hs).
  set (p := source src j) in *. assert (src ≠ p) as Hsp by congruence. exists j. split; [done|]. split; [done|]. split; [done|].
  rewrite (answer_is src r j Hw Hrr Hj Hjt f Hf).
  set (s1 := Pull (pull_pcs s) (<[(src, p) := []]> (requests s)) (<[(p, src) := answered s (p, src) ++ [slot_data (slot_at src j)]]> (answers s)) (pull_files s) (pull_stopped s)).
  assert (answered s (p, src) = []) as Ea by (by rewrite (pi_answered _ _ HI), (at_lookup _ _ _ E)).
  assert (pull_inv s1 (<[src := Answered j]> ph)) as HI1.
  { apply (inv_update s s1 ph src (Asked j)); try done.
    - cbn [pull_pcs s1]. symmetry. apply list_insert_id. by rewrite (pi_pcs _ _ HI), list_lookup_imap, E.
    - intros a b. unfold s1. rewrite asked_insert, (asked_other ph _ src (Asked j)) by done. destruct (decide (a = src)) as [->|Hna].
      + rewrite (at_eq _ _ _ _ E), (pi_asked _ _ HI), (at_lookup _ _ _ E), Hs. rewrite (asked_running ph src (Answered j)) by done. cbn [asked_by]. fold p.
        by repeat destruct (decide _); try congruence.
      + rewrite decide_False, at_ne, (pi_asked _ _ HI) by congruence. done.
    - intros a b. unfold s1. rewrite answered_insert, Ea. destruct (decide (b = src)) as [->|Hnb].
      + rewrite (at_eq _ _ _ _ E), (pi_answered _ _ HI), (at_lookup _ _ _ E). cbn [answered_to app]. fold p.
        by repeat destruct (decide _); try congruence.
      + rewrite decide_False, at_ne, (pi_answered _ _ HI) by congruence. done.
    - split; [|done]. by exists r, dst. }
  assert ((<[src := Answered j]> ph) !! p = Some (Serving false off_dest)) as Ep1 by (by rewrite list_lookup_insert_ne).
  apply (inv_update s1 _ _ p (Serving false off_dest)); try done.
  - intros a b. by apply (asked_same s1 _ p (Serving false off_dest)).
  - intros a b. by apply (answered_same s1 _ p (Serving false off_dest)).
Qed.

Lemma step_quit s ph p src off rest : pull_inv s ph → pull_pcs s !! p = Some (P_top off) → reads p = true → asked s (src, p) = no_more :: rest →
  ph !! p = Some (Serving false off) ∧
  pull_inv (Pull (<[p := P_left]> (pull_pcs s)) (<[(src, p) := rest]> (requests s)) (answers s) (pull_files s) (pull_stopped s)) (<[p := Gone]> ph).
Proof using All.
  intros HI Hpc Hr Hq. pose proof (phase_top s ph p off HI Hpc Hr) as E. split; [done|].
  assert (∀ a j, at_ ph a = Asked j → ∃ r, new !! a = Some r ∧ 0 <= r < n' ∧ 0 <= j ∧ j * n' < total + n' ∧ pull_stopped s = false) as Hasked.
  { intros a j Hx. unfold at_ in Hx. destruct (ph !! a) as [x|] eqn:Ex; [|done]. cbn in Hx. subst x.
    destruct (pi_role _ _ HI a _ Ex) as [(r & dst & ? & ? & _ & ? & ? & _) ?]. by exists r. }
  assert (pull_stopped s = true ∧ src = master ∧ rest = []) as (Hs & -> & ->).
  { rewrite (pi_asked _ _ HI) in Hq. destruct (at_ ph src) as [| |j| |] eqn:Ex; cbn [asked_by] in Hq;
      try (destruct (decide _) as [(-> & ? & _)|]; [by injection Hq as <-|done]).
    destruct (Hasked src j Ex) as (r & Hw & Hrr & Hj & Hjt & _). destruct (place_small src r j Hw Hrr Hj Hjt) as [? _].
    destruct (decide _); [|done]. injection Hq as Hq _. unfold no_more in Hq. lia. }
  assert (∀ a j, at_ ph a ≠ Asked j) as Hquiet by (intros a j Hx; destruct (Hasked a j Hx) as (r & _ & _ & _ & _ & ?); congruence).
  apply (inv_update s _ ph p (Serving false off)); try done; [|by intros a b; apply (answered_same s ph p (Serving false off))|].
  - intros a b. rewrite asked_insert. assert (∀ j, at_ (<[p := Gone]> ph) a ≠ Asked j) as Hq'.
    { intros j. destruct (decide (a = p)) as [->|Hne]; [by rewrite (at_eq _ _ _ _ E)|by rewrite at_ne]. }
    rewrite (pi_asked _ _ HI), (asked_quiet _ _ a (at_ ph a)), (asked_quiet _ _ a (at_ (<[p := Gone]> ph) a)) by done. cbn [asked_by]. rewrite Hs.
    destruct (decide (b = p)) as [->|Hne].
    + rewrite (at_eq _ _ _ _ E), (at_lookup _ _ _ E). by repeat destruct (decide _); try naive_solver.
    + rewrite at_ne by done. by repeat destruct (decide _); try naive_solver.
  - left. split; done.
Qed.
Lemma step_stop s ph : pull_inv s ph → pull_stopped s = false →
  (∀ p pc, pull_pcs s !! p = Some pc → writes p = true → pc = P_left) →
  pull_inv (Pull (pull_pcs s) (send_each no_more master reads (length (pull_pcs s)) (requests s)) (answers s) (pull_files s) true) ph.
Proof using All.
  intros HI Hs Hall.
  assert (∀ p x, ph !! p = Some x → is_serving x = reads p ∧ (is_serving x = false → x = Gone)) as Hph.
  { intros p x E. assert (p < N)%nat as Hp by (rewrite <- (pi_len _ _ HI); by eapply lookup_lt_Some).
    pose proof (pi_role _ _ HI p x E) as Hx. assert (writes p = true → x = Gone) as Hg.
    { intros Hw. specialize (Hall p (pc_of p x)). rewrite (pi_pcs _ _ HI), list_lookup_imap, E in Hall. specialize (Hall eq_refl Hw). by destruct x as [[]| | | |]. }
    destruct (role p Hp) as [(o & _ & _ & Hr & Hw)|(q & _ & _ & Hr & Hw)].
    - destruct x as [b o'|j|j|j|]; cbn in Hx; rewrite Hr; [done|..]; exfalso.
      1-3: destruct Hx as [(q & _ & Hq & Hqr & _) _]; unfold Active.writes in Hw; rewrite Hq in Hw; cbn in Hw; apply negb_false_iff, Z.eqb_eq in Hw; lia.
      destruct Hx as [[_ ?]|(q & Hq & Hqr & _)]; [congruence|]. unfold Active.writes in Hw. rewrite Hq in Hw. cbn in Hw. apply negb_false_iff, Z.eqb_eq in Hw. lia.
    - rewrite (Hg Hw). done. }
  assert (∀ a j, at_ ph a ≠ Asked j) as Hquiet.
  { intros a j Hx. unfold at_ in Hx. destruct (ph !! a) as [x|] eqn:Ex; [|done]. cbn in Hx. subst x. destruct (Hph a _ Ex) as [_ H]. by specialize (H eq_refl). }
  split; cbn [pull_files pull_pcs pull_stopped]; [apply HI|apply HI|apply HI| |apply HI|].
  - intros a b. unfold asked at 1. cbn [requests]. rewrite send_each_queue. change (default [] (requests s !! (a, b))) with (asked s (a, b)).
    rewrite (pi_asked _ _ HI), Hs, asked_running, asked_quiet by done. cbn [asked_by app]. rewrite (pi_pcs _ _ HI), length_imap.
    assert ((b < length ph)%nat ∧ reads b = true ↔ is_serving (at_ ph b) = true) as Hb; [|by repeat destruct (decide _); try naive_solver].
    unfold at_. split.
    + intros [Hb Hr]. apply lookup_lt_is_Some_2 in Hb as [x Hb]. rewrite Hb. cbn. destruct (Hph b x Hb). congruence.
    + destruct (ph !! b) as [x|] eqn:Hb; cbn; [|done]. intros Hr. destruct (Hph b x Hb). split; [by eapply lookup_lt_Some|congruence].
  - intros p x E. destruct (Hph p x E) as [Hx Hg]. destruct (is_serving x) eqn:Es; [by destruct x|]. rewrite (Hg eq_refl) in *.
    destruct (pi_role _ _ HI p _ E) as [[? _]|?]; [by left|by right].
Qed.

(** ** Every run ends *)

(** No process gets to the row [K]. *)
Definition K : Z := total / n' + 2.
Definition weight (x : phase) : nat :=
  match x with
  | Serving served _ => if served then 2 else 1
  | Asking j => 4 * Z.to_nat (K - j)
  | Asked j => 4 * Z.to_nat (K - j) - 1
  | Answered j => 4 * Z.to_nat (K - j) - 3
  | Gone => 0
  end%nat.
Definition work (s : pull_state) (ph : list phase) : nat := (sum_list_with weight ph + if pull_stopped s then 0 else 1)%nat.
Lemma weight_insert ph p x x' : ph !! p = Some x → (sum_list_with weight (<[p := x']> ph) + weight x = sum_list_with weight ph + weight x')%nat.
Proof.
  revert p. induction ph as [|y ph IH]; intros [|p] E; [done|done| |].
  - injection E as ->. cbn. lia.
  - specialize (IH p E). csimpl. lia.
Qed.
Lemma row_before_K j : j * n' < total + n' → j < K.
Proof using All.
  intros H. unfold K. assert (j - 1 <= total / n'); [|lia]. apply Z.div_le_lower_bound; lia.
Qed.
Lemma K_big : 2 <= K.
Proof using All.
  unfold K. pose proof (blocks_nonneg bs d ltac:(lia)). assert (0 <= total) by (unfold RebuildSpec.total, slot; nia).
  pose proof (Z.div_pos total n' ltac:(lia) ltac:(lia)). lia.
Qed.

Lemma pull_step s s' ph : pull_inv s ph → pull s s' → ∃ ph', pull_inv s' ph' ∧ (work s' ph' < work s ph)%nat.
Proof using All.
  assert (∀ ph s p j, pull_inv s ph → ph !! p = Some (Asking j) ∨ ph !! p = Some (Asked j) ∨ ph !! p = Some (Answered j) → 0 <= j < K) as Hrow.
  { intros ph0 s0 p j HI E. destruct E as [E|[E|E]]; destruct (pi_role _ _ HI p _ E) as [(q & dst & _ & _ & _ & Hj & Hjt & _) _]; by apply row_before_K in Hjt. }
  intros HI H. destruct H as [s p src off rest off_dest f Hpc Hr Hq Hne _ Hf|s p src rest off_dest Hpc Hr Hq|s p pc off_dest Hpc Hm Hw|
    s p pc off_dest q off Hpc Hm Hw Hq|s p off_dest q buf rest f Hpc Hq Hne _ Hf|s p off_dest q rest Hpc Hq|s Hs Hmp Hall].
  - destruct (step_serve s ph p src off rest off_dest f HI Hpc Hr Hq Hne Hf) as (j & E & E' & Hsp & HI'). eexists. split; [exact HI'|].
    pose proof (weight_insert ph src _ (Answered j) E') as W1. rewrite <- (list_lookup_insert_ne ph src p (Answered j)) in E by done.
    pose proof (weight_insert _ p _ (Serving true off_dest) E) as W2. pose proof (Hrow ph s src j HI ltac:(tauto)). cbn [weight] in W1, W2. unfold work. cbn [pull_stopped]. lia.
  - destruct (step_quit s ph p src off_dest rest HI Hpc Hr Hq) as (E & HI'). eexists. split; [exact HI'|].
    pose proof (weight_insert _ p _ Gone E) as W. cbn [weight] in W. unfold work. cbn [pull_stopped]. lia.
  - destruct (step_skip s ph p pc off_dest HI Hpc Hm Hw) as (E & HI'). eexists. split; [exact HI'|].
    pose proof (weight_insert _ p _ (Serving false (off_dest ⊕ bs)) E) as W. cbn [weight] in W. unfold work. cbn [pull_stopped]. lia.
  - destruct (step_ask s ph p pc off_dest q off HI Hpc Hm Hw Hq) as (j & E & HI'). eexists. split; [exact HI'|].
    pose proof (weight_insert _ p _ (Asked j) E) as W. pose proof (Hrow ph s p j HI ltac:(tauto)). cbn [weight] in W. unfold work. cbn [pull_stopped]. lia.
  - destruct (step_write s ph p off_dest q buf rest f HI Hpc Hq Hne Hf) as (j & E & _ & HI'). eexists. split; [exact HI'|].
    pose proof (weight_insert _ p _ (Asking (j + 1)) E) as W. pose proof (Hrow ph s p j HI ltac:(tauto)). cbn [weight] in W. unfold work. cbn [pull_stopped]. lia.
  - destruct (step_end s ph p off_dest q rest HI Hpc Hq) as (j & E & HI'). eexists. split; [exact HI'|].
    pose proof (weight_insert _ p _ Gone E) as W. pose proof (Hrow ph s p j HI ltac:(tauto)). cbn [weight] in W. unfold work. cbn [pull_stopped]. lia.
  - destruct master_writes as (r & _ & Hmw & _). exists ph. split; [by apply step_stop; [done|done|apply Hall]|]. unfold work. cbn [pull_stopped]. rewrite Hs. lia.
Qed.
Lemma pull_run k s s' ph : pull_inv s ph → nsteps pull k s s' → ∃ ph', pull_inv s' ph' ∧ (k + work s' ph' <= work s ph)%nat.
Proof using All.
  intros HI H. revert ph HI. induction H as [s|k s s1 s' Hstep _ IH]; intros ph HI; [by exists ph|].
  destruct (pull_step s s1 ph HI Hstep) as (ph1 & HI1 & Hlt). destruct (IH ph1 HI1) as (ph' & HI' & Hle). exists ph'. split; [done|lia].
Qed.

(** ** A run that cannot go on *)

Lemma pc_at s ph p x : pull_inv s ph → ph !! p = Some x → pull_pcs s !! p = Some (pc_of p x).
Proof. intros HI E. by rewrite (pi_pcs _ _ HI), list_lookup_imap, E. Qed.
Lemma asking_moves s ph p j : pull_inv s ph → ph !! p = Some (Asking j) → ∃ s', pull s s'.
Proof using All.
  intros HI E. destruct (pi_role _ _ HI p _ E) as [(q & dst & Hq & Hqr & _ & Hj & Hjt & _) _].
  assert (p < N)%nat as Hp by (rewrite <- (pi_len _ _ HI); by eapply lookup_lt_Some).
  assert (writes p = true) as Hw by (unfold Active.writes; rewrite Hq; cbn; by rewrite (proj2 (Z.eqb_neq q (-1))) by lia).
  assert (reads p = false) as Hr by (destruct (role p Hp) as [(_ & _ & _ & _ & ?)|(_ & _ & _ & ? & _)]; [congruence|done]).
  eexists. eapply (pull_ask _ _ _ _ _ _ _ _ s p (P_top (j * bs)) (j * bs)); [by apply (pc_at s ph p (Asking j))| |done|by apply (ask_run p q j)].
  cbn. by rewrite Hr.
Qed.
Lemma serving_reads s ph p b off : pull_inv s ph → ph !! p = Some (Serving b off) → reads p = true.
Proof. intros HI E. exact (pi_role _ _ HI p _ E). Qed.
Lemma asked_moves s ph p j : pull_inv s ph → ph !! p = Some (Asked j) → ∃ s', pull s s'.
Proof using All.
  intros HI E. destruct (pi_role _ _ HI p _ E) as [(q & dst & Hq & Hqr & _ & Hj & Hjt & _) Hs].
  destruct (source_is p q j Hq Hqr Hj Hjt) as (hdr & _ & Hr & _ & Hf). destruct (place_small p q j Hq Hqr Hj Hjt) as [Hpl Hpo].
  assert (source p j < length ph)%nat as Hlt by (rewrite (pi_len _ _ HI); by apply reads_lt). apply lookup_lt_is_Some_2 in Hlt as [x Hx].
  assert (∃ b off, x = Serving b off) as (b & off & ->).
  { pose proof (pi_role _ _ HI _ _ Hx) as Hro. assert (∀ r, new !! source p j = Some r → 0 <= r → False) as Hnw.
    { intros r Hw H0. destruct (role (source p j)) as [(_ & _ & _ & _ & Hww)|(_ & _ & _ & ? & _)]; [by apply reads_lt| |congruence].
      unfold Active.writes in Hww. rewrite Hw in Hww. cbn in Hww. apply negb_false_iff, Z.eqb_eq in Hww. lia. }
    destruct x as [b off|i|i|i|]; [by exists b, off|..]; exfalso.
    1-3: by destruct Hro as [(r & _ & Hw & Hrr & _) _]; apply (Hnw r Hw); lia.
    destruct Hro as [[_ ?]|(r & Hw & Hrr & _)]; [congruence|apply (Hnw r Hw); lia]. }
  assert (asked s (p, source p j) = [place p j]) as Ha by (rewrite (pi_asked _ _ HI), (at_lookup _ _ _ E); cbn; by rewrite decide_True).
  pose proof (pc_at s ph _ _ HI Hx) as Hpc. destruct b.
  - eexists. eapply (pull_skip _ _ _ _ _ _ _ _ s (source p j)); [exact Hpc|done|].
    destruct (role (source p j)) as [(_ & _ & _ & _ & ?)|(_ & _ & _ & ? & _)]; [by apply reads_lt|done|congruence].
  - eexists. eapply (pull_serve _ _ _ _ _ _ _ _ s (source p j) p (place p j) []); [exact Hpc|done|exact Ha| | |exact Hf].
    + unfold no_more. lia.
    + unfold HEADER_SIZE in *. lia.
Qed.
Lemma answered_moves s ph p j : pull_inv s ph → ph !! p = Some (Answered j) → ∃ s', pull s s'.
Proof using All.
  intros HI E. destruct (pi_role _ _ HI p _ E) as [(q & dst & Hq & Hqr & Hd & Hj & Hjt & _) Hs].
  pose proof (pc_at s ph _ _ HI E) as Hpc. cbn [pc_of] in Hpc.
  assert (answered s (source p j, p) = [slot_data (slot_at p j)]) as Ha by (rewrite (pi_answered _ _ HI), (at_lookup _ _ _ E); cbn; by rewrite decide_True).
  destruct (decide (slot_data (slot_at p j) = [])) as [Hemp|Hne].
  - rewrite Hemp in Ha. eexists. by eapply pull_end.
  - eexists. eapply pull_write; [exact Hpc|exact Ha|done| |exact Hd]. destruct (row_small p q j Hq Hqr Hj Hjt) as (H0 & -> & _). unfold HEADER_SIZE. lia.
Qed.
Lemma pull_stuck s ph : pull_inv s ph → (∀ s', ¬ pull s s') →
  (∀ p, (p < N)%nat → pull_pcs s !! p = Some P_left) ∧ ∀ p q, new !! p = Some q → q ≠ -1 → pull_files s !! p = Some (target q).
Proof using All.
  intros HI Hno. assert (∀ p x, ph !! p = Some x → writes p = true → x = Gone) as Hw.
  { intros p x E Hw. destruct x as [b off|j|j|j|]; [..|done]; exfalso.
    - pose proof (serving_reads s ph p b off HI E). destruct (role p) as [(_ & _ & _ & _ & ?)|(_ & _ & _ & ? & _)]; [by apply reads_lt|congruence|congruence].
    - destruct (asking_moves s ph p j HI E) as [s' ?]. by apply (Hno s').
    - destruct (asked_moves s ph p j HI E) as [s' ?]. by apply (Hno s').
    - destruct (answered_moves s ph p j HI E) as [s' ?]. by apply (Hno s'). }
  assert (pull_stopped s = true) as Hs.
  { destruct (pull_stopped s) eqn:Hs; [done|]. exfalso. destruct master_writes as (q & _ & Hmw & Hm). rewrite <- (pi_len _ _ HI) in Hm.
    eapply Hno, (pull_stop _ _ _ _ _ _ _ _ s Hs).
    - apply lookup_lt_is_Some_2 in Hm as [x Hx]. rewrite (pc_at s ph _ _ HI Hx), (Hw _ x Hx Hmw). done.
    - intros _ p pc Hpc Hpw. rewrite (pi_pcs _ _ HI), list_lookup_imap in Hpc. destruct (ph !! p) as [x|] eqn:E; [|done]. injection Hpc as <-. by rewrite (Hw p x E Hpw). }
  assert (∀ p x, ph !! p = Some x → x = Gone) as Hg.
  { intros p x E. pose proof (pi_role _ _ HI p x E) as Hx. destruct x as [b off|j|j|j|]; [..|done]; exfalso.
    2-4: by destruct Hx as [_ ?]; congruence.
    pose proof (pc_at s ph _ _ HI E) as Hpc. destruct b.
    - eapply Hno, (pull_skip _ _ _ _ _ _ _ _ s p); [exact Hpc|done|]. destruct (role p) as [(_ & _ & _ & _ & ?)|(_ & _ & _ & ? & _)]; [by apply reads_lt|done|cbn in Hx; congruence].
    - eapply Hno, (pull_quit _ _ _ _ _ _ _ _ s p master []); [exact Hpc|exact Hx|]. rewrite (pi_asked _ _ HI), asked_quiet.
      + cbn [asked_by]. rewrite decide_True; [done|]. by rewrite (at_lookup _ _ _ E).
      + intros j Hj. unfold at_ in Hj. destruct (ph !! master) as [y|] eqn:Ey; [|done]. destruct master_writes as (q & _ & Hmw & _).
        rewrite (Hw _ y Ey Hmw) in Hj. done. }
  split.
  - intros p Hp. rewrite <- (pi_len _ _ HI) in Hp. apply lookup_lt_is_Some_2 in Hp as [x Hx]. rewrite (pc_at s ph _ _ HI Hx), (Hg p x Hx). done.
  - intros p q Hq Hq1. apply lookup_lt_Some in Hq as Hp. rewrite Hsame, <- (pi_len _ _ HI) in Hp. apply lookup_lt_is_Some_2 in Hp as [x Hx].
    pose proof (pi_role _ _ HI p x Hx) as Hr. rewrite (Hg p x Hx) in Hr. destruct Hr as [[Hr _]|(q' & Hq' & _ & Hf)]; [|congruence].
    destruct (role p) as [(_ & _ & _ & _ & Hww)|(_ & _ & _ & ? & _)]; [by apply reads_lt| |congruence].
    unfold Active.writes in Hww. rewrite Hq in Hww. cbn in Hww. apply negb_false_iff, Z.eqb_eq in Hww. congruence.
Qed.

(** ** The start *)

Definition phase_start : list phase := imap (λ p _, if reads p then Serving false 0 else Asking 0) old.
Lemma start_inv : pull_inv (pull_start srcs) phase_start.
Proof using All.
  pose proof (blocks_nonneg bs d ltac:(lia)) as Hb. assert (0 <= total) by (unfold RebuildSpec.total, slot; nia).
  assert (∀ p j, at_ phase_start p ≠ Asked j) as Hq1.
  { intros p j. unfold at_, phase_start. rewrite list_lookup_imap. destruct (old !! p); cbn; [by destruct (reads p)|done]. }
  assert (∀ p j, at_ phase_start p ≠ Answered j) as Hq2.
  { intros p j. unfold at_, phase_start. rewrite list_lookup_imap. destruct (old !! p); cbn; [by destruct (reads p)|done]. }
  split; cbn [pull_start pull_files pull_pcs pull_stopped].
  - unfold phase_start. by rewrite length_imap.
  - by rewrite length_replicate.
  - apply list_eq. intros p. unfold phase_start. rewrite list_lookup_fmap, !list_lookup_imap.
    destruct (old !! p) as [o|] eqn:E; cbn.
    + assert (p < length srcs)%nat as Hp by (apply lookup_lt_Some in E; lia). apply lookup_lt_is_Some_2 in Hp as [x ->]. by destruct (reads p).
    + apply lookup_ge_None in E. rewrite lookup_ge_None_2 by lia. done.
  - intros a b. unfold asked. cbn. by rewrite asked_running.
  - intros a b. unfold answered. cbn. by rewrite answered_quiet.
  - intros p x Hx. unfold phase_start in Hx. rewrite list_lookup_imap in Hx. destruct (old !! p) as [o|] eqn:E; [|done]. injection Hx as <-.
    assert (p < N)%nat as Hp by (by eapply lookup_lt_Some). destruct (role p Hp) as [(o' & _ & _ & Hr & _)|(q & Hq & Hqr & Hr & _)]; rewrite Hr; [done|].
    split; [|done]. exists q, zeros. split_and!; try done; try lia.
    + cbn. apply lookup_replicate. split; [done|lia].
    + destruct (rebuild_zeros d bs rl n' q) as [H1 H2]. split; [done|]. intros k x Hk [Hh|(i & Hi & _)]; [by apply H2|lia].
Qed.
Lemma start_work : Z.of_nat (work (pull_start srcs) phase_start) <= 4 * K * Z.of_nat N + 1.
Proof using All.
  pose proof K_big. unfold work. cbn [pull_stopped pull_start].
  enough (∀ l : list phase, Forall (λ x, weight x ≤ 4 * Z.to_nat K)%nat l → (sum_list_with weight l <= length l * (4 * Z.to_nat K))%nat) as Hs.
  { specialize (Hs phase_start). unfold phase_start in Hs at 3. rewrite length_imap in Hs. pose proof (Hs ltac:(apply Forall_lookup; intros p x Hx;
      unfold phase_start in Hx; rewrite list_lookup_imap in Hx; destruct (old !! p); [|done]; injection Hx as <-; destruct (reads p); cbn; lia)). nia. }
  intros l. induction 1 as [|x l Hx _ IH]; cbn; lia.
Qed.
End writer.

(** ** Theorems *)

(** C11: xpn_rebuild_active_writer does what xpn_rebuild does.  When no process is on an
    old and on a new server, and every process is on one of them, a run of the
    processes ends, whatever the order in which they go on and in which the requests are
    received; when it cannot go on, every process has left its loop, so that nobody
    waits for ever, and the new servers have the files that xpn_rebuild gives them. *)
Theorem writer_new_layout d bs rl n n' old new srcs :
  0 < n < 2 ^ 30 → 0 < n' < 2 ^ 30 → 0 <= rl < n → 0 <= rl < n' → 0 < bs < 2 ^ 31 →
  (len d + bs) * (rl + 1) + 3 * (n + n') * bs < 2 ^ 61 →
  ranks_of old n → ranks_of new n' → length srcs = length old → length new = length old →
  (∀ p o q, old !! p = Some o → new !! p = Some q → o = -1 ↔ q ≠ -1) →
  (∀ p o, old !! p = Some o → o ≠ -1 →
    ∃ hdr, Z.of_nat (length hdr) = HEADER_SIZE ∧ srcs !! p = Some (Some (stored n rl bs d hdr o))) →
  ∃ to_old to_new, invert_ranks old = Some to_old ∧ invert_ranks new = Some to_new ∧
    ∀ k s, nsteps (pull bs rl n n' old new to_old srcs) k (pull_start srcs) s →
      Z.of_nat k <= 4 * (blocks bs d * (rl + 1) / n' + 2) * Z.of_nat (length old) + 1 ∧
      ((∀ s', ¬ pull bs rl n n' old new to_old srcs s s') →
        (∀ p, (p < length old)%nat → pull_pcs s !! p = Some P_left) ∧
        rebuild_copy bs rl n n' old new to_new srcs = Some (new_files new (pull_files s))).
Proof.
  intros Hn Hn' Hrl Hrl' Hbs Hsize Hold Hnew Hlen Hsame Hone Hsrc.
  destruct (invert_ranks_run old n ltac:(lia) Hold) as (to_old & Eo & Ho). destruct (invert_ranks_run new n' ltac:(lia) Hnew) as (to_new & En & Hnb).
  exists to_old, to_new. split; [done|]. split; [done|]. intros k s Hrun.
  assert ((len d + bs) * (rl + 1) + 3 * n' * bs < 2 ^ 61) as Hs1 by nia. assert ((len d + bs) * (rl + 1) + 3 * n * bs < 2 ^ 61) as Hs2 by nia.
  destruct (pull_run d bs rl n n' old new to_old srcs Hn Hn' Hrl Hrl' Hbs Hs1 Hold Hnew Ho Hlen Hsame Hsrc Hone k _ s _
    (start_inv d bs rl n n' old new to_old srcs Hn Hn' Hrl Hrl' Hbs Hs1 Hold Hnew Ho Hlen Hsame Hsrc Hone) Hrun) as (ph & HI & Hk).
  split.
  - pose proof (start_work d bs rl n n' old new to_old srcs Hn Hn' Hrl Hrl' Hbs Hs1 Hold Hnew Ho Hlen Hsame Hsrc Hone) as Hw.
    unfold K, total, slot in Hw. rewrite Z.add_0_r in Hw. lia.
  - intros Hno. destruct (pull_stuck d bs rl n n' old new to_old srcs Hn Hn' Hrl Hrl' Hbs Hs1 Hold Hnew Ho Hlen Hsame Hsrc Hone s ph HI Hno) as [Hl Hf].
    split; [done|]. erewrite rebuild_copy_run by done. f_equal. apply list_eq_same_length with (n := length new); [|by rewrite length_fmap|].
    + unfold new_files. rewrite length_zip_with, (pi_files _ _ _ _ _ _ _ _ _ _ HI). lia.
    + intros p x y Hp Hx Hy. rewrite list_lookup_fmap in Hx. apply lookup_zip_with_Some in Hy as (q & f & -> & Hq & Hpf). rewrite Hq in Hx. injection Hx as <-.
      destruct (q =? -1) eqn:Eq; [done|]. apply Z.eqb_neq in Eq. rewrite (Hf p q Hq Eq) in Hpf. by injection Hpf as ->.
Qed.

(** The files of [old_files] on two processes, which three others ask. *)
Definition apart_old : list Z := [1; 0; -1; -1; -1].
Definition apart_new : list Z := [-1; -1; 0; 2; 1].
Definition apart_files : list (option (list ascii)) := [Some (stored 2 1 4 hello zeros 1); Some (stored 2 1 4 hello zeros 0); None; None; None].
Lemma apart_ranks : ranks_of apart_old 2 ∧ ranks_of apart_new 3.
Proof.
  split; split.
  1, 4: by intros [|[|[|[|[|k]]]]] r; cbn; intros E; try injection E as <-; (done || lia).
  1, 3: by intros [|[|[|[|[|k]]]]] [|[|[|[|[|k']]]]] r; cbn; intros E1 E2 Hr; try injection E1 as <-; (done || lia).
  - intros r Hr. assert (r = 0 ∨ r = 1) as [-> | ->] by lia; [by exists 1%nat|by exists 0%nat].
  - intros r Hr. assert (r = 0 ∨ r = 1 ∨ r = 2) as [-> | [-> | ->]] by lia; [by exists 2%nat|by exists 4%nat|by exists 3%nat].
Qed.
Lemma writer_new_layout_witness :
  ∃ to_old to_new, invert_ranks apart_old = Some to_old ∧ invert_ranks apart_new = Some to_new ∧
    ∀ k s, nsteps (pull 4 1 2 3 apart_old apart_new to_old apart_files) k (pull_start apart_files) s →
      Z.of_nat k <= 81 ∧
      ((∀ s', ¬ pull 4 1 2 3 apart_old apart_new to_old apart_files s s') →
        (∀ p, (p < 5)%nat → pull_pcs s !! p = Some P_left) ∧
        rebuild_copy 4 1 2 3 apart_old apart_new to_new apart_files = Some (new_files apart_new (pull_files s))).
Proof.
  apply (writer_new_layout hello 4 1 2 3 apart_old apart_new apart_files); try lia; try reflexivity; [apply apart_ranks|apply apart_ranks| |].
  - by intros [|[|[|[|[|p]]]]] o q; cbn; intros E1 E2; try injection E1 as <-; try injection E2 as <-; (done || lia).
  - intros [|[|[|[|[|p]]]]] o; cbn; intros E Ho; try injection E as <-; try done; by exists zeros.
Defined.

(** When every process is on an old server, nothing ever happens: all of them wait for
    a request. *)
Lemma writer_deadlock bs rl n n' old new to_old srcs :
  (0 < length srcs)%nat → (∀ p, (p < length srcs)%nat → reads old p = true) → ∀ s', ¬ pull bs rl n n' old new to_old srcs (pull_start srcs) s'.
Proof.
  intros H0 Hr s' H. assert (∀ p pc, pull_pcs (pull_start srcs) !! p = Some pc → pc = P_top 0 ∧ reads old p = true) as Hpc.
  { intros p pc Hp. cbn in Hp. rewrite list_lookup_fmap in Hp. destruct (srcs !! p) eqn:E; [|done]. injection Hp as <-. apply lookup_lt_Some in E. by auto. }
  inversion H as [s p src off rest off_dest f Hp _ Hq|s p src rest off_dest Hp _ Hq|s p pc off_dest Hp Hm|
    s p pc off_dest q off Hp Hm|s p off_dest q buf rest f Hp|s p off_dest q rest Hp|s Hs Hmp]; subst.
  1, 2: done.
  1, 2: by destruct (Hpc p pc Hp) as [-> Hrp]; cbn in Hm; rewrite Hrp in Hm.
  1, 2: by destruct (Hpc p _ Hp).
  by destruct (Hpc _ _ Hmp).
Qed.
