(* ===== verification/ReaderSpec.v ===== *)
(** * ReaderSpec: what the active programs share, and what the reader may lose

    The loops that remove duplicates make the ranks of the processes usable; the
    processes follow the master through every directory; and the message that stops
    the new servers may overtake a block in xpn_rebuild_active_reader. *)

From stdpp Require Import relations.
From S2P Require Import Prelude Cstr Layout MemFs Migrate MigrateSpec Rebuild RebuildSpec Shrink Active.

(** ** Ranks without duplicates *)

(** The list after the first [m] turns of the loop. *)
Record without (L : list Z) (m : nat) (l : list Z) : Prop := {
  wd_len : length l = length L;
  wd_old k r : l !! k = Some r → r = -1 ∨ L !! k = Some r;
  wd_inj i j r : (i < m)%nat → (i < j)%nat → l !! i = Some r → l !! j = Some r → r = -1;
  wd_all r : r ∈ L → r ∈ l }.
Lemma turn_lookup l i k : imap (λ j y, if (i <? j)%nat && negb (y =? -1) && bool_decide (l !! i = Some y) then -1 else y) l !! k =
  (λ y, if decide ((i < k)%nat ∧ y ≠ -1 ∧ l !! i = Some y) then -1 else y) <$> l !! k.
Proof.
  rewrite list_lookup_imap. destruct (l !! k) as [y|]; cbn [fmap option_fmap option_map]; [|done]. f_equal.
  destruct (decide (_ ∧ _)) as [(H1 & H2 & H3)|Hn].
  - rewrite (proj2 (Nat.ltb_lt i k)), (proj2 (Z.eqb_neq y (-1))), bool_decide_true by done. done.
  - destruct (_ && _) eqn:E; [|done]. apply andb_true_iff in E as [[H1 H2]%andb_true_iff H3]. exfalso. apply Hn.
    apply Nat.ltb_lt in H1. apply negb_true_iff, Z.eqb_neq in H2. by apply bool_decide_eq_true_1 in H3.
Qed.
Lemma without_turn L m l : without L m l →
  without L (S m) (imap (λ j y, if (m <? j)%nat && negb (y =? -1) && bool_decide (l !! m = Some y) then -1 else y) l).
Proof.
  intros [H1 H2 H3 H4]. split.
  - by rewrite length_imap.
  - intros k r. rewrite turn_lookup. destruct (l !! k) as [y|] eqn:E; [|done]. intros [= <-]. destruct (decide _); [by left|by apply H2].
  - intros i j r Hi Hij. rewrite !turn_lookup. destruct (l !! i) as [y|] eqn:Ei; [|done]. destruct (l !! j) as [z|] eqn:Ej; [|done].
    intros [= <-] [= E]. destruct (decide ((m < i)%nat ∧ _)) as [|_]; [done|]. destruct (decide ((m < j)%nat ∧ _)) as [|Hn]; [done|]. subst z.
    destruct (decide (i = m)) as [->|Hne]; [|by apply (H3 i j); [lia|..]]. destruct (decide (y = -1)); [done|]. by destruct Hn.
  - intros r Hr%H4. destruct (decide (r = -1)) as [->|Hr1].
    + apply list_elem_of_lookup in Hr as [k Hk]. apply list_elem_of_lookup. exists k. rewrite turn_lookup, Hk. cbn. by destruct (decide _).
    + destruct (decide (l !! m = Some r)) as [Hm|Hm].
      * apply list_elem_of_lookup. exists m. rewrite turn_lookup, Hm. cbn. rewrite decide_False by lia. done.
      * apply list_elem_of_lookup in Hr as [k Hk]. apply list_elem_of_lookup. exists k. rewrite turn_lookup, Hk. cbn. by rewrite decide_False by naive_solver.
Qed.
Lemma remove_duplicates_without L : without L (length L) (remove_duplicates L).
Proof.
  unfold remove_duplicates. assert (∀ m, without L m (foldl (λ l i, imap (λ j y, if (i <? j)%nat && negb (y =? -1) && bool_decide (l !! i = Some y) then -1 else y) l) L (seq 0 m))) as H; [|done].
  induction m as [|m IH].
  - split; [done|by right|lia|done].
  - rewrite seq_S, foldl_app. cbn [plus foldl]. by apply without_turn.
Qed.
(** When every server has a process, the ranks that are left give it one. *)
Lemma remove_duplicates_ranks L n : (∀ r, r ∈ L → r = -1 ∨ 0 <= r < n) → (∀ r, 0 <= r < n → r ∈ L) → ranks_of (remove_duplicates L) n.
Proof.
  intros Hin Hon. destruct (remove_duplicates_without L) as [H1 H2 H3 H4]. split.
  - intros k r Hk. destruct (H2 k r Hk) as [|Hk']; [by left|]. apply Hin. by eapply list_elem_of_lookup_2.
  - intros k k' r Hk Hk' Hr. destruct (decide (k < k')%nat); [|destruct (decide (k' < k)%nat); [|lia]]; exfalso; apply Hr.
    + apply (H3 k k'); try done. apply lookup_lt_Some in Hk. lia.
    + apply (H3 k' k); try done. apply lookup_lt_Some in Hk'. lia.
  - intros r Hr. by apply list_elem_of_lookup, H4, Hon.
Qed.
Lemma ranks_of_reverse L n : ranks_of L n → ranks_of (reverse L) n.
Proof.
  intros [H1 H2 H3]. split.
  - intros k r [Hk _]%reverse_lookup_Some. by eapply H1.
  - intros k k' r [Hk Hl]%reverse_lookup_Some [Hk' Hl']%reverse_lookup_Some Hne. pose proof (H2 _ _ r Hk Hk' Hne). lia.
  - intros r Hr. destruct (H3 r Hr) as [k Hk]. apply lookup_lt_Some in Hk as Hl. exists (length L - S k)%nat. apply reverse_lookup_Some.
    split; [|lia]. rewrite <- Hk. f_equal. lia.
Qed.
Lemma remove_duplicates_old_ranks L n : (∀ r, r ∈ L → r = -1 ∨ 0 <= r < n) → (∀ r, 0 <= r < n → r ∈ L) → ranks_of (remove_duplicates_old L) n.
Proof.
  intros Hin Hon. apply ranks_of_reverse, remove_duplicates_ranks; intros r Hr.
  - apply Hin. by apply elem_of_reverse.
  - apply elem_of_reverse. by apply Hon.
Qed.

(** ** Directories *)

(** The entries that are copied. *)
Definition copied (l : list collective) : list (cstr * bool) := omap (λ c, match c with C_copy path f => Some (path, f) | _ => None end) l.
Lemma copied_app l l' : copied (l ++ l') = copied l ++ copied l'.
Proof. apply omap_app. Qed.
Lemma list_follower_run : ∀ t dir tail fuel, is_file t = false → (length (list_master dir t) <= fuel)%nat →
  list_follower fuel (list_master dir t ++ tail) = Some (copied (list_master dir t), tail).
Proof.
  fix IH 1. intros [|l] dir tail fuel Ht; [done|]. clear Ht. revert tail fuel. induction l as [|[name e] l IHl]; intros tail [|fuel]; [cbn; lia|done|cbn; lia|].
  rewrite list_dir_cons. specialize (IH e (list_path dir name)). set (path := list_path dir name) in *. clearbody path.
  cbn [app length list_follower]. rewrite bool_decide_true by done. destruct (is_file e) eqn:Ee.
  - intros Hf. cbn [app mbind option_bind]. cbn [app length] in Hf. rewrite (IHl tail) by lia. done.
  - rewrite length_app. intros Hf. rewrite <- (assoc_L (++)), IH by (done || lia). cbn [mbind option_bind]. rewrite (IHl tail) by lia.
    cbn [mbind option_bind]. rewrite <- copied_app. done.
Qed.
(** Unlike those of xpn_rebuild, the processes of the active programs stay together in
    every tree of directories: they copy what the master copies, in the same order,
    and nothing is left of what it does. *)
Lemma followers_stay_together dir t fuel : is_file t = false → (length (list_master dir t) <= fuel)%nat →
  list_follower fuel (list_master dir t) = Some (copied (list_master dir t), []).
Proof. intros Ht Hf. rewrite <- (app_nil_r (list_master dir t)) at 1. by apply list_follower_run. Qed.

(** ** A block that is lost *)

Section two.
(** Two blocks, on two old servers, which the processes 0 and 1 run on; the process 2
    runs on the only new one. *)
Context (d : list ascii) (bs : Z) (Hbs : 0 < bs < 2 ^ 31) (Hd : bs < len d <= 2 * bs).
Definition two_old : list Z := [0; 1; -1].
Definition two_new : list Z := [-1; -1; 0].
Definition two_srcs : list (option (list ascii)) := [Some (stored 2 0 bs d zeros 0); Some (stored 2 0 bs d zeros 1); None].
Definition two_to_new : list Z := [2; -1; -1].
Abbreviation push := (push bs 0 2 1 two_old two_new two_to_new two_srcs).

Lemma two_blocks : blocks bs d = 2.
Proof using All. unfold blocks. replace (len d + bs - 1) with (1 * bs + (len d - 1)) by lia. rewrite Z.div_add_l by lia. enough ((len d - 1) / bs = 1) by lia.
  symmetry. apply (Z.div_unique_pos _ _ 1 (len d - 1 - bs)); lia. Qed.
Lemma two_read p r f : two_srcs !! p = Some (Some f) → 0 <= r → two_old !! p = Some (Z.of_nat p) →
  read_at f (r * bs + HEADER_SIZE) bs = block bs d (r * 2 + Z.of_nat p).
Proof using All.
  intros E Hr Ho. assert (f = stored 2 0 bs d zeros (Z.of_nat p) ∧ 0 <= Z.of_nat p < 2) as [-> Hp] by (destruct p as [|[|p]]; [by injection E as <-..|by destruct p]).
  replace (r * bs) with ((r * 2 + Z.of_nat p) / 2 * bs) by (f_equal; rewrite Z.div_add_l, Z.div_small by lia; lia).
  rewrite (stored_read 2 0 bs d ltac:(lia) ltac:(lia) ltac:(lia) zeros eq_refl (Z.of_nat p)).
  - unfold slot_data. by rewrite Z.div_1_r.
  - lia.
  - lia.
  - rewrite Z.add_comm, Z.mod_add by lia. apply Z.mod_small. lia.
Qed.
Lemma two_destination p : two_old !! p = Some (Z.of_nat p) → destination bs 0 2 1 two_old two_to_new p 0 = Some (2%nat, Z.of_nat p * bs).
Proof using All.
  intros Ho. assert (0 <= Z.of_nat p < 2) as Hp by (destruct p as [|[|[|p]]]; cbn in Ho; (done || lia)). assert (0 <= Z.of_nat p * bs < 2 ^ 62) by nia.
  unfold destination. rewrite Ho. cbn [mbind option_bind].
  unfold other_place. rewrite (proj2 (Z.eqb_neq bs 0)) by lia. cbn [orb Z.eqb].
  destruct (slot_place bs 0 2 (Z.of_nat p)) as [_ E1]; [lia..|]. rewrite (Z.mod_small _ 2), (Z.div_small _ 2), Z.mul_0_l in E1 by lia. rewrite E1.
  destruct (slot_place bs 0 1 (Z.of_nat p)) as [E2 _]; [lia..|]. rewrite E2. rewrite Z.mod_1_r, Z.div_1_r. done.
Qed.
Lemma two_rest : read_at (stored 1 0 bs d zeros 0) (1 * bs + HEADER_SIZE) bs ≠ [].
Proof using All.
  pose proof (stored_read 1 0 bs d ltac:(lia) ltac:(lia) ltac:(lia) zeros eq_refl 0 1 ltac:(lia) ltac:(lia) eq_refl) as E. cbn [Z.div Z.mul] in E.
  rewrite Z.div_1_r in E. rewrite E. unfold slot_data. rewrite Z.div_1_r. apply block_nonempty; [lia|]. pose proof two_blocks. lia.
Qed.
Lemma two_block0 : block bs d 0 = take (Z.to_nat bs) d ∧ block bs d 0 ≠ [] ∧ block bs d 1 ≠ [] ∧ block bs d 2 = [] ∧ block bs d 3 = [].
Proof using All.
  pose proof two_blocks. split_and!; [done|apply block_nonempty; lia|apply block_nonempty; lia|apply block_empty; lia|apply block_empty; lia].
Qed.
(** A process of an old server sends its block and leaves. *)
Lemma two_sends p f s : two_srcs !! p = Some (Some f) → two_old !! p = Some (Z.of_nat p) → push_pcs s !! p = Some (S_top 0) →
  rtc push s (Push (<[p := S_left]> (push_pcs s)) (<[(p, 2%nat) := sent s (p, 2%nat) ++ [Block (Z.of_nat p * bs) (block bs d (Z.of_nat p))]]> (blocks_sent s))
    (push_files s) (push_stopped s)).
Proof using All.
  intros Hf Ho Hp. destruct two_block0 as (_ & Hb0 & Hb1 & Hb2 & Hb3). assert (p = 0%nat ∨ p = 1%nat) as Hp01 by (destruct p as [|[|[|p]]]; cbn in Ho; naive_solver lia).
  assert (reads two_old p = true ∧ writes two_new p = false) as [Hr Hw] by (by destruct Hp01 as [-> | ->]).
  assert (0 ⊕ HEADER_SIZE = 0 * bs + HEADER_SIZE) as E0 by (rewrite Z.mul_0_l; by vm_compute).
  assert (0 ⊕ bs = bs) as E1 by (apply i64_id; lia). assert (bs ⊕ HEADER_SIZE = 1 * bs + HEADER_SIZE) as E2 by (rewrite i64_id; unfold HEADER_SIZE; lia).
  assert (length (push_pcs s) > p)%nat as Hlen by (by apply lookup_lt_Some in Hp).
  pose proof (two_read p 0 f Hf ltac:(lia) Ho) as R0. pose proof (two_read p 1 f Hf ltac:(lia) Ho) as R1. rewrite <- E0 in R0. rewrite <- E2 in R1.
  eapply rtc_l.
  { eapply (push_send _ _ _ _ _ _ _ _ s p 0 f); [done|done|done|rewrite E0; unfold HEADER_SIZE; lia|rewrite R0; by destruct Hp01 as [-> | ->]|by apply two_destination]. }
  eapply rtc_l.
  { eapply (push_skip _ _ _ _ _ _ _ _ _ p (S_recv 0) 0); [cbn; by rewrite list_lookup_insert_eq by lia|done|done]. }
  eapply rtc_l.
  { eapply (push_end _ _ _ _ _ _ _ _ _ p (0 ⊕ bs) f); [|done|done|rewrite E1, E2; unfold HEADER_SIZE; lia|rewrite E1, R1; by destruct Hp01 as [-> | ->]].
    cbn. rewrite list_lookup_insert_eq; [done|rewrite length_insert; lia]. }
  cbn [push_pcs blocks_sent push_files push_stopped]. rewrite R0, !list_insert_insert_eq. apply rtc_refl.
Qed.
End two.

(** C36: xpn_rebuild_active_reader may lose a block when there are two old servers.
    A file has a block on each of two servers, and goes to a third one.  Both blocks
    have been sent when the processes of the old servers meet at the barrier; the new
    server receives the one of the master, and the message that stops it, which comes
    from the master too, before the other block.  Nothing more can happen, and the
    new server has the first block only, which is not the file that it should have. *)
Theorem reader_loses_block d bs : 0 < bs < 2 ^ 31 → bs < len d <= 2 * bs →
  ∃ s, rtc (push bs 0 2 1 two_old two_new two_to_new (two_srcs d bs)) (push_start (two_srcs d bs)) s ∧
    (∀ s', ¬ push bs 0 2 1 two_old two_new two_to_new (two_srcs d bs) s s') ∧
    push_pcs s = [S_left; S_left; S_left] ∧ new_files two_new (push_files s) = [None; None; Some (zeros ++ take (Z.to_nat bs) d)] ∧
    stored 1 0 bs d zeros 0 ≠ zeros ++ take (Z.to_nat bs) d.
Proof.
  intros Hbs Hd. destruct (two_block0 d bs Hbs Hd) as (E0 & Hb0 & _). eexists. split; [|split; [|split; [|split]]].
  - etrans; [by eapply (two_sends d bs Hbs Hd 0)|]. etrans; [by eapply (two_sends d bs Hbs Hd 1)|].
    eapply rtc_l; [by apply push_stop; [| |intros _ [|[|[|p]]] pc Hp Hr; cbn in Hp; try by injection Hp as <-]|].
    eapply rtc_l; [eapply (push_write _ _ _ _ _ _ _ _ _ 0 2 (S_top 0) 0 0 (block bs d 0)); (reflexivity || done)|].
    eapply rtc_l; [eapply (push_quit _ _ _ _ _ _ _ _ _ 0 2 (S_top (0 ⊕ bs)) (0 ⊕ bs)); reflexivity|]. apply rtc_refl.
  - intros s' H. inversion H as [s p|s p|s p pc off Hp Hm|s src p pc off dst buf rest f Hp Hm|s src p pc off rest Hp Hm|s Hs]; subst.
    1, 2: by destruct p as [|[|[|p]]].
    1, 2, 3: by destruct p as [|[|[|p]]]; cbn in Hp; try injection Hp as <-.
    done.
  - done.
  - rewrite <- E0, <- (write_at_end zeros (0 ⊕ HEADER_SIZE)) by (by vm_compute). done.
  - intros E. apply (two_rest d bs Hbs Hd). rewrite E. unfold read_at. rewrite drop_ge; [by rewrite take_nil|].
    rewrite length_app, length_take. unfold zeros. rewrite length_replicate. unfold HEADER_SIZE. lia.
Qed.
(** Seven bytes in blocks of four. *)
Definition seven : list ascii := str "abcdefg".
Lemma reader_loses_block_witness :
  ∃ s, rtc (push 4 0 2 1 two_old two_new two_to_new (two_srcs seven 4)) (push_start (two_srcs seven 4)) s ∧
    (∀ s', ¬ push 4 0 2 1 two_old two_new two_to_new (two_srcs seven 4) s s') ∧
    push_pcs s = [S_left; S_left; S_left] ∧ new_files two_new (push_files s) = [None; None; Some (zeros ++ str "abcd")] ∧
    stored 1 0 4 seven zeros 0 ≠ zeros ++ str "abcd".
Proof. apply (reader_loses_block seven 4); by vm_compute. Defined.
