(* ===== verification/Fuse.v ===== *)
(** * Fuse: Expand as a file system of the machine

    src/src/connector_fuse/fuse-expand.c: the operations that FUSE asks for, by calls
    of the Expand library.  FUSE itself, and the options that it parses, are not
    modelled. *)

From S2P Require Import Prelude Cstr Paths Url Mdata Nfi Client MemFs FileTable Blocks Rw Dir Conf Init Unistd FileSystem Server Remote Proxy.

Definition ENOSYS : Z := 38.
Definition xpn_partition_option : cstr := str "xpnpart=/".
(** An option of the command line, and the prefix of the configuration. *)
Definition expand_opt_proc (xpn_partition_prefix : option cstr) (arg : cstr) : Z * option cstr :=
  let n := length xpn_partition_option in
  (1, if bool_decide (take n arg = xpn_partition_option) then
        let value := drop (n - 1) arg in
        if 1 <? strlen value then Some value else xpn_partition_prefix
      else xpn_partition_prefix).

Section fuse.
Context {W : Type} `{NO : !NfiOps W} `{NI : !NfiInit W} `{SY : !Sys}.
(** [conf.xpn_partition_prefix], and what [stat(".")] gives. *)
Context (prefix : cstr) (dot : xstat).
Abbreviation F A := (M (expand_server W) A) (only parsing).

Definition create_xpn_path (path : cstr) : cstr := prefix ++ path.
(** [res = -errno] when [res] is negative. *)
Definition neg_errno (res : Z) : F Z :=
  if res <? 0 then s ← get; mret (i32 (- errno (cl_env (es_client s)))) else mret res.
(** The operations whose result is that of the call, or minus its error. *)
Definition by_call (m : prog W Z) : F Z := res ← on_client m; neg_errno (i32 res).

(** *** Attributes *)

Definition expand_fgetattr (path : cstr) : F (Z * xstat) :=
  '(res, st) ← on_client (xpn_stat (Some (create_xpn_path path)) false);
  let stbuf := default xstat_zero st in
  if (res : Z) <? 0 then r ← neg_errno res; mret (r, stbuf) else mret (0, stbuf).
Definition expand_getattr (path : cstr) : F (Z * xstat) :=
  '(res, st) ← on_client (xpn_stat (Some (create_xpn_path path)) false);
  let stbuf := default dot st in
  if (res : Z) <? 0 then r ← neg_errno res; mret (r, stbuf)
  else
    let size := if S_ISDIR (x_mode stbuf) then 4096 else x_size stbuf in
    mret (0, XStat (x_dev stbuf) (x_ino stbuf) (x_mode stbuf) (x_nlink stbuf) (x_uid stbuf) (x_gid stbuf)
               size (x_blocks stbuf) (x_atime stbuf) (x_atime stbuf) (x_atime stbuf)).

(** *** Files: [fh] is the member of [struct fuse_file_info] *)

(** The size is not used; the descriptor of the new file stays open. *)
Definition expand_truncate (path : cstr) (size : Z) : F Z :=
  on_client (xpn_unlink (Some (create_xpn_path path)));;
  res ← on_client (xpn_creat (Some (create_xpn_path path)) 511);
  if (res : Z) <? 0 then neg_errno res else mret 0.
Definition expand_open (path : cstr) (flags : Z) : F (Z * Z) :=
  res ← on_client (xpn_open (Some (create_xpn_path path)) flags None);
  r ← neg_errno res; mret (r, u64 res).
Definition expand_create (path : cstr) (mode : Z) : F (Z * Z) :=
  res ← on_client (xpn_creat (Some (create_xpn_path path)) mode);
  r ← neg_errno res; mret (r, u64 res).
Definition expand_release (fh : Z) : F Z := by_call (xpn_close (i32 fh)).
Definition expand_unlink (path : cstr) : F Z := by_call (xpn_unlink (Some (create_xpn_path path))).
(** The result is the size that was asked for, whatever was transferred. *)
Definition expand_read (buf : ptr) (size offset fh : Z) : F Z :=
  res ← on_client (xpn_pread (i32 fh) buf size offset);
  if i32 res <? 0 then neg_errno (i32 res) else mret (i32 size).
Definition expand_write (buf : ptr) (size offset fh : Z) : F Z :=
  res ← on_client (xpn_pwrite (i32 fh) buf size offset);
  if i32 res <? 0 then neg_errno (i32 res) else mret (i32 size).

(** *** Directories: [fh] is a pointer *)

Definition expand_opendir (path : cstr) : F (Z * Z) :=
  dirp ← PROXY_XPN_OPENDIR (create_xpn_path path);
  match dirp with
  | None => s ← get; mret (i32 (- errno (cl_env (es_client s))), 0)
  | Some (p, _) => mret (0, p)
  end.
(** The names that [filler] is called with. *)
Fixpoint readdir_names (fuel : nat) (fh : Z) : F (list cstr) :=
  match fuel with
  | O => fault
  | S fuel =>
    dp ← PROXY_XPN_READDIR fh;
    match dp with
    | None => mret []
    | Some e => l ← readdir_names fuel fh; mret (d_name e :: l)
    end
  end.
Definition expand_readdir (fuel : nat) (fh : Z) : F (Z * list cstr) := l ← readdir_names fuel fh; mret (0, l).
Definition expand_releasedir (fh : Z) : F Z := res ← PROXY_XPN_CLOSEDIR fh; neg_errno res.
Definition expand_mkdir (path : cstr) (mode : Z) : F Z := by_call (xpn_mkdir (Some (create_xpn_path path)) mode).
Definition expand_rmdir (path : cstr) : F Z := by_call (xpn_rmdir (Some (create_xpn_path path))).

(** *** The rest *)

Definition expand_mknod (path : cstr) (mode : Z) : F Z :=
  if S_ISREG mode then
    res ← on_client (xpn_creat (Some (create_xpn_path path)) mode);
    if (res : Z) <? 0 then neg_errno res else on_client (xpn_close res);; mret 0
  else mret (- ENOSYS).
(** The process ends before [xpn_init] when there is no prefix; the result is the new
    [xpn_initialize], since what the call returns is not looked at. *)
Definition expand_init (initialized : bool) (conf : option conf_file_data) : F bool :=
  '(_, initialized) ← on_client (xpn_init initialized conf); mret initialized.
Definition expand_destroy (initialized : bool) : F bool :=
  '(_, initialized) ← on_client (xpn_destroy initialized); mret initialized.
Definition expand_chmod : F Z := mret (- ENOSYS).
Definition expand_chown : F Z := mret (- ENOSYS).
Definition expand_ftruncate : F Z := mret (- ENOSYS).
Definition expand_utimens : F Z := mret (- ENOSYS).
Definition expand_rename : F Z := mret (- ENOSYS).
Definition expand_fsync : F Z := mret (- ENOSYS).
Definition expand_flush : F Z := mret (- ENOSYS).
Definition expand_statfs : F Z := mret (- ENOSYS).
Definition expand_access : F Z := mret (- ENOSYS).
End fuse.
