(* ===== verification/FuseSpec.v ===== *)
(** * FuseSpec: what is written through FUSE is read through FUSE *)

From S2P Require Import Prelude Cstr Paths Layout Mdata Nfi Client MemFs FileTable Blocks Rw BlocksSpec Store Coverage Affected Reading Dir Servers Bytes Transfer WriteSpec ReadSpec EndToEnd Conf Init Unistd Proxy Fuse.

Section fuse.
Context {W : Type} {NO : NfiOps W} {NS : NfiStore W} {NB : NfiBytes W} `{NI : !NfiInit W} `{SY : !Sys}.
Context (prefix : cstr) (dot : xstat).

Lemma expand_write_run s c' fd buf size offset :
  0 <= fd < 2 ^ 31 → 0 <= size < 2 ^ 31 → xpn_pwrite fd buf size offset (es_client s) = Some (size, c') →
  expand_write buf size offset fd s = Some (size, ExpandServer c' (es_dirs s)).
Proof.
  intros Hfd Hs E. unfold expand_write, on_client. rewrite (i32_id fd) by lia. unfold mbind, M_bind. rewrite E.
  rewrite (i32_id size), (proj2 (Z.ltb_ge size 0)) by lia. done.
Qed.
Lemma expand_read_run s c' fd buf size offset :
  0 <= fd < 2 ^ 31 → 0 <= size < 2 ^ 31 → xpn_pread fd buf size offset (es_client s) = Some (size, c') →
  expand_read buf size offset fd s = Some (size, ExpandServer c' (es_dirs s)).
Proof.
  intros Hfd Hs E. unfold expand_read, on_client. rewrite (i32_id fd) by lia. unfold mbind, M_bind. rewrite E.
  rewrite (i32_id size), (proj2 (Z.ltb_ge size 0)) by lia. done.
Qed.
End fuse.

(** C12: through the connector, a read gives what a write put at the same offset.  On
    a file that is open for both, a write of [size] bytes at [offset], and a read of
    as many there to another buffer, succeed, report [size], and leave the data in
    the second buffer; the offset is an argument, not that of the descriptor, and
    the servers may be out as long as each byte has a replica on one that works. *)
Theorem fuse_write_then_read {W : Type} {NO : NfiOps W} {NS : NfiStore W} {NB : NfiBytes W} `{SY : !Sys}
    (s : expand_server W) fd d part hs size offset buf rbuf data mm :
  let m := fd_mdata d in
  let c := es_client s in
  (∀ z, 0 <= (sys_rand z).1) → ready c fd d part hs → 0 <= fd < 2 ^ 31 →
  0 < size < 2 ^ 31 - 2 → 0 <= offset → (offset + 2 * size + block_size m) * (replication_level m + 1) < 2 ^ 61 →
  (size + 2) * (replication_level m + 1) < 2 ^ 31 → 0 <= fd_offset d → fd_offset d + 2 * size < 2 ^ 62 →
  mem_read (mem (cl_env c)) buf size = Some data → mem_write (mem (cl_env c)) rbuf data = Some mm →
  (∀ t, 0 <= t < size → ∃ j, 0 <= j <= replication_level m ∧ live m 1 (data_serv part) (offset + t) j) →
  ∃ s1 s2, expand_write buf size offset fd s = Some (size, s1) ∧ expand_read rbuf size offset fd s1 = Some (size, s2) ∧
    mem (cl_env (es_client s2)) = mm.
Proof.
  intros m c Hrand HR Hfd Hsz Hoff Hbd Hroom Ho Hob Hdata Hmw Hlive.
  destruct (pwrite_run c fd d part hs size offset buf data HR) as (l & e & E & HR1 & Hm & Hl & Hst); try done || (fold m; lia).
  set (d1 := file_at d _ _) in *. set (c1 := with_env e _) in *. set (part1 := set_serv l part) in *. fold m in Hst.
  assert (Z.of_nat (length data) = size) as Hlen by (by apply mem_read_inv in Hdata as (_ & _ & _ & _ & _ & _ & ->)).
  assert (mem_write (mem (cl_env c1)) rbuf data = Some mm) as Hmw1 by (unfold c1; cbn; by rewrite Hm).
  destruct (pread_run Hrand c1 fd d1 part1 hs size offset rbuf data mm HR1) as (c2 & E2 & l2 & e2 & z & Ec & _ & _ & Hm2 & _); try done.
  - cbn. lia.
  - cbn. lia.
  - intros t b Ht. by apply (sto_new _ _ _ _ _ _ _ _ Hst).
  - intros t Ht. destruct (Hlive t Ht) as (j & Hj & Hlv). exists j. split; [done|]. by apply (live_servers _ (data_serv part)).
  - eexists _, _. split; [by apply expand_write_run; [lia|lia|exact E]|]. split; [by apply expand_read_run; [lia|lia|exact E2]|].
    rewrite Hmw1 in Hm2. injection Hm2 as ->. by rewrite Ec.
Qed.

(** Six bytes from byte 3 on, with a copy of each block and the last server out. *)
Lemma fuse_write_then_read_witness : ∃ s1 s2,
  expand_write (1%nat, 0) 6 3 0 (ExpandServer (client_rw 1 [] down3) []) = Some (6, s1) ∧
  expand_read (2%nat, 0) 6 3 0 s1 = Some (6, s2) ∧
  mem (cl_env (es_client s2)) !! 2%nat = Some (str "abcdef" ++ replicate 6 NUL).
Proof.
  destruct (fuse_write_then_read (ExpandServer (client_rw 1 [] down3) []) 0 (desc_rw 1) (set_serv down3 (mpart 1)) hs_rw 6 3 (1%nat, 0) (2%nat, 0)
    (str "abcdef") (<[2%nat := str "abcdef" ++ replicate 6 NUL]> (mem (cl_env (client_rw 1 [] down3))))) as (s1 & s2 & E1 & E2 & Hm);
    [exact sample_rand|by apply client_rw_ready; [right|]|lia|lia|lia|zcalc|zcalc|zcalc|zcalc|reflexivity|reflexivity| |].
  - intros t Ht. assert (∃ t', t = Z.of_nat t' ∧ (t' < 6)%nat) as (t' & -> & Ht') by (exists (Z.to_nat t); lia). clear Ht.
    assert (∃ j, 0 <= j <= 1 ∧ ∃ sv, rdZ down3 (mloc (fd_mdata (desc_rw 1)) 1 (3 + Z.of_nat t') j).2 = Some sv ∧ srv_error sv ≠ -1) as (j & Hj & Hs).
    { do 6 (destruct t' as [|t']; [first [exists 0; split; [lia|]; vm_compute; eexists; split; [reflexivity|discriminate]
                                         |exists 1; split; [lia|]; vm_compute; eexists; split; [reflexivity|discriminate]]|]). lia. }
    exists j. split; [exact Hj|exact Hs].
  - exists s1, s2. split; [exact E1|]. split; [exact E2|]. rewrite Hm. reflexivity.
Defined.
